(* ===== verification/_CoqProject ===== *)
-Q . S2P
Prelude.v
PyFloat.v
FloatExact.v
PyVal.v
Json.v
Digest.v
Paths.v
Signatures.v
Codec.v
Protocol.v
ProtocolFacts.v
Storage.v
S3.v
StoreReads.v
Telemetry.v
Queue.v
QueueFacts.v
Transport.v
Discovery.v
Scheduler.v
Crypto.v
WalletCrypto.v
Emission.v
EmissionFacts.v
Ir.v
ComputeUnits.v
Tensors.v
TensorParallel.v
TensorParallelFacts.v
Mlp.v
RunManager.v
RunManagerFacts.v
RunManagerEnds.v
Streaming.v
StreamingFacts.v
StreamingWait.v
Eval.v
PipelineFit.v
PipeTasks.v
PipeDemo.v
PipeTrain.v
GptPipe.v
GptTrain.v
GptFacts.v
GptFits.v
AuditReplay.v
Executor.v
HonestJob.v
Worker.v
WorkerFacts.v
Distributed.v
Verifier.v
AuditJobs.v
Subnet.v
Neuron.v
Miner.v
