(* ===== verification/Prelude.v ===== *)
(** * Teuton: a verified model of the v3 training network

    Teuton trains a model on machines nobody trusts.  An orchestrator splits the
    training into jobs, miners execute them, validators replay a sample of them
    and pay for verified work.  The processes share nothing but a bucket: jobs,
    grants, receipts, audits, verdicts and scores are JSON documents and blobs
    below one key layout.  This library models that protocol and the programs
    that speak it, as executable definitions translated from the Python sources
    under [src/], and proves what makes them correct.

    ** The parts and the files that model them

    Foundations: [Prelude] (results and exceptions, the state monad [ST],
    dictionaries in insertion order, text, tactics), [PyFloat] and [FloatExact]
    (binary64), [PyVal] and [Json] (Python values as JSON carries them, the
    writer and the parser), [Digest] (SHA-256, HMAC, base64).

    - [Paths]: [teuton_core/paths.py], the key of every object.
    - [Signatures]: [teuton_core/signatures.py], canonical bytes and signers.
    - [Codec], [Protocol], [ProtocolFacts]: [teuton_core/protocol.py], the
      records on the wire; class [WireRecord] states the round trip of a record
      once and every record is an instance.
    - [Storage], [S3], [StoreReads]: [teuton_runtime/storage.py]; the class
      [ObjectStore] with its laws [ObjectStoreLaws] is the interface every other
      component is proved against, [LocalBucket] and [S3Bucket] are its instances.
    - [Queue], [QueueFacts]: [teuton_runtime/queue.py], the queue of outstanding
      work and its snapshot in the bucket.
    - [Transport]: [teuton_runtime/grants.py], [transport.py], [lifecycle.py].
    - [Discovery]: [teuton_runtime/discovery.py], heartbeats.
    - [Scheduler]: [teuton_orchestrator/scheduler.py], quota.
    - [Crypto], [WalletCrypto]: [teuton_runtime/crypto.py],
      [teuton_core/wallet_crypto.py] and [metagraph.py], sealed artifacts and
      sealed grants.
    - [Ir], [ComputeUnits], [Tensors], [Eval]: the tensor IR and its builder, the
      units of work of a graph, the tensor wire format, the evaluator.
    - [TensorParallel], [TensorParallelFacts]: [teuton_runtime/distributed_gpt.py],
      the programs of a group of devices that meet in collective operations.
    - [Mlp]: [teuton_tasks/__init__.py] and [mlp.py], a round task.
    - [Emission], [EmissionFacts]: what the managers that emit jobs share.
    - [RunManager], [RunManagerFacts], [RunManagerEnds]:
      [teuton_orchestrator/run_manager.py], the orchestrator of a round task.
    - [Telemetry]: [teuton_core/telemetry.py], the writer of telemetry.
    - [Streaming], [StreamingFacts], [StreamingWait]:
      [teuton_orchestrator/streaming.py], the orchestrator of a pipeline task.
    - [PipelineFit], [PipeTasks], [PipeDemo], [PipeTrain], [GptPipe], [GptTrain],
      [GptFacts], [GptFits]: [teuton_tasks/pipe_demo.py], [pipe_train.py] and
      [gpt_pipe.py], the pipeline tasks; the class [FittingTask] is what a task
      promises to the orchestrator, and every task is an instance.
    - [Executor], [HonestJob], [Worker], [WorkerFacts]: the miner,
      [teuton_runtime/executor.py] and [teuton_miner/worker.py].
    - [Distributed]: [teuton_runtime/distributed_executor.py], the executor of a
      group of devices; the worker is proved against the class [Executor] with its
      laws, and both executors are instances.
    - [Miner]: [teuton_miner/capabilities.py] and [neuron.py], the miner's process.
    - [AuditReplay], [Verifier], [AuditJobs], [Subnet], [Neuron]: the validator,
      [teuton_validator/audit.py], [verifier.py], [ledger.py], [audit_jobs.py],
      [subnet.py] and [neuron.py].

    A method [m] of class [C] is the definition [C_m], its object a record that
    is passed and returned; a record field keeps its name behind a short prefix.

    ** What the theorems show

    - Wire: a signed record read back from its JSON text is the record that was
      signed, under the same hash and signature ([ProtocolFacts], [Codec]).
    - Bucket: listings are exact after any operations ([Storage]), the store over
      S3 keeps the same promises ([S3]), run teardown removes exactly the run's
      objects ([Transport]).
    - Queue: the invariant, refinement of a map, what a flush publishes, conflict
      merging, restart and the unpublished add during a flush ([QueueFacts]).
    - Scheduling and discovery: quota is never exceeded, the choice of a worker
      is the documented one, discovery lists exactly the live heartbeats.
    - Secrets: envelopes open for the right key and for no other way, grants reach
      their recipient, presigned transports touch only granted addresses.
    - Numbers: compute units are the exact counts where these stay below 2^53;
      tensor blobs and shards round-trip.
    - Orchestrator: the dataflow of a step, the end of every run, the success of a
      wait whose outputs are delivered ([RunManagerFacts], [RunManagerEnds]); for
      a pipeline, the dataflow of an epoch and its backpressure ([StreamingFacts]),
      and that waiting for an epoch gives back its quota exactly once
      ([StreamingWait]).
    - Pipeline tasks: the jobs of a run read and write exactly what the graphs of
      its stages name, in the declared shapes, for every configuration
      ([PipeTrain], [GptFits]; [PipelineFit] carries it to the manifests of an
      epoch), and the graphs of the GPT pipeline are built exactly when their
      constants exist ([GptFits]).
    - Groups of devices: over matrices of any scalars with associative addition,
      every rank of a group of any size ends with what one device computes, and
      with what the auditor's replay on one rank computes; of the gradients, the
      input's is whole on every rank and the weights' are shared out
      ([TensorParallelFacts]); the receipts of a group are sound ([Distributed]).
    - Miner: only checked jobs are run, the loop stops, finished jobs stay
      finished over a restart ([WorkerFacts]).
    - Validator: an honest job passes its audit ([HonestJob]: miner and auditor
      composed), a verdict follows from the checks, ledgers and score windows add
      up, published weights are sound ([Verifier], [Subnet]); a pass emits an audit
      job for exactly the receipts that need one, and the auditor reads from it
      the receipt and manifest under audit ([AuditJobs]); a pass of the neuron
      reports what it verified and scored, and neither telemetry nor the chain
      can stop it ([Neuron]).

    ** Parameters and hypotheses

    Code outside [src/] is a parameter: the signature libraries ([SigLib], laws
    [SigLaws]), sealed boxes ([BoxLib]), torch ([Torch], [TorchLaws], [Kernels],
    [TensorOps] with matrices as an instance), the sampling of [random]
    ([Replayers]), fault injection's random source ([FaultLib]), the texts of
    exceptions ([ExnText]), [btcli], boto3 ([S3Client], laws [S3Service]), urllib,
    the timelock programs.  Their laws state documented behaviour; witnesses
    instantiate each of them.

    Time is a stream of readings: the n-th call of the clock answers [clock n].
    While a program sleeps the other processes change the bucket by an arbitrary
    function [env], and the queue's background thread may flush; between two
    sleeps a program's accesses to the bucket are not interleaved with others,
    except in the flush of the queue, whose pieces are separate definitions.

    ** Bounds and fuel

    Integers are unbounded as in Python; floats are binary64 with correct
    rounding.  The JSON parser takes the length of its input as fuel, which its
    round trip shows to be enough.  [MinerWorker_loop] needs at most
    [(|J| + 1) * limit + 1] turns for a job set [J] (theorem [worker_stops]).
    The loops of the run manager watch the clock; [run_loop_ends] shows that
    enough fuel gives a result no bound changes.

    [Unmodelled] marks inputs outside the model: a document whose field lacks
    its annotated type where the code does not convert it, and paths with dot
    segments.

    ** Not modelled

    The command line, dashboards and generated pages, benchmarks and scripts:
    drivers and HTML around the modelled parts.  The tensor kernels: calls into torch,
    class [Kernels].  Rounding in collective operations: the addition of binary64
    is not associative, so the floats of a group may differ from those of
    one device; the audit grants a tolerance.  [teuton_legacy_v2]: the protocol
    before this one.  Creation and joining of threads and processes. *)

From Stdlib Require Import ZArith Lia Ascii DecimalString DecimalZ.
From stdpp Require Import base gmap strings list sorting.

(** ** Exceptions and results *)

(** The Python exceptions the modelled code raises or catches.  Subclasses are
    folded into the class the code catches: [json.JSONDecodeError] and
    [UnicodeDecodeError] are [ValueError]s.  [Unmodelled] is not a Python
    exception: it marks an input outside the modelled domain (for instance a
    JSON document whose field has a type other than the annotated one), and no
    modelled [except] clause catches it.  Nor is [OutOfFuel], which a bounded
    loop of the model returns when its bound is used up. *)
Inductive exn : Type :=
  | ValueError (msg : string)
  | KeyError (msg : string)
  | TypeError (msg : string)
  | IndexError (msg : string)
  | AttributeError (msg : string)
  | AssertionError (msg : string)
  | RuntimeError (msg : string)
  | NotImplementedError (msg : string)
  | OverflowError (msg : string)
  | ZeroDivisionError (msg : string)
  | TimeoutError (msg : string)
  | FileNotFoundError (msg : string)
  | OSError (msg : string)
  | HTTPError (msg : string)
  | StructError (msg : string)
  | PreconditionFailed (msg : string)
  | ClientError (code : string) (status : option Z)
  | TimelockPending (msg : string)
  | StopIteration
  | Unmodelled
  | OutOfFuel.

#[export] Instance exn_eq_dec : EqDecision exn.
Proof. solve_decision. Defined.

(** Texts of exceptions: [str(e)], [repr(e)] and [type(e).__name__]. *)
Class ExnText := { exn_str : exn -> string; exn_repr : exn -> string; exn_type : exn -> string }.

Inductive result (A : Type) : Type :=
  | Ok (a : A)
  | Err (e : exn).
Arguments Ok {A} a.
Arguments Err {A} e.

#[export] Instance result_ret : MRet result := fun A a => Ok a.
#[export] Instance result_bind : MBind result := fun A B k r =>
  match r with Ok a => k a | Err e => Err e end.
#[export] Instance result_fmap : FMap result := fun A B f r =>
  match r with Ok a => Ok (f a) | Err e => Err e end.

Definition rmap {A B} (f : A -> B) (r : result A) : result B :=
  match r with Ok a => Ok (f a) | Err e => Err e end.

(** [except Exception:] catches every Python exception. *)
Definition catchable (e : exn) : bool :=
  match e with Unmodelled | OutOfFuel => false | _ => true end.

(** What is raised, if anything, is a Python exception. *)
Definition pythonic {A} (r : result A) : Prop :=
  match r with Ok _ => True | Err e => catchable e = true end.

Definition try_except {A} (r : result A) (handler : exn -> result A) : result A :=
  match r with
  | Ok a => Ok a
  | Err e => if catchable e then handler e else Err e
  end.

Definition of_option {A} (e : exn) (o : option A) : result A :=
  match o with Some a => Ok a | None => Err e end.

Definition is_ok {A} (r : result A) : bool :=
  match r with Ok _ => true | Err _ => false end.

(** [[f(x) for x in l]] when [f] may raise. *)
Fixpoint mapR {A B} (f : A -> result B) (l : list A) : result (list B) :=
  match l with
  | [] => Ok []
  | x :: xs => y ← f x; ys ← mapR f xs; Ok (y :: ys)
  end.

(** ** State passing with exceptions *)

(** A method that mutates a state and may raise: the state reached before the
    exception is kept, as in Python. *)
Definition ST (S A : Type) : Type := S -> S * result A.

#[export] Instance st_ret {S} : MRet (ST S) := fun A a s => (s, Ok a).
#[export] Instance st_bind {S} : MBind (ST S) := fun A B k m s =>
  match m s with
  | (s', Ok a) => k a s'
  | (s', Err e) => (s', Err e)
  end.

Definition st_get {S} : ST S S := fun s => (s, Ok s).
Definition st_put {S} (s' : S) : ST S unit := fun _ => (s', Ok tt).
Definition st_lift {S A} (r : result A) : ST S A := fun s => (s, r).
Definition st_raise {S A} (e : exn) : ST S A := fun s => (s, Err e).

Definition st_try {S A} (m : ST S A) (handler : exn -> ST S A) : ST S A := fun s =>
  match m s with
  | (s', Ok a) => (s', Ok a)
  | (s', Err e) => if catchable e then handler e s' else (s', Err e)
  end.

(** [try: m finally: cleanup]. *)
Definition st_finally {S A} (m : ST S A) (cleanup : ST S unit) : ST S A := fun s =>
  let '(s1, r) := m s in
  match cleanup s1 with
  | (s2, Ok _) => (s2, r)
  | (s2, Err e) => (s2, Err e)
  end.

(** [[f(x) for x in l]] and [all(f(x) for x in l)] over methods. *)
Fixpoint mapS {St A B} (f : A -> ST St B) (l : list A) : ST St (list B) :=
  match l with
  | [] => mret []
  | x :: l' => y ← f x; ys ← mapS f l'; mret (y :: ys)
  end.

Fixpoint allS {St A} (f : A -> ST St bool) (l : list A) : ST St bool :=
  match l with
  | [] => mret true
  | x :: l' => b ← f x; if (b : bool) then allS f l' else mret false
  end.

(** [range(n)]. *)
Definition py_range (n : Z) : list Z := map Z.of_nat (seq 0 (Z.to_nat n)).

(** ** Python dictionaries with string keys *)

(** A [dict] keeps its keys in insertion order; assigning to a present key
    keeps its position. *)
Notation dict V := (list (string * V)).

Fixpoint dict_get {V} (k : string) (d : dict V) : option V :=
  match d with
  | [] => None
  | (k', v) :: d' => if String.eqb k k' then Some v else dict_get k d'
  end.

Fixpoint dict_set {V} (k : string) (v : V) (d : dict V) : dict V :=
  match d with
  | [] => [(k, v)]
  | (k', v') :: d' =>
      if String.eqb k k' then (k', v) :: d' else (k', v') :: dict_set k v d'
  end.

Fixpoint dict_del {V} (k : string) (d : dict V) : dict V :=
  match d with
  | [] => []
  | (k', v') :: d' =>
      if String.eqb k k' then d' else (k', v') :: dict_del k d'
  end.

Definition dict_mem {V} (k : string) (d : dict V) : bool :=
  match dict_get k d with Some _ => true | None => false end.

Definition dict_keys {V} (d : dict V) : list string := map fst d.
Definition dict_values {V} (d : dict V) : list V := map snd d.

(** [d.setdefault(k, v)], for its effect on [d]. *)
Definition dict_setdefault {V} (k : string) (v : V) (d : dict V) : dict V :=
  if dict_mem k d then d else dict_set k v d.

(** [dict(pairs)] and [{**d, **pairs}]. *)
Definition dict_update {V} (d : dict V) (pairs : list (string * V)) : dict V :=
  fold_left (fun acc kv => dict_set kv.1 kv.2 acc) pairs d.

(** A string that may be missing or empty. *)
Definition given (o : option string) : option string :=
  match o with Some s => if String.eqb s "" then None else Some s | None => None end.

Definition dict_map {V W} (f : V -> W) (d : dict V) : dict W :=
  map (fun kv => (kv.1, f kv.2)) d.

(** ** Strings *)

(** Python text is represented by its UTF-8 encoding, so [s.encode("utf-8")] is
    the identity and [bytes] and [str] share the type [string]. *)

Definition py_str_int (z : Z) : string := NilZero.string_of_int (Z.to_int z).

(** [int(s)] on a decimal literal with an optional sign, surrounded by ASCII
    blanks. *)
Fixpoint startswith (p s : string) : bool :=
  match p, s with
  | EmptyString, _ => true
  | String a p', String b s' => Ascii.eqb a b && startswith p' s'
  | String _ _, EmptyString => false
  end.

Fixpoint str_drop (n : nat) (s : string) : string :=
  match n, s with
  | O, _ => s
  | S n', String _ s' => str_drop n' s'
  | S _, EmptyString => EmptyString
  end.

Fixpoint str_take (n : nat) (s : string) : string :=
  match n, s with
  | O, _ => EmptyString
  | S n', String a s' => String a (str_take n' s')
  | S _, EmptyString => EmptyString
  end.

Definition endswith (p s : string) : bool :=
  (String.length p <=? String.length s)%nat &&
  String.eqb (str_drop (String.length s - String.length p) s) p.

(** [s[:-n]]. *)
Definition str_drop_last (n : nat) (s : string) : string :=
  str_take (String.length s - n) s.

(** [s.removeprefix(p)]. *)
Definition removeprefix (p s : string) : string :=
  if startswith p s then str_drop (String.length p) s else s.

(** [p in s]. *)
Fixpoint str_contains (p s : string) : bool :=
  startswith p s ||
  match s with EmptyString => false | String _ s' => str_contains p s' end.

(** [s.split(sep, 1)] into two parts, if the separator occurs. *)
Fixpoint split_once (sep s : string) : option (string * string) :=
  if startswith sep s then Some (EmptyString, str_drop (String.length sep) s)
  else match s with
       | EmptyString => None
       | String c s' => match split_once sep s' with Some (a, b) => Some (String c a, b) | None => None end
       end.

(** [s.split(c)] for a one-character separator. *)
Fixpoint split_on (c : ascii) (s : string) : list string :=
  match s with
  | EmptyString => [EmptyString]
  | String a s' =>
      if Ascii.eqb a c then EmptyString :: split_on c s'
      else match split_on c s' with
           | [] => [String a EmptyString]
           | w :: ws => String a w :: ws
           end
  end.

(** [s.replace(a, b)] for one-character arguments. *)
Fixpoint replace_char (a b : ascii) (s : string) : string :=
  match s with
  | EmptyString => EmptyString
  | String x s' => String (if Ascii.eqb x a then b else x) (replace_char a b s')
  end.

Fixpoint str_forallb (p : ascii -> bool) (s : string) : bool :=
  match s with
  | EmptyString => true
  | String a s' => p a && str_forallb p s'
  end.

(** [sep.join(l)]. *)
Fixpoint str_join (sep : string) (l : list string) : string :=
  match l with
  | [] => EmptyString
  | [x] => x
  | x :: xs => x +:+ sep +:+ str_join sep xs
  end.

(** The characters of a name do not include [c]. *)
Definition lacks (c : ascii) (s : string) : bool :=
  str_forallb (fun x => negb (Ascii.eqb x c)) s.

Definition slash : ascii := "/"%char.

(** A path segment: no slash. *)
Definition segment (s : string) : bool := lacks slash s.

(** ** Sorting *)

(** Python's sort is stable; for a total preorder [le] it is insertion sort. *)
Fixpoint insert_by {A} (le : A -> A -> bool) (x : A) (l : list A) : list A :=
  match l with
  | [] => [x]
  | y :: ys => if le x y then x :: y :: ys else y :: insert_by le x ys
  end.

Definition sort_by {A} (le : A -> A -> bool) (l : list A) : list A :=
  foldr (insert_by le) [] l.

Definition sorted_strings (l : list string) : list string := sort_by String.leb l.

(** ** Tactics and hints *)

Create HintDb teuton.

(** Case analysis on the scrutinee of a match or test in the goal or in a
    hypothesis. *)
Ltac case_goal :=
  match goal with
  | |- context [match ?x with _ => _ end] =>
      lazymatch x with context [match _ with _ => _ end] => fail | _ => destruct x eqn:? end
  end.

Ltac case_hyp H :=
  match type of H with
  | context [match ?x with _ => _ end] =>
      lazymatch x with context [match _ with _ => _ end] => fail | _ => destruct x eqn:? end
  end.

(** Inversion of [Ok _ = Ok _] and friends. *)
Ltac inv_ok H := first [discriminate H | injection H as H; subst | injection H; clear H; intros; subst].

(** Turn boolean equations on strings into propositions. *)
Ltac eqb_prop :=
  repeat match goal with
  | H : String.eqb _ _ = true |- _ => apply String.eqb_eq in H
  | H : String.eqb _ _ = false |- _ => apply String.eqb_neq in H
  | H : Ascii.eqb _ _ = true |- _ => apply Ascii.eqb_eq in H
  | H : Ascii.eqb _ _ = false |- _ => apply Ascii.eqb_neq in H
  end.

(** ** Results *)

#[export] Instance Ok_inj {A} : Inj (=) (=) (@Ok A).
Proof. by intros x y [=]. Qed.

Lemma bind_Ok {A B} (r : result A) (k : A -> result B) b :
  (r ≫= k) = Ok b <-> exists a, r = Ok a /\ k a = Ok b.
Proof.
  destruct r as [a|e]; simpl; split; intros H.
  - exists a. auto.
  - destruct H as (a' & [= ->] & H). exact H.
  - discriminate.
  - destruct H as (a & [=] & _).
Qed.

(** The same for methods: the state between the two steps. *)
Lemma st_bind_Ok {S A B} (m : ST S A) (k : A -> ST S B) s s' b :
  (m ≫= k) s = (s', Ok b) -> exists s1 a, m s = (s1, Ok a) /\ k a s1 = (s', Ok b).
Proof. cbv [mbind st_bind]. destruct (m s) as [s1 [a|e]]; intros E; [by exists s1, a|done]. Qed.

Lemma st_lift_Ok {S A} (r : result A) (s s' : S) a : st_lift r s = (s', Ok a) -> s' = s /\ r = Ok a.
Proof. by intros [= <- <-]. Qed.

(** One step of a method that returned. *)
Ltac st_step H :=
  let s := fresh "s" in let x := fresh "x" in let E := fresh "E" in
  apply st_bind_Ok in H as (s & x & E & H);
  try (apply st_lift_Ok in E as [-> E]).

Lemma mapR_Ok_map {A B C} (f : A -> result B) (g : C -> A) (h : C -> B) (l : list C) :
  Forall (fun x => f (g x) = Ok (h x)) l -> mapR f (map g l) = Ok (map h l).
Proof. induction 1 as [|x l Hx _ IH]; simpl; [done|]. rewrite Hx; simpl. by rewrite IH. Qed.

Lemma mapR_Forall2 {A B} (f : A -> result B) l l' : mapR f l = Ok l' -> Forall2 (fun x y => f x = Ok y) l l'.
Proof.
  revert l'. induction l as [|x l IH]; intros l' Hm; cbn in Hm; [injection Hm as <-; constructor|].
  apply bind_Ok in Hm as (y & Hy & Hm). apply bind_Ok in Hm as (ys & Hys & [= <-]). constructor; auto.
Qed.

Lemma mapR_length {A B} (f : A -> result B) l l' :
  mapR f l = Ok l' -> length l' = length l.
Proof.
  revert l'. induction l as [|x l IH]; simpl; intros l' H; [by inv_ok H|].
  apply bind_Ok in H as (y & _ & H). apply bind_Ok in H as (ys & Hys & H).
  inv_ok H. simpl. f_equal. auto.
Qed.

(** ** Dictionary lemmas *)

Section dict_lemmas.
Context {V : Type}.
Implicit Types (d : dict V) (k : string) (v : V).

Lemma dict_get_set k k' v d :
  dict_get k (dict_set k' v d) = if String.eqb k k' then Some v else dict_get k d.
Proof.
  induction d as [|[k1 v1] d IH]; simpl.
  - by destruct (String.eqb k k').
  - destruct (String.eqb k' k1) eqn:E1; simpl.
    + apply String.eqb_eq in E1 as ->. by destruct (String.eqb k k1).
    + rewrite IH. destruct (String.eqb k k1) eqn:E2; [|done].
      apply String.eqb_eq in E2 as ->. by rewrite String.eqb_sym, E1.
Qed.

Lemma dict_get_set_eq k v d : dict_get k (dict_set k v d) = Some v.
Proof. by rewrite dict_get_set, String.eqb_refl. Qed.

Lemma dict_get_set_ne k k' v d :
  k <> k' -> dict_get k (dict_set k' v d) = dict_get k d.
Proof. intros H. rewrite dict_get_set. by apply String.eqb_neq in H as ->. Qed.

Lemma dict_get_None k d : dict_get k d = None <-> k ∉ dict_keys d.
Proof.
  induction d as [|[k1 v1] d IH]; simpl.
  - split; [|done]. intros _ H. by apply elem_of_nil in H.
  - rewrite not_elem_of_cons, <- IH. destruct (String.eqb k k1) eqn:E.
    + apply String.eqb_eq in E as ->. split; [done|]. by intros [[] _].
    + apply String.eqb_neq in E. split; [done|]. by intros [_ ?].
Qed.

Lemma dict_get_Some_key k v d : dict_get k d = Some v -> k ∈ dict_keys d.
Proof.
  intros H. destruct (decide (k ∈ dict_keys d)) as [|Hn]; [done|].
  apply dict_get_None in Hn. congruence.
Qed.

Lemma dict_get_elem k v d : dict_get k d = Some v -> (k, v) ∈ d.
Proof.
  induction d as [|[k1 v1] d IH]; simpl; [done|].
  destruct (String.eqb k k1) eqn:E.
  - apply String.eqb_eq in E as ->. intros [= ->]. left.
  - intros H. right. auto.
Qed.

Lemma dict_elem_get k v d : NoDup (dict_keys d) -> (k, v) ∈ d -> dict_get k d = Some v.
Proof.
  induction d as [|[k1 v1] d IH]; simpl; intros Hnd Hin.
  - by apply elem_of_nil in Hin.
  - apply NoDup_cons in Hnd as [Hk Hnd]. apply elem_of_cons in Hin as [[= -> ->]|Hin].
    + by rewrite String.eqb_refl.
    + destruct (String.eqb k k1) eqn:E; [|auto].
      apply String.eqb_eq in E as ->. exfalso. apply Hk.
      apply list_elem_of_fmap. by exists (k1, v).
Qed.

Lemma dict_keys_set k v d :
  dict_keys (dict_set k v d) = if dict_mem k d then dict_keys d else dict_keys d ++ [k].
Proof.
  unfold dict_mem. induction d as [|[k1 v1] d IH]; simpl; [done|].
  destruct (String.eqb k k1) eqn:E; simpl; [done|].
  rewrite IH. by destruct (dict_get k d).
Qed.

Lemma dict_set_NoDup k v d : NoDup (dict_keys d) -> NoDup (dict_keys (dict_set k v d)).
Proof.
  intros H. rewrite dict_keys_set. unfold dict_mem.
  destruct (dict_get k d) eqn:E; [done|].
  apply dict_get_None in E. apply NoDup_app. split; [done|]. split.
  - intros x Hx Hx'. apply list_elem_of_singleton in Hx' as ->. done.
  - apply NoDup_singleton.
Qed.

Lemma dict_keys_del_sublist k d : sublist (dict_keys (dict_del k d)) (dict_keys d).
Proof.
  induction d as [|[k1 v1] d IH]; simpl; [constructor|].
  destruct (String.eqb k k1); simpl; by constructor.
Qed.

Lemma dict_del_NoDup k d : NoDup (dict_keys d) -> NoDup (dict_keys (dict_del k d)).
Proof. intros H. eapply sublist_NoDup; [exact H|]. apply dict_keys_del_sublist. Qed.

Lemma dict_get_del_ne k k' d : k <> k' -> dict_get k (dict_del k' d) = dict_get k d.
Proof.
  intros Hne. induction d as [|[k1 v1] d IH]; simpl; [done|].
  destruct (String.eqb k' k1) eqn:E; simpl.
  - apply String.eqb_eq in E as ->. by apply String.eqb_neq in Hne as ->.
  - by rewrite IH.
Qed.

Lemma dict_get_del_eq k d : NoDup (dict_keys d) -> dict_get k (dict_del k d) = None.
Proof.
  induction d as [|[k1 v1] d IH]; simpl; intros Hnd; [done|].
  apply NoDup_cons in Hnd as [Hk Hnd]. destruct (String.eqb k k1) eqn:E; simpl.
  - apply String.eqb_eq in E as ->. by apply dict_get_None.
  - rewrite E. auto.
Qed.

Lemma dict_del_None k d : dict_get k d = None -> dict_del k d = d.
Proof.
  induction d as [|[k1 v1] d IH]; simpl; [done|].
  destruct (String.eqb k k1); [done|]. intros H. by rewrite IH.
Qed.

Lemma dict_get_setdefault k k' v d :
  dict_get k (dict_setdefault k' v d) =
  match dict_get k d with
  | Some w => Some w
  | None => if String.eqb k k' then Some v else None
  end.
Proof.
  unfold dict_setdefault, dict_mem. destruct (dict_get k' d) eqn:E.
  - destruct (dict_get k d) eqn:E2; [done|].
    destruct (String.eqb k k') eqn:E3; [|done].
    apply String.eqb_eq in E3 as ->. congruence.
  - rewrite dict_get_set. destruct (String.eqb k k') eqn:E3.
    + apply String.eqb_eq in E3 as ->. by rewrite E.
    + by destruct (dict_get k d).
Qed.

Lemma dict_setdefault_NoDup k v d :
  NoDup (dict_keys d) -> NoDup (dict_keys (dict_setdefault k v d)).
Proof. unfold dict_setdefault. destruct (dict_mem k d); auto using dict_set_NoDup. Qed.

Lemma dict_set_app_new k v d : dict_get k d = None -> dict_set k v d = d ++ [(k, v)].
Proof.
  induction d as [|[k1 v1] d IH]; simpl; [done|].
  destruct (String.eqb k k1); [done|]. intros H. by rewrite IH.
Qed.

(** Rebuilding a dictionary from its own items gives it back. *)
Lemma dict_update_app d d' :
  NoDup (dict_keys (d ++ d')) -> dict_update d d' = d ++ d'.
Proof.
  unfold dict_update. revert d. induction d' as [|[k v] d' IH]; simpl; intros d Hnd.
  - by rewrite app_nil_r.
  - rewrite dict_set_app_new.
    + rewrite IH; [by rewrite <- app_assoc|]. by rewrite <- app_assoc.
    + apply dict_get_None. intros Hin. unfold dict_keys in Hnd.
      rewrite map_app in Hnd. apply NoDup_app in Hnd as (_ & Hdis & _).
      apply (Hdis k); [done|]. simpl. left.
Qed.

Lemma dict_update_nil d : NoDup (dict_keys d) -> dict_update [] d = d.
Proof. intros H. by apply dict_update_app. Qed.

Lemma dict_keys_map {W} (f : V -> W) d : dict_keys (dict_map f d) = dict_keys d.
Proof. unfold dict_keys, dict_map. rewrite map_map. done. Qed.

Lemma dict_get_map {W} (f : V -> W) k d : dict_get k (dict_map f d) = f <$> dict_get k d.
Proof.
  induction d as [|[k1 v1] d IH]; simpl; [done|]. by destruct (String.eqb k k1).
Qed.
End dict_lemmas.

#[export] Hint Resolve dict_set_NoDup dict_del_NoDup dict_setdefault_NoDup : teuton.
#[export] Hint Rewrite @dict_get_set_eq @dict_keys_map @dict_get_map : teuton.

(** ** Sorting lemmas *)

Section sort_lemmas.
Context {A : Type} (le : A -> A -> bool).

Lemma insert_by_perm x l : insert_by le x l ≡ₚ x :: l.
Proof.
  induction l as [|y l IH]; simpl; [done|].
  destruct (le x y); [done|]. rewrite IH. constructor.
Qed.

Lemma sort_by_perm l : sort_by le l ≡ₚ l.
Proof.
  induction l as [|x l IH]; simpl; [done|]. rewrite insert_by_perm. by constructor.
Qed.

Lemma sort_by_elem x l : x ∈ sort_by le l <-> x ∈ l.
Proof. by rewrite sort_by_perm. Qed.

Definition sorted_by (l : list A) : Prop := StronglySorted (fun x y => le x y = true) l.

Context (Htot : forall x y, le x y = true \/ le y x = true).
Context (Htrans : forall x y z, le x y = true -> le y z = true -> le x z = true).

Lemma insert_by_sorted x l : sorted_by l -> sorted_by (insert_by le x l).
Proof.
  unfold sorted_by. induction 1 as [|y l Hs IH Hall]; simpl.
  - repeat constructor.
  - destruct (le x y) eqn:E.
    + constructor; [by constructor|]. constructor; [done|].
      eapply Forall_impl; [exact Hall|]. eauto.
    + constructor; [done|]. rewrite insert_by_perm. constructor; [|done].
      destruct (Htot x y); congruence.
Qed.

Lemma sort_by_sorted l : sorted_by (sort_by le l).
Proof.
  induction l as [|x l IH]; simpl; [constructor|]. by apply insert_by_sorted.
Qed.

(** Sorting a sorted list changes nothing. *)
Lemma sort_by_id l : sorted_by l -> sort_by le l = l.
Proof.
  unfold sorted_by. induction 1 as [|x l Hs IH Hall]; simpl; [done|].
  rewrite IH. destruct l as [|y l]; simpl; [done|].
  apply Forall_cons in Hall as [-> _]. done.
Qed.

Lemma sort_by_idemp l : sort_by le (sort_by le l) = sort_by le l.
Proof. apply sort_by_id, sort_by_sorted. Qed.

(** The first element of the sorted list is below every element. *)
Lemma sort_by_head x l l' y : sort_by le l = x :: l' -> y ∈ l -> le x y = true.
Proof.
  intros E Hy. pose proof (sort_by_sorted l) as Hs. rewrite E in Hs.
  inversion Hs as [|? ? _ Hall]; subst.
  assert (y ∈ x :: l') as Hin by (rewrite <- E, sort_by_elem; done).
  apply elem_of_cons in Hin as [->|Hin].
  - destruct (Htot x x); done.
  - rewrite Forall_forall in Hall. auto.
Qed.
End sort_lemmas.

(** The head of a sorted list is below every element, when the order is total
    and transitive on the elements sorted. *)
Lemma sort_by_head_on {A} (le : A -> A -> bool) (P : A -> Prop) :
  (forall x y, P x -> P y -> le x y = true \/ le y x = true) ->
  (forall x y z, P x -> P y -> P z -> le x y = true -> le y z = true -> le x z = true) ->
  forall l x l', Forall P l -> sort_by le l = x :: l' -> x ∈ l /\ forall y, y ∈ l -> le x y = true.
Proof.
  intros Htot Htrans. induction l as [|a l IH]; intros x l' HP E; [done|].
  apply Forall_cons in HP as [Pa Pl]. cbn in E. fold (sort_by le l) in E.
  destruct (sort_by le l) as [|b t] eqn:Es.
  - injection E as <- _. pose proof (sort_by_perm le l) as Hp. rewrite Es in Hp.
    apply Permutation_nil_l in Hp as <-. split; [left|]. intros y ->%list_elem_of_singleton.
    by destruct (Htot a a).
  - destruct (IH b t Pl eq_refl) as [Hb Hle]. rewrite Forall_forall in Pl. cbn in E.
    destruct (le a b) eqn:Eab; injection E as <- _.
    + split; [left|]. intros y [->|Hy]%elem_of_cons; [by destruct (Htot a a)|].
      apply (Htrans a b y); auto.
    + split; [by right|]. intros y [->|Hy]%elem_of_cons; [|auto].
      destruct (Htot a b) as [?|?]; auto. congruence.
Qed.

Lemma leb_string_total (x y : string) : String.leb x y = true \/ String.leb y x = true.
Proof. apply String.leb_total. Qed.

Lemma leb_string_trans (x y z : string) :
  String.leb x y = true -> String.leb y z = true -> String.leb x z = true.
Proof.
  intros H1 H2. change (Is_true (String.leb x y)) with (String.le x y) in *.
  apply Is_true_true. apply Is_true_true in H1, H2.
  exact (transitivity (R := String.le) H1 H2).
Qed.

#[export] Hint Resolve leb_string_total leb_string_trans : teuton.
