(* ===== verification/PyFloat.v ===== *)
(** * Python floats

    Python's [float] is IEEE 754 binary64.  The values and the rounded
    operations are those of [SpecFloat] at precision 53 and maximal exponent
    1024; comparison of an [int] with a [float] is exact, as in Python.
    [float_repr] is the shortest decimal that reads back as the same float (what
    [repr] and [json.dumps] print) and [float_of_token] reads a JSON number with
    a fraction or an exponent, correctly rounded. *)

From Stdlib Require Import ZArith Lia Ascii SpecFloat.
From stdpp Require Import base strings list.
From S2P Require Import Prelude.

Local Open Scope Z_scope.

Definition float : Type := spec_float.

Definition prec : Z := 53.
Definition emax : Z := 1024.

Definition fadd (x y : float) : float := SFadd prec emax x y.
Definition fsub (x y : float) : float := SFsub prec emax x y.
Definition fmul (x y : float) : float := SFmul prec emax x y.
Definition fdiv (x y : float) : float := SFdiv prec emax x y.
Definition fneg (x : float) : float := SFopp x.
Definition fltb (x y : float) : bool := SFltb x y.
Definition fleb (x y : float) : bool := SFleb x y.
Definition feqb (x y : float) : bool := SFeqb x y.

Definition fzero : float := S754_zero false.

#[export] Instance float_eq_dec : EqDecision float.
Proof. solve_decision. Defined.

Definition float_finite (x : float) : bool :=
  match x with S754_finite _ _ _ | S754_zero _ => true | _ => false end.

(** The float nearest to an integer (ties to even). *)
Definition float_of_Z (z : Z) : float := binary_normalize prec emax z 0 false.

(** [float(z)] raises when the nearest float is infinite. *)
Definition float_of_int (z : Z) : result float :=
  let x := float_of_Z z in
  if float_finite x then Ok x else Err (OverflowError "int too large to convert to float").

Definition fone : float := float_of_Z 1.

(** [max(a, b)]: the first argument unless the second is greater, so a NaN in
    second place is dropped. *)
Definition fmax (x y : float) : float := if fltb x y then y else x.
Definition fmin (x y : float) : float := if fltb y x then y else x.

(** [int(x)] truncates toward zero. *)
Definition int_of_float (x : float) : result Z :=
  match x with
  | S754_zero _ => Ok 0
  | S754_infinity _ => Err (OverflowError "cannot convert float infinity to integer")
  | S754_nan => Err (ValueError "cannot convert float NaN to integer")
  | S754_finite s m e =>
      let a := if 0 <=? e then Z.pos m * 2 ^ e else Z.pos m / 2 ^ (- e) in
      Ok (if s then - a else a)
  end.

(** Exact comparison of an integer with a float; [None] for NaN. *)
Definition cmp_int_float (z : Z) (x : float) : option comparison :=
  match x with
  | S754_nan => None
  | S754_infinity s => Some (if s then Gt else Lt)
  | S754_zero _ => Some (z ?= 0)
  | S754_finite s m e =>
      let n := if s then Z.neg m else Z.pos m in
      Some (if 0 <=? e then z ?= n * 2 ^ e else z * 2 ^ (- e) ?= n)
  end.

(** [z < x] for an [int] and a [float]. *)
Definition int_lt_float (z : Z) (x : float) : bool :=
  match cmp_int_float z x with Some Lt => true | _ => false end.

(** [a / b] on integers: the float nearest to the quotient. *)
Definition int_truediv (a b : Z) : result float :=
  if b =? 0 then Err (ZeroDivisionError "division by zero")
  else
    let neg := xorb (a <? 0) (b <? 0) in
    if a =? 0 then Ok (S754_zero neg)
    else
      let '(mz, ez, lz) := SFdiv_core_binary prec emax (Z.abs a) 0 (Z.abs b) 0 in
      match binary_round_aux prec emax neg mz ez lz with
      | S754_infinity _ => Err (OverflowError "integer division result too large for a float")
      | x => Ok x
      end.

(** [math.ceil(x)]. *)
Definition float_ceil (x : float) : result Z :=
  match x with
  | S754_zero _ => Ok 0
  | S754_infinity _ => Err (OverflowError "cannot convert float infinity to integer")
  | S754_nan => Err (ValueError "cannot convert float NaN to integer")
  | S754_finite s m e =>
      let n := if s then Z.neg m else Z.pos m in
      Ok (if 0 <=? e then n * 2 ^ e else - (- n / 2 ^ (- e)))
  end.

(** ** Decimal conversion *)

Definition is_digit (c : ascii) : bool :=
  let n := Ascii.nat_of_ascii c in (48 <=? n)%nat && (n <=? 57)%nat.

Fixpoint span_digits (s : string) : string * string :=
  match s with
  | String c s' =>
      if is_digit c then let '(d, r) := span_digits s' in (String c d, r)
      else (EmptyString, s)
  | EmptyString => (EmptyString, EmptyString)
  end.

Fixpoint digits_value (acc : Z) (s : string) : Z :=
  match s with
  | EmptyString => acc
  | String c s' => digits_value (acc * 10 + (Z.of_nat (Ascii.nat_of_ascii c) - 48)) s'
  end.

(** The float nearest to [(-1)^neg * m * 10^e]; the two guards only avoid
    computing powers that overflow or underflow for sure. *)
Definition dec_to_float (neg : bool) (m : Z) (ndigits : Z) (e : Z) : float :=
  if m =? 0 then S754_zero neg
  else if 400 <? ndigits + e then S754_infinity neg
  else if ndigits + e <? -400 then S754_zero neg
  else if 0 <=? e then
    match binary_normalize prec emax (m * 10 ^ e) 0 false with
    | S754_finite _ p q => S754_finite neg p q
    | S754_infinity _ => S754_infinity neg
    | x => x
    end
  else
    let '(mz, ez, lz) := SFdiv_core_binary prec emax m 0 (10 ^ (- e)) 0 in
    binary_round_aux prec emax neg mz ez lz.

(** A JSON number with a fraction or an exponent: an optional minus, an integer
    part with no leading zero, an optional fraction (a dot and at least one
    digit) and an optional exponent (e or E, an optional sign, at least one
    digit). *)
Definition float_of_token (t : string) : option float :=
  let '(neg, t1) :=
    match t with String "-" t' => (true, t') | _ => (false, t) end in
  let '(ip, t2) := span_digits t1 in
  let ip_ok :=
    match ip with
    | EmptyString => false
    | String "0" EmptyString => true
    | String "0" _ => false
    | _ => true
    end in
  let frac :=
    match t2 with
    | String "." t3 =>
        match span_digits t3 with
        | (EmptyString, _) => None
        | (f, t4) => Some (f, t4)
        end
    | _ => Some (EmptyString, t2)
    end in
  match frac with
  | None => None
  | Some (fp, t4) =>
      let expo :=
        match t4 with
        | EmptyString => Some 0
        | String c t5 =>
            if Ascii.eqb c "e" || Ascii.eqb c "E" then
              let '(eneg, t6) :=
                match t5 with
                | String "-" t' => (true, t')
                | String "+" t' => (false, t')
                | _ => (false, t5)
                end in
              match span_digits t6 with
              | (EmptyString, _) => None
              | (ed, EmptyString) =>
                  let v := digits_value 0 ed in Some (if eneg then - v else v)
              | _ => None
              end
            else None
        end in
      match expo with
      | Some e =>
          if ip_ok && negb (String.eqb fp "" && String.eqb t4 "")
          then Some (dec_to_float neg (digits_value 0 (ip +:+ fp))
                       (Z.of_nat (String.length (ip +:+ fp)))
                       (e - Z.of_nat (String.length fp)))
          else None
      | None => None
      end
  end.

(** ** Shortest decimal representation *)

(** A positive finite float as a fraction. *)
Definition float_frac (m : positive) (e : Z) : Z * Z :=
  if 0 <=? e then (Z.pos m * 2 ^ e, 1) else (Z.pos m, 2 ^ (- e)).

Definition Z_ndigits (z : Z) : Z := Z.of_nat (String.length (py_str_int z)).

(** Smallest [j] with [num * 10^j >= den], from [j] on. *)
Fixpoint scale_up (fuel : nat) (num den j : Z) : Z :=
  match fuel with
  | O => j
  | S fuel' => if den <=? num then j else scale_up fuel' (num * 10) den (j + 1)
  end.

(** [k] with [10^(k-1) <= num/den < 10^k]; the fuel covers the smallest
    subnormal, whose [k] is -323. *)
Definition dec_point (num den : Z) : Z :=
  if den <=? num then Z_ndigits (num / den) else 1 - scale_up 400 num den 0.

(** The [n]-digit decimal that reads back as the float, if there is one: the
    nearer neighbour first. *)
Definition try_digits (x : float) (num den k n : Z) : option Z :=
  let '(a, b) := if k <=? n then (num * 10 ^ (n - k), den) else (num, den * 10 ^ (k - n)) in
  let q := a / b in
  let r := a mod b in
  let up := (b <? 2 * r) || ((2 * r =? b) && Z.odd q) in
  let c1 := if up then q + 1 else q in
  let c2 := if up then q else q + 1 in
  let ok c := bool_decide (dec_to_float false c (Z_ndigits c) (k - n) = x) in
  if ok c1 then Some c1 else if ok c2 then Some c2 else None.

Fixpoint shortest (fuel : nat) (x : float) (num den k n : Z) : Z * Z :=
  match fuel with
  | O => (num * 10 ^ (n - k) / den, n)
  | S fuel' =>
      match try_digits x num den k n with
      | Some c => (c, n)
      | None => shortest fuel' x num den k (n + 1)
      end
  end.

Fixpoint zeros (n : nat) : string :=
  match n with O => EmptyString | S n' => String "0" (zeros n') end.

(** Remove trailing zeros, keeping at least one digit. *)
Fixpoint strip_zeros (s : string) : string :=
  match s with
  | EmptyString => EmptyString
  | String c s' =>
      match strip_zeros s' with
      | String "0" EmptyString => String c EmptyString
      | t => String c t
      end
  end.

Definition repr_pos (m : positive) (e : Z) : string :=
  let '(num, den) := float_frac m e in
  let k := dec_point num den in
  let '(c, n) := shortest 17 (S754_finite false m e) num den k 1 in
  (* [c] may have carried to one more digit *)
  let k := k + (Z_ndigits c - n) in
  let ds := strip_zeros (py_str_int c) in
  let len := Z.of_nat (String.length ds) in
  if (k <=? -4) || (16 <? k) then
    let ex := k - 1 in
    let es := py_str_int (Z.abs ex) in
    let es := if Z.abs ex <? 10 then String "0" es else es in
    let mant := match ds with
                | String d EmptyString => String d EmptyString
                | String d rest => String d (String "." rest)
                | EmptyString => EmptyString
                end in
    mant +:+ "e" +:+ (if ex <? 0 then "-" else "+") +:+ es
  else if k <=? 0 then "0." +:+ zeros (Z.to_nat (- k)) +:+ ds
  else if len <=? k then ds +:+ zeros (Z.to_nat (k - len)) +:+ ".0"
  else str_take (Z.to_nat k) ds +:+ "." +:+ str_drop (Z.to_nat k) ds.

(** [repr(x)], with JSON's spelling of the special values. *)
Definition float_repr (x : float) : string :=
  match x with
  | S754_nan => "NaN"
  | S754_infinity false => "Infinity"
  | S754_infinity true => "-Infinity"
  | S754_zero false => "0.0"
  | S754_zero true => "-0.0"
  | S754_finite false m e => repr_pos m e
  | S754_finite true m e => "-" +:+ repr_pos m e
  end.

(** A decimal literal of the source, e.g. [1e-3]. *)
Definition flit (m e : Z) : float := dec_to_float (m <? 0) (Z.abs m) (Z_ndigits (Z.abs m)) e.

(** ** Signs

    [fnn x]: neither NaN nor below zero.  Rounding never changes a sign, so
    sums, products and quotients of such numbers stay so, apart from the
    invalid operations. *)
Definition fnn (x : float) : bool :=
  match x with
  | S754_zero _ => true
  | S754_infinity s | S754_finite s _ _ => negb s
  | S754_nan => false
  end.

Definition fpos (x : float) : bool :=
  match x with S754_infinity false | S754_finite false _ _ => true | _ => false end.

Lemma fnn_spec x : fnn x = true <-> fleb fzero x = true.
Proof. destruct x as [[]|[]| |[] m e]; simpl; done. Qed.

Lemma fpos_spec x : fpos x = true <-> fltb fzero x = true.
Proof. destruct x as [[]|[]| |[] m e]; simpl; done. Qed.

Lemma fpos_fnn x : fpos x = true -> fnn x = true.
Proof. by destruct x as [[]|[]| |[] m e]. Qed.

Lemma fmax_zero_nn x : fnn (fmax fzero x) = true.
Proof.
  unfold fmax. destruct (fltb fzero x) eqn:E; [|done].
  apply fpos_fnn. by apply fpos_spec.
Qed.

Lemma iter_shr_nonneg p mrs : 0 <= shr_m mrs -> 0 <= shr_m (SpecFloat.iter_pos shr_1 p mrs).
Proof.
  assert (forall r, 0 <= shr_m r -> 0 <= shr_m (shr_1 r)) as H1.
  { intros [[|[q|q|]|q] r s] H; simpl in *; lia. }
  revert mrs. induction p as [p IH|p IH|]; intros mrs H; cbn [SpecFloat.iter_pos]; auto.
Qed.

Lemma shr_fexp_nonneg m e l : 0 <= m -> 0 <= shr_m (fst (shr_fexp prec emax m e l)).
Proof.
  intros H. unfold shr_fexp, shr.
  assert (0 <= shr_m (shr_record_of_loc m l)) as Hm by (destruct l as [|[]]; done).
  destruct (fexp prec emax (Zdigits2 m + e) - e) as [|p|p]; try done.
  by apply iter_shr_nonneg.
Qed.

Lemma round_ne_nonneg m l : 0 <= m -> 0 <= round_nearest_even m l.
Proof. destruct l as [|[]]; simpl; intros H; [lia|destruct (Z.even m); lia|lia|lia]. Qed.

(** The rounding core keeps the sign it is given. *)
Lemma binary_round_aux_sign s m e l :
  0 <= m ->
  match binary_round_aux prec emax s m e l with
  | S754_zero s' | S754_infinity s' | S754_finite s' _ _ => s' = s
  | S754_nan => False
  end.
Proof.
  intros Hm. unfold binary_round_aux.
  pose proof (shr_fexp_nonneg m e l Hm) as H1.
  destruct (shr_fexp prec emax m e l) as [mrs' e'] eqn:E1. cbn [fst] in H1.
  pose proof (round_ne_nonneg _ (loc_of_shr_record mrs') H1) as H2.
  pose proof (shr_fexp_nonneg _ e' loc_Exact H2) as H3.
  destruct (shr_fexp prec emax _ e' loc_Exact) as [mrs'' e''] eqn:E2. cbn [fst] in H3.
  destruct (shr_m mrs'') as [|p|p] eqn:E3; [done| |lia].
  by destruct (e'' <=? emax - prec).
Qed.

Lemma binary_round_aux_fnn m e l : 0 <= m -> fnn (binary_round_aux prec emax false m e l) = true.
Proof.
  intros H. pose proof (binary_round_aux_sign false m e l H) as Hs.
  destruct (binary_round_aux prec emax false m e l) as [s|s| |s p q]; simpl; subst; done.
Qed.

Lemma binary_normalize_fnn m e : 0 <= m -> fnn (binary_normalize prec emax m e false) = true.
Proof.
  intros H. destruct m as [|p|p]; [done| |lia]. simpl. unfold binary_round.
  destruct (shl_align p e _) as [mz ez]. apply binary_round_aux_fnn. lia.
Qed.

Lemma float_of_Z_fnn z : 0 <= z -> fnn (float_of_Z z) = true.
Proof. apply binary_normalize_fnn. Qed.

Lemma fadd_fnn x y : fnn x = true -> fnn y = true -> fnn (fadd x y) = true.
Proof.
  destruct x as [s1|[]| |[] m1 e1], y as [s2|[]| |[] m2 e2]; try done; intros _ _.
  - by destruct s1, s2.
  - unfold fadd, SFadd. apply binary_normalize_fnn. simpl. lia.
Qed.

(** A product is not negative unless it is the invalid zero times infinity. *)
Lemma fmul_fnn x y :
  fnn x = true -> fnn y = true -> float_finite x = true -> float_finite y = true ->
  fnn (fmul x y) = true.
Proof.
  destruct x as [s1|[]| |[] m1 e1], y as [s2|[]| |[] m2 e2]; try done; intros _ _ _ _.
  unfold fmul, SFmul. apply binary_round_aux_fnn. lia.
Qed.

Lemma SFdiv_core_nonneg m1 e1 m2 e2 mz ez lz :
  SFdiv_core_binary prec emax (Z.pos m1) e1 (Z.pos m2) e2 = (mz, ez, lz) -> 0 <= mz.
Proof.
  unfold SFdiv_core_binary. intros E.
  match type of E with
  | (let '(q, r) := Z.div_eucl ?a ?b in _) = _ =>
      assert (0 <= a) as Ha; [|pose proof (Z_div_pos a b ltac:(lia) Ha) as Hq;
                               unfold Z.div in Hq; destruct (Z.div_eucl a b)]
  end.
  - destruct (e1 - e2 - _); [lia| |lia]. apply Z.shiftl_nonneg. lia.
  - by injection E as <- _ _.
Qed.

Lemma fdiv_fnn x y :
  fnn x = true -> fpos y = true -> float_finite x = true -> fnn (fdiv x y) = true.
Proof.
  destruct x as [s1|[]| |[] m1 e1], y as [s2|[]| |[] m2 e2]; try done; intros _ _ _.
  unfold fdiv, SFdiv.
  destruct (SFdiv_core_binary prec emax (Z.pos m1) e1 (Z.pos m2) e2) as [[mz ez] lz] eqn:E.
  apply binary_round_aux_fnn. by eapply SFdiv_core_nonneg.
Qed.

(** A quotient of numbers of opposite signs is not above zero. *)
Lemma fdiv_neg x y : fpos (fneg x) = true -> fpos y = true -> fpos (fdiv x y) = false.
Proof.
  destruct x as [s1|[]| |[] m1 e1], y as [s2|[]| |[] m2 e2]; try done; intros _ _.
  unfold fdiv, SFdiv.
  destruct (SFdiv_core_binary prec emax (Z.pos m1) e1 (Z.pos m2) e2) as [[mz ez] lz] eqn:E.
  pose proof (binary_round_aux_sign (xorb true false) mz ez lz
                (SFdiv_core_nonneg _ _ _ _ _ _ _ E)) as Hs.
  destruct (binary_round_aux prec emax _ mz ez lz) as [s|s| |s p q]; simpl in *; subst; done.
Qed.

(** *** Results that are above zero: no underflow from an exponent in range *)

Lemma shr_1_half r : 0 <= shr_m r -> shr_m (shr_1 r) = shr_m r / 2.
Proof.
  rewrite <- Z.div2_div. by destruct r as [[|[q|q|]|[q|q|]] b s].
Qed.

Lemma iter_shr_div p : forall r, 0 <= shr_m r ->
  shr_m (SpecFloat.iter_pos shr_1 p r) = shr_m r / 2 ^ Z.pos p.
Proof.
  induction p as [p IH|p IH|]; intros r Hr; cbn [SpecFloat.iter_pos].
  - pose proof (shr_1_half r Hr) as E. assert (0 <= shr_m (shr_1 r)) by (rewrite E; apply Z.div_pos; lia).
    rewrite !IH by (auto using iter_shr_nonneg). rewrite E, !Z.div_div by lia.
    f_equal. change 2 with (2 ^ 1) at 1. rewrite <- !Z.pow_add_r by lia. f_equal. lia.
  - rewrite !IH by (auto using iter_shr_nonneg). rewrite !Z.div_div, <- Z.pow_add_r by lia.
    f_equal. f_equal. lia.
  - by apply shr_1_half.
Qed.

Lemma digits2_le p : 2 ^ (Z.pos (digits2_pos p) - 1) <= Z.pos p.
Proof.
  induction p as [p IH|p IH|]; cbn [digits2_pos]; [| |done];
    rewrite Pos2Z.inj_succ; replace (Z.succ _ - 1) with (Z.succ (Z.pos (digits2_pos p) - 1)) by lia;
    rewrite Z.pow_succ_r by lia; lia.
Qed.

Lemma shr_fexp_pos m e l : 0 < m -> emin prec emax <= e ->
  0 < shr_m (fst (shr_fexp prec emax m e l)) /\ emin prec emax <= snd (shr_fexp prec emax m e l).
Proof.
  intros Hm He. unfold shr_fexp, shr. destruct m as [|p|p]; [lia| |lia]. cbn [Zdigits2].
  assert (shr_m (shr_record_of_loc (Z.pos p) l) = Z.pos p) as E by (destruct l as [|[]]; done).
  unfold fexp. destruct (Z.max _ _ - e) as [|n|n] eqn:En; cbn [fst snd]; rewrite ?E; [lia| |lia].
  rewrite iter_shr_div, E by (rewrite E; lia). split; [|lia]. apply Z.div_str_pos. split; [apply Z.pow_pos_nonneg; lia|].
  etrans; [|apply digits2_le]. apply Z.pow_le_mono_r; [lia|]. unfold prec in *. lia.
Qed.

Lemma round_ne_le m l : m <= round_nearest_even m l.
Proof. destruct l as [|[]]; simpl; [lia|destruct (Z.even m); lia|lia|lia]. Qed.

Lemma binary_round_aux_fpos m e l : 0 < m -> emin prec emax <= e ->
  fpos (binary_round_aux prec emax false m e l) = true.
Proof.
  intros Hm He. unfold binary_round_aux.
  destruct (shr_fexp_pos m e l Hm He) as [H1 H1']. destruct (shr_fexp prec emax m e l) as [r e']. cbn [fst snd] in *.
  pose proof (round_ne_le (shr_m r) (loc_of_shr_record r)).
  destruct (shr_fexp_pos (round_nearest_even (shr_m r) (loc_of_shr_record r)) e' loc_Exact) as [H2 _]; [lia|done|].
  destruct (shr_fexp prec emax _ e' loc_Exact) as [r' e'']. cbn [fst snd] in *.
  destruct (shr_m r'); [lia| |lia]. by destruct (e'' <=? emax - prec).
Qed.

Lemma float_of_Z_fpos z : 0 < z -> fpos (float_of_Z z) = true.
Proof.
  destruct z as [|p|p]; [lia| |lia]. intros _. unfold float_of_Z. cbn [binary_normalize]. unfold binary_round, shl_align, fexp.
  destruct (Z.max _ _ - 0) as [|n|n] eqn:E.
  - apply binary_round_aux_fpos; [lia|]. unfold emin, emax, prec. lia.
  - apply binary_round_aux_fpos; [lia|]. unfold emin, emax, prec. lia.
  - apply binary_round_aux_fpos; [lia|]. lia.
Qed.

Lemma fmul_fpos_fnn x y : fnn x = true -> fpos y = true -> float_finite y = true -> fnn (fmul x y) = true.
Proof.
  destruct x as [s1|[]| |[] m1 e1], y as [s2|[]| |[] m2 e2]; try done; intros _ _ _.
  unfold fmul, SFmul. apply binary_round_aux_fnn. lia.
Qed.

(** ** The order of floats

    On floats other than NaN the comparison is that of a triple of integers. *)
Definition is_nan (x : float) : bool := match x with S754_nan => true | _ => false end.

Definition frank (x : float) : Z * Z * Z :=
  match x with
  | S754_zero _ => (0, 0, 0)
  | S754_infinity s => (if s then -2 else 2, 0, 0)
  | S754_nan => (0, 0, 0)
  | S754_finite s m e => if s then (-1, - e, - Zpos m) else (1, e, Zpos m)
  end.

Definition rank_lt (a b : Z * Z * Z) : Prop :=
  let '(a1, a2, a3) := a in let '(b1, b2, b3) := b in
  a1 < b1 \/ a1 = b1 /\ (a2 < b2 \/ a2 = b2 /\ a3 < b3).

Lemma SFcompare_rank x y : is_nan x = false -> is_nan y = false ->
  match SFcompare x y with
  | Some Lt => rank_lt (frank x) (frank y)
  | Some Gt => rank_lt (frank y) (frank x)
  | Some Eq => frank x = frank y
  | None => False
  end.
Proof.
  destruct x as [s|s| |s m e], y as [t|t| |t n f]; try done; intros _ _;
    try (destruct s); try (destruct t); cbn; try lia; try done.
  - destruct (Z.compare_spec e f) as [->|Hef|Hef]; cbn; [|lia|lia].
    change (Pos.compare_cont Eq m n) with (m ?= n)%positive.
    destruct (Pos.compare_spec m n) as [->|Hlt|Hlt]; cbn; [done|lia|lia].
  - destruct (Z.compare_spec e f) as [->|Hef|Hef]; cbn; [|lia|lia].
    change (Pos.compare_cont Eq m n) with (m ?= n)%positive.
    destruct (Pos.compare_spec m n) as [->|Hlt|Hlt]; cbn; [done|lia|lia].
Qed.

Lemma fltb_rank x y : is_nan x = false -> is_nan y = false -> fltb x y = true <-> rank_lt (frank x) (frank y).
Proof.
  intros Hx Hy. unfold fltb, SFltb. pose proof (SFcompare_rank x y Hx Hy) as H.
  destruct (frank x) as [[a1 a2] a3], (frank y) as [[b1 b2] b3]. unfold rank_lt in *.
  destruct (SFcompare x y) as [[]|]; cbn; split; intros; try done; try lia. injection H as -> -> ->. lia.
Qed.

Lemma feqb_rank x y : is_nan x = false -> is_nan y = false -> feqb x y = true <-> frank x = frank y.
Proof.
  intros Hx Hy. unfold feqb, SFeqb. pose proof (SFcompare_rank x y Hx Hy) as H.
  destruct (frank x) as [[a1 a2] a3], (frank y) as [[b1 b2] b3]. unfold rank_lt in *.
  destruct (SFcompare x y) as [[]|]; cbn; split; intros E; try done; injection E as -> -> ->; lia.
Qed.

Lemma fleb_not_lt x y : is_nan x = false -> is_nan y = false -> fleb x y = negb (fltb y x).
Proof.
  intros Hx Hy. unfold fleb, fltb, SFleb, SFltb.
  pose proof (SFcompare_rank x y Hx Hy) as H1. pose proof (SFcompare_rank y x Hy Hx) as H2.
  destruct (frank x) as [[a1 a2] a3], (frank y) as [[b1 b2] b3]. unfold rank_lt in *.
  destruct (SFcompare x y) as [[]|], (SFcompare y x) as [[]|]; try done; try lia;
    first [injection H1 as -> -> ->|injection H2 as -> -> ->]; lia.
Qed.

Lemma fneg_nan x : is_nan (fneg x) = is_nan x.
Proof. by destruct x. Qed.

Lemma fltb_fneg x y : is_nan x = false -> is_nan y = false -> fltb (fneg x) (fneg y) = fltb y x.
Proof.
  intros Hx Hy. apply eq_true_iff_eq. rewrite !fltb_rank by (rewrite ?fneg_nan; done).
  destruct x as [s|s| |s m e], y as [t|t| |t n f]; try done; destruct s, t; cbn; lia.
Qed.

#[export] Hint Rewrite fneg_nan : teuton.
