(* ===== verification/FloatExact.v ===== *)
(** * Exact float arithmetic on integers

    Integers below [2 ^ 53] are floats, and a product or a sum of such integers
    that stays below [2 ^ 53] is computed without rounding. *)

From Stdlib Require Import ZArith Lia SpecFloat.
From stdpp Require Import base tactics numbers.
From S2P Require Import Prelude PyFloat.

Open Scope Z_scope.

(** The float of a positive integer of [d] binary digits, [d <= 53]. *)
Definition exact_float (p : positive) : float :=
  let d := Z.pos (digits2_pos p) in
  match Z.pos p * 2 ^ (53 - d) with
  | Z.pos q => S754_finite false q (d - 53)
  | _ => S754_nan
  end.

Lemma digits2_gt p : Z.pos p < 2 ^ Z.pos (digits2_pos p).
Proof.
  induction p as [p IH|p IH|]; cbn [digits2_pos]; [| |done];
    rewrite Pos2Z.inj_succ, Z.pow_succ_r by lia; lia.
Qed.

Lemma digits2_unique p d : 2 ^ (d - 1) <= Z.pos p < 2 ^ d -> 0 < d -> Z.pos (digits2_pos p) = d.
Proof.
  intros [H1 H2] Hd. pose proof (digits2_le p). pose proof (digits2_gt p).
  destruct (Z.lt_trichotomy (Z.pos (digits2_pos p)) d) as [H3|[H3|H3]]; [|done|].
  - assert (2 ^ Z.pos (digits2_pos p) <= 2 ^ (d - 1)) by (apply Z.pow_le_mono_r; lia). lia.
  - assert (2 ^ d <= 2 ^ (Z.pos (digits2_pos p) - 1)) by (apply Z.pow_le_mono_r; lia). lia.
Qed.

Lemma digits2_shift p q k : 0 <= k -> Z.pos q = Z.pos p * 2 ^ k ->
  Z.pos (digits2_pos q) = Z.pos (digits2_pos p) + k.
Proof.
  intros Hk E. pose proof (digits2_le p). pose proof (digits2_gt p). apply digits2_unique; [|lia].
  replace (Z.pos (digits2_pos p) + k - 1) with (Z.pos (digits2_pos p) - 1 + k) by lia.
  rewrite !Z.pow_add_r, E by lia. assert (0 < 2 ^ k) by lia. nia.
Qed.

Lemma digits2_small p : Z.pos p < 2 ^ 53 -> Z.pos (digits2_pos p) <= 53.
Proof.
  intros H. pose proof (digits2_le p) as Hd. destruct (Z.le_gt_cases (Z.pos (digits2_pos p)) 53); [done|].
  assert (2 ^ 53 <= 2 ^ (Z.pos (digits2_pos p) - 1)) by (apply Z.pow_le_mono_r; lia). lia.
Qed.

Lemma digits2_mono p q : Z.pos p <= Z.pos q -> Z.pos (digits2_pos p) <= Z.pos (digits2_pos q).
Proof.
  intros H. destruct (Z.le_gt_cases (Z.pos (digits2_pos p)) (Z.pos (digits2_pos q))) as [|Hlt]; [done|].
  pose proof (digits2_le p). pose proof (digits2_gt q).
  assert (2 ^ Z.pos (digits2_pos q) <= 2 ^ (Z.pos (digits2_pos p) - 1)) by (apply Z.pow_le_mono_r; lia). lia.
Qed.

Lemma digits2_mul p q : Z.pos (digits2_pos p) + Z.pos (digits2_pos q) - 1 <= Z.pos (digits2_pos (p * q)).
Proof.
  pose proof (digits2_le p). pose proof (digits2_le q). pose proof (digits2_gt (p * q)).
  rewrite Pos2Z.inj_mul in *.
  destruct (Z.le_gt_cases (Z.pos (digits2_pos p) + Z.pos (digits2_pos q) - 1) (Z.pos (digits2_pos (p * q))))
    as [|Hlt]; [done|].
  assert (2 ^ Z.pos (digits2_pos (p * q)) <= 2 ^ ((Z.pos (digits2_pos p) - 1) + (Z.pos (digits2_pos q) - 1)))
    by (apply Z.pow_le_mono_r; lia).
  rewrite Z.pow_add_r in * by lia. nia.
Qed.

(** Shifting out zeros loses nothing. *)
Lemma iter_shr_exact n : forall k, 0 <= k ->
  SpecFloat.iter_pos shr_1 n (Build_shr_record (k * 2 ^ Z.pos n) false false) = Build_shr_record k false false.
Proof.
  assert (forall k, 0 <= k -> shr_1 (Build_shr_record (k * 2) false false) = Build_shr_record k false false) as H1.
  { intros k Hk. rewrite Z.mul_comm. by destruct k as [|p|p]; [..|lia]. }
  induction n as [n IH|n IH|]; intros k Hk; cbn [SpecFloat.iter_pos].
  - replace (k * 2 ^ Z.pos n~1) with (k * 2 ^ Z.pos n * 2 ^ Z.pos n * 2)
      by (rewrite (Pos2Z.inj_xI n), Z.pow_add_r, <- (Z.add_diag (Z.pos n)), Z.pow_add_r by lia; lia).
    rewrite H1 by lia. by rewrite !IH by lia.
  - replace (k * 2 ^ Z.pos n~0) with (k * 2 ^ Z.pos n * 2 ^ Z.pos n)
      by (rewrite (Pos2Z.inj_xO n), <- (Z.add_diag (Z.pos n)), Z.pow_add_r by lia; lia).
    by rewrite !IH by lia.
  - by apply H1.
Qed.

Lemma shr_fexp_exact p q e : Z.pos p < 2 ^ 53 -> e <= Z.pos (digits2_pos p) - 53 ->
  Z.pos q = Z.pos p * 2 ^ (- e) ->
  shr_fexp prec emax (Z.pos q) e loc_Exact =
  (Build_shr_record (Z.pos p * 2 ^ (53 - Z.pos (digits2_pos p))) false false, Z.pos (digits2_pos p) - 53).
Proof.
  intros Hp He Hq. pose proof (digits2_small p Hp) as Hd.
  unfold shr_fexp, shr. cbn [Zdigits2 shr_record_of_loc]. unfold fexp.
  rewrite (digits2_shift p q (- e)) by lia. set (d := Z.pos (digits2_pos p)) in *.
  replace (Z.max (d + - e + e - prec) (emin prec emax) - e) with (d - 53 - e)
    by (unfold emin, prec, emax; lia).
  destruct (d - 53 - e) as [|n|n] eqn:En; [|..|lia].
  - f_equal; [|lia]. rewrite Hq. by replace (53 - d) with (- e) by lia.
  - f_equal; [|lia]. replace (Z.pos q) with (Z.pos p * 2 ^ (53 - d) * 2 ^ Z.pos n).
    + apply iter_shr_exact. lia.
    + rewrite Hq, <- Z.mul_assoc, <- Z.pow_add_r by lia. by replace (53 - d + Z.pos n) with (- e) by lia.
Qed.

(** An integer below [2 ^ 53] written with any exponent small enough is
    rounded to itself. *)
Lemma round_exact p q e : Z.pos p < 2 ^ 53 -> e <= Z.pos (digits2_pos p) - 53 ->
  Z.pos q = Z.pos p * 2 ^ (- e) ->
  binary_round_aux prec emax false (Z.pos q) e loc_Exact = exact_float p.
Proof.
  intros Hp He Hq. pose proof (digits2_small p Hp) as Hd. unfold binary_round_aux, exact_float.
  rewrite (shr_fexp_exact p q e Hp He Hq). set (d := Z.pos (digits2_pos p)) in *.
  change (round_nearest_even _ (loc_of_shr_record _)) with (Z.pos p * 2 ^ (53 - d)).
  assert (0 < 2 ^ (53 - d)) by lia. destruct (Z.pos p * 2 ^ (53 - d)) as [|r|r] eqn:Er; [lia| |lia].
  rewrite (shr_fexp_exact p r (d - 53)); [|done|lia|rewrite <- Er; do 2 f_equal; lia].
  fold d. cbn [shr_m]. rewrite Er. replace (d - 53 <=? emax - prec) with true; [done|].
  symmetry. apply Z.leb_le. unfold emax, prec. lia.
Qed.

Lemma shl_align_exact p e k : 0 <= e - k -> exists q,
  shl_align p e k = (q, k) /\ Z.pos q = Z.pos p * 2 ^ (e - k).
Proof.
  intros He. unfold shl_align. destruct (k - e) as [|n|n] eqn:En; [|lia|].
  - exists p. replace (e - k) with 0 by lia. split; [f_equal; lia|lia].
  - exists (Pos.iter xO p n). split; [done|]. replace (e - k) with (Z.pos n) by lia.
    pose proof (Zpower.shift_pos_correct n p) as E. rewrite Z.mul_comm in E. exact E.
Qed.

Lemma binary_round_exact p q e : Z.pos p < 2 ^ 53 -> Z.pos q = Z.pos p * 2 ^ (- e) -> e <= 0 ->
  binary_round prec emax false q e = exact_float p.
Proof.
  intros Hp Hq He. pose proof (digits2_small p Hp) as Hd. unfold binary_round.
  rewrite (digits2_shift p q (- e)) by lia.
  replace (fexp prec emax (Z.pos (digits2_pos p) + - e + e)) with (Z.pos (digits2_pos p) - 53)
    by (unfold fexp, emin, prec, emax; lia).
  destruct (Z.le_gt_cases e (Z.pos (digits2_pos p) - 53)) as [Hle|Hgt].
  - unfold shl_align. destruct (Z.pos (digits2_pos p) - 53 - e) eqn:E; [by apply round_exact..|lia].
  - destruct (shl_align_exact q e (Z.pos (digits2_pos p) - 53)) as (r & -> & Hr); [lia|].
    apply round_exact; [done|lia|]. rewrite Hr, Hq, <- Z.mul_assoc, <- Z.pow_add_r by lia. do 2 f_equal. lia.
Qed.

Lemma float_of_Z_exact p : Z.pos p < 2 ^ 53 -> float_of_Z (Z.pos p) = exact_float p.
Proof. intros H. unfold float_of_Z. cbn [binary_normalize]. apply binary_round_exact; lia. Qed.

Lemma exact_float_form p : Z.pos p < 2 ^ 53 -> exists q,
  exact_float p = S754_finite false q (Z.pos (digits2_pos p) - 53) /\
  Z.pos q = Z.pos p * 2 ^ (53 - Z.pos (digits2_pos p)).
Proof.
  intros Hlt. pose proof (digits2_small p Hlt). unfold exact_float.
  assert (0 < 2 ^ (53 - Z.pos (digits2_pos p))) by lia.
  destruct (Z.pos p * _) as [|r|r] eqn:E; [lia|by exists r|lia].
Qed.

Lemma float_of_int_exact z : 0 <= z < 2 ^ 53 -> float_of_int z = Ok (float_of_Z z).
Proof.
  intros [H1 H2]. unfold float_of_int. destruct z as [|p|p]; [done| |lia].
  rewrite float_of_Z_exact by done. by destruct (exact_float_form p H2) as (q & -> & _).
Qed.

(** ** Products and sums *)

Lemma fmul_pos_fnn x y : fpos x = true -> fpos y = true -> fnn (fmul x y) = true.
Proof.
  destruct x as [s1|[]| |[] m1 e1], y as [s2|[]| |[] m2 e2]; try done; intros _ _.
  unfold fmul, SFmul. apply binary_round_aux_fnn. lia.
Qed.

Lemma fmul_exact a b : 0 < a -> 0 < b -> a * b < 2 ^ 53 -> fmul (float_of_Z a) (float_of_Z b) = float_of_Z (a * b).
Proof.
  destruct a as [|p|p], b as [|q|q]; try lia. intros _ _ H. change (Z.pos p * Z.pos q) with (Z.pos (p * q)) in *.
  assert (Z.pos p < 2 ^ 53 /\ Z.pos q < 2 ^ 53) as [Hp Hq] by lia.
  rewrite !float_of_Z_exact by done.
  destruct (exact_float_form p Hp) as (m1 & -> & E1), (exact_float_form q Hq) as (m2 & -> & E2).
  unfold fmul, SFmul. pose proof (digits2_small p Hp). pose proof (digits2_small q Hq). cbn [xorb].
  pose proof (digits2_mul p q). apply round_exact; [done|lia|].
  rewrite !Pos2Z.inj_mul, E1, E2.
  replace (- (Z.pos (digits2_pos p) - 53 + (Z.pos (digits2_pos q) - 53)))
    with ((53 - Z.pos (digits2_pos p)) + (53 - Z.pos (digits2_pos q))) by lia.
  rewrite Z.pow_add_r by lia. lia.
Qed.

Lemma fadd_exact a b : 0 <= a -> 0 <= b -> a + b < 2 ^ 53 -> fadd (float_of_Z a) (float_of_Z b) = float_of_Z (a + b).
Proof.
  destruct a as [|p|p], b as [|q|q]; try lia; intros _ _ H; [done| | |].
  - rewrite Z.add_0_l in *. rewrite !float_of_Z_exact by done. by destruct (exact_float_form q H) as (m & -> & _).
  - rewrite Z.add_0_r in *. rewrite !float_of_Z_exact by done. by destruct (exact_float_form p H) as (m & -> & _).
  - assert (Z.pos p < 2 ^ 53 /\ Z.pos q < 2 ^ 53) as [Hp Hq] by lia. change (Z.pos p + Z.pos q) with (Z.pos (p + q)) in *.
    rewrite !float_of_Z_exact by done.
    destruct (exact_float_form p Hp) as (m1 & -> & E1), (exact_float_form q Hq) as (m2 & -> & E2).
    pose proof (digits2_small p Hp) as D1. pose proof (digits2_small q Hq) as D2.
    set (d1 := Z.pos (digits2_pos p)) in *. set (d2 := Z.pos (digits2_pos q)) in *.
    unfold fadd, SFadd. set (ez := Z.min (d1 - 53) (d2 - 53)).
    destruct (shl_align_exact m1 (d1 - 53) ez) as (r1 & -> & R1); [lia|].
    destruct (shl_align_exact m2 (d2 - 53) ez) as (r2 & -> & R2); [lia|]. cbn [fst cond_Zopp].
    assert (Z.pos (r1 + r2) = Z.pos (p + q) * 2 ^ (- ez)) as E.
    { rewrite !Pos2Z.inj_add, R1, R2, E1, E2, <- !Z.mul_assoc, <- !Z.pow_add_r, Z.mul_add_distr_r by lia.
      do 2 f_equal; f_equal; lia. }
    change (Z.pos r1 + Z.pos r2) with (Z.pos (r1 + r2)). cbn [binary_normalize].
    apply binary_round_exact; [done|done|lia].
Qed.
