(* ===== verification/PyVal.v ===== *)
(** * Python values as they travel through JSON

    [pyval] is the type of what [json.loads] returns and [json.dumps] takes:
    [None], booleans, integers, floats, text, lists and dictionaries with text
    keys.  The file also models the conversions the records use on such values
    ([int(x)], [float(x)], [bool(x)], [x or y], [d[k]], [d.get(k, v)]). *)

From Stdlib Require Import ZArith Lia Ascii DecimalString.
From stdpp Require Import base strings list.
From S2P Require Import Prelude PyFloat.

#[warnings="-register-all"]
Inductive pyval : Type :=
  | PNone
  | PBool (b : bool)
  | PInt (z : Z)
  | PFloat (x : float)
  | PStr (s : string)
  | PList (l : list pyval)
  | PDict (d : list (string * pyval)).

(** Induction with hypotheses for the members of lists and dictionaries. *)
Section pyval_ind.
Context (P : pyval -> Prop).
Context (Hnone : P PNone) (Hbool : forall b, P (PBool b)) (Hint : forall z, P (PInt z)).
Context (Hfloat : forall x, P (PFloat x)) (Hstr : forall s, P (PStr s)).
Context (Hlist : forall l, Forall P l -> P (PList l)).
Context (Hdict : forall d, Forall (fun kv => P (snd kv)) d -> P (PDict d)).

Fixpoint pyval_ind' (v : pyval) : P v :=
  match v with
  | PNone => Hnone
  | PBool b => Hbool b
  | PInt z => Hint z
  | PFloat x => Hfloat x
  | PStr s => Hstr s
  | PList l =>
      Hlist l ((fix go (l : list pyval) : Forall P l :=
        match l with
        | [] => List.Forall_nil _
        | x :: xs => List.Forall_cons _ x xs (pyval_ind' x) (go xs)
        end) l)
  | PDict d =>
      Hdict d ((fix go (d : list (string * pyval)) : Forall (fun kv => P (snd kv)) d :=
        match d with
        | [] => List.Forall_nil _
        | kv :: xs => List.Forall_cons _ kv xs (pyval_ind' (snd kv)) (go xs)
        end) d)
  end.
End pyval_ind.

Definition float_is_zero (x : float) : bool :=
  match x with SpecFloat.S754_zero _ => true | _ => false end.

(** [bool(v)]. *)
Definition truthy (v : pyval) : bool :=
  match v with
  | PNone => false
  | PBool b => b
  | PInt z => negb (z =? 0)%Z
  | PFloat x => negb (float_is_zero x)
  | PStr s => negb (String.eqb s "")
  | PList l => match l with [] => false | _ => true end
  | PDict d => match d with [] => false | _ => true end
  end.

(** [a or b]. *)
Definition por (a b : pyval) : pyval := if truthy a then a else b.

Definition is_blank (c : ascii) : bool :=
  match Ascii.nat_of_ascii c with 32 | 9 | 10 | 11 | 12 | 13 => true | _ => false end.

Fixpoint lstrip (s : string) : string :=
  match s with
  | String c s' => if is_blank c then lstrip s' else s
  | EmptyString => EmptyString
  end.

Fixpoint rstrip (s : string) : string :=
  match s with
  | EmptyString => EmptyString
  | String c s' =>
      match rstrip s' with
      | EmptyString => if is_blank c then EmptyString else String c EmptyString
      | t => String c t
      end
  end.

(** [s.strip()]. *)
Definition strip (s : string) : string := rstrip (lstrip s).

(** [int(s)]; literals with underscores are outside the model. *)
Definition int_of_str (s : string) : result Z :=
  let t := strip s in
  let '(neg, ds) :=
    match t with
    | String "-" r => (true, r)
    | String "+" r => (false, r)
    | _ => (false, t)
    end in
  match ds with
  | EmptyString => Err (ValueError "invalid literal for int()")
  | _ =>
      if str_forallb is_digit ds then
        Ok (if neg then - digits_value 0 ds else digits_value 0 ds)%Z
      else if str_contains "_" ds then Err Unmodelled
      else Err (ValueError "invalid literal for int()")
  end.

(** [int(v)]. *)
Definition py_int (v : pyval) : result Z :=
  match v with
  | PInt z => Ok z
  | PBool b => Ok (if b then 1 else 0)%Z
  | PFloat x => int_of_float x
  | PStr s => int_of_str s
  | _ => Err (TypeError "int() argument must be a string or a number")
  end.

(** [float(v)]; text is outside the model. *)
Definition py_float (v : pyval) : result float :=
  match v with
  | PFloat x => Ok x
  | PInt z => float_of_int z
  | PBool b => float_of_int (if b then 1 else 0)%Z
  | PStr _ => Err Unmodelled
  | _ => Err (TypeError "float() argument must be a string or a number")
  end.

(** [str(v)] for the values whose text the records use. *)
Definition py_str (v : pyval) : result string :=
  match v with
  | PStr s => Ok s
  | PInt z => Ok (py_str_int z)
  | PNone => Ok "None"
  | PBool b => Ok (if b then "True" else "False")
  | PFloat x => if float_finite x then Ok (float_repr x) else Err Unmodelled
  | _ => Err Unmodelled
  end.

(** A field kept as it is must have its annotated type. *)
Definition as_str (v : pyval) : result string :=
  match v with PStr s => Ok s | _ => Err Unmodelled end.

Definition as_opt_str (v : pyval) : result (option string) :=
  match v with PNone => Ok None | PStr s => Ok (Some s) | _ => Err Unmodelled end.

Definition as_opt_int (v : pyval) : result (option Z) :=
  match v with PNone => Ok None | PInt z => Ok (Some z) | _ => Err Unmodelled end.

Definition as_opt_float (v : pyval) : result (option float) :=
  match v with PNone => Ok None | PFloat x => Ok (Some x) | _ => Err Unmodelled end.

(** Iterating over a JSON value: a list; iterating over [None] raises. *)
Definition as_list (v : pyval) : result (list pyval) :=
  match v with
  | PList l => Ok l
  | PNone => Err (TypeError "'NoneType' object is not iterable")
  | PInt _ | PBool _ | PFloat _ => Err (TypeError "object is not iterable")
  | _ => Err Unmodelled
  end.

(** Using a JSON value as a mapping. *)
Definition as_dict (v : pyval) : result (dict pyval) :=
  match v with
  | PDict d => Ok d
  | PNone => Err (TypeError "'NoneType' object is not subscriptable")
  | PInt _ | PBool _ | PFloat _ => Err (TypeError "object is not subscriptable")
  | _ => Err Unmodelled
  end.

(** [dict(v or {})]. *)
Definition dict_or_empty (v : pyval) : result (dict pyval) :=
  if truthy v then as_dict v else Ok [].

(** [d[k]]. *)
Definition item (d : dict pyval) (k : string) : result pyval :=
  of_option (KeyError k) (dict_get k d).

(** [d.get(k, dflt)] and [d.get(k)]. *)
Definition get_or (d : dict pyval) (k : string) (dflt : pyval) : pyval :=
  match dict_get k d with Some v => v | None => dflt end.
Definition get (d : dict pyval) (k : string) : pyval := get_or d k PNone.

(** Accessors in the shapes the records use. *)
Definition req_str (d : dict pyval) (k : string) : result string := item d k ≫= as_str.
Definition req_int (d : dict pyval) (k : string) : result Z := item d k ≫= py_int.
Definition opt_str (d : dict pyval) (k : string) : result (option string) := as_opt_str (get d k).
Definition opt_int (d : dict pyval) (k : string) : result (option Z) := as_opt_int (get d k).
Definition opt_float (d : dict pyval) (k : string) : result (option float) := as_opt_float (get d k).
Definition str_or (d : dict pyval) (k : string) (dflt : string) : result string :=
  as_str (get_or d k (PStr dflt)).
Definition int_or (d : dict pyval) (k : string) (dflt : Z) : result Z :=
  py_int (get_or d k (PInt dflt)).
Definition float_or (d : dict pyval) (k : string) (dflt : float) : result float :=
  py_float (get_or d k (PFloat dflt)).

(** The JSON form of optional fields. *)
Definition pstr_opt (o : option string) : pyval := match o with Some s => PStr s | None => PNone end.
Definition pint_opt (o : option Z) : pyval := match o with Some z => PInt z | None => PNone end.

(** [out[k] = f(x)] when [x is not None], at the end of a literal dictionary. *)
Definition opt_item {A} (k : string) (f : A -> pyval) (o : option A) : dict pyval :=
  match o with Some x => [(k, f x)] | None => [] end.

(** ** Key order

    [canon] sorts the keys of every dictionary, at every depth: what
    [sort_keys=True] does to a value before printing it. *)
Definition key_leb (a b : string * pyval) : bool := String.leb a.1 b.1.

Fixpoint canon (v : pyval) : pyval :=
  match v with
  | PList l => PList (map canon l)
  | PDict d => PDict (sort_by key_leb (map (fun kv => (kv.1, canon kv.2)) d))
  | _ => v
  end.

Definition canon_dict (d : dict pyval) : dict pyval := sort_by key_leb (dict_map canon d).

(** Every dictionary inside the value has distinct keys, as Python's do. *)
Fixpoint keys_ok (v : pyval) : bool :=
  match v with
  | PList l => forallb keys_ok l
  | PDict d => bool_decide (NoDup (dict_keys d)) && forallb (fun kv => keys_ok kv.2) d
  | _ => true
  end.

Definition dict_ok (d : dict pyval) : bool := keys_ok (PDict d).

Lemma key_leb_total x y : key_leb x y = true \/ key_leb y x = true.
Proof. apply leb_string_total. Qed.

Lemma key_leb_trans x y z : key_leb x y = true -> key_leb y z = true -> key_leb x z = true.
Proof. apply leb_string_trans. Qed.

Lemma dict_get_perm (k : string) (d d' : dict pyval) :
  d ≡ₚ d' -> NoDup (dict_keys d) -> dict_get k d = dict_get k d'.
Proof.
  intros Hp Hnd.
  assert (NoDup (dict_keys d')) as Hnd'.
  { unfold dict_keys in *. by rewrite <- Hp. }
  destruct (dict_get k d) as [v|] eqn:E; symmetry.
  - apply dict_elem_get; [done|]. rewrite <- Hp. by apply dict_get_elem.
  - apply dict_get_None. apply dict_get_None in E. intros Hin. apply E.
    unfold dict_keys in *. by rewrite Hp.
Qed.

Lemma canon_dict_keys_NoDup d : NoDup (dict_keys d) -> NoDup (dict_keys (canon_dict d)).
Proof.
  intros H. unfold canon_dict, dict_keys. rewrite sort_by_perm.
  fold (dict_keys (dict_map canon d)). by rewrite dict_keys_map.
Qed.

(** Looking a key up in the sorted form. *)
Lemma canon_dict_get k d : NoDup (dict_keys d) -> dict_get k (canon_dict d) = canon <$> dict_get k d.
Proof.
  intros H. rewrite <- dict_get_map. unfold canon_dict. symmetry.
  apply dict_get_perm; [by rewrite sort_by_perm|]. by rewrite dict_keys_map.
Qed.

Lemma canon_PDict d : canon (PDict d) = PDict (canon_dict d).
Proof. done. Qed.

Lemma canon_idemp v : canon (canon v) = canon v.
Proof.
  induction v as [| | | | |l IH|d IH] using pyval_ind'; try done; simpl; f_equal.
  - rewrite map_map. apply map_ext_Forall. exact IH.
  - set (d' := map (fun kv => (kv.1, canon kv.2)) d).
    assert (map (fun kv => (kv.1, canon kv.2)) (sort_by key_leb d') = sort_by key_leb d') as ->.
    { rewrite <- (map_id (sort_by key_leb d')) at 2. apply map_ext_Forall.
      rewrite (sort_by_perm key_leb d'). subst d'. apply Forall_map.
      eapply Forall_impl; [exact IH|]. intros [k w]; simpl. by intros ->. }
    apply sort_by_idemp; [apply key_leb_total|apply key_leb_trans].
Qed.

Lemma canon_truthy v : truthy (canon v) = truthy v.
Proof.
  destruct v as [| | | | |l|d]; try done; simpl.
  - by destruct l.
  - pose proof (sort_by_perm key_leb (map (fun kv => (kv.1, canon kv.2)) d)) as Hp.
    apply Permutation_length in Hp. rewrite length_map in Hp.
    destruct (sort_by _ _), d; simpl in *; done.
Qed.

(** Two dictionaries that hold the same canonical values under the same keys
    have the same canonical form. *)
Lemma canon_dict_ext d d' :
  dict_keys d = dict_keys d' ->
  map (fun kv => canon kv.2) d = map (fun kv => canon kv.2) d' ->
  canon_dict d = canon_dict d'.
Proof.
  intros Hk Hv. unfold canon_dict. f_equal. unfold dict_map.
  revert d' Hk Hv. induction d as [|[k v] d IH]; intros [|[k' v'] d'] Hk Hv; simpl in *; try done.
  injection Hk as -> Hk. injection Hv as Hv1 Hv. rewrite Hv1. f_equal. auto.
Qed.
