(* ===== verification/Json.v ===== *)
(** * JSON text

    [json.dumps(v, sort_keys=True, separators=(",", ":"))] and [json.loads], as
    every record of the protocol is written to and read from the bucket.  The
    main lemma is the round trip: reading what was written gives back the value
    with the keys of its dictionaries sorted. *)

From Stdlib Require Import ZArith Lia Ascii DecimalString DecimalZ Decimal.
From stdpp Require Import base strings list.
From S2P Require Import Prelude PyFloat PyVal.

Local Open Scope N_scope.

Definition quote_char : ascii := "034"%char.
Definition backslash : ascii := "092"%char.

Definition code (c : ascii) : N := Ascii.N_of_ascii c.
Definition is_ascii (c : ascii) : bool := (code c <? 128)%N.

(** ** UTF-8 *)

Definition byte (n : N) : ascii := Ascii.ascii_of_N n.

(** The UTF-8 bytes of a code point. *)
Definition utf8_encode (u : N) : string :=
  (if u <? 128 then String (byte u) EmptyString
   else if u <? 2048 then
     String (byte (192 + u / 64)) (String (byte (128 + u mod 64)) EmptyString)
   else if u <? 65536 then
     String (byte (224 + u / 4096))
       (String (byte (128 + u / 64 mod 64)) (String (byte (128 + u mod 64)) EmptyString))
   else
     String (byte (240 + u / 262144))
       (String (byte (128 + u / 4096 mod 64))
          (String (byte (128 + u / 64 mod 64)) (String (byte (128 + u mod 64)) EmptyString))))%N.

(** The strict decoder's view of a lead byte: how many bytes follow, and the
    range of the first of them. *)
Definition utf8_lead (b : N) : option (N * N * N) :=
  (if b <? 128 then Some (0, 0, 0)
   else if b <? 194 then None
   else if b <? 224 then Some (1, 128, 191)
   else if b =? 224 then Some (2, 160, 191)
   else if b =? 237 then Some (2, 128, 159)
   else if b <? 240 then Some (2, 128, 191)
   else if b =? 240 then Some (3, 144, 191)
   else if b <? 244 then Some (3, 128, 191)
   else if b =? 244 then Some (3, 128, 143)
   else None)%N.

Fixpoint utf8_valid_go (need lo hi : N) (s : string) : bool :=
  match s with
  | EmptyString => (need =? 0)%N
  | String c s' =>
      if (need =? 0)%N then
        match utf8_lead (code c) with
        | Some (n, lo', hi') => utf8_valid_go n lo' hi' s'
        | None => false
        end
      else (lo <=? code c)%N && (code c <=? hi)%N && utf8_valid_go (need - 1) 128 191 s'
  end.

(** [b.decode("utf-8")]. *)
Definition utf8_decode (s : string) : result string :=
  if utf8_valid_go 0 0 0 s then Ok s else Err (ValueError "'utf-8' codec can't decode").

(** ** Printing *)

Definition hex_digit (n : N) : ascii :=
  byte (if n <? 10 then 48 + n else 87 + n)%N.

Definition u_escape (u : N) : string :=
  String backslash (String "u"
    (String (hex_digit (u / 4096 mod 16)) (String (hex_digit (u / 256 mod 16))
      (String (hex_digit (u / 16 mod 16)) (String (hex_digit (u mod 16)) EmptyString))))).

(** A code point outside ASCII: one or two UTF-16 units. *)
Definition escape_point (u : N) : string :=
  if (u <? 65536)%N then u_escape u
  else u_escape (55296 + (u - 65536) / 1024) +:+ u_escape (56320 + (u - 65536) mod 1024).

Definition short_escape (c : ascii) : option ascii :=
  match code c with
  | 34 => Some quote_char
  | 92 => Some backslash
  | 10 => Some "n"%char
  | 13 => Some "r"%char
  | 9 => Some "t"%char
  | 12 => Some "f"%char
  | 8 => Some "b"%char
  | _ => None
  end.

(** An ASCII character inside a JSON string; [ea] is [ensure_ascii], under
    which DEL is escaped as well. *)
Definition escape_char (ea : bool) (c : ascii) : string :=
  match short_escape c with
  | Some e => String backslash (String e EmptyString)
  | None =>
      if (code c <? 32)%N || (ea && (code c =? 127)%N) then u_escape (code c)
      else String c EmptyString
  end.

(** The body of a string.  [need] counts the continuation bytes still to come
    of the code point accumulated in [acc]. *)
Fixpoint escape_body (ea : bool) (need acc : N) (s : string) : string :=
  match s with
  | EmptyString => EmptyString
  | String c s' =>
      if is_ascii c then escape_char ea c +:+ escape_body ea 0 0 s'
      else if negb ea then String c (escape_body ea 0 0 s')
      else if (need =? 0)%N then
        let b := code c in
        if (b <? 224)%N then escape_body ea 1 (b - 192) s'
        else if (b <? 240)%N then escape_body ea 2 (b - 224) s'
        else escape_body ea 3 (b - 240) s'
      else
        let acc' := (acc * 64 + (code c - 128))%N in
        if (need =? 1)%N then escape_point acc' +:+ escape_body ea 0 0 s'
        else escape_body ea (need - 1) acc' s'
  end.

Definition dump_str (ea : bool) (s : string) : string :=
  String quote_char (escape_body ea 0 0 s +:+ String quote_char EmptyString).

Fixpoint dumps (ea : bool) (v : pyval) : string :=
  match v with
  | PNone => "null"
  | PBool true => "true"
  | PBool false => "false"
  | PInt z => py_str_int z
  | PFloat x => float_repr x
  | PStr s => dump_str ea s
  | PList l => "[" +:+ str_join "," (map (dumps ea) l) +:+ "]"
  | PDict d =>
      "{" +:+ str_join "," (map (fun kv => dump_str ea kv.1 +:+ ":" +:+ dumps ea kv.2) d) +:+ "}"
  end.

(** [json.dumps(v, sort_keys=True, separators=(",", ":"))] and the same with
    [ensure_ascii=False]. *)
Definition json_dumps (v : pyval) : string := dumps true (canon v).
Definition json_dumps_unicode (v : pyval) : string := dumps false (canon v).

(** ** Reading *)

Definition hex_value (c : ascii) : option N :=
  let n := code c in
  if is_digit c then Some (n - 48)%N
  else if (97 <=? n)%N && (n <=? 102)%N then Some (n - 87)%N
  else if (65 <=? n)%N && (n <=? 70)%N then Some (n - 55)%N
  else None.

Definition hex4 (a b c d : ascii) : option N :=
  match hex_value a, hex_value b, hex_value c, hex_value d with
  | Some x, Some y, Some z, Some w => Some (x * 4096 + y * 256 + z * 16 + w)%N
  | _, _, _, _ => None
  end.

Definition unescape (c : ascii) : option ascii :=
  match code c with
  | 34 => Some quote_char
  | 92 => Some backslash
  | 47 => Some "/"%char
  | 98 => Some "008"%char
  | 102 => Some "012"%char
  | 110 => Some "010"%char
  | 114 => Some "013"%char
  | 116 => Some "009"%char
  | _ => None
  end.

Definition prepend (p : string) (r : option (string * string)) : option (string * string) :=
  match r with Some (s, rest) => Some (p +:+ s, rest) | None => None end.

(** The body of a string literal after its opening quote; a lone surrogate has
    no UTF-8 form and is refused. *)
Fixpoint parse_str (s : string) : option (string * string) :=
  match s with
  | EmptyString => None
  | String c s1 =>
      if Ascii.eqb c quote_char then Some (EmptyString, s1)
      else if Ascii.eqb c backslash then
        match s1 with
        | EmptyString => None
        | String e s2 =>
            if Ascii.eqb e "u" then
              match s2 with
              | String h1 (String h2 (String h3 (String h4 s3))) =>
                  match hex4 h1 h2 h3 h4 with
                  | None => None
                  | Some u =>
                      if (55296 <=? u)%N && (u <=? 56319)%N then
                        match s3 with
                        | String b (String u' (String g1 (String g2 (String g3 (String g4 s4))))) =>
                            if Ascii.eqb b backslash && Ascii.eqb u' "u" then
                              match hex4 g1 g2 g3 g4 with
                              | Some w =>
                                  if (56320 <=? w)%N && (w <=? 57343)%N then
                                    prepend (utf8_encode (65536 + (u - 55296) * 1024 + (w - 56320)))
                                      (parse_str s4)
                                  else None
                              | None => None
                              end
                            else None
                        | _ => None
                        end
                      else if (56320 <=? u)%N && (u <=? 57343)%N then None
                      else prepend (utf8_encode u) (parse_str s3)
                  end
              | _ => None
              end
            else match unescape e with
                 | Some c' => prepend (String c' EmptyString) (parse_str s2)
                 | None => None
                 end
        end
      else if (code c <? 32)%N then None
      else prepend (String c EmptyString) (parse_str s1)
  end.

Definition is_numchar (c : ascii) : bool :=
  is_digit c || Ascii.eqb c "-" || Ascii.eqb c "+" || Ascii.eqb c "."
  || Ascii.eqb c "e" || Ascii.eqb c "E".

Fixpoint span_num (s : string) : string * string :=
  match s with
  | String c s' =>
      if is_numchar c then let '(t, r) := span_num s' in (String c t, r)
      else (EmptyString, s)
  | EmptyString => (EmptyString, EmptyString)
  end.

(** A number token: an integer in its canonical spelling (no leading zeros), or
    a float. *)
Definition parse_number (t : string) : option pyval :=
  match NilZero.int_of_string t with
  | Some d =>
      let z := Z.of_int d in
      if String.eqb (py_str_int z) t || String.eqb t "-0" then Some (PInt z) else None
  | None => PFloat <$> float_of_token t
  end.

Definition is_ws (c : ascii) : bool :=
  match code c with 32 | 9 | 10 | 13 => true | _ => false end.

Fixpoint skip_ws (s : string) : string :=
  match s with
  | String c s' => if is_ws c then skip_ws s' else s
  | EmptyString => EmptyString
  end.

Definition parse_literal (s : string) : option (pyval * string) :=
  if startswith "null" s then Some (PNone, str_drop 4 s)
  else if startswith "true" s then Some (PBool true, str_drop 4 s)
  else if startswith "false" s then Some (PBool false, str_drop 5 s)
  else if startswith "NaN" s then Some (PFloat SpecFloat.S754_nan, str_drop 3 s)
  else if startswith "Infinity" s then Some (PFloat (SpecFloat.S754_infinity false), str_drop 8 s)
  else if startswith "-Infinity" s then Some (PFloat (SpecFloat.S754_infinity true), str_drop 9 s)
  else None.

Definition parse_scalar (s : string) : option (pyval * string) :=
  let '(t, r) := span_num s in
  match parse_number t with
  | Some v => Some (v, r)
  | None => parse_literal s
  end.

(** The fuel bounds the nesting and the number of members; the length of the
    text is always enough. *)
Fixpoint parse_val (fuel : nat) (s : string) : option (pyval * string) :=
  match fuel with
  | O => None
  | S f =>
      match s with
      | EmptyString => None
      | String c s1 =>
          if Ascii.eqb c quote_char then
            match parse_str s1 with Some (t, r) => Some (PStr t, r) | None => None end
          else if Ascii.eqb c "[" then
            match skip_ws s1 with
            | String "]" r => Some (PList [], r)
            | s2 => match parse_elems f s2 with
                    | Some (l, r) => Some (PList l, r)
                    | None => None
                    end
            end
          else if Ascii.eqb c "{" then
            match skip_ws s1 with
            | String "}" r => Some (PDict [], r)
            | s2 => match parse_members f s2 with
                    | Some (l, r) => Some (PDict (dict_update [] l), r)
                    | None => None
                    end
            end
          else parse_scalar s
      end
  end
with parse_elems (fuel : nat) (s : string) : option (list pyval * string) :=
  match fuel with
  | O => None
  | S f =>
      match parse_val f s with
      | None => None
      | Some (v, r) =>
          match skip_ws r with
          | String "]" r' => Some ([v], r')
          | String "," r' =>
              match parse_elems f (skip_ws r') with
              | Some (l, r'') => Some (v :: l, r'')
              | None => None
              end
          | _ => None
          end
      end
  end
with parse_members (fuel : nat) (s : string) : option (list (string * pyval) * string) :=
  match fuel with
  | O => None
  | S f =>
      match s with
      | String c s1 =>
          if Ascii.eqb c quote_char then
            match parse_str s1 with
            | None => None
            | Some (k, r) =>
                match skip_ws r with
                | String ":" r1 =>
                    match parse_val f (skip_ws r1) with
                    | None => None
                    | Some (v, r2) =>
                        match skip_ws r2 with
                        | String "}" r3 => Some ([(k, v)], r3)
                        | String "," r3 =>
                            match parse_members f (skip_ws r3) with
                            | Some (l, r4) => Some ((k, v) :: l, r4)
                            | None => None
                            end
                        | _ => None
                        end
                    end
                | _ => None
                end
            end
          else None
      | EmptyString => None
      end
  end.

(** [json.loads(s)]. *)
Definition json_loads (s : string) : result pyval :=
  match parse_val (S (String.length s)) (skip_ws s) with
  | Some (v, r) =>
      match skip_ws r with
      | EmptyString => Ok v
      | _ => Err (ValueError "JSONDecodeError: Extra data")
      end
  | None => Err (ValueError "JSONDecodeError")
  end.

(** ** The values the round trip covers

    ASCII text, floats that read back from their printed form, distinct keys in
    every dictionary. *)
Definition float_ok (x : float) : bool :=
  str_forallb is_numchar (float_repr x) &&
  match parse_number (float_repr x) with
  | Some (PFloat y) => bool_decide (y = x)
  | _ => false
  end.

Fixpoint json_ok (v : pyval) : bool :=
  match v with
  | PFloat x => float_ok x
  | PStr s => str_forallb is_ascii s
  | PList l => forallb json_ok l
  | PDict d =>
      bool_decide (NoDup (dict_keys d)) &&
      forallb (fun kv => str_forallb is_ascii kv.1 && json_ok kv.2) d
  | _ => true
  end.

(** ** Lemmas *)

#[local] Arguments String.append !s1 s2 : simpl nomatch.

Definition num_delim (s : string) : bool :=
  match s with String c _ => negb (is_numchar c) | EmptyString => true end.

Lemma str_app_assoc (a b c : string) : (a +:+ b) +:+ c = a +:+ b +:+ c.
Proof. induction a as [|x a IH]; [done|]. cbn. by f_equal. Qed.

Lemma str_app_nil (a : string) : a +:+ EmptyString = a.
Proof. induction a as [|x a IH]; [done|]. cbn. by f_equal. Qed.

Lemma str_app_length (a b : string) : String.length (a +:+ b) = (String.length a + String.length b)%nat.
Proof. induction a as [|x a IH]; [done|]. cbn. by f_equal. Qed.

Lemma str_forallb_app p (a b : string) : str_forallb p (a +:+ b) = str_forallb p a && str_forallb p b.
Proof. induction a as [|x a IH]; [done|]. cbn. rewrite IH. by rewrite andb_assoc. Qed.

Lemma span_num_app t r :
  str_forallb is_numchar t = true -> num_delim r = true -> span_num (t +:+ r) = (t, r).
Proof.
  intros Ht Hr. induction t as [|c t IH]; cbn.
  - destruct r as [|c r]; [done|]. cbn in *. by apply negb_true_iff in Hr as ->.
  - cbn in Ht. apply andb_true_iff in Ht as [-> Ht]. by rewrite IH.
Qed.

Lemma string_of_uint_digits d : str_forallb is_numchar (NilEmpty.string_of_uint d) = true.
Proof. induction d; cbn; done. Qed.

Lemma py_str_int_numchars z : str_forallb is_numchar (py_str_int z) = true.
Proof.
  unfold py_str_int, NilZero.string_of_int, NilZero.string_of_uint.
  destruct (Z.to_int z) as [[]|[]]; cbn; try done; apply string_of_uint_digits.
Qed.

Lemma to_int_not_nil z : Z.to_int z <> Pos Nil /\ Z.to_int z <> Neg Nil.
Proof. split; intros E; pose proof (DecimalZ.of_to z) as H; rewrite E in H; subst z; discriminate E. Qed.

Lemma py_str_int_parse z : NilZero.int_of_string (py_str_int z) = Some (Z.to_int z).
Proof. destruct (to_int_not_nil z). by apply NilZero.isi. Qed.

Lemma py_str_int_inj x y : py_str_int x = py_str_int y -> x = y.
Proof.
  intros H. pose proof (py_str_int_parse x) as Hx. rewrite H, py_str_int_parse in Hx.
  injection Hx as Hx. rewrite <- (DecimalZ.of_to x), <- (DecimalZ.of_to y). congruence.
Qed.

Lemma parse_number_int z : parse_number (py_str_int z) = Some (PInt z).
Proof. unfold parse_number. by rewrite py_str_int_parse, DecimalZ.of_to, String.eqb_refl. Qed.

(** Printing with either setting of [ensure_ascii]. *)
Section printing.
Context (ea : bool).

Lemma parse_str_char c t :
  is_ascii c = true -> parse_str (escape_char ea c +:+ t) = prepend (String c EmptyString) (parse_str t).
Proof. destruct ea, c as [[] [] [] [] [] [] [] []]; intros Hc; try discriminate Hc; reflexivity. Qed.

Lemma parse_str_body s r :
  str_forallb is_ascii s = true ->
  parse_str (escape_body ea 0 0 s +:+ String quote_char r) = Some (s, r).
Proof.
  induction s as [|c s IH]; intros Hs; [done|].
  cbn in Hs. apply andb_true_iff in Hs as [Hc Hs]. cbn [escape_body]. rewrite Hc, str_app_assoc.
  rewrite parse_str_char by done. by rewrite (IH Hs).
Qed.

Lemma dump_str_app s r :
  dump_str ea s +:+ r = String quote_char (escape_body ea 0 0 s +:+ String quote_char r).
Proof. unfold dump_str. cbn. by rewrite str_app_assoc. Qed.

(** How much fuel a value needs. *)
Fixpoint vsize (v : pyval) : nat :=
  match v with
  | PList l => S (list_sum (map (fun x => S (vsize x)) l))
  | PDict d => S (list_sum (map (fun kv => S (vsize kv.2)) d))
  | _ => 1
  end.

(** The first character of a printed value. *)
Definition starts_value (s : string) : bool :=
  match s with
  | String c _ => negb (is_ws c) && negb (Ascii.eqb c "]") && negb (Ascii.eqb c "}")
  | EmptyString => false
  end.

Lemma skip_ws_starts s : starts_value s = true -> skip_ws s = s.
Proof. destruct s as [|c s]; [done|]. cbn. by destruct (is_ws c). Qed.

Lemma numchar_starts t r :
  str_forallb is_numchar t = true -> t <> EmptyString -> starts_value (t +:+ r) = true.
Proof.
  destruct t as [|c t]; [done|]. cbn. intros H _. apply andb_true_iff in H as [H _].
  destruct c as [[] [] [] [] [] [] [] []]; try discriminate H; reflexivity.
Qed.

Lemma py_str_int_not_nil z : py_str_int z <> EmptyString.
Proof. intros E. pose proof (py_str_int_parse z) as H. by rewrite E in H. Qed.

Lemma float_ok_spec x :
  float_ok x = true ->
  str_forallb is_numchar (float_repr x) = true /\ parse_number (float_repr x) = Some (PFloat x)
  /\ float_repr x <> EmptyString.
Proof.
  unfold float_ok. intros H. apply andb_true_iff in H as [H1 H2].
  destruct (parse_number (float_repr x)) as [[]|] eqn:E; try done.
  apply bool_decide_eq_true in H2 as ->. split; [done|]. split; [done|].
  intros E2. by rewrite E2 in E.
Qed.

Lemma dumps_starts v r : json_ok v = true -> starts_value (dumps ea v +:+ r) = true.
Proof.
  destruct v as [|[]|z|x|s|l|d]; try done; intros H.
  - apply numchar_starts; [apply py_str_int_numchars|apply py_str_int_not_nil].
  - apply float_ok_spec in H as (H1 & _ & H2). by apply numchar_starts.
Qed.

Lemma parse_scalar_num t r v :
  str_forallb is_numchar t = true -> num_delim r = true -> parse_number t = Some v ->
  parse_scalar (t +:+ r) = Some (v, r).
Proof. intros Ht Hr Hv. unfold parse_scalar. by rewrite span_num_app, Hv. Qed.

Lemma parse_val_num f t r v :
  str_forallb is_numchar t = true -> t <> EmptyString -> num_delim r = true ->
  parse_number t = Some v -> parse_val (S f) (t +:+ r) = Some (v, r).
Proof.
  intros Ht Hne Hr Hv. rewrite <- (parse_scalar_num t r v Ht Hr Hv).
  destruct t as [|c t]; [done|]. cbn in Ht. apply andb_true_iff in Ht as [Hc _].
  cbn [parse_val String.append].
  destruct c as [[] [] [] [] [] [] [] []]; try discriminate Hc; reflexivity.
Qed.

Lemma join_cons x xs sep : str_join sep (x :: xs) =
  match xs with [] => x | _ => x +:+ sep +:+ str_join sep xs end.
Proof. by destruct xs. Qed.

Definition parses (v : pyval) : Prop := forall f r,
  json_ok v = true -> (vsize v <= f)%nat -> num_delim r = true ->
  parse_val f (dumps ea v +:+ r) = Some (v, r).

Lemma skip_comma x : skip_ws ("," +:+ x) = String "," x.
Proof. reflexivity. Qed.

Lemma skip_colon x : skip_ws (":" +:+ x) = String ":" x.
Proof. reflexivity. Qed.

Lemma skip_brace x : skip_ws (String "}" x) = String "}" x.
Proof. reflexivity. Qed.

Lemma skip_bracket x : skip_ws (String "]" x) = String "]" x.
Proof. reflexivity. Qed.

Lemma join_dumps_starts l r :
  l <> [] -> forallb json_ok l = true ->
  starts_value (str_join "," (map (dumps ea) l) +:+ r) = true.
Proof.
  destruct l as [|w l]; [done|]. intros _ Hok. cbn [map]. rewrite join_cons.
  cbn in Hok. apply andb_true_iff in Hok as [Hok2 _].
  destruct l; cbn [map]; [|rewrite !str_app_assoc]; by apply dumps_starts.
Qed.

Lemma parse_elems_ok l f r :
  Forall parses l -> l <> [] -> forallb json_ok l = true ->
  (list_sum (map (fun x => S (vsize x)) l) <= f)%nat ->
  parse_elems f (str_join "," (map (dumps ea) l) +:+ String "]" r) = Some (l, r).
Proof.
  intros Hl. revert f. induction Hl as [|v l Hv Hl IH]; intros f Hne Hok Hf; [done|].
  cbn in Hok. apply andb_true_iff in Hok as [Hok1 Hok]. cbn in Hf.
  destruct f as [|f]; [lia|]. cbn [map]. rewrite join_cons.
  destruct l as [|w l].
  - cbn [map parse_elems]. rewrite Hv, skip_bracket; [done|done|lia|done].
  - cbn [parse_elems map]. rewrite !str_app_assoc, Hv, skip_comma; [|done|lia|done].
    change (dumps ea w :: map (dumps ea) l) with (map (dumps ea) (w :: l)).
    rewrite skip_ws_starts by (by apply join_dumps_starts).
    rewrite IH; [done|done|done|]. cbn in *. lia.
Qed.

Definition dump_member (kv : string * pyval) : string :=
  dump_str ea kv.1 +:+ ":" +:+ dumps ea kv.2.

Lemma dump_member_app k v r :
  dump_member (k, v) +:+ r =
  String quote_char (escape_body ea 0 0 k +:+ String quote_char (":" +:+ dumps ea v +:+ r)).
Proof. unfold dump_member. cbn [fst snd]. by rewrite !str_app_assoc, dump_str_app. Qed.

Lemma parse_members_step f k v r d r' :
  parses v -> str_forallb is_ascii k = true -> json_ok v = true -> (vsize v <= f)%nat ->
  num_delim r = true ->
  match skip_ws r with
  | String "}" r3 => Some ([(k, v)], r3)
  | String "," r3 =>
      match parse_members f (skip_ws r3) with
      | Some (l, r4) => Some ((k, v) :: l, r4)
      | None => None
      end
  | _ => None
  end = Some (d, r') ->
  parse_members (S f) (dump_member (k, v) +:+ r) = Some (d, r').
Proof.
  intros Hv Hk Hok Hf Hr E. rewrite dump_member_app. cbn [parse_members].
  rewrite Ascii.eqb_refl, parse_str_body, skip_colon by done.
  rewrite skip_ws_starts by (by apply dumps_starts). by rewrite Hv.
Qed.

Lemma parse_members_ok d f r :
  Forall (fun kv => parses kv.2) d -> d <> [] ->
  forallb (fun kv => str_forallb is_ascii kv.1 && json_ok kv.2) d = true ->
  (list_sum (map (fun kv => S (vsize kv.2)) d) <= f)%nat ->
  parse_members f (str_join "," (map dump_member d) +:+ String "}" r) = Some (d, r).
Proof.
  intros Hl. revert f. induction Hl as [|[k v] l Hv Hl IH]; intros f Hne Hok Hf; [done|].
  cbn in Hok, Hv. apply andb_true_iff in Hok as [Hok1 Hok]. apply andb_true_iff in Hok1 as [Hk Hok1].
  cbn in Hf. destruct f as [|f]; [lia|]. cbn [map]. rewrite join_cons.
  destruct l as [|w l]; cbn [map].
  - apply parse_members_step; [done..|lia|done|]. by rewrite skip_brace.
  - rewrite !str_app_assoc. apply parse_members_step; [done..|lia|done|].
    rewrite skip_comma. change (dump_member w :: map dump_member l) with (map dump_member (w :: l)).
    rewrite skip_ws_starts.
    + rewrite IH; [done|done|done|]. cbn in *. lia.
    + cbn [map]. rewrite join_cons. destruct w, l; cbn [map]; [|rewrite !str_app_assoc]; by rewrite dump_member_app.
Qed.

Lemma parse_list_ok l f r :
  Forall parses l -> forallb json_ok l = true -> (vsize (PList l) <= S f)%nat ->
  parse_val (S f) (dumps ea (PList l) +:+ r) = Some (PList l, r).
Proof.
  intros IH Hok Hf. destruct l as [|v l]; [done|]. cbn [dumps]. rewrite !str_app_assoc.
  change ("]" +:+ r) with (String "]" r).
  pose proof (parse_elems_ok (v :: l) f r IH ltac:(done) Hok ltac:(cbn in *; lia)) as HE.
  pose proof (join_dumps_starts (v :: l) (String "]" r) ltac:(done) Hok) as Hs.
  set (body := str_join "," (map (dumps ea) (v :: l)) +:+ String "]" r) in *.
  change ("[" +:+ body) with (String "[" body). cbn [parse_val].
  rewrite skip_ws_starts by done. destruct body as [|c t]; [done|].
  change (Ascii.eqb "[" quote_char) with false. change (Ascii.eqb "[" "[") with true. cbn iota.
  destruct c as [[] [] [] [] [] [] [] []]; first [discriminate Hs | cbn iota; by rewrite HE].
Qed.

Lemma parse_dict_ok d f r :
  Forall (fun kv => parses kv.2) d -> json_ok (PDict d) = true -> (vsize (PDict d) <= S f)%nat ->
  parse_val (S f) (dumps ea (PDict d) +:+ r) = Some (PDict d, r).
Proof.
  intros IH Hok Hf. destruct d as [|kv d]; [done|].
  cbn in Hok. apply andb_true_iff in Hok as [Hnd Hok]. apply bool_decide_eq_true in Hnd.
  cbn [dumps]. rewrite !str_app_assoc. change ("}" +:+ r) with (String "}" r).
  change (fun kv0 : string * pyval => dump_str ea kv0.1 +:+ ":" +:+ dumps ea kv0.2) with dump_member.
  pose proof (parse_members_ok (kv :: d) f r IH ltac:(done) Hok ltac:(cbn in *; lia)) as HE.
  assert (exists t, str_join "," (map dump_member (kv :: d)) +:+ String "}" r = String quote_char t) as [t Et].
  { cbn [map]. rewrite join_cons. destruct kv, d; cbn [map]; [|rewrite !str_app_assoc];
      rewrite dump_member_app; by eexists. }
  rewrite Et in *. change ("{" +:+ String quote_char t) with (String "{" (String quote_char t)).
  change (parse_val (S f) (String "{" (String quote_char t))) with
    (match parse_members f (String quote_char t) with
     | Some (l, r) => Some (PDict (dict_update [] l), r)
     | None => None
     end).
  rewrite HE. by rewrite (dict_update_nil (kv :: d)).
Qed.

Lemma dumps_parses v : parses v.
Proof.
  induction v as [|[]|z|x|s|l IH|d IH] using pyval_ind'; intros f r Hok Hf Hr;
    (destruct f as [|f]; [cbn in Hf; lia|]); try reflexivity.
  - cbn [dumps]. apply parse_val_num; auto using py_str_int_numchars, py_str_int_not_nil, parse_number_int.
  - apply float_ok_spec in Hok as (H1 & H2 & H3). by apply parse_val_num.
  - cbn [dumps]. rewrite dump_str_app. cbn [parse_val]. rewrite Ascii.eqb_refl.
    by rewrite parse_str_body.
  - by apply parse_list_ok.
  - by apply parse_dict_ok.
Qed.

(** The text is long enough to provide its own fuel. *)
Lemma list_sum_join_length (ss : list string) (ns : list nat) :
  Forall2 (fun s n => n <= String.length s)%nat ss ns ->
  (list_sum (map S ns) <= S (String.length (str_join "," ss)))%nat.
Proof.
  induction 1 as [|s n ss ns Hs H IH]; [cbn; lia|].
  rewrite join_cons. inversion H; subst; cbn [map list_sum foldr] in *; [cbn; lia|].
  rewrite !str_app_length. change (String.length ",") with 1%nat. cbn in *. lia.
Qed.

Lemma vsize_length v : json_ok v = true -> (vsize v <= String.length (dumps ea v))%nat.
Proof.
  induction v as [|[]|z|x|s|l IH|d IH] using pyval_ind'; intros Hok; try (cbn; lia).
  - pose proof (py_str_int_not_nil z). cbn. destruct (py_str_int z); [done|cbn; lia].
  - apply float_ok_spec in Hok as (_ & _ & H). cbn. destruct (float_repr x); [done|cbn; lia].
  - cbn [dumps vsize]. rewrite !str_app_length.
    pose proof (list_sum_join_length (map (dumps ea) l) (map vsize l)) as H.
    rewrite map_map in H. change (String.length "[") with 1%nat. change (String.length "]") with 1%nat.
    enough (list_sum (map (fun x => S (vsize x)) l) <= S (String.length (str_join "," (map (dumps ea) l))))%nat by lia.
    apply H. cbn in Hok. clear H. induction IH; cbn in *; constructor;
      apply andb_true_iff in Hok as [? ?]; auto.
  - cbn [dumps vsize]. rewrite !str_app_length.
    change (fun kv : string * pyval => dump_str ea kv.1 +:+ ":" +:+ dumps ea kv.2) with dump_member.
    pose proof (list_sum_join_length (map dump_member d) (map (fun kv => vsize kv.2) d)) as H.
    rewrite map_map in H. change (String.length "{") with 1%nat. change (String.length "}") with 1%nat.
    enough (list_sum (map (fun kv => S (vsize kv.2)) d) <= S (String.length (str_join "," (map dump_member d))))%nat by lia.
    apply H. cbn in Hok. apply andb_true_iff in Hok as [_ Hok]. clear H.
    induction IH; cbn in *; constructor; apply andb_true_iff in Hok as [Hx ?]; auto.
    apply andb_true_iff in Hx as [_ Hx]. cbn [String.length].
    rewrite str_app_length. cbn [String.length].
    match goal with IHv : json_ok _ = true -> _ |- _ => specialize (IHv Hx) end. lia.
Qed.

Lemma json_loads_dumps v : json_ok v = true -> json_loads (dumps ea v) = Ok v.
Proof.
  intros H. unfold json_loads. rewrite <- (str_app_nil (dumps ea v)) at 2.
  rewrite skip_ws_starts by (by apply dumps_starts).
  rewrite dumps_parses; [done|done| |done]. pose proof (vsize_length v H). lia.
Qed.

End printing.

Lemma forallb_perm {A} (f : A -> bool) l l' : l ≡ₚ l' -> forallb f l = forallb f l'.
Proof.
  induction 1 as [|x l l' _ IH|x y l|l l' l'' _ IH1 _ IH2]; cbn; [done|by rewrite IH| |congruence].
  by rewrite !andb_assoc, (andb_comm (f x)).
Qed.

Lemma json_ok_canon v : json_ok v = true -> json_ok (canon v) = true.
Proof.
  induction v as [|[]|z|x|s|l IH|d IH] using pyval_ind'; intros Hok; try done.
  - cbn in *. induction IH as [|v l Hv Hl IHl]; [done|]. cbn in *.
    apply andb_true_iff in Hok as [? ?]. rewrite Hv by done. auto.
  - rewrite canon_PDict. cbn [json_ok] in *. apply andb_true_iff in Hok as [Hnd Hok].
    apply bool_decide_eq_true in Hnd. apply andb_true_iff. split.
    + apply bool_decide_eq_true. by apply canon_dict_keys_NoDup.
    + unfold canon_dict. rewrite (forallb_perm _ _ _ (sort_by_perm key_leb (dict_map canon d))).
      clear Hnd. induction IH as [|kv d Hv Hl IHl]; [done|]. cbn in *.
      apply andb_true_iff in Hok as [Hx Hok]. apply andb_true_iff in Hx as [-> Hx].
      rewrite Hv by done. auto.
Qed.

(** Reading back what [json.dumps(v, sort_keys=True, separators=(",", ":"))]
    wrote gives [v] with sorted keys. *)
Lemma json_roundtrip v : json_ok v = true -> json_loads (json_dumps v) = Ok (canon v).
Proof. intros H. unfold json_dumps. by apply json_loads_dumps, json_ok_canon. Qed.

Lemma json_roundtrip_unicode v : json_ok v = true -> json_loads (json_dumps_unicode v) = Ok (canon v).
Proof. intros H. apply json_loads_dumps. by apply json_ok_canon. Qed.

Lemma json_dumps_canon v : json_dumps (canon v) = json_dumps v.
Proof. unfold json_dumps. by rewrite canon_idemp. Qed.

(** ** Printed text is ASCII *)

Lemma utf8_valid_ascii s : str_forallb is_ascii s = true -> utf8_valid_go 0 0 0 s = true.
Proof.
  induction s as [|c s IH]; [done|]. cbn [str_forallb utf8_valid_go]. rewrite andb_true_iff. intros [Hc Hs].
  replace (utf8_lead (code c)) with (Some (0, 0, 0))%N; [auto|].
  clear -Hc. destruct c as [[] [] [] [] [] [] [] []]; done.
Qed.

Lemma utf8_decode_ascii s : str_forallb is_ascii s = true -> utf8_decode s = Ok s.
Proof. intros H. unfold utf8_decode. by rewrite utf8_valid_ascii. Qed.

Lemma escape_char_ascii ea c : is_ascii c = true -> str_forallb is_ascii (escape_char ea c) = true.
Proof. destruct ea, c as [[] [] [] [] [] [] [] []]; done. Qed.

Lemma dump_str_ascii ea s : str_forallb is_ascii s = true -> str_forallb is_ascii (dump_str ea s) = true.
Proof.
  intros H. unfold dump_str. cbn [str_forallb]. rewrite str_forallb_app. cbn. rewrite andb_true_r.
  induction s as [|c s IH]; [done|]. cbn [str_forallb] in H. apply andb_true_iff in H as [Hc Hs].
  cbn [escape_body]. rewrite Hc, str_forallb_app, escape_char_ascii; auto.
Qed.

Lemma numchars_ascii s : str_forallb is_numchar s = true -> str_forallb is_ascii s = true.
Proof.
  induction s as [|c s IH]; [done|]. cbn [str_forallb]. rewrite !andb_true_iff. intros [Hc Hs].
  split; [|auto]. destruct c as [[] [] [] [] [] [] [] []]; done.
Qed.

Lemma join_ascii l : Forall (fun s => str_forallb is_ascii s = true) l ->
  str_forallb is_ascii (str_join "," l) = true.
Proof.
  induction 1 as [|x l Hx _ IH]; [done|]. destruct l as [|y l]; [done|].
  change (str_join "," (x :: y :: l)) with (x +:+ "," +:+ str_join "," (y :: l)).
  rewrite !str_forallb_app, Hx, IH. done.
Qed.

Lemma dumps_ascii ea v : json_ok v = true -> str_forallb is_ascii (dumps ea v) = true.
Proof.
  induction v as [|[]|z|x|s|l IH|d IH] using pyval_ind'; cbn [json_ok dumps]; intros H; try done.
  - apply numchars_ascii, py_str_int_numchars.
  - unfold float_ok in H. apply andb_true_iff in H as [H _]. by apply numchars_ascii.
  - by apply dump_str_ascii.
  - rewrite !str_forallb_app, join_ascii; [done|]. apply Forall_map, Forall_forall. intros x Hx.
    rewrite Forall_forall in IH. rewrite forallb_forall in H. apply IH; [done|].
    by apply H, list_elem_of_In.
  - apply andb_true_iff in H as [_ H]. rewrite !str_forallb_app, join_ascii; [done|].
    apply Forall_map, Forall_forall. intros kv Hkv. rewrite Forall_forall in IH. rewrite forallb_forall in H.
    pose proof (H kv (proj1 (list_elem_of_In _ _) Hkv)) as E. apply andb_true_iff in E as [E1 E2].
    change (str_forallb is_ascii (dump_str ea kv.1 +:+ ":" +:+ dumps ea kv.2) = true).
    rewrite !str_forallb_app, dump_str_ascii, IH; done.
Qed.

Lemma json_dumps_ascii v : json_ok v = true -> str_forallb is_ascii (json_dumps v) = true.
Proof. intros H. apply dumps_ascii. by apply json_ok_canon. Qed.

Lemma json_dumps_unicode_ascii v : json_ok v = true -> str_forallb is_ascii (json_dumps_unicode v) = true.
Proof. intros H. apply dumps_ascii. by apply json_ok_canon. Qed.

#[export] Hint Resolve json_dumps_ascii json_dumps_unicode_ascii : teuton.
