(* ===== verification/Digest.v ===== *)
(** * Digests and encodings of Python's standard library

    [hashlib.sha256], [hmac.new(key, msg, sha256)], [bytes.hex] and
    [bytes.fromhex], [base64.b64encode] and the lenient [base64.b64decode],
    executable on byte strings. *)

From Stdlib Require Import ZArith Lia Ascii.
From stdpp Require Import base strings list.
From S2P Require Import Prelude PyFloat PyVal Json.

Local Open Scope Z_scope.

(** ** SHA-256 *)

Definition bytes_to_list (s : string) : list Z :=
  map (fun c => Z.of_N (N_of_ascii c)) (String.list_ascii_of_string s).

Definition list_to_bytes (l : list Z) : string :=
  String.string_of_list_ascii (map (fun z => ascii_of_N (Z.to_N z)) l).

Definition mask32 : Z := 4294967295.
Definition add32 (a b : Z) : Z := Z.land (a + b) mask32.
Definition rotr (n x : Z) : Z := Z.lor (Z.shiftr x n) (Z.land (Z.shiftl x (32 - n)) mask32).

(** The constants are the first 32 bits of the fractional parts of the cube and
    square roots of the first primes. *)
Definition sha_primes (n : nat) : list Z :=
  take n (filter (fun p => forallb (fun q => negb (p mod q =? 0)%Z) (seqZ 2 (p - 2))) (seqZ 2 400)).

Fixpoint icbrt (bits : nat) (acc z : Z) : Z :=
  match bits with
  | O => acc
  | S b => let a := (acc + 2 ^ Z.of_nat b)%Z in icbrt b (if (a * a * a <=? z)%Z then a else acc) z
  end.

Definition sha_k : list Z :=
  Eval vm_compute in map (fun p => Z.land (icbrt 40 0 (Z.shiftl p 96)) mask32) (sha_primes 64).

Record sha_state := mkSha
  { ha : Z; hb : Z; hc : Z; hd : Z; he : Z; hf : Z; hg : Z; hh : Z }.

Definition sha_init : sha_state :=
  Eval vm_compute in
  match map (fun p => Z.land (Z.sqrt (Z.shiftl p 64)) mask32) (sha_primes 8) with
  | [a; b; c; d; e; f; g; h] => mkSha a b c d e f g h
  | _ => mkSha 0 0 0 0 0 0 0 0
  end.

Definition be_bytes (n : nat) (z : Z) : list Z :=
  map (fun i => Z.land (Z.shiftr z (8 * Z.of_nat i)) 255) (rev (seq 0 n)).

Definition sha_pad (l : list Z) : list Z :=
  let len := Z.of_nat (length l) in
  let k := (55 - len) mod 64 in
  l ++ 128 :: repeat 0 (Z.to_nat k) ++ be_bytes 8 (8 * len).

Fixpoint be_words (l : list Z) : list Z :=
  match l with
  | a :: b :: c :: d :: r => (((a * 256 + b) * 256 + c) * 256 + d) :: be_words r
  | _ => []
  end.

(** The message schedule, most recent word first. *)
Fixpoint sha_extend (n : nat) (w : list Z) : list Z :=
  match n with
  | O => w
  | S n' =>
      let g i := nth i w 0 in
      let s0 := Z.lxor (Z.lxor (rotr 7 (g 14%nat)) (rotr 18 (g 14%nat))) (Z.shiftr (g 14%nat) 3) in
      let s1 := Z.lxor (Z.lxor (rotr 17 (g 1%nat)) (rotr 19 (g 1%nat))) (Z.shiftr (g 1%nat) 10) in
      sha_extend n' (add32 (add32 (g 15%nat) s0) (add32 (g 6%nat) s1) :: w)
  end.

Definition sha_round (st : sha_state) (kw : Z * Z) : sha_state :=
  let '(k, w) := kw in
  let S1 := Z.lxor (Z.lxor (rotr 6 (he st)) (rotr 11 (he st))) (rotr 25 (he st)) in
  let ch := Z.lxor (Z.land (he st) (hf st)) (Z.land (Z.lxor (he st) mask32) (hg st)) in
  let t1 := add32 (add32 (add32 (hh st) S1) (add32 ch k)) w in
  let S0 := Z.lxor (Z.lxor (rotr 2 (ha st)) (rotr 13 (ha st))) (rotr 22 (ha st)) in
  let maj := Z.lxor (Z.lxor (Z.land (ha st) (hb st)) (Z.land (ha st) (hc st)))
               (Z.land (hb st) (hc st)) in
  mkSha (add32 t1 (add32 S0 maj)) (ha st) (hb st) (hc st)
    (add32 (hd st) t1) (he st) (hf st) (hg st).

Definition sha_block (st : sha_state) (ws : list Z) : sha_state :=
  let w := rev (sha_extend 48 (rev ws)) in
  let r := fold_left sha_round (combine sha_k w) st in
  mkSha (add32 (ha st) (ha r)) (add32 (hb st) (hb r)) (add32 (hc st) (hc r))
    (add32 (hd st) (hd r)) (add32 (he st) (he r)) (add32 (hf st) (hf r))
    (add32 (hg st) (hg r)) (add32 (hh st) (hh r)).

Fixpoint sha_blocks (n : nat) (st : sha_state) (ws : list Z) : sha_state :=
  match n with
  | O => st
  | S n' => sha_blocks n' (sha_block st (firstn 16 ws)) (skipn 16 ws)
  end.

(** [hashlib.sha256(data).digest()]. *)
Definition sha256 (data : string) : string :=
  let ws := be_words (sha_pad (bytes_to_list data)) in
  let st := sha_blocks (Nat.div (length ws) 16) sha_init ws in
  list_to_bytes (flat_map (be_bytes 4)
    [ha st; hb st; hc st; hd st; he st; hf st; hg st; hh st]).

(** ** Hexadecimal *)

Definition hex_of_byte (c : ascii) : string :=
  let n := code c in
  String (hex_digit (n / 16)%N) (String (hex_digit (n mod 16)%N) EmptyString).

(** [data.hex()]. *)
Fixpoint hex (s : string) : string :=
  match s with EmptyString => EmptyString | String c s' => hex_of_byte c +:+ hex s' end.

(** [hashlib.sha256(data).hexdigest()]. *)
Definition sha256_hexdigest (data : string) : string := hex (sha256 data).

(** [bytes.fromhex(s)]: pairs of digits, blanks allowed between pairs. *)
Fixpoint fromhex (s : string) : option string :=
  match s with
  | EmptyString => Some EmptyString
  | String a s1 =>
      if is_blank a then fromhex s1
      else match s1 with
           | EmptyString => None
           | String b s2 =>
               match hex_value a, hex_value b, fromhex s2 with
               | Some x, Some y, Some r => Some (String (byte (x * 16 + y)%N) r)
               | _, _, _ => None
               end
           end
  end.

(** ** HMAC *)

Definition xor_byte (k : Z) (c : ascii) : ascii := ascii_of_N (Z.to_N (Z.lxor (Z.of_N (N_of_ascii c)) k)).

Fixpoint str_map (f : ascii -> ascii) (s : string) : string :=
  match s with EmptyString => EmptyString | String c s' => String (f c) (str_map f s') end.

Fixpoint str_repeat (c : ascii) (n : nat) : string :=
  match n with O => EmptyString | S n' => String c (str_repeat c n') end.

Definition hmac_key (key : string) : string :=
  let k := if (64 <? String.length key)%nat then sha256 key else key in
  k +:+ str_repeat "000" (64 - String.length k).

(** [hmac.new(key, msg, hashlib.sha256).hexdigest()]. *)
Definition hmac_sha256_hex (key msg : string) : string :=
  let k := hmac_key key in
  sha256_hexdigest (str_map (xor_byte 92) k +:+ sha256 (str_map (xor_byte 54) k +:+ msg)).

(** ** Base64 *)

(** Six bits, least significant first. *)
Record sextet := mkSix { x0 : bool; x1 : bool; x2 : bool; x3 : bool; x4 : bool; x5 : bool }.

Definition b64_alphabet : string :=
  "ABCDEFGHIJKLMNOPQRSTUVWXYZabcdefghijklmnopqrstuvwxyz0123456789+/".

Definition bit (b : bool) (n : nat) : nat := if b then n else 0%nat.

Definition sextet_nat (s : sextet) : nat :=
  (bit (x0 s) 1 + bit (x1 s) 2 + bit (x2 s) 4 + bit (x3 s) 8 + bit (x4 s) 16 + bit (x5 s) 32)%nat.

Definition b64_char (s : sextet) : ascii :=
  match String.get (sextet_nat s) b64_alphabet with Some c => c | None => "="%char end.

Fixpoint str_index (c : ascii) (s : string) : option nat :=
  match s with
  | EmptyString => None
  | String a s' => if Ascii.eqb a c then Some 0%nat else S <$> str_index c s'
  end.

Definition b64_value (c : ascii) : option sextet :=
  match str_index c b64_alphabet with
  | Some n =>
      let t i := Nat.testbit n i in
      Some (mkSix (t 0%nat) (t 1%nat) (t 2%nat) (t 3%nat) (t 4%nat) (t 5%nat))
  | None => None
  end.

(** The sextets of the bytes, most significant bits first. *)
Definition six_1 (a : ascii) : sextet :=
  let 'Ascii a0 a1 a2 a3 a4 a5 a6 a7 := a in mkSix a2 a3 a4 a5 a6 a7.
Definition six_2 (a b : ascii) : sextet :=
  let 'Ascii a0 a1 _ _ _ _ _ _ := a in let 'Ascii _ _ _ _ b4 b5 b6 b7 := b in
  mkSix b4 b5 b6 b7 a0 a1.
Definition six_3 (b c : ascii) : sextet :=
  let 'Ascii b0 b1 b2 b3 _ _ _ _ := b in let 'Ascii _ _ _ _ _ _ c6 c7 := c in
  mkSix c6 c7 b0 b1 b2 b3.
Definition six_4 (c : ascii) : sextet :=
  let 'Ascii c0 c1 c2 c3 c4 c5 _ _ := c in mkSix c0 c1 c2 c3 c4 c5.

(** [base64.b64encode(data)]. *)
Fixpoint b64encode (s : string) : string :=
  match s with
  | EmptyString => EmptyString
  | String a EmptyString =>
      String (b64_char (six_1 a)) (String (b64_char (six_2 a "000")) "==")
  | String a (String b EmptyString) =>
      String (b64_char (six_1 a)) (String (b64_char (six_2 a b)) (String (b64_char (six_3 b "000")) "="))
  | String a (String b (String c s')) =>
      String (b64_char (six_1 a)) (String (b64_char (six_2 a b))
        (String (b64_char (six_3 b c)) (String (b64_char (six_4 c)) (b64encode s'))))
  end.

(** The bytes the decoder emits at each position of a quad. *)
Definition out_1 (p q : sextet) : ascii :=
  Ascii (x4 q) (x5 q) (x0 p) (x1 p) (x2 p) (x3 p) (x4 p) (x5 p).
Definition out_2 (p q : sextet) : ascii :=
  Ascii (x2 q) (x3 q) (x4 q) (x5 q) (x0 p) (x1 p) (x2 p) (x3 p).
Definition out_3 (p q : sextet) : ascii :=
  Ascii (x0 q) (x1 q) (x2 q) (x3 q) (x4 q) (x5 q) (x0 p) (x1 p).

(** [base64.b64decode(s)] without [validate]: characters outside the alphabet
    are skipped, the padding that completes a quad ends the input, and an
    incomplete quad raises [binascii.Error], a [ValueError]. *)
Fixpoint b64decode_go (quad pads : nat) (prev : sextet) (s : string) : result string :=
  match s with
  | EmptyString =>
      match quad with
      | O => Ok EmptyString
      | _ => Err (ValueError "Incorrect padding")
      end
  | String c s' =>
      if Ascii.eqb c "=" then
        if (2 <=? quad)%nat then
          if (4 <=? quad + S pads)%nat then Ok EmptyString
          else b64decode_go quad (S pads) prev s'
        else b64decode_go quad pads prev s'
      else
        match b64_value c with
        | None => b64decode_go quad pads prev s'
        | Some v =>
            match quad with
            | O => b64decode_go 1 0 v s'
            | 1%nat => String (out_1 prev v) <$> b64decode_go 2 0 v s'
            | 2%nat => String (out_2 prev v) <$> b64decode_go 3 0 v s'
            | _ => String (out_3 prev v) <$> b64decode_go 0 0 v s'
            end
        end
  end.

Definition six_zero : sextet := mkSix false false false false false false.

Definition b64decode (s : string) : result string := b64decode_go 0 0 six_zero s.

(** [int.from_bytes(b, "big")]. *)
Fixpoint big_endian (acc : Z) (s : string) : Z :=
  match s with
  | EmptyString => acc
  | String c s' => big_endian (acc * 256 + Z.of_N (N_of_ascii c)) s'
  end.

(** ** Lemmas *)

Lemma b64_value_char s : b64_value (b64_char s) = Some s.
Proof. destruct s as [[] [] [] [] [] []]; reflexivity. Qed.

Lemma b64_char_not_pad s : Ascii.eqb (b64_char s) "=" = false.
Proof. destruct s as [[] [] [] [] [] []]; reflexivity. Qed.

Lemma str_ind3 (P : string -> Prop) :
  P EmptyString ->
  (forall a, P (String a EmptyString)) ->
  (forall a b, P (String a (String b EmptyString))) ->
  (forall a b c s, P s -> P (String a (String b (String c s)))) ->
  forall s, P s.
Proof.
  intros H0 H1 H2 H3. fix IH 1.
  intros [|a [|b [|c s]]]; [exact H0|apply H1|apply H2|apply H3, IH].
Qed.

Lemma b64_roundtrip s : b64decode (b64encode s) = Ok s.
Proof.
  unfold b64decode. generalize six_zero.
  induction s as [|a|a b|a b c s IH] using str_ind3; intros p0; [done| | |];
    cbn [b64encode b64decode_go]; rewrite !b64_char_not_pad, !b64_value_char;
    cbn [b64decode_go]; rewrite ?b64_char_not_pad, ?b64_value_char.
  - destruct a; reflexivity.
  - destruct a, b; reflexivity.
  - rewrite IH. destruct a, b, c; reflexivity.
Qed.

Lemma b64_char_ascii s : is_ascii (b64_char s) = true.
Proof. destruct s as [[] [] [] [] [] []]; reflexivity. Qed.

Lemma b64encode_ascii s : str_forallb is_ascii (b64encode s) = true.
Proof.
  induction s as [|a|a b|a b c s IH] using str_ind3; cbn; rewrite ?b64_char_ascii; try done.
Qed.

Lemma hex_ascii s : str_forallb is_ascii (hex s) = true.
Proof.
  induction s as [|c s IH]; [done|]. cbn [hex]. rewrite str_forallb_app, IH, andb_true_r.
  destruct c as [[] [] [] [] [] [] [] []]; reflexivity.
Qed.

Lemma sha256_hexdigest_ascii s : str_forallb is_ascii (sha256_hexdigest s) = true.
Proof. apply hex_ascii. Qed.

Lemma hmac_ascii k p : str_forallb is_ascii (hmac_sha256_hex k p) = true.
Proof. unfold hmac_sha256_hex. apply sha256_hexdigest_ascii. Qed.

#[export] Hint Resolve b64encode_ascii hex_ascii sha256_hexdigest_ascii hmac_ascii : teuton.

(** Published test vectors. *)
Example sha256_abc :
  sha256_hexdigest "abc" = "ba7816bf8f01cfea414140de5dae2223b00361a396177a9cb410ff61f20015ad".
Proof. vm_compute. reflexivity. Qed.

Example hmac_jefe :
  hmac_sha256_hex "Jefe" "what do ya want for nothing?" =
  "5bdcc146bf60754e6a042426089575c75a003f089d2739839dec58b964ec3843".
Proof. vm_compute. reflexivity. Qed.

(** Proofs never look inside the hash. *)
#[global] Opaque sha256 sha256_hexdigest hmac_sha256_hex b64encode b64decode.
