(* ===== verification/Paths.v ===== *)
(** * Bucket layout ([teuton_core/paths.py])

    The key of every object the protocol reads or writes.  The lemmas give the
    structure other components rely on: keys of one run lie under the run's
    prefixes, job and receipt keys determine the identifiers they are built
    from. *)

From Stdlib Require Import ZArith Lia Ascii DecimalString.
From stdpp Require Import base strings list.
From S2P Require Import Prelude PyFloat PyVal Json.

Definition root (netuid : Z) : string := "v3/netuid=" +:+ py_str_int netuid.

Definition run_root (netuid : Z) (run_id : string) : string :=
  root netuid +:+ "/runs/" +:+ run_id.

Definition graphs_prefix (netuid : Z) (run_id : string) : string :=
  run_root netuid run_id +:+ "/graphs/".

Definition graph_key (netuid : Z) (run_id sha256 : string) : string :=
  graphs_prefix netuid run_id +:+ sha256 +:+ ".json".

Definition state_key (netuid : Z) (run_id : string) : string :=
  run_root netuid run_id +:+ "/state.json".

Definition manifest_config_key (netuid : Z) (run_id : string) : string :=
  run_root netuid run_id +:+ "/manifest/config.json".

Definition miners_prefix (netuid : Z) : string := root netuid +:+ "/miners/".

Definition worker_heartbeat_key (netuid : Z) (hotkey worker_id : string) : string :=
  miners_prefix netuid +:+ hotkey +:+ "/workers/" +:+ worker_id +:+ "/heartbeat.json".

Definition jobs_prefix (netuid : Z) (run_id : string) : string :=
  root netuid +:+ "/jobs/" +:+ run_id +:+ "/".

Definition job_manifest_key (netuid : Z) (run_id job_id : string) : string :=
  jobs_prefix netuid run_id +:+ job_id +:+ "/manifest.json".

Definition audit_root (netuid : Z) (run_id : string) : string :=
  root netuid +:+ "/audits/" +:+ run_id.

Definition audit_jobs_prefix (netuid : Z) (run_id : string) : string :=
  audit_root netuid run_id +:+ "/jobs/".

Definition queue_key (netuid : Z) (run_id role : string) : result string :=
  if String.eqb role "train" then Ok (jobs_prefix netuid run_id +:+ "queue.json")
  else if String.eqb role "audit" then Ok (audit_jobs_prefix netuid run_id +:+ "queue.json")
  else Err (ValueError ("queue_key: unknown role '" +:+ role +:+ "'")).

Definition assignment_key (netuid : Z) (run_id job_id hotkey : string) : string :=
  root netuid +:+ "/assignments/" +:+ run_id +:+ "/" +:+ job_id +:+ "/hotkey=" +:+ hotkey +:+ ".json".

Definition weights_key (netuid : Z) (run_id : string) (step_id ub : Z) : string :=
  run_root netuid run_id +:+ "/weights/step=" +:+ py_str_int step_id +:+ "/UB-" +:+ py_str_int ub
    +:+ ".bin".

Definition target_key (netuid : Z) (run_id : string) (step_id ub : Z) : string :=
  run_root netuid run_id +:+ "/targets/step=" +:+ py_str_int step_id +:+ "/cut-" +:+ py_str_int ub
    +:+ ".bin".

Definition artifact_prefix (netuid : Z) (run_id job_id hotkey worker_id : string) (attempt : Z) : string :=
  root netuid +:+ "/artifacts/" +:+ run_id +:+ "/" +:+ job_id +:+ "/"
    +:+ "hotkey=" +:+ hotkey +:+ "/worker=" +:+ worker_id +:+ "/attempt=" +:+ py_str_int attempt +:+ "/".

Definition artifact_key (netuid : Z) (run_id job_id hotkey worker_id : string) (attempt : Z)
    (name suffix : string) : string :=
  artifact_prefix netuid run_id job_id hotkey worker_id attempt +:+ name +:+ suffix.

Definition receipts_prefix (netuid : Z) (run_id : string) : string :=
  root netuid +:+ "/receipts/" +:+ run_id +:+ "/".

Definition receipt_key (netuid : Z) (run_id hotkey job_id : string) (attempt : Z) : string :=
  receipts_prefix netuid run_id +:+ "hotkey=" +:+ hotkey +:+ "/" +:+ job_id +:+ "/attempt="
    +:+ py_str_int attempt +:+ ".json".

Definition verdicts_prefix (netuid : Z) (run_id : string) : string :=
  root netuid +:+ "/verdicts/" +:+ run_id +:+ "/".

(** [receipt_id.replace("/", "_").replace(":", "_")]. *)
Definition safe_id (receipt_id : string) : string :=
  replace_char ":" "_" (replace_char "/" "_" receipt_id).

Definition verdict_key (netuid : Z) (run_id validator_hotkey receipt_id : string) : string :=
  verdicts_prefix netuid run_id +:+ "validator=" +:+ validator_hotkey +:+ "/" +:+ safe_id receipt_id
    +:+ ".json".

Definition auditors_prefix (netuid : Z) : string := root netuid +:+ "/auditors/".

Definition auditor_heartbeat_key (netuid : Z) (auditor_hotkey worker_id : string) : string :=
  auditors_prefix netuid +:+ auditor_hotkey +:+ "/workers/" +:+ worker_id +:+ "/heartbeat.json".

Definition audit_job_manifest_key (netuid : Z) (run_id job_id : string) : string :=
  audit_jobs_prefix netuid run_id +:+ job_id +:+ "/manifest.json".

Definition audit_assignment_key (netuid : Z) (run_id job_id auditor_hotkey : string) : string :=
  audit_root netuid run_id +:+ "/assignments/" +:+ job_id +:+ "/hotkey=" +:+ auditor_hotkey +:+ ".json".

Definition audit_result_key (netuid : Z) (run_id auditor_hotkey receipt_id : string) : string :=
  audit_root netuid run_id +:+ "/results/auditor=" +:+ auditor_hotkey +:+ "/" +:+ safe_id receipt_id
    +:+ ".json".

Definition audit_results_prefix (netuid : Z) (run_id : string) : string :=
  audit_root netuid run_id +:+ "/results/".

Definition scores_key (netuid : Z) (window_id : string) : string :=
  root netuid +:+ "/scores/window=" +:+ window_id +:+ "/scores.json".

Definition telemetry_run_prefix (netuid : Z) (run_id : string) : string :=
  root netuid +:+ "/telemetry/" +:+ run_id +:+ "/".

Definition telemetry_stream_prefix (netuid : Z) (run_id stream : string) : string :=
  telemetry_run_prefix netuid run_id +:+ stream +:+ "/".

(** [f"{z:010d}"]: zero-padded to ten characters, the sign included. *)
Definition pad10 (z : Z) : string :=
  let ds := py_str_int (Z.abs z) in
  if (z <? 0)%Z then "-" +:+ zeros (9 - String.length ds) +:+ ds
  else zeros (10 - String.length ds) +:+ ds.

Definition telemetry_event_key (netuid : Z) (run_id stream : string) (when_unix : Z) : string :=
  telemetry_stream_prefix netuid run_id stream +:+ pad10 when_unix +:+ ".json".

Definition telemetry_chain_key (netuid : Z) (run_id : string) (when_unix : Z) : string :=
  telemetry_event_key netuid run_id "chain" when_unix.
Definition telemetry_scores_key (netuid : Z) (run_id : string) (when_unix : Z) : string :=
  telemetry_event_key netuid run_id "scores" when_unix.
Definition telemetry_audits_key (netuid : Z) (run_id : string) (when_unix : Z) : string :=
  telemetry_event_key netuid run_id "audits" when_unix.
Definition telemetry_orchestrator_key (netuid : Z) (run_id : string) (when_unix : Z) : string :=
  telemetry_event_key netuid run_id "orchestrator" when_unix.
Definition telemetry_monitor_key (netuid : Z) (run_id : string) (when_unix : Z) : string :=
  telemetry_event_key netuid run_id "monitor" when_unix.

(** The prefixes a teardown walks. *)
Definition run_prefixes (netuid : Z) (run_id : string) : list string :=
  [ run_root netuid run_id +:+ "/";
    jobs_prefix netuid run_id;
    root netuid +:+ "/artifacts/" +:+ run_id +:+ "/";
    receipts_prefix netuid run_id;
    verdicts_prefix netuid run_id;
    audit_root netuid run_id +:+ "/";
    telemetry_run_prefix netuid run_id ].

(** The objects of one run, one constructor per key function that takes a run
    identifier. *)
Inductive run_object : Type :=
  | OGraph (sha256 : string)
  | OState
  | OManifestConfig
  | OJobManifest (job_id : string)
  | OTrainQueue
  | OAuditQueue
  | OAssignment (job_id hotkey : string)
  | OWeights (step_id ub : Z)
  | OTarget (step_id ub : Z)
  | OArtifact (job_id hotkey worker_id : string) (attempt : Z) (name suffix : string)
  | OReceipt (hotkey job_id : string) (attempt : Z)
  | OVerdict (validator_hotkey receipt_id : string)
  | OAuditJobManifest (job_id : string)
  | OAuditAssignment (job_id auditor_hotkey : string)
  | OAuditResult (auditor_hotkey receipt_id : string)
  | OTelemetry (stream : string) (when_unix : Z).

Definition object_key (netuid : Z) (run_id : string) (o : run_object) : string :=
  match o with
  | OGraph sha => graph_key netuid run_id sha
  | OState => state_key netuid run_id
  | OManifestConfig => manifest_config_key netuid run_id
  | OJobManifest job => job_manifest_key netuid run_id job
  | OTrainQueue => jobs_prefix netuid run_id +:+ "queue.json"
  | OAuditQueue => audit_jobs_prefix netuid run_id +:+ "queue.json"
  | OAssignment job hk => assignment_key netuid run_id job hk
  | OWeights s u => weights_key netuid run_id s u
  | OTarget s u => target_key netuid run_id s u
  | OArtifact job hk w a n suf => artifact_key netuid run_id job hk w a n suf
  | OReceipt hk job a => receipt_key netuid run_id hk job a
  | OVerdict v r => verdict_key netuid run_id v r
  | OAuditJobManifest job => audit_job_manifest_key netuid run_id job
  | OAuditAssignment job hk => audit_assignment_key netuid run_id job hk
  | OAuditResult a r => audit_result_key netuid run_id a r
  | OTelemetry st t => telemetry_event_key netuid run_id st t
  end.

Definition is_assignment (o : run_object) : bool :=
  match o with OAssignment _ _ => true | _ => false end.

(** ** String lemmas *)

#[local] Arguments String.append !s1 s2 : simpl nomatch.

Lemma startswith_app p s : startswith p (p +:+ s) = true.
Proof. induction p as [|c p IH]; cbn; [done|]. by rewrite Ascii.eqb_refl. Qed.

Lemma startswith_refl p : startswith p p = true.
Proof. rewrite <- (str_app_nil p) at 2. apply startswith_app. Qed.

Lemma startswith_spec p s : startswith p s = true <-> exists t, s = p +:+ t.
Proof.
  split.
  - revert s. induction p as [|c p IH]; intros s H; [by exists s|].
    destruct s as [|d s]; [done|]. cbn in H. apply andb_true_iff in H as [E H].
    apply Ascii.eqb_eq in E as ->. destruct (IH _ H) as [t ->]. by exists t.
  - intros [t ->]. apply startswith_app.
Qed.

Lemma startswith_app_both p a b : startswith (p +:+ a) (p +:+ b) = startswith a b.
Proof. induction p as [|c p IH]; cbn; [done|]. by rewrite Ascii.eqb_refl. Qed.

Lemma str_app_inv_l (a b c : string) : a +:+ b = a +:+ c -> b = c.
Proof. induction a as [|x a IH]; cbn; [done|]. intros [= H]. auto. Qed.

(** Cutting at the first slash: two strings with slash-free heads. *)
Lemma segment_cut a b x y :
  segment a = true -> segment b = true ->
  a +:+ String slash x = b +:+ String slash y -> a = b /\ x = y.
Proof.
  unfold segment, lacks. revert b. induction a as [|c a IH]; intros [|d b] Ha Hb E; cbn in *.
  - by injection E as ->.
  - injection E as <- _. by cbn in Hb.
  - injection E as -> _. by cbn in Ha.
  - injection E as -> E. apply andb_true_iff in Ha as [_ Ha]. apply andb_true_iff in Hb as [_ Hb].
    destruct (IH b Ha Hb E) as [-> ->]. done.
Qed.

Lemma split_on_nonempty c s : split_on c s <> [].
Proof. destruct s as [|a s]; cbn; [done|]. destruct (Ascii.eqb a c); [done|]. by destruct (split_on c s). Qed.

Lemma split_on_lacks c s : lacks c s = true -> split_on c s = [s].
Proof.
  unfold lacks. induction s as [|a s IH]; cbn; intros H; [done|].
  apply andb_true_iff in H as [Ha H]. apply negb_true_iff in Ha as ->. by rewrite IH.
Qed.

Lemma existsb_eq {A} (f g : A -> bool) l : (forall x, f x = g x) -> existsb f l = existsb g l.
Proof. intros H. induction l as [|x l IH]; cbn; [done|]. by rewrite H, IH. Qed.

(** Splitting at a separator that ends a piece without it. *)
Lemma split_on_app c a b : lacks c a = true -> split_on c (a +:+ String c b) = a :: split_on c b.
Proof.
  unfold lacks. induction a as [|x a IH]; cbn; intros H; [by rewrite Ascii.eqb_refl|].
  apply andb_true_iff in H as [Hx H]. apply negb_true_iff in Hx as ->. by rewrite IH.
Qed.

Lemma lacks_app c a b : lacks c (a +:+ b) = lacks c a && lacks c b.
Proof. apply str_forallb_app. Qed.

Lemma string_of_uint_segment d : segment (NilEmpty.string_of_uint d) = true.
Proof. unfold segment, lacks. induction d; cbn; done. Qed.

Lemma py_str_int_segment z : segment (py_str_int z) = true.
Proof.
  unfold py_str_int, NilZero.string_of_int, NilZero.string_of_uint.
  destruct (Z.to_int z) as [[]|[]]; cbn; try done; apply string_of_uint_segment.
Qed.

#[export] Hint Resolve py_str_int_segment startswith_app startswith_refl : teuton.
#[export] Hint Rewrite @str_app_assoc @startswith_app_both : teuton.

(** ** Keys *)

(** Unfold every key function to an append of literals and arguments. *)
Ltac unfold_keys :=
  unfold object_key, graph_key, graphs_prefix, state_key, manifest_config_key, job_manifest_key,
    assignment_key, weights_key, target_key, artifact_key, artifact_prefix, receipt_key, verdict_key,
    audit_job_manifest_key, audit_assignment_key, audit_result_key, telemetry_event_key,
    telemetry_stream_prefix, telemetry_run_prefix, verdicts_prefix, receipts_prefix,
    audit_jobs_prefix, audit_root, jobs_prefix, run_root in *.

Lemma startswith_slash r a b :
  startswith (r +:+ String slash a) (r +:+ String slash b) = startswith a b.
Proof. by rewrite startswith_app_both. Qed.

(** Every object of a run other than an assignment lies under a prefix of the
    teardown list. *)
Lemma object_key_covered netuid run_id o :
  is_assignment o = false ->
  existsb (fun p => startswith p (object_key netuid run_id o)) (run_prefixes netuid run_id) = true.
Proof.
  intros Ha. apply existsb_exists.
  assert (forall p t, startswith p (p +:+ t) = true) as HA by apply startswith_app.
  assert (forall p q t, (p +:+ q) +:+ t = p +:+ q +:+ t) as Hassoc by (intros; apply str_app_assoc).
  destruct o; try done; unfold_keys; match goal with
  | |- context [root netuid +:+ "/jobs/" +:+ _] => exists (root netuid +:+ "/jobs/" +:+ run_id +:+ "/")
  | |- context [root netuid +:+ "/audits/" +:+ _] => exists (root netuid +:+ "/audits/" +:+ run_id +:+ "/")
  | |- context [root netuid +:+ "/receipts/" +:+ _] => exists (root netuid +:+ "/receipts/" +:+ run_id +:+ "/")
  | |- context [root netuid +:+ "/verdicts/" +:+ _] => exists (root netuid +:+ "/verdicts/" +:+ run_id +:+ "/")
  | |- context [root netuid +:+ "/telemetry/" +:+ _] => exists (root netuid +:+ "/telemetry/" +:+ run_id +:+ "/")
  | |- context [root netuid +:+ "/artifacts/" +:+ _] => exists (root netuid +:+ "/artifacts/" +:+ run_id +:+ "/")
  | |- context [root netuid +:+ "/runs/" +:+ _] => exists (root netuid +:+ "/runs/" +:+ run_id +:+ "/")
  end.
  all: (split; [unfold run_prefixes; unfold_keys; rewrite ?str_app_assoc; cbn; tauto|]).
  all: rewrite ?str_app_assoc, !startswith_app_both; reflexivity.
Qed.

(** No prefix of the teardown list covers an assignment grant. *)
Lemma assignment_not_covered netuid run_id job_id hotkey :
  existsb (fun p => startswith p (assignment_key netuid run_id job_id hotkey))
    (run_prefixes netuid run_id) = false.
Proof.
  unfold run_prefixes. unfold_keys. set (R := root netuid).
  cbn [existsb]. rewrite ?str_app_assoc, !startswith_app_both. reflexivity.
Qed.

(** A job manifest key determines the run and the job. *)
Lemma job_manifest_key_inj netuid r1 j1 r2 j2 :
  segment r1 = true -> segment r2 = true -> segment j1 = true -> segment j2 = true ->
  job_manifest_key netuid r1 j1 = job_manifest_key netuid r2 j2 -> r1 = r2 /\ j1 = j2.
Proof.
  intros Hr1 Hr2 Hj1 Hj2. unfold_keys. rewrite !str_app_assoc. intros E.
  apply str_app_inv_l in E. apply (str_app_inv_l "/jobs/") in E.
  change ("/" +:+ ?x) with (String slash x) in E.
  apply segment_cut in E as [-> E]; [|done..].
  change ("/manifest.json") with (String slash "manifest.json") in E.
  apply segment_cut in E as [-> _]; done.
Qed.

(** A receipt key determines hotkey, job and attempt. *)
Lemma receipt_key_inj netuid r h1 j1 a1 h2 j2 a2 :
  segment h1 = true -> segment h2 = true -> segment j1 = true -> segment j2 = true ->
  receipt_key netuid r h1 j1 a1 = receipt_key netuid r h2 j2 a2 -> h1 = h2 /\ j1 = j2 /\ a1 = a2.
Proof.
  intros Hh1 Hh2 Hj1 Hj2. unfold_keys. rewrite !str_app_assoc. intros E.
  apply str_app_inv_l in E. apply (str_app_inv_l "/receipts/") in E. apply str_app_inv_l in E.
  apply (str_app_inv_l "/") in E. apply (str_app_inv_l "hotkey=") in E.
  change ("/" +:+ ?x) with (String slash x) in E.
  apply segment_cut in E as [-> E]; [|done..].
  change ("/attempt=" +:+ ?x) with (String slash ("attempt=" +:+ x)) in E.
  apply segment_cut in E as [-> E]; [|done..]. apply (str_app_inv_l "attempt=") in E.
  split; [done|]. split; [done|].
  assert (py_str_int a1 = py_str_int a2) as Ea; [|by apply py_str_int_inj].
  pose proof (py_str_int_numchars a1) as N1. pose proof (py_str_int_numchars a2) as N2.
  revert E N1 N2. generalize (py_str_int a1) (py_str_int a2).
  induction s as [|c s IH]; intros [|d t] E N1 N2; cbn in *; [done| | |].
  - injection E as <- E. destruct t; cbn in E; discriminate E || (injection E as <- _; done).
  - injection E as -> E. destruct s; cbn in E; discriminate E || (injection E as -> _; done).
  - injection E as -> E. apply andb_true_iff in N1 as [_ N1]. apply andb_true_iff in N2 as [_ N2].
    f_equal. auto.
Qed.
