(* ===== verification/Signatures.v ===== *)
(** * Signing helpers ([teuton_core/signatures.py])

    Canonical bytes of a record, HMAC signatures, hotkey signatures with their
    HMAC fallback, and the signers the runtime passes around.  The signature
    libraries ([bittensor_wallet], [substrateinterface], [nacl]) are fields of
    [SigLib]; what the code relies on of them is [SigLaws].  [SignsFor] is the
    interface clients are proved against: what the signer signs, the verifier
    accepts under the signer's identity. *)

From Stdlib Require Import ZArith Lia Ascii.
From stdpp Require Import base strings list.
From S2P Require Import Prelude PyFloat PyVal Json Digest.

(** ** Canonical bytes and HMAC *)

Definition canonical_json (value : pyval) : string := json_dumps value.

Arguments canonical_json value : simpl never.

Definition sha256_hex (data : string) : string := sha256_hexdigest data.

Definition digest_dict (value : dict pyval) : string := sha256_hex (canonical_json (PDict value)).

Definition sign_payload (payload secret : string) : string := hmac_sha256_hex secret payload.

Definition sign_dict (value : dict pyval) (secret : string) : string :=
  hmac_sha256_hex secret (canonical_json (PDict value)).

(** [hmac.compare_digest] on two strings raises when one is not ASCII. *)
Definition compare_digest (a b : string) : result bool :=
  if str_forallb is_ascii a && str_forallb is_ascii b then Ok (String.eqb a b)
  else Err (TypeError "comparing strings with non-ASCII characters is not supported").

Definition verify_dict (value : dict pyval) (secret signature : string) : result bool :=
  compare_digest (sign_dict value secret) signature.

Definition verify_payload (payload secret signature : string) : result bool :=
  compare_digest (sign_payload payload secret) signature.

(** ** The Signer and Verifier protocols *)

Record Signer := mkSigner {
  signer_identity : string;
  signer_sign : string -> result string
}.

Record Verifier := mkVerifier {
  verifier_verify : string -> string -> option string -> result bool
}.

(** ** HMAC signer *)

Record HmacSigner := mkHmacSigner { hs_secret : string; hs_identity : string }.

Definition HmacSigner_sign (self : HmacSigner) (payload : string) : string :=
  sign_payload payload (hs_secret self).

Definition HmacSigner_verify (self : HmacSigner) (payload signature : string)
    (identity : option string) : result bool :=
  verify_payload payload (hs_secret self) signature.

Definition hmac_signer (self : HmacSigner) : Signer :=
  mkSigner (hs_identity self) (fun p => Ok (HmacSigner_sign self p)).

Definition hmac_verifier (self : HmacSigner) : Verifier := mkVerifier (HmacSigner_verify self).

(** ** Hotkey signatures *)

Definition is_hex (value : string) : bool :=
  match fromhex value with Some _ => true | None => false end.

Definition signature_bytes (signature : string) : string :=
  match fromhex (removeprefix "0x" signature) with
  | Some b => if is_hex (removeprefix "0x" signature) then b else signature
  | None => signature
  end.

(** The signature libraries: [Keypair(ss58_address=identity, ...).verify] of
    the two packages, [ss58_decode], [VerifyKey(key).verify] (raises on a bad
    signature) and [SigningKey(seed).sign(payload).signature]. *)
Class SigLib := {
  bt_keypair_verify : string -> string -> string -> result bool;
  substrate_keypair_verify : string -> string -> string -> result bool;
  ss58_decode : string -> result string;
  nacl_verify : string -> string -> string -> result unit;
  nacl_sign : string -> string -> string;
  nacl_public_key : string -> string
}.

(** Documented behaviour of Ed25519 in [nacl]: a signature made with a seed
    verifies under the seed's public key. *)
Class SigLaws (L : SigLib) := {
  nacl_sign_verifies : forall seed payload,
    nacl_verify (nacl_public_key seed) payload (nacl_sign seed payload) = Ok tt;
  nacl_never_unmodelled : forall i p s,
    pythonic (bt_keypair_verify i p s) /\ pythonic (substrate_keypair_verify i p s)
}.

Definition public_key_from_ss58 `{SigLib} (identity : string) : result string :=
  h ← ss58_decode identity;
  of_option (ValueError "non-hexadecimal number found in fromhex()") (fromhex h).

Definition verify_hotkey_payload `{SigLib} (payload identity signature : string) : result bool :=
  let sig := signature_bytes signature in
  b1 ← try_except (bt_keypair_verify identity payload sig) (fun _ => Ok false);
  if (b1 : bool) then Ok true else
  b2 ← try_except (substrate_keypair_verify identity payload sig) (fun _ => Ok false);
  if (b2 : bool) then Ok true else
  try_except (pk ← public_key_from_ss58 identity; _ ← nacl_verify pk payload sig; Ok true)
    (fun _ => Ok false).

Definition verify_identity_payload `{SigLib} (payload identity signature : string)
    (allow_dev_hmac : bool) : result bool :=
  b ← verify_hotkey_payload payload identity signature;
  if (b : bool) then Ok true
  else if allow_dev_hmac then verify_payload payload identity signature
  else Ok false.

Definition verify_identity_dict `{SigLib} (value : dict pyval) (identity signature : string)
    (allow_dev_hmac : bool) : result bool :=
  verify_identity_payload (canonical_json (PDict value)) identity signature allow_dev_hmac.

Definition IdentityVerifier_verify `{SigLib} (payload signature : string)
    (identity : option string) : result bool :=
  match identity with
  | Some i => if String.eqb i "" then Ok false else verify_identity_payload payload i signature true
  | None => Ok false
  end.

Definition identity_verifier `{SigLib} : Verifier := mkVerifier IdentityVerifier_verify.

(** ** Native Ed25519 hotkeys *)

Record NativeEd25519HotkeySigner := mkNative { ns_seed : string; ns_identity : string }.

(** [v == 0] in Python. *)
Definition py_eq_zero (v : pyval) : bool :=
  match v with
  | PInt z => (z =? 0)%Z
  | PBool b => negb b
  | PFloat x => float_is_zero x
  | _ => false
  end.

(** [read_file] is [Path(path).expanduser().read_bytes()]. *)
Definition NativeEd25519HotkeySigner_from_keyfile (read_file : string -> result string)
    (path : string) : result NativeEd25519HotkeySigner :=
  raw ← read_file path;
  text ← utf8_decode raw;
  v ← json_loads text;
  match v with
  | PDict data =>
      if negb (py_eq_zero (get data "cryptoType")) then
        Err (ValueError "expected native ED25519 cryptoType 0 hotkey")
      else
      s ← py_str (por (get data "secretSeed") (PStr ""));
      let seed_hex := removeprefix "0x" s in
      if String.eqb seed_hex "" then
        Err (ValueError "native ED25519 hotkey file is missing secretSeed")
      else
      seed ← of_option (ValueError "non-hexadecimal number found in fromhex()") (fromhex seed_hex);
      if negb (Nat.eqb (String.length seed) 32) then
        Err (ValueError "expected 32-byte ED25519 seed")
      else
      identity ← py_str (por (get data "ss58Address") (PStr ""));
      if String.eqb identity "" then
        Err (ValueError "native ED25519 hotkey file is missing ss58Address")
      else Ok (mkNative seed identity)
  | _ => Err (AttributeError "object has no attribute 'get'")
  end.

Definition NativeEd25519HotkeySigner_from_wallet (read_file : string -> result string)
    (wallet_path wallet_name hotkey_name : string) : result NativeEd25519HotkeySigner :=
  NativeEd25519HotkeySigner_from_keyfile read_file
    (wallet_path +:+ "/" +:+ wallet_name +:+ "/hotkeys/" +:+ hotkey_name).

Definition NativeEd25519HotkeySigner_sign `{SigLib} (self : NativeEd25519HotkeySigner)
    (payload : string) : string :=
  hex (nacl_sign (ns_seed self) payload).

Definition NativeEd25519HotkeySigner_verify `{SigLib} (self : NativeEd25519HotkeySigner)
    (payload signature : string) (identity : option string) : result bool :=
  let i := match identity with Some i => if String.eqb i "" then ns_identity self else i
           | None => ns_identity self end in
  verify_hotkey_payload payload i signature.

Definition native_signer `{SigLib} (self : NativeEd25519HotkeySigner) : Signer :=
  mkSigner (ns_identity self) (fun p => Ok (NativeEd25519HotkeySigner_sign self p)).

(** ** Wallet-backed hotkeys *)

(** What the code reads of a Bittensor wallet object: the address and the two
    methods of its [hotkey], each possibly absent; [sign] may return bytes
    ([inl]) or text ([inr]). *)
Record Wallet := mkWallet {
  hotkey_ss58_address : option string;
  hotkey_sign : option (string -> result (string + string));
  hotkey_verify : option (string -> string -> result bool)
}.

Record BittensorHotkeySigner := mkBittensor { bs_wallet : Wallet; bs_identity : string }.

Definition BittensorHotkeySigner_init (wallet : Wallet) (identity : option string)
    : BittensorHotkeySigner :=
  let dflt := match hotkey_ss58_address wallet with Some a => a | None => "bittensor-hotkey" end in
  mkBittensor wallet
    (match identity with Some i => if String.eqb i "" then dflt else i | None => dflt end).

Definition BittensorHotkeySigner_sign (self : BittensorHotkeySigner) (payload : string)
    : result string :=
  match hotkey_sign (bs_wallet self) with
  | None => Err (RuntimeError "wallet hotkey does not expose sign(payload)")
  | Some signer => sig ← signer payload; Ok (match sig with inl b => hex b | inr t => t end)
  end.

Definition BittensorHotkeySigner_verify (self : BittensorHotkeySigner)
    (payload signature : string) (identity : option string) : result bool :=
  match hotkey_verify (bs_wallet self) with
  | None => Err (RuntimeError "wallet hotkey does not expose verify(payload, signature)")
  | Some verifier => verifier payload (signature_bytes signature)
  end.

(** [bt_wallet name hotkey path] is [bt.Wallet(...)]; [path = None] is the call
    without the argument. *)
Definition load_wallet_hotkey_signer (read_file : string -> result string)
    (bt_wallet : string -> string -> option string -> result Wallet)
    (wallet_path wallet_name hotkey_name : string)
    : result (NativeEd25519HotkeySigner + BittensorHotkeySigner) :=
  match NativeEd25519HotkeySigner_from_wallet read_file wallet_path wallet_name hotkey_name with
  | Ok s => Ok (inl s)
  | Err (ValueError _) =>
      wallet ← match bt_wallet wallet_name hotkey_name (Some wallet_path) with
               | Err (TypeError _) => bt_wallet wallet_name hotkey_name None
               | r => r
               end;
      Ok (inr (BittensorHotkeySigner_init wallet None))
  | Err e => Err e
  end.

(** ** What signers and verifiers promise each other *)

(** A verifier accepts, under the signer's identity, whatever the signer
    signed. *)
Class SignsFor (s : Signer) (v : Verifier) : Prop :=
  signs_for : forall payload sig, signer_sign s payload = Ok sig ->
    verifier_verify v payload sig (Some (signer_identity s)) = Ok true.

(** ** Lemmas *)

#[local] Arguments String.append !s1 s2 : simpl nomatch.

Lemma hex_value_digit n : (n < 16)%N -> hex_value (hex_digit n) = Some n /\ is_blank (hex_digit n) = false.
Proof.
  intros H. assert (In n (map N.of_nat (seq 0 16))) as Hin.
  { apply in_map_iff. exists (N.to_nat n). rewrite N2Nat.id. split; [done|]. apply in_seq. lia. }
  revert Hin. clear H. cbn. intuition (subst; by vm_compute).
Qed.

Lemma fromhex_hex s : fromhex (hex s) = Some s.
Proof.
  induction s as [|c s IH]; [done|].
  assert (exists a b, hex_of_byte c = String a (String b EmptyString) /\ is_blank a = false /\
    exists x y, hex_value a = Some x /\ hex_value b = Some y /\ byte (x * 16 + y)%N = c)
    as (a & b & E & Hb & x & y & Hx & Hy & Hc).
  { destruct c as [[] [] [] [] [] [] [] []];
      (eexists _, _; split; [reflexivity|]; split; [reflexivity|];
       eexists _, _; split; [reflexivity|]; split; [reflexivity|]; reflexivity). }
  cbn [hex]. rewrite E. cbn [String.append fromhex]. rewrite Hb, Hx, Hy, IH. by rewrite Hc.
Qed.

Lemma hex_no_0x s : removeprefix "0x" (hex s) = hex s.
Proof.
  unfold removeprefix. destruct (startswith "0x" (hex s)) eqn:E; [|done].
  exfalso. destruct s as [|c s]; [done|]. cbn [hex] in E.
  destruct c as [[] [] [] [] [] [] [] []]; vm_compute in E; done.
Qed.

Lemma signature_bytes_hex s : signature_bytes (hex s) = s.
Proof. unfold signature_bytes, is_hex. by rewrite hex_no_0x, fromhex_hex. Qed.

Lemma compare_digest_refl s : str_forallb is_ascii s = true -> compare_digest s s = Ok true.
Proof. intros H. unfold compare_digest. rewrite H. by rewrite String.eqb_refl. Qed.

Lemma compare_digest_true a b : compare_digest a b = Ok true -> a = b.
Proof.
  unfold compare_digest. destruct (_ && _); [|done]. intros [= H]. by apply String.eqb_eq.
Qed.

#[export] Hint Resolve compare_digest_refl : teuton.

(** Verification of an HMAC, on every input: it accepts exactly the signature
    the signer makes and raises on a non-ASCII one. *)
Lemma verify_payload_spec payload secret signature :
  verify_payload payload secret signature =
  if str_forallb is_ascii signature then Ok (String.eqb (sign_payload payload secret) signature)
  else Err (TypeError "comparing strings with non-ASCII characters is not supported").
Proof. unfold verify_payload, compare_digest, sign_payload. rewrite hmac_ascii. done. Qed.

Lemma verify_payload_sign payload secret :
  verify_payload payload secret (sign_payload payload secret) = Ok true.
Proof. apply compare_digest_refl, hmac_ascii. Qed.

(** The HMAC signer and its own verifier. *)
#[export] Instance hmac_signs_for h : SignsFor (hmac_signer h) (hmac_verifier h).
Proof. intros p sig [= <-]. apply verify_payload_sign. Qed.

Section hotkeys.
Context `{L : SigLib} `{!SigLaws L}.

Lemma try_false_cases (r : result bool) :
  pythonic r -> exists b, try_except r (fun _ => Ok false) = Ok b.
Proof. intros H. destruct r as [b|e]; cbn in *; [eauto|]. rewrite H. eauto. Qed.

(** A hotkey whose address decodes to the public key of its seed. *)
Definition hotkey_of_seed (identity seed : string) : Prop :=
  ss58_decode identity = Ok (hex (nacl_public_key seed)).

Lemma verify_hotkey_sign seed identity payload :
  hotkey_of_seed identity seed ->
  verify_hotkey_payload payload identity (hex (nacl_sign seed payload)) = Ok true.
Proof.
  intros Hid. unfold verify_hotkey_payload. rewrite signature_bytes_hex.
  destruct (nacl_never_unmodelled identity payload (nacl_sign seed payload)) as [U1 U2].
  destruct (try_false_cases _ U1) as [[] E1]; rewrite E1; cbn; [done|].
  destruct (try_false_cases _ U2) as [[] E2]; rewrite E2; cbn; [done|].
  unfold public_key_from_ss58. unfold hotkey_of_seed in Hid. rewrite Hid. cbn.
  rewrite fromhex_hex. cbn. by rewrite nacl_sign_verifies.
Qed.

(** A native signer against the verifier of identities. *)
#[export] Instance native_signs_for s :
  hotkey_of_seed (ns_identity s) (ns_seed s) -> ns_identity s <> EmptyString ->
  SignsFor (native_signer s) identity_verifier.
Proof.
  intros Hid Hne p sig [= <-]. cbn. unfold IdentityVerifier_verify.
  apply String.eqb_neq in Hne as ->. unfold verify_identity_payload.
  unfold NativeEd25519HotkeySigner_sign. by rewrite verify_hotkey_sign.
Qed.

(** Hotkey verification answers: no library exception escapes it. *)
Lemma verify_hotkey_total payload identity signature :
  (forall i p s, pythonic (nacl_verify i p s)) -> (forall i, pythonic (ss58_decode i)) ->
  exists b, verify_hotkey_payload payload identity signature = Ok b.
Proof.
  intros Hn Hs. unfold verify_hotkey_payload.
  destruct (nacl_never_unmodelled identity payload (signature_bytes signature)) as [U1 U2].
  destruct (try_false_cases _ U1) as [[] E1]; rewrite E1; cbn; [eauto|].
  destruct (try_false_cases _ U2) as [[] E2]; rewrite E2; cbn; [eauto|].
  apply try_false_cases. unfold public_key_from_ss58. specialize (Hs identity).
  destruct (ss58_decode identity) as [h|e]; cbn; [|done].
  destruct (fromhex h) as [pk|]; cbn; [|done].
  specialize (Hn pk payload (signature_bytes signature)). by destruct (nacl_verify _ _ _).
Qed.

(** Whatever identity is claimed, the HMAC keyed by that very identity is
    accepted when the fallback is on. *)
Lemma verify_identity_hmac payload identity b :
  verify_hotkey_payload payload identity (sign_payload payload identity) = Ok b ->
  verify_identity_payload payload identity (sign_payload payload identity) true = Ok true.
Proof.
  intros Hb. unfold verify_identity_payload. rewrite Hb. destruct b; [done|].
  apply verify_payload_sign.
Qed.
End hotkeys.

(** Libraries that know no key, for examples. *)
Definition no_signatures : SigLib := {|
  bt_keypair_verify := fun _ _ _ => Ok false;
  substrate_keypair_verify := fun _ _ _ => Ok false;
  ss58_decode := fun _ => Err (ValueError "not an address");
  nacl_verify := fun _ _ _ => Err (ValueError "bad signature");
  nacl_sign := fun _ _ => EmptyString;
  nacl_public_key := fun _ => EmptyString
|}.
