(* ===== verification/Codec.v ===== *)
(** * Records on the wire

    The shapes shared by the [to_dict]/[from_dict] pairs of
    [teuton_core/protocol.py] and of the runtime records, and the class
    [WireRecord] of a record type with such a pair.  Reading a record back from
    the JSON text of its dictionary is proved once, for every instance. *)

From Stdlib Require Import ZArith Lia Ascii.
From stdpp Require Import base strings list.
From S2P Require Import Prelude PyFloat PyVal Json Digest Signatures.

(** ** Field readers *)

(** [[f(x) for x in v]] over dictionaries. *)
Definition list_of {A} (f : dict pyval -> result A) (v : pyval) : result (list A) :=
  l ← as_list v; mapR (fun x => as_dict x ≫= f) l.

(** [[int(x) for x in v]]. *)
Definition ints_of (v : pyval) : result (list Z) := l ← as_list v; mapR py_int l.

(** [f(d[k]) if d.get(k) else None]. *)
Definition opt_nested {A} (f : dict pyval -> result A) (d : dict pyval) (k : string)
    : result (option A) :=
  if truthy (get d k) then v ← item d k; e ← as_dict v; x ← f e; Ok (Some x) else Ok None.

(** [int(d[k]) if d.get(k) is not None else None]. *)
Definition opt_py_int (d : dict pyval) (k : string) : result (option Z) :=
  match get d k with PNone => Ok None | v => z ← py_int v; Ok (Some z) end.

(** [bool(d.get(k, dflt))]. *)
Definition bool_or (d : dict pyval) (k : string) (dflt : bool) : bool :=
  truthy (get_or d k (PBool dflt)).

(** [d.get(k) or []] iterated as text. *)
Definition strs_of (v : pyval) : result (list string) := l ← as_list v; mapR as_str l.

(** ** The class *)

(** [wire_normal] sorts the keys of the free-form dictionaries of a record:
    what survives a JSON document printed with sorted keys. *)
Class WireRecord (A : Type) := {
  wire_to : A -> dict pyval;
  wire_from : dict pyval -> result A;
  wire_normal : A -> A
}.

Class WireLaws (A : Type) `{WireRecord A} : Prop := {
  wire_keys : forall r, NoDup (dict_keys (wire_to r));
  wire_from_to : forall r, wire_from (wire_to r) = Ok r;
  wire_from_canon : forall d, keys_ok (PDict d) = true ->
    wire_from (canon_dict d) = rmap wire_normal (wire_from d)
}.

(** A parsed document given to [from_dict], which calls [d.get]. *)
Definition as_object (v : pyval) : result (dict pyval) :=
  match v with PDict d => Ok d | _ => Err (AttributeError "object has no attribute 'get'") end.

(** [X.from_dict(json.loads(text))]. *)
Definition load_as {A} (from : dict pyval -> result A) (text : string) : result A :=
  v ← json_loads text; d ← as_object v; from d.

(** The same for the bytes of an object, [json.loads(blob.decode("utf-8"))]. *)
Definition load_bytes {A} (from : dict pyval -> result A) (blob : string) : result A :=
  text ← utf8_decode blob; load_as from text.

(** ** Lemmas *)

Lemma canon_dict_nil : canon_dict [] = [].
Proof. done. Qed.

Lemma keys_ok_NoDup d : keys_ok (PDict d) = true -> NoDup (dict_keys d).
Proof. cbn. rewrite andb_true_iff. intros [H _]. by apply bool_decide_eq_true in H. Qed.

Lemma keys_ok_get d k v : keys_ok (PDict d) = true -> dict_get k d = Some v -> keys_ok v = true.
Proof.
  cbn. rewrite andb_true_iff. intros [_ H] Hg. apply dict_get_elem in Hg.
  rewrite forallb_forall in H. apply list_elem_of_In in Hg. apply H in Hg. done.
Qed.

Lemma json_ok_get d k v : json_ok (PDict d) = true -> dict_get k d = Some v -> json_ok v = true.
Proof.
  cbn [json_ok]. intros [_ H]%andb_true_iff Hg%dict_get_elem%list_elem_of_In. rewrite forallb_forall in H.
  by apply H, andb_true_iff in Hg as [_ ?].
Qed.

Lemma json_ok_keys_ok v : json_ok v = true -> keys_ok v = true.
Proof.
  induction v as [| | | | |l IH|d IH] using pyval_ind'; try done; cbn; intros H.
  - apply forallb_forall. intros x Hx. rewrite forallb_forall in H.
    rewrite Forall_forall in IH. apply IH; [by apply list_elem_of_In|auto].
  - apply andb_true_iff in H as [H1 H2]. apply andb_true_iff. split; [done|].
    apply forallb_forall. intros x Hx. rewrite forallb_forall in H2.
    rewrite Forall_forall in IH. apply IH; [by apply list_elem_of_In|].
    apply H2 in Hx. by apply andb_true_iff in Hx as [_ ?].
Qed.

Section canon_readers.
Context (d : dict pyval).
Context (Hd : keys_ok (PDict d) = true).

Lemma get_canon k : get (canon_dict d) k = canon (get d k).
Proof.
  unfold get, get_or. rewrite canon_dict_get by by apply keys_ok_NoDup.
  by destruct (dict_get k d).
Qed.

Lemma get_or_canon k v : canon v = v -> get_or (canon_dict d) k v = canon (get_or d k v).
Proof.
  intros Hv. unfold get_or. rewrite canon_dict_get by by apply keys_ok_NoDup.
  by destruct (dict_get k d).
Qed.

Lemma item_canon k : item (canon_dict d) k = rmap canon (item d k).
Proof.
  unfold item. rewrite canon_dict_get by by apply keys_ok_NoDup. by destruct (dict_get k d).
Qed.

Lemma req_str_canon k : req_str (canon_dict d) k = req_str d k.
Proof. unfold req_str. rewrite item_canon. by destruct (item d k) as [[]|]. Qed.

Lemma req_int_canon k : req_int (canon_dict d) k = req_int d k.
Proof. unfold req_int. rewrite item_canon. by destruct (item d k) as [[]|]. Qed.

Lemma opt_str_canon k : opt_str (canon_dict d) k = opt_str d k.
Proof. unfold opt_str. rewrite get_canon. by destruct (get d k). Qed.

Lemma opt_int_canon k : opt_int (canon_dict d) k = opt_int d k.
Proof. unfold opt_int. rewrite get_canon. by destruct (get d k). Qed.

Lemma opt_float_canon k : opt_float (canon_dict d) k = opt_float d k.
Proof. unfold opt_float. rewrite get_canon. by destruct (get d k). Qed.

Lemma str_or_canon k v : str_or (canon_dict d) k v = str_or d k v.
Proof. unfold str_or. rewrite get_or_canon by done. by destruct (get_or d k _). Qed.

Lemma int_or_canon k v : int_or (canon_dict d) k v = int_or d k v.
Proof. unfold int_or. rewrite get_or_canon by done. by destruct (get_or d k _). Qed.

Lemma float_or_canon k v : float_or (canon_dict d) k v = float_or d k v.
Proof. unfold float_or. rewrite get_or_canon by done. by destruct (get_or d k _). Qed.

Lemma bool_or_canon k v : bool_or (canon_dict d) k v = bool_or d k v.
Proof. unfold bool_or. rewrite get_or_canon by done. apply canon_truthy. Qed.

Lemma opt_py_int_canon k : opt_py_int (canon_dict d) k = opt_py_int d k.
Proof. unfold opt_py_int. rewrite get_canon. by destruct (get d k). Qed.

Lemma keys_ok_get_or k v : keys_ok v = true -> keys_ok (get_or d k v) = true.
Proof.
  intros Hv. unfold get_or. destruct (dict_get k d) eqn:E; [|done]. by apply (keys_ok_get d k).
Qed.

Lemma keys_ok_item k v : item d k = Ok v -> keys_ok v = true.
Proof.
  unfold item. destruct (dict_get k d) eqn:E; [|done]. intros [= <-]. by apply (keys_ok_get d k).
Qed.

End canon_readers.

Lemma dict_or_empty_canon v : dict_or_empty (canon v) = rmap canon_dict (dict_or_empty v).
Proof. unfold dict_or_empty. rewrite canon_truthy. destruct (truthy v) eqn:E; [|done]. by destruct v. Qed.

Lemma ints_of_canon v : ints_of (canon v) = ints_of v.
Proof.
  destruct v as [| | | | |l|]; try done. unfold ints_of. cbn.
  induction l as [|x l IH]; [done|]. cbn. rewrite IH. by destruct x.
Qed.

Lemma as_dict_canon {A} (f : dict pyval -> result A) g v :
  (forall e, keys_ok (PDict e) = true -> f (canon_dict e) = rmap g (f e)) -> keys_ok v = true ->
  (as_dict (canon v) ≫= f) = rmap g (as_dict v ≫= f).
Proof. intros Hf Hv. destruct v; try done. cbn. by apply Hf. Qed.

Lemma list_of_canon {A} (f : dict pyval -> result A) g v :
  (forall e, keys_ok (PDict e) = true -> f (canon_dict e) = rmap g (f e)) -> keys_ok v = true ->
  list_of f (canon v) = rmap (map g) (list_of f v).
Proof.
  intros Hf Hv. destruct v as [| | | | |l|]; try done. unfold list_of. cbn in *.
  induction l as [|x l IH]; [done|]. cbn in *. apply andb_true_iff in Hv as [Hx Hl].
  rewrite IH by done. rewrite (as_dict_canon f g x) by done.
  destruct (as_dict x ≫= f); [|done]. cbn. by destruct (mapR _ l).
Qed.

Lemma opt_nested_canon {A} (f : dict pyval -> result A) g d k :
  (forall e, keys_ok (PDict e) = true -> f (canon_dict e) = rmap g (f e)) -> keys_ok (PDict d) = true ->
  opt_nested f (canon_dict d) k = rmap (option_map g) (opt_nested f d k).
Proof.
  intros Hf Hd. unfold opt_nested. rewrite get_canon, canon_truthy, item_canon by done.
  destruct (truthy (get d k)); [|done]. destruct (item d k) as [v|] eqn:E; [|done]. cbn.
  apply (keys_ok_item d Hd) in E. destruct v as [| | | | | |e]; try done.
  cbn [rmap mbind result_bind]. rewrite canon_PDict. cbn [as_dict mbind result_bind].
  rewrite Hf by done. by destruct (f e).
Qed.

(** Identity normalisations. *)
Lemma fmap_id_result {A} (r : result A) : rmap (fun x => x) r = r.
Proof. by destruct r. Qed.

(** A reader that never looks inside a dictionary is blind to key order. *)
Lemma list_of_canon_id {A} (f : dict pyval -> result A) v :
  (forall e, keys_ok (PDict e) = true -> f (canon_dict e) = f e) -> keys_ok v = true ->
  list_of f (canon v) = list_of f v.
Proof.
  intros Hf Hv. rewrite (list_of_canon f (fun x => x)); [|intros; rewrite fmap_id_result; auto|done].
  destruct (list_of f v); cbn; [|done]. by rewrite map_id.
Qed.

Lemma opt_nested_canon_id {A} (f : dict pyval -> result A) d k :
  (forall e, keys_ok (PDict e) = true -> f (canon_dict e) = f e) -> keys_ok (PDict d) = true ->
  opt_nested f (canon_dict d) k = opt_nested f d k.
Proof.
  intros Hf Hd. rewrite (opt_nested_canon f (fun x => x)); [|intros; rewrite fmap_id_result; auto|done].
  by destruct (opt_nested f d k) as [[]|].
Qed.

(** Writing a list of records and reading it back. *)
Lemma list_of_map {A} (f : dict pyval -> result A) (g : A -> dict pyval) l :
  (forall r, f (g r) = Ok r) -> list_of f (PList (map (fun r => PDict (g r)) l)) = Ok l.
Proof.
  intros H. unfold list_of. cbn. rewrite (mapR_Ok_map _ _ id).
  - by rewrite map_id.
  - apply Forall_forall. intros x _. cbn. apply H.
Qed.

Lemma ints_of_map l : ints_of (PList (map PInt l)) = Ok l.
Proof.
  unfold ints_of. cbn. rewrite (mapR_Ok_map _ _ id); [by rewrite map_id|].
  by apply Forall_forall.
Qed.

(** Rewrite every reader of a sorted dictionary to the reader of the original. *)
Ltac canon_readers :=
  repeat first
    [ rewrite req_str_canon by assumption | rewrite req_int_canon by assumption
    | rewrite opt_str_canon by assumption | rewrite opt_int_canon by assumption
    | rewrite opt_float_canon by assumption | rewrite str_or_canon by assumption
    | rewrite int_or_canon by assumption | rewrite float_or_canon by assumption
    | rewrite bool_or_canon by assumption | rewrite opt_py_int_canon by assumption
    | rewrite item_canon by assumption | rewrite get_canon by assumption
    | rewrite get_or_canon by (assumption || reflexivity)
    | rewrite dict_or_empty_canon | rewrite ints_of_canon ].

Lemma bind_rmap {A B C} (r : result A) (k : A -> result B) (k' : A -> result C) g :
  (forall a, r = Ok a -> k a = rmap g (k' a)) -> (r ≫= k) = rmap g (r ≫= k').
Proof. destruct r; cbn; auto. Qed.

Lemma bind_canon_dict {A} (r : result (dict pyval)) (k : dict pyval -> result A) :
  (rmap canon_dict r ≫= k) = (r ≫= fun d => k (canon_dict d)).
Proof. by destruct r. Qed.

Lemma keys_ok_opt d k : keys_ok (PDict d) = true -> keys_ok (get d k) = true.
Proof. intros H. unfold get. by apply keys_ok_get_or. Qed.

Lemma rmap_id_sorted {A} (f : dict pyval -> result A) :
  (forall e, keys_ok (PDict e) = true -> f (canon_dict e) = f e) ->
  forall e, keys_ok (PDict e) = true -> f (canon_dict e) = rmap (fun x => x) (f e).
Proof. intros H e He. rewrite fmap_id_result. auto. Qed.

(** Push the normalisation through the binds of a reader. *)
Ltac sorted_binds :=
  repeat first [rewrite bind_canon_dict | apply bind_rmap; intros ? _]; try done.

(** ** Through JSON text *)

Section through_json.
Context {A : Type} `{WireLaws A}.

(** Every record read back from its own JSON text is the record with its
    free-form dictionaries sorted. *)
Lemma wire_json_roundtrip r :
  json_ok (PDict (wire_to r)) = true ->
  load_as wire_from (json_dumps (PDict (wire_to r))) = Ok (wire_normal r).
Proof.
  intros Hok. unfold load_as. rewrite json_roundtrip by done. rewrite canon_PDict.
  cbn [as_object mbind result_bind].
  rewrite wire_from_canon by by apply json_ok_keys_ok. by rewrite wire_from_to.
Qed.

Lemma wire_bytes_roundtrip r :
  json_ok (PDict (wire_to r)) = true ->
  load_bytes wire_from (json_dumps (PDict (wire_to r))) = Ok (wire_normal r).
Proof.
  intros Hok. unfold load_bytes. rewrite utf8_decode_ascii by by apply json_dumps_ascii.
  by apply wire_json_roundtrip.
Qed.

Lemma wire_unicode_roundtrip r :
  json_ok (PDict (wire_to r)) = true ->
  load_bytes wire_from (json_dumps_unicode (PDict (wire_to r))) = Ok (wire_normal r).
Proof.
  intros Hok. unfold load_bytes, load_as. rewrite utf8_decode_ascii by by apply json_dumps_unicode_ascii.
  cbn [mbind result_bind]. rewrite json_roundtrip_unicode, canon_PDict by done.
  cbn [as_object mbind result_bind].
  rewrite wire_from_canon by by apply json_ok_keys_ok. by rewrite wire_from_to.
Qed.

Lemma wire_from_sorted r :
  json_ok (PDict (wire_to r)) = true -> wire_from (canon_dict (wire_to r)) = Ok (wire_normal r).
Proof. intros Hok. rewrite wire_from_canon by by apply json_ok_keys_ok. by rewrite wire_from_to. Qed.
End through_json.
