(* ===== verification/Protocol.v ===== *)
(** * Wire protocol records ([teuton_core/protocol.py])

    Every dataclass of the module with its [to_dict] and [from_dict]; the
    unsigned dictionaries of the signed records, their hashes and signatures.
    A field that the code reads without a conversion must have its annotated
    type; a document that breaks this is outside the model. *)

From Stdlib Require Import ZArith Lia Ascii.
From stdpp Require Import base strings list.
From S2P Require Import Prelude PyFloat PyVal Json Digest Signatures Codec.

(** The second argument of [sign]: an object with a [sign] method or a secret. *)
Inductive signer_or_secret : Type :=
  | BySigner (s : Signer)
  | BySecret (secret : string).

Definition record_signature (value : dict pyval) (s : signer_or_secret) : result string :=
  match s with
  | BySigner s => signer_sign s (canonical_json (PDict value))
  | BySecret secret => Ok (sign_dict value secret)
  end.

(** ** Cryptographic modes *)

Inductive CryptoMode : Type := NONE | SIGNED | ENCRYPTED | DRAND_TIMELOCK.

Definition CryptoMode_value (m : CryptoMode) : string :=
  match m with
  | NONE => "none"
  | SIGNED => "signed"
  | ENCRYPTED => "encrypted"
  | DRAND_TIMELOCK => "drand_timelock"
  end.

(** ** ArtifactCryptoPolicy *)

Record ArtifactCryptoPolicy := mkPolicy {
  cp_mode : string;
  cp_required_signer : option string;
  cp_recipient : option string;
  cp_cipher_suite : string;
  cp_key_id : option string;
  cp_drand_round : option Z;
  cp_drand_chain_hash : option string;
  cp_drand_public_key : option string
}.

Definition ArtifactCryptoPolicy_default : ArtifactCryptoPolicy :=
  mkPolicy (CryptoMode_value NONE) None None "xor-dev-v1" None None None None.

Definition ArtifactCryptoPolicy_to_dict (p : ArtifactCryptoPolicy) : dict pyval :=
  [("mode", PStr (cp_mode p)); ("cipher_suite", PStr (cp_cipher_suite p))]
  ++ opt_item "required_signer" PStr (cp_required_signer p)
  ++ opt_item "recipient" PStr (cp_recipient p)
  ++ opt_item "key_id" PStr (cp_key_id p)
  ++ opt_item "drand_round" PInt (cp_drand_round p)
  ++ opt_item "drand_chain_hash" PStr (cp_drand_chain_hash p)
  ++ opt_item "drand_public_key" PStr (cp_drand_public_key p).

Definition ArtifactCryptoPolicy_from_dict (d : dict pyval) : result ArtifactCryptoPolicy :=
  mode ← str_or d "mode" (CryptoMode_value NONE);
  required_signer ← opt_str d "required_signer";
  recipient ← opt_str d "recipient";
  cipher_suite ← str_or d "cipher_suite" "xor-dev-v1";
  key_id ← opt_str d "key_id";
  drand_round ← opt_int d "drand_round";
  drand_chain_hash ← opt_str d "drand_chain_hash";
  drand_public_key ← opt_str d "drand_public_key";
  Ok (mkPolicy mode required_signer recipient cipher_suite key_id drand_round
        drand_chain_hash drand_public_key).

(** ** ArtifactEnvelope *)

Record ArtifactEnvelope := mkEnvelope {
  env_crypto_mode : string;
  env_payload_b64 : string;
  env_plaintext_sha256 : string;
  env_ciphertext_sha256 : string;
  env_signer : option string;
  env_signature : option string;
  env_cipher_suite : option string;
  env_key_id : option string;
  env_drand_round : option Z;
  env_drand_chain_hash : option string;
  env_drand_public_key : option string;
  env_schema_version : Z
}.

Definition ArtifactEnvelope_signed_payload_dict (e : ArtifactEnvelope) : dict pyval :=
  [("schema_version", PInt (env_schema_version e));
   ("crypto_mode", PStr (env_crypto_mode e));
   ("payload_b64", PStr (env_payload_b64 e));
   ("plaintext_sha256", PStr (env_plaintext_sha256 e));
   ("ciphertext_sha256", PStr (env_ciphertext_sha256 e));
   ("signer", pstr_opt (env_signer e));
   ("cipher_suite", pstr_opt (env_cipher_suite e));
   ("key_id", pstr_opt (env_key_id e));
   ("drand_round", pint_opt (env_drand_round e));
   ("drand_chain_hash", pstr_opt (env_drand_chain_hash e));
   ("drand_public_key", pstr_opt (env_drand_public_key e))].

Definition ArtifactEnvelope_to_dict (e : ArtifactEnvelope) : dict pyval :=
  dict_set "signature" (pstr_opt (env_signature e)) (ArtifactEnvelope_signed_payload_dict e).

Definition ArtifactEnvelope_from_dict (d : dict pyval) : result ArtifactEnvelope :=
  schema_version ← int_or d "schema_version" 1;
  crypto_mode ← str_or d "crypto_mode" (CryptoMode_value NONE);
  payload_b64 ← req_str d "payload_b64";
  plaintext_sha256 ← req_str d "plaintext_sha256";
  ciphertext_sha256 ← req_str d "ciphertext_sha256";
  signer ← opt_str d "signer";
  signature ← opt_str d "signature";
  cipher_suite ← opt_str d "cipher_suite";
  key_id ← opt_str d "key_id";
  drand_round ← opt_int d "drand_round";
  drand_chain_hash ← opt_str d "drand_chain_hash";
  drand_public_key ← opt_str d "drand_public_key";
  Ok (mkEnvelope crypto_mode payload_b64 plaintext_sha256 ciphertext_sha256 signer signature
        cipher_suite key_id drand_round drand_chain_hash drand_public_key schema_version).

(** ** MetagraphMinerIdentity *)

Record MetagraphMinerIdentity := mkMetagraphMiner {
  mg_netuid : Z;
  mg_uid : Z;
  mg_hotkey_ss58 : string;
  mg_coldkey_ss58 : option string;
  mg_stake : option float;
  mg_metagraph_block : option Z
}.

Definition MetagraphMinerIdentity_to_dict (m : MetagraphMinerIdentity) : dict pyval :=
  [("netuid", PInt (mg_netuid m)); ("uid", PInt (mg_uid m)); ("hotkey_ss58", PStr (mg_hotkey_ss58 m))]
  ++ opt_item "coldkey_ss58" PStr (mg_coldkey_ss58 m)
  ++ opt_item "stake" PFloat (mg_stake m)
  ++ opt_item "metagraph_block" PInt (mg_metagraph_block m).

Definition MetagraphMinerIdentity_from_dict (d : dict pyval) : result MetagraphMinerIdentity :=
  netuid ← req_int d "netuid";
  uid ← req_int d "uid";
  hotkey_ss58 ← req_str d "hotkey_ss58";
  coldkey_ss58 ← opt_str d "coldkey_ss58";
  stake ← opt_float d "stake";
  metagraph_block ← opt_int d "metagraph_block";
  Ok (mkMetagraphMiner netuid uid hotkey_ss58 coldkey_ss58 stake metagraph_block).

(** ** PresignedUrlGrant *)

Record PresignedUrlGrant := mkGrant {
  pg_method : string;
  pg_canonical_uri : string;
  pg_url : string;
  pg_expires_unix : Z;
  pg_content_sha256 : option string
}.

Definition PresignedUrlGrant_to_dict (g : PresignedUrlGrant) : dict pyval :=
  [("method", PStr (pg_method g)); ("canonical_uri", PStr (pg_canonical_uri g));
   ("url", PStr (pg_url g)); ("expires_unix", PInt (pg_expires_unix g))]
  ++ opt_item "content_sha256" PStr (pg_content_sha256 g).

Definition PresignedUrlGrant_from_dict (d : dict pyval) : result PresignedUrlGrant :=
  method ← req_str d "method";
  canonical_uri ← req_str d "canonical_uri";
  url ← req_str d "url";
  expires_unix ← req_int d "expires_unix";
  content_sha256 ← opt_str d "content_sha256";
  Ok (mkGrant method canonical_uri url expires_unix content_sha256).

(** ** AssignmentGrantV3 *)

Record AssignmentGrantV3 := mkAssignment {
  ag_job_id : string;
  ag_run_id : string;
  ag_assigned_hotkey : string;
  ag_input_gets : list PresignedUrlGrant;
  ag_output_puts : list PresignedUrlGrant;
  ag_receipt_put : option PresignedUrlGrant;
  ag_created_unix : Z;
  ag_expires_unix : Z;
  ag_schema_version : Z
}.

Definition pdicts {A} (f : A -> dict pyval) (l : list A) : pyval := PList (map (fun x => PDict (f x)) l).

Definition pdict_opt {A} (f : A -> dict pyval) (o : option A) : pyval :=
  match o with Some x => PDict (f x) | None => PNone end.

Definition AssignmentGrantV3_to_dict (a : AssignmentGrantV3) : dict pyval :=
  [("schema_version", PInt (ag_schema_version a));
   ("job_id", PStr (ag_job_id a));
   ("run_id", PStr (ag_run_id a));
   ("assigned_hotkey", PStr (ag_assigned_hotkey a));
   ("input_gets", pdicts PresignedUrlGrant_to_dict (ag_input_gets a));
   ("output_puts", pdicts PresignedUrlGrant_to_dict (ag_output_puts a));
   ("receipt_put", pdict_opt PresignedUrlGrant_to_dict (ag_receipt_put a));
   ("created_unix", PInt (ag_created_unix a));
   ("expires_unix", PInt (ag_expires_unix a))].

Definition AssignmentGrantV3_from_dict (d : dict pyval) : result AssignmentGrantV3 :=
  schema_version ← int_or d "schema_version" 1;
  job_id ← req_str d "job_id";
  run_id ← req_str d "run_id";
  assigned_hotkey ← req_str d "assigned_hotkey";
  input_gets ← list_of PresignedUrlGrant_from_dict (get_or d "input_gets" (PList []));
  output_puts ← list_of PresignedUrlGrant_from_dict (get_or d "output_puts" (PList []));
  receipt_put ← opt_nested PresignedUrlGrant_from_dict d "receipt_put";
  created_unix ← int_or d "created_unix" 0;
  expires_unix ← int_or d "expires_unix" 0;
  Ok (mkAssignment job_id run_id assigned_hotkey input_gets output_puts receipt_put
        created_unix expires_unix schema_version).

(** ** EncryptedAssignmentGrantV3 *)

Record EncryptedAssignmentGrantV3 := mkEncrypted {
  eg_job_id : string;
  eg_run_id : string;
  eg_recipient_hotkey : string;
  eg_ciphertext_b64 : string;
  eg_crypto_scheme : string;
  eg_recipient_uid : option Z;
  eg_metagraph_block : option Z;
  eg_metagraph_hash : option string;
  eg_sender_hotkey : option string;
  eg_sender_public_key_hex : option string;
  eg_recipient_public_key_hex : option string;
  eg_schema_version : Z
}.

Definition EncryptedAssignmentGrantV3_to_dict (e : EncryptedAssignmentGrantV3) : dict pyval :=
  [("schema_version", PInt (eg_schema_version e));
   ("job_id", PStr (eg_job_id e));
   ("run_id", PStr (eg_run_id e));
   ("recipient_hotkey", PStr (eg_recipient_hotkey e));
   ("ciphertext_b64", PStr (eg_ciphertext_b64 e));
   ("crypto_scheme", PStr (eg_crypto_scheme e))]
  ++ opt_item "recipient_uid" PInt (eg_recipient_uid e)
  ++ opt_item "metagraph_block" PInt (eg_metagraph_block e)
  ++ opt_item "metagraph_hash" PStr (eg_metagraph_hash e)
  ++ opt_item "sender_hotkey" PStr (eg_sender_hotkey e)
  ++ opt_item "sender_public_key_hex" PStr (eg_sender_public_key_hex e)
  ++ opt_item "recipient_public_key_hex" PStr (eg_recipient_public_key_hex e).

Definition EncryptedAssignmentGrantV3_from_dict (d : dict pyval)
    : result EncryptedAssignmentGrantV3 :=
  schema_version ← int_or d "schema_version" 1;
  job_id ← req_str d "job_id";
  run_id ← req_str d "run_id";
  recipient_hotkey ← req_str d "recipient_hotkey";
  ciphertext_b64 ← req_str d "ciphertext_b64";
  crypto_scheme ← str_or d "crypto_scheme" "dev-xor-v1";
  recipient_uid ← opt_int d "recipient_uid";
  metagraph_block ← opt_int d "metagraph_block";
  metagraph_hash ← opt_str d "metagraph_hash";
  sender_hotkey ← opt_str d "sender_hotkey";
  sender_public_key_hex ← opt_str d "sender_public_key_hex";
  recipient_public_key_hex ← opt_str d "recipient_public_key_hex";
  Ok (mkEncrypted job_id run_id recipient_hotkey ciphertext_b64 crypto_scheme recipient_uid
        metagraph_block metagraph_hash sender_hotkey sender_public_key_hex
        recipient_public_key_hex schema_version).

(** ** ArtifactRef *)

Record ArtifactRef := mkRef {
  ar_name : string;
  ar_uri : string;
  ar_sha256 : option string;
  ar_size_bytes : option Z;
  ar_crypto : option ArtifactCryptoPolicy
}.

Definition ArtifactRef_to_dict (r : ArtifactRef) : dict pyval :=
  [("name", PStr (ar_name r)); ("uri", PStr (ar_uri r))]
  ++ opt_item "sha256" PStr (ar_sha256 r)
  ++ opt_item "size_bytes" PInt (ar_size_bytes r)
  ++ opt_item "crypto" (fun p => PDict (ArtifactCryptoPolicy_to_dict p)) (ar_crypto r).

Definition ArtifactRef_from_dict (d : dict pyval) : result ArtifactRef :=
  name ← req_str d "name";
  uri ← req_str d "uri";
  sha256 ← opt_str d "sha256";
  size_bytes ← opt_int d "size_bytes";
  crypto ← opt_nested ArtifactCryptoPolicy_from_dict d "crypto";
  Ok (mkRef name uri sha256 size_bytes crypto).

(** ** ShardSpec *)

Record ShardSpec := mkShard {
  sh_rank : Z;
  sh_uri : string;
  sh_offset : Z;
  sh_length : option Z;
  sh_sha256 : option string;
  sh_size_bytes : option Z
}.

Definition ShardSpec_to_dict (s : ShardSpec) : dict pyval :=
  [("rank", PInt (sh_rank s)); ("uri", PStr (sh_uri s)); ("offset", PInt (sh_offset s))]
  ++ opt_item "length" PInt (sh_length s)
  ++ opt_item "sha256" PStr (sh_sha256 s)
  ++ opt_item "size_bytes" PInt (sh_size_bytes s).

Definition ShardSpec_from_dict (d : dict pyval) : result ShardSpec :=
  rank ← req_int d "rank";
  uri ← req_str d "uri";
  offset ← int_or d "offset" 0;
  len ← opt_py_int d "length";
  sha256 ← opt_str d "sha256";
  size_bytes ← opt_py_int d "size_bytes";
  Ok (mkShard rank uri offset len sha256 size_bytes).

(** ** ShardedTensorManifest *)

Record ShardedTensorManifest := mkShardedTensor {
  stm_name : string;
  stm_shape : list Z;
  stm_dtype : string;
  stm_partition_dim : Z;
  stm_world_size : Z;
  stm_shards : list ShardSpec;
  stm_layout : string
}.

Definition ShardedTensorManifest_to_dict (m : ShardedTensorManifest) : dict pyval :=
  [("name", PStr (stm_name m));
   ("shape", PList (map PInt (stm_shape m)));
   ("dtype", PStr (stm_dtype m));
   ("partition_dim", PInt (stm_partition_dim m));
   ("world_size", PInt (stm_world_size m));
   ("layout", PStr (stm_layout m));
   ("shards", pdicts ShardSpec_to_dict (stm_shards m))].

Definition ShardedTensorManifest_from_dict (d : dict pyval) : result ShardedTensorManifest :=
  name ← req_str d "name";
  shape ← ints_of (get_or d "shape" (PList []));
  dtype ← req_str d "dtype";
  partition_dim ← int_or d "partition_dim" 0;
  world_size ← req_int d "world_size";
  layout ← str_or d "layout" "rank_sharded_v1";
  shards ← list_of ShardSpec_from_dict (get_or d "shards" (PList []));
  Ok (mkShardedTensor name shape dtype partition_dim world_size shards layout).

(** ** ArtifactDigest *)

Record ArtifactDigest := mkDigest {
  ad_name : string;
  ad_uri : string;
  ad_sha256 : string;
  ad_size_bytes : Z;
  ad_plaintext_sha256 : option string;
  ad_ciphertext_sha256 : option string;
  ad_envelope_sha256 : option string;
  ad_signature : option string;
  ad_crypto_mode : string;
  ad_sharded : option ShardedTensorManifest
}.

Definition ArtifactDigest_to_dict (a : ArtifactDigest) : dict pyval :=
  [("name", PStr (ad_name a)); ("uri", PStr (ad_uri a)); ("sha256", PStr (ad_sha256 a));
   ("size_bytes", PInt (ad_size_bytes a)); ("crypto_mode", PStr (ad_crypto_mode a))]
  ++ opt_item "plaintext_sha256" PStr (ad_plaintext_sha256 a)
  ++ opt_item "ciphertext_sha256" PStr (ad_ciphertext_sha256 a)
  ++ opt_item "envelope_sha256" PStr (ad_envelope_sha256 a)
  ++ opt_item "signature" PStr (ad_signature a)
  ++ opt_item "sharded" (fun m => PDict (ShardedTensorManifest_to_dict m)) (ad_sharded a).

Definition ArtifactDigest_from_dict (d : dict pyval) : result ArtifactDigest :=
  name ← req_str d "name";
  uri ← req_str d "uri";
  sha256 ← req_str d "sha256";
  size_bytes ← req_int d "size_bytes";
  plaintext_sha256 ← opt_str d "plaintext_sha256";
  ciphertext_sha256 ← opt_str d "ciphertext_sha256";
  envelope_sha256 ← opt_str d "envelope_sha256";
  signature ← opt_str d "signature";
  crypto_mode ← str_or d "crypto_mode" (CryptoMode_value NONE);
  sharded ← opt_nested ShardedTensorManifest_from_dict d "sharded";
  Ok (mkDigest name uri sha256 size_bytes plaintext_sha256 ciphertext_sha256 envelope_sha256
        signature crypto_mode sharded).

(** ** GraphRef *)

Record GraphRef := mkGraphRef { gr_sha256 : string; gr_uri : string }.

Definition GraphRef_to_dict (g : GraphRef) : dict pyval :=
  [("sha256", PStr (gr_sha256 g)); ("uri", PStr (gr_uri g))].

Definition GraphRef_from_dict (d : dict pyval) : result GraphRef :=
  sha256 ← req_str d "sha256";
  uri ← req_str d "uri";
  Ok (mkGraphRef sha256 uri).

(** ** MinerIdentity *)

Record MinerIdentity := mkMiner {
  mi_netuid : Z;
  mi_hotkey_ss58 : string;
  mi_uid : option Z;
  mi_endpoint : option string;
  mi_commitment_hash : option string;
  mi_capabilities : dict pyval
}.

Definition MinerIdentity_to_dict (m : MinerIdentity) : dict pyval :=
  [("netuid", PInt (mi_netuid m));
   ("hotkey_ss58", PStr (mi_hotkey_ss58 m));
   ("uid", pint_opt (mi_uid m));
   ("endpoint", pstr_opt (mi_endpoint m));
   ("commitment_hash", pstr_opt (mi_commitment_hash m));
   ("capabilities", PDict (mi_capabilities m))].

Definition MinerIdentity_from_dict (d : dict pyval) : result MinerIdentity :=
  netuid ← req_int d "netuid";
  hotkey_ss58 ← req_str d "hotkey_ss58";
  uid ← opt_int d "uid";
  endpoint ← opt_str d "endpoint";
  commitment_hash ← opt_str d "commitment_hash";
  capabilities ← dict_or_empty (get d "capabilities");
  Ok (mkMiner netuid hotkey_ss58 uid endpoint commitment_hash capabilities).

(** ** WorkerIdentity *)

Record WorkerIdentity := mkWorkerIdentity {
  wi_hotkey_ss58 : string;
  wi_worker_id : string;
  wi_host_id : string;
  wi_gpu_index : option Z;
  wi_session_nonce : string;
  wi_software_hash : string;
  wi_device_group : list Z;
  wi_worker_group_id : option string;
  wi_capabilities : dict pyval
}.

(** [out[k] = ...] when the list or dictionary is not empty. *)
Definition nonempty_item {A} (k : string) (f : list A -> pyval) (l : list A) : dict pyval :=
  match l with [] => [] | _ => [(k, f l)] end.

Definition WorkerIdentity_to_dict (w : WorkerIdentity) : dict pyval :=
  [("hotkey_ss58", PStr (wi_hotkey_ss58 w));
   ("worker_id", PStr (wi_worker_id w));
   ("host_id", PStr (wi_host_id w));
   ("gpu_index", pint_opt (wi_gpu_index w));
   ("session_nonce", PStr (wi_session_nonce w));
   ("software_hash", PStr (wi_software_hash w))]
  ++ nonempty_item "device_group" (fun l => PList (map PInt l)) (wi_device_group w)
  ++ opt_item "worker_group_id" PStr (wi_worker_group_id w)
  ++ nonempty_item "capabilities" PDict (wi_capabilities w).

Definition WorkerIdentity_from_dict (d : dict pyval) : result WorkerIdentity :=
  hotkey_ss58 ← req_str d "hotkey_ss58";
  worker_id ← req_str d "worker_id";
  host_id ← str_or d "host_id" "unknown";
  gpu_index ← opt_int d "gpu_index";
  session_nonce ← str_or d "session_nonce" "unknown";
  software_hash ← str_or d "software_hash" "dev";
  device_group ← ints_of (get_or d "device_group" (PList []));
  worker_group_id ← opt_str d "worker_group_id";
  capabilities ← dict_or_empty (get d "capabilities");
  Ok (mkWorkerIdentity hotkey_ss58 worker_id host_id gpu_index session_nonce software_hash
        device_group worker_group_id capabilities).

(** ** ResourceRequirements *)

Record ResourceRequirements := mkResources {
  rr_min_gpus : Z;
  rr_placement : string;
  rr_parallelism : dict pyval
}.

Definition ResourceRequirements_is_default (r : ResourceRequirements) : bool :=
  (rr_min_gpus r =? 1)%Z && String.eqb (rr_placement r) "single_worker"
  && negb (truthy (PDict (rr_parallelism r))).

Definition ResourceRequirements_to_dict (r : ResourceRequirements) : dict pyval :=
  [("min_gpus", PInt (rr_min_gpus r)); ("placement", PStr (rr_placement r))]
  ++ nonempty_item "parallelism" PDict (rr_parallelism r).

Definition ResourceRequirements_from_dict (d : dict pyval) : result ResourceRequirements :=
  min_gpus ← int_or d "min_gpus" 1;
  placement ← str_or d "placement" "single_worker";
  parallelism ← dict_or_empty (get d "parallelism");
  Ok (mkResources min_gpus placement parallelism).

(** ** VerificationPolicy *)

Record VerificationPolicy := mkVerification {
  vp_method : string;
  vp_comparator : string;
  vp_rtol : float;
  vp_atol : float;
  vp_max_sample_elements : Z;
  vp_sample_seed : Z;
  vp_critical : bool
}.

Definition VerificationPolicy_default : VerificationPolicy :=
  mkVerification "replay_ir_v1" "auto" (flit 1 (-3)) (flit 1 (-4)) 4096 0 false.

Definition VerificationPolicy_to_dict (p : VerificationPolicy) : dict pyval :=
  [("method", PStr (vp_method p));
   ("comparator", PStr (vp_comparator p));
   ("rtol", PFloat (vp_rtol p));
   ("atol", PFloat (vp_atol p));
   ("max_sample_elements", PInt (vp_max_sample_elements p));
   ("sample_seed", PInt (vp_sample_seed p));
   ("critical", PBool (vp_critical p))].

Definition VerificationPolicy_from_dict (d : dict pyval) : result VerificationPolicy :=
  method ← str_or d "method" "replay_ir_v1";
  comparator ← str_or d "comparator" "auto";
  rtol ← float_or d "rtol" (flit 1 (-3));
  atol ← float_or d "atol" (flit 1 (-4));
  max_sample_elements ← int_or d "max_sample_elements" 4096;
  sample_seed ← int_or d "sample_seed" 0;
  Ok (mkVerification method comparator rtol atol max_sample_elements sample_seed
        (bool_or d "critical" false)).

(** ** JobManifestV3 *)

Record JobManifestV3 := mkManifest {
  jm_job_id : string;
  jm_run_id : string;
  jm_step_id : Z;
  jm_kind : string;
  jm_graph_ref : GraphRef;
  jm_params : dict pyval;
  jm_inputs : list ArtifactRef;
  jm_outputs : list ArtifactRef;
  jm_assigned_hotkey : string;
  jm_assigned_worker : option string;
  jm_attempt : Z;
  jm_deadline_unix : Z;
  jm_created_unix : Z;
  jm_resource_requirements : ResourceRequirements;
  jm_verification_policy : VerificationPolicy;
  jm_owner_signature : option string;
  jm_schema_version : Z
}.

Definition JobManifestV3_unsigned_dict (m : JobManifestV3) : dict pyval :=
  [("schema_version", PInt (jm_schema_version m));
   ("job_id", PStr (jm_job_id m));
   ("run_id", PStr (jm_run_id m));
   ("step_id", PInt (jm_step_id m));
   ("kind", PStr (jm_kind m));
   ("graph_ref", PDict (GraphRef_to_dict (jm_graph_ref m)));
   ("params", PDict (jm_params m));
   ("inputs", pdicts ArtifactRef_to_dict (jm_inputs m));
   ("outputs", pdicts ArtifactRef_to_dict (jm_outputs m));
   ("assigned_hotkey", PStr (jm_assigned_hotkey m));
   ("assigned_worker", pstr_opt (jm_assigned_worker m));
   ("attempt", PInt (jm_attempt m));
   ("deadline_unix", PInt (jm_deadline_unix m));
   ("created_unix", PInt (jm_created_unix m));
   ("verification_policy", PDict (VerificationPolicy_to_dict (jm_verification_policy m)))]
  ++ (if negb (ResourceRequirements_is_default (jm_resource_requirements m))
      then [("resource_requirements",
             PDict (ResourceRequirements_to_dict (jm_resource_requirements m)))]
      else []).

Definition JobManifestV3_manifest_hash (m : JobManifestV3) : string :=
  digest_dict (JobManifestV3_unsigned_dict m).

Definition JobManifestV3_with_signature (m : JobManifestV3) (sig : option string) : JobManifestV3 :=
  mkManifest (jm_job_id m) (jm_run_id m) (jm_step_id m) (jm_kind m) (jm_graph_ref m)
    (jm_params m) (jm_inputs m) (jm_outputs m) (jm_assigned_hotkey m) (jm_assigned_worker m)
    (jm_attempt m) (jm_deadline_unix m) (jm_created_unix m) (jm_resource_requirements m)
    (jm_verification_policy m) sig (jm_schema_version m).

Definition JobManifestV3_sign (m : JobManifestV3) (s : signer_or_secret) : result JobManifestV3 :=
  sig ← record_signature (JobManifestV3_unsigned_dict m) s;
  Ok (JobManifestV3_with_signature m (Some sig)).

Definition JobManifestV3_to_dict (m : JobManifestV3) : dict pyval :=
  dict_set "owner_signature" (pstr_opt (jm_owner_signature m))
    (dict_set "manifest_hash" (PStr (JobManifestV3_manifest_hash m))
       (JobManifestV3_unsigned_dict m)).

Definition JobManifestV3_from_dict (d : dict pyval) : result JobManifestV3 :=
  schema_version ← int_or d "schema_version" 3;
  job_id ← req_str d "job_id";
  run_id ← req_str d "run_id";
  step_id ← req_int d "step_id";
  kind ← req_str d "kind";
  gv ← item d "graph_ref";
  gd ← as_dict gv;
  graph_ref ← GraphRef_from_dict gd;
  params ← dict_or_empty (get d "params");
  iv ← item d "inputs";
  inputs ← list_of ArtifactRef_from_dict iv;
  ov ← item d "outputs";
  outputs ← list_of ArtifactRef_from_dict ov;
  assigned_hotkey ← req_str d "assigned_hotkey";
  assigned_worker ← opt_str d "assigned_worker";
  attempt ← int_or d "attempt" 0;
  deadline_unix ← req_int d "deadline_unix";
  created_unix ← req_int d "created_unix";
  rd ← dict_or_empty (get d "resource_requirements");
  resource_requirements ← ResourceRequirements_from_dict rd;
  vd ← dict_or_empty (get d "verification_policy");
  verification_policy ← VerificationPolicy_from_dict vd;
  owner_signature ← opt_str d "owner_signature";
  Ok (mkManifest job_id run_id step_id kind graph_ref params inputs outputs assigned_hotkey
        assigned_worker attempt deadline_unix created_unix resource_requirements
        verification_policy owner_signature schema_version).

(** ** JobReceiptV3 *)

Record JobReceiptV3 := mkReceipt {
  jr_receipt_id : string;
  jr_manifest_hash : string;
  jr_job_id : string;
  jr_run_id : string;
  jr_step_id : Z;
  jr_kind : string;
  jr_worker : WorkerIdentity;
  jr_input_digests : list ArtifactDigest;
  jr_output_digests : list ArtifactDigest;
  jr_started_unix : float;
  jr_finished_unix : float;
  jr_compute_sec : float;
  jr_claimed_bytes_read : Z;
  jr_claimed_bytes_written : Z;
  jr_execution : dict pyval;
  jr_miner_signature : option string;
  jr_schema_version : Z
}.

Definition JobReceiptV3_unsigned_dict (r : JobReceiptV3) : dict pyval :=
  [("schema_version", PInt (jr_schema_version r));
   ("receipt_id", PStr (jr_receipt_id r));
   ("manifest_hash", PStr (jr_manifest_hash r));
   ("job_id", PStr (jr_job_id r));
   ("run_id", PStr (jr_run_id r));
   ("step_id", PInt (jr_step_id r));
   ("kind", PStr (jr_kind r));
   ("worker", PDict (WorkerIdentity_to_dict (jr_worker r)));
   ("input_digests", pdicts ArtifactDigest_to_dict (jr_input_digests r));
   ("output_digests", pdicts ArtifactDigest_to_dict (jr_output_digests r));
   ("started_unix", PFloat (jr_started_unix r));
   ("finished_unix", PFloat (jr_finished_unix r));
   ("compute_sec", PFloat (jr_compute_sec r));
   ("claimed_bytes_read", PInt (jr_claimed_bytes_read r));
   ("claimed_bytes_written", PInt (jr_claimed_bytes_written r))]
  ++ nonempty_item "execution" PDict (jr_execution r).

Definition JobReceiptV3_with_signature (r : JobReceiptV3) (sig : option string) : JobReceiptV3 :=
  mkReceipt (jr_receipt_id r) (jr_manifest_hash r) (jr_job_id r) (jr_run_id r) (jr_step_id r)
    (jr_kind r) (jr_worker r) (jr_input_digests r) (jr_output_digests r) (jr_started_unix r)
    (jr_finished_unix r) (jr_compute_sec r) (jr_claimed_bytes_read r) (jr_claimed_bytes_written r)
    (jr_execution r) sig (jr_schema_version r).

Definition JobReceiptV3_sign (r : JobReceiptV3) (s : signer_or_secret) : result JobReceiptV3 :=
  sig ← record_signature (JobReceiptV3_unsigned_dict r) s;
  Ok (JobReceiptV3_with_signature r (Some sig)).

Definition JobReceiptV3_to_dict (r : JobReceiptV3) : dict pyval :=
  dict_set "miner_signature" (pstr_opt (jr_miner_signature r)) (JobReceiptV3_unsigned_dict r).

Definition JobReceiptV3_from_dict (d : dict pyval) : result JobReceiptV3 :=
  schema_version ← int_or d "schema_version" 3;
  receipt_id ← req_str d "receipt_id";
  manifest_hash ← req_str d "manifest_hash";
  job_id ← req_str d "job_id";
  run_id ← req_str d "run_id";
  step_id ← req_int d "step_id";
  kind ← req_str d "kind";
  wv ← item d "worker";
  wd ← as_dict wv;
  worker ← WorkerIdentity_from_dict wd;
  input_digests ← list_of ArtifactDigest_from_dict (get_or d "input_digests" (PList []));
  output_digests ← list_of ArtifactDigest_from_dict (get_or d "output_digests" (PList []));
  started_unix ← float_or d "started_unix" fzero;
  finished_unix ← float_or d "finished_unix" fzero;
  compute_sec ← float_or d "compute_sec" fzero;
  claimed_bytes_read ← int_or d "claimed_bytes_read" 0;
  claimed_bytes_written ← int_or d "claimed_bytes_written" 0;
  execution ← dict_or_empty (get d "execution");
  miner_signature ← opt_str d "miner_signature";
  Ok (mkReceipt receipt_id manifest_hash job_id run_id step_id kind worker input_digests
        output_digests started_unix finished_unix compute_sec claimed_bytes_read
        claimed_bytes_written execution miner_signature schema_version).

(** ** VerificationVerdictV3 *)

Record VerificationVerdictV3 := mkVerdict {
  vv_verdict_id : string;
  vv_receipt_id : string;
  vv_manifest_hash : string;
  vv_job_id : string;
  vv_run_id : string;
  vv_miner_hotkey : string;
  vv_validator_hotkey : string;
  vv_status : string;
  vv_reason : string;
  vv_estimated_cu : float;
  vv_replay_compute_sec : float;
  vv_checked_unix : float;
  vv_comparison : dict pyval;
  vv_validator_signature : option string;
  vv_schema_version : Z
}.

Definition VerificationVerdictV3_unsigned_dict (v : VerificationVerdictV3) : dict pyval :=
  [("schema_version", PInt (vv_schema_version v));
   ("verdict_id", PStr (vv_verdict_id v));
   ("receipt_id", PStr (vv_receipt_id v));
   ("manifest_hash", PStr (vv_manifest_hash v));
   ("job_id", PStr (vv_job_id v));
   ("run_id", PStr (vv_run_id v));
   ("miner_hotkey", PStr (vv_miner_hotkey v));
   ("validator_hotkey", PStr (vv_validator_hotkey v));
   ("status", PStr (vv_status v));
   ("reason", PStr (vv_reason v));
   ("estimated_cu", PFloat (vv_estimated_cu v));
   ("replay_compute_sec", PFloat (vv_replay_compute_sec v));
   ("checked_unix", PFloat (vv_checked_unix v));
   ("comparison", PDict (vv_comparison v))].

Definition VerificationVerdictV3_with_signature (v : VerificationVerdictV3) (sig : option string)
    : VerificationVerdictV3 :=
  mkVerdict (vv_verdict_id v) (vv_receipt_id v) (vv_manifest_hash v) (vv_job_id v) (vv_run_id v)
    (vv_miner_hotkey v) (vv_validator_hotkey v) (vv_status v) (vv_reason v) (vv_estimated_cu v)
    (vv_replay_compute_sec v) (vv_checked_unix v) (vv_comparison v) sig (vv_schema_version v).

Definition VerificationVerdictV3_sign (v : VerificationVerdictV3) (s : signer_or_secret)
    : result VerificationVerdictV3 :=
  sig ← record_signature (VerificationVerdictV3_unsigned_dict v) s;
  Ok (VerificationVerdictV3_with_signature v (Some sig)).

Definition VerificationVerdictV3_to_dict (v : VerificationVerdictV3) : dict pyval :=
  dict_set "validator_signature" (pstr_opt (vv_validator_signature v))
    (VerificationVerdictV3_unsigned_dict v).

Definition VerificationVerdictV3_from_dict (d : dict pyval) : result VerificationVerdictV3 :=
  schema_version ← int_or d "schema_version" 3;
  verdict_id ← req_str d "verdict_id";
  receipt_id ← req_str d "receipt_id";
  manifest_hash ← req_str d "manifest_hash";
  job_id ← req_str d "job_id";
  run_id ← req_str d "run_id";
  miner_hotkey ← req_str d "miner_hotkey";
  validator_hotkey ← req_str d "validator_hotkey";
  status ← req_str d "status";
  reason ← str_or d "reason" "";
  estimated_cu ← float_or d "estimated_cu" fzero;
  replay_compute_sec ← float_or d "replay_compute_sec" fzero;
  checked_unix ← float_or d "checked_unix" fzero;
  comparison ← dict_or_empty (get d "comparison");
  validator_signature ← opt_str d "validator_signature";
  Ok (mkVerdict verdict_id receipt_id manifest_hash job_id run_id miner_hotkey validator_hotkey
        status reason estimated_cu replay_compute_sec checked_unix comparison
        validator_signature schema_version).

(** ** AuditResultV3 *)

Record AuditResultV3 := mkAuditResult {
  au_audit_id : string;
  au_receipt_id : string;
  au_manifest_hash : string;
  au_job_id : string;
  au_run_id : string;
  au_miner_hotkey : string;
  au_auditor_hotkey : string;
  au_status : string;
  au_reason : string;
  au_replay_compute_sec : float;
  au_checked_unix : float;
  au_comparison : dict pyval;
  au_auditor_signature : option string;
  au_schema_version : Z
}.

Definition AuditResultV3_unsigned_dict (a : AuditResultV3) : dict pyval :=
  [("schema_version", PInt (au_schema_version a));
   ("audit_id", PStr (au_audit_id a));
   ("receipt_id", PStr (au_receipt_id a));
   ("manifest_hash", PStr (au_manifest_hash a));
   ("job_id", PStr (au_job_id a));
   ("run_id", PStr (au_run_id a));
   ("miner_hotkey", PStr (au_miner_hotkey a));
   ("auditor_hotkey", PStr (au_auditor_hotkey a));
   ("status", PStr (au_status a));
   ("reason", PStr (au_reason a));
   ("replay_compute_sec", PFloat (au_replay_compute_sec a));
   ("checked_unix", PFloat (au_checked_unix a));
   ("comparison", PDict (au_comparison a))].

Definition AuditResultV3_with_signature (a : AuditResultV3) (sig : option string) : AuditResultV3 :=
  mkAuditResult (au_audit_id a) (au_receipt_id a) (au_manifest_hash a) (au_job_id a) (au_run_id a)
    (au_miner_hotkey a) (au_auditor_hotkey a) (au_status a) (au_reason a)
    (au_replay_compute_sec a) (au_checked_unix a) (au_comparison a) sig (au_schema_version a).

Definition AuditResultV3_sign (a : AuditResultV3) (s : signer_or_secret) : result AuditResultV3 :=
  sig ← record_signature (AuditResultV3_unsigned_dict a) s;
  Ok (AuditResultV3_with_signature a (Some sig)).

Definition AuditResultV3_to_dict (a : AuditResultV3) : dict pyval :=
  dict_set "auditor_signature" (pstr_opt (au_auditor_signature a)) (AuditResultV3_unsigned_dict a).

Definition AuditResultV3_from_dict (d : dict pyval) : result AuditResultV3 :=
  schema_version ← int_or d "schema_version" 1;
  audit_id ← req_str d "audit_id";
  receipt_id ← req_str d "receipt_id";
  manifest_hash ← req_str d "manifest_hash";
  job_id ← req_str d "job_id";
  run_id ← req_str d "run_id";
  miner_hotkey ← req_str d "miner_hotkey";
  auditor_hotkey ← req_str d "auditor_hotkey";
  status ← req_str d "status";
  reason ← str_or d "reason" "";
  replay_compute_sec ← float_or d "replay_compute_sec" fzero;
  checked_unix ← float_or d "checked_unix" fzero;
  comparison ← dict_or_empty (get d "comparison");
  auditor_signature ← opt_str d "auditor_signature";
  Ok (mkAuditResult audit_id receipt_id manifest_hash job_id run_id miner_hotkey auditor_hotkey
        status reason replay_compute_sec checked_unix comparison auditor_signature schema_version).

(** ** MinerScoreWindow *)

Record MinerScoreWindow := mkScoreWindow {
  sw_netuid : Z;
  sw_window_id : string;
  sw_hotkey_ss58 : string;
  sw_receipts : Z;
  sw_verdicts : Z;
  sw_pass_cu : float;
  sw_fail_cu : float;
  sw_unsampled_cu : float;
  sw_trust_multiplier : float;
  sw_score : float
}.

Definition MinerScoreWindow_to_dict (w : MinerScoreWindow) : dict pyval :=
  [("netuid", PInt (sw_netuid w));
   ("window_id", PStr (sw_window_id w));
   ("hotkey_ss58", PStr (sw_hotkey_ss58 w));
   ("receipts", PInt (sw_receipts w));
   ("verdicts", PInt (sw_verdicts w));
   ("pass_cu", PFloat (sw_pass_cu w));
   ("fail_cu", PFloat (sw_fail_cu w));
   ("unsampled_cu", PFloat (sw_unsampled_cu w));
   ("trust_multiplier", PFloat (sw_trust_multiplier w));
   ("score", PFloat (sw_score w))].

(** ** Sorted forms *)

(** What a record becomes when its free-form dictionaries are printed with
    sorted keys and read back. *)
Definition MinerIdentity_normal (m : MinerIdentity) : MinerIdentity :=
  mkMiner (mi_netuid m) (mi_hotkey_ss58 m) (mi_uid m) (mi_endpoint m) (mi_commitment_hash m)
    (canon_dict (mi_capabilities m)).

Definition WorkerIdentity_normal (w : WorkerIdentity) : WorkerIdentity :=
  mkWorkerIdentity (wi_hotkey_ss58 w) (wi_worker_id w) (wi_host_id w) (wi_gpu_index w)
    (wi_session_nonce w) (wi_software_hash w) (wi_device_group w) (wi_worker_group_id w)
    (canon_dict (wi_capabilities w)).

Definition ResourceRequirements_normal (r : ResourceRequirements) : ResourceRequirements :=
  mkResources (rr_min_gpus r) (rr_placement r) (canon_dict (rr_parallelism r)).

Definition JobManifestV3_normal (m : JobManifestV3) : JobManifestV3 :=
  mkManifest (jm_job_id m) (jm_run_id m) (jm_step_id m) (jm_kind m) (jm_graph_ref m)
    (canon_dict (jm_params m)) (jm_inputs m) (jm_outputs m) (jm_assigned_hotkey m)
    (jm_assigned_worker m) (jm_attempt m) (jm_deadline_unix m) (jm_created_unix m)
    (ResourceRequirements_normal (jm_resource_requirements m))
    (jm_verification_policy m) (jm_owner_signature m) (jm_schema_version m).

Definition JobReceiptV3_normal (r : JobReceiptV3) : JobReceiptV3 :=
  mkReceipt (jr_receipt_id r) (jr_manifest_hash r) (jr_job_id r) (jr_run_id r) (jr_step_id r)
    (jr_kind r) (WorkerIdentity_normal (jr_worker r)) (jr_input_digests r) (jr_output_digests r)
    (jr_started_unix r) (jr_finished_unix r) (jr_compute_sec r) (jr_claimed_bytes_read r)
    (jr_claimed_bytes_written r) (canon_dict (jr_execution r)) (jr_miner_signature r)
    (jr_schema_version r).

Definition VerificationVerdictV3_normal (v : VerificationVerdictV3) : VerificationVerdictV3 :=
  mkVerdict (vv_verdict_id v) (vv_receipt_id v) (vv_manifest_hash v) (vv_job_id v) (vv_run_id v)
    (vv_miner_hotkey v) (vv_validator_hotkey v) (vv_status v) (vv_reason v) (vv_estimated_cu v)
    (vv_replay_compute_sec v) (vv_checked_unix v) (canon_dict (vv_comparison v))
    (vv_validator_signature v) (vv_schema_version v).

Definition AuditResultV3_normal (a : AuditResultV3) : AuditResultV3 :=
  mkAuditResult (au_audit_id a) (au_receipt_id a) (au_manifest_hash a) (au_job_id a) (au_run_id a)
    (au_miner_hotkey a) (au_auditor_hotkey a) (au_status a) (au_reason a)
    (au_replay_compute_sec a) (au_checked_unix a) (canon_dict (au_comparison a))
    (au_auditor_signature a) (au_schema_version a).
