(* ===== verification/ProtocolFacts.v ===== *)
(** * The protocol records round-trip through JSON

    [WireRecord] instances for every record of [Protocol.v] with their laws,
    and what the laws give the signed records: the canonical bytes, the hash
    and the signature of a record survive a write and a read. *)

From Stdlib Require Import ZArith Lia Ascii.
From stdpp Require Import base strings list.
From S2P Require Import Prelude PyFloat PyVal Json Digest Signatures Codec Protocol.

#[export] Instance ArtifactCryptoPolicy_wire : WireRecord ArtifactCryptoPolicy :=
  {| wire_to := ArtifactCryptoPolicy_to_dict; wire_from := ArtifactCryptoPolicy_from_dict;
     wire_normal := id |}.
#[export] Instance ArtifactEnvelope_wire : WireRecord ArtifactEnvelope :=
  {| wire_to := ArtifactEnvelope_to_dict; wire_from := ArtifactEnvelope_from_dict;
     wire_normal := id |}.
#[export] Instance MetagraphMinerIdentity_wire : WireRecord MetagraphMinerIdentity :=
  {| wire_to := MetagraphMinerIdentity_to_dict; wire_from := MetagraphMinerIdentity_from_dict;
     wire_normal := id |}.
#[export] Instance PresignedUrlGrant_wire : WireRecord PresignedUrlGrant :=
  {| wire_to := PresignedUrlGrant_to_dict; wire_from := PresignedUrlGrant_from_dict;
     wire_normal := id |}.
#[export] Instance AssignmentGrantV3_wire : WireRecord AssignmentGrantV3 :=
  {| wire_to := AssignmentGrantV3_to_dict; wire_from := AssignmentGrantV3_from_dict;
     wire_normal := id |}.
#[export] Instance EncryptedAssignmentGrantV3_wire : WireRecord EncryptedAssignmentGrantV3 :=
  {| wire_to := EncryptedAssignmentGrantV3_to_dict; wire_from := EncryptedAssignmentGrantV3_from_dict;
     wire_normal := id |}.
#[export] Instance ArtifactRef_wire : WireRecord ArtifactRef :=
  {| wire_to := ArtifactRef_to_dict; wire_from := ArtifactRef_from_dict; wire_normal := id |}.
#[export] Instance ShardSpec_wire : WireRecord ShardSpec :=
  {| wire_to := ShardSpec_to_dict; wire_from := ShardSpec_from_dict; wire_normal := id |}.
#[export] Instance ShardedTensorManifest_wire : WireRecord ShardedTensorManifest :=
  {| wire_to := ShardedTensorManifest_to_dict; wire_from := ShardedTensorManifest_from_dict;
     wire_normal := id |}.
#[export] Instance ArtifactDigest_wire : WireRecord ArtifactDigest :=
  {| wire_to := ArtifactDigest_to_dict; wire_from := ArtifactDigest_from_dict; wire_normal := id |}.
#[export] Instance GraphRef_wire : WireRecord GraphRef :=
  {| wire_to := GraphRef_to_dict; wire_from := GraphRef_from_dict; wire_normal := id |}.
#[export] Instance MinerIdentity_wire : WireRecord MinerIdentity :=
  {| wire_to := MinerIdentity_to_dict; wire_from := MinerIdentity_from_dict;
     wire_normal := MinerIdentity_normal |}.
#[export] Instance WorkerIdentity_wire : WireRecord WorkerIdentity :=
  {| wire_to := WorkerIdentity_to_dict; wire_from := WorkerIdentity_from_dict;
     wire_normal := WorkerIdentity_normal |}.
#[export] Instance ResourceRequirements_wire : WireRecord ResourceRequirements :=
  {| wire_to := ResourceRequirements_to_dict; wire_from := ResourceRequirements_from_dict;
     wire_normal := ResourceRequirements_normal |}.
#[export] Instance VerificationPolicy_wire : WireRecord VerificationPolicy :=
  {| wire_to := VerificationPolicy_to_dict; wire_from := VerificationPolicy_from_dict;
     wire_normal := id |}.
#[export] Instance JobManifestV3_wire : WireRecord JobManifestV3 :=
  {| wire_to := JobManifestV3_to_dict; wire_from := JobManifestV3_from_dict;
     wire_normal := JobManifestV3_normal |}.
#[export] Instance JobReceiptV3_wire : WireRecord JobReceiptV3 :=
  {| wire_to := JobReceiptV3_to_dict; wire_from := JobReceiptV3_from_dict;
     wire_normal := JobReceiptV3_normal |}.
#[export] Instance VerificationVerdictV3_wire : WireRecord VerificationVerdictV3 :=
  {| wire_to := VerificationVerdictV3_to_dict; wire_from := VerificationVerdictV3_from_dict;
     wire_normal := VerificationVerdictV3_normal |}.
#[export] Instance AuditResultV3_wire : WireRecord AuditResultV3 :=
  {| wire_to := AuditResultV3_to_dict; wire_from := AuditResultV3_from_dict;
     wire_normal := AuditResultV3_normal |}.

(** ** Reading is blind to key order: records of plain fields *)

(** A record without free-form dictionaries is read from the sorted dictionary
    exactly as from the original. *)
Ltac reads_sorted f :=
  let H := fresh in intros H; unfold f; canon_readers; reflexivity.

Lemma ArtifactCryptoPolicy_sorted d : keys_ok (PDict d) = true ->
  ArtifactCryptoPolicy_from_dict (canon_dict d) = ArtifactCryptoPolicy_from_dict d.
Proof. reads_sorted ArtifactCryptoPolicy_from_dict. Qed.

Lemma ArtifactEnvelope_sorted d : keys_ok (PDict d) = true ->
  ArtifactEnvelope_from_dict (canon_dict d) = ArtifactEnvelope_from_dict d.
Proof. reads_sorted ArtifactEnvelope_from_dict. Qed.

Lemma MetagraphMinerIdentity_sorted d : keys_ok (PDict d) = true ->
  MetagraphMinerIdentity_from_dict (canon_dict d) = MetagraphMinerIdentity_from_dict d.
Proof. reads_sorted MetagraphMinerIdentity_from_dict. Qed.

Lemma PresignedUrlGrant_sorted d : keys_ok (PDict d) = true ->
  PresignedUrlGrant_from_dict (canon_dict d) = PresignedUrlGrant_from_dict d.
Proof. reads_sorted PresignedUrlGrant_from_dict. Qed.

Lemma EncryptedAssignmentGrantV3_sorted d : keys_ok (PDict d) = true ->
  EncryptedAssignmentGrantV3_from_dict (canon_dict d) = EncryptedAssignmentGrantV3_from_dict d.
Proof. reads_sorted EncryptedAssignmentGrantV3_from_dict. Qed.

Lemma ShardSpec_sorted d : keys_ok (PDict d) = true ->
  ShardSpec_from_dict (canon_dict d) = ShardSpec_from_dict d.
Proof. reads_sorted ShardSpec_from_dict. Qed.

Lemma GraphRef_sorted d : keys_ok (PDict d) = true ->
  GraphRef_from_dict (canon_dict d) = GraphRef_from_dict d.
Proof. reads_sorted GraphRef_from_dict. Qed.

Lemma VerificationPolicy_sorted d : keys_ok (PDict d) = true ->
  VerificationPolicy_from_dict (canon_dict d) = VerificationPolicy_from_dict d.
Proof. reads_sorted VerificationPolicy_from_dict. Qed.

Lemma AssignmentGrantV3_sorted d : keys_ok (PDict d) = true ->
  AssignmentGrantV3_from_dict (canon_dict d) = AssignmentGrantV3_from_dict d.
Proof.
  intros H. unfold AssignmentGrantV3_from_dict. canon_readers.
  rewrite !list_of_canon_id, opt_nested_canon_id
    by (done || apply PresignedUrlGrant_sorted || by apply keys_ok_get_or). done.
Qed.

Lemma ArtifactRef_sorted d : keys_ok (PDict d) = true ->
  ArtifactRef_from_dict (canon_dict d) = ArtifactRef_from_dict d.
Proof.
  intros H. unfold ArtifactRef_from_dict. canon_readers.
  by rewrite opt_nested_canon_id by (done || apply ArtifactCryptoPolicy_sorted).
Qed.

Lemma ShardedTensorManifest_sorted d : keys_ok (PDict d) = true ->
  ShardedTensorManifest_from_dict (canon_dict d) = ShardedTensorManifest_from_dict d.
Proof.
  intros H. unfold ShardedTensorManifest_from_dict. canon_readers.
  by rewrite list_of_canon_id by (apply ShardSpec_sorted || by apply keys_ok_get_or).
Qed.

Lemma ArtifactDigest_sorted d : keys_ok (PDict d) = true ->
  ArtifactDigest_from_dict (canon_dict d) = ArtifactDigest_from_dict d.
Proof.
  intros H. unfold ArtifactDigest_from_dict. canon_readers.
  by rewrite opt_nested_canon_id by (done || apply ShardedTensorManifest_sorted).
Qed.

(** ** Records with free-form dictionaries are read with those sorted *)

Lemma MinerIdentity_sorted d : keys_ok (PDict d) = true ->
  MinerIdentity_from_dict (canon_dict d) = rmap MinerIdentity_normal (MinerIdentity_from_dict d).
Proof. intros H. unfold MinerIdentity_from_dict. canon_readers. sorted_binds. Qed.

Lemma WorkerIdentity_sorted d : keys_ok (PDict d) = true ->
  WorkerIdentity_from_dict (canon_dict d) = rmap WorkerIdentity_normal (WorkerIdentity_from_dict d).
Proof. intros H. unfold WorkerIdentity_from_dict. canon_readers. sorted_binds. Qed.

Lemma ResourceRequirements_sorted d : keys_ok (PDict d) = true ->
  ResourceRequirements_from_dict (canon_dict d) =
  rmap ResourceRequirements_normal (ResourceRequirements_from_dict d).
Proof. intros H. unfold ResourceRequirements_from_dict. canon_readers. sorted_binds. Qed.

Lemma VerificationVerdictV3_sorted d : keys_ok (PDict d) = true ->
  VerificationVerdictV3_from_dict (canon_dict d) =
  rmap VerificationVerdictV3_normal (VerificationVerdictV3_from_dict d).
Proof. intros H. unfold VerificationVerdictV3_from_dict. canon_readers. sorted_binds. Qed.

Lemma AuditResultV3_sorted d : keys_ok (PDict d) = true ->
  AuditResultV3_from_dict (canon_dict d) = rmap AuditResultV3_normal (AuditResultV3_from_dict d).
Proof. intros H. unfold AuditResultV3_from_dict. canon_readers. sorted_binds. Qed.

(** Reading a nested dictionary. *)
Lemma nested_sorted {A B} (f : dict pyval -> result A) g (k : A -> result B) d name :
  (forall e, keys_ok (PDict e) = true -> f (canon_dict e) = rmap g (f e)) ->
  keys_ok (PDict d) = true ->
  (v ← rmap canon (item d name); e ← as_dict v; x ← f e; k x) =
  (v ← item d name; e ← as_dict v; x ← f e; k (g x)).
Proof.
  intros Hf Hd. destruct (item d name) as [v|] eqn:E; [|done].
  apply (keys_ok_item d Hd) in E. destruct v as [| | | | | |e]; try done.
  cbn [rmap mbind result_bind]. rewrite canon_PDict. cbn [as_dict mbind result_bind].
  rewrite Hf by done. by destruct (f e).
Qed.

Lemma nested_opt_sorted {A B} (f : dict pyval -> result A) g (k : A -> result B) v :
  (forall e, keys_ok (PDict e) = true -> f (canon_dict e) = rmap g (f e)) ->
  keys_ok v = true ->
  (e ← rmap canon_dict (dict_or_empty v); x ← f e; k x) =
  (e ← dict_or_empty v; x ← f e; k (g x)).
Proof.
  intros Hf Hv. destruct (dict_or_empty v) as [e|] eqn:E; [|done].
  assert (keys_ok (PDict e) = true) as He.
  { unfold dict_or_empty in E. destruct (truthy v); [|by injection E as <-].
    destruct v; try done. by injection E as <-. }
  cbn [rmap mbind result_bind]. rewrite Hf by done. by destruct (f e).
Qed.

Lemma list_item_sorted {A B} (f : dict pyval -> result A) (k : list A -> result B) d name :
  (forall e, keys_ok (PDict e) = true -> f (canon_dict e) = f e) -> keys_ok (PDict d) = true ->
  (v ← rmap canon (item d name); l ← list_of f v; k l) = (v ← item d name; l ← list_of f v; k l).
Proof.
  intros Hf Hd. destruct (item d name) as [v|] eqn:E; [|done].
  apply (keys_ok_item d Hd) in E. cbn [rmap mbind result_bind]. by rewrite list_of_canon_id.
Qed.

Lemma JobManifestV3_sorted d : keys_ok (PDict d) = true ->
  JobManifestV3_from_dict (canon_dict d) = rmap JobManifestV3_normal (JobManifestV3_from_dict d).
Proof.
  intros H. unfold JobManifestV3_from_dict. canon_readers.
  do 5 (apply bind_rmap; intros ? _).
  rewrite (nested_sorted GraphRef_from_dict (fun x => x))
    by (done || by apply rmap_id_sorted, GraphRef_sorted).
  do 3 (apply bind_rmap; intros ? _).
  rewrite bind_canon_dict. apply bind_rmap. intros ? _.
  rewrite list_item_sorted by (done || apply ArtifactRef_sorted). do 2 (apply bind_rmap; intros ? _).
  rewrite list_item_sorted by (done || apply ArtifactRef_sorted). do 7 (apply bind_rmap; intros ? _).
  rewrite (nested_opt_sorted ResourceRequirements_from_dict ResourceRequirements_normal)
    by (apply ResourceRequirements_sorted || by apply keys_ok_opt).
  do 2 (apply bind_rmap; intros ? _).
  rewrite (nested_opt_sorted VerificationPolicy_from_dict (fun x => x))
    by ((by apply keys_ok_opt) || by apply rmap_id_sorted, VerificationPolicy_sorted).
  do 3 (apply bind_rmap; intros ? _). done.
Qed.

Lemma JobReceiptV3_sorted d : keys_ok (PDict d) = true ->
  JobReceiptV3_from_dict (canon_dict d) = rmap JobReceiptV3_normal (JobReceiptV3_from_dict d).
Proof.
  intros H. unfold JobReceiptV3_from_dict. canon_readers.
  rewrite !list_of_canon_id by (apply ArtifactDigest_sorted || by apply keys_ok_get_or).
  do 7 (apply bind_rmap; intros ? _).
  rewrite (nested_sorted WorkerIdentity_from_dict WorkerIdentity_normal)
    by (done || apply WorkerIdentity_sorted).
  do 10 (apply bind_rmap; intros ? _).
  rewrite bind_canon_dict. do 2 (apply bind_rmap; intros ? _). done.
Qed.

(** ** Written keys are distinct and reading inverts writing *)

Ltac destruct_options :=
  repeat match goal with o : option _ |- _ => destruct o end.

Ltac wire_laws Hsorted :=
  split; [intros []; destruct_options; refine (bool_decide_unpack _ _); vm_compute; exact I
         |intros []; destruct_options; vm_compute; reflexivity
         |intros d Hd; cbn; first [rewrite Hsorted by done; by rewrite fmap_id_result|by apply Hsorted]].

#[export] Instance ArtifactCryptoPolicy_laws : WireLaws ArtifactCryptoPolicy.
Proof. wire_laws ArtifactCryptoPolicy_sorted. Qed.
#[export] Instance ArtifactEnvelope_laws : WireLaws ArtifactEnvelope.
Proof. wire_laws ArtifactEnvelope_sorted. Qed.
#[export] Instance MetagraphMinerIdentity_laws : WireLaws MetagraphMinerIdentity.
Proof. wire_laws MetagraphMinerIdentity_sorted. Qed.
#[export] Instance PresignedUrlGrant_laws : WireLaws PresignedUrlGrant.
Proof. wire_laws PresignedUrlGrant_sorted. Qed.
#[export] Instance EncryptedAssignmentGrantV3_laws : WireLaws EncryptedAssignmentGrantV3.
Proof. wire_laws EncryptedAssignmentGrantV3_sorted. Qed.
#[export] Instance ShardSpec_laws : WireLaws ShardSpec.
Proof. wire_laws ShardSpec_sorted. Qed.
#[export] Instance GraphRef_laws : WireLaws GraphRef.
Proof. wire_laws GraphRef_sorted. Qed.
#[export] Instance VerificationPolicy_laws : WireLaws VerificationPolicy.
Proof. wire_laws VerificationPolicy_sorted. Qed.

(** Free-form dictionaries: read back whether empty or not. *)
Lemma dict_or_empty_PDict d : dict_or_empty (PDict d) = Ok d.
Proof. by destruct d. Qed.

Ltac keys_distinct := destruct_options; refine (bool_decide_unpack _ _); vm_compute; exact I.

#[export] Instance MinerIdentity_laws : WireLaws MinerIdentity.
Proof.
  split; [intros []; keys_distinct| |exact MinerIdentity_sorted].
  intros [? ? ? ? ? []]; destruct_options; vm_compute; reflexivity.
Qed.

#[export] Instance ResourceRequirements_laws : WireLaws ResourceRequirements.
Proof.
  split; [intros [? ? []]; keys_distinct|intros [? ? []]; reflexivity|exact ResourceRequirements_sorted].
Qed.

#[export] Instance VerificationVerdictV3_laws : WireLaws VerificationVerdictV3.
Proof.
  split; [intros []; keys_distinct| |exact VerificationVerdictV3_sorted].
  intros [? ? ? ? ? ? ? ? ? ? ? ? [] ? ?]; destruct_options; vm_compute; reflexivity.
Qed.

#[export] Instance AuditResultV3_laws : WireLaws AuditResultV3.
Proof.
  split; [intros []; keys_distinct| |exact AuditResultV3_sorted].
  intros [? ? ? ? ? ? ? ? ? ? ? [] ? ?]; destruct_options; vm_compute; reflexivity.
Qed.

(** Reading back nested records. *)
Lemma opt_nested_write {A} (f : dict pyval -> result A) g d k o :
  (forall r, f (g r) = Ok r) -> (forall r, g r <> []) -> get d k = pdict_opt g o ->
  opt_nested f d k = Ok o.
Proof.
  intros Hf Hg Hk. unfold opt_nested. rewrite Hk. destruct o as [r|]; [|done]. cbn.
  specialize (Hg r). destruct (g r) as [|kv e] eqn:E; [done|].
  unfold item. unfold get, get_or in Hk. destruct (dict_get k d) as [v|] eqn:Ek; [|done].
  rewrite Hk. cbn. rewrite E. rewrite <- E, Hf. done.
Qed.

Lemma list_of_write {A} (f : dict pyval -> result A) g d k l :
  (forall r, f (g r) = Ok r) -> get_or d k (PList []) = pdicts g l ->
  list_of f (get_or d k (PList [])) = Ok l.
Proof. intros Hf ->. by apply list_of_map. Qed.

Lemma pdicts_read {A} (f : dict pyval -> result A) g l :
  (forall r, f (g r) = Ok r) -> list_of f (pdicts g l) = Ok l.
Proof. apply list_of_map. Qed.

#[export] Instance ArtifactRef_laws : WireLaws ArtifactRef.
Proof.
  split; [intros []; keys_distinct| |intros d Hd; cbn; by rewrite ArtifactRef_sorted, fmap_id_result].
  intros r. cbn [wire_from wire_to ArtifactRef_wire]. unfold ArtifactRef_from_dict.
  rewrite (opt_nested_write _ ArtifactCryptoPolicy_to_dict _ _ (ar_crypto r));
    [|exact (wire_from_to (A := ArtifactCryptoPolicy))|by intros []|]; destruct r; destruct_options; reflexivity.
Qed.

#[export] Instance AssignmentGrantV3_laws : WireLaws AssignmentGrantV3.
Proof.
  split; [intros []; keys_distinct| |intros d Hd; cbn; by rewrite AssignmentGrantV3_sorted, fmap_id_result].
  intros r. cbn [wire_from wire_to AssignmentGrantV3_wire]. unfold AssignmentGrantV3_from_dict.
  rewrite (opt_nested_write _ PresignedUrlGrant_to_dict _ _ (ag_receipt_put r)),
    (list_of_write _ PresignedUrlGrant_to_dict _ "input_gets" (ag_input_gets r)),
    (list_of_write _ PresignedUrlGrant_to_dict _ "output_puts" (ag_output_puts r));
    first [exact (wire_from_to (A := PresignedUrlGrant))|by intros []|destruct r; destruct_options; reflexivity].
Qed.

#[export] Instance ShardedTensorManifest_laws : WireLaws ShardedTensorManifest.
Proof.
  split; [intros []; keys_distinct| |intros d Hd; cbn; by rewrite ShardedTensorManifest_sorted, fmap_id_result].
  intros r. cbn [wire_from wire_to ShardedTensorManifest_wire]. unfold ShardedTensorManifest_from_dict.
  rewrite (list_of_write _ ShardSpec_to_dict _ "shards" (stm_shards r));
    [|exact (wire_from_to (A := ShardSpec))|destruct r; reflexivity].
  change (get_or (ShardedTensorManifest_to_dict r) "shape" (PList [])) with (PList (map PInt (stm_shape r))).
  rewrite ints_of_map. destruct r; reflexivity.
Qed.

#[export] Instance ArtifactDigest_laws : WireLaws ArtifactDigest.
Proof.
  split; [intros []; keys_distinct| |intros d Hd; cbn; by rewrite ArtifactDigest_sorted, fmap_id_result].
  intros r. cbn [wire_from wire_to ArtifactDigest_wire]. unfold ArtifactDigest_from_dict.
  rewrite (opt_nested_write _ ShardedTensorManifest_to_dict _ _ (ad_sharded r));
    [|exact (wire_from_to (A := ShardedTensorManifest))|by intros []|]; destruct r; destruct_options; reflexivity.
Qed.

#[export] Instance WorkerIdentity_laws : WireLaws WorkerIdentity.
Proof.
  split; [intros [? ? ? ? ? ? [] ? []]; keys_distinct| |exact WorkerIdentity_sorted].
  intros r. cbn [wire_from wire_to WorkerIdentity_wire]. unfold WorkerIdentity_from_dict.
  assert (get_or (WorkerIdentity_to_dict r) "device_group" (PList []) = PList (map PInt (wi_device_group r)))
    as ->.
  { destruct r as [? ? ? ? ? ? [] ? []]; destruct_options; reflexivity. }
  rewrite ints_of_map. destruct r as [? ? ? ? ? ? [] ? []]; destruct_options; reflexivity.
Qed.

(** ** Signed records *)

Lemma bind_eq {A B} (r : result A) (k : A -> result B) a b : r = Ok a -> k a = b -> (r ≫= k) = b.
Proof. intros ->. done. Qed.

Lemma opt_str_write d k o : get d k = pstr_opt o -> opt_str d k = Ok o.
Proof. unfold opt_str. intros ->. by destruct o. Qed.

Lemma dict_or_empty_write d k e : get d k = PDict e -> dict_or_empty (get d k) = Ok e.
Proof. intros ->. apply dict_or_empty_PDict. Qed.

Lemma ResourceRequirements_omitted r :
  ResourceRequirements_is_default r = true -> mkResources 1 "single_worker" [] = r.
Proof.
  destruct r as [g p [|kv d]]; unfold ResourceRequirements_is_default; cbn; rewrite ?andb_false_r; [|done].
  rewrite andb_true_r, andb_true_iff. intros [Hg Hp]. apply Z.eqb_eq in Hg as ->. by apply String.eqb_eq in Hp as ->.
Qed.

(** One field at a time: the first reader of the goal returns what was
    written. *)
Ltac read_field :=
  eapply bind_eq;
    [first [exact (wire_from_to (A := GraphRef) _)
           |exact (wire_from_to (A := VerificationPolicy) _)
           |reflexivity
           |apply opt_str_write; reflexivity
           |apply dict_or_empty_write; reflexivity
           |exact (pdicts_read _ ArtifactRef_to_dict _ (wire_from_to (A := ArtifactRef)))
           |eapply (list_of_write _ ArtifactDigest_to_dict);
              [exact (wire_from_to (A := ArtifactDigest))|reflexivity]
           |exact (wire_from_to (A := WorkerIdentity) _)
           |exact (wire_from_to (A := ResourceRequirements) _)]|].

#[export] Instance JobManifestV3_laws : WireLaws JobManifestV3.
Proof.
  split; [| |exact JobManifestV3_sorted]; intros m; cbn [wire_from wire_to JobManifestV3_wire];
    unfold JobManifestV3_from_dict, JobManifestV3_to_dict;
    generalize (JobManifestV3_manifest_hash m); intros h; unfold JobManifestV3_unsigned_dict;
    destruct (ResourceRequirements_is_default (jm_resource_requirements m)) eqn:E.
  - refine (bool_decide_unpack _ _). vm_compute. exact I.
  - refine (bool_decide_unpack _ _). vm_compute. exact I.
  - apply ResourceRequirements_omitted in E. repeat read_field. destruct m; cbn in *; by subst.
  - repeat read_field. by destruct m.
Qed.

#[export] Instance JobReceiptV3_laws : WireLaws JobReceiptV3.
Proof.
  split; [| |exact JobReceiptV3_sorted]; intros r; cbn [wire_from wire_to JobReceiptV3_wire];
    unfold JobReceiptV3_from_dict, JobReceiptV3_to_dict, JobReceiptV3_unsigned_dict;
    destruct (jr_execution r) eqn:E.
  - refine (bool_decide_unpack _ _). vm_compute. exact I.
  - refine (bool_decide_unpack _ _). vm_compute. exact I.
  - repeat read_field. destruct r; cbn in *; by subst.
  - repeat read_field. destruct r; cbn in *; by subst.
Qed.

(** ** What a signature covers survives the wire *)

(** A record with a signature over its unsigned dictionary. *)
Class SignedRecord (A : Type) `{WireRecord A} := {
  unsigned : A -> dict pyval;
  signature_of : A -> option string;
  set_signature : A -> option string -> A
}.

Class SignedLaws (A : Type) `{SignedRecord A} : Prop := {
  unsigned_set : forall r s, unsigned (set_signature r s) = unsigned r;
  signature_set : forall r s, signature_of (set_signature r s) = s;
  unsigned_normal : forall r, canon_dict (unsigned (wire_normal r)) = canon_dict (unsigned r);
  signature_normal : forall r, signature_of (wire_normal r) = signature_of r
}.

Definition sign_record {A} `{SignedRecord A} (r : A) (s : signer_or_secret) : result A :=
  sig ← record_signature (unsigned r) s; Ok (set_signature r (Some sig)).

#[export] Instance JobManifestV3_signed : SignedRecord JobManifestV3 :=
  {| unsigned := JobManifestV3_unsigned_dict; signature_of := jm_owner_signature;
     set_signature := JobManifestV3_with_signature |}.
#[export] Instance JobReceiptV3_signed : SignedRecord JobReceiptV3 :=
  {| unsigned := JobReceiptV3_unsigned_dict; signature_of := jr_miner_signature;
     set_signature := JobReceiptV3_with_signature |}.
#[export] Instance VerificationVerdictV3_signed : SignedRecord VerificationVerdictV3 :=
  {| unsigned := VerificationVerdictV3_unsigned_dict; signature_of := vv_validator_signature;
     set_signature := VerificationVerdictV3_with_signature |}.
#[export] Instance AuditResultV3_signed : SignedRecord AuditResultV3 :=
  {| unsigned := AuditResultV3_unsigned_dict; signature_of := au_auditor_signature;
     set_signature := AuditResultV3_with_signature |}.

Lemma canon_sorted_dict d : canon (PDict (canon_dict d)) = canon (PDict d).
Proof. rewrite <- (canon_PDict d). apply canon_idemp. Qed.

Lemma canon_dict_empty d : canon_dict d = [] <-> d = [].
Proof.
  split; [|by intros ->]. intros E. pose proof (canon_truthy (PDict d)) as H.
  rewrite canon_PDict, E in H. by destruct d.
Qed.

Lemma canonical_json_canon d d' : canon_dict d = canon_dict d' ->
  canonical_json (PDict d) = canonical_json (PDict d').
Proof. intros E. unfold canonical_json, json_dumps. by rewrite !canon_PDict, E. Qed.

(** The optional section of a non-empty dictionary, after sorting it. *)
Lemma nonempty_item_canon k d :
  dict_keys (nonempty_item k PDict (canon_dict d)) = dict_keys (nonempty_item k PDict d) /\
  map (fun kv => canon kv.2) (nonempty_item k PDict (canon_dict d)) =
  map (fun kv => canon kv.2) (nonempty_item k PDict d).
Proof.
  destruct d as [|kv d]; [done|]. pose proof (canon_dict_empty (kv :: d)) as [H _].
  destruct (canon_dict (kv :: d)) as [|kv' d'] eqn:E; [by specialize (H eq_refl)|].
  split; [done|]. cbn [nonempty_item map]. rewrite <- E. cbn [snd]. by rewrite canon_sorted_dict.
Qed.

Lemma dict_keys_app {V} (d d' : dict V) : dict_keys (d ++ d') = dict_keys d ++ dict_keys d'.
Proof. apply map_app. Qed.

Lemma ResourceRequirements_normal_default r :
  ResourceRequirements_is_default (ResourceRequirements_normal r) = ResourceRequirements_is_default r.
Proof.
  unfold ResourceRequirements_is_default. cbn [rr_min_gpus rr_placement rr_parallelism ResourceRequirements_normal].
  f_equal. f_equal. rewrite <- (canon_PDict (rr_parallelism r)). apply canon_truthy.
Qed.

Lemma ResourceRequirements_normal_canon r :
  canon_dict (ResourceRequirements_to_dict (ResourceRequirements_normal r)) =
  canon_dict (ResourceRequirements_to_dict r).
Proof.
  destruct (nonempty_item_canon "parallelism" (rr_parallelism r)) as [Hk Hv].
  unfold ResourceRequirements_to_dict. cbn [rr_min_gpus rr_placement rr_parallelism ResourceRequirements_normal].
  apply canon_dict_ext; [by rewrite !dict_keys_app, Hk|by rewrite !map_app, Hv].
Qed.

Lemma WorkerIdentity_normal_canon w :
  canon_dict (WorkerIdentity_to_dict (WorkerIdentity_normal w)) = canon_dict (WorkerIdentity_to_dict w).
Proof.
  destruct (nonempty_item_canon "capabilities" (wi_capabilities w)) as [Hk Hv].
  unfold WorkerIdentity_to_dict. cbn [WorkerIdentity_normal wi_hotkey_ss58 wi_worker_id
    wi_host_id wi_gpu_index wi_session_nonce wi_software_hash wi_device_group wi_worker_group_id
    wi_capabilities] in *.
  apply canon_dict_ext; [by rewrite !dict_keys_app, Hk|by rewrite !map_app, Hv].
Qed.

#[export] Instance JobManifestV3_signed_laws : SignedLaws JobManifestV3.
Proof.
  split; try done; intros m; cbn [unsigned wire_normal JobManifestV3_signed JobManifestV3_wire].
  unfold JobManifestV3_unsigned_dict. cbn [JobManifestV3_normal jm_resource_requirements].
  rewrite ResourceRequirements_normal_default.
  destruct (ResourceRequirements_is_default _); cbn [negb]; (apply canon_dict_ext; [reflexivity|]);
    rewrite !map_app; f_equal.
  - cbn [map snd jm_params JobManifestV3_normal]. by rewrite canon_sorted_dict.
  - cbn [map snd jm_params JobManifestV3_normal]. by rewrite canon_sorted_dict.
  - cbn [map snd jm_resource_requirements JobManifestV3_normal]. by rewrite !canon_PDict, ResourceRequirements_normal_canon.
Qed.

#[export] Instance JobReceiptV3_signed_laws : SignedLaws JobReceiptV3.
Proof.
  split; try done; intros r; cbn [unsigned wire_normal JobReceiptV3_signed JobReceiptV3_wire].
  unfold JobReceiptV3_unsigned_dict. cbn [JobReceiptV3_normal jr_execution].
  destruct (nonempty_item_canon "execution" (jr_execution r)) as [Hk Hv].
  apply canon_dict_ext; [by rewrite !dict_keys_app, Hk|]. rewrite !map_app, Hv. f_equal.
  cbn [map snd jr_worker JobReceiptV3_normal]. by rewrite !canon_PDict, WorkerIdentity_normal_canon.
Qed.

#[export] Instance VerificationVerdictV3_signed_laws : SignedLaws VerificationVerdictV3.
Proof.
  split; try done; intros v. apply canon_dict_ext; [reflexivity|].
  cbn [unsigned wire_normal VerificationVerdictV3_signed VerificationVerdictV3_wire].
  unfold VerificationVerdictV3_unsigned_dict. cbn [map snd VerificationVerdictV3_normal vv_comparison].
  by rewrite canon_sorted_dict.
Qed.

#[export] Instance AuditResultV3_signed_laws : SignedLaws AuditResultV3.
Proof.
  split; try done; intros v. apply canon_dict_ext; [reflexivity|].
  cbn [unsigned wire_normal AuditResultV3_signed AuditResultV3_wire].
  unfold AuditResultV3_unsigned_dict. cbn [map snd AuditResultV3_normal au_comparison].
  by rewrite canon_sorted_dict.
Qed.

Section signed_records.
Context {A : Type} `{SignedRecord A} `{!WireLaws A} `{!SignedLaws A}.

(** The bytes to sign are those of the record written and read back. *)
Lemma unsigned_bytes_stable r :
  canonical_json (PDict (unsigned (wire_normal r))) = canonical_json (PDict (unsigned r)).
Proof. apply canonical_json_canon, unsigned_normal. Qed.

Lemma sign_record_spec r s r1 : sign_record r s = Ok r1 ->
  unsigned r1 = unsigned r /\ exists sig, record_signature (unsigned r) s = Ok sig /\ signature_of r1 = Some sig.
Proof.
  unfold sign_record. intros E. apply bind_Ok in E as (sig & Hsig & [= <-]).
  rewrite unsigned_set. split; [done|]. exists sig. by rewrite signature_set.
Qed.

(** A signed record that is written as JSON and read back still carries a
    signature of its own unsigned bytes. *)
Lemma signed_roundtrip r s r1 :
  sign_record r s = Ok r1 -> json_ok (PDict (wire_to r1)) = true ->
  exists r2 sig, load_as wire_from (json_dumps (PDict (wire_to r1))) = Ok r2 /\
    signature_of r2 = Some sig /\
    canonical_json (PDict (unsigned r2)) = canonical_json (PDict (unsigned r)) /\
    record_signature (unsigned r2) s = Ok sig.
Proof.
  intros Hs Hok. apply sign_record_spec in Hs as (Hu & sig & Hsig & Hr1).
  exists (wire_normal r1), sig. split; [by apply wire_json_roundtrip|].
  split; [by rewrite signature_normal|]. rewrite unsigned_bytes_stable, Hu. split; [done|].
  assert (canonical_json (PDict (unsigned (wire_normal r1))) = canonical_json (PDict (unsigned r))) as E.
  { by rewrite unsigned_bytes_stable, Hu. }
  destruct s; unfold record_signature, sign_dict in *; by rewrite E.
Qed.
End signed_records.

(** Reading the unsigned dictionary of a manifest gives the manifest without
    its signature. *)
Lemma JobManifestV3_from_unsigned m :
  JobManifestV3_from_dict (JobManifestV3_unsigned_dict m) = Ok (JobManifestV3_with_signature m None).
Proof.
  unfold JobManifestV3_from_dict, JobManifestV3_unsigned_dict.
  destruct (ResourceRequirements_is_default (jm_resource_requirements m)) eqn:E.
  - apply ResourceRequirements_omitted in E. repeat read_field. destruct m; cbn in *; by subst.
  - repeat read_field. by destruct m.
Qed.

(** Equal canonical bytes come from equal values, up to the order of keys. *)
Lemma canonical_json_inj v w : json_ok v = true -> json_ok w = true ->
  canonical_json v = canonical_json w -> canon v = canon w.
Proof.
  unfold canonical_json. intros Hv Hw E.
  pose proof (json_roundtrip v Hv) as Rv. rewrite E, json_roundtrip in Rv by done. by injection Rv as ->.
Qed.

(** ** Properties *)

(** C1. A job manifest signed by the orchestrator (with a secret or with a
    signer), written to the bucket as JSON and read back by a worker or a
    validator, has the manifest hash it was written with, carries the owner's
    signature, and recomputing that signature over the manifest that was read
    gives the same text. *)
Theorem manifest_survives_wire m s m1 :
  JobManifestV3_sign m s = Ok m1 -> json_ok (PDict (JobManifestV3_to_dict m1)) = true ->
  exists m2 sig,
    load_as JobManifestV3_from_dict (json_dumps (PDict (JobManifestV3_to_dict m1))) = Ok m2 /\
    JobManifestV3_manifest_hash m2 = JobManifestV3_manifest_hash m /\
    jm_owner_signature m2 = Some sig /\
    record_signature (JobManifestV3_unsigned_dict m2) s = Ok sig.
Proof.
  intros Hs Hok. change (sign_record m s = Ok m1) in Hs.
  change (json_ok (PDict (wire_to m1)) = true) in Hok.
  destruct (signed_roundtrip m s m1 Hs Hok) as (m2 & sig & H1 & H2 & H3 & H4).
  exists m2, sig. split; [exact H1|]. cbn [unsigned JobManifestV3_signed] in H3.
  unfold JobManifestV3_manifest_hash, digest_dict. rewrite H3. split; [reflexivity|]. by split.
Qed.

(** A receipt signed by a miner's signer, written as JSON and read back by
    a validator, verifies under the miner's identity with every verifier that
    accepts that signer. *)
Theorem receipt_survives_wire r s v r1 :
  SignsFor s v -> JobReceiptV3_sign r (BySigner s) = Ok r1 ->
  json_ok (PDict (JobReceiptV3_to_dict r1)) = true ->
  exists r2 sig,
    load_as JobReceiptV3_from_dict (json_dumps (PDict (JobReceiptV3_to_dict r1))) = Ok r2 /\
    jr_miner_signature r2 = Some sig /\
    verifier_verify v (canonical_json (PDict (JobReceiptV3_unsigned_dict r2))) sig
      (Some (signer_identity s)) = Ok true.
Proof.
  intros Hsv Hs Hok. change (sign_record r (BySigner s) = Ok r1) in Hs.
  change (json_ok (PDict (wire_to r1)) = true) in Hok.
  destruct (signed_roundtrip r (BySigner s) r1 Hs Hok) as (r2 & sig & H1 & H2 & _ & H4).
  exists r2, sig. split; [exact H1|]. split; [exact H2|]. by apply signs_for.
Qed.

(** The canonical bytes bind the whole manifest: two manifests with the
    same bytes to sign are the same manifest up to their signatures and the
    order of keys inside their free-form dictionaries. *)
Theorem manifest_bytes_bind m1 m2 :
  json_ok (PDict (JobManifestV3_unsigned_dict m1)) = true ->
  json_ok (PDict (JobManifestV3_unsigned_dict m2)) = true ->
  canonical_json (PDict (JobManifestV3_unsigned_dict m1)) =
    canonical_json (PDict (JobManifestV3_unsigned_dict m2)) ->
  JobManifestV3_normal (JobManifestV3_with_signature m1 None) =
  JobManifestV3_normal (JobManifestV3_with_signature m2 None).
Proof.
  intros H1 H2 E. apply canonical_json_inj in E; [|done..]. rewrite !canon_PDict in E. injection E as E.
  assert (forall m, json_ok (PDict (JobManifestV3_unsigned_dict m)) = true ->
    JobManifestV3_from_dict (canon_dict (JobManifestV3_unsigned_dict m)) =
    Ok (JobManifestV3_normal (JobManifestV3_with_signature m None))) as R.
  { intros m Hm. rewrite JobManifestV3_sorted by by apply json_ok_keys_ok.
    by rewrite JobManifestV3_from_unsigned. }
  pose proof (R m1 H1) as R1. rewrite E, (R m2 H2) in R1. by apply (inj Ok) in R1.
Qed.

(** The plain records read back from their own JSON text are the records
    that were written: assignment grants, encrypted grants and artifact
    envelopes exactly, verdicts and audit results up to the order of the keys
    of their comparison dictionary. *)
Theorem records_survive_wire :
  (forall a, json_ok (PDict (AssignmentGrantV3_to_dict a)) = true ->
    load_as AssignmentGrantV3_from_dict (json_dumps (PDict (AssignmentGrantV3_to_dict a))) = Ok a) /\
  (forall e, json_ok (PDict (EncryptedAssignmentGrantV3_to_dict e)) = true ->
    load_as EncryptedAssignmentGrantV3_from_dict
      (json_dumps (PDict (EncryptedAssignmentGrantV3_to_dict e))) = Ok e) /\
  (forall e, json_ok (PDict (ArtifactEnvelope_to_dict e)) = true ->
    load_as ArtifactEnvelope_from_dict (json_dumps (PDict (ArtifactEnvelope_to_dict e))) = Ok e) /\
  (forall v, json_ok (PDict (VerificationVerdictV3_to_dict v)) = true ->
    load_as VerificationVerdictV3_from_dict (json_dumps (PDict (VerificationVerdictV3_to_dict v)))
      = Ok (VerificationVerdictV3_normal v)) /\
  (forall a, json_ok (PDict (AuditResultV3_to_dict a)) = true ->
    load_as AuditResultV3_from_dict (json_dumps (PDict (AuditResultV3_to_dict a)))
      = Ok (AuditResultV3_normal a)).
Proof.
  split; [exact (wire_json_roundtrip (A := AssignmentGrantV3))|].
  split; [exact (wire_json_roundtrip (A := EncryptedAssignmentGrantV3))|].
  split; [exact (wire_json_roundtrip (A := ArtifactEnvelope))|].
  split; [exact (wire_json_roundtrip (A := VerificationVerdictV3))|].
  exact (wire_json_roundtrip (A := AuditResultV3)).
Qed.

(** ** Witnesses *)

Definition sample_manifest : JobManifestV3 :=
  mkManifest "job-1" "run-a" 7 "grad" (mkGraphRef "abc" "v3/netuid=3/runs/run-a/graphs/abc.json")
    [("lr", PFloat (flit 1 (-3))); ("batch", PInt 8)]
    [mkRef "x" "v3/x.npz" (Some "aa") (Some 12%Z) None]
    [mkRef "y" "v3/y.npz" None None (Some ArtifactCryptoPolicy_default)]
    "hk1" (Some "w0") 0 2000 1000 (mkResources 2 "single_host" [("tp", PInt 2)])
    VerificationPolicy_default None 3.

Definition sample_receipt : JobReceiptV3 :=
  mkReceipt "rcpt-1" "hash" "job-1" "run-a" 7 "grad"
    (mkWorkerIdentity "hk1" "w0" "host" (Some 0%Z) "nonce" "dev" [0; 1]%Z None [("gpu", PStr "a100")])
    [mkDigest "x" "v3/x.npz" "aa" 12 None None None None "none" None] [] (flit 15 (-1)) (flit 25 (-1))
    fone 12 34 [("mode", PStr "fast")] None 3.

Definition sample_hmac : HmacSigner := mkHmacSigner "secret" "hk1".

Lemma manifest_survives_wire_witness :
  exists m1, JobManifestV3_sign sample_manifest (BySecret "owner") = Ok m1 /\
  exists m2 sig,
    load_as JobManifestV3_from_dict (json_dumps (PDict (JobManifestV3_to_dict m1))) = Ok m2 /\
    JobManifestV3_manifest_hash m2 = JobManifestV3_manifest_hash sample_manifest /\
    jm_owner_signature m2 = Some sig /\
    record_signature (JobManifestV3_unsigned_dict m2) (BySecret "owner") = Ok sig.
Proof.
  eexists. split; [reflexivity|].
  apply (manifest_survives_wire sample_manifest (BySecret "owner")); [reflexivity|].
  vm_compute. reflexivity.
Defined.

Lemma receipt_survives_wire_witness :
  exists r1, JobReceiptV3_sign sample_receipt (BySigner (hmac_signer sample_hmac)) = Ok r1 /\
  exists r2 sig,
    load_as JobReceiptV3_from_dict (json_dumps (PDict (JobReceiptV3_to_dict r1))) = Ok r2 /\
    jr_miner_signature r2 = Some sig /\
    verifier_verify (hmac_verifier sample_hmac)
      (canonical_json (PDict (JobReceiptV3_unsigned_dict r2))) sig (Some "hk1") = Ok true.
Proof.
  eexists. split; [reflexivity|].
  apply (receipt_survives_wire sample_receipt (hmac_signer sample_hmac) (hmac_verifier sample_hmac));
    [exact (hmac_signs_for sample_hmac)|reflexivity|]. vm_compute. reflexivity.
Defined.

Lemma manifest_bytes_bind_witness :
  JobManifestV3_normal (JobManifestV3_with_signature sample_manifest None) =
  JobManifestV3_normal
    (JobManifestV3_with_signature (JobManifestV3_with_signature sample_manifest (Some "sig")) None).
Proof. apply manifest_bytes_bind; vm_compute; reflexivity. Defined.
