(* ===== verification/Storage.v ===== *)
(** * Object stores ([teuton_runtime/storage.py])

    [LocalBucket] over a model of the directory tree it uses: files with their
    contents and modification time, and the directories that exist.  A path is
    written relative to the store's root, [bucket/key].  The clock of the file
    system is part of the state; writing a file stamps it with the clock.
    Paths with empty, [.] or [..] segments are outside the model.

    [ObjectStore] is the interface of the same name in the source and
    [ObjectStoreLaws] what its clients rely on; [LocalBucket] is an instance. *)

From Stdlib Require Import ZArith Lia Ascii.
From stdpp Require Import base gmap strings list.
From S2P Require Import Prelude PyFloat PyVal Json Digest Paths Signatures.

(** ** URIs *)

Definition newline : ascii := "010"%char.

(** The text before and after the first [c]. *)
Fixpoint cut_at (c : ascii) (s : string) : option (string * string) :=
  match s with
  | EmptyString => None
  | String a s' =>
      if Ascii.eqb a c then Some (EmptyString, s')
      else match cut_at c s' with
           | Some (x, y) => Some (String a x, y)
           | None => None
           end
  end.

(** The regular expression [^s3://([^/]+)/(.+)$]; the dot does not match a
    newline and the dollar matches before a final one. *)
Definition parse_uri (uri : string) : result (string * string) :=
  let no_match := Err (ValueError ("not an s3:// URI: " +:+ uri)) in
  if startswith "s3://" uri then
    match cut_at slash (str_drop 5 uri) with
    | Some (bucket, key) =>
        let key' := if endswith (String newline EmptyString) key then str_drop_last 1 key else key in
        if negb (String.eqb bucket "") && negb (String.eqb key' "") && lacks newline key'
        then Ok (bucket, key') else no_match
    | None => no_match
    end
  else no_match.

Definition join_uri (bucket key : string) : string := "s3://" +:+ bucket +:+ "/" +:+ key.

(** ** The directory tree *)

Record file := mkFile { f_data : string; f_mtime_ns : Z }.

Record LocalBucket := mkBucket {
  lb_bucket : string;
  lb_files : gmap string file;
  lb_dirs : gset string;
  lb_clock_ns : Z
}.

Definition with_tree (s : LocalBucket) (files : gmap string file) (dirs : gset string) : LocalBucket :=
  mkBucket (lb_bucket s) files dirs (lb_clock_ns s).

(** Proper ancestors of a path: the text before each slash. *)
Fixpoint parents (p : string) : list string :=
  match p with
  | EmptyString => []
  | String c p' =>
      (if Ascii.eqb c slash then [EmptyString] else []) ++ map (String c) (parents p')
  end.

Definition seg_ok (s : string) : bool :=
  negb (String.eqb s "") && negb (String.eqb s ".") && negb (String.eqb s "..").

Definition path_ok (p : string) : bool := forallb seg_ok (split_on slash p).

(** What [os.stat] finds: [NNotDir] is a path below a regular file. *)
Inductive node := NFile (f : file) | NDir | NNotDir | NMissing.

Definition has_file (s : LocalBucket) (p : string) : bool :=
  match lb_files s !! p with Some _ => true | None => false end.

Definition stat (s : LocalBucket) (p : string) : node :=
  match lb_files s !! p with
  | Some f => NFile f
  | None =>
      if bool_decide (p ∈ lb_dirs s) then NDir
      else if existsb (has_file s) (parents p) then NNotDir
      else NMissing
  end.

Definition file_size (f : file) : Z := Z.of_nat (String.length (f_data f)).

(** [int(stat.st_mtime)]: the float is built from seconds and nanoseconds. *)
Definition mtime_unix (f : file) : result Z :=
  int_of_float (fadd (float_of_Z (f_mtime_ns f / 1000000000))
    (fmul (flit 1 (-9)) (float_of_Z (f_mtime_ns f mod 1000000000)))).

Definition etag_of (f : file) : string :=
  py_str_int (f_mtime_ns f) +:+ "-" +:+ py_str_int (file_size f).

(** ** LocalBucket *)

Definition LocalBucket_init (bucket : string) (clock_ns : Z) : LocalBucket :=
  mkBucket bucket ∅ {[ bucket ]} clock_ns.

Definition LocalBucket_path_for_uri (uri : string) : result string :=
  bk ← parse_uri uri;
  let p := (fst bk) +:+ "/" +:+ (snd bk) in
  if path_ok p then Ok p else Err Unmodelled.

Definition LocalBucket_uri_for_key (s : LocalBucket) (key : string) : string :=
  join_uri (lb_bucket s) key.

Definition LocalBucket_put (uri data : string) : ST LocalBucket unit := fun s =>
  match LocalBucket_path_for_uri uri with
  | Err e => (s, Err e)
  | Ok p =>
      if existsb (has_file s) (parents p) then (s, Err (OSError "NotADirectoryError"))
      else if bool_decide (p ∈ lb_dirs s) then (s, Err (OSError "IsADirectoryError"))
      else (with_tree s (<[p := mkFile data (lb_clock_ns s)]> (lb_files s))
              (list_to_set (parents p) ∪ lb_dirs s), Ok tt)
  end.

Definition LocalBucket_get (uri : string) : ST LocalBucket string := fun s =>
  (s, p ← LocalBucket_path_for_uri uri;
      match stat s p with
      | NFile f => Ok (f_data f)
      | NDir => Err (OSError "IsADirectoryError")
      | NNotDir => Err (OSError "NotADirectoryError")
      | NMissing => Err (FileNotFoundError uri)
      end).

Definition LocalBucket_exists (uri : string) : ST LocalBucket bool := fun s =>
  (s, p ← LocalBucket_path_for_uri uri;
      Ok (match stat s p with NFile _ | NDir => true | _ => false end)).

(** [head] returns [(size_bytes, mtime_unix)]. *)
Definition LocalBucket_head (uri : string) : ST LocalBucket (option (Z * Z)) := fun s =>
  (s, p ← LocalBucket_path_for_uri uri;
      match stat s p with
      | NFile f => m ← mtime_unix f; Ok (Some (file_size f, m))
      | NDir => Err Unmodelled
      | NNotDir => Err (OSError "NotADirectoryError")
      | NMissing => Ok None
      end).

Definition LocalBucket_delete (uri : string) : ST LocalBucket unit := fun s =>
  match LocalBucket_path_for_uri uri with
  | Err e => (s, Err e)
  | Ok p =>
      match stat s p with
      | NFile _ => (with_tree s (delete p (lb_files s)) (lb_dirs s), Ok tt)
      | NDir => (s, Err (OSError "IsADirectoryError"))
      | NNotDir => (s, Err (OSError "NotADirectoryError"))
      | NMissing => (s, Ok tt)
      end
  end.

(** Paths of the files below a directory. *)
Definition files_below (s : LocalBucket) (dir : string) : list string :=
  filter (fun p => startswith (dir +:+ "/") p = true) (elements (dom (lb_files s))).

(** The directory that holds a path, [os.path.dirname]. *)
Definition dirname (p : string) : string := List.last (parents p) EmptyString.

Definition drop_slash (key : string) : string :=
  if endswith "/" key then str_drop_last 1 key else key.

(** Paths listed for a prefix [key] of [bucket]; a prefix that names a
    directory lists that directory, any other prefix filters by name below the
    directory that would hold it. *)
Definition list_paths (s : LocalBucket) (bucket key : string) : result (list string) :=
  let dir := if String.eqb key "" then bucket else bucket +:+ "/" +:+ drop_slash key in
  if negb (path_ok dir) then Err Unmodelled
  else if bool_decide (dir ∈ lb_dirs s) then Ok (files_below s dir)
  else if endswith "/" key then Ok []
  else if bool_decide (dirname dir ∈ lb_dirs s) then
    Ok (filter (fun p => startswith dir p = true) (files_below s (dirname dir)))
  else Ok [].

(** The bucket and key a listing starts from. *)
Definition list_target (s : LocalBucket) (prefix_uri : string) : string * string :=
  match parse_uri prefix_uri with
  | Ok bk => bk
  | Err _ => (lb_bucket s, prefix_uri)
  end.

Definition LocalBucket_list (prefix_uri : string) : ST LocalBucket (list string) := fun s =>
  let '(bucket, key) := list_target s prefix_uri in
  (s, ps ← list_paths s bucket key;
      Ok (sorted_strings (map (fun p => "s3://" +:+ p) ps))).

(** One row of [list_with_meta]; a file that vanished is skipped. *)
Definition meta_row (s : LocalBucket) (uri : string) : result (option (string * Z * Z)) :=
  p ← LocalBucket_path_for_uri uri;
  match stat s p with
  | NFile f => m ← mtime_unix f; Ok (Some (uri, m, file_size f))
  | NMissing => Ok None
  | NDir => Err Unmodelled
  | NNotDir => Err (OSError "NotADirectoryError")
  end.

Definition LocalBucket_list_with_meta (prefix_uri : string)
    : ST LocalBucket (list (string * Z * Z)) := fun s =>
  let rows : result (list (string * Z * Z)) :=
    uris ← snd (LocalBucket_list prefix_uri s);
    rows ← mapR (meta_row s) uris;
    Ok (omap (M := list) id rows) in
  (s, rows).

Definition LocalBucket_get_json (uri : string) : ST LocalBucket pyval :=
  raw ← LocalBucket_get uri; text ← st_lift (utf8_decode raw); st_lift (json_loads text).

Definition LocalBucket_put_json (uri : string) (value : pyval) : ST LocalBucket unit :=
  LocalBucket_put uri (canonical_json value).

Definition LocalBucket_get_with_etag (uri : string) (if_none_match : option string)
    : ST LocalBucket (option string * option string) := fun s =>
  (s, p ← LocalBucket_path_for_uri uri;
      match stat s p with
      | NFile f =>
          let etag := etag_of f in
          match if_none_match with
          | Some e => if String.eqb e etag then Ok (None, Some etag) else Ok (Some (f_data f), Some etag)
          | None => Ok (Some (f_data f), Some etag)
          end
      | NDir => Err Unmodelled
      | NNotDir => Err (OSError "NotADirectoryError")
      | NMissing => Ok (None, None)
      end).

Definition LocalBucket_current_etag (s : LocalBucket) (p : string) : result string :=
  match stat s p with
  | NFile f => Ok (etag_of f)
  | NDir => Err Unmodelled
  | NNotDir => Err (OSError "NotADirectoryError")
  | NMissing => Ok EmptyString
  end.

Definition LocalBucket_put_with_etag (uri data : string) (if_match : option string)
    : ST LocalBucket string := fun s =>
  match LocalBucket_path_for_uri uri with
  | Err e => (s, Err e)
  | Ok p =>
      let guard : result unit :=
        match if_match with
        | None => Ok tt
        | Some want =>
            cur ← LocalBucket_current_etag s p;
            if String.eqb want cur then Ok tt
            else Err (PreconditionFailed ("etag mismatch for " +:+ uri))
        end in
      match guard with
      | Err e => (s, Err e)
      | Ok _ =>
          match LocalBucket_put uri data s with
          | (s', Ok _) => (s', match stat s' p with NFile f => Ok (etag_of f) | _ => Err Unmodelled end)
          | (s', Err e) => (s', Err e)
          end
      end
  end.

Definition LocalBucket_ensure_bucket : ST LocalBucket unit := fun s =>
  (with_tree s (lb_files s) ({[ lb_bucket s ]} ∪ lb_dirs s), Ok tt).

(** [shutil.rmtree(dir)]. *)
Definition rmtree (s : LocalBucket) (dir : string) : LocalBucket :=
  with_tree s
    (filter (fun kv => startswith (dir +:+ "/") kv.1 = false) (lb_files s))
    (filter (fun d => startswith (dir +:+ "/") d = false /\ d <> dir) (lb_dirs s)).

Definition LocalBucket_wipe : ST LocalBucket unit := fun s =>
  let s1 := if bool_decide (lb_bucket s ∈ lb_dirs s) then rmtree s (lb_bucket s) else s in
  LocalBucket_ensure_bucket s1.

Definition LocalBucket_wipe_run (run_id : string) : ST LocalBucket Z := fun s =>
  let prefix := lb_bucket s +:+ "/runs/" +:+ run_id in
  if negb (path_ok prefix) then (s, Err Unmodelled)
  else match stat s prefix with
       | NDir => (rmtree s prefix, Ok (Z.of_nat (length (files_below s prefix))))
       | NFile _ => (s, Err (OSError "NotADirectoryError"))
       | _ => (s, Ok 0%Z)
       end.

(** ** The interface *)

(** The methods of the [ObjectStore] protocol; the store is the state. *)
Class ObjectStore (S : Type) := {
  os_uri_for_key : S -> string -> string;
  os_put : string -> string -> ST S unit;
  os_get : string -> ST S string;
  os_exists : string -> ST S bool;
  os_delete : string -> ST S unit;
  os_list : string -> ST S (list string);
  os_list_with_meta : string -> ST S (list (string * Z * Z));
  os_get_json : string -> ST S pyval;
  os_put_json : string -> pyval -> ST S unit;
  os_get_with_etag : string -> option string -> ST S (option string * option string);
  os_put_with_etag : string -> string -> option string -> ST S string
}.

#[export] Instance LocalBucket_store : ObjectStore LocalBucket := {|
  os_uri_for_key := LocalBucket_uri_for_key;
  os_put := LocalBucket_put;
  os_get := LocalBucket_get;
  os_exists := LocalBucket_exists;
  os_delete := LocalBucket_delete;
  os_list := LocalBucket_list;
  os_list_with_meta := LocalBucket_list_with_meta;
  os_get_json := LocalBucket_get_json;
  os_put_json := LocalBucket_put_json;
  os_get_with_etag := LocalBucket_get_with_etag;
  os_put_with_etag := LocalBucket_put_with_etag
|}.

(** What a client may rely on. *)
Class ObjectStoreLaws (S : Type) `{ObjectStore S} : Prop := {
  (** Reads leave the store as it is. *)
  get_reads : forall uri s, fst (os_get uri s) = s;
  get_etag_reads : forall uri e s, fst (os_get_with_etag uri e s) = s;
  list_meta_reads : forall uri s, fst (os_list_with_meta uri s) = s;
  (** An object that was written is read back, other objects are kept. *)
  put_get : forall uri data s s', os_put uri data s = (s', Ok tt) -> os_get uri s' = (s', Ok data);
  put_elsewhere : forall uri uri' data d s s', os_put uri data s = (s', Ok tt) ->
    lacks newline uri' = true -> uri <> uri' -> uri <> uri' +:+ String newline EmptyString ->
    os_get uri' s = (s, Ok d) -> os_get uri' s' = (s', Ok d);
  put_uri_for_key : forall uri data s s' r, os_put uri data s = (s', r) ->
    os_uri_for_key s' = os_uri_for_key s;
  (** JSON documents survive up to the order of keys. *)
  put_json_get_json : forall uri v s s', json_ok v = true ->
    os_put_json uri v s = (s', Ok tt) -> os_get_json uri s' = (s', Ok (canon v));
  (** A conditional write: what it leaves, and when it is refused. *)
  put_etag_get : forall uri data m s s' e, os_put_with_etag uri data m s = (s', Ok e) ->
    e <> EmptyString /\ os_get_with_etag uri None s' = (s', Ok (Some data, Some e));
  put_etag_uri_for_key : forall uri data m s s' r, os_put_with_etag uri data m s = (s', r) ->
    os_uri_for_key s' = os_uri_for_key s;
  (** The empty precondition creates: there was no object. *)
  put_etag_creates : forall uri data s s' e, os_put_with_etag uri data (Some EmptyString) s = (s', Ok e) ->
    os_get_with_etag uri None s = (s, Ok (None, None));
  put_etag_conflict : forall uri data m s s' msg,
    os_put_with_etag uri data m s = (s', Err (PreconditionFailed msg)) ->
    s' = s /\ exists want b cur, m = Some want /\
      os_get_with_etag uri None s = (s, Ok (b, cur)) /\ want <> default EmptyString cur;
  (** A plain read returns body and tag together or neither; a conditional
      read with the current tag answers "not modified". *)
  get_etag_cases : forall uri s b cur, os_get_with_etag uri None s = (s, Ok (b, cur)) ->
    (b = None /\ cur = None) \/ (exists d t, b = Some d /\ cur = Some t /\ t <> EmptyString);
  get_etag_match : forall uri s d t, os_get_with_etag uri None s = (s, Ok (Some d, Some t)) ->
    os_get_with_etag uri (Some t) s = (s, Ok (None, Some t));
  (** Existence: queries and documents read without effect, a written object
      exists, and writes make nothing vanish. *)
  exists_reads : forall uri s, fst (os_exists uri s) = s;
  get_json_reads : forall uri s, fst (os_get_json uri s) = s;
  list_reads : forall uri s, fst (os_list uri s) = s;
  put_exists : forall uri data s s', os_put uri data s = (s', Ok tt) -> os_exists uri s' = (s', Ok true);
  put_keeps : forall uri uri' data s s', os_put uri data s = (s', Ok tt) ->
    os_exists uri' s = (s, Ok true) -> os_exists uri' s' = (s', Ok true);
  (** A document is written as its canonical bytes; a write brings no other
      object into being and changes no other object. *)
  put_json_put : forall uri v s, os_put_json uri v s = os_put uri (canonical_json v) s;
  put_frame_back : forall uri uri' data d s s', os_put uri data s = (s', Ok tt) ->
    lacks newline uri = true -> lacks newline uri' = true -> uri' <> uri ->
    os_get uri' s' = (s', Ok d) -> os_get uri' s = (s, Ok d);
  (** A document is read by parsing the bytes of its object. *)
  get_json_get : forall uri s, os_get_json uri s =
    (s, raw ← snd (os_get uri s); text ← utf8_decode raw; json_loads text);
  (** A conditional write is a write, or changes nothing. *)
  put_etag_put : forall uri data m s s' r, os_put_with_etag uri data m s = (s', r) ->
    s' = s \/ os_put uri data s = (s', Ok tt);
  (** The address of a key ends with the key, behind the same prefix for all. *)
  uri_for_key_ends : forall s, exists bucket, forall key, os_uri_for_key s key = bucket +:+ "/" +:+ key
}.

Section derived.
Context {S : Type} `{ObjectStoreLaws S}.

Lemma put_json_exists uri v s s' : os_put_json uri v s = (s', Ok tt) -> os_exists uri s' = (s', Ok true).
Proof. rewrite put_json_put. apply put_exists. Qed.

Lemma put_json_keeps uri uri' v s s' : os_put_json uri v s = (s', Ok tt) ->
  os_exists uri' s = (s, Ok true) -> os_exists uri' s' = (s', Ok true).
Proof. rewrite put_json_put. apply put_keeps. Qed.

Lemma put_json_uri_for_key uri v s s' : os_put_json uri v s = (s', Ok tt) -> os_uri_for_key s' = os_uri_for_key s.
Proof. rewrite put_json_put. apply put_uri_for_key. Qed.

(** Addresses of different keys differ. *)
Lemma uri_for_key_inj s k k' : os_uri_for_key s k = os_uri_for_key s k' -> k = k'.
Proof.
  destruct (uri_for_key_ends s) as [b Hb]. rewrite !Hb. intros E. by apply str_app_inv_l, str_app_inv_l in E.
Qed.

Lemma newline_free_ne (uri uri' : string) : lacks newline uri = true -> uri <> uri' +:+ String newline EmptyString.
Proof.
  intros Hn ->. unfold lacks in Hn. rewrite str_forallb_app in Hn. apply andb_true_iff in Hn as [_ Hn]. discriminate Hn.
Qed.

Lemma put_frame uri uri' data d s s' : os_put uri data s = (s', Ok tt) ->
  lacks newline uri = true -> lacks newline uri' = true -> uri' <> uri ->
  os_get uri' s = (s, Ok d) -> os_get uri' s' = (s', Ok d).
Proof. intros Hp Hn Hn' Hne. eapply put_elsewhere; [exact Hp|done|congruence|by apply newline_free_ne]. Qed.

(** Writing elsewhere leaves a document as it is. *)
Lemma put_json_elsewhere uri uri' data v s s' : os_put uri data s = (s', Ok tt) ->
  lacks newline uri' = true -> uri <> uri' -> uri <> uri' +:+ String newline EmptyString ->
  os_get_json uri' s = (s, Ok v) -> os_get_json uri' s' = (s', Ok v).
Proof.
  intros Hp Hn Hne Hne'. rewrite !get_json_get. intros [= E]. f_equal.
  apply bind_Ok in E as (raw & Eg & E). pose proof (get_reads uri' s) as Hr.
  destruct (os_get uri' s) as [s1 r] eqn:E1. cbn in Hr, Eg. subst.
  by rewrite (put_elsewhere _ _ _ raw _ _ Hp Hn Hne Hne' E1).
Qed.
End derived.

(** ** Lemmas *)

#[local] Arguments String.append !s1 s2 : simpl nomatch.

Lemma cut_at_spec c s a b : cut_at c s = Some (a, b) <-> s = a +:+ String c b /\ lacks c a = true.
Proof.
  revert a. induction s as [|x s IH]; intros a; cbn.
  - split; [done|]. intros [E _]. by destruct a.
  - destruct (Ascii.eqb x c) eqn:E.
    + apply Ascii.eqb_eq in E as ->. split; [intros [= <- <-]; done|].
      intros [E Ha]. destruct a as [|y a]; [by injection E as ->|]. injection E as -> _.
      unfold lacks in Ha. cbn in Ha. by rewrite Ascii.eqb_refl in Ha.
    + destruct (cut_at c s) as [[x' y']|] eqn:Ec.
      * split.
        -- intros [= <- <-]. destruct (IH x') as [H _]. destruct H as [-> Hl]; [done|].
           split; [done|]. unfold lacks in *. cbn. by rewrite E.
        -- intros [Es Ha]. destruct a as [|y a]; cbn in Es; [injection Es as -> _; by rewrite Ascii.eqb_refl in E|].
           injection Es as -> ->. unfold lacks in Ha. cbn in Ha. apply andb_true_iff in Ha as [_ Ha].
           destruct (IH a) as [_ H]. specialize (H (conj eq_refl Ha)). by injection H as -> ->.
      * split; [done|]. intros [Es Ha]. destruct a as [|y a]; cbn in Es; [injection Es as -> _; by rewrite Ascii.eqb_refl in E|].
        injection Es as -> ->. unfold lacks in Ha. cbn in Ha. apply andb_true_iff in Ha as [_ Ha].
        destruct (IH a) as [_ H]. by specialize (H (conj eq_refl Ha)).
Qed.

Lemma take_drop_str n s : str_take n s +:+ str_drop n s = s.
Proof. revert s. induction n as [|n IH]; intros [|c s]; try done. cbn. by rewrite IH. Qed.

Lemma endswith_lacks c s : lacks c s = true -> endswith (String c EmptyString) s = false.
Proof.
  intros H. unfold endswith. apply andb_false_iff. right. apply String.eqb_neq. intros E.
  rewrite <- (take_drop_str (String.length s - 1) s) in H. cbn [String.length] in E. rewrite E in H.
  unfold lacks in H. rewrite str_forallb_app in H. apply andb_true_iff in H as [_ H]. cbn in H.
  by rewrite Ascii.eqb_refl in H.
Qed.

Lemma lacks_drop n c s : lacks c s = true -> lacks c (str_drop n s) = true.
Proof.
  intros H. rewrite <- (take_drop_str n s), lacks_app in H. by apply andb_true_iff in H as [_ H].
Qed.

(** Parsing splits a newline-free URI at its bucket. *)
Lemma parse_uri_inv uri b k : lacks newline uri = true -> parse_uri uri = Ok (b, k) ->
  uri = join_uri b k /\ segment b = true /\ lacks newline k = true.
Proof.
  intros Hn. unfold parse_uri. destruct (startswith "s3://" uri) eqn:Es; [|done].
  apply startswith_spec in Es as [t ->]. change (str_drop 5 ("s3://" +:+ t)) with t. rewrite lacks_app in Hn.
  apply andb_true_iff in Hn as [_ Hn].
  destruct (cut_at slash _) as [[bb kk]|] eqn:Ec; [|done]. apply cut_at_spec in Ec as [-> Hb].
  rewrite lacks_app in Hn. apply andb_true_iff in Hn as [_ Hk]. unfold lacks in Hk. cbn in Hk.
  change (lacks newline kk = true) in Hk. rewrite (endswith_lacks _ _ Hk).
  destruct (_ && _); [|done]. intros [= <- <-]. done.
Qed.

Lemma parse_join b k : segment b = true -> b <> EmptyString -> k <> EmptyString ->
  lacks newline k = true -> parse_uri (join_uri b k) = Ok (b, k).
Proof.
  intros Hs Hb Hk Hn. unfold parse_uri, join_uri. rewrite startswith_app. change (str_drop 5 ("s3://" +:+ ?x)) with x.
  assert (cut_at slash (b +:+ "/" +:+ k) = Some (b, k)) as ->.
  { apply cut_at_spec. done. }
  rewrite endswith_lacks, Hn by done. apply String.eqb_neq in Hb as ->, Hk as ->. done.
Qed.

Lemma endswith_newline s : endswith (String newline EmptyString) s = true ->
  s = str_drop_last 1 s +:+ String newline EmptyString.
Proof.
  unfold endswith, str_drop_last. cbn [String.length]. intros [_ H]%andb_true_iff. apply String.eqb_eq in H.
  rewrite <- H. symmetry. apply take_drop_str.
Qed.

(** The two addresses of one path. *)
Lemma parse_uri_addresses uri b k : parse_uri uri = Ok (b, k) ->
  segment b = true /\ (uri = join_uri b k \/ uri = join_uri b k +:+ String newline EmptyString).
Proof.
  unfold parse_uri. destruct (startswith "s3://" uri) eqn:Es; [|done].
  apply startswith_spec in Es as [t ->]. change (str_drop 5 ("s3://" +:+ t)) with t.
  destruct (cut_at slash t) as [[bb kk]|] eqn:Ec; [|done]. apply cut_at_spec in Ec as [-> Hb]. cbv zeta.
  destruct (endswith (String newline EmptyString) kk) eqn:Ee; (destruct (_ && _); [|done]); intros [= <- <-].
  - split; [done|right]. unfold join_uri. rewrite (endswith_newline _ Ee) at 1. rewrite !str_app_assoc. reflexivity.
  - split; [done|by left].
Qed.

Lemma path_addresses uri uri' p : lacks newline uri' = true ->
  LocalBucket_path_for_uri uri = Ok p -> LocalBucket_path_for_uri uri' = Ok p ->
  uri = uri' \/ uri = uri' +:+ String newline EmptyString.
Proof.
  unfold LocalBucket_path_for_uri. intros Hn' E E'.
  apply bind_Ok in E as ([b k] & Ep & E), E' as ([b' k'] & Ep' & E'). cbn in E, E'.
  destruct (path_ok _); [|done]. destruct (path_ok (b' +:+ _)); [|done].
  injection E as <-. injection E' as E'.
  apply parse_uri_inv in Ep' as (-> & Hb' & _); [|done]. apply parse_uri_addresses in Ep as (Hb & He).
  apply (segment_cut b' b) in E' as [-> ->]; done.
Qed.

Lemma path_inj uri uri' p : lacks newline uri = true -> lacks newline uri' = true ->
  LocalBucket_path_for_uri uri = Ok p -> LocalBucket_path_for_uri uri' = Ok p -> uri = uri'.
Proof.
  unfold LocalBucket_path_for_uri. intros Hn Hn' E E'.
  apply bind_Ok in E as ([b k] & Ep & E), E' as ([b' k'] & Ep' & E'). cbn in E, E'.
  destruct (path_ok _); [|done]. destruct (path_ok (b' +:+ _)); [|done].
  injection E as <-. injection E' as E'.
  apply parse_uri_inv in Ep as (-> & Hb & _), Ep' as (-> & Hb' & _); [|done..].
  apply (segment_cut b' b) in E' as [-> ->]; done.
Qed.

Lemma existsb_false_parents s p a : existsb (has_file s) (parents p) = false -> a ∈ parents p ->
  lb_files s !! a = None.
Proof.
  intros H Ha. destruct (lb_files s !! a) eqn:E; [|done]. exfalso.
  assert (existsb (has_file s) (parents p) = true); [|congruence].
  apply existsb_exists. exists a. split; [by apply list_elem_of_In|]. unfold has_file. by rewrite E.
Qed.

(** What a successful write did. *)
Lemma put_inv uri data s s' : LocalBucket_put uri data s = (s', Ok tt) ->
  exists p, LocalBucket_path_for_uri uri = Ok p /\
    s' = with_tree s (<[p := mkFile data (lb_clock_ns s)]> (lb_files s))
           (list_to_set (parents p) ∪ lb_dirs s).
Proof.
  unfold LocalBucket_put. destruct (LocalBucket_path_for_uri uri) as [p|]; [|done].
  destruct (existsb _ _); [done|]. case_bool_decide; [done|]. intros [= <-]. by exists p.
Qed.

Lemma put_err uri data s s' e : LocalBucket_put uri data s = (s', Err e) -> s' = s.
Proof.
  unfold LocalBucket_put. destruct (LocalBucket_path_for_uri uri) as [p|]; [|congruence].
  destruct (existsb _ _); [congruence|]. case_bool_decide; congruence.
Qed.

Lemma stat_put p f s dirs : stat (with_tree s (<[p := f]> (lb_files s)) dirs) p = NFile f.
Proof. unfold stat. cbn. by rewrite lookup_insert_eq. Qed.

Lemma etag_nonempty f : etag_of f <> EmptyString.
Proof. unfold etag_of. pose proof (py_str_int_not_nil (f_mtime_ns f)). by destruct (py_str_int _). Qed.

Lemma put_with_etag_inv uri data m s s' e : LocalBucket_put_with_etag uri data m s = (s', Ok e) ->
  exists p, LocalBucket_path_for_uri uri = Ok p /\ LocalBucket_put uri data s = (s', Ok tt) /\
    e = etag_of (mkFile data (lb_clock_ns s)) /\
    forall want, m = Some want -> LocalBucket_current_etag s p = Ok want.
Proof.
  unfold LocalBucket_put_with_etag. destruct (LocalBucket_path_for_uri uri) as [p|] eqn:Ep; [|done].
  intros H. exists p. split; [done|].
  destruct m as [want|].
  - destruct (LocalBucket_current_etag s p) as [cur|] eqn:Ec; [|done]. cbn in H.
    destruct (String.eqb want cur) eqn:Ew; [|done]. apply String.eqb_eq in Ew as ->.
    destruct (LocalBucket_put uri data s) as [s1 [[]|]] eqn:Eput; [|done]. injection H as <- H.
    pose proof Eput as Einv. apply put_inv in Einv as (p' & Ep' & ->). rewrite Ep in Ep'. injection Ep' as <-.
    rewrite stat_put in H. injection H as <-. split; [done|]. split; [done|]. by intros w [= <-].
  - cbn in H. destruct (LocalBucket_put uri data s) as [s1 [[]|]] eqn:Eput; [|done]. injection H as <- H.
    pose proof Eput as Einv. apply put_inv in Einv as (p' & Ep' & ->). rewrite Ep in Ep'. injection Ep' as <-.
    rewrite stat_put in H. injection H as <-. done.
Qed.

Lemma put_never_precondition uri data s msg : snd (LocalBucket_put uri data s) <> Err (PreconditionFailed msg).
Proof.
  unfold LocalBucket_put. destruct (LocalBucket_path_for_uri uri) as [p|e] eqn:Ep.
  - destruct (existsb _ _); [done|]. by case_bool_decide.
  - cbn. unfold LocalBucket_path_for_uri, parse_uri in Ep.
    repeat (case_match; cbn in Ep; try congruence).
Qed.

Lemma get_with_etag_None uri s p : LocalBucket_path_for_uri uri = Ok p ->
  LocalBucket_get_with_etag uri None s =
  (s, match stat s p with
      | NFile f => Ok (Some (f_data f), Some (etag_of f))
      | NDir => Err Unmodelled
      | NNotDir => Err (OSError "NotADirectoryError")
      | NMissing => Ok (None, None)
      end).
Proof. intros E. unfold LocalBucket_get_with_etag. rewrite E. reflexivity. Qed.

Lemma current_etag_get uri s p want : LocalBucket_path_for_uri uri = Ok p ->
  LocalBucket_current_etag s p = Ok want ->
  exists b cur, LocalBucket_get_with_etag uri None s = (s, Ok (b, cur)) /\ want = default EmptyString cur.
Proof.
  intros Ep. rewrite (get_with_etag_None _ _ _ Ep). unfold LocalBucket_current_etag.
  destruct (stat s p) as [f| | |]; intros [= <-]; eexists _, _; done.
Qed.

Lemma put_with_etag_conflict uri data m s s' msg :
  LocalBucket_put_with_etag uri data m s = (s', Err (PreconditionFailed msg)) ->
  s' = s /\ exists want p cur, m = Some want /\ LocalBucket_path_for_uri uri = Ok p /\
    LocalBucket_current_etag s p = Ok cur /\ want <> cur.
Proof.
  unfold LocalBucket_put_with_etag. destruct (LocalBucket_path_for_uri uri) as [p|e] eqn:Ep.
  - pose proof (put_never_precondition uri data s msg) as Hn.
    destruct m as [want|]; cbn [mbind result_bind].
    + unfold LocalBucket_current_etag. destruct (stat s p) as [f| | |] eqn:Es; cbn; try congruence.
      all: destruct (String.eqb want _) eqn:Ew;
        [destruct (LocalBucket_put uri data s) as [s1 [[]|e]] eqn:Eput;
           [repeat case_match; congruence|intros [= -> ->]; done]
        |intros [= <- _]; apply String.eqb_neq in Ew; split; [done|]; exists want, p; eexists;
         rewrite Es; repeat split; [done..|exact Ew]].
    + destruct (LocalBucket_put uri data s) as [s1 [[]|e]] eqn:Eput;
        [repeat case_match; congruence|intros [= -> ->]; done].
  - intros [= <- ->]. exfalso. unfold LocalBucket_path_for_uri, parse_uri in Ep.
    repeat (case_match; cbn in Ep; try congruence).
Qed.

Lemma put_with_etag_state uri data m s :
  fst (LocalBucket_put_with_etag uri data m s) = s \/
  fst (LocalBucket_put_with_etag uri data m s) = fst (LocalBucket_put uri data s).
Proof.
  unfold LocalBucket_put_with_etag. destruct (LocalBucket_path_for_uri uri); [|by left].
  destruct (match m with Some _ => _ | None => _ end); [|by left].
  destruct (LocalBucket_put uri data s) as [s1 []]; by right.
Qed.

(** A conditional write succeeds only on the tag it was given. *)
Lemma put_etag_guard uri data want s s' e : LocalBucket_put_with_etag uri data (Some want) s = (s', Ok e) ->
  exists b cur, LocalBucket_get_with_etag uri None s = (s, Ok (b, cur)) /\ want = default EmptyString cur.
Proof.
  intros H. apply put_with_etag_inv in H as (p & Ep & _ & _ & Hm). apply (current_etag_get uri s p); auto.
Qed.

Lemma get_etag_tag uri s b t : LocalBucket_get_with_etag uri None s = (s, Ok (b, t)) ->
  default EmptyString t = EmptyString -> b = None /\ t = None.
Proof.
  unfold LocalBucket_get_with_etag. destruct (LocalBucket_path_for_uri uri) as [p|]; cbn [mbind result_bind]; [|done].
  destruct (stat s p) as [f| | |]; intros [= <- <-]; [|done]. intros E. by destruct (etag_nonempty f).
Qed.

#[export] Instance LocalBucket_laws : ObjectStoreLaws LocalBucket.
Proof.
  split; cbn [os_get os_put os_get_with_etag os_put_with_etag os_put_json os_get_json os_list_with_meta
              os_exists os_list os_uri_for_key LocalBucket_store]; try done.
  - intros uri data s s' H. apply put_inv in H as (p & Ep & ->). unfold LocalBucket_get. rewrite Ep. cbn.
    by rewrite stat_put.
  - intros uri uri' data d s s' H Hn' Hne Hne'. apply put_inv in H as (p & Ep & ->).
    unfold LocalBucket_get. intros [= H]. apply bind_Ok in H as (p' & Ep' & H). rewrite Ep'. cbn.
    assert (p' <> p) as Hp by (intros ->; by destruct (path_addresses uri uri' p Hn' Ep Ep')).
    unfold stat in *. cbn. rewrite lookup_insert_ne by done.
    destruct (lb_files s !! p') as [f|]; [by rewrite H|]. repeat case_match; congruence.
  - intros uri data s s' r H. destruct r as [[]|e].
    + by apply put_inv in H as (p & _ & ->).
    + by apply put_err in H as ->.
  - intros uri v s s' Hok H. pose proof H as Hg. apply put_inv in Hg as (p & Ep & ->).
    unfold LocalBucket_get_json, mbind, st_bind, LocalBucket_get. rewrite Ep.
    cbn [mbind result_bind]. rewrite stat_put. cbn [f_data st_lift]. unfold canonical_json.
    rewrite utf8_decode_ascii by auto with teuton. cbn [st_lift]. unfold st_lift. by rewrite json_roundtrip.
  - intros uri data m s s' e H. apply put_with_etag_inv in H as (p & Ep & Hput & -> & _).
    split; [apply etag_nonempty|]. rewrite (get_with_etag_None _ _ _ Ep).
    apply put_inv in Hput as (p' & Ep' & ->). rewrite Ep in Ep'. injection Ep' as <-. by rewrite stat_put.
  - intros uri data m s s' [e|e] H.
    + apply put_with_etag_inv in H as (p & _ & Hput & _). by apply put_inv in Hput as (q & _ & ->).
    + revert H. unfold LocalBucket_put_with_etag.
      destruct (LocalBucket_path_for_uri uri); [|by intros [= <- _]].
      destruct (match m with Some _ => _ | None => _ end); [|by intros [= <- _]].
      destruct (LocalBucket_put uri data s) as [s1 [[]|]] eqn:Eput; intros [= <- _].
      * by apply put_inv in Eput as (q & _ & ->).
      * by apply put_err in Eput as ->.
  - intros uri data s s' e H. apply put_etag_guard in H as (b & cur & Hg & Hc). symmetry in Hc.
    by destruct (get_etag_tag _ _ _ _ Hg Hc) as [-> ->].
  - intros uri data m s s' msg H. apply put_with_etag_conflict in H as (-> & want & p & cur & -> & Ep & Hc & Hne).
    split; [done|]. destruct (current_etag_get uri s p cur Ep Hc) as (b & c & Hg & ->). by exists want, b, c.
  - intros uri s b cur. unfold LocalBucket_get_with_etag.
    destruct (LocalBucket_path_for_uri uri) as [p|]; cbn; [|done].
    destruct (stat s p) as [f| | |]; intros [= <- <-]; [|by left].
    right. eexists _, _. split; [done|]. split; [done|]. apply etag_nonempty.
  - intros uri s d t. unfold LocalBucket_get_with_etag.
    destruct (LocalBucket_path_for_uri uri) as [p|]; cbn; [|done].
    destruct (stat s p) as [f| | |]; intros [= <- <-]. by rewrite String.eqb_refl.
  - intros uri s. unfold LocalBucket_get_json, mbind, st_bind, LocalBucket_get.
    destruct (p ← LocalBucket_path_for_uri uri; _) as [raw|]; [|done]. unfold st_lift. by destruct (utf8_decode raw).
  - intros uri s. unfold LocalBucket_list. by destruct (list_target s uri).
  - intros uri v s s' H. apply put_inv in H as (p & Ep & ->). unfold LocalBucket_exists. rewrite Ep. cbn.
    by rewrite stat_put.
  - intros uri uri' v s s' H. apply put_inv in H as (p & Ep & ->). unfold LocalBucket_exists.
    destruct (LocalBucket_path_for_uri uri') as [p'|]; [|done]. cbn [mbind result_bind]. intros [= H].
    destruct (decide (p' = p)) as [->|Hne]; [by rewrite stat_put|].
    unfold stat in *. cbn. rewrite lookup_insert_ne by done. destruct (lb_files s !! p') as [f|]; [done|].
    destruct (bool_decide (p' ∈ lb_dirs s)) eqn:Ed; [|by destruct (existsb _ _)].
    apply bool_decide_eq_true in Ed. by rewrite bool_decide_true by set_solver.
  - intros uri uri' data d s s' H Hn Hn' Hne. apply put_inv in H as (p & Ep & ->).
    unfold LocalBucket_get. intros [= H]. apply bind_Ok in H as (p' & Ep' & H). rewrite Ep'. cbn [mbind result_bind].
    assert (p' <> p) as Hp by (intros ->; apply Hne; by eapply path_inj).
    unfold stat in *. cbn in H. rewrite lookup_insert_ne in H by done.
    destruct (lb_files s !! p') as [f|]; [by rewrite H|]. by repeat case_match.
  - intros uri s. unfold LocalBucket_get_json, mbind, st_bind. unfold LocalBucket_get. cbn [snd].
    destruct (p ← LocalBucket_path_for_uri uri; _) as [raw|]; [|done]. cbn [mbind result_bind]. unfold st_lift.
    by destruct (utf8_decode raw).
  - intros uri data m s s' [e|e] H.
    + apply put_with_etag_inv in H as (p & _ & Hput & _). by right.
    + pose proof (put_with_etag_state uri data m s) as Hs. rewrite H in Hs. cbn [fst] in Hs.
      destruct Hs as [->| ->]; [by left|]. destruct (LocalBucket_put uri data s) as [s1 [[]|e']] eqn:Eput; cbn [fst]; [by right|].
      left. by apply put_err in Eput as ->.
  - intros s. exists ("s3://" +:+ lb_bucket s). intros key. reflexivity.
Qed.

(** ** The tree invariant *)

(** Every file lies in directories that exist, no directory is a file, the
    directories are closed under taking ancestors, and the bucket's own
    directory exists. *)
Record tree_ok (s : LocalBucket) : Prop := {
  tree_files : forall p f a, lb_files s !! p = Some f -> a ∈ parents p -> a ∈ lb_dirs s;
  tree_disjoint : forall d, d ∈ lb_dirs s -> lb_files s !! d = None;
  tree_dirs : forall d a, d ∈ lb_dirs s -> a ∈ parents d -> a ∈ lb_dirs s;
  tree_bucket : lb_bucket s ∈ lb_dirs s /\ segment (lb_bucket s) = true
}.

(** The operations that change a bucket. *)
Inductive bucket_op : Type :=
  | OpPut (uri data : string)
  | OpPutEtag (uri data : string) (if_match : option string)
  | OpPutJson (uri : string) (v : pyval)
  | OpDelete (uri : string)
  | OpEnsure
  | OpWipe
  | OpWipeRun (run_id : string)
  | OpTick (ns : Z).

(** The state after an operation; [OpTick] is the clock of the file system. *)
Definition apply_op (s : LocalBucket) (o : bucket_op) : LocalBucket :=
  match o with
  | OpPut uri data => fst (LocalBucket_put uri data s)
  | OpPutEtag uri data m => fst (LocalBucket_put_with_etag uri data m s)
  | OpPutJson uri v => fst (LocalBucket_put_json uri v s)
  | OpDelete uri => fst (LocalBucket_delete uri s)
  | OpEnsure => fst (LocalBucket_ensure_bucket s)
  | OpWipe => fst (LocalBucket_wipe s)
  | OpWipeRun run_id => fst (LocalBucket_wipe_run run_id s)
  | OpTick ns => mkBucket (lb_bucket s) (lb_files s) (lb_dirs s) ns
  end.

Lemma parents_spec a p : a ∈ parents p <-> exists t, p = a +:+ String slash t.
Proof.
  revert a. induction p as [|c p IH]; intros a; cbn [parents].
  - split; [by intros ?%elem_of_nil|]. intros [t E]. by destruct a.
  - rewrite elem_of_app, list_elem_of_fmap. split.
    + intros [H|(a' & -> & H)].
      * destruct (Ascii.eqb c slash) eqn:E; [|by apply elem_of_nil in H].
        apply Ascii.eqb_eq in E as ->. apply list_elem_of_singleton in H as ->. by exists p.
      * apply IH in H as [t ->]. by exists t.
    + intros [t E]. destruct a as [|x a]; cbn in E.
      * injection E as -> ->. left. rewrite Ascii.eqb_refl. by apply list_elem_of_singleton.
      * injection E as -> ->. right. exists a. split; [done|]. apply IH. by exists t.
Qed.

Lemma parents_trans a b p : a ∈ parents b -> b ∈ parents p -> a ∈ parents p.
Proof.
  rewrite !parents_spec. intros [t ->] [u ->]. exists (t +:+ String slash u).
  by rewrite str_app_assoc.
Qed.

Lemma parents_irrefl p : p ∉ parents p.
Proof.
  rewrite parents_spec. intros [t E]. apply (f_equal String.length) in E.
  rewrite str_app_length in E. cbn in E. lia.
Qed.

Lemma parents_below dir p : startswith (dir +:+ "/") p = true <-> dir ∈ parents p.
Proof.
  rewrite startswith_spec, parents_spec. split; intros [t ->]; exists t; by rewrite ?str_app_assoc.
Qed.

Lemma segment_parents s : segment s = true -> parents s = [].
Proof.
  intros H. destruct (parents s) as [|a l] eqn:E; [done|]. exfalso.
  assert (a ∈ parents s) as Ha by (rewrite E; left). apply parents_spec in Ha as [t ->].
  unfold segment in H. rewrite lacks_app in H. apply andb_true_iff in H as [_ H]. done.
Qed.

Lemma init_tree bucket clock : segment bucket = true -> tree_ok (LocalBucket_init bucket clock).
Proof.
  intros Hs. split; cbn.
  - intros p f a H. by rewrite lookup_empty in H.
  - intros. by rewrite lookup_empty.
  - intros d a Hd%elem_of_singleton. subst d. by rewrite (segment_parents _ Hs), elem_of_nil.
  - split; [by apply elem_of_singleton|done].
Qed.

Lemma put_tree uri data s : tree_ok s -> tree_ok (fst (LocalBucket_put uri data s)).
Proof.
  intros [Hf Hd Ha [Hb Hs]]. unfold LocalBucket_put.
  destruct (LocalBucket_path_for_uri uri) as [p|]; [|by split].
  destruct (existsb _ _) eqn:Ee; [by split|]. case_bool_decide as Hp; [by split|].
  split; cbn; [| | |split; [by apply elem_of_union_r|done]].
  - intros q f a Hq Hin. rewrite elem_of_union, elem_of_list_to_set.
    destruct (decide (q = p)) as [->|Hne]; [by left|]. rewrite lookup_insert_ne in Hq by done. right; eauto.
  - intros d. rewrite elem_of_union, elem_of_list_to_set. intros [Hin|Hin].
    + rewrite lookup_insert_ne; [by eapply existsb_false_parents|]. intros <-. by apply (parents_irrefl p).
    + rewrite lookup_insert_ne; [auto|]. by intros <-.
  - intros d a. rewrite !elem_of_union, !elem_of_list_to_set. intros [Hin|Hin] Hin'.
    + left. by eapply parents_trans.
    + right. eauto.
Qed.

Lemma delete_tree uri s : tree_ok s -> tree_ok (fst (LocalBucket_delete uri s)).
Proof.
  intros [Hf Hd Ha Hb]. unfold LocalBucket_delete.
  destruct (LocalBucket_path_for_uri uri) as [p|]; [|by split].
  destruct (stat s p) as [g| | |]; [|by split..]. split; cbn; [| |done|done].
  - intros q f a [_ Hq]%lookup_delete_Some. eauto.
  - intros d Hin. apply lookup_delete_None. auto.
Qed.

Lemma rmtree_below s dir d : d ∈ lb_dirs (rmtree s dir) <->
  d ∈ lb_dirs s /\ dir ∉ parents d /\ d <> dir.
Proof.
  cbn. rewrite elem_of_filter, <- parents_below. rewrite not_true_iff_false. tauto.
Qed.

Lemma rmtree_files s dir p f : lb_files (rmtree s dir) !! p = Some f <->
  lb_files s !! p = Some f /\ dir ∉ parents p.
Proof. cbn. rewrite map_lookup_filter_Some. cbn. by rewrite <- parents_below, not_true_iff_false. Qed.

Lemma rmtree_closed s dir :
  tree_ok s ->
  (forall p f a, lb_files (rmtree s dir) !! p = Some f -> a ∈ parents p -> a ∈ lb_dirs (rmtree s dir)) /\
  (forall d, d ∈ lb_dirs (rmtree s dir) -> lb_files (rmtree s dir) !! d = None) /\
  (forall d a, d ∈ lb_dirs (rmtree s dir) -> a ∈ parents d -> a ∈ lb_dirs (rmtree s dir)).
Proof.
  intros [Hf Hd Ha _]. split; [|split].
  - intros p f a Hp Hin. apply rmtree_files in Hp as [Hp Hn]. apply rmtree_below. split; [eauto|].
    split; [|by intros ->]. intros Hin'. apply Hn. by eapply parents_trans.
  - intros d Hin. apply rmtree_below in Hin as [Hin _]. apply map_lookup_filter_None. left. auto.
  - intros d a Hin Hp. apply rmtree_below in Hin as (Hin & Hn & Hne). apply rmtree_below.
    split; [eauto|]. split; [|by intros ->]. intros Hin'. apply Hn. by eapply parents_trans.
Qed.

Lemma apply_op_tree s o : tree_ok s -> tree_ok (apply_op s o).
Proof.
  intros H. destruct o as [uri data|uri data m|uri v|uri| | |run_id|ns]; cbn [apply_op].
  - by apply put_tree.
  - destruct (put_with_etag_state uri data m s) as [->| ->]; [done|by apply put_tree].
  - by apply put_tree.
  - by apply delete_tree.
  - destruct H as [Hf Hd Ha [Hb Hs]]. cbn.
    rewrite subseteq_union_1_L by by apply singleton_subseteq_l. by split.
  - pose proof H as [_ Hd _ [Hb Hs]]. unfold LocalBucket_wipe, LocalBucket_ensure_bucket.
    rewrite bool_decide_true by done. destruct (rmtree_closed s (lb_bucket s) H) as (H1 & H2 & H3).
    split; cbn [fst with_tree lb_files lb_dirs lb_bucket rmtree] in *.
    + intros p f a Hp Hin. apply elem_of_union_r. eauto.
    + intros d [->%elem_of_singleton|Hin]%elem_of_union; [|auto].
      apply map_lookup_filter_None. left. auto.
    + intros d a [->%elem_of_singleton|Hin]%elem_of_union Hp; [|apply elem_of_union_r; eauto].
      by rewrite (segment_parents _ Hs), elem_of_nil in Hp.
    + split; [by apply elem_of_union_l, elem_of_singleton|done].
  - unfold LocalBucket_wipe_run. destruct (negb _); [done|]. destruct (stat s _); try done. cbn [fst].
    destruct (rmtree_closed s (lb_bucket s +:+ "/runs/" +:+ run_id) H) as (H1 & H2 & H3).
    split; [done..|]. pose proof H as [_ _ _ [Hb Hs]]. split; [|done].
    apply rmtree_below. cbn [lb_bucket rmtree with_tree]. split; [done|].
    rewrite (segment_parents _ Hs). split; [by intros ?%elem_of_nil|].
    intros E. apply (f_equal String.length) in E. rewrite str_app_length in E. cbn in E. lia.
  - destruct H as [Hf Hd Ha Hb]. by split.
Qed.

Lemma reachable_tree ops bucket clock : segment bucket = true ->
  tree_ok (fold_left apply_op ops (LocalBucket_init bucket clock)).
Proof.
  intros Hs. pose proof (init_tree bucket clock Hs) as H. revert H.
  generalize (LocalBucket_init bucket clock). induction ops as [|o ops IH]; intros s H; [done|].
  cbn. apply IH. by apply apply_op_tree.
Qed.

#[export] Hint Resolve put_tree delete_tree apply_op_tree : teuton.

(** ** Listing *)

Lemma str_drop_app a b : str_drop (String.length a) (a +:+ b) = b.
Proof. induction a; [done|]. done. Qed.

Lemma str_take_app a b : str_take (String.length a) (a +:+ b) = a.
Proof. induction a as [|c a IH]; [by destruct b|]. cbn. by rewrite IH. Qed.

Lemma endswith_app p s : endswith p (s +:+ p) = true.
Proof.
  unfold endswith. rewrite str_app_length. apply andb_true_iff. split; [apply Nat.leb_le; lia|].
  replace (String.length s + String.length p - String.length p)%nat with (String.length s) by lia.
  rewrite str_drop_app. apply String.eqb_refl.
Qed.

Lemma drop_slash_app k : drop_slash (k +:+ "/") = k.
Proof.
  unfold drop_slash, str_drop_last. rewrite endswith_app, str_app_length.
  change (String.length "/") with 1%nat.
  replace (String.length k + 1 - 1)%nat with (String.length k) by lia. apply str_take_app.
Qed.

Lemma files_below_spec s dir p :
  p ∈ files_below s dir <-> dir ∈ parents p /\ exists f, lb_files s !! p = Some f.
Proof.
  unfold files_below. rewrite list_elem_of_filter, elem_of_elements, elem_of_dom, parents_below. done.
Qed.

(** A prefix that ends in a slash lists exactly the objects below it. *)
Lemma list_paths_dir s b k : tree_ok s -> path_ok (b +:+ "/" +:+ k) = true ->
  exists ps, list_paths s b (k +:+ "/") = Ok ps /\ NoDup ps /\
    forall p, p ∈ ps <-> b +:+ "/" +:+ k ∈ parents p /\ exists f, lb_files s !! p = Some f.
Proof.
  intros Hs Hp. unfold list_paths.
  assert (String.eqb (k +:+ "/") "" = false) as -> by (apply String.eqb_neq; by destruct k).
  rewrite drop_slash_app, Hp, endswith_app. cbn [negb]. case_bool_decide as Hd.
  - eexists. split; [done|]. split; [|apply files_below_spec].
    apply NoDup_filter, NoDup_elements.
  - exists []. split; [done|]. split; [constructor|]. intros p. rewrite elem_of_nil. split; [done|].
    intros [Hin [f Hf]]. destruct Hd. by apply (tree_files s Hs p f).
Qed.

Lemma sorted_strings_sorted l : sorted_by String.leb (sorted_strings l).
Proof. apply sort_by_sorted; eauto with teuton. Qed.

Lemma lacks_newline_key b k : lacks newline k = true -> segment b = true -> b <> EmptyString ->
  k <> EmptyString -> forall s, list_target s (join_uri b k) = (b, k).
Proof. intros Hk Hb Hne Hke s. unfold list_target. by rewrite parse_join. Qed.

Lemma list_dir_spec s b k : tree_ok s -> segment b = true -> path_ok (b +:+ "/" +:+ k) = true ->
  lacks newline k = true -> b <> EmptyString ->
  exists uris, LocalBucket_list (join_uri b (k +:+ "/")) s = (s, Ok uris) /\
    sorted_by String.leb uris /\ NoDup uris /\
    forall uri, uri ∈ uris <-> exists p f, uri = "s3://" +:+ p /\ lb_files s !! p = Some f /\
      startswith (b +:+ "/" +:+ k +:+ "/") p = true.
Proof.
  intros Hs Hb Hp Hk Hne. destruct (list_paths_dir s b k Hs Hp) as (ps & E & Hnd & Hps).
  exists (sorted_strings (map (fun p => "s3://" +:+ p) ps)). split; [|split; [|split]].
  - unfold LocalBucket_list. rewrite lacks_newline_key; [|by rewrite lacks_app, Hk|done|done|by destruct k].
    by rewrite E.
  - apply sorted_strings_sorted.
  - unfold sorted_strings. rewrite sort_by_perm. apply NoDup_fmap; [|done].
    intros x y. apply str_app_inv_l.
  - intros uri. unfold sorted_strings. rewrite sort_by_elem, list_elem_of_fmap. split.
    + intros (p & -> & Hin). apply Hps in Hin as [Hin [f Hf]]. exists p, f. split; [done|]. split; [done|].
      apply parents_below in Hin. by rewrite !str_app_assoc in Hin.
    + intros (p & f & -> & Hf & Hst). exists p. split; [done|]. apply Hps. split; [|by exists f].
      apply parents_below. by rewrite !str_app_assoc.
Qed.

(** ** Properties *)

(** C2. After any sequence of writes, conditional writes, deletions and wipes,
    the bucket's directory tree is consistent (every object lies in existing
    directories, no directory is an object), and listing a prefix that ends in
    a slash returns exactly the objects below it, once each and sorted. *)
Theorem bucket_listing_exact ops bucket clock k :
  segment bucket = true -> bucket <> EmptyString -> lacks newline k = true ->
  path_ok (bucket +:+ "/" +:+ k) = true ->
  let s := fold_left apply_op ops (LocalBucket_init bucket clock) in
  tree_ok s /\
  exists uris, LocalBucket_list (join_uri bucket (k +:+ "/")) s = (s, Ok uris) /\
    sorted_by String.leb uris /\ NoDup uris /\
    forall uri, uri ∈ uris <-> exists p f, uri = "s3://" +:+ p /\ lb_files s !! p = Some f /\
      startswith (bucket +:+ "/" +:+ k +:+ "/") p = true.
Proof.
  intros Hb Hne Hk Hp s. assert (tree_ok s) as Hs by by apply reachable_tree.
  split; [done|]. by apply list_dir_spec.
Qed.

(** A conditional write. It succeeds only when the precondition holds at
    the moment of the write (the tag given is the object's current tag, or is
    empty and there is no object); it then leaves the data under a non-empty
    tag that the write returns and every reader sees. When the precondition
    fails nothing is written. A conditional read with the current tag returns
    no body. *)
Theorem put_with_etag_atomic uri data want s s' :
  (forall e, LocalBucket_put_with_etag uri data (Some want) s = (s', Ok e) ->
     (exists b cur, LocalBucket_get_with_etag uri None s = (s, Ok (b, cur)) /\ want = default EmptyString cur) /\
     e <> EmptyString /\
     LocalBucket_get_with_etag uri None s' = (s', Ok (Some data, Some e)) /\
     LocalBucket_get_with_etag uri (Some e) s' = (s', Ok (None, Some e)) /\
     LocalBucket_get uri s' = (s', Ok data)) /\
  (forall msg, LocalBucket_put_with_etag uri data (Some want) s = (s', Err (PreconditionFailed msg)) ->
     s' = s /\ exists b cur, LocalBucket_get_with_etag uri None s = (s, Ok (b, cur)) /\
       want <> default EmptyString cur).
Proof.
  split.
  - intros e H. apply put_with_etag_inv in H as Hinv. destruct Hinv as (p & _ & Hput & _).
    change (os_put uri data s = (s', Ok tt)) in Hput.
    change (os_put_with_etag uri data (Some want) s = (s', Ok e)) in H.
    split; [exact (put_etag_guard _ _ _ _ _ _ H)|].
    destruct (put_etag_get _ _ _ _ _ _ H) as [He Hg]. split; [done|]. split; [done|].
    split; [exact (get_etag_match _ _ _ _ Hg)|].
    exact (put_get _ _ _ _ Hput).
  - intros msg H. change (os_put_with_etag uri data (Some want) s = (s', Err (PreconditionFailed msg))) in H.
    destruct (put_etag_conflict _ _ _ _ _ _ H) as (-> & w & b & cur & [= <-] & Hg & Hne).
    split; [done|]. by exists b, cur.
Qed.

Lemma bucket_listing_exact_witness :
  let s := fold_left apply_op
    [OpPut "s3://bk/v3/jobs/r/a.json" "1"; OpPut "s3://bk/v3/jobs/rr/b.json" "2";
     OpPut "s3://bk/v3/jobs/r/c.json" "3"; OpDelete "s3://bk/v3/jobs/r/a.json"]
    (LocalBucket_init "bk" 5) in
  snd (LocalBucket_list "s3://bk/v3/jobs/r/" s) = Ok ["s3://bk/v3/jobs/r/c.json"] /\ tree_ok s.
Proof.
  intros s. split; [vm_compute; reflexivity|].
  apply (bucket_listing_exact
    [OpPut "s3://bk/v3/jobs/r/a.json" "1"; OpPut "s3://bk/v3/jobs/rr/b.json" "2";
     OpPut "s3://bk/v3/jobs/r/c.json" "3"; OpDelete "s3://bk/v3/jobs/r/a.json"] "bk" 5 "v3/jobs/r");
    by vm_compute.
Defined.

(** ** Stored paths *)

Lemma split_on_cat c a b : split_on c (a +:+ String c b) = split_on c a ++ split_on c b.
Proof.
  induction a as [|x a IH]; cbn [String.append split_on]; [by rewrite Ascii.eqb_refl|].
  rewrite IH. destruct (Ascii.eqb x c); [done|].
  pose proof (split_on_nonempty c a). by destruct (split_on c a).
Qed.

Lemma path_ok_cat a b : path_ok (a +:+ "/" +:+ b) = path_ok a && path_ok b.
Proof. unfold path_ok. change ("/" +:+ b) with (String slash b). by rewrite split_on_cat, forallb_app. Qed.

Lemma path_ok_segment a : segment a = true -> path_ok a = seg_ok a.
Proof. intros H. unfold path_ok. rewrite split_on_lacks by done. cbn. apply andb_true_r. Qed.

(** Every stored path is the path of its own URI. *)
Definition canonical_paths (s : LocalBucket) : Prop :=
  forall p f, lb_files s !! p = Some f -> LocalBucket_path_for_uri ("s3://" +:+ p) = Ok p.

Lemma parse_uri_parts uri b k : parse_uri uri = Ok (b, k) ->
  segment b = true /\ b <> EmptyString /\ k <> EmptyString /\ lacks newline k = true.
Proof.
  unfold parse_uri. destruct (startswith _ _); [|done].
  destruct (cut_at slash _) as [[bb kk]|] eqn:Ec; [|done]. apply cut_at_spec in Ec as [_ Hb].
  destruct (negb _ && negb _ && _) eqn:E; [|done]. intros [= <- <-].
  apply andb_true_iff in E as [E Hn]. apply andb_true_iff in E as [E1 E2].
  apply negb_true_iff, String.eqb_neq in E1. apply negb_true_iff, String.eqb_neq in E2. done.
Qed.

Lemma path_for_uri_canonical uri p : LocalBucket_path_for_uri uri = Ok p ->
  LocalBucket_path_for_uri ("s3://" +:+ p) = Ok p.
Proof.
  unfold LocalBucket_path_for_uri. intros H. apply bind_Ok in H as ([b k] & Hp & H). cbn [fst snd] in H.
  destruct (path_ok (b +:+ _)) eqn:Ek; [|done]. apply (inj Ok) in H. subst p.
  apply parse_uri_parts in Hp as (H1 & H2 & H3 & H4).
  pose proof (parse_join b k H1 H2 H3 H4) as Hj. unfold join_uri in Hj. rewrite Hj. cbn [mbind result_bind fst snd]. by rewrite Ek.
Qed.

Lemma put_canonical uri data s : canonical_paths s -> canonical_paths (fst (LocalBucket_put uri data s)).
Proof.
  intros Hc. destruct (LocalBucket_put uri data s) as [s' [[]|e]] eqn:E.
  - apply put_inv in E as (p & Hp & ->). intros q f. cbn. destruct (decide (q = p)) as [->|Hne].
    + intros _. by eapply path_for_uri_canonical.
    + rewrite lookup_insert_ne by done. apply Hc.
  - apply put_err in E as ->. done.
Qed.

Lemma apply_op_canonical s o : canonical_paths s -> canonical_paths (apply_op s o).
Proof.
  intros Hc. destruct o as [uri data|uri data m|uri v|uri| | |run_id|ns]; cbn [apply_op].
  - by apply put_canonical.
  - destruct (put_with_etag_state uri data m s) as [->| ->]; [done|by apply put_canonical].
  - by apply put_canonical.
  - unfold LocalBucket_delete. destruct (LocalBucket_path_for_uri uri) as [p|]; [|done].
    destruct (stat s p); try done. intros q g Hq. cbn in Hq. apply lookup_delete_Some in Hq as [_ Hq]. by apply Hc in Hq.
  - exact Hc.
  - unfold LocalBucket_wipe. case_bool_decide; [|exact Hc]. intros q g. cbn.
    rewrite map_lookup_filter_Some. intros [Hq _]. by apply Hc in Hq.
  - unfold LocalBucket_wipe_run. destruct (negb _); [done|]. destruct (stat s _); try done.
    intros q g Hq. cbn [fst] in Hq. apply rmtree_files in Hq as [Hq _]. by apply Hc in Hq.
  - exact Hc.
Qed.

Lemma reachable_canonical ops bucket clock :
  canonical_paths (fold_left apply_op ops (LocalBucket_init bucket clock)).
Proof.
  assert (canonical_paths (LocalBucket_init bucket clock)) as H by (intros p f; cbn; by rewrite lookup_empty).
  revert H. generalize (LocalBucket_init bucket clock). induction ops as [|o ops IH]; intros s H; [done|].
  cbn. apply IH. by apply apply_op_canonical.
Qed.
