(* ===== verification/S3.v ===== *)
(** * The S3 object store ([S3Bucket] of [teuton_runtime/storage.py])

    [S3Bucket] is a thin client: every method parses the URI, makes one request
    (or a few pages of them) and translates the answer.  The requests are those
    of boto3, which is not part of the source: [S3Client] names them, their
    arguments and their answers, and [S3Service] states what the documentation
    of S3 promises of them.  The service is the state.

    [S3Bucket_laws] shows that over such a service the class keeps every promise
    of the [ObjectStore] interface, so each theorem proved against the interface
    holds for both stores.  [memory_service] is a service that keeps its
    promises. *)

From Stdlib Require Import ZArith Lia Ascii.
From stdpp Require Import base gmap strings list.
From S2P Require Import Prelude PyFloat PyVal Json Digest Paths Signatures Storage.

(** ** The client library *)

(** A row of a listing: its key, [LastModified.timestamp()] and [Size]. *)
Record s3_entry := mkEntry { s3e_key : string; s3e_modified : float; s3e_size : Z }.

(** The answer of [head_object]: [ContentLength] and [LastModified.timestamp()]. *)
Record s3_head := mkHead { s3h_length : Z; s3h_modified : float }.

(** The requests [S3Bucket] makes.  A refusal is a [ClientError] with the code
    and the HTTP status of the response. *)
Class S3Client (W : Type) := {
  (** [put_object] with its [IfMatch] and [IfNoneMatch]; the response's [ETag]. *)
  s3_put_object : string -> string -> string -> option string -> option string -> ST W (option string);
  (** [get_object] with its [IfNoneMatch]; the body and the response's [ETag]. *)
  s3_get_object : string -> string -> option string -> ST W (string * option string);
  s3_head_object : string -> string -> ST W s3_head;
  s3_delete_object : string -> string -> ST W unit;
  (** The pages of [list_objects_v2] for a bucket and a prefix: the [Contents]
      of each, if the page has any. *)
  s3_pages : string -> option string -> ST W (list (option (list s3_entry)));
  s3_delete_objects : string -> list string -> ST W unit
}.

(** ** S3Bucket *)

(** [S3Bucket._client] and the two names the object keeps. *)
Record S3Bucket (W : Type) := mkS3 { s3b_service : W; s3b_bucket : string; s3b_region : string }.
Arguments mkS3 {W} _ _ _.
Arguments s3b_service {W} _.
Arguments s3b_bucket {W} _.
Arguments s3b_region {W} _.

(** How requests are signed: with no credentials at all they are not. *)
Inductive signature_version := UNSIGNED | S3v4.

Definition signature_of (access_key secret_key : option string) : signature_version :=
  match given access_key, given secret_key with
  | None, None => UNSIGNED
  | _, _ => S3v4
  end.

(** [S3Bucket(...)]: [connect] is [boto3.client]. *)
Definition S3Bucket_init {W} (connect : signature_version -> option string -> option string -> option string -> string -> W)
    (bucket region : string) (access_key secret_key endpoint_url : option string) : S3Bucket W :=
  mkS3 (connect (signature_of access_key secret_key) access_key secret_key endpoint_url region) bucket region.

Definition S3Bucket_is_404 (e : exn) : bool :=
  match e with
  | ClientError code status =>
      bool_decide (code ∈ ["NoSuchKey"; "NotFound"; "404"]) || bool_decide (status = Some 404%Z)
  | _ => false
  end.

Definition S3Bucket_is_not_visible (e : exn) : bool :=
  match e with
  | ClientError code status =>
      S3Bucket_is_404 e || bool_decide (code ∈ ["AccessDenied"; "403"]) || bool_decide (status = Some 403%Z)
  | _ => false
  end.

(** The tests of [get_with_etag] and [put_with_etag] on a [ClientError]. *)
Definition not_modified (code : string) (status : option Z) : bool :=
  bool_decide (status = Some 304%Z) || bool_decide (code ∈ ["NotModified"; "304"]).

Definition precondition_failed (code : string) (status : option Z) : bool :=
  bool_decide (status = Some 412%Z) || bool_decide (code ∈ ["PreconditionFailed"; "412"]).

Section bucket.
Context {W : Type} `{S3Client W}.

(** A request through [self._client]. *)
Definition request {A} (m : ST W A) : ST (S3Bucket W) A := fun s =>
  let '(w, r) := m (s3b_service s) in (mkS3 w (s3b_bucket s) (s3b_region s), r).

(** [except ClientError as e]. *)
Definition except_client_error {A} (m : ST (S3Bucket W) A) (handler : string -> option Z -> result A)
    : ST (S3Bucket W) A := fun s =>
  match m s with
  | (s', Err (ClientError code status)) => (s', handler code status)
  | (s', r) => (s', r)
  end.

Definition S3Bucket_uri_for_key (s : S3Bucket W) (key : string) : string := join_uri (s3b_bucket s) key.

Definition S3Bucket_put (uri data : string) : ST (S3Bucket W) unit :=
  bk ← st_lift (parse_uri uri);
  _ ← request (s3_put_object bk.1 bk.2 data None None);
  mret tt.

Definition S3Bucket_get (uri : string) : ST (S3Bucket W) string :=
  bk ← st_lift (parse_uri uri);
  response ← except_client_error (request (s3_get_object bk.1 bk.2 None)) (fun code status =>
    let e := ClientError code status in
    if S3Bucket_is_404 e then Err (FileNotFoundError uri) else Err e);
  mret response.1.

Definition S3Bucket_exists (uri : string) : ST (S3Bucket W) bool :=
  bk ← st_lift (parse_uri uri);
  except_client_error (_ ← request (s3_head_object bk.1 bk.2); mret true) (fun code status =>
    let e := ClientError code status in
    if S3Bucket_is_not_visible e then Ok false else Err e).

Definition S3Bucket_head (uri : string) : ST (S3Bucket W) (option (Z * Z)) :=
  bk ← st_lift (parse_uri uri);
  response ← except_client_error (r ← request (s3_head_object bk.1 bk.2); mret (Some r)) (fun code status =>
    let e := ClientError code status in
    if S3Bucket_is_404 e then Ok None else Err e);
  match response with
  | None => mret None
  | Some r => m ← st_lift (int_of_float (s3h_modified r)); mret (Some (s3h_length r, m))
  end.

Definition S3Bucket_delete (uri : string) : ST (S3Bucket W) unit :=
  bk ← st_lift (parse_uri uri);
  except_client_error (request (s3_delete_object bk.1 bk.2)) (fun _ _ => Ok tt).

(** The objects of all pages; a page without [Contents] has none. *)
Definition page_objects (pages : list (option (list s3_entry))) : list s3_entry :=
  mjoin (map (default []) pages).

(** The bucket and prefix of a listing. *)
Definition S3Bucket_target (s : S3Bucket W) (prefix_uri : string) : string * string :=
  match parse_uri prefix_uri with
  | Ok bk => bk
  | Err _ => (s3b_bucket s, prefix_uri)
  end.

Definition S3Bucket_list (prefix_uri : string) : ST (S3Bucket W) (list string) := fun s =>
  let '(bucket, key) := S3Bucket_target s prefix_uri in
  (pages ← request (s3_pages bucket (Some key));
   mret (sorted_strings (map (fun o => join_uri bucket (s3e_key o)) (page_objects pages)))) s.

(** The order of [(uri, mtime_unix, size_bytes)] rows. *)
Definition row_leb (a b : string * Z * Z) : bool :=
  let '(u, m, n) := a in let '(u', m', n') := b in
  if String.eqb u u' then if (m =? m')%Z then (n <=? n')%Z else (m <? m')%Z else String.leb u u'.

Definition meta_of (bucket : string) (o : s3_entry) : result (string * Z * Z) :=
  m ← int_of_float (s3e_modified o); Ok (join_uri bucket (s3e_key o), m, s3e_size o).

Definition S3Bucket_list_with_meta (prefix_uri : string) : ST (S3Bucket W) (list (string * Z * Z)) := fun s =>
  let '(bucket, key) := S3Bucket_target s prefix_uri in
  (pages ← request (s3_pages bucket (Some key));
   rows ← st_lift (mapR (meta_of bucket) (page_objects pages));
   mret (sort_by row_leb rows)) s.

Definition S3Bucket_get_json (uri : string) : ST (S3Bucket W) pyval :=
  raw ← S3Bucket_get uri; text ← st_lift (utf8_decode raw); st_lift (json_loads text).

Definition S3Bucket_put_json (uri : string) (value : pyval) : ST (S3Bucket W) unit :=
  S3Bucket_put uri (canonical_json value).

Definition S3Bucket_get_with_etag (uri : string) (if_none_match : option string)
    : ST (S3Bucket W) (option string * option string) :=
  bk ← st_lift (parse_uri uri);
  except_client_error (response ← request (s3_get_object bk.1 bk.2 if_none_match); mret (Some response.1, response.2))
    (fun code status =>
       let e := ClientError code status in
       if not_modified code status then Ok (None, if_none_match)
       else if S3Bucket_is_404 e then Ok (None, None) else Err e).

Definition S3Bucket_put_with_etag (uri data : string) (if_match : option string) : ST (S3Bucket W) string :=
  bk ← st_lift (parse_uri uri);
  let conditions :=
    match if_match with
    | None => (None, None)
    | Some want => if String.eqb want "" then (None, Some "*") else (Some want, None)
    end in
  response ← except_client_error (request (s3_put_object bk.1 bk.2 data conditions.1 conditions.2)) (fun code status =>
    if precondition_failed code status then Err (PreconditionFailed ("etag mismatch for " +:+ uri))
    else Err (ClientError code status));
  mret (default "" response).

Definition S3Bucket_ensure_bucket : ST (S3Bucket W) unit := mret tt.

(** [for i in range(0, len(keys), 1000)]: the batches of a list. *)
Fixpoint batches {A} (fuel size : nat) (keys : list A) : list (list A) :=
  match fuel, keys with
  | _, [] | O, _ => []
  | S fuel', _ => take size keys :: batches fuel' size (drop size keys)
  end.

Fixpoint delete_batches (bucket : string) (bs : list (list string)) (total : Z) : ST (S3Bucket W) Z :=
  match bs with
  | [] => mret total
  | batch :: bs' =>
      _ ← request (s3_delete_objects bucket batch);
      delete_batches bucket bs' (total + Z.of_nat (length batch))
  end.

(** The keys under a prefix, deleted a thousand at a time. *)
Definition wipe_keys (prefix : option string) : ST (S3Bucket W) Z := fun s =>
  (pages ← request (s3_pages (s3b_bucket s) prefix);
   let keys := map s3e_key (page_objects pages) in
   delete_batches (s3b_bucket s) (batches (length keys) 1000 keys) 0) s.

Definition S3Bucket_wipe_run (run_id : string) : ST (S3Bucket W) Z :=
  wipe_keys (Some ("runs/" +:+ run_id +:+ "/")).

Definition S3Bucket_wipe : ST (S3Bucket W) Z := wipe_keys None.

#[export] Instance S3Bucket_store : ObjectStore (S3Bucket W) := {|
  os_uri_for_key := S3Bucket_uri_for_key;
  os_put := S3Bucket_put;
  os_get := S3Bucket_get;
  os_exists := S3Bucket_exists;
  os_delete := S3Bucket_delete;
  os_list := S3Bucket_list;
  os_list_with_meta := S3Bucket_list_with_meta;
  os_get_json := S3Bucket_get_json;
  os_put_json := S3Bucket_put_json;
  os_get_with_etag := S3Bucket_get_with_etag;
  os_put_with_etag := S3Bucket_put_with_etag
|}.
End bucket.

(** ** What S3 documents *)

(** An object's body and entity tag. *)
Notation s3_object := (string * string)%type.

(** A service seen by a client with all permissions whose calls are answered:
    reads are consistent and leave the bucket alone; a write is atomic, returns
    the new tag and touches one object; a conditional write does what a plain
    one does when its condition holds and is refused with 412 only when it does
    not; a refused write changes nothing; a listing names every object under
    its prefix once, over as many pages as it takes; a request deletes at most a
    thousand keys. *)
Class S3Service (W : Type) `{S3Client W} := {
  s3_at : W -> string -> string -> option s3_object;
  s3_get_reads : forall b k c w, fst (s3_get_object b k c w) = w;
  s3_head_reads : forall b k w, fst (s3_head_object b k w) = w;
  s3_pages_reads : forall b p w, fst (s3_pages b p w) = w;
  s3_get_found : forall b k w d t, s3_at w b k = Some (d, t) -> snd (s3_get_object b k None w) = Ok (d, Some t);
  s3_get_unmodified : forall b k w d t, s3_at w b k = Some (d, t) ->
    snd (s3_get_object b k (Some t) w) = Err (ClientError "304" (Some 304%Z));
  s3_get_missing : forall b k c w, s3_at w b k = None ->
    snd (s3_get_object b k c w) = Err (ClientError "NoSuchKey" (Some 404%Z));
  s3_head_found : forall b k w, is_Some (s3_at w b k) -> exists h, snd (s3_head_object b k w) = Ok h;
  s3_head_missing : forall b k w, s3_at w b k = None ->
    snd (s3_head_object b k w) = Err (ClientError "404" (Some 404%Z));
  s3_put_effect : forall b k d m n w w' r, s3_put_object b k d m n w = (w', Ok r) ->
    exists t, r = Some t /\ t <> EmptyString /\ s3_at w' b k = Some (d, t) /\
      forall b' k', (b', k') <> (b, k) -> s3_at w' b' k' = s3_at w b' k';
  s3_put_plain : forall b k d m n w w' r, s3_put_object b k d m n w = (w', Ok r) ->
    s3_put_object b k d None None w = (w', Ok r);
  s3_put_refused : forall b k d m n w w' e, s3_put_object b k d m n w = (w', Err e) -> w' = w;
  s3_put_creates : forall b k d w w' r, s3_put_object b k d None (Some "*") w = (w', Ok r) -> s3_at w b k = None;
  s3_put_precondition : forall b k d m n w w' code status,
    s3_put_object b k d m n w = (w', Err (ClientError code status)) -> precondition_failed code status = true ->
    (exists t, m = Some t /\ ~ exists d', s3_at w b k = Some (d', t)) \/ (n = Some "*" /\ is_Some (s3_at w b k));
  s3_put_errors : forall b k d m n w msg, snd (s3_put_object b k d m n w) <> Err (PreconditionFailed msg);
  s3_tags : forall b k w d t, s3_at w b k = Some (d, t) -> t <> EmptyString;
  s3_pages_exact : forall b p w, exists ps, snd (s3_pages b p w) = Ok ps /\
    NoDup (map s3e_key (page_objects ps)) /\
    forall k, k ∈ map s3e_key (page_objects ps) <-> is_Some (s3_at w b k) /\ startswith (default "" p) k = true;
  s3_delete_exact : forall b ks w, (length ks <= 1000)%nat -> exists w', s3_delete_objects b ks w = (w', Ok tt) /\
    forall b' k', s3_at w' b' k' = if bool_decide (b' = b /\ k' ∈ ks) then None else s3_at w b' k'
}.

(** ** The methods against the service *)

Lemma not_found_404 code : S3Bucket_is_404 (ClientError code (Some 404%Z)) = true.
Proof. apply orb_true_iff. right. by apply bool_decide_eq_true. Qed.

Lemma not_visible_404 code : S3Bucket_is_not_visible (ClientError code (Some 404%Z)) = true.
Proof. cbn. rewrite orb_true_r. done. Qed.

Section service.
Context {W : Type} `{S3Service W}.
Implicit Types s : S3Bucket W.

(** What the service holds at a URI. *)
Definition s3_holds (s : S3Bucket W) (uri : string) : result (option s3_object) :=
  bk ← parse_uri uri; Ok (s3_at (s3b_service s) bk.1 bk.2).

Lemma with_service s :
  mkS3 (s3b_service s) (s3b_bucket s) (s3b_region s) = s.
Proof. by destruct s. Qed.

(** A request that reads. *)
Lemma request_reads {A} (m : ST W A) s : fst (m (s3b_service s)) = s3b_service s ->
  request m s = (s, snd (m (s3b_service s))).
Proof. unfold request. destruct (m _) as [w r]. cbn. intros ->. by rewrite with_service. Qed.

Lemma S3Bucket_get_spec uri s : S3Bucket_get uri s =
  (s, o ← s3_holds s uri; match o with Some (d, _) => Ok d | None => Err (FileNotFoundError uri) end).
Proof.
  unfold S3Bucket_get, s3_holds, mbind, st_bind, st_lift. destruct (parse_uri uri) as [[b k]|e]; [|done]. cbn [fst snd result_bind].
  unfold except_client_error. rewrite request_reads by apply s3_get_reads.
  destruct (s3_at (s3b_service s) b k) as [[d t]|] eqn:E.
  - by rewrite (s3_get_found _ _ _ _ _ E).
  - by rewrite (s3_get_missing _ _ _ _ E).
Qed.

Lemma S3Bucket_exists_spec uri s : S3Bucket_exists uri s =
  (s, o ← s3_holds s uri; Ok (bool_decide (is_Some o))).
Proof.
  unfold S3Bucket_exists, s3_holds, mbind, st_bind, st_lift. destruct (parse_uri uri) as [[b k]|e]; [|done]. cbn [fst snd result_bind].
  unfold except_client_error. rewrite request_reads by apply s3_head_reads.
  destruct (s3_at (s3b_service s) b k) as [[d t]|] eqn:E.
  - destruct (s3_head_found b k (s3b_service s)) as [h ->]; [by rewrite E|]. by rewrite bool_decide_true by done.
  - by rewrite (s3_head_missing _ _ _ E), not_visible_404.
Qed.

Lemma S3Bucket_get_etag_spec uri s : S3Bucket_get_with_etag uri None s =
  (s, o ← s3_holds s uri; Ok (option_map fst o, option_map snd o)).
Proof.
  unfold S3Bucket_get_with_etag, s3_holds, mbind, st_bind, st_lift. destruct (parse_uri uri) as [[b k]|e]; [|done]. cbn [fst snd result_bind].
  unfold except_client_error. rewrite request_reads by apply s3_get_reads.
  destruct (s3_at (s3b_service s) b k) as [[d t]|] eqn:E.
  - by rewrite (s3_get_found _ _ _ _ _ E).
  - by rewrite (s3_get_missing _ _ _ _ E).
Qed.

Lemma S3Bucket_get_etag_unmodified uri s d t : s3_holds s uri = Ok (Some (d, t)) ->
  S3Bucket_get_with_etag uri (Some t) s = (s, Ok (None, Some t)).
Proof.
  unfold S3Bucket_get_with_etag, s3_holds, mbind, st_bind, st_lift. destruct (parse_uri uri) as [[b k]|e]; [|done].
  cbn [fst snd result_bind]. intros [= E]. unfold except_client_error. rewrite request_reads by apply s3_get_reads.
  by rewrite (s3_get_unmodified _ _ _ _ _ E).
Qed.

Lemma S3Bucket_get_etag_reads uri e s : fst (S3Bucket_get_with_etag uri e s) = s.
Proof.
  unfold S3Bucket_get_with_etag, mbind, st_bind, st_lift. destruct (parse_uri uri) as [[b k]|]; [|done]. cbn [fst snd].
  unfold except_client_error. rewrite request_reads by apply s3_get_reads.
  by destruct (snd _) as [[]|[]].
Qed.

(** What a successful write did. *)
Definition s3_wrote (s s' : S3Bucket W) (uri data : string) : Prop :=
  exists b k t, parse_uri uri = Ok (b, k) /\ t <> EmptyString /\
    s3b_bucket s' = s3b_bucket s /\
    s3_at (s3b_service s') b k = Some (data, t) /\
    forall b' k', (b', k') <> (b, k) -> s3_at (s3b_service s') b' k' = s3_at (s3b_service s) b' k'.

Lemma S3Bucket_put_inv uri data s s' : S3Bucket_put uri data s = (s', Ok tt) -> s3_wrote s s' uri data.
Proof.
  unfold S3Bucket_put, mbind, st_bind, st_lift. destruct (parse_uri uri) as [[b k]|e] eqn:Ep; [|done]. cbn [fst snd].
  unfold request. destruct (s3_put_object b k data None None (s3b_service s)) as [w [r|e]] eqn:Ew; [|done].
  intros [= <-]. apply s3_put_effect in Ew as (t & _ & Ht & Hat & Hrest). by exists b, k, t.
Qed.

Lemma S3Bucket_put_err uri data s s' e : S3Bucket_put uri data s = (s', Err e) -> s' = s.
Proof.
  unfold S3Bucket_put, mbind, st_bind, st_lift. destruct (parse_uri uri) as [[b k]|e'] eqn:Ep; [|congruence]. cbn [fst snd].
  unfold request. destruct (s3_put_object b k data None None (s3b_service s)) as [w [r|e']] eqn:Ew; [done|].
  intros [= <- _]. apply s3_put_refused in Ew as ->. apply with_service.
Qed.

Lemma s3_wrote_holds s s' uri data : s3_wrote s s' uri data ->
  exists t, s3_holds s' uri = Ok (Some (data, t)) /\ t <> EmptyString.
Proof. intros (b & k & t & Ep & Ht & _ & Hat & _). exists t. unfold s3_holds. rewrite Ep. cbn. by rewrite Hat. Qed.

(** Other objects are as they were. *)
Lemma s3_wrote_elsewhere s s' uri uri' data : s3_wrote s s' uri data -> lacks newline uri' = true ->
  uri <> uri' -> uri <> uri' +:+ String newline EmptyString -> s3_holds s' uri' = s3_holds s uri'.
Proof.
  intros (b & k & t & Ep & _ & _ & _ & Hrest) Hn Hne Hne'. unfold s3_holds.
  destruct (parse_uri uri') as [[b' k']|] eqn:Ep'; [|done]. cbn. rewrite Hrest; [done|]. intros [= -> ->].
  apply parse_uri_inv in Ep' as (-> & _ & _); [|done]. by apply parse_uri_addresses in Ep as (_ & [->| ->]).
Qed.

Lemma s3_wrote_keeps s s' uri uri' data o : s3_wrote s s' uri data -> s3_holds s uri' = Ok (Some o) ->
  exists o', s3_holds s' uri' = Ok (Some o').
Proof.
  intros (b & k & t & Ep & _ & _ & Hat & Hrest). unfold s3_holds. destruct (parse_uri uri') as [[b' k']|] eqn:Ep'; [|done].
  cbn. intros [= Ho]. destruct (decide ((b', k') = (b, k))) as [[= -> ->]|Hne]; [by exists (data, t); rewrite Hat|].
  exists o. by rewrite Hrest, Ho.
Qed.

Lemma parse_uri_precondition uri msg : parse_uri uri <> Err (PreconditionFailed msg).
Proof. unfold parse_uri. repeat (case_match; try done). Qed.

Lemma S3_bind {A B} (m : ST (S3Bucket W) A) (k : A -> ST (S3Bucket W) B) s :
  (m ≫= k) s = match m s with (s', Ok a) => k a s' | (s', Err e) => (s', Err e) end.
Proof. done. Qed.

Lemma S3Bucket_list_spec uri s : exists ps,
  snd (s3_pages (S3Bucket_target s uri).1 (Some (S3Bucket_target s uri).2) (s3b_service s)) = Ok ps /\
  S3Bucket_list uri s =
    (s, Ok (sorted_strings (map (join_uri (S3Bucket_target s uri).1) (map s3e_key (page_objects ps))))).
Proof.
  unfold S3Bucket_list. destruct (S3Bucket_target s uri) as [b k]. cbn [fst snd].
  destruct (s3_pages_exact b (Some k) (s3b_service s)) as (ps & E & _). exists ps. split; [done|].
  rewrite S3_bind, request_reads, E by apply s3_pages_reads. by rewrite map_map.
Qed.

Lemma S3Bucket_list_reads uri s : fst (S3Bucket_list uri s) = s.
Proof. by destruct (S3Bucket_list_spec uri s) as (ps & _ & ->). Qed.

Lemma S3Bucket_list_with_meta_reads uri s : fst (S3Bucket_list_with_meta uri s) = s.
Proof.
  unfold S3Bucket_list_with_meta. destruct (S3Bucket_target s uri) as [b k].
  rewrite S3_bind, request_reads by apply s3_pages_reads. destruct (snd _) as [ps|]; [|done].
  unfold mbind, st_bind, st_lift. by destruct (mapR _ _).
Qed.

(** The conditions a precondition is sent as. *)
Definition conditions_of (if_match : option string) : option string * option string :=
  match if_match with
  | None => (None, None)
  | Some want => if String.eqb want "" then (None, Some "*") else (Some want, None)
  end.

(** A conditional write, by the service's answer. *)
Lemma S3Bucket_put_etag_spec uri data m s b k : parse_uri uri = Ok (b, k) ->
  let answer := s3_put_object b k data (conditions_of m).1 (conditions_of m).2 (s3b_service s) in
  S3Bucket_put_with_etag uri data m s =
    (mkS3 answer.1 (s3b_bucket s) (s3b_region s),
     match answer.2 with
     | Ok r => Ok (default "" r)
     | Err (ClientError code status) =>
         if precondition_failed code status then Err (PreconditionFailed ("etag mismatch for " +:+ uri))
         else Err (ClientError code status)
     | Err e => Err e
     end).
Proof.
  intros Ep answer. unfold S3Bucket_put_with_etag, mbind, st_bind, st_lift. rewrite Ep. cbn [fst snd].
  fold (conditions_of m). unfold except_client_error, request. subst answer.
  destruct (s3_put_object b k data _ _ _) as [w [r|e]]; cbn [fst snd]; [done|].
  destruct e; try done. by destruct (precondition_failed _ _).
Qed.

Lemma S3Bucket_put_etag_inv uri data m s s' e : S3Bucket_put_with_etag uri data m s = (s', Ok e) ->
  S3Bucket_put uri data s = (s', Ok tt) /\ s3_holds s' uri = Ok (Some (data, e)) /\ e <> EmptyString.
Proof.
  destruct (parse_uri uri) as [[b k]|e'] eqn:Ep.
  2:{ unfold S3Bucket_put_with_etag, mbind, st_bind, st_lift. by rewrite Ep. }
  rewrite (S3Bucket_put_etag_spec uri data m s b k Ep).
  destruct (s3_put_object b k data _ _ _) as [w [r|e']] eqn:Ew; cbn [fst snd].
  2:{ destruct e'; try done. by destruct (precondition_failed _ _). }
  intros [= <- <-]. pose proof (s3_put_effect _ _ _ _ _ _ _ _ Ew) as (t & -> & Ht & Hat & _). apply s3_put_plain in Ew.
  unfold S3Bucket_put, s3_holds, mbind, st_bind, st_lift. rewrite Ep. cbn [fst snd result_bind]. unfold request. rewrite Ew. cbn. by rewrite Hat.
Qed.

Lemma S3Bucket_put_etag_err uri data m s s' e : S3Bucket_put_with_etag uri data m s = (s', Err e) -> s' = s.
Proof.
  destruct (parse_uri uri) as [[b k]|e'] eqn:Ep.
  2:{ unfold S3Bucket_put_with_etag, mbind, st_bind, st_lift. rewrite Ep. congruence. }
  rewrite (S3Bucket_put_etag_spec uri data m s b k Ep).
  destruct (s3_put_object b k data _ _ _) as [w [r|e']] eqn:Ew; cbn [fst snd]; [done|].
  apply s3_put_refused in Ew as ->. rewrite with_service. congruence.
Qed.

Lemma S3Bucket_put_etag_conflict uri data m s s' msg :
  S3Bucket_put_with_etag uri data m s = (s', Err (PreconditionFailed msg)) ->
  exists want o, m = Some want /\ s3_holds s uri = Ok o /\ want <> default EmptyString (option_map snd o).
Proof.
  destruct (parse_uri uri) as [[b k]|e'] eqn:Ep.
  2:{ unfold S3Bucket_put_with_etag, mbind, st_bind, st_lift. rewrite Ep. intros [= _ ->]. by destruct (parse_uri_precondition uri msg). }
  rewrite (S3Bucket_put_etag_spec uri data m s b k Ep).
  pose proof (s3_put_errors b k data (conditions_of m).1 (conditions_of m).2 (s3b_service s)) as Hn.
  destruct (s3_put_object b k data _ _ _) as [w [r|e']] eqn:Ew; cbn [fst snd] in *; [done|].
  destruct e' as [| | | | | | | | | | | | | | |msg'|code status| | | |]; try done; [by destruct (Hn msg')|].
  destruct (precondition_failed code status) eqn:Epre; [|done]. intros _.
  exists (default "" m), (s3_at (s3b_service s) b k). unfold s3_holds. rewrite Ep.
  destruct m as [want|]; cbn [conditions_of] in Ew.
  2:{ by apply s3_put_precondition in Ew as [(t & [=] & _)|([=] & _)]. }
  split; [done|]. split; [done|]. cbn [default]. destruct (String.eqb_spec want "") as [->|Hne]; cbn [fst snd] in Ew.
  - apply s3_put_precondition in Ew as [(t & [=] & _)|(_ & [[d t] Ho])]; [|done]. rewrite Ho. cbn. apply s3_tags in Ho. congruence.
  - apply s3_put_precondition in Ew as [(t & [= <-] & Ho)|([=] & _)]; [|done].
    destruct (s3_at _ b k) as [[d t]|]; cbn; [|done]. intros ->. apply Ho. by exists d.
Qed.

Lemma S3Bucket_put_etag_creates uri data s s' e :
  S3Bucket_put_with_etag uri data (Some EmptyString) s = (s', Ok e) ->
  S3Bucket_get_with_etag uri None s = (s, Ok (None, None)).
Proof.
  intros Hp. rewrite S3Bucket_get_etag_spec. destruct (parse_uri uri) as [[b k]|e'] eqn:Ep.
  2:{ revert Hp. unfold S3Bucket_put_with_etag, mbind, st_bind, st_lift. by rewrite Ep. }
  rewrite (S3Bucket_put_etag_spec uri data _ s b k Ep) in Hp.
  destruct (s3_put_object b k data _ _ _) as [w [r|e']] eqn:Ew; cbn [fst snd] in Hp.
  2:{ destruct e'; try done. by destruct (precondition_failed _ _). }
  apply s3_put_creates in Ew. unfold s3_holds. rewrite Ep. cbn. by rewrite Ew.
Qed.

(** ** The interface *)

#[export] Instance S3Bucket_laws : ObjectStoreLaws (S3Bucket W).
Proof.
  split; cbn [os_get os_put os_get_with_etag os_put_with_etag os_put_json os_get_json os_list_with_meta
              os_exists os_list os_uri_for_key S3Bucket_store]; try done.
  - intros uri s. by rewrite S3Bucket_get_spec.
  - apply S3Bucket_get_etag_reads.
  - intros uri s. apply S3Bucket_list_with_meta_reads.
  - intros uri data s s' [t [Ht _]]%S3Bucket_put_inv%s3_wrote_holds. by rewrite S3Bucket_get_spec, Ht.
  - intros uri uri' data d s s' Hw%S3Bucket_put_inv Hn Hne Hne'. rewrite !S3Bucket_get_spec.
    intros [= Hg]. by rewrite (s3_wrote_elsewhere _ _ _ _ _ Hw Hn Hne Hne'), Hg.
  - intros uri data s s' [[]|e] Hp; unfold S3Bucket_uri_for_key.
    + apply S3Bucket_put_inv in Hp as (b & k & t & _ & _ & -> & _). done.
    + by apply S3Bucket_put_err in Hp as ->.
  - intros uri v s s' Hok [t [Ht _]]%S3Bucket_put_inv%s3_wrote_holds.
    unfold S3Bucket_get_json. rewrite S3_bind, S3Bucket_get_spec, Ht. cbn [mbind result_bind].
    unfold canonical_json, mbind, st_bind, st_lift. rewrite utf8_decode_ascii by auto with teuton. by rewrite json_roundtrip.
  - intros uri data m s s' e (_ & Ho & He)%S3Bucket_put_etag_inv. split; [done|]. by rewrite S3Bucket_get_etag_spec, Ho.
  - intros uri data m s s' [e|e] Hp; unfold S3Bucket_uri_for_key.
    + apply S3Bucket_put_etag_inv in Hp as (Hp & _). by apply S3Bucket_put_inv in Hp as (b & k & t & _ & _ & -> & _).
    + by apply S3Bucket_put_etag_err in Hp as ->.
  - apply S3Bucket_put_etag_creates.
  - intros uri data m s s' msg Hp. split; [by apply S3Bucket_put_etag_err in Hp|].
    apply S3Bucket_put_etag_conflict in Hp as (want & o & -> & Ho & Hne).
    exists want, (option_map fst o), (option_map snd o). by rewrite S3Bucket_get_etag_spec, Ho.
  - intros uri s b cur. rewrite S3Bucket_get_etag_spec. unfold s3_holds. destruct (parse_uri uri) as [[bk k]|]; [|done].
    cbn. destruct (s3_at _ bk k) as [[d t]|] eqn:E; intros [= <- <-]; [|by left]. right. exists d, t.
    split; [done|]. split; [done|]. by apply s3_tags in E.
  - intros uri s d t. rewrite S3Bucket_get_etag_spec. destruct (s3_holds s uri) as [[[d' t']|]|] eqn:E; intros [= <- <-].
    by apply S3Bucket_get_etag_unmodified in E.
  - intros uri s. by rewrite S3Bucket_exists_spec.
  - intros uri s. unfold S3Bucket_get_json. rewrite S3_bind, S3Bucket_get_spec.
    destruct (o ← _; _) as [raw|]; [|done]. unfold mbind, st_bind, st_lift. by destruct (utf8_decode raw).
  - intros uri s. apply S3Bucket_list_reads.
  - intros uri data s s' [t [Ht _]]%S3Bucket_put_inv%s3_wrote_holds. by rewrite S3Bucket_exists_spec, Ht.
  - intros uri uri' data s s' Hw%S3Bucket_put_inv. rewrite !S3Bucket_exists_spec.
    destruct (s3_holds s uri') as [[o|]|] eqn:E; try done. intros _.
    by destruct (s3_wrote_keeps _ _ _ _ _ _ Hw E) as [o' ->].
  - intros uri uri' data d s s' Hw%S3Bucket_put_inv Hn Hn' Hne. rewrite !S3Bucket_get_spec.
    intros [= Hg]. rewrite (s3_wrote_elsewhere _ _ _ _ _ Hw Hn') in Hg; [by rewrite Hg|congruence|by apply newline_free_ne].
  - intros uri s. unfold S3Bucket_get_json. rewrite S3_bind, S3Bucket_get_spec. cbn [snd].
    destruct (o ← _; _) as [raw|]; [|done]. unfold mbind, st_bind, st_lift. cbn. by destruct (utf8_decode raw).
  - intros uri data m s s' [e|e] Hp.
    + right. by apply S3Bucket_put_etag_inv in Hp as (Hp & _).
    + left. by apply S3Bucket_put_etag_err in Hp.
  - intros s. by exists ("s3://" +:+ s3b_bucket s).
Qed.

(** ** Listing and wiping *)

Lemma s3_keys uri s : exists keys, NoDup keys /\
  (forall k, k ∈ keys <-> is_Some (s3_at (s3b_service s) (S3Bucket_target s uri).1 k) /\
                          startswith (S3Bucket_target s uri).2 k = true) /\
  S3Bucket_list uri s = (s, Ok (sorted_strings (map (join_uri (S3Bucket_target s uri).1) keys))).
Proof.
  destruct (S3Bucket_list_spec uri s) as (ps & E & ->).
  destruct (s3_pages_exact (S3Bucket_target s uri).1 (Some (S3Bucket_target s uri).2) (s3b_service s)) as (ps' & E' & Hnd & Hk).
  rewrite E in E'. injection E' as <-. exists (map s3e_key (page_objects ps)). done.
Qed.

Lemma join_uri_inj b k k' : join_uri b k = join_uri b k' -> k = k'.
Proof. unfold join_uri. intros E. by do 3 apply str_app_inv_l in E. Qed.

Lemma S3Bucket_list_exact b k s : segment b = true -> b <> EmptyString -> k <> EmptyString -> lacks newline k = true ->
  exists uris, S3Bucket_list (join_uri b k) s = (s, Ok uris) /\ sorted_by String.leb uris /\ NoDup uris /\
    forall uri, uri ∈ uris <-> exists key, uri = join_uri b key /\
      is_Some (s3_at (s3b_service s) b key) /\ startswith k key = true.
Proof.
  intros Hb Hne Hke Hk. destruct (s3_keys (join_uri b k) s) as (keys & Hnd & Hks & E).
  unfold S3Bucket_target in *. rewrite (parse_join b k) in * by done. cbn [fst snd] in *.
  eexists. split; [exact E|]. split; [apply sorted_strings_sorted|]. unfold sorted_strings. split.
  - rewrite sort_by_perm. apply NoDup_fmap; [|done]. intros x y. apply join_uri_inj.
  - intros uri. rewrite sort_by_elem, list_elem_of_fmap. setoid_rewrite Hks. done.
Qed.

Lemma batches_spec {A} n (l : list A) fuel : (0 < n)%nat -> (length l <= fuel)%nat ->
  mjoin (batches fuel n l) = l /\ Forall (fun b => (length b <= n)%nat) (batches fuel n l).
Proof.
  intros Hn. revert l. induction fuel as [|fuel IH]; intros [|x l] Hl; cbn [length] in Hl; try done; [lia|].
  cbn [batches]. destruct (IH (drop n (x :: l))) as [Hj Hf].
  - rewrite length_drop. cbn [length]. lia.
  - split; [change (take n (x :: l) ++ mjoin (batches fuel n (drop n (x :: l))) = x :: l); by rewrite Hj, take_drop|]. constructor; [rewrite length_take; lia|done].
Qed.

(** Deleting batches of at most a thousand keys. *)
Lemma delete_batches_spec b bs : Forall (fun ks => (length ks <= 1000)%nat) bs -> forall s n,
  exists s', delete_batches b bs n s = (s', Ok (n + Z.of_nat (length (mjoin bs)))%Z) /\ s3b_bucket s' = s3b_bucket s /\
    forall b' k, s3_at (s3b_service s') b' k =
      if bool_decide (b' = b /\ k ∈ mjoin bs) then None else s3_at (s3b_service s) b' k.
Proof.
  induction 1 as [|ks bs Hks _ IH]; intros s n; cbn [delete_batches].
  - exists s. rewrite Z.add_0_r. split; [done|]. split; [done|]. intros b' k.
    rewrite bool_decide_false; [done|]. by intros [_ ?%elem_of_nil].
  - rewrite S3_bind. unfold request. destruct (s3_delete_exact b ks (s3b_service s) Hks) as (w & -> & Hat).
    destruct (IH (mkS3 w (s3b_bucket s) (s3b_region s)) (n + Z.of_nat (length ks))%Z) as (s' & -> & Hb & Hat').
    exists s'. change (mjoin (ks :: bs)) with (ks ++ mjoin bs). split; [rewrite length_app; do 2 f_equal; lia|]. split; [done|].
    intros b' k. rewrite Hat'. cbn [s3b_service]. rewrite Hat.
    repeat case_bool_decide; set_solver.
Qed.

Lemma wipe_keys_exact p s : exists s' keys,
  wipe_keys p s = (s', Ok (Z.of_nat (length keys))) /\ NoDup keys /\
  (forall k, k ∈ keys <-> is_Some (s3_at (s3b_service s) (s3b_bucket s) k) /\ startswith (default "" p) k = true) /\
  (forall b k, s3_at (s3b_service s') b k =
    if bool_decide (b = s3b_bucket s /\ startswith (default "" p) k = true) then None else s3_at (s3b_service s) b k).
Proof.
  unfold wipe_keys. rewrite S3_bind, request_reads by apply s3_pages_reads.
  destruct (s3_pages_exact (s3b_bucket s) p (s3b_service s)) as (ps & -> & Hnd & Hk).
  set (keys := map s3e_key (page_objects ps)) in *. cbv zeta.
  destruct (batches_spec 1000 keys (length keys)) as [Hj Hf]; [lia..|].
  destruct (delete_batches_spec (s3b_bucket s) _ Hf s 0) as (s' & E & _ & Hat).
  rewrite Hj in E, Hat. exists s', keys. split; [exact E|]. split; [done|]. split; [done|].
  intros b k. rewrite Hat. destruct (s3_at (s3b_service s) b k) as [o|] eqn:Eo; [|by repeat case_bool_decide].
  erewrite bool_decide_ext; [done|]. split; [intros [-> Hin%Hk]; tauto|]. intros [-> Hst]. split; [done|].
  apply Hk. by rewrite Eo.
Qed.
End service.

(** ** A service in memory *)

(** Objects by bucket and key; a tag is a function of the body, as S3's are. *)
Notation memory := (gmap (string * string) string).

Definition memory_tag (body : string) : string := "t" +:+ body.

Definition memory_refuses (cur : option string) (m n : option string) : option exn :=
  let changed := ClientError "PreconditionFailed" (Some 412%Z) in
  match m, n with
  | None, None => None
  | Some t, _ =>
      match cur with
      | Some d => if String.eqb t (memory_tag d) then None else Some changed
      | None => Some (ClientError "NoSuchKey" (Some 404%Z))
      end
  | None, Some star =>
      if String.eqb star "*" then match cur with Some _ => Some changed | None => None end
      else Some (ClientError "NotImplemented" (Some 501%Z))
  end.

Definition memory_get (w : memory) (b k : string) (c : option string) : result (string * option string) :=
  match w !! (b, k) with
  | None => Err (ClientError "NoSuchKey" (Some 404%Z))
  | Some d => if bool_decide (c = Some (memory_tag d)) then Err (ClientError "304" (Some 304%Z)) else Ok (d, Some (memory_tag d))
  end.

Definition memory_head (w : memory) (b k : string) : result s3_head :=
  match w !! (b, k) with
  | None => Err (ClientError "404" (Some 404%Z))
  | Some d => Ok (mkHead (Z.of_nat (String.length d)) fone)
  end.

Definition memory_keys (w : memory) (b p : string) : list string :=
  map snd (filter (fun bk => bk.1 = b /\ startswith p bk.2 = true) (elements (dom w))).

(** One object to a page, and an empty page at the end. *)
Definition memory_pages (w : memory) (b p : string) : list (option (list s3_entry)) :=
  map (fun k => Some [mkEntry k fone 0]) (memory_keys w b p) ++ [None].

#[export] Instance memory_client : S3Client memory := {|
  s3_put_object b k d m n := fun w =>
    match memory_refuses (w !! (b, k)) m n with
    | Some e => (w, Err e)
    | None => (<[(b, k) := d]> w, Ok (Some (memory_tag d)))
    end;
  s3_get_object b k c := fun w => (w, memory_get w b k c);
  s3_head_object b k := fun w => (w, memory_head w b k);
  s3_delete_object b k := fun w => (delete (b, k) w, Ok tt);
  s3_pages b p := fun w => (w, Ok (memory_pages w b (default "" p)));
  s3_delete_objects b ks := fun w => (filter (fun kv => ~ (kv.1.1 = b /\ kv.1.2 ∈ ks)) w, Ok tt)
|}.

Lemma memory_page_keys w b p : map s3e_key (page_objects (memory_pages w b p)) = memory_keys w b p.
Proof.
  unfold memory_pages, page_objects. induction (memory_keys w b p) as [|k l IH]; [done|]. cbn. by f_equal.
Qed.

Lemma memory_keys_spec w b p k : k ∈ memory_keys w b p <-> is_Some (w !! (b, k)) /\ startswith p k = true.
Proof.
  unfold memory_keys. rewrite list_elem_of_fmap. setoid_rewrite list_elem_of_filter. setoid_rewrite elem_of_elements.
  setoid_rewrite elem_of_dom. split.
  - intros (bk & -> & [<- Hp] & Hs). by destruct bk.
  - intros [Hs Hp]. by exists (b, k).
Qed.

Lemma memory_keys_NoDup w b p : NoDup (memory_keys w b p).
Proof.
  unfold memory_keys. apply NoDup_fmap_2_strong; [|apply NoDup_filter, NoDup_elements].
  intros [b1 k1] [b2 k2] [[E1 _] _]%list_elem_of_filter [[E2 _] _]%list_elem_of_filter. cbn in *. congruence.
Qed.

#[export, refine] Instance memory_service : S3Service memory := {|
  s3_at := fun w b k => (fun d => (d, memory_tag d)) <$> w !! (b, k)
|}.
Proof.
  all: cbn [s3_put_object s3_get_object s3_head_object s3_pages s3_delete_objects memory_client fst snd]; try done.
  - unfold memory_get. intros b k w d t. destruct (w !! (b, k)); intros [= -> <-]. done.
  - unfold memory_get. intros b k w d t. destruct (w !! (b, k)); intros [= -> <-]. by rewrite bool_decide_true.
  - unfold memory_get. intros b k c w. by destruct (w !! (b, k)).
  - unfold memory_head. intros b k w. destruct (w !! (b, k)); [by eexists|]. by intros [? ?].
  - unfold memory_head. intros b k w. by destruct (w !! (b, k)).
  - intros b k d m n w w' r. destruct (memory_refuses _ m n); [done|]. intros [= <- <-].
    exists (memory_tag d). split; [done|]. split; [done|]. rewrite lookup_insert_eq. split; [done|].
    intros b' k' Hne. by rewrite lookup_insert_ne.
  - intros b k d m n w w' r. destruct (memory_refuses _ m n); [done|]. by intros [= <- <-].
  - intros b k d m n w w' e. destruct (memory_refuses _ m n); [congruence|done].
  - intros b k d w w' r. destruct (w !! (b, k)); [done|]. done.
  - intros b k d m n w w' code status. destruct (w !! (b, k)) as [d0|] eqn:Ew, m as [t|], n as [x|]; cbn; try done.
    all: try (destruct (String.eqb_spec t (memory_tag d0)) as [|Hne]; [done|]).
    all: try (destruct (String.eqb_spec x "*") as [->|]).
    all: intros [= _ <- <-] Hp; try done.
    all: first [left; exists t; split; [done|]; intros (d' & E); congruence
               |right; split; [done|]; by eexists].
  - intros b k d m n w msg. unfold memory_refuses. by repeat case_match; simplify_eq.
  - intros b k w d t. by destruct (w !! (b, k)); intros [= <- <-].
  - intros b p w. eexists. split; [done|]. rewrite memory_page_keys. split; [apply memory_keys_NoDup|].
    intros k. rewrite memory_keys_spec, fmap_is_Some. done.
  - intros b ks w _. eexists. split; [done|]. intros b' k'. case_bool_decide as Hd.
    + apply fmap_None, map_lookup_filter_None. right. intros d _ Hn. by apply Hn.
    + f_equal. apply option_eq. intros d. rewrite map_lookup_filter_Some. cbn. tauto.
Qed.

(** ** Properties *)


(** Wiping a run deletes exactly the objects under [runs/<run>/] of the
    bucket, however many thousands of them there are, leaves every other object
    of every bucket as it was and returns how many it deleted. *)
Theorem s3_wipe_run_exact {W} `{S3Service W} run_id (s : S3Bucket W) :
  let prefix := "runs/" +:+ run_id +:+ "/" in
  exists s' keys, S3Bucket_wipe_run run_id s = (s', Ok (Z.of_nat (length keys))) /\ NoDup keys /\
    (forall k, k ∈ keys <-> is_Some (s3_at (s3b_service s) (s3b_bucket s) k) /\ startswith prefix k = true) /\
    (forall b k, s3_at (s3b_service s') b k =
      if bool_decide (b = s3b_bucket s /\ startswith prefix k = true) then None else s3_at (s3b_service s) b k).
Proof. intros prefix. apply (wipe_keys_exact (Some prefix)). Qed.

Definition sample_s3 : S3Bucket memory :=
  mkS3 (list_to_map [(("bk", "runs/r/a"), "1"); (("bk", "runs/rr/b"), "2"); (("other", "runs/r/c"), "3")]) "bk" "us-east-1".


Lemma s3_wipe_run_exact_witness :
  snd (S3Bucket_wipe_run "r" sample_s3) = Ok 1%Z /\
  exists s' keys, S3Bucket_wipe_run "r" sample_s3 = (s', Ok (Z.of_nat (length keys))) /\ "runs/rr/b" ∉ keys.
Proof.
  split; [vm_compute; reflexivity|].
  destruct (s3_wipe_run_exact "r" sample_s3) as (s' & keys & E & _ & Hk & _). exists s', keys. split; [exact E|].
  by intros [_ ?]%Hk.
Defined.
