(* ===== verification/StoreReads.v ===== *)
(** * Reading from an object store

    What the clients of an [ObjectStore] share: the address of a key, reading a
    record, skipping an object that cannot be read, and the programs that only
    read. *)

From Stdlib Require Import ZArith Lia Ascii.
From stdpp Require Import base strings list.
From S2P Require Import Prelude PyVal Codec Storage.

Section reading.
Context {S : Type} `{ObjectStore S}.

Definition uri_of (key : string) : ST S string := fun s => (s, Ok (os_uri_for_key s key)).

(** [R.from_dict(bucket.get_json(uri))]. *)
Definition read_record {A} (from : dict pyval -> result A) (uri : string) : ST S A :=
  v ← os_get_json uri;
  st_lift (d ← as_object v; from d).

(** [except Exception: continue]. *)
Definition skip_errors {A} (m : ST S A) : ST S (option A) :=
  st_try (a ← m; mret (Some a)) (fun _ => mret None).

(** Programs that leave the bucket as it is. *)
Definition reads {A} (m : ST S A) : Prop := forall s, fst (m s) = s.

Lemma reads_ret {A} (a : A) : reads (mret a).
Proof. done. Qed.
Lemma reads_lift {A} (r : result A) : reads (st_lift r).
Proof. done. Qed.
Lemma reads_raise {A} e : reads (st_raise (A := A) e).
Proof. done. Qed.
Lemma reads_bind {A B} (m : ST S A) (k : A -> ST S B) : reads m -> (forall a, reads (k a)) -> reads (m ≫= k).
Proof.
  intros Hm Hk s. cbv [mbind st_bind]. specialize (Hm s). destruct (m s) as [s1 [a|e]]; cbn in Hm |- *; subst; [apply Hk|done].
Qed.
Lemma reads_try {A} (m : ST S A) (h : exn -> ST S A) : reads m -> (forall e, reads (h e)) -> reads (st_try m h).
Proof.
  intros Hm Hh s. unfold st_try. specialize (Hm s). destruct (m s) as [s1 [a|e]]; cbn in Hm; subst; [done|].
  destruct (catchable e); [apply Hh|done].
Qed.
Lemma reads_uri key : reads (uri_of key).
Proof. done. Qed.
End reading.

Create HintDb reads.
#[export] Hint Resolve reads_ret reads_lift reads_raise reads_uri : reads.

Section laws.
Context {S : Type} `{ObjectStoreLaws S}.

Lemma reads_exists uri : reads (os_exists uri).
Proof. exact (exists_reads uri). Qed.
Lemma reads_get uri : reads (os_get uri).
Proof. exact (get_reads uri). Qed.
Lemma reads_get_json uri : reads (os_get_json uri).
Proof. exact (get_json_reads uri). Qed.
Lemma reads_list uri : reads (os_list uri).
Proof. exact (list_reads uri). Qed.

Hint Resolve reads_exists reads_get reads_get_json reads_list : reads.

Lemma reads_record {A} (from : dict pyval -> result A) uri : reads (read_record from uri).
Proof. apply reads_bind; auto with reads. Qed.

Lemma reads_skip {A} (m : ST S A) : reads m -> reads (skip_errors m).
Proof. intros Hm. apply reads_try; [apply reads_bind|]; auto with reads. Qed.

(** A read that returned, with the state it left. *)
Lemma reads_Ok {A} (m : ST S A) s s' r : reads m -> m s = (s', r) -> s' = s /\ m s = (s, r).
Proof. intros Hm E. specialize (Hm s). rewrite E in Hm. cbn in Hm. by subst. Qed.
End laws.

#[export] Hint Resolve reads_exists reads_get reads_get_json reads_list reads_record reads_skip : reads.
