(* ===== verification/Telemetry.v ===== *)
(** * Telemetry ([teuton_core/telemetry.py])

    The writer of telemetry documents, over the program that uses it: how that
    program addresses and writes objects, reads the clock and sleeps is a record
    of operations.  A writer never fails its caller on an error that a handler
    catches. *)

From Stdlib Require Import ZArith Lia Ascii SpecFloat.
From stdpp Require Import base strings list.
From S2P Require Import Prelude PyFloat FloatExact PyVal Json Digest Paths Storage StoreReads.

(** ** Rounding *)

Definition round_half_even (num den : Z) : Z :=
  let q := (num / den)%Z in
  let r := (num mod den)%Z in
  if (2 * r <? den)%Z then q
  else if (den <? 2 * r)%Z then (q + 1)%Z
  else if Z.even q then q else (q + 1)%Z.

(** [round(x, digits)]: the nearest decimal of that many digits, ties to even,
    read back as a float. *)
Definition py_round (digits : Z) (x : float) : float :=
  match x with
  | S754_finite s m e =>
      let scaled := (Zpos m * 10 ^ digits)%Z in
      let n := if (0 <=? e)%Z then (scaled * 2 ^ e)%Z else round_half_even scaled (2 ^ (- e)) in
      if (n =? 0)%Z then S754_zero s else dec_to_float s n (Z_ndigits n) (- digits)
  | _ => x
  end.

Example round_1_2345 : py_round 3 (flit 12345 (-4)) = flit 1234 (-3) /\ py_round 3 (flit 25 (-4)) = flit 3 (-3) /\
  py_round 2 (flit 7 0) = flit 7 0.
Proof. vm_compute. done. Qed.

(** ** The writer *)

Record TelemetryWriter := mkTelemetry {
  tw_netuid : Z;
  tw_run_id : string;
  tw_component : string
}.

Definition make_writer (bucket : bool) (netuid : Z) (run_id component : string) : option TelemetryWriter :=
  if String.eqb run_id "" || negb bucket then None else Some (mkTelemetry netuid run_id component).

Definition telemetry_body (w : TelemetryWriter) (ts : Z) (payload : dict pyval) : dict pyval :=
  dict_setdefault "netuid" (PInt (tw_netuid w))
    (dict_setdefault "run_id" (PStr (tw_run_id w))
      (dict_setdefault "component" (PStr (tw_component w))
        (dict_setdefault "ts" (PInt ts) payload))).

(** The program a writer works for. *)
Record telemetry_host (M : Type) := mkHost {
  th_address : string -> ST M string;
  th_put_json : string -> pyval -> ST M unit;
  th_now : ST M float;
  th_sleep : nat -> ST M unit
}.
Arguments mkHost {M}.
Arguments th_address {M}.
Arguments th_put_json {M}.
Arguments th_now {M}.
Arguments th_sleep {M}.

Section telemetry.
Context {M : Type} (host : telemetry_host M).

Fixpoint telemetry_attempts (left attempt : nat) (uri : string) (body : dict pyval) : ST M bool :=
  match left with
  | O => mret false
  | Datatypes.S left' =>
      st_try (_ ← th_put_json host uri (PDict body); mret true)
        (fun _ => _ ← th_sleep host attempt; telemetry_attempts left' (Datatypes.S attempt) uri body)
  end.

Definition TelemetryWriter_emit (w : TelemetryWriter) (stream : string) (payload : dict pyval) (when_unix : option Z)
    : ST M bool :=
  ts ← (match when_unix with Some t => mret t | None => now ← th_now host; st_lift (int_of_float now) end);
  uri ← th_address host (telemetry_event_key (tw_netuid w) (tw_run_id w) stream ts);
  telemetry_attempts 3 0 uri (telemetry_body w ts payload).

Definition TelemetryWriter_chain (w : TelemetryWriter) (payload : dict pyval) : ST M bool :=
  TelemetryWriter_emit w "chain" payload None.
Definition TelemetryWriter_scores (w : TelemetryWriter) (payload : dict pyval) : ST M bool :=
  TelemetryWriter_emit w "scores" payload None.
Definition TelemetryWriter_audits (w : TelemetryWriter) (payload : dict pyval) : ST M bool :=
  TelemetryWriter_emit w "audits" payload None.
Definition TelemetryWriter_orchestrator (w : TelemetryWriter) (payload : dict pyval) : ST M bool :=
  TelemetryWriter_emit w "orchestrator" payload None.
Definition TelemetryWriter_monitor (w : TelemetryWriter) (payload : dict pyval) : ST M bool :=
  TelemetryWriter_emit w "monitor" payload None.

(** ** What a writer does *)

(** Writes of telemetry documents at the writer's keys, and whatever the host's
    own steps do: looking up an address, reading the clock, sleeping. *)
Inductive reporting (w : TelemetryWriter) : M -> M -> Prop :=
  | Report_write s0 s1 s s' stream ts payload uri r :
      th_address host (telemetry_event_key (tw_netuid w) (tw_run_id w) stream ts) s0 = (s1, Ok uri) ->
      th_put_json host uri (PDict (telemetry_body w ts payload)) s = (s', r) -> reporting w s s'
  | Report_address key s : reporting w s (fst (th_address host key s))
  | Report_now s : reporting w s (fst (th_now host s))
  | Report_sleep n s : reporting w s (fst (th_sleep host n s))
  | Report_end s : reporting w s s
  | Report_more s s1 s' : reporting w s s1 -> reporting w s1 s' -> reporting w s s'.

(** Errors no handler catches. *)
Definition escapes {A} (r : result A) : Prop := match r with Ok _ => True | Err e => catchable e = false end.

(** Looking up an address and sleeping raise nothing a handler catches. *)
Class QuietHost : Prop := {
  quiet_sleep : forall n s, escapes (snd (th_sleep host n s))
}.

Lemma attempts_report `{!QuietHost} w s0 s1 stream ts uri payload left :
  th_address host (telemetry_event_key (tw_netuid w) (tw_run_id w) stream ts) s0 = (s1, Ok uri) ->
  forall n s s' r, telemetry_attempts left n uri (telemetry_body w ts payload) s = (s', r) -> reporting w s s' /\ escapes r.
Proof.
  intros Ha. induction left as [|left IH]; cbn [telemetry_attempts]; intros n s s' r.
  - intros [= <- <-]. by split; [constructor|].
  - unfold st_try. cbv [mbind st_bind mret st_ret]. destruct (th_put_json host uri _ s) as [s2 [a|e]] eqn:Ep.
    + intros [= <- <-]. by split; [eapply Report_write|].
    + destruct (catchable e) eqn:Ec; [|intros [= <- <-]; by split; [eapply Report_write|]].
      pose proof (quiet_sleep n s2) as Hq. pose proof (Report_sleep w n s2) as Hs.
      destruct (th_sleep host n s2) as [s3 [u|e']]; cbn in Hq, Hs.
      * intros E. apply IH in E as [Hr He]. split; [|done]. eapply Report_more; [by eapply Report_write|].
        by eapply Report_more.
      * intros [= <- <-]. split; [|done]. eapply Report_more; [by eapply Report_write|done].
Qed.

(** Reporting behind [except Exception] goes on, or passes on what no handler
    catches. *)
Lemma emit_reports `{!QuietHost} w stream payload s s' r :
  skip_errors (TelemetryWriter_emit w stream payload None) s = (s', r) -> reporting w s s' /\ escapes r.
Proof.
  unfold skip_errors, st_try, TelemetryWriter_emit. cbv [mbind st_bind mret st_ret st_lift].
  assert (forall A (x : result A) s1 s' r (r0 : result (option A)), reporting w s s1 ->
    match x with Ok a => (s1, Ok (Some a)) | Err e => if catchable e then (s1, Ok None) else (s1, Err e) end = (s', r) ->
    reporting w s s' /\ escapes r) as Hdone.
  { intros A x s1 s2 r1 _ Hr. destruct x as [a|e]; [intros [= <- <-]; by split|].
    destruct (catchable e) eqn:Ec; intros [= <- <-]; by split. }
  pose proof (Report_now w s) as Hn. destruct (th_now host s) as [s1 [now|e]]; cbn in Hn; [|intros E;
    apply (Hdone bool (Err e) s1 s' r (Ok None) Hn); by destruct (catchable e)].
  destruct (int_of_float now) as [ts|e]; [|intros E; apply (Hdone bool (Err e) s1 s' r (Ok None) Hn); by destruct (catchable e)].
  pose proof (Report_address w (telemetry_event_key (tw_netuid w) (tw_run_id w) stream ts) s1) as Ha.
  destruct (th_address host _ s1) as [s2 [uri|e]] eqn:Ea; cbn in Ha.
  - destruct (telemetry_attempts 3 0 uri _ s2) as [s3 x] eqn:Et. apply (attempts_report w s1 s2 stream ts uri payload) in Et as [Hr He]; [|done].
    intros E. apply (Hdone bool x s3 s' r (Ok None)); [eapply Report_more; [exact Hn|by eapply Report_more]|].
    destruct x; [done|]. by destruct (catchable e).
  - intros E. apply (Hdone bool (Err e) s2 s' r (Ok None)); [by eapply Report_more|]. by destruct (catchable e).
Qed.
End telemetry.

(** A program whose only state is the bucket: its reading of the clock, and what
    other processes do while it sleeps. *)
Definition bucket_host {S} `{ObjectStore S} (now : float) (env : nat -> S -> S) : telemetry_host S :=
  mkHost uri_of os_put_json (mret now) (fun n s => (env n s, Ok tt)).

#[export] Instance bucket_host_quiet {S} `{ObjectStore S} now (env : nat -> S -> S) : QuietHost (bucket_host now env).
Proof. by split. Qed.
