(* ===== verification/Queue.v ===== *)
(** * The outstanding-work queue ([teuton_runtime/queue.py])

    Queue entries and snapshots, [read_queue], the orchestrator's in-memory
    queue with every mutator, the flush with its conflict handling, restart,
    and the receipt scan.  The bucket is any [ObjectStore].  [flush] is written
    as the pieces the code runs under its lock ([flush_begin], [flush_retry],
    [flush_end]) with the bucket write between them, so that the interleaving of
    a flush with other threads can be expressed. *)

From Stdlib Require Import ZArith Lia Ascii.
From stdpp Require Import base gmap strings list.
From S2P Require Import Prelude PyFloat PyVal Json Digest Paths Signatures Codec Protocol Storage.

(** ** Entries and snapshots *)

Record QueueEntry := mkEntry {
  qe_job_id : string;
  qe_assigned_hotkey : string;
  qe_assigned_worker : option string;
  qe_manifest_uri : string;
  qe_grant_uri : option string;
  qe_deadline_unix : Z;
  qe_attempt : Z;
  qe_created_unix : Z
}.

Definition QueueEntry_to_dict (e : QueueEntry) : dict pyval :=
  [("job_id", PStr (qe_job_id e));
   ("assigned_hotkey", PStr (qe_assigned_hotkey e));
   ("assigned_worker", pstr_opt (qe_assigned_worker e));
   ("manifest_uri", PStr (qe_manifest_uri e));
   ("grant_uri", pstr_opt (qe_grant_uri e));
   ("deadline_unix", PInt (qe_deadline_unix e));
   ("attempt", PInt (qe_attempt e));
   ("created_unix", PInt (qe_created_unix e))].

(** [str(d[k])] and [int(d.get(k) or 0)]. *)
Definition str_item (d : dict pyval) (k : string) : result string := v ← item d k; py_str v.
Definition int_or_zero (d : dict pyval) (k : string) : result Z := py_int (por (get d k) (PInt 0)).

Definition QueueEntry_from_dict (d : dict pyval) : result QueueEntry :=
  job_id ← str_item d "job_id";
  assigned_hotkey ← str_item d "assigned_hotkey";
  assigned_worker ← opt_str d "assigned_worker";
  manifest_uri ← str_item d "manifest_uri";
  grant_uri ← opt_str d "grant_uri";
  deadline_unix ← int_or_zero d "deadline_unix";
  attempt ← int_or_zero d "attempt";
  created_unix ← int_or_zero d "created_unix";
  Ok (mkEntry job_id assigned_hotkey assigned_worker manifest_uri grant_uri deadline_unix
        attempt created_unix).

Definition QueueEntry_from_manifest (m : JobManifestV3) (manifest_uri : string)
    (grant_uri : option string) : QueueEntry :=
  mkEntry (jm_job_id m) (jm_assigned_hotkey m) (jm_assigned_worker m) manifest_uri grant_uri
    (jm_deadline_unix m) (jm_attempt m) (jm_created_unix m).

Definition QUEUE_VERSION : Z := 1.

Record QueueState := mkQueueState {
  qs_role : string;
  qs_snapshot_unix : Z;
  qs_snapshot_id : Z;
  qs_outstanding : list QueueEntry;
  qs_etag : option string;
  qs_version : Z
}.

(** [entry.assigned_worker in (None, "", worker_id)]. *)
Definition worker_matches (assigned worker_id : option string) : bool :=
  match assigned with
  | None => true
  | Some a => String.eqb a "" || bool_decide (Some a = worker_id)
  end.

Definition QueueState_filter_for_worker (q : QueueState) (hotkey_ss58 : string)
    (worker_id : option string) : list QueueEntry :=
  List.filter (fun e => String.eqb (qe_assigned_hotkey e) hotkey_ss58
                   && worker_matches (qe_assigned_worker e) worker_id) (qs_outstanding q).

Definition QueueState_to_payload (q : QueueState) : dict pyval :=
  [("version", PInt (qs_version q));
   ("role", PStr (qs_role q));
   ("snapshot_unix", PInt (qs_snapshot_unix q));
   ("snapshot_id", PInt (qs_snapshot_id q));
   ("outstanding", pdicts QueueEntry_to_dict (qs_outstanding q))].

Definition QueueState_from_payload (payload : dict pyval) (etag : option string)
    : result QueueState :=
  outstanding ← list_of QueueEntry_from_dict (por (get payload "outstanding") (PList []));
  role ← py_str (por (get payload "role") (PStr "train"));
  snapshot_unix ← int_or_zero payload "snapshot_unix";
  snapshot_id ← int_or_zero payload "snapshot_id";
  version ← py_int (por (get payload "version") (PInt QUEUE_VERSION));
  Ok (mkQueueState role snapshot_unix snapshot_id outstanding etag version).

(** ** The orchestrator's queue *)

Record OrchestratorQueue := mkQueue {
  oq_netuid : Z;
  oq_run_id : string;
  oq_role : string;
  oq_outstanding : dict QueueEntry;
  oq_snapshot_id : Z;
  oq_etag : option string;
  oq_dirty : bool;
  oq_pending_changes : Z;
  oq_flush_max_changes : Z
}.

Definition OrchestratorQueue_init (netuid : Z) (run_id role : string) (flush_max_changes : Z)
    : OrchestratorQueue :=
  mkQueue netuid run_id role [] 0 None false 0 flush_max_changes.

Definition with_outstanding (q : OrchestratorQueue) (o : dict QueueEntry) : OrchestratorQueue :=
  mkQueue (oq_netuid q) (oq_run_id q) (oq_role q) o (oq_snapshot_id q) (oq_etag q)
    (oq_dirty q) (oq_pending_changes q) (oq_flush_max_changes q).

Definition with_sync (q : OrchestratorQueue) (snapshot_id : Z) (etag : option string) (dirty : bool)
    (pending : Z) : OrchestratorQueue :=
  mkQueue (oq_netuid q) (oq_run_id q) (oq_role q) (oq_outstanding q) snapshot_id etag
    dirty pending (oq_flush_max_changes q).

Definition OrchestratorQueue_mark_dirty (q : OrchestratorQueue) (n : Z) : OrchestratorQueue :=
  with_sync q (oq_snapshot_id q) (oq_etag q) true (oq_pending_changes q + n).

Definition OrchestratorQueue_add (q : OrchestratorQueue) (e : QueueEntry) : OrchestratorQueue :=
  OrchestratorQueue_mark_dirty
    (with_outstanding q (dict_set (qe_job_id e) e (oq_outstanding q))) 1.

Definition OrchestratorQueue_remove (q : OrchestratorQueue) (job_id : string)
    : OrchestratorQueue * bool :=
  if dict_mem job_id (oq_outstanding q) then
    (OrchestratorQueue_mark_dirty
       (with_outstanding q (dict_del job_id (oq_outstanding q))) 1, true)
  else (q, false).

(** The loop of [remove_many]: the dictionary left and the number removed. *)
Fixpoint remove_loop (job_ids : list string) (o : dict QueueEntry) (removed : Z)
    : dict QueueEntry * Z :=
  match job_ids with
  | [] => (o, removed)
  | j :: js =>
      if dict_mem j o then remove_loop js (dict_del j o) (removed + 1)
      else remove_loop js o removed
  end.

Definition OrchestratorQueue_remove_many (q : OrchestratorQueue) (job_ids : list string)
    : OrchestratorQueue * Z :=
  let '(o, removed) := remove_loop job_ids (oq_outstanding q) 0 in
  let q' := with_outstanding q o in
  (if (removed =? 0)%Z then q' else OrchestratorQueue_mark_dirty q' removed, removed).

Definition OrchestratorQueue_replay (q : OrchestratorQueue) (job_id : string)
    (attempt deadline_unix : Z) : OrchestratorQueue :=
  match dict_get job_id (oq_outstanding q) with
  | None => q
  | Some e =>
      OrchestratorQueue_mark_dirty
        (with_outstanding q
           (dict_set job_id
              (mkEntry (qe_job_id e) (qe_assigned_hotkey e) (qe_assigned_worker e)
                 (qe_manifest_uri e) (qe_grant_uri e) deadline_unix attempt (qe_created_unix e))
              (oq_outstanding q))) 1
  end.

(** [entry.deadline_unix and entry.deadline_unix < now]. *)
Definition expired (now : float) (e : QueueEntry) : bool :=
  negb (qe_deadline_unix e =? 0)%Z && int_lt_float (qe_deadline_unix e) now.

(** The loop of [prune_expired] over a copy of the items. *)
Fixpoint prune_loop (now : float) (items : list (string * QueueEntry)) (o : dict QueueEntry)
    (dropped : list QueueEntry) : dict QueueEntry * list QueueEntry :=
  match items with
  | [] => (o, dropped)
  | (j, e) :: r =>
      if expired now e then prune_loop now r (dict_del j o) (dropped ++ [e])
      else prune_loop now r o dropped
  end.

Definition OrchestratorQueue_prune_expired (q : OrchestratorQueue) (now : float)
    : OrchestratorQueue * list QueueEntry :=
  let '(o, dropped) := prune_loop now (oq_outstanding q) (oq_outstanding q) [] in
  let q' := with_outstanding q o in
  (match dropped with
   | [] => q'
   | _ => OrchestratorQueue_mark_dirty q' (Z.of_nat (length dropped))
   end, dropped).

Definition OrchestratorQueue_depth (q : OrchestratorQueue) (hotkey : option string) : Z :=
  match hotkey with
  | None => Z.of_nat (length (oq_outstanding q))
  | Some h => Z.of_nat (length (List.filter (fun e => String.eqb (qe_assigned_hotkey e) h)
                                  (dict_values (oq_outstanding q))))
  end.

Definition OrchestratorQueue_outstanding_job_ids (q : OrchestratorQueue) : list string :=
  dict_keys (oq_outstanding q).

Definition OrchestratorQueue_contains (q : OrchestratorQueue) (job_id : string) : bool :=
  dict_mem job_id (oq_outstanding q).

Definition OrchestratorQueue_iter (q : OrchestratorQueue) : list QueueEntry :=
  dict_values (oq_outstanding q).

(** *** Flush, under the lock *)

(** Before the write: take a snapshot, or nothing to do. *)
Definition flush_bump (q : OrchestratorQueue) : OrchestratorQueue :=
  with_sync q (oq_snapshot_id q + 1) (oq_etag q) (oq_dirty q) (oq_pending_changes q).

Definition snapshot_payload (q : OrchestratorQueue) (now : Z) : dict pyval :=
  QueueState_to_payload
    (mkQueueState (oq_role q) now (oq_snapshot_id q) (dict_values (oq_outstanding q)) None
       QUEUE_VERSION).

Definition flush_begin (q : OrchestratorQueue) (force : bool) (now : Z)
    : option (OrchestratorQueue * string * string) :=
  if negb (oq_dirty q || force) then None
  else let q1 := flush_bump q in
       Some (q1, canonical_json (PDict (snapshot_payload q1 now)), default EmptyString (oq_etag q1)).

(** After the write. *)
Definition flush_end (q : OrchestratorQueue) (new_etag : string) : OrchestratorQueue :=
  with_sync q (oq_snapshot_id q) (Some new_etag) false 0.

(** *** Background thread *)

(** The test at the head of the flush loop's body. *)
Definition flush_loop_should_flush (q : OrchestratorQueue) : bool :=
  oq_dirty q && ((oq_flush_max_changes q <=? oq_pending_changes q) || (0 <? oq_pending_changes q))%Z.

(** ** Operations on the bucket *)

Section bucket.
Context {S : Type} `{ObjectStore S}.

Definition queue_uri (s : S) (netuid : Z) (run_id role : string) : result string :=
  key ← queue_key netuid run_id role; Ok (os_uri_for_key s key).

(** What [read_queue] does with the object's body. *)
Definition decode_queue (body : string) (etag : option string) : result (option QueueState) :=
  match (text ← utf8_decode body; json_loads text) with
  | Ok (PDict payload) => st ← QueueState_from_payload payload etag; Ok (Some st)
  | Ok _ => Ok None
  | Err e => if catchable e then Ok None else Err e
  end.

Definition read_queue (netuid : Z) (run_id role : string) (if_none_match : option string)
    : ST S (option QueueState) := fun s =>
  match queue_uri s netuid run_id role with
  | Err e => (s, Err e)
  | Ok uri =>
      match os_get_with_etag uri if_none_match s with
      | (s1, Err e) => (s1, Err e)
      | (s1, Ok (None, _)) => (s1, Ok None)
      | (s1, Ok (Some body, etag)) => (s1, decode_queue body etag)
      end
  end.

(** The part of [reconcile_from_bucket] that runs under the lock. *)
Definition reconcile (q : OrchestratorQueue) (state : option QueueState)
    (recent_receipt_job_ids : list string) : OrchestratorQueue :=
  let loaded :=
    match state with
    | Some st => fold_left (fun o e => dict_set (qe_job_id e) e o) (qs_outstanding st) []
    | None => []
    end in
  let sid := match state with Some st => Z.max (oq_snapshot_id q) (qs_snapshot_id st)
             | None => oq_snapshot_id q end in
  let etag := match state with Some st => qs_etag st | None => None end in
  let o := fold_left (fun o j => dict_del j o) recent_receipt_job_ids loaded in
  let dirty := match state with
               | None => true
               | Some _ => match recent_receipt_job_ids with [] => false | _ => true end
               end in
  with_sync (with_outstanding q o) sid etag dirty 0.

Definition OrchestratorQueue_reconcile_from_bucket (recent_receipt_job_ids : list string)
    : ST (OrchestratorQueue * S) unit := fun '(q, s) =>
  match read_queue (oq_netuid q) (oq_run_id q) (oq_role q) None s with
  | (s1, Err e) => ((q, s1), Err e)
  | (s1, Ok state) => ((reconcile q state recent_receipt_job_ids, s1), Ok tt)
  end.

(** The part of [_merge_from_bucket] that runs under the lock. *)
Definition merge (q : OrchestratorQueue) (state : option QueueState) : OrchestratorQueue :=
  match state with
  | Some st =>
      with_sync
        (with_outstanding q
           (fold_left (fun o e => dict_setdefault (qe_job_id e) e o) (qs_outstanding st)
              (oq_outstanding q)))
        (Z.max (oq_snapshot_id q) (qs_snapshot_id st)) (qs_etag st)
        (oq_dirty q) (oq_pending_changes q)
  | None => with_sync q (oq_snapshot_id q) None (oq_dirty q) (oq_pending_changes q)
  end.

Definition OrchestratorQueue_merge_from_bucket : ST (OrchestratorQueue * S) unit := fun '(q, s) =>
  match read_queue (oq_netuid q) (oq_run_id q) (oq_role q) None s with
  | (s1, Err e) => ((q, s1), Err e)
  | (s1, Ok state) => ((merge q state, s1), Ok tt)
  end.

(** [now1] and [now2] are the two readings of the clock. *)
Definition OrchestratorQueue_flush (force : bool) (now1 now2 : Z)
    : ST (OrchestratorQueue * S) bool := fun '(q, s) =>
  match flush_begin q force now1 with
  | None => ((q, s), Ok false)
  | Some (q1, body, if_match) =>
      match queue_uri s (oq_netuid q) (oq_run_id q) (oq_role q) with
      | Err e => ((q1, s), Err e)
      | Ok uri =>
          match os_put_with_etag uri body (Some if_match) s with
          | (s1, Ok new_etag) => ((flush_end q1 new_etag, s1), Ok true)
          | (s1, Err (PreconditionFailed _)) =>
              match OrchestratorQueue_merge_from_bucket (q1, s1) with
              | ((q2, s2), Err e) => ((q2, s2), Err e)
              | ((q2, s2), Ok _) =>
                  let q3 := flush_bump q2 in
                  match os_put_with_etag uri (canonical_json (PDict (snapshot_payload q3 now2)))
                          (Some (default EmptyString (oq_etag q3))) s2 with
                  | (s3, Ok new_etag) => ((flush_end q3 new_etag, s3), Ok true)
                  | (s3, Err e) => ((q3, s3), Err e)
                  end
              end
          | (s1, Err e) => ((q1, s1), Err e)
          end
      end
  end.

(** [stop]: the final flush swallows exceptions. *)
Definition OrchestratorQueue_stop (final_flush : bool) (now1 now2 : Z)
    : ST (OrchestratorQueue * S) unit := fun qs =>
  if final_flush then
    match OrchestratorQueue_flush false now1 now2 qs with
    | (qs', Ok _) => (qs', Ok tt)
    | (qs', Err e) => (qs', if catchable e then Ok tt else Err e)
    end
  else (qs, Ok tt).

(** One turn of the background loop. *)
Definition OrchestratorQueue_flush_loop_turn (now1 now2 : Z)
    : ST (OrchestratorQueue * S) unit := fun '(q, s) =>
  if flush_loop_should_flush q then
    match OrchestratorQueue_flush false now1 now2 (q, s) with
    | (qs', Ok _) => (qs', Ok tt)
    | (qs', Err e) => (qs', if catchable e then Ok tt else Err e)
    end
  else ((q, s), Ok tt).

(** ** Receipts *)

(** The loop over the path's segments. *)
Fixpoint job_id_from_parts (parts : list string) : option string :=
  match parts with
  | [] => None
  | part :: rest =>
      match startswith "hotkey=" part, rest with
      | true, next :: _ => if String.eqb next "" then None else Some next
      | _, _ => job_id_from_parts rest
      end
  end.

Definition job_id_from_receipt_uri (uri : string) : option string :=
  job_id_from_parts (split_on slash uri).

(** The loop of the scan; [count] is the number of receipts taken so far. *)
Fixpoint scan_loop (since_unix : option float) (limit : Z) (entries : list (string * Z * Z))
    (count : Z) (out : list string) : result (list string) :=
  match entries with
  | [] => Ok out
  | (uri, mtime, _) :: r =>
      if (limit <=? count)%Z then Ok out
      else if negb (endswith ".json" uri) then scan_loop since_unix limit r count out
      else
        old ← match since_unix with
              | Some t => ti ← int_of_float t; Ok (mtime <? ti)%Z
              | None => Ok false
              end;
        if (old : bool) then scan_loop since_unix limit r count out
        else match job_id_from_receipt_uri uri with
             | None => scan_loop since_unix limit r count out
             | Some j => scan_loop since_unix limit r (count + 1) (out ++ [j])
             end
  end.

(** The set the code builds, as the list of its insertions. *)
Definition scan_recent_receipt_job_ids (netuid : Z) (run_id : string) (since_unix : option float)
    (limit : Z) : ST S (list string) := fun s =>
  let receipts_uri := os_uri_for_key s (receipts_prefix netuid run_id) in
  match os_list_with_meta receipts_uri s with
  | (s1, Err e) => (s1, Err e)
  | (s1, Ok entries) => (s1, scan_loop since_unix limit entries 0 [])
  end.
End bucket.
