(* ===== verification/QueueFacts.v ===== *)
(** * Properties of the outstanding-work queue

    The invariant of the in-memory queue, what a flush publishes and how it
    resolves a conflict, restart from the bucket, expiry, and the receipt scan.
    Everything about the bucket is proved from [ObjectStoreLaws]. *)

From Stdlib Require Import ZArith Lia Ascii.
From stdpp Require Import base gmap strings list.
From S2P Require Import Prelude PyFloat PyVal Json Digest Paths Signatures Codec Protocol ProtocolFacts Storage Queue.

(** ** Entries on the wire *)

Lemma str_item_canon d k : keys_ok (PDict d) = true -> str_item (canon_dict d) k = str_item d k.
Proof. intros H. unfold str_item. rewrite item_canon by done. by destruct (item d k) as [[]|]. Qed.

Lemma py_int_canon v : py_int (canon v) = py_int v.
Proof. by destruct v. Qed.

Lemma por_canon v w : canon w = w -> por (canon v) w = canon (por v w).
Proof. intros Hw. unfold por. rewrite canon_truthy. by destruct (truthy v). Qed.

Lemma int_or_zero_canon d k : keys_ok (PDict d) = true -> int_or_zero (canon_dict d) k = int_or_zero d k.
Proof. intros H. unfold int_or_zero. rewrite get_canon, por_canon by done. apply py_int_canon. Qed.

Lemma QueueEntry_sorted d : keys_ok (PDict d) = true ->
  QueueEntry_from_dict (canon_dict d) = QueueEntry_from_dict d.
Proof.
  intros H. unfold QueueEntry_from_dict. canon_readers.
  by rewrite !str_item_canon, !int_or_zero_canon by done.
Qed.

Lemma int_or_zero_write d k z : get d k = PInt z -> int_or_zero d k = Ok z.
Proof. unfold int_or_zero. intros ->. unfold por. cbn. destruct (z =? 0)%Z eqn:E; [|done]. by apply Z.eqb_eq in E as ->. Qed.

Lemma QueueEntry_from_to e : QueueEntry_from_dict (QueueEntry_to_dict e) = Ok e.
Proof.
  unfold QueueEntry_from_dict.
  rewrite (int_or_zero_write _ "deadline_unix" (qe_deadline_unix e)),
    (int_or_zero_write _ "attempt" (qe_attempt e)), (int_or_zero_write _ "created_unix" (qe_created_unix e)) by done.
  by destruct e as [? ? [] ? [] ? ? ?].
Qed.

#[export] Instance QueueEntry_wire : WireRecord QueueEntry :=
  {| wire_to := QueueEntry_to_dict; wire_from := QueueEntry_from_dict; wire_normal := id |}.
#[export] Instance QueueEntry_laws : WireLaws QueueEntry.
Proof.
  split; [intros e; refine (bool_decide_unpack _ _); by vm_compute|exact QueueEntry_from_to|].
  intros d Hd. cbn [wire_from QueueEntry_wire wire_normal]. rewrite QueueEntry_sorted by done.
  symmetry. apply fmap_id_result.
Qed.

(** A snapshot read back from its own payload, whatever the order of keys. *)
Lemma payload_roundtrip st etag : qs_role st <> EmptyString -> qs_version st <> 0%Z ->
  json_ok (PDict (QueueState_to_payload st)) = true ->
  QueueState_from_payload (canon_dict (QueueState_to_payload st)) etag =
  Ok (mkQueueState (qs_role st) (qs_snapshot_unix st) (qs_snapshot_id st) (qs_outstanding st) etag
        (qs_version st)).
Proof.
  intros Hr Hv Hok. apply json_ok_keys_ok in Hok. unfold QueueState_from_payload.
  rewrite !int_or_zero_canon, !get_canon, !por_canon by done.
  rewrite list_of_canon_id; [|apply QueueEntry_sorted|].
  2:{ unfold por. destruct (truthy _); [|done]. unfold get. by apply keys_ok_get_or. }
  rewrite (int_or_zero_write _ "snapshot_unix" (qs_snapshot_unix st)),
    (int_or_zero_write _ "snapshot_id" (qs_snapshot_id st)) by done.
  change (get (QueueState_to_payload st) "outstanding") with (pdicts QueueEntry_to_dict (qs_outstanding st)).
  change (get (QueueState_to_payload st) "role") with (PStr (qs_role st)).
  change (get (QueueState_to_payload st) "version") with (PInt (qs_version st)).
  assert (por (pdicts QueueEntry_to_dict (qs_outstanding st)) (PList []) =
          pdicts QueueEntry_to_dict (qs_outstanding st)) as ->.
  { unfold por. by destruct (qs_outstanding st). }
  rewrite (pdicts_read _ _ _ QueueEntry_from_to). unfold por. cbn.
  apply String.eqb_neq in Hr as ->. apply Z.eqb_neq in Hv as ->. done.
Qed.

Lemma decode_queue_payload st etag : qs_role st <> EmptyString -> qs_version st <> 0%Z ->
  json_ok (PDict (QueueState_to_payload st)) = true ->
  decode_queue (canonical_json (PDict (QueueState_to_payload st))) etag =
  Ok (Some (mkQueueState (qs_role st) (qs_snapshot_unix st) (qs_snapshot_id st) (qs_outstanding st) etag
        (qs_version st))).
Proof.
  intros Hr Hv Hok. unfold decode_queue, canonical_json.
  rewrite utf8_decode_ascii by auto with teuton. cbn [mbind result_bind].
  rewrite json_roundtrip, canon_PDict by done. by rewrite payload_roundtrip.
Qed.

(** ** The invariant *)

(** Entries are filed under their own job id, once each; the counters are not
    negative. *)
Record queue_ok (q : OrchestratorQueue) : Prop := {
  queue_nodup : NoDup (dict_keys (oq_outstanding q));
  queue_keyed : forall k e, dict_get k (oq_outstanding q) = Some e -> qe_job_id e = k;
  queue_pending : (0 <= oq_pending_changes q)%Z;
  queue_snapshot : (0 <= oq_snapshot_id q)%Z
}.

(** A dictionary of entries under their own ids. *)
Definition entries_ok (o : dict QueueEntry) : Prop :=
  NoDup (dict_keys o) /\ forall k e, dict_get k o = Some e -> qe_job_id e = k.

Lemma entries_ok_set o e : entries_ok o -> entries_ok (dict_set (qe_job_id e) e o).
Proof.
  intros [Hn Hk]. split; [by apply dict_set_NoDup|]. intros k e'. rewrite dict_get_set.
  destruct (String.eqb k (qe_job_id e)) eqn:E; [|apply Hk]. apply String.eqb_eq in E as ->. by intros [= <-].
Qed.

Lemma entries_ok_setdefault o e : entries_ok o -> entries_ok (dict_setdefault (qe_job_id e) e o).
Proof. intros H. unfold dict_setdefault. destruct (dict_mem _ o); [done|]. by apply entries_ok_set. Qed.

Lemma entries_ok_del o j : entries_ok o -> entries_ok (dict_del j o).
Proof.
  intros [Hn Hk]. split; [by apply dict_del_NoDup|]. intros k e.
  destruct (decide (k = j)) as [->|Hne].
  - by rewrite dict_get_del_eq.
  - rewrite dict_get_del_ne by done. apply Hk.
Qed.

Lemma entries_ok_nil : entries_ok [].
Proof. split; [constructor|done]. Qed.

#[local] Hint Resolve entries_ok_set entries_ok_setdefault entries_ok_del entries_ok_nil : teuton.

Lemma fold_entries_ok {A} (f : dict QueueEntry -> A -> dict QueueEntry) l o :
  (forall o a, entries_ok o -> entries_ok (f o a)) -> entries_ok o -> entries_ok (fold_left f l o).
Proof. intros Hf. revert o. induction l as [|a l IH]; intros o Ho; [done|]. cbn. auto. Qed.

Lemma remove_loop_ok js o n : entries_ok o -> (0 <= n)%Z ->
  entries_ok (remove_loop js o n).1 /\ (0 <= (remove_loop js o n).2)%Z.
Proof.
  revert o n. induction js as [|j js IH]; intros o n Ho Hn; [done|]. cbn.
  destruct (dict_mem j o); apply IH; auto with teuton lia.
Qed.

Lemma prune_loop_ok now items o dropped : entries_ok o -> entries_ok (prune_loop now items o dropped).1.
Proof.
  revert o dropped. induction items as [|[j e] r IH]; intros o dropped Ho; [done|]. cbn.
  destruct (expired now e); apply IH; auto with teuton.
Qed.

Lemma queue_ok_entries q : queue_ok q <->
  entries_ok (oq_outstanding q) /\ (0 <= oq_pending_changes q)%Z /\ (0 <= oq_snapshot_id q)%Z.
Proof. split; [intros []; repeat split; auto|]. intros ([] & ? & ?). by split. Qed.

(** ** Operations as a sequence *)

Section ops.
Context {S : Type} `{ObjectStore S}.

Inductive queue_op : Type :=
  | QAdd (e : QueueEntry)
  | QRemove (job_id : string)
  | QRemoveMany (job_ids : list string)
  | QReplay (job_id : string) (attempt deadline_unix : Z)
  | QPrune (now : float)
  | QReconcile (recent : list string)
  | QFlush (force : bool) (now1 now2 : Z)
  | QStop (final_flush : bool) (now1 now2 : Z)
  | QLoopTurn (now1 now2 : Z).

Definition apply_qop (qs : OrchestratorQueue * S) (o : queue_op) : OrchestratorQueue * S :=
  let '(q, s) := qs in
  match o with
  | QAdd e => (OrchestratorQueue_add q e, s)
  | QRemove j => (fst (OrchestratorQueue_remove q j), s)
  | QRemoveMany js => (fst (OrchestratorQueue_remove_many q js), s)
  | QReplay j a d => (OrchestratorQueue_replay q j a d, s)
  | QPrune now => (fst (OrchestratorQueue_prune_expired q now), s)
  | QReconcile r => fst (OrchestratorQueue_reconcile_from_bucket r (q, s))
  | QFlush f n1 n2 => fst (OrchestratorQueue_flush f n1 n2 (q, s))
  | QStop f n1 n2 => fst (OrchestratorQueue_stop f n1 n2 (q, s))
  | QLoopTurn n1 n2 => fst (OrchestratorQueue_flush_loop_turn n1 n2 (q, s))
  end.

(** One operation keeps the invariant, the identity of the queue, and never
    moves the snapshot counter back. *)
Definition keeps (q q' : OrchestratorQueue) : Prop :=
  (queue_ok q -> queue_ok q') /\ (oq_snapshot_id q <= oq_snapshot_id q')%Z /\
  oq_netuid q' = oq_netuid q /\ oq_run_id q' = oq_run_id q /\ oq_role q' = oq_role q.

Lemma keeps_refl q : keeps q q.
Proof. split; [done|]. repeat split; lia. Qed.

Lemma keeps_trans q1 q2 q3 : keeps q1 q2 -> keeps q2 q3 -> keeps q1 q3.
Proof. intros (A1 & A2 & A3 & A4 & A5) (B1 & B2 & B3 & B4 & B5). repeat split; try congruence; try lia; apply B1, A1; done. Qed.

Lemma keeps_outstanding q o n : (entries_ok (oq_outstanding q) -> entries_ok o) -> (0 <= n)%Z ->
  keeps q (OrchestratorQueue_mark_dirty (with_outstanding q o) n).
Proof.
  intros Ho Hn. split; [|cbn; repeat split; lia]. rewrite !queue_ok_entries. cbn. intros (H1 & H2 & H3).
  repeat split; try apply Ho; try done; lia.
Qed.

Lemma keeps_with q o : (entries_ok (oq_outstanding q) -> entries_ok o) -> keeps q (with_outstanding q o).
Proof.
  intros Ho. split; [|cbn; repeat split; lia]. rewrite !queue_ok_entries. cbn. intros (H1 & H2 & H3).
  repeat split; try apply Ho; done.
Qed.

Lemma keeps_sync q sid etag d n : (oq_snapshot_id q <= sid)%Z -> (0 <= n)%Z \/ n = oq_pending_changes q ->
  keeps q (with_sync q sid etag d n).
Proof.
  intros Hs Hn. split; [|cbn; repeat split; done]. rewrite !queue_ok_entries. cbn. intros (H1 & H2 & H3).
  repeat split; try apply H1; lia.
Qed.

Lemma keeps_add q e : keeps q (OrchestratorQueue_add q e).
Proof. apply keeps_outstanding; [auto with teuton|lia]. Qed.

Lemma keeps_remove q j : keeps q (OrchestratorQueue_remove q j).1.
Proof.
  unfold OrchestratorQueue_remove. destruct (dict_mem _ _); [|apply keeps_refl].
  apply keeps_outstanding; [auto with teuton|lia].
Qed.

Lemma keeps_remove_many q js : keeps q (OrchestratorQueue_remove_many q js).1.
Proof.
  unfold OrchestratorQueue_remove_many. destruct (remove_loop js (oq_outstanding q) 0) as [o n] eqn:E.
  destruct (n =? 0)%Z eqn:En; cbn.
  - apply keeps_with. intros Ho. pose proof (remove_loop_ok js _ 0 Ho) as [H1 _]; [lia|]. by rewrite E in H1.
  - assert (forall js o m, (m <= (remove_loop js o m).2)%Z) as Hpos.
    { induction js0 as [|j js0 IH]; intros o0 m; cbn; [lia|]. destruct (dict_mem j o0); [|apply IH].
      etransitivity; [|apply IH]. lia. }
    specialize (Hpos js (oq_outstanding q) 0%Z). rewrite E in Hpos.
    apply keeps_outstanding; [|done]. intros Ho.
    pose proof (remove_loop_ok js _ 0 Ho) as [H1 _]; [lia|]. by rewrite E in H1.
Qed.

Lemma keeps_replay q j a d : keeps q (OrchestratorQueue_replay q j a d).
Proof.
  unfold OrchestratorQueue_replay. destruct (dict_get j _) as [e|] eqn:E; [|apply keeps_refl].
  apply keeps_outstanding; [|lia]. intros Ho. pose proof Ho as [_ Hk]. rewrite <- (Hk _ _ E).
  by apply (entries_ok_set _ (mkEntry _ _ _ _ _ _ _ _)).
Qed.

Lemma keeps_prune q now : keeps q (OrchestratorQueue_prune_expired q now).1.
Proof.
  unfold OrchestratorQueue_prune_expired.
  destruct (prune_loop now _ _ _) as [o dropped] eqn:E.
  assert (entries_ok (oq_outstanding q) -> entries_ok o) as Ho.
  { intros H1. pose proof (prune_loop_ok now (oq_outstanding q) _ [] H1) as H2. by rewrite E in H2. }
  destruct dropped; cbn; [by apply keeps_with|]. apply keeps_outstanding; [done|lia].
Qed.

Lemma keeps_reconcile q st r : keeps q (reconcile q st r).
Proof.
  unfold reconcile. eapply keeps_trans; [apply (keeps_with q)|apply keeps_sync; [|left; lia]].
  - intros _. apply fold_entries_ok; [auto with teuton|]. destruct st; [|auto with teuton].
    apply fold_entries_ok; auto with teuton.
  - destruct st; cbn; lia.
Qed.

Lemma keeps_merge q st : keeps q (merge q st).
Proof.
  unfold merge. destruct st as [st|]; [|apply keeps_sync; [lia|by right]].
  eapply keeps_trans; [apply (keeps_with q)|apply keeps_sync; [cbn; lia|by right]].
  intros Ho. apply fold_entries_ok; auto with teuton.
Qed.

Lemma keeps_merge_from q s : keeps q (OrchestratorQueue_merge_from_bucket (q, s)).1.1.
Proof.
  unfold OrchestratorQueue_merge_from_bucket. destruct (read_queue _ _ _ _ s) as [s1 [st|e]]; cbn;
    [apply keeps_merge|apply keeps_refl].
Qed.

Lemma keeps_flush_bump q : keeps q (flush_bump q).
Proof. apply keeps_sync; [lia|by right]. Qed.

Lemma keeps_flush_end q e : keeps q (flush_end q e).
Proof. apply keeps_sync; [lia|left; lia]. Qed.

Lemma keeps_flush f n1 n2 q s : keeps q (OrchestratorQueue_flush f n1 n2 (q, s)).1.1.
Proof.
  unfold OrchestratorQueue_flush, flush_begin. destruct (negb _); [apply keeps_refl|].
  destruct (queue_uri s _ _ _) as [uri|]; [|apply keeps_flush_bump].
  destruct (os_put_with_etag uri _ _ s) as [s1 [e|e]]; [|destruct e; try apply keeps_flush_bump].
  - eapply keeps_trans; [apply keeps_flush_bump|apply keeps_flush_end].
  - pose proof (keeps_merge_from (flush_bump q) s1) as Hm.
    destruct (OrchestratorQueue_merge_from_bucket _) as [[q2 s2] [[]|e]]; cbn in Hm |- *;
      [|eapply keeps_trans; [apply keeps_flush_bump|done]].
    destruct (os_put_with_etag uri _ _ s2) as [s3 [e|e]];
      (eapply keeps_trans; [apply keeps_flush_bump|]); (eapply keeps_trans; [exact Hm|]);
      (eapply keeps_trans; [apply keeps_flush_bump|]); [apply keeps_flush_end|apply keeps_refl].
Qed.

Lemma keeps_qop qs o : keeps qs.1 (apply_qop qs o).1.
Proof.
  destruct qs as [q s].
  destruct o as [e|j|js|j a d|now|r|f n1 n2|f n1 n2|n1 n2]; cbn [apply_qop fst].
  - apply keeps_add.
  - apply keeps_remove.
  - apply keeps_remove_many.
  - apply keeps_replay.
  - apply keeps_prune.
  - unfold OrchestratorQueue_reconcile_from_bucket.
    destruct (read_queue _ _ _ _ s) as [s1 [st|e]]; cbn; [apply keeps_reconcile|apply keeps_refl].
  - apply keeps_flush.
  - unfold OrchestratorQueue_stop. destruct f; [|apply keeps_refl].
    pose proof (keeps_flush false n1 n2 q s) as Hf.
    destruct (OrchestratorQueue_flush false n1 n2 (q, s)) as [qs' [|]]; exact Hf.
  - unfold OrchestratorQueue_flush_loop_turn. destruct (flush_loop_should_flush q); [|apply keeps_refl].
    pose proof (keeps_flush false n1 n2 q s) as Hf.
    destruct (OrchestratorQueue_flush false n1 n2 (q, s)) as [qs' [|]]; exact Hf.
Qed.

Lemma keeps_run ops qs : keeps qs.1 (fold_left apply_qop ops qs).1.
Proof.
  revert qs. induction ops as [|o ops IH]; intros qs; [apply keeps_refl|]. cbn.
  eapply keeps_trans; [apply keeps_qop|apply IH].
Qed.
End ops.

Lemma init_queue_ok netuid run_id role n : queue_ok (OrchestratorQueue_init netuid run_id role n).
Proof. split; cbn; [constructor|done|lia|lia]. Qed.

(** ** The queue as a map from job ids to entries *)

Definition dict_gmap {V} (d : dict V) : gmap string V := list_to_map d.

Definition queue_map (q : OrchestratorQueue) : gmap string QueueEntry := dict_gmap (oq_outstanding q).

Lemma dict_gmap_lookup {V} (d : dict V) k : dict_gmap d !! k = dict_get k d.
Proof.
  unfold dict_gmap. induction d as [|[k' v] d IH]; cbn; [apply lookup_empty|].
  destruct (String.eqb k k') eqn:E.
  - apply String.eqb_eq in E as ->. apply lookup_insert_eq.
  - apply String.eqb_neq in E. by rewrite lookup_insert_ne.
Qed.

Lemma dict_gmap_set {V} (d : dict V) k v : dict_gmap (dict_set k v d) = <[k := v]> (dict_gmap d).
Proof.
  apply map_eq. intros i. rewrite dict_gmap_lookup, dict_get_set.
  destruct (String.eqb i k) eqn:E.
  - apply String.eqb_eq in E as ->. by rewrite lookup_insert_eq.
  - apply String.eqb_neq in E. by rewrite lookup_insert_ne, dict_gmap_lookup.
Qed.

Lemma dict_gmap_del {V} (d : dict V) k : NoDup (dict_keys d) -> dict_gmap (dict_del k d) = delete k (dict_gmap d).
Proof.
  intros Hn. apply map_eq. intros i. rewrite dict_gmap_lookup. destruct (decide (i = k)) as [->|Hne].
  - by rewrite dict_get_del_eq, lookup_delete_eq.
  - by rewrite dict_get_del_ne, lookup_delete_ne, dict_gmap_lookup.
Qed.

Lemma dict_gmap_fold_del {V} ks (d : dict V) : NoDup (dict_keys d) ->
  dict_gmap (fold_left (fun o j => dict_del j o) ks d) = foldl (fun m j => delete j m) (dict_gmap d) ks.
Proof.
  revert d. induction ks as [|k ks IH]; intros d Hn; [done|]. cbn [fold_left foldl].
  rewrite IH by auto with teuton. by rewrite dict_gmap_del.
Qed.

Lemma dict_mem_gmap {V} (d : dict V) k : dict_mem k d = bool_decide (is_Some (dict_gmap d !! k)).
Proof.
  unfold dict_mem. rewrite dict_gmap_lookup. destruct (dict_get k d); symmetry.
  - apply bool_decide_true. eauto.
  - apply bool_decide_false. by intros [].
Qed.

(** Entries of a snapshot as a map; the last entry of a job wins. *)
Definition entries_map (l : list QueueEntry) : gmap string QueueEntry :=
  foldl (fun m e => <[qe_job_id e := e]> m) ∅ l.

Lemma fold_set_gmap l o : dict_gmap (fold_left (fun o e => dict_set (qe_job_id e) e o) l o) =
  foldl (fun m e => <[qe_job_id e := e]> m) (dict_gmap o) l.
Proof. revert o. induction l as [|e l IH]; intros o; [done|]. cbn [fold_left foldl]. by rewrite IH, dict_gmap_set. Qed.

(** Local entries win in a merge; among the bucket's, the first one of a job. *)
Lemma fold_setdefault_lookup l o k :
  dict_get k (fold_left (fun o e => dict_setdefault (qe_job_id e) e o) l o) =
  match dict_get k o with Some e => Some e | None => find (fun e => String.eqb k (qe_job_id e)) l end.
Proof.
  revert o. induction l as [|e l IH]; intros o; cbn; [by destruct (dict_get k o)|].
  rewrite IH, dict_get_setdefault. destruct (dict_get k o); [done|].
  by destruct (String.eqb k (qe_job_id e)).
Qed.

(** Removal of many ids. *)
Lemma remove_loop_map js o n : NoDup (dict_keys o) ->
  dict_gmap (remove_loop js o n).1 = foldl (fun m j => delete j m) (dict_gmap o) js /\
  ((remove_loop js o n).2 = n + Z.of_nat (length o) - Z.of_nat (length (remove_loop js o n).1))%Z.
Proof.
  assert (forall j (o : dict QueueEntry), dict_mem j o = true -> length o = S (length (dict_del j o))) as Hlen.
  { intros j o'. unfold dict_mem. induction o' as [|[k v] o' IH]; cbn; [done|].
    destruct (String.eqb j k); [done|]. cbn. intros H. by rewrite <- IH. }
  revert o n. induction js as [|j js IH]; intros o n Hn; cbn [remove_loop foldl fst snd]; [split; [done|lia]|].
  destruct (dict_mem j o) eqn:E.
  - destruct (IH (dict_del j o) (n + 1)%Z) as [H1 H2]; [auto with teuton|].
    rewrite H1, dict_gmap_del by done. split; [done|]. rewrite H2. apply Hlen in E. lia.
  - destruct (IH o n Hn) as [H1 H2]. rewrite H1, H2. split; [|lia]. f_equal.
    rewrite dict_mem_gmap in E. apply bool_decide_eq_false in E. symmetry. apply delete_id.
    by apply eq_None_not_Some.
Qed.

(** Pruning keeps the entries that have not expired, in order. *)
Lemma dict_del_app_cons {V} (pre post : dict V) j v : j ∉ dict_keys pre ->
  dict_del j (pre ++ (j, v) :: post) = pre ++ post.
Proof.
  induction pre as [|[k w] pre IH]; cbn; intros Hn; [by rewrite String.eqb_refl|].
  apply not_elem_of_cons in Hn as [Hne Hn]. apply String.eqb_neq in Hne as ->. by rewrite IH.
Qed.

Lemma prune_loop_spec now items pre dropped : NoDup (dict_keys (pre ++ items)) ->
  prune_loop now items (pre ++ items) dropped =
  (pre ++ List.filter (fun kv => negb (expired now kv.2)) items,
   dropped ++ map snd (List.filter (fun kv => expired now kv.2) items)).
Proof.
  revert pre dropped. induction items as [|[j e] r IH]; intros pre dropped Hn; cbn.
  - by rewrite !app_nil_r.
  - destruct (expired now e); cbn.
    + rewrite dict_del_app_cons.
      * rewrite IH; [by rewrite <- app_assoc|]. eapply sublist_NoDup; [exact Hn|].
        unfold dict_keys. rewrite !map_app. apply sublist_app; [done|]. by constructor.
      * unfold dict_keys in Hn. rewrite map_app in Hn. apply NoDup_app in Hn as (_ & Hd & _).
        intros Hin. apply (Hd j Hin). left.
    + replace (pre ++ (j, e) :: r) with ((pre ++ [(j, e)]) ++ r) in Hn |- * by by rewrite <- app_assoc.
      rewrite IH by done. by rewrite <- app_assoc.
Qed.

Lemma filter_dict_get {V} (f : V -> bool) (d : dict V) k : NoDup (dict_keys d) ->
  dict_get k (List.filter (fun kv => f kv.2) d) =
  match dict_get k d with Some v => if f v then Some v else None | None => None end.
Proof.
  induction d as [|[k' v] d IH]; cbn; intros Hn; [done|]. apply NoDup_cons in Hn as [Hk Hn].
  destruct (f v) eqn:Ef; cbn; rewrite IH by done; destruct (String.eqb k k') eqn:E; try done.
  - by rewrite Ef.
  - rewrite Ef. apply String.eqb_eq in E as ->. by apply dict_get_None in Hk as ->.
Qed.

(** ** Publishing *)

Definition queue_printable (q : OrchestratorQueue) : bool :=
  str_forallb is_ascii (oq_role q) &&
  forallb (fun e => json_ok (PDict (QueueEntry_to_dict e))) (dict_values (oq_outstanding q)).

Lemma snapshot_json_ok q now : queue_printable q = true -> json_ok (PDict (snapshot_payload q now)) = true.
Proof.
  unfold queue_printable. rewrite andb_true_iff. intros [Hr Ho].
  assert (json_ok (pdicts QueueEntry_to_dict (dict_values (oq_outstanding q))) = true) as Hp.
  { unfold pdicts. cbn [json_ok]. rewrite forallb_forall. intros v Hv. apply in_map_iff in Hv as (e & <- & He).
    rewrite forallb_forall in Ho. by apply Ho. }
  unfold snapshot_payload, QueueState_to_payload. cbn [qs_version qs_role qs_snapshot_unix qs_snapshot_id qs_outstanding].
  cbn [json_ok forallb fst snd]. rewrite Hr. cbn [json_ok] in Hp. rewrite Hp. by vm_compute.
Qed.

Section publish.
Context {S : Type} `{ObjectStoreLaws S}.

Lemma uri_stable (s s' : S) netuid run_id role : os_uri_for_key s' = os_uri_for_key s ->
  queue_uri s' netuid run_id role = queue_uri s netuid run_id role.
Proof. intros E. unfold queue_uri. by rewrite E. Qed.

(** The object written by a flush, read back. *)
Lemma read_published q q' now (s s' : S) uri m e :
  queue_uri s (oq_netuid q) (oq_run_id q) (oq_role q) = Ok uri ->
  os_put_with_etag uri (canonical_json (PDict (snapshot_payload q' now))) m s = (s', Ok e) ->
  oq_role q' = oq_role q -> oq_role q <> EmptyString -> queue_printable q' = true ->
  read_queue (oq_netuid q) (oq_run_id q) (oq_role q) None s' =
  (s', Ok (Some (mkQueueState (oq_role q) now (oq_snapshot_id q') (dict_values (oq_outstanding q'))
                   (Some e) QUEUE_VERSION))).
Proof.
  intros Hu Hp Hr Hne Hpr. unfold read_queue.
  rewrite (uri_stable s s') by exact (put_etag_uri_for_key _ _ _ _ _ _ Hp). rewrite Hu.
  destruct (put_etag_get _ _ _ _ _ _ Hp) as [_ Hg]. rewrite Hg. f_equal.
  unfold snapshot_payload. rewrite decode_queue_payload; cbn; [by rewrite Hr|by rewrite Hr|done|].
  by apply (snapshot_json_ok q' now).
Qed.

(** A merge keeps every local entry. *)
Lemma merge_keeps_local q st k e :
  dict_get k (oq_outstanding q) = Some e -> dict_get k (oq_outstanding (merge q st)) = Some e.
Proof.
  intros Hk. destruct st as [st|]; cbn; [|done]. by rewrite fold_setdefault_lookup, Hk.
Qed.

Lemma read_queue_reads netuid run_id role m (s : S) : fst (read_queue netuid run_id role m s) = s.
Proof.
  unfold read_queue. destruct (queue_uri s _ _ _) as [uri|]; [|done].
  pose proof (get_etag_reads uri m s) as Hr. destruct (os_get_with_etag uri m s) as [s1 [[[b|] e]|err]]; done.
Qed.

Lemma merge_from_cases q (s : S) qs r : OrchestratorQueue_merge_from_bucket (q, s) = (qs, r) ->
  snd qs = s /\
  match r with
  | Ok _ => exists st, read_queue (oq_netuid q) (oq_run_id q) (oq_role q) None s = (s, Ok st) /\ fst qs = merge q st
  | Err e => fst qs = q /\ read_queue (oq_netuid q) (oq_run_id q) (oq_role q) None s = (s, Err e)
  end.
Proof.
  unfold OrchestratorQueue_merge_from_bucket.
  pose proof (read_queue_reads (oq_netuid q) (oq_run_id q) (oq_role q) None s) as Hr.
  destruct (read_queue _ _ _ _ s) as [s1 [st|e]]; cbn in Hr; subst s1; intros [= <- <-]; cbn; [eauto|done].
Qed.

(** The two ways a flush that returns [True] went. *)
Lemma flush_true_cases force now1 now2 q (s : S) q' s' :
  OrchestratorQueue_flush force now1 now2 (q, s) = ((q', s'), Ok true) ->
  exists uri q1 now im s1 e,
    queue_uri s (oq_netuid q) (oq_run_id q) (oq_role q) = Ok uri /\
    os_put_with_etag uri (canonical_json (PDict (snapshot_payload q1 now))) im s1 = (s', Ok e) /\
    os_uri_for_key s1 = os_uri_for_key s /\
    q' = flush_end q1 e /\ (oq_snapshot_id q < oq_snapshot_id q1)%Z /\
    oq_role q1 = oq_role q /\ oq_netuid q1 = oq_netuid q /\ oq_run_id q1 = oq_run_id q /\
    (forall k x, dict_get k (oq_outstanding q) = Some x -> dict_get k (oq_outstanding q1) = Some x).
Proof.
  unfold OrchestratorQueue_flush, flush_begin. destruct (negb _); [done|].
  destruct (queue_uri s _ _ _) as [uri|] eqn:Hu; [|done].
  destruct (os_put_with_etag uri _ _ s) as [s1 [e|e]] eqn:Hp.
  - intros [= <- <-]. exists uri, (flush_bump q). eexists _, _, s, e. split; [done|]. split; [exact Hp|].
    split; [done|]. split; [done|]. split; [cbn; lia|]. done.
  - destruct e; try done. destruct (put_etag_conflict _ _ _ _ _ _ Hp) as [-> _].
    destruct (OrchestratorQueue_merge_from_bucket (flush_bump q, s)) as [[q2 s2] r] eqn:Em.
    destruct (merge_from_cases _ _ _ _ Em) as [Hs Hr]. cbn in Hs. subst s2.
    destruct r as [[]|]; [|done]. destruct Hr as (st & Hread & Hq2). cbn in Hq2. subst q2.
    cbn zeta.
    destruct (os_put_with_etag uri (canonical_json (PDict (snapshot_payload _ now2))) _ s)
      as [s3 [e|e]] eqn:Hp2; [|intros [=]]. intros [= <- <-].
    exists uri, (flush_bump (merge (flush_bump q) st)). eexists _, _, s, e. split; [done|].
    split; [exact Hp2|]. split; [done|]. split; [done|].
    split; [destruct st; cbn; lia|]. split; [by destruct st|]. split; [by destruct st|]. split; [by destruct st|].
    intros k x Hk. cbn. by apply (merge_keeps_local (flush_bump q)).
Qed.

(** When the flush still fails on its precondition, the object in the bucket
    is not a queue document. *)
Lemma flush_precondition_cases force now1 now2 q (s : S) qs msg :
  OrchestratorQueue_flush force now1 now2 (q, s) = (qs, Err (PreconditionFailed msg)) ->
  (exists uri body t, queue_uri s (oq_netuid q) (oq_run_id q) (oq_role q) = Ok uri /\
     os_get_with_etag uri None s = (s, Ok (Some body, Some t)) /\ decode_queue body (Some t) = Ok None) \/
  read_queue (oq_netuid q) (oq_run_id q) (oq_role q) None s = (s, Err (PreconditionFailed msg)).
Proof.
  unfold OrchestratorQueue_flush, flush_begin. destruct (negb _); [done|].
  destruct (queue_uri s _ _ _) as [uri|] eqn:Hu; [|intros [= _ ->]; unfold queue_uri, queue_key in Hu; by repeat case_match].
  destruct (os_put_with_etag uri _ _ s) as [s1 [e|e]] eqn:Hp; [done|].
  destruct e; try done. destruct (put_etag_conflict _ _ _ _ _ _ Hp) as [-> _].
  destruct (OrchestratorQueue_merge_from_bucket (flush_bump q, s)) as [[q2 s2] r] eqn:Em.
  destruct (merge_from_cases _ _ _ _ Em) as [Hs Hr]. cbn in Hs. subst s2.
  destruct r as [[]|e]; [|intros [= _ ->]; cbn in Hr; destruct Hr; by right].
  destruct Hr as (st & Hread & Hq2). cbn in Hq2. subst q2.
  cbn zeta. destruct (os_put_with_etag uri (canonical_json (PDict (snapshot_payload _ now2))) _ s)
    as [s3 [e|e]] eqn:Hp2; [intros [=]|]. intros [= _ ->].
  destruct (put_etag_conflict _ _ _ _ _ _ Hp2) as (_ & want & b & cur & [= <-] & Hg & Hne).
  unfold read_queue in Hread. cbn in Hread. rewrite Hu, Hg in Hread.
  destruct (get_etag_cases _ _ _ _ Hg) as [[-> ->]|(d & t & -> & -> & _)].
  - injection Hread as <-. done.
  - left. exists uri, d, t. split; [done|]. split; [done|]. injection Hread as Hread.
    destruct st as [st|]; [|done]. exfalso. apply Hne. cbn.
    unfold decode_queue in Hread. destruct (utf8_decode d ≫= _) as [[]|e]; try done; [|by destruct (catchable e)].
    apply bind_Ok in Hread as (st' & Hst & [= ->]). unfold QueueState_from_payload in Hst.
    repeat (apply bind_Ok in Hst as (? & _ & Hst)). by injection Hst as <-.
Qed.
End publish.

(** ** Receipt scan *)

Lemma split_on_lit (c : ascii) (a b : string) : lacks c a = true ->
  split_on c (a +:+ (String c EmptyString +:+ b)) = a :: split_on c b.
Proof. apply split_on_app. Qed.

Lemma job_id_skip part rest : startswith "hotkey=" part = false ->
  job_id_from_parts (part :: rest) = job_id_from_parts rest.
Proof. intros E. cbn [job_id_from_parts]. by rewrite E. Qed.

Lemma netuid_no_hotkey z : startswith "hotkey=" ("netuid=" +:+ py_str_int z) = false.
Proof. done. Qed.

Lemma receipt_uri_job_id b netuid run_id hotkey job_id attempt :
  segment b = true -> segment run_id = true -> segment hotkey = true -> segment job_id = true ->
  startswith "hotkey=" b = false -> startswith "hotkey=" run_id = false -> job_id <> EmptyString ->
  job_id_from_receipt_uri (join_uri b (receipt_key netuid run_id hotkey job_id attempt)) = Some job_id.
Proof.
  intros Hb Hr Hh Hj Nb Nr Hne. unfold job_id_from_receipt_uri, join_uri.
  unfold receipt_key, receipts_prefix, root.
  change ("s3://" +:+ ?x) with ("s3:" +:+ ("/" +:+ ("" +:+ ("/" +:+ x)))).
  change ("v3/netuid=" +:+ ?x) with ("v3" +:+ ("/" +:+ ("netuid=" +:+ x))).
  rewrite !str_app_assoc.
  change ("/receipts/" +:+ ?x) with ("/" +:+ ("receipts" +:+ ("/" +:+ x))).
  change ("hotkey=" +:+ ?x +:+ ?y) with ("hotkey=" +:+ (x +:+ y)).
  rewrite <- (str_app_assoc "netuid="), <- (str_app_assoc "hotkey=").
  change ("/attempt=" +:+ ?x) with ("/" +:+ ("attempt=" +:+ x)).
  rewrite !split_on_lit
    by (done || (rewrite lacks_app; apply andb_true_iff; split; [done|apply py_str_int_segment || done])).
  rewrite !job_id_skip by done. cbn [job_id_from_parts].
  rewrite startswith_app. apply String.eqb_neq in Hne as ->. done.
Qed.

(** A receipt counts when its name ends in [.json], it is recent enough, and it
    names a job. *)
Definition counts_since (since_unix : option float) (mtime : Z) : Prop :=
  match since_unix with
  | None => True
  | Some t => exists ti, int_of_float t = Ok ti /\ (ti <= mtime)%Z
  end.

Lemma scan_loop_spec since limit entries : forall count out res,
  scan_loop since limit entries count out = Ok res -> (count + Z.of_nat (length entries) <= limit)%Z ->
  forall j, j ∈ res <-> j ∈ out \/ exists uri mtime size, (uri, mtime, size) ∈ entries /\
    endswith ".json" uri = true /\ counts_since since mtime /\ job_id_from_receipt_uri uri = Some j.
Proof.
  induction entries as [|[[uri mtime] size] r IH]; intros count out res; cbn [scan_loop].
  - intros [= <-] _ j. split; [by left|]. intros [?|(u & m & z & Hin & _)]; [done|]. by apply elem_of_nil in Hin.
  - cbn [length]. destruct (limit <=? count)%Z eqn:El; [apply Z.leb_le in El; lia|]. intros H Hlen j.
    assert (forall P : string -> Z -> Z -> Prop,
      (exists u m z, (u, m, z) ∈ (uri, mtime, size) :: r /\ P u m z) <->
      P uri mtime size \/ exists u m z, (u, m, z) ∈ r /\ P u m z) as Hcons.
    { intros P. setoid_rewrite elem_of_cons. split.
      - intros (u & m & z & [[= -> -> ->]|Hin] & Hp); [by left|]. right. eauto 6.
      - intros [Hp|(u & m & z & Hin & Hp)]; eauto 8. }
    rewrite (Hcons (fun u m z => endswith ".json" u = true /\ counts_since since m /\ job_id_from_receipt_uri u = Some j)).
    destruct (endswith ".json" uri); cbn [negb] in H.
    + apply bind_Ok in H as (old & Hold & H).
      assert (counts_since since mtime <-> old = false) as Hc.
      { unfold counts_since. destruct since as [t|]; [|by injection Hold as <-].
        apply bind_Ok in Hold as (ti & -> & [= <-]). rewrite Z.ltb_ge. split; [by intros (? & [= ->] & ?)|eauto]. }
      destruct old.
      * rewrite (IH _ _ _ H) by lia. split; intros [?|?]; auto. destruct H0 as [(_ & Hx & _)|?]; [|auto]. by apply Hc in Hx.
      * destruct (job_id_from_receipt_uri uri) as [j'|].
        -- rewrite (IH _ _ _ H) by lia. rewrite elem_of_app, list_elem_of_singleton.
           split; [intros [[?| ->]|?]; auto; right; left; split; [done|]; split; [by apply Hc|done]|].
           intros [?|[(_ & _ & [= <-])|?]]; auto.
        -- rewrite (IH _ _ _ H) by lia. split; [intros [?|?]; auto|]. intros [?|[(_ & _ & [=])|?]]; auto.
    + rewrite (IH _ _ _ H) by lia. split; [intros [?|?]; auto|]. intros [?|[([=] & _)|?]]; auto.
Qed.

(** ** Each mutator as a map operation *)

Lemma remove_refines q j : NoDup (dict_keys (oq_outstanding q)) ->
  queue_map (OrchestratorQueue_remove q j).1 = delete j (queue_map q) /\
  (OrchestratorQueue_remove q j).2 = bool_decide (is_Some (queue_map q !! j)).
Proof.
  intros Hn. unfold queue_map, OrchestratorQueue_remove. rewrite <- dict_mem_gmap.
  destruct (dict_mem j _) eqn:E; split; try done; [by apply dict_gmap_del|].
  rewrite dict_mem_gmap in E. apply bool_decide_eq_false, eq_None_not_Some in E. symmetry. by apply delete_id.
Qed.

Lemma remove_many_refines q js : NoDup (dict_keys (oq_outstanding q)) ->
  queue_map (OrchestratorQueue_remove_many q js).1 = foldl (fun m j => delete j m) (queue_map q) js /\
  (OrchestratorQueue_remove_many q js).2 =
    (OrchestratorQueue_depth q None - OrchestratorQueue_depth (OrchestratorQueue_remove_many q js).1 None)%Z.
Proof.
  intros Hn. unfold queue_map, OrchestratorQueue_remove_many.
  destruct (remove_loop_map js (oq_outstanding q) 0 Hn) as [H1 H2].
  destruct (remove_loop js _ 0) as [o n]. cbn [fst snd] in *. split; [by destruct (n =? 0)%Z|].
  destruct (n =? 0)%Z; cbn; lia.
Qed.

Lemma replay_refines q j a d :
  queue_map (OrchestratorQueue_replay q j a d) =
  alter (fun e => mkEntry (qe_job_id e) (qe_assigned_hotkey e) (qe_assigned_worker e)
                    (qe_manifest_uri e) (qe_grant_uri e) d a (qe_created_unix e)) j (queue_map q).
Proof.
  unfold queue_map, OrchestratorQueue_replay. rewrite <- (dict_gmap_lookup (oq_outstanding q)).
  apply map_eq. intros i. destruct (dict_gmap _ !! j) as [e|] eqn:E.
  - cbn [oq_outstanding OrchestratorQueue_mark_dirty with_outstanding with_sync]. rewrite dict_gmap_set.
    destruct (decide (i = j)) as [->|Hne]; [by rewrite lookup_insert_eq, lookup_alter_eq, E|].
    by rewrite lookup_insert_ne, lookup_alter_ne.
  - destruct (decide (i = j)) as [->|Hne]; [by rewrite lookup_alter_eq, E|]. by rewrite lookup_alter_ne.
Qed.

Lemma prune_eq q now : NoDup (dict_keys (oq_outstanding q)) ->
  oq_outstanding (OrchestratorQueue_prune_expired q now).1 =
    List.filter (fun kv => negb (expired now kv.2)) (oq_outstanding q) /\
  (OrchestratorQueue_prune_expired q now).2 =
    map snd (List.filter (fun kv => expired now kv.2) (oq_outstanding q)).
Proof.
  intros Hn. unfold OrchestratorQueue_prune_expired.
  pose proof (prune_loop_spec now (oq_outstanding q) [] [] Hn) as E. cbn [app] in E. rewrite E.
  by destruct (map snd _).
Qed.

Lemma prune_refines q now j : NoDup (dict_keys (oq_outstanding q)) ->
  queue_map (OrchestratorQueue_prune_expired q now).1 !! j =
  match queue_map q !! j with
  | Some e => if expired now e then None else Some e
  | None => None
  end.
Proof.
  intros Hn. unfold queue_map. rewrite (proj1 (prune_eq q now Hn)), !dict_gmap_lookup.
  rewrite (filter_dict_get (fun e => negb (expired now e))) by done.
  destruct (dict_get j _) as [e|]; [|done]. by destruct (expired now e).
Qed.

Lemma prune_returns q now : NoDup (dict_keys (oq_outstanding q)) ->
  (OrchestratorQueue_prune_expired q now).2 = List.filter (expired now) (OrchestratorQueue_iter q).
Proof.
  intros Hn. rewrite (proj2 (prune_eq q now Hn)). unfold OrchestratorQueue_iter, dict_values. clear Hn.
  induction (oq_outstanding q) as [|[k e] o IH]; [done|]. cbn. destruct (expired now e); cbn; by rewrite IH.
Qed.

Lemma reconcile_refines q st r : queue_map (reconcile q (Some st) r) =
  foldl (fun m j => delete j m) (entries_map (qs_outstanding st)) r.
Proof.
  unfold queue_map, reconcile. cbn [oq_outstanding with_outstanding with_sync].
  rewrite dict_gmap_fold_del; [by rewrite fold_set_gmap|].
  apply (fold_entries_ok (fun o e => dict_set (qe_job_id e) e o)); auto with teuton.
Qed.

(** ** Entries of a queue by job id *)

Lemma values_job_ids o : entries_ok o -> map qe_job_id (dict_values o) = dict_keys o.
Proof.
  intros [Hn Hk]. unfold dict_values, dict_keys. rewrite map_map. apply map_ext_in. intros [k e] Hin.
  apply list_elem_of_In in Hin. cbn. apply (Hk k). by apply dict_elem_get.
Qed.

Lemma entries_map_values o : entries_ok o -> entries_map (dict_values o) = dict_gmap o.
Proof.
  intros [Hn Hk]. unfold entries_map.
  assert (forall pre, foldl (fun m e => <[qe_job_id e := e]> m) (dict_gmap pre) (dict_values o) =
    dict_gmap (dict_update pre o)) as Hgen.
  { assert (forall k e, (k, e) ∈ o -> qe_job_id e = k) as Hin
      by (intros k e Hin; apply (Hk k); by apply dict_elem_get).
    clear Hn Hk. induction o as [|[k e] o IH]; intros pre; [done|]. cbn [dict_values map foldl snd].
    unfold dict_update. cbn [fold_left fst snd]. rewrite (Hin k e) by left. rewrite <- dict_gmap_set.
    apply IH. intros k' e' H. apply Hin. by right. }
  etransitivity; [exact (Hgen [])|]. by rewrite dict_update_nil.
Qed.

(** ** Properties *)

(** C3. Whatever sequence of additions, removals, replays, expiries, restarts
    and flushes the orchestrator runs, over any object store, its queue keeps
    each outstanding entry once and under its own job id, and its snapshot
    counter never goes back. *)
Theorem queue_invariant {S} `{ObjectStore S} netuid run_id role n ops (s : S) :
  let q := (fold_left apply_qop ops (OrchestratorQueue_init netuid run_id role n, s)).1 in
  queue_ok q /\ oq_netuid q = netuid /\ oq_run_id q = run_id /\ oq_role q = role /\
  forall o, (oq_snapshot_id q <=
    oq_snapshot_id (apply_qop (fold_left apply_qop ops (OrchestratorQueue_init netuid run_id role n, s)) o).1)%Z.
Proof.
  intros q. destruct (keeps_run ops (OrchestratorQueue_init netuid run_id role n, s)) as (H1 & _ & H3 & H4 & H5).
  split; [apply H1, init_queue_ok|]. split; [exact H3|]. split; [exact H4|]. split; [exact H5|].
  intros o. apply keeps_qop.
Qed.

(** C4. The queue implements a map from job ids to entries: each mutator is the
    map operation of its name, removals report what they removed, expiry drops
    exactly the entries whose non-zero deadline has passed, a merge lets local
    entries win, and a restart loads the bucket's entries less the jobs with a
    receipt. *)
Theorem queue_refines_map q : queue_ok q ->
  (forall e, queue_map (OrchestratorQueue_add q e) = <[qe_job_id e := e]> (queue_map q)) /\
  (forall j, queue_map (OrchestratorQueue_remove q j).1 = delete j (queue_map q) /\
     (OrchestratorQueue_remove q j).2 = bool_decide (is_Some (queue_map q !! j))) /\
  (forall js, queue_map (OrchestratorQueue_remove_many q js).1 = foldl (fun m j => delete j m) (queue_map q) js /\
     (OrchestratorQueue_remove_many q js).2 =
       (OrchestratorQueue_depth q None -
        OrchestratorQueue_depth (OrchestratorQueue_remove_many q js).1 None)%Z) /\
  (forall j a d, queue_map (OrchestratorQueue_replay q j a d) =
     alter (fun e => mkEntry (qe_job_id e) (qe_assigned_hotkey e) (qe_assigned_worker e)
                       (qe_manifest_uri e) (qe_grant_uri e) d a (qe_created_unix e)) j (queue_map q)) /\
  (forall now j, queue_map (OrchestratorQueue_prune_expired q now).1 !! j =
     match queue_map q !! j with
     | Some e => if expired now e then None else Some e
     | None => None
     end) /\
  (forall now, (OrchestratorQueue_prune_expired q now).2 = List.filter (expired now) (OrchestratorQueue_iter q)) /\
  (forall st j, queue_map (merge q (Some st)) !! j =
     match queue_map q !! j with
     | Some e => Some e
     | None => find (fun e => String.eqb j (qe_job_id e)) (qs_outstanding st)
     end) /\
  (forall st r, queue_map (reconcile q (Some st) r) =
     foldl (fun m j => delete j m) (entries_map (qs_outstanding st)) r).
Proof.
  intros Hq. pose proof (queue_nodup q Hq) as Hn.
  split; [intros e; apply dict_gmap_set|]. split; [intros j; by apply remove_refines|].
  split; [intros js; by apply remove_many_refines|]. split; [intros j a d; apply replay_refines|].
  split; [intros now j; by apply prune_refines|]. split; [intros now; by apply prune_returns|].
  split; [intros st j; unfold queue_map; rewrite !dict_gmap_lookup; apply fold_setdefault_lookup|].
  intros st r. apply reconcile_refines.
Qed.

(** C5. A flush that reports a write published exactly the orchestrator's
    outstanding entries: a reader of the bucket gets them in order, under the
    queue's tag and a snapshot number above every earlier one; the queue is then
    clean, and no entry that was outstanding before the flush was dropped, even
    when another writer's snapshot had to be merged. *)
Theorem flush_publishes {S} `{ObjectStoreLaws S} force now1 now2 q (s : S) q' s' :
  OrchestratorQueue_flush force now1 now2 (q, s) = ((q', s'), Ok true) ->
  oq_role q <> EmptyString -> queue_printable q' = true ->
  exists st, read_queue (oq_netuid q) (oq_run_id q) (oq_role q) None s' = (s', Ok (Some st)) /\
    qs_outstanding st = OrchestratorQueue_iter q' /\ qs_etag st = oq_etag q' /\
    qs_snapshot_id st = oq_snapshot_id q' /\ (oq_snapshot_id q < oq_snapshot_id q')%Z /\
    oq_dirty q' = false /\ oq_pending_changes q' = 0%Z /\
    forall k x, dict_get k (oq_outstanding q) = Some x -> dict_get k (oq_outstanding q') = Some x.
Proof.
  intros Hf Hr Hp. destruct (flush_true_cases _ _ _ _ _ _ _ Hf)
    as (uri & q1 & now & im & s1 & e & Hu & Hput & Hk & -> & Hsid & Hrole & _ & _ & Hkeep).
  eexists. split.
  { apply (read_published q (flush_end q1 e) now s1 s' uri im e); try done. by rewrite (uri_stable s s1). }
  split; [done|]. split; [done|]. split; [done|]. split; [exact Hsid|]. done.
Qed.

(** The object at the queue's address is not a queue document. *)
Definition not_a_queue {S} `{ObjectStore S} (q : OrchestratorQueue) (s : S) : Prop :=
  exists uri body t, queue_uri s (oq_netuid q) (oq_run_id q) (oq_role q) = Ok uri /\
    os_get_with_etag uri None s = (s, Ok (Some body, Some t)) /\ decode_queue body (Some t) = Ok None.


(** Restart: an orchestrator that starts afresh on the bucket another one
    flushed to recovers its outstanding entries except those whose receipts have
    landed, its tag and its snapshot number, and has something to publish
    exactly when receipts were removed. *)
Theorem restart_recovers {S} `{ObjectStoreLaws S} force now1 now2 q (s : S) q' s' n receipts :
  OrchestratorQueue_flush force now1 now2 (q, s) = ((q', s'), Ok true) ->
  queue_ok q' -> oq_role q <> EmptyString -> queue_printable q' = true ->
  exists q1, OrchestratorQueue_reconcile_from_bucket receipts
      (OrchestratorQueue_init (oq_netuid q) (oq_run_id q) (oq_role q) n, s') = ((q1, s'), Ok tt) /\
    queue_map q1 = foldl (fun m j => delete j m) (queue_map q') receipts /\
    oq_etag q1 = oq_etag q' /\ oq_snapshot_id q1 = oq_snapshot_id q' /\
    oq_dirty q1 = bool_decide (receipts <> []).
Proof.
  intros Hf Hq Hr Hp. destruct (flush_true_cases _ _ _ _ _ _ _ Hf)
    as (uri & q1 & now & im & s1 & e & Hu & Hput & Hk & -> & _ & Hrole & _ & _ & _).
  assert (read_queue (oq_netuid q) (oq_run_id q) (oq_role q) None s' =
    (s', Ok (Some (mkQueueState (oq_role q) now (oq_snapshot_id q1) (dict_values (oq_outstanding q1)) (Some e) QUEUE_VERSION))))
    as Hread.
  { apply (read_published q (flush_end q1 e) now s1 s' uri im e); try done. by rewrite (uri_stable s s1). }
  apply queue_ok_entries in Hq as (Ho & _ & Hs). cbn in Ho, Hs.
  eexists. split; [unfold OrchestratorQueue_reconcile_from_bucket; cbn [oq_netuid oq_run_id oq_role OrchestratorQueue_init];
    by rewrite Hread|].
  rewrite reconcile_refines. cbn [qs_outstanding]. rewrite entries_map_values by done.
  split; [done|]. split; [done|]. split; [cbn; lia|]. by destruct receipts.
Qed.

(** The scan that retires finished jobs finds them: from the receipt key
    the worker writes under, the job id is recovered; and a scan whose listing
    fits the limit returns exactly the jobs of the listed [.json] receipts that
    are recent enough. *)
Theorem receipt_scan_exact :
  (forall b netuid run_id hotkey job_id attempt,
     segment b = true -> segment run_id = true -> segment hotkey = true -> segment job_id = true ->
     startswith "hotkey=" b = false -> startswith "hotkey=" run_id = false -> job_id <> EmptyString ->
     job_id_from_receipt_uri (join_uri b (receipt_key netuid run_id hotkey job_id attempt)) = Some job_id) /\
  (forall since limit entries res,
     scan_loop since limit entries 0 [] = Ok res -> (Z.of_nat (length entries) <= limit)%Z ->
     forall j, j ∈ res <-> exists uri mtime size, (uri, mtime, size) ∈ entries /\
       endswith ".json" uri = true /\ counts_since since mtime /\ job_id_from_receipt_uri uri = Some j).
Proof.
  split; [intros; by apply receipt_uri_job_id|]. intros since limit entries res H Hl j.
  rewrite (scan_loop_spec _ _ _ _ _ _ H) by lia. split; [intros [Hin|?]; [by apply elem_of_nil in Hin|done]|by right].
Qed.

(** C7. A mutation that runs between a flush's bucket write and its final
    bookkeeping is forgotten: the entry is outstanding in memory, the published
    snapshot does not have it, and yet the queue counts as clean, so neither the
    background thread nor [flush()] publishes it. *)
Theorem add_during_flush_unpublished {S} `{ObjectStoreLaws S} q (s : S) now uri q1 body im s' e x :
  queue_ok q -> oq_role q <> EmptyString -> queue_printable q = true ->
  dict_get (qe_job_id x) (oq_outstanding q) = None ->
  queue_uri s (oq_netuid q) (oq_run_id q) (oq_role q) = Ok uri ->
  flush_begin q false now = Some (q1, body, im) ->
  os_put_with_etag uri body (Some im) s = (s', Ok e) ->
  let q3 := flush_end (OrchestratorQueue_add q1 x) e in
  OrchestratorQueue_contains q3 (qe_job_id x) = true /\
  (forall n1 n2, OrchestratorQueue_flush false n1 n2 (q3, s') = ((q3, s'), Ok false)) /\
  (forall n1 n2, OrchestratorQueue_flush_loop_turn n1 n2 (q3, s') = ((q3, s'), Ok tt)) /\
  exists st, read_queue (oq_netuid q) (oq_run_id q) (oq_role q) None s' = (s', Ok (Some st)) /\
    qe_job_id x ∉ map qe_job_id (qs_outstanding st).
Proof.
  intros Hq Hr Hp Hx Hu Hb Hput q3. unfold flush_begin in Hb. destruct (negb _); [done|]. injection Hb as <- <- <-.
  split; [unfold OrchestratorQueue_contains, dict_mem; subst q3; cbn; by rewrite dict_get_set_eq|].
  split; [done|]. split; [done|]. eexists. split.
  - apply (read_published q (flush_bump q) now s s' uri _ e Hu Hput); done.
  - cbn [qs_outstanding flush_bump oq_outstanding with_sync]. apply queue_ok_entries in Hq as (Ho & _).
    rewrite values_job_ids by done. by apply dict_get_None.
Qed.

(** ** Witnesses *)

Definition sample_entry (j : string) (deadline : Z) : QueueEntry :=
  mkEntry j "hk1" (Some "w0") ("s3://bk/v3/" +:+ j) None deadline 0 1.

Definition sample_queue : OrchestratorQueue :=
  OrchestratorQueue_add
    (OrchestratorQueue_add (OrchestratorQueue_init 3 "run" "train" 32) (sample_entry "job-a" 5))
    (sample_entry "job-b" 0).

(** Another writer has published job-c. *)
Definition sample_bucket : LocalBucket :=
  snd (fst (OrchestratorQueue_flush true 6 6
    (OrchestratorQueue_add (OrchestratorQueue_init 3 "run" "train" 32) (sample_entry "job-c" 9),
     LocalBucket_init "bk" 5))).

Definition sample_flushed : (OrchestratorQueue * LocalBucket) * result bool :=
  Eval vm_compute in OrchestratorQueue_flush false 7 8 (sample_queue, sample_bucket).

Lemma queue_refines_map_witness :
  queue_map (OrchestratorQueue_add sample_queue (sample_entry "job-z" 1)) =
  <["job-z" := sample_entry "job-z" 1]> (queue_map sample_queue).
Proof.
  assert (queue_ok sample_queue) as Hq.
  { apply (keeps_run (S := LocalBucket) [QAdd (sample_entry "job-a" 5); QAdd (sample_entry "job-b" 0)]
      (OrchestratorQueue_init 3 "run" "train" 32, LocalBucket_init "bk" 5)). apply init_queue_ok. }
  destruct (queue_refines_map sample_queue Hq) as [H _]. apply H.
Defined.

Lemma flush_publishes_witness :
  sample_flushed.2 = Ok true /\
  exists st, read_queue 3 "run" "train" None sample_flushed.1.2 = (sample_flushed.1.2, Ok (Some st)) /\
    map qe_job_id (qs_outstanding st) = ["job-a"; "job-b"; "job-c"].
Proof.
  split; [reflexivity|].
  destruct (flush_publishes false 7 8 sample_queue sample_bucket sample_flushed.1.1 sample_flushed.1.2)
    as (st & H1 & H2 & _); [by vm_compute|done|by vm_compute|].
  exists st. split; [exact H1|]. rewrite H2. by vm_compute.
Defined.


Lemma restart_recovers_witness :
  exists q1, OrchestratorQueue_reconcile_from_bucket ["job-b"]
      (OrchestratorQueue_init 3 "run" "train" 32, sample_flushed.1.2) = ((q1, sample_flushed.1.2), Ok tt) /\
    queue_map q1 = foldl (fun m j => delete j m) (queue_map sample_flushed.1.1) ["job-b"] /\
    oq_etag q1 = oq_etag sample_flushed.1.1 /\ oq_snapshot_id q1 = oq_snapshot_id sample_flushed.1.1 /\
    oq_dirty q1 = bool_decide (["job-b"] <> []).
Proof.
  apply (restart_recovers false 7 8 sample_queue sample_bucket); [by vm_compute| |done|by vm_compute].
  apply queue_ok_entries. split; [|by vm_compute]. split; [refine (bool_decide_unpack _ _); by vm_compute|].
  intros k e. cbn. repeat (case_match; [intros [= <-]; eqb_prop; cbn; congruence|]). intros [=].
Defined.

Lemma add_during_flush_unpublished_witness :
  exists uri q1 body im s' e,
    queue_uri (LocalBucket_init "bk" 5) 3 "run" "train" = Ok uri /\
    flush_begin sample_queue false 7 = Some (q1, body, im) /\
    os_put_with_etag uri body (Some im) (LocalBucket_init "bk" 5) = (s', Ok e) /\
    OrchestratorQueue_contains (flush_end (OrchestratorQueue_add q1 (sample_entry "job-z" 1)) e) "job-z" = true.
Proof.
  eexists _, _, _, _, _, _. split; [reflexivity|]. split; [reflexivity|]. split; [vm_compute; reflexivity|].
  eapply (add_during_flush_unpublished sample_queue (LocalBucket_init "bk" 5) 7 _ _ _ _ _ _ (sample_entry "job-z" 1));
    [|done|by vm_compute|by vm_compute|reflexivity|reflexivity|vm_compute; reflexivity].
  apply (keeps_run (S := LocalBucket) [QAdd (sample_entry "job-a" 5); QAdd (sample_entry "job-b" 0)]
    (OrchestratorQueue_init 3 "run" "train" 32, LocalBucket_init "bk" 5)). apply init_queue_ok.
Defined.
