(* ===== verification/Transport.v ===== *)
(** * Grants, transports and run teardown

    [teuton_runtime/grants.py] (brokers that hand out presigned URLs),
    [teuton_runtime/transport.py] (direct and presigned artifact I/O) and
    [teuton_runtime/lifecycle.py] (deleting the objects of a run).  The S3
    client's [generate_presigned_url] and [urllib] are parameters. *)

From Stdlib Require Import ZArith Lia Ascii.
From stdpp Require Import base gmap strings list.
From S2P Require Import Prelude PyFloat PyVal Json Digest Paths Signatures Codec Protocol Storage.

(** ** Brokers *)

(** [generate_presigned_url(ClientMethod, Params, ExpiresIn)]. *)
Definition presigner : Type := string -> string -> string -> Z -> result string.

Inductive PresignedUrlBroker : Type :=
  | LocalGrantBroker
  | S3PresignedUrlBroker (client : presigner).

(** [now] is [int(time.time())]. *)
Definition PresignedUrlBroker_get_grant (b : PresignedUrlBroker) (now : Z) (uri : string)
    (expires_in : Z) : result PresignedUrlGrant :=
  match b with
  | LocalGrantBroker => Ok (mkGrant "GET" uri uri (now + expires_in) None)
  | S3PresignedUrlBroker client =>
      bk ← parse_uri uri;
      url ← client "get_object" (fst bk) (snd bk) expires_in;
      Ok (mkGrant "GET" uri url (now + expires_in) None)
  end.

Definition PresignedUrlBroker_put_grant (b : PresignedUrlBroker) (now : Z) (uri : string)
    (expires_in : Z) (content_sha256 : option string) : result PresignedUrlGrant :=
  match b with
  | LocalGrantBroker => Ok (mkGrant "PUT" uri uri (now + expires_in) content_sha256)
  | S3PresignedUrlBroker client =>
      bk ← parse_uri uri;
      url ← client "put_object" (fst bk) (snd bk) expires_in;
      Ok (mkGrant "PUT" uri url (now + expires_in) content_sha256)
  end.

(** [bucket_client] is the store's S3 client, which a local bucket lacks. *)
Definition broker_for_mode (mode : string) (bucket_client : option presigner)
    : result (option PresignedUrlBroker) :=
  if String.eqb mode "direct" then Ok None
  else if String.eqb mode "local" then Ok (Some LocalGrantBroker)
  else if String.eqb mode "presigned" then
    match bucket_client with
    | Some c => Ok (Some (S3PresignedUrlBroker c))
    | None => Err (TypeError "S3PresignedUrlBroker requires an S3Bucket with a boto3 client")
    end
  else Err (ValueError ("unknown grant mode: " +:+ mode)).

(** ** Transports *)

Definition PresignedArtifactTransport_validate (grant : option PresignedUrlGrant)
    (method uri : string) (now : Z) : result PresignedUrlGrant :=
  match grant with
  | None => Err (ValueError (method +:+ " grant required for " +:+ uri))
  | Some g =>
      if negb (String.eqb (pg_method g) method) then
        Err (ValueError ("grant method mismatch: " +:+ pg_method g +:+ " != " +:+ method))
      else if negb (String.eqb (pg_canonical_uri g) uri) then
        Err (ValueError "grant canonical URI mismatch")
      else if (pg_expires_unix g <? now)%Z then Err (ValueError "grant expired")
      else Ok g
  end.

Section transport.
Context {S : Type} `{ObjectStore S}.
(** [urlopen(url).read()] and the status of [urlopen(PUT request)]. *)
Context (http_get : string -> result string) (http_put : string -> string -> result Z).

Definition DirectArtifactTransport_get (uri : string) (grant : option PresignedUrlGrant)
    : ST S string := os_get uri.

Definition DirectArtifactTransport_put (uri data : string) (grant : option PresignedUrlGrant)
    : ST S unit := os_put uri data.

(** [has_bucket]: the transport was given a store for local grants. *)
Definition PresignedArtifactTransport_get (has_bucket : bool) (now : Z) (uri : string)
    (grant : option PresignedUrlGrant) : ST S string := fun s =>
  match PresignedArtifactTransport_validate grant "GET" uri now with
  | Err e => (s, Err e)
  | Ok g =>
      if startswith "s3://" (pg_url g) then
        if has_bucket then os_get (pg_url g) s
        else (s, Err (ValueError "local presigned grant requires bucket transport fallback"))
      else (s, http_get (pg_url g))
  end.

Definition PresignedArtifactTransport_put (has_bucket : bool) (now : Z) (uri data : string)
    (grant : option PresignedUrlGrant) : ST S unit := fun s =>
  match PresignedArtifactTransport_validate grant "PUT" uri now with
  | Err e => (s, Err e)
  | Ok g =>
      let digest_ok :=
        match pg_content_sha256 g with
        | Some h => String.eqb (sha256_hexdigest data) h
        | None => true
        end in
      if negb digest_ok then (s, Err (ValueError "presigned grant content sha256 mismatch"))
      else if startswith "s3://" (pg_url g) then
        if has_bucket then os_put (pg_url g) data s
        else (s, Err (ValueError "local presigned grant requires bucket transport fallback"))
      else (s, status ← http_put (pg_url g) data;
               if (400 <=? status)%Z then
                 Err (RuntimeError ("PUT failed with status " +:+ py_str_int status))
               else Ok tt)
  end.

(** ** Run teardown *)

(** The inner loop over the listed URIs; [seen] and [deleted] as in the code. *)
Fixpoint wipe_uris (uris seen : list string) (deleted : Z) (s : S)
    : S * result (list string * Z) :=
  match uris with
  | [] => (s, Ok (seen, deleted))
  | uri :: r =>
      if bool_decide (uri ∈ seen) then wipe_uris r seen deleted s
      else match os_delete uri s with
           | (s1, Err e) => (s1, Err e)
           | (s1, Ok _) => wipe_uris r (uri :: seen) (deleted + 1) s1
           end
  end.

Fixpoint wipe_prefixes (prefixes : list string) (seen : list string) (deleted : Z) (s : S)
    : S * result Z :=
  match prefixes with
  | [] => (s, Ok deleted)
  | k :: r =>
      match os_list (os_uri_for_key s k) s with
      | (s1, Err e) => (s1, Err e)
      | (s1, Ok uris) =>
          match wipe_uris uris seen deleted s1 with
          | (s2, Err e) => (s2, Err e)
          | (s2, Ok (seen', deleted')) => wipe_prefixes r seen' deleted' s2
          end
      end
  end.

Definition wipe_run (netuid : Z) (run_id : string) : ST S Z :=
  wipe_prefixes (run_prefixes netuid run_id) [] 0.
End transport.

(** ** Lemmas *)

Lemma validate_ok grant method uri now g :
  PresignedArtifactTransport_validate grant method uri now = Ok g <->
  grant = Some g /\ pg_method g = method /\ pg_canonical_uri g = uri /\ (now <= pg_expires_unix g)%Z.
Proof.
  unfold PresignedArtifactTransport_validate. destruct grant as [g'|]; [|split; [done|by intros ([=] & _)]].
  destruct (String.eqb (pg_method g') method) eqn:E1; cbn; eqb_prop.
  2:{ split; [done|]. intros ([= ->] & ? & _). done. }
  destruct (String.eqb (pg_canonical_uri g') uri) eqn:E2; cbn; eqb_prop.
  2:{ split; [done|]. intros ([= ->] & _ & ? & _). done. }
  destruct (pg_expires_unix g' <? now)%Z eqn:E3.
  - apply Z.ltb_lt in E3. split; [done|]. intros ([= ->] & _ & _ & ?). lia.
  - apply Z.ltb_ge in E3. split; [by intros [= <-]|]. by intros ([= ->] & _).
Qed.

(** The prefixes of a run as directories. *)
Definition run_dirs (netuid : Z) (run_id : string) : list string :=
  [ run_root netuid run_id;
    root netuid +:+ "/jobs/" +:+ run_id;
    root netuid +:+ "/artifacts/" +:+ run_id;
    root netuid +:+ "/receipts/" +:+ run_id;
    root netuid +:+ "/verdicts/" +:+ run_id;
    audit_root netuid run_id;
    root netuid +:+ "/telemetry/" +:+ run_id ].

Lemma run_prefixes_dirs netuid run_id :
  run_prefixes netuid run_id = map (fun d => d +:+ "/") (run_dirs netuid run_id).
Proof.
  unfold run_prefixes, run_dirs, jobs_prefix, receipts_prefix, verdicts_prefix, telemetry_run_prefix, audit_root, run_root.
  cbn [map]. by rewrite !str_app_assoc.
Qed.

(** The bucket after the objects at [ps] are gone. *)
Definition without (s : LocalBucket) (ps : list string) : LocalBucket :=
  with_tree s (filter (fun kv => kv.1 ∉ ps) (lb_files s)) (lb_dirs s).

Lemma without_nil s : without s [] = s.
Proof.
  destruct s as [b f d c]. unfold without, with_tree. cbn. f_equal. apply map_filter_id. set_solver.
Qed.

Lemma without_lookup s ps p f : lb_files (without s ps) !! p = Some f <-> lb_files s !! p = Some f /\ p ∉ ps.
Proof. cbn. by rewrite map_lookup_filter_Some. Qed.

Lemma without_without s ps qs : without (without s ps) qs = without s (ps ++ qs).
Proof.
  unfold without, with_tree. cbn. f_equal. apply map_eq. intros p. apply option_eq. intros f.
  rewrite !map_lookup_filter_Some. cbn. set_solver.
Qed.

Lemma without_tree s ps : tree_ok s -> tree_ok (without s ps).
Proof.
  intros [Hf Hd Ha Hb]. split; [| |done|done].
  - intros p f a Hp. apply without_lookup in Hp as [Hp _]. by apply (Hf p f).
  - intros d Hin. apply eq_None_not_Some. intros [f Hp]. apply without_lookup in Hp as [Hp _].
    by rewrite (Hd d Hin) in Hp.
Qed.

Lemma without_canonical s ps : canonical_paths s -> canonical_paths (without s ps).
Proof. intros Hc p f Hp. apply without_lookup in Hp as [Hp _]. by apply Hc in Hp. Qed.

Lemma delete_without s p f : canonical_paths s -> lb_files s !! p = Some f ->
  LocalBucket_delete ("s3://" +:+ p) s = (without s [p], Ok tt).
Proof.
  intros Hc Hp. unfold LocalBucket_delete. rewrite (Hc p f Hp). unfold stat. rewrite Hp.
  unfold without. do 3 f_equal. apply map_eq. intros q. apply option_eq. intros g.
  rewrite lookup_delete_Some, map_lookup_filter_Some. cbn. rewrite list_elem_of_singleton. naive_solver.
Qed.

(** Deleting a list of existing objects. *)
Lemma wipe_uris_spec ps : forall s seen n, canonical_paths s -> NoDup ps ->
  (forall p, p ∈ ps -> is_Some (lb_files s !! p)) -> (forall p, p ∈ ps -> "s3://" +:+ p ∉ seen) ->
  exists seen', wipe_uris (map (fun p => "s3://" +:+ p) ps) seen n s =
    (without s ps, Ok (seen', (n + Z.of_nat (length ps))%Z)) /\
    forall u, u ∈ seen' <-> u ∈ seen \/ u ∈ map (fun p => "s3://" +:+ p) ps.
Proof.
  induction ps as [|p ps IH]; intros s seen n Hc Hnd Hex Hseen; cbn [map wipe_uris].
  - exists seen. rewrite without_nil. cbn. rewrite Z.add_0_r. split; [done|]. set_solver.
  - apply NoDup_cons in Hnd as [Hp Hnd]. rewrite bool_decide_false by (apply Hseen; left).
    destruct (Hex p) as [f Hf]; [left|]. cbn [os_delete LocalBucket_store].
    rewrite (delete_without s p f Hc Hf).
    destruct (IH (without s [p]) (("s3://" +:+ p) :: seen) (n + 1)%Z) as (seen' & E & Hs).
    + by apply without_canonical.
    + done.
    + intros q Hq. destruct (Hex q) as [g Hg]; [by right|]. exists g. apply without_lookup. split; [done|].
      rewrite list_elem_of_singleton. by intros ->.
    + intros q Hq. rewrite not_elem_of_cons. split; [|apply Hseen; by right].
      intros E. apply str_app_inv_l in E as ->. done.
    + exists seen'. rewrite E, without_without. cbn [app length]. split; [do 3 f_equal; lia|].
      intros u. rewrite Hs, !elem_of_cons. tauto.
Qed.

Lemma uris_as_paths uris (P : string -> Prop) :
  (forall u, u ∈ uris -> exists p, u = "s3://" +:+ p /\ P p) ->
  exists ps, uris = map (fun p => "s3://" +:+ p) ps /\ Forall P ps.
Proof.
  induction uris as [|u uris IH]; intros H; [by exists []|].
  destruct (H u) as (p & -> & Hp); [left|]. destruct IH as (ps & -> & Hps); [intros v Hv; apply H; by right|].
  exists (p :: ps). split; [done|by constructor].
Qed.

(** Walking the directories of a run. *)
Lemma wipe_prefixes_spec dirs : forall s seen n, tree_ok s -> canonical_paths s ->
  lb_bucket s <> EmptyString ->
  Forall (fun d => path_ok (lb_bucket s +:+ "/" +:+ d) = true /\ lacks newline d = true) dirs ->
  (forall p f, lb_files s !! p = Some f -> "s3://" +:+ p ∉ seen) ->
  exists ps, wipe_prefixes (map (fun d => d +:+ "/") dirs) seen n s =
      (without s ps, Ok (n + Z.of_nat (length ps))%Z) /\ NoDup ps /\
    forall p, p ∈ ps <-> is_Some (lb_files s !! p) /\
      exists d, d ∈ dirs /\ startswith (lb_bucket s +:+ "/" +:+ d +:+ "/") p = true.
Proof.
  induction dirs as [|d dirs IH]; intros s seen n Ht Hc Hne Hall Hseen; cbn [map wipe_prefixes].
  - exists []. rewrite without_nil. cbn. rewrite Z.add_0_r. split; [done|]. split; [constructor|]. set_solver.
  - apply Forall_cons in Hall as [[Hp Hn] Hall].
    destruct (tree_bucket s Ht) as [_ Hb].
    destruct (list_dir_spec s (lb_bucket s) d Ht Hb Hp Hn Hne) as (uris & El & _ & Hnd & Hin).
    cbn [os_list os_uri_for_key LocalBucket_store]. unfold LocalBucket_uri_for_key. rewrite El.
    destruct (uris_as_paths uris (fun p => exists f, lb_files s !! p = Some f)) as (ps & -> & Hps).
    { intros u Hu. apply Hin in Hu as (p & f & -> & Hf & _). eauto. }
    rewrite Forall_forall in Hps.
    destruct (wipe_uris_spec ps s seen n Hc) as (seen' & Ew & Hs').
    { by eapply NoDup_fmap_1. } { intros p Hpp. by destruct (Hps p Hpp) as [f ->]. }
    { intros p Hpp. destruct (Hps p Hpp) as [f Hf]. by apply (Hseen p f). }
    rewrite Ew.
    destruct (IH (without s ps) seen' (n + Z.of_nat (length ps))%Z) as (qs & Eq & Hndq & Hq).
    { by apply without_tree. } { by apply without_canonical. } { done. } { done. }
    { intros p f Hf. apply without_lookup in Hf as [Hf Hnp]. rewrite Hs'. intros [Hx|Hx]; [by apply (Hseen p f)|].
      apply list_elem_of_fmap in Hx as (p' & Ep & Hp'). apply str_app_inv_l in Ep as ->. done. }
    assert (forall p, p ∈ ps <-> is_Some (lb_files s !! p) /\ startswith (lb_bucket s +:+ "/" +:+ d +:+ "/") p = true) as Hps'.
    { intros p. assert (p ∈ ps <-> "s3://" +:+ p ∈ map (fun p => "s3://" +:+ p) ps) as ->.
      { rewrite list_elem_of_fmap. split; [eauto|]. intros (p' & Ep & ?). by apply str_app_inv_l in Ep as ->. }
      rewrite Hin. split.
      - intros (p' & f & Ep & Hf & Hst). apply str_app_inv_l in Ep as <-. eauto.
      - intros [[f Hf] Hst]. eauto 6. }
    exists (ps ++ qs). rewrite Eq, without_without, length_app.
    split; [by rewrite Nat2Z.inj_add, Z.add_assoc|]. split.
    + apply NoDup_app. split; [by eapply NoDup_fmap_1|]. split; [|done]. intros p Hpp Hqq.
      apply Hq in Hqq as [[f Hf] _]. apply without_lookup in Hf as [_ Hnp]. done.
    + intros p. rewrite elem_of_app, Hps', Hq. setoid_rewrite elem_of_cons.
      cbn [lb_bucket without with_tree]. split.
      * intros [[Hi Hst]|[[f Hf] (d' & Hd & Hst)]]; [eauto|]. apply without_lookup in Hf as [Hf _]. split; eauto.
      * intros [[f Hf] (d' & [->|Hd] & Hst)]; [eauto|]. destruct (decide (p ∈ ps)) as [Hi|Hi]; [left; by apply Hps'|].
        right. split; [exists f; by apply without_lookup|eauto].
Qed.

Lemma run_dirs_ok bucket netuid run_id : seg_ok bucket = true -> segment bucket = true ->
  path_ok run_id = true -> lacks newline run_id = true ->
  Forall (fun d => path_ok (bucket +:+ "/" +:+ d) = true /\ lacks newline d = true) (run_dirs netuid run_id).
Proof.
  intros Hb Hs Hr Hn.
  assert (path_ok (root netuid) = true) as Hroot.
  { unfold root. change ("v3/netuid=" +:+ ?x) with ("v3" +:+ "/" +:+ ("netuid=" +:+ x)). rewrite path_ok_cat.
    rewrite (path_ok_segment ("netuid=" +:+ _)); [done|]. unfold segment. rewrite lacks_app. apply py_str_int_segment. }
  assert (lacks newline (root netuid) = true) as Hrn.
  { unfold root. rewrite lacks_app. cbn. pose proof (py_str_int_numchars netuid) as Hnum. unfold lacks.
    induction (py_str_int netuid) as [|c s IH]; [done|]. cbn in *. apply andb_true_iff in Hnum as [Hc Hnum].
    rewrite IH by done. clear -Hc. destruct c as [[] [] [] [] [] [] [] []]; done. }
  unfold run_dirs, run_root, audit_root. repeat constructor; rewrite ?path_ok_cat, ?lacks_app, ?Hrn, ?Hn; try done;
    rewrite (path_ok_segment bucket), Hb by done;
    match goal with |- context [root netuid +:+ ?l +:+ run_id] =>
      let k := eval vm_compute in (str_drop_last 1 (str_drop 1 l)) in
      change (root netuid +:+ l +:+ run_id) with (root netuid +:+ "/" +:+ (k +:+ "/" +:+ run_id)) end;
    rewrite !path_ok_cat, Hroot, Hr; done.
Qed.

(** The count of deleted objects. *)
Lemma wiped_count s ps : NoDup ps -> (forall p, p ∈ ps -> is_Some (lb_files s !! p)) ->
  (0 + Z.of_nat (length ps) = Z.of_nat (size (lb_files s)) - Z.of_nat (size (lb_files (without s ps))))%Z.
Proof.
  intros Hnd Hin. rewrite <- !size_dom.
  assert (dom (lb_files s) = dom (lb_files (without s ps)) ∪ list_to_set ps) as ->.
  { apply set_eq. intros p. rewrite elem_of_union, elem_of_list_to_set, !elem_of_dom. split.
    - intros [f Hf]. destruct (decide (p ∈ ps)); [by right|]. left. exists f. by apply without_lookup.
    - intros [[f Hf]|Hp]; [|auto]. apply without_lookup in Hf as [Hf _]. eauto. }
  rewrite size_union.
  - rewrite size_list_to_set by done. lia.
  - intros p Hp. rewrite elem_of_list_to_set. apply elem_of_dom in Hp as [f Hf]. by apply without_lookup in Hf as [_ ?].
Qed.

(** ** Properties *)

(** Tearing a run down deletes exactly the objects under the run's
    prefixes and counts them: afterwards no graph, state, manifest, queue,
    artifact, receipt, verdict, audit or telemetry object of the run remains,
    every other object is untouched, and so are the run's assignment grants,
    which no prefix of the list covers. *)
Theorem wipe_run_exact netuid run_id s :
  tree_ok s -> canonical_paths s -> seg_ok (lb_bucket s) = true ->
  path_ok run_id = true -> lacks newline run_id = true ->
  exists s' n, wipe_run netuid run_id s = (s', Ok n) /\
    (forall p f, lb_files s' !! p = Some f <-> lb_files s !! p = Some f /\
       existsb (fun k => startswith (lb_bucket s +:+ "/" +:+ k) p) (run_prefixes netuid run_id) = false) /\
    n = (Z.of_nat (size (lb_files s)) - Z.of_nat (size (lb_files s')))%Z /\
    (forall o, lb_files s' !! (lb_bucket s +:+ "/" +:+ object_key netuid run_id o) =
       if is_assignment o then lb_files s !! (lb_bucket s +:+ "/" +:+ object_key netuid run_id o) else None).
Proof.
  intros Ht Hc Hb Hr Hn. destruct (tree_bucket s Ht) as [_ Hs].
  assert (lb_bucket s <> EmptyString) as Hne by (intros E; rewrite E in Hb; done).
  destruct (wipe_prefixes_spec (run_dirs netuid run_id) s [] 0 Ht Hc Hne) as (ps & E & Hnd & Hps).
  { by apply run_dirs_ok. } { intros p f _. apply not_elem_of_nil. }
  assert (forall p, existsb (fun k => startswith (lb_bucket s +:+ "/" +:+ k) p) (run_prefixes netuid run_id) = true <->
    exists d, d ∈ run_dirs netuid run_id /\ startswith (lb_bucket s +:+ "/" +:+ d +:+ "/") p = true) as Hex.
  { intros p. rewrite existsb_exists, run_prefixes_dirs. split.
    - intros (k & Hk & Hst). apply in_map_iff in Hk as (d & <- & Hd). exists d. split; [by apply list_elem_of_In|done].
    - intros (d & Hd & Hst). exists (d +:+ "/"). split; [|done]. apply in_map_iff. exists d.
      split; [done|by apply list_elem_of_In]. }
  assert (forall p f, lb_files (without s ps) !! p = Some f <-> lb_files s !! p = Some f /\
    existsb (fun k => startswith (lb_bucket s +:+ "/" +:+ k) p) (run_prefixes netuid run_id) = false) as Hfiles.
  { intros p f. rewrite without_lookup, <- not_true_iff_false, Hex, Hps. split.
    - intros [Hf Hnp]. split; [done|]. intros Hx. apply Hnp. split; [eauto|done].
    - intros [Hf Hnp]. split; [done|]. intros [_ Hx]. done. }
  exists (without s ps), (0 + Z.of_nat (length ps))%Z. split; [unfold wipe_run; by rewrite run_prefixes_dirs|].
  split; [exact Hfiles|]. split; [apply wiped_count; [done|intros p Hp; by apply Hps in Hp as [? _]]|]. intros o.
  assert (forall k p, startswith (lb_bucket s +:+ "/" +:+ k) (lb_bucket s +:+ "/" +:+ p) = startswith k p) as Hpre.
  { intros k p. rewrite startswith_app_both. by apply (startswith_app_both "/"). }
  destruct (lb_files (without s ps) !! _) as [f|] eqn:Ef.
  - apply Hfiles in Ef as [Ef Hx]. destruct (is_assignment o) eqn:Ea; [done|]. exfalso.
    rewrite (existsb_eq _ (fun k => startswith k (object_key netuid run_id o))) in Hx by (intros; apply Hpre).
    by rewrite object_key_covered in Hx.
  - destruct (is_assignment o) eqn:Ea; [|done]. destruct (lb_files s !! _) as [f|] eqn:Es; [|done]. exfalso.
    apply eq_None_not_Some in Ef. apply Ef. exists f. apply Hfiles. split; [done|].
    rewrite (existsb_eq _ (fun k => startswith k (object_key netuid run_id o))) by (intros; apply Hpre).
    destruct o; try done. apply assignment_not_covered.
Qed.

(** A presigned transport acts only under a valid grant: a write that
    succeeds was covered by an unexpired PUT grant for that very object and, if
    the grant pins a digest, wrote data with that digest; without such a grant
    the store is unchanged. With the local broker's own grants, data written
    before the expiry is read back before the expiry. *)
Theorem presigned_grants {S} `{ObjectStoreLaws S} http_get http_put :
  (forall now uri data grant (s s' : S),
     PresignedArtifactTransport_put http_put true now uri data grant s = (s', Ok tt) ->
     exists g, grant = Some g /\ pg_method g = "PUT" /\ pg_canonical_uri g = uri /\
       (now <= pg_expires_unix g)%Z /\
       (forall h, pg_content_sha256 g = Some h -> h = sha256_hexdigest data)) /\
  (forall now uri data grant (s : S) e,
     PresignedArtifactTransport_validate grant "PUT" uri now = Err e ->
     PresignedArtifactTransport_put http_put true now uri data grant s = (s, Err e)) /\
  (forall now uri data expires_in pin g g' t1 t2 (s s' : S),
     PresignedUrlBroker_put_grant LocalGrantBroker now uri expires_in pin = Ok g ->
     PresignedUrlBroker_get_grant LocalGrantBroker now uri expires_in = Ok g' ->
     startswith "s3://" uri = true -> (t2 <= now + expires_in)%Z ->
     PresignedArtifactTransport_put http_put true t1 uri data (Some g) s = (s', Ok tt) ->
     PresignedArtifactTransport_get http_get true t2 uri (Some g') s' = (s', Ok data)).
Proof.
  split; [|split].
  - intros now uri data grant s s' Hput. unfold PresignedArtifactTransport_put in Hput.
    destruct (PresignedArtifactTransport_validate _ _ _ _) as [g|] eqn:Ev; [|done].
    apply validate_ok in Ev as (-> & H1 & H2 & H3). exists g. repeat split; try done.
    intros h Hh. rewrite Hh in Hput. destruct (String.eqb _ h) eqn:Eh; [|done]. by apply String.eqb_eq in Eh.
  - intros now uri data grant s e Ev. unfold PresignedArtifactTransport_put. by rewrite Ev.
  - intros now uri data expires_in pin g g' t1 t2 s s' [= <-] [= <-] Hst Ht Hput.
    unfold PresignedArtifactTransport_put in Hput.
    destruct (PresignedArtifactTransport_validate _ _ _ _) as [g|] eqn:Ev; [|done].
    apply validate_ok in Ev as ([= <-] & _). cbn [pg_url pg_content_sha256] in Hput.
    destruct (negb _); [done|]. rewrite Hst in Hput. cbn in Hput.
    unfold PresignedArtifactTransport_get.
    assert (PresignedArtifactTransport_validate (Some (mkGrant "GET" uri uri (now + expires_in) None)) "GET" uri t2 =
      Ok (mkGrant "GET" uri uri (now + expires_in) None)) as -> by (by apply validate_ok).
    cbn [pg_url]. rewrite Hst. by apply put_get in Hput.
Qed.

Definition sample_run_ops : list bucket_op :=
  [OpPut "s3://bk/v3/netuid=3/jobs/run/j1/manifest.json" "1";
   OpPut "s3://bk/v3/netuid=3/assignments/run/j1/hotkey=h.json" "2";
   OpPut "s3://bk/v3/netuid=3/jobs/run2/j1/manifest.json" "3"].

Definition sample_run : LocalBucket := fold_left apply_op sample_run_ops (LocalBucket_init "bk" 5).

Lemma wipe_run_exact_witness :
  exists s' n, wipe_run 3 "run" sample_run = (s', Ok n) /\
    n = (Z.of_nat (size (lb_files sample_run)) - Z.of_nat (size (lb_files s')))%Z.
Proof.
  destruct (wipe_run_exact 3 "run" sample_run
      (reachable_tree sample_run_ops "bk" 5 eq_refl) (reachable_canonical sample_run_ops "bk" 5))
    as (s' & n & H1 & _ & H2 & _); [vm_compute; reflexivity|reflexivity|reflexivity|].
  exists s', n. exact (conj H1 H2).
Defined.

Lemma presigned_grants_witness :
  PresignedArtifactTransport_put (fun _ _ => Ok 200%Z) true 7 "s3://bk/k" "data" None sample_run =
  (sample_run, Err (ValueError "PUT grant required for s3://bk/k")).
Proof.
  destruct (presigned_grants (S := LocalBucket) (fun _ => Ok EmptyString) (fun _ _ => Ok 200%Z)) as (_ & H & _).
  apply H. reflexivity.
Defined.
