(* ===== verification/Discovery.v ===== *)
(** * Worker discovery ([teuton_runtime/discovery.py])

    Heartbeat objects as the registry of workers, the scan that turns them into
    records, and the reconstruction of miners from receipts and manifests when
    no heartbeat is live.  [head] is the bucket's method of that name, if it has
    one. *)

From Stdlib Require Import ZArith Lia Ascii.
From stdpp Require Import base gmap sets strings list sorting.
From S2P Require Import Prelude PyFloat PyVal Json Paths Codec Protocol ProtocolFacts Storage StoreReads.

(** ** Records *)

Record DiscoveryRecord := mkDiscovery {
  dr_miner : MinerIdentity;
  dr_worker : WorkerIdentity;
  dr_run_id : string;
  dr_last_seen_unix : Z;
  dr_role : string
}.

Definition discovery_record_from_dict (netuid : Z) (role : string) (data : dict pyval) : result DiscoveryRecord :=
  wv ← item data "worker";
  wd ← as_dict wv;
  worker ← WorkerIdentity_from_dict wd;
  md ← as_dict (por (get data "miner")
    (PDict [("netuid", PInt netuid); ("hotkey_ss58", PStr (wi_hotkey_ss58 worker));
            ("capabilities", PDict (wi_capabilities worker))]));
  miner ← MinerIdentity_from_dict md;
  run_id ← str_or data "run_id" "";
  last_seen ← py_int (por (get data "last_seen_unix") (PInt 0));
  role ← as_str (por (get data "role") (PStr role));
  Ok (mkDiscovery miner worker run_id last_seen role).

(** The sort key [(role, run_id, hotkey, worker_id)], compared as a tuple. *)
Definition record_key (r : DiscoveryRecord) : list string :=
  [dr_role r; dr_run_id r; wi_hotkey_ss58 (dr_worker r); wi_worker_id (dr_worker r)].

Fixpoint strings_leb (a b : list string) : bool :=
  match a, b with
  | [], _ => true
  | _ :: _, [] => false
  | x :: a', y :: b' => if String.eqb x y then strings_leb a' b' else String.leb x y
  end.

Definition record_leb (r1 r2 : DiscoveryRecord) : bool := strings_leb (record_key r1) (record_key r2).

(** ** The bucket backend *)

Record BucketDiscoveryBackend := mkBackend {
  bd_netuid : Z;
  bd_run_id : string;
  bd_role : string;
  bd_heartbeat_ttl_sec : option float
}.

Definition build_discovery_backend (backend : string) (netuid : Z) (run_id role : string) (ttl : option float)
    : result BucketDiscoveryBackend :=
  if String.eqb backend "bucket" then Ok (mkBackend netuid run_id role ttl)
  else Err (ValueError ("unknown discovery backend: " +:+ backend)).

Definition BucketDiscoveryBackend_prefix (self : BucketDiscoveryBackend) : string :=
  if String.eqb (bd_role self) "audit" then auditors_prefix (bd_netuid self) else miners_prefix (bd_netuid self).

Definition BucketDiscoveryBackend_heartbeat_key (self : BucketDiscoveryBackend) (worker : WorkerIdentity) : string :=
  if String.eqb (bd_role self) "audit"
  then auditor_heartbeat_key (bd_netuid self) (wi_hotkey_ss58 worker) (wi_worker_id worker)
  else worker_heartbeat_key (bd_netuid self) (wi_hotkey_ss58 worker) (wi_worker_id worker).

Definition heartbeat_dict (self : BucketDiscoveryBackend) (miner : MinerIdentity) (worker : WorkerIdentity) (now : Z)
    : dict pyval :=
  [("miner", PDict (MinerIdentity_to_dict miner)); ("worker", PDict (WorkerIdentity_to_dict worker));
   ("run_id", PStr (bd_run_id self)); ("role", PStr (bd_role self)); ("last_seen_unix", PInt now)].

(** A record of the run asked for that is not too old; the difference of a
    float and an integer raises when the integer is beyond the floats. *)
Definition record_live (run_id : option string) (ttl : option float) (now : float) (r : DiscoveryRecord) : result bool :=
  if match run_id with Some id => negb (String.eqb (dr_run_id r) id) | None => false end then Ok false
  else match ttl with
       | None => Ok true
       | Some t => seen ← float_of_int (dr_last_seen_unix r); Ok (negb (fltb t (fsub now seen)))
       end.

Section scan.
Context {S : Type} `{ObjectStore S}.

(** [now] is the clock's answer in the call. *)
Definition BucketDiscoveryBackend_advertise_worker (self : BucketDiscoveryBackend) (miner : MinerIdentity)
    (worker : WorkerIdentity) (now : float) : ST S unit :=
  uri ← uri_of (BucketDiscoveryBackend_heartbeat_key self worker);
  t ← st_lift (int_of_float now);
  os_put_json uri (PDict (heartbeat_dict self miner worker t)).

Fixpoint scan_records (netuid : Z) (role : string) (run_id : option string) (ttl : option float) (now : float)
    (uris : list string) : ST S (list DiscoveryRecord) :=
  match uris with
  | [] => mret []
  | uri :: uris' =>
      if negb (endswith "/heartbeat.json" uri) then scan_records netuid role run_id ttl now uris'
      else
        got ← skip_errors (read_record (discovery_record_from_dict netuid role) uri);
        match got with
        | None => scan_records netuid role run_id ttl now uris'
        | Some r =>
            live ← st_lift (record_live run_id ttl now r);
            rest ← scan_records netuid role run_id ttl now uris';
            mret (if (live : bool) then r :: rest else rest)
        end
  end.

Definition scan_bucket_discovery_records (netuid : Z) (role : string) (run_id : option string) (ttl : option float)
    (now : float) : ST S (list DiscoveryRecord) :=
  prefix ← uri_of (if String.eqb role "audit" then auditors_prefix netuid else miners_prefix netuid);
  uris ← os_list prefix;
  records ← scan_records netuid role run_id ttl now uris;
  mret (sort_by record_leb records).

Definition BucketDiscoveryBackend_discover_workers (self : BucketDiscoveryBackend) (now : float)
    : ST S (list DiscoveryRecord) :=
  scan_bucket_discovery_records (bd_netuid self) (bd_role self) (Some (bd_run_id self)) (bd_heartbeat_ttl_sec self) now.
End scan.

(** ** Miners seen in the bucket *)

Record BucketMinerObservation := mkObservation {
  bo_hotkey_ss58 : string;
  bo_worker_id : option string;
  bo_last_seen_unix : Z;
  bo_n_receipts : Z;
  bo_n_jobs : Z;
  bo_sources : gset string
}.

Definition BucketMinerObservation_to_dict (o : BucketMinerObservation) : dict pyval :=
  [("hotkey_ss58", PStr (bo_hotkey_ss58 o)); ("worker_id", pstr_opt (bo_worker_id o));
   ("last_seen_unix", PInt (bo_last_seen_unix o)); ("n_receipts", PInt (bo_n_receipts o));
   ("n_jobs", PInt (bo_n_jobs o)); ("sources", PList (map PStr (sorted_strings (elements (bo_sources o)))))].

(** [by_key], in the order in which its keys came up. *)
Definition observation_key (o : BucketMinerObservation) : string * option string := (bo_hotkey_ss58 o, bo_worker_id o).

Definition bump_observation (source : string) (ts jobs receipts : Z) (o : BucketMinerObservation) : BucketMinerObservation :=
  mkObservation (bo_hotkey_ss58 o) (bo_worker_id o) (Z.max (bo_last_seen_unix o) ts) (bo_n_receipts o + receipts)
    (bo_n_jobs o + jobs) ({[ source ]} ∪ bo_sources o).

Fixpoint bump (hotkey : string) (worker_id : option string) (source : string) (ts jobs receipts : Z)
    (by_key : list BucketMinerObservation) : list BucketMinerObservation :=
  match by_key with
  | [] => [bump_observation source ts jobs receipts (mkObservation hotkey worker_id 0 0 0 ∅)]
  | o :: rest =>
      if bool_decide (observation_key o = (hotkey, worker_id)) then bump_observation source ts jobs receipts o :: rest
      else o :: bump hotkey worker_id source ts jobs receipts rest
  end.

Definition observation_leb (a b : BucketMinerObservation) : bool :=
  strings_leb [bo_hotkey_ss58 a; default "" (bo_worker_id a)] [bo_hotkey_ss58 b; default "" (bo_worker_id b)].

Definition segment_value (uri marker : string) : option string :=
  match List.find (startswith marker) (split_on "/" uri) with
  | Some part => Some (str_drop (String.length marker) part)
  | None => None
  end.

(** [uri.split(root, 1)[-1].split("/", 1)[0]]. *)
Definition run_id_of_receipt (receipts_root uri : string) : string :=
  let rest := match split_once receipts_root uri with Some (_, b) => b | None => uri end in
  match split_once "/" rest with Some (a, _) => a | None => rest end.

(** The observations so far and the number of objects looked at. *)
Record derive_state := mkDerive { dv_by_key : list BucketMinerObservation; dv_scanned : Z }.

Definition at_limit (max_objects : option Z) (st : derive_state) : bool :=
  match max_objects with Some n => (n <=? dv_scanned st)%Z | None => false end.

Definition count_object (st : derive_state) : derive_state := mkDerive (dv_by_key st) (dv_scanned st + 1).

Section derive.
Context {S : Type} `{ObjectStore S}.
Context (head : option (string -> ST S (option (Z * Z)))).

Definition safe_head (uri : string) : ST S (option (Z * Z)) :=
  match head with
  | None => mret None
  | Some h => st_try (h uri) (fun _ => mret None)
  end.

Definition head_mtime (h : option (Z * Z)) : Z := match h with Some (_, m) => m | None => 0 end.

(** The loops answer the state and whether the limit was met. *)
Fixpoint derive_receipts (max_objects : option Z) (uris : list string) (st : derive_state) : ST S (derive_state * bool) :=
  match uris with
  | [] => mret (st, false)
  | uri :: uris' =>
      if at_limit max_objects st then mret (st, true)
      else if negb (endswith ".json" uri) then derive_receipts max_objects uris' st
      else
        let st := count_object st in
        match segment_value uri "hotkey=" with
        | Some hotkey =>
            if String.eqb hotkey "" then derive_receipts max_objects uris' st
            else
              h ← safe_head uri;
              derive_receipts max_objects uris'
                (mkDerive (bump hotkey None "receipts" (head_mtime h) 0 1 (dv_by_key st)) (dv_scanned st))
        | None => derive_receipts max_objects uris' st
        end
  end.

Fixpoint derive_manifests (max_objects : option Z) (uris : list string) (st : derive_state) : ST S (derive_state * bool) :=
  match uris with
  | [] => mret (st, false)
  | uri :: uris' =>
      if at_limit max_objects st then mret (st, true)
      else if negb (endswith "/manifest.json" uri) then derive_manifests max_objects uris' st
      else
        let st := count_object st in
        got ← skip_errors (read_record JobManifestV3_from_dict uri);
        match got with
        | None => derive_manifests max_objects uris' st
        | Some m =>
            h ← safe_head uri;
            derive_manifests max_objects uris'
              (mkDerive (bump (jm_assigned_hotkey m) (jm_assigned_worker m) "manifests"
                           (Z.max (head_mtime h) (jm_created_unix m)) 1 0 (dv_by_key st)) (dv_scanned st))
        end
  end.

Definition list_run_ids_from_receipts (netuid : Z) : ST S (list string) :=
  let receipts_root := root netuid +:+ "/receipts/" in
  prefix ← uri_of receipts_root;
  uris ← os_list prefix;
  mret (sorted_strings (remove_dups (filter (fun r => r <> EmptyString) (map (run_id_of_receipt receipts_root) uris)))).

Fixpoint derive_runs (netuid : Z) (max_objects : option Z) (run_ids : list string) (st : derive_state)
    : ST S (list BucketMinerObservation) :=
  match run_ids with
  | [] => mret (dv_by_key st)
  | rid :: run_ids' =>
      if String.eqb rid "" then derive_runs netuid max_objects run_ids' st
      else
        rp ← uri_of (receipts_prefix netuid rid);
        receipts ← os_list rp;
        out1 ← derive_receipts max_objects receipts st;
        if snd (out1 : derive_state * bool) then mret (dv_by_key (fst out1))
        else
          jp ← uri_of (jobs_prefix netuid rid);
          jobs ← os_list jp;
          out2 ← derive_manifests max_objects jobs (fst out1);
          if snd (out2 : derive_state * bool) then mret (dv_by_key (fst out2))
          else derive_runs netuid max_objects run_ids' (fst out2)
  end.

Definition derive_miners_from_bucket (netuid : Z) (run_id : option string) (max_objects : option Z)
    : ST S (list BucketMinerObservation) :=
  run_ids ← match run_id with
            | Some r => if String.eqb r "" then list_run_ids_from_receipts netuid else mret [r]
            | None => list_run_ids_from_receipts netuid
            end;
  obs ← derive_runs netuid max_objects run_ids (mkDerive [] 0);
  mret (sort_by observation_leb obs).
End derive.

(** ** Lemmas *)

Lemma strings_leb_total a : forall b, strings_leb a b = true \/ strings_leb b a = true.
Proof.
  induction a as [|x a IH]; intros [|y b]; cbn; auto. rewrite (String.eqb_sym y x).
  destruct (String.eqb x y); [apply IH|]. apply leb_string_total.
Qed.

Lemma strings_leb_trans a : forall b c, strings_leb a b = true -> strings_leb b c = true -> strings_leb a c = true.
Proof.
  induction a as [|x a IH]; intros [|y b] [|z c]; cbn; try done.
  destruct (String.eqb_spec x y) as [->|Hxy].
  - destruct (String.eqb_spec y z) as [->|Hyz]; [apply IH|done].
  - destruct (String.eqb_spec y z) as [->|Hyz].
    + apply String.eqb_neq in Hxy as ->. done.
    + intros H1 H2. destruct (String.eqb_spec x z) as [->|Hxz]; [|by eapply leb_string_trans].
      destruct Hxy. by apply (anti_symm String.le); apply Is_true_true.
Qed.

(** Reading back the record of a heartbeat. *)
Lemma heartbeat_read netuid role0 self miner worker t :
  bd_role self <> EmptyString -> json_ok (PDict (heartbeat_dict self miner worker t)) = true ->
  discovery_record_from_dict netuid role0 (canon_dict (heartbeat_dict self miner worker t)) =
  Ok (mkDiscovery (MinerIdentity_normal miner) (WorkerIdentity_normal worker) (bd_run_id self) t (bd_role self)).
Proof.
  intros Hrole Hok. pose proof (json_ok_keys_ok _ Hok) as Hk.
  assert (json_ok (PDict (MinerIdentity_to_dict miner)) = true) as Hm by (by apply (json_ok_get _ "miner" _ Hok)).
  assert (json_ok (PDict (WorkerIdentity_to_dict worker)) = true) as Hw by (by apply (json_ok_get _ "worker" _ Hok)).
  assert (WorkerIdentity_from_dict (canon_dict (WorkerIdentity_to_dict worker)) = Ok (WorkerIdentity_normal worker)) as Rw
    by (revert Hw; exact (wire_from_sorted (A := WorkerIdentity) worker)).
  assert (MinerIdentity_from_dict (canon_dict (MinerIdentity_to_dict miner)) = Ok (MinerIdentity_normal miner)) as Rm
    by (revert Hm; exact (wire_from_sorted (A := MinerIdentity) miner)).
  unfold discovery_record_from_dict. rewrite item_canon, !get_canon, str_or_canon by done.
  change (item (heartbeat_dict self miner worker t) "worker") with (Ok (PDict (WorkerIdentity_to_dict worker))).
  change (get (heartbeat_dict self miner worker t) "miner") with (PDict (MinerIdentity_to_dict miner)).
  change (get (heartbeat_dict self miner worker t) "last_seen_unix") with (PInt t).
  change (get (heartbeat_dict self miner worker t) "role") with (PStr (bd_role self)).
  cbn [rmap mbind result_bind]. rewrite (canon_PDict (WorkerIdentity_to_dict worker)). cbn [as_dict mbind result_bind].
  rewrite Rw. cbn [mbind result_bind].
  unfold por. rewrite !canon_truthy. change (truthy (PDict (MinerIdentity_to_dict miner))) with true.
  cbv iota. rewrite (canon_PDict (MinerIdentity_to_dict miner)). cbn [as_dict mbind result_bind].
  rewrite Rm. cbn [mbind result_bind].
  apply String.eqb_neq in Hrole. destruct t; cbn; by rewrite Hrole.
Qed.

Section exact.
Context {S : Type} `{ObjectStoreLaws S}.
Context (netuid : Z) (role : string) (run_id : option string) (ttl : option float) (now : float).

Notation read uri := (read_record (discovery_record_from_dict netuid role) uri).

Lemma scan_records_reads uris : reads (S := S) (scan_records netuid role run_id ttl now uris).
Proof.
  induction uris as [|uri uris IH]; cbn [scan_records]; [auto with reads|]. destruct (negb _); [done|].
  apply reads_bind; [auto with reads|]. intros [r|]; [|done].
  apply reads_bind; [auto with reads|]. intros live. apply reads_bind; [done|]. intros rest. auto with reads.
Qed.

Lemma scan_records_spec uris s s' records : scan_records netuid role run_id ttl now uris s = (s', Ok records) ->
  s' = s /\ forall r, r ∈ records <->
    exists uri, uri ∈ uris /\ endswith "/heartbeat.json" uri = true /\ read uri s = (s, Ok r) /\
      record_live run_id ttl now r = Ok true.
Proof.
  intros Hs. pose proof (scan_records_reads uris s) as Hr. rewrite Hs in Hr. cbn in Hr. subst s'. split; [done|].
  revert records Hs. induction uris as [|uri uris IH]; intros records Hs; cbn [scan_records] in Hs.
  { injection Hs as <-. intros r. split; [by intros ?%elem_of_nil|]. by intros (u & ?%elem_of_nil & _). }
  destruct (endswith "/heartbeat.json" uri) eqn:Ee; cbn [negb] in Hs.
  2:{ intros r. rewrite (IH _ Hs). split; intros (u & Hu & Hrest); exists u; (split; [|done]); [by right|].
      apply elem_of_cons in Hu as [->|Hu]; [|done]. destruct Hrest as [? _]. congruence. }
  cbv [mbind st_bind] in Hs. pose proof (reads_record (discovery_record_from_dict netuid role) uri s) as Hrd.
  unfold skip_errors, st_try in Hs. cbv [mbind st_bind mret st_ret] in Hs.
  destruct (read uri s) as [s1 [r0|e]] eqn:Erd; cbn in Hrd; subst s1.
  - unfold st_lift in Hs. destruct (record_live run_id ttl now r0) as [live|] eqn:El; [|done].
    destruct (scan_records netuid role run_id ttl now uris s) as [s2 [rest|]] eqn:Er; [|done].
    injection Hs as -> <-. specialize (IH _ eq_refl). intros r. destruct live.
    + rewrite elem_of_cons, IH. split.
      * intros [->|(u & Hu & Hrest)]; [exists uri; split; [left|done]|exists u; split; [by right|done]].
      * intros (u & Hu & Hend & Hread & Hlive). apply elem_of_cons in Hu as [->|Hu]; [|right; by exists u].
        rewrite Erd in Hread. injection Hread as ->. by left.
    + rewrite IH. split; intros (u & Hu & Hend & Hread & Hlive); exists u; (split; [|done]); [by right|].
      apply elem_of_cons in Hu as [->|Hu]; [|done]. rewrite Erd in Hread. injection Hread as ->. congruence.
  - destruct (catchable e); [|done]. intros r. rewrite (IH _ Hs).
    split; intros (u & Hu & Hend & Hread & Hlive); exists u; (split; [|done]); [by right|].
    apply elem_of_cons in Hu as [->|Hu]; [|done]. congruence.
Qed.
End exact.

Lemma heartbeat_uri_ends {S} `{ObjectStoreLaws S} (s : S) self worker :
  endswith "/heartbeat.json" (os_uri_for_key s (BucketDiscoveryBackend_heartbeat_key self worker)) = true.
Proof.
  destruct (uri_for_key_ends s) as [b Hb]. rewrite Hb.
  unfold BucketDiscoveryBackend_heartbeat_key. destruct (String.eqb _ _);
    [unfold auditor_heartbeat_key|unfold worker_heartbeat_key]; rewrite <- !str_app_assoc; apply endswith_app.
Qed.

Lemma discover_spec {S} `{ObjectStoreLaws S} self now (s s' : S) records :
  BucketDiscoveryBackend_discover_workers self now s = (s', Ok records) ->
  s' = s /\ sorted_by record_leb records /\
  exists uris, os_list (os_uri_for_key s (BucketDiscoveryBackend_prefix self)) s = (s, Ok uris) /\
    forall r, r ∈ records <->
      exists uri, uri ∈ uris /\ endswith "/heartbeat.json" uri = true /\
        read_record (discovery_record_from_dict (bd_netuid self) (bd_role self)) uri s = (s, Ok r) /\
        record_live (Some (bd_run_id self)) (bd_heartbeat_ttl_sec self) now r = Ok true.
Proof.
  unfold BucketDiscoveryBackend_discover_workers, scan_bucket_discovery_records. intros Hd. st_step Hd. injection E as <-.
  st_step Hd. pose proof (reads_list (os_uri_for_key s (BucketDiscoveryBackend_prefix self)) s) as Hl.
  change (os_list (os_uri_for_key s (BucketDiscoveryBackend_prefix self)) s = (s0, Ok x)) in E. rewrite E in Hl. cbn in Hl. subst s0.
  st_step Hd. apply scan_records_spec in E0 as [-> Hspec]. injection Hd as <- <-. split; [done|]. split.
  - apply sort_by_sorted; intros; [apply strings_leb_total|by eapply strings_leb_trans].
  - exists x. split; [done|]. intros r. by rewrite sort_by_elem.
Qed.

(** *** Observations *)

Definition obs_get (k : string * option string) (l : list BucketMinerObservation) : option BucketMinerObservation :=
  List.find (fun o => bool_decide (observation_key o = k)) l.

Definition receipts_of (k : string * option string) (l : list BucketMinerObservation) : Z :=
  match obs_get k l with Some o => bo_n_receipts o | None => 0 end.

Definition jobs_of (k : string * option string) (l : list BucketMinerObservation) : Z :=
  match obs_get k l with Some o => bo_n_jobs o | None => 0 end.

Lemma obs_get_bump hotkey worker source ts jobs receipts l k :
  obs_get k (bump hotkey worker source ts jobs receipts l) =
  if bool_decide ((hotkey, worker) = k)
  then Some (bump_observation source ts jobs receipts
               (default (mkObservation hotkey worker 0 0 0 ∅) (obs_get (hotkey, worker) l)))
  else obs_get k l.
Proof.
  unfold obs_get. induction l as [|o l IH]; cbn [bump List.find].
  - cbn. unfold observation_key. cbn. by case_bool_decide.
  - destruct (bool_decide_reflect (observation_key o = (hotkey, worker))) as [E|E]; cbn [List.find].
    + change (observation_key (bump_observation source ts jobs receipts o)) with (observation_key o). rewrite E.
      by case_bool_decide.
    + rewrite IH. destruct (bool_decide_reflect ((hotkey, worker) = k)) as [Ek|E2]; [|done].
      subst k. by rewrite (bool_decide_false (observation_key o = (hotkey, worker))).
Qed.

Lemma receipts_of_bump hotkey worker source ts jobs receipts l k :
  receipts_of k (bump hotkey worker source ts jobs receipts l) =
  (receipts_of k l + if bool_decide ((hotkey, worker) = k) then receipts else 0)%Z.
Proof.
  unfold receipts_of. rewrite obs_get_bump. case_bool_decide as E; [subst k|lia].
  destruct (obs_get (hotkey, worker) l); cbn; lia.
Qed.

Lemma jobs_of_bump hotkey worker source ts jobs receipts l k :
  jobs_of k (bump hotkey worker source ts jobs receipts l) =
  (jobs_of k l + if bool_decide ((hotkey, worker) = k) then jobs else 0)%Z.
Proof.
  unfold jobs_of. rewrite obs_get_bump. case_bool_decide as E; [subst k|lia].
  destruct (obs_get (hotkey, worker) l); cbn; lia.
Qed.

Lemma bump_in hotkey worker source ts jobs receipts l k :
  k ∈ map observation_key (bump hotkey worker source ts jobs receipts l) ->
  k = (hotkey, worker) \/ k ∈ map observation_key l.
Proof.
  induction l as [|o l IH]; cbn [bump map].
  - intros ->%list_elem_of_singleton. by left.
  - case_bool_decide as E; cbn [map].
    + change (observation_key (bump_observation source ts jobs receipts o)) with (observation_key o). by right.
    + intros [->|Hk]%elem_of_cons; [right; left|]. destruct (IH Hk); [by left|right; by right].
Qed.

Lemma bump_keys hotkey worker source ts jobs receipts l : NoDup (map observation_key l) ->
  NoDup (map observation_key (bump hotkey worker source ts jobs receipts l)).
Proof.
  induction l as [|o l IH]; cbn [bump map]; intros Hnd; [apply NoDup_singleton|].
  apply NoDup_cons in Hnd as [Ho Hnd]. case_bool_decide as E; cbn [map]; apply NoDup_cons; [done|].
  split; [|by apply IH]. intros [?|?]%bump_in; [by apply E|done].
Qed.

(** The hotkey a receipt's address names. *)
Definition receipt_hotkey (uri : string) : option string :=
  if endswith ".json" uri
  then match segment_value uri "hotkey=" with Some h => if String.eqb h "" then None else Some h | None => None end
  else None.

(** The receipts of a listing that count for an observation. *)
Fixpoint receipts_naming (k : string * option string) (uris : list string) : Z :=
  match uris with
  | [] => 0
  | u :: us => (match receipt_hotkey u with Some h => if bool_decide ((h, None) = k) then 1 else 0 | None => 0 end
                + receipts_naming k us)%Z
  end.

Section counts.
Context {S : Type} `{ObjectStoreLaws S} (head : option (string -> ST S (option (Z * Z)))).
Context (Hhead : forall h uri, head = Some h -> reads (h uri)).

Lemma safe_head_reads uri : reads (safe_head head uri).
Proof. unfold safe_head. destruct head as [h|] eqn:E; [|auto with reads]. apply reads_try; [by eapply Hhead|]. auto with reads. Qed.

(** Receipts: each listed receipt counts once for the hotkey it names. *)
Lemma derive_receipts_spec uris : forall (s s' : S) st st' stopped,
  derive_receipts head None uris st s = (s', Ok (st', stopped)) ->
  s' = s /\ stopped = false /\ (NoDup (map observation_key (dv_by_key st)) -> NoDup (map observation_key (dv_by_key st'))) /\
  forall k, jobs_of k (dv_by_key st') = jobs_of k (dv_by_key st) /\
    receipts_of k (dv_by_key st') = (receipts_of k (dv_by_key st) + receipts_naming k uris)%Z.
Proof.
  induction uris as [|uri uris IH]; intros s s' st st' stopped Hd; cbn [derive_receipts] in Hd.
  { injection Hd as <- <- <-. split_and!; try done. intros k. split; [done|]. cbn. lia. }
  cbn [at_limit] in Hd. cbn [receipts_naming]. unfold receipt_hotkey. destruct (endswith ".json" uri); cbn [negb] in Hd;
    [|by apply IH in Hd].
  destruct (segment_value uri "hotkey=") as [hk|]; [|by apply IH in Hd]. destruct (String.eqb hk ""); [by apply IH in Hd|].
  st_step Hd. pose proof (safe_head_reads uri s) as Hr. rewrite E in Hr. cbn in Hr. subst s0.
  destruct (IH _ _ _ _ _ Hd) as (-> & -> & H1 & H2). cbn [dv_by_key count_object] in H1, H2. split_and!; try done.
  { intros Hnd. by apply H1, bump_keys. }
  intros k. destruct (H2 k) as [-> ->]. rewrite jobs_of_bump, receipts_of_bump. case_bool_decide; lia.
Qed.

(** Manifests: each listed manifest that parses counts once for the worker it
    is assigned to. *)
Fixpoint manifests_naming (k : string * option string) (s : S) (uris : list string) : Z :=
  match uris with
  | [] => 0
  | u :: us =>
      ((if endswith "/manifest.json" u then
          match snd (read_record JobManifestV3_from_dict u s) with
          | Ok m => if bool_decide ((jm_assigned_hotkey m, jm_assigned_worker m) = k) then 1 else 0
          | Err _ => 0
          end
        else 0) + manifests_naming k s us)%Z
  end.

Lemma derive_manifests_spec uris : forall (s s' : S) st st' stopped,
  derive_manifests head None uris st s = (s', Ok (st', stopped)) ->
  s' = s /\ stopped = false /\ (NoDup (map observation_key (dv_by_key st)) -> NoDup (map observation_key (dv_by_key st'))) /\
  forall k, receipts_of k (dv_by_key st') = receipts_of k (dv_by_key st) /\
    jobs_of k (dv_by_key st') = (jobs_of k (dv_by_key st) + manifests_naming k s uris)%Z.
Proof.
  induction uris as [|uri uris IH]; intros s s' st st' stopped Hd; cbn [derive_manifests] in Hd.
  { injection Hd as <- <- <-. split_and!; try done. intros k. split; [done|]. cbn. lia. }
  cbn [at_limit] in Hd. cbn [manifests_naming]. destruct (endswith "/manifest.json" uri); cbn [negb] in Hd; [|by apply IH in Hd].
  pose proof (reads_record JobManifestV3_from_dict uri s) as Hrd. unfold skip_errors, st_try in Hd. cbv [mbind st_bind mret st_ret] in Hd.
  destruct (read_record JobManifestV3_from_dict uri s) as [s1 [m|e]]; cbn in Hrd; subst s1; cbn [snd].
  2:{ destruct (catchable e); [by apply IH in Hd|done]. }
  pose proof (safe_head_reads uri s) as Hr. destruct (safe_head head uri s) as [s1 [h|e]]; cbn in Hr; subst s1; [|done].
  destruct (IH _ _ _ _ _ Hd) as (-> & -> & H1 & H2). cbn [dv_by_key count_object] in H1, H2. split_and!; try done.
  { intros Hnd. by apply H1, bump_keys. }
  intros k. destruct (H2 k) as [-> ->]. rewrite jobs_of_bump, receipts_of_bump. case_bool_decide; lia.
Qed.
End counts.

Lemma obs_get_in l o : NoDup (map observation_key l) -> o ∈ l -> obs_get (observation_key o) l = Some o.
Proof.
  unfold obs_get. induction l as [|o' l IH]; cbn [map List.find]; intros Hnd Ho; [by apply elem_of_nil in Ho|].
  apply NoDup_cons in Hnd as [Hn Hnd]. apply elem_of_cons in Ho as [->|Ho]; [by rewrite bool_decide_true|].
  rewrite bool_decide_false; [by apply IH|]. intros E. apply Hn. rewrite E. by apply list_elem_of_fmap_2.
Qed.

(** Without a limit on the objects looked at, the miners reconstructed for a run
    are one observation per hotkey and worker, sorted; an observation counts
    exactly the listed receipts that name its hotkey and the listed manifests
    assigned to it, and every miner named by some receipt or manifest is there. *)
Theorem derived_miners_counted {S} `{ObjectStoreLaws S} (head : option (string -> ST S (option (Z * Z))))
    netuid run_id (s s' : S) obs :
  (forall h uri, head = Some h -> reads (h uri)) -> run_id <> EmptyString ->
  derive_miners_from_bucket head netuid (Some run_id) None s = (s', Ok obs) ->
  exists receipts jobs,
    os_list (os_uri_for_key s (receipts_prefix netuid run_id)) s = (s, Ok receipts) /\
    os_list (os_uri_for_key s (jobs_prefix netuid run_id)) s = (s, Ok jobs) /\
    s' = s /\ NoDup (map observation_key obs) /\ sorted_by observation_leb obs /\
    (forall o, o ∈ obs -> bo_n_receipts o = receipts_naming (observation_key o) receipts /\
       bo_n_jobs o = manifests_naming (observation_key o) s jobs) /\
    (forall k, k ∉ map observation_key obs -> receipts_naming k receipts = 0%Z /\ manifests_naming k s jobs = 0%Z).
Proof.
  intros Hhead Hrun Hd. unfold derive_miners_from_bucket in Hd. apply String.eqb_neq in Hrun as Er. rewrite Er in Hd.
  st_step Hd. injection E as <-. st_step Hd. injection Hd as <- <-. cbn [derive_runs] in E. rewrite Er in E.
  st_step E. injection E0 as <-. st_step E. rename x0 into receipts.
  apply reads_Ok in E0 as [-> E0]; [|auto with reads].
  st_step E. destruct x0 as [st1 b1]. destruct (derive_receipts_spec head Hhead _ _ _ _ _ _ E1) as (-> & -> & N1 & C1).
  cbn [snd fst] in E. st_step E. injection E2 as <-. st_step E. rename x0 into jobs.
  apply reads_Ok in E2 as [-> E2]; [|auto with reads].
  st_step E. destruct x0 as [st2 b2]. destruct (derive_manifests_spec head Hhead _ _ _ _ _ _ E3) as (-> & -> & N2 & C2).
  injection E as <- <-. cbn [fst dv_by_key] in *. set (obs := dv_by_key st2) in *.
  assert (NoDup (map observation_key obs)) as Hnd by (apply N2, N1; constructor).
  assert (forall k, receipts_of k obs = receipts_naming k receipts /\ jobs_of k obs = manifests_naming k s jobs) as Hc.
  { intros k. destruct (C1 k) as [J1 R1], (C2 k) as [R2 J2]. rewrite R2, J2, R1, J1. unfold receipts_of, jobs_of. cbn. lia. }
  exists receipts, jobs. split_and!; try done.
  - by rewrite (fmap_Permutation observation_key _ _ (sort_by_perm observation_leb obs)).
  - apply sort_by_sorted; [intros x y; apply strings_leb_total|intros x y z; apply strings_leb_trans].
  - intros o Ho. rewrite sort_by_elem in Ho. pose proof (obs_get_in _ _ Hnd Ho) as Hg.
    destruct (Hc (observation_key o)) as [<- <-]. unfold receipts_of, jobs_of. by rewrite Hg.
  - intros k Hk. rewrite (fmap_Permutation observation_key _ _ (sort_by_perm observation_leb obs)) in Hk.
    destruct (Hc k) as [<- <-]. unfold receipts_of, jobs_of. destruct (obs_get k obs) as [o|] eqn:Eo; [|done].
    apply find_some in Eo as [Ho Ek]. apply bool_decide_eq_true in Ek as <-. destruct Hk.
    apply list_elem_of_fmap_2. by apply list_elem_of_In.
Qed.

(** Discovery is exact.  The workers discovered at a time are those of the
    heartbeat objects below the role's prefix that parse, belong to the backend's
    run and are not older than its time to live, in the order of role, run,
    hotkey and worker; the bucket is left as it is.  A worker that advertised
    itself is among them, with the capabilities it gave, from any bucket whose
    listing shows its heartbeat, for as long as the heartbeat is fresh. *)
Theorem discovery_exact {S} `{ObjectStoreLaws S} (self : BucketDiscoveryBackend) (now : float) :
  (forall (s s' : S) records, BucketDiscoveryBackend_discover_workers self now s = (s', Ok records) ->
     s' = s /\ sorted_by record_leb records /\
     exists uris, os_list (os_uri_for_key s (BucketDiscoveryBackend_prefix self)) s = (s, Ok uris) /\
       forall r, r ∈ records <->
         exists uri, uri ∈ uris /\ endswith "/heartbeat.json" uri = true /\
           read_record (discovery_record_from_dict (bd_netuid self) (bd_role self)) uri s = (s, Ok r) /\
           record_live (Some (bd_run_id self)) (bd_heartbeat_ttl_sec self) now r = Ok true) /\
  (forall (s s1 s2 : S) miner worker t0 t records uris,
     bd_role self <> EmptyString -> int_of_float t0 = Ok t ->
     json_ok (PDict (heartbeat_dict self miner worker t)) = true ->
     BucketDiscoveryBackend_advertise_worker self miner worker t0 s = (s1, Ok tt) ->
     os_list (os_uri_for_key s1 (BucketDiscoveryBackend_prefix self)) s1 = (s1, Ok uris) ->
     os_uri_for_key s (BucketDiscoveryBackend_heartbeat_key self worker) ∈ uris ->
     BucketDiscoveryBackend_discover_workers self now s1 = (s2, Ok records) ->
     let r := mkDiscovery (MinerIdentity_normal miner) (WorkerIdentity_normal worker) (bd_run_id self) t (bd_role self) in
     r ∈ records <-> record_live (Some (bd_run_id self)) (bd_heartbeat_ttl_sec self) now r = Ok true).
Proof.
  split; [apply discover_spec|]. intros s s1 s2 miner worker t0 t records uris Hrole Ht Hok Hadv Hlist Hin Hdis r.
  apply discover_spec in Hdis as (-> & _ & uris' & Hlist' & Hspec). rewrite Hlist in Hlist'. injection Hlist' as <-.
  rewrite Hspec. split; [by intros (_ & _ & _ & _ & Hlive)|]. intros Hlive. eexists. split; [exact Hin|].
  split; [apply heartbeat_uri_ends|]. split; [|exact Hlive].
  unfold BucketDiscoveryBackend_advertise_worker in Hadv. st_step Hadv. injection E as <-.
  st_step Hadv. rewrite Ht in E. injection E as <-.
  apply put_json_get_json in Hadv; [|done]. unfold read_record. cbv [mbind st_bind]. rewrite Hadv, canon_PDict.
  cbn [as_object mbind result_bind]. unfold st_lift. by rewrite heartbeat_read.
Qed.

(** *** An example *)

Definition sample_backend : BucketDiscoveryBackend := mkBackend 3 "run-a" "train" (Some (float_of_Z 30)).

Definition advertising_worker : WorkerIdentity := mkWorkerIdentity "hk1" "w0" "host" None "nonce" "dev" [] None [("gpus", PInt 2)].

Definition advertised : LocalBucket * result unit :=
  BucketDiscoveryBackend_advertise_worker sample_backend (mkMiner 3 "hk1" None None None []) advertising_worker
    (float_of_Z 1000) (LocalBucket_init "bk" 5).

Lemma discovery_exact_witness :
  exists records, BucketDiscoveryBackend_discover_workers sample_backend (float_of_Z 1020) (fst advertised)
      = (fst advertised, Ok records) /\
    mkDiscovery (MinerIdentity_normal (mkMiner 3 "hk1" None None None [])) (WorkerIdentity_normal advertising_worker)
      "run-a" 1000 "train" ∈ records /\
    snd (BucketDiscoveryBackend_discover_workers sample_backend (float_of_Z 1031) (fst advertised)) = Ok [].
Proof.
  destruct (BucketDiscoveryBackend_discover_workers sample_backend (float_of_Z 1020) (fst advertised))
    as [s2 [records|e]] eqn:E; [|vm_compute in E; discriminate E].
  destruct (discovery_exact (S := LocalBucket) sample_backend (float_of_Z 1020)) as [H1 H2].
  destruct (H1 _ _ _ E) as (-> & _). exists records. split; [reflexivity|]. split; [|vm_compute; reflexivity].
  apply (H2 (LocalBucket_init "bk" 5) (fst advertised) (fst advertised) (mkMiner 3 "hk1" None None None []) advertising_worker
    (float_of_Z 1000) 1000%Z records ["s3://bk/v3/netuid=3/miners/hk1/workers/w0/heartbeat.json"]).
  - discriminate.
  - reflexivity.
  - vm_compute. reflexivity.
  - vm_compute. reflexivity.
  - vm_compute. reflexivity.
  - vm_compute. left.
  - exact E.
  - vm_compute. reflexivity.
Defined.
