(* ===== verification/Scheduler.v ===== *)
(** * Quota-aware scheduling ([teuton_orchestrator/scheduler.py])

    The quota book: accounts by hotkey, their workers, the choice of a worker
    for a job and the release of quota; the policy seam for critical jobs. *)

From Stdlib Require Import ZArith Lia Ascii.
From stdpp Require Import base strings list sorting.
From S2P Require Import Prelude PyFloat PyVal Json Digest Signatures Codec Protocol Paths Storage Queue.

(** ** Accounts *)

Record MinerAccount := mkAccount {
  ma_identity : MinerIdentity;
  ma_workers : dict WorkerIdentity;
  ma_inflight_cu : float;
  ma_verified_good_cu : float;
  ma_trust_multiplier : float;
  ma_base_quota : float
}.

Definition MinerAccount_new (default_base_quota : float) (identity : MinerIdentity) : MinerAccount :=
  mkAccount identity [] fzero fzero fone default_base_quota.

Definition with_workers (a : MinerAccount) (ws : dict WorkerIdentity) : MinerAccount :=
  mkAccount (ma_identity a) ws (ma_inflight_cu a) (ma_verified_good_cu a) (ma_trust_multiplier a)
    (ma_base_quota a).

Definition with_inflight (a : MinerAccount) (x : float) : MinerAccount :=
  mkAccount (ma_identity a) (ma_workers a) x (ma_verified_good_cu a) (ma_trust_multiplier a)
    (ma_base_quota a).

Definition MinerAccount_max_inflight_cu (a : MinerAccount) : float :=
  fadd (ma_base_quota a) (fmul (ma_verified_good_cu a) (flit 5 (-1))).

Definition MinerAccount_available_quota (a : MinerAccount) : float :=
  fmax fzero (fsub (MinerAccount_max_inflight_cu a) (ma_inflight_cu a)).

(** ** The book *)

(** [accounts] by hotkey; [default_base_quota] is read from the environment
    when the module is loaded. *)
Record QuotaBook := mkBook { qb_accounts : dict MinerAccount; qb_default_base_quota : float }.

Definition QuotaBook_init (default_base_quota : float) : QuotaBook := mkBook [] default_base_quota.

Definition add_identity (base : float) (acc : dict MinerAccount) (i : MinerIdentity) : dict MinerAccount :=
  dict_setdefault (mi_hotkey_ss58 i) (MinerAccount_new base i) acc.

Definition add_worker (base : float) (acc : dict MinerAccount) (w : WorkerIdentity) : dict MinerAccount :=
  let fresh := MinerAccount_new base (mkMiner 0 (wi_hotkey_ss58 w) None None None []) in
  let acc1 := dict_setdefault (wi_hotkey_ss58 w) fresh acc in
  match dict_get (wi_hotkey_ss58 w) acc1 with
  | Some a => dict_set (wi_hotkey_ss58 w)
                (with_workers a (dict_set (wi_worker_id w) w (ma_workers a))) acc1
  | None => acc1
  end.

Definition QuotaBook_update_workers (b : QuotaBook) (identities : list MinerIdentity)
    (workers : list WorkerIdentity) : QuotaBook :=
  let base := qb_default_base_quota b in
  mkBook (fold_left (add_worker base) workers (fold_left (add_identity base) identities (qb_accounts b)))
    base.

Definition QuotaBook_worker_satisfies (w : WorkerIdentity) (r : ResourceRequirements) : result bool :=
  let group := PInt (Z.of_nat (length (wi_device_group w))) in
  let single := PInt (match wi_gpu_index w with Some _ => 1 | None => 0 end)%Z in
  world_size ← py_int (por (por (get (wi_capabilities w) "world_size") group) single);
  Ok (if (world_size <? rr_min_gpus r)%Z then false
      else if String.eqb (rr_placement r) "single_host" && (1 <? rr_min_gpus r)%Z
              && match wi_worker_group_id w with Some g => String.eqb g "" | None => true end
      then false else true).

(** [trust * (1.0 + len(workers)) / max(1.0, inflight)]. *)
Definition account_priority (a : MinerAccount) : float :=
  fdiv (fmul (ma_trust_multiplier a) (fadd fone (float_of_Z (Z.of_nat (length (ma_workers a))))))
    (fmax fone (ma_inflight_cu a)).

(** A candidate: its priority, the worker and the key of its account. *)
Record candidate := mkCandidate { c_priority : float; c_worker : WorkerIdentity; c_account : string }.

(** The candidates of one account. *)
Fixpoint account_candidates (key : string) (priority : float) (r : ResourceRequirements)
    (ws : list WorkerIdentity) : result (list candidate) :=
  match ws with
  | [] => Ok []
  | w :: rest =>
      ok ← QuotaBook_worker_satisfies w r;
      cs ← account_candidates key priority r rest;
      Ok (if (ok : bool) then mkCandidate priority w key :: cs else cs)
  end.

Definition account_open (hotkey_filter : option (string -> bool)) (estimated_cu : float)
    (a : MinerAccount) : bool :=
  match hotkey_filter with Some f => f (mi_hotkey_ss58 (ma_identity a)) | None => true end
  && negb (fltb (MinerAccount_available_quota a) estimated_cu)
  && match ma_workers a with [] => false | _ => true end.

Fixpoint pick_candidates (hotkey_filter : option (string -> bool)) (estimated_cu : float)
    (r : ResourceRequirements) (accounts : dict MinerAccount) : result (list candidate) :=
  match accounts with
  | [] => Ok []
  | (k, a) :: rest =>
      cs ← (if account_open hotkey_filter estimated_cu a
            then account_candidates k (account_priority a) r (dict_values (ma_workers a))
            else Ok []);
      more ← pick_candidates hotkey_filter estimated_cu r rest;
      Ok (cs ++ more)
  end.

(** Order of the sort keys [(-priority, hotkey, worker_id)]: tuples compare at
    their first difference. *)
Definition cand_ltb (a b : candidate) : bool :=
  let pa := fneg (c_priority a) in
  let pb := fneg (c_priority b) in
  let ha := wi_hotkey_ss58 (c_worker a) in
  let hb := wi_hotkey_ss58 (c_worker b) in
  if feqb pa pb then
    if String.eqb ha hb then String.ltb (wi_worker_id (c_worker a)) (wi_worker_id (c_worker b))
    else String.ltb ha hb
  else fltb pa pb.

Definition cand_leb (a b : candidate) : bool := negb (cand_ltb b a).

Definition QuotaBook_pick_worker (estimated_cu : float) (requirements : option ResourceRequirements)
    (hotkey_filter : option (string -> bool)) : ST QuotaBook WorkerIdentity := fun b =>
  let r := match requirements with Some r => r | None => mkResources 1 "single_worker" [] end in
  match pick_candidates hotkey_filter estimated_cu r (qb_accounts b) with
  | Err e => (b, Err e)
  | Ok cs =>
      match sort_by cand_leb cs with
      | [] => (b, Err (RuntimeError "no miner workers have quota for assignment"))
      | c :: _ =>
          match dict_get (c_account c) (qb_accounts b) with
          | None => (b, Err Unmodelled)
          | Some a =>
              (mkBook (dict_set (c_account c) (with_inflight a (fadd (ma_inflight_cu a) estimated_cu))
                         (qb_accounts b)) (qb_default_base_quota b), Ok (c_worker c))
          end
      end
  end.

Definition QuotaBook_release (b : QuotaBook) (hotkey : string) (estimated_cu : float) : QuotaBook :=
  match dict_get hotkey (qb_accounts b) with
  | None => b
  | Some a =>
      mkBook (dict_set hotkey (with_inflight a (fmax fzero (fsub (ma_inflight_cu a) estimated_cu)))
                (qb_accounts b)) (qb_default_base_quota b)
  end.

(** ** Critical jobs *)

Definition CriticalGate_requires_validation (kind : string) : bool :=
  String.eqb kind "outer_step" || String.eqb kind "checkpoint".

Definition CriticalGate_can_advance_optimistically (kind : string) : bool :=
  negb (CriticalGate_requires_validation kind).

(** ** The order on candidates *)

Definition cand_ok (c : candidate) : Prop := is_nan (c_priority c) = false.

Lemma string_ltb_leb (x y : string) : String.ltb x y = negb (String.leb y x).
Proof.
  unfold String.ltb, String.leb. rewrite (String.compare_antisym x y).
  by destruct (String.compare y x).
Qed.

Lemma string_leb_refl (x : string) : String.leb x x = true.
Proof. by destruct (leb_string_total x x). Qed.

Lemma string_leb_antisym (x y : string) : String.leb x y = true -> String.leb y x = true -> x = y.
Proof. apply String.leb_antisym. Qed.

(** [cand_leb] unfolded on candidates that are not NaN. *)
Lemma cand_leb_spec a b : cand_ok a -> cand_ok b ->
  cand_leb a b = true <->
  fltb (c_priority b) (c_priority a) = true \/
  frank (c_priority a) = frank (c_priority b) /\
    (if String.eqb (wi_hotkey_ss58 (c_worker a)) (wi_hotkey_ss58 (c_worker b))
     then String.leb (wi_worker_id (c_worker a)) (wi_worker_id (c_worker b)) = true
     else String.leb (wi_hotkey_ss58 (c_worker a)) (wi_hotkey_ss58 (c_worker b)) = true).
Proof.
  intros Ha Hb. unfold cand_leb, cand_ltb, cand_ok in *.
  rewrite (String.eqb_sym (wi_hotkey_ss58 (c_worker a))).
  assert (feqb (fneg (c_priority b)) (fneg (c_priority a)) = true <-> frank (c_priority a) = frank (c_priority b)) as He.
  { rewrite feqb_rank by by rewrite fneg_nan. clear.
    destruct (c_priority a) as [s|s| |s m e], (c_priority b) as [t|t| |t n f]; try destruct s; try destruct t; cbn;
      split; intros E; try done; injection E; intros; f_equal; try f_equal; lia. }
  rewrite fltb_fneg by done. rewrite !string_ltb_leb.
  destruct (feqb _ _).
  - destruct He as [He _]. specialize (He eq_refl).
    assert (fltb (c_priority b) (c_priority a) = false) as Hlt.
    { apply not_true_iff_false. rewrite fltb_rank by done. rewrite He. destruct (frank (c_priority b)) as [[? ?] ?]. cbn. lia. }
    rewrite Hlt. destruct (String.eqb _ _); rewrite negb_involutive; intuition congruence.
  - assert (frank (c_priority a) <> frank (c_priority b)) as Hne by (intros E; by apply He in E).
    rewrite negb_true_iff, <- not_true_iff_false, !fltb_rank by done.
    destruct (frank (c_priority a)) as [[a1 a2] a3], (frank (c_priority b)) as [[b1 b2] b3]. cbn.
    split; [|intuition lia]. intros H. left.
    assert (~ (a1 = b1 /\ a2 = b2 /\ a3 = b3)) by (intros (-> & -> & ->); done). lia.
Qed.

Lemma cand_leb_total a b : cand_ok a -> cand_ok b -> cand_leb a b = true \/ cand_leb b a = true.
Proof.
  intros Ha Hb. rewrite !cand_leb_spec by done. rewrite (String.eqb_sym (wi_hotkey_ss58 (c_worker b))).
  unfold cand_ok in *. rewrite !fltb_rank by done.
  destruct (String.eqb _ _);
    [destruct (leb_string_total (wi_worker_id (c_worker a)) (wi_worker_id (c_worker b))) as [Hs|Hs]
    |destruct (leb_string_total (wi_hotkey_ss58 (c_worker a)) (wi_hotkey_ss58 (c_worker b))) as [Hs|Hs]]; rewrite Hs;
  destruct (frank (c_priority a)) as [[a1 a2] a3], (frank (c_priority b)) as [[b1 b2] b3]; cbn;
  destruct (decide (a1 = b1 /\ a2 = b2 /\ a3 = b3)) as [(-> & -> & ->)|Hne]; auto; lia.
Qed.

Lemma cand_leb_trans a b c : cand_ok a -> cand_ok b -> cand_ok c ->
  cand_leb a b = true -> cand_leb b c = true -> cand_leb a c = true.
Proof.
  intros Ha Hb Hc. rewrite !cand_leb_spec by done. unfold cand_ok in *. rewrite !fltb_rank by done.
  assert (forall x y z : Z * Z * Z, rank_lt y x -> rank_lt z y -> rank_lt z x) as Htr.
  { intros [[? ?] ?] [[? ?] ?] [[? ?] ?]; cbn; lia. }
  intros [H1|[E1 H1]] [H2|[E2 H2]].
  - left. eauto.
  - left. by rewrite <- E2.
  - left. by rewrite E1.
  - right. split; [congruence|].
    destruct (String.eqb (wi_hotkey_ss58 (c_worker a)) (wi_hotkey_ss58 (c_worker b))) eqn:Eab,
      (String.eqb (wi_hotkey_ss58 (c_worker b)) (wi_hotkey_ss58 (c_worker c))) eqn:Ebc; eqb_prop.
    + rewrite Eab, Ebc, String.eqb_refl. by eapply leb_string_trans.
    + rewrite Eab. apply String.eqb_neq in Ebc as ->. done.
    + rewrite <- Ebc. apply String.eqb_neq in Eab as ->. done.
    + destruct (String.eqb (wi_hotkey_ss58 (c_worker a)) (wi_hotkey_ss58 (c_worker c))) eqn:Eac; [|by eapply leb_string_trans].
      apply String.eqb_eq in Eac. rewrite <- Eac in H2. destruct Eab. by apply string_leb_antisym.
Qed.

(** ** The candidates *)

Lemma account_candidates_spec key p r ws cs : account_candidates key p r ws = Ok cs ->
  forall c, c ∈ cs <-> c_priority c = p /\ c_account c = key /\ c_worker c ∈ ws /\
    QuotaBook_worker_satisfies (c_worker c) r = Ok true.
Proof.
  revert cs. induction ws as [|w ws IH]; cbn [account_candidates]; intros cs H c.
  - injection H as <-. split; [by intros ?%elem_of_nil|]. by intros (_ & _ & ?%elem_of_nil & _).
  - apply bind_Ok in H as (ok & Hok & H). apply bind_Ok in H as (cs' & Hcs & [= <-]).
    specialize (IH _ Hcs c). destruct ok.
    + rewrite elem_of_cons, IH, elem_of_cons. destruct c as [cp cw ck]; cbn. split.
      * intros [[= -> -> ->]|(? & ? & ? & ?)]; auto 8.
      * intros (-> & -> & [->|?] & ?); auto 8.
    + rewrite IH, elem_of_cons. split; [intros (? & ? & ? & ?); auto 8|].
      intros (? & ? & [->|?] & ?); [congruence|auto 8].
Qed.

Lemma pick_candidates_spec f cu r accounts cs : pick_candidates f cu r accounts = Ok cs ->
  forall c, c ∈ cs <-> exists k a, (k, a) ∈ accounts /\ account_open f cu a = true /\
    c_priority c = account_priority a /\ c_account c = k /\ c_worker c ∈ dict_values (ma_workers a) /\
    QuotaBook_worker_satisfies (c_worker c) r = Ok true.
Proof.
  revert cs. induction accounts as [|[k a] accounts IH]; cbn [pick_candidates]; intros cs H c.
  - injection H as <-. split; [by intros ?%elem_of_nil|]. by intros (? & ? & ?%elem_of_nil & _).
  - apply bind_Ok in H as (cs1 & H1 & H). apply bind_Ok in H as (cs2 & H2 & [= <-]).
    rewrite elem_of_app, (IH _ H2). setoid_rewrite elem_of_cons. split.
    + intros [Hc|(k' & a' & Hin & Hx)]; [|eauto 8]. destruct (account_open f cu a) eqn:Eo.
      * apply (account_candidates_spec _ _ _ _ _ H1) in Hc as (? & ? & ? & ?). exists k, a. auto 8.
      * injection H1 as <-. by apply elem_of_nil in Hc.
    + intros (k' & a' & [[= -> ->]|Hin] & Ho & Hp & Hk & Hw & Hs); [left|right; eauto 10].
      rewrite Ho in H1. apply (account_candidates_spec _ _ _ _ _ H1). auto.
Qed.

(** ** The invariant of the book *)

(** Accounts are filed under their hotkey, once each, hold workers of that
    hotkey under their own id, and never owe a negative amount. *)
Record book_ok (b : QuotaBook) : Prop := {
  book_nodup : NoDup (dict_keys (qb_accounts b));
  book_keyed : forall k a, dict_get k (qb_accounts b) = Some a ->
    mi_hotkey_ss58 (ma_identity a) = k /\ NoDup (dict_keys (ma_workers a)) /\
    (forall i w, dict_get i (ma_workers a) = Some w -> wi_worker_id w = i /\ wi_hotkey_ss58 w = k) /\
    fnn (ma_inflight_cu a) = true
}.

Definition account_ok (k : string) (a : MinerAccount) : Prop :=
  mi_hotkey_ss58 (ma_identity a) = k /\ NoDup (dict_keys (ma_workers a)) /\
  (forall i w, dict_get i (ma_workers a) = Some w -> wi_worker_id w = i /\ wi_hotkey_ss58 w = k) /\
  fnn (ma_inflight_cu a) = true.

Definition accounts_ok (d : dict MinerAccount) : Prop :=
  NoDup (dict_keys d) /\ forall k a, dict_get k d = Some a -> account_ok k a.

Lemma book_ok_accounts b : book_ok b <-> accounts_ok (qb_accounts b).
Proof. split; intros []; by split. Qed.

Lemma accounts_ok_set d k a : accounts_ok d -> account_ok k a -> accounts_ok (dict_set k a d).
Proof.
  intros [Hn Hk] Ha. split; [auto with teuton|]. intros k' a'. rewrite dict_get_set.
  destruct (String.eqb k' k) eqn:E; [|apply Hk]. apply String.eqb_eq in E as ->. by intros [= <-].
Qed.

Lemma accounts_ok_setdefault d k a : accounts_ok d -> account_ok k a -> accounts_ok (dict_setdefault k a d).
Proof. intros H Ha. unfold dict_setdefault. destruct (dict_mem k d); [done|]. by apply accounts_ok_set. Qed.

Lemma account_new_ok base i : account_ok (mi_hotkey_ss58 i) (MinerAccount_new base i).
Proof. repeat split; try done. constructor. Qed.

Lemma add_identity_ok base d i : accounts_ok d -> accounts_ok (add_identity base d i).
Proof. intros H. apply accounts_ok_setdefault; [done|apply account_new_ok]. Qed.

Lemma add_worker_ok base d w : accounts_ok d -> accounts_ok (add_worker base d w).
Proof.
  intros H. unfold add_worker.
  set (d1 := dict_setdefault _ _ _).
  assert (accounts_ok d1) as H1 by (apply accounts_ok_setdefault; [done|apply (account_new_ok base (mkMiner _ _ _ _ _ _))]).
  destruct (dict_get _ d1) as [a|] eqn:E; [|done]. apply accounts_ok_set; [done|].
  destruct (proj2 H1 _ _ E) as (Hi & Hn & Hw & Hf).
  split; [done|]. split; [by apply dict_set_NoDup|]. split; [|done].
  intros i w'. cbn. rewrite dict_get_set. destruct (String.eqb i (wi_worker_id w)) eqn:Ei; [|apply Hw].
  apply String.eqb_eq in Ei as ->. by intros [= <-].
Qed.

Lemma fold_ok {A} (f : dict MinerAccount -> A -> dict MinerAccount) l d :
  (forall d x, accounts_ok d -> accounts_ok (f d x)) -> accounts_ok d -> accounts_ok (fold_left f l d).
Proof. intros Hf. revert d. induction l as [|x l IH]; intros d Hd; [done|]. cbn. auto. Qed.

Lemma with_inflight_ok k a x : account_ok k a -> fnn x = true -> account_ok k (with_inflight a x).
Proof. intros (H1 & H2 & H3 & _) Hx. exact (conj H1 (conj H2 (conj H3 Hx))). Qed.

Lemma account_worker_hotkey d k a w : accounts_ok d -> dict_get k d = Some a ->
  w ∈ dict_values (ma_workers a) -> wi_hotkey_ss58 w = k.
Proof.
  intros [_ Hk] Ha Hw. destruct (Hk _ _ Ha) as (_ & Hn & Hws & _).
  apply list_elem_of_fmap in Hw as ([i w'] & -> & Hin). cbn.
  apply dict_elem_get in Hin; [|done]. by destruct (Hws _ _ Hin).
Qed.

Lemma cand_leb_priority c c' : cand_ok c -> cand_ok c' -> cand_leb c c' = true ->
  fleb (c_priority c') (c_priority c) = true.
Proof.
  intros H1 H2 Hle. apply cand_leb_spec in Hle; [|done..]. unfold cand_ok in *.
  rewrite fleb_not_lt, negb_true_iff, <- not_true_iff_false, fltb_rank by done.
  rewrite fltb_rank in Hle by done.
  destruct (frank (c_priority c)) as [[a1 a2] a3], (frank (c_priority c')) as [[b1 b2] b3]. cbn in *.
  intros Hlt. destruct Hle as [Hle|[E _]]; [lia|]. injection E as -> -> ->. lia.
Qed.

(** What a successful choice did. *)
Lemma pick_worker_inv cu req f b b' w : QuotaBook_pick_worker cu req f b = (b', Ok w) ->
  let r := match req with Some r => r | None => mkResources 1 "single_worker" [] end in
  exists cs c rest a, pick_candidates f cu r (qb_accounts b) = Ok cs /\ sort_by cand_leb cs = c :: rest /\
    w = c_worker c /\ dict_get (c_account c) (qb_accounts b) = Some a /\
    b' = mkBook (dict_set (c_account c) (with_inflight a (fadd (ma_inflight_cu a) cu)) (qb_accounts b))
           (qb_default_base_quota b).
Proof.
  unfold QuotaBook_pick_worker. destruct (pick_candidates _ _ _ _) as [cs|]; [|done].
  destruct (sort_by cand_leb cs) as [|c rest] eqn:Es; [done|].
  destruct (dict_get _ _) as [a|] eqn:Ea; [|done]. intros [= <- <-]. by exists cs, c, rest, a.
Qed.

(** ** Properties *)

(** The operations that change a book. *)
Inductive book_op : Type :=
  | BUpdate (identities : list MinerIdentity) (workers : list WorkerIdentity)
  | BPick (cu : float) (req : option ResourceRequirements) (f : option (string -> bool))
  | BRelease (hotkey : string) (cu : float).

Definition apply_book_op (b : QuotaBook) (o : book_op) : QuotaBook :=
  match o with
  | BUpdate ids ws => QuotaBook_update_workers b ids ws
  | BPick cu req f => fst (QuotaBook_pick_worker cu req f b)
  | BRelease h cu => QuotaBook_release b h cu
  end.

(** Jobs are charged a non-negative amount. *)
Definition charges_ok (o : book_op) : bool := match o with BPick cu _ _ => fnn cu | _ => true end.

Lemma apply_book_op_ok b o : charges_ok o = true -> book_ok b -> book_ok (apply_book_op b o).
Proof.
  rewrite !book_ok_accounts. intros Hc Hb. destruct o as [ids ws|cu req f|h cu]; cbn [apply_book_op].
  - cbn. apply fold_ok; [intros; by apply add_worker_ok|]. apply fold_ok; [intros; by apply add_identity_ok|done].
  - destruct (QuotaBook_pick_worker cu req f b) as [b' [w|e]] eqn:E.
    + apply pick_worker_inv in E as (cs & c & rest & a & _ & _ & _ & Ha & ->). cbn.
      apply accounts_ok_set; [done|]. pose proof (proj2 Hb _ _ Ha) as Hok. apply with_inflight_ok; [done|].
      apply fadd_fnn; [apply Hok|done].
    + cbn. revert E. unfold QuotaBook_pick_worker. repeat case_match; intros [=]; subst; done.
  - unfold QuotaBook_release. destruct (dict_get h _) as [a|] eqn:Ea; [|done]. cbn.
    apply accounts_ok_set; [done|]. apply with_inflight_ok; [by apply (proj2 Hb)|]. apply fmax_zero_nn.
Qed.

(** C8. However workers are discovered, jobs assigned and quota released, the
    quota book keeps one account per hotkey, each with its own workers only,
    and no account's charge ever becomes negative. *)
Theorem quota_invariant base ops : forallb charges_ok ops = true ->
  book_ok (fold_left apply_book_op ops (QuotaBook_init base)).
Proof.
  intros Hc. assert (book_ok (QuotaBook_init base)) as Hb by (split; [constructor|done]). revert Hb.
  generalize (QuotaBook_init base). induction ops as [|o ops IH]; intros b Hb; [done|].
  cbn in *. apply andb_true_iff in Hc as [Ho Hc]. apply IH; [done|]. by apply apply_book_op_ok.
Qed.

(** C9. The worker that is picked belongs to an account that passes the
    backpressure filter and has the quota, meets the job's resource
    requirements, and has the highest priority of all such workers, ties
    going to the smallest hotkey and then the smallest worker id; exactly its
    account is charged. When no account can take the job, nothing is charged
    and the scheduler says so. *)
Theorem pick_worker_best cu req f b :
  book_ok b -> (forall k a, dict_get k (qb_accounts b) = Some a -> is_nan (account_priority a) = false) ->
  let r := match req with Some r => r | None => mkResources 1 "single_worker" [] end in
  let eligible k a w := dict_get k (qb_accounts b) = Some a /\ account_open f cu a = true /\
    w ∈ dict_values (ma_workers a) /\ QuotaBook_worker_satisfies w r = Ok true in
  (forall b' w, QuotaBook_pick_worker cu req f b = (b', Ok w) ->
     exists a, eligible (wi_hotkey_ss58 w) a w /\
       qb_accounts b' = dict_set (wi_hotkey_ss58 w) (with_inflight a (fadd (ma_inflight_cu a) cu)) (qb_accounts b) /\
       forall k' a' w', eligible k' a' w' ->
         cand_leb (mkCandidate (account_priority a) w (wi_hotkey_ss58 w)) (mkCandidate (account_priority a') w' k') = true /\
         fleb (account_priority a') (account_priority a) = true) /\
  (forall b' msg, QuotaBook_pick_worker cu req f b = (b', Err (RuntimeError msg)) -> b' = b) /\
  (forall cs, pick_candidates f cu r (qb_accounts b) = Ok cs ->
     (forall k a w, ~ eligible k a w) ->
     QuotaBook_pick_worker cu req f b = (b, Err (RuntimeError "no miner workers have quota for assignment"))).
Proof.
  intros Hb Hnan r eligible. apply book_ok_accounts in Hb as [Hn Hk]. split; [|split].
  - intros b' w Hp. apply pick_worker_inv in Hp as (cs & c & rest & a & Hcs & Hs & -> & Ha & ->).
    pose proof (pick_candidates_spec _ _ _ _ _ Hcs) as Hc.
    assert (Forall cand_ok cs) as Hok.
    { apply Forall_forall. intros x Hx. apply Hc in Hx as (k & a' & Hin & _ & Hpx & _). unfold cand_ok. rewrite Hpx.
      apply (Hnan k a'). by apply dict_elem_get. }
    destruct (sort_by_head_on cand_leb cand_ok cand_leb_total cand_leb_trans cs c rest Hok Hs) as [Hin Hle].
    rewrite Forall_forall in Hok. pose proof (Hok c Hin) as Hcok.
    apply Hc in Hin as (k & a' & Hin & Ho & Hpc & Hkc & Hw & Hsat). rewrite Hkc in Ha.
    assert (a' = a) as -> by (apply dict_elem_get in Hin; [congruence|done]).
    assert (wi_hotkey_ss58 (c_worker c) = k) as Hkw by by eapply account_worker_hotkey.
    rewrite Hkw. exists a. split; [done|]. split; [cbn; by rewrite Hkc|].
    intros k' a' w' (Ha' & Ho' & Hw' & Hs').
    set (c' := mkCandidate (account_priority a') w' k'). assert (c' ∈ cs) as Hin'.
    { apply Hc. exists k', a'. split; [by apply dict_get_elem|done]. }
    assert (mkCandidate (account_priority a) (c_worker c) k = c) as -> by (destruct c; cbn in *; congruence).
    split; [by apply Hle|]. rewrite <- Hpc. change (account_priority a') with (c_priority c').
    apply cand_leb_priority; auto.
  - intros b' msg. unfold QuotaBook_pick_worker. repeat case_match; congruence.
  - intros cs Hcs Hnone. unfold QuotaBook_pick_worker. fold r. rewrite Hcs.
    assert (cs = []) as ->; [|done]. destruct cs as [|c cs]; [done|]. exfalso.
    destruct (proj1 (pick_candidates_spec _ _ _ _ _ Hcs c)) as (k & a & Hin & Ho & _ & _ & Hw & Hsat); [left|].
    apply (Hnone k a (c_worker c)). split; [by apply dict_elem_get|done].
Qed.

(** ** Witnesses *)

Definition sample_worker (h i : string) : WorkerIdentity :=
  mkWorkerIdentity h i "host" (Some 0%Z) "nonce" "dev" [] None [].

Definition sample_ops : list book_op :=
  [BUpdate [mkMiner 3 "hk1" (Some 1%Z) None None []] [sample_worker "hk1" "w1"; sample_worker "hk1" "w0"; sample_worker "hk2" "w9"];
   BPick fone None None; BRelease "hk2" fone].

Definition sample_book : QuotaBook := fold_left apply_book_op sample_ops (QuotaBook_init (float_of_Z 5)).

Lemma quota_invariant_witness : book_ok sample_book.
Proof. apply (quota_invariant (float_of_Z 5) sample_ops). vm_compute. reflexivity. Defined.

Definition sample_book_keys : list (string * MinerAccount) := Eval vm_compute in qb_accounts sample_book.

Lemma sample_book_nan k a : dict_get k (qb_accounts sample_book) = Some a -> is_nan (account_priority a) = false.
Proof.
  assert (qb_accounts sample_book = sample_book_keys) as -> by (vm_compute; reflexivity).
  intros H. apply dict_get_elem in H. unfold sample_book_keys in H.
  repeat (apply elem_of_cons in H as [[= -> ->]|H]; [vm_compute; reflexivity|]). by apply elem_of_nil in H.
Qed.

Lemma sample_book_ok : book_ok sample_book.
Proof.
  unfold sample_book, sample_ops. cbn [fold_left]. repeat (apply apply_book_op_ok; [vm_compute; reflexivity|]).
  split; [constructor|done].
Qed.

Lemma pick_worker_best_witness :
  snd (QuotaBook_pick_worker fone None None sample_book) = Ok (sample_worker "hk1" "w0") /\
  exists a, dict_get "hk1" (qb_accounts sample_book) = Some a /\ account_open None fone a = true.
Proof.
  split; [vm_compute; reflexivity|].
  destruct (pick_worker_best fone None None sample_book sample_book_ok sample_book_nan) as [H _].
  destruct (H (fst (QuotaBook_pick_worker fone None None sample_book)) (sample_worker "hk1" "w0"))
    as (a & (H1 & H2 & _) & _); [vm_compute; reflexivity|]. exists a. exact (conj H1 H2).
Defined.
