(* ===== verification/Crypto.v ===== *)
(** * Artifact crypto envelopes ([teuton_runtime/crypto.py])

    The development stream cipher, timelock providers, and the envelope an
    artifact travels in.  The [tle] program and the [bittensor_drand] package
    are parameters of their providers. *)

From Stdlib Require Import ZArith Lia Ascii.
From stdpp Require Import base strings list.
From S2P Require Import Prelude PyFloat PyVal Json Digest Signatures Codec Protocol ProtocolFacts.

(** ** The stream cipher *)

(** [a ^ b] on bytes. *)
Definition xor_ascii (a b : ascii) : ascii :=
  match a, b with
  | Ascii a0 a1 a2 a3 a4 a5 a6 a7, Ascii b0 b1 b2 b3 b4 b5 b6 b7 =>
      Ascii (xorb a0 b0) (xorb a1 b1) (xorb a2 b2) (xorb a3 b3)
            (xorb a4 b4) (xorb a5 b5) (xorb a6 b6) (xorb a7 b7)
  end.

(** [stream[i]], in range. *)
Definition byte_at (i : nat) (s : string) : ascii :=
  match String.get i s with Some c => c | None => "000"%char end.

(** The loop from index [i] on. *)
Fixpoint xor_loop (i : nat) (stream data : string) : string :=
  match data with
  | EmptyString => EmptyString
  | String b rest =>
      let stream' :=
        if negb (Nat.eqb i 0) && Nat.eqb (i mod String.length stream) 0 then sha256 stream else stream in
      String (xor_ascii b (byte_at (i mod String.length stream') stream'))
        (xor_loop (S i) stream' rest)
  end.

Definition xor_crypt (data key : string) : string := xor_loop 0 (sha256 key) data.

(** ** Timelock providers *)

Record TimelockProvider := mkProvider {
  tl_encrypt : string -> Z -> ArtifactCryptoPolicy -> result string;
  tl_decrypt : string -> Z -> ArtifactCryptoPolicy -> result string
}.

Definition DRAND_QUICKNET_CHAIN_HASH : string :=
  "52db9ba70e0cc0f6eaf7803dd07447a1f5477735fd3f661792ba94600c84e971".
Definition DRAND_QUICKNET_API : string := "https://api.drand.sh/".

Definition mock_key (secret : string) (round_number : Z) : string :=
  secret +:+ ":" +:+ py_str_int round_number.

Definition MockDrandTimelockProvider_encrypt (secret plaintext : string) (round_number : Z) : string :=
  xor_crypt plaintext (mock_key secret round_number).

Definition MockDrandTimelockProvider_decrypt (revealed_round : Z) (secret ciphertext : string)
    (round_number : Z) : result string :=
  if (revealed_round <? round_number)%Z then
    Err (TimelockPending ("drand round " +:+ py_str_int round_number +:+ " is not revealed"))
  else Ok (xor_crypt ciphertext (mock_key secret round_number)).

Definition MockDrandTimelockProvider (revealed_round : Z) (secret : string) : TimelockProvider :=
  mkProvider (fun p r _ => Ok (MockDrandTimelockProvider_encrypt secret p r))
    (fun c r _ => MockDrandTimelockProvider_decrypt revealed_round secret c r).

(** *** The [tle] program *)

Record DrandTlockProvider := mkTlock {
  tlock_network : string;
  tlock_chain_hash : string;
  tlock_tle_path : option string;
  tlock_force_past_round_encrypt : bool
}.

(** [a or b] on an optional text. *)
Definition str_or_default (o : option string) (dflt : string) : string :=
  match o with Some s => if String.eqb s "" then dflt else s | None => dflt end.

Definition DrandTlockProvider_network_of (p : DrandTlockProvider) (policy : ArtifactCryptoPolicy) : string :=
  str_or_default (cp_key_id policy) (tlock_network p).

Definition DrandTlockProvider_chain_hash_of (p : DrandTlockProvider) (policy : ArtifactCryptoPolicy) : string :=
  str_or_default (cp_drand_chain_hash policy) (tlock_chain_hash p).

Definition to_lower (s : string) : string :=
  str_map (fun c => let n := N_of_ascii c in
    if ((65 <=? n) && (n <=? 90))%N then ascii_of_N (n + 32) else c) s.

(** What a run of the program left: return code, both outputs. *)
Definition DrandTlockProvider_run (returncode : Z) (stderr stdout : string) : result unit :=
  if (returncode =? 0)%Z then Ok tt
  else
    let msg := if String.eqb stderr "" then stdout else stderr in
    let low := to_lower msg in
    if str_contains "too early" low || str_contains "no beacon" low || str_contains "not found" low then
      Err (TimelockPending (if String.eqb (strip msg) "" then "drand round is not revealed" else strip msg))
    else Err (RuntimeError ("tle command failed: " +:+ strip msg)).

Definition DrandTlockProvider_encrypt_args (p : DrandTlockProvider) (tle : string) (round_number : Z)
    (policy : ArtifactCryptoPolicy) (in_path out_path : string) : list string :=
  [tle; "--encrypt"; "--network"; DrandTlockProvider_network_of p policy; "--chain";
   DrandTlockProvider_chain_hash_of p policy; "--round"; py_str_int round_number; "--output"; out_path]
  ++ (if tlock_force_past_round_encrypt p then ["--force"] else []) ++ [in_path].

Definition DrandTlockProvider_decrypt_args (p : DrandTlockProvider) (tle : string)
    (policy : ArtifactCryptoPolicy) (in_path out_path : string) : list string :=
  [tle; "--decrypt"; "--network"; DrandTlockProvider_network_of p policy; "--chain";
   DrandTlockProvider_chain_hash_of p policy; "--output"; out_path; in_path].

(** The path of the program: [which name] searches the path of the process,
    [gopath go] asks the Go tool for its directory, [exists_ path] tests for a
    file. *)
Definition DrandTlockProvider_tle (p : DrandTlockProvider) (which : string -> option string)
    (gopath : string -> result string) (exists_ : string -> bool) : result string :=
  let found (o : option string) := match o with Some s => negb (String.eqb s "") | None => false end in
  let path := if found (tlock_tle_path p) then tlock_tle_path p else which "tle" in
  let missing := Err (RuntimeError ("drand timelock requires the official `tle` CLI. "
    +:+ "Install it with: go install github.com/drand/tlock/cmd/tle@latest")) in
  match path with
  | Some s => if negb (String.eqb s "") then Ok s else missing
  | None =>
      match which "go" with
      | Some go_path =>
          if String.eqb go_path "" then missing
          else match gopath go_path with
               | Ok dir =>
                   let candidate := strip dir +:+ "/bin/tle" in
                   if exists_ candidate then Ok candidate else missing
               | Err e => if catchable e then missing else Err e
               end
      | None => missing
      end
  end.

(** [run_tle cmd input] runs the command with the given contents of the input
    file: its return code, both outputs, and the contents of the output file. *)
Definition tlock_provider (p : DrandTlockProvider) (tle : result string)
    (run_tle : list string -> string -> result (Z * string * string * string)) : TimelockProvider :=
  mkProvider
    (fun plaintext r policy =>
       path ← tle;
       out ← run_tle (DrandTlockProvider_encrypt_args p path r policy "plain.bin" "cipher.tle") plaintext;
       let '(rc, err, std, file) := out in
       _ ← DrandTlockProvider_run rc err std; Ok file)
    (fun ciphertext r policy =>
       path ← tle;
       out ← run_tle (DrandTlockProvider_decrypt_args p path policy "cipher.tle" "plain.bin") ciphertext;
       let '(rc, err, std, file) := out in
       _ ← DrandTlockProvider_run rc err std; Ok file).

(** [s.rstrip("/")]. *)
Fixpoint rstrip_slash (s : string) : string :=
  match s with
  | EmptyString => EmptyString
  | String c s' =>
      match rstrip_slash s' with
      | EmptyString => if Ascii.eqb c slash then EmptyString else String c EmptyString
      | t => String c t
      end
  end.

Definition default_policy (policy : option ArtifactCryptoPolicy) : ArtifactCryptoPolicy :=
  match policy with Some p => p | None => ArtifactCryptoPolicy_default end.

(** The latest round a relay has published; [urlopen url] is the body of the
    answer. *)
Definition DrandTlockProvider_latest_round (p : DrandTlockProvider) (urlopen : string -> result string)
    (policy : option ArtifactCryptoPolicy) : result Z :=
  let base := rstrip_slash (DrandTlockProvider_network_of p (default_policy policy)) in
  let chain := DrandTlockProvider_chain_hash_of p (default_policy policy) in
  body ← match urlopen (base +:+ "/" +:+ chain +:+ "/public/latest") with
         | Err (HTTPError _) => urlopen (base +:+ "/public/latest")
         | answer => answer
         end;
  text ← utf8_decode body;
  v ← json_loads text;
  d ← as_dict v;
  req_int d "round".

(** *** The [bittensor_drand] package *)

Definition BittensorDrandTimelockProvider_validate_policy (policy : ArtifactCryptoPolicy) : result unit :=
  if match cp_drand_chain_hash policy with
     | Some h => negb (String.eqb h "") && negb (String.eqb h DRAND_QUICKNET_CHAIN_HASH)
     | None => false
     end
  then Err (ValueError "bittensor-drand provider supports only the default quicknet chain")
  else if match cp_drand_public_key policy with Some k => negb (String.eqb k "") | None => false end
  then Err (ValueError "bittensor-drand provider does not accept custom drand public keys")
  else Ok tt.

(** [encrypt_at_round plaintext round] returns the ciphertext and the reveal
    round; [decrypt ciphertext] is [None] before the round. *)
Definition BittensorDrandTimelockProvider
    (encrypt_at_round : string -> Z -> result (string * Z))
    (decrypt : string -> result (option string)) : TimelockProvider :=
  mkProvider
    (fun plaintext r policy =>
       _ ← BittensorDrandTimelockProvider_validate_policy policy;
       out ← encrypt_at_round plaintext r;
       if (snd out =? r)%Z then Ok (fst out)
       else Err (RuntimeError ("bittensor-drand returned reveal round " +:+ py_str_int (snd out)
                              +:+ ", expected " +:+ py_str_int r)))
    (fun ciphertext r policy =>
       _ ← BittensorDrandTimelockProvider_validate_policy policy;
       out ← decrypt ciphertext;
       match out with
       | Some p => Ok p
       | None => Err (TimelockPending ("drand round " +:+ py_str_int r +:+ " is not revealed"))
       end).

(** ** Envelopes *)

(** The secret of the stream cipher. *)
Definition envelope_key (policy : ArtifactCryptoPolicy) (encryption_secret : string) : string :=
  str_or_default (cp_key_id policy) encryption_secret.

(** [default_provider] is [BittensorDrandTimelockProvider()], which may not be
    installed. *)
Definition pick_provider (timelock_provider : option TimelockProvider)
    (default_provider : result TimelockProvider) : result TimelockProvider :=
  match timelock_provider with Some p => Ok p | None => default_provider end.

Definition is_mode (policy : ArtifactCryptoPolicy) (m : CryptoMode) : bool :=
  String.eqb (cp_mode policy) (CryptoMode_value m).

Section envelopes.
Context (default_provider : result TimelockProvider).

(** The ciphertext of an artifact under a policy other than [none]. *)
Definition seal_payload (plaintext : string) (policy : ArtifactCryptoPolicy) (encryption_secret : string)
    (timelock_provider : option TimelockProvider) : result string :=
  if is_mode policy ENCRYPTED then Ok (xor_crypt plaintext (envelope_key policy encryption_secret))
  else if is_mode policy DRAND_TIMELOCK then
    match cp_drand_round policy with
    | None => Err (ValueError "drand_timelock policy requires drand_round")
    | Some r =>
        provider ← pick_provider timelock_provider default_provider;
        tl_encrypt provider plaintext r policy
    end
  else if is_mode policy SIGNED then Ok plaintext
  else Err (ValueError ("unknown crypto mode: " +:+ cp_mode policy)).

Definition unsigned_envelope (plaintext ciphertext : string) (policy : ArtifactCryptoPolicy)
    (signer : option Signer) : ArtifactEnvelope :=
  mkEnvelope (cp_mode policy) (b64encode ciphertext) (sha256_hex plaintext) (sha256_hex ciphertext)
    (option_map signer_identity signer) None (Some (cp_cipher_suite policy)) (cp_key_id policy)
    (cp_drand_round policy) (cp_drand_chain_hash policy) (cp_drand_public_key policy) 1.

Definition with_env_signature (e : ArtifactEnvelope) (sig : option string) : ArtifactEnvelope :=
  mkEnvelope (env_crypto_mode e) (env_payload_b64 e) (env_plaintext_sha256 e) (env_ciphertext_sha256 e)
    (env_signer e) sig (env_cipher_suite e) (env_key_id e) (env_drand_round e)
    (env_drand_chain_hash e) (env_drand_public_key e) (env_schema_version e).

(** The envelope built by [encode_envelope]. *)
Definition seal_envelope (plaintext : string) (policy : ArtifactCryptoPolicy) (signer : option Signer)
    (encryption_secret : string) (timelock_provider : option TimelockProvider) : result ArtifactEnvelope :=
  ciphertext ← seal_payload plaintext policy encryption_secret timelock_provider;
  let envelope := unsigned_envelope plaintext ciphertext policy signer in
  match signer with
  | Some s =>
      sig ← signer_sign s (canonical_json (PDict (ArtifactEnvelope_signed_payload_dict envelope)));
      Ok (with_env_signature envelope (Some sig))
  | None => Ok envelope
  end.

Definition encode_envelope (plaintext : string) (policy : option ArtifactCryptoPolicy)
    (signer : option Signer) (encryption_secret : string)
    (timelock_provider : option TimelockProvider) : result string :=
  let policy := default_policy policy in
  if is_mode policy NONE then Ok plaintext
  else
    envelope ← seal_envelope plaintext policy signer encryption_secret timelock_provider;
    Ok (json_dumps (PDict (ArtifactEnvelope_to_dict envelope))).

Definition verify_artifact_envelope (envelope : ArtifactEnvelope) (expected_policy : ArtifactCryptoPolicy)
    (verifier : option Verifier) : result unit :=
  if negb (String.eqb (env_crypto_mode envelope) (cp_mode expected_policy)) then
    Err (ValueError ("artifact crypto mode mismatch: " +:+ env_crypto_mode envelope +:+ " != "
                     +:+ cp_mode expected_policy))
  else if match cp_required_signer expected_policy with
          | Some r => negb (String.eqb r "") && negb (bool_decide (env_signer envelope = Some r))
          | None => false
          end
  then Err (ValueError "artifact signer mismatch")
  else if is_mode expected_policy SIGNED || is_mode expected_policy ENCRYPTED
          || is_mode expected_policy DRAND_TIMELOCK then
    match env_signature envelope with
    | None => Err (ValueError "artifact signature missing")
    | Some sig =>
        if String.eqb sig "" then Err (ValueError "artifact signature missing")
        else match verifier with
             | None => Ok tt
             | Some v =>
                 good ← verifier_verify v
                   (canonical_json (PDict (ArtifactEnvelope_signed_payload_dict envelope))) sig
                   (env_signer envelope);
                 if (good : bool) then Ok tt
                 else Err (ValueError "artifact signature verification failed")
             end
    end
  else Ok tt.

(** [ArtifactEnvelope.from_dict(json.loads(blob.decode("utf-8")))]. *)
Definition parse_envelope (blob : string) : result ArtifactEnvelope :=
  load_bytes ArtifactEnvelope_from_dict blob.

(** [base64.b64decode(payload.encode("ascii"))]. *)
Definition payload_bytes (payload_b64 : string) : result string :=
  if str_forallb is_ascii payload_b64 then b64decode payload_b64
  else Err (ValueError "'ascii' codec can't encode").

Definition open_payload (ciphertext : string) (policy : ArtifactCryptoPolicy) (encryption_secret : string)
    (timelock_provider : option TimelockProvider) : result string :=
  if is_mode policy SIGNED then Ok ciphertext
  else if is_mode policy ENCRYPTED then Ok (xor_crypt ciphertext (envelope_key policy encryption_secret))
  else if is_mode policy DRAND_TIMELOCK then
    match cp_drand_round policy with
    | None => Err (ValueError "drand_timelock policy requires drand_round")
    | Some r =>
        provider ← pick_provider timelock_provider default_provider;
        tl_decrypt provider ciphertext r policy
    end
  else Err (ValueError ("unknown crypto mode: " +:+ cp_mode policy)).

Definition decode_envelope (blob : string) (policy : option ArtifactCryptoPolicy)
    (verifier : option Verifier) (encryption_secret : string)
    (timelock_provider : option TimelockProvider) : result string :=
  let policy := default_policy policy in
  if is_mode policy NONE then Ok blob
  else
    envelope ← parse_envelope blob;
    _ ← verify_artifact_envelope envelope policy verifier;
    ciphertext ← payload_bytes (env_payload_b64 envelope);
    if negb (String.eqb (sha256_hex ciphertext) (env_ciphertext_sha256 envelope)) then
      Err (ValueError "artifact ciphertext digest mismatch")
    else
    plaintext ← open_payload ciphertext policy encryption_secret timelock_provider;
    if negb (String.eqb (sha256_hex plaintext) (env_plaintext_sha256 envelope)) then
      Err (ValueError "artifact plaintext digest mismatch")
    else Ok plaintext.
End envelopes.

Definition artifact_digest_from_blob (name uri blob : string) (policy : option ArtifactCryptoPolicy)
    : result (dict pyval) :=
  let policy := default_policy policy in
  if is_mode policy NONE then
    Ok [("sha256", PStr (sha256_hex blob)); ("size_bytes", PInt (Z.of_nat (String.length blob)));
        ("crypto_mode", PStr (cp_mode policy))]
  else
    envelope ← parse_envelope blob;
    Ok [("sha256", PStr (sha256_hex blob));
        ("size_bytes", PInt (Z.of_nat (String.length blob)));
        ("plaintext_sha256", PStr (env_plaintext_sha256 envelope));
        ("ciphertext_sha256", PStr (env_ciphertext_sha256 envelope));
        ("envelope_sha256", PStr (sha256_hex blob));
        ("signature", pstr_opt (env_signature envelope));
        ("crypto_mode", PStr (env_crypto_mode envelope))].

(** ** Lemmas *)

Lemma xor_ascii_involutive a b : xor_ascii (xor_ascii a b) b = a.
Proof. destruct a, b. cbn. by rewrite !xorb_assoc, !xorb_nilpotent, !xorb_false_r. Qed.

Lemma xor_loop_involutive data : forall i stream, xor_loop i stream (xor_loop i stream data) = data.
Proof.
  induction data as [|b data IH]; intros i stream; [done|]. cbn [xor_loop].
  by rewrite xor_ascii_involutive, IH.
Qed.

(** The cipher is its own inverse under the same key. *)
Lemma xor_crypt_involutive data key : xor_crypt (xor_crypt data key) key = data.
Proof. apply xor_loop_involutive. Qed.

Lemma xor_loop_length data : forall i stream, String.length (xor_loop i stream data) = String.length data.
Proof. induction data as [|b data IH]; intros i stream; [done|]. cbn. by rewrite IH. Qed.

#[global] Opaque xor_crypt.

(** What a provider promises for a round that has been revealed. *)
Definition opens (p : TimelockProvider) (r : Z) (policy : ArtifactCryptoPolicy) : Prop :=
  forall plaintext ciphertext, tl_encrypt p plaintext r policy = Ok ciphertext ->
    tl_decrypt p ciphertext r policy = Ok plaintext.

Lemma mock_opens revealed secret r policy : (r <= revealed)%Z ->
  opens (MockDrandTimelockProvider revealed secret) r policy.
Proof.
  intros Hr p c. cbn. unfold MockDrandTimelockProvider_decrypt, MockDrandTimelockProvider_encrypt.
  intros [= <-]. apply Z.ltb_ge in Hr as ->. by rewrite xor_crypt_involutive.
Qed.

(** The timelock provider in force opens the policy's round. *)
Definition provider_opens (dp : result TimelockProvider) (tp : option TimelockProvider)
    (policy : ArtifactCryptoPolicy) : Prop :=
  is_mode policy DRAND_TIMELOCK = true ->
  forall p r, pick_provider tp dp = Ok p -> cp_drand_round policy = Some r -> opens p r policy.

Lemma mode_exclusive policy a b : is_mode policy a = true -> CryptoMode_value a <> CryptoMode_value b ->
  is_mode policy b = false.
Proof.
  unfold is_mode. intros H Hne. apply String.eqb_eq in H. apply String.eqb_neq. congruence.
Qed.

Lemma open_seal dp plaintext policy secret tp ciphertext : provider_opens dp tp policy ->
  seal_payload dp plaintext policy secret tp = Ok ciphertext ->
  open_payload dp ciphertext policy secret tp = Ok plaintext.
Proof.
  unfold seal_payload, open_payload. intros Hp H.
  destruct (is_mode policy ENCRYPTED) eqn:Ee.
  - rewrite (mode_exclusive policy ENCRYPTED SIGNED Ee) by done. injection H as <-.
    by rewrite xor_crypt_involutive.
  - destruct (is_mode policy DRAND_TIMELOCK) eqn:Et.
    + rewrite (mode_exclusive policy DRAND_TIMELOCK SIGNED Et) by done.
      destruct (cp_drand_round policy) as [r|] eqn:Er; [|done].
      destruct (pick_provider tp dp) as [p|] eqn:Epp; [|done]. cbn in *. by apply (Hp Et p r Epp Er).
    + destruct (is_mode policy SIGNED); [|done]. by injection H as <-.
Qed.

Lemma parse_envelope_dumps env : json_ok (PDict (ArtifactEnvelope_to_dict env)) = true ->
  parse_envelope (json_dumps (PDict (ArtifactEnvelope_to_dict env))) = Ok env.
Proof. exact (wire_bytes_roundtrip env). Qed.

Lemma payload_bytes_encode c : payload_bytes (b64encode c) = Ok c.
Proof. unfold payload_bytes. by rewrite b64encode_ascii, b64_roundtrip. Qed.

(** The envelope of an artifact sealed by a signer. *)
Lemma seal_envelope_inv dp plaintext policy s secret tp env :
  seal_envelope dp plaintext policy (Some s) secret tp = Ok env ->
  exists ciphertext sig, seal_payload dp plaintext policy secret tp = Ok ciphertext /\
    env = with_env_signature (unsigned_envelope plaintext ciphertext policy (Some s)) (Some sig) /\
    signer_sign s (canonical_json (PDict (ArtifactEnvelope_signed_payload_dict env))) = Ok sig.
Proof.
  unfold seal_envelope. intros H. apply bind_Ok in H as (c & Hc & H). apply bind_Ok in H as (sig & Hs & [= <-]).
  by exists c, sig.
Qed.

(** The signer a policy asks for, if any. *)
Definition signer_allowed (policy : ArtifactCryptoPolicy) (identity : string) : bool :=
  match cp_required_signer policy with
  | Some r => String.eqb r "" || String.eqb r identity
  | None => true
  end.

Lemma verify_sealed plaintext ciphertext policy s v sig :
  SignsFor s v -> signer_allowed policy (signer_identity s) = true -> sig <> EmptyString ->
  let env := with_env_signature (unsigned_envelope plaintext ciphertext policy (Some s)) (Some sig) in
  signer_sign s (canonical_json (PDict (ArtifactEnvelope_signed_payload_dict env))) = Ok sig ->
  verify_artifact_envelope env policy (Some v) = Ok tt.
Proof.
  intros Hsv Hal Hne env Hs. unfold verify_artifact_envelope.
  assert (env_crypto_mode env = cp_mode policy) as -> by done. rewrite String.eqb_refl. cbn [negb].
  assert (match cp_required_signer policy with
          | Some r => negb (String.eqb r "") && negb (bool_decide (env_signer env = Some r))
          | None => false end = false) as ->.
  { unfold signer_allowed in Hal. destruct (cp_required_signer policy) as [r|]; [|done].
    destruct (String.eqb r ""); [done|]. cbn in Hal |- *. apply String.eqb_eq in Hal as ->.
    by rewrite bool_decide_true. }
  destruct (_ || _ || _); [|done]. cbn [env_signature with_env_signature env].
  apply String.eqb_neq in Hne as ->.
  assert (env_signer env = Some (signer_identity s)) as -> by done.
  by rewrite (signs_for _ _ Hs).
Qed.

(** ** Properties *)

(** C10. Envelope round trip, for every mode: an artifact sealed under a policy
    (signed, encrypted or timelocked to a round that has been revealed) by a
    signer the policy allows is opened to the original bytes by any verifier
    that accepts the signer; without protection the bytes travel as they are. *)
Theorem envelope_roundtrip dp plaintext policy s v secret tp :
  SignsFor s v -> signer_allowed policy (signer_identity s) = true -> provider_opens dp tp policy ->
  (is_mode policy NONE = true ->
     encode_envelope dp plaintext (Some policy) (Some s) secret tp = Ok plaintext /\
     decode_envelope dp plaintext (Some policy) (Some v) secret tp = Ok plaintext) /\
  (forall env, is_mode policy NONE = false ->
     seal_envelope dp plaintext policy (Some s) secret tp = Ok env ->
     json_ok (PDict (ArtifactEnvelope_to_dict env)) = true -> env_signature env <> Some EmptyString ->
     exists blob, encode_envelope dp plaintext (Some policy) (Some s) secret tp = Ok blob /\
       decode_envelope dp blob (Some policy) (Some v) secret tp = Ok plaintext).
Proof.
  intros Hsv Hal Hp. unfold encode_envelope, decode_envelope. cbn [default_policy]. split.
  - intros ->. done.
  - intros env Hmode Hseal Hok Hsig. rewrite Hmode, Hseal. cbn [mbind result_bind].
    eexists. split; [reflexivity|]. rewrite parse_envelope_dumps by done. cbn [mbind result_bind].
    apply seal_envelope_inv in Hseal as (c & sig & Hc & -> & Hs).
    rewrite (verify_sealed _ _ _ s) by (done || by intros ->). cbn [mbind result_bind].
    cbn [env_payload_b64 env_ciphertext_sha256 env_plaintext_sha256 with_env_signature unsigned_envelope].
    rewrite payload_bytes_encode. cbn [mbind result_bind]. rewrite String.eqb_refl. cbn [negb].
    rewrite (open_seal _ _ _ _ _ _ Hp Hc). cbn [mbind result_bind]. by rewrite String.eqb_refl.
Qed.

(** Nothing is opened unchecked: when a protected artifact opens, the
    blob parsed as an envelope of the policy's mode, carried a signature that
    the verifier accepted over the envelope's own fields from the signer the
    policy requires, and both digests in that envelope match the bytes. *)
Theorem decode_envelope_checked dp blob policy v secret tp plaintext :
  is_mode policy SIGNED || is_mode policy ENCRYPTED || is_mode policy DRAND_TIMELOCK = true ->
  decode_envelope dp blob (Some policy) (Some v) secret tp = Ok plaintext ->
  exists env sig ciphertext, parse_envelope blob = Ok env /\ env_crypto_mode env = cp_mode policy /\
    env_signature env = Some sig /\ sig <> EmptyString /\
    verifier_verify v (canonical_json (PDict (ArtifactEnvelope_signed_payload_dict env))) sig (env_signer env) = Ok true /\
    (forall r, cp_required_signer policy = Some r -> r <> EmptyString -> env_signer env = Some r) /\
    payload_bytes (env_payload_b64 env) = Ok ciphertext /\
    sha256_hex ciphertext = env_ciphertext_sha256 env /\
    open_payload dp ciphertext policy secret tp = Ok plaintext /\
    sha256_hex plaintext = env_plaintext_sha256 env.
Proof.
  intros Hmode H. unfold decode_envelope in H. cbn [default_policy] in H.
  assert (is_mode policy NONE = false) as Hnone.
  { apply orb_true_iff in Hmode as [Hm|Hm]; [apply orb_true_iff in Hm as [Hm|Hm]|];
      by apply (mode_exclusive policy _ NONE Hm). }
  rewrite Hnone in H. apply bind_Ok in H as (env & Henv & H). apply bind_Ok in H as ([] & Hver & H).
  apply bind_Ok in H as (c & Hc & H).
  destruct (String.eqb (sha256_hex c) _) eqn:E1; [|done]. apply bind_Ok in H as (p & Hp & H).
  destruct (String.eqb (sha256_hex p) _) eqn:E2; [|done]. injection H as ->.
  apply String.eqb_eq in E1, E2. unfold verify_artifact_envelope in Hver.
  destruct (String.eqb (env_crypto_mode env) _) eqn:Em; [|done]. apply String.eqb_eq in Em. cbn [negb] in Hver.
  destruct (match cp_required_signer policy with Some _ => _ | None => _ end) eqn:Er; [done|].
  rewrite Hmode in Hver. destruct (env_signature env) as [sig|] eqn:Es; [|done].
  destruct (String.eqb sig "") eqn:Ee; [done|]. apply bind_Ok in Hver as (good & Hgood & Hver).
  destruct good; [|done]. exists env, sig, c. apply String.eqb_neq in Ee. repeat split; try done.
  intros r Hr Hne. rewrite Hr in Er. apply String.eqb_neq in Hne. rewrite Hne in Er. cbn in Er.
  apply negb_false_iff, bool_decide_eq_true in Er. done.
Qed.

(** A timelocked artifact stays closed until its round: a decoder whose
    beacon has not reached the round raises [TimelockPending], for every
    envelope that passes the checks; once the round is revealed the artifact
    opens. *)
Theorem timelock_holds dp plaintext policy s v secret shared r round1 round2 env :
  SignsFor s v -> signer_allowed policy (signer_identity s) = true ->
  is_mode policy DRAND_TIMELOCK = true -> cp_drand_round policy = Some r ->
  seal_envelope dp plaintext policy (Some s) secret (Some (MockDrandTimelockProvider round1 shared)) = Ok env ->
  json_ok (PDict (ArtifactEnvelope_to_dict env)) = true -> env_signature env <> Some EmptyString ->
  decode_envelope dp (json_dumps (PDict (ArtifactEnvelope_to_dict env))) (Some policy) (Some v) secret
    (Some (MockDrandTimelockProvider round2 shared)) =
  if (round2 <? r)%Z
  then Err (TimelockPending ("drand round " +:+ py_str_int r +:+ " is not revealed"))
  else Ok plaintext.
Proof.
  intros Hsv Hal Hm Hr Hseal Hok Hsig. unfold decode_envelope. cbn [default_policy].
  rewrite (mode_exclusive policy DRAND_TIMELOCK NONE Hm), parse_envelope_dumps by done. cbn [mbind result_bind].
  apply seal_envelope_inv in Hseal as (c & sig & Hc & -> & Hs).
  rewrite (verify_sealed _ _ _ s) by (done || by intros ->). cbn [mbind result_bind].
  cbn [env_payload_b64 env_ciphertext_sha256 env_plaintext_sha256 with_env_signature unsigned_envelope].
  rewrite payload_bytes_encode. cbn [mbind result_bind]. rewrite String.eqb_refl. cbn [negb].
  unfold seal_payload in Hc. unfold open_payload.
  rewrite (mode_exclusive policy DRAND_TIMELOCK ENCRYPTED Hm), Hm, Hr in Hc by done. injection Hc as <-.
  rewrite (mode_exclusive policy DRAND_TIMELOCK SIGNED Hm), (mode_exclusive policy DRAND_TIMELOCK ENCRYPTED Hm), Hm, Hr by done.
  cbn [pick_provider mbind result_bind tl_decrypt MockDrandTimelockProvider].
  unfold MockDrandTimelockProvider_decrypt, MockDrandTimelockProvider_encrypt.
  destruct (round2 <? r)%Z; [done|]. rewrite xor_crypt_involutive. cbn [mbind result_bind].
  by rewrite String.eqb_refl.
Qed.

(** *** Examples *)

Definition sample_policy (m : CryptoMode) : ArtifactCryptoPolicy :=
  mkPolicy (CryptoMode_value m) (Some "hk1") None "xor-dev-v1" None (Some 7%Z) None None.

(** A provider package that is not installed. *)
Definition no_provider : result TimelockProvider :=
  Err (RuntimeError "bittensor-drand is required for drand timelock.").

Lemma envelope_roundtrip_witness :
  exists blob, encode_envelope no_provider "weights" (Some (sample_policy ENCRYPTED))
      (Some (hmac_signer sample_hmac)) "dev" None = Ok blob /\
    decode_envelope no_provider blob (Some (sample_policy ENCRYPTED))
      (Some (hmac_verifier sample_hmac)) "dev" None = Ok "weights".
Proof.
  pose (env := seal_envelope no_provider "weights" (sample_policy ENCRYPTED)
    (Some (hmac_signer sample_hmac)) "dev" None).
  refine (proj2 (envelope_roundtrip no_provider "weights" (sample_policy ENCRYPTED)
    (hmac_signer sample_hmac) (hmac_verifier sample_hmac) "dev" None (hmac_signs_for sample_hmac)
    eq_refl (fun H => match diff_false_true H with end))
    (match env with Ok e => e | Err _ => unsigned_envelope "" "" (sample_policy NONE) None end)
    eq_refl _ _ _); vm_compute; [reflexivity|reflexivity|discriminate].
Defined.

Lemma timelock_holds_witness :
  exists env blob, blob = json_dumps (PDict (ArtifactEnvelope_to_dict env)) /\
    decode_envelope no_provider blob (Some (sample_policy DRAND_TIMELOCK)) (Some (hmac_verifier sample_hmac))
      "dev" (Some (MockDrandTimelockProvider 6 "beacon")) =
    Err (TimelockPending "drand round 7 is not revealed").
Proof.
  pose (env := seal_envelope no_provider "weights" (sample_policy DRAND_TIMELOCK)
    (Some (hmac_signer sample_hmac)) "dev" (Some (MockDrandTimelockProvider 0 "beacon"))).
  eexists _, _. split; [reflexivity|].
  refine (timelock_holds no_provider "weights" (sample_policy DRAND_TIMELOCK)
    (hmac_signer sample_hmac) (hmac_verifier sample_hmac) "dev" "beacon" 7 0 6
    (match env with Ok e => e | Err _ => unsigned_envelope "" "" (sample_policy NONE) None end)
    (hmac_signs_for sample_hmac) eq_refl eq_refl eq_refl _ _ _);
    vm_compute; [reflexivity|reflexivity|discriminate].
Defined.

Definition sample_blob : string :=
  match encode_envelope no_provider "weights" (Some (sample_policy SIGNED))
    (Some (hmac_signer sample_hmac)) "dev" None with Ok b => b | Err _ => EmptyString end.

Lemma decode_envelope_checked_witness :
  exists env sig, parse_envelope sample_blob = Ok env /\ env_signature env = Some sig /\
    env_signer env = Some "hk1" /\
    verifier_verify (hmac_verifier sample_hmac)
      (canonical_json (PDict (ArtifactEnvelope_signed_payload_dict env))) sig (env_signer env) = Ok true.
Proof.
  destruct (decode_envelope_checked no_provider sample_blob (sample_policy SIGNED)
    (hmac_verifier sample_hmac) "dev" None "weights") as (env & sig & c & H1 & H2 & H3 & H4 & H5 & H6 & _).
  - reflexivity.
  - vm_compute. reflexivity.
  - exists env, sig. repeat split; [exact H1|exact H3|apply (H6 "hk1"); [reflexivity|discriminate]|exact H5].
Defined.
