(* ===== verification/WalletCrypto.v ===== *)
(** * Assignment grants under lock ([teuton_core/wallet_crypto.py]) and the
    metagraph ([teuton_core/metagraph.py])

    The three adapters that seal an assignment grant for a hotkey, the keys
    they seal it with, and the resolver that finds the key of a hotkey.
    [SealsFor] is the interface between the side that emits grants and the side
    that opens them.  Sealed boxes and keypairs are parameters. *)

From Stdlib Require Import ZArith Lia Ascii.
From stdpp Require Import base strings list.
From S2P Require Import Prelude PyFloat PyVal Json Digest Signatures Paths Codec Protocol ProtocolFacts Storage Crypto.

(** ** Key material *)

Inductive key_material :=
  | KBytes (b : string)
  | KByteArray (b : string)
  | KText (t : string)
  | KOther.

Definition key_material_to_bytes (value : key_material) (field_name : string) : result string :=
  match value with
  | KBytes b => Ok b
  | KByteArray b => Ok b
  | KText value =>
      let text := if startswith "0x" value then str_drop 2 value else value in
      of_option (ValueError (field_name +:+ " must be bytes or a hex string")) (fromhex text)
  | KOther => Err (TypeError (field_name +:+ " must be bytes or a hex string"))
  end.

(** [SealedBox(VerifyKey(pk).to_curve25519_public_key()).encrypt(p)], which
    draws an ephemeral key (first argument), and
    [SealedBox(SigningKey(seed).to_curve25519_private_key()).decrypt(c)]. *)
Class BoxLib := {
  sealed_encrypt : string -> string -> string -> result string;
  sealed_decrypt : string -> string -> result string
}.

(** Documented behaviour of [nacl.public.SealedBox]: the holder of the private
    key reads what was sealed for the public key. *)
Class BoxLaws `{SigLib} (B : BoxLib) : Prop :=
  sealed_opens : forall ephemeral seed p c,
    sealed_encrypt ephemeral (nacl_public_key seed) p = Ok c -> sealed_decrypt seed c = Ok p.

(** What the code reads of a keypair object; an attribute may be absent. *)
Record Keypair := mkKeypair {
  kp_ss58_address : option string;
  kp_public_key : option key_material;
  kp_sign : string -> result (string + string);
  kp_verify : string -> string + string -> result bool;
  kp_encrypt_message : option (string -> string -> result string);
  kp_decrypt_message : option (string -> string -> result string)
}.

(** ** The interfaces *)

(** [encrypt_for_hotkey(grant, recipient_hotkey, recipient_uid,
    metagraph_block, metagraph_hash, recipient_public_key)]. *)
Record AssignmentEncryptor := mkEncryptor {
  encrypt_for_hotkey : AssignmentGrantV3 -> string -> option Z -> option Z -> option string ->
    option key_material -> result EncryptedAssignmentGrantV3
}.

Record AssignmentDecryptor := mkDecryptor {
  grant_decrypt : EncryptedAssignmentGrantV3 -> string -> result AssignmentGrantV3
}.

(** What one side promises the other: the recipient opens the grant, nobody
    opens it under another hotkey. *)
Class SealsFor (e : AssignmentEncryptor) (d : AssignmentDecryptor) (recipient : string)
    (pk : option key_material) : Prop := {
  seals_open : forall grant uid block hash enc,
    json_ok (PDict (AssignmentGrantV3_to_dict grant)) = true ->
    encrypt_for_hotkey e grant recipient uid block hash pk = Ok enc ->
    grant_decrypt d enc recipient = Ok grant;
  seals_others : forall grant uid block hash enc other,
    encrypt_for_hotkey e grant recipient uid block hash pk = Ok enc -> other <> recipient ->
    exists msg, grant_decrypt d enc other = Err (ValueError msg)
}.

(** [metagraph_hash or sha256_hex(recipient_hotkey)]. *)
Definition grant_metagraph_hash (metagraph_hash : option string) (recipient : string) : option string :=
  match metagraph_hash with
  | Some h => if String.eqb h "" then Some (sha256_hex recipient) else Some h
  | None => Some (sha256_hex recipient)
  end.

(** [AssignmentGrantV3.from_dict(json.loads(plaintext.decode("utf-8")))]. *)
Definition open_grant (plaintext : string) : result AssignmentGrantV3 :=
  load_bytes AssignmentGrantV3_from_dict plaintext.

(** The two checks every adapter starts with. *)
Definition check_addressee (scheme : string) (e : EncryptedAssignmentGrantV3) (expected_hotkey : string) : result unit :=
  if negb (String.eqb (eg_crypto_scheme e) scheme) then Err (ValueError "unsupported assignment scheme")
  else if negb (String.eqb (eg_recipient_hotkey e) expected_hotkey) then
    Err (ValueError "assignment grant recipient hotkey mismatch")
  else Ok tt.

(** ** The development adapter *)

Record DevAssignmentCrypto := mkDevCrypto { dc_secret : string; dc_scheme : string }.

Definition DevAssignmentCrypto_init (secret : string) : DevAssignmentCrypto := mkDevCrypto secret "dev-xor-v1".

Definition DevAssignmentCrypto_encrypt_for_hotkey (self : DevAssignmentCrypto) (grant : AssignmentGrantV3)
    (recipient_hotkey : string) (recipient_uid metagraph_block : option Z) (metagraph_hash : option string)
    : EncryptedAssignmentGrantV3 :=
  let plaintext := canonical_json (PDict (AssignmentGrantV3_to_dict grant)) in
  let ciphertext := xor_crypt plaintext (dc_secret self +:+ ":" +:+ recipient_hotkey) in
  mkEncrypted (ag_job_id grant) (ag_run_id grant) recipient_hotkey (b64encode ciphertext) (dc_scheme self)
    recipient_uid metagraph_block (grant_metagraph_hash metagraph_hash recipient_hotkey) None None None 1.

Definition DevAssignmentCrypto_decrypt (self : DevAssignmentCrypto) (encrypted : EncryptedAssignmentGrantV3)
    (expected_hotkey : string) : result AssignmentGrantV3 :=
  _ ← check_addressee (dc_scheme self) encrypted expected_hotkey;
  ciphertext ← payload_bytes (eg_ciphertext_b64 encrypted);
  open_grant (xor_crypt ciphertext (dc_secret self +:+ ":" +:+ expected_hotkey)).

(** The adapter takes no public key: passing one is a call error. *)
Definition dev_encryptor (self : DevAssignmentCrypto) : AssignmentEncryptor :=
  mkEncryptor (fun grant recipient uid block hash pk =>
    match pk with
    | None => Ok (DevAssignmentCrypto_encrypt_for_hotkey self grant recipient uid block hash)
    | Some _ => Err (TypeError "encrypt_for_hotkey() got an unexpected keyword argument 'recipient_public_key'")
    end).

Definition dev_decryptor (self : DevAssignmentCrypto) : AssignmentDecryptor :=
  mkDecryptor (DevAssignmentCrypto_decrypt self).

(** ** Sealed boxes for native hotkeys *)

Record Ed25519SealedBoxAssignmentCrypto := mkSealedBox { sb_seed : option string; sb_scheme : string }.

Definition Ed25519SealedBoxAssignmentCrypto_init (seed : option string) : Ed25519SealedBoxAssignmentCrypto :=
  mkSealedBox seed "teuton-ed25519-sealedbox-v1".

(** [read_file] is [Path(path).read_text(encoding="utf-8")] before decoding. *)
Definition Ed25519SealedBoxAssignmentCrypto_from_keyfile (read_file : string -> result string) (path : string)
    : result Ed25519SealedBoxAssignmentCrypto :=
  raw ← read_file path;
  text ← utf8_decode raw;
  v ← json_loads text;
  data ← as_object v;
  if negb (py_eq_zero (get data "cryptoType")) then
    Err (ValueError "expected native ED25519 cryptoType 0 hotkey")
  else
  s ← py_str (por (get data "secretSeed") (PStr ""));
  let seed_hex := removeprefix "0x" s in
  if String.eqb seed_hex "" then Err (ValueError "native ED25519 hotkey file is missing secretSeed")
  else
  seed ← of_option (ValueError "non-hexadecimal number found in fromhex()") (fromhex seed_hex);
  if negb (Nat.eqb (String.length seed) 32) then Err (ValueError "expected 32-byte ED25519 seed")
  else Ok (Ed25519SealedBoxAssignmentCrypto_init (Some seed)).

Definition Ed25519SealedBoxAssignmentCrypto_encrypt_for_hotkey `{BoxLib} (ephemeral : string)
    (self : Ed25519SealedBoxAssignmentCrypto) (grant : AssignmentGrantV3) (recipient_hotkey : string)
    (recipient_uid metagraph_block : option Z) (metagraph_hash : option string)
    (recipient_public_key : option key_material) : result EncryptedAssignmentGrantV3 :=
  match recipient_public_key with
  | None => Err (ValueError "recipient_public_key is required for ED25519 sealed-box grants")
  | Some key =>
      pk ← key_material_to_bytes key "recipient_public_key";
      let plaintext := canonical_json (PDict (AssignmentGrantV3_to_dict grant)) in
      ciphertext ← sealed_encrypt ephemeral pk plaintext;
      Ok (mkEncrypted (ag_job_id grant) (ag_run_id grant) recipient_hotkey (b64encode ciphertext) (sb_scheme self)
            recipient_uid metagraph_block (grant_metagraph_hash metagraph_hash recipient_hotkey)
            None None (Some (hex pk)) 1)
  end.

Definition Ed25519SealedBoxAssignmentCrypto_decrypt `{SigLib} `{BoxLib} (self : Ed25519SealedBoxAssignmentCrypto)
    (encrypted : EncryptedAssignmentGrantV3) (expected_hotkey : string) : result AssignmentGrantV3 :=
  _ ← check_addressee (sb_scheme self) encrypted expected_hotkey;
  match sb_seed self with
  | None => Err (ValueError "ED25519 sealed-box decrypt requires a native hotkey seed")
  | Some seed =>
      _ ← match eg_recipient_public_key_hex encrypted with
          | Some h =>
              if String.eqb h "" then Ok tt else
              expected ← of_option (ValueError "non-hexadecimal number found in fromhex()") (fromhex h);
              if negb (String.eqb (nacl_public_key seed) expected) then
                Err (ValueError "assignment grant recipient public key does not match local hotkey")
              else Ok tt
          | None => Ok tt
          end;
      ciphertext ← payload_bytes (eg_ciphertext_b64 encrypted);
      plaintext ← sealed_decrypt seed ciphertext;
      open_grant plaintext
  end.

Definition sealed_encryptor `{BoxLib} (ephemeral : string) (self : Ed25519SealedBoxAssignmentCrypto) : AssignmentEncryptor :=
  mkEncryptor (Ed25519SealedBoxAssignmentCrypto_encrypt_for_hotkey ephemeral self).

Definition sealed_decryptor `{SigLib} `{BoxLib} (self : Ed25519SealedBoxAssignmentCrypto) : AssignmentDecryptor :=
  mkDecryptor (Ed25519SealedBoxAssignmentCrypto_decrypt self).

(** ** Keypairs that encrypt *)

Record BittensorWalletCrypto := mkWalletCrypto { wc_keypair : Keypair; wc_identity : string }.

Definition BittensorWalletCrypto_scheme : string := "substrate-keypair-box-v1".

Definition BittensorWalletCrypto_init (keypair : Keypair) : BittensorWalletCrypto :=
  mkWalletCrypto keypair (match kp_ss58_address keypair with Some a => a | None => "unknown-hotkey" end).

Definition BittensorWalletCrypto_sign (self : BittensorWalletCrypto) (payload : string) : result string :=
  sig ← kp_sign (wc_keypair self) payload; Ok (match sig with inl b => hex b | inr t => t end).

(** The signature is passed as bytes ([inl]) when it is hexadecimal. *)
Definition BittensorWalletCrypto_verify (self : BittensorWalletCrypto) (payload signature : string) : result bool :=
  kp_verify (wc_keypair self) payload (match fromhex signature with Some b => inl b | None => inr signature end).

Definition keypair_public_key_bytes (keypair : Keypair) : result string :=
  match kp_public_key keypair with
  | None => Err (ValueError "Bittensor keypair does not expose public_key bytes for encrypted grants")
  | Some k => key_material_to_bytes k "keypair.public_key"
  end.

Definition public_key_bytes_from_hotkey `{SigLib} (hotkey : string) : result string :=
  decoded ← ss58_decode hotkey; key_material_to_bytes (KText decoded) "recipient_hotkey".

Definition raise_keypair_crypto_error `{ExnText} {A} (error : exn) : result A :=
  if str_contains "Only ed25519 keypair type supported" (exn_str error) then
    Err (NotImplementedError "Substrate keypair encryption is only supported for ed25519 keypairs")
  else Err error.

Definition BittensorWalletCrypto_encrypt_for_hotkey `{SigLib} `{ExnText} (self : BittensorWalletCrypto)
    (grant : AssignmentGrantV3) (recipient_hotkey : string) (recipient_uid metagraph_block : option Z)
    (metagraph_hash : option string) (recipient_public_key : option key_material)
    : result EncryptedAssignmentGrantV3 :=
  match kp_encrypt_message (wc_keypair self) with
  | None => Err (NotImplementedError "Installed Bittensor Keypair exposes sign/verify but not sealed encryption.")
  | Some encrypt =>
      pk ← match recipient_public_key with
           | Some k => key_material_to_bytes k "recipient_public_key"
           | None => public_key_bytes_from_hotkey recipient_hotkey
           end;
      sender ← keypair_public_key_bytes (wc_keypair self);
      let plaintext := canonical_json (PDict (AssignmentGrantV3_to_dict grant)) in
      ciphertext ← try_except (encrypt plaintext pk) raise_keypair_crypto_error;
      Ok (mkEncrypted (ag_job_id grant) (ag_run_id grant) recipient_hotkey (b64encode ciphertext)
            BittensorWalletCrypto_scheme recipient_uid metagraph_block
            (grant_metagraph_hash metagraph_hash recipient_hotkey)
            (Some (wc_identity self)) (Some (hex sender)) (Some (hex pk)) 1)
  end.

Definition BittensorWalletCrypto_decrypt `{ExnText} (self : BittensorWalletCrypto)
    (encrypted : EncryptedAssignmentGrantV3) (expected_hotkey : string) : result AssignmentGrantV3 :=
  _ ← check_addressee BittensorWalletCrypto_scheme encrypted expected_hotkey;
  match kp_decrypt_message (wc_keypair self) with
  | None => Err (NotImplementedError "Installed Bittensor Keypair exposes sign/verify but not sealed decryption.")
  | Some decrypt =>
      h ← match eg_sender_public_key_hex encrypted with
          | Some h => if String.eqb h "" then Err (ValueError "encrypted assignment grant missing sender public key") else Ok h
          | None => Err (ValueError "encrypted assignment grant missing sender public key")
          end;
      ciphertext ← payload_bytes (eg_ciphertext_b64 encrypted);
      plaintext ← try_except
        (sender ← of_option (ValueError "non-hexadecimal number found in fromhex()") (fromhex h); decrypt ciphertext sender)
        raise_keypair_crypto_error;
      open_grant plaintext
  end.

Definition wallet_encryptor `{SigLib} `{ExnText} (self : BittensorWalletCrypto) : AssignmentEncryptor :=
  mkEncryptor (BittensorWalletCrypto_encrypt_for_hotkey self).

Definition wallet_decryptor `{ExnText} (self : BittensorWalletCrypto) : AssignmentDecryptor :=
  mkDecryptor (BittensorWalletCrypto_decrypt self).

(** ** The metagraph *)

Record HotkeyMetagraphInfo := mkHotkeyInfo {
  hi_hotkey : string;
  hi_uid : Z;
  hi_coldkey : option string;
  hi_public_key : string;
  hi_metagraph_hash : string;
  hi_block : option Z
}.

Definition StaticHotkeyResolver_resolve (mapping : dict HotkeyMetagraphInfo) (hotkey : string)
    : result HotkeyMetagraphInfo :=
  of_option (KeyError ("hotkey " +:+ hotkey +:+ " not found in static metagraph mapping")) (dict_get hotkey mapping).

Definition public_key_from_hotkey_ss58 `{SigLib} (hotkey : string) : result string :=
  h ← ss58_decode hotkey; of_option (ValueError "non-hexadecimal number found in fromhex()") (fromhex h).

(** [json.dumps(v, sort_keys=True)] with the default separators. *)
Fixpoint dumps_spaced (v : pyval) : string :=
  match v with
  | PList l => "[" +:+ str_join ", " (map dumps_spaced l) +:+ "]"
  | PDict d => "{" +:+ str_join ", " (map (fun kv => dump_str true kv.1 +:+ ": " +:+ dumps_spaced kv.2) d) +:+ "}"
  | v => dumps true v
  end.

(** The rows of the last [btcli] call and their digest. *)
Record BtcliMetagraphHotkeyResolver := mkResolver {
  br_netuid : Z;
  br_network : string;
  br_mechid : Z;
  br_rows : option (list pyval);
  br_hash : option string
}.

Definition BtcliMetagraphHotkeyResolver_init (netuid : Z) (network : string) (mechid : Z)
    : BtcliMetagraphHotkeyResolver := mkResolver netuid network mechid None None.

Section resolver.
Context `{SigLib}.
(** What [btcli subnets show --json-output ...] printed, as [json.loads] with
    [strict=False] reads it: of the netuid, the network and the mechanism. *)
Context (btcli_show : Z -> string -> Z -> result pyval).

Definition btcli_rows (data : pyval) : result (list pyval) :=
  d ← as_object data; as_list (por (get d "uids") (PList [])).

Definition BtcliMetagraphHotkeyResolver_load_rows : ST BtcliMetagraphHotkeyResolver (list pyval) := fun self =>
  match br_rows self with
  | Some rows => (self, Ok rows)
  | None =>
      match (data ← btcli_show (br_netuid self) (br_network self) (br_mechid self); btcli_rows data) with
      | Ok rows =>
          (mkResolver (br_netuid self) (br_network self) (br_mechid self) (Some rows)
             (Some (sha256_hex (json_dumps (PList rows)))), Ok rows)
      | Err e => (self, Err e)
      end
  end.

Definition py_is_str (v : pyval) (s : string) : bool := match v with PStr t => String.eqb t s | _ => false end.

Fixpoint find_row (hotkey : string) (rows : list pyval) : result (option (dict pyval)) :=
  match rows with
  | [] => Ok None
  | v :: rows =>
      row ← as_object v;
      if py_is_str (get row "hotkey") hotkey then Ok (Some row) else find_row hotkey rows
  end.

Definition BtcliMetagraphHotkeyResolver_resolve (hotkey : string)
    : ST BtcliMetagraphHotkeyResolver HotkeyMetagraphInfo :=
  rows ← BtcliMetagraphHotkeyResolver_load_rows;
  self ← st_get;
  st_lift (
    found ← find_row hotkey rows;
    match found with
    | None => Err (KeyError ("hotkey " +:+ hotkey +:+ " not found in metagraph"))
    | Some row =>
        public_key ← public_key_from_hotkey_ss58 hotkey;
        uid ← req_int row "uid";
        coldkey ← opt_str row "coldkey";
        Ok (mkHotkeyInfo hotkey uid coldkey public_key
              (match br_hash self with
               | Some h => if String.eqb h "" then sha256_hex (dumps_spaced (canon (PList rows))) else h
               | None => sha256_hex (dumps_spaced (canon (PList rows)))
               end) None)
    end).
End resolver.

(** ** Lemmas *)

Lemma open_grant_written grant : json_ok (PDict (AssignmentGrantV3_to_dict grant)) = true ->
  open_grant (canonical_json (PDict (AssignmentGrantV3_to_dict grant))) = Ok grant.
Proof. exact (wire_bytes_roundtrip (A := AssignmentGrantV3) grant). Qed.

Lemma check_addressee_self scheme e : eg_crypto_scheme e = scheme ->
  check_addressee scheme e (eg_recipient_hotkey e) = Ok tt.
Proof. intros <-. unfold check_addressee. by rewrite !String.eqb_refl. Qed.

Lemma check_addressee_other scheme e other : eg_recipient_hotkey e <> other ->
  exists msg, check_addressee scheme e other = Err (ValueError msg).
Proof.
  intros Hne. unfold check_addressee. destruct (negb (String.eqb (eg_crypto_scheme e) scheme)); [by eexists|].
  apply String.eqb_neq in Hne as ->. by eexists.
Qed.

Lemma hex_nonempty b : b <> EmptyString -> String.eqb (hex b) "" = false.
Proof. destruct b as [|[[] [] [] [] [] [] [] []] b]; [done|..]; intros _; reflexivity. Qed.

(** What the adapters do with a grant addressed to the hotkey. *)
Lemma dev_decrypts self e plain :
  eg_crypto_scheme e = dc_scheme self ->
  eg_ciphertext_b64 e = b64encode (xor_crypt plain (dc_secret self +:+ ":" +:+ eg_recipient_hotkey e)) ->
  DevAssignmentCrypto_decrypt self e (eg_recipient_hotkey e) = open_grant plain.
Proof.
  intros Hs Hc. unfold DevAssignmentCrypto_decrypt. rewrite check_addressee_self, Hc, payload_bytes_encode by done.
  cbn [mbind result_bind]. by rewrite xor_crypt_involutive.
Qed.

Lemma dev_refuses self e other : eg_recipient_hotkey e <> other ->
  exists msg, DevAssignmentCrypto_decrypt self e other = Err (ValueError msg).
Proof.
  intros Hne. unfold DevAssignmentCrypto_decrypt. destruct (check_addressee_other (dc_scheme self) e other Hne) as [msg ->].
  by exists msg.
Qed.

#[export] Instance dev_seals secret recipient :
  SealsFor (dev_encryptor (DevAssignmentCrypto_init secret)) (dev_decryptor (DevAssignmentCrypto_init secret)) recipient None.
Proof.
  split.
  - intros grant uid block hash enc Hok He. injection He as <-. rewrite <- (open_grant_written grant Hok).
    apply (dev_decrypts (DevAssignmentCrypto_init secret)
      (DevAssignmentCrypto_encrypt_for_hotkey (DevAssignmentCrypto_init secret) grant recipient uid block hash)); reflexivity.
  - intros grant uid block hash enc other He Hne. injection He as <-. apply dev_refuses. by apply not_eq_sym.
Qed.

Section sealed.
Context `{SigLib} `{B : BoxLib} `{!BoxLaws B}.

Lemma sealed_decrypts self seed e c plain :
  sb_seed self = Some seed -> eg_crypto_scheme e = sb_scheme self -> eg_ciphertext_b64 e = b64encode c ->
  eg_recipient_public_key_hex e = Some (hex (nacl_public_key seed)) -> sealed_decrypt seed c = Ok plain ->
  Ed25519SealedBoxAssignmentCrypto_decrypt self e (eg_recipient_hotkey e) = open_grant plain.
Proof.
  intros Hseed Hs Hc Hpk Hd. unfold Ed25519SealedBoxAssignmentCrypto_decrypt.
  rewrite check_addressee_self, Hseed, Hpk, Hc, payload_bytes_encode, fromhex_hex by done.
  cbn [mbind result_bind of_option]. rewrite String.eqb_refl, Hd. by destruct (String.eqb _ "").
Qed.

Lemma sealed_refuses self e other : eg_recipient_hotkey e <> other ->
  exists msg, Ed25519SealedBoxAssignmentCrypto_decrypt self e other = Err (ValueError msg).
Proof.
  intros Hne. unfold Ed25519SealedBoxAssignmentCrypto_decrypt.
  destruct (check_addressee_other (sb_scheme self) e other Hne) as [msg ->]. by exists msg.
Qed.

Lemma sealed_encrypts ephemeral self key pk grant recipient uid block hash enc :
  key_material_to_bytes key "recipient_public_key" = Ok pk ->
  Ed25519SealedBoxAssignmentCrypto_encrypt_for_hotkey ephemeral self grant recipient uid block hash (Some key) = Ok enc ->
  eg_crypto_scheme enc = sb_scheme self /\ eg_recipient_hotkey enc = recipient /\
  eg_recipient_public_key_hex enc = Some (hex pk) /\
  exists c, eg_ciphertext_b64 enc = b64encode c /\
    sealed_encrypt ephemeral pk (canonical_json (PDict (AssignmentGrantV3_to_dict grant))) = Ok c.
Proof.
  intros Hkey He. unfold Ed25519SealedBoxAssignmentCrypto_encrypt_for_hotkey in He. rewrite Hkey in He.
  apply bind_Ok in He as (? & [= <-] & He). apply bind_Ok in He as (c & Hc & [= <-]). split_and!; try done. by exists c.
Qed.

#[export] Instance sealed_seals ephemeral mine seed recipient key :
  key_material_to_bytes key "recipient_public_key" = Ok (nacl_public_key seed) ->
  SealsFor (sealed_encryptor ephemeral (Ed25519SealedBoxAssignmentCrypto_init mine))
    (sealed_decryptor (Ed25519SealedBoxAssignmentCrypto_init (Some seed))) recipient (Some key).
Proof.
  intros Hkey. split.
  - intros grant uid block hash enc Hok He. destruct (sealed_encrypts _ _ _ _ _ _ _ _ _ _ Hkey He) as (E1 & E2 & E3 & c & E4 & Hc).
    rewrite <- (open_grant_written grant Hok), <- E2. cbn [grant_decrypt sealed_decryptor].
    by apply (sealed_decrypts _ seed enc c); [..|eapply sealed_opens].
  - intros grant uid block hash enc other He Hne. destruct (sealed_encrypts _ _ _ _ _ _ _ _ _ _ Hkey He) as (_ & E2 & _).
    apply sealed_refuses. rewrite E2. by apply not_eq_sym.
Qed.

(** A grant sealed for one key is refused by the holder of another. *)
Lemma sealed_wrong_key ephemeral mine seed recipient key pk grant uid block hash enc :
  key_material_to_bytes key "recipient_public_key" = Ok pk -> pk <> EmptyString -> nacl_public_key seed <> pk ->
  encrypt_for_hotkey (sealed_encryptor ephemeral mine) grant recipient uid block hash (Some key) = Ok enc ->
  exists msg, grant_decrypt (sealed_decryptor (Ed25519SealedBoxAssignmentCrypto_init (Some seed))) enc recipient
    = Err (ValueError msg).
Proof.
  intros Hkey Hpk Hne He. destruct (sealed_encrypts _ _ _ _ _ _ _ _ _ _ Hkey He) as (_ & <- & E3 & _).
  cbn [grant_decrypt sealed_decryptor]. unfold Ed25519SealedBoxAssignmentCrypto_decrypt, check_addressee.
  destruct (negb _); [by eexists|]. rewrite String.eqb_refl, E3, hex_nonempty, fromhex_hex by done.
  cbn. apply String.eqb_neq in Hne as ->. by eexists.
Qed.
End sealed.

Section wallet.
Context `{SigLib} `{ExnText}.

(** Documented behaviour of a pair of Substrate keypairs: the second reads what
    the first encrypted for its public key. *)
Definition keypairs_talk (sender receiver : Keypair) (pk : string) : Prop :=
  exists encrypt decrypt spk, kp_encrypt_message sender = Some encrypt /\ kp_decrypt_message receiver = Some decrypt /\
    keypair_public_key_bytes sender = Ok spk /\ spk <> EmptyString /\
    forall p c, encrypt p pk = Ok c -> decrypt c spk = Ok p.

Lemma raise_keypair_error_Err {A} e : exists e', raise_keypair_crypto_error (A := A) e = Err e'.
Proof. unfold raise_keypair_crypto_error. destruct (str_contains _ _); by eexists. Qed.

Lemma keypair_call_Ok {A} (r : result A) x : try_except r raise_keypair_crypto_error = Ok x -> r = Ok x.
Proof.
  destruct r as [y|e]; cbn; [done|]. destruct (catchable e); [|done].
  by destruct (raise_keypair_error_Err (A := A) e) as [e' ->].
Qed.

Lemma wallet_encrypts self key pk grant recipient uid block hash enc :
  key_material_to_bytes key "recipient_public_key" = Ok pk ->
  BittensorWalletCrypto_encrypt_for_hotkey self grant recipient uid block hash (Some key) = Ok enc ->
  eg_crypto_scheme enc = BittensorWalletCrypto_scheme /\ eg_recipient_hotkey enc = recipient /\
  exists encrypt c spk, kp_encrypt_message (wc_keypair self) = Some encrypt /\
    keypair_public_key_bytes (wc_keypair self) = Ok spk /\ eg_sender_public_key_hex enc = Some (hex spk) /\
    eg_ciphertext_b64 enc = b64encode c /\ encrypt (canonical_json (PDict (AssignmentGrantV3_to_dict grant))) pk = Ok c.
Proof.
  intros Hkey He. unfold BittensorWalletCrypto_encrypt_for_hotkey in He.
  destruct (kp_encrypt_message _) as [encrypt|]; [|done]. rewrite Hkey in He. apply bind_Ok in He as (? & [= <-] & He).
  apply bind_Ok in He as (spk & Hspk & He). apply bind_Ok in He as (c & Hc%keypair_call_Ok & [= <-]).
  split_and!; try done. by exists encrypt, c, spk.
Qed.

Lemma wallet_decrypts self e decrypt spk c plain :
  kp_decrypt_message (wc_keypair self) = Some decrypt -> eg_crypto_scheme e = BittensorWalletCrypto_scheme ->
  eg_sender_public_key_hex e = Some (hex spk) -> spk <> EmptyString -> eg_ciphertext_b64 e = b64encode c ->
  decrypt c spk = Ok plain ->
  BittensorWalletCrypto_decrypt self e (eg_recipient_hotkey e) = open_grant plain.
Proof.
  intros Hd Hs Hspk Hne Hc Hp. unfold BittensorWalletCrypto_decrypt.
  rewrite check_addressee_self, Hd, Hspk, hex_nonempty, Hc by done. cbn [mbind result_bind].
  rewrite payload_bytes_encode. cbn [mbind result_bind]. rewrite fromhex_hex. cbn [of_option mbind result_bind].
  by rewrite Hp.
Qed.

#[export] Instance wallet_seals sender receiver recipient key pk :
  key_material_to_bytes key "recipient_public_key" = Ok pk -> keypairs_talk sender receiver pk ->
  SealsFor (wallet_encryptor (BittensorWalletCrypto_init sender)) (wallet_decryptor (BittensorWalletCrypto_init receiver))
    recipient (Some key).
Proof.
  intros Hkey (encrypt & decrypt & spk & Henc & Hdec & Hspk & Hne & Hrt). split.
  - intros grant uid block hash enc Hok He.
    destruct (wallet_encrypts _ _ _ _ _ _ _ _ _ Hkey He) as (E1 & E2 & encrypt' & c & spk' & E3 & E4 & E5 & E6 & Hc).
    cbn in E3, E4. rewrite Henc in E3. injection E3 as <-. rewrite Hspk in E4. injection E4 as <-.
    rewrite <- (open_grant_written grant Hok), <- E2. cbn [grant_decrypt wallet_decryptor].
    by eapply wallet_decrypts; eauto.
  - intros grant uid block hash enc other He Hother.
    destruct (wallet_encrypts _ _ _ _ _ _ _ _ _ Hkey He) as (_ & E2 & _).
    cbn [grant_decrypt wallet_decryptor]. unfold BittensorWalletCrypto_decrypt.
    destruct (check_addressee_other BittensorWalletCrypto_scheme enc other) as [msg ->]; [|by exists msg].
    rewrite E2. by apply not_eq_sym.
Qed.
End wallet.

(** ** The resolver *)

(** The rows are fetched once: after a first success every answer, and the hash
    it carries, is about the same rows. *)
Lemma load_rows_once `{SigLib} show1 show2 self self1 rows :
  BtcliMetagraphHotkeyResolver_load_rows show1 self = (self1, Ok rows) ->
  BtcliMetagraphHotkeyResolver_load_rows show2 self1 = (self1, Ok rows).
Proof.
  unfold BtcliMetagraphHotkeyResolver_load_rows. destruct (br_rows self) as [rows0|] eqn:E.
  - intros [= <- <-]. by rewrite E.
  - destruct (_ ≫= _) as [rows0|]; [|done]. intros [= <- <-]. done.
Qed.

Lemma find_row_spec hotkey rows row : find_row hotkey rows = Ok (Some row) ->
  PDict row ∈ rows /\ get row "hotkey" = PStr hotkey.
Proof.
  induction rows as [|v rows IH]; cbn; [done|]. destruct v; cbn; try done.
  destruct (py_is_str (get d "hotkey") hotkey) eqn:E.
  - intros [= ->]. split; [left|]. unfold py_is_str in E. destruct (get row "hotkey"); try done.
    by apply String.eqb_eq in E as ->.
  - intros Hf. destruct (IH Hf) as [H1 H2]. split; [by right|done].
Qed.

(** C22. Assignment grants reach their recipient only.  With the development
    secret, a sealed box or a pair of encrypting keypairs, a grant sealed for a
    hotkey and its key is opened by that hotkey as the grant that was sealed, and
    refused with a [ValueError] under any other hotkey; the holder of another
    Ed25519 seed is refused even under the right hotkey; sealing with the
    development secret always succeeds. *)
Theorem grants_reach_recipient `{SigLib} `{ExnText} `{B : BoxLib} `{!BoxLaws B} grant recipient uid block hash :
  json_ok (PDict (AssignmentGrantV3_to_dict grant)) = true ->
  let opened_by e d pk := forall enc, encrypt_for_hotkey e grant recipient uid block hash pk = Ok enc ->
    grant_decrypt d enc recipient = Ok grant /\
    forall other, other <> recipient -> exists msg, grant_decrypt d enc other = Err (ValueError msg) in
  (forall secret, is_ok (encrypt_for_hotkey (dev_encryptor (DevAssignmentCrypto_init secret)) grant recipient uid block hash None) = true /\
     opened_by (dev_encryptor (DevAssignmentCrypto_init secret)) (dev_decryptor (DevAssignmentCrypto_init secret)) None) /\
  (forall ephemeral mine seed key, key_material_to_bytes key "recipient_public_key" = Ok (nacl_public_key seed) ->
     opened_by (sealed_encryptor ephemeral (Ed25519SealedBoxAssignmentCrypto_init mine))
       (sealed_decryptor (Ed25519SealedBoxAssignmentCrypto_init (Some seed))) (Some key)) /\
  (forall ephemeral mine seed key pk enc, key_material_to_bytes key "recipient_public_key" = Ok pk ->
     pk <> EmptyString -> nacl_public_key seed <> pk ->
     encrypt_for_hotkey (sealed_encryptor ephemeral mine) grant recipient uid block hash (Some key) = Ok enc ->
     exists msg, grant_decrypt (sealed_decryptor (Ed25519SealedBoxAssignmentCrypto_init (Some seed))) enc recipient
       = Err (ValueError msg)) /\
  (forall sender receiver key pk, key_material_to_bytes key "recipient_public_key" = Ok pk ->
     keypairs_talk sender receiver pk ->
     opened_by (wallet_encryptor (BittensorWalletCrypto_init sender)) (wallet_decryptor (BittensorWalletCrypto_init receiver)) (Some key)).
Proof.
  intros Hok opened_by. assert (forall e d pk, SealsFor e d recipient pk -> opened_by e d pk) as Hs.
  { intros e d pk Hse enc He. split; [by eapply seals_open|]. intros other Hne. by eapply seals_others. }
  split; [intros secret; split; [done|]; apply Hs, _|]. split; [intros ephemeral mine seed key Hk; by apply Hs, sealed_seals|].
  split; [intros; by eapply sealed_wrong_key|]. intros sender receiver key pk Hk Ht. by eapply Hs, wallet_seals.
Qed.

(** *** An example *)

Definition sample_grant : AssignmentGrantV3 :=
  mkAssignment "job-1" "run-a" "hk1" [mkGrant "GET" "s3://bk/x" "https://s3/x" 600 None]
    [mkGrant "PUT" "s3://bk/y" "https://s3/y" 600 None] (Some (mkGrant "PUT" "s3://bk/r.json" "https://s3/r" 600 None)) 0 600 1.

(** A stand-in for the libraries: the public key of a seed names the seed and a
    box holds the key and the text. *)
#[local] Instance named_keys : SigLib := {|
  bt_keypair_verify := fun _ _ _ => Ok false;
  substrate_keypair_verify := fun _ _ _ => Ok false;
  ss58_decode := fun _ => Err (ValueError "not an address");
  nacl_verify := fun _ _ _ => Err (ValueError "bad signature");
  nacl_sign := fun _ _ => EmptyString;
  nacl_public_key := fun seed => "pk-" +:+ seed
|}.

#[local] Instance open_boxes : BoxLib := {|
  sealed_encrypt := fun _ pk p => Ok (pk +:+ p);
  sealed_decrypt := fun seed c => let pk := "pk-" +:+ seed in
    if startswith pk c then Ok (str_drop (String.length pk) c) else Err (RuntimeError "An error occurred trying to decrypt the message")
|}.

#[local] Instance open_boxes_laws : BoxLaws open_boxes.
Proof.
  intros e seed p c [= <-]. cbn [sealed_decrypt open_boxes nacl_public_key named_keys]. cbv zeta.
  by rewrite startswith_app, str_drop_app.
Qed.

#[local] Instance quiet_texts : ExnText := {| exn_str := fun _ => "error"; exn_repr := fun _ => "error"; exn_type := fun _ => "Exception" |}.

Lemma grants_reach_recipient_witness :
  match encrypt_for_hotkey (dev_encryptor (DevAssignmentCrypto_init "dev")) sample_grant "hk1" None None None None with
  | Ok enc => eg_crypto_scheme enc = "dev-xor-v1" /\
      grant_decrypt (dev_decryptor (DevAssignmentCrypto_init "dev")) enc "hk1" = Ok sample_grant
  | Err _ => False
  end /\
  match encrypt_for_hotkey (sealed_encryptor "eph" (Ed25519SealedBoxAssignmentCrypto_init None)) sample_grant "hk1"
    (Some 3%Z) None None (Some (KBytes "pk-seed")) with
  | Ok enc => grant_decrypt (sealed_decryptor (Ed25519SealedBoxAssignmentCrypto_init (Some "seed"))) enc "hk1" = Ok sample_grant
  | Err _ => False
  end.
Proof.
  assert (json_ok (PDict (AssignmentGrantV3_to_dict sample_grant)) = true) as Hok by (vm_compute; reflexivity).
  split.
  - destruct (grants_reach_recipient sample_grant "hk1" None None None Hok) as (H & _). destruct (H "dev") as [_ Ho].
    destruct (encrypt_for_hotkey _ _ _ _ _ _ _) as [enc|e] eqn:E; [|discriminate E].
    split; [injection E as <-; reflexivity|]. apply (Ho enc eq_refl).
  - destruct (grants_reach_recipient sample_grant "hk1" (Some 3%Z) None None Hok) as (_ & H & _).
    destruct (encrypt_for_hotkey _ _ _ _ _ _ _) as [enc|e] eqn:E; [|discriminate E].
    apply (H "eph" None "seed" (KBytes "pk-seed") eq_refl enc E).
Defined.
