(* ===== verification/Emission.v ===== *)
(** * Job emission

    What the three managers that emit jobs share: the state they keep
    ([teuton_orchestrator/run_manager.py], [teuton_orchestrator/streaming.py],
    [teuton_validator/audit_jobs.py]), the requirements of a job, the crypto
    policy of its outputs, its assignment grant and the publication of its
    signed manifest.  While a manager sleeps, other processes change the bucket
    and the queue's background thread may take a turn. *)

From Stdlib Require Import ZArith Lia Ascii.
From stdpp Require Import base strings list.
From S2P Require Import Prelude PyFloat PyVal Json Digest Paths Signatures Codec Protocol.
From S2P Require Import Storage StoreReads Queue Transport Scheduler WalletCrypto.

(** ** The requirements of a job *)

Definition resource_requirements (params : dict pyval) : result ResourceRequirements :=
  let raw := por (get params "resource_requirements") (PDict []) in
  if negb (truthy raw) && py_is_str (get params "distributed_runner") "gpt_tensor_parallel_v1" then
    parallelism ← dict_or_empty (get params "parallelism");
    world_size ← py_int (por (por (get parallelism "tensor_parallel_size") (get params "tp_world_size")) (PInt 1));
    ResourceRequirements_from_dict
      [("min_gpus", PInt world_size); ("placement", PStr "single_host"); ("parallelism", PDict parallelism)]
  else d ← as_object raw; ResourceRequirements_from_dict d.

Definition with_required_signer (p : ArtifactCryptoPolicy) (hotkey : string) : ArtifactCryptoPolicy :=
  mkPolicy (cp_mode p) (Some hotkey) (cp_recipient p) (cp_cipher_suite p) (cp_key_id p) (cp_drand_round p)
    (cp_drand_chain_hash p) (cp_drand_public_key p).

(** An output that must be signed by the assigned hotkey names the hotkey. *)
Definition resolve_output_crypto (ref : ArtifactRef) (worker : WorkerIdentity) : result ArtifactRef :=
  match ar_crypto ref with
  | None => Ok ref
  | Some c =>
      if bool_decide (cp_required_signer c = Some "assigned_hotkey") then
        crypto ← ArtifactCryptoPolicy_from_dict (ArtifactCryptoPolicy_to_dict c);
        Ok (mkRef (ar_name ref) (ar_uri ref) (ar_sha256 ref) (ar_size_bytes ref)
              (Some (with_required_signer crypto (wi_hotkey_ss58 worker))))
      else Ok ref
  end.

(** The URIs of the shards of one output. *)
Definition shard_grant_uris (sharding : dict pyval) (min_gpus : Z) (ref : ArtifactRef) : result (list string) :=
  let cfg := get sharding (ar_name ref) in
  if negb (truthy cfg) then Ok []
  else
    d ← as_object cfg;
    n ← py_int (get_or d "world_size" (PInt min_gpus));
    let base := if endswith ".json" (ar_uri ref) then str_drop_last 5 (ar_uri ref) else ar_uri ref in
    Ok (map (fun rank => base +:+ ".rank" +:+ py_str_int rank +:+ ".bin") (py_range n)).

Definition output_grant_uris (manifest : JobManifestV3) : result (list string) :=
  sharding ← dict_or_empty (get (jm_params manifest) "output_sharding");
  shards ← mapR (shard_grant_uris sharding (rr_min_gpus (jm_resource_requirements manifest))) (jm_outputs manifest);
  Ok (map ar_uri (jm_outputs manifest) ++ concat shards).

(** ** The state of a manager *)

Record manager (S : Type) := mkManager {
  mg_store : S;
  mg_quota : QuotaBook;
  mg_queue : OrchestratorQueue;
  mg_resolver : option BtcliMetagraphHotkeyResolver;
  mg_emitted : list string;
  mg_readings : nat
}.
Arguments mkManager {S}.
Arguments mg_store {S}.
Arguments mg_quota {S}.
Arguments mg_queue {S}.
Arguments mg_resolver {S}.
Arguments mg_emitted {S}.
Arguments mg_readings {S}.

Section emission.
Context {S : Type} `{ObjectStore S} `{SigLib}.
Notation manager := (manager S).
(** Readings of the clock, and the answers of [btcli]. *)
Context (clock : nat -> float) (btcli_show : Z -> string -> Z -> result pyval).

Definition mg_with_store (m : manager) (s : S) : manager :=
  mkManager s (mg_quota m) (mg_queue m) (mg_resolver m) (mg_emitted m) (mg_readings m).

Definition read_clock : ST manager float := fun m =>
  (mkManager (mg_store m) (mg_quota m) (mg_queue m) (mg_resolver m) (mg_emitted m) (1 + mg_readings m)%nat,
   Ok (clock (mg_readings m))).

(** [int(time.time())]. *)
Definition unix_now : ST manager Z := t ← read_clock; st_lift (int_of_float t).

Definition bucket_do {A} (f : ST S A) : ST manager A := fun m =>
  let '(s, r) := f (mg_store m) in (mg_with_store m s, r).

Definition quota_do {A} (f : ST QuotaBook A) : ST manager A := fun m =>
  let '(b, r) := f (mg_quota m) in
  (mkManager (mg_store m) b (mg_queue m) (mg_resolver m) (mg_emitted m) (mg_readings m), r).

Definition queue_do (f : OrchestratorQueue -> OrchestratorQueue) : ST manager unit := fun m =>
  (mkManager (mg_store m) (mg_quota m) (f (mg_queue m)) (mg_resolver m) (mg_emitted m) (mg_readings m), Ok tt).

Definition note_emitted (job_id : string) : ST manager unit := fun m =>
  (mkManager (mg_store m) (mg_quota m) (mg_queue m) (mg_resolver m) (mg_emitted m ++ [job_id]) (mg_readings m), Ok tt).

Definition resolve_hotkey (r : BtcliMetagraphHotkeyResolver) (hotkey : string) : ST manager HotkeyMetagraphInfo := fun m =>
  let '(r', info) := BtcliMetagraphHotkeyResolver_resolve btcli_show hotkey r in
  (mkManager (mg_store m) (mg_quota m) (mg_queue m) (Some r') (mg_emitted m) (mg_readings m), info).

(** ** Assignment grants *)

(** The broker, how long its grants last, and the adapter that seals them. *)
Context (broker : PresignedUrlBroker) (ttl : Z) (encryptor : AssignmentEncryptor).

Definition broker_get (uri : string) : ST manager PresignedUrlGrant :=
  now ← unix_now; st_lift (PresignedUrlBroker_get_grant broker now uri ttl).

Definition broker_put (uri : string) : ST manager PresignedUrlGrant :=
  now ← unix_now; st_lift (PresignedUrlBroker_put_grant broker now uri ttl None).

Definition seal_grant (grant : AssignmentGrantV3) (hotkey : string) : ST manager EncryptedAssignmentGrantV3 :=
  m ← st_get;
  match mg_resolver m with
  | Some r =>
      info ← resolve_hotkey r hotkey;
      st_lift (encrypt_for_hotkey encryptor grant hotkey (Some (hi_uid info)) (hi_block info)
                 (Some (hi_metagraph_hash info)) (Some (KBytes (hi_public_key info))))
  | None => st_lift (encrypt_for_hotkey encryptor grant hotkey None None None None)
  end.

(** Sealing a grant and writing it; the result is its address. *)
Definition file_grant (key : string) (grant : AssignmentGrantV3) (hotkey : string) : ST manager (option string) :=
  encrypted ← seal_grant grant hotkey;
  uri ← bucket_do (uri_of key);
  _ ← bucket_do (os_put_json uri (PDict (EncryptedAssignmentGrantV3_to_dict encrypted)));
  mret (Some uri).

(** The grant of a training job: every input, every output with its shards,
    and the receipt. *)
Definition new_assignment_grant (netuid : Z) (manifest : JobManifestV3) : ST manager AssignmentGrantV3 :=
  now ← unix_now;
  receipt_uri ← bucket_do (uri_of (receipt_key netuid (jm_run_id manifest) (jm_assigned_hotkey manifest)
                   (jm_job_id manifest) (jm_attempt manifest)));
  input_gets ← mapS (fun ref => broker_get (ar_uri ref)) (jm_inputs manifest);
  uris ← st_lift (output_grant_uris manifest);
  output_puts ← mapS broker_put uris;
  receipt_put ← broker_put receipt_uri;
  mret (mkAssignment (jm_job_id manifest) (jm_run_id manifest) (jm_assigned_hotkey manifest) input_gets output_puts
          (Some receipt_put) now (now + ttl) 1).

(** The grant of an audit job: no receipt. *)
Definition new_audit_grant (manifest : JobManifestV3) : ST manager AssignmentGrantV3 :=
  now ← unix_now;
  input_gets ← mapS (fun ref => broker_get (ar_uri ref)) (jm_inputs manifest);
  output_puts ← mapS (fun ref => broker_put (ar_uri ref)) (jm_outputs manifest);
  mret (mkAssignment (jm_job_id manifest) (jm_run_id manifest) (jm_assigned_hotkey manifest) input_gets output_puts
          None now (now + ttl) 1).

(** ** Publication *)

Context (owner_key : signer_or_secret).

(** The manifest is signed and written before its grant; the entry for the
    queue comes back with it. *)
Definition publish_job (manifest_key : string) (emit_grant : JobManifestV3 -> ST manager (option string))
    (unsigned : JobManifestV3) : ST manager (JobManifestV3 * QueueEntry) :=
  manifest ← st_lift (JobManifestV3_sign unsigned owner_key);
  manifest_uri ← bucket_do (uri_of manifest_key);
  _ ← bucket_do (os_put_json manifest_uri (PDict (JobManifestV3_to_dict manifest)));
  grant_uri ← emit_grant manifest;
  mret (manifest, QueueEntry_from_manifest manifest manifest_uri grant_uri).

(** ** Sleeping *)

(** What other processes do to the bucket, and whether the queue's background
    thread flushes meanwhile, with its readings of the clock. *)
Context (env : nat -> S -> S) (flusher : nat -> option (Z * Z)).

(** An exception in the background thread does not reach the manager. *)
Definition sleep : ST manager unit := fun m =>
  let s := env (mg_readings m) (mg_store m) in
  match flusher (mg_readings m) with
  | None => (mg_with_store m s, Ok tt)
  | Some (now1, now2) =>
      let '((q, s'), _) := OrchestratorQueue_flush_loop_turn now1 now2 (mg_queue m, s) in
      (mkManager s' (mg_quota m) q (mg_resolver m) (mg_emitted m) (mg_readings m), Ok tt)
  end.
(** [self.queue.stop()], with its readings of the clock. *)
Definition stop_queue (now1 now2 : Z) : ST manager unit := fun m =>
  let '((q, s), r) := OrchestratorQueue_stop true now1 now2 (mg_queue m, mg_store m) in
  (mkManager s (mg_quota m) q (mg_resolver m) (mg_emitted m) (mg_readings m), r).

End emission.
