(* ===== verification/EmissionFacts.v ===== *)
(** * Lemmas on job emission

    What the operations of a manager may change: the objects of the bucket stay,
    the documents of other jobs stay, and the jobs emitted are noted in order.
    A published manifest can be read back. *)

From Stdlib Require Import ZArith Lia Ascii.
From stdpp Require Import base strings list.
From S2P Require Import Prelude PyFloat PyVal Json Digest Paths Signatures Codec Protocol ProtocolFacts.
From S2P Require Import Storage StoreReads Queue Transport Scheduler WalletCrypto Emission.

Create HintDb emission.

(** ** Keys *)

#[local] Arguments String.append !s1 s2 : simpl nomatch.

(** The key names no job manifest, not even up to a final newline. *)
Definition not_a_manifest (mkey : string -> string) (key : string) : Prop :=
  forall j, key <> mkey j /\ key <> mkey j +:+ String newline EmptyString.

(** The keys of the manifests of a run: each names its job, and none is the key
    of a queue. *)
Class ManifestKeys (mkey : string -> string) : Prop := {
  mkey_inj : forall j k, mkey j = mkey k -> j = k;
  mkey_queue : forall netuid run_id role key, queue_key netuid run_id role = Ok key -> not_a_manifest mkey key
}.

Lemma str_app_length_eq (a b c d : string) : a +:+ b = c +:+ d -> String.length a = String.length c -> a = c /\ b = d.
Proof.
  revert c. induction a as [|x a IH]; intros [|y c] E Hl; cbn in *; try discriminate Hl; [done|].
  injection E as <- E. injection Hl as Hl. destruct (IH c E Hl) as [-> ->]. done.
Qed.

(** Below different folders of the root. *)
Lemma other_folder netuid run_id key rest : key = root netuid +:+ rest ->
  (forall x, rest <> "/jobs/" +:+ x) -> not_a_manifest (job_manifest_key netuid run_id) key.
Proof.
  intros -> Hr j. unfold job_manifest_key, jobs_prefix. rewrite !str_app_assoc.
  split; intros E; apply str_app_inv_l in E; by eapply Hr.
Qed.

Lemma graph_not_manifest netuid run_id r sha : not_a_manifest (job_manifest_key netuid run_id) (graph_key netuid r sha).
Proof.
  eapply other_folder; [unfold graph_key, graphs_prefix, run_root; by rewrite !str_app_assoc|]. intros x E. discriminate E.
Qed.

Lemma assignment_not_manifest netuid run_id r j hk : not_a_manifest (job_manifest_key netuid run_id) (assignment_key netuid r j hk).
Proof. eapply other_folder; [unfold assignment_key; by rewrite ?str_app_assoc|]. intros x E. discriminate E. Qed.

Lemma state_not_manifest netuid run_id r : not_a_manifest (job_manifest_key netuid run_id) (state_key netuid r).
Proof.
  eapply other_folder; [unfold state_key, run_root; by rewrite !str_app_assoc|]. intros x E. discriminate E.
Qed.

Lemma str_suffix_eq (a b x y : string) : a +:+ x = b +:+ y -> String.length x = String.length y -> a = b /\ x = y.
Proof.
  intros E Hl. apply str_app_length_eq; [done|]. apply (f_equal String.length) in E.
  rewrite !str_app_length in E. lia.
Qed.

(** Manifests of training jobs and of audit jobs end alike. *)
Lemma queue_not_manifest (prefix prefix' : string) : not_a_manifest (fun j => prefix' +:+ j +:+ "/manifest.json") (prefix +:+ "queue.json").
Proof.
  intros j. split; intros E.
  - change "/manifest.json" with ("/man" +:+ "ifest.json") in E. rewrite <- !str_app_assoc in E.
    apply str_suffix_eq in E as [_ E]; [discriminate E|done].
  - rewrite !str_app_assoc in E. change ("/manifest.json" +:+ String newline EmptyString) with
      ("/mani" +:+ ("fest.json" +:+ String newline EmptyString)) in E. rewrite <- !(str_app_assoc _ _ ("fest.json" +:+ _)) in E.
    apply str_suffix_eq in E as [_ E]; [discriminate E|done].
Qed.

Lemma prefixed_manifests prefix : ManifestKeys (fun j => prefix +:+ j +:+ "/manifest.json").
Proof.
  split.
  - intros j k E. apply str_app_inv_l in E. by apply str_suffix_eq in E as [-> _].
  - intros n r role key. unfold queue_key. destruct (String.eqb role "train"); [intros <-%(inj Ok); apply queue_not_manifest|].
    destruct (String.eqb role "audit"); [intros <-%(inj Ok); apply queue_not_manifest|done].
Qed.

#[export] Instance job_manifests netuid run_id : ManifestKeys (job_manifest_key netuid run_id).
Proof. apply prefixed_manifests. Qed.
#[export] Instance audit_manifests netuid run_id : ManifestKeys (audit_job_manifest_key netuid run_id).
Proof. apply prefixed_manifests. Qed.

(** ** Printable jobs *)

(** Names that can be printed on one line, and the tactic that proves a built
    name to be one. *)
Definition printable (s : string) : bool := str_forallb (fun c => is_ascii c && negb (Ascii.eqb c newline)) s.

Lemma printable_app a b : printable (a +:+ b) = printable a && printable b.
Proof. apply str_forallb_app. Qed.

Lemma printable_int z : printable (py_str_int z) = true.
Proof.
  unfold printable. pose proof (py_str_int_numchars z) as Hn. induction (py_str_int z) as [|c s IH]; [done|].
  cbn in *. apply andb_true_iff in Hn as [Hc Hs]. rewrite IH, andb_true_r by done.
  unfold is_numchar in Hc. destruct c as [[] [] [] [] [] [] [] []]; try discriminate Hc; reflexivity.
Qed.

Lemma printable_ascii s : printable s = true -> str_forallb is_ascii s = true.
Proof.
  unfold printable. induction s as [|c s IH]; [done|]. cbn. intros [[Hc _]%andb_true_iff Hs]%andb_true_iff.
  by rewrite Hc, IH.
Qed.

Lemma printable_lacks s : printable s = true -> lacks newline s = true.
Proof.
  unfold printable, lacks. induction s as [|c s IH]; [done|]. cbn. intros [[_ Hc]%andb_true_iff Hs]%andb_true_iff.
  by rewrite Hc, IH.
Qed.

Ltac solve_printable :=
  rewrite ?str_app_assoc, ?printable_app, ?printable_int; rewrite ?andb_true_iff; split_and?; try (assumption || reflexivity).

Lemma ascii_app a b : str_forallb is_ascii (a +:+ b) = str_forallb is_ascii a && str_forallb is_ascii b.
Proof. apply str_forallb_app. Qed.

Lemma ascii_int z : str_forallb is_ascii (py_str_int z) = true.
Proof. apply printable_ascii, printable_int. Qed.

Ltac solve_ascii :=
  rewrite ?str_app_assoc, ?ascii_app, ?ascii_int; rewrite ?andb_true_iff; split_and?; try (assumption || reflexivity).

Definition ref_printable (r : ArtifactRef) : bool := json_ok (PDict (ArtifactRef_to_dict r)).

Definition policy_printable (p : option ArtifactCryptoPolicy) : Prop :=
  forall c, p = Some c -> json_ok (PDict (ArtifactCryptoPolicy_to_dict c)) = true.

Lemma ref_printable_new name uri p : str_forallb is_ascii name = true -> str_forallb is_ascii uri = true ->
  policy_printable p -> ref_printable (mkRef name uri None None p) = true.
Proof.
  intros Hn Hu Hp. unfold ref_printable, ArtifactRef_to_dict. cbn [ar_name ar_uri ar_sha256 ar_size_bytes ar_crypto].
  destruct p as [c|]; unfold opt_item; cbn [app json_ok forallb fst snd andb]; rewrite ?Hn, ?Hu;
    [|by vm_compute]. specialize (Hp c eq_refl). cbn [json_ok] in Hp. rewrite Hp. by vm_compute.
Qed.

Lemma ref_printable_inv r : ref_printable r = true ->
  str_forallb is_ascii (ar_uri r) = true /\ policy_printable (ar_crypto r).
Proof.
  intros Hr. split.
  - apply (json_ok_get _ "uri" (PStr (ar_uri r))) in Hr; [done|reflexivity].
  - intros c Hc. apply (json_ok_get _ "crypto" (PDict (ArtifactCryptoPolicy_to_dict c))) in Hr; [done|].
    unfold ArtifactRef_to_dict. rewrite Hc. by destruct (ar_sha256 r), (ar_size_bytes r).
Qed.

(** Another value for one key. *)
Lemma json_ok_swap a k v v' r : json_ok (PDict (a ++ (k, v) :: r)) = true -> json_ok v' = true ->
  json_ok (PDict (a ++ (k, v') :: r)) = true.
Proof.
  cbn [json_ok]. rewrite !andb_true_iff, !bool_decide_eq_true, !forallb_app. cbn [forallb fst snd].
  unfold dict_keys. rewrite !map_app. cbn [map fst]. rewrite !andb_true_iff. intros (Hn & Ha & (Hk & _) & Hr) Hv. tauto.
Qed.

Lemma resolve_output_spec ref worker ref' : resolve_output_crypto ref worker = Ok ref' ->
  ar_uri ref' = ar_uri ref /\ ar_name ref' = ar_name ref /\
  (ref_printable ref = true -> str_forallb is_ascii (wi_hotkey_ss58 worker) = true -> ref_printable ref' = true).
Proof.
  unfold resolve_output_crypto. destruct ref as [name uri sha size [c|]]; cbn [ar_crypto ar_uri ar_name ar_sha256 ar_size_bytes];
    [|by intros [= <-]]. destruct (bool_decide _) eqn:Eb; [|by intros [= <-]]. apply bool_decide_eq_true in Eb.
  assert (ArtifactCryptoPolicy_from_dict (ArtifactCryptoPolicy_to_dict c) = Ok c) as -> by exact (wire_from_to c).
  intros [= <-]. split; [done|]. split; [done|]. intros Hr Hw. pose proof (ref_printable_inv _ Hr) as [_ Hc].
  specialize (Hc c eq_refl). unfold ref_printable in *.
  unfold ArtifactRef_to_dict in *. cbn [ar_crypto ar_uri ar_name ar_sha256 ar_size_bytes] in *.
  unfold opt_item at 3. unfold opt_item at 3 in Hr. rewrite !app_assoc in *.
  eapply json_ok_swap; [exact Hr|]. unfold ArtifactCryptoPolicy_to_dict in *. rewrite Eb in Hc. unfold opt_item at 1 in Hc.
  unfold opt_item at 1, with_required_signer.
  cbn [cp_mode cp_required_signer cp_recipient cp_cipher_suite cp_key_id cp_drand_round cp_drand_chain_hash cp_drand_public_key].
  rewrite <- !app_assoc in *. by eapply json_ok_swap.
Qed.

Lemma resolve_outputs_spec worker refs refs' : mapR (fun ref => resolve_output_crypto ref worker) refs = Ok refs' ->
  map ar_uri refs' = map ar_uri refs /\ map ar_name refs' = map ar_name refs /\
  (Forall (fun r => ref_printable r = true) refs -> str_forallb is_ascii (wi_hotkey_ss58 worker) = true ->
   Forall (fun r => ref_printable r = true) refs').
Proof.
  revert refs'. induction refs as [|r refs IH]; intros refs' E; cbn [mapR] in E; [by injection E as <-|].
  apply bind_Ok in E as (r' & Er & E). apply bind_Ok in E as (rest & Erest & [= <-]).
  apply resolve_output_spec in Er as (R1 & R2 & R3). destruct (IH _ Erest) as (I1 & I2 & I3). cbn [map].
  split_and!; [congruence..|]. intros [Hr Hs]%Forall_cons Hw. constructor; auto.
Qed.

Lemma pdicts_json_ok refs : Forall (fun r => ref_printable r = true) refs -> json_ok (pdicts ArtifactRef_to_dict refs) = true.
Proof.
  intros Hr. unfold pdicts. cbn [json_ok]. apply forallb_forall. intros x Hx. apply in_map_iff in Hx as (r & <- & Hin).
  rewrite Forall_forall in Hr. by apply Hr, list_elem_of_In.
Qed.

Lemma manifest_refs_printable m : json_ok (PDict (JobManifestV3_to_dict m)) = true ->
  Forall (fun r => ref_printable r = true) (jm_outputs m).
Proof.
  intros Hok. apply (json_ok_get _ "outputs" (pdicts ArtifactRef_to_dict (jm_outputs m))) in Hok; [|reflexivity].
  unfold pdicts in Hok. cbn [json_ok] in Hok. rewrite forallb_forall in Hok. apply Forall_forall. intros r Hr.
  apply Hok, in_map_iff. exists r. split; [done|]. by apply list_elem_of_In.
Qed.

(** The parts of a manifest that have to be printable. *)
Record parts_printable (m : JobManifestV3) : Prop := {
  pp_names : forallb (str_forallb is_ascii)
    [jm_job_id m; jm_run_id m; jm_kind m; gr_sha256 (jm_graph_ref m); gr_uri (jm_graph_ref m); jm_assigned_hotkey m;
     default "" (jm_assigned_worker m); default "" (jm_owner_signature m)] = true;
  pp_params : json_ok (PDict (jm_params m)) = true;
  pp_inputs : Forall (fun r => ref_printable r = true) (jm_inputs m);
  pp_outputs : Forall (fun r => ref_printable r = true) (jm_outputs m);
  pp_resources : json_ok (PDict (ResourceRequirements_to_dict (jm_resource_requirements m))) = true;
  pp_policy : json_ok (PDict (VerificationPolicy_to_dict (jm_verification_policy m))) = true
}.

Lemma manifest_printable m : parts_printable m -> json_ok (PDict (JobManifestV3_to_dict m)) = true.
Proof.
  intros [Hn Hp Hi%pdicts_json_ok Ho%pdicts_json_ok Hr Hv].
  unfold JobManifestV3_to_dict. assert (str_forallb is_ascii (JobManifestV3_manifest_hash m) = true) as Hh.
  { unfold JobManifestV3_manifest_hash, digest_dict. apply sha256_hexdigest_ascii. }
  generalize dependent (JobManifestV3_manifest_hash m). intros h Hh. unfold JobManifestV3_unsigned_dict.
  destruct m as [job run st kind [sha uri] params ins outs hk wk att dl cr rr vp sig sv].
  cbn [jm_job_id jm_run_id jm_kind jm_graph_ref gr_sha256 gr_uri jm_assigned_hotkey jm_assigned_worker jm_owner_signature
    jm_params jm_inputs jm_outputs jm_resource_requirements jm_verification_policy jm_schema_version jm_step_id jm_attempt
    jm_deadline_unix jm_created_unix forallb] in *.
  rewrite !andb_true_iff in Hn. destruct Hn as (N1 & N2 & N3 & N4 & N5 & N6 & N7 & N8 & _).
  set (vi := pdicts ArtifactRef_to_dict ins) in *. set (vo := pdicts ArtifactRef_to_dict outs) in *.
  set (vr := PDict (ResourceRequirements_to_dict rr)) in *. set (vv := PDict (VerificationPolicy_to_dict vp)) in *.
  set (vp' := PDict params) in *. clearbody vi vo vr vv vp'. unfold GraphRef_to_dict. cbn [gr_sha256 gr_uri].
  destruct (negb (ResourceRequirements_is_default rr)), wk as [wk|], sig as [sig|]; unfold pstr_opt;
    cbn [app dict_set String.eqb Ascii.eqb Bool.eqb json_ok forallb fst snd default from_option id] in *;
    rewrite ?N1, ?N2, ?N3, ?N4, ?N5, ?N6, ?N7, ?N8, ?Hp, ?Hi, ?Ho, ?Hr, ?Hv, ?Hh; by vm_compute.
Qed.

(** ** What a manager may change *)

Section facts.
Context {S : Type} `{ObjectStoreLaws S} `{SigLib}.
Context (mkey : string -> string) `{!ManifestKeys mkey}.
Notation manager := (manager S).

Definition manifest_uri (s : S) (j : string) : string := os_uri_for_key s (mkey j).

(** Objects stay, and so do the documents of the jobs outside [js]. *)
Record follows (js : list string) (s s' : S) : Prop := {
  fl_addr : os_uri_for_key s' = os_uri_for_key s;
  fl_keeps : forall uri, os_exists uri s = (s, Ok true) -> os_exists uri s' = (s', Ok true);
  fl_docs : forall j v, j ∉ js -> lacks newline (manifest_uri s j) = true ->
    os_get_json (manifest_uri s j) s = (s, Ok v) -> os_get_json (manifest_uri s j) s' = (s', Ok v)
}.

Lemma follows_refl s : follows [] s s.
Proof. by split. Qed.

Lemma follows_trans js1 js2 s1 s2 s3 : follows js1 s1 s2 -> follows js2 s2 s3 -> follows (js1 ++ js2) s1 s3.
Proof.
  intros [A1 A2 A3] [B1 B2 B3]. split; [congruence|auto|]. intros j v Hj Hn Hg.
  apply not_elem_of_app in Hj as [Hj1 Hj2]. unfold manifest_uri in *. rewrite A1 in B3. eauto.
Qed.

(** Writing an object that is no manifest, and writing a manifest. *)
Lemma put_follows key data s s' : not_a_manifest mkey key ->
  os_put (os_uri_for_key s key) data s = (s', Ok tt) -> follows [] s s'.
Proof.
  intros Hk Hp. split; [by eapply put_uri_for_key|intros uri; by apply (put_keeps _ _ _ _ _ Hp)|].
  intros j v _ Hn Hg. destruct (Hk j) as [K1 K2]. eapply put_json_elsewhere; [exact Hp|done| | |done].
  - intros E%uri_for_key_inj. done.
  - unfold manifest_uri. destruct (uri_for_key_ends s) as [b Hb]. rewrite !Hb, !str_app_assoc.
    intros E. apply str_app_inv_l, str_app_inv_l in E. done.
Qed.

Lemma put_manifest_follows j data s s' : lacks newline (manifest_uri s j) = true ->
  os_put (manifest_uri s j) data s = (s', Ok tt) -> follows [j] s s'.
Proof.
  intros Hj Hp. split; [by eapply put_uri_for_key|intros uri; by apply (put_keeps _ _ _ _ _ Hp)|].
  intros k v Hk Hn Hg. eapply put_json_elsewhere; [exact Hp|done| |by apply newline_free_ne|done].
  intros E%uri_for_key_inj%mkey_inj. by apply Hk, list_elem_of_singleton.
Qed.

(** The workers of a quota book have printable names. *)
Definition plain_worker (w : WorkerIdentity) : Prop :=
  str_forallb is_ascii (wi_hotkey_ss58 w) = true /\ str_forallb is_ascii (wi_worker_id w) = true.

Definition plain_book (b : QuotaBook) : Prop :=
  forall k a, (k, a) ∈ qb_accounts b -> Forall plain_worker (dict_values (ma_workers a)).

(** A step that wrote the manifests of [ws] and noted the jobs [js]. *)
Record emitting (ws js : list string) (m m' : manager) : Prop := {
  em_store : follows ws (mg_store m) (mg_store m');
  em_emitted : mg_emitted m' = mg_emitted m ++ js;
  em_plain : plain_book (mg_quota m) -> plain_book (mg_quota m')
}.

Lemma emitting_refl m : emitting [] [] m m.
Proof. split; [apply follows_refl|by rewrite app_nil_r|done]. Qed.

Lemma emitting_trans ws1 ws2 js1 js2 m1 m2 m3 : emitting ws1 js1 m1 m2 -> emitting ws2 js2 m2 m3 ->
  emitting (ws1 ++ ws2) (js1 ++ js2) m1 m3.
Proof.
  intros [A1 A2 A3] [B1 B2 B3]. split; [by eapply follows_trans|by rewrite B2, A2, app_assoc|auto].
Qed.

Definition acts (ws js : list string) {A} (p : ST manager A) : Prop :=
  forall m m' a, p m = (m', Ok a) -> emitting ws js m m'.

Lemma acts_ret {A} (a : A) : acts [] [] (mret a).
Proof. intros m m' a' [= <- _]. apply emitting_refl. Qed.

Lemma acts_lift {A} (r : result A) : acts [] [] (st_lift r).
Proof. intros m m' a' [= <- _]. apply emitting_refl. Qed.

Lemma acts_get : acts [] [] st_get.
Proof. intros m m' a' [= <- _]. apply emitting_refl. Qed.

Lemma acts_bind {A B} ws1 ws2 js1 js2 (p : ST manager A) (k : A -> ST manager B) :
  acts ws1 js1 p -> (forall a, acts ws2 js2 (k a)) -> acts (ws1 ++ ws2) (js1 ++ js2) (p ≫= k).
Proof. intros Hp Hk m m' b E. apply st_bind_Ok in E as (m1 & a & E1 & E2). eapply emitting_trans; [by eapply Hp|by eapply Hk]. Qed.

Lemma acts_bind0 {A B} (p : ST manager A) (k : A -> ST manager B) :
  acts [] [] p -> (forall a, acts [] [] (k a)) -> acts [] [] (p ≫= k).
Proof. apply (acts_bind [] [] [] []). Qed.

Lemma acts_same {A} (p : ST manager A) : (forall m, mg_store (fst (p m)) = mg_store m /\ mg_emitted (fst (p m)) = mg_emitted m /\
  mg_quota (fst (p m)) = mg_quota m) -> acts [] [] p.
Proof.
  intros Hs m m' a E. specialize (Hs m). rewrite E in Hs. destruct Hs as (E1 & E2 & E3). cbn in *.
  split; [rewrite E1; apply follows_refl|by rewrite E2, app_nil_r|by rewrite E3].
Qed.

Lemma acts_clock clock : acts [] [] (read_clock clock).
Proof. by apply acts_same. Qed.

Lemma acts_queue f : acts [] [] (queue_do f).
Proof. by apply acts_same. Qed.

Lemma acts_resolve show r hk : acts [] [] (resolve_hotkey show r hk).
Proof.
  apply acts_same. intros m. unfold resolve_hotkey. by destruct (BtcliMetagraphHotkeyResolver_resolve show hk r).
Qed.

Lemma acts_note j : acts [] [j] (note_emitted j).
Proof. intros m m' a [= <- _]. split; cbn; [apply follows_refl|done|done]. Qed.

Lemma acts_reads {A} (f : ST S A) : reads f -> acts [] [] (bucket_do f).
Proof.
  intros Hr. apply acts_same. intros m. unfold bucket_do. specialize (Hr (mg_store m)).
  destruct (f (mg_store m)) as [s r]. by cbn in *.
Qed.

Lemma acts_mapS {A B} (f : A -> ST manager B) l : (forall x, acts [] [] (f x)) -> acts [] [] (mapS f l).
Proof.
  intros Hf. induction l as [|x l IH]; cbn [mapS]; [apply acts_ret|].
  apply acts_bind0; [done|intros y]. apply acts_bind0; [done|intros ys]. apply acts_ret.
Qed.

Lemma acts_allS {A} (f : A -> ST manager bool) l : (forall x, acts [] [] (f x)) -> acts [] [] (allS f l).
Proof.
  intros Hf. induction l as [|x l IH]; cbn [allS]; [apply acts_ret|].
  apply acts_bind0; [done|intros [|]]; [done|apply acts_ret].
Qed.

(** *** The quota book *)

Lemma plain_update b k a a' : plain_book b -> dict_get k (qb_accounts b) = Some a -> ma_workers a' = ma_workers a ->
  plain_book (mkBook (dict_set k a' (qb_accounts b)) (qb_default_base_quota b)).
Proof.
  intros Hb Ha Hw k0 a0 Hin. cbn [qb_accounts] in Hin.
  assert (forall d : dict MinerAccount, (k0, a0) ∈ dict_set k a' d -> (k0, a0) ∈ d \/ a0 = a') as Hd.
  { intros d. induction d as [|[k1 a1] d IH]; cbn [dict_set].
    - intros [= -> ->]%list_elem_of_singleton. by right.
    - destruct (String.eqb k k1).
      + intros [[= -> ->]|Hd]%elem_of_cons; [by right|left; by right].
      + intros [E|Hd]%elem_of_cons; [left; rewrite E; by left|]. destruct (IH Hd); [left; by right|by right]. }
  destruct (Hd _ Hin) as [Hin'| ->]; [by eapply Hb|]. rewrite Hw. apply (Hb k a), dict_get_elem, Ha.
Qed.

Lemma acts_pick cu req f : acts [] [] (quota_do (QuotaBook_pick_worker cu req f)).
Proof.
  intros m m' w E. unfold quota_do in E. destruct (QuotaBook_pick_worker cu req f (mg_quota m)) as [b r] eqn:Ep.
  injection E as <- ->. split; cbn; [apply follows_refl|by rewrite app_nil_r|]. intros Hb.
  apply pick_worker_inv in Ep as (cs & c & rest & a & _ & _ & _ & Ha & ->). by eapply plain_update.
Qed.

(** The worker picked is one of the book's. *)
Lemma pick_plain cu req f (m m' : manager) w : quota_do (QuotaBook_pick_worker cu req f) m = (m', Ok w) ->
  plain_book (mg_quota m) -> plain_worker w.
Proof.
  intros E Hb. unfold quota_do in E. destruct (QuotaBook_pick_worker cu req f (mg_quota m)) as [b r] eqn:Ep.
  injection E as _ ->. apply pick_worker_inv in Ep as (cs & c & rest & a & Hcs & Hs & -> & _).
  assert (c ∈ cs) as Hin by (rewrite <- (sort_by_elem cand_leb), Hs; left).
  apply (pick_candidates_spec _ _ _ _ _ Hcs) in Hin as (k & a' & Hin & _ & _ & _ & Hw & _).
  specialize (Hb k a' Hin). rewrite Forall_forall in Hb. by apply Hb.
Qed.

Lemma acts_release hk cu : acts [] [] (quota_do (fun b => (QuotaBook_release b hk cu, Ok tt))).
Proof.
  intros m m' w [= <- _]. split; cbn; [apply follows_refl|by rewrite app_nil_r|]. intros Hb.
  unfold QuotaBook_release. destruct (dict_get hk _) as [a|] eqn:Ea; [|done]. by eapply plain_update.
Qed.

(** *** Sleeping *)

Context (env : nat -> S -> S) (flusher : nat -> option (Z * Z)).
Hypothesis env_follows : forall n s, follows [] s (env n s).

Lemma put_etag_follows key data m s s' r : not_a_manifest mkey key ->
  os_put_with_etag (os_uri_for_key s key) data m s = (s', r) -> follows [] s s'.
Proof.
  intros Hk Hp. apply put_etag_put in Hp as [->|Hp]; [apply follows_refl|by eapply put_follows].
Qed.

Lemma merge_from_store q s : snd (fst (OrchestratorQueue_merge_from_bucket (q, s))) = s.
Proof.
  unfold OrchestratorQueue_merge_from_bucket, read_queue. destruct (queue_uri s _ _ _) as [uri|]; [|done].
  pose proof (get_etag_reads uri None s) as Hr. destruct (os_get_with_etag uri None s) as [s1 [[[b|] e]|e]]; cbn in Hr; subst s1;
    [|done|done]. by destruct (decode_queue b e).
Qed.

Lemma flush_follows force now1 now2 q s qs r : OrchestratorQueue_flush force now1 now2 (q, s) = (qs, r) ->
  follows [] s (snd qs).
Proof.
  unfold OrchestratorQueue_flush. destruct (flush_begin q force now1) as [[[q1 body] im]|]; [|intros [= <- _]; apply follows_refl].
  destruct (queue_uri s _ _ _) as [uri|] eqn:Eu; [|intros [= <- _]; apply follows_refl].
  unfold queue_uri in Eu. apply bind_Ok in Eu as (key & Hk%mkey_queue & [= <-]).
  destruct (os_put_with_etag _ body _ s) as [s1 [e|e]] eqn:Ep.
  { intros [= <- _]. by eapply put_etag_follows. }
  destruct e; try (intros [= <- _]; by eapply put_etag_follows).
  apply put_etag_conflict in Ep as [-> _]. pose proof (merge_from_store q1 s) as Hm.
  destruct (OrchestratorQueue_merge_from_bucket (q1, s)) as [[q2 s2] [u|e]]; cbn in Hm; subst s2;
    [|intros [= <- _]; apply follows_refl].
  destruct (os_put_with_etag _ _ _ s) as [s3 [e|e]] eqn:Ep; intros [= <- _]; by eapply put_etag_follows.
Qed.

Lemma turn_follows now1 now2 q s qs r : OrchestratorQueue_flush_loop_turn now1 now2 (q, s) = (qs, r) ->
  follows [] s (snd qs).
Proof.
  unfold OrchestratorQueue_flush_loop_turn. destruct (flush_loop_should_flush q); [|intros [= <- _]; apply follows_refl].
  destruct (OrchestratorQueue_flush false now1 now2 (q, s)) as [qs' [b|e]] eqn:E; apply flush_follows in E; by intros [= <- _].
Qed.

Lemma acts_sleep : acts [] [] (sleep env flusher).
Proof.
  intros m m' a. unfold sleep. destruct (flusher _) as [[now1 now2]|].
  - destruct (OrchestratorQueue_flush_loop_turn _ _ _) as [[q s'] r] eqn:E. intros [= <- _]. apply turn_follows in E. cbn in E.
    split; cbn; [|by rewrite app_nil_r|done]. apply (follows_trans [] [] _ (env (mg_readings m) (mg_store m))); auto.
  - intros [= <- _]. split; cbn; [apply env_follows|by rewrite app_nil_r|done].
Qed.

Hint Resolve acts_ret acts_lift acts_get acts_clock acts_queue acts_resolve acts_note acts_pick acts_release acts_sleep : emission.

(** *** Grants *)

Lemma acts_now clock : acts [] [] (unix_now clock).
Proof. apply acts_bind0; auto with emission. Qed.

Lemma acts_uri key : acts [] [] (bucket_do (uri_of key)).
Proof. apply acts_reads, reads_uri. Qed.

(** Writing at the address of a key that was just computed. *)
Lemma acts_put_document key v : not_a_manifest mkey key ->
  acts [] [] (uri ← bucket_do (uri_of key); bucket_do (os_put_json uri v)).
Proof.
  intros Hk m m' a E. apply st_bind_Ok in E as (m1 & uri & E1 & E). injection E1 as <- <-.
  unfold bucket_do in E. cbn [mg_store mg_with_store] in E.
  destruct (os_put_json _ v _) as [s r] eqn:Ep. injection E as <- ->. destruct a. rewrite put_json_put in Ep.
  split; cbn; [by eapply put_follows|by rewrite app_nil_r|done].
Qed.

Section grants.
Context (clock : nat -> float) (show : Z -> string -> Z -> result pyval).
Context (broker : PresignedUrlBroker) (ttl : Z) (encryptor : AssignmentEncryptor).

Lemma acts_broker_get uri : acts [] [] (broker_get clock broker ttl uri).
Proof. apply acts_bind0; [apply acts_now|auto with emission]. Qed.

Lemma acts_broker_put uri : acts [] [] (broker_put clock broker ttl uri).
Proof. apply acts_bind0; [apply acts_now|auto with emission]. Qed.

Lemma acts_seal grant hk : acts [] [] (seal_grant show encryptor grant hk).
Proof.
  apply acts_bind0; [auto with emission|intros m]. destruct (mg_resolver m); [|auto with emission].
  apply acts_bind0; auto with emission.
Qed.

Lemma acts_file_grant key grant hk : not_a_manifest mkey key ->
  acts [] [] (file_grant show encryptor key grant hk).
Proof.
  intros Hk m m' a E. unfold file_grant in E. st_step E. apply st_bind_Ok in E as (m2 & uri & E2 & E).
  apply st_bind_Ok in E as (m3 & u & E3 & E). injection E as <- <-.
  apply (emitting_trans [] [] [] [] _ s); [by eapply acts_seal|].
  eapply (acts_put_document key); [done|]. cbv [mbind st_bind]. rewrite E2. exact E3.
Qed.

Lemma acts_new_grant n manifest : acts [] [] (new_assignment_grant clock broker ttl n manifest).
Proof.
  apply acts_bind0; [apply acts_now|intros now]. apply acts_bind0; [apply acts_uri|intros uri].
  apply acts_bind0; [apply acts_mapS; intros; apply acts_broker_get|intros gets].
  apply acts_bind0; [auto with emission|intros uris].
  apply acts_bind0; [apply acts_mapS; intros; apply acts_broker_put|intros puts].
  apply acts_bind0; [apply acts_broker_put|auto with emission].
Qed.
End grants.

(** *** Publication *)

(** The manifest of a job in the bucket, and reading it back. *)
Definition filed (s : S) (j : string) (man : JobManifestV3) : Prop :=
  json_ok (PDict (JobManifestV3_to_dict man)) = true /\ lacks newline (manifest_uri s j) = true /\
  os_get_json (manifest_uri s j) s = (s, Ok (canon (PDict (JobManifestV3_to_dict man)))).

Lemma filed_follows ws s s' j man : follows ws s s' -> j ∉ ws -> filed s j man -> filed s' j man.
Proof.
  intros Hf Hj (Hok & Hn & Hg). pose proof (fl_docs _ _ _ Hf j _ Hj Hn Hg) as Hg'.
  unfold filed, manifest_uri in *. by rewrite (fl_addr _ _ _ Hf).
Qed.

Lemma filed_read s j man : filed s j man ->
  read_record JobManifestV3_from_dict (manifest_uri s j) s = (s, Ok (JobManifestV3_normal man)).
Proof.
  intros (Hok & _ & Hg). unfold read_record. cbv [mbind st_bind]. rewrite Hg, canon_PDict. cbn [st_lift as_object].
  unfold st_lift. f_equal. cbn [mbind result_bind].
  assert (JobManifestV3_from_dict (JobManifestV3_to_dict man) = Ok man) as Hr by exact (wire_from_to man).
  rewrite JobManifestV3_sorted, Hr by by apply json_ok_keys_ok. done.
Qed.

Lemma publish_spec owner j emit_grant unsigned m m' p :
  (forall man, JobManifestV3_sign unsigned owner = Ok man -> acts [] [] (emit_grant man)) ->
  publish_job owner (mkey j) emit_grant unsigned m = (m', Ok p) ->
  exists man grant_uri, JobManifestV3_sign unsigned owner = Ok man /\
    p = (man, QueueEntry_from_manifest man (manifest_uri (mg_store m) j) grant_uri) /\
    (lacks newline (manifest_uri (mg_store m) j) = true ->
     emitting [j] [] m m' /\ os_exists (manifest_uri (mg_store m) j) (mg_store m') = (mg_store m', Ok true) /\
     (json_ok (PDict (JobManifestV3_to_dict man)) = true -> filed (mg_store m') j man)).
Proof.
  intros Hg E. unfold publish_job in E. st_step E. apply st_bind_Ok in E as (m1 & uri & E1 & E). injection E1 as <- <-.
  apply st_bind_Ok in E as (m2 & [] & Ep & E). apply st_bind_Ok in E as (m3 & grant_uri & E3 & E). injection E as <- <-.
  exists x, grant_uri. split; [done|]. split; [done|]. intros Hn. apply Hg in E3; [|done].
  unfold bucket_do in Ep. cbn [mg_store mg_with_store] in Ep.
  destruct (os_put_json _ _ _) as [s r] eqn:Eput. injection Ep as <- ->. cbn in E3.
  assert (emitting [j] [] m m3) as Hem.
  { apply (emitting_trans [j] [] [] [] _ (mg_with_store m s)); [|exact E3].
    split; cbn; [|by rewrite app_nil_r|done]. apply (put_manifest_follows _ (canonical_json (PDict (JobManifestV3_to_dict x)))); [done|].
    by rewrite <- put_json_put. }
  split; [exact Hem|]. split.
  { apply (fl_keeps _ _ _ (em_store _ _ _ _ E3)). rewrite put_json_put in Eput. by apply put_exists in Eput. }
  intros Hok. apply (filed_follows [] s); [exact (em_store _ _ _ _ E3)|intros Hin; by apply elem_of_nil in Hin|].
  assert (manifest_uri s j = manifest_uri (mg_store m) j) as Eu.
  { unfold manifest_uri. by rewrite (put_json_uri_for_key _ _ _ _ Eput). }
  unfold filed. rewrite Eu. split_and!; try done. by apply (put_json_get_json _ _ (mg_store m)).
Qed.
End facts.

#[export] Hint Resolve acts_ret acts_lift acts_get acts_clock acts_queue acts_resolve acts_note acts_pick acts_release acts_now acts_uri acts_broker_get acts_broker_put acts_seal
  acts_new_grant : emission.
