(* ===== verification/Ir.v ===== *)
(** * The tensor IR ([teuton_core/ir.py])

    Graphs of tensor operations: the records and their wire form, the registry
    of operations, and the builder that the run code emits graphs with.  A
    graph is named by the digest of its canonical JSON. *)

From Stdlib Require Import ZArith Lia Ascii.
From stdpp Require Import base strings list.
From S2P Require Import Prelude PyFloat PyVal Json Digest Signatures Codec Protocol ProtocolFacts.

(** ** Records *)

Record TensorSpec := mkTensorSpec { ts_name : string; ts_shape : list Z; ts_dtype : string }.

Definition TensorSpec_to_dict (t : TensorSpec) : dict pyval :=
  [("name", PStr (ts_name t)); ("shape", PList (map PInt (ts_shape t))); ("dtype", PStr (ts_dtype t))].

Definition TensorSpec_from_dict (d : dict pyval) : result TensorSpec :=
  name ← req_str d "name";
  shape ← item d "shape" ≫= ints_of;
  dtype ← req_str d "dtype";
  Ok (mkTensorSpec name shape dtype).

Record ParamSpec := mkParamSpec { ps_name : string; ps_type : string }.

Definition ParamSpec_to_dict (p : ParamSpec) : dict pyval :=
  [("name", PStr (ps_name p)); ("type", PStr (ps_type p))].

Definition ParamSpec_from_dict (d : dict pyval) : result ParamSpec :=
  name ← req_str d "name";
  type ← req_str d "type";
  Ok (mkParamSpec name type).

(** References are dictionaries tagged by their kind. *)
Notation ref := (list (string * pyval)).

Definition ref_input (name : string) : ref := [("kind", PStr "input"); ("name", PStr name)].
Definition ref_op (op_id idx : Z) : ref := [("kind", PStr "op"); ("id", PInt op_id); ("idx", PInt idx)].
Definition ref_param (name : string) : ref := [("kind", PStr "param"); ("name", PStr name)].
Definition ref_const (value : pyval) : ref := [("kind", PStr "const"); ("value", value)].
Definition ref_const_blob (uri : string) (shape : list Z) (dtype : string) : ref :=
  [("kind", PStr "const_blob"); ("uri", PStr uri); ("shape", PList (map PInt shape)); ("dtype", PStr dtype)].

Record Op := mkOp {
  op_id : Z;
  op_op : string;
  op_args : list ref;
  op_kwargs : dict pyval;
  op_out : list TensorSpec
}.

Definition Op_to_dict (o : Op) : dict pyval :=
  [("id", PInt (op_id o)); ("op", PStr (op_op o)); ("args", pdicts id (op_args o));
   ("kwargs", PDict (op_kwargs o)); ("out", pdicts TensorSpec_to_dict (op_out o))].

Definition Op_from_dict (d : dict pyval) : result Op :=
  id ← req_int d "id";
  op ← req_str d "op";
  args ← list_of Ok (get_or d "args" (PList []));
  kwargs ← dict_or_empty (get d "kwargs");
  out ← list_of TensorSpec_from_dict (get_or d "out" (PList []));
  Ok (mkOp id op args kwargs out).

(** A named output. *)
Definition output_to_dict (o : string * ref) : dict pyval := [("name", PStr o.1); ("ref", PDict o.2)].

Definition output_from_dict (o : dict pyval) : result (string * ref) :=
  name ← req_str o "name";
  r ← item o "ref" ≫= as_dict;
  Ok (name, r).

Record Graph := mkGraph {
  g_inputs : list TensorSpec;
  g_outputs : list (string * ref);
  g_params : list ParamSpec;
  g_ops : list Op;
  g_ir_version : Z
}.

Definition Graph_to_dict (g : Graph) : dict pyval :=
  [("ir_version", PInt (g_ir_version g)); ("inputs", pdicts TensorSpec_to_dict (g_inputs g));
   ("outputs", pdicts output_to_dict (g_outputs g)); ("params", pdicts ParamSpec_to_dict (g_params g));
   ("ops", pdicts Op_to_dict (g_ops g))].

Definition Graph_from_dict (d : dict pyval) : result Graph :=
  ir_version ← int_or d "ir_version" 1;
  inputs ← list_of TensorSpec_from_dict (get_or d "inputs" (PList []));
  outputs ← list_of output_from_dict (get_or d "outputs" (PList []));
  params ← list_of ParamSpec_from_dict (get_or d "params" (PList []));
  ops ← list_of Op_from_dict (get_or d "ops" (PList []));
  Ok (mkGraph inputs outputs params ops ir_version).

Definition Graph_to_canonical_json (g : Graph) : string := json_dumps_unicode (PDict (Graph_to_dict g)).

Definition Graph_graph_id (g : Graph) : string := sha256_hexdigest (Graph_to_canonical_json g).

(** ** Registered operations *)

(** [os_n_args] is negative for operations of any arity. *)
Record OpSig := mkOpSig { os_name : string; os_n_args : Z; os_kwargs : list string }.

Definition register (registry : dict OpSig) (entry : string * Z * list string) : dict OpSig :=
  let '(name, n_args, kwargs) := entry in dict_set name (mkOpSig name n_args kwargs) registry.

Definition nullary_kwargs (n : Z) (names : list string) : list (string * Z * list string) :=
  map (fun name => (name, n, [])) names.

Definition registrations : list (string * Z * list string) :=
  nullary_kwargs 2 ["add"; "sub"; "mul"; "div"; "pow"]
  ++ nullary_kwargs 1 ["neg"; "exp"; "log"; "sqrt"; "abs"; "round"; "relu"; "gelu"; "silu"; "sin"; "cos";
                       "sigmoid"; "tanh"; "identity"]
  ++ nullary_kwargs 2 ["gt"; "lt"; "ge"; "le"; "eq"]
  ++ [("clamp", 1%Z, ["min"; "max"]); ("where", 3%Z, []); ("cast", 1%Z, ["dtype"]); ("sign", 1%Z, []);
      ("matmul", 2%Z, []); ("transpose", 1%Z, ["dims"]); ("reshape", 1%Z, ["shape"]);
      ("einsum", 2%Z, ["equation"])]
  ++ map (fun name => (name, 1%Z, ["dim"; "keepdim"])) ["sum"; "mean"; "max"; "min"]
  ++ [("concat", (-1)%Z, ["dim"]); ("split", 1%Z, ["sizes"; "dim"]); ("broadcast", 1%Z, ["shape"]);
      ("squeeze", 1%Z, ["dim"]); ("unsqueeze", 1%Z, ["dim"]); ("slice", 1%Z, ["dim"; "start"; "end"]);
      ("stack", (-1)%Z, ["dim"]); ("gather", 2%Z, ["dim"]); ("scatter", 3%Z, ["dim"]);
      ("arange", 0%Z, ["start"; "end"; "step"; "dtype"]); ("normal", 0%Z, ["seed"; "shape"; "dtype"]);
      ("uniform", 0%Z, ["seed"; "shape"; "dtype"]); ("sort", 1%Z, ["dim"; "descending"]);
      ("topk", 1%Z, ["k"; "dim"]); ("softmax", 1%Z, ["dim"]); ("log_softmax", 1%Z, ["dim"]);
      ("layer_norm", 3%Z, ["eps"]); ("rmsnorm", 2%Z, ["eps"]); ("cross_entropy", 2%Z, ["ignore_index"]);
      ("embedding", 2%Z, []); ("tril", 1%Z, ["diagonal"]); ("triu", 1%Z, ["diagonal"]);
      ("full", 0%Z, ["shape"; "value"; "dtype"]); ("quantize_int8_per_channel", 1%Z, ["dim"]);
      ("dequantize_int8_per_channel", 2%Z, []); ("quantize_pack_int8", 1%Z, ["dim"]);
      ("unpack_dequantize_int8", 1%Z, ["dim"; "shape"; "scale_dim"]); ("qr", 1%Z, []);
      ("data_indexer", 1%Z, ["B"; "T"; "mb_seed"])].

Definition REGISTRY : dict OpSig := fold_left register registrations [].

Definition known_ops : list string := sorted_strings (dict_keys REGISTRY).

(** [repr] of text with no quotes, backslashes or control characters. *)
Definition quoted (s : string) : string := "'" +:+ s +:+ "'".

Definition op_signature (name : string) : result OpSig :=
  of_option (KeyError ("unknown op: " +:+ quoted name)) (dict_get name REGISTRY).

(** ** The builder *)

Record GraphBuilder := mkBuilder {
  gb_inputs : list TensorSpec;
  gb_outputs : list (string * ref);
  gb_params : list ParamSpec;
  gb_ops : list Op
}.

Definition GraphBuilder_init : GraphBuilder := mkBuilder [] [] [] [].

Definition with_ops (b : GraphBuilder) (ops : list Op) : GraphBuilder :=
  mkBuilder (gb_inputs b) (gb_outputs b) (gb_params b) ops.

Definition GraphBuilder_input (name : string) (shape : list Z) (dtype : string) : ST GraphBuilder ref :=
  b ← st_get;
  if existsb (fun t => String.eqb (ts_name t) name) (gb_inputs b)
  then st_raise (ValueError ("duplicate input name: " +:+ quoted name))
  else
    _ ← st_put (mkBuilder (gb_inputs b ++ [mkTensorSpec name shape dtype]) (gb_outputs b) (gb_params b) (gb_ops b));
    mret (ref_input name).

Definition GraphBuilder_param (name type_ : string) : ST GraphBuilder ref :=
  b ← st_get;
  if existsb (fun p => String.eqb (ps_name p) name) (gb_params b)
  then st_raise (ValueError ("duplicate param name: " +:+ quoted name))
  else
    _ ← st_put (mkBuilder (gb_inputs b) (gb_outputs b) (gb_params b ++ [mkParamSpec name type_]) (gb_ops b));
    mret (ref_param name).

Definition GraphBuilder_const (value : pyval) : ref := ref_const value.
Definition GraphBuilder_const_blob (uri : string) (shape : list Z) (dtype : string) : ref :=
  ref_const_blob uri shape dtype.

Definition GraphBuilder_output (name : string) (r : ref) : ST GraphBuilder unit :=
  b ← st_get;
  st_put (mkBuilder (gb_inputs b) (gb_outputs b ++ [(name, r)]) (gb_params b) (gb_ops b)).

(** What both emitters check before they touch the builder. *)
Fixpoint check_kwargs (op : string) (sig : OpSig) (keys : list string) : result unit :=
  match keys with
  | [] => Ok tt
  | k :: keys' =>
      if bool_decide (k ∈ os_kwargs sig) then check_kwargs op sig keys'
      else Err (ValueError ("op " +:+ quoted op +:+ " got unexpected kwarg: " +:+ quoted k))
  end.

Definition check_call (op : string) (args : list ref) (kwargs : dict pyval) : result unit :=
  sig ← op_signature op;
  if (0 <=? os_n_args sig)%Z && negb (Z.of_nat (length args) =? os_n_args sig)%Z then
    Err (ValueError ("op " +:+ quoted op +:+ " expects " +:+ py_str_int (os_n_args sig) +:+ " args, got "
                     +:+ py_str_int (Z.of_nat (length args))))
  else check_kwargs op sig (dict_keys kwargs).

Definition GraphBuilder_emit (op : string) (args : list ref) (kwargs : option (dict pyval))
    (out : list TensorSpec) : ST GraphBuilder ref :=
  let kw := default [] kwargs in
  _ ← st_lift (check_call op args kw);
  b ← st_get;
  let op_id := Z.of_nat (length (gb_ops b)) in
  _ ← st_put (with_ops b (gb_ops b ++ [mkOp op_id op args kw out]));
  mret (ref_op op_id 0).

Definition GraphBuilder_emit_multi (op : string) (args : list ref) (kwargs : option (dict pyval))
    (n_outputs : nat) : ST GraphBuilder (list ref) :=
  let kw := default [] kwargs in
  _ ← st_lift (check_call op args kw);
  b ← st_get;
  let op_id := Z.of_nat (length (gb_ops b)) in
  _ ← st_put (with_ops b (gb_ops b ++ [mkOp op_id op args kw []]));
  mret (map (fun i => ref_op op_id (Z.of_nat i)) (seq 0 n_outputs)).

Definition GraphBuilder_add (a b : ref) : ST GraphBuilder ref :=
  GraphBuilder_emit "add" [a; b] None [].
Definition GraphBuilder_sub (a b : ref) : ST GraphBuilder ref :=
  GraphBuilder_emit "sub" [a; b] None [].
Definition GraphBuilder_mul (a b : ref) : ST GraphBuilder ref :=
  GraphBuilder_emit "mul" [a; b] None [].
Definition GraphBuilder_div (a b : ref) : ST GraphBuilder ref :=
  GraphBuilder_emit "div" [a; b] None [].
Definition GraphBuilder_pow_ (a b : ref) : ST GraphBuilder ref :=
  GraphBuilder_emit "pow" [a; b] None [].
Definition GraphBuilder_neg (a : ref) : ST GraphBuilder ref :=
  GraphBuilder_emit "neg" [a] None [].
Definition GraphBuilder_exp (a : ref) : ST GraphBuilder ref :=
  GraphBuilder_emit "exp" [a] None [].
Definition GraphBuilder_log (a : ref) : ST GraphBuilder ref :=
  GraphBuilder_emit "log" [a] None [].
Definition GraphBuilder_sqrt (a : ref) : ST GraphBuilder ref :=
  GraphBuilder_emit "sqrt" [a] None [].
Definition GraphBuilder_abs_ (a : ref) : ST GraphBuilder ref :=
  GraphBuilder_emit "abs" [a] None [].
Definition GraphBuilder_round_ (a : ref) : ST GraphBuilder ref :=
  GraphBuilder_emit "round" [a] None [].
Definition GraphBuilder_relu (a : ref) : ST GraphBuilder ref :=
  GraphBuilder_emit "relu" [a] None [].
Definition GraphBuilder_gelu (a : ref) : ST GraphBuilder ref :=
  GraphBuilder_emit "gelu" [a] None [].
Definition GraphBuilder_silu (a : ref) : ST GraphBuilder ref :=
  GraphBuilder_emit "silu" [a] None [].
Definition GraphBuilder_sin (a : ref) : ST GraphBuilder ref :=
  GraphBuilder_emit "sin" [a] None [].
Definition GraphBuilder_cos (a : ref) : ST GraphBuilder ref :=
  GraphBuilder_emit "cos" [a] None [].
Definition GraphBuilder_sigmoid (a : ref) : ST GraphBuilder ref :=
  GraphBuilder_emit "sigmoid" [a] None [].
Definition GraphBuilder_tanh (a : ref) : ST GraphBuilder ref :=
  GraphBuilder_emit "tanh" [a] None [].
Definition GraphBuilder_identity (a : ref) : ST GraphBuilder ref :=
  GraphBuilder_emit "identity" [a] None [].
Definition GraphBuilder_sign (a : ref) : ST GraphBuilder ref :=
  GraphBuilder_emit "sign" [a] None [].
Definition GraphBuilder_gt (a b : ref) : ST GraphBuilder ref :=
  GraphBuilder_emit "gt" [a; b] None [].
Definition GraphBuilder_lt (a b : ref) : ST GraphBuilder ref :=
  GraphBuilder_emit "lt" [a; b] None [].
Definition GraphBuilder_ge (a b : ref) : ST GraphBuilder ref :=
  GraphBuilder_emit "ge" [a; b] None [].
Definition GraphBuilder_le (a b : ref) : ST GraphBuilder ref :=
  GraphBuilder_emit "le" [a; b] None [].
Definition GraphBuilder_eq (a b : ref) : ST GraphBuilder ref :=
  GraphBuilder_emit "eq" [a; b] None [].

Definition GraphBuilder_clamp (a : ref) (min max : option pyval) : ST GraphBuilder ref :=
  GraphBuilder_emit "clamp" [a] (Some (opt_item "min" id min ++ opt_item "max" id max)) [].

Definition GraphBuilder_where (cond a b : ref) : ST GraphBuilder ref :=
  GraphBuilder_emit "where" [cond; a; b] None [].
Definition GraphBuilder_cast (a : ref) (dtype : pyval) : ST GraphBuilder ref :=
  GraphBuilder_emit "cast" [a] (Some [("dtype", dtype)]) [].
Definition GraphBuilder_matmul (a b : ref) : ST GraphBuilder ref :=
  GraphBuilder_emit "matmul" [a; b] None [].
Definition GraphBuilder_transpose (a : ref) (dims : list pyval) : ST GraphBuilder ref :=
  GraphBuilder_emit "transpose" [a] (Some [("dims", PList dims)]) [].
Definition GraphBuilder_reshape (a : ref) (shape : list pyval) : ST GraphBuilder ref :=
  GraphBuilder_emit "reshape" [a] (Some [("shape", PList shape)]) [].
Definition GraphBuilder_einsum (a b : ref) (equation : pyval) : ST GraphBuilder ref :=
  GraphBuilder_emit "einsum" [a; b] (Some [("equation", equation)]) [].
Definition GraphBuilder_sum (a : ref) (dim : pyval) (keepdim : bool) : ST GraphBuilder ref :=
  GraphBuilder_emit "sum" [a] (Some [("dim", dim); ("keepdim", PBool keepdim)]) [].
Definition GraphBuilder_mean (a : ref) (dim : pyval) (keepdim : bool) : ST GraphBuilder ref :=
  GraphBuilder_emit "mean" [a] (Some [("dim", dim); ("keepdim", PBool keepdim)]) [].
Definition GraphBuilder_max_ (a : ref) (dim : pyval) (keepdim : bool) : ST GraphBuilder ref :=
  GraphBuilder_emit "max" [a] (Some [("dim", dim); ("keepdim", PBool keepdim)]) [].
Definition GraphBuilder_min_ (a : ref) (dim : pyval) (keepdim : bool) : ST GraphBuilder ref :=
  GraphBuilder_emit "min" [a] (Some [("dim", dim); ("keepdim", PBool keepdim)]) [].
Definition GraphBuilder_concat (tensors : list ref) (dim : Z) : ST GraphBuilder ref :=
  GraphBuilder_emit "concat" tensors (Some [("dim", PInt dim)]) [].
Definition GraphBuilder_stack (tensors : list ref) (dim : Z) : ST GraphBuilder ref :=
  GraphBuilder_emit "stack" tensors (Some [("dim", PInt dim)]) [].
Definition GraphBuilder_split (a : ref) (sizes : list pyval) (dim : Z) : ST GraphBuilder (list ref) :=
  GraphBuilder_emit_multi "split" [a] (Some [("sizes", PList sizes); ("dim", PInt dim)]) (length sizes).
Definition GraphBuilder_broadcast (a : ref) (shape : list pyval) : ST GraphBuilder ref :=
  GraphBuilder_emit "broadcast" [a] (Some [("shape", PList shape)]) [].
Definition GraphBuilder_squeeze (a : ref) (dim : Z) : ST GraphBuilder ref :=
  GraphBuilder_emit "squeeze" [a] (Some [("dim", PInt dim)]) [].
Definition GraphBuilder_unsqueeze (a : ref) (dim : Z) : ST GraphBuilder ref :=
  GraphBuilder_emit "unsqueeze" [a] (Some [("dim", PInt dim)]) [].

(** [x if isinstance(x, dict) else int(x)]. *)
Definition int_unless_dict (v : pyval) : result pyval :=
  match v with PDict _ => Ok v | _ => z ← py_int v; Ok (PInt z) end.

Definition GraphBuilder_slice (a : ref) (dim : Z) (start end_ : pyval) : ST GraphBuilder ref :=
  start' ← st_lift (int_unless_dict start);
  end' ← st_lift (int_unless_dict end_);
  GraphBuilder_emit "slice" [a] (Some [("dim", PInt dim); ("start", start'); ("end", end')]) [].

Definition GraphBuilder_gather (a index : ref) (dim : Z) : ST GraphBuilder ref :=
  GraphBuilder_emit "gather" [a; index] (Some [("dim", PInt dim)]) [].
Definition GraphBuilder_scatter (a index src : ref) (dim : Z) : ST GraphBuilder ref :=
  GraphBuilder_emit "scatter" [a; index; src] (Some [("dim", PInt dim)]) [].
Definition GraphBuilder_arange (start end_ step dtype : pyval) : ST GraphBuilder ref :=
  GraphBuilder_emit "arange" [] (Some [("start", start); ("end", end_); ("step", step); ("dtype", dtype)]) [].
Definition GraphBuilder_normal (seed : pyval) (shape : list pyval) (dtype : pyval) : ST GraphBuilder ref :=
  GraphBuilder_emit "normal" [] (Some [("seed", seed); ("shape", PList shape); ("dtype", dtype)]) [].
Definition GraphBuilder_uniform (seed : pyval) (shape : list pyval) (dtype : pyval) : ST GraphBuilder ref :=
  GraphBuilder_emit "uniform" [] (Some [("seed", seed); ("shape", PList shape); ("dtype", dtype)]) [].
Definition GraphBuilder_sort (a : ref) (dim : Z) (descending : bool) : ST GraphBuilder ref :=
  GraphBuilder_emit "sort" [a] (Some [("dim", PInt dim); ("descending", PBool descending)]) [].
Definition GraphBuilder_topk (a : ref) (k dim : Z) : ST GraphBuilder (list ref) :=
  GraphBuilder_emit_multi "topk" [a] (Some [("k", PInt k); ("dim", PInt dim)]) 2.
Definition GraphBuilder_softmax (a : ref) (dim : Z) : ST GraphBuilder ref :=
  GraphBuilder_emit "softmax" [a] (Some [("dim", PInt dim)]) [].
Definition GraphBuilder_log_softmax (a : ref) (dim : Z) : ST GraphBuilder ref :=
  GraphBuilder_emit "log_softmax" [a] (Some [("dim", PInt dim)]) [].
Definition GraphBuilder_layer_norm (a weight bias : ref) (eps : float) : ST GraphBuilder ref :=
  GraphBuilder_emit "layer_norm" [a; weight; bias] (Some [("eps", PFloat eps)]) [].
Definition GraphBuilder_rmsnorm (a weight : ref) (eps : float) : ST GraphBuilder ref :=
  GraphBuilder_emit "rmsnorm" [a; weight] (Some [("eps", PFloat eps)]) [].
Definition GraphBuilder_tril (a : ref) (diagonal : Z) : ST GraphBuilder ref :=
  GraphBuilder_emit "tril" [a] (Some [("diagonal", PInt diagonal)]) [].
Definition GraphBuilder_triu (a : ref) (diagonal : Z) : ST GraphBuilder ref :=
  GraphBuilder_emit "triu" [a] (Some [("diagonal", PInt diagonal)]) [].
Definition GraphBuilder_full (shape : list pyval) (value dtype : pyval) : ST GraphBuilder ref :=
  GraphBuilder_emit "full" [] (Some [("shape", PList shape); ("value", value); ("dtype", dtype)]) [].
Definition GraphBuilder_cross_entropy (logits targets : ref) (ignore_index : Z) : ST GraphBuilder ref :=
  GraphBuilder_emit "cross_entropy" [logits; targets] (Some [("ignore_index", PInt ignore_index)]) [].
Definition GraphBuilder_embedding (weight ids : ref) : ST GraphBuilder ref :=
  GraphBuilder_emit "embedding" [weight; ids] None [].
Definition GraphBuilder_quantize_int8_per_channel (x : ref) (dim : Z) : ST GraphBuilder (list ref) :=
  GraphBuilder_emit_multi "quantize_int8_per_channel" [x] (Some [("dim", PInt dim)]) 2.
Definition GraphBuilder_dequantize_int8_per_channel (q scale : ref) : ST GraphBuilder ref :=
  GraphBuilder_emit "dequantize_int8_per_channel" [q; scale] None [].
Definition GraphBuilder_quantize_pack_int8 (x : ref) (dim : Z) : ST GraphBuilder ref :=
  GraphBuilder_emit "quantize_pack_int8" [x] (Some [("dim", PInt dim)]) [].
Definition GraphBuilder_unpack_dequantize_int8 (blob : ref) (shape : list pyval) (dim : Z) : ST GraphBuilder ref :=
  GraphBuilder_emit "unpack_dequantize_int8" [blob] (Some [("dim", PInt dim); ("shape", PList shape); ("scale_dim", PInt dim)]) [].
Definition GraphBuilder_qr (a : ref) : ST GraphBuilder (list ref) :=
  GraphBuilder_emit_multi "qr" [a] None 2.
Definition GraphBuilder_data_indexer (tokens : ref) (B T : Z) (mb_seed : pyval) : ST GraphBuilder (list ref) :=
  GraphBuilder_emit_multi "data_indexer" [tokens]
    (Some [("B", PInt B); ("T", PInt T); ("mb_seed", mb_seed)]) 2.

Definition GraphBuilder_build (b : GraphBuilder) : Graph :=
  mkGraph (gb_inputs b) (gb_outputs b) (gb_params b) (gb_ops b) 1.

(** ** Wire form *)

Definition Op_normal (o : Op) : Op :=
  mkOp (op_id o) (op_op o) (map canon_dict (op_args o)) (canon_dict (op_kwargs o)) (op_out o).

Definition output_normal (o : string * ref) : string * ref := (o.1, canon_dict o.2).

(** The graph as it is read back: free-form dictionaries with sorted keys. *)
Definition Graph_normal (g : Graph) : Graph :=
  mkGraph (g_inputs g) (map output_normal (g_outputs g)) (g_params g) (map Op_normal (g_ops g)) (g_ir_version g).

#[export] Instance Graph_wire : WireRecord Graph :=
  {| wire_to := Graph_to_dict; wire_from := Graph_from_dict; wire_normal := Graph_normal |}.

Lemma TensorSpec_sorted d : keys_ok (PDict d) = true ->
  TensorSpec_from_dict (canon_dict d) = TensorSpec_from_dict d.
Proof.
  intros H. unfold TensorSpec_from_dict. canon_readers.
  destruct (item d "shape") as [v|]; [|done]. cbn [rmap mbind result_bind]. by rewrite ints_of_canon.
Qed.

Lemma ParamSpec_sorted d : keys_ok (PDict d) = true ->
  ParamSpec_from_dict (canon_dict d) = ParamSpec_from_dict d.
Proof. intros H. unfold ParamSpec_from_dict. canon_readers. done. Qed.

Lemma Op_sorted d : keys_ok (PDict d) = true ->
  Op_from_dict (canon_dict d) = rmap Op_normal (Op_from_dict d).
Proof.
  intros H. unfold Op_from_dict. canon_readers.
  rewrite (list_of_canon Ok canon_dict), (list_of_canon_id TensorSpec_from_dict)
    by (done || apply TensorSpec_sorted || by apply keys_ok_get_or).
  do 2 (apply bind_rmap; intros ? _). destruct (list_of Ok _) as [args|]; [|done].
  cbn [rmap mbind result_bind]. rewrite bind_canon_dict. by do 2 (apply bind_rmap; intros ? _).
Qed.

Lemma output_sorted d : keys_ok (PDict d) = true ->
  output_from_dict (canon_dict d) = rmap output_normal (output_from_dict d).
Proof.
  intros H. unfold output_from_dict. canon_readers. apply bind_rmap. intros name _.
  by destruct (item d "ref") as [[]|].
Qed.

Lemma Graph_sorted d : keys_ok (PDict d) = true ->
  Graph_from_dict (canon_dict d) = rmap Graph_normal (Graph_from_dict d).
Proof.
  intros H. unfold Graph_from_dict. canon_readers.
  rewrite (list_of_canon_id TensorSpec_from_dict), (list_of_canon_id ParamSpec_from_dict),
    (list_of_canon output_from_dict output_normal), (list_of_canon Op_from_dict Op_normal)
    by (apply TensorSpec_sorted || apply ParamSpec_sorted || apply output_sorted || apply Op_sorted
        || by apply keys_ok_get_or).
  do 2 (apply bind_rmap; intros ? _). destruct (list_of output_from_dict _) as [outs|]; [|done].
  cbn [rmap mbind result_bind]. apply bind_rmap. intros params _.
  by destruct (list_of Op_from_dict _).
Qed.

Lemma TensorSpec_read t : TensorSpec_from_dict (TensorSpec_to_dict t) = Ok t.
Proof.
  unfold TensorSpec_from_dict.
  change (item (TensorSpec_to_dict t) "shape" ≫= ints_of) with (ints_of (PList (map PInt (ts_shape t)))).
  rewrite ints_of_map. by destruct t.
Qed.

Lemma Op_read o : Op_from_dict (Op_to_dict o) = Ok o.
Proof.
  unfold Op_from_dict.
  change (get_or (Op_to_dict o) "args" (PList [])) with (pdicts id (op_args o)).
  change (get_or (Op_to_dict o) "out" (PList [])) with (pdicts TensorSpec_to_dict (op_out o)).
  change (get (Op_to_dict o) "kwargs") with (PDict (op_kwargs o)).
  rewrite (pdicts_read Ok id) by done. rewrite (pdicts_read _ _ _ TensorSpec_read), dict_or_empty_PDict.
  by destruct o.
Qed.

#[export] Instance Graph_laws : WireLaws Graph.
Proof.
  split; [intros g; refine (bool_decide_unpack _ _); vm_compute; exact I| |exact Graph_sorted].
  intros g. cbn [wire_from wire_to Graph_wire]. unfold Graph_from_dict.
  rewrite (list_of_write _ TensorSpec_to_dict (Graph_to_dict g) "inputs" (g_inputs g) TensorSpec_read eq_refl),
    (list_of_write _ output_to_dict _ "outputs" (g_outputs g)),
    (list_of_write _ ParamSpec_to_dict _ "params" (g_params g)),
    (list_of_write _ Op_to_dict (Graph_to_dict g) "ops" (g_ops g) Op_read eq_refl);
    first [by destruct g|by intros []|done].
Qed.

Lemma canon_pdicts {A} (f : A -> dict pyval) g l :
  (forall x, canon_dict (f (g x)) = canon_dict (f x)) -> canon (pdicts f (map g l)) = canon (pdicts f l).
Proof.
  intros H. unfold pdicts. cbn [canon]. f_equal. rewrite !map_map. apply map_ext. intros x.
  by rewrite !canon_PDict, H.
Qed.

Lemma Op_normal_canon o : canon_dict (Op_to_dict (Op_normal o)) = canon_dict (Op_to_dict o).
Proof.
  apply canon_dict_ext; [reflexivity|]. unfold Op_to_dict.
  cbn [map snd Op_normal op_id op_op op_args op_kwargs op_out].
  rewrite canon_sorted_dict, (canon_pdicts id canon_dict); [done|].
  intros d. cbn. pose proof (canon_sorted_dict d) as E. rewrite !canon_PDict in E. by injection E.
Qed.

Lemma output_normal_canon o : canon_dict (output_to_dict (output_normal o)) = canon_dict (output_to_dict o).
Proof.
  apply canon_dict_ext; [reflexivity|]. unfold output_to_dict, output_normal. cbn [map fst snd].
  by rewrite canon_sorted_dict.
Qed.

Lemma Graph_normal_canon g : canon_dict (Graph_to_dict (Graph_normal g)) = canon_dict (Graph_to_dict g).
Proof.
  apply canon_dict_ext; [reflexivity|]. unfold Graph_to_dict.
  cbn [map snd Graph_normal g_ir_version g_inputs g_outputs g_params g_ops].
  by rewrite (canon_pdicts output_to_dict output_normal _ output_normal_canon),
    (canon_pdicts Op_to_dict Op_normal _ Op_normal_canon).
Qed.

Lemma Graph_normal_json g : Graph_to_canonical_json (Graph_normal g) = Graph_to_canonical_json g.
Proof.
  unfold Graph_to_canonical_json, json_dumps_unicode. by rewrite !canon_PDict, Graph_normal_canon.
Qed.

Lemma Graph_load g : json_ok (PDict (Graph_to_dict g)) = true ->
  load_bytes Graph_from_dict (Graph_to_canonical_json g) = Ok (Graph_normal g).
Proof. exact (wire_unicode_roundtrip g). Qed.

(** ** The builder *)

(** A call with its arguments; the emitting methods are [CEmit] and
    [CEmitMulti] with fixed operation names. *)
Inductive builder_call : Type :=
  | CInput (name : string) (shape : list Z) (dtype : string)
  | CParam (name type_ : string)
  | COutput (name : string) (r : ref)
  | CEmit (op : string) (args : list ref) (kwargs : option (dict pyval)) (out : list TensorSpec)
  | CEmitMulti (op : string) (args : list ref) (kwargs : option (dict pyval)) (n_outputs : nat).

(** The builder after a call, whether the call returned or raised. *)
Definition run_call (b : GraphBuilder) (c : builder_call) : GraphBuilder :=
  match c with
  | CInput name shape dtype => fst (GraphBuilder_input name shape dtype b)
  | CParam name type_ => fst (GraphBuilder_param name type_ b)
  | COutput name r => fst (GraphBuilder_output name r b)
  | CEmit op args kwargs out => fst (GraphBuilder_emit op args kwargs out b)
  | CEmitMulti op args kwargs n => fst (GraphBuilder_emit_multi op args kwargs n b)
  end.

(** An operation as its registration asks for. *)
Definition op_registered (o : Op) : Prop :=
  exists sig, dict_get (op_op o) REGISTRY = Some sig /\
    (os_n_args sig < 0 \/ Z.of_nat (length (op_args o)) = os_n_args sig)%Z /\
    (forall k, k ∈ dict_keys (op_kwargs o) -> k ∈ os_kwargs sig).

Record graph_ok (g : Graph) : Prop := {
  ok_ids : forall i o, g_ops g !! i = Some o -> op_id o = Z.of_nat i;
  ok_ops : forall o, o ∈ g_ops g -> op_registered o;
  ok_inputs : NoDup (map ts_name (g_inputs g));
  ok_params : NoDup (map ps_name (g_params g))
}.

Lemma check_kwargs_ok op sig keys :
  check_kwargs op sig keys = Ok tt <-> (forall k, k ∈ keys -> k ∈ os_kwargs sig).
Proof.
  induction keys as [|k keys IH]; cbn; [split; [by intros _ k ?%elem_of_nil|done]|].
  case_bool_decide as Hk.
  - rewrite IH. split; [intros H k' [->|?]%elem_of_cons; auto|intros H k' ?; apply H; by right].
  - split; [done|]. intros H. exfalso. apply Hk, H. by left.
Qed.

Lemma check_call_ok op args kw : check_call op args kw = Ok tt <->
  op_registered (mkOp 0 op args kw []).
Proof.
  unfold check_call, op_signature, op_registered. cbn [op_op op_args op_kwargs].
  destruct (dict_get op REGISTRY) as [sig|]; cbn [of_option mbind result_bind];
    [|by split; [done|intros (? & ? & _)]].
  destruct ((0 <=? os_n_args sig)%Z && _) eqn:E.
  - split; [done|]. intros (s & [= <-] & [Hn|Hn] & _); [apply Z.leb_gt in Hn|apply Z.eqb_eq in Hn];
      rewrite Hn in E; by rewrite ?andb_false_r in E.
  - rewrite check_kwargs_ok. split.
    + intros H. exists sig. split; [done|]. split; [|done]. apply andb_false_iff in E as [E|E]; [left; lia|right; lia].
    + by intros (s & [= <-] & _ & H).
Qed.

(** Emitting appends one operation, or raises and changes nothing. *)
Lemma emit_spec op args kwargs out b :
  GraphBuilder_emit op args kwargs out b =
  match check_call op args (default [] kwargs) with
  | Ok _ => (with_ops b (gb_ops b ++ [mkOp (Z.of_nat (length (gb_ops b))) op args (default [] kwargs) out]),
             Ok (ref_op (Z.of_nat (length (gb_ops b))) 0))
  | Err e => (b, Err e)
  end.
Proof. unfold GraphBuilder_emit. cbn. by destruct (check_call _ _ _). Qed.

Lemma emit_multi_spec op args kwargs n b :
  GraphBuilder_emit_multi op args kwargs n b =
  match check_call op args (default [] kwargs) with
  | Ok _ => (with_ops b (gb_ops b ++ [mkOp (Z.of_nat (length (gb_ops b))) op args (default [] kwargs) []]),
             Ok (map (fun i => ref_op (Z.of_nat (length (gb_ops b))) (Z.of_nat i)) (seq 0 n)))
  | Err e => (b, Err e)
  end.
Proof. unfold GraphBuilder_emit_multi. cbn. by destruct (check_call _ _ _). Qed.

Lemma graph_ok_push b op args kw out : check_call op args kw = Ok tt ->
  graph_ok (GraphBuilder_build b) ->
  graph_ok (GraphBuilder_build
    (with_ops b (gb_ops b ++ [mkOp (Z.of_nat (length (gb_ops b))) op args kw out]))).
Proof.
  intros Hc [H1 H2 H3 H4]. split; cbn in *; [| |done|done].
  - intros i o [Hi|[Hle Hi]]%lookup_app_Some; [eauto|].
    apply list_lookup_singleton_Some in Hi as [Hi <-]. cbn. lia.
  - intros o [Ho|Ho%list_elem_of_singleton]%elem_of_app; [auto|subst o].
    apply check_call_ok in Hc. exact Hc.
Qed.

Lemma NoDup_snoc_name {A} (name : A -> string) l x :
  existsb (fun y => String.eqb (name y) (name x)) l = false -> NoDup (map name l) -> NoDup (map name (l ++ [x])).
Proof.
  intros Hx Hl. rewrite map_app, NoDup_app. split_and!; [done| |apply NoDup_singleton].
  intros n Hn ->%list_elem_of_singleton. apply list_elem_of_fmap in Hn as (y & Hy & Hin).
  assert (existsb (fun y => String.eqb (name y) (name x)) l = true) as E; [|congruence].
  apply existsb_exists. exists y. split; [by apply list_elem_of_In|]. rewrite Hy. apply String.eqb_refl.
Qed.

Lemma run_call_ok b c : graph_ok (GraphBuilder_build b) ->
  graph_ok (GraphBuilder_build (run_call b c)) /\ gb_ops b `prefix_of` gb_ops (run_call b c).
Proof.
  intros H. destruct c as [name shape dtype|name ty|name r|op args kw out|op args kw n]; cbn [run_call].
  - cbv [GraphBuilder_input mbind st_bind st_get]. cbv beta iota. destruct (existsb _ _) eqn:E; [done|]. destruct H. split; [|done].
    split; cbn in *; auto. by apply (NoDup_snoc_name ts_name _ (mkTensorSpec name shape dtype)).
  - cbv [GraphBuilder_param mbind st_bind st_get]. cbv beta iota. destruct (existsb _ _) eqn:E; [done|]. destruct H. split; [|done].
    split; cbn in *; auto. by apply (NoDup_snoc_name ps_name _ (mkParamSpec name ty)).
  - destruct H. split; [|done]. by split.
  - rewrite emit_spec. destruct (check_call _ _ _) as [[]|] eqn:E; [|done]. split; [by apply graph_ok_push|by eexists].
  - rewrite emit_multi_spec. destruct (check_call _ _ _) as [[]|] eqn:E; [|done].
    split; [by apply graph_ok_push|by eexists].
Qed.

(** ** Properties *)

(** Graphs are content-addressed: the canonical bytes a graph is stored
    under read back to that graph (keys of free-form dictionaries sorted), the
    graph read back has the same canonical bytes and hence the same graph id,
    and two graphs with the same canonical bytes are the same graph up to that
    order. *)
Theorem graph_content_addressed g :
  json_ok (PDict (Graph_to_dict g)) = true ->
  exists g', load_bytes Graph_from_dict (Graph_to_canonical_json g) = Ok g' /\
    Graph_to_canonical_json g' = Graph_to_canonical_json g /\ Graph_graph_id g' = Graph_graph_id g /\
    (forall h, json_ok (PDict (Graph_to_dict h)) = true ->
       Graph_to_canonical_json h = Graph_to_canonical_json g -> Graph_normal h = g').
Proof.
  intros Hok. exists (Graph_normal g). split; [by apply Graph_load|].
  split; [apply Graph_normal_json|]. split; [unfold Graph_graph_id; by rewrite Graph_normal_json|].
  intros h Hh E. apply Graph_load in Hh, Hok. rewrite E, Hok in Hh. symmetry. exact (Ok_inj _ _ Hh).
Qed.

(** C11. Every graph a builder can build, by any sequence of calls with any
    arguments (calls that raise included), is well formed: operation ids are
    positions, every operation is registered and has the arity and only the
    keyword arguments of its registration, input and parameter names are
    distinct; and the operations already emitted never change, so a reference
    handed out stays valid. *)
Theorem builder_graphs_ok calls :
  graph_ok (GraphBuilder_build (fold_left run_call calls GraphBuilder_init)) /\
  forall before after, calls = before ++ after ->
    gb_ops (fold_left run_call before GraphBuilder_init) `prefix_of`
    gb_ops (fold_left run_call calls GraphBuilder_init).
Proof.
  assert (forall cs b, graph_ok (GraphBuilder_build b) ->
    graph_ok (GraphBuilder_build (fold_left run_call cs b)) /\ gb_ops b `prefix_of` gb_ops (fold_left run_call cs b)) as Hrun.
  { induction cs as [|c cs IH]; intros b Hb; [done|]. cbn. destruct (run_call_ok b c Hb) as [H1 H2].
    destruct (IH _ H1) as [H3 H4]. split; [done|]. by etrans. }
  assert (graph_ok (GraphBuilder_build GraphBuilder_init)) as H0.
  { split; cbn; [by intros i o|by intros o ?%elem_of_nil|constructor|constructor]. }
  split; [by apply Hrun|]. intros before after ->. rewrite fold_left_app. by apply Hrun, Hrun.
Qed.

(** The builder's methods agree with the registry: on every builder and
    for all arguments of their types, each method that emits an operation
    succeeds, appends exactly one operation and returns a reference to it. *)
Theorem builder_methods_accepted b a1 a2 a3 x y z (l : list pyval) (ls : list ref) i j (k : bool) e mn mx :
  Forall (fun m : ST GraphBuilder ref => exists o, m b =
      (with_ops b (gb_ops b ++ [o]), Ok (ref_op (Z.of_nat (length (gb_ops b))) 0)) /\
      op_id o = Z.of_nat (length (gb_ops b)) /\ op_registered o)
    [GraphBuilder_add a1 a2; GraphBuilder_sub a1 a2; GraphBuilder_mul a1 a2; GraphBuilder_div a1 a2;
     GraphBuilder_pow_ a1 a2; GraphBuilder_neg a1; GraphBuilder_exp a1; GraphBuilder_log a1;
     GraphBuilder_sqrt a1; GraphBuilder_abs_ a1; GraphBuilder_round_ a1; GraphBuilder_relu a1;
     GraphBuilder_gelu a1; GraphBuilder_silu a1; GraphBuilder_sin a1; GraphBuilder_cos a1;
     GraphBuilder_sigmoid a1; GraphBuilder_tanh a1; GraphBuilder_identity a1; GraphBuilder_sign a1;
     GraphBuilder_gt a1 a2; GraphBuilder_lt a1 a2; GraphBuilder_ge a1 a2; GraphBuilder_le a1 a2;
     GraphBuilder_eq a1 a2; GraphBuilder_clamp a1 mn mx; GraphBuilder_where a1 a2 a3; GraphBuilder_cast a1 x;
     GraphBuilder_matmul a1 a2; GraphBuilder_transpose a1 l; GraphBuilder_reshape a1 l;
     GraphBuilder_einsum a1 a2 x; GraphBuilder_sum a1 x k; GraphBuilder_mean a1 x k;
     GraphBuilder_max_ a1 x k; GraphBuilder_min_ a1 x k; GraphBuilder_concat ls i; GraphBuilder_stack ls i;
     GraphBuilder_broadcast a1 l; GraphBuilder_squeeze a1 i; GraphBuilder_unsqueeze a1 i;
     GraphBuilder_slice a1 i (PInt j) (PInt j); GraphBuilder_gather a1 a2 i; GraphBuilder_scatter a1 a2 a3 i;
     GraphBuilder_arange x y z x; GraphBuilder_normal x l y; GraphBuilder_uniform x l y;
     GraphBuilder_sort a1 i k; GraphBuilder_softmax a1 i; GraphBuilder_log_softmax a1 i;
     GraphBuilder_layer_norm a1 a2 a3 e; GraphBuilder_rmsnorm a1 a2 e; GraphBuilder_tril a1 i;
     GraphBuilder_triu a1 i; GraphBuilder_full l x y; GraphBuilder_cross_entropy a1 a2 i;
     GraphBuilder_embedding a1 a2; GraphBuilder_dequantize_int8_per_channel a1 a2;
     GraphBuilder_quantize_pack_int8 a1 i; GraphBuilder_unpack_dequantize_int8 a1 l i] /\
  Forall (fun m : nat * ST GraphBuilder (list ref) => exists o rs, m.2 b =
      (with_ops b (gb_ops b ++ [o]), Ok rs) /\ length rs = m.1 /\
      (forall r, r ∈ rs -> exists idx, r = ref_op (Z.of_nat (length (gb_ops b))) idx) /\
      op_id o = Z.of_nat (length (gb_ops b)) /\ op_registered o)
    [(length l, GraphBuilder_split a1 l i); (2, GraphBuilder_topk a1 i j);
     (2, GraphBuilder_quantize_int8_per_channel a1 i); (2, GraphBuilder_qr a1);
     (2, GraphBuilder_data_indexer a1 i j x)].
Proof.
  assert (forall op args kw out, check_call op args (default [] kw) = Ok tt ->
    exists o, GraphBuilder_emit op args kw out b =
      (with_ops b (gb_ops b ++ [o]), Ok (ref_op (Z.of_nat (length (gb_ops b))) 0)) /\
      op_id o = Z.of_nat (length (gb_ops b)) /\ op_registered o) as Hemit.
  { intros op args kw out Hc. eexists. rewrite emit_spec, Hc. split; [reflexivity|]. split; [done|].
    apply check_call_ok in Hc. exact Hc. }
  assert (forall op args kw n, check_call op args (default [] kw) = Ok tt ->
    exists o rs, GraphBuilder_emit_multi op args kw n b = (with_ops b (gb_ops b ++ [o]), Ok rs) /\ length rs = n /\
      (forall r, r ∈ rs -> exists idx, r = ref_op (Z.of_nat (length (gb_ops b))) idx) /\
      op_id o = Z.of_nat (length (gb_ops b)) /\ op_registered o) as Hmulti.
  { intros op args kw n Hc. do 2 eexists. rewrite emit_multi_spec, Hc. split; [reflexivity|].
    split; [by rewrite length_map, length_seq|]. split; [|split; [done|apply check_call_ok in Hc; exact Hc]].
    intros r (idx & -> & _)%list_elem_of_fmap. by eexists. }
  split; repeat (apply List.Forall_cons || apply List.Forall_nil);
    first [apply Hemit; destruct_options; reflexivity|apply Hmulti; reflexivity].
Qed.

(** *** Example *)

Definition sample_graph : Graph :=
  GraphBuilder_build (fold_left run_call
    [CInput "x" [2; 3]%Z "float32"; CInput "w" [3; 4]%Z "float32";
     CEmit "matmul" [ref_input "x"; ref_input "w"] None []; CEmit "matmul" [ref_input "x"] None [];
     CEmit "sum" [ref_op 0 0] (Some [("keepdim", PBool true); ("dim", PInt 1)]) [];
     COutput "y" (ref_op 1 0)] GraphBuilder_init).

Lemma graph_content_addressed_witness :
  exists g', load_bytes Graph_from_dict (Graph_to_canonical_json sample_graph) = Ok g' /\
    Graph_graph_id g' = Graph_graph_id sample_graph.
Proof.
  destruct (graph_content_addressed sample_graph) as (g' & H1 & _ & H2 & _).
  - vm_compute. reflexivity.
  - exists g'. split; [exact H1|exact H2].
Defined.
