(* ===== verification/ComputeUnits.v ===== *)
(** * Expected work of a graph ([teuton_validator/compute_units.py])

    Shape inference over the IR and the number of elementary operations of each
    op, from which the compute units credited for a job are derived. *)

From Stdlib Require Import ZArith Lia ZifyBool Ascii.
From stdpp Require Import base strings list.
From S2P Require Import Prelude PyFloat FloatExact PyVal Json Codec Protocol ProtocolFacts Ir.

Open Scope Z_scope.

(** ** Python sequences *)

(** [len(l)]. *)
Definition zlen {A} (l : list A) : Z := Z.of_nat (length l).

(** The position an index names, negative ones counting from the end. *)
Definition py_pos {A} (l : list A) (i : Z) : option nat :=
  let j := if i <? 0 then i + zlen l else i in
  if (0 <=? j) && (j <? zlen l) then Some (Z.to_nat j) else None.

(** [l[i]]. *)
Definition py_at {A} (l : list A) (i : Z) : result A :=
  of_option (IndexError "index out of range") (p ← py_pos l i; l !! p).

(** [l[i] = v]. *)
Definition py_set {A} (l : list A) (i : Z) (v : A) : result (list A) :=
  match py_pos l i with
  | Some p => Ok (<[p := v]> l)
  | None => Err (IndexError "list assignment index out of range")
  end.

(** [l.insert(i, v)]: positions outside the list are clamped. *)
Definition py_insert {A} (l : list A) (i : Z) (v : A) : list A :=
  let j := if i <? 0 then Z.max 0 (i + zlen l) else Z.min i (zlen l) in
  take (Z.to_nat j) l ++ v :: drop (Z.to_nat j) l.

(** [l[:-n]]. *)
Definition drop_end {A} (n : nat) (l : list A) : list A := take (length l - n) l.

Definition str_in (s : string) (l : list string) : bool := existsb (String.eqb s) l.

(** The characters of an ASCII text, as one-character texts. *)
Fixpoint chars (s : string) : list string :=
  match s with EmptyString => [] | String c s' => String c EmptyString :: chars s' end.

(** ** Constants and shapes *)

Definition OPS_PER_CU : float := float_of_Z 1000000.
Definition MIN_CU : float := flit 1 (-6).

Record TensorInfo := mkInfo { ti_shape : list Z; ti_dtype : string }.

(** [TensorInfo(())]. *)
Definition scalar_info : TensorInfo := mkInfo [] "float32".

Definition dim (value : Z) : Z := Z.max 1 value.

Definition numel (shape : list Z) : Z := fold_left (fun total d => total * dim d) shape 1.

Definition normalize_dim (d rank : Z) : Z :=
  if rank <=? 0 then 0 else if d <? 0 then d + rank else d.

Definition broadcast_two (a b : list Z) : list Z :=
  let at_end (l : list Z) i := nth i (rev l) 1 in
  rev (map (fun i => Z.max (dim (at_end a i)) (dim (at_end b i)))
         (seq 0 (Nat.max (length a) (length b)))).

Definition broadcast_all (shapes : list (list Z)) : list Z := fold_left broadcast_two shapes [].

Definition matmul_shape (a b : list Z) : result (list Z) :=
  if (zlen a =? 1) && (zlen b =? 1) then Ok []
  else if zlen a =? 1 then
    n ← py_at b (-1); Ok (broadcast_two [] (drop_end 2 b) ++ [n])
  else if zlen b =? 1 then
    m ← py_at a (-2); Ok (broadcast_two (drop_end 2 a) [] ++ [m])
  else
    m ← py_at a (-2);
    n ← py_at b (-1);
    Ok (broadcast_two (drop_end 2 a) (drop_end 2 b) ++ [m; n]).

(** [x * z] for a float and an integer. *)
Definition fmul_int (x : float) (z : Z) : result float := y ← float_of_int z; Ok (fmul x y).

(** [x * z1 * z2 ...], from the left. *)
Fixpoint fmul_ints (x : float) (zs : list Z) : result float :=
  match zs with
  | [] => Ok x
  | z :: zs' => y ← fmul_int x z; fmul_ints y zs'
  end.

Definition ftwo : float := float_of_Z 2.

(** [_dim(l[0] if l else 1)]. *)
Definition first_dim (l : list Z) : Z := dim (match l with x :: _ => x | [] => 1 end).

Definition matmul_ops (a b : list Z) : result float :=
  if (zlen a =? 1) && (zlen b =? 1) then fmul_ints ftwo [first_dim a]
  else if zlen a =? 1 then
    let batch := numel (drop_end 2 b) in
    n ← py_at b (-1);
    fmul_ints ftwo [batch; first_dim a; dim n]
  else if zlen b =? 1 then
    let batch := numel (drop_end 2 a) in
    m ← py_at a (-2);
    fmul_ints ftwo [batch; dim m; first_dim b]
  else
    let batch_shape := broadcast_two (drop_end 2 a) (drop_end 2 b) in
    m ← py_at a (-2);
    k ← py_at a (-1);
    n ← py_at b (-1);
    fmul_ints ftwo [numel batch_shape; dim m; dim k; dim n].

Definition reduce_shape (shape : list Z) (d : pyval) (keepdim : bool) : result (list Z) :=
  match d with
  | PNone => Ok (if keepdim then map (fun _ => 1) shape else [])
  | _ =>
      dims ← match d with PList l => mapR py_int l | _ => z ← py_int d; Ok [z] end;
      let dims := map (fun x => normalize_dim x (zlen shape)) dims in
      Ok (concat (imap (fun i size =>
        if existsb (Z.eqb (Z.of_nat i)) dims then (if keepdim then [1] else []) else [size]) shape))
  end.

(** The labels of an equation: of both operands and of the output. *)
Definition einsum_labels (equation : string) : result (option (list string * list string * list string)) :=
  if negb (str_forallb is_ascii equation) then Err Unmodelled
  else Ok (match split_once "->" equation with
           | None => None
           | Some (lhs, out_labels) =>
               match split_once "," lhs with
               | None => None
               | Some (a_labels, b_labels) => Some (chars a_labels, chars b_labels, chars out_labels)
               end
           end).

Definition einsum_sizes (a_labels b_labels : list string) (a b : list Z) : dict Z :=
  let sizes := fold_left (fun s p => dict_set p.1 (dim p.2) s) (zip a_labels a) [] in
  fold_left (fun s p => dict_set p.1 (Z.max (default 1 (dict_get p.1 s)) (dim p.2)) s) (zip b_labels b) sizes.

Definition einsum_shape (equation : string) (a b : list Z) : result (list Z) :=
  labels ← einsum_labels equation;
  match labels with
  | None => Ok []
  | Some (a_labels, b_labels, out_labels) =>
      let sizes := einsum_sizes a_labels b_labels a b in
      Ok (map (fun l => default 1 (dict_get l sizes)) out_labels)
  end.

Definition einsum_contracted (a_labels b_labels out_labels : list string) : list string :=
  filter (fun l => str_in l b_labels && negb (str_in l out_labels) = true) (remove_dups a_labels).

(** The number is an integer when the equation does not parse. *)
Definition einsum_ops (equation : string) (a b out : list Z) : result pyval :=
  labels ← einsum_labels equation;
  match labels with
  | None => Ok (PInt (Z.max (Z.max (numel a) (numel b)) (numel out)))
  | Some (a_labels, b_labels, out_labels) =>
      let sizes := einsum_sizes a_labels b_labels a b in
      factors ← mapR (fun l => of_option (KeyError l) (dict_get l sizes))
                  (einsum_contracted a_labels b_labels out_labels);
      let contract_size := fold_left Z.mul factors 1 in
      x ← fmul_ints ftwo [numel out; contract_size];
      Ok (PFloat x)
  end.

(** ** Inference *)

Definition info_for_ref (r : ref) (inputs : dict TensorInfo) (op_infos : list (list TensorInfo))
    : result TensorInfo :=
  match get r "kind" with
  | PStr kind =>
      if String.eqb kind "input" then
        name ← py_str (get r "name");
        Ok (default scalar_info (dict_get name inputs))
      else if String.eqb kind "op" then
        op_id ← int_or r "id" 0;
        idx ← int_or r "idx" 0;
        if (0 <=? op_id) && (op_id <? zlen op_infos) then
          infos ← py_at op_infos op_id;
          if (0 <=? idx) && (idx <? zlen infos) then py_at infos idx else Ok scalar_info
        else Ok scalar_info
      else if String.eqb kind "const_blob" then
        shape ← ints_of (get_or r "shape" (PList []));
        dtype ← py_str (get_or r "dtype" (PStr "float32"));
        Ok (mkInfo shape dtype)
      else Ok scalar_info
  | PList _ | PDict _ => Err (TypeError "unhashable type")
  | _ => Ok scalar_info
  end.

(** [shapes[0] if shapes else ()]. *)
Definition first_shape (shapes : list (list Z)) : list Z := match shapes with s :: _ => s | [] => [] end.

Definition nonempty {A} (l : list A) : bool := match l with [] => false | _ => true end.

(** [tuple(int(x) for x in op.kwargs.get("shape", ()))]. *)
Definition kw_shape (kw : dict pyval) : result (list Z) := ints_of (get_or kw "shape" (PList [])).

Definition kw_dtype (kw : dict pyval) (dflt : string) : result string := py_str (get_or kw "dtype" (PStr dflt)).

(** [int(v)] unless [v] is a dictionary. *)
Definition int_or_ref (v : pyval) (dflt : Z) : result Z :=
  match v with PDict _ => Ok dflt | _ => py_int v end.

Definition broadcasting_ops : list string := ["add"; "sub"; "mul"; "div"; "pow"; "gt"; "lt"; "ge"; "le"; "eq"].
Definition elementwise_ops : list string :=
  ["neg"; "exp"; "log"; "sqrt"; "abs"; "round"; "relu"; "gelu"; "silu"; "sin"; "cos"; "sigmoid"; "tanh";
   "identity"; "sign"; "clamp"; "cast"; "tril"; "triu"; "dequantize_int8_per_channel"].

(** The second dimension from the end and the last one, for [qr]. *)
Definition qr_m (shape : list Z) : result Z :=
  if 2 <=? zlen shape then m ← py_at shape (-2); Ok (dim m) else Ok (numel shape).
Definition qr_n (shape : list Z) : result Z :=
  if nonempty shape then n ← py_at shape (-1); Ok (dim n) else Ok 1.

Definition infer_outputs (op : Op) (args : list TensorInfo) : result (list TensorInfo) :=
  let name := op_op op in
  let kw := op_kwargs op in
  let shapes := map ti_shape args in
  let s0 := first_shape shapes in
  dtype ← match args with a :: _ => Ok (ti_dtype a) | [] => kw_dtype kw "float32" end;
  let one shape : list TensorInfo := [mkInfo shape dtype] in
  if str_in name broadcasting_ops then Ok (one (broadcast_all shapes))
  else if str_in name elementwise_ops then d ← kw_dtype kw dtype; Ok [mkInfo s0 d]
  else if String.eqb name "where" then Ok (one (broadcast_all shapes))
  else if String.eqb name "matmul" && (2 <=? zlen shapes) then
    s1 ← py_at shapes 1; s ← matmul_shape s0 s1; Ok (one s)
  else if String.eqb name "transpose" && nonempty shapes then
    dims ← ints_of (get_or kw "dims" (PList (map (fun i => PInt (Z.of_nat i)) (seq 0 (length s0)))));
    s ← mapR (py_at s0) dims; Ok (one s)
  else if String.eqb name "reshape" then s ← kw_shape kw; Ok (one s)
  else if String.eqb name "einsum" && (2 <=? zlen shapes) then
    s1 ← py_at shapes 1;
    equation ← py_str (get_or kw "equation" (PStr ""));
    s ← einsum_shape equation s0 s1; Ok (one s)
  else if str_in name ["sum"; "mean"; "max"; "min"] && nonempty shapes then
    s ← reduce_shape s0 (get kw "dim") (bool_or kw "keepdim" false); Ok (one s)
  else if String.eqb name "concat" then
    d ← int_or kw "dim" 0;
    let d := normalize_dim d (zlen s0) in
    sizes ← mapR (fun s => x ← py_at s d; Ok (dim x)) (filter (fun s => (d <? zlen s) = true) shapes);
    s ← py_set s0 d (fold_left Z.add sizes 0); Ok (one s)
  else if String.eqb name "stack" then
    d ← int_or kw "dim" 0;
    let d := normalize_dim d (if nonempty shapes then zlen s0 + 1 else 1) in
    Ok (one (py_insert s0 d (zlen shapes)))
  else if String.eqb name "split" && nonempty shapes then
    d ← int_or kw "dim" 0;
    let d := normalize_dim d (zlen s0) in
    sizes ← as_list (get_or kw "sizes" (PList []));
    outs ← mapR (fun size => z ← py_int size; s ← py_set s0 d z; Ok (mkInfo s dtype)) sizes;
    Ok (if nonempty outs then outs else one s0)
  else if String.eqb name "broadcast" then s ← kw_shape kw; Ok (one s)
  else if String.eqb name "squeeze" && nonempty shapes then
    d ← int_or kw "dim" 0;
    let d := normalize_dim d (zlen s0) in
    Ok (one (concat (imap (fun i x => if Z.of_nat i =? d then [] else [x]) s0)))
  else if String.eqb name "unsqueeze" && nonempty shapes then
    d ← int_or kw "dim" 0;
    Ok (one (py_insert s0 (normalize_dim d (zlen s0 + 1)) 1))
  else if String.eqb name "slice" && nonempty shapes then
    d ← int_or kw "dim" 0;
    let d := normalize_dim d (zlen s0) in
    start ← match get kw "start" with PDict _ => Ok 0 | _ => int_or kw "start" 0 end;
    size ← py_at s0 d;
    end_ ← int_or_ref (get_or kw "end" (PInt size)) (dim size);
    s ← py_set s0 d (Z.max 0 (end_ - start)); Ok (one s)
  else if str_in name ["gather"; "scatter"] then
    s ← if String.eqb name "gather" && (1 <? zlen shapes) then py_at shapes 1 else py_at shapes 0;
    Ok (one s)
  else if String.eqb name "arange" then
    start ← int_or kw "start" 0;
    end_ ← int_or kw "end" start;
    step ← int_or kw "step" 1;
    q ← int_truediv (end_ - start) (Z.max 1 (Z.abs step));
    n ← float_ceil q;
    d ← kw_dtype kw "int64";
    Ok [mkInfo [Z.max 0 n] d]
  else if str_in name ["normal"; "uniform"; "full"] then
    s ← kw_shape kw; d ← kw_dtype kw "float32"; Ok [mkInfo s d]
  else if str_in name ["sort"; "softmax"; "log_softmax"] then Ok (one s0)
  else if String.eqb name "topk" && nonempty shapes then
    d ← int_or kw "dim" (-1);
    let d := normalize_dim d (zlen s0) in
    size ← py_at s0 d;
    k ← int_or kw "k" size;
    s ← py_set s0 d k; Ok [mkInfo s dtype; mkInfo s "int64"]
  else if str_in name ["layer_norm"; "rmsnorm"] && nonempty shapes then Ok (one s0)
  else if String.eqb name "cross_entropy" then Ok (one [])
  else if String.eqb name "embedding" && (2 <=? zlen shapes) then
    s1 ← py_at shapes 1; Ok (one (s1 ++ drop 1 s0))
  else if String.eqb name "data_indexer" then
    b ← int_or kw "B" 1; t ← int_or kw "T" 1; Ok [mkInfo [b; t] "int64"; mkInfo [b; t] "int64"]
  else if String.eqb name "quantize_int8_per_channel" && nonempty shapes then
    d ← int_or kw "dim" (-1);
    let d := normalize_dim d (zlen s0) in
    Ok [mkInfo s0 "int8"; mkInfo (imap (fun i size => if Z.of_nat i =? d then size else 1) s0) "float32"]
  else if String.eqb name "quantize_pack_int8" && nonempty shapes then
    d ← int_or kw "dim" (-1);
    size ← py_at s0 (normalize_dim d (zlen s0));
    Ok [mkInfo [numel s0 + 4 * dim size] "uint8"]
  else if String.eqb name "unpack_dequantize_int8" then s ← kw_shape kw; Ok [mkInfo s "float32"]
  else if String.eqb name "qr" && nonempty shapes then
    m ← qr_m s0;
    n ← qr_n s0;
    let k := Z.min m n in
    let batch := if 2 <=? zlen s0 then drop_end 2 s0 else [] in
    Ok [mkInfo (batch ++ [m; k]) dtype; mkInfo (batch ++ [k; n]) dtype]
  else Ok (one s0).

(** ** Cost *)

Definition sum_numel (infos : list TensorInfo) : Z := fold_left Z.add (map (fun i => numel (ti_shape i)) infos) 0.

(** [a or b] on integers. *)
Definition int_orelse (a b : Z) : Z := if a =? 0 then b else a.

Section costs.
(** [math.log2] of an integer. *)
Context (log2 : Z -> float).

(** The cost is a float or an integer. *)
Definition op_cost (op : Op) (args outs : list TensorInfo) : result pyval :=
  let name := op_op op in
  let kw := op_kwargs op in
  let out_numel := int_orelse (sum_numel outs) 1 in
  let in_numel := int_orelse (sum_numel args) out_numel in
  let times k z := x ← fmul_int (float_of_Z k) z; Ok (PFloat x) in
  if String.eqb name "matmul" && (2 <=? zlen args) then
    a ← py_at args 0; b ← py_at args 1; x ← matmul_ops (ti_shape a) (ti_shape b); Ok (PFloat x)
  else if String.eqb name "einsum" && (2 <=? zlen args) then
    equation ← py_str (get_or kw "equation" (PStr ""));
    a ← py_at args 0; b ← py_at args 1; o ← py_at outs 0;
    einsum_ops equation (ti_shape a) (ti_shape b) (ti_shape o)
  else if str_in name ["exp"; "log"; "sqrt"; "gelu"; "silu"; "sin"; "cos"; "sigmoid"; "tanh"] then times 4 out_numel
  else if str_in name ["softmax"; "log_softmax"] then times 5 in_numel
  else if str_in name ["layer_norm"; "rmsnorm"] then times 5 in_numel
  else if String.eqb name "cross_entropy" then times 3 in_numel
  else if String.eqb name "qr" && nonempty args then
    a ← py_at args 0;
    let shape := ti_shape a in
    m ← qr_m shape;
    n ← qr_n shape;
    let batch := if 2 <=? zlen shape then numel (drop_end 2 shape) else 1 in
    x ← fmul_ints ftwo [batch; m; n; Z.min m n]; Ok (PFloat x)
  else if str_in name ["sort"; "topk"] && nonempty args then
    a ← py_at args 0;
    let shape := ti_shape a in
    d ← int_or kw "dim" (-1);
    let d := normalize_dim d (zlen shape) in
    axis ← if nonempty shape then x ← py_at shape d; Ok (dim x) else Ok 1;
    y ← float_of_int in_numel;
    Ok (PFloat (fmul y (fmax fone (log2 (Z.max 2 axis)))))
  else if str_in name ["normal"; "uniform"] then times 2 out_numel
  else if str_in name ["quantize_int8_per_channel"; "dequantize_int8_per_channel"; "quantize_pack_int8";
                       "unpack_dequantize_int8"] then times 2 (Z.max in_numel out_numel)
  else Ok (PInt (Z.max in_numel out_numel)).

Definition spec_info (spec : TensorSpec) : TensorInfo := mkInfo (ts_shape spec) (ts_dtype spec).

(** One turn of the loop over the operations. *)
Definition estimate_op (inputs : dict TensorInfo) (st : list (list TensorInfo) * float) (op : Op)
    : result (list (list TensorInfo) * float) :=
  let '(op_infos, total) := st in
  arg_infos ← mapR (fun a => info_for_ref a inputs op_infos) (op_args op);
  inferred ← infer_outputs op arg_infos;
  let out_infos := if nonempty (op_out op) then map spec_info (op_out op) else inferred in
  op_infos' ← py_set op_infos (op_id op) out_infos;
  c ← op_cost op arg_infos out_infos;
  y ← py_float c;
  Ok (op_infos', fadd total y).

Fixpoint estimate_ops (inputs : dict TensorInfo) (st : list (list TensorInfo) * float) (ops : list Op)
    : result (list (list TensorInfo) * float) :=
  match ops with
  | [] => Ok st
  | op :: ops' => st' ← estimate_op inputs st op; estimate_ops inputs st' ops'
  end.

Definition estimate_graph_ops (g : Graph) : result float :=
  let input_infos := fold_left (fun d spec => dict_set (ts_name spec) (spec_info spec) d) (g_inputs g) [] in
  st ← estimate_ops input_infos (map (fun _ => [scalar_info]) (g_ops g), fzero) (g_ops g);
  Ok (snd st).

Definition expected_compute_units (manifest : JobManifestV3) (g : Graph) : result float :=
  ops ← estimate_graph_ops g;
  Ok (fmax MIN_CU (fdiv ops OPS_PER_CU)).
End costs.

(** ** Lemmas *)

Lemma dim_pos d : 1 <= dim d.
Proof. unfold dim. lia. Qed.

Lemma numel_from_pos shape : forall t, 1 <= t -> 1 <= fold_left (fun total d => total * dim d) shape t.
Proof.
  induction shape as [|d shape IH]; intros t Ht; [done|]. cbn. apply IH. pose proof (dim_pos d). nia.
Qed.

Lemma numel_pos shape : 1 <= numel shape.
Proof. apply numel_from_pos. lia. Qed.

Lemma sum_from_nonneg l : forall t, 0 <= t -> Forall (fun x => 0 <= x) l -> 0 <= fold_left Z.add l t.
Proof. induction l as [|x l IH]; intros t Ht Hl; [done|]. inversion Hl; subst. cbn. apply IH; [lia|done]. Qed.

Lemma sum_numel_nonneg infos : 0 <= sum_numel infos.
Proof.
  apply sum_from_nonneg; [lia|]. apply Forall_map, Forall_forall. intros i _. cbn.
  pose proof (numel_pos (ti_shape i)). lia.
Qed.

Lemma int_orelse_pos a b : 0 <= a -> 1 <= b -> 1 <= int_orelse a b.
Proof. unfold int_orelse. destruct (Z.eqb_spec a 0); lia. Qed.

(** A number that is neither negative nor NaN. *)
Definition cost_ok (v : pyval) : Prop :=
  match v with PInt z => 1 <= z | PFloat x => fnn x = true | _ => False end.

Lemma fmul_int_fnn x z y : fnn x = true -> 1 <= z -> fmul_int x z = Ok y -> fnn y = true.
Proof.
  unfold fmul_int, float_of_int. intros Hx Hz. pose proof (float_of_Z_fpos z ltac:(lia)) as Hp.
  destruct (float_finite (float_of_Z z)) eqn:E; [|done]. cbn. intros [= <-]. by apply fmul_fpos_fnn.
Qed.

Lemma fmul_ints_fnn zs : forall x y, fnn x = true -> Forall (fun z => 1 <= z) zs ->
  fmul_ints x zs = Ok y -> fnn y = true.
Proof.
  induction zs as [|z zs IH]; intros x y Hx Hz; cbn; [by intros [= <-]|].
  inversion Hz as [|? ? Hz1 Hz2]; subst. intros H. apply bind_Ok in H as (y' & H1 & H2).
  eapply IH; [|done|exact H2]. by eapply fmul_int_fnn.
Qed.

Lemma fmax_one_pos x : fpos (fmax fone x) = true.
Proof.
  unfold fmax. destruct (fltb fone x) eqn:E; [|done]. by destruct x as [[]|[]| |[] m e].
Qed.

Ltac step_ok H := let x := fresh "x" in let E := fresh "E" in apply bind_Ok in H as (x & E & H).

Ltac factors := repeat (apply List.Forall_cons || apply List.Forall_nil); auto using dim_pos, numel_pos.

Lemma matmul_ops_fnn a b y : matmul_ops a b = Ok y -> fnn y = true.
Proof.
  unfold matmul_ops. intros H.
  assert (forall l, 1 <= first_dim l) as Hf by (intros; apply dim_pos).
  repeat match type of H with (if ?c then _ else _) = _ => destruct c end;
    [|step_ok H|step_ok H|do 3 step_ok H];
    (refine (fmul_ints_fnn _ _ _ _ _ H); [reflexivity|factors]).
Qed.

Lemma dict_set_pos k v (s : dict Z) :
  1 <= v -> Forall (fun kv => 1 <= kv.2) s -> Forall (fun kv => 1 <= kv.2) (dict_set k v s).
Proof.
  intros Hv. induction 1 as [|[k' v'] s H Hs IH]; cbn; [by factors|].
  destruct (String.eqb k k'); by apply List.Forall_cons.
Qed.

Lemma einsum_sizes_pos al bl a b l z : dict_get l (einsum_sizes al bl a b) = Some z -> 1 <= z.
Proof.
  assert (forall (f : dict Z -> string * Z -> Z) ps s, Forall (fun kv => 1 <= kv.2) s ->
    (forall s p, 1 <= f s p) ->
    Forall (fun kv => 1 <= kv.2) (fold_left (fun s p => dict_set p.1 (f s p) s) ps s)) as Hfold.
  { intros f. induction ps as [|p ps IH]; intros s Hs Hf; [done|]. cbn. apply IH; [|done]. by apply dict_set_pos. }
  intros H%dict_get_elem. unfold einsum_sizes in H.
  pose proof (Hfold (fun _ p => dim p.2) (zip al a) [] (List.Forall_nil _) (fun _ p => dim_pos p.2)) as H1.
  pose proof (Hfold (fun s p => Z.max (default 1 (dict_get p.1 s)) (dim p.2)) (zip bl b) _ H1) as H2.
  rewrite Forall_forall in H2. apply (H2 ltac:(intros s p; pose proof (dim_pos p.2); lia) (l, z)). exact H.
Qed.

Lemma einsum_ops_ok eq a b out v : einsum_ops eq a b out = Ok v -> cost_ok v.
Proof.
  unfold einsum_ops. intros H. step_ok H. destruct x as [[[al bl] ol]|].
  - step_ok H. step_ok H. injection H as <-. cbn. refine (fmul_ints_fnn _ _ _ _ _ E1); [reflexivity|]. factors.
    assert (Forall (fun z => 1 <= z) x) as Hx.
    { clear E1. revert x E0. induction (einsum_contracted al bl ol) as [|l ls IH]; cbn; intros x H0;
        [by injection H0 as <-|].
      step_ok H0. step_ok H0. injection H0 as <-. apply List.Forall_cons; [|by apply IH].
      destruct (dict_get l _) eqn:Eg; [|done]. injection E0 as <-. by eapply einsum_sizes_pos. }
    clear E0 E1. assert (forall t, 1 <= t -> 1 <= fold_left Z.mul x t) as Hm; [|apply Hm; lia].
    induction Hx as [|z zs Hz _ IH]; intros t Ht; [done|]. cbn. apply IH. nia.
  - injection H as <-. cbn. pose proof (numel_pos a). lia.
Qed.

Lemma qr_m_pos s m : qr_m s = Ok m -> 1 <= m.
Proof.
  unfold qr_m. destruct (2 <=? zlen s); intros H; [step_ok H; injection H as <-; apply dim_pos|].
  injection H as <-. apply numel_pos.
Qed.

Lemma qr_n_pos s n : qr_n s = Ok n -> 1 <= n.
Proof.
  unfold qr_n. destruct (nonempty s); intros H; [step_ok H; injection H as <-; apply dim_pos|].
  by injection H as <-.
Qed.

Section nonneg.
Context (log2 : Z -> float).

Lemma times_ok k z v : 0 < k -> 1 <= z ->
  (x ← fmul_int (float_of_Z k) z; Ok (PFloat x)) = Ok v -> cost_ok v.
Proof.
  intros Hk Hz H. step_ok H. injection H as <-. cbn. eapply fmul_int_fnn; [|exact Hz|exact E].
  by apply float_of_Z_fnn, Z.lt_le_incl.
Qed.

Lemma op_cost_ok op args outs v : op_cost log2 op args outs = Ok v -> cost_ok v.
Proof.
  unfold op_cost. pose proof (sum_numel_nonneg args) as Ha. pose proof (sum_numel_nonneg outs) as Ho.
  pose proof (int_orelse_pos _ 1 Ho ltac:(lia)) as Hout. set (out_numel := int_orelse (sum_numel outs) 1) in *.
  pose proof (int_orelse_pos _ _ Ha Hout) as Hin. set (in_numel := int_orelse (sum_numel args) out_numel) in *.
  intros H. repeat match type of H with (if ?c then _ else _) = _ => destruct c end.
  - do 3 step_ok H. injection H as <-. cbn. by eapply matmul_ops_fnn.
  - do 4 step_ok H. by eapply einsum_ops_ok.
  - by apply (times_ok 4 out_numel).
  - by apply (times_ok 5 in_numel).
  - by apply (times_ok 5 in_numel).
  - by apply (times_ok 3 in_numel).
  - do 4 step_ok H. injection H as <-. cbn. refine (fmul_ints_fnn _ _ _ _ _ E2); [reflexivity|].
    pose proof (qr_m_pos _ _ E0). pose proof (qr_n_pos _ _ E1).
    factors; [destruct (2 <=? _); [apply numel_pos|lia]|lia].
  - do 4 step_ok H. injection H as <-. cbn. unfold float_of_int in E2.
    destruct (float_finite _) eqn:Ef; [|done]. injection E2 as <-.
    pose proof (float_of_Z_fpos in_numel ltac:(lia)) as Hp. pose proof (fmax_one_pos (log2 (Z.max 2 x1))) as Hm.
    by apply fmul_pos_fnn.
  - by apply (times_ok 2 out_numel).
  - apply (times_ok 2 (Z.max in_numel out_numel)); [lia|lia|done].
  - injection H as <-. cbn. lia.
Qed.

Lemma estimate_ops_fnn inputs ops : forall st st', fnn (snd st) = true ->
  estimate_ops log2 inputs st ops = Ok st' -> fnn (snd st') = true.
Proof.
  induction ops as [|op ops IH]; intros [infos total] st' Ht; cbn; [by intros [= <-]|].
  intros H. apply bind_Ok in H as (st1 & H1 & H2). eapply IH; [|exact H2].
  do 5 step_ok H1. injection H1 as <-. cbn. apply fadd_fnn; [done|]. apply op_cost_ok in E2.
  destruct x2; try done; cbn in E2, E3; [|by injection E3 as <-].
  unfold float_of_int in E3. destruct (float_finite _); [|done]. injection E3 as <-.
  apply float_of_Z_fnn. lia.
Qed.
End nonneg.

(** *** Broadcasting *)

(** Entry [i] from the end, at least one. *)
Definition from_end (l : list Z) (i : nat) : Z := dim (nth i (rev l) 1).

Lemma broadcast_two_length a b : length (broadcast_two a b) = Nat.max (length a) (length b).
Proof. unfold broadcast_two. by rewrite length_rev, length_map, length_seq. Qed.

Lemma from_end_broadcast a b i : from_end (broadcast_two a b) i = Z.max (from_end a i) (from_end b i).
Proof.
  unfold from_end, broadcast_two. rewrite rev_involutive.
  set (n := Nat.max (length a) (length b)). set (f := fun j => Z.max _ _).
  destruct (Nat.lt_ge_cases i n) as [Hi|Hi].
  - rewrite (nth_indep _ 1 (f 0%nat)) by by rewrite length_map, length_seq.
    rewrite map_nth, seq_nth by done. unfold f, dim. cbn. lia.
  - rewrite !nth_overflow by (rewrite ?length_map, ?length_rev, ?length_seq; lia). done.
Qed.

(** Shapes with positive entries are determined by their entries from the end. *)
Lemma shape_ext a b : Forall (fun x => 1 <= x) a -> Forall (fun x => 1 <= x) b ->
  length a = length b -> (forall i, from_end a i = from_end b i) -> a = b.
Proof.
  intros Ha Hb Hl Hi. rewrite <- (rev_involutive a), <- (rev_involutive b). f_equal.
  apply (nth_ext _ _ 1 1); [by rewrite !length_rev|]. intros n Hn. specialize (Hi n). unfold from_end, dim in Hi.
  assert (1 <= nth n (rev a) 1 /\ 1 <= nth n (rev b) 1) as [H1 H2]; [|lia].
  rewrite Forall_forall in Ha, Hb.
  split; [apply Ha|apply Hb]; apply list_elem_of_In, in_rev, nth_In; rewrite ?length_rev in *; lia.
Qed.

Lemma broadcast_two_pos a b : Forall (fun x => 1 <= x) (broadcast_two a b).
Proof.
  unfold broadcast_two. apply Forall_rev, Forall_map, Forall_forall. intros i _. unfold dim. lia.
Qed.

Lemma broadcast_all_spec shapes : forall acc,
  length (fold_left broadcast_two shapes acc) = foldr (fun s n => Nat.max (length s) n) (length acc) shapes /\
  forall i, from_end (fold_left broadcast_two shapes acc) i =
            foldr (fun s z => Z.max (from_end s i) z) (from_end acc i) shapes.
Proof.
  induction shapes as [|s shapes IH]; intros acc; [done|]. cbn. destruct (IH (broadcast_two acc s)) as [H1 H2].
  split.
  - rewrite H1, broadcast_two_length. clear. induction shapes as [|s' shapes IH]; cbn; [lia|]. rewrite IH. lia.
  - intros i. rewrite H2, from_end_broadcast. clear. induction shapes as [|s' shapes IH]; cbn; [lia|]. rewrite IH. lia.
Qed.

Lemma broadcast_all_pos shapes : Forall (fun x => 1 <= x) (broadcast_all shapes).
Proof.
  unfold broadcast_all. induction shapes as [|s l _] using rev_ind; [constructor|].
  rewrite fold_left_app. apply broadcast_two_pos.
Qed.

(** *** Exact counts *)

Lemma fmul_ints_exact zs : forall a, 0 < a -> Forall (fun z => 1 <= z) zs -> fold_left Z.mul zs a < 2 ^ 53 ->
  fmul_ints (float_of_Z a) zs = Ok (float_of_Z (fold_left Z.mul zs a)).
Proof.
  assert (forall zs a, 0 < a -> Forall (fun z => 1 <= z) zs -> a <= fold_left Z.mul zs a) as Hge.
  { intros l. induction l as [|z l IH]; intros a Ha Hz; [cbn; lia|]. inversion Hz; subst. cbn.
    etrans; [|apply IH; [nia|done]]. nia. }
  induction zs as [|z zs IH]; intros a Ha Hz Hlt; [done|]. inversion Hz as [|? ? Hz1 Hz2]; subst.
  cbn in *. pose proof (Hge zs (a * z) ltac:(nia) Hz2) as H. unfold fmul_int.
  rewrite float_of_int_exact by nia. cbn. rewrite fmul_exact by nia. apply IH; [nia|done|done].
Qed.

Lemma broadcast_two_self s : broadcast_two s s = map dim s.
Proof.
  apply shape_ext; [apply broadcast_two_pos|apply Forall_map, Forall_forall; intros; apply dim_pos| |].
  - rewrite broadcast_two_length, length_map. lia.
  - intros i. rewrite from_end_broadcast. unfold from_end. rewrite <- map_rev.
    change 1 with (dim 1) at 3. rewrite map_nth. unfold dim. lia.
Qed.

Lemma numel_dims s : numel (map dim s) = numel s.
Proof.
  unfold numel. generalize 1. induction s as [|d s IH]; intros t; [done|]. cbn. rewrite IH.
  f_equal. f_equal. unfold dim. lia.
Qed.

Lemma py_at_end {A} (l : list A) (x y : A) :
  py_at (l ++ [x; y]) (-2) = Ok x /\ py_at (l ++ [x; y]) (-1) = Ok y /\ drop_end 2 (l ++ [x; y]) = l.
Proof.
  unfold py_at, py_pos, drop_end, zlen. rewrite length_app. cbn [length].
  replace (length l + 2 - 2)%nat with (length l) by lia. rewrite take_app_length.
  change (-2 <? 0) with true. change (-1 <? 0) with true. cbv iota zeta.
  do 2 (match goal with |- context [if ?c then _ else None] =>
    let E := fresh in assert (c = true) as E by lia; rewrite E; clear E end).
  split_and!; [..|done]; cbn [mbind option_bind of_option].
  - replace (Z.to_nat _) with (length l + 0)%nat by lia. by rewrite lookup_app_r, Nat.add_0_r, Nat.sub_diag by lia.
  - replace (Z.to_nat _) with (length l + 1)%nat by lia. rewrite lookup_app_r by lia.
    by replace (length l + 1 - length l)%nat with 1%nat by lia.
Qed.

(** The product of two matrices as an equation. *)
Lemma matrix_labels : einsum_labels "ij,jk->ik" = Ok (Some (["i"; "j"], ["j"; "k"], ["i"; "k"])).
Proof. vm_compute. reflexivity. Qed.

Lemma matrix_sizes m k n : einsum_sizes ["i"; "j"] ["j"; "k"] [m; k] [k; n] =
  [("i", dim m); ("j", Z.max (dim k) (dim k)); ("k", Z.max 1 (dim n))].
Proof. reflexivity. Qed.

(** ** Properties *)

(** Credits come from the graph alone: whatever the manifest, the work of
    a graph is a sum that is never negative or NaN, and the credit is the larger
    of the floor [MIN_CU] and that sum divided by [OPS_PER_CU]; it is a number,
    and at least the floor. *)
Theorem compute_units_floor log2 m m' g x :
  expected_compute_units log2 m g = Ok x ->
  expected_compute_units log2 m' g = Ok x /\ fleb MIN_CU x = true /\ is_nan x = false /\
  exists t, estimate_graph_ops log2 g = Ok t /\ fnn t = true /\
    (x = fdiv t OPS_PER_CU \/ x = MIN_CU /\ fltb MIN_CU (fdiv t OPS_PER_CU) = false).
Proof.
  intros H. split; [exact H|]. unfold expected_compute_units in H. apply bind_Ok in H as (t & Ht & H).
  injection H as <-. unfold fmax. destruct (fltb MIN_CU (fdiv t OPS_PER_CU)) eqn:E.
  - assert (is_nan (fdiv t OPS_PER_CU) = false) as Hn by (by destruct (fdiv t OPS_PER_CU)).
    split_and!; [|done|].
    + rewrite fleb_not_lt by done. apply negb_true_iff. apply not_true_iff_false. intros E2.
      apply fltb_rank in E; [|done..]. apply fltb_rank in E2; [|done..].
      destruct (frank MIN_CU) as [[? ?] ?], (frank (fdiv t OPS_PER_CU)) as [[? ?] ?].
      unfold rank_lt in *. cbn in *. lia.
    + exists t. split; [done|]. split; [|by left]. unfold estimate_graph_ops in Ht.
      apply bind_Ok in Ht as (st & Hst & Ht). injection Ht as <-. by eapply estimate_ops_fnn, Hst.
  - split_and!; [vm_compute; reflexivity|vm_compute; reflexivity|].
    exists t. split; [done|]. split; [|by right]. unfold estimate_graph_ops in Ht.
    apply bind_Ok in Ht as (st & Hst & Ht). injection Ht as <-. by eapply estimate_ops_fnn, Hst.
Qed.

(** Broadcasting does not depend on the order of the operands, and the
    common shape has, counted from the end, the largest size of any operand at
    every position. *)
Theorem broadcast_order_irrelevant shapes shapes' :
  shapes ≡ₚ shapes' ->
  broadcast_all shapes = broadcast_all shapes' /\
  (forall s i, s ∈ shapes -> from_end s i <= from_end (broadcast_all shapes) i) /\
  (forall i, from_end (broadcast_all shapes) i = 1 \/
     exists s, s ∈ shapes /\ from_end s i = from_end (broadcast_all shapes) i).
Proof.
  intros Hp. split_and!.
  - destruct (broadcast_all_spec shapes []) as [L1 F1], (broadcast_all_spec shapes' []) as [L2 F2].
    apply shape_ext; auto using broadcast_all_pos; unfold broadcast_all.
    + rewrite L1, L2. apply (foldr_permutation_proper (=) (fun s n => Nat.max (length s) n));
        [by intros ? ? ? ->|intros s1 s2 b; lia|done].
    + intros i. rewrite F1, F2. apply (foldr_permutation_proper (=) (fun s z => Z.max (from_end s i) z));
        [by intros ? ? ? ->|intros s1 s2 b; lia|done].
  - intros s i Hs. destruct (broadcast_all_spec shapes []) as [_ F]. unfold broadcast_all. rewrite F.
    clear F Hp. induction Hs; cbn; lia.
  - intros i. destruct (broadcast_all_spec shapes []) as [_ F]. unfold broadcast_all. rewrite F.
    clear F Hp. induction shapes as [|s shapes IH]; cbn; [by left; destruct i|].
    destruct (Z.max_spec (from_end s i) (foldr (fun s z => Z.max (from_end s i) z) (from_end [] i) shapes))
      as [[_ ->]|[_ ->]].
    + destruct IH as [?|(s' & ? & ?)]; [by left|right]. exists s'. split; [by right|done].
    + right. exists s. split; [by left|done].
Qed.

(** Matrix products are charged exactly: for a batch of products whose
    operation count stays below [2 ^ 53], [matmul] is charged twice the number
    of multiplications, without rounding, and an unbatched product written as
    an [einsum] infers the same shape and is charged the same. *)
Theorem matmul_charged_exactly bs m k n :
  1 <= m -> 1 <= k -> 1 <= n -> 2 * numel bs * m * k * n < 2 ^ 53 ->
  matmul_ops (bs ++ [m; k]) (bs ++ [k; n]) = Ok (float_of_Z (2 * numel bs * m * k * n)) /\
  matmul_shape (bs ++ [m; k]) (bs ++ [k; n]) = Ok (map dim bs ++ [m; n]) /\
  (bs = [] -> einsum_shape "ij,jk->ik" [m; k] [k; n] = Ok [m; n] /\
     einsum_ops "ij,jk->ik" [m; k] [k; n] [m; n] = Ok (PFloat (float_of_Z (2 * numel bs * m * k * n)))).
Proof.
  intros Hm Hk Hn Hlt. assert (forall d, 1 <= d -> dim d = d) as Hd by (unfold dim; lia).
  destruct (py_at_end bs m k) as (A1 & A2 & A3), (py_at_end bs k n) as (B1 & B2 & B3).
  assert (forall x y, (zlen (bs ++ [x; y]) =? 1) = false) as Hz.
  { intros x y. unfold zlen. rewrite length_app. cbn [length]. lia. }
  split_and!.
  - unfold matmul_ops. rewrite !Hz. cbn [andb]. rewrite A1, A2, A3, B2, B3. cbn [mbind result_bind].
    rewrite broadcast_two_self, numel_dims, !Hd by done.
    pose proof (numel_pos bs). apply fmul_ints_exact; [lia|factors|done].
  - unfold matmul_shape. rewrite !Hz. cbn [andb]. rewrite A1, A3, B2, B3. cbn [mbind result_bind].
    by rewrite broadcast_two_self.
  - intros ->. unfold einsum_shape, einsum_ops. rewrite matrix_labels. cbn [mbind result_bind].
    rewrite matrix_sizes, (Hd m), (Hd k), (Hd n) by done.
    replace (Z.max k k) with k by lia. replace (Z.max 1 n) with n by lia.
    split; [done|]. change (einsum_contracted _ _ _) with ["j"].
    cbn [mapR mbind result_bind dict_get String.eqb Ascii.eqb Bool.eqb of_option].
    change ftwo with (float_of_Z 2). rewrite fmul_ints_exact; unfold numel in *; cbn [fold_left] in *;
      rewrite ?Hd by done; [|lia|factors; nia|nia].
    cbn [mbind result_bind]. do 3 f_equal. nia.
Qed.

(** *** Examples *)

Lemma compute_units_floor_witness :
  exists x, expected_compute_units (fun _ => fone) sample_manifest sample_graph = Ok x /\
    fleb MIN_CU x = true.
Proof.
  eexists. split.
  - vm_compute. reflexivity.
  - refine (proj1 (proj2 (compute_units_floor (fun _ => fone) sample_manifest
      sample_manifest sample_graph _ _))). vm_compute. reflexivity.
Defined.

Lemma broadcast_order_irrelevant_witness :
  broadcast_all [[3; 1]; [4]; [2; 1; 1]] = broadcast_all [[2; 1; 1]; [3; 1]; [4]].
Proof.
  refine (proj1 (broadcast_order_irrelevant [[3; 1]; [4]; [2; 1; 1]] [[2; 1; 1]; [3; 1]; [4]] _)).
  exact (Permutation_app_comm [[3; 1]; [4]] [[2; 1; 1]]).
Defined.

Lemma matmul_charged_exactly_witness :
  matmul_ops ([5] ++ [2; 3]) ([5] ++ [3; 4]) = Ok (float_of_Z (2 * numel [5] * 2 * 3 * 4)).
Proof.
  refine (proj1 (matmul_charged_exactly [5] 2 3 4 _ _ _ _)); vm_compute; [discriminate..|reflexivity].
Defined.
