(* ===== verification/Tensors.v ===== *)
(** * Tensors on the wire ([teuton_runtime/tensor_io.py],
    [teuton_runtime/sharded_tensor.py])

    The tensor library is the class [Torch]; the blob format, its checks, and
    logical tensors stored as one blob per rank are computed on top of it.
    [TorchLaws] is what the code relies on. *)

From Stdlib Require Import ZArith Lia Ascii.
From stdpp Require Import base strings list.
From S2P Require Import Prelude PyFloat PyVal Json Digest Paths Signatures Codec Protocol ProtocolFacts.
From S2P Require Import Storage Transport.

(** ** Element types *)

(** [DOther] are the element types without a name on the wire. *)
Inductive dtype : Type :=
  | float32 | float16 | bfloat16 | int32 | int64 | int8 | uint8 | tbool
  | DOther (name : string).

#[export] Instance dtype_eq_dec : EqDecision dtype.
Proof. solve_decision. Defined.

Definition TORCH_TO_WIRE : list (dtype * string) :=
  [(float32, "float32"); (float16, "float16"); (bfloat16, "bfloat16"); (int32, "int32"); (int64, "int64");
   (int8, "int8"); (uint8, "uint8"); (tbool, "bool")].

Definition WIRE_TO_TORCH : dict dtype := map (fun e => (e.2, e.1)) TORCH_TO_WIRE.

Definition DTYPE_BYTES : dict Z :=
  [("float32", 4%Z); ("float16", 2%Z); ("bfloat16", 2%Z); ("int32", 4%Z); ("int64", 8%Z); ("int8", 1%Z);
   ("uint8", 1%Z); ("bool", 1%Z)].

Definition WIRE_VERSION : Z := 1.

(** [str] of a torch element type. *)
Definition dtype_str (d : dtype) : string :=
  "torch." +:+
  match d with
  | float32 => "float32" | float16 => "float16" | bfloat16 => "bfloat16" | int32 => "int32" | int64 => "int64"
  | int8 => "int8" | uint8 => "uint8" | tbool => "bool" | DOther n => n
  end.

(** [repr] of lists and tuples of integers. *)
Definition ints_repr (l : list Z) : string := "[" +:+ str_join ", " (map py_str_int l) +:+ "]".
Definition tuple_repr (l : list Z) : string :=
  match l with
  | [z] => "(" +:+ py_str_int z +:+ ",)"
  | _ => "(" +:+ str_join ", " (map py_str_int l) +:+ ")"
  end.

(** [repr] of text with no quotes, backslashes or control characters. *)
Definition repr_str (s : string) : string := "'" +:+ s +:+ "'".

(** ** The tensor library *)

(** [t_cpu] is [t.detach().to("cpu").contiguous()]; [t_bytes] are the bytes of
    the numpy array, of the unsigned view for [bfloat16] and of the [uint8]
    copy for [bool]; [t_frombuffer] reads such bytes back in a given shape;
    [t_tolist] are the nested lists of the tensor converted to [float64]. *)
Class Torch := {
  tensor : Type;
  t_shape : tensor -> list Z;
  t_dtype : tensor -> dtype;
  t_cpu : tensor -> tensor;
  t_bytes : tensor -> string;
  t_frombuffer : dtype -> list Z -> string -> result tensor;
  t_tensor_split : tensor -> Z -> Z -> list tensor;
  t_cat : list tensor -> Z -> result tensor;
  as_tensor : pyval -> result tensor;
  to_device : string -> tensor -> result tensor;
  t_flat : tensor -> tensor;
  t_numel : tensor -> Z;
  t_element_size : tensor -> Z;
  t_select : tensor -> list Z -> tensor;
  t_is_floating : tensor -> bool;
  t_equal : tensor -> tensor -> bool;
  t_allclose : tensor -> tensor -> float -> float -> bool;
  t_max_abs_diff : tensor -> tensor -> float;
  t_tolist : tensor -> pyval
}.

(** ** The blob format *)

Definition wire_dtype_of (d : dtype) : result string :=
  match List.find (fun e => bool_decide (e.1 = d)) TORCH_TO_WIRE with
  | Some e => Ok e.2
  | None => Err (ValueError ("unsupported torch dtype for wire: " +:+ dtype_str d))
  end.

Definition torch_dtype (wire : string) : result dtype :=
  of_option (ValueError ("unsupported wire dtype: " +:+ repr_str wire)) (dict_get wire WIRE_TO_TORCH).

Definition dtype_bytes (wire : string) : result Z :=
  of_option (ValueError ("unsupported wire dtype: " +:+ repr_str wire)) (dict_get wire DTYPE_BYTES).

Definition product (shape : list Z) : Z := fold_left Z.mul shape 1%Z.

Definition expected_payload_bytes (shape : list Z) (wire : string) : result Z :=
  n ← dtype_bytes wire; Ok (product shape * n)%Z.

(** [struct.pack("<I", n)] and [struct.unpack]. *)
Fixpoint le_bytes (n : nat) (z : Z) : string :=
  match n with
  | O => EmptyString
  | S n' => String (ascii_of_N (Z.to_N (z mod 256))) (le_bytes n' (z / 256))
  end.

Fixpoint le_value (s : string) : Z :=
  match s with
  | EmptyString => 0
  | String c s' => Z.of_N (N_of_ascii c) + 256 * le_value s'
  end.

Definition pack_u32 (n : Z) : result string :=
  if (n <? 2 ^ 32)%Z then Ok (le_bytes 4 n) else Err (StructError "'I' format requires 0 <= number <= 4294967295").

(** [v == 1] in Python. *)
Definition py_eq_one (v : pyval) : bool :=
  match v with
  | PInt z => (z =? 1)%Z
  | PBool b => b
  | PFloat x => feqb x fone
  | _ => false
  end.

(** [v == s] for text [s]. *)
Definition is_text (s : string) (v : pyval) : bool :=
  match v with PStr s' => String.eqb s s' | _ => false end.

Definition str_len (s : string) : Z := Z.of_nat (String.length s).

Definition tensor_header (shape : list Z) (wd : string) : dict pyval :=
  [("shape", PList (map PInt shape)); ("dtype", PStr wd); ("layout", PStr "row_major");
   ("version", PInt WIRE_VERSION)].

(** The element type a header names. *)
Definition header_dtype (v : pyval) : result string :=
  match v with
  | PStr s => Ok s
  | PList _ | PDict _ => Err (TypeError "unhashable type")
  | _ => Err (ValueError "unsupported wire dtype")
  end.

Section wire.
Context `{Torch}.

Definition wire_dtype (t : tensor) : result string := wire_dtype_of (t_dtype t).

Definition encode_tensor (t : tensor) : result string :=
  let t_cpu := t_cpu t in
  wd ← wire_dtype t_cpu;
  let header_json := json_dumps (PDict (tensor_header (t_shape t_cpu) wd)) in
  let payload := t_bytes t_cpu in
  expected ← expected_payload_bytes (t_shape t_cpu) wd;
  if negb (str_len payload =? expected)%Z then
    Err (AssertionError ("payload size mismatch: got " +:+ py_str_int (str_len payload) +:+ ", expected "
      +:+ py_str_int expected +:+ " for shape=" +:+ ints_repr (t_shape t_cpu) +:+ " dtype=" +:+ wd))
  else
    prefix ← pack_u32 (str_len header_json);
    Ok (prefix +:+ header_json +:+ payload).

(** Shape and element type of a header that passes the checks. *)
Definition read_header (header : dict pyval) : result (list Z * string) :=
  if negb (py_eq_one (get header "version")) then Err (ValueError "unsupported wire version")
  else if negb (is_text "row_major" (get_or header "layout" (PStr "row_major"))) then
    Err (ValueError "unsupported layout")
  else
    shape ← item header "shape" ≫= ints_of;
    wd ← item header "dtype" ≫= header_dtype;
    Ok (shape, wd).

Definition decode_tensor (blob : string) : result tensor :=
  if (str_len blob <? 4)%Z then Err (ValueError "blob too short for header_len prefix")
  else
    let header_len := le_value (str_take 4 blob) in
    if (str_len blob <? 4 + header_len)%Z then Err (ValueError "blob truncated in header")
    else
      h ← load_bytes read_header (str_take (Z.to_nat header_len) (str_drop 4 blob));
      let '(shape, wd) := h in
      let payload := str_drop (Z.to_nat (4 + header_len)) blob in
      expected ← expected_payload_bytes shape wd;
      if negb (str_len payload =? expected)%Z then
        Err (ValueError ("payload truncated: got " +:+ py_str_int (str_len payload) +:+ " bytes, expected "
          +:+ py_str_int expected +:+ " for shape=" +:+ tuple_repr shape +:+ " dtype=" +:+ wd))
      else
        d ← torch_dtype wd;
        t_frombuffer d shape payload.
End wire.

(** ** Sharded tensors *)

(** [s[:-5] if s.endswith(".json") else s]. *)
Definition shard_base (manifest_uri : string) : string :=
  if endswith ".json" manifest_uri then str_drop_last 5 manifest_uri else manifest_uri.

Definition shard_uri (base : string) (rank : Z) : string := base +:+ ".rank" +:+ py_str_int rank +:+ ".bin".

Definition encode_manifest (m : ShardedTensorManifest) : string :=
  json_dumps (PDict (ShardedTensorManifest_to_dict m)).

Definition decode_manifest (body : string) : result ShardedTensorManifest :=
  load_bytes ShardedTensorManifest_from_dict body.

Definition rank_leb (a b : ShardSpec) : bool := (sh_rank a <=? sh_rank b)%Z.

Section sharded.
Context `{Torch} {S : Type}.

Definition t_dim (t : tensor) : Z := Z.of_nat (length (t_shape t)).

Definition shard_tensor (t : tensor) (world_size dim : Z) : result (list tensor) :=
  if (world_size <=? 0)%Z then Err (ValueError "world_size must be positive")
  else
    let dim := if (dim <? 0)%Z then (dim + t_dim t)%Z else dim in
    if (dim <? 0)%Z || (t_dim t <=? dim)%Z then
      Err (ValueError ("invalid shard dim " +:+ py_str_int dim +:+ " for tensor with " +:+ py_str_int (t_dim t) +:+ " dims"))
    else Ok (t_tensor_split t world_size dim).

Definition join_shards (shards : list tensor) (dim : Z) : result tensor :=
  match shards with
  | [] => Err (ValueError "cannot join empty shard list")
  | _ => t_cat shards dim
  end.

(** [int(shard.shape[partition_dim]) if shard.dim() else 1]; a negative index
    counts from the end. *)
Definition shard_length (shard : tensor) (partition_dim : Z) : result Z :=
  match t_shape shard with
  | [] => Ok 1%Z
  | shape =>
      let i := if (partition_dim <? 0)%Z then (partition_dim + t_dim shard)%Z else partition_dim in
      if (i <? 0)%Z then Err (IndexError "list index out of range")
      else of_option (IndexError "list index out of range") (shape !! Z.to_nat i)
  end.

Context (transport_put : string -> string -> option PresignedUrlGrant -> ST S unit).
Context (transport_get : string -> option PresignedUrlGrant -> ST S string).
Context (grants : dict PresignedUrlGrant).

Fixpoint put_shards (base : string) (partition_dim rank : Z) (shards : list tensor) : ST S (list ShardSpec) :=
  match shards with
  | [] => mret []
  | shard :: shards' =>
      let uri := shard_uri base rank in
      body ← st_lift (encode_tensor shard);
      _ ← transport_put uri body (dict_get uri grants);
      len ← st_lift (shard_length shard partition_dim);
      rest ← put_shards base partition_dim (rank + 1) shards';
      mret (mkShard rank uri 0 (Some len) (Some (sha256_hexdigest body)) (Some (str_len body)) :: rest)
  end.

Definition put_sharded_tensor (manifest_uri : string) (t : tensor) (name : string)
    (world_size partition_dim : Z) : ST S ShardedTensorManifest :=
  parts ← st_lift (shard_tensor (t_cpu t) world_size partition_dim);
  shards ← put_shards (shard_base manifest_uri) partition_dim 0 parts;
  wd ← st_lift (wire_dtype (t_cpu t));
  let manifest := mkShardedTensor name (t_shape t) wd partition_dim world_size shards "rank_sharded_v1" in
  _ ← transport_put manifest_uri (encode_manifest manifest) (dict_get manifest_uri grants);
  mret manifest.

Fixpoint get_shards (shards : list ShardSpec) : ST S (list tensor) :=
  match shards with
  | [] => mret []
  | shard :: shards' =>
      body ← transport_get (sh_uri shard) (dict_get (sh_uri shard) grants);
      let sha := sha256_hexdigest body in
      let bad := match sh_sha256 shard with Some want => negb (String.eqb want sha) | None => false end in
      if (bad : bool) then st_raise (ValueError ("shard digest mismatch for " +:+ sh_uri shard))
      else
        t ← st_lift (decode_tensor body);
        rest ← get_shards shards';
        mret (t :: rest)
  end.

(** With [device=None]. *)
Definition read_sharded_tensor (manifest_uri : string) : ST S tensor :=
  blob ← transport_get manifest_uri (dict_get manifest_uri grants);
  manifest ← st_lift (decode_manifest blob);
  shards ← get_shards (sort_by rank_leb (stm_shards manifest));
  out ← st_lift (join_shards shards (stm_partition_dim manifest));
  if negb (bool_decide (t_shape out = stm_shape manifest)) then
    st_raise (ValueError ("joined sharded tensor shape " +:+ ints_repr (t_shape out) +:+ " != manifest shape "
      +:+ ints_repr (stm_shape manifest)))
  else mret out.

Definition get_sharded_tensor (manifest_uri : string) (device : string) : ST S tensor :=
  out ← read_sharded_tensor manifest_uri; st_lift (to_device device out).
End sharded.

(** ** Laws of the tensor library *)

Class TorchLaws `{Torch} : Prop := {
  (** Moving a tensor to host memory keeps its type and happens once. *)
  cpu_shape : forall t, t_shape (t_cpu t) = t_shape t;
  cpu_dtype : forall t, t_dtype (t_cpu t) = t_dtype t;
  cpu_cpu : forall t, t_cpu (t_cpu t) = t_cpu t;
  to_device_cpu : forall d t, to_device d (t_cpu t) = to_device d t;
  (** The bytes of a contiguous array: their number, and reading them back. *)
  bytes_size : forall t wd n, wire_dtype t = Ok wd -> dtype_bytes wd = Ok n ->
    str_len (t_bytes (t_cpu t)) = (product (t_shape t) * n)%Z;
  frombuffer_bytes : forall t, t_frombuffer (t_dtype t) (t_shape t) (t_bytes (t_cpu t)) = Ok (t_cpu t);
  frombuffer_typed : forall d shape b t, t_frombuffer d shape b = Ok t -> t_shape t = shape /\ t_dtype t = d;
  (** Splitting gives one part per rank; joining the parts gives the tensor. *)
  split_length : forall t n dim, (0 < n)%Z -> length (t_tensor_split t n dim) = Z.to_nat n;
  cat_split : forall t n dim, (0 < n)%Z -> (- t_dim t <= dim < t_dim t)%Z ->
    t_cat (map t_cpu (t_tensor_split t n (if (dim <? 0)%Z then dim + t_dim t else dim)%Z)) dim = Ok (t_cpu t)
}.

(** ** Lemmas *)

Lemma le_bytes_length n z : String.length (le_bytes n z) = n.
Proof. revert z. induction n as [|n IH]; intros z; cbn; [done|]. by rewrite IH. Qed.

Lemma le_value_bytes n : forall z, (0 <= z < 256 ^ Z.of_nat n)%Z -> le_value (le_bytes n z) = z.
Proof.
  induction n as [|n IH]; intros z Hz; [cbn in *; lia|].
  rewrite Nat2Z.inj_succ, Z.pow_succ_r in Hz by lia. cbn [le_bytes le_value].
  rewrite IH by (split; [apply Z.div_pos; lia|apply Z.div_lt_upper_bound; lia]).
  pose proof (Z.mod_pos_bound z 256 ltac:(lia)) as Hm.
  rewrite N_ascii_embedding by lia. rewrite Z2N.id by lia. pose proof (Z.div_mod z 256 ltac:(lia)). lia.
Qed.

Lemma le_value_nonneg s : (0 <= le_value s)%Z.
Proof. induction s as [|c s IH]; cbn [le_value]; lia. Qed.

Lemma str_drop_drop a b s : str_drop b (str_drop a s) = str_drop (a + b) s.
Proof. revert s. induction a as [|a IH]; intros [|c s]; try done; [by destruct b|apply IH]. Qed.

Lemma str_drop_length n s : String.length (str_drop n s) = (String.length s - n)%nat.
Proof. revert s. induction n as [|n IH]; intros [|c s]; try done. cbn. apply IH. Qed.

Lemma str_take_length n s : (n <= String.length s)%nat -> String.length (str_take n s) = n.
Proof. revert s. induction n as [|n IH]; intros [|c s]; cbn; try lia. intros Hn. by rewrite IH by lia. Qed.

Lemma pack_u32_value n b : (0 <= n)%Z -> pack_u32 n = Ok b -> String.length b = 4%nat /\ le_value b = n.
Proof.
  intros Hn. unfold pack_u32. destruct (Z.ltb_spec n (2 ^ 32)); [|done]. intros [= <-].
  split; [apply (le_bytes_length 4)|]. apply (le_value_bytes 4). lia.
Qed.

Lemma wire_dtype_of_inv d wd : wire_dtype_of d = Ok wd -> torch_dtype wd = Ok d /\ str_forallb is_ascii wd = true.
Proof. by destruct d; cbn; intros [= <-]. Qed.

(** Headers are records on the wire: shape and element type. *)
#[export] Instance header_wire : WireRecord (list Z * string) :=
  {| wire_to := fun h => tensor_header h.1 h.2; wire_from := read_header; wire_normal := id |}.

#[export] Instance header_laws : WireLaws (list Z * string).
Proof.
  split.
  - intros [shape wd]. apply (bool_decide_unpack _). done.
  - intros [shape wd]. cbn [wire_to wire_from header_wire fst snd]. unfold read_header, tensor_header.
    change (item _ "shape") with (@Ok pyval (PList (map PInt shape))). cbn [mbind result_bind].
    rewrite ints_of_map. done.
  - intros d Hd. cbn [wire_from wire_normal header_wire]. unfold read_header.
    rewrite get_canon, get_or_canon, !item_canon by done.
    assert (py_eq_one (canon (get d "version")) = py_eq_one (get d "version")) as -> by by destruct (get d "version").
    assert (is_text "row_major" (canon (get_or d "layout" (PStr "row_major"))) =
            is_text "row_major" (get_or d "layout" (PStr "row_major"))) as -> by by destruct (get_or d "layout" _).
    destruct (negb _); [done|]. destruct (negb _); [done|].
    destruct (item d "shape") as [v|]; [|done]. cbn [rmap mbind result_bind]. rewrite ints_of_canon.
    destruct (ints_of v); [|done]. cbn [rmap mbind result_bind].
    by destruct (item d "dtype") as [[]|].
Qed.

Lemma ints_json_ok l : forallb json_ok (map PInt l) = true.
Proof. by induction l. Qed.

Lemma read_header_written shape wd : str_forallb is_ascii wd = true ->
  load_bytes read_header (json_dumps (PDict (tensor_header shape wd))) = Ok (shape, wd).
Proof.
  intros Hwd. pose proof (wire_bytes_roundtrip (shape, wd)) as Hr.
  cbn [wire_to wire_from wire_normal header_wire fst snd id] in Hr. apply Hr. cbn. rewrite Hwd.
  by rewrite ints_json_ok.
Qed.

Lemma str_app_inv_r (a b c : string) : a +:+ c = b +:+ c -> a = b.
Proof.
  revert b. induction a as [|x a IH]; intros [|y b] E; cbn in E; try done.
  - apply (f_equal String.length) in E. repeat (rewrite str_app_length in E || cbn [String.length] in E). lia.
  - apply (f_equal String.length) in E. repeat (rewrite str_app_length in E || cbn [String.length] in E). lia.
  - injection E as -> E. f_equal. auto.
Qed.

Lemma py_str_int_lacks c z : is_numchar c = false -> lacks c (py_str_int z) = true.
Proof.
  intros Hc. pose proof (py_str_int_numchars z) as Hn. unfold lacks. revert Hn.
  induction (py_str_int z) as [|x s IH]; cbn; [done|]. rewrite !andb_true_iff. intros [Hx Hs]. split; [|auto].
  destruct (Ascii.eqb_spec x c) as [->|]; [congruence|done].
Qed.

(** *** Addresses of shards *)

Lemma shard_uri_inj base r r' : shard_uri base r = shard_uri base r' -> r = r'.
Proof.
  unfold shard_uri. intros E. apply str_app_inv_l, (str_app_inv_l ".rank"), str_app_inv_r in E.
  by apply py_str_int_inj.
Qed.

Lemma shard_base_cases uri : uri = shard_base uri +:+ ".json" \/ uri = shard_base uri.
Proof.
  unfold shard_base. destruct (endswith ".json" uri) eqn:E; [left|by right]. unfold endswith in E.
  apply andb_true_iff in E as [_ E]. apply String.eqb_eq in E. unfold str_drop_last.
  rewrite <- (take_drop_str (String.length uri - 5) uri) at 1. by rewrite <- E.
Qed.

Lemma shard_uri_manifest uri r : shard_uri (shard_base uri) r <> uri.
Proof.
  intros E. unfold shard_uri in E. destruct (shard_base_cases uri) as [H|H].
  - rewrite H in E at 2. by apply str_app_inv_l in E.
  - rewrite H in E at 2. apply (f_equal String.length) in E. rewrite !str_app_length in E. cbn in E. lia.
Qed.

Lemma shard_uri_newline uri r : lacks newline uri = true -> lacks newline (shard_uri (shard_base uri) r) = true.
Proof.
  intros Hu. unfold shard_uri. rewrite !lacks_app, py_str_int_lacks by done. rewrite andb_true_r.
  destruct (shard_base_cases uri) as [H|H]; rewrite H in Hu; [rewrite lacks_app in Hu; by apply andb_true_iff in Hu as [-> _]|].
  rewrite H in Hu. revert Hu. rewrite <- H at 1. by intros ->.
Qed.

Section roundtrip.
Context `{TorchLaws}.

(** Decoding what was encoded gives the tensor. *)
Lemma decode_encode t blob : encode_tensor t = Ok blob -> decode_tensor blob = Ok (t_cpu t).
Proof.
  unfold encode_tensor. intros He. apply bind_Ok in He as (wd & Hwd & He).
  apply bind_Ok in He as (n & Hn & He). destruct (Z.eqb_spec (str_len (t_bytes (t_cpu t))) n) as [Hlen|]; [|done].
  cbn [negb] in He. apply bind_Ok in He as (pre & Hpre & [= <-]).
  set (hj := json_dumps (PDict (tensor_header (t_shape (t_cpu t)) wd))) in *.
  apply pack_u32_value in Hpre as [Hp4 Hval]; [|unfold str_len; lia].
  destruct (wire_dtype_of_inv _ _ Hwd) as [Htd Hasc].
  assert (str_len (pre +:+ hj +:+ t_bytes (t_cpu t)) = 4 + str_len hj + n)%Z as Hall.
  { unfold str_len in *. rewrite !str_app_length. lia. }
  unfold decode_tensor. rewrite Hall. unfold str_len in Hval, Hall, Hlen |- *.
  destruct (Z.ltb_spec (4 + Z.of_nat (String.length hj) + n) 4) as [|_]; [lia|].
  assert (forall y, str_take 4 (pre +:+ y) = pre) as -> by (intros y; rewrite <- Hp4; apply str_take_app).
  assert (forall y, str_drop 4 (pre +:+ y) = y) as -> by (intros y; rewrite <- Hp4; apply str_drop_app). rewrite Hval.
  destruct (Z.ltb_spec (4 + Z.of_nat (String.length hj) + n) (4 + Z.of_nat (String.length hj))) as [|_]; [lia|].
  rewrite Nat2Z.id, str_take_app. assert (load_bytes read_header hj = Ok (t_shape (t_cpu t), wd)) as -> by by apply read_header_written. cbn [mbind result_bind].
  replace (Z.to_nat (4 + Z.of_nat (String.length hj))) with (String.length (pre +:+ hj))
    by (rewrite str_app_length; lia).
  rewrite <- str_app_assoc, str_drop_app, Hn. cbn [mbind result_bind]. rewrite Hlen, Z.eqb_refl.
  cbn [negb]. rewrite Htd. cbn [mbind result_bind]. rewrite cpu_shape, cpu_dtype. apply frombuffer_bytes.
Qed.

(** Encoding fails only for element types without a name and for headers of
    four gigabytes. *)
Lemma encode_ok t wd : wire_dtype t = Ok wd ->
  (str_len (json_dumps (PDict (tensor_header (t_shape t) wd))) < 2 ^ 32)%Z -> is_ok (encode_tensor t) = true.
Proof.
  intros Hwd Hlen. unfold encode_tensor. unfold wire_dtype in *. rewrite cpu_dtype, cpu_shape, Hwd.
  cbn [mbind result_bind]. assert (exists n, dtype_bytes wd = Ok n) as [n Hn].
  { destruct (t_dtype t); cbn in Hwd; try done; injection Hwd as <-; eexists; reflexivity. }
  unfold expected_payload_bytes. rewrite Hn. cbn [mbind result_bind]. rewrite (bytes_size t wd n Hwd Hn), Z.eqb_refl.
  cbn [negb]. unfold pack_u32. destruct (Z.ltb_spec (str_len (json_dumps (PDict (tensor_header (t_shape t) wd)))) (2 ^ 32)); [done|lia].
Qed.

(** A decoded tensor has the shape and element type its header names, and its
    payload the size they give. *)
Lemma decode_typed blob t : decode_tensor blob = Ok t ->
  exists header wd n payload, load_bytes read_header header = Ok (t_shape t, wd) /\
    torch_dtype wd = Ok (t_dtype t) /\ dtype_bytes wd = Ok n /\
    str_len payload = (product (t_shape t) * n)%Z /\
    blob = str_take 4 blob +:+ header +:+ payload /\ le_value (str_take 4 blob) = str_len header.
Proof.
  unfold decode_tensor. destruct (Z.ltb_spec (str_len blob) 4) as [|Hlen]; [done|].
  set (hl := le_value (str_take 4 blob)). destruct (Z.ltb_spec (str_len blob) (4 + hl)) as [|Hlen']; [done|].
  intros Hd. apply bind_Ok in Hd as ([shape wd] & Hh & Hd). apply bind_Ok in Hd as (n & Hn & Hd).
  destruct (Z.eqb_spec (str_len (str_drop (Z.to_nat (4 + hl)) blob)) n) as [Hp|]; [|done]. cbn [negb] in Hd.
  apply bind_Ok in Hd as (d & Hdt & Hf). apply frombuffer_typed in Hf as [<- <-].
  apply bind_Ok in Hn as (k & Hk & [= <-]).
  assert (0 <= hl)%Z as Hpos by apply le_value_nonneg.
  exists (str_take (Z.to_nat hl) (str_drop 4 blob)), wd, k, (str_drop (Z.to_nat (4 + hl)) blob). split_and!; try done.
  - replace (Z.to_nat (4 + hl)) with (4 + Z.to_nat hl)%nat by lia. rewrite <- str_drop_drop.
    by rewrite take_drop_str, take_drop_str.
  - unfold str_len in *. rewrite str_take_length; [lia|]. rewrite str_drop_length. lia.
Qed.

(** *** Sharded tensors in a bucket *)

Lemma read_sharded_reads {S} (transport_get : string -> option PresignedUrlGrant -> ST S string) grants uri :
  (forall u g s, fst (transport_get u g s) = s) ->
  forall s, fst (read_sharded_tensor transport_get grants uri s) = s.
Proof.
  intros Hg s. assert (forall specs s, fst (get_shards transport_get grants specs s) = s) as Hs.
  { induction specs as [|sp specs IH]; intros s0; cbn; [done|]. cbv [mbind st_bind].
    pose proof (Hg (sh_uri sp) (dict_get (sh_uri sp) grants) s0) as H1.
    destruct (transport_get _ _ s0) as [s1 [body|e]]; cbn in H1; subst s1; [|done].
    destruct (match sh_sha256 sp with Some _ => _ | None => _ end); [done|]. unfold st_lift.
    destruct (decode_tensor body); [|done]. specialize (IH s0).
    by destruct (get_shards transport_get grants specs s0) as [s1 [ts|e]]. }
  unfold read_sharded_tensor. cbv [mbind st_bind]. pose proof (Hg uri (dict_get uri grants) s) as H1.
  destruct (transport_get _ _ s) as [s1 [blob|e]]; cbn in H1; subst s1; [|done]. unfold st_lift.
  destruct (decode_manifest blob) as [m|]; [|done].
  specialize (Hs (sort_by rank_leb (stm_shards m)) s). destruct (get_shards _ _ _ s) as [s1 [ts|e]]; cbn in Hs; subst s1; [|done].
  destruct (join_shards ts _); [|done]. by destruct (negb _).
Qed.

Lemma get_sharded_reads {S} (transport_get : string -> option PresignedUrlGrant -> ST S string) grants uri device :
  (forall u g s, fst (transport_get u g s) = s) ->
  forall s, fst (get_sharded_tensor transport_get grants uri device s) = s.
Proof.
  intros Hg s. unfold get_sharded_tensor. cbv [mbind st_bind]. pose proof (read_sharded_reads transport_get grants uri Hg s) as Hr.
  by destruct (read_sharded_tensor transport_get grants uri s) as [s1 [t|e]].
Qed.

Section in_bucket.
Context {S : Type} `{!ObjectStore S} `{!ObjectStoreLaws S}.
Context (grants : dict PresignedUrlGrant) (uri : string) (Huri : lacks newline uri = true).

Let base := shard_base uri.
Let put := put_shards (DirectArtifactTransport_put (S := S)) grants base.

(** Writing the shards from [rank] on keeps every other object. *)
Lemma put_shards_frame dim shards : forall rank s s' specs uri' d,
  put dim rank shards s = (s', Ok specs) -> lacks newline uri' = true ->
  (forall r, (rank <= r)%Z -> uri' <> shard_uri base r) ->
  os_get uri' s = (s, Ok d) -> os_get uri' s' = (s', Ok d).
Proof.
  induction shards as [|t shards IH]; intros rank s s' specs uri' d Hput Hnl Hne Hget; cbn in Hput.
  { by injection Hput as <- <-. }
  do 4 st_step Hput. injection Hput as <- <-. destruct x0.
  eapply IH; [exact E2|exact Hnl|intros r Hr; apply Hne; lia|].
  eapply (put_frame (shard_uri base rank)); [exact E0| |exact Hnl|apply Hne; lia|exact Hget].
  by apply shard_uri_newline.
Qed.

Definition specs_from (rank : Z) (specs : list ShardSpec) : Prop :=
  sorted_by rank_leb specs /\ Forall (fun sp => (rank <= sh_rank sp)%Z) specs.

(** The shards written are described in order of rank, and reading the
    descriptions back, in any later state that keeps the shards, gives the
    tensors. *)
Lemma put_shards_get dim shards : forall rank s s' specs,
  put dim rank shards s = (s', Ok specs) ->
  specs_from rank specs /\
  forall s2 gs, (forall r d, os_get (shard_uri base r) s' = (s', Ok d) -> os_get (shard_uri base r) s2 = (s2, Ok d)) ->
    get_shards (DirectArtifactTransport_get (S := S)) gs specs s2 = (s2, Ok (map t_cpu shards)).
Proof.
  induction shards as [|t shards IH]; intros rank s s' specs Hput; cbn in Hput.
  { injection Hput as <- <-. split; [by split; constructor|]. by intros. }
  do 4 st_step Hput. injection Hput as <- <-. destruct x0.
  destruct (IH _ _ _ _ E2) as [[Hs Hf] Hg]. split.
  - split; constructor; cbn; try done.
    + eapply Forall_impl; [exact Hf|]. intros sp Hsp. apply Z.leb_le. cbn in *. lia.
    + eapply Forall_impl; [exact Hf|]. cbn. lia.
  - intros s2 gs Hkeep. cbn [get_shards sh_uri sh_sha256].
    assert (forall g, DirectArtifactTransport_get (shard_uri base rank) g s2 = (s2, Ok x)) as Hb.
    { intros g. apply Hkeep. eapply put_shards_frame; [exact E2|by apply shard_uri_newline| |by eapply put_get; exact E0].
      intros r Hr ->%shard_uri_inj. lia. }
    cbv [mbind st_bind]. rewrite Hb,  String.eqb_refl. cbn [negb].
    unfold st_lift. rewrite (decode_encode _ _ E). rewrite (Hg s2 gs Hkeep). done.
Qed.

Lemma put_sharded_read t name n dim s s' m gs :
  put_sharded_tensor (DirectArtifactTransport_put (S := S)) grants uri t name n dim s = (s', Ok m) ->
  json_ok (PDict (ShardedTensorManifest_to_dict m)) = true ->
  read_sharded_tensor (DirectArtifactTransport_get (S := S)) gs uri s' = (s', Ok (t_cpu t)).
Proof.
  intros Hput Hok. unfold put_sharded_tensor in Hput. st_step Hput. rename x into parts, E into Eparts.
  st_step Hput. st_step Hput. st_step Hput. injection Hput as -> <-. destruct x1.
  destruct (put_shards_get _ _ _ _ _ _ E) as [[Hsorted _] Hg].
  assert (t_cat (map t_cpu parts) dim = Ok (t_cpu t) /\ parts <> []) as [Hcat Hne].
  { unfold shard_tensor in Eparts. destruct (Z.leb_spec n 0) as [|Hn]; [done|].
    destruct (_ || _) eqn:Edim; [done|]. injection Eparts as <-. apply orb_false_iff in Edim as [D1 D2].
    apply Z.ltb_ge in D1. apply Z.leb_gt in D2. split.
    - rewrite cat_split, cpu_cpu; [done|done|]. destruct (Z.ltb_spec dim 0); lia.
    - intros Hnil. apply (f_equal length) in Hnil. rewrite split_length in Hnil by done. cbn in Hnil. lia. }
  set (m := mkShardedTensor name (t_shape t) x0 dim n x "rank_sharded_v1") in *.
  unfold read_sharded_tensor. cbv [mbind st_bind].
  assert (forall g, DirectArtifactTransport_get uri g s' = (s', Ok (encode_manifest m))) as ->
    by (intros g; exact (put_get _ _ _ _ E1)).
  unfold st_lift. assert (decode_manifest (encode_manifest m) = Ok m) as -> by exact (wire_bytes_roundtrip m Hok).
  cbn [stm_shards stm_partition_dim stm_shape m]. rewrite sort_by_id by done.
  rewrite Hg.
  - destruct parts as [|p ps]; [done|]. cbn [map join_shards]. cbn [map] in Hcat. rewrite Hcat.
    rewrite cpu_shape, bool_decide_true by done. done.
  - intros r d Hd. eapply (put_frame uri); [exact E1|done|by apply shard_uri_newline|apply shard_uri_manifest|exact Hd].
Qed.

Lemma put_sharded_get t name n dim device s s' m gs :
  put_sharded_tensor (DirectArtifactTransport_put (S := S)) grants uri t name n dim s = (s', Ok m) ->
  json_ok (PDict (ShardedTensorManifest_to_dict m)) = true ->
  get_sharded_tensor (DirectArtifactTransport_get (S := S)) gs uri device s' = (s', to_device device (t_cpu t)).
Proof.
  intros Hput Hok. unfold get_sharded_tensor. cbv [mbind st_bind]. by rewrite (put_sharded_read _ _ _ _ _ _ _ gs Hput Hok).
Qed.
End in_bucket.
End roundtrip.

(** ** A tensor library

    One-dimensional tensors of bytes: an instance of the class and its laws. *)

(** [tensor_split] in one dimension: parts as equal as possible, longer first. *)
Fixpoint pieces (n : nat) (s : string) : list string :=
  match n with
  | O => []
  | S O => [s]
  | S n' =>
      let k := ((String.length s + n') / n)%nat in
      str_take k s :: pieces n' (str_drop k s)
  end.

Definition int_of_byte (c : ascii) : Z := Z.of_N (N_of_ascii c).

Fixpoint byte_ints (s : string) : list Z :=
  match s with EmptyString => [] | String c s' => int_of_byte c :: byte_ints s' end.

Definition byte_of_pyval (v : pyval) : result ascii :=
  match v with
  | PInt z => if ((0 <=? z) && (z <? 256))%Z then Ok (ascii_of_N (Z.to_N z)) else Err (RuntimeError "overflow")
  | _ => Err (TypeError "not a number")
  end.

Definition byte_torch : Torch := {|
  tensor := string;
  t_shape := fun s => [str_len s];
  t_dtype := fun _ => uint8;
  t_cpu := id;
  t_bytes := id;
  t_frombuffer := fun d shape b =>
    if bool_decide (d = uint8 /\ shape = [str_len b]) then Ok b else Err (ValueError "cannot reshape array");
  t_tensor_split := fun s n _ => pieces (Z.to_nat n) s;
  t_cat := fun l dim =>
    if ((dim =? 0) || (dim =? -1))%Z then Ok (str_join EmptyString l) else Err (IndexError "Dimension out of range");
  as_tensor := fun v => l ← as_list v; bs ← mapR byte_of_pyval l; Ok (String.string_of_list_ascii bs);
  to_device := fun _ s => Ok s;
  t_flat := id;
  t_numel := str_len;
  t_element_size := fun _ => 1%Z;
  t_select := fun s idx => String.string_of_list_ascii (omap (fun i => String.list_ascii_of_string s !! Z.to_nat i) idx);
  t_is_floating := fun _ => false;
  t_equal := String.eqb;
  t_allclose := fun a b _ _ => String.eqb a b;
  t_max_abs_diff := fun a b =>
    float_of_Z (foldr Z.max 0%Z (zip_with (fun x y => Z.abs (x - y)) (byte_ints a) (byte_ints b)));
  t_tolist := fun s => PList (map PInt (byte_ints s))
|}.

Lemma pieces_spec n : forall s, (0 < n)%nat -> length (pieces n s) = n /\ str_join EmptyString (pieces n s) = s.
Proof.
  induction n as [|[|n] IH]; intros s Hn; [lia|done|].
  set (k := ((String.length s + S n) / S (S n))%nat).
  change (pieces (S (S n)) s) with (str_take k s :: pieces (S n) (str_drop k s)).
  destruct (IH (str_drop k s)) as [I1 I2]; [lia|]. split; [by cbn [length]; rewrite I1|].
  destruct (pieces (S n) (str_drop k s)) as [|p ps] eqn:Ep; [done|].
  change (str_take k s +:+ str_join EmptyString (p :: ps) = s). rewrite I2. apply take_drop_str.
Qed.

#[export] Instance byte_torch_laws : @TorchLaws byte_torch.
Proof.
  split.
  - done.
  - done.
  - done.
  - done.
  - intros t wd n [= <-] [= <-]. cbn. unfold id. lia.
  - intros t. cbn. by rewrite bool_decide_true.
  - intros d shape b t. cbn. case_bool_decide as Hb; [|done]. intros [= <-]. by destruct Hb as [-> ->].
  - intros t n dim Hn. apply pieces_spec. lia.
  - intros t n dim Hn Hdim. unfold t_dim in *. cbn in *.
    assert ((dim =? 0) || (dim =? -1) = true)%Z as ->.
    { apply orb_true_iff. rewrite !Z.eqb_eq. lia. }
    unfold id. rewrite map_id. f_equal. apply pieces_spec. lia.
Qed.


(** A blob that decodes is well formed: its length prefix is that of its
    header, the header names the shape and the element type of the tensor that
    is returned, and the payload has exactly the bytes these ask for. *)
Theorem decoded_tensor_typed `{TorchLaws} blob t : decode_tensor blob = Ok t ->
  exists header wd n payload, load_bytes read_header header = Ok (t_shape t, wd) /\
    torch_dtype wd = Ok (t_dtype t) /\ dtype_bytes wd = Ok n /\
    str_len payload = (product (t_shape t) * n)%Z /\
    blob = str_take 4 blob +:+ header +:+ payload /\ le_value (str_take 4 blob) = str_len header.
Proof. apply decode_typed. Qed.

#[local] Existing Instance byte_torch.

(** Five bytes in two shards. *)
Definition sharded_sample : LocalBucket * result ShardedTensorManifest :=
  put_sharded_tensor DirectArtifactTransport_put [] "s3://bk/w.json" "hello" "w" 2 0 (LocalBucket_init "bk" 5).


Lemma decoded_tensor_typed_witness :
  exists blob, decode_tensor blob = Ok "hello" /\ le_value (str_take 4 blob) = 62%Z.
Proof.
  destruct (@encode_tensor byte_torch "hello") as [blob|] eqn:E; [|vm_compute in E; discriminate E].
  exists blob. assert (decode_tensor blob = Ok "hello") as Hd by (vm_compute in E; injection E as <-; vm_compute; reflexivity).
  split; [exact Hd|].
  destruct (decoded_tensor_typed (H := byte_torch) blob "hello" Hd) as (header & wd & n & payload & _ & _ & _ & Hp & Hb & Hl).
  vm_compute in E. injection E as <-. vm_compute. reflexivity.
Defined.
