(* ===== verification/TensorParallel.v ===== *)
(** * Tensor-parallel execution ([teuton_runtime/distributed_gpt.py])

    The runner of GPT jobs over several devices.  Every rank runs the same
    program on its share of the weights and meets the others in collective
    operations.  A program is a [proc]: it ends, or waits for an [AllReduce] or
    an [AllGather] with what it contributes and how it goes on; [run_group] runs
    the programs of a group together.  The operations of torch are a class;
    moving a tensor to a device does not change its value and is left out. *)

From Stdlib Require Import ZArith Lia Ascii SpecFloat.
From stdpp Require Import base strings list.
From S2P Require Import Prelude PyFloat PyVal Tensors.

(** ** Torch *)

(** Functions applied to every element. *)
Inductive unary := Gelu | Silu | Sigmoid | Erf | Exp | Scale (c : float) | DivBy (c : float) | Shift (c : float) | SubFrom (c : float).

Class TensorOps (T : Type) := {
  tp_matmul : T -> T -> result T;
  tp_add : T -> T -> result T;
  tp_mul : T -> T -> result T;
  tp_map : unary -> T -> T;
  tp_tensor_split : nat -> Z -> T -> list T;
  tp_cat : Z -> list T -> result T;
  tp_transpose : T -> T;
  tp_flatten : T -> T;
  tp_sum_rows : T -> T;
  tp_shape : T -> list Z
}.

(** ** Programs of a group *)

Inductive proc (T A : Type) :=
  | Done (r : result A)
  | AllReduce (t : T) (go_on : T -> proc T A)
  | AllGather (t : T) (dim : Z) (go_on : T -> proc T A).
Arguments Done {T A}.
Arguments AllReduce {T A}.
Arguments AllGather {T A}.

#[export] Instance proc_ret T : MRet (proc T) := fun A a => Done (Ok a).

#[export] Instance proc_bind T : MBind (proc T) := fun A B f =>
  fix bind (p : proc T A) : proc T B :=
    match p with
    | Done (Ok a) => f a
    | Done (Err e) => Done (Err e)
    | AllReduce t k => AllReduce t (fun s => bind (k s))
    | AllGather t dim k => AllGather t dim (fun s => bind (k s))
    end.

Definition plift {T A} (r : result A) : proc T A := Done r.

(** Ranks that wait for different things wait for ever; the process group
    gives up. *)
Definition out_of_step {A} : result A := Err (RuntimeError "collective operation timed out").

Section group.
Context {T A : Type} `{TensorOps T}.

Definition finished (p : proc T A) : option (result A) := match p with Done r => Some r | _ => None end.
Definition reducing (p : proc T A) : option (T * (T -> proc T A)) := match p with AllReduce t k => Some (t, k) | _ => None end.
Definition gathering (dim : Z) (p : proc T A) : option (T * (T -> proc T A)) :=
  match p with AllGather t d k => if (d =? dim)%Z then Some (t, k) else None | _ => None end.

(** What every rank gets: the sum in the order of the ranks, and the parts one
    after the other, which have the same shape. *)
Fixpoint all_sum (t : T) (ts : list T) : result T :=
  match ts with [] => Ok t | t' :: ts' => s ← tp_add t t'; all_sum s ts' end.

Definition same_shape (t t' : T) : bool := bool_decide (tp_shape t = tp_shape t').

Definition all_reduce (t : T) (ts : list T) : result T :=
  if forallb (same_shape t) ts then all_sum t ts else Err (RuntimeError "tensors of different shapes in all_reduce").
Definition all_gather (dim : Z) (t : T) (ts : list T) : result T :=
  if forallb (same_shape t) ts then tp_cat dim (t :: ts) else Err (RuntimeError "tensors of different shapes in all_gather").

(** Rank 0 leads; the others must do the same. *)
Fixpoint run_group (lead : proc T A) (others : list (proc T A)) : result (list A) :=
  match lead with
  | Done r =>
      match mapM finished others with
      | Some rs => mapR id (r :: rs)
      | None => match r with Err e => Err e | Ok _ => out_of_step end
      end
  | AllReduce t k =>
      match mapM reducing others with
      | Some l => s ← all_reduce t (map fst l); run_group (k s) (map (fun tk => tk.2 s) l)
      | None => out_of_step
      end
  | AllGather t dim k =>
      match mapM (gathering dim) others with
      | Some l => s ← all_gather dim t (map fst l); run_group (k s) (map (fun tk => tk.2 s) l)
      | None => out_of_step
      end
  end.
End group.

(** ** Primitives *)

Record TensorParallelContext := mkContext { tc_rank : nat; tc_world_size : nat }.

Section runner.
Context {T : Type} `{TensorOps T}.
#[local] Abbreviation proc := (proc T).

Definition split_for_rank (t : T) (ctx : TensorParallelContext) (dim : Z) : result T :=
  of_option (IndexError "tuple index out of range") (tp_tensor_split (tc_world_size ctx) dim t !! tc_rank ctx).

Definition maybe_all_reduce (t : T) (ctx : TensorParallelContext) : proc T :=
  if (tc_world_size ctx <=? 1)%nat then mret t else AllReduce t mret.

Definition maybe_all_gather (t : T) (ctx : TensorParallelContext) (dim : Z) : proc T :=
  if (tc_world_size ctx <=? 1)%nat then mret t else AllGather t dim mret.

Record TensorParallelLinear := mkLinear { tl_weight : T; tl_bias : option T; tl_ctx : TensorParallelContext }.

Definition add_bias (y : T) (b : option T) : proc T :=
  match b with Some b => plift (tp_add y b) | None => mret y end.

Definition TensorParallelLinear_column_parallel (self : TensorParallelLinear) (x : T) (gather_output : bool) : proc T :=
  w ← plift (split_for_rank (tl_weight self) (tl_ctx self) 1);
  b ← match tl_bias self with
      | Some b => b' ← plift (split_for_rank b (tl_ctx self) 0); mret (Some b')
      | None => mret None
      end;
  y ← plift (tp_matmul x w);
  y ← add_bias y b;
  if gather_output then maybe_all_gather y (tl_ctx self) (-1) else mret y.

Definition TensorParallelLinear_row_parallel (self : TensorParallelLinear) (x : T) (input_is_parallel : bool) : proc T :=
  w ← plift (split_for_rank (tl_weight self) (tl_ctx self) 0);
  x_part ← (if input_is_parallel then mret x else plift (split_for_rank x (tl_ctx self) (-1)));
  y ← plift (tp_matmul x_part w);
  y ← maybe_all_reduce y (tl_ctx self);
  add_bias y (tl_bias self).

(** ** The runner *)

Context (ctx : TensorParallelContext).

(** [params.get(k, dflt)] where a name is expected, and [params.get(k)] where it
    may be missing. *)
Definition text_param (params : dict pyval) (k dflt : string) : result string :=
  match get_or params k (PStr dflt) with PStr s => Ok s | _ => Err Unmodelled end.

Definition optional_text (params : dict pyval) (k : string) : result (option string) :=
  let v := get params k in
  if truthy v then match v with PStr s => Ok (Some s) | _ => Err Unmodelled end else Ok None.

Definition input_named (inputs : dict T) (params : dict pyval) (k dflt : string) : result T :=
  name ← text_param params k dflt; of_option (KeyError name) (dict_get name inputs).

Definition bias_of (inputs : dict T) (params : dict pyval) : result (option T) :=
  bias_name ← optional_text params "bias";
  match bias_name with
  | Some name => b ← of_option (KeyError name) (dict_get name inputs); Ok (Some b)
  | None => Ok None
  end.

Definition GPTTensorParallelRunner_flat_outer (x dy : T) : result T := tp_matmul (tp_transpose (tp_flatten x)) (tp_flatten dy).

Definition half : float := flit 5 (-1).
(** [2.0**0.5] and [(2.0 / torch.pi) ** 0.5]: square roots. *)
Definition root_two : float := SFsqrt prec emax (float_of_Z 2).
Definition gelu_c : float := SFsqrt prec emax (fdiv (float_of_Z 2) (flit 3141592653589793 (-15))).

Definition GPTTensorParallelRunner_gelu_grad (x : T) : result T :=
  let cdf := tp_map (Scale half) (tp_map (Shift fone) (tp_map Erf (tp_map (DivBy root_two) x))) in
  xc ← Ok (tp_map (Scale gelu_c) (tp_map (Scale half) x));
  xx ← tp_mul (tp_map (Scale (flit (-5) (-1))) x) x;
  density ← tp_mul xc (tp_map Exp xx);
  tp_add cdf density.

(** [sig * (1 + pre * (1 - sig))]. *)
Definition silu_grad (pre : T) : result T :=
  let sg := tp_map Sigmoid pre in
  u ← tp_mul pre (tp_map (SubFrom fone) sg);
  tp_mul sg (tp_map (Shift fone) u).

Definition GPTTensorParallelRunner_run_linear (inputs : dict T) (params : dict pyval) : proc (dict T) :=
  x ← plift (input_named inputs params "x" "x");
  w ← plift (input_named inputs params "weight" "W");
  bias ← plift (bias_of inputs params);
  mode ← plift (text_param params "parallel_mode" "column");
  let linear := mkLinear w bias ctx in
  y ← (if String.eqb mode "row" then
         TensorParallelLinear_row_parallel linear x (truthy (get_or params "input_is_parallel" (PBool false)))
       else if String.eqb mode "column" then
         TensorParallelLinear_column_parallel linear x (truthy (get_or params "gather_output" (PBool true)))
       else plift (Err (ValueError ("unsupported linear parallel_mode: " +:+ repr_str mode))));
  name ← plift (text_param params "output" "y");
  mret [(name, y)].

(** The activation of a hidden layer. *)
Definition activated (activation : string) (hidden : T) : result T :=
  if String.eqb activation "gelu" then Ok (tp_map Gelu hidden)
  else if String.eqb activation "silu" then Ok (tp_map Silu hidden)
  else if String.eqb activation "identity" then Ok hidden
  else Err (ValueError ("unsupported activation: " +:+ repr_str activation)).

Definition GPTTensorParallelRunner_run_mlp (inputs : dict T) (params : dict pyval) : proc (dict T) :=
  x ← plift (input_named inputs params "x" "x");
  w1 ← plift (input_named inputs params "w1" "W1");
  w2 ← plift (input_named inputs params "w2" "W2");
  hidden ← TensorParallelLinear_column_parallel (mkLinear w1 None ctx) x false;
  activation ← plift (text_param params "activation" "gelu");
  hidden ← plift (activated activation hidden);
  y ← TensorParallelLinear_row_parallel (mkLinear w2 None ctx) hidden true;
  name ← plift (text_param params "output" "y");
  mret [(name, y)].

(** [{params.get(k, dflt): t, ...}]. *)
Definition named_outputs (params : dict pyval) (outputs : list (string * string * T)) : proc (dict T) :=
  named ← plift (mapR (fun o : string * string * T => name ← text_param params o.1.1 o.1.2; Ok (name, o.2)) outputs);
  mret (dict_update [] named).

(** The sum of the gradient over all rows, when a name is asked for. *)
Definition bias_gradient (params : dict pyval) (dy : T) (out : dict T) : proc (dict T) :=
  db ← plift (optional_text params "db");
  mret (match db with Some name => dict_set name (tp_sum_rows (tp_flatten dy)) out | None => out end).

Definition GPTTensorParallelRunner_run_linear_backward (inputs : dict T) (params : dict pyval) : proc (dict T) :=
  x ← plift (input_named inputs params "x" "x");
  w ← plift (input_named inputs params "weight" "W");
  dy ← plift (input_named inputs params "dy" "dY");
  mode ← plift (text_param params "parallel_mode" "column");
  out ← (if String.eqb mode "column" then
           w_part ← plift (split_for_rank w ctx 1);
           dy_part ← plift (split_for_rank dy ctx (-1));
           dx ← plift (tp_matmul dy_part (tp_transpose w_part));
           dx ← maybe_all_reduce dx ctx;
           dw ← plift (GPTTensorParallelRunner_flat_outer x dy_part);
           named_outputs params [("dx", "dX", dx); ("dw", "dW", dw)]
         else if String.eqb mode "row" then
           x_part ← plift (split_for_rank x ctx (-1));
           w_part ← plift (split_for_rank w ctx 0);
           dx_part ← plift (tp_matmul dy (tp_transpose w_part));
           dx ← (if truthy (get_or params "gather_dx" (PBool true)) then maybe_all_gather dx_part ctx (-1) else mret dx_part);
           dw ← plift (GPTTensorParallelRunner_flat_outer x_part dy);
           named_outputs params [("dx", "dX", dx); ("dw", "dW", dw)]
         else plift (Err (ValueError ("unsupported linear backward parallel_mode: " +:+ repr_str mode))));
  bias_gradient params dy out.

(** The hidden layer and the gradient before the activation. *)
Definition activation_gradient (activation : string) (pre dy w2_part : T) : result (T * T) :=
  if String.eqb activation "gelu" then
    d_hidden ← tp_matmul dy (tp_transpose w2_part);
    g ← GPTTensorParallelRunner_gelu_grad pre; d ← tp_mul d_hidden g; Ok (tp_map Gelu pre, d)
  else if String.eqb activation "silu" then
    d_hidden ← tp_matmul dy (tp_transpose w2_part);
    g ← silu_grad pre; d ← tp_mul d_hidden g; Ok (tp_map Silu pre, d)
  else if String.eqb activation "identity" then d ← tp_matmul dy (tp_transpose w2_part); Ok (pre, d)
  else Err (ValueError ("unsupported activation: " +:+ repr_str activation)).

Definition GPTTensorParallelRunner_run_mlp_backward (inputs : dict T) (params : dict pyval) : proc (dict T) :=
  x ← plift (input_named inputs params "x" "x");
  w1 ← plift (input_named inputs params "w1" "W1");
  w2 ← plift (input_named inputs params "w2" "W2");
  dy ← plift (input_named inputs params "dy" "dY");
  w1_part ← plift (split_for_rank w1 ctx 1);
  w2_part ← plift (split_for_rank w2 ctx 0);
  pre ← plift (tp_matmul x w1_part);
  activation ← plift (text_param params "activation" "gelu");
  h ← plift (activation_gradient activation pre dy w2_part);
  dw2 ← plift (GPTTensorParallelRunner_flat_outer h.1 dy);
  dw1 ← plift (GPTTensorParallelRunner_flat_outer x h.2);
  dx ← plift (tp_matmul h.2 (tp_transpose w1_part));
  dx ← maybe_all_reduce dx ctx;
  named_outputs params [("dx", "dX", dx); ("dw1", "dW1", dw1); ("dw2", "dW2", dw2)].

Definition GPTTensorParallelRunner_run (inputs : dict T) (params : dict pyval) : proc (dict T) :=
  op ← plift (text_param params "tp_op" "linear");
  if String.eqb op "linear" then GPTTensorParallelRunner_run_linear inputs params
  else if String.eqb op "linear_backward" then GPTTensorParallelRunner_run_linear_backward inputs params
  else if String.eqb op "mlp" then GPTTensorParallelRunner_run_mlp inputs params
  else if String.eqb op "mlp_backward" then GPTTensorParallelRunner_run_mlp_backward inputs params
  else plift (Err (ValueError ("unsupported gpt tensor-parallel op: " +:+ repr_str op))).
End runner.

(** ** The group of a job ([_rank_entry] of [distributed_executor.py]) *)

Section ranks.
Context {T : Type} `{TensorOps T}.

(** What every rank returns; an exception of one rank fails the group. *)
Definition rank_outputs (world_size : nat) (inputs : dict T) (params : dict pyval) : result (list (dict T)) :=
  let rank r := GPTTensorParallelRunner_run (mkContext r world_size) inputs params in
  run_group (rank 0%nat) (map rank (seq 1 (world_size - 1))).

(** Rank 0 reports. *)
Definition rank_entry (world_size : nat) (inputs : dict T) (params : dict pyval) : result (dict T) :=
  outs ← rank_outputs world_size inputs params; of_option (RuntimeError "distributed rank failed") (head outs).
End ranks.

(** ** Operations on bytes, over [byte_torch] *)

(** Rows of bytes; the product of a row of one byte with a row is the multiple
    of that row. *)
Definition scale_bytes (a b : string) : result string :=
  match a with
  | String c EmptyString => Ok (String.string_of_list_ascii (map (fun z => ascii_of_N (Z.to_N (int_of_byte c * z mod 256))) (byte_ints b)))
  | _ => Err (RuntimeError "mat1 and mat2 shapes cannot be multiplied")
  end.

Definition bytes_with (f : Z -> Z -> Z) (a b : string) : result string :=
  Ok (String.string_of_list_ascii (zip_with (fun x y => ascii_of_N (Z.to_N (f x y mod 256))) (byte_ints a) (byte_ints b))).

Definition byte_tensor_ops : TensorOps (@tensor byte_torch) := {|
  tp_matmul := scale_bytes; tp_add := bytes_with Z.add; tp_mul := bytes_with Z.mul; tp_map := fun _ t => t;
  tp_tensor_split := fun n _ t => pieces n t; tp_cat := fun _ ts => Ok (str_join EmptyString ts); tp_transpose := id; tp_flatten := id;
  tp_sum_rows := id; tp_shape := fun t => [str_len t]
|}.
