(* ===== verification/TensorParallelFacts.v ===== *)
(** * A group of devices computes what one device computes

    Over exact scalars, tensors are matrices.  However many ranks share the
    weights of a linear layer or of a hidden layer, every rank ends with the
    product of the whole weights; of the gradients, that of the input is whole,
    and every rank keeps its share of those of the weights. *)

From Stdlib Require Import ZArith Lia Ascii.
From stdpp Require Import base strings list.
From S2P Require Import Prelude PyFloat PyVal Tensors TensorParallel.

(** ** Matrices *)

(** Scalars whose addition is associative; their products and elementwise
    functions are arbitrary. *)
Class Scalars (R : Type) := {
  s_zero : R;
  s_add : R -> R -> R;
  s_mul : R -> R -> R;
  s_fun : unary -> R -> R
}.

Class ScalarLaws (R : Type) `{Scalars R} : Prop := {
  s_add_assoc : forall a b c, s_add a (s_add b c) = s_add (s_add a b) c;
  s_zero_add : forall a, s_add s_zero a = a;
  s_add_zero : forall a, s_add a s_zero = a
}.

(** Tensors of two dimensions, the leading dimensions of an activation taken as
    rows, and of one dimension, which have no number of rows. *)
Record matrix (R : Type) := mkMatrix { mx_rows : option nat; mx_cols : nat; mx_at : nat -> nat -> R }.
Arguments mkMatrix {R}.
Arguments mx_rows {R}.
Arguments mx_cols {R}.
Arguments mx_at {R}.

(** The size and the start of the r-th of n parts of a dimension. *)
Definition part_len (L n r : nat) : nat := (L / n + if (r <? L mod n)%nat then 1 else 0)%nat.
Definition part_off (L n r : nat) : nat := (r * (L / n) + r `min` (L mod n))%nat.

Section matrices.
Context {R : Type} `{Scalars R}.
#[local] Abbreviation matrix := (matrix R).

Definition nrows (m : matrix) : nat := default 1%nat (mx_rows m).

Definition mx_shape (m : matrix) : list Z :=
  match mx_rows m with Some r => [Z.of_nat r; Z.of_nat (mx_cols m)] | None => [Z.of_nat (mx_cols m)] end.

Fixpoint sum_to (n : nat) (f : nat -> R) : R :=
  match n with O => s_zero | S n' => s_add (sum_to n' f) (f n') end.

Definition mx_product (a b : matrix) : matrix :=
  mkMatrix (mx_rows a) (mx_cols b) (fun i j => sum_to (mx_cols a) (fun k => s_mul (mx_at a i k) (mx_at b k j))).

Definition mx_matmul (a b : matrix) : result matrix :=
  match mx_rows a, mx_rows b with
  | Some _, Some r => if (mx_cols a =? r)%nat then Ok (mx_product a b) else Err (RuntimeError "shapes cannot be multiplied")
  | _, _ => Err Unmodelled
  end.

Definition mx_pointwise (f : R -> R -> R) (a b : matrix) : matrix :=
  mkMatrix (mx_rows a) (mx_cols a) (fun i j => f (mx_at a i j) (mx_at b i j)).

(** Tensors of one shape, or a row added to every row; other broadcasting is
    outside the model. *)
Definition mx_add (a b : matrix) : result matrix :=
  if bool_decide (mx_shape a = mx_shape b) then Ok (mx_pointwise s_add a b)
  else match mx_rows a, mx_rows b with
       | Some _, None =>
           if (mx_cols a =? mx_cols b)%nat then Ok (mkMatrix (mx_rows a) (mx_cols a) (fun i j => s_add (mx_at a i j) (mx_at b 0%nat j)))
           else Err Unmodelled
       | _, _ => Err Unmodelled
       end.

Definition mx_mul (a b : matrix) : result matrix :=
  if bool_decide (mx_shape a = mx_shape b) then Ok (mx_pointwise s_mul a b) else Err Unmodelled.

Definition mx_map (u : unary) (m : matrix) : matrix := mkMatrix (mx_rows m) (mx_cols m) (fun i j => s_fun u (mx_at m i j)).

Definition mx_transpose (m : matrix) : matrix :=
  match mx_rows m with Some r => mkMatrix (Some (mx_cols m)) r (fun i j => mx_at m j i) | None => m end.

Definition mx_flatten (m : matrix) : matrix := mkMatrix (Some (nrows m)) (mx_cols m) (mx_at m).

Definition mx_sum_rows (m : matrix) : matrix := mkMatrix None (mx_cols m) (fun _ j => sum_to (nrows m) (fun i => mx_at m i j)).

Definition part_cols (n r : nat) (m : matrix) : matrix :=
  mkMatrix (mx_rows m) (part_len (mx_cols m) n r) (fun i j => mx_at m i (part_off (mx_cols m) n r + j)).
Definition part_rows (n r : nat) (m : matrix) : matrix :=
  mkMatrix (Some (part_len (nrows m) n r)) (mx_cols m) (fun i j => mx_at m (part_off (nrows m) n r + i) j).

Definition mx_tensor_split (n : nat) (dim : Z) (m : matrix) : list matrix :=
  match mx_rows m, dim with
  | Some _, 0%Z => map (fun r => part_rows n r m) (seq 0 n)
  | Some _, 1%Z | _, (-1)%Z | None, 0%Z => map (fun r => part_cols n r m) (seq 0 n)
  | _, _ => []
  end.

Definition beside (a b : matrix) : matrix :=
  mkMatrix (mx_rows a) (mx_cols a + mx_cols b)
    (fun i j => if (j <? mx_cols a)%nat then mx_at a i j else mx_at b i (j - mx_cols a)).

(** Along the last dimension, the only one the runner joins. *)
Definition mx_cat (dim : Z) (ms : list matrix) : result matrix :=
  match dim, ms with
  | (-1)%Z, m :: ms' =>
      if forallb (fun m' => bool_decide (mx_rows m' = mx_rows m)) ms' then Ok (fold_left beside ms' m)
      else Err (RuntimeError "sizes of tensors must match except in the dimension of cat")
  | _, _ => Err Unmodelled
  end.

#[export] Instance matrix_ops : TensorOps matrix := {|
  tp_matmul := mx_matmul; tp_add := mx_add; tp_mul := mx_mul; tp_map := mx_map; tp_tensor_split := mx_tensor_split;
  tp_cat := mx_cat; tp_transpose := mx_transpose; tp_flatten := mx_flatten; tp_sum_rows := mx_sum_rows; tp_shape := mx_shape
|}.

(** Matrices of one shape with the same entries. *)
#[export] Instance matrix_equiv : Equiv matrix := fun a b =>
  mx_rows a = mx_rows b /\ mx_cols a = mx_cols b /\
  forall i j, (i < nrows a)%nat -> (j < mx_cols a)%nat -> mx_at a i j = mx_at b i j.

#[export] Instance matrix_equivalence : Equivalence (≡@{matrix}).
Proof.
  split.
  - by intros a.
  - intros a b (Hr & Hc & Ha). split_and!; [done|done|]. intros i j Hi Hj. symmetry. apply Ha; [|by rewrite Hc].
    unfold nrows in *. by rewrite Hr.
  - intros a b c (Hr & Hc & Ha) (Hr' & Hc' & Ha'). split_and!; [congruence|congruence|]. intros i j Hi Hj.
    rewrite Ha by done. apply Ha'; [|by rewrite <- Hc]. unfold nrows in *. by rewrite <- Hr.
Qed.
End matrices.

(** ** Parts of a dimension *)

Lemma part_off_S L n r : part_off L n (S r) = (part_off L n r + part_len L n r)%nat.
Proof. unfold part_off, part_len. destruct (Nat.ltb_spec r (L mod n)); lia. Qed.

Lemma part_off_all L n : (0 < n)%nat -> part_off L n n = L.
Proof. intros Hn. unfold part_off. pose proof (Nat.mod_upper_bound L n). pose proof (Nat.div_mod_eq L n). lia. Qed.

Lemma part_even L n r : (0 < n)%nat -> Nat.divide n L -> part_len L n r = (L / n)%nat /\ part_off L n r = (r * (L / n))%nat.
Proof.
  intros Hn Hd. apply Nat.Lcm0.mod_divide in Hd. unfold part_len, part_off. rewrite Hd.
  destruct (Nat.ltb_spec r 0); lia.
Qed.

(** ** Sums and joins *)

Section sums.
Context {R : Type} `{ScalarLaws R}.
#[local] Abbreviation matrix := (matrix R).

Lemma sum_ext n (f g : nat -> R) : (forall k, (k < n)%nat -> f k = g k) -> sum_to n f = sum_to n g.
Proof. induction n as [|n IH]; intros E; [done|]. cbn. rewrite IH, E by (intros; auto with arith). done. Qed.

Lemma sum_front n (f : nat -> R) : sum_to (S n) f = s_add (f 0%nat) (sum_to n (fun k => f (S k))).
Proof.
  induction n as [|n IH]; cbn in *; [by rewrite s_zero_add, s_add_zero|]. rewrite IH. by rewrite s_add_assoc.
Qed.

Lemma sum_app a b (f : nat -> R) : sum_to (a + b) f = s_add (sum_to a f) (sum_to b (fun k => f (a + k)%nat)).
Proof.
  induction b as [|b IH]; [rewrite Nat.add_0_r; cbn; by rewrite s_add_zero|]. rewrite Nat.add_succ_r. cbn. by rewrite IH, s_add_assoc.
Qed.

(** The sum over a dimension is the sum of the sums over its parts. *)
Lemma sum_parts L n (f : nat -> R) : (0 < n)%nat ->
  sum_to n (fun r => sum_to (part_len L n r) (fun k => f (part_off L n r + k)%nat)) = sum_to L f.
Proof.
  intros Hn. rewrite <- (f_equal (fun x => sum_to x f) (part_off_all L n Hn)).
  enough (forall m, sum_to m (fun r => sum_to (part_len L n r) (fun k => f (part_off L n r + k)%nat)) = sum_to (part_off L n m) f) as Hm
    by apply Hm.
  induction m as [|m IH]; [done|]. rewrite part_off_S, sum_app. cbn. by rewrite IH.
Qed.

Lemma all_sum_at ts : forall (t s : matrix), forallb (same_shape t) ts = true -> all_sum t ts = Ok s ->
  mx_rows s = mx_rows t /\ mx_cols s = mx_cols t /\
  forall i j, mx_at s i j = fold_left s_add (map (fun t' => mx_at t' i j) ts) (mx_at t i j).
Proof.
  induction ts as [|t' ts IH]; intros t s Hs E; cbn in Hs, E; [by injection E as <-|].
  apply andb_true_iff in Hs as [Ht Hs]. unfold same_shape in Ht. apply bool_decide_eq_true in Ht. cbn [tp_shape matrix_ops] in Ht.
  unfold mx_add in E. rewrite bool_decide_true in E by done. cbn in E. apply IH in E as (Hr & Hc & Ha); [done|done].
Qed.

Lemma all_sum_defined ts : forall t : matrix, forallb (same_shape t) ts = true -> exists s, all_sum t ts = Ok s.
Proof.
  induction ts as [|t' ts IH]; intros t Hs; cbn in Hs |- *; [by eexists|]. apply andb_true_iff in Hs as [Ht Hs].
  unfold same_shape in Ht. apply bool_decide_eq_true in Ht. cbn [tp_shape matrix_ops] in Ht. unfold mx_add.
  rewrite bool_decide_true by done. apply (IH (mx_pointwise s_add t t')). exact Hs.
Qed.

Lemma fold_sum m a (f : nat -> R) x : fold_left s_add (map f (seq a m)) x = s_add x (sum_to m (fun k => f (a + k)%nat)).
Proof.
  revert a x. induction m as [|m IH]; intros a x; [cbn; by rewrite s_add_zero|]. cbn [seq map fold_left]. rewrite IH, sum_front.
  rewrite Nat.add_0_r, s_add_assoc. f_equal. apply sum_ext. intros k _. f_equal. lia.
Qed.

(** The sum of one matrix per rank. *)
Definition mx_total (n : nat) (t : nat -> matrix) : matrix :=
  mkMatrix (mx_rows (t 0%nat)) (mx_cols (t 0%nat)) (fun i j => sum_to n (fun r => mx_at (t r) i j)).

Lemma seq_forallb {A} (P : A -> bool) (f : nat -> A) a m : (forall r, (a <= r < a + m)%nat -> P (f r) = true) ->
  forallb P (map f (seq a m)) = true.
Proof. intros Hp. apply forallb_forall. intros x (r & <- & Hr)%in_map_iff. apply Hp. apply in_seq in Hr. lia. Qed.

Lemma all_reduce_total n (t : nat -> matrix) : (0 < n)%nat -> (forall r, (r < n)%nat -> mx_shape (t r) = mx_shape (t 0%nat)) ->
  exists s, all_reduce (t 0%nat) (map t (seq 1 (n - 1))) = Ok s /\ s ≡ mx_total n t.
Proof.
  intros Hn Hs. assert (forallb (same_shape (t 0%nat)) (map t (seq 1 (n - 1))) = true) as Hsame.
  { apply seq_forallb. intros r Hr. apply bool_decide_eq_true. symmetry. apply Hs. lia. }
  unfold all_reduce. rewrite Hsame. destruct (all_sum_defined _ _ Hsame) as [s E]. exists s. split; [done|].
  destruct (all_sum_at _ _ _ Hsame E) as (Hr & Hc & Ha). split_and!; [done|done|]. intros i j _ _. rewrite Ha, map_map, fold_sum.
  cbn [mx_total mx_at]. destruct n as [|n]; [lia|]. rewrite sum_front. by replace (S n - 1)%nat with n by lia.
Qed.

(** Equal parts side by side. *)
Lemma joined_at (t : nat -> matrix) c m : forall a x, (forall r, (a <= r < a + m)%nat -> mx_cols (t r) = c) ->
  let s := fold_left beside (map t (seq a m)) x in
  mx_rows s = mx_rows x /\ mx_cols s = (mx_cols x + m * c)%nat /\
  (forall i j, (j < mx_cols x)%nat -> mx_at s i j = mx_at x i j) /\
  (forall i r j, (r < m)%nat -> (j < c)%nat -> mx_at s i (mx_cols x + r * c + j) = mx_at (t (a + r)%nat) i j).
Proof.
  induction m as [|m IH]; intros a x Hc; [cbn; split_and!; [done|lia|done|lia]|]. cbn [seq map fold_left].
  destruct (IH (S a) (beside x (t a))) as (H1 & H2 & H3 & H4); [intros r Hr; apply Hc; lia|].
  assert (mx_cols (t a) = c) as Hca by (apply Hc; lia). split_and!.
  - done.
  - rewrite H2. cbn. rewrite Hca. lia.
  - intros i j Hj. rewrite H3 by (cbn; lia). cbn [beside mx_at]. destruct (Nat.ltb_spec j (mx_cols x)); [done|lia].
  - intros i r j Hr Hj. destruct r as [|r].
    + rewrite H3 by (cbn; lia). cbn [beside mx_at]. rewrite !Nat.add_0_r. destruct (Nat.ltb_spec (mx_cols x + j) (mx_cols x)); [lia|].
      f_equal. lia.
    + specialize (H4 i r j). cbn [mx_cols beside] in H4. rewrite Hca in H4. replace (S a + r)%nat with (a + S r)%nat in H4 by lia.
      rewrite <- H4 by lia. f_equal. lia.
Qed.

Lemma all_gather_parts n (m : matrix) (t : nat -> matrix) : (0 < n)%nat -> Nat.divide n (mx_cols m) ->
  (forall r, (r < n)%nat -> t r ≡ part_cols n r m) -> exists s, all_gather (-1) (t 0%nat) (map t (seq 1 (n - 1))) = Ok s /\ s ≡ m.
Proof.
  intros Hn Hd Ht. set (c := (mx_cols m / n)%nat).
  assert (forall r, (r < n)%nat -> mx_rows (t r) = mx_rows m /\ mx_cols (t r) = c) as Hdim.
  { intros r Hr. destruct (Ht r Hr) as (Hr1 & Hc1 & _). split; [done|]. rewrite Hc1. by destruct (part_even (mx_cols m) n r Hn Hd). }
  destruct (Hdim 0%nat Hn) as [Hr0 Hc0].
  unfold all_gather. rewrite seq_forallb.
  2:{ intros r Hr. apply bool_decide_eq_true. cbn. unfold mx_shape. destruct (Hdim r ltac:(lia)) as [-> ->]. by rewrite Hr0, Hc0. }
  cbn [tp_cat matrix_ops mx_cat]. rewrite seq_forallb.
  2:{ intros r Hr. apply bool_decide_eq_true. destruct (Hdim r ltac:(lia)) as [-> _]. done. }
  eexists. split; [done|]. destruct (joined_at t c (n - 1) 1 (t 0%nat)) as (H1 & H2 & H3 & H4); [intros r Hr; apply Hdim; lia|].
  assert (mx_cols m = (n * c)%nat) as Hm by (unfold c; destruct Hd as [q ->]; rewrite Nat.div_mul; lia).
  split_and!; [by rewrite H1|rewrite H2, Hc0, Hm; nia|]. intros i j Hi Hj. rewrite H2, Hc0 in Hj.
  assert (nrows (fold_left beside (map t (seq 1 (n - 1))) (t 0%nat)) = nrows m) as Hnr by (unfold nrows; by rewrite H1, Hr0). rewrite Hnr in Hi.
  assert (forall r k, (r < n)%nat -> (k < c)%nat -> mx_at (t r) i k = mx_at m i (r * c + k)) as Hpart.
  { intros r k Hr Hk. destruct (Ht r Hr) as (Hr1 & Hc1 & Ha). rewrite Ha.
    - cbn. f_equal. unfold c. destruct (part_even (mx_cols m) n r Hn Hd) as [_ ->]. done.
    - unfold nrows. destruct (Hdim r Hr) as [-> _]. done.
    - by destruct (Hdim r Hr) as [_ ->]. }
  destruct (Nat.ltb_spec j c) as [Hjc|Hjc].
  - rewrite H3 by (by rewrite Hc0). rewrite Hpart by done. done.
  - assert (0 < c)%nat by lia. pose proof (Nat.div_mod_eq j c) as Hdm. pose proof (Nat.mod_upper_bound j c).
    assert (1 <= j / c < n)%nat as Hq. { split; [apply Nat.div_le_lower_bound; lia|apply Nat.Div0.div_lt_upper_bound; nia]. }
    specialize (H4 i (j / c - 1)%nat (j mod c) ltac:(lia) ltac:(lia)). rewrite Hc0 in H4.
    replace (c + (j / c - 1) * c + j mod c)%nat with j in H4 by nia. rewrite H4.
    replace (1 + (j / c - 1))%nat with (j / c)%nat by lia. rewrite Hpart by lia. f_equal. nia.
Qed.
End sums.

(** ** Groups *)

Section runs.
Context {R : Type} `{ScalarLaws R} {A : Type}.
#[local] Abbreviation matrix := (matrix R).
Context (n : nat) (Hn : (0 < n)%nat).

(** The programs [prog 0], ..., [prog (n - 1)] run together and return, the r-th
    one with a result of which [post r] holds. *)
Definition runs (prog : nat -> proc matrix A) (post : nat -> A -> Prop) : Prop :=
  exists outs, run_group (prog 0%nat) (map prog (seq 1 (n - 1))) = Ok outs /\ length outs = n /\
    forall r out, outs !! r = Some out -> post r out.

Lemma runs_ext (prog prog' : nat -> proc matrix A) post : (forall r, (r < n)%nat -> prog r = prog' r) -> runs prog' post -> runs prog post.
Proof.
  intros E (outs & Hr & Hp). exists outs. split; [|done]. rewrite <- Hr, E by done. f_equal. apply map_ext_in.
  intros r Hin. apply in_seq in Hin. apply E. lia.
Qed.

Lemma mapM_map {B C D} (f : B -> option C) (g : D -> B) (h : D -> C) l : (forall x, f (g x) = Some (h x)) -> mapM f (map g l) = Some (map h l).
Proof. intros E. induction l as [|x l IH]; [done|]. cbn. by rewrite E, IH. Qed.

Lemma mapR_id_map {B C} (f : B -> C) l : mapR id (map (fun x => Ok (f x)) l) = Ok (map f l).
Proof. induction l as [|x l IH]; [done|]. cbn. by rewrite IH. Qed.

Lemma seq_front : 0%nat :: seq 1 (n - 1) = seq 0 n.
Proof. destruct n as [|m]; [lia|]. cbn. by rewrite Nat.sub_0_r. Qed.

Lemma runs_ret (f : nat -> A) (post : nat -> A -> Prop) : (forall r, (r < n)%nat -> post r (f r)) -> runs (fun r => mret (f r)) post.
Proof.
  intros Hp. exists (map f (seq 0 n)). unfold mret, proc_ret. cbn [run_group]. split_and!.
  - rewrite (mapM_map finished _ (fun r => Ok (f r))) by done. change (Ok (f 0%nat) :: map (fun r => Ok (f r)) (seq 1 (n - 1)))
      with (map (fun r => Ok (f r)) (0%nat :: seq 1 (n - 1))). rewrite seq_front. apply mapR_id_map.
  - by rewrite length_map, length_seq.
  - intros r out Ho. rewrite list_lookup_fmap in Ho. apply fmap_Some in Ho as (r' & Hr & ->). apply lookup_seq in Hr as [-> Hr].
    by apply Hp.
Qed.

Lemma runs_step {B} (m : nat -> result B) (k : nat -> B -> proc matrix A) (a : nat -> B) post : (forall r, (r < n)%nat -> m r = Ok (a r)) ->
  runs (fun r => k r (a r)) post -> runs (fun r => plift (m r) ≫= k r) post.
Proof. intros E. apply runs_ext. intros r Hr. by rewrite E. Qed.

Lemma runs_reduce (t : nat -> matrix) (k : nat -> matrix -> proc matrix A) post :
  (forall r, (r < n)%nat -> mx_shape (t r) = mx_shape (t 0%nat)) ->
  (forall s, s ≡ mx_total n t -> runs (fun r => k r s) post) ->
  runs (fun r => maybe_all_reduce (t r) (mkContext r n) ≫= k r) post.
Proof.
  intros Hs Hk. unfold maybe_all_reduce. cbn [tc_world_size]. destruct (Nat.leb_spec n 1) as [H1|H1].
  - apply (runs_ext _ (fun r => k r (t 0%nat))); [intros r Hr; by replace r with 0%nat by lia|]. apply Hk. split_and!; [done..|].
    intros i j _ _. cbn. replace n with 1%nat by lia. cbn. by rewrite s_zero_add.
  - destruct (all_reduce_total n t Hn Hs) as (s & Er & Hs'). destruct (Hk s Hs') as (outs & Eo & Ho). exists outs. split; [|done].
    cbn [mbind proc_bind run_group]. rewrite (mapM_map reducing _ (fun r => (t r, fun s => k r s))) by done.
    rewrite map_map. cbn [fst]. change (map (fun x => t x)) with (map t). rewrite Er. cbn [mbind result_bind]. rewrite map_map. exact Eo.
Qed.

Lemma runs_gather (m : matrix) (t : nat -> matrix) (k : nat -> matrix -> proc matrix A) post : Nat.divide n (mx_cols m) ->
  (forall r, (r < n)%nat -> t r ≡ part_cols n r m) -> (forall s, s ≡ m -> runs (fun r => k r s) post) ->
  runs (fun r => maybe_all_gather (t r) (mkContext r n) (-1) ≫= k r) post.
Proof.
  intros Hd Ht Hk. unfold maybe_all_gather. cbn [tc_world_size]. destruct (Nat.leb_spec n 1) as [H1|H1].
  - apply (runs_ext _ (fun r => k r (t 0%nat))); [intros r Hr; by replace r with 0%nat by lia|]. apply Hk. rewrite Ht by done.
    assert (n = 1%nat) as -> by lia. unfold part_cols. destruct (part_even (mx_cols m) 1 0 Hn Hd) as [E1 E2]. rewrite E1, E2.
    split_and!; [done|cbn; apply Nat.div_1_r|]. done.
  - destruct (all_gather_parts n m t Hn Hd Ht) as (s & Er & Hs'). destruct (Hk s Hs') as (outs & Eo & Ho). exists outs. split; [|done].
    cbn [mbind proc_bind run_group]. rewrite (mapM_map (gathering (-1)) _ (fun r => (t r, fun s => k r s))) by done.
    rewrite map_map. cbn [fst]. change (map (fun x => t x)) with (map t). rewrite Er. cbn [mbind result_bind]. rewrite map_map. exact Eo.
Qed.
End runs.

(** Going on after a group has returned. *)
Section bind.
Context {R : Type} `{ScalarLaws R} {A B : Type}.
#[local] Abbreviation matrix := (matrix R).

Lemma mapM_inv {C D} (f : C -> option D) (g : D -> C) l k : (forall x y, f x = Some y -> x = g y) -> mapM f l = Some k -> l = map g k.
Proof.
  intros Hf. revert k. induction l as [|x l IH]; intros k E; [by injection E as <-|]. cbn in E.
  destruct (f x) as [y|] eqn:Ey; [|done]. cbn in E. destruct (mapM f l) as [k'|]; [|done]. injection E as <-. cbn.
  by rewrite (IH k' eq_refl), <- (Hf _ _ Ey).
Qed.

Lemma mapR_id_inv {C} (rs : list (result C)) l : mapR id rs = Ok l -> rs = map Ok l.
Proof.
  revert l. induction rs as [|r rs IH]; intros l E; [by injection E as <-|]. cbn in E. apply bind_Ok in E as (x & Hx & E).
  apply bind_Ok in E as (l' & El & [= <-]). unfold id in Hx. subst r. cbn. by rewrite (IH _ El).
Qed.

Lemma mapM_zip {C D E F} (f : E -> option F) (g : C -> D -> E) (h : C -> D -> F) l k :
  (forall x y, f (g x y) = Some (h x y)) -> mapM f (zip_with g l k) = Some (zip_with h l k).
Proof. intros Hf. revert k. induction l as [|x l IH]; intros [|y k]; try done. cbn. by rewrite Hf, IH. Qed.

(** A rank that waits, and what it does after the rest of its program. *)
Definition go_on_with (tk : matrix * (matrix -> proc matrix A)) (k' : A -> proc matrix B) : matrix * (matrix -> proc matrix B) :=
  (tk.1, fun s' => tk.2 s' ≫= k').

Lemma paused_parts l ks : length ks = length l -> map fst (zip_with go_on_with l ks) = map fst l.
Proof. revert ks. induction l as [|x l IH]; intros [|y ks] Hl; try done. cbn in *. f_equal. apply IH. lia. Qed.

Lemma paused_go s l ks : map (fun tk => tk.2 s) (zip_with go_on_with l ks) =
  zip_with (fun p' k' => p' ≫= k') (map (fun tk : matrix * (matrix -> proc matrix A) => tk.2 s) l) ks.
Proof. revert ks. induction l as [|x l IH]; intros [|y ks]; try done. cbn. f_equal. apply IH. Qed.

Lemma run_group_bind (p : proc matrix A) : forall ps outs (k : A -> proc matrix B) ks, run_group p ps = Ok outs -> length ks = length ps ->
  exists o os, outs = o :: os /\ length os = length ps /\
    run_group (p ≫= k) (zip_with (fun p' k' => p' ≫= k') ps ks) = run_group (k o) (zip_with (fun k' o' => k' o') ks os).
Proof.
  induction p as [r|t go IH|t dim go IH]; intros ps outs k ks E Hl; cbn [run_group] in E.
  - destruct (mapM finished ps) as [rs|] eqn:Ef; [|by destruct r]. apply (mapM_inv _ Done) in Ef; [|by intros [] y [= <-]].
    apply mapR_id_inv in E. destruct outs as [|o os]; [done|]. cbn in E. injection E as -> ->. exists o, os. rewrite Ef, !length_map.
    split_and!; [done|done|]. cbn [mbind proc_bind]. f_equal. rewrite Ef, !length_map in Hl. clear -Hl. revert ks Hl.
    induction os as [|o' os IH]; intros [|k' ks] Hl; try done. cbn in *. f_equal. apply IH. lia.
  - destruct (mapM reducing ps) as [l|] eqn:Ef; [|done]. apply (mapM_inv _ (fun tk => AllReduce tk.1 tk.2)) in Ef;
      [|by intros [] y [= <-]]. apply bind_Ok in E as (s & Es & E). rewrite Ef, length_map in *.
    destruct (IH s _ _ k ks E) as (o & os & -> & Ho & Eo); [by rewrite length_map|]. rewrite length_map in Ho. exists o, os.
    split_and!; [done|done|]. rewrite <- Eo. cbn [mbind proc_bind run_group]. rewrite zip_with_fmap_l.
    rewrite (mapM_zip reducing _ go_on_with) by done.
    rewrite paused_parts, Es by done. cbn [mbind result_bind]. by rewrite paused_go.
  - destruct (mapM (gathering dim) ps) as [l|] eqn:Ef; [|done]. apply (mapM_inv _ (fun tk => AllGather tk.1 dim tk.2)) in Ef;
      [|intros [r|t' k'|t' d k'] y; cbn; [done|done|]; destruct (Z.eqb_spec d dim) as [->|]; [by intros [= <-]|done]].
    apply bind_Ok in E as (s & Es & E). rewrite Ef, length_map in *.
    destruct (IH s _ _ k ks E) as (o & os & -> & Ho & Eo); [by rewrite length_map|]. rewrite length_map in Ho. exists o, os.
    split_and!; [done|done|]. rewrite <- Eo. cbn [mbind proc_bind run_group]. rewrite zip_with_fmap_l.
    rewrite (mapM_zip (gathering dim) _ go_on_with) by (intros; cbn; by rewrite Z.eqb_refl).
    rewrite paused_parts, Es by done. cbn [mbind result_bind]. by rewrite paused_go.
Qed.

Lemma zip_map_self {C D E F} (f : D -> E -> F) (g : C -> D) (h : C -> E) l : zip_with f (map g l) (map h l) = map (fun x => f (g x) (h x)) l.
Proof. induction l as [|x l IH]; [done|]. cbn. by rewrite IH. Qed.

Lemma runs_bind n (prog : nat -> proc matrix A) (k : nat -> A -> proc matrix B) (post' : nat -> A -> Prop) (post : nat -> B -> Prop) :
  (0 < n)%nat -> runs n prog post' -> (forall a, (forall r, (r < n)%nat -> post' r (a r)) -> runs n (fun r => k r (a r)) post) ->
  runs n (fun r => prog r ≫= k r) post.
Proof.
  intros Hn (outs & Er & Hl & Hp) Hk.
  destruct (run_group_bind _ _ _ (k 0%nat) (map k (seq 1 (n - 1))) Er) as (o & os & -> & Ho & Eb); [by rewrite !length_map|].
  rewrite length_map, length_seq in Ho. destruct (Hk (fun r => nth r (o :: os) o)) as (outs' & Er' & Hp').
  - intros r Hr. destruct (lookup_lt_is_Some_2 (o :: os) r) as [x Hx]; [by rewrite Hl|].
    rewrite (nth_lookup_Some _ _ _ _ Hx). by apply Hp.
  - exists outs'. split; [|done]. rewrite <- Er', <- (zip_map_self (fun p' k' => p' ≫= k') prog k), Eb. cbn [nth]. f_equal.
    clear -Ho Hn. destruct n as [|m]; [lia|]. cbn in *. rewrite Nat.sub_0_r in *. subst m.
    rewrite <- seq_shift, !map_map. cbn. clear Hn. revert k. induction os as [|x os IH]; intros k; [done|]. cbn. f_equal.
    rewrite <- seq_shift, !map_map. apply (IH (fun r => k (S r))).
Qed.
End bind.

(** ** The reference: one device, whole weights *)

Section whole.
Context {T : Type} `{TensorOps T}.

Definition whole_linear (x w : T) (bias : option T) : result T :=
  y ← tp_matmul x w; match bias with Some b => tp_add y b | None => Ok y end.

Definition whole_mlp (activation : string) (x w1 w2 : T) : result T :=
  hidden ← tp_matmul x w1; hidden ← activated activation hidden; tp_matmul hidden w2.

(** The forward operations of the runner. *)
Definition whole_forward (inputs : dict T) (params : dict pyval) : result (dict T) :=
  op ← text_param params "tp_op" "linear";
  x ← input_named inputs params "x" "x";
  y ← (if String.eqb op "linear" then
         w ← input_named inputs params "weight" "W"; bias ← bias_of inputs params; whole_linear x w bias
       else if String.eqb op "mlp" then
         w1 ← input_named inputs params "w1" "W1"; w2 ← input_named inputs params "w2" "W2";
         activation ← text_param params "activation" "gelu"; whole_mlp activation x w1 w2
       else Err Unmodelled);
  name ← text_param params "output" "y";
  Ok [(name, y)].
End whole.

Section forward.
Context {R : Type} `{ScalarLaws R}.
#[local] Abbreviation matrix := (matrix R).

(** A linear layer is shared out evenly: the bias is a vector; by rows, the
    input is whole; by columns, the parts are gathered and equally wide. *)
Definition shared_evenly (n : nat) (inputs : dict matrix) (params : dict pyval) : bool :=
  match bias_of inputs params, input_named inputs params "weight" "W", text_param params "parallel_mode" "column" with
  | Ok bias, Ok w, Ok mode =>
      match bias with Some b => bool_decide (mx_rows b = None) | None => true end &&
      if String.eqb mode "row" then negb (truthy (get_or params "input_is_parallel" (PBool false)))
      else String.eqb mode "column" && truthy (get_or params "gather_output" (PBool true)) && (mx_cols w mod n =? 0)%nat
  | _, _, _ => false
  end.

Definition evenly (n : nat) (inputs : dict matrix) (params : dict pyval) : bool :=
  match text_param params "tp_op" "linear" with
  | Ok op => negb (String.eqb op "linear") || shared_evenly n inputs params
  | Err _ => false
  end.

(** The same tensors under the same names. *)
Definition same_tensors (d d' : dict matrix) : Prop := Forall2 (fun a b => a.1 = b.1 /\ a.2 ≡ b.2) d d'.

Lemma matmul_Ok (a b y : matrix) : mx_matmul a b = Ok y ->
  exists r, mx_rows a = Some r /\ mx_rows b = Some (mx_cols a) /\ y = mx_product a b.
Proof.
  unfold mx_matmul. destruct (mx_rows a) as [r|]; [|done]. destruct (mx_rows b) as [r'|]; [|done].
  destruct (Nat.eqb_spec (mx_cols a) r') as [->|]; [|done]. intros [= <-]. by exists r.
Qed.

Lemma matmul_intro (a b : matrix) r : mx_rows a = Some r -> mx_rows b = Some (mx_cols a) -> mx_matmul a b = Ok (mx_product a b).
Proof. unfold mx_matmul. intros -> ->. by rewrite Nat.eqb_refl. Qed.

Lemma nth_part {B} (f : nat -> B) n r : (r < n)%nat -> map f (seq 0 n) !! r = Some (f r).
Proof. intros Hr. rewrite list_lookup_fmap, lookup_seq_lt by done. done. Qed.

Lemma split_columns (m : matrix) d n r : (r < n)%nat -> d = 1%Z \/ d = (-1)%Z -> is_Some (mx_rows m) ->
  split_for_rank m (mkContext r n) d = Ok (part_cols n r m).
Proof.
  intros Hr Hd [k Hk]. unfold split_for_rank. cbn [tp_tensor_split matrix_ops tc_rank tc_world_size]. unfold mx_tensor_split. rewrite Hk.
  destruct Hd as [->| ->]; by rewrite nth_part.
Qed.

Lemma split_vector (b : matrix) n r : (r < n)%nat -> mx_rows b = None -> split_for_rank b (mkContext r n) 0 = Ok (part_cols n r b).
Proof. intros Hr Hk. unfold split_for_rank. cbn [tp_tensor_split matrix_ops tc_rank tc_world_size]. unfold mx_tensor_split. by rewrite Hk, nth_part. Qed.

Lemma split_rows (m : matrix) n r : (r < n)%nat -> is_Some (mx_rows m) -> split_for_rank m (mkContext r n) 0 = Ok (part_rows n r m).
Proof.
  intros Hr [k Hk]. unfold split_for_rank. cbn [tp_tensor_split matrix_ops tc_rank tc_world_size]. unfold mx_tensor_split.
  by rewrite Hk, nth_part.
Qed.

(** The products of the shares add up to the product. *)
Lemma shares_add_up n (a b : matrix) : (0 < n)%nat -> mx_rows b = Some (mx_cols a) ->
  mx_total n (fun r => mx_product (part_cols n r a) (part_rows n r b)) ≡ mx_product a b.
Proof.
  intros Hn Hb. split_and!; [done|done|]. intros i j _ _. cbn [mx_total mx_product part_cols part_rows mx_at mx_cols].
  assert (nrows b = mx_cols a) as -> by (unfold nrows; by rewrite Hb).
  exact (sum_parts (mx_cols a) n (fun k => s_mul (mx_at a i k) (mx_at b k j)) Hn).
Qed.

Lemma share_product n r (a b : matrix) k : mx_rows a = Some k -> mx_rows b = Some (mx_cols a) ->
  mx_matmul (part_cols n r a) (part_rows n r b) = Ok (mx_product (part_cols n r a) (part_rows n r b)).
Proof. intros Ha Hb. eapply matmul_intro; [exact Ha|]. cbn. unfold nrows. by rewrite Hb. Qed.

(** Addition does not look beyond the entries. *)
Lemma add_equiv (s y b z : matrix) : s ≡ y -> mx_add y b = Ok z -> exists z', mx_add s b = Ok z' /\ z' ≡ z.
Proof.
  intros (Hr & Hc & Ha) E. unfold mx_add in *. unfold mx_shape in *. rewrite Hr, Hc.
  destruct (bool_decide _).
  - injection E as <-. eexists. split; [done|]. split_and!; [done|done|]. intros i j Hi Hj.
    cbn in Hj |- *. f_equal. apply Ha; [|first [done|by rewrite Hc]].
    unfold nrows in *. cbn in Hi. first [done|by rewrite Hr].
  - destruct (mx_rows y) as [k|]; [|done]. destruct (mx_rows b); [done|]. destruct (_ =? _)%nat; [|done].
    injection E as <-. eexists. split; [done|]. split_and!; [done|done|]. intros i j Hi Hj.
    cbn in Hj |- *. f_equal. apply Ha; [|first [done|by rewrite Hc]].
    unfold nrows in *. cbn in Hi. first [done|by rewrite Hr].
Qed.

(** ** Layers *)

Context (n : nat) (Hn : (0 < n)%nat).

Lemma bias_runs (s y z : matrix) bias : s ≡ y -> match bias with Some b => mx_add y b | None => Ok y end = Ok z ->
  runs n (fun _ => add_bias s bias) (fun _ out => out ≡ z).
Proof.
  intros Hs E. unfold add_bias. destruct bias as [b|].
  - destruct (add_equiv _ _ _ _ Hs E) as (z' & Ez & Hz). cbn [tp_add matrix_ops]. rewrite Ez. by apply (runs_ret n Hn).
  - injection E as <-. by apply (runs_ret n Hn).
Qed.

(** By rows: every rank has its part of the input and of the weights' rows. *)
Lemma row_runs (par : bool) (x w z : matrix) (xs : nat -> matrix) bias :
  (forall r, (r < n)%nat -> xs r = if par then part_cols n r x else x) -> whole_linear x w bias = Ok z ->
  runs n (fun r => TensorParallelLinear_row_parallel (mkLinear w bias (mkContext r n)) (xs r) par) (fun _ out => out ≡ z).
Proof.
  intros Hx E. apply bind_Ok in E as (y & Ey & E). apply matmul_Ok in Ey as (k & Hxr & Hwr & ->).
  unfold TensorParallelLinear_row_parallel. cbn [tl_weight tl_bias tl_ctx].
  apply (runs_step n Hn _ _ (fun r => part_rows n r w)); [intros r Hr; apply split_rows; [done|by rewrite Hwr]|].
  apply (runs_ext n Hn _ (fun r => plift (Ok (part_cols n r x)) ≫= fun x_part => y ← plift (tp_matmul x_part (part_rows n r w));
    y ← maybe_all_reduce y (mkContext r n); add_bias y bias)).
  { intros r Hr. rewrite Hx by done. destruct par; [done|]. by rewrite (split_columns x (-1) n r) by auto. }
  apply (runs_step n Hn _ _ (fun r => part_cols n r x)); [done|].
  apply (runs_step n Hn _ _ (fun r => mx_product (part_cols n r x) (part_rows n r w))); [intros r Hr; by eapply share_product|].
  apply (runs_reduce n Hn); [done|]. intros s Hs. rewrite shares_add_up in Hs by done. by eapply bias_runs.
Qed.

(** By columns, each rank keeps its part. *)
Lemma column_runs (x w y : matrix) : mx_matmul x w = Ok y ->
  runs n (fun r => TensorParallelLinear_column_parallel (mkLinear w None (mkContext r n)) x false) (fun r out => out = part_cols n r y).
Proof.
  intros (k & Hxr & Hwr & ->)%matmul_Ok. unfold TensorParallelLinear_column_parallel. cbn [tl_weight tl_bias tl_ctx].
  apply (runs_step n Hn _ _ (fun r => part_cols n r w)); [intros r Hr; apply split_columns; [done|by left|by rewrite Hwr]|].
  apply (runs_step n Hn _ _ (fun _ => None)); [done|].
  apply (runs_step n Hn _ _ (fun r => mx_product x (part_cols n r w))); [intros r Hr; by eapply matmul_intro|].
  apply (runs_step n Hn _ _ (fun r => mx_product x (part_cols n r w))); [done|]. by apply (runs_ret n Hn).
Qed.

Lemma bias_part (y b : matrix) r k : mx_rows y = Some k -> mx_rows b = None ->
  mx_add (part_cols n r y) (part_cols n r b) = rmap (part_cols n r) (mx_add y b) \/ mx_cols y <> mx_cols b.
Proof.
  intros Hy Hb. destruct (Nat.eqb_spec (mx_cols y) (mx_cols b)) as [E|]; [left|by right]. unfold mx_add, mx_shape. cbn [part_cols mx_rows mx_cols].
  rewrite Hy, Hb, !bool_decide_false by done. rewrite E, !Nat.eqb_refl. cbn. by rewrite E.
Qed.

(** By columns, the parts gathered. *)
Lemma gathered_runs (x w z : matrix) bias : Nat.divide n (mx_cols w) ->
  match bias with Some b => mx_rows b = None | None => True end -> whole_linear x w bias = Ok z ->
  runs n (fun r => TensorParallelLinear_column_parallel (mkLinear w bias (mkContext r n)) x true) (fun _ out => out ≡ z).
Proof.
  intros Hd Hb E. apply bind_Ok in E as (y & Ey & E). apply matmul_Ok in Ey as (k & Hxr & Hwr & ->).
  unfold TensorParallelLinear_column_parallel. cbn [tl_weight tl_bias tl_ctx].
  apply (runs_step n Hn _ _ (fun r => part_cols n r w)); [intros r Hr; apply split_columns; [done|by left|by rewrite Hwr]|].
  apply (runs_ext n Hn _ (fun r => plift (Ok (part_cols n r <$> bias)) ≫= fun b => y ← plift (tp_matmul x (part_cols n r w));
    y ← add_bias y b; maybe_all_gather y (mkContext r n) (-1))).
  { intros r Hr. destruct bias as [b|]; [|reflexivity]. rewrite (split_vector b n r Hr Hb). reflexivity. }
  apply (runs_step n Hn _ _ (fun r => part_cols n r <$> bias)); [done|].
  apply (runs_step n Hn _ _ (fun r => part_cols n r (mx_product x w))); [intros r Hr; by eapply matmul_intro|].
  apply (runs_ext n Hn _ (fun r => plift (Ok (part_cols n r z)) ≫= fun y => maybe_all_gather y (mkContext r n) (-1) ≫= mret)).
  { intros r Hr. assert (add_bias (part_cols n r (mx_product x w)) (part_cols n r <$> bias) = plift (Ok (part_cols n r z))) as ->.
    { unfold add_bias. destruct bias as [b|]; [|by injection E as <-]. cbn [fmap option_fmap option_map tp_add matrix_ops] in *.
      destruct (bias_part (mx_product x w) b r k Hxr Hb) as [->|Hne]; [by rewrite E|]. exfalso. unfold mx_add, mx_shape in E.
      cbn in E, Hne. rewrite Hxr, Hb, bool_decide_false in E by done. by rewrite (proj2 (Nat.eqb_neq _ _) Hne) in E. }
    cbn [mbind proc_bind plift]. unfold maybe_all_gather. by destruct (_ <=? _)%nat. }
  apply (runs_step n Hn _ _ (fun r => part_cols n r z)); [done|]. assert (mx_cols z = mx_cols w) as Hz.
  { destruct bias as [b|]; [|by injection E as <-]. cbn [tp_add matrix_ops] in E. unfold mx_add in E. destruct (bool_decide _); [by injection E as <-|].
    cbn in E. rewrite Hxr, Hb in E. destruct (_ =? _)%nat; [by injection E as <-|done]. }
  apply (runs_gather n Hn z); [by rewrite Hz|done|]. intros s Hs. by apply (runs_ret n Hn).
Qed.

Lemma activated_part a (h h' : matrix) r : activated a h = Ok h' -> activated a (part_cols n r h) = Ok (part_cols n r h').
Proof. unfold activated. repeat destruct (String.eqb a _); try done; by intros [= <-]. Qed.

(** What is left is to name the result. *)
Lemma named_runs (params : dict pyval) (k dflt name : string) (p : nat -> proc matrix matrix) (z : matrix) :
  text_param params k dflt = Ok name -> runs n p (fun _ out => out ≡ z) ->
  runs n (fun r => y ← p r; name ← plift (text_param params k dflt); mret [(name, y)]) (fun _ out => same_tensors [(name, z)] out).
Proof.
  intros En Hp. eapply (runs_bind n _ _ _ _ Hn Hp). intros y Hy. apply (runs_step n Hn _ _ (fun _ => name)); [done|].
  apply (runs_ret n Hn). intros r Hr. constructor; [split; [done|symmetry; by apply Hy]|constructor].
Qed.

(** Reading what every rank reads alike. *)
Lemma runs_same {A B} (m : result B) (b : B) (k : nat -> B -> proc matrix A) post : m = Ok b ->
  runs n (fun r => k r b) post -> runs n (fun r => plift m ≫= k r) post.
Proof. intros E. apply (runs_step n Hn (fun _ => m) k (fun _ => b)). done. Qed.

Lemma linear_forward (inputs : dict matrix) params x w bias z name :
  input_named inputs params "x" "x" = Ok x -> input_named inputs params "weight" "W" = Ok w -> bias_of inputs params = Ok bias ->
  shared_evenly n inputs params = true -> whole_linear x w bias = Ok z -> text_param params "output" "y" = Ok name ->
  runs n (fun r => GPTTensorParallelRunner_run_linear (mkContext r n) inputs params) (fun _ out => same_tensors [(name, z)] out).
Proof.
  intros Ex Ew Eb He E En. unfold shared_evenly in He. rewrite Eb, Ew in He. unfold GPTTensorParallelRunner_run_linear.
  eapply runs_same; [exact Ex|]. eapply runs_same; [exact Ew|]. eapply runs_same; [exact Eb|].
  destruct (text_param params "parallel_mode" "column") as [mode|] eqn:Em; [|done]. eapply runs_same; [done|].
  apply andb_true_iff in He as [Hb He]. apply (named_runs params "output" "y" name); [done|]. destruct (String.eqb mode "row").
  - apply negb_true_iff in He. rewrite He. by apply (row_runs false x w z (fun _ => x)).
  - apply andb_true_iff in He as [[-> ->]%andb_true_iff He%Nat.eqb_eq]. apply gathered_runs; [by apply Nat.Lcm0.mod_divide| |done].
    destruct bias; [|done]. by apply bool_decide_eq_true in Hb.
Qed.

Lemma mlp_forward (inputs : dict matrix) params x w1 w2 a z name :
  input_named inputs params "x" "x" = Ok x -> input_named inputs params "w1" "W1" = Ok w1 -> input_named inputs params "w2" "W2" = Ok w2 ->
  text_param params "activation" "gelu" = Ok a -> whole_mlp a x w1 w2 = Ok z -> text_param params "output" "y" = Ok name ->
  runs n (fun r => GPTTensorParallelRunner_run_mlp (mkContext r n) inputs params) (fun _ out => same_tensors [(name, z)] out).
Proof.
  intros Ex Ew1 Ew2 Ea (h & Eh & (h' & Eh' & E)%bind_Ok)%bind_Ok En. unfold GPTTensorParallelRunner_run_mlp.
  eapply runs_same; [exact Ex|]. eapply runs_same; [exact Ew1|]. eapply runs_same; [exact Ew2|].
  eapply (runs_bind n _ _ _ _ Hn (column_runs _ _ _ Eh)). intros hs Hh. eapply runs_same; [exact Ea|].
  apply (runs_step n Hn _ _ (fun r => part_cols n r h')); [intros r Hr; rewrite (Hh r Hr); by apply activated_part|].
  apply (named_runs params "output" "y" name); [done|]. apply (row_runs true h' w2 z (fun r => part_cols n r h') None); [done|].
  unfold whole_linear. cbn in E |- *. by rewrite E.
Qed.
End forward.

(** ** The reference of the gradients *)

(** What a rank holds of a tensor. *)
Inductive share := Whole | Columns | Rows.

Section gradients.
Context {T : Type} `{TensorOps T}.

(** The gradients over whole tensors, each with what a rank reports of it. *)
Definition whole_linear_backward (inputs : dict T) (params : dict pyval) : result (list (string * (share * T))) :=
  x ← input_named inputs params "x" "x"; w ← input_named inputs params "weight" "W"; dy ← input_named inputs params "dy" "dY";
  mode ← text_param params "parallel_mode" "column";
  dx ← tp_matmul dy (tp_transpose w); dw ← GPTTensorParallelRunner_flat_outer x dy;
  dxn ← text_param params "dx" "dX"; dwn ← text_param params "dw" "dW"; db ← optional_text params "db";
  let dbs := match db with Some name => [(name, (Whole, tp_sum_rows (tp_flatten dy)))] | None => [] end in
  if String.eqb mode "column" then Ok ([(dxn, (Whole, dx)); (dwn, (Columns, dw))] ++ dbs)
  else if String.eqb mode "row" then
    Ok ([(dxn, (if truthy (get_or params "gather_dx" (PBool true)) then Whole else Columns, dx)); (dwn, (Rows, dw))] ++ dbs)
  else Err Unmodelled.

Definition whole_mlp_backward (inputs : dict T) (params : dict pyval) : result (list (string * (share * T))) :=
  x ← input_named inputs params "x" "x"; w1 ← input_named inputs params "w1" "W1"; w2 ← input_named inputs params "w2" "W2";
  dy ← input_named inputs params "dy" "dY";
  pre ← tp_matmul x w1; activation ← text_param params "activation" "gelu"; h ← activation_gradient activation pre dy w2;
  dw2 ← GPTTensorParallelRunner_flat_outer h.1 dy; dw1 ← GPTTensorParallelRunner_flat_outer x h.2; dx ← tp_matmul h.2 (tp_transpose w1);
  dxn ← text_param params "dx" "dX"; dw1n ← text_param params "dw1" "dW1"; dw2n ← text_param params "dw2" "dW2";
  Ok [(dxn, (Whole, dx)); (dw1n, (Columns, dw1)); (dw2n, (Rows, dw2))].

Definition whole_backward (inputs : dict T) (params : dict pyval) : result (list (string * (share * T))) :=
  op ← text_param params "tp_op" "linear";
  if String.eqb op "linear_backward" then whole_linear_backward inputs params
  else if String.eqb op "mlp_backward" then whole_mlp_backward inputs params
  else Err Unmodelled.
End gradients.

Section backward.
Context {R : Type} `{ScalarLaws R}.
#[local] Abbreviation matrix := (matrix R).

Definition share_of (n r : nat) (s : share) (m : matrix) : matrix :=
  match s with Whole => m | Columns => part_cols n r m | Rows => part_rows n r m end.

(** What rank [r] reports. *)
Definition reported (n r : nat) (l : list (string * (share * matrix))) : dict matrix :=
  dict_update [] (map (fun g => (g.1, share_of n r g.2.1 g.2.2)) l).

(** The gradient of the input is gathered only from equally wide parts. *)
Definition gathers_evenly (n : nat) (inputs : dict matrix) (params : dict pyval) : bool :=
  match text_param params "tp_op" "linear", text_param params "parallel_mode" "column", input_named inputs params "weight" "W" with
  | Ok op, Ok mode, Ok w =>
      negb (String.eqb op "linear_backward") || negb (String.eqb mode "row") || negb (truthy (get_or params "gather_dx" (PBool true)))
      || (nrows w mod n =? 0)%nat
  | Ok op, _, _ => negb (String.eqb op "linear_backward")
  | _, _, _ => false
  end.

Lemma same_set k (v v' : matrix) d d' : v ≡ v' -> same_tensors d d' -> same_tensors (dict_set k v d) (dict_set k v' d').
Proof.
  intros Hv. revert d'. induction d as [|[k1 v1] d IH]; intros d' Hd; inversion Hd as [|a [k2 v2] ? d2 [Hk Hv2] Hd2]; subst; cbn in *.
  - constructor; [done|constructor].
  - subst k2. destruct (String.eqb k k1); constructor; try done; by apply IH.
Qed.

Lemma same_update (l l' : list (string * matrix)) : forall d d', same_tensors d d' -> same_tensors l l' ->
  same_tensors (dict_update d l) (dict_update d' l').
Proof.
  revert l'. induction l as [|a l IH]; intros l' d d' Hd Hl; inversion Hl as [|? b ? l2 [Hk Hv] Hl2]; subst; [done|].
  cbn. apply IH; [|done]. rewrite Hk. by apply same_set.
Qed.

(** *** Shares of products *)

Lemma outer_columns n r (x dy dw : matrix) : GPTTensorParallelRunner_flat_outer x dy = Ok dw ->
  GPTTensorParallelRunner_flat_outer x (part_cols n r dy) = Ok (part_cols n r dw).
Proof. intros (k & Hk & Hr & ->)%matmul_Ok. exact (matmul_intro (mx_transpose (mx_flatten x)) (mx_flatten (part_cols n r dy)) k Hk Hr). Qed.

Lemma outer_rows n r (x dy dw : matrix) : GPTTensorParallelRunner_flat_outer x dy = Ok dw ->
  GPTTensorParallelRunner_flat_outer (part_cols n r x) dy = Ok (part_rows n r dw).
Proof.
  intros (k & Hk & Hr & ->)%matmul_Ok.
  exact (matmul_intro (mx_transpose (mx_flatten (part_cols n r x))) (mx_flatten dy) (part_len (mx_cols x) n r) eq_refl Hr).
Qed.

(** Against the rows of the weights: the columns of the product. *)
Lemma back_columns n r (dy w dx : matrix) : mx_matmul dy (mx_transpose w) = Ok dx ->
  is_Some (mx_rows w) /\ mx_cols dx = nrows w /\ mx_matmul dy (mx_transpose (part_rows n r w)) = Ok (part_cols n r dx).
Proof.
  intros (k & Hk & Hr & ->)%matmul_Ok. destruct w as [[m|] c at_]; [|done]. split_and!; [by eexists|done|].
  exact (matmul_intro dy (mx_transpose (part_rows n r (mkMatrix (Some m) c at_))) k Hk Hr).
Qed.

(** Against the columns of the weights: summands of the product. *)
Lemma back_shares n (dy w dx : matrix) : (0 < n)%nat -> mx_matmul dy (mx_transpose w) = Ok dx ->
  is_Some (mx_rows w) /\ is_Some (mx_rows dy) /\
  (forall r, mx_matmul (part_cols n r dy) (mx_transpose (part_cols n r w)) = Ok (mx_product (part_cols n r dy) (mx_transpose (part_cols n r w)))) /\
  mx_total n (fun r => mx_product (part_cols n r dy) (mx_transpose (part_cols n r w))) ≡ dx.
Proof.
  intros Hn (k & Hk & Hr & ->)%matmul_Ok. destruct w as [[m|] c at_]; [|done]. cbn in Hr. injection Hr as ->.
  split_and!; [by eexists|by eexists|intros r; exact (matmul_intro (part_cols n r dy) (mx_transpose (part_cols n r (mkMatrix (Some m) (mx_cols dy) at_))) k Hk eq_refl)|].
  split; [done|]. split; [done|]. intros i j _ _.
  exact (sum_parts (mx_cols dy) n (fun k => s_mul (mx_at dy i k) (at_ j k)) Hn).
Qed.

Lemma mul_part n r (a b c : matrix) : mx_mul a b = Ok c -> mx_mul (part_cols n r a) (part_cols n r b) = Ok (part_cols n r c).
Proof.
  unfold mx_mul, mx_shape. destruct a as [[ka|] ca ata], b as [[kb|] cb atb]; cbn; destruct (bool_decide _) eqn:E; try done;
    apply bool_decide_eq_true in E; injection E; intros; simplify_eq; rewrite bool_decide_true by done; done.
Qed.

Lemma add_part n r (a b c : matrix) : mx_shape a = mx_shape b -> mx_add a b = Ok c ->
  mx_add (part_cols n r a) (part_cols n r b) = Ok (part_cols n r c).
Proof.
  unfold mx_add, mx_shape. intros E. rewrite bool_decide_true by done. destruct a as [[ka|] ca ata], b as [[kb|] cb atb]; cbn in *; try done;
    injection E; intros; simplify_eq; rewrite bool_decide_true by done; done.
Qed.

Lemma gelu_grad_part n r (pre g : matrix) : GPTTensorParallelRunner_gelu_grad pre = Ok g ->
  GPTTensorParallelRunner_gelu_grad (part_cols n r pre) = Ok (part_cols n r g).
Proof.
  unfold GPTTensorParallelRunner_gelu_grad. cbn [tp_map tp_mul tp_add matrix_ops mbind result_bind].
  intros (xx & Ex & (dn & Ed & E)%bind_Ok)%bind_Ok.
  rewrite (mul_part n r _ _ _ Ex : mx_mul (mx_map _ (part_cols n r pre)) (part_cols n r pre) = _). cbn [mbind result_bind].
  rewrite (mul_part n r _ _ _ Ed : mx_mul (mx_map _ (mx_map _ (part_cols n r pre))) (mx_map Exp (part_cols n r xx)) = _). cbn [mbind result_bind].
  refine (add_part n r _ _ _ _ E). unfold mx_mul in Ed. destruct (bool_decide _); [|done]. by injection Ed as <-.
Qed.

Lemma silu_grad_part n r (pre g : matrix) : silu_grad pre = Ok g -> silu_grad (part_cols n r pre) = Ok (part_cols n r g).
Proof.
  unfold silu_grad. cbn [tp_map tp_mul matrix_ops]. intros (u & Eu & E)%bind_Ok.
  rewrite (mul_part n r _ _ _ Eu : mx_mul (part_cols n r pre) (mx_map _ (mx_map _ (part_cols n r pre))) = _). cbn [mbind result_bind].
  exact (mul_part n r _ _ _ E).
Qed.

Lemma activation_gradient_part n r a (pre dy w2 : matrix) h : activation_gradient a pre dy w2 = Ok h ->
  is_Some (mx_rows w2) /\ activation_gradient a (part_cols n r pre) dy (part_rows n r w2) = Ok (part_cols n r h.1, part_cols n r h.2).
Proof.
  unfold activation_gradient. cbn [tp_matmul tp_mul tp_map tp_transpose matrix_ops].
  destruct (String.eqb a "gelu"); [|destruct (String.eqb a "silu"); [|destruct (String.eqb a "identity"); [|done]]].
  - intros (dh & (Hw & _ & Edh)%(back_columns n r) & (g & Eg & (d & Ed & [= <-])%bind_Ok)%bind_Ok)%bind_Ok. split; [done|]. rewrite Edh.
    cbn [mbind result_bind]. rewrite (gelu_grad_part n r _ _ Eg). cbn [mbind result_bind]. by rewrite (mul_part n r _ _ _ Ed).
  - intros (dh & (Hw & _ & Edh)%(back_columns n r) & (g & Eg & (d & Ed & [= <-])%bind_Ok)%bind_Ok)%bind_Ok. split; [done|]. rewrite Edh.
    cbn [mbind result_bind]. rewrite (silu_grad_part n r _ _ Eg). cbn [mbind result_bind]. by rewrite (mul_part n r _ _ _ Ed).
  - intros (dh & (Hw & _ & Edh)%(back_columns n r) & [= <-])%bind_Ok. split; [done|]. by rewrite Edh.
Qed.

(** *** Naming the gradients *)

Lemma named_two params k1 d1 k2 d2 n1 n2 (t1 t2 : matrix) : text_param params k1 d1 = Ok n1 -> text_param params k2 d2 = Ok n2 ->
  named_outputs params [(k1, d1, t1); (k2, d2, t2)] = mret (dict_update [] [(n1, t1); (n2, t2)]).
Proof. intros E1 E2. unfold named_outputs. cbn [mapR fst snd mbind result_bind]. by rewrite E1, E2. Qed.

Lemma named_three params k1 d1 k2 d2 k3 d3 n1 n2 n3 (t1 t2 t3 : matrix) : text_param params k1 d1 = Ok n1 -> text_param params k2 d2 = Ok n2 ->
  text_param params k3 d3 = Ok n3 ->
  named_outputs params [(k1, d1, t1); (k2, d2, t2); (k3, d3, t3)] = mret (dict_update [] [(n1, t1); (n2, t2); (n3, t3)]).
Proof. intros E1 E2 E3. unfold named_outputs. cbn [mapR fst snd mbind result_bind]. by rewrite E1, E2, E3. Qed.

Context (n : nat) (Hn : (0 < n)%nat).

(** The gradient of the bias is added last. *)
Lemma bias_gradient_runs params (dy : matrix) db (l : list (string * (share * matrix))) (p : nat -> proc matrix (dict matrix)) :
  optional_text params "db" = Ok db -> runs n p (fun r o => same_tensors (reported n r l) o) ->
  runs n (fun r => o ← p r; bias_gradient params dy o)
    (fun r o => same_tensors (reported n r (l ++ match db with Some name => [(name, (Whole, mx_sum_rows (mx_flatten dy)))] | None => [] end)) o).
Proof.
  intros Ed Hp. eapply (runs_bind n _ _ _ _ Hn Hp). intros o Ho. unfold bias_gradient. eapply (runs_same n Hn); [exact Ed|].
  apply (runs_ret n Hn). intros r Hr. unfold reported in *. rewrite map_app. unfold dict_update in *. rewrite fold_left_app.
  destruct db; cbn; [apply same_set; [done|]|]; by apply Ho.
Qed.

Lemma report_two params k1 d1 k2 d2 n1 n2 s1 s2 (g1 g2 : matrix) (t1 t2 : nat -> matrix) :
  text_param params k1 d1 = Ok n1 -> text_param params k2 d2 = Ok n2 ->
  (forall r, (r < n)%nat -> share_of n r s1 g1 ≡ t1 r) -> (forall r, (r < n)%nat -> share_of n r s2 g2 ≡ t2 r) ->
  runs n (fun r => named_outputs params [(k1, d1, t1 r); (k2, d2, t2 r)]) (fun r o => same_tensors (reported n r [(n1, (s1, g1)); (n2, (s2, g2))]) o).
Proof.
  intros E1 E2 H1 H2. eapply (runs_ext n Hn); [intros r _; by apply named_two|]. apply (runs_ret n Hn). intros r Hr.
  apply same_update; [constructor|]. repeat (constructor; [split; [done|cbn; by auto]|]). constructor.
Qed.

Lemma report_three params k1 d1 k2 d2 k3 d3 n1 n2 n3 s1 s2 s3 (g1 g2 g3 : matrix) (t1 t2 t3 : nat -> matrix) :
  text_param params k1 d1 = Ok n1 -> text_param params k2 d2 = Ok n2 -> text_param params k3 d3 = Ok n3 ->
  (forall r, (r < n)%nat -> share_of n r s1 g1 ≡ t1 r) -> (forall r, (r < n)%nat -> share_of n r s2 g2 ≡ t2 r) ->
  (forall r, (r < n)%nat -> share_of n r s3 g3 ≡ t3 r) ->
  runs n (fun r => named_outputs params [(k1, d1, t1 r); (k2, d2, t2 r); (k3, d3, t3 r)])
    (fun r o => same_tensors (reported n r [(n1, (s1, g1)); (n2, (s2, g2)); (n3, (s3, g3))]) o).
Proof.
  intros E1 E2 E3 H1 H2 H3. eapply (runs_ext n Hn); [intros r _; by apply named_three|]. apply (runs_ret n Hn). intros r Hr.
  apply same_update; [constructor|]. repeat (constructor; [split; [done|cbn; by auto]|]). constructor.
Qed.

(** The gradient of the input over the columns of the weights is summed over
    the ranks. *)
Lemma reduced_runs {A} (dy w dx : matrix) (k : nat -> matrix -> proc matrix A) post : mx_matmul dy (mx_transpose w) = Ok dx ->
  (forall s, s ≡ dx -> runs n (fun r => k r s) post) ->
  runs n (fun r => dx ← plift (tp_matmul (part_cols n r dy) (tp_transpose (part_cols n r w))); dx ← maybe_all_reduce dx (mkContext r n); k r dx) post.
Proof.
  intros E Hk. destruct (back_shares n _ _ _ Hn E) as ([m Hm] & _ & Hp & Ht).
  apply (runs_step n Hn _ _ (fun r => mx_product (part_cols n r dy) (mx_transpose (part_cols n r w)))); [intros r _; apply Hp|].
  apply (runs_reduce n Hn); [|intros s Hs; apply Hk; by rewrite Hs].
  intros r _. unfold mx_shape, mx_product, mx_transpose, part_cols. cbn. by rewrite Hm.
Qed.

Lemma linear_backward_runs (inputs : dict matrix) params l : whole_linear_backward inputs params = Ok l ->
  text_param params "tp_op" "linear" = Ok "linear_backward" -> gathers_evenly n inputs params = true ->
  runs n (fun r => GPTTensorParallelRunner_run_linear_backward (mkContext r n) inputs params) (fun r o => same_tensors (reported n r l) o).
Proof.
  intros (x & Ex & (w & Ew & (dy & Edy & (mode & Em & (dx & Edx & (dw & Edw & (dxn & Exn & (dwn & Ewn & (db & Edb & E)
    %bind_Ok)%bind_Ok)%bind_Ok)%bind_Ok)%bind_Ok)%bind_Ok)%bind_Ok)%bind_Ok)%bind_Ok Eop He. unfold gathers_evenly in He.
  rewrite Eop, Em, Ew in He. cbn in He. unfold GPTTensorParallelRunner_run_linear_backward.
  eapply (runs_same n Hn); [exact Ex|]. eapply (runs_same n Hn); [exact Ew|]. eapply (runs_same n Hn); [exact Edy|].
  eapply (runs_same n Hn); [exact Em|]. destruct (String.eqb_spec mode "column") as [->|_].
  - injection E as <-. apply (bias_gradient_runs params dy db [_; _]); [done|].
    destruct (back_shares n _ _ _ Hn Edx) as (Hw & Hdy & _).
    apply (runs_step n Hn _ _ (fun r => part_cols n r w)); [intros r Hr; apply split_columns; auto|].
    apply (runs_step n Hn _ _ (fun r => part_cols n r dy)); [intros r Hr; apply split_columns; auto|].
    apply (reduced_runs dy w dx); [done|]. intros s Hs.
    apply (runs_step n Hn _ _ (fun r => part_cols n r dw)); [intros r Hr; by apply outer_columns|].
    by apply report_two.
  - destruct (String.eqb mode "row"); [|done]. injection E as <-. apply (bias_gradient_runs params dy db [_; _]); [done|].
    destruct (back_columns n 0 _ _ _ Edx) as (Hw & Hc & _).
    assert (split_runs : forall r, (r < n)%nat -> exists x', split_for_rank x (mkContext r n) (-1) = Ok x' /\ x' = part_cols n r x).
    { intros r Hr. eexists. split; [|done]. destruct (mx_rows x) eqn:Hx; [by apply split_columns; auto|].
      unfold split_for_rank. cbn [tp_tensor_split matrix_ops tc_rank tc_world_size]. unfold mx_tensor_split. rewrite Hx. by rewrite nth_part. }
    apply (runs_step n Hn _ _ (fun r => part_cols n r x)); [intros r Hr; by destruct (split_runs r Hr) as (? & -> & ->)|].
    apply (runs_step n Hn _ _ (fun r => part_rows n r w)); [intros r Hr; apply split_rows; auto|].
    apply (runs_step n Hn _ _ (fun r => part_cols n r dx)); [intros r Hr; apply (back_columns n r _ _ _ Edx)|].
    destruct (truthy (get_or params "gather_dx" (PBool true))).
    + apply (runs_gather n Hn dx); [rewrite Hc; by apply Nat.Lcm0.mod_divide, Nat.eqb_eq|done|]. intros s Hs.
      apply (runs_step n Hn _ _ (fun r => part_rows n r dw)); [intros r Hr; by apply outer_rows|]. by apply report_two.
    + apply (runs_step n Hn (fun r => Ok (part_cols n r dx)) _ (fun r => part_cols n r dx)); [done|].
      apply (runs_step n Hn _ _ (fun r => part_rows n r dw)); [intros r Hr; by apply outer_rows|]. by apply report_two.
Qed.

Lemma mlp_backward_runs (inputs : dict matrix) params l : whole_mlp_backward inputs params = Ok l ->
  runs n (fun r => GPTTensorParallelRunner_run_mlp_backward (mkContext r n) inputs params) (fun r o => same_tensors (reported n r l) o).
Proof.
  intros (x & Ex & (w1 & Ew1 & (w2 & Ew2 & (dy & Edy & (pre & Epre & (a & Ea & (h & Eh & (dw2 & Edw2 & (dw1 & Edw1 & (dx & Edx &
    (dxn & Exn & (dw1n & E1n & (dw2n & E2n & [= <-])
    %bind_Ok)%bind_Ok)%bind_Ok)%bind_Ok)%bind_Ok)%bind_Ok)%bind_Ok)%bind_Ok)%bind_Ok)%bind_Ok)%bind_Ok)%bind_Ok)%bind_Ok.
  destruct (activation_gradient_part n 0 _ _ _ _ _ Eh) as [Hw2 _]. destruct (back_shares n _ _ _ Hn Edx) as (Hw1 & _).
  unfold GPTTensorParallelRunner_run_mlp_backward.
  eapply (runs_same n Hn); [exact Ex|]. eapply (runs_same n Hn); [exact Ew1|]. eapply (runs_same n Hn); [exact Ew2|].
  eapply (runs_same n Hn); [exact Edy|].
  apply (runs_step n Hn _ _ (fun r => part_cols n r w1)); [intros r Hr; apply split_columns; auto|].
  apply (runs_step n Hn _ _ (fun r => part_rows n r w2)); [intros r Hr; by apply split_rows|].
  apply (runs_step n Hn _ _ (fun r => part_cols n r pre)).
  { intros r _. destruct (matmul_Ok _ _ _ Epre) as (k & Hk & Hr & ->). exact (matmul_intro x (part_cols n r w1) k Hk Hr). }
  eapply (runs_same n Hn); [exact Ea|].
  apply (runs_step n Hn _ _ (fun r => (part_cols n r h.1, part_cols n r h.2))); [intros r _; apply (activation_gradient_part n r _ _ _ _ _ Eh)|].
  apply (runs_step n Hn _ _ (fun r => part_rows n r dw2)); [intros r _; by apply outer_rows|].
  apply (runs_step n Hn _ _ (fun r => part_cols n r dw1)); [intros r _; by apply outer_columns|].
  apply (reduced_runs h.2 w1 dx); [done|]. intros s Hs. by apply report_three.
Qed.
End backward.

(** Two that agree with a third agree. *)
Lemma same_tensors_via {R} `{Scalars R} (d a b : dict (matrix R)) : same_tensors d a -> same_tensors d b -> same_tensors a b.
Proof.
  intros Ha. revert b. induction Ha as [|x y d a [H1 H2] Ha IH]; intros b Hb; inversion Hb as [|? z ? b2 [H3 H4] Hb2]; subst; constructor.
  - split; [congruence|]. by rewrite <- H2.
  - by apply IH.
Qed.

Lemma forward_runs {R} `{ScalarLaws R} n (inputs : dict (matrix R)) (params : dict pyval) (out : dict (matrix R)) :
  (0 < n)%nat -> whole_forward inputs params = Ok out -> evenly n inputs params = true ->
  runs n (fun r => GPTTensorParallelRunner_run (mkContext r n) inputs params) (fun _ o => same_tensors out o).
Proof.
  intros Hn E He. unfold whole_forward in E. apply bind_Ok in E as (op & Eop & (x & Ex & (z & Ez & (name & En & [= <-])%bind_Ok)%bind_Ok)%bind_Ok).
  unfold GPTTensorParallelRunner_run. eapply (runs_same n Hn); [exact Eop|]. unfold evenly in He. rewrite Eop in He.
  destruct (String.eqb op "linear").
  - apply bind_Ok in Ez as (w & Ew & (bias & Eb & Ez)%bind_Ok). by eapply linear_forward.
  - destruct (String.eqb_spec op "mlp") as [->|]; [|done].
    apply bind_Ok in Ez as (w1 & Ew1 & (w2 & Ew2 & (a & Ea & Ez)%bind_Ok)%bind_Ok). by eapply mlp_forward.
Qed.

(** What divides evenly over a group needs no more on one rank. *)
Lemma evenly_one {R} `{Scalars R} n (inputs : dict (matrix R)) params : evenly n inputs params = true -> evenly 1 inputs params = true.
Proof.
  unfold evenly, shared_evenly. destruct (text_param params "tp_op" "linear"); [|done]. destruct (negb _); [done|]. cbn [orb].
  destruct (bias_of inputs params) as [bias|]; [|done]. destruct (input_named inputs params _ _) as [w|]; [|done].
  destruct (text_param params "parallel_mode" "column"); [|done]. intros [Hb He]%andb_true_iff. rewrite Hb. destruct (String.eqb _ "row"); [done|].
  apply andb_true_iff in He as [-> _]. by rewrite Nat.mod_1_r.
Qed.



(** ** Runs *)

#[export] Instance Z_scalars : Scalars Z := {|
  s_zero := 0%Z; s_add := Z.add; s_mul := Z.mul;
  s_fun u z := match u with Sigmoid => Z.max 0 z | Silu | Gelu => Z.max 0 (2 * z) | Exp => (z * z)%Z | _ => (z + 1)%Z end
|}.
#[export] Instance Z_scalar_laws : ScalarLaws Z.
Proof. split; intros; cbn; lia. Qed.

Definition of_lists (l : list (list Z)) : matrix Z :=
  mkMatrix (Some (length l)) (length (default [] (head l))) (fun i j => nth j (nth i l []) 0%Z).
Definition entries (m : matrix Z) : list (list Z) := map (fun i => map (mx_at m i) (seq 0 (mx_cols m))) (seq 0 (nrows m)).

(** A perceptron with three hidden units on two ranks: two units and one. *)
Definition small_inputs : dict (matrix Z) :=
  [("x", of_lists [[1; 2]; [3; -1]]%Z); ("W1", of_lists [[1; 0; 2]; [-1; 3; 1]]%Z); ("W2", of_lists [[1; 1]; [0; 2]; [5; -3]]%Z);
   ("dY", of_lists [[1; 0]; [2; 1]]%Z)].
Definition small_params (op : string) : dict pyval := [("tp_op", PStr op); ("activation", PStr "silu")].


