(* ===== verification/Mlp.v ===== *)
(** * Round tasks

    [teuton_tasks/__init__.py]: the interface of a round task and the registry
    of task names.  [teuton_tasks/mlp.py]: the graphs of the MLP task, built
    with the builder of the tensor IR.  Its random initial weights are a
    parameter. *)

From Stdlib Require Import ZArith Lia Ascii.
From stdpp Require Import base strings list.
From S2P Require Import Prelude PyFloat PyVal Json Digest Signatures Codec Protocol Ir Tensors.

(** ** The interface and the registry *)

Record RoundTask `{Torch} := mkRoundTask {
  rt_N_UB : Z;
  rt_INNER_REPLICAS : Z;
  rt_graph_bundle : result (dict Graph);
  rt_initial_weights : result (tensor * tensor);
  rt_build_reduce_graph : Z -> result Graph
}.

Definition NATIVE_ROUND_TASKS : list string := ["mlp"].

Definition LEGACY_ROUND_TASKS : list string :=
  ["adam_mlp"; "data_parallel_mlp"; "legacy_mlp"; "locoprop_mlp"; "pluralis_asymmetric"; "pluralis_demo";
   "pluralis_full"; "pluralis_gpt_10M"; "pluralis_gpt_10M_v3"; "pluralis_grassmann"; "pluralis_grouped";
   "pluralis_int8"; "pluralis_lossless_wire"; "pluralis_subspace"; "pluralis_tied"; "relu_mlp"; "sign_loco_mlp";
   "tiny_gpt"].

Definition STREAMING_TASKS : list string := ["gpt_pipe"; "pipe_demo"; "pipe_train"].

Definition KNOWN_TASKS : list string := NATIVE_ROUND_TASKS ++ LEGACY_ROUND_TASKS.

(** [repr] of a list of plain names. *)
Definition names_repr (l : list string) : string := "[" +:+ str_join ", " (map quoted l) +:+ "]".

(** [import_module] is the function from a name to the module's task. *)
Definition load_task {T} (import_module : string -> result T) (name : string) : result T :=
  if bool_decide (name ∈ STREAMING_TASKS) then
    Err (ValueError ("task " +:+ quoted name +:+ " is a streaming task. Its IR builders are available under teuton_tasks and should be run through StreamingRunManager."))
  else if bool_decide (name ∈ LEGACY_ROUND_TASKS) then
    Err (ValueError ("task " +:+ quoted name +:+ " is preserved from v2 under teuton_tasks." +:+ name +:+ ", but the v3 RunManager supports only native round tasks. Use the `teuton-v2-legacy` runner for v2-style round orchestration."))
  else if negb (bool_decide (name ∈ KNOWN_TASKS)) then
    Err (ValueError ("unknown v3 task " +:+ quoted name +:+ "; known=" +:+ names_repr (sorted_strings (KNOWN_TASKS ++ STREAMING_TASKS))))
  else import_module name.

Definition load_streaming_task {T} (import_module : string -> result T) (name : string) : result T :=
  if negb (bool_decide (name ∈ STREAMING_TASKS)) then
    Err (ValueError ("unknown v3 streaming task " +:+ quoted name +:+ "; known=" +:+ names_repr (sorted_strings STREAMING_TASKS)))
  else import_module name.

(** ** The MLP task *)

Definition D : Z := 16.
Definition B_TRAIN : Z := 64.
Definition B_EVAL : Z := 256.
Definition N_UB : Z := 2.
Definition INNER_REPLICAS : Z := 2.
Definition INNER_LR : float := flit 1 (-2).
Definition OUTER_LR : float := fone.
Definition TEACHER_SEED : Z := 1234.
Definition EVAL_SEED : Z := 9999.
Definition DTYPE : string := "float32".

Definition square : list Z := [D; D].

(** [gb.emit("normal", args=[], kwargs={"seed", "shape", "dtype"})]. *)
Definition emit_normal (seed : pyval) (rows : Z) : ST GraphBuilder ref :=
  GraphBuilder_emit "normal" [] (Some [("seed", seed); ("shape", PList [PInt rows; PInt D]); ("dtype", PStr DTYPE)]) [].

Definition swap_axes (r : ref) : ST GraphBuilder ref := GraphBuilder_transpose r [PInt 1; PInt 0].

Definition forward_program : ST GraphBuilder unit :=
  w0 ← GraphBuilder_input "weights_0" square DTYPE;
  w1 ← GraphBuilder_input "weights_1" square DTYPE;
  _ ← GraphBuilder_param "round_id" "int";
  x ← emit_normal (PDict (ref_param "round_id")) B_TRAIN;
  t1 ← emit_normal (PInt TEACHER_SEED) D;
  t2 ← emit_normal (PInt (TEACHER_SEED + 1)) D;
  xt ← GraphBuilder_matmul x t1;
  y_true ← GraphBuilder_matmul xt t2;
  h ← GraphBuilder_matmul x w0;
  y ← GraphBuilder_matmul h w1;
  err ← GraphBuilder_sub y y_true;
  dL_dy ← GraphBuilder_mul err (GraphBuilder_const (PFloat (fdiv (float_of_Z 2) (float_of_Z B_TRAIN))));
  ht ← swap_axes h;
  dL_dW2 ← GraphBuilder_matmul ht dL_dy;
  w1t ← swap_axes w1;
  dL_dh ← GraphBuilder_matmul dL_dy w1t;
  xtr ← swap_axes x;
  dL_dW1 ← GraphBuilder_matmul xtr dL_dh;
  n1 ← GraphBuilder_neg dL_dW1;
  _ ← GraphBuilder_output "target_0" n1;
  n2 ← GraphBuilder_neg dL_dW2;
  GraphBuilder_output "target_1" n2.

(** [gb = GraphBuilder(); ...; return gb.build()]. *)
Definition built (program : ST GraphBuilder unit) : result Graph :=
  match program GraphBuilder_init with
  | (b, Ok _) => Ok (GraphBuilder_build b)
  | (_, Err e) => Err e
  end.

Definition build_forward_graph : result Graph := built forward_program.

Definition build_inner_graph : result Graph := built (
  _ ← GraphBuilder_input "weights" square DTYPE;
  target ← GraphBuilder_input "target" square DTYPE;
  delta ← GraphBuilder_mul target (GraphBuilder_const (PFloat INNER_LR));
  GraphBuilder_output "delta" delta).

(** One unsqueezed input of the reduction. *)
Definition reduce_input (i : Z) : ST GraphBuilder ref :=
  d ← GraphBuilder_input ("d_" +:+ py_str_int i) square DTYPE;
  GraphBuilder_unsqueeze d 0.

Definition build_reduce_graph (n_inputs : Z) : result Graph := built (
  refs ← mapS reduce_input (py_range n_inputs);
  stack ← match refs with [r] => mret r | _ => GraphBuilder_concat refs 0 end;
  reduced ← GraphBuilder_mean stack (PInt 0) false;
  GraphBuilder_output "reduced" reduced).

Definition build_outer_graph : result Graph := built (
  weights ← GraphBuilder_input "weights" square DTYPE;
  reduced ← GraphBuilder_input "reduced_delta" square DTYPE;
  step ← GraphBuilder_mul reduced (GraphBuilder_const (PFloat OUTER_LR));
  sum ← GraphBuilder_add weights step;
  GraphBuilder_output "new_weights" sum).

Definition build_eval_graph : result Graph := built (
  w0 ← GraphBuilder_input "weights_0" square DTYPE;
  w1 ← GraphBuilder_input "weights_1" square DTYPE;
  x ← emit_normal (PInt EVAL_SEED) B_EVAL;
  t1 ← emit_normal (PInt TEACHER_SEED) D;
  t2 ← emit_normal (PInt (TEACHER_SEED + 1)) D;
  xt ← GraphBuilder_matmul x t1;
  y_true ← GraphBuilder_matmul xt t2;
  xw ← GraphBuilder_matmul x w0;
  y ← GraphBuilder_matmul xw w1;
  err ← GraphBuilder_sub y y_true;
  sq ← GraphBuilder_mul err err;
  m ← GraphBuilder_mean sq PNone false;
  metrics ← GraphBuilder_unsqueeze m 0;
  GraphBuilder_output "metrics" metrics).

Definition graph_bundle : result (dict Graph) :=
  forward ← build_forward_graph;
  inner ← build_inner_graph;
  outer ← build_outer_graph;
  eval ← build_eval_graph;
  Ok [("forward", forward); ("inner", inner); ("outer", outer); ("eval", eval)].

Definition mlp_task `{Torch} (initial_weights : result (tensor * tensor)) : RoundTask :=
  mkRoundTask _ N_UB INNER_REPLICAS graph_bundle initial_weights build_reduce_graph.
