(* ===== verification/RunManager.v ===== *)
(** * The run manager ([teuton_orchestrator/run_manager.py])

    The orchestrator of a round task: it waits for workers, emits the jobs of a
    step in dataflow order with the outputs of the jobs before as inputs, waits
    for their outputs, and records the step it has reached.  Loops that wait on
    the clock are bounded by [fuel]. *)

From Stdlib Require Import ZArith Lia Ascii.
From stdpp Require Import base strings list.
From S2P Require Import Prelude PyFloat PyVal Json Digest Paths Signatures Codec Protocol.
From S2P Require Import Storage StoreReads Queue Transport Discovery Scheduler Crypto WalletCrypto Emission Ir Tensors Mlp.

Record RunConfig := mkRunConfig {
  rc_netuid : Z;
  rc_run_id : string;
  rc_task : string;
  rc_max_steps : Z;
  rc_owner_secret : string;
  rc_owner_signer : option Signer;
  rc_crypto_policy : option ArtifactCryptoPolicy;
  rc_grant_mode : string;
  rc_grant_ttl_sec : Z;
  rc_assignment_secret : string;
  rc_assignment_crypto : string;
  rc_network : string;
  rc_discovery_backend : string;
  rc_discovery_heartbeat_ttl_sec : option float;
  rc_max_inflight_per_hotkey : Z
}.

(** [self.config.owner_signer or self.config.owner_secret]. *)
Definition rc_owner_key (cfg : RunConfig) : signer_or_secret :=
  match rc_owner_signer cfg with Some s => BySigner s | None => BySecret (rc_owner_secret cfg) end.

Section run_manager.
Context {S : Type} `{ObjectStore S} `{SigLib} `{TT : Torch}.
Context (clock : nat -> float) (btcli_show : Z -> string -> Z -> result pyval).
Context (env : nat -> S -> S) (flusher : nat -> option (Z * Z)).
(** What a loop answers when its bound is spent. *)
Context (spent : exn).
Context (cfg : RunConfig) (task : RoundTask) (graphs : dict Graph).
Context (backend : BucketDiscoveryBackend) (broker : option PresignedUrlBroker) (encryptor : AssignmentEncryptor).
Notation manager := (manager S).

Definition run_uri (key : string) : ST manager string := bucket_do (uri_of key).
Definition put_object (uri data : string) : ST manager unit := bucket_do (os_put uri data).
Definition put_document (uri : string) (v : pyval) : ST manager unit := bucket_do (os_put_json uri v).
Definition nap : ST manager unit := sleep env flusher.

(** ** State and workers *)

Definition RunManager_save_state (state : dict pyval) : ST manager unit :=
  uri ← run_uri (state_key (rc_netuid cfg) (rc_run_id cfg)); put_document uri (PDict state).

Definition state_document (step : pyval) : dict pyval :=
  [("run_id", PStr (rc_run_id cfg)); ("current_step", step); ("max_steps", PInt (rc_max_steps cfg))].

(** [self.bucket.get_json(state_uri).get("current_step", 0)]. *)
Definition read_step : ST manager pyval :=
  uri ← run_uri (state_key (rc_netuid cfg) (rc_run_id cfg));
  v ← bucket_do (os_get_json uri);
  d ← st_lift (as_object v);
  mret (get_or d "current_step" (PInt 0)).

Definition put_weights (ub : Z) (w : tensor) : ST manager unit :=
  uri ← run_uri (weights_key (rc_netuid cfg) (rc_run_id cfg) 0 ub);
  body ← st_lift (encode_tensor w);
  put_object uri body.

Definition put_graph (graph : Graph) : ST manager unit :=
  uri ← run_uri (graph_key (rc_netuid cfg) (rc_run_id cfg) (Graph_graph_id graph));
  put_object uri (Graph_to_canonical_json graph).

Definition RunManager_bootstrap : ST manager unit :=
  ws ← st_lift (rt_initial_weights task);
  _ ← put_weights 0 ws.1;
  _ ← put_weights 1 ws.2;
  _ ← mapS put_graph (dict_values graphs);
  uri ← run_uri (manifest_config_key (rc_netuid cfg) (rc_run_id cfg));
  _ ← put_document uri (PDict [("task", PStr (rc_task cfg)); ("max_steps", PInt (rc_max_steps cfg));
                               ("netuid", PInt (rc_netuid cfg))]);
  RunManager_save_state (state_document (PInt 0)).

Definition RunManager_discover_workers : ST manager (list WorkerIdentity) :=
  now ← read_clock clock;
  records ← bucket_do (BucketDiscoveryBackend_discover_workers backend now);
  let workers := map dr_worker records in
  _ ← quota_do (fun b => (QuotaBook_update_workers b (map dr_miner records) workers, Ok tt));
  mret workers.

Fixpoint RunManager_wait_for_workers (fuel : nat) (deadline : float) : ST manager unit :=
  match fuel with
  | O => st_raise spent
  | Datatypes.S fuel' =>
      t ← read_clock clock;
      if fltb t deadline then
        workers ← RunManager_discover_workers;
        match workers with
        | _ :: _ => mret tt
        | [] =>
            step ← read_step;
            _ ← RunManager_save_state (state_document step ++ [("status", PStr "waiting_for_miners")]);
            _ ← nap;
            RunManager_wait_for_workers fuel' deadline
        end
      else st_raise (TimeoutError ("no miners heartbeated for run " +:+ rc_run_id cfg))
  end.

(** ** Emission *)

(** Workers whose queue is not full. *)
Definition RunManager_pick_worker : ST manager WorkerIdentity :=
  m ← st_get;
  quota_do (QuotaBook_pick_worker fone None
    (Some (fun hk => (OrchestratorQueue_depth (mg_queue m) (Some hk) <? rc_max_inflight_per_hotkey cfg)%Z))).

Definition RunManager_output_ref (name uri : string) : ArtifactRef := mkRef name uri None None (rc_crypto_policy cfg).

Definition RunManager_weight_ref (name : string) (step ub : Z) : ST manager ArtifactRef :=
  uri ← run_uri (weights_key (rc_netuid cfg) (rc_run_id cfg) step ub);
  mret (mkRef name uri None None (if (0 <? step)%Z then rc_crypto_policy cfg else None)).

Definition RunManager_emit_assignment_grant (manifest : JobManifestV3) : ST manager (option string) :=
  match broker with
  | None => mret None
  | Some b =>
      grant ← new_assignment_grant clock b (rc_grant_ttl_sec cfg) (rc_netuid cfg) manifest;
      file_grant btcli_show encryptor
        (assignment_key (rc_netuid cfg) (jm_run_id manifest) (jm_job_id manifest) (jm_assigned_hotkey manifest))
        grant (jm_assigned_hotkey manifest)
  end.

Definition RunManager_emit_job (kind : string) (step : Z) (graph : Graph) (params : dict pyval)
    (inputs outputs : list ArtifactRef) (worker : WorkerIdentity) (job_id : option string) : ST manager JobManifestV3 :=
  now ← unix_now clock;
  let sha := Graph_graph_id graph in
  graph_uri ← run_uri (graph_key (rc_netuid cfg) (rc_run_id cfg) sha);
  there ← bucket_do (os_exists graph_uri);
  _ ← (if (there : bool) then mret tt else put_object graph_uri (Graph_to_canonical_json graph));
  let job_id := str_or_default job_id ("step" +:+ py_str_int step +:+ "-" +:+ kind) in
  requirements ← st_lift (resource_requirements params);
  outputs ← st_lift (mapR (fun ref => resolve_output_crypto ref worker) outputs);
  published ← publish_job (rc_owner_key cfg) (job_manifest_key (rc_netuid cfg) (rc_run_id cfg) job_id)
    RunManager_emit_assignment_grant
    (mkManifest job_id (rc_run_id cfg) step kind (mkGraphRef sha graph_uri) params inputs outputs
       (wi_hotkey_ss58 worker) (Some (wi_worker_id worker)) 0 (now + 600) now requirements
       (mkVerification "replay_ir_v1" "auto" (flit 1 (-3)) (flit 1 (-4)) 4096 0 (String.eqb kind "outer_step")) None 3);
  _ ← note_emitted job_id;
  _ ← queue_do (fun q => OrchestratorQueue_add q published.2);
  mret published.1.

Definition RunManager_load_job (job_id : string) : ST manager JobManifestV3 :=
  uri ← run_uri (job_manifest_key (rc_netuid cfg) (rc_run_id cfg) job_id);
  bucket_do (read_record JobManifestV3_from_dict uri).

Definition graph_named (name : string) : ST manager Graph := st_lift (of_option (KeyError name) (dict_get name graphs)).

Definition ubs : list Z := py_range (rt_N_UB task).

Definition RunManager_emit_forward (step : Z) : ST manager JobManifestV3 :=
  worker ← RunManager_pick_worker;
  outputs ← mapS (fun ub =>
    uri ← run_uri (target_key (rc_netuid cfg) (rc_run_id cfg) step ub);
    mret (RunManager_output_ref ("target_" +:+ py_str_int ub) uri)) ubs;
  inputs ← mapS (fun ub => RunManager_weight_ref ("weights_" +:+ py_str_int ub) step ub) ubs;
  graph ← graph_named "forward";
  RunManager_emit_job "forward_pass" step graph [("round_id", PInt step)] inputs outputs worker None.

Definition step_ub (step ub : Z) : string := "step" +:+ py_str_int step +:+ "-ub" +:+ py_str_int ub.

Definition RunManager_emit_inner (step ub replica : Z) : ST manager JobManifestV3 :=
  worker ← RunManager_pick_worker;
  let job_id := step_ub step ub +:+ "-inner-r" +:+ py_str_int replica in
  forward_job ← RunManager_load_job ("step" +:+ py_str_int step +:+ "-forward_pass");
  target_ref ← st_lift (of_option (IndexError "list index out of range") (jm_outputs forward_job !! Z.to_nat ub));
  uri ← run_uri (artifact_key (rc_netuid cfg) (rc_run_id cfg) job_id (wi_hotkey_ss58 worker) (wi_worker_id worker) 0 "delta" ".bin");
  weights ← RunManager_weight_ref "weights" step ub;
  graph ← graph_named "inner";
  RunManager_emit_job "inner_step" step graph [("ub", PInt ub); ("replica", PInt replica)]
    [weights; mkRef "target" (ar_uri target_ref) None None (ar_crypto target_ref)]
    [mkRef "delta" uri None None (rc_crypto_policy cfg)] worker (Some job_id).

(** The outputs of the inner jobs emitted for a block of weights. *)
Definition inner_outputs (step ub : Z) : ST manager (list ArtifactRef) :=
  m ← st_get;
  jobs ← mapS RunManager_load_job (List.filter (str_contains (step_ub step ub +:+ "-inner")) (mg_emitted m));
  mret (concat (map jm_outputs jobs)).

(** [[ArtifactRef(name=f"d_{i}", ...) for i, ref in enumerate(deltas)]]. *)
Definition delta_inputs (deltas : list ArtifactRef) : list ArtifactRef :=
  imap (fun i ref => mkRef ("d_" +:+ py_str_int (Z.of_nat i)) (ar_uri ref) None None (ar_crypto ref)) deltas.

Definition RunManager_emit_reduce (step ub : Z) : ST manager JobManifestV3 :=
  worker ← RunManager_pick_worker;
  deltas ← inner_outputs step ub;
  graph ← st_lift (rt_build_reduce_graph task (Z.of_nat (length deltas)));
  let job_id := step_ub step ub +:+ "-reduce" in
  uri ← run_uri (artifact_key (rc_netuid cfg) (rc_run_id cfg) job_id (wi_hotkey_ss58 worker) (wi_worker_id worker) 0 "reduced" ".bin");
  let inputs := delta_inputs deltas in
  RunManager_emit_job "reduce" step graph [("ub", PInt ub); ("n_inputs", PInt (Z.of_nat (length inputs)))]
    inputs [mkRef "reduced" uri None None (rc_crypto_policy cfg)] worker (Some job_id).

Definition RunManager_emit_outer (step ub : Z) : ST manager JobManifestV3 :=
  worker ← RunManager_pick_worker;
  reduce_job ← RunManager_load_job (step_ub step ub +:+ "-reduce");
  weights ← RunManager_weight_ref "weights" step ub;
  reduced ← st_lift (of_option (IndexError "list index out of range") (jm_outputs reduce_job !! 0%nat));
  uri ← run_uri (weights_key (rc_netuid cfg) (rc_run_id cfg) (step + 1) ub);
  graph ← graph_named "outer";
  RunManager_emit_job "outer_step" step graph [("ub", PInt ub)]
    [weights; mkRef "reduced_delta" (ar_uri reduced) None None None]
    [RunManager_output_ref "new_weights" uri] worker (Some (step_ub step ub +:+ "-outer")).

Definition RunManager_emit_eval (step : Z) : ST manager JobManifestV3 :=
  worker ← RunManager_pick_worker;
  inputs ← mapS (fun ub => RunManager_weight_ref ("weights_" +:+ py_str_int ub) (step + 1) ub) ubs;
  uri ← run_uri (run_root (rc_netuid cfg) (rc_run_id cfg) +:+ "/metrics/step=" +:+ py_str_int step +:+ ".json");
  graph ← graph_named "eval";
  RunManager_emit_job "eval" step graph [("round_id", PInt (step + 1))] inputs
    [RunManager_output_ref "metrics" uri] worker (Some ("step" +:+ py_str_int step +:+ "-eval")).

(** ** Waiting *)

(** A job is over: its quota and its queue entry are given back. *)
Definition settle_job (manifest : JobManifestV3) : ST manager unit :=
  _ ← quota_do (fun b => (QuotaBook_release b (jm_assigned_hotkey manifest) fone, Ok tt));
  queue_do (fun q => fst (OrchestratorQueue_remove q (jm_job_id manifest))).

Definition stale_key (manifest : JobManifestV3) : string :=
  jobs_prefix (rc_netuid cfg) (rc_run_id cfg) +:+ jm_job_id manifest +:+ "/stale.json".

(** The loop of [wait_outputs], and what follows it. *)
Fixpoint wait_loop (fuel : nat) (deadline : float) (manifest : JobManifestV3) : ST manager unit :=
  match fuel with
  | O => st_raise spent
  | Datatypes.S fuel' =>
      t ← read_clock clock;
      if fltb t deadline then
        there ← allS (fun ref => bucket_do (os_exists (ar_uri ref))) (jm_outputs manifest);
        if (there : bool) then settle_job manifest
        else _ ← nap; wait_loop fuel' deadline manifest
      else
        _ ← settle_job manifest;
        uri ← run_uri (stale_key manifest);
        now ← unix_now clock;
        _ ← put_document uri (PDict [("job_id", PStr (jm_job_id manifest)); ("stale_unix", PInt now);
                                     ("reason", PStr "output_timeout")]);
        st_raise (TimeoutError ("timed out waiting for " +:+ jm_job_id manifest))
  end.

Definition RunManager_wait_outputs (fuel : nat) (manifest : JobManifestV3) : ST manager unit :=
  t ← read_clock clock; wait_loop fuel (fadd t (float_of_Z 180)) manifest.

Definition wait_all (fuel : nat) (jobs : list JobManifestV3) : ST manager unit :=
  _ ← mapS (RunManager_wait_outputs fuel) jobs; mret tt.

(** ** A step *)

Definition RunManager_run_step (fuel : nat) (step : Z) : ST manager unit :=
  fwd ← RunManager_emit_forward step;
  _ ← RunManager_wait_outputs fuel fwd;
  inners ← mapS (fun p => RunManager_emit_inner step p.1 p.2)
             (flat_map (fun ub => map (pair ub) (py_range (rt_INNER_REPLICAS task))) ubs);
  _ ← wait_all fuel inners;
  reduces ← mapS (RunManager_emit_reduce step) ubs;
  _ ← wait_all fuel reduces;
  outers ← mapS (RunManager_emit_outer step) ubs;
  _ ← wait_all fuel outers;
  eval_job ← RunManager_emit_eval step;
  RunManager_wait_outputs fuel eval_job.

(** ** The run *)

(** [self.queue.stop()]. *)
Definition RunManager_stop : ST manager unit :=
  now1 ← unix_now clock;
  now2 ← unix_now clock;
  stop_queue now1 now2.

(** [fuel] bounds every loop of the run. *)
Fixpoint run_steps (fuel rounds : nat) (deadline : float) : ST manager unit :=
  match rounds with
  | O => st_raise spent
  | Datatypes.S rounds' =>
      t ← read_clock clock;
      if fltb t deadline then
        _ ← RunManager_wait_for_workers fuel deadline;
        v ← read_step;
        step ← st_lift (py_int v);
        if (rc_max_steps cfg <=? step)%Z then mret tt
        else
          _ ← RunManager_run_step fuel step;
          _ ← RunManager_save_state (state_document (PInt (step + 1)));
          _ ← nap;
          run_steps fuel rounds' deadline
      else st_raise (TimeoutError ("orchestrator timed out for run " +:+ rc_run_id cfg))
  end.

Definition RunManager_run_loop (fuel : nat) (timeout_sec : float) : ST manager unit :=
  uri ← run_uri (state_key (rc_netuid cfg) (rc_run_id cfg));
  there ← bucket_do (os_exists uri);
  _ ← (if (there : bool) then mret tt else RunManager_bootstrap);
  t ← read_clock clock;
  st_finally (run_steps fuel fuel (fadd t timeout_sec)) RunManager_stop.
End run_manager.

(** ** Construction *)

Definition RunManager_crypto `{SigLib} `{BoxLib} (cfg : RunConfig) (ephemeral : string)
    : AssignmentEncryptor * option BtcliMetagraphHotkeyResolver :=
  if String.eqb (rc_assignment_crypto cfg) "ed25519" then
    (sealed_encryptor ephemeral (Ed25519SealedBoxAssignmentCrypto_init None),
     Some (BtcliMetagraphHotkeyResolver_init (rc_netuid cfg) (rc_network cfg) 0))
  else (dev_encryptor (DevAssignmentCrypto_init (rc_assignment_secret cfg)), None).

(** The parts a manager is made of, and its state once the queue of the bucket
    has been read. *)
Definition RunManager_parts `{Torch} (cfg : RunConfig) (client : option presigner) (import_task : string -> result RoundTask)
    : result (RoundTask * dict Graph * BucketDiscoveryBackend * option PresignedUrlBroker) :=
  task ← load_task import_task (rc_task cfg);
  graphs ← rt_graph_bundle task;
  backend ← build_discovery_backend (rc_discovery_backend cfg) (rc_netuid cfg) (rc_run_id cfg) "train"
              (rc_discovery_heartbeat_ttl_sec cfg);
  broker ← broker_for_mode (rc_grant_mode cfg) client;
  Ok (task, graphs, backend, broker).

Definition RunManager_init {S} `{ObjectStore S} (cfg : RunConfig) (base_quota : float) (flush_max_changes : Z)
    (resolver : option BtcliMetagraphHotkeyResolver) (s : S) : manager S * result unit :=
  let '((q, s'), r) := OrchestratorQueue_reconcile_from_bucket []
    (OrchestratorQueue_init (rc_netuid cfg) (rc_run_id cfg) "train" flush_max_changes, s) in
  (mkManager s' (QuotaBook_init base_quota) q resolver [] 0, r).
