(* ===== verification/RunManagerFacts.v ===== *)
(** * Properties of the run manager

    The jobs of a step are emitted in the order of their data: the inputs of a
    job exist when it is emitted, the step ends with every output in the bucket,
    and the next step finds its weights. *)

From Stdlib Require Import ZArith Lia Ascii DecimalString.
From stdpp Require Import base strings list.
From S2P Require Import Prelude PyFloat PyVal Json Digest Paths Signatures Codec Protocol ProtocolFacts.
From S2P Require Import Storage StoreReads Queue QueueFacts Transport Discovery Scheduler Crypto WalletCrypto Emission EmissionFacts.
From S2P Require Import Ir Tensors Mlp RunManager.

#[local] Arguments String.append !s1 s2 : simpl nomatch.

(** ** The names of the jobs of a step *)

Inductive step_job :=
| Forward
| Inner (ub replica : Z)
| Reduce (ub : Z)
| Outer (ub : Z)
| EvalStep.

#[local] Instance Inner_inj : Inj (=) (=) (fun p : Z * Z => Inner p.1 p.2).
Proof. by intros [??] [??] [= -> ->]. Qed.
#[local] Instance Reduce_inj : Inj (=) (=) Reduce.
Proof. by intros ?? [= ->]. Qed.
#[local] Instance Outer_inj : Inj (=) (=) Outer.
Proof. by intros ?? [= ->]. Qed.

Definition job_name (step : Z) (k : step_job) : string :=
  match k with
  | Forward => "step" +:+ py_str_int step +:+ "-forward_pass"
  | Inner ub replica => step_ub step ub +:+ "-inner-r" +:+ py_str_int replica
  | Reduce ub => step_ub step ub +:+ "-reduce"
  | Outer ub => step_ub step ub +:+ "-outer"
  | EvalStep => "step" +:+ py_str_int step +:+ "-eval"
  end.

Definition job_ok (k : step_job) : Prop :=
  match k with Forward | EvalStep => True | Inner ub r => 0 <= ub /\ 0 <= r | Reduce ub | Outer ub => 0 <= ub end%Z.

(** The parts of a name between the dashes. *)
Definition job_parts (step : Z) (k : step_job) : list string :=
  ("step" +:+ py_str_int step) ::
  match k with
  | Forward => ["forward_pass"]
  | Inner ub replica => ["ub" +:+ py_str_int ub; "inner"; "r" +:+ py_str_int replica]
  | Reduce ub => ["ub" +:+ py_str_int ub; "reduce"]
  | Outer ub => ["ub" +:+ py_str_int ub; "outer"]
  | EvalStep => ["eval"]
  end.

Lemma natural_no_dash z : (0 <= z)%Z -> lacks "-" (py_str_int z) = true.
Proof.
  intros Hz. destruct z as [|p|p]; [reflexivity| |lia]. unfold py_str_int, Z.to_int, NilZero.string_of_int.
  assert (forall u, lacks "-" (NilZero.string_of_uint u) = true) as Hu; [|apply Hu].
  assert (forall u, lacks "-" (NilEmpty.string_of_uint u) = true) as Hu by (induction u; cbn; auto).
  intros u. unfold NilZero.string_of_uint. destruct u; try reflexivity; exact (Hu _).
Qed.

Lemma split_on_join c parts : parts <> [] -> Forall (fun p => lacks c p = true) parts ->
  split_on c (str_join (String c EmptyString) parts) = parts.
Proof.
  induction parts as [|p [|q ps] IH]; intros Hn Hl; [done| |].
  - apply Forall_cons in Hl as [Hp _]. by apply split_on_lacks.
  - apply Forall_cons in Hl as [Hp Hl]. change (split_on c (p +:+ String c (str_join (String c EmptyString) (q :: ps))) = p :: q :: ps).
    rewrite split_on_app by done. f_equal. by apply IH.
Qed.

Lemma job_name_join step k : job_name step k = str_join "-" (job_parts step k).
Proof. by destruct k; unfold job_name, step_ub, job_parts; cbn [str_join]; rewrite !str_app_assoc. Qed.

Lemma numbered_no_dash p z : (0 <= z)%Z -> lacks "-" p = true -> lacks "-" (p +:+ py_str_int z) = true.
Proof. intros Hz Hp. by rewrite lacks_app, Hp, natural_no_dash. Qed.

Lemma job_name_parts step k : (0 <= step)%Z -> job_ok k -> split_on "-" (job_name step k) = job_parts step k.
Proof.
  intros Hs Hk. rewrite job_name_join. apply split_on_join; [done|].
  destruct k; cbn [job_ok job_parts] in *; repeat constructor; first [reflexivity | apply numbered_no_dash; first [lia | reflexivity]].
Qed.

(** A name determines its step and its job. *)
Lemma job_name_inj s k s' k' : (0 <= s)%Z -> (0 <= s')%Z -> job_ok k -> job_ok k' ->
  job_name s k = job_name s' k' -> s = s' /\ k = k'.
Proof.
  intros Hs Hs' Hk Hk' E. apply (f_equal (split_on "-")) in E. rewrite !job_name_parts in E by done.
  unfold job_parts in E. injection E as Es Ek. apply py_str_int_inj in Es as ->. split; [done|].
  destruct k, k'; try discriminate Ek; try done; injection Ek; intros;
    repeat match goal with E : py_str_int _ = py_str_int _ |- _ => apply py_str_int_inj in E as -> end; done.
Qed.

(** The pattern of the inner jobs of a block occurs in their names only. *)
Lemma contains_first p c s : lacks c s = true -> str_contains (String c p) (String c s) = startswith (String c p) (String c s).
Proof.
  intros Hl. cbn [str_contains]. assert (str_contains (String c p) s = false) as ->; [|by rewrite orb_false_r].
  unfold lacks in Hl. induction s as [|x s IH]; [done|]. cbn in Hl. apply andb_true_iff in Hl as [Hx Hl].
  cbn [str_contains]. rewrite IH by done. rewrite orb_false_r. apply negb_true_iff in Hx. cbn [startswith].
  by rewrite Ascii.eqb_sym, Hx.
Qed.

Lemma contains_char p s c : lacks c p = false -> lacks c s = true -> str_contains p s = false.
Proof.
  intros Hp. induction s as [|x s IH]; intros Hs.
  - cbn. destruct p; [discriminate Hp|done].
  - cbn [str_contains]. unfold lacks in *. cbn in Hs. apply andb_true_iff in Hs as [Hx Hs]. rewrite IH by done.
    rewrite orb_false_r. apply not_true_iff_false. intros (r & E)%startswith_spec.
    assert (str_forallb (fun a => negb (Ascii.eqb a c)) (p +:+ r) = true) as Ha by (rewrite <- E; cbn; by rewrite Hx).
    rewrite str_forallb_app, Hp in Ha. done.
Qed.

Lemma inner_pattern s u s' k : (0 <= s)%Z -> (0 <= s')%Z -> (0 <= u)%Z -> job_ok k ->
  str_contains (step_ub s u +:+ "-inner") (job_name s' k) =
  match k with Inner u' _ => bool_decide (s' = s /\ u' = u) | _ => false end.
Proof.
  intros Hs Hs' Hu Hk. assert (forall c z, is_numchar c = false -> lacks c (py_str_int z) = true) as Hnum by apply py_str_int_lacks.
  assert (lacks "i" (step_ub s u +:+ "-inner") = false) as Hi.
  { rewrite lacks_app. change (lacks "i" "-inner") with false. by rewrite andb_false_r. }
  destruct k as [|u' r|u'|u'|]; cbn [job_ok] in Hk;
    try (apply (contains_char _ _ "i"); [done|]; unfold job_name, step_ub; rewrite !lacks_app, !Hnum by done; reflexivity).
  unfold job_name, step_ub. rewrite !str_app_assoc. change ("step" +:+ ?x) with (String "s" ("tep" +:+ x)).
  rewrite contains_first; [|rewrite !lacks_app, !Hnum by done; reflexivity].
  change (String "s" ("tep" +:+ ?x)) with ("step" +:+ x).
  apply eq_true_iff_eq. rewrite bool_decide_eq_true, startswith_spec. split.
  - intros (t & E). assert (job_name s' (Inner u' r) = "step" +:+ py_str_int s +:+ "-" +:+ "ub" +:+ py_str_int u +:+ "-" +:+ "inner" +:+ t) as E'.
    { unfold job_name, step_ub. rewrite !str_app_assoc. rewrite E. by rewrite !str_app_assoc. }
    apply (f_equal (split_on "-")) in E'. rewrite job_name_parts in E' by done. cbn [job_parts] in E'.
    rewrite <- (str_app_assoc "step") in E'. rewrite (split_on_lit "-" ("step" +:+ py_str_int s)) in E' by by apply numbered_no_dash.
    rewrite <- (str_app_assoc "ub") in E'. rewrite (split_on_lit "-" ("ub" +:+ py_str_int u)) in E' by by apply numbered_no_dash.
    injection E' as Es Eu _. apply py_str_int_inj in Es, Eu. done.
  - intros [-> ->]. exists ("-r" +:+ py_str_int r). by rewrite !str_app_assoc.
Qed.

Section facts.
Context {S : Type} `{OS : ObjectStore S} `{!ObjectStoreLaws S} `{SL : SigLib} `{TT : Torch}.
Context (clock : nat -> float) (btcli_show : Z -> string -> Z -> result pyval).
Context (env : nat -> S -> S) (flusher : nat -> option (Z * Z)) (spent : exn).
Context (cfg : RunConfig) (task : RoundTask) (graphs : dict Graph).
Context (backend : BucketDiscoveryBackend) (broker : option PresignedUrlBroker) (encryptor : AssignmentEncryptor).
Notation manager := (manager S).
Notation acts := (acts (job_manifest_key (rc_netuid cfg) (rc_run_id cfg))).
Notation emitting := (emitting (job_manifest_key (rc_netuid cfg) (rc_run_id cfg))).
Notation filed := (filed (job_manifest_key (rc_netuid cfg) (rc_run_id cfg))).

Notation emit_job := (RunManager_emit_job clock btcli_show cfg broker encryptor).
Notation emit_forward := (RunManager_emit_forward clock btcli_show cfg task graphs broker encryptor).
Notation emit_inner := (RunManager_emit_inner clock btcli_show cfg graphs broker encryptor).
Notation emit_reduce := (RunManager_emit_reduce clock btcli_show cfg task broker encryptor).
Notation emit_outer := (RunManager_emit_outer clock btcli_show cfg graphs broker encryptor).
Notation emit_eval := (RunManager_emit_eval clock btcli_show cfg task graphs broker encryptor).

(** Other processes delete nothing and leave the manifests of the run alone. *)
Hypothesis env_follows : forall n s, follows (job_manifest_key (rc_netuid cfg) (rc_run_id cfg)) [] s (env n s).
(** Names are printable: the run, the crypto policy and the owner's signatures. *)
Hypothesis run_printable : printable (rc_run_id cfg) = true.
Hypothesis crypto_printable : policy_printable (rc_crypto_policy cfg).
Hypothesis signatures_ascii : forall d sig, record_signature d (rc_owner_key cfg) = Ok sig -> str_forallb is_ascii sig = true.

(** ** What the parts change *)

Lemma acts_run_uri key : acts [] [] (run_uri (S := S) key).
Proof. apply acts_uri. Qed.

Lemma acts_load_job j : acts [] [] (RunManager_load_job (S := S) cfg j).
Proof. apply acts_bind0; [apply acts_run_uri|intros uri]. apply acts_reads, reads_record. Qed.

Lemma acts_weight_ref name step ub : acts [] [] (RunManager_weight_ref (S := S) cfg name step ub).
Proof. apply acts_bind0; [apply acts_run_uri|auto with emission]. Qed.

Lemma acts_pick_worker : acts [] [] (RunManager_pick_worker (S := S) cfg).
Proof. apply acts_bind0; auto with emission. Qed.

Lemma acts_graph name : acts [] [] (graph_named (S := S) graphs name).
Proof. unfold graph_named. auto with emission. Qed.

Lemma acts_grant man : acts [] [] (RunManager_emit_assignment_grant clock btcli_show cfg broker encryptor man).
Proof.
  unfold RunManager_emit_assignment_grant. destruct broker; [|apply acts_ret].
  apply acts_bind0; [auto with emission|intros g]. apply acts_file_grant, assignment_not_manifest.
Qed.

Lemma acts_exists uri : acts [] [] (bucket_do (S := S) (os_exists uri)).
Proof. apply acts_reads, reads_exists. Qed.

Lemma of_option_inv {A} (e : exn) (o : option A) a : of_option e o = Ok a -> o = Some a.
Proof. destruct o; [by intros [= ->]|done]. Qed.

Lemma mg_with_store_same (m : manager) : mg_with_store m (mg_store m) = m.
Proof. by destruct m. Qed.

Lemma reads_same {A} (f : ST S A) (m m' : manager) r : reads f -> bucket_do f m = (m', r) -> m' = m.
Proof.
  intros Hf E. unfold bucket_do in E. specialize (Hf (mg_store m)). destruct (f (mg_store m)) as [s r']. cbn in Hf. subst s.
  injection E as <- _. apply mg_with_store_same.
Qed.

(** [if not exists(uri): put(uri, data)]. *)
Lemma acts_put_once key data : not_a_manifest (job_manifest_key (rc_netuid cfg) (rc_run_id cfg)) key ->
  acts [] [] (uri ← run_uri (S := S) key; there ← bucket_do (os_exists uri);
              if (there : bool) then mret tt else put_object uri data).
Proof.
  intros Hk m m' a E. apply st_bind_Ok in E as (m1 & uri & E1 & E). injection E1 as <- <-.
  rewrite mg_with_store_same in E. apply st_bind_Ok in E as (m2 & b & E2 & E). pose proof (acts_exists _ _ _ _ E2) as H2.
  apply reads_same in E2; [|apply reads_exists]. subst m2.
  destruct b; [by injection E as <- _|]. unfold put_object, bucket_do in E.
  destruct (os_put _ _ _) as [s r'] eqn:Ep. injection E as <- ->. destruct a.
  split; cbn; [by eapply put_follows|by rewrite app_nil_r|done].
Qed.

Hint Resolve acts_run_uri acts_load_job acts_weight_ref acts_pick_worker acts_graph acts_grant acts_exists : emission.

(** ** Emitting one job *)

Definition default_requirements : ResourceRequirements := mkResources 1 "single_worker" [].

Lemma emit_job_spec kind step graph params inputs outputs worker job_id m m' man :
  emit_job kind step graph params inputs outputs worker job_id m = (m', Ok man) ->
  let j := str_or_default job_id ("step" +:+ py_str_int step +:+ "-" +:+ kind) in
  lacks newline (manifest_uri (job_manifest_key (rc_netuid cfg) (rc_run_id cfg)) (mg_store m) j) = true ->
  emitting [j] [j] m m' /\ jm_job_id man = j /\ jm_inputs man = inputs /\ map ar_uri (jm_outputs man) = map ar_uri outputs /\
  (forallb (str_forallb is_ascii) [j; kind; os_uri_for_key (mg_store m) (graph_key (rc_netuid cfg) (rc_run_id cfg) (Graph_graph_id graph))] = true ->
   plain_worker worker -> json_ok (PDict params) = true -> resource_requirements params = Ok default_requirements ->
   Forall (fun r => ref_printable r = true) inputs -> Forall (fun r => ref_printable r = true) outputs ->
   filed (mg_store m') j man).
Proof.
  intros E j Hn. unfold RunManager_emit_job in E.
  apply st_bind_Ok in E as (m1 & now & E1 & E). apply acts_now with (mkey := job_manifest_key (rc_netuid cfg) (rc_run_id cfg)) in E1.
  apply st_bind_Ok in E as (m2 & guri & E2 & E). injection E2 as <- <-.
  apply st_bind_Ok in E as (m3 & there & E3 & E). apply st_bind_Ok in E as (m4 & u & E4 & E).
  assert (emitting [] [] m1 m4) as E14.
  { apply (acts_put_once (graph_key (rc_netuid cfg) (rc_run_id cfg) (Graph_graph_id graph)) (Graph_to_canonical_json graph)
      (graph_not_manifest _ _ _ _) _ _ u). cbv [mbind st_bind] in *. unfold run_uri, bucket_do, uri_of in *.
    cbn [mg_store mg_with_store] in *. rewrite E3. exact E4. }
  pose proof (emitting_trans _ [] [] [] [] _ _ _ E1 E14) as Hm4. clear E3 E4.
  apply st_bind_Ok in E as (m5 & req & E5 & E). apply st_lift_Ok in E5 as [-> Hreq].
  apply st_bind_Ok in E as (m6 & outs & E6 & E). apply st_lift_Ok in E6 as [-> Houts].
  apply st_bind_Ok in E as (m7 & p & E7 & E). fold j in E7.
  assert (os_uri_for_key (mg_store m4) = os_uri_for_key (mg_store m)) as Ha by apply (em_store _ _ _ _ _ Hm4).
  assert (os_uri_for_key (mg_store m1) = os_uri_for_key (mg_store m)) as Ha1 by apply (em_store _ _ _ _ _ E1).
  apply (publish_spec (job_manifest_key (rc_netuid cfg) (rc_run_id cfg))) in E7 as (man0 & guri & Hsign & -> & E7); [|intros; apply acts_grant].
  destruct E7 as (E7 & _ & Hfiled); [unfold manifest_uri; rewrite Ha; exact Hn|].
  apply st_bind_Ok in E as (m8 & [] & E8 & E). apply st_bind_Ok in E as (m9 & [] & E9 & E). injection E as <- <-.
  assert (emitting [] [j] m7 m9 /\ mg_store m9 = mg_store m7) as [H79 Hs9].
  { injection E8 as <-. injection E9 as <-. split; [|done]. split; cbn; [apply follows_refl|done|done]. }
  pose proof (emitting_trans _ [] _ [] _ _ _ _ Hm4 (emitting_trans _ [j] [] [] [j] _ _ _ E7 H79)) as Hall.
  split; [exact Hall|]. apply bind_Ok in Hsign as (sig & Hsig & [= <-]). apply resolve_outputs_spec in Houts as (O1 & _ & O3).
  cbn [jm_job_id jm_inputs jm_outputs JobManifestV3_with_signature]. split_and!; [done..|exact O1|].
  intros Hnames [Hw1 Hw2] Hparams Hreq' Hin Hout. cbn [fst] in *. rewrite Hs9. apply Hfiled.
  rewrite Hreq' in Hreq. apply (inj Ok) in Hreq as <-. apply manifest_printable.
  cbn [forallb] in Hnames. rewrite !andb_true_iff in Hnames. destruct Hnames as (N1 & N2 & N3 & _).
  split; cbn [jm_job_id jm_run_id jm_kind jm_graph_ref jm_assigned_hotkey jm_assigned_worker jm_owner_signature jm_params
    jm_inputs jm_outputs jm_resource_requirements jm_verification_policy JobManifestV3_with_signature gr_sha256 gr_uri]; auto.
  assert (str_forallb is_ascii (Graph_graph_id graph) = true) as Hg by apply sha256_hexdigest_ascii.
  cbn [forallb default from_option id]. rewrite Ha1, N1, N2, N3, Hw1, Hw2, Hg, (signatures_ascii _ _ Hsig).
  by rewrite (printable_ascii _ run_printable).
Qed.

(** ** The emissions of a run *)

(** The object is in the bucket. *)
Definition there (m : manager) (uri : string) : Prop := os_exists uri (mg_store m) = (mg_store m, Ok true).

Lemma there_keeps ws js m m' uri : emitting ws js m m' -> there m uri -> there m' uri.
Proof. intros [[_ Hk _] _ _]. apply Hk. Qed.

Definition all_there (m : manager) (refs : list ArtifactRef) : Prop := Forall (fun r => there m (ar_uri r)) refs.

Lemma all_there_keeps ws js m m' refs : emitting ws js m m' -> all_there m refs -> all_there m' refs.
Proof. intros He Ha. eapply Forall_impl; [exact Ha|]. intros r. by eapply there_keeps. Qed.

(** The calls of [_emit_job] from one state to another, each with the state it
    started in and the manifest it returned; between them no job is emitted. *)
Inductive emissions : manager -> list (manager * JobManifestV3) -> manager -> Prop :=
| emissions_none m m' : emitting [] [] m m' -> emissions m [] m'
| emissions_job m es m1 m2 m3 kind step graph params inputs outputs worker job_id man :
    emissions m es m1 ->
    emit_job kind step graph params inputs outputs worker job_id m1 = (m2, Ok man) ->
    emitting [] [] m2 m3 ->
    emissions m (es ++ [(m1, man)]) m3.

Lemma emissions_then m es m1 m2 : emissions m es m1 -> emitting [] [] m1 m2 -> emissions m es m2.
Proof.
  intros H. inversion H as [? ? He|? ? ma mb ? ? ? ? ? ? ? ? ? ? Hes Hj He]; subst; intros He2.
  - apply emissions_none. exact (emitting_trans _ [] [] [] [] _ _ _ He He2).
  - eapply emissions_job; [exact Hes|exact Hj|]. exact (emitting_trans _ [] [] [] [] _ _ _ He He2).
Qed.

(** *** The invariant of a step *)

Section step.
Context (step : Z) (m0 : manager).
Notation addr := (os_uri_for_key (mg_store m0)).
Notation weights_at st ub := (addr (weights_key (rc_netuid cfg) (rc_run_id cfg) st ub)).

(** The outputs whose place does not depend on the worker. *)
Definition named_outputs (k : step_job) : option (list string) :=
  match k with
  | Forward => Some (map (fun ub => addr (target_key (rc_netuid cfg) (rc_run_id cfg) step ub)) (ubs task))
  | Outer ub => Some [weights_at (step + 1) ub]
  | _ => None
  end.

Definition at_named (k : step_job) (uris : list string) : Prop := forall us, named_outputs k = Some us -> uris = us.

Hypothesis step_natural : (0 <= step)%Z.
Hypothesis store_printable : printable (os_uri_for_key (mg_store m0) "") = true.

(** The jobs [ks] are emitted: their manifests can be read, and their inputs
    were there. *)
Record progress (ks : list step_job) (es : list (manager * JobManifestV3)) (m : manager) : Prop := {
  pr_run : emissions m0 es m;
  pr_em : emitting (map (job_name step) ks) (map (job_name step) ks) m0 m;
  pr_ids : map (fun e => jm_job_id e.2) es = map (job_name step) ks;
  pr_ok : Forall job_ok ks;
  pr_filed : Forall (fun e => filed (mg_store m) (jm_job_id e.2) e.2) es;
  pr_outs : Forall (fun e => forall k, job_ok k -> jm_job_id e.2 = job_name step k -> at_named k (map ar_uri (jm_outputs e.2))) es;
  pr_ready : Forall (fun e => all_there e.1 (jm_inputs e.2)) es;
  pr_plain : plain_book (mg_quota m)
}.

Lemma progress_quiet ks es m m' : emitting [] [] m m' -> progress ks es m -> progress ks es m'.
Proof.
  intros He [P1 P2 P3 P4 P5 P6 P7 P8]. split; try done.
  - by eapply emissions_then.
  - pose proof (emitting_trans _ _ _ _ _ _ _ _ P2 He) as H. by rewrite !app_nil_r in H.
  - eapply Forall_impl; [exact P5|]. intros e. eapply filed_follows; [exact (em_store _ _ _ _ _ He)|by intros ?%elem_of_nil].
  - by apply (em_plain _ _ _ _ _ He).
Qed.

Lemma uri_ascii ks es m key : progress ks es m -> str_forallb is_ascii key = true ->
  str_forallb is_ascii (os_uri_for_key (mg_store m) key) = true.
Proof.
  intros Hp Hk. rewrite (fl_addr _ _ _ _ (em_store _ _ _ _ _ (pr_em _ _ _ Hp))).
  destruct (uri_for_key_ends (mg_store m0)) as [b Hb]. apply printable_ascii in store_printable.
  rewrite Hb, !ascii_app in store_printable. apply andb_true_iff in store_printable as [Hb1 Hb2]. rewrite Hb.
  by rewrite !ascii_app, Hb1, Hk.
Qed.

Lemma job_name_printable k : printable (job_name step k) = true.
Proof. destruct k; unfold job_name, step_ub; solve_printable. Qed.

Lemma manifest_uri_lacks ks es m k : progress ks es m ->
  lacks newline (manifest_uri (job_manifest_key (rc_netuid cfg) (rc_run_id cfg)) (mg_store m) (job_name step k)) = true.
Proof.
  intros Hp. unfold manifest_uri. rewrite (fl_addr _ _ _ _ (em_store _ _ _ _ _ (pr_em _ _ _ Hp))).
  destruct (uri_for_key_ends (mg_store m0)) as [b Hb]. rewrite Hb.
  rewrite Hb, !printable_app in store_printable. apply andb_true_iff in store_printable as [Hb1 _].
  apply printable_lacks. unfold job_manifest_key, jobs_prefix, root. pose proof (job_name_printable k). solve_printable.
Qed.

Definition simple_params (params : dict pyval) : Prop :=
  json_ok (PDict params) = true /\ resource_requirements params = Ok default_requirements.

Lemma progress_emit ks es m m' kind graph params inputs outputs worker job_id man k :
  emit_job kind step graph params inputs outputs worker job_id m = (m', Ok man) ->
  str_or_default job_id ("step" +:+ py_str_int step +:+ "-" +:+ kind) = job_name step k ->
  progress ks es m -> k ∉ ks -> job_ok k -> str_forallb is_ascii kind = true -> plain_worker worker -> simple_params params ->
  Forall (fun r => ref_printable r = true) inputs -> Forall (fun r => ref_printable r = true) outputs ->
  all_there m inputs -> at_named k (map ar_uri outputs) ->
  progress (ks ++ [k]) (es ++ [(m, man)]) m' /\ jm_job_id man = job_name step k /\ jm_inputs man = inputs /\
  map ar_uri (jm_outputs man) = map ar_uri outputs.
Proof.
  intros E Hj Hp Hk Hok Hkind Hw [Hp1 Hp2] Hin Hout Hthere Hat. pose proof (emit_job_spec _ _ _ _ _ _ _ _ _ _ _ E) as Hs.
  cbv zeta in Hs. rewrite Hj in Hs. destruct Hs as (He & Hid & Hi & Ho & Hf); [by eapply manifest_uri_lacks|].
  split; [|done]. assert (filed (mg_store m') (job_name step k) man) as Hfiled.
  { apply Hf; try done. cbn [forallb]. rewrite (printable_ascii _ (job_name_printable k)), Hkind. cbn [andb].
    rewrite (uri_ascii _ _ _ _ Hp); [done|]. unfold graph_key, graphs_prefix, run_root, root.
    pose proof (printable_ascii _ run_printable). assert (str_forallb is_ascii (Graph_graph_id graph) = true) by apply sha256_hexdigest_ascii.
    solve_ascii. }
  destruct Hp as [P1 P2 P3 P4 P5 P6 P7 P8]. split.
  - eapply emissions_job; [exact P1|exact E|apply emitting_refl].
  - rewrite map_app. exact (emitting_trans _ _ _ _ _ _ _ _ P2 He).
  - rewrite !map_app, P3. cbn. by rewrite Hid.
  - apply Forall_app. split; [done|]. by constructor.
  - apply Forall_app. split; [|constructor; [|done]; cbn [snd]; by rewrite Hid]. apply Forall_forall. intros e Hine.
    rewrite Forall_forall in P5. eapply filed_follows; [exact (em_store _ _ _ _ _ He)| |by apply P5].
    intros Hx%list_elem_of_singleton. assert (jm_job_id e.2 ∈ map (job_name step) ks) as Hn.
    { rewrite <- P3. by apply (list_elem_of_fmap_2 (fun e : manager * JobManifestV3 => jm_job_id e.2)). }
    rewrite Hx in Hn. apply list_elem_of_fmap in Hn as (k' & Hkk & Hk'). rewrite Forall_forall in P4.
    apply job_name_inj in Hkk as [_ ->]; auto.
  - apply Forall_app. split; [done|]. constructor; [|done]. intros k' Hk' Hid'. cbn [snd] in *. rewrite Ho.
    rewrite Hid in Hid'. by apply job_name_inj in Hid' as [_ <-].
  - apply Forall_app. split; [done|]. constructor; [|done]. cbn. by rewrite Hi.
  - by apply (em_plain _ _ _ _ _ He).
Qed.

(** A quiet operation inside an emitter. *)
Lemma progress_acts {A} (p : ST manager A) ks es m m' a : acts [] [] p -> p m = (m', Ok a) ->
  progress ks es m -> progress ks es m'.
Proof. intros Ha E. apply progress_quiet, (Ha _ _ _ E). Qed.

Lemma pick_worker_plain ks es m m' w : RunManager_pick_worker (S := S) cfg m = (m', Ok w) -> progress ks es m ->
  plain_worker w /\ progress ks es m' /\ emitting [] [] m m'.
Proof.
  intros E Hp. pose proof (acts_pick_worker _ _ _ E) as He. split; [|split; [by eapply progress_quiet|done]].
  unfold RunManager_pick_worker in E. apply st_bind_Ok in E as (m1 & q & E1 & E). injection E1 as <- <-.
  eapply pick_plain; [exact E|]. apply (pr_plain _ _ _ Hp).
Qed.

(** Reading the address of a key. *)
Lemma run_uri_inv key m m' u : run_uri (S := S) key m = (m', Ok u) -> m' = m /\ u = os_uri_for_key (mg_store m) key.
Proof. unfold run_uri, bucket_do, uri_of. intros [= <- <-]. by rewrite mg_with_store_same. Qed.

Lemma mapS_run_uri {A B} (key : A -> string) (f : A -> string -> B) l (m m' : manager) us :
  mapS (fun x => u ← run_uri (S := S) (key x); mret (f x u)) l m = (m', Ok us) ->
  m' = m /\ us = map (fun x => f x (os_uri_for_key (mg_store m) (key x))) l.
Proof.
  revert m' us. induction l as [|x l IH]; intros m' us E; cbn [mapS] in E; [by injection E as <- <-|].
  apply st_bind_Ok in E as (m1 & y & E1 & E). apply st_bind_Ok in E1 as (m2 & u & [-> ->]%run_uri_inv & [= <- <-]).
  apply st_bind_Ok in E as (m3 & ys & [-> ->]%IH & [= <- <-]). done.
Qed.

Lemma addr_same ks es m : progress ks es m -> os_uri_for_key (mg_store m) = addr.
Proof. intros Hp. exact (fl_addr _ _ _ _ (em_store _ _ _ _ _ (pr_em _ _ _ Hp))). Qed.

Lemma still_there ks es m uri : progress ks es m -> there m0 uri -> there m uri.
Proof. intros Hp. apply (there_keeps _ _ _ _ _ (pr_em _ _ _ Hp)). Qed.

(** A job [k] was emitted. *)
Definition emitted (ks : list step_job) (es : list (manager * JobManifestV3)) (k : step_job) (m m' : manager) (man : JobManifestV3) : Prop :=
  (forall uri, there m uri -> there m' uri) /\ jm_job_id man = job_name step k /\
  exists m1, progress (ks ++ [k]) (es ++ [(m1, man)]) m'.

Lemma emitted_after ks es k m m1 m2 man : emitting [] [] m m1 -> emitted ks es k m1 m2 man -> emitted ks es k m m2 man.
Proof. intros He (Hk & Hr). split; [|done]. intros uri Hu. by eapply Hk, there_keeps. Qed.

Lemma emitted_now ks es m m' kind graph params inputs outputs worker job_id man k :
  emit_job kind step graph params inputs outputs worker job_id m = (m', Ok man) ->
  str_or_default job_id ("step" +:+ py_str_int step +:+ "-" +:+ kind) = job_name step k ->
  progress ks es m -> k ∉ ks -> job_ok k -> str_forallb is_ascii kind = true -> plain_worker worker -> simple_params params ->
  Forall (fun r => ref_printable r = true) inputs -> Forall (fun r => ref_printable r = true) outputs ->
  all_there m inputs -> at_named k (map ar_uri outputs) -> emitted ks es k m m' man.
Proof.
  intros E Hj Hp. intros. pose proof (emit_job_spec _ _ _ _ _ _ _ _ _ _ _ E) as Hs. cbv zeta in Hs. rewrite Hj in Hs.
  destruct Hs as (He & _); [by eapply manifest_uri_lacks|]. edestruct progress_emit as (Hp' & Hid & _); try done.
  split; [intros uri; by apply (there_keeps _ _ _ _ _ He)|]. eauto.
Qed.

(** *** References *)

Lemma weights_ascii ks es m st ub : progress ks es m ->
  str_forallb is_ascii (os_uri_for_key (mg_store m) (weights_key (rc_netuid cfg) (rc_run_id cfg) st ub)) = true.
Proof.
  intros Hp. apply (uri_ascii _ _ _ _ Hp). pose proof (printable_ascii _ run_printable).
  unfold weights_key, run_root, root. solve_ascii.
Qed.

Lemma weight_policy st : policy_printable (if (0 <? st)%Z then rc_crypto_policy cfg else None).
Proof. destruct (0 <? st)%Z; [done|by intros c]. Qed.

Lemma weight_ref_inv name st ub (m m' : manager) r : RunManager_weight_ref (S := S) cfg name st ub m = (m', Ok r) ->
  m' = m /\ r = mkRef name (os_uri_for_key (mg_store m) (weights_key (rc_netuid cfg) (rc_run_id cfg) st ub)) None None
                  (if (0 <? st)%Z then rc_crypto_policy cfg else None).
Proof.
  intros E. unfold RunManager_weight_ref in E. by apply st_bind_Ok in E as (m1 & uri & [-> ->]%run_uri_inv & [= <- <-]).
Qed.

(** The weights of every block, as the inputs of a job. *)
Lemma weight_refs_spec ks es m m' st refs :
  mapS (fun ub => RunManager_weight_ref (S := S) cfg ("weights_" +:+ py_str_int ub) st ub) (ubs task) m = (m', Ok refs) ->
  progress ks es m -> (forall ub, ub ∈ ubs task -> there m (weights_at st ub)) ->
  m' = m /\ Forall (fun r => ref_printable r = true) refs /\ all_there m refs.
Proof.
  intros E Hp Hw. apply (mapS_run_uri (fun ub => weights_key (rc_netuid cfg) (rc_run_id cfg) st ub)
    (fun ub uri => mkRef ("weights_" +:+ py_str_int ub) uri None None (if (0 <? st)%Z then rc_crypto_policy cfg else None))) in E as [-> ->].
  split; [done|]. unfold all_there. rewrite !Forall_map. split; apply Forall_forall; intros ub Hub.
  - apply ref_printable_new; [solve_ascii|by eapply weights_ascii|apply weight_policy].
  - cbn [ar_uri]. rewrite (addr_same _ _ _ Hp). by apply Hw.
Qed.

Lemma simple_ub ub : simple_params [("ub", PInt ub)].
Proof. split; by vm_compute. Qed.
Lemma simple_round st : simple_params [("round_id", PInt st)].
Proof. split; by vm_compute. Qed.
Lemma simple_replica ub r : simple_params [("ub", PInt ub); ("replica", PInt r)].
Proof. split; by vm_compute. Qed.
Lemma simple_reduce ub n : simple_params [("ub", PInt ub); ("n_inputs", PInt n)].
Proof. split; by vm_compute. Qed.

(** *** The emitters *)

Definition weights_there (st : Z) (m : manager) : Prop := forall ub, ub ∈ ubs task -> there m (weights_at st ub).

Lemma emit_forward_spec ks es m m' man : emit_forward step m = (m', Ok man) -> progress ks es m -> Forward ∉ ks ->
  weights_there step m0 -> emitted ks es Forward m m' man.
Proof.
  intros E Hp Hk Hw. unfold RunManager_emit_forward in E. apply st_bind_Ok in E as (m1 & worker & E1 & E).
  apply (pick_worker_plain _ _ _ _ _ E1) in Hp as (Hworker & Hp & He). apply (emitted_after _ _ _ _ _ _ _ He).
  apply st_bind_Ok in E as (m2 & outs & E2 & E). apply st_bind_Ok in E as (m3 & ins & E3 & E).
  apply (mapS_run_uri (fun ub => target_key (rc_netuid cfg) (rc_run_id cfg) step ub)
    (fun ub uri => RunManager_output_ref cfg ("target_" +:+ py_str_int ub) uri)) in E2 as [-> ->].
  apply (weight_refs_spec ks es) in E3 as (-> & Hi1 & Hi2); [|done|intros ub Hub; by eapply still_there, Hw].
  apply st_bind_Ok in E as (m4 & graph & [-> _]%st_lift_Ok & E).
  eapply emitted_now; [exact E|done|done|done|done|done|done|apply simple_round|done| |done|].
  - rewrite Forall_map. apply Forall_forall. intros ub _. apply ref_printable_new; [solve_ascii| |done].
    apply (uri_ascii _ _ _ _ Hp). pose proof (printable_ascii _ run_printable). unfold target_key, run_root, root. solve_ascii.
  - intros us [= <-]. rewrite map_map. cbn [RunManager_output_ref ar_uri]. by rewrite (addr_same _ _ _ Hp).
Qed.

(** Jobs whose outputs were waited for. *)
Definition finished (K : list step_job) (es : list (manager * JobManifestV3)) (m : manager) : Prop :=
  forall e k, e ∈ es -> k ∈ K -> jm_job_id e.2 = job_name step k -> all_there m (jm_outputs e.2).

Lemma load_job_spec ks es m m' e man : RunManager_load_job (S := S) cfg (jm_job_id e.2) m = (m', Ok man) ->
  progress ks es m -> e ∈ es -> m' = m /\ man = JobManifestV3_normal e.2.
Proof.
  intros E Hp He. unfold RunManager_load_job in E. apply st_bind_Ok in E as (m1 & uri & [-> ->]%run_uri_inv & E).
  pose proof (pr_filed _ _ _ Hp) as Hf. rewrite Forall_forall in Hf. pose proof (filed_read _ _ _ _ (Hf _ He)) as Hr.
  unfold bucket_do in E. change (os_uri_for_key ?s (job_manifest_key _ _ ?j)) with (manifest_uri (job_manifest_key (rc_netuid cfg) (rc_run_id cfg)) s j) in E.
  rewrite Hr in E. injection E as <- <-. by rewrite mg_with_store_same.
Qed.

Lemma find_emission ks es m k : progress ks es m -> k ∈ ks -> exists e, e ∈ es /\ jm_job_id e.2 = job_name step k.
Proof.
  intros Hp Hk. assert (job_name step k ∈ map (fun e => jm_job_id e.2) es) as Hin.
  { rewrite (pr_ids _ _ _ Hp). by apply list_elem_of_fmap_2. }
  apply list_elem_of_fmap in Hin as (e & He & Hin). eauto.
Qed.

Lemma filed_outputs ks es m e r : progress ks es m -> e ∈ es -> r ∈ jm_outputs e.2 -> ref_printable r = true.
Proof.
  intros Hp He Hr. pose proof (pr_filed _ _ _ Hp) as Hf. rewrite Forall_forall in Hf. destruct (Hf _ He) as (Hok & _).
  apply manifest_refs_printable in Hok. rewrite Forall_forall in Hok. auto.
Qed.

(** An input that is an output of a job before. *)
Lemma passed_on name crypto r : ref_printable r = true -> str_forallb is_ascii name = true ->
  crypto = ar_crypto r \/ crypto = None -> ref_printable (mkRef name (ar_uri r) None None crypto) = true.
Proof.
  intros [Hu Hc]%ref_printable_inv Hn [-> | ->]; apply ref_printable_new; try done.
Qed.

Lemma artifact_ascii ks es m job worker name suffix : progress ks es m -> plain_worker worker ->
  str_forallb is_ascii job = true -> str_forallb is_ascii name = true -> str_forallb is_ascii suffix = true ->
  str_forallb is_ascii (os_uri_for_key (mg_store m)
    (artifact_key (rc_netuid cfg) (rc_run_id cfg) job (wi_hotkey_ss58 worker) (wi_worker_id worker) 0 name suffix)) = true.
Proof.
  intros Hp [Hw1 Hw2] Hj Hn Hs. apply (uri_ascii _ _ _ _ Hp). pose proof (printable_ascii _ run_printable).
  unfold artifact_key, artifact_prefix, root. solve_ascii.
Qed.

Lemma name_ascii k : str_forallb is_ascii (job_name step k) = true.
Proof. apply printable_ascii, job_name_printable. Qed.

(** The weights of the step are there from the start. *)
Context (weights_ready : weights_there step m0).

Lemma emit_inner_spec ks es m m' man ub r K : emit_inner step ub r m = (m', Ok man) -> progress ks es m -> finished K es m ->
  ub ∈ ubs task -> (0 <= ub)%Z -> (0 <= r)%Z -> Inner ub r ∉ ks -> Forward ∈ ks -> Forward ∈ K -> emitted ks es (Inner ub r) m m' man.
Proof.
  intros E Hp Hf Hub Hub0 Hr0 Hk Hfwd HfK. unfold RunManager_emit_inner in E. apply st_bind_Ok in E as (m1 & worker & E1 & E).
  apply (pick_worker_plain _ _ _ _ _ E1) in Hp as (Hworker & Hp & He). apply (emitted_after _ _ _ _ _ _ _ He).
  destruct (find_emission _ _ _ _ Hp Hfwd) as (e & Hine & Hid).
  apply st_bind_Ok in E as (m2 & fwd & E2 & E). change ("step" +:+ py_str_int step +:+ "-forward_pass") with (job_name step Forward) in E2.
  rewrite <- Hid in E2. apply (load_job_spec ks es) in E2 as [-> ->]; [|done..].
  apply st_bind_Ok in E as (m3 & target & [-> Ht]%st_lift_Ok & E). apply of_option_inv in Ht.
  cbn [JobManifestV3_normal jm_outputs] in Ht. apply list_elem_of_lookup_2 in Ht as Htin.
  apply st_bind_Ok in E as (m4 & uri & [-> ->]%run_uri_inv & E). apply st_bind_Ok in E as (m5 & w & [-> ->]%weight_ref_inv & E).
  apply st_bind_Ok in E as (m6 & graph & [-> _]%st_lift_Ok & E).
  eapply (emitted_now ks es) with (k := Inner ub r); [exact E|done|done|done|done|done|done|apply simple_replica|..].
  - constructor; [|constructor; [|done]].
    + apply ref_printable_new; [done|by eapply weights_ascii|apply weight_policy].
    + apply passed_on; [by eapply filed_outputs|done|by left].
  - constructor; [|done]. apply ref_printable_new; [done| |done].
    apply (artifact_ascii ks es); try done. exact (name_ascii (Inner ub r)).
  - constructor; [|constructor; [|done]]; cbn [ar_uri].
    + rewrite (addr_same _ _ _ Hp). by eapply still_there, weights_ready.
    + pose proof (Hf e Forward Hine HfK Hid) as Ha. eapply all_there_keeps in Ha; [|exact He].
      unfold all_there in Ha. rewrite Forall_forall in Ha. by apply Ha.
  - by intros us.
Qed.

(** The inner jobs of a block in the emissions. *)
Definition of_block (ub : Z) (e : manager * JobManifestV3) : bool :=
  str_contains (step_ub step ub +:+ "-inner") (jm_job_id e.2).

(** No job of the same step was emitted before it. *)
Context (emitted_before : Forall (fun id => exists s k, id = job_name s k /\ (0 <= s < step)%Z /\ job_ok k) (mg_emitted m0)).

Lemma load_jobs_spec ks es es' m m' jobs : progress ks es m -> incl es' es ->
  mapS (RunManager_load_job (S := S) cfg) (map (fun e => jm_job_id e.2) es') m = (m', Ok jobs) ->
  m' = m /\ jobs = map (fun e => JobManifestV3_normal e.2) es'.
Proof.
  intros Hp. revert m' jobs. induction es' as [|e es' IH]; intros m' jobs Hincl E; cbn [mapS map] in E; [by injection E as <- <-|].
  apply st_bind_Ok in E as (m1 & man & E1 & E). apply (load_job_spec ks es) in E1 as [-> ->]; [|done|].
  2: { apply list_elem_of_In, Hincl. by left. }
  apply st_bind_Ok in E as (m2 & rest & E2 & [= <- <-]). apply IH in E2 as [-> ->]; [done|].
  intros x Hx. apply Hincl. by right.
Qed.

Lemma filter_map_commute {A B} (f : A -> B) p (l : list A) : List.filter p (map f l) = map f (List.filter (fun x => p (f x)) l).
Proof. induction l as [|x l IH]; cbn; [done|]. destruct (p (f x)); cbn; by rewrite IH. Qed.

Lemma earlier_other_block ub : (0 <= ub)%Z -> List.filter (str_contains (step_ub step ub +:+ "-inner")) (mg_emitted m0) = [].
Proof.
  intros Hub. apply elem_of_nil_inv. intros id (Hid & Hc)%list_elem_of_In%filter_In. apply list_elem_of_In in Hid.
  rewrite Forall_forall in emitted_before. destruct (emitted_before _ Hid) as (s & k & -> & Hs & Hk).
  rewrite inner_pattern in Hc by (done || lia). destruct k; try discriminate Hc. apply bool_decide_eq_true in Hc as [-> _]. lia.
Qed.

Lemma inner_outputs_spec ks es m m' deltas ub : inner_outputs (S := S) cfg step ub m = (m', Ok deltas) -> progress ks es m -> (0 <= ub)%Z ->
  m' = m /\ deltas = concat (map (fun e => jm_outputs e.2) (List.filter (of_block ub) es)).
Proof.
  intros E Hp Hub. unfold inner_outputs in E. apply st_bind_Ok in E as (m1 & m2 & [= <- <-] & E).
  rewrite (em_emitted _ _ _ _ _ (pr_em _ _ _ Hp)), List.filter_app, earlier_other_block in E by done.
  rewrite <- (pr_ids _ _ _ Hp), filter_map_commute in E. cbn [app] in E.
  apply st_bind_Ok in E as (m3 & jobs & E1 & E). apply (load_jobs_spec ks es) in E1 as [-> ->]; [|done|apply incl_filter].
  injection E as <- <-. by rewrite map_map.
Qed.

Lemma of_block_inner ks es m ub e : progress ks es m -> (0 <= ub)%Z -> e ∈ List.filter (of_block ub) es ->
  e ∈ es /\ exists r, jm_job_id e.2 = job_name step (Inner ub r) /\ Inner ub r ∈ ks.
Proof.
  intros Hp Hub He. apply list_elem_of_In, filter_In in He as [He Hb]. apply list_elem_of_In in He. split; [done|].
  assert (jm_job_id e.2 ∈ map (job_name step) ks) as Hin.
  { rewrite <- (pr_ids _ _ _ Hp). by apply (list_elem_of_fmap_2 (fun e : manager * JobManifestV3 => jm_job_id e.2)). }
  apply list_elem_of_fmap in Hin as (k & Hid & Hk). pose proof (pr_ok _ _ _ Hp) as Hok. rewrite Forall_forall in Hok.
  unfold of_block in Hb. rewrite Hid, inner_pattern in Hb by auto. destruct k as [|u r|u|u|]; try discriminate Hb.
  apply bool_decide_eq_true in Hb as [_ ->]. eauto.
Qed.

Lemma delta_inputs_spec (P : ArtifactRef -> Prop) deltas :
  (forall i ref, ref ∈ deltas -> P (mkRef ("d_" +:+ py_str_int i) (ar_uri ref) None None (ar_crypto ref))) ->
  Forall P (delta_inputs deltas).
Proof.
  intros HP. apply Forall_lookup. intros i r Hr. unfold delta_inputs in Hr. rewrite list_lookup_imap in Hr.
  destruct (deltas !! i) as [ref|] eqn:Hd; [|done]. injection Hr as <-. apply HP. by eapply list_elem_of_lookup_2.
Qed.

Lemma emit_reduce_spec ks es m m' man ub K : emit_reduce step ub m = (m', Ok man) -> progress ks es m -> finished K es m ->
  (0 <= ub)%Z -> Reduce ub ∉ ks -> (forall r, Inner ub r ∈ ks -> Inner ub r ∈ K) -> emitted ks es (Reduce ub) m m' man.
Proof.
  intros E Hp Hf Hub Hk HK. unfold RunManager_emit_reduce in E. apply st_bind_Ok in E as (m1 & worker & E1 & E).
  apply (pick_worker_plain _ _ _ _ _ E1) in Hp as (Hworker & Hp & He). apply (emitted_after _ _ _ _ _ _ _ He).
  apply st_bind_Ok in E as (m2 & deltas & E2 & E). apply (inner_outputs_spec ks es) in E2 as [-> ->]; [|done..].
  apply st_bind_Ok in E as (m3 & graph & [-> _]%st_lift_Ok & E). apply st_bind_Ok in E as (m4 & uri & [-> ->]%run_uri_inv & E).
  assert (forall ref, ref ∈ concat (map (fun e => jm_outputs e.2) (List.filter (of_block ub) es)) ->
    ref_printable ref = true /\ there m1 (ar_uri ref)) as Href.
  { intros ref Href. apply list_elem_of_In, in_concat in Href as (refs & Hin & Hr).
    apply in_map_iff in Hin as (e & <- & Hin). apply list_elem_of_In in Hr, Hin.
    apply (of_block_inner ks es m1) in Hin as (Hine & r & Hid & Hr'); [|done..]. split; [by eapply filed_outputs|].
    pose proof (Hf e _ Hine (HK _ Hr') Hid) as Ha. eapply all_there_keeps in Ha; [|exact He].
    unfold all_there in Ha. rewrite Forall_forall in Ha. by apply Ha. }
  eapply (emitted_now ks es) with (k := Reduce ub); [exact E|done|done|done|done|done|done|apply simple_reduce|..].
  - apply delta_inputs_spec. intros i ref Hr. apply passed_on; [by apply Href|solve_ascii|by left].
  - constructor; [|done]. apply ref_printable_new; [done| |done].
    apply (artifact_ascii ks es); try done. exact (name_ascii (Reduce ub)).
  - apply delta_inputs_spec. intros i ref Hr. cbn [ar_uri]. by apply Href.
  - by intros us.
Qed.

Lemma emit_outer_spec ks es m m' man ub K : emit_outer step ub m = (m', Ok man) -> progress ks es m -> finished K es m ->
  ub ∈ ubs task -> (0 <= ub)%Z -> Outer ub ∉ ks -> Reduce ub ∈ ks -> Reduce ub ∈ K -> emitted ks es (Outer ub) m m' man.
Proof.
  intros E Hp Hf Hub Hub0 Hk Hred HrK. unfold RunManager_emit_outer in E. apply st_bind_Ok in E as (m1 & worker & E1 & E).
  apply (pick_worker_plain _ _ _ _ _ E1) in Hp as (Hworker & Hp & He). apply (emitted_after _ _ _ _ _ _ _ He).
  destruct (find_emission _ _ _ _ Hp Hred) as (e & Hine & Hid).
  apply st_bind_Ok in E as (m2 & red & E2 & E). change (step_ub step ub +:+ "-reduce") with (job_name step (Reduce ub)) in E2.
  rewrite <- Hid in E2. apply (load_job_spec ks es) in E2 as [-> ->]; [|done..].
  apply st_bind_Ok in E as (m5 & w & [-> ->]%weight_ref_inv & E).
  apply st_bind_Ok in E as (m3 & reduced & [-> Ht]%st_lift_Ok & E). apply of_option_inv in Ht.
  cbn [JobManifestV3_normal jm_outputs] in Ht. apply list_elem_of_lookup_2 in Ht as Htin.
  apply st_bind_Ok in E as (m4 & uri & [-> ->]%run_uri_inv & E).
  apply st_bind_Ok in E as (m6 & graph & [-> _]%st_lift_Ok & E).
  eapply (emitted_now ks es) with (k := Outer ub); [exact E|done|done|done|done|done|done|apply simple_ub|..].
  - constructor; [|constructor; [|done]].
    + apply ref_printable_new; [done|by eapply weights_ascii|apply weight_policy].
    + apply passed_on; [by eapply filed_outputs|done|by right].
  - constructor; [|done]. apply ref_printable_new; [done|by eapply weights_ascii|done].
  - constructor; [|constructor; [|done]]; cbn [ar_uri].
    + rewrite (addr_same _ _ _ Hp). by eapply still_there, weights_ready.
    + pose proof (Hf e _ Hine HrK Hid) as Ha. eapply all_there_keeps in Ha; [|exact He].
      unfold all_there in Ha. rewrite Forall_forall in Ha. by apply Ha.
  - intros us [= <-]. cbn [map RunManager_output_ref ar_uri]. by rewrite (addr_same _ _ _ Hp).
Qed.

Lemma emit_eval_spec ks es m m' man : emit_eval step m = (m', Ok man) -> progress ks es m -> EvalStep ∉ ks ->
  weights_there (step + 1) m -> emitted ks es EvalStep m m' man.
Proof.
  intros E Hp Hk Hw. unfold RunManager_emit_eval in E. apply st_bind_Ok in E as (m1 & worker & E1 & E).
  apply (pick_worker_plain _ _ _ _ _ E1) in Hp as (Hworker & Hp & He). apply (emitted_after _ _ _ _ _ _ _ He).
  apply st_bind_Ok in E as (m2 & ins & E3 & E).
  apply (weight_refs_spec ks es) in E3 as (-> & Hi1 & Hi2); [|done|intros ub Hub; by eapply there_keeps, Hw].
  apply st_bind_Ok in E as (m4 & uri & [-> ->]%run_uri_inv & E).
  apply st_bind_Ok in E as (m6 & graph & [-> _]%st_lift_Ok & E).
  eapply (emitted_now ks es) with (k := EvalStep); [exact E|done|done|done|done|done|done|apply simple_round|done| |done|].
  - constructor; [|done]. apply ref_printable_new; [done| |done]. apply (uri_ascii _ _ _ _ Hp).
    pose proof (printable_ascii _ run_printable). unfold run_root, root. solve_ascii.
  - by intros us.
Qed.

(** *** Waiting and phases *)

Lemma acts_settle man : acts [] [] (settle_job (S := S) man).
Proof. apply acts_bind0; [apply acts_release|auto with emission]. Qed.

Lemma acts_nap : acts [] [] (nap env flusher).
Proof. by apply (acts_sleep (job_manifest_key (rc_netuid cfg) (rc_run_id cfg))). Qed.

Lemma allS_exists refs (m m' : manager) b : allS (fun ref => bucket_do (os_exists (ar_uri ref))) refs m = (m', Ok b) ->
  m' = m /\ (b = true -> all_there m refs).
Proof.
  revert b. induction refs as [|r refs IH]; intros b E; cbn [allS] in E; [injection E as <- <-; split; [done|constructor]|].
  apply st_bind_Ok in E as (m1 & b1 & E1 & E). pose proof E1 as E2. apply reads_same in E2 as ->; [|apply reads_exists].
  unfold bucket_do in E1. pose proof (exists_reads (ar_uri r) (mg_store m)) as Hr.
  destruct (os_exists (ar_uri r) (mg_store m)) as [s res] eqn:Ee. cbn in Hr. subst s. injection E1 as _ ->.
  destruct b1; [|by injection E as <- <-]. destruct (IH _ E) as [-> IHb]. split; [done|]. intros Hb. constructor; [done|by apply IHb].
Qed.

Lemma wait_loop_spec fuel deadline man m m' u : wait_loop clock env flusher spent cfg fuel deadline man m = (m', Ok u) ->
  emitting [] [] m m' /\ all_there m' (jm_outputs man).
Proof.
  revert m. induction fuel as [|fuel IH]; intros m E; [done|]. cbn [wait_loop] in E. apply st_bind_Ok in E as (m1 & t & E1 & E).
  apply acts_clock with (mkey := job_manifest_key (rc_netuid cfg) (rc_run_id cfg)) in E1. destruct (fltb t deadline).
  - apply st_bind_Ok in E as (m2 & b & E2 & E). apply allS_exists in E2 as [-> Hb]. destruct b.
    + apply acts_settle in E. split; [exact (emitting_trans _ [] [] [] [] _ _ _ E1 E)|]. eapply all_there_keeps; [exact E|by apply Hb].
    + apply st_bind_Ok in E as (m3 & u3 & E3 & E). apply acts_nap in E3. apply IH in E as [E Ha]. split; [|done].
      exact (emitting_trans _ [] [] [] [] _ _ _ (emitting_trans _ [] [] [] [] _ _ _ E1 E3) E).
  - apply st_bind_Ok in E as (m2 & u2 & _ & E). apply st_bind_Ok in E as (m3 & uri & _ & E).
    apply st_bind_Ok in E as (m4 & now & _ & E). by apply st_bind_Ok in E as (m5 & u5 & _ & E).
Qed.

Lemma wait_outputs_spec fuel man m m' u : RunManager_wait_outputs clock env flusher spent cfg fuel man m = (m', Ok u) ->
  emitting [] [] m m' /\ all_there m' (jm_outputs man).
Proof.
  intros E. unfold RunManager_wait_outputs in E. apply st_bind_Ok in E as (m1 & t & E1 & E).
  apply acts_clock with (mkey := job_manifest_key (rc_netuid cfg) (rc_run_id cfg)) in E1. apply wait_loop_spec in E as [E Ha].
  split; [|done]. exact (emitting_trans _ [] [] [] [] _ _ _ E1 E).
Qed.

Lemma wait_all_spec fuel jobs m m' u : wait_all clock env flusher spent cfg fuel jobs m = (m', Ok u) ->
  emitting [] [] m m' /\ forall man, man ∈ jobs -> all_there m' (jm_outputs man).
Proof.
  intros E. unfold wait_all in E. apply st_bind_Ok in E as (m1 & us & E & [= <- _]). revert m us E.
  induction jobs as [|man jobs IH]; intros m us E; cbn [mapS] in E.
  - injection E as <- _. split; [apply emitting_refl|by intros ? ?%elem_of_nil].
  - apply st_bind_Ok in E as (m2 & u2 & [E2 Ha2]%wait_outputs_spec & E). apply st_bind_Ok in E as (m3 & us3 & E3 & [= <- _]).
    apply IH in E3 as [E3 Ha3]. split; [exact (emitting_trans _ [] [] [] [] _ _ _ E2 E3)|].
    intros man' [-> |Hin]%elem_of_cons; [by eapply all_there_keeps|by apply Ha3].
Qed.

Lemma emitted_finished K ks es k m m' man : emitted ks es k m m' man -> finished K es m -> (forall j, j ∈ K -> j ∈ ks) ->
  progress ks es m -> k ∉ ks ->
  exists m1, progress (ks ++ [k]) (es ++ [(m1, man)]) m' /\ finished K (es ++ [(m1, man)]) m'.
Proof.
  intros (Hkeep & Hid & m1 & Hp') Hf HK Hp Hk. exists m1. split; [done|]. pose proof (pr_ok _ _ _ Hp') as Hok.
  rewrite Forall_forall in Hok. intros e j [He | ->%list_elem_of_singleton]%elem_of_app Hj Hej.
  - eapply Forall_impl; [exact (Hf e j He Hj Hej)|]. intros r. apply Hkeep.
  - cbn [snd] in Hej. rewrite Hid in Hej. apply job_name_inj in Hej as [_ ->]; [exfalso; auto| | | |]; try done.
    + apply Hok, elem_of_app. right. by left.
    + apply Hok, elem_of_app. left. auto.
Qed.

Section phase.
Context {A : Type} (emit : A -> ST manager JobManifestV3) (kf : A -> step_job) (l : list A) (K ks0 : list step_job).
Hypothesis waited : forall j, j ∈ K -> j ∈ ks0.
Hypothesis emit_ok : forall ks x es m m' man, x ∈ l -> (forall j, j ∈ ks0 -> j ∈ ks) -> (forall j, j ∈ ks -> j ∈ ks0 \/ j ∈ map kf l) ->
  kf x ∉ ks -> progress ks es m -> finished K es m -> emit x m = (m', Ok man) -> emitted ks es (kf x) m m' man.

Lemma phase_emit l2 : forall ks es m m' jobs, (forall x, x ∈ l2 -> x ∈ l) -> (forall j, j ∈ ks0 -> j ∈ ks) ->
  (forall j, j ∈ ks -> j ∈ ks0 \/ j ∈ map kf l) -> NoDup (ks ++ map kf l2) -> progress ks es m -> finished K es m ->
  mapS emit l2 m = (m', Ok jobs) ->
  exists es2, progress (ks ++ map kf l2) (es ++ es2) m' /\ finished K (es ++ es2) m' /\ map snd es2 = jobs.
Proof.
  induction l2 as [|x l2 IH]; intros ks es m m' jobs Hl Hks Hks' Hnd Hp Hf E; cbn [mapS map] in *.
  { injection E as <- <-. exists []. by rewrite !app_nil_r. }
  apply st_bind_Ok in E as (m1 & man & E1 & E). apply st_bind_Ok in E as (m2 & rest & E2 & [= <- <-]).
  assert (kf x ∉ ks) as Hx.
  { apply NoDup_app in Hnd as (_ & Hnd & _). intros Hin. apply (Hnd _ Hin). by left. }
  pose proof (emit_ok _ _ _ _ _ _ (Hl x (list_elem_of_here _ _)) Hks Hks' Hx Hp Hf E1) as Hem.
  destruct (emitted_finished K _ _ _ _ _ _ Hem Hf) as (ma & Hp1 & Hf1); [by auto|done|done|].
  apply (IH (ks ++ [kf x]) (es ++ [(ma, man)])) in E2 as (es2 & Hp2 & Hf2 & <-); try done.
  - exists ((ma, man) :: es2). rewrite <- !app_assoc in *. done.
  - intros y Hy. apply Hl. by right.
  - intros j Hj. apply elem_of_app. auto.
  - intros j [Hj| ->%list_elem_of_singleton]%elem_of_app; [auto|]. right. apply list_elem_of_fmap_2, Hl. by left.
  - by rewrite <- app_assoc.
Qed.

Lemma phase_done fuel es m m1 m2 jobs u : NoDup (ks0 ++ map kf l) -> progress ks0 es m -> finished K es m ->
  mapS emit l m = (m1, Ok jobs) -> wait_all clock env flusher spent cfg fuel jobs m1 = (m2, Ok u) ->
  exists es2, progress (ks0 ++ map kf l) (es ++ es2) m2 /\ finished (K ++ map kf l) (es ++ es2) m2.
Proof.
  intros Hnd Hp Hf E1 E2. destruct (phase_emit l ks0 es m m1 jobs) as (es2 & Hp1 & Hf1 & <-); try done; [by auto|].
  apply wait_all_spec in E2 as [E2 Ha]. exists es2. split; [by eapply progress_quiet|].
  pose proof (pr_ok _ _ _ Hp1) as Hok. rewrite Forall_forall in Hok. intros e k He Hk Hid. apply elem_of_app in He as [He|He].
  - assert (k ∈ ks0) as Hk0.
    { assert (jm_job_id e.2 ∈ map (job_name step) ks0) as Hin.
      { rewrite <- (pr_ids _ _ _ Hp). by apply (list_elem_of_fmap_2 (fun e : manager * JobManifestV3 => jm_job_id e.2)). }
      apply list_elem_of_fmap in Hin as (k' & Hid' & Hk'). rewrite Hid in Hid'.
      apply job_name_inj in Hid' as [_ ->]; try done; apply Hok, elem_of_app; [|by left].
      apply elem_of_app in Hk as [Hk|Hk]; [left; auto|by right]. }
    apply elem_of_app in Hk as [Hk|Hk].
    + eapply all_there_keeps; [exact E2|]. eapply (Hf1 e k); try done. apply elem_of_app. by left.
    + exfalso. apply NoDup_app in Hnd as (_ & Hnd & _). by apply (Hnd k).
  - apply Ha. by apply list_elem_of_fmap_2.
Qed.
End phase.

(** ** A step *)

Definition replicas : list (Z * Z) := flat_map (fun ub => map (pair ub) (py_range (rt_INNER_REPLICAS task))) (ubs task).

Definition step_jobs : list step_job :=
  (([Forward] ++ map (fun p => Inner p.1 p.2) replicas) ++ map Reduce (ubs task)) ++ map Outer (ubs task) ++ [EvalStep].

Lemma range_natural n z : z ∈ py_range n -> (0 <= z)%Z.
Proof. intros (k & -> & _)%list_elem_of_fmap. lia. Qed.

Lemma range_NoDup n : NoDup (py_range n).
Proof. unfold py_range. apply (NoDup_fmap_2 Z.of_nat), NoDup_ListNoDup, seq_NoDup. Qed.

Lemma replicas_spec p : p ∈ replicas <-> p.1 ∈ ubs task /\ p.2 ∈ py_range (rt_INNER_REPLICAS task).
Proof.
  unfold replicas. rewrite list_elem_of_In, in_flat_map. split.
  - intros (ub & Hub & Hp). apply in_map_iff in Hp as (r & <- & Hr). by rewrite !list_elem_of_In.
  - destruct p as [ub r]. rewrite !list_elem_of_In. cbn. intros [Hub Hr]. exists ub. split; [done|]. by apply in_map.
Qed.

Lemma replicas_NoDup : NoDup replicas.
Proof.
  unfold replicas. pose proof (range_NoDup (rt_N_UB task)) as Hn. unfold ubs. induction Hn as [|ub l Hub Hn IH]; cbn [flat_map]; [constructor|].
  apply NoDup_app. split_and!; [|  |exact IH].
  - apply (NoDup_fmap_2 (pair ub)), range_NoDup.
  - intros p (r & -> & _)%list_elem_of_fmap Hin. apply list_elem_of_In, in_flat_map in Hin as (ub' & Hub' & Hp).
    apply in_map_iff in Hp as (r' & [= -> _] & _). by apply Hub, list_elem_of_In.
Qed.

Lemma step_jobs_NoDup : NoDup step_jobs.
Proof.
  pose proof (range_NoDup (rt_N_UB task)) as Hn. unfold step_jobs.
  assert (NoDup (map (fun p => Inner p.1 p.2) replicas)) as H1.
  { apply (NoDup_fmap_2 (fun p : Z * Z => Inner p.1 p.2)), replicas_NoDup. }
  assert (NoDup (map Reduce (ubs task))) as H2 by by apply (NoDup_fmap_2 Reduce).
  assert (NoDup (map Outer (ubs task))) as H3 by by apply (NoDup_fmap_2 Outer).
  repeat (apply NoDup_app; split_and!); try done; try apply NoDup_singleton.
  - intros j ->%list_elem_of_singleton. by intros (p & Hp & _)%list_elem_of_fmap.
  - intros j [->%list_elem_of_singleton|(p & -> & _)%list_elem_of_fmap]%elem_of_app; by intros (q & Hq & _)%list_elem_of_fmap.
  - intros j [[->%list_elem_of_singleton|(p & -> & _)%list_elem_of_fmap]%elem_of_app|(p & -> & _)%list_elem_of_fmap]%elem_of_app;
      by intros [(q & Hq & _)%list_elem_of_fmap|Hq%list_elem_of_singleton]%elem_of_app.
  - intros j (p & -> & _)%list_elem_of_fmap. by intros Hq%list_elem_of_singleton.
Qed.

Lemma step_jobs_eq : step_jobs = ((([Forward] ++ map (fun p => Inner p.1 p.2) replicas) ++ map Reduce (ubs task)) ++ map Outer (ubs task)) ++ [EvalStep].
Proof. unfold step_jobs. by rewrite app_assoc. Qed.

Lemma step_jobs_split : NoDup (((([Forward] ++ map (fun p => Inner p.1 p.2) replicas) ++ map Reduce (ubs task)) ++ map Outer (ubs task)) ++ [EvalStep]).
Proof. rewrite <- step_jobs_eq. apply step_jobs_NoDup. Qed.

Lemma progress_start : plain_book (mg_quota m0) -> progress [] [] m0.
Proof. intros Hb. split; try done; [apply emissions_none, emitting_refl|apply emitting_refl|by constructor..]. Qed.

Lemma NoDup_head {A} (l1 l2 : list A) : NoDup (l1 ++ l2) -> NoDup l1.
Proof. by intros (? & _ & _)%NoDup_app. Qed.

Lemma next_weights K ks es m : progress ks es m -> finished K es m ->
  (forall ub, ub ∈ ubs task -> Outer ub ∈ ks /\ Outer ub ∈ K) -> weights_there (step + 1) m.
Proof.
  intros Hp Hf Ho ub Hub. destruct (Ho ub Hub) as [Hk HK]. destruct (find_emission _ _ _ _ Hp Hk) as (e & He & Hid).
  pose proof (Hf e _ He HK Hid) as Ha. pose proof (pr_outs _ _ _ Hp) as Hout. rewrite Forall_forall in Hout.
  specialize (Hout _ He (Outer ub) (range_natural _ _ Hub) Hid _ eq_refl). unfold all_there in Ha.
  destruct (jm_outputs e.2) as [|r [|]]; try discriminate Hout. injection Hout as Hr. apply Forall_cons in Ha as [Ha _].
  by rewrite Hr in Ha.
Qed.

(** The jobs of the step up to each phase. *)
Definition jobs1 : list step_job := [Forward].
Definition jobs2 : list step_job := jobs1 ++ map (fun p => Inner p.1 p.2) replicas.
Definition jobs3 : list step_job := jobs2 ++ map Reduce (ubs task).
Definition jobs4 : list step_job := jobs3 ++ map Outer (ubs task).

Definition reached (ks : list step_job) (m : manager) : Prop := exists es, progress ks es m /\ finished ks es m.
Notation waits fuel jobs := (wait_all clock env flusher spent cfg fuel jobs).

Lemma forward_phase fuel m1 m2 fwd u : plain_book (mg_quota m0) -> emit_forward step m0 = (m1, Ok fwd) ->
  waits fuel [fwd] m1 = (m2, Ok u) -> reached jobs1 m2.
Proof.
  intros Hb Ef Ew. destruct (phase_done (fun _ : unit => emit_forward step) (fun _ => Forward) [tt] [] []
    ltac:(done) ltac:(intros; eapply emit_forward_spec; eauto) fuel [] m0 m1 m2 [fwd] u) as (es & P & F); try done.
  - apply NoDup_singleton.
  - by apply progress_start.
  - by intros e k ?%elem_of_nil.
  - cbn [mapS]. cbv [mbind st_bind]. by rewrite Ef.
  - by exists es.
Qed.

Lemma inner_phase fuel m m1 m2 jobs u : reached jobs1 m -> mapS (fun p => emit_inner step p.1 p.2) replicas m = (m1, Ok jobs) ->
  waits fuel jobs m1 = (m2, Ok u) -> reached jobs2 m2.
Proof.
  intros (es & P & F) E Ew. edestruct (phase_done (fun p => emit_inner step p.1 p.2) (fun p => Inner p.1 p.2) replicas jobs1 jobs1)
    as (es2 & P2 & F2); [done| |exact (NoDup_head _ _ (NoDup_head _ _ (NoDup_head _ _ step_jobs_split)))|exact P|exact F|exact E|exact Ew|by eexists].
  intros ks [ub r] es' m' ma man Hx H1 _ Hn Hp Hf Hem. apply replicas_spec in Hx as [Hx1 Hx2]. cbn [fst snd] in *.
  eapply emit_inner_spec; eauto using range_natural; [apply H1; by left|by left].
Qed.

Lemma reduce_phase fuel m m1 m2 jobs u : reached jobs2 m -> mapS (emit_reduce step) (ubs task) m = (m1, Ok jobs) ->
  waits fuel jobs m1 = (m2, Ok u) -> reached jobs3 m2.
Proof.
  intros (es & P & F) E Ew. edestruct (phase_done (emit_reduce step) Reduce (ubs task) jobs2 jobs2)
    as (es2 & P2 & F2); [done| |exact (NoDup_head _ _ (NoDup_head _ _ step_jobs_split))|exact P|exact F|exact E|exact Ew|by eexists].
  intros ks ub es' m' ma man Hx H1 H2 Hn Hp Hf Hem. eapply emit_reduce_spec; eauto using range_natural. intros r Hr.
  destruct (H2 _ Hr) as [|H3]; [done|]. by apply list_elem_of_fmap in H3 as (? & ? & _).
Qed.

Lemma outer_phase fuel m m1 m2 jobs u : reached jobs3 m -> mapS (emit_outer step) (ubs task) m = (m1, Ok jobs) ->
  waits fuel jobs m1 = (m2, Ok u) -> reached jobs4 m2.
Proof.
  intros (es & P & F) E Ew. edestruct (phase_done (emit_outer step) Outer (ubs task) jobs3 jobs3)
    as (es2 & P2 & F2); [done| |exact (NoDup_head _ _ step_jobs_split)|exact P|exact F|exact E|exact Ew|by eexists].
  intros ks ub es' m' ma man Hx H1 H2 Hn Hp Hf Hem. assert (Reduce ub ∈ jobs3) as Hr.
  { apply elem_of_app. right. by apply list_elem_of_fmap_2. } eapply emit_outer_spec; eauto using range_natural.
Qed.

Lemma outer_waited ub : ub ∈ ubs task -> Outer ub ∈ jobs4.
Proof. intros Hin. apply elem_of_app. right. by apply list_elem_of_fmap_2. Qed.

Lemma eval_phase fuel m m1 m2 ev u : reached jobs4 m -> emit_eval step m = (m1, Ok ev) ->
  waits fuel [ev] m1 = (m2, Ok u) -> reached step_jobs m2.
Proof.
  intros (es & P & F) E Ew. edestruct (phase_done (fun _ : unit => emit_eval step) (fun _ => EvalStep) [tt] jobs4 jobs4)
    as (es2 & P2 & F2); [done| |exact step_jobs_split|exact P|exact F| |exact Ew|].
  - intros ks [] es' m' ma man Hx H1 H2 Hn Hp Hf Hem. eapply emit_eval_spec; eauto. eapply next_weights; [done..|].
    intros ub Hin%outer_waited. auto.
  - cbn [mapS]. cbv [mbind st_bind]. by rewrite E.
  - rewrite step_jobs_eq. by eexists.
Qed.

Lemma wait_one fuel job (m m' : manager) :
  RunManager_wait_outputs clock env flusher spent cfg fuel job m = (m', Ok tt) -> waits fuel [job] m = (m', Ok tt).
Proof. intros E. unfold wait_all. cbn [mapS]. cbv [mbind st_bind]. by rewrite E. Qed.

Lemma run_step_phases fuel m' : plain_book (mg_quota m0) ->
  RunManager_run_step clock btcli_show env flusher spent cfg task graphs broker encryptor fuel step m0 = (m', Ok tt) ->
  reached step_jobs m'.
Proof.
  intros Hb E. unfold RunManager_run_step in E.
  apply st_bind_Ok in E as (m1 & fwd & Ef & E). apply st_bind_Ok in E as (m2 & [] & Efw%wait_one & E).
  apply st_bind_Ok in E as (m3 & inners & Ei & E). apply st_bind_Ok in E as (m4 & [] & Eiw & E).
  apply st_bind_Ok in E as (m5 & reduces & Er & E). apply st_bind_Ok in E as (m6 & [] & Erw & E).
  apply st_bind_Ok in E as (m7 & outers & Eo & E). apply st_bind_Ok in E as (m8 & [] & Eow & E).
  apply st_bind_Ok in E as (m9 & ev & Ee & Eew%wait_one).
  eapply eval_phase; [|exact Ee|exact Eew]. eapply outer_phase; [|exact Eo|exact Eow]. eapply reduce_phase; [|exact Er|exact Erw].
  eapply inner_phase; [|exact Ei|exact Eiw]. by eapply forward_phase.
Qed.
End step.

(** What a step needs: its weights are in the bucket and the jobs emitted so
    far belong to earlier steps. *)
Record ready_for (step : Z) (m : manager) : Prop := {
  rf_natural : (0 <= step)%Z;
  rf_store : printable (os_uri_for_key (mg_store m) "") = true;
  rf_book : plain_book (mg_quota m);
  rf_before : Forall (fun id => exists s k, id = job_name s k /\ (0 <= s < step)%Z /\ job_ok k) (mg_emitted m);
  rf_weights : forall ub, ub ∈ ubs task ->
    there m (os_uri_for_key (mg_store m) (weights_key (rc_netuid cfg) (rc_run_id cfg) step ub))
}.

(** C25. The steps of a run follow the data.  A step that starts with its weights
    in the bucket and returns has emitted exactly its jobs, in the order
    forward, inner, reduce, outer, eval; when a job was emitted every one of its
    inputs was in the bucket; at the end all outputs are there, and the next
    step finds what it needs. *)
Theorem run_step_dataflow fuel step m m' : ready_for step m ->
  RunManager_run_step clock btcli_show env flusher spent cfg task graphs broker encryptor fuel step m = (m', Ok tt) ->
  ready_for (step + 1) m' /\
  exists es, emissions m es m' /\
    map (fun e => jm_job_id e.2) es = map (job_name step) step_jobs /\
    mg_emitted m' = mg_emitted m ++ map (job_name step) step_jobs /\
    Forall (fun e => all_there e.1 (jm_inputs e.2) /\ all_there m' (jm_outputs e.2)) es.
Proof.
  intros [R1 R2 R3 R4 R5] E. destruct (run_step_phases step m R1 R2 R5 R4 fuel m' R3 E) as (es & P & F).
  pose proof (em_emitted _ _ _ _ _ (pr_em _ _ _ _ _ P)) as Hem. pose proof (pr_ok _ _ _ _ _ P) as Hok. split.
  - split; [lia| |exact (pr_plain _ _ _ _ _ P)| |].
    + by rewrite (addr_same _ _ _ _ _ P).
    + rewrite Hem. apply Forall_app. split.
      * eapply Forall_impl; [exact R4|]. intros id (s & k & -> & Hs & Hk). exists s, k. split_and!; [done|lia..|done].
      * rewrite Forall_map. eapply Forall_impl; [exact Hok|]. intros k Hk. exists step, k. split_and!; [done|lia..|done].
    + intros ub Hub. rewrite (addr_same _ _ _ _ _ P). eapply (next_weights step m); [exact P|exact F| |done].
      intros u Hu. assert (Outer u ∈ step_jobs); [|done]. rewrite step_jobs_eq. apply elem_of_app. left. by apply outer_waited.
  - exists es. split; [exact (pr_run _ _ _ _ _ P)|]. split; [exact (pr_ids _ _ _ _ _ P)|]. split; [exact Hem|].
    apply Forall_forall. intros e He. pose proof (pr_ready _ _ _ _ _ P) as Hr. rewrite Forall_forall in Hr. split; [by apply Hr|].
    assert (jm_job_id e.2 ∈ map (job_name step) step_jobs) as Hin.
    { rewrite <- (pr_ids _ _ _ _ _ P). by apply (list_elem_of_fmap_2 (fun e : manager * JobManifestV3 => jm_job_id e.2)). }
    apply list_elem_of_fmap in Hin as (k & Hid & Hk). by apply (F e k).
Qed.
End facts.

(** ** An example *)

(** One block of weights and two replicas; another process writes the outputs
    the first time the manager sleeps. *)
#[local] Existing Instance byte_torch.
#[local] Existing Instance no_signatures.

Definition sample_graph : Graph := mkGraph [] [] [] [] 1.

Definition sample_task : RoundTask := mkRoundTask byte_torch 1 2 (Ok []) (Ok ("w0", "w1")) (fun _ => Ok sample_graph).

Definition sample_graphs : dict Graph :=
  [("forward", sample_graph); ("inner", sample_graph); ("outer", sample_graph); ("eval", sample_graph)].

Definition sample_cfg : RunConfig :=
  mkRunConfig 3 "run" "mlp" 1 "owner" None None "direct" 600 "" "dev" "" "bucket" None 4.

Definition sample_outputs : list string :=
  target_key 3 "run" 0 0 ::
  map (fun jn => artifact_key 3 "run" jn.1 "hk1" "w0" 0 jn.2 ".bin")
    [("step0-ub0-inner-r0", "delta"); ("step0-ub0-inner-r1", "delta"); ("step0-ub0-reduce", "reduced")] ++
  [weights_key 3 "run" 1 0; run_root 3 "run" +:+ "/metrics/step=" +:+ py_str_int 0 +:+ ".json"].

Definition put_output (s : LocalBucket) (key : string) : LocalBucket :=
  match os_put (os_uri_for_key s key) "data" s with (s', Ok tt) => s' | _ => s end.

Definition sample_env (_ : nat) (s : LocalBucket) : LocalBucket := fold_left put_output sample_outputs s.

Definition sample_manager : manager LocalBucket :=
  mkManager (put_output (LocalBucket_init "bk" 0) (weights_key 3 "run" 0 0))
    (QuotaBook_update_workers (QuotaBook_init (float_of_Z 16)) [mkMiner 3 "hk1" (Some 1%Z) None None []]
       [mkWorkerIdentity "hk1" "w0" "h" (Some 0%Z) "n" "" [] None []])
    (OrchestratorQueue_init 3 "run" "train" 100) None [] 0.

Definition sample_run : ST (manager LocalBucket) unit :=
  RunManager_run_step (fun _ => fone) (fun _ _ _ => Err (RuntimeError "")) sample_env (fun _ => None) OutOfFuel sample_cfg sample_task sample_graphs
    None (dev_encryptor (DevAssignmentCrypto_init "")) 5 0.

Lemma sample_run_returns : snd (sample_run sample_manager) = Ok tt.
Proof. vm_compute. reflexivity. Qed.

Lemma put_output_follows key s : not_a_manifest (job_manifest_key 3 "run") key -> follows (job_manifest_key 3 "run") [] s (put_output s key).
Proof.
  intros Hk. unfold put_output. destruct (os_put _ "data" s) as [s' [[]|e]] eqn:E; [|apply follows_refl]. by eapply put_follows.
Qed.

Lemma sample_env_follows n s : follows (job_manifest_key 3 "run") [] s (sample_env n s).
Proof.
  unfold sample_env. assert (Forall (not_a_manifest (job_manifest_key 3 "run")) sample_outputs) as Hk.
  { unfold sample_outputs. cbn [map app]. repeat constructor;
      (eapply other_folder; [unfold target_key, weights_key, artifact_key, artifact_prefix, run_root; by rewrite ?str_app_assoc|];
       intros x E; discriminate E). }
  revert s. induction Hk as [|key keys Hkey _ IH]; intros s; cbn [fold_left]; [apply follows_refl|].
  exact (follows_trans (job_manifest_key 3 "run") [] [] _ _ _ (put_output_follows key s Hkey) (IH _)).
Qed.

Lemma sample_ready : ready_for sample_cfg sample_task 0 sample_manager.
Proof.
  split; [done|vm_compute; reflexivity| |constructor|].
  - intros k a Hin. assert (forallb (fun e => forallb (fun w => str_forallb is_ascii (wi_hotkey_ss58 w) && str_forallb is_ascii (wi_worker_id w))
      (dict_values (ma_workers e.2))) (qb_accounts (mg_quota sample_manager)) = true) as Ha by (vm_compute; reflexivity).
    rewrite forallb_forall in Ha. specialize (Ha _ (proj1 (list_elem_of_In _ _) Hin)). cbn [snd] in Ha. apply Forall_forall.
    intros w Hw. rewrite forallb_forall in Ha. apply list_elem_of_In in Hw. by apply Ha, andb_true_iff in Hw as [? ?].
  - intros ub Hub. assert (ub = 0%Z) as ->.
    { change (ubs sample_task) with [0%Z] in Hub. by apply list_elem_of_singleton in Hub. }
    vm_compute. reflexivity.
Qed.

Lemma run_step_dataflow_witness : exists m',
  sample_run sample_manager = (m', Ok tt) /\
  map (job_name 0) (step_jobs sample_task) =
    ["step0-forward_pass"; "step0-ub0-inner-r0"; "step0-ub0-inner-r1"; "step0-ub0-reduce"; "step0-ub0-outer"; "step0-eval"] /\
  ready_for sample_cfg sample_task 1 m'.
Proof.
  pose proof sample_run_returns as Hr. destruct (sample_run sample_manager) as [m' r] eqn:E. cbn in Hr. subst r.
  exists m'. split; [done|]. split; [vm_compute; reflexivity|].
  assert (forall d sig, record_signature d (rc_owner_key sample_cfg) = Ok sig -> str_forallb is_ascii sig = true) as Hsig.
  { intros d sig Hs. cbn [record_signature rc_owner_key rc_owner_signer rc_owner_secret sample_cfg] in Hs.
    apply (inj Ok) in Hs as <-. apply hmac_ascii. }
  pose proof (run_step_dataflow (fun _ => fone) (fun _ _ _ => Err (RuntimeError "")) sample_env (fun _ => None) OutOfFuel sample_cfg sample_task
    sample_graphs None (dev_encryptor (DevAssignmentCrypto_init "")) sample_env_follows eq_refl ltac:(by intros c) Hsig 5 0 sample_manager m' sample_ready) as H.
  unfold sample_run in E.
  destruct (H E) as [Hready _]. exact Hready.
Defined.
