(* ===== verification/RunManagerEnds.v ===== *)
(** * The loops of the run manager end

    Every loop of the run manager watches the clock.  When the clock passes the
    deadlines it is compared with, enough fuel gives a result that neither more
    fuel nor another answer for spent fuel changes: the loops end. *)

From Stdlib Require Import ZArith Lia Ascii SpecFloat.
From stdpp Require Import base strings list.
From S2P Require Import Prelude PyFloat PyVal Json Digest Paths Signatures Codec Protocol.
From S2P Require Import Storage StoreReads Queue QueueFacts Transport Discovery Scheduler Crypto WalletCrypto Emission EmissionFacts.
From S2P Require Import Ir Tensors Mlp RunManager RunManagerFacts.

(** ** Programs with a bound on their loops *)

(** From some bound on, the result depends neither on the bound nor on the
    answer for a spent bound. *)
Definition settles {M A} (p : exn -> nat -> ST M A) : Prop :=
  forall m, exists f0 r, forall e f, (f0 <= f)%nat -> p e f m = r.

Lemma settles_const {M A} (p : ST M A) : settles (fun _ _ => p).
Proof. intros m. by exists 0%nat, (p m). Qed.

Lemma settles_bind {M A B} (p : exn -> nat -> ST M A) (k : A -> exn -> nat -> ST M B) :
  settles p -> (forall a, settles (k a)) -> settles (fun e f => p e f ≫= fun a => k a e f).
Proof.
  intros Hp Hk m. destruct (Hp m) as (f1 & [m1 [a|x]] & H1).
  - destruct (Hk a m1) as (f2 & r & H2). exists (f1 `max` f2)%nat, r. intros e f Hf. cbv [mbind st_bind].
    rewrite (H1 e f) by lia. apply H2. lia.
  - exists f1, (m1, Err x). intros e f Hf. cbv [mbind st_bind]. by rewrite (H1 e f) by lia.
Qed.

Lemma settles_mapS {M A B} (g : exn -> nat -> A -> ST M B) l : (forall x, settles (fun e f => g e f x)) ->
  settles (fun e f => mapS (g e f) l).
Proof.
  intros Hg. induction l as [|x l IH]; cbn [mapS]; [apply settles_const|].
  apply settles_bind; [done|intros y]. apply (settles_bind (fun e f => mapS (g e f) l) (fun ys _ _ => mret (y :: ys))); [done|].
  intros ys. apply settles_const.
Qed.

Lemma settles_finally {M A} (p : exn -> nat -> ST M A) (q : ST M unit) : settles p -> settles (fun e f => st_finally (p e f) q).
Proof.
  intros Hp m. destruct (Hp m) as (f1 & r & H1). exists f1, (st_finally (fun _ => r) q m). intros e f Hf.
  unfold st_finally. by rewrite (H1 e f) by lia.
Qed.

(** The deadline is passed from reading [n] on. *)
Definition passed_from (clock : nat -> float) (deadline : float) (n : nat) : Prop :=
  forall k, (n <= k)%nat -> fltb (clock k) deadline = false.

Section ends.
Context {S : Type} `{OS : ObjectStore S} `{SL : SigLib} `{TT : Torch}.
Context (clock : nat -> float) (btcli_show : Z -> string -> Z -> result pyval).
Context (env : nat -> S -> S) (flusher : nat -> option (Z * Z)).
Context (cfg : RunConfig) (task : RoundTask) (graphs : dict Graph).
Context (backend : BucketDiscoveryBackend) (broker : option PresignedUrlBroker) (encryptor : AssignmentEncryptor).
Notation manager := (manager S).

(** ** Readings of the clock *)

Definition ticks {A} (p : ST manager A) : Prop :=
  forall m m' a, p m = (m', Ok a) -> (mg_readings m <= mg_readings m')%nat.

Lemma ticks_bind {A B} (p : ST manager A) (k : A -> ST manager B) : ticks p -> (forall a, ticks (k a)) -> ticks (p ≫= k).
Proof.
  intros Hp Hk m m' b E. apply st_bind_Ok in E as (m1 & a & E1%Hp & E2%Hk). lia.
Qed.

Lemma ticks_same {A} (p : ST manager A) : (forall m, mg_readings (fst (p m)) = mg_readings m) -> ticks p.
Proof. intros Hs m m' a E. specialize (Hs m). rewrite E in Hs. cbn in Hs. lia. Qed.

Lemma ticks_ret {A} (a : A) : ticks (mret a).
Proof. by apply ticks_same. Qed.
Lemma ticks_lift {A} (r : result A) : ticks (st_lift r).
Proof. by apply ticks_same. Qed.
Lemma ticks_get : ticks st_get.
Proof. by apply ticks_same. Qed.
Lemma ticks_raise {A} e : ticks (A := A) (st_raise e).
Proof. by intros m m' a [=]. Qed.
Lemma ticks_clock : ticks (read_clock clock).
Proof. intros m m' a [= <- _]. cbn. lia. Qed.
Lemma ticks_bucket {A} (f : ST S A) : ticks (bucket_do f).
Proof. apply ticks_same. intros m. unfold bucket_do. by destruct (f (mg_store m)). Qed.
Lemma ticks_quota {A} (f : ST QuotaBook A) : ticks (quota_do f).
Proof. apply ticks_same. intros m. unfold quota_do. by destruct (f (mg_quota m)). Qed.
Lemma ticks_queue f : ticks (queue_do f).
Proof. by apply ticks_same. Qed.
Lemma ticks_note j : ticks (note_emitted j).
Proof. by apply ticks_same. Qed.
Lemma ticks_resolve r hk : ticks (resolve_hotkey btcli_show r hk).
Proof. apply ticks_same. intros m. unfold resolve_hotkey. by destruct (BtcliMetagraphHotkeyResolver_resolve _ _ _). Qed.
Lemma ticks_nap : ticks (nap env flusher).
Proof.
  apply ticks_same. intros m. unfold nap, sleep. destruct (flusher _) as [[n1 n2]|]; [|done].
  by destruct (OrchestratorQueue_flush_loop_turn _ _ _) as [[q s] r].
Qed.
Lemma ticks_mapS {A B} (f : A -> ST manager B) l : (forall x, ticks (f x)) -> ticks (mapS f l).
Proof.
  intros Hf. induction l as [|x l IH]; cbn [mapS]; [apply ticks_ret|].
  apply ticks_bind; [done|intros y]. apply ticks_bind; [done|intros ys; apply ticks_ret].
Qed.
Lemma ticks_allS {A} (f : A -> ST manager bool) l : (forall x, ticks (f x)) -> ticks (allS f l).
Proof.
  intros Hf. induction l as [|x l IH]; cbn [allS]; [apply ticks_ret|].
  apply ticks_bind; [done|intros [|]]; [done|apply ticks_ret].
Qed.

Ltac ticking_with t :=
  repeat first
    [ t | apply ticks_ret | apply ticks_lift | apply ticks_get | apply ticks_raise | apply ticks_clock | apply ticks_bucket
    | apply ticks_quota | apply ticks_queue | apply ticks_note | apply ticks_resolve | apply ticks_nap
    | apply ticks_mapS; intros ? | apply ticks_allS; intros ? | apply ticks_bind; [|intros ?] | assumption
    | match goal with |- ticks (if ?b then _ else _) => destruct b end
    | match goal with |- ticks (match ?x with _ => _ end) => destruct x end ].
Ltac ticking := ticking_with ltac:(idtac; fail).

Lemma ticks_emit kind step graph params inputs outputs worker job_id :
  ticks (RunManager_emit_job clock btcli_show cfg broker encryptor kind step graph params inputs outputs worker job_id).
Proof.
  unfold RunManager_emit_job, publish_job, RunManager_emit_assignment_grant, unix_now, run_uri, put_object.
  ticking.
Qed.

Lemma ticks_wait e f d man : ticks (wait_loop clock env flusher e cfg f d man).
Proof. induction f as [|f IH]; cbn [wait_loop]; unfold settle_job, put_document; ticking. Qed.

Lemma ticks_wait_outputs e f man : ticks (RunManager_wait_outputs clock env flusher e cfg f man).
Proof. unfold RunManager_wait_outputs. ticking. apply ticks_wait. Qed.

Lemma ticks_wait_workers e f d : ticks (RunManager_wait_for_workers clock env flusher e cfg backend f d).
Proof.
  induction f as [|f IH]; cbn [RunManager_wait_for_workers]; unfold RunManager_discover_workers, read_step, RunManager_save_state,
    put_document, run_uri; ticking.
Qed.

Lemma ticks_run_step e f step : ticks (RunManager_run_step clock btcli_show env flusher e cfg task graphs broker encryptor f step).
Proof.
  unfold RunManager_run_step, wait_all, RunManager_emit_forward, RunManager_emit_inner, RunManager_emit_reduce,
    RunManager_emit_outer, RunManager_emit_eval, RunManager_pick_worker, RunManager_load_job, RunManager_weight_ref,
    inner_outputs, graph_named, run_uri.
  ticking_with ltac:(idtac; match goal with
    | |- ticks (RunManager_emit_job _ _ _ _ _ _ _ _ _ _ _ _ _) => apply ticks_emit
    | |- ticks (RunManager_wait_outputs _ _ _ _ _ _ _) => apply ticks_wait_outputs end).
Qed.

(** ** Loops that watch the clock *)

(** A turn ends the loop or, the deadline not being passed, goes on from a
    state in which the clock was read again.  [F] bounds the loops inside. *)
Lemma timed_loop {A} (loop : exn -> nat -> nat -> ST manager A) d n : passed_from clock d n ->
  (forall m, (exists f0 r, forall e F f, (f0 <= F)%nat -> loop e F (Datatypes.S f) m = r) \/
     (fltb (clock (mg_readings m)) d = true /\ exists f0 m', (mg_readings m < mg_readings m')%nat /\
        forall e F f, (f0 <= F)%nat -> loop e F (Datatypes.S f) m = loop e F f m')) ->
  forall N m, (n - mg_readings m <= N)%nat ->
    exists f0 r, forall e F f, (f0 <= F)%nat -> (N < f)%nat -> loop e F f m = r.
Proof.
  intros Hd Hturn N. induction N as [|N IH]; intros m Hm; destruct (Hturn m) as [(f0 & r & Hr)|(Ht & f0 & m' & Hm' & Hr)].
  1,3: exists f0, r; intros e F [|f] HF Hf; [lia|by apply Hr].
  - rewrite (Hd (mg_readings m)) in Ht by lia. discriminate Ht.
  - destruct (IH m') as (f1 & r & Hr'); [lia|]. exists (f0 `max` f1)%nat, r. intros e F [|f] HF Hf; [lia|].
    rewrite Hr by lia. apply Hr'; lia.
Qed.

(** A turn of a loop whose other parts do not depend on the bounds. *)
Lemma read_turn (m : manager) : exists m1, read_clock clock m = (m1, Ok (clock (mg_readings m))) /\ mg_readings m1 = Datatypes.S (mg_readings m).
Proof. by eexists. Qed.

(** ** Waiting for outputs *)

Lemma wait_turn d man m :
  (exists f0 r, forall e F f, (f0 <= F)%nat -> wait_loop clock env flusher e cfg (Datatypes.S f) d man m = r) \/
  (fltb (clock (mg_readings m)) d = true /\ exists f0 m', (mg_readings m < mg_readings m')%nat /\
     forall e (F : nat) f, (f0 <= F)%nat ->
       wait_loop clock env flusher e cfg (Datatypes.S f) d man m = wait_loop clock env flusher e cfg f d man m').
Proof.
  destruct (read_turn m) as (m1 & E1 & Hm1). destruct (fltb (clock (mg_readings m)) d) eqn:Ht.
  2: { left. exists 0%nat. eexists. intros e F f _. cbn [wait_loop]. cbv [mbind st_bind]. rewrite E1, Ht. reflexivity. }
  destruct (allS (fun ref => bucket_do (os_exists (ar_uri ref))) (jm_outputs man) m1) as [m2 [[|]|x]] eqn:E2.
  1,3: left; exists 0%nat; eexists; intros e F f _; cbn [wait_loop]; cbv [mbind st_bind]; rewrite E1, Ht, E2; reflexivity.
  destruct (nap env flusher m2) as [m3 [u|x]] eqn:E3.
  2: left; exists 0%nat; eexists; intros e F f _; cbn [wait_loop]; cbv [mbind st_bind]; rewrite E1, Ht, E2, E3; reflexivity.
  assert (mg_readings m1 <= mg_readings m2)%nat by (eapply (ticks_allS _ _ ltac:(intros; apply ticks_bucket)); exact E2).
  assert (mg_readings m2 <= mg_readings m3)%nat by (eapply ticks_nap; exact E3).
  right. split; [done|]. exists 0%nat, m3. split; [lia|]. intros e F f _. cbn [wait_loop]. cbv [mbind st_bind]. by rewrite E1, Ht, E2, E3.
Qed.

(** The clock passes the deadline of every wait. *)
Definition waits_pass : Prop := forall j, exists n, passed_from clock (fadd (clock j) (float_of_Z 180)) n.

Lemma wait_outputs_settles man : waits_pass -> settles (fun e f => RunManager_wait_outputs clock env flusher e cfg f man).
Proof.
  intros Hc m. destruct (Hc (mg_readings m)) as (n & Hn). unfold RunManager_wait_outputs. cbv [mbind st_bind read_clock].
  destruct (timed_loop (fun e _ f => wait_loop clock env flusher e cfg f _ man) _ n Hn (wait_turn _ man) n
    (mkManager (mg_store m) (mg_quota m) (mg_queue m) (mg_resolver m) (mg_emitted m) (1 + mg_readings m)%nat) (Nat.le_sub_l _ _))
    as (f0 & r & Hr). exists (Datatypes.S (f0 `max` n)), r. intros e f Hf. apply (Hr e f0); [done|]. lia.
Qed.

(** ** A step and a run *)

Lemma wait_all_settles jobs : waits_pass -> settles (fun e f => wait_all clock env flusher e cfg f jobs).
Proof.
  intros Hc. apply (settles_bind (fun e f => mapS (RunManager_wait_outputs clock env flusher e cfg f) jobs) (fun _ _ _ => mret tt)).
  - apply (settles_mapS (fun e f => RunManager_wait_outputs clock env flusher e cfg f)). intros man. by apply wait_outputs_settles.
  - intros _. apply settles_const.
Qed.

Lemma run_step_settles step : waits_pass ->
  settles (fun e f => RunManager_run_step clock btcli_show env flusher e cfg task graphs broker encryptor f step).
Proof.
  intros Hc. unfold RunManager_run_step.
  repeat first
    [ apply wait_outputs_settles; exact Hc
    | apply (settles_bind (fun e f => RunManager_wait_outputs clock env flusher e cfg f _) (fun a e f => _)); [by apply wait_outputs_settles|intros ?]
    | apply (settles_bind (fun e f => wait_all clock env flusher e cfg f _) (fun a e f => _)); [by apply wait_all_settles|intros ?]
    | apply (settles_bind (fun e f => _) (fun a e f => _)); [apply settles_const|intros ?] ].
Qed.

(** ** Waiting for workers *)

Definition workers_turn : ST manager bool :=
  workers ← RunManager_discover_workers clock backend;
  match workers with
  | _ :: _ => mret true
  | [] => step ← read_step cfg; _ ← RunManager_save_state cfg (state_document cfg step ++ [("status", PStr "waiting_for_miners")]);
          _ ← nap env flusher; mret false
  end.

Lemma wait_workers_eq e f d m : RunManager_wait_for_workers clock env flusher e cfg backend (Datatypes.S f) d m =
  (t ← read_clock clock;
   if fltb t d then b ← workers_turn; if (b : bool) then mret tt else RunManager_wait_for_workers clock env flusher e cfg backend f d
   else st_raise (TimeoutError ("no miners heartbeated for run " +:+ rc_run_id cfg))) m.
Proof.
  cbn [RunManager_wait_for_workers]. unfold workers_turn. cbv [mbind st_bind]. destruct (read_clock clock m) as [m1 [t|x]]; [|done].
  destruct (fltb t d); [|done]. destruct (RunManager_discover_workers clock backend m1) as [m2 [[|w ws]|x]]; try done.
  destruct (read_step cfg m2) as [m3 [step|x]]; [|done]. destruct (RunManager_save_state cfg _ m3) as [m4 [u|x]]; [|done].
  by destruct (nap env flusher m4) as [m5 [u'|x]].
Qed.

Lemma ticks_workers_turn : ticks workers_turn.
Proof. unfold workers_turn, RunManager_discover_workers, read_step, RunManager_save_state, put_document, run_uri. ticking. Qed.

Lemma workers_loop_turn d m :
  (exists f0 r, forall e F f, (f0 <= F)%nat -> RunManager_wait_for_workers clock env flusher e cfg backend (Datatypes.S f) d m = r) \/
  (fltb (clock (mg_readings m)) d = true /\ exists f0 m', (mg_readings m < mg_readings m')%nat /\
     forall e (F : nat) f, (f0 <= F)%nat -> RunManager_wait_for_workers clock env flusher e cfg backend (Datatypes.S f) d m =
       RunManager_wait_for_workers clock env flusher e cfg backend f d m').
Proof.
  destruct (read_turn m) as (m1 & E1 & Hm1). destruct (fltb (clock (mg_readings m)) d) eqn:Ht.
  2: { left. exists 0%nat. eexists. intros e F f _. rewrite wait_workers_eq. cbv [mbind st_bind]. rewrite E1, Ht. reflexivity. }
  destruct (workers_turn m1) as [m2 [[|]|x]] eqn:E2.
  1,3: left; exists 0%nat; eexists; intros e F f _; rewrite wait_workers_eq; cbv [mbind st_bind]; rewrite E1, Ht, E2; reflexivity.
  apply ticks_workers_turn in E2 as Ht2. right. split; [done|]. exists 0%nat, m2. split; [lia|]. intros e F f _.
  rewrite wait_workers_eq. cbv [mbind st_bind]. by rewrite E1, Ht, E2.
Qed.

Lemma wait_workers_settles d n : passed_from clock d n ->
  settles (fun e f => RunManager_wait_for_workers clock env flusher e cfg backend f d).
Proof.
  intros Hd m. destruct (timed_loop (fun e _ f => RunManager_wait_for_workers clock env flusher e cfg backend f d) d n Hd
    (workers_loop_turn d) n m (Nat.le_sub_l _ _)) as (f0 & r & Hr). exists (Datatypes.S (f0 `max` n)), r. intros e f Hf. apply (Hr e f0); [done|]. lia.
Qed.

(** ** The run *)

(** A turn of the run; [true] when its last step is done. *)
Definition run_turn (d : float) (e : exn) (f : nat) : ST manager bool :=
  _ ← RunManager_wait_for_workers clock env flusher e cfg backend f d;
  v ← read_step cfg;
  step ← st_lift (py_int v);
  if (rc_max_steps cfg <=? step)%Z then mret true
  else
    _ ← RunManager_run_step clock btcli_show env flusher e cfg task graphs broker encryptor f step;
    _ ← RunManager_save_state cfg (state_document cfg (PInt (step + 1)));
    _ ← nap env flusher;
    mret false.

Notation steps e f rounds d := (run_steps clock btcli_show env flusher e cfg task graphs backend broker encryptor f rounds d).

Lemma run_steps_eq e F f d m : steps e F (Datatypes.S f) d m =
  (t ← read_clock clock;
   if fltb t d then b ← run_turn d e F; if (b : bool) then mret tt else steps e F f d
   else st_raise (TimeoutError ("orchestrator timed out for run " +:+ rc_run_id cfg))) m.
Proof.
  cbn [run_steps]. unfold run_turn. cbv [mbind st_bind]. destruct (read_clock clock m) as [m1 [t|x]]; [|done].
  destruct (fltb t d); [|done]. destruct (RunManager_wait_for_workers _ _ _ _ _ _ _ _ m1) as [m2 [u|x]]; [|done].
  destruct (read_step cfg m2) as [m3 [v|x]]; [|done]. destruct (st_lift (py_int v) m3) as [m4 [step|x]]; [|done].
  destruct (rc_max_steps cfg <=? step)%Z; [done|].
  destruct (RunManager_run_step _ _ _ _ _ _ _ _ _ _ _ _ m4) as [m5 [u5|x]]; [|done].
  destruct (RunManager_save_state cfg _ m5) as [m6 [u6|x]]; [|done]. by destruct (nap env flusher m6) as [m7 [u7|x]].
Qed.

Lemma ticks_run_turn d e f : ticks (run_turn d e f).
Proof.
  unfold run_turn. apply ticks_bind; [apply ticks_wait_workers|intros _]. unfold read_step, run_uri.
  apply ticks_bind; [ticking|intros v]. apply ticks_bind; [ticking|intros step]. destruct (rc_max_steps cfg <=? step)%Z; [ticking|].
  apply ticks_bind; [apply ticks_run_step|intros _]. unfold RunManager_save_state, put_document, run_uri. ticking.
Qed.

Lemma run_turn_settles d n : passed_from clock d n -> waits_pass -> settles (run_turn d).
Proof.
  intros Hd Hc. unfold run_turn. apply settles_bind; [by eapply wait_workers_settles|intros _].
  apply (settles_bind (fun _ _ => read_step cfg) (fun v e f => _)); [apply settles_const|intros v].
  apply (settles_bind (fun _ _ => st_lift (py_int v)) (fun step e f => _)); [apply settles_const|intros step].
  destruct (rc_max_steps cfg <=? step)%Z; [apply settles_const|].
  apply settles_bind; [by apply run_step_settles|intros _]. apply settles_const.
Qed.

Lemma run_steps_turn d n : passed_from clock d n -> waits_pass -> forall m,
  (exists f0 r, forall e F f, (f0 <= F)%nat -> steps e F (Datatypes.S f) d m = r) \/
  (fltb (clock (mg_readings m)) d = true /\ exists f0 m', (mg_readings m < mg_readings m')%nat /\
     forall e F f, (f0 <= F)%nat -> steps e F (Datatypes.S f) d m = steps e F f d m').
Proof.
  intros Hd Hc m. destruct (read_turn m) as (m1 & E1 & Hm1). destruct (fltb (clock (mg_readings m)) d) eqn:Ht.
  2: { left. exists 0%nat. eexists. intros e F f _. rewrite run_steps_eq. cbv [mbind st_bind]. rewrite E1, Ht. reflexivity. }
  destruct (run_turn_settles d n Hd Hc m1) as (f0 & [m2 [[|]|x]] & Hr).
  1,3: left; exists f0; eexists; intros e F f HF; rewrite run_steps_eq; cbv [mbind st_bind]; rewrite E1, Ht, Hr by done; reflexivity.
  pose proof (Hr OutOfFuel f0 (le_n _)) as Hr0. apply ticks_run_turn in Hr0. right. split; [done|]. exists f0, m2. split; [lia|].
  intros e F f HF. rewrite run_steps_eq. cbv [mbind st_bind]. by rewrite E1, Ht, Hr by done.
Qed.

Lemma run_steps_settles d n : passed_from clock d n -> waits_pass -> settles (fun e f => steps e f f d).
Proof.
  intros Hd Hc m. destruct (timed_loop (fun e F f => steps e F f d) d n Hd (run_steps_turn d n Hd Hc) n m (Nat.le_sub_l _ _))
    as (f0 & r & Hr). exists (Datatypes.S (f0 `max` n)), r. intros e f Hf. apply Hr; lia.
Qed.

(** C26. Every run ends.  If the clock passes every deadline the manager sets (the
    timeout of the run and the three minutes of each wait), then whatever the
    bucket, the workers and the other processes do there is a bound on the
    loops from which on the run has one result, and no loop spends its bound:
    the result depends neither on the bound nor on the answer for a spent one. *)
Theorem run_loop_ends (timeout_sec : float) (m : manager) :
  waits_pass -> (forall j, exists n, passed_from clock (fadd (clock j) timeout_sec) n) ->
  exists fuel0 r, forall spent fuel, (fuel0 <= fuel)%nat ->
    RunManager_run_loop clock btcli_show env flusher spent cfg task graphs backend broker encryptor fuel timeout_sec m = r.
Proof.
  intros Hc Ht. assert (settles (fun e f =>
    RunManager_run_loop clock btcli_show env flusher e cfg task graphs backend broker encryptor f timeout_sec)) as Hs; [|exact (Hs m)].
  unfold RunManager_run_loop.
  apply (settles_bind (fun _ _ => run_uri _) (fun uri e f => _)); [apply settles_const|intros uri].
  apply (settles_bind (fun _ _ => bucket_do _) (fun b e f => _)); [apply settles_const|intros b].
  apply (settles_bind (fun _ _ => if b then mret tt else _) (fun u e f => _)); [apply settles_const|intros _].
  intros m1. destruct (read_turn m1) as (m2 & E2 & _). destruct (Ht (mg_readings m1)) as (n & Hn).
  destruct (settles_finally _ (RunManager_stop clock) (run_steps_settles _ n Hn Hc) m2) as (f0 & r & Hr).
  exists f0, r. intros e f Hf. cbv [mbind st_bind]. rewrite E2. by apply Hr.
Qed.
End ends.

(** ** Delivery *)

Section delivery.
Context {S : Type} `{OS : ObjectStore S} `{!ObjectStoreLaws S} `{SL : SigLib} `{TT : Torch}.
Context (clock : nat -> float).
Context (env : nat -> S -> S) (flusher : nat -> option (Z * Z)).
Context (cfg : RunConfig) (man : JobManifestV3).
Notation manager := (manager S).
(** The stores the bucket may be in while the manager waits: other processes and
    the background thread stay among them, nothing vanishes, and asking whether
    an output exists is answered. *)
Context (good : S -> Prop).
Hypothesis env_good : forall n s, good s -> good (env n s) /\ follows (job_manifest_key (rc_netuid cfg) (rc_run_id cfg)) [] s (env n s).
Hypothesis flush_good : forall n n1 n2 q s, flusher n = Some (n1, n2) -> good s ->
  good (snd (fst (OrchestratorQueue_flush_loop_turn n1 n2 (q, s)))).
Hypothesis checks_answer : forall r s, r ∈ jm_outputs man -> good s -> exists b, snd (os_exists (ar_uri r) s) = Ok b.

(** What a wait that succeeds leaves. *)
Definition settled (m m' : manager) : Prop :=
  all_there m' (jm_outputs man) /\
  mg_quota m' = QuotaBook_release (mg_quota m) (jm_assigned_hotkey man) fone /\
  dict_get (jm_job_id man) (oq_outstanding (mg_queue m')) = None /\
  mg_emitted m' = mg_emitted m.

Lemma check_answers refs m : good (mg_store m) -> (forall r, r ∈ refs -> r ∈ jm_outputs man) ->
  exists b, allS (fun ref => bucket_do (os_exists (ar_uri ref))) refs m = (m, Ok b) /\ (all_there m refs -> b = true).
Proof.
  intros Hg. induction refs as [|r refs IH]; intros Hr; cbn [allS]; [by exists true|].
  destruct (checks_answer r (mg_store m)) as (b & Hb); [apply Hr; by left|done|].
  assert (bucket_do (os_exists (ar_uri r)) m = (m, Ok b)) as E.
  { destruct (bucket_do (os_exists (ar_uri r)) m) as [m1 r1] eqn:E. pose proof E as E'. apply reads_same in E' as ->; [|apply reads_exists].
    f_equal. unfold bucket_do in E. destruct (os_exists (ar_uri r) (mg_store m)) as [s r2]. cbn in Hb. injection E as _ <-. done. }
  destruct IH as (b' & E' & Hb'); [intros x Hx; apply Hr; by right|]. cbv [mbind st_bind]. rewrite E.
  destruct b; [exists b'; split; [done|]; intros [_ Ha]%Forall_cons; auto|].
  exists false. split; [done|]. intros [Ht _]%Forall_cons. unfold there in Ht. by rewrite Ht in Hb.
Qed.

Lemma settle_settled m : queue_ok (mg_queue m) -> all_there m (jm_outputs man) ->
  exists m', settle_job man m = (m', Ok tt) /\ settled m m'.
Proof.
  intros Hq Ha. eexists. split; [reflexivity|]. unfold settled. cbn [mg_quota mg_queue mg_emitted]. split; [exact Ha|]. split; [done|].
  split; [|done]. unfold OrchestratorQueue_remove, dict_mem. destruct (dict_get _ (oq_outstanding (mg_queue m))) eqn:E; cbn; [|done].
  apply dict_get_del_eq, Hq.
Qed.

(** Sleeping keeps the quota and the queue's invariant; the environment acts
    first. *)
Lemma nap_effect m : good (mg_store m) -> exists m', nap env flusher m = (m', Ok tt) /\ mg_readings m' = mg_readings m /\ mg_quota m' = mg_quota m /\
  mg_emitted m' = mg_emitted m /\ (queue_ok (mg_queue m) -> queue_ok (mg_queue m')) /\
  follows (job_manifest_key (rc_netuid cfg) (rc_run_id cfg)) [] (env (mg_readings m) (mg_store m)) (mg_store m') /\ good (mg_store m').
Proof.
  intros Hg. destruct (env_good (mg_readings m) _ Hg) as [Hg' _].
  unfold nap, sleep. destruct (flusher _) as [[n1 n2]|] eqn:Ef.
  - pose proof (keeps_qop (mg_queue m, env (mg_readings m) (mg_store m)) (QLoopTurn n1 n2)) as (Hk & _). cbn [apply_qop fst] in Hk.
    destruct (OrchestratorQueue_flush_loop_turn n1 n2 _) as [[q s] r] eqn:E. eexists. split; [reflexivity|].
    apply (turn_follows (job_manifest_key (rc_netuid cfg) (rc_run_id cfg))) in E as Hf.
    pose proof (flush_good _ n1 n2 (mg_queue m) _ Ef Hg') as Hg2. rewrite E in Hg2. cbn in *. by split_and!.
  - eexists. split; [reflexivity|]. cbn. split_and!; done.
Qed.

Notation wait_loop := (wait_loop clock env flusher).

(** The outputs are there: the loop ends with the next look. *)
Lemma wait_sees e f d m : good (mg_store m) -> queue_ok (mg_queue m) -> all_there m (jm_outputs man) -> fltb (clock (mg_readings m)) d = true ->
  exists m', wait_loop e cfg (Datatypes.S f) d man m = (m', Ok tt) /\ settled m m'.
Proof.
  intros Hg Hq Ha Ht. cbn [RunManager.wait_loop]. cbv [mbind st_bind]. destruct (read_turn clock m) as (m1 & E1 & _). rewrite E1, Ht.
  assert (mg_store m1 = mg_store m /\ mg_queue m1 = mg_queue m /\ mg_quota m1 = mg_quota m /\ mg_emitted m1 = mg_emitted m) as (H1 & H2 & H3 & H4).
  { unfold read_clock in E1. by injection E1 as <-. }
  assert (all_there m1 (jm_outputs man)) as Ha1 by (unfold all_there, there in *; by rewrite H1).
  destruct (check_answers (jm_outputs man) m1) as (b & E2 & Hb); [by rewrite H1|done|]. rewrite E2, (Hb Ha1).
  destruct (settle_settled m1) as (m' & E3 & Hs); [by rewrite H2|done|]. exists m'. split; [done|].
  unfold settled in *. by rewrite <- H3, <- H4.
Qed.

Lemma wait_delivers e d n : (forall s r, good s -> r ∈ jm_outputs man -> os_exists (ar_uri r) (env n s) = (env n s, Ok true)) ->
  forall k m f, mg_readings m + k = n -> (k < f)%nat -> good (mg_store m) -> queue_ok (mg_queue m) ->
  (k = 0%nat -> all_there m (jm_outputs man)) ->
  (forall i, mg_readings m <= i <= n -> fltb (clock i) d = true)%nat ->
  exists m', wait_loop e cfg f d man m = (m', Ok tt) /\ settled m m'.
Proof.
  intros Hdel k. induction k as [|k IH]; intros m [|f] Hn Hf Hg Hq H0 Ht; try lia.
  - apply wait_sees; [done|done|by apply H0|apply Ht; lia].
  - destruct (read_turn clock m) as (m1 & E1 & Hm1).
    assert (mg_store m1 = mg_store m /\ mg_queue m1 = mg_queue m /\ mg_quota m1 = mg_quota m /\ mg_emitted m1 = mg_emitted m) as (H1 & H2 & H3 & H4).
    { unfold read_clock in E1. by injection E1 as <-. }
    destruct (check_answers (jm_outputs man) m1) as (b & E2 & _); [by rewrite H1|done|]. destruct b.
    + apply allS_exists in E2 as Ha. destruct Ha as [_ Ha]. apply wait_sees; [done|done| |apply Ht; lia].
      specialize (Ha eq_refl). unfold all_there, there in *. by rewrite H1 in Ha.
    + destruct (nap_effect m1) as (m2 & E3 & N1 & N2 & N3 & N4 & N5 & N6); [by rewrite H1|].
      destruct (IH m2 f) as (m' & E4 & Hs); [lia|lia|done|by rewrite H2 in N4; apply N4| |intros i Hi; apply Ht; lia|].
      * intros ->. apply Forall_forall. intros r Hr. unfold there. apply (fl_keeps _ _ _ _ N5).
        replace (mg_readings m1) with n by lia. apply Hdel; [by rewrite H1|done].
      * exists m'. split; [|unfold settled in *; by rewrite <- H3, <- H4, <- N2, <- N3].
        cbn [RunManager.wait_loop]. cbv [mbind st_bind]. by rewrite E1, (Ht (mg_readings m)), E2, E3 by lia.
Qed.

(** C27. Delivery ends a wait.  When a process writes the outputs of a job while
    the manager sleeps, before the three minutes are over, the wait succeeds:
    the outputs are there, the quota of the worker is given back and the job
    leaves the queue. *)
Theorem wait_outputs_delivers e (m : manager) k f : good (mg_store m) -> queue_ok (mg_queue m) -> (1 <= k < f)%nat ->
  let n := (mg_readings m + 1 + k)%nat in
  (forall s r, good s -> r ∈ jm_outputs man -> os_exists (ar_uri r) (env n s) = (env n s, Ok true)) ->
  (forall i, mg_readings m < i <= n -> fltb (clock i) (fadd (clock (mg_readings m)) (float_of_Z 180)) = true)%nat ->
  exists m', RunManager_wait_outputs clock env flusher e cfg f man m = (m', Ok tt) /\ settled m m'.
Proof.
  intros Hg Hq Hk n Hdel Ht. unfold RunManager_wait_outputs. cbv [mbind st_bind]. destruct (read_turn clock m) as (m1 & E1 & Hm1). rewrite E1.
  assert (mg_store m1 = mg_store m /\ mg_queue m1 = mg_queue m /\ mg_quota m1 = mg_quota m /\ mg_emitted m1 = mg_emitted m) as (H1 & H2 & H3 & H4).
  { unfold read_clock in E1. by injection E1 as <-. }
  destruct (wait_delivers e (fadd (clock (mg_readings m)) (float_of_Z 180)) n Hdel k m1 f) as (m' & E & Hs); [lia|lia|by rewrite H1|by rewrite H2|lia| |].
  - intros i Hi. apply Ht. lia.
  - exists m'. split; [done|]. unfold settled in *. by rewrite <- H3, <- H4.
Qed.
End delivery.

(** ** An example *)

#[local] Existing Instances byte_torch no_signatures.

(** A clock that stands still and then jumps past every deadline. *)
Definition jumping_clock (k : nat) : float := if (k <? 12)%nat then fone else S754_infinity false.

Lemma jump_passes t : fltb (S754_infinity false) (fadd fone t) = false -> fltb (S754_infinity false) (fadd (S754_infinity false) t) = false ->
  forall j, exists n, passed_from jumping_clock (fadd (jumping_clock j) t) n.
Proof.
  intros H1 H2 j. exists 12%nat. intros k Hk. unfold jumping_clock at 1. destruct (Nat.ltb_spec k 12); [lia|].
  unfold jumping_clock. by destruct (j <? 12)%nat.
Qed.

Lemma run_loop_ends_witness : exists fuel0 r, forall spent fuel, (fuel0 <= fuel)%nat ->
  RunManager_run_loop jumping_clock (fun _ _ _ => Err (RuntimeError "")) sample_env (fun _ => None) spent sample_cfg sample_task sample_graphs
    (mkBackend 3 "run" "train" None) None (dev_encryptor (DevAssignmentCrypto_init "")) fuel (float_of_Z 60) sample_manager = r.
Proof.
  apply run_loop_ends; [unfold waits_pass|]; apply jump_passes; vm_compute; reflexivity.
Defined.

(** The output of a forward job appears during the second sleep. *)
Definition awaited : JobManifestV3 :=
  mkManifest "step0-forward_pass" "run" 0 "forward_pass" (mkGraphRef "" "") [] []
    [mkRef "target_0" (os_uri_for_key (mg_store sample_manager) (target_key 3 "run" 0 0)) None None None] "hk1" (Some "w0") 0 601 1
    default_requirements (mkVerification "replay_ir_v1" "auto" (flit 1 (-3)) (flit 1 (-4)) 4096 0 false) None 3.

Definition before_delivery : LocalBucket := mg_store sample_manager.
Definition after_delivery : LocalBucket := put_output before_delivery (target_key 3 "run" 0 0).
Definition delivery (n : nat) (s : LocalBucket) : LocalBucket := if (n =? 3)%nat then after_delivery else s.

Lemma delivery_answers : snd (os_exists (os_uri_for_key before_delivery (target_key 3 "run" 0 0)) before_delivery) = Ok false /\
  snd (os_exists (os_uri_for_key before_delivery (target_key 3 "run" 0 0)) after_delivery) = Ok true.
Proof. split; vm_compute; reflexivity. Qed.

Lemma delivery_follows : follows (job_manifest_key 3 "run") [] before_delivery after_delivery.
Proof.
  apply put_output_follows. eapply other_folder; [unfold target_key, run_root; by rewrite ?str_app_assoc|].
  intros x E. discriminate E.
Qed.

Lemma wait_outputs_delivers_witness : exists m',
  RunManager_wait_outputs (fun _ => fone) delivery (fun _ => None) OutOfFuel sample_cfg 3 awaited sample_manager = (m', Ok tt) /\
  settled awaited sample_manager m'.
Proof.
  apply (wait_outputs_delivers (fun _ => fone) delivery (fun _ => None) sample_cfg awaited
    (fun s => s = before_delivery \/ s = after_delivery)) with (k := 2%nat).
  - intros n s Hs. unfold delivery. destruct (n =? 3)%nat; [|split; [done|apply follows_refl]].
    split; [by right|]. destruct Hs as [->| ->]; [exact delivery_follows|apply follows_refl].
  - done.
  - intros r s ->%list_elem_of_singleton Hs. destruct delivery_answers as [H1 H2]. destruct Hs as [->| ->]; eauto.
  - by left.
  - split; cbn; [constructor|done|lia|lia].
  - lia.
  - intros s r _ ->%list_elem_of_singleton. pose proof (proj2 delivery_answers) as H2.
    cbn [mg_readings sample_manager]. change (delivery (0 + 1 + 2) s) with after_delivery.
    pose proof (exists_reads (os_uri_for_key before_delivery (target_key 3 "run" 0 0)) after_delivery) as H1. cbn [ar_uri].
    change (os_uri_for_key (mg_store sample_manager)) with (os_uri_for_key before_delivery). by apply injective_projections.
  - intros i _. vm_compute. reflexivity.
Defined.
