(* ===== verification/Streaming.v ===== *)
(** * The streaming run manager ([teuton_orchestrator/streaming.py])

    The orchestrator of a pipeline task.  An epoch is emitted at once: a forward
    job for every microbatch and stage, then, when training, the backward jobs
    and the weight updates, each with the outputs of the jobs before it as
    inputs.  Receipts drain the queue while the manager waits; in stress mode it
    emits epoch after epoch and never waits.  Loops that watch the clock are
    bounded by [fuel]. *)

From Stdlib Require Import ZArith Lia Ascii.
From stdpp Require Import base strings list.
From S2P Require Import Prelude PyFloat PyVal Json Digest Paths Signatures Codec Protocol.
From S2P Require Import Storage StoreReads Telemetry Queue Transport Discovery Scheduler Crypto WalletCrypto Emission Ir Mlp.

(** ** Pipelines ([teuton_legacy_v2/streaming.py], the data of a task) *)

(** A name, a shape and an element type. *)
Definition tensor_spec : Type := string * list Z * string.

Record PipelineStage := mkStage {
  pg_stage_id : Z;
  pg_forward_graph : Graph;
  pg_backward_graph : option Graph;
  pg_outer_graph : option Graph;
  pg_forward_input_specs : list tensor_spec;
  pg_forward_output_specs : list tensor_spec;
  pg_weights_input_name : option string;
  pg_weights_shape : list Z;
  pg_weights_dtype : string;
  pg_backward_takes_loss_target : bool;
  pg_backward_emits_dx_in : bool
}.

Record StreamingParams := mkParams {
  sp_n_stages : Z;
  sp_n_microbatches : Z;
  sp_max_epochs : Z;
  sp_common_params : dict pyval;
  sp_forward_params : dict pyval;
  sp_deadline_seconds : Z;
  sp_training : bool;
  sp_target_static_uri : option string;
  sp_lr : float;
  sp_static_inputs : dict (string * string);
  sp_tokens_per_mb : Z;
  sp_gpu_class_price_per_hour : dict float
}.

Definition with_max_epochs (p : StreamingParams) (max_epochs : Z) : StreamingParams :=
  mkParams (sp_n_stages p) (sp_n_microbatches p) max_epochs (sp_common_params p) (sp_forward_params p) (sp_deadline_seconds p)
    (sp_training p) (sp_target_static_uri p) (sp_lr p) (sp_static_inputs p) (sp_tokens_per_mb p) (sp_gpu_class_price_per_hour p).

(** What a manager asks of the module of a task. *)
Record StreamingTask (S : Type) := mkStreamingTask {
  stk_bootstrap : string -> Z -> ST S unit;
  stk_build_streaming_inputs : string -> ST S (list PipelineStage * StreamingParams)
}.
Arguments mkStreamingTask {S}.
Arguments stk_bootstrap {S}.
Arguments stk_build_streaming_inputs {S}.

Record StreamingRunConfig := mkStreamingConfig {
  sc_netuid : Z;
  sc_run_id : string;
  sc_task : string;
  sc_max_epochs : Z;
  sc_owner_secret : string;
  sc_owner_signer : option Signer;
  sc_crypto_policy : option ArtifactCryptoPolicy;
  sc_grant_mode : string;
  sc_grant_ttl_sec : Z;
  sc_assignment_secret : string;
  sc_assignment_crypto : string;
  sc_network : string;
  sc_discovery_backend : string;
  sc_discovery_heartbeat_ttl_sec : option float;
  sc_stress_emit : bool;
  sc_stress_emit_interval : float;
  sc_stress_epoch_base : Z;
  sc_stress_pin_weights_epoch : Z;
  sc_stress_skip_bootstrap_if_present : bool;
  sc_stress_max_iterations : Z;
  sc_epoch_timeout_sec : float;
  sc_max_inflight_per_hotkey : Z
}.

(** [self.config.owner_signer or self.config.owner_secret]. *)
Definition sc_owner_key (cfg : StreamingRunConfig) : signer_or_secret :=
  match sc_owner_signer cfg with Some s => BySigner s | None => BySecret (sc_owner_secret cfg) end.

(** ** The state: a manager, the jobs emitted by name, and the receipt cursor. *)

Record streamer (S : Type) := mkStreamer {
  sr_manager : manager S;
  sr_jobs : dict JobManifestV3;
  sr_cursor : float
}.
Arguments mkStreamer {S}.
Arguments sr_manager {S}.
Arguments sr_jobs {S}.
Arguments sr_cursor {S}.

(** Names of jobs. *)
Definition epoch_prefix (epoch : Z) : string := "j-e" +:+ py_str_int epoch +:+ "-".
Definition stage_name (epoch s : Z) : string := epoch_prefix epoch +:+ "s" +:+ py_str_int s.
Definition forward_id (epoch s mb : Z) : string := stage_name epoch s +:+ "-mb" +:+ py_str_int mb +:+ "-fwd".
Definition backward_id (epoch s mb : Z) : string := stage_name epoch s +:+ "-mb" +:+ py_str_int mb +:+ "-bwd".
Definition outer_id (epoch s : Z) : string := stage_name epoch s +:+ "-outer".

Definition of_epoch (epoch : Z) (job_id : string) : bool := startswith (epoch_prefix epoch) job_id.

(** Keys of artifacts. *)
Definition stage_folder (run_id : string) (epoch s : Z) : string :=
  "runs/" +:+ run_id +:+ "/streaming/epoch=" +:+ py_str_int epoch +:+ "/stage=" +:+ py_str_int s.
Definition fwd_output_key (run_id : string) (epoch s mb : Z) (name : string) : string :=
  stage_folder run_id epoch s +:+ "/outputs/mb=" +:+ py_str_int mb +:+ "/" +:+ name +:+ ".bin".
Definition fwd_done_key (run_id : string) (epoch s mb : Z) : string :=
  stage_folder run_id epoch s +:+ "/outputs/mb=" +:+ py_str_int mb +:+ "/done.json".
Definition bwd_output_key (run_id : string) (epoch s mb : Z) (name : string) : string :=
  stage_folder run_id epoch s +:+ "/bwd/mb=" +:+ py_str_int mb +:+ "/" +:+ name +:+ ".bin".
Definition epoch_weights_key (run_id : string) (effective s : Z) : string :=
  "runs/" +:+ run_id +:+ "/weights/epoch=" +:+ py_str_int effective +:+ "/stage_" +:+ py_str_int s +:+ "_W.bin".

Section streaming.
Context {S : Type} `{ObjectStore S} `{SigLib}.
Context (clock : nat -> float) (btcli_show : Z -> string -> Z -> result pyval).
Context (env : nat -> S -> S) (flusher : nat -> option (Z * Z)).
(** What a loop answers when its bound is spent. *)
Context (spent : exn).
Context (cfg : StreamingRunConfig) (task : StreamingTask S).
Context (backend : BucketDiscoveryBackend) (broker : option PresignedUrlBroker) (encryptor : AssignmentEncryptor).
Notation manager := (manager S).
Notation streamer := (streamer S).

Definition mg_do {A} (f : ST manager A) : ST streamer A := fun m =>
  let '(g, r) := f (sr_manager m) in (mkStreamer g (sr_jobs m) (sr_cursor m), r).
Definition get_jobs : ST streamer (dict JobManifestV3) := fun m => (m, Ok (sr_jobs m)).
Definition set_jobs (jobs : dict JobManifestV3) : ST streamer unit := fun m =>
  (mkStreamer (sr_manager m) jobs (sr_cursor m), Ok tt).
Definition set_cursor (t : float) : ST streamer unit := fun m => (mkStreamer (sr_manager m) (sr_jobs m) t, Ok tt).

Definition now : ST streamer float := mg_do (read_clock clock).
Definition address (key : string) : ST streamer string := mg_do (bucket_do (uri_of key)).
Definition present (uri : string) : ST streamer bool := mg_do (bucket_do (os_exists uri)).
Definition rest : ST streamer unit := mg_do (sleep env flusher).

(** ** Bootstrap and workers *)

Definition StreamingRunManager_bootstrap_artifacts_present : ST streamer bool :=
  if negb (sc_stress_skip_bootstrap_if_present cfg) then mret false
  else
    uri ← address (manifest_config_key (sc_netuid cfg) (sc_run_id cfg));
    st_try (present uri) (fun _ => mret false).

Definition StreamingRunManager_bootstrap : ST streamer (list PipelineStage * StreamingParams) :=
  attached ← (if sc_stress_emit cfg then StreamingRunManager_bootstrap_artifacts_present else mret false);
  _ ← (if (attached : bool) then mret tt else mg_do (bucket_do (stk_bootstrap task (sc_run_id cfg) (sc_max_epochs cfg))));
  inputs ← mg_do (bucket_do (stk_build_streaming_inputs task (sc_run_id cfg)));
  mret (inputs.1, with_max_epochs inputs.2 (sc_max_epochs cfg)).

Definition StreamingRunManager_discover_workers : ST streamer (list WorkerIdentity) :=
  t ← now;
  records ← mg_do (bucket_do (BucketDiscoveryBackend_discover_workers backend t));
  let workers := map dr_worker records in
  _ ← mg_do (quota_do (fun b => (QuotaBook_update_workers b (map dr_miner records) workers, Ok tt)));
  mret workers.

(** ** Emission *)

Definition epoch_weights_uri (epoch s : Z) : ST streamer string :=
  address (epoch_weights_key (sc_run_id cfg) (if sc_stress_emit cfg then sc_stress_pin_weights_epoch cfg else epoch) s).
Definition fwd_output_uri (epoch s mb : Z) (name : string) : ST streamer string :=
  address (fwd_output_key (sc_run_id cfg) epoch s mb name).
Definition fwd_done_uri (epoch s mb : Z) : ST streamer string := address (fwd_done_key (sc_run_id cfg) epoch s mb).
Definition bwd_output_uri (epoch s mb : Z) (name : string) : ST streamer string :=
  address (bwd_output_key (sc_run_id cfg) epoch s mb name).

Definition StreamingRunManager_output_ref (name uri : string) : ArtifactRef := mkRef name uri None None (sc_crypto_policy cfg).
Definition plain_ref (name uri : string) : ArtifactRef := mkRef name uri None None None.

Definition StreamingRunManager_emit_assignment_grant (manifest : JobManifestV3) : ST manager (option string) :=
  match broker with
  | None => mret None
  | Some b =>
      grant ← new_assignment_grant clock b (sc_grant_ttl_sec cfg) (sc_netuid cfg) manifest;
      file_grant btcli_show encryptor
        (assignment_key (sc_netuid cfg) (jm_run_id manifest) (jm_job_id manifest) (jm_assigned_hotkey manifest))
        grant (jm_assigned_hotkey manifest)
  end.

(** The worker that is asked for, or the best one whose queue is not full. *)
Definition choose_worker (requirements : ResourceRequirements) (force_worker : option WorkerIdentity)
    : ST manager WorkerIdentity :=
  match force_worker with
  | Some w => mret w
  | None =>
      m ← st_get;
      quota_do (QuotaBook_pick_worker fone (Some requirements)
        (Some (fun hk => (OrchestratorQueue_depth (mg_queue m) (Some hk) <? sc_max_inflight_per_hotkey cfg)%Z)))
  end.

Definition note_job (manifest : JobManifestV3) (entry : QueueEntry) (job_id : string) : ST streamer unit :=
  _ ← mg_do (note_emitted job_id);
  jobs ← get_jobs;
  _ ← set_jobs (dict_set job_id manifest jobs);
  mg_do (queue_do (fun q => OrchestratorQueue_add q entry)).

(** The signed manifest of a job for a worker, published with its grant, and the
    entry for the queue.  [graph] is [None] where the stage has no such graph. *)
Definition prepare_job (deadline_seconds : Z) (job_id kind : string) (step_id : Z) (graph : option Graph) (params : dict pyval)
    (inputs outputs : list ArtifactRef) (requirements : ResourceRequirements) (worker : WorkerIdentity)
    : ST streamer (JobManifestV3 * QueueEntry) :=
  now ← mg_do (unix_now clock);
  graph ← st_lift (of_option (AttributeError "'NoneType' object has no attribute 'graph_id'") graph);
  let sha := Graph_graph_id graph in
  outputs ← st_lift (mapR (fun ref => resolve_output_crypto ref worker) outputs);
  graph_uri ← address (graph_key (sc_netuid cfg) (sc_run_id cfg) sha);
  mg_do (publish_job (sc_owner_key cfg) (job_manifest_key (sc_netuid cfg) (sc_run_id cfg) job_id)
    StreamingRunManager_emit_assignment_grant
    (mkManifest job_id (sc_run_id cfg) step_id kind (mkGraphRef sha graph_uri) params inputs outputs
       (wi_hotkey_ss58 worker) (Some (wi_worker_id worker)) 0 (now + deadline_seconds) now requirements
       (mkVerification "replay_ir_v1" "auto" (flit 1 (-3)) (flit 1 (-4)) 4096 0 (String.eqb kind "pipe_outer")) None 3)).

Definition StreamingRunManager_emit_job (deadline_seconds : Z) (job_id kind : string) (step_id : Z) (graph : option Graph)
    (params : dict pyval) (inputs outputs : list ArtifactRef) (force_worker : option WorkerIdentity) : ST streamer JobManifestV3 :=
  requirements ← st_lift (resource_requirements params);
  worker ← mg_do (choose_worker requirements force_worker);
  published ← prepare_job deadline_seconds job_id kind step_id graph params inputs outputs requirements worker;
  _ ← note_job published.1 published.2 job_id;
  mret published.1.

(** The pipeline. *)
Context (stages : list PipelineStage) (params : StreamingParams).

Definition emit_stage_job (job_id kind : string) (epoch : Z) (graph : option Graph) (job_params : dict pyval)
    (inputs outputs : list ArtifactRef) (force_worker : option WorkerIdentity) : ST streamer JobManifestV3 :=
  StreamingRunManager_emit_job (sp_deadline_seconds params) job_id kind epoch graph job_params inputs outputs force_worker.

Definition is_head (stage : PipelineStage) : bool := (pg_stage_id stage =? 0)%Z.
Definition is_tail (stage : PipelineStage) : bool := (pg_stage_id stage =? sp_n_stages params - 1)%Z.

Definition in_scope (scope : string) (head tail : bool) : bool :=
  String.eqb scope "all" || (String.eqb scope "head" && head) || (String.eqb scope "tail" && tail) ||
  (String.eqb scope "head_and_tail" && (head || tail)).

Definition static_refs (stage : PipelineStage) : list ArtifactRef :=
  omap (fun e : string * (string * string) =>
          if in_scope e.2.2 (is_head stage) (is_tail stage) then Some (plain_ref e.1 e.2.1) else None) (sp_static_inputs params).

Definition target_refs (stage : PipelineStage) : list ArtifactRef :=
  match given (sp_target_static_uri params) with
  | Some uri => if is_tail stage then [plain_ref "target" uri] else []
  | None => []
  end.

(** [self.jobs[job_id]], and what later jobs take from it. *)
Definition job_named (job_id : string) : ST streamer JobManifestV3 :=
  jobs ← get_jobs; st_lift (of_option (KeyError job_id) (dict_get job_id jobs)).

Definition first_output (job_id name : string) : ST streamer ArtifactRef :=
  upstream ← job_named job_id;
  ref ← st_lift (of_option (IndexError "list index out of range") (jm_outputs upstream !! 0%nat));
  mret (mkRef name (ar_uri ref) None None (ar_crypto ref)).

(** [next(ref for ref in upstream.outputs if ref.name == output)]. *)
Definition output_named (job_id output name : string) : ST streamer ArtifactRef :=
  upstream ← job_named job_id;
  ref ← st_lift (of_option StopIteration
          (List.find (fun ref => String.eqb (ar_name ref) output) (jm_outputs upstream)));
  mret (mkRef name (ar_uri ref) None None (ar_crypto ref)).

Definition weights_input (epoch : Z) (name : string) (stage : PipelineStage) : ST streamer (list ArtifactRef) :=
  uri ← epoch_weights_uri epoch (pg_stage_id stage); mret [plain_ref name uri].

Definition stage_params (base : dict pyval) (epoch s : Z) (mb : option Z) : dict pyval :=
  dict_update base ([("epoch", PInt epoch); ("stage", PInt s)] ++
    match mb with Some mb => [("mb", PInt mb); ("mb_seed", PInt (epoch * 10000 + mb))] | None => [] end).

Definition forward_inputs (epoch mb : Z) (stage : PipelineStage) : ST streamer (list ArtifactRef) :=
  let s := pg_stage_id stage in
  upstream ← (if is_head stage then mret []
              else mapS (fun spec : tensor_spec => first_output (forward_id epoch (s - 1) mb) spec.1.1) (pg_forward_input_specs stage));
  weights ← (match given (pg_weights_input_name stage) with
             | Some name => if sp_training params then weights_input epoch name stage else mret []
             | None => mret []
             end);
  mret (upstream ++ weights ++ (if sp_training params then target_refs stage else []) ++ static_refs stage).

Definition forward_outputs (epoch mb : Z) (stage : PipelineStage) : ST streamer (list ArtifactRef) :=
  let s := pg_stage_id stage in
  outs ← mapS (fun spec : tensor_spec =>
                 uri ← fwd_output_uri epoch s mb spec.1.1; mret (StreamingRunManager_output_ref spec.1.1 uri))
           (pg_forward_output_specs stage);
  done ← (if is_tail stage then
            uri ← fwd_done_uri epoch s mb;
            mret [StreamingRunManager_output_ref (if sp_training params then "loss" else "done") uri]
          else mret []);
  mret (outs ++ done).

Definition StreamingRunManager_emit_forward (epoch mb : Z) (stage : PipelineStage) (force_worker : option WorkerIdentity)
    : ST streamer JobManifestV3 :=
  inputs ← forward_inputs epoch mb stage;
  outputs ← forward_outputs epoch mb stage;
  emit_stage_job (forward_id epoch (pg_stage_id stage) mb) "pipe_forward" epoch (Some (pg_forward_graph stage))
    (stage_params (dict_update (sp_common_params params) (sp_forward_params params)) epoch (pg_stage_id stage) (Some mb))
    inputs outputs force_worker.

Definition backward_inputs (epoch mb : Z) (stage : PipelineStage) : ST streamer (list ArtifactRef) :=
  let s := pg_stage_id stage in
  weights ← weights_input epoch (str_or_default (pg_weights_input_name stage) "W") stage;
  x_in ← (if is_head stage then mret [] else ref ← first_output (forward_id epoch (s - 1) mb) "x_in"; mret [ref]);
  dx_out ← (if is_tail stage then mret []
            else ref ← output_named (backward_id epoch (s + 1) mb) "dL_dx_in" "dL_dx_out"; mret [ref]);
  mret (weights ++ x_in ++ target_refs stage ++ static_refs stage ++ dx_out).

Definition backward_outputs (epoch mb : Z) (stage : PipelineStage) : ST streamer (list ArtifactRef) :=
  let s := pg_stage_id stage in
  dw ← bwd_output_uri epoch s mb "dW";
  dx ← (if negb (is_head stage) && pg_backward_emits_dx_in stage then
          uri ← bwd_output_uri epoch s mb "dL_dx_in"; mret [StreamingRunManager_output_ref "dL_dx_in" uri]
        else mret []);
  mret (StreamingRunManager_output_ref "dW" dw :: dx).

Definition StreamingRunManager_emit_backward (epoch mb : Z) (stage : PipelineStage) : ST streamer JobManifestV3 :=
  inputs ← backward_inputs epoch mb stage;
  outputs ← backward_outputs epoch mb stage;
  emit_stage_job (backward_id epoch (pg_stage_id stage) mb) "pipe_backward" epoch (pg_backward_graph stage)
    (stage_params (sp_common_params params) epoch (pg_stage_id stage) (Some mb)) inputs outputs None.

Definition microbatches : list Z := py_range (sp_n_microbatches params).

Definition StreamingRunManager_emit_outer (epoch : Z) (stage : PipelineStage) : ST streamer JobManifestV3 :=
  let s := pg_stage_id stage in
  weights ← weights_input epoch (str_or_default (pg_weights_input_name stage) "W") stage;
  dws ← mapS (fun mb => output_named (backward_id epoch s mb) "dW" ("dW_" +:+ py_str_int mb)) microbatches;
  new_uri ← epoch_weights_uri (epoch + 1) s;
  emit_stage_job (outer_id epoch s) "pipe_outer" epoch (pg_outer_graph stage)
    (stage_params (sp_common_params params) epoch s None) (weights ++ dws) [StreamingRunManager_output_ref "W_new" new_uri] None.

Definition put_stage_graph (graph : option Graph) : ST streamer unit :=
  match graph with
  | None => mret tt
  | Some g =>
      uri ← address (graph_key (sc_netuid cfg) (sc_run_id cfg) (Graph_graph_id g));
      there ← present uri;
      if (there : bool) then mret tt else mg_do (bucket_do (os_put uri (Graph_to_canonical_json g)))
  end.

Definition stage_graphs (stage : PipelineStage) : list (option Graph) :=
  [Some (pg_forward_graph stage); pg_backward_graph stage; pg_outer_graph stage].

(** The emissions of an epoch, in order. *)
Definition forward_jobs (epoch : Z) : list (ST streamer JobManifestV3) :=
  flat_map (fun mb => map (fun stage => StreamingRunManager_emit_forward epoch mb stage None) stages) microbatches.

Definition has_graph (graph : option Graph) : bool := match graph with Some _ => true | None => false end.

Definition training_jobs (epoch : Z) : list (ST streamer JobManifestV3) :=
  flat_map (fun mb => map (StreamingRunManager_emit_backward epoch mb)
    (List.filter (fun stage => has_graph (pg_backward_graph stage)) (reverse stages))) microbatches ++
  map (StreamingRunManager_emit_outer epoch) (List.filter (fun stage => has_graph (pg_outer_graph stage)) stages).

Definition run_all {A} (fs : list (ST streamer A)) : ST streamer unit := _ ← mapS (fun f => f) fs; mret tt.

Definition StreamingRunManager_emit_epoch (epoch : Z) (forward_only : bool) : ST streamer unit :=
  _ ← mapS put_stage_graph (flat_map stage_graphs stages);
  _ ← run_all (forward_jobs epoch);
  if forward_only then mret tt else if sp_training params then run_all (training_jobs epoch) else mret tt.

(** ** Receipts and quota *)

Definition StreamingRunManager_job_outputs_present (manifest : JobManifestV3) : ST streamer bool :=
  st_try (allS (fun ref => present (ar_uri ref)) (jm_outputs manifest)) (fun _ => mret false).

Definition receipt_horizon (cursor : float) : option float :=
  let back := fsub cursor (float_of_Z 5) in
  let since := if fltb fzero back then back else fzero in
  if fltb fzero since then Some since else None.

Definition finished_ids : ST streamer (list string) := fun m =>
  st_try (mg_do (bucket_do (scan_recent_receipt_job_ids (sc_netuid cfg) (sc_run_id cfg) (receipt_horizon (sr_cursor m)) 50000)))
    (fun _ => mret []) m.

Definition queue_ask {A} (f : OrchestratorQueue -> OrchestratorQueue * A) : ST streamer A := fun m =>
  let g := sr_manager m in
  let '(q, a) := f (mg_queue g) in
  (mkStreamer (mkManager (mg_store g) (mg_quota g) q (mg_resolver g) (mg_emitted g) (mg_readings g)) (sr_jobs m) (sr_cursor m), Ok a).

Definition StreamingRunManager_drain_queue_via_receipts : ST streamer Z :=
  done_ids ← finished_ids;
  removed ← (match done_ids with [] => mret 0%Z | _ => queue_ask (fun q => OrchestratorQueue_remove_many q done_ids) end);
  t ← now;
  expired ← queue_ask (fun q => OrchestratorQueue_prune_expired q t);
  t ← now;
  _ ← set_cursor t;
  mret (removed + Z.of_nat (length expired))%Z.

Definition release_job (manifest : JobManifestV3) : ST streamer unit :=
  mg_do (quota_do (fun b => (QuotaBook_release b (jm_assigned_hotkey manifest) fone, Ok tt))).

(** The jobs of an epoch, of those in [jobs], that are not yet released. *)
Definition unreleased (epoch : Z) (released : list string) (jobs : dict JobManifestV3) : dict JobManifestV3 :=
  List.filter (fun e => negb (bool_decide (e.1 ∈ released)) && of_epoch epoch e.1) jobs.

(** Releasing those whose outputs are there; the result is [released]. *)
Fixpoint release_present (epoch : Z) (jobs : dict JobManifestV3) (released : list string) : ST streamer (list string) :=
  match jobs with
  | [] => mret released
  | (job_id, manifest) :: rest =>
      if bool_decide (job_id ∈ released) || negb (of_epoch epoch job_id) then release_present epoch rest released
      else
        there ← StreamingRunManager_job_outputs_present manifest;
        if (there : bool) then _ ← release_job manifest; release_present epoch rest (job_id :: released)
        else release_present epoch rest released
  end.

Definition release_rest (epoch : Z) (released : list string) : ST streamer unit :=
  jobs ← get_jobs;
  _ ← mapS release_job (dict_values (unreleased epoch released jobs));
  mret tt.

Definition StreamingRunManager_release_epoch_quota (epoch : Z) : ST streamer unit := release_rest epoch [].

Definition drop_jobs (epoch : Z) : ST streamer unit :=
  jobs ← get_jobs; set_jobs (List.filter (fun e => negb (of_epoch epoch e.1)) jobs).

Definition StreamingRunManager_drop_epoch_jobs (epoch : Z) : ST streamer unit :=
  jobs ← get_jobs;
  _ ← queue_ask (fun q => OrchestratorQueue_remove_many q (List.filter (of_epoch epoch) (dict_keys jobs)));
  drop_jobs epoch.

(** ** Waiting *)

Definition tail_done (epoch mb : Z) : ST streamer bool :=
  uri ← fwd_done_uri epoch (sp_n_stages params - 1) mb; present uri.

Definition weights_there (epoch : Z) (stage : PipelineStage) : ST streamer bool :=
  if has_graph (pg_outer_graph stage) then uri ← epoch_weights_uri (epoch + 1) (pg_stage_id stage); present uri else mret true.

(** Whether every tail output and every new weight is there. *)
Definition epoch_complete (epoch : Z) : ST streamer bool :=
  done ← mapS (tail_done epoch) microbatches;
  outer_done ← (if sp_training params then allS (weights_there epoch) stages else mret true);
  mret ((sp_n_microbatches params <=? Z.of_nat (length (List.filter id done)))%Z && outer_done).

(** The jobs are those at the time of the turn. *)
Definition release_finished (epoch : Z) (released : list string) : ST streamer (list string) :=
  jobs ← get_jobs; release_present epoch jobs released.

Fixpoint wait_epoch_loop (fuel : nat) (epoch : Z) (deadline : float) (released : list string) : ST streamer unit :=
  match fuel with
  | O => st_raise spent
  | Datatypes.S fuel' =>
      t ← now;
      if fltb t deadline then
        _ ← StreamingRunManager_drain_queue_via_receipts;
        complete ← epoch_complete epoch;
        released ← release_finished epoch released;
        if (complete : bool) then
          _ ← release_rest epoch released;
          _ ← StreamingRunManager_drain_queue_via_receipts;
          mret tt
        else _ ← rest; wait_epoch_loop fuel' epoch deadline released
      else
        _ ← release_rest epoch released;
        st_raise (TimeoutError ("streaming epoch " +:+ py_str_int epoch +:+ " timed out"))
  end.

Definition StreamingRunManager_wait_epoch (fuel : nat) (epoch : Z) (deadline : float) : ST streamer unit :=
  wait_epoch_loop fuel epoch deadline [].

(** ** Telemetry *)

Definition streaming_host : telemetry_host streamer :=
  mkHost address (fun uri v => mg_do (bucket_do (os_put_json uri v))) now (fun _ => rest).

Definition count_by (names : list string) : dict Z :=
  fold_left (fun acc name => dict_set name (default 0%Z (dict_get name acc) + 1)%Z acc) names [].

Definition queue_depths (q : OrchestratorQueue) : dict Z := count_by (map qe_assigned_hotkey (OrchestratorQueue_iter q)).

Definition StreamingRunManager_queue_telemetry (q : OrchestratorQueue) : result (dict pyval) :=
  let per_hotkey := queue_depths q in
  let depths := sort_by Z.leb (dict_values per_hotkey) in
  cut ← int_of_float (fmul (flit 99 (-2)) (float_of_Z (Z.of_nat (length depths))));
  p99 ← (match depths with
         | [] => Ok 0%Z
         | _ => of_option (IndexError "list index out of range") (depths !! Z.to_nat (Z.min (Z.of_nat (length depths) - 1) cut))
         end);
  Ok [("depth", PInt (fold_left Z.add (dict_values per_hotkey) 0%Z)); ("n_hotkeys_with_work", PInt (Z.of_nat (length per_hotkey)));
      ("depth_p99_per_hotkey", PInt p99); ("depth_max_per_hotkey", PInt (default 0%Z (last depths)));
      ("max_inflight_per_hotkey", PInt (sc_max_inflight_per_hotkey cfg))].

Definition config_fields : list string :=
  ["task"; "d"; "n_head"; "d_ff"; "B"; "T"; "n_stages"; "n_microbatches"; "n_blocks_per_stage"; "tokens_uri"].

Definition cfg_int (d : dict pyval) (k : string) : result Z := py_int (por (get_or d k (PInt 0)) (PInt 0)).

Definition tokens_per_sec (tokens : Z) (wall : float) : result pyval :=
  if fltb fzero wall then n ← py_float (PInt tokens); Ok (PFloat (py_round 2 (fdiv n wall))) else Ok PNone.

Definition epoch_report (epoch : Z) (emit_seconds wait_seconds : float) (outcome : string) (manifest_cfg : dict pyval)
    (epoch_jobs : list JobManifestV3) (tokens : Z) (q : OrchestratorQueue) : result (dict pyval) :=
  let wall := fadd emit_seconds wait_seconds in
  speed ← tokens_per_sec tokens wall;
  queue ← StreamingRunManager_queue_telemetry q;
  Ok [("epoch", PInt epoch); ("outcome", PStr outcome); ("emit_seconds", PFloat (py_round 3 emit_seconds));
      ("wait_seconds", PFloat (py_round 3 wait_seconds)); ("wall_seconds", PFloat (py_round 3 wall));
      ("tokens_in_epoch", PInt tokens); ("tokens_per_sec", speed); ("n_jobs_emitted", PInt (Z.of_nat (length epoch_jobs)));
      ("n_microbatches", PInt (sp_n_microbatches params)); ("n_stages", PInt (sp_n_stages params));
      ("by_kind", PDict (dict_map PInt (count_by (map jm_kind epoch_jobs)))); ("queue", PDict queue);
      ("manifest_config", PDict (map (fun k => (k, get manifest_cfg k)) config_fields))].

Definition read_manifest_config : ST streamer pyval :=
  st_try (uri ← address (manifest_config_key (sc_netuid cfg) (sc_run_id cfg)); mg_do (bucket_do (os_get_json uri)))
    (fun _ => mret (PDict [])).

Definition StreamingRunManager_emit_epoch_telemetry (epoch : Z) (emit_seconds wait_seconds : float) (outcome : string)
    : ST streamer unit :=
  v ← read_manifest_config;
  jobs ← get_jobs;
  manifest_cfg ← st_lift (as_object v);
  b ← st_lift (cfg_int manifest_cfg "B");
  t ← st_lift (cfg_int manifest_cfg "T");
  let n_mb := sp_n_microbatches params in
  let tokens := if negb (b =? 0)%Z && negb (t =? 0)%Z && negb (n_mb =? 0)%Z then (b * t * n_mb)%Z else 0%Z in
  m ← st_get;
  _ ← skip_errors (
    payload ← st_lift (epoch_report epoch emit_seconds wait_seconds outcome manifest_cfg
                         (dict_values (List.filter (fun e => of_epoch epoch e.1) jobs)) tokens (mg_queue (sr_manager m)));
    TelemetryWriter_orchestrator streaming_host (mkTelemetry (sc_netuid cfg) (sc_run_id cfg) "orchestrator") payload);
  mret tt.

(** ** The run *)

(** [while time.time() < deadline and not self.discover_workers(): sleep]. *)
Fixpoint await_workers (fuel : nat) (deadline : float) : ST streamer unit :=
  match fuel with
  | O => st_raise spent
  | Datatypes.S fuel' =>
      t ← now;
      if fltb t deadline then
        workers ← StreamingRunManager_discover_workers;
        match workers with
        | _ :: _ => mret tt
        | [] => _ ← rest; await_workers fuel' deadline
        end
      else mret tt
  end.

Definition workers_or_timeout (fuel : nat) (deadline : float) (what : string) : ST streamer unit :=
  _ ← await_workers fuel deadline;
  t ← now;
  if fleb deadline t then st_raise (TimeoutError ("no miners available for streaming " +:+ what)) else mret tt.

(** How long something took that began at [since], in a report. *)
Definition report_wait (epoch : Z) (emit_seconds since : float) (outcome : string) : ST streamer unit :=
  t ← now; StreamingRunManager_emit_epoch_telemetry epoch emit_seconds (fsub t since) outcome.

Definition is_timeout (e : exn) : bool := match e with TimeoutError _ => true | _ => false end.
(** The errors [except RuntimeError] catches. *)
Definition is_runtime_error (e : exn) : bool := match e with RuntimeError _ | NotImplementedError _ => true | _ => false end.

(** Waiting for an epoch; a timeout is reported and raised again. *)
Definition wait_reported (fuel : nat) (epoch : Z) (deadline emit_seconds t_wait : float) : ST streamer unit := fun m =>
  match StreamingRunManager_wait_epoch fuel epoch deadline m with
  | (m', Ok _) => report_wait epoch emit_seconds t_wait "ok" m'
  | (m', Err e) => if is_timeout e then (_ ← report_wait epoch emit_seconds t_wait "timeout"; st_raise e) m' else (m', Err e)
  end.

Definition run_epoch (fuel : nat) (deadline : float) (epoch : Z) : ST streamer unit :=
  _ ← workers_or_timeout fuel deadline "run";
  t_emit ← now;
  _ ← StreamingRunManager_emit_epoch epoch false;
  t_done ← now;
  t_wait ← now;
  wait_reported fuel epoch (fmin deadline (fadd t_wait (fmax fzero (sc_epoch_timeout_sec cfg)))) (fsub t_done t_emit) t_wait.

(** A turn of the stress loop that could emit. *)
Definition stress_emitted (epoch : Z) (t_emit : float) : ST streamer unit :=
  t ← now;
  _ ← StreamingRunManager_release_epoch_quota epoch;
  _ ← skip_errors (StreamingRunManager_emit_epoch_telemetry epoch (fsub t t_emit) fzero "stress_emitted");
  _ ← drop_jobs epoch;
  if fltb fzero (sc_stress_emit_interval cfg) then rest else mret tt.

(** A turn that could not: no live worker had room. *)
Definition stress_refused (epoch : Z) : ST streamer unit :=
  _ ← StreamingRunManager_drop_epoch_jobs epoch; rest.

Definition stress_emission (epoch : Z) (t_emit : float) : ST streamer unit := fun m =>
  match StreamingRunManager_emit_epoch epoch true m with
  | (m', Ok _) => stress_emitted epoch t_emit m'
  | (m', Err e) => if is_runtime_error e then stress_refused epoch m' else (m', Err e)
  end.

Definition stress_turn (epoch : Z) : ST streamer unit :=
  _ ← skip_errors StreamingRunManager_discover_workers;
  _ ← StreamingRunManager_drain_queue_via_receipts;
  t_emit ← now;
  stress_emission epoch t_emit.

Fixpoint stress_loop (fuel : nat) (deadline : float) (iteration : Z) : ST streamer unit :=
  match fuel with
  | O => st_raise spent
  | Datatypes.S fuel' =>
      t ← now;
      if fltb t deadline then
        if negb (sc_stress_max_iterations cfg =? 0)%Z && (sc_stress_max_iterations cfg <=? iteration)%Z then mret tt
        else
          _ ← stress_turn (sc_stress_epoch_base cfg + iteration);
          stress_loop fuel' deadline (iteration + 1)
      else mret tt
  end.

Definition StreamingRunManager_run_stress_emit_loop (fuel : nat) (timeout_sec : float) : ST streamer unit :=
  t ← now;
  let deadline := fadd t timeout_sec in
  _ ← workers_or_timeout fuel deadline "stress run";
  stress_loop fuel deadline 0.

Definition run_epochs (fuel : nat) (timeout_sec : float) : ST streamer unit :=
  t ← now;
  _ ← mapS (run_epoch fuel (fadd t timeout_sec)) (py_range (sc_max_epochs cfg));
  mret tt.

(** [self.queue.stop()]. *)
Definition StreamingRunManager_stop : ST streamer unit :=
  now1 ← mg_do (unix_now clock);
  now2 ← mg_do (unix_now clock);
  mg_do (stop_queue now1 now2).
End streaming.

Section run_loop.
Context {S : Type} `{ObjectStore S} `{SigLib}.
Context (clock : nat -> float) (btcli_show : Z -> string -> Z -> result pyval).
Context (env : nat -> S -> S) (flusher : nat -> option (Z * Z)) (spent : exn).
Context (cfg : StreamingRunConfig) (task : StreamingTask S).
Context (backend : BucketDiscoveryBackend) (broker : option PresignedUrlBroker) (encryptor : AssignmentEncryptor).

Definition run_pipeline (fuel : nat) (timeout_sec : float) (stages : list PipelineStage) (params : StreamingParams)
    : ST (streamer S) unit :=
  if sc_stress_emit cfg
  then StreamingRunManager_run_stress_emit_loop clock btcli_show env flusher spent cfg backend broker encryptor stages params fuel timeout_sec
  else run_epochs clock btcli_show env flusher spent cfg backend broker encryptor stages params fuel timeout_sec.

Definition StreamingRunManager_run_loop (fuel : nat) (timeout_sec : float) : ST (streamer S) unit :=
  inputs ← StreamingRunManager_bootstrap cfg task;
  st_finally (run_pipeline fuel timeout_sec inputs.1 inputs.2) (StreamingRunManager_stop clock).
End run_loop.

(** ** Construction *)

Definition StreamingRunManager_crypto `{SigLib} `{BoxLib} (cfg : StreamingRunConfig) (ephemeral : string)
    : AssignmentEncryptor * option BtcliMetagraphHotkeyResolver :=
  if String.eqb (sc_assignment_crypto cfg) "ed25519" then
    (sealed_encryptor ephemeral (Ed25519SealedBoxAssignmentCrypto_init None),
     Some (BtcliMetagraphHotkeyResolver_init (sc_netuid cfg) (sc_network cfg) 0))
  else (dev_encryptor (DevAssignmentCrypto_init (sc_assignment_secret cfg)), None).

Definition StreamingRunManager_parts {S} (cfg : StreamingRunConfig) (client : option presigner)
    (import_task : string -> result (StreamingTask S))
    : result (StreamingTask S * BucketDiscoveryBackend * option PresignedUrlBroker) :=
  task ← load_streaming_task import_task (sc_task cfg);
  backend ← build_discovery_backend (sc_discovery_backend cfg) (sc_netuid cfg) (sc_run_id cfg) "train"
              (sc_discovery_heartbeat_ttl_sec cfg);
  broker ← broker_for_mode (sc_grant_mode cfg) client;
  Ok (task, backend, broker).

(** [started] is the reading of the clock the receipt cursor begins at. *)
Definition StreamingRunManager_init {S} `{ObjectStore S} (cfg : StreamingRunConfig) (base_quota : float) (flush_max_changes : Z)
    (resolver : option BtcliMetagraphHotkeyResolver) (started : float) (s : S) : streamer S * result unit :=
  let '((q, s'), r) := OrchestratorQueue_reconcile_from_bucket []
    (OrchestratorQueue_init (sc_netuid cfg) (sc_run_id cfg) "train" flush_max_changes, s) in
  (mkStreamer (mkManager s' (QuotaBook_init base_quota) q resolver [] 0) [] started, r).
