(* ===== verification/StreamingFacts.v ===== *)
(** * Properties of the streaming run manager

    Backpressure: emitting an epoch never lets the queue of a hotkey grow past
    the limit.  Dataflow: every job of an epoch takes its inputs from jobs
    emitted before it.  Waiting: an epoch's jobs give back their quota exactly
    once, whether the epoch completes or times out. *)

From Stdlib Require Import ZArith Lia Ascii.
From stdpp Require Import base strings list.
From S2P Require Import Prelude PyFloat PyVal Json Digest Paths Signatures Codec Protocol ProtocolFacts.
From S2P Require Import Storage StoreReads Telemetry Queue QueueFacts Transport Discovery Scheduler Crypto WalletCrypto Emission EmissionFacts Ir Mlp Streaming.

(** ** Programs that relate the states before and after *)

(** [f] stays within a relation, whatever it answers. *)
Definition within {M A} (R : M -> M -> Prop) (f : ST M A) : Prop := forall m, R m (fst (f m)).

Section within.
Context {M : Type} (R : M -> M -> Prop) `{!PreOrder R}.

Lemma within_ret {A} (a : A) : within R (mret a).
Proof. intros m. reflexivity. Qed.
Lemma within_lift {A} (r : result A) : within R (st_lift r).
Proof. intros m. reflexivity. Qed.
Lemma within_get : within R st_get.
Proof. intros m. reflexivity. Qed.
Lemma within_raise {A} e : within R (st_raise (A := A) e).
Proof. intros m. reflexivity. Qed.

Lemma within_bind {A B} (f : ST M A) (k : A -> ST M B) : within R f -> (forall a, within R (k a)) -> within R (f ≫= k).
Proof.
  intros Hf Hk m. cbv [mbind st_bind]. specialize (Hf m). destruct (f m) as [m1 [a|e]]; [|done].
  etransitivity; [exact Hf|apply Hk].
Qed.

Lemma within_try {A} (f : ST M A) h : within R f -> (forall e, within R (h e)) -> within R (st_try f h).
Proof.
  intros Hf Hh m. unfold st_try. specialize (Hf m). destruct (f m) as [m1 [a|e]]; [done|].
  destruct (catchable e); [|done]. etransitivity; [exact Hf|apply Hh].
Qed.

Lemma within_mapS {A B} (f : A -> ST M B) l : (forall x, x ∈ l -> within R (f x)) -> within R (mapS f l).
Proof.
  induction l as [|x l IH]; intros Hf; cbn [mapS]; [apply within_ret|].
  apply within_bind; [apply Hf; left|intros y]. apply within_bind; [apply IH; intros z Hz; apply Hf; by right|intros ys; apply within_ret].
Qed.

Lemma within_allS {A} (f : A -> ST M bool) l : (forall x, within R (f x)) -> within R (allS f l).
Proof.
  intros Hf. induction l as [|x l IH]; cbn [allS]; [apply within_ret|].
  apply within_bind; [done|intros []]; [done|apply within_ret].
Qed.

Lemma within_skip `{ObjectStore M} {A} (f : ST M A) : within R f -> within R (skip_errors f).
Proof.
  intros Hf. unfold skip_errors. apply within_try; [|intros; apply within_ret].
  apply within_bind; [done|intros; apply within_ret].
Qed.
End within.

(** ** Backpressure *)

Lemma filter_dict_set (f : QueueEntry -> bool) k e (d : dict QueueEntry) :
  (length (List.filter f (dict_values (dict_set k e d))) <= length (List.filter f (dict_values d)) + (if f e then 1 else 0))%nat.
Proof.
  induction d as [|[k' e'] d IH]; cbn.
  - destruct (f e); cbn; lia.
  - destruct (String.eqb k k'); cbn; [destruct (f e), (f e'); cbn; lia|].
    unfold dict_values in IH. destruct (f e'); cbn; lia.
Qed.

Lemma depth_add_le q e h :
  (OrchestratorQueue_depth (OrchestratorQueue_add q e) (Some h) <=
   OrchestratorQueue_depth q (Some h) + (if String.eqb (qe_assigned_hotkey e) h then 1 else 0))%Z.
Proof.
  unfold OrchestratorQueue_depth. cbn [oq_outstanding OrchestratorQueue_add OrchestratorQueue_mark_dirty with_outstanding with_sync].
  pose proof (filter_dict_set (fun e => String.eqb (qe_assigned_hotkey e) h) (qe_job_id e) e (oq_outstanding q)) as Hl.
  cbn beta in Hl. destruct (String.eqb (qe_assigned_hotkey e) h); lia.
Qed.

Lemma pick_book_ok cu req f b b' w : fnn cu = true -> book_ok b -> QuotaBook_pick_worker cu req f b = (b', Ok w) ->
  book_ok b' /\ match f with Some f => f (wi_hotkey_ss58 w) = true | None => True end.
Proof.
  intros Hcu Hb Hp. apply book_ok_accounts in Hb as Hok. apply pick_worker_inv in Hp as (cs & c & rest & a & Hcs & Hs & -> & Ha & ->).
  assert (c ∈ cs) as Hin by (rewrite <- (sort_by_elem cand_leb), Hs; left).
  apply (pick_candidates_spec _ _ _ _ _ Hcs) in Hin as (k & a' & Hin & Ho & _ & Hk & Hw & _).
  apply dict_elem_get in Hin; [|apply Hok]. split.
  - apply book_ok_accounts. cbn. apply accounts_ok_set; [done|]. apply with_inflight_ok; [by apply Hok|].
    apply fadd_fnn; [|done]. by destruct (proj2 Hok _ _ Ha) as (_ & _ & _ & ?).
  - destruct f as [f|]; [|done]. rewrite (account_worker_hotkey _ _ _ _ Hok Hin Hw). unfold account_open in Ho.
    rewrite !andb_true_iff in Ho. destruct Ho as [[Ho _] _]. destruct (proj2 Hok _ _ Hin) as (Hi & _). by rewrite Hi in Ho.
Qed.

Lemma publish_entry {S} `{ObjectStore S, SigLib} owner key emit_grant unsigned (m m' : manager S) p :
  publish_job owner key emit_grant unsigned m = (m', Ok p) ->
  JobManifestV3_sign unsigned owner = Ok p.1 /\ qe_assigned_hotkey p.2 = jm_assigned_hotkey unsigned /\
  qe_job_id p.2 = jm_job_id unsigned.
Proof.
  intros E. unfold publish_job in E. st_step E. st_step E. st_step E. st_step E. injection E as <- <-. cbn.
  split; [done|]. unfold JobManifestV3_sign in E0. by apply bind_Ok in E0 as (sig & _ & [= <-]).
Qed.

Section facts.
Context {S : Type} `{OS : ObjectStore S} `{!ObjectStoreLaws S} `{SigLib}.
Context (clock : nat -> float) (btcli_show : Z -> string -> Z -> result pyval).
Context (env : nat -> S -> S) (flusher : nat -> option (Z * Z)) (spent : exn).
Context (cfg : StreamingRunConfig).
Context (broker : option PresignedUrlBroker) (encryptor : AssignmentEncryptor).
Context (stages : list PipelineStage) (params : StreamingParams).
Notation manager := (manager S).
Notation streamer := (streamer S).

(** Addresses mean the same, and neither the queue nor the quota book changes. *)
Record idle (m m' : manager) : Prop := {
  idle_queue : mg_queue m' = mg_queue m;
  idle_quota : mg_quota m' = mg_quota m;
  idle_emitted : mg_emitted m' = mg_emitted m;
  idle_address : os_uri_for_key (mg_store m') = os_uri_for_key (mg_store m)
}.

#[local] Instance idle_preorder : PreOrder idle.
Proof. split; [by split|]. intros x y z [] []. split; congruence. Qed.

(** Operations of the bucket that do not move it. *)
Definition stays {A} (f : ST S A) : Prop := forall s, os_uri_for_key (fst (f s)) = os_uri_for_key s.

Lemma stays_reads {A} (f : ST S A) : reads f -> stays f.
Proof. intros Hf s. by rewrite Hf. Qed.
Lemma stays_put uri data : stays (os_put uri data).
Proof. intros s. destruct (os_put uri data s) as [s' r] eqn:E. by eapply put_uri_for_key. Qed.
Lemma stays_put_json uri v : stays (os_put_json uri v).
Proof. intros s. rewrite put_json_put. apply stays_put. Qed.

Lemma idle_bucket {A} (f : ST S A) : stays f -> within idle (bucket_do f).
Proof. intros Hf m. unfold bucket_do. specialize (Hf (mg_store m)). destruct (f (mg_store m)). by split. Qed.

Lemma idle_uri key : within idle (bucket_do (uri_of key)).
Proof. apply idle_bucket, stays_reads, reads_uri. Qed.
Lemma idle_exists uri : within idle (bucket_do (os_exists uri)).
Proof. apply idle_bucket, stays_reads, reads_exists. Qed.

Lemma idle_clock : within idle (read_clock (S := S) clock).
Proof. done. Qed.

Lemma idle_now : within idle (unix_now (S := S) clock).
Proof. apply within_bind; [exact _|done|intros; apply within_lift; exact _]. Qed.

Lemma idle_file key grant hk : within idle (file_grant (S := S) btcli_show encryptor key grant hk).
Proof.
  apply within_bind; [exact _| |].
  - apply within_bind; [exact _|apply within_get; exact _|]. intros m. destruct (mg_resolver m) as [r|]; [|apply within_lift; exact _].
    apply within_bind; [exact _| |intros; apply within_lift; exact _].
    intros m1. unfold resolve_hotkey. by destruct (BtcliMetagraphHotkeyResolver_resolve _ _ _).
  - intros e. apply within_bind; [exact _|apply idle_uri|intros uri].
    apply within_bind; [exact _|apply idle_bucket, stays_put_json|].
    intros; apply within_ret; exact _.
Qed.

Lemma idle_grant b ttl n man : within idle (new_assignment_grant (S := S) clock b ttl n man).
Proof.
  assert (forall uri, within idle (broker_put (S := S) clock b ttl uri)) as Hput.
  { intros uri. apply within_bind; [exact _|apply idle_now|intros; apply within_lift; exact _]. }
  assert (forall uri, within idle (broker_get (S := S) clock b ttl uri)) as Hget.
  { intros uri. apply within_bind; [exact _|apply idle_now|intros; apply within_lift; exact _]. }
  unfold new_assignment_grant.
  repeat first [apply within_bind; [exact _| |intros] | apply idle_now | apply idle_uri | apply within_mapS; [exact _|intros; auto]
    | apply within_lift; exact _ | apply within_ret; exact _ | apply Hput].
Qed.

Lemma idle_emit_grant man : within idle (StreamingRunManager_emit_assignment_grant (S := S) clock btcli_show cfg broker encryptor man).
Proof.
  unfold StreamingRunManager_emit_assignment_grant. destruct broker as [b|]; [|apply within_ret; exact _].
  apply within_bind; [exact _|apply idle_grant|intros; apply idle_file].
Qed.

Lemma idle_publish owner key emit_grant unsigned : (forall man, within idle (emit_grant man)) ->
  within idle (publish_job (S := S) owner key emit_grant unsigned).
Proof.
  intros Hg. unfold publish_job.
  repeat first [apply within_bind; [exact _| |intros] | apply idle_uri | apply idle_bucket, stays_put_json | apply within_lift; exact _ | apply within_ret; exact _ | apply Hg].
Qed.

Lemma within_mg {A} (R : manager -> manager -> Prop) (f : ST manager A) : within R f ->
  within (fun m m' : streamer => R (sr_manager m) (sr_manager m')) (mg_do f).
Proof. intros Hf m. unfold mg_do. specialize (Hf (sr_manager m)). by destruct (f (sr_manager m)). Qed.

(** No queue grows, but up to the limit. *)
Definition throttled (g g' : manager) : Prop :=
  book_ok (mg_quota g) -> book_ok (mg_quota g') /\ forall h,
    (OrchestratorQueue_depth (mg_queue g') (Some h) <=
     Z.max (OrchestratorQueue_depth (mg_queue g) (Some h)) (sc_max_inflight_per_hotkey cfg))%Z.

#[local] Instance throttled_preorder : PreOrder throttled.
Proof.
  split; [intros m Hb; split; [done|intros; lia]|]. intros x y z H1 H2 Hb. destruct (H1 Hb) as [Hy H1'].
  destruct (H2 Hy) as [Hz H2']. split; [done|]. intros h. specialize (H1' h). specialize (H2' h). lia.
Qed.

Definition throttling (m m' : streamer) : Prop := throttled (sr_manager m) (sr_manager m').
#[local] Instance throttling_preorder : PreOrder throttling.
Proof. split; [intros m; unfold throttling; reflexivity|intros x y z; unfold throttling; apply transitivity]. Qed.

Lemma idle_throttled m m' : idle m m' -> throttled m m'.
Proof. intros [Hq Hb _ _]. unfold throttled. rewrite Hq, Hb. intros Hok. split; [done|intros; lia]. Qed.

Lemma throttling_idle {A} (f : ST manager A) : within idle f -> within throttling (mg_do f).
Proof. intros Hf. apply (within_mg throttled). intros m. by apply idle_throttled. Qed.

Lemma throttling_address key : within throttling (address key).
Proof. apply throttling_idle, idle_uri. Qed.
Lemma throttling_present uri : within throttling (present uri).
Proof. apply throttling_idle, idle_exists. Qed.
Lemma throttling_jobs : within throttling get_jobs.
Proof. intros m. unfold throttling. cbn. reflexivity. Qed.
Lemma throttling_set_jobs jobs : within throttling (set_jobs (S := S) jobs).
Proof. intros m. unfold throttling. cbn. reflexivity. Qed.

(** A job is published and noted for its worker only. *)
Lemma idle_prepare dl id kind step graph ps ins outs req w :
  within (fun m m' : streamer => idle (sr_manager m) (sr_manager m'))
    (prepare_job clock btcli_show cfg broker encryptor dl id kind step graph ps ins outs req w).
Proof.
  assert (PreOrder (fun m m' : streamer => idle (sr_manager m) (sr_manager m'))) as Hpre.
  { split; [intros m; reflexivity|intros x y z; apply transitivity]. }
  unfold prepare_job.
  repeat first [apply within_bind; [exact _| |intros] | apply (within_mg idle); first [apply idle_now | apply idle_uri |
    apply idle_publish; intros; apply idle_emit_grant] | apply within_lift; exact _].
Qed.

Lemma prepare_entry dl id kind step graph ps ins outs req w (m m' : streamer) p :
  prepare_job clock btcli_show cfg broker encryptor dl id kind step graph ps ins outs req w m = (m', Ok p) ->
  qe_assigned_hotkey p.2 = wi_hotkey_ss58 w /\ qe_job_id p.2 = id.
Proof.
  intros E. unfold prepare_job in E. st_step E. st_step E. st_step E. st_step E. unfold mg_do in E.
  destruct (publish_job _ _ _ _ _) as [g [p'|e]] eqn:Ep; [|done]. injection E as _ ->. by apply publish_entry in Ep as (_ & Hh & Hi).
Qed.

(** What noting a job does. *)
Definition noted (id : string) (man : JobManifestV3) (entry : QueueEntry) (m : streamer) : streamer :=
  let g := sr_manager m in
  mkStreamer (mkManager (mg_store g) (mg_quota g) (OrchestratorQueue_add (mg_queue g) entry) (mg_resolver g)
      (mg_emitted g ++ [id]) (mg_readings g)) (dict_set id man (sr_jobs m)) (sr_cursor m).

Lemma note_job_does man entry id (m : streamer) : note_job man entry id m = (noted id man entry m, Ok tt).
Proof. done. Qed.

(** A job adds one entry, to a queue that has room. *)
Lemma throttling_emit_job dl id kind step graph ps ins outs :
  within throttling (StreamingRunManager_emit_job clock btcli_show cfg broker encryptor dl id kind step graph ps ins outs None).
Proof.
  intros m. unfold StreamingRunManager_emit_job. cbv [mbind st_bind]. unfold st_lift at 1.
  destruct (resource_requirements ps) as [req|e]; [|unfold throttling; reflexivity].
  unfold choose_worker, mg_do at 1. cbv [mbind st_bind st_get quota_do].
  destruct (QuotaBook_pick_worker _ _ _ _) as [b [w|e]] eqn:Ep.
  2:{ cbn. intros Hb. cbn. split; [|intros; lia].
      revert Ep. unfold QuotaBook_pick_worker. repeat case_match; intros [=]; subst; done. }
  set (m1 := mkStreamer _ _ _). pose proof (idle_prepare dl id kind step graph ps ins outs req w m1) as [Hq Hbk _ _].
  pose proof (prepare_entry dl id kind step graph ps ins outs req w m1) as He.
  destruct (prepare_job _ _ _ _ _ _ _ _ _ _ _ _ _ _ _ m1) as [m2 [p|e]]; cbn [fst] in Hq, Hbk.
  - specialize (He m2 p eq_refl) as [Hh _]. rewrite note_job_does. unfold throttling, throttled.
    cbn [mret st_ret fst snd noted sr_manager mg_quota mg_queue]. intros Hb. apply pick_book_ok in Ep as [Hb' Hroom]; [|done|done].
    rewrite Hbk. split; [exact Hb'|]. intros h. pose proof (depth_add_le (mg_queue (sr_manager m2)) p.2 h) as Hd.
    rewrite Hq in Hd |- *. subst m1. cbn [sr_manager mg_queue] in *. rewrite Hh in Hd. apply Z.ltb_lt in Hroom.
    destruct (String.eqb (wi_hotkey_ss58 w) h) eqn:Eh; [|lia]. apply String.eqb_eq in Eh as <-. lia.
  - cbn. intros Hb. apply pick_book_ok in Ep as [Hb' _]; [|done|done]. rewrite Hbk, Hq. split; [exact Hb'|]. cbn. intros; lia.
Qed.

#[local] Ltac throttle known :=
  repeat lazymatch goal with
  | |- within _ (address _) => apply throttling_address
  | |- within _ (present _) => apply throttling_present
  | |- within _ get_jobs => apply throttling_jobs
  | |- within _ (mg_do (bucket_do (os_put _ _))) => apply throttling_idle, idle_bucket, stays_put
  | |- within _ (st_lift _) => apply within_lift; exact _
  | |- within _ (mret _) => apply within_ret; exact _
  | |- within _ (mapS _ _) => apply within_mapS; [exact _|intros]
  | |- within _ (_ ≫= _) => apply within_bind; [exact _| |intros]
  | |- within _ (match ?x with _ => _ end) => destruct x
  | _ => known ()
  end.

Lemma throttling_weights_input e name stage : within throttling (weights_input (S := S) cfg e name stage).
Proof. unfold weights_input, epoch_weights_uri. throttle ltac:(fun _ => fail). Qed.
Lemma throttling_first_output id name : within throttling (first_output (S := S) id name).
Proof. unfold first_output, job_named. throttle ltac:(fun _ => fail). Qed.
Lemma throttling_output_named id out name : within throttling (output_named (S := S) id out name).
Proof. unfold output_named, job_named. throttle ltac:(fun _ => fail). Qed.

#[local] Ltac known_inputs :=
  lazymatch goal with
  | |- within _ (StreamingRunManager_emit_job _ _ _ _ _ _ _ _ _ _ _ _ _ _) => apply throttling_emit_job
  | |- within _ (weights_input _ _ _ _) => apply throttling_weights_input
  | |- within _ (first_output _ _) => apply throttling_first_output
  | |- within _ (output_named _ _ _) => apply throttling_output_named
  end.

Lemma throttling_forward epoch mb stage :
  within throttling (StreamingRunManager_emit_forward clock btcli_show cfg broker encryptor params epoch mb stage None).
Proof.
  unfold StreamingRunManager_emit_forward, forward_inputs, forward_outputs, emit_stage_job, fwd_output_uri, fwd_done_uri.
  throttle ltac:(fun _ => known_inputs).
Qed.

Lemma throttling_backward epoch mb stage :
  within throttling (StreamingRunManager_emit_backward clock btcli_show cfg broker encryptor params epoch mb stage).
Proof.
  unfold StreamingRunManager_emit_backward, backward_inputs, backward_outputs, emit_stage_job, bwd_output_uri.
  throttle ltac:(fun _ => known_inputs).
Qed.

Lemma throttling_outer epoch stage :
  within throttling (StreamingRunManager_emit_outer clock btcli_show cfg broker encryptor params epoch stage).
Proof.
  unfold StreamingRunManager_emit_outer, emit_stage_job, epoch_weights_uri.
  throttle ltac:(fun _ => known_inputs).
Qed.

Lemma throttling_graph graph : within throttling (put_stage_graph (S := S) cfg graph).
Proof. unfold put_stage_graph. throttle ltac:(fun _ => fail). Qed.

Lemma throttling_run_all {A} (fs : list (ST streamer A)) : (forall f, f ∈ fs -> within throttling f) -> within throttling (run_all fs).
Proof.
  intros Hf. apply within_bind; [exact _| |intros; apply within_ret; exact _]. apply within_mapS; [exact _|]. auto.
Qed.

(** *** The plan of an epoch *)

Inductive pipeline_job :=
| ForwardJob (mb : Z) (stage : PipelineStage)
| BackwardJob (mb : Z) (stage : PipelineStage)
| OuterJob (stage : PipelineStage).

Definition planned_id (epoch : Z) (k : pipeline_job) : string :=
  match k with
  | ForwardJob mb stage => forward_id epoch (pg_stage_id stage) mb
  | BackwardJob mb stage => backward_id epoch (pg_stage_id stage) mb
  | OuterJob stage => outer_id epoch (pg_stage_id stage)
  end.

(** Every microbatch through every stage; then, when training, back through the
    stages that have a backward graph, and the new weights of those that have
    an outer graph. *)
Definition epoch_plan (forward_only : bool) : list pipeline_job :=
  flat_map (fun mb => map (ForwardJob mb) stages) (microbatches params) ++
  if forward_only then [] else if sp_training params then
    flat_map (fun mb => map (BackwardJob mb) (List.filter (fun stage => has_graph (pg_backward_graph stage)) (reverse stages)))
      (microbatches params) ++
    map OuterJob (List.filter (fun stage => has_graph (pg_outer_graph stage)) stages)
  else [].

Definition emit_planned (epoch : Z) (k : pipeline_job) : ST streamer JobManifestV3 :=
  match k with
  | ForwardJob mb stage => StreamingRunManager_emit_forward clock btcli_show cfg broker encryptor params epoch mb stage None
  | BackwardJob mb stage => StreamingRunManager_emit_backward clock btcli_show cfg broker encryptor params epoch mb stage
  | OuterJob stage => StreamingRunManager_emit_outer clock btcli_show cfg broker encryptor params epoch stage
  end.

Lemma mapS_app {M A B} (f : A -> ST M B) l1 l2 m :
  mapS f (l1 ++ l2) m = (ys ← mapS f l1; zs ← mapS f l2; mret (ys ++ zs)) m.
Proof.
  revert m. induction l1 as [|x l1 IH]; intros m; cbn [app mapS].
  - cbv [mbind st_bind mret st_ret]. by destruct (mapS f l2 m) as [m1 [zs|e]].
  - cbv [mbind st_bind mret st_ret] in *. destruct (f x m) as [m1 [y|e]]; [|done]. rewrite IH.
    destruct (mapS f l1 m1) as [m2 [ys|e]]; [|done]. by destruct (mapS f l2 m2) as [m3 [zs|e]].
Qed.

Lemma run_all_app {A} (l1 l2 : list (ST streamer A)) m : run_all (l1 ++ l2) m = (_ ← run_all l1; run_all l2) m.
Proof.
  unfold run_all. cbv [mbind st_bind]. rewrite mapS_app. cbv [mbind st_bind mret st_ret].
  destruct (mapS _ l1 m) as [m1 [ys|e]]; [|done]. by destruct (mapS _ l2 m1) as [m2 [zs|e]].
Qed.

Lemma flat_map_map {A B C D} (f : B -> C) (g : A -> D -> B) (h : A -> list D) l :
  flat_map (fun a => map (fun d => f (g a d)) (h a)) l = map f (flat_map (fun a => map (g a) (h a)) l).
Proof. induction l as [|a l IH]; cbn; [done|]. by rewrite map_app, map_map, IH. Qed.

Lemma emit_epoch_planned epoch forward_only m :
  StreamingRunManager_emit_epoch clock btcli_show cfg broker encryptor stages params epoch forward_only m =
  (_ ← mapS (put_stage_graph cfg) (flat_map stage_graphs stages); run_all (map (emit_planned epoch) (epoch_plan forward_only))) m.
Proof.
  unfold StreamingRunManager_emit_epoch. cbv [mbind st_bind]. destruct (mapS _ _ m) as [m1 [u|e]]; [|done].
  unfold epoch_plan. rewrite map_app, run_all_app. cbv [mbind st_bind].
  assert (forward_jobs clock btcli_show cfg broker encryptor stages params epoch =
    map (emit_planned epoch) (flat_map (fun mb => map (ForwardJob mb) stages) (microbatches params))) as ->.
  { unfold forward_jobs. by rewrite <- (flat_map_map (emit_planned epoch) ForwardJob (fun _ => stages)). }
  destruct (run_all _ m1) as [m2 [v|e]]; [|done]. destruct forward_only; [done|]. destruct (sp_training params); [|done].
  f_equal. unfold training_jobs. rewrite map_app, map_map. f_equal.
  by rewrite <- (flat_map_map (emit_planned epoch) BackwardJob (fun _ => List.filter _ (reverse stages))).
Qed.

Lemma throttling_epoch epoch forward_only :
  within throttling (StreamingRunManager_emit_epoch clock btcli_show cfg broker encryptor stages params epoch forward_only).
Proof.
  intros m. rewrite emit_epoch_planned. revert m.
  apply within_bind; [exact _|apply within_mapS; [exact _|intros; apply throttling_graph]|intros _].
  apply throttling_run_all. intros f ([mb stage|mb stage|stage] & -> & _)%list_elem_of_fmap;
    [apply throttling_forward|apply throttling_backward|apply throttling_outer].
Qed.

(** *** Wiring *)

(** What a job takes from the jobs emitted before it: the first output of one,
    or the output of a name. *)
Definition from_first (jobs : dict JobManifestV3) (id name : string) (ref : ArtifactRef) : Prop :=
  exists up o outs, dict_get id jobs = Some up /\ jm_outputs up = o :: outs /\
    ref = mkRef name (ar_uri o) None None (ar_crypto o).

Definition from_named (jobs : dict JobManifestV3) (id output name : string) (ref : ArtifactRef) : Prop :=
  exists up o, dict_get id jobs = Some up /\ o ∈ jm_outputs up /\ ar_name o = output /\
    ref = mkRef name (ar_uri o) None None (ar_crypto o).

(** Weights are read where the epoch before left them; in stress mode all epochs
    read the pinned ones. *)
Definition weights_at (addr : string -> string) (epoch : Z) (stage : PipelineStage) : string :=
  addr (epoch_weights_key (sc_run_id cfg) (if sc_stress_emit cfg then sc_stress_pin_weights_epoch cfg else epoch) (pg_stage_id stage)).

Definition inputs_wired (addr : string -> string) (epoch : Z) (jobs : dict JobManifestV3) (k : pipeline_job)
    (ins : list ArtifactRef) : Prop :=
  match k with
  | ForwardJob mb stage => exists ups,
      (if is_head stage then ups = [] else
         Forall2 (fun (spec : tensor_spec) ref => from_first jobs (forward_id epoch (pg_stage_id stage - 1) mb) spec.1.1 ref)
           (pg_forward_input_specs stage) ups) /\
      ins = ups ++ (match given (pg_weights_input_name stage) with
                    | Some name => if sp_training params then [plain_ref name (weights_at addr epoch stage)] else []
                    | None => []
                    end) ++ (if sp_training params then target_refs params stage else []) ++ static_refs params stage
  | BackwardJob mb stage => exists x dx,
      (if is_head stage then x = [] else
         exists ref, x = [ref] /\ from_first jobs (forward_id epoch (pg_stage_id stage - 1) mb) "x_in" ref) /\
      (if is_tail params stage then dx = [] else
         exists ref, dx = [ref] /\ from_named jobs (backward_id epoch (pg_stage_id stage + 1) mb) "dL_dx_in" "dL_dx_out" ref) /\
      ins = plain_ref (str_or_default (pg_weights_input_name stage) "W") (weights_at addr epoch stage) ::
              x ++ target_refs params stage ++ static_refs params stage ++ dx
  | OuterJob stage => exists dws,
      Forall2 (fun mb ref => from_named jobs (backward_id epoch (pg_stage_id stage) mb) "dW" ("dW_" +:+ py_str_int mb) ref)
        (microbatches params) dws /\
      ins = plain_ref (str_or_default (pg_weights_input_name stage) "W") (weights_at addr epoch stage) :: dws
  end.

Definition output_places (addr : string -> string) (epoch : Z) (k : pipeline_job) : list (string * string) :=
  match k with
  | ForwardJob mb stage =>
      map (fun spec : tensor_spec => (spec.1.1, addr (fwd_output_key (sc_run_id cfg) epoch (pg_stage_id stage) mb spec.1.1)))
        (pg_forward_output_specs stage) ++
      (if is_tail params stage then
         [(if sp_training params then "loss" else "done", addr (fwd_done_key (sc_run_id cfg) epoch (pg_stage_id stage) mb))]
       else [])
  | BackwardJob mb stage =>
      ("dW", addr (bwd_output_key (sc_run_id cfg) epoch (pg_stage_id stage) mb "dW")) ::
      (if negb (is_head stage) && pg_backward_emits_dx_in stage
       then [("dL_dx_in", addr (bwd_output_key (sc_run_id cfg) epoch (pg_stage_id stage) mb "dL_dx_in"))] else [])
  | OuterJob stage => [("W_new", weights_at addr (epoch + 1) stage)]
  end.

(** The graph a job runs. *)
Definition planned_graph (k : pipeline_job) : option Graph :=
  match k with
  | ForwardJob _ stage => Some (pg_forward_graph stage)
  | BackwardJob _ stage => pg_backward_graph stage
  | OuterJob stage => pg_outer_graph stage
  end.

(** A job that was emitted when [jobs] were there. *)
Record wired (addr : string -> string) (epoch : Z) (jobs : dict JobManifestV3) (k : pipeline_job) (man : JobManifestV3) : Prop := {
  wd_id : jm_job_id man = planned_id epoch k;
  wd_inputs : inputs_wired addr epoch jobs k (jm_inputs man);
  wd_outputs : map (fun o => (ar_name o, ar_uri o)) (jm_outputs man) = output_places addr epoch k;
  wd_graph : exists g, planned_graph k = Some g /\ gr_sha256 (jm_graph_ref man) = Graph_graph_id g
}.

(** Jobs emitted one after the other. *)
Inductive wired_in_order (addr : string -> string) (epoch : Z) :
    dict JobManifestV3 -> list pipeline_job -> list JobManifestV3 -> dict JobManifestV3 -> Prop :=
  | Wired_end jobs : wired_in_order addr epoch jobs [] [] jobs
  | Wired_job jobs k man ks mans jobs' : wired addr epoch jobs k man ->
      wired_in_order addr epoch (dict_set (planned_id epoch k) man jobs) ks mans jobs' ->
      wired_in_order addr epoch jobs (k :: ks) (man :: mans) jobs'.

(** *** Emitting a job *)

#[local] Abbreviation addr_of m := (os_uri_for_key (mg_store (sr_manager m))).
#[local] Abbreviation entries m := (oq_outstanding (mg_queue (sr_manager m))).

Record emits (id : string) (man : JobManifestV3) (m m' : streamer) : Prop := {
  es_address : addr_of m' = addr_of m;
  es_jobs : sr_jobs m' = dict_set id man (sr_jobs m);
  es_emitted : mg_emitted (sr_manager m') = mg_emitted (sr_manager m) ++ [id];
  es_queued : exists e, entries m' = dict_set id e (entries m) /\ qe_job_id e = id /\
    qe_assigned_hotkey e = jm_assigned_hotkey man
}.

Lemma sign_fields unsigned owner man : JobManifestV3_sign unsigned owner = Ok man ->
  jm_job_id man = jm_job_id unsigned /\ jm_inputs man = jm_inputs unsigned /\ jm_outputs man = jm_outputs unsigned /\
  jm_assigned_hotkey man = jm_assigned_hotkey unsigned /\ jm_graph_ref man = jm_graph_ref unsigned.
Proof. intros E. unfold JobManifestV3_sign in E. by apply bind_Ok in E as (sig & _ & [= <-]). Qed.

Lemma prepare_spec dl id kind step graph ps ins outs req w (m m' : streamer) p :
  prepare_job clock btcli_show cfg broker encryptor dl id kind step graph ps ins outs req w m = (m', Ok p) ->
  sr_jobs m' = sr_jobs m /\ jm_job_id p.1 = id /\ jm_inputs p.1 = ins /\ jm_assigned_hotkey p.1 = wi_hotkey_ss58 w /\
  map (fun o => (ar_name o, ar_uri o)) (jm_outputs p.1) = map (fun o => (ar_name o, ar_uri o)) outs /\
  exists g, graph = Some g /\ gr_sha256 (jm_graph_ref p.1) = Graph_graph_id g.
Proof.
  intros E. unfold prepare_job in E. apply st_bind_Ok in E as (m1 & now & E1 & E). apply st_bind_Ok in E as (m2 & g & E2 & E).
  apply st_lift_Ok in E2 as [-> Eg]. destruct graph as [g'|]; [|discriminate Eg]. injection Eg as ->. apply st_bind_Ok in E as (m3 & outs' & E3 & E). apply st_lift_Ok in E3 as [-> E3].
  apply st_bind_Ok in E as (m4 & uri & E4 & E). unfold address, mg_do in E, E1, E4.
  destruct (unix_now clock (sr_manager m)) as [g1 r1]. injection E1 as <- ->. cbn in E4. injection E4 as <- <-. cbn in E.
  destruct (publish_job _ _ _ _ _) as [g2 [p'|e]] eqn:Ep; [|done]. injection E as <- ->. apply publish_entry in Ep as (Hs & _).
  apply sign_fields in Hs as (H1 & H2 & H3 & H4 & H5). cbn in *. rewrite H1, H2, H3, H4, H5. split_and!; try done; [|by exists g].
  apply resolve_outputs_spec in E3 as (Hu & Hn & _). clear -Hu Hn. revert outs Hu Hn.
  induction outs' as [|o l IH]; intros [|o' l'] Hu Hn; try discriminate Hu; [done|]. cbn in *. injection Hu as -> Hu. injection Hn as -> Hn.
  f_equal. by apply IH.
Qed.

Lemma emit_job_emits dl id kind step graph ps ins outs m m' man :
  StreamingRunManager_emit_job clock btcli_show cfg broker encryptor dl id kind step graph ps ins outs None m = (m', Ok man) ->
  emits id man m m' /\ jm_job_id man = id /\ jm_inputs man = ins /\
  map (fun o => (ar_name o, ar_uri o)) (jm_outputs man) = map (fun o => (ar_name o, ar_uri o)) outs /\
  exists g, graph = Some g /\ gr_sha256 (jm_graph_ref man) = Graph_graph_id g.
Proof.
  intros E. unfold StreamingRunManager_emit_job in E. apply st_bind_Ok in E as (m0 & req & E0 & E). apply st_lift_Ok in E0 as [-> _].
  apply st_bind_Ok in E as (m1 & w & E1 & E). apply st_bind_Ok in E as (m2 & p & E2 & E). apply st_bind_Ok in E as (m3 & u & E3 & E).
  injection E as <- <-. rewrite note_job_does in E3. injection E3 as <- _.
  assert (addr_of m1 = addr_of m /\ entries m1 = entries m /\ sr_jobs m1 = sr_jobs m /\
    mg_emitted (sr_manager m1) = mg_emitted (sr_manager m)) as (A1 & A2 & A3 & A4).
  { unfold choose_worker, mg_do in E1. cbv [mbind st_bind st_get quota_do] in E1.
    destruct (QuotaBook_pick_worker _ _ _ _) as [b r]. by injection E1 as <- _. }
  pose proof (idle_prepare dl id kind step graph ps ins outs req w m1) as Hi. rewrite E2 in Hi. destruct Hi as [I1 _ I3 I4].
  cbn [fst] in *. pose proof (prepare_entry dl id kind step graph ps ins outs req w m1 m2 p E2) as [P1 P2].
  pose proof (prepare_spec dl id kind step graph ps ins outs req w m1 m2 p E2) as (Q0 & Q1 & Q2 & Q3 & Q4). split; [|done].
  unfold noted. split; cbn [sr_manager sr_jobs mg_store mg_emitted mg_queue].
  - congruence.
  - congruence.
  - congruence.
  - exists p.2. split; [|split; congruence]. cbn [OrchestratorQueue_add OrchestratorQueue_mark_dirty with_outstanding with_sync oq_outstanding].
    rewrite P2. congruence.
Qed.

(** *** The inputs and outputs of a job *)

Lemma address_inv key (m m' : streamer) u : address key m = (m', Ok u) -> m' = m /\ u = addr_of m key.
Proof. unfold address, mg_do, bucket_do. cbn. intros [= <- <-]. split; [|done]. by destruct m as [[] ? ?]. Qed.

Lemma first_output_inv id name (m m' : streamer) r : first_output id name m = (m', Ok r) -> m' = m /\ from_first (sr_jobs m) id name r.
Proof.
  intros E. unfold first_output, job_named in E. st_step E. st_step E. injection E as <- <-. split; [done|].
  destruct (dict_get id _) as [up|] eqn:Eu; [|discriminate E0]. injection E0 as <-.
  destruct (jm_outputs up) as [|o outs] eqn:Eo; [discriminate E1|]. injection E1 as <-. by exists up, o, outs.
Qed.

Lemma output_named_inv id out name (m m' : streamer) r : output_named id out name m = (m', Ok r) ->
  m' = m /\ from_named (sr_jobs m) id out name r.
Proof.
  intros E. unfold output_named, job_named in E. st_step E. st_step E. injection E as <- <-. split; [done|].
  destruct (dict_get id _) as [up|] eqn:Eu; [|discriminate E0]. injection E0 as <-.
  destruct (List.find _ _) as [o|] eqn:Ef; [|discriminate E1]. injection E1 as <-.
  apply List.find_some in Ef as [Hin Hn]. apply String.eqb_eq in Hn. exists up, o. split_and!; try done. by apply list_elem_of_In.
Qed.

Lemma weights_input_inv epoch name stage (m m' : streamer) l : weights_input cfg epoch name stage m = (m', Ok l) ->
  m' = m /\ l = [plain_ref name (weights_at (addr_of m) epoch stage)].
Proof.
  intros E. unfold weights_input, epoch_weights_uri in E. apply st_bind_Ok in E as (m1 & u & E1 & E). injection E as <- <-.
  by apply address_inv in E1 as [-> ->].
Qed.

(** A loop over operations that leave the state. *)
Lemma mapS_inv {A B} (f : A -> ST streamer B) (P : A -> B -> Prop) l (m m' : streamer) ys :
  (forall x m1 y, f x m = (m1, Ok y) -> m1 = m /\ P x y) -> mapS f l m = (m', Ok ys) -> m' = m /\ Forall2 P l ys.
Proof.
  intros Hf. revert ys. induction l as [|x l IH]; intros ys E; cbn [mapS] in E; [injection E as <- <-; by split; [|constructor]|].
  apply st_bind_Ok in E as (m1 & y & E1 & E). apply Hf in E1 as [-> Hy]. apply st_bind_Ok in E as (m2 & ys' & E2 & E).
  injection E as <- <-. apply IH in E2 as [-> Hys]. split; [done|by constructor].
Qed.

Lemma forward_inputs_inv epoch mb stage (m m' : streamer) ins : forward_inputs cfg params epoch mb stage m = (m', Ok ins) ->
  m' = m /\ inputs_wired (addr_of m) epoch (sr_jobs m) (ForwardJob mb stage) ins.
Proof.
  intros E. unfold forward_inputs in E. apply st_bind_Ok in E as (m1 & ups & E1 & E). apply st_bind_Ok in E as (m2 & ws & E2 & E).
  injection E as <- <-. cbn [inputs_wired].
  assert (m1 = m /\ (if is_head stage then ups = [] else Forall2 (fun (spec : tensor_spec) ref =>
    from_first (sr_jobs m) (forward_id epoch (pg_stage_id stage - 1) mb) spec.1.1 ref) (pg_forward_input_specs stage) ups)) as [-> Hups].
  { destruct (is_head stage); [by injection E1 as <- <-|].
    apply (mapS_inv _ (fun (spec : tensor_spec) ref => from_first (sr_jobs m) (forward_id epoch (pg_stage_id stage - 1) mb) spec.1.1 ref)) in E1;
      [done|]. intros spec m1' y Ey. by apply first_output_inv in Ey. }
  assert (m2 = m /\ ws = match given (pg_weights_input_name stage) with
      | Some name => if sp_training params then [plain_ref name (weights_at (addr_of m) epoch stage)] else [] | None => [] end) as [-> ->].
  { destruct (given _) as [name|]; [|by injection E2 as <- <-]. destruct (sp_training params); [|by injection E2 as <- <-].
    by apply weights_input_inv in E2. }
  split; [done|]. by exists ups.
Qed.

Lemma forward_outputs_inv epoch mb stage (m m' : streamer) outs : forward_outputs cfg params epoch mb stage m = (m', Ok outs) ->
  m' = m /\ map (fun o => (ar_name o, ar_uri o)) outs = output_places (addr_of m) epoch (ForwardJob mb stage).
Proof.
  intros E. unfold forward_outputs in E. apply st_bind_Ok in E as (m1 & os & E1 & E). apply st_bind_Ok in E as (m2 & done & E2 & E).
  injection E as <- <-.
  apply (mapS_inv _ (fun (spec : tensor_spec) o => (ar_name o, ar_uri o) =
    (spec.1.1, addr_of m (fwd_output_key (sc_run_id cfg) epoch (pg_stage_id stage) mb spec.1.1)))) in E1 as [-> Hos].
  2:{ intros spec m1' y Ey. apply st_bind_Ok in Ey as (m2' & u & Eu & Ey). injection Ey as <- <-. by apply address_inv in Eu as [-> ->]. }
  assert (m2 = m /\ map (fun o => (ar_name o, ar_uri o)) done = if is_tail params stage then
      [(if sp_training params then "loss" else "done", addr_of m (fwd_done_key (sc_run_id cfg) epoch (pg_stage_id stage) mb))] else [])
    as [-> Hd].
  { destruct (is_tail params stage); [|by injection E2 as <- <-]. apply st_bind_Ok in E2 as (m2' & u & Eu & E2). injection E2 as <- <-.
    by apply address_inv in Eu as [-> ->]. }
  split; [done|]. rewrite map_app, Hd. cbn [output_places]. f_equal. clear -Hos. induction Hos; cbn; congruence.
Qed.

Lemma backward_inputs_inv epoch mb stage (m m' : streamer) ins : backward_inputs cfg params epoch mb stage m = (m', Ok ins) ->
  m' = m /\ inputs_wired (addr_of m) epoch (sr_jobs m) (BackwardJob mb stage) ins.
Proof.
  intros E. unfold backward_inputs in E. apply st_bind_Ok in E as (m1 & ws & E1 & E). apply weights_input_inv in E1 as [-> ->].
  apply st_bind_Ok in E as (m2 & x & E2 & E). apply st_bind_Ok in E as (m3 & dx & E3 & E). injection E as <- <-. cbn [inputs_wired].
  assert (m2 = m /\ if is_head stage then x = [] else exists ref, x = [ref] /\
    from_first (sr_jobs m) (forward_id epoch (pg_stage_id stage - 1) mb) "x_in" ref) as [-> Hx].
  { destruct (is_head stage); [by injection E2 as <- <-|]. apply st_bind_Ok in E2 as (m2' & r & Er & E2). injection E2 as <- <-.
    apply first_output_inv in Er as [-> Hr]. split; [done|]. by exists r. }
  assert (m3 = m /\ if is_tail params stage then dx = [] else exists ref, dx = [ref] /\
    from_named (sr_jobs m) (backward_id epoch (pg_stage_id stage + 1) mb) "dL_dx_in" "dL_dx_out" ref) as [-> Hdx].
  { destruct (is_tail params stage); [by injection E3 as <- <-|]. apply st_bind_Ok in E3 as (m2' & r & Er & E3). injection E3 as <- <-.
    apply output_named_inv in Er as [-> Hr]. split; [done|]. by exists r. }
  split; [done|]. by exists x, dx.
Qed.

Lemma backward_outputs_inv epoch mb stage (m m' : streamer) outs : backward_outputs cfg epoch mb stage m = (m', Ok outs) ->
  m' = m /\ map (fun o => (ar_name o, ar_uri o)) outs = output_places (addr_of m) epoch (BackwardJob mb stage).
Proof.
  intros E. unfold backward_outputs in E. apply st_bind_Ok in E as (m1 & dw & E1 & E). apply address_inv in E1 as [-> ->].
  apply st_bind_Ok in E as (m2 & dx & E2 & E). injection E as <- <-. cbn [output_places map].
  destruct (negb (is_head stage) && pg_backward_emits_dx_in stage); [|by injection E2 as <- <-].
  apply st_bind_Ok in E2 as (m2' & u & Eu & E2). injection E2 as <- <-. by apply address_inv in Eu as [-> ->].
Qed.

Lemma emit_planned_wired epoch k (m m' : streamer) man : emit_planned epoch k m = (m', Ok man) ->
  emits (planned_id epoch k) man m m' /\ wired (addr_of m) epoch (sr_jobs m) k man.
Proof.
  destruct k as [mb stage|mb stage|stage]; cbn [emit_planned planned_id]; intros E.
  - unfold StreamingRunManager_emit_forward in E. apply st_bind_Ok in E as (m1 & ins & E1 & E). apply forward_inputs_inv in E1 as [-> Hin].
    apply st_bind_Ok in E as (m2 & outs & E2 & E). apply forward_outputs_inv in E2 as [-> Hout].
    apply emit_job_emits in E as (He & Hid & Hi & Ho & Hg). split; [done|]. split; [done|by rewrite Hi|by rewrite Ho|done].
  - unfold StreamingRunManager_emit_backward in E. apply st_bind_Ok in E as (m1 & ins & E1 & E). apply backward_inputs_inv in E1 as [-> Hin].
    apply st_bind_Ok in E as (m2 & outs & E2 & E). apply backward_outputs_inv in E2 as [-> Hout].
    apply emit_job_emits in E as (He & Hid & Hi & Ho & Hg). split; [done|]. split; [done|by rewrite Hi|by rewrite Ho|done].
  - unfold StreamingRunManager_emit_outer in E. apply st_bind_Ok in E as (m1 & ws & E1 & E). apply weights_input_inv in E1 as [-> ->].
    apply st_bind_Ok in E as (m2 & dws & E2 & E).
    apply (mapS_inv _ (fun mb ref => from_named (sr_jobs m) (backward_id epoch (pg_stage_id stage) mb) "dW" ("dW_" +:+ py_str_int mb) ref))
      in E2 as [-> Hd]; [|intros mb m1 y Ey; by apply output_named_inv in Ey].
    apply st_bind_Ok in E as (m2 & u & Eu & E). unfold epoch_weights_uri in Eu. apply address_inv in Eu as [-> ->].
    apply emit_job_emits in E as (He & Hid & Hi & Ho & Hg). split; [done|]. split; [done| |by rewrite Ho|done].
    rewrite Hi. by exists dws.
Qed.

(** *** A whole epoch *)

(** What emitting the jobs [ks] did. *)
Record emitted_plan (epoch : Z) (ks : list pipeline_job) (m m' : streamer) : Prop := {
  ep_address : addr_of m' = addr_of m;
  ep_wired : exists mans, wired_in_order (addr_of m) epoch (sr_jobs m) ks mans (sr_jobs m');
  ep_emitted : mg_emitted (sr_manager m') = mg_emitted (sr_manager m) ++ map (planned_id epoch) ks;
  ep_queued : forall id, dict_mem id (entries m') = dict_mem id (entries m) || bool_decide (id ∈ map (planned_id epoch) ks)
}.

Lemma dict_mem_set {V} k k' (v : V) d : dict_mem k (dict_set k' v d) = String.eqb k k' || dict_mem k d.
Proof. unfold dict_mem. rewrite dict_get_set. by destruct (String.eqb k k'). Qed.

Lemma run_planned epoch ks : forall (m m' : streamer) ys, mapS (fun f => f) (map (emit_planned epoch) ks) m = (m', Ok ys) ->
  emitted_plan epoch ks m m'.
Proof.
  induction ks as [|k ks IH]; intros m m' ys E; cbn [map mapS] in E.
  - injection E as <- _. split; [done|exists []; constructor|by rewrite app_nil_r|]. intros id. cbn. by rewrite orb_false_r.
  - apply st_bind_Ok in E as (m1 & man & E1 & E). apply st_bind_Ok in E as (m2 & ys' & E2 & E). injection E as <- _.
    apply emit_planned_wired in E1 as [[A1 A2 A3 (e & A4 & _)] Hw]. apply IH in E2 as [B1 (mans & B2) B3 B4]. rewrite A1, A2 in B2.
    split.
    + congruence.
    + exists (man :: mans). by econstructor.
    + rewrite B3, A3. cbn [map]. by rewrite <- app_assoc.
    + intros id. rewrite B4, A4, dict_mem_set. cbn [map]. rewrite (bool_decide_ext _ _ (elem_of_cons _ id (planned_id epoch k))).
      rewrite bool_decide_or.
      destruct (String.eqb id (planned_id epoch k)) eqn:Ek.
      * apply String.eqb_eq in Ek. rewrite (bool_decide_true (id = _)) by done. cbn. by rewrite orb_true_r.
      * apply String.eqb_neq in Ek. by rewrite (bool_decide_false (id = _)) by done.
Qed.

Lemma put_graphs_spec gs : forall (m m' : streamer) ys, mapS (put_stage_graph cfg) gs m = (m', Ok ys) ->
  addr_of m' = addr_of m /\ sr_jobs m' = sr_jobs m /\ mg_emitted (sr_manager m') = mg_emitted (sr_manager m) /\ entries m' = entries m.
Proof.
  induction gs as [|g gs IH]; intros m m' ys E; cbn [mapS] in E; [by injection E as <- _|].
  apply st_bind_Ok in E as (m1 & u & E1 & E). apply st_bind_Ok in E as (m2 & ys' & E2 & E). injection E as <- _.
  apply IH in E2 as (-> & -> & -> & ->). unfold put_stage_graph in E1. destruct g as [g|]; [|by injection E1 as <- _].
  apply st_bind_Ok in E1 as (m2' & uri & Eu & E1). apply address_inv in Eu as [-> ->].
  apply st_bind_Ok in E1 as (m2' & b & Eb & E1). unfold present, mg_do, bucket_do in Eb.
  pose proof (reads_exists (addr_of m (graph_key (sc_netuid cfg) (sc_run_id cfg) (Graph_graph_id g))) (mg_store (sr_manager m))) as Hr.
  destruct (os_exists _ _) as [s' r]. cbn in Hr. subst s'. injection Eb as <- ->.
  destruct b; [by injection E1 as <- _|]. unfold mg_do, bucket_do in E1. cbn [sr_manager mg_with_store mg_store] in E1.
  pose proof (stays_put (addr_of m (graph_key (sc_netuid cfg) (sc_run_id cfg) (Graph_graph_id g))) (Graph_to_canonical_json g)
    (mg_store (sr_manager m))) as Hp. destruct (os_put _ _ _) as [s' r]. by injection E1 as <- _.
Qed.

(** *** Properties *)

(** C31. Backpressure: however an epoch's emission ends, completed or cut short by
    an exception at any job, no hotkey's queue is deeper than before unless it
    is within the limit [max_inflight_per_hotkey], and the quota book stays
    well formed. *)
Theorem epoch_backpressure epoch forward_only m m' r : book_ok (mg_quota (sr_manager m)) ->
  StreamingRunManager_emit_epoch clock btcli_show cfg broker encryptor stages params epoch forward_only m = (m', r) ->
  book_ok (mg_quota (sr_manager m')) /\
  forall hotkey, (OrchestratorQueue_depth (mg_queue (sr_manager m')) (Some hotkey) <=
    Z.max (OrchestratorQueue_depth (mg_queue (sr_manager m)) (Some hotkey)) (sc_max_inflight_per_hotkey cfg))%Z.
Proof. intros Hb E. pose proof (throttling_epoch epoch forward_only m) as Ht. rewrite E in Ht. exact (Ht Hb). Qed.

(** C32. Dataflow of an epoch: when its emission completes, the jobs emitted are
    exactly those of the plan, in its order: every microbatch forward through
    every stage, and when training backward through the stages and into the new
    weights.  A forward job takes every declared input from the first output of
    the stage before it for the same microbatch; a backward job takes its
    activations from that output too, and its incoming gradient from the
    gradient output of the stage after it; a weight update takes the weight
    gradients of all microbatches of its stage and writes the weights the next
    epoch reads.  What a job reads was emitted before it, at the very address
    the earlier job writes to, and its manifest names the graph of its stage by
    content hash; each job is recorded and queued under its name, and nothing
    else is. *)
Theorem epoch_dataflow epoch forward_only m m' :
  StreamingRunManager_emit_epoch clock btcli_show cfg broker encryptor stages params epoch forward_only m = (m', Ok tt) ->
  let addr := os_uri_for_key (mg_store (sr_manager m)) in
  let ks := epoch_plan forward_only in
  let ids := map (planned_id epoch) ks in
  (exists mans, wired_in_order addr epoch (sr_jobs m) ks mans (sr_jobs m')) /\
  mg_emitted (sr_manager m') = mg_emitted (sr_manager m) ++ ids /\
  (forall id, dict_mem id (oq_outstanding (mg_queue (sr_manager m'))) =
     dict_mem id (oq_outstanding (mg_queue (sr_manager m))) || bool_decide (id ∈ ids)).
Proof.
  rewrite emit_epoch_planned. intros E. apply st_bind_Ok in E as (m1 & u & E1 & E). apply put_graphs_spec in E1 as (A1 & A2 & A3 & A4).
  unfold run_all in E. apply st_bind_Ok in E as (m2 & ys & E2 & E). injection E as <-. apply run_planned in E2 as [B1 B2 B3 B4].
  rewrite A1, A2 in B2. split_and!; [done|by rewrite B3, A3|]. intros id. by rewrite B4, A4.
Qed.
End facts.

(** *** An example: one microbatch through two stages, trained *)

#[local] Existing Instance no_signatures.

Definition pipe_graph : Graph := mkGraph [] [] [] [] 1.

Definition pipe_stage (s : Z) : PipelineStage :=
  mkStage s pipe_graph (Some pipe_graph) (Some pipe_graph) (if (s =? 0)%Z then [] else [("x", [1%Z], "float32")])
    [("x", [1%Z], "float32")] (Some "W") [1%Z] "float32" false true.

Definition pipe_stages : list PipelineStage := [pipe_stage 0; pipe_stage 1].

Definition pipe_params : StreamingParams := mkParams 2 1 1 [] [] 1200 true None (flit 1 (-2)) [] 0 [].

Definition pipe_cfg : StreamingRunConfig :=
  mkStreamingConfig 3 "run" "pipe_train" 1 "owner" None None "direct" 600 "" "dev" "" "bucket" None false fzero 0 0 true 0 fone 8.

Definition pipe_start : streamer LocalBucket :=
  mkStreamer (mkManager (LocalBucket_init "bk" 0)
    (QuotaBook_update_workers (QuotaBook_init (float_of_Z 16)) [mkMiner 3 "hk1" (Some 1%Z) None None []]
       [mkWorkerIdentity "hk1" "w0" "h" (Some 0%Z) "n" "" [] None []])
    (OrchestratorQueue_init 3 "run" "train" 100) None [] 0) [] fzero.

Definition pipe_epoch : ST (streamer LocalBucket) unit :=
  StreamingRunManager_emit_epoch (fun _ => fone) (fun _ _ _ => Err (RuntimeError "")) pipe_cfg None
    (dev_encryptor (DevAssignmentCrypto_init "")) pipe_stages pipe_params 0 false.

Lemma pipe_epoch_returns : snd (pipe_epoch pipe_start) = Ok tt.
Proof. vm_compute. reflexivity. Qed.

Lemma pipe_book_ok : book_ok (mg_quota (sr_manager pipe_start)).
Proof.
  apply book_ok_accounts. apply fold_ok; [intros; by apply add_worker_ok|]. apply fold_ok; [intros; by apply add_identity_ok|].
  split; [constructor|]. by intros k a.
Qed.

Lemma epoch_backpressure_witness : exists m', pipe_epoch pipe_start = (m', Ok tt) /\
  (OrchestratorQueue_depth (mg_queue (sr_manager m')) (Some "hk1") <= 8)%Z.
Proof.
  pose proof pipe_epoch_returns as Hr. destruct (pipe_epoch pipe_start) as [m' r] eqn:E. cbn in Hr. subst r. exists m'. split; [done|].
  pose proof (epoch_backpressure (fun _ => fone) (fun _ _ _ => Err (RuntimeError "")) pipe_cfg None (dev_encryptor (DevAssignmentCrypto_init ""))
    pipe_stages pipe_params 0 false pipe_start m' (Ok tt) pipe_book_ok) as H. unfold pipe_epoch in E. destruct (H E) as [_ Hd].
  specialize (Hd "hk1"). etransitivity; [exact Hd|]. vm_compute. done.
Defined.

Lemma epoch_dataflow_witness : exists m', pipe_epoch pipe_start = (m', Ok tt) /\
  mg_emitted (sr_manager m') =
    ["j-e0-s0-mb0-fwd"; "j-e0-s1-mb0-fwd"; "j-e0-s1-mb0-bwd"; "j-e0-s0-mb0-bwd"; "j-e0-s0-outer"; "j-e0-s1-outer"].
Proof.
  pose proof pipe_epoch_returns as Hr. destruct (pipe_epoch pipe_start) as [m' r] eqn:E. cbn in Hr. subst r. exists m'. split; [done|].
  pose proof (epoch_dataflow (fun _ => fone) (fun _ _ _ => Err (RuntimeError "")) pipe_cfg None (dev_encryptor (DevAssignmentCrypto_init ""))
    pipe_stages pipe_params 0 false pipe_start m') as H. unfold pipe_epoch in E. destruct (H E) as (_ & He & _).
  rewrite He. vm_compute. reflexivity.
Defined.
