(* ===== verification/StreamingWait.v ===== *)
(** * Waiting for an epoch

    What [wait_epoch] of the streaming run manager leaves behind: the quota of
    every job of the epoch is given back exactly once, whether the epoch
    completes or times out, and an epoch counts as complete only when its
    artifacts are in the bucket. *)

From Stdlib Require Import ZArith Lia Ascii.
From stdpp Require Import base strings list.
From S2P Require Import Prelude PyFloat PyVal Json Digest Paths Signatures Codec Protocol ProtocolFacts.
From S2P Require Import Storage StoreReads Telemetry Queue QueueFacts Transport Discovery Scheduler Crypto WalletCrypto Emission EmissionFacts Ir Mlp Streaming StreamingFacts.

(** ** Dictionaries split by their keys *)

Lemma filter_filter {A} (f g : A -> bool) l : List.filter f (List.filter g l) = List.filter (fun x => g x && f x) l.
Proof. induction l as [|x l IH]; cbn; [done|]. destruct (g x) eqn:Eg; cbn; [destruct (f x)|]; by rewrite IH. Qed.

Lemma filter_ext_elem {A} (f g : A -> bool) l : (forall x, x ∈ l -> f x = g x) -> List.filter f l = List.filter g l.
Proof.
  induction l as [|x l IH]; intros Hf; cbn; [done|]. rewrite Hf by left. rewrite IH; [done|]. intros y Hy. apply Hf. by right.
Qed.

Lemma filter_sublist {A} (f : A -> bool) l : List.filter f l `sublist_of` l.
Proof. induction l as [|x l IH]; cbn; [constructor|]. destruct (f x); by constructor. Qed.

(** A part of a dictionary and what its keys leave over make up the whole. *)
Lemma split_by_keys {V} (l d : dict V) : l `sublist_of` d -> NoDup (dict_keys d) ->
  l ++ List.filter (fun e => negb (bool_decide (e.1 ∈ dict_keys l))) d ≡ₚ d.
Proof.
  induction 1 as [|[k v] l d Hs IH|[k v] l d Hs IH]; intros Hn; [done| |].
  - cbn [dict_keys map fst] in *. apply NoDup_cons in Hn as [Hk Hn]. cbn [List.filter fst app].
    rewrite bool_decide_true by left. cbn [negb]. constructor. rewrite (filter_ext_elem _ (fun e => negb (bool_decide (e.1 ∈ dict_keys l)))).
    + exact (IH Hn).
    + intros e Hin. f_equal. apply bool_decide_ext. rewrite elem_of_cons. split; [|tauto]. intros [E|]; [|done]. destruct Hk.
      rewrite <- E. exact (list_elem_of_fmap_2 fst d e Hin).
  - cbn [dict_keys map fst] in Hn. apply NoDup_cons in Hn as [Hk Hn]. cbn [List.filter fst].
    rewrite bool_decide_false.
    + cbn [negb]. rewrite <- Permutation_middle. constructor. by apply IH.
    + intros Hin. apply Hk. unfold dict_keys in *. apply list_elem_of_fmap in Hin as (e & -> & Hin).
      apply list_elem_of_fmap_2. by eapply elem_of_sublist.
Qed.

Section facts.
Context {S : Type} `{OS : ObjectStore S} `{!ObjectStoreLaws S} `{SigLib}.
Context (clock : nat -> float) (env : nat -> S -> S) (flusher : nat -> option (Z * Z)) (spent : exn).
Context (cfg : StreamingRunConfig) (stages : list PipelineStage) (params : StreamingParams).
Notation streamer := (streamer S).

(** ** What the steps of a wait leave alone *)

(** Neither the jobs nor the quota book change; a calm step leaves the bucket,
    too. *)
Definition asleep (m m' : streamer) : Prop := sr_jobs m' = sr_jobs m /\ mg_quota (sr_manager m') = mg_quota (sr_manager m).
Definition calm (m m' : streamer) : Prop := asleep m m' /\ mg_store (sr_manager m') = mg_store (sr_manager m).

#[local] Instance asleep_preorder : PreOrder asleep.
Proof. split; [by split|]. intros x y z [] []. split; congruence. Qed.
#[local] Instance calm_preorder : PreOrder calm.
Proof. split; [by split|]. intros x y z [] []. split; [by etransitivity|congruence]. Qed.

Lemma calm_reads {A} (f : ST S A) : reads f -> within calm (mg_do (bucket_do f)).
Proof.
  intros Hf m. unfold mg_do, bucket_do. specialize (Hf (mg_store (sr_manager m))).
  destruct (f (mg_store (sr_manager m))) as [s r]. cbn in *. subst s. by repeat split.
Qed.
Lemma calm_address key : within calm (address key).
Proof. apply calm_reads, reads_uri. Qed.
Lemma calm_present uri : within calm (present uri).
Proof. apply calm_reads, reads_exists. Qed.
Lemma calm_now : within calm (now (S := S) clock).
Proof. by repeat split. Qed.
Lemma calm_queue {A} (f : OrchestratorQueue -> OrchestratorQueue * A) : within calm (queue_ask f).
Proof. intros m. unfold queue_ask. destruct (f (mg_queue (sr_manager m))). by repeat split. Qed.

Lemma reads_scan netuid run_id since limit : reads (scan_recent_receipt_job_ids (S := S) netuid run_id since limit).
Proof.
  intros s. unfold scan_recent_receipt_job_ids.
  pose proof (list_meta_reads (os_uri_for_key s (receipts_prefix netuid run_id)) s) as Hr.
  by destruct (os_list_with_meta _ s) as [s' [es|e]].
Qed.

Lemma calm_drain : within calm (StreamingRunManager_drain_queue_via_receipts (S := S) clock cfg).
Proof.
  apply within_bind; [exact _| |intros ids].
  { intros m. unfold finished_ids.
    apply (within_try calm _ (fun _ => mret [])); [apply calm_reads, reads_scan|intros; apply within_ret; exact _]. }
  apply within_bind; [exact _|destruct ids; [apply within_ret; exact _|apply calm_queue]|intros removed].
  apply within_bind; [exact _|apply calm_now|intros t]. apply within_bind; [exact _|apply calm_queue|intros expired].
  apply within_bind; [exact _|apply calm_now|intros t']. apply within_bind; [exact _|by repeat split|intros; apply within_ret; exact _].
Qed.

Lemma calm_complete epoch : within calm (epoch_complete (S := S) cfg stages params epoch).
Proof.
  assert (forall st, within calm (weights_there (S := S) cfg epoch st)) as Hw.
  { intros st. unfold weights_there. destruct (has_graph _); [|apply within_ret; exact _].
    apply within_bind; [exact _|apply calm_address|intros; apply calm_present]. }
  apply within_bind; [exact _| |intros done].
  { apply within_mapS; [exact _|]. intros mb _. apply within_bind; [exact _|apply calm_address|intros; apply calm_present]. }
  apply within_bind; [exact _| |intros; apply within_ret; exact _].
  destruct (sp_training params); [|apply within_ret; exact _]. by apply within_allS; [exact _|].
Qed.

Lemma calm_outputs man : within calm (StreamingRunManager_job_outputs_present (S := S) man).
Proof. apply within_try; [exact _|apply within_allS; [exact _|intros; apply calm_present]|intros; apply within_ret; exact _]. Qed.

Lemma asleep_rest : within asleep (rest (S := S) env flusher).
Proof.
  intros m. unfold rest, mg_do, sleep. destruct (flusher _) as [[now1 now2]|]; [|by split].
  by destruct (OrchestratorQueue_flush_loop_turn _ _ _) as [[q s'] r].
Qed.

(** ** Giving quota back *)

Definition releases (mans : list JobManifestV3) (b : QuotaBook) : QuotaBook :=
  fold_left (fun b man => QuotaBook_release b (jm_assigned_hotkey man) fone) mans b.

Definition with_quota (m : streamer) (b : QuotaBook) : streamer :=
  let g := sr_manager m in
  mkStreamer (mkManager (mg_store g) b (mg_queue g) (mg_resolver g) (mg_emitted g) (mg_readings g)) (sr_jobs m) (sr_cursor m).

Lemma release_job_does man (m : streamer) :
  release_job man m = (with_quota m (QuotaBook_release (mg_quota (sr_manager m)) (jm_assigned_hotkey man) fone), Ok tt).
Proof. done. Qed.

Lemma release_jobs mans : forall m : streamer, exists us,
  mapS release_job mans m = (with_quota m (releases mans (mg_quota (sr_manager m))), Ok us).
Proof.
  induction mans as [|man mans IH]; intros m; cbn [mapS].
  - exists []. destruct m as [[] ? ?]. done.
  - destruct (IH (with_quota m (QuotaBook_release (mg_quota (sr_manager m)) (jm_assigned_hotkey man) fone))) as [us Hus].
    exists (tt :: us). cbv [mbind st_bind]. rewrite release_job_does, Hus. done.
Qed.

Lemma release_rest_does epoch released (m : streamer) :
  release_rest epoch released m =
    (with_quota m (releases (dict_values (unreleased epoch released (sr_jobs m))) (mg_quota (sr_manager m))), Ok tt).
Proof.
  unfold release_rest. cbv [mbind st_bind get_jobs].
  destruct (release_jobs (dict_values (unreleased epoch released (sr_jobs m))) m) as [us ->]. done.
Qed.

(** The bucket answers whether an object is there, or raises something that is
    no timeout. *)
Definition no_timeouts : Prop := forall uri (s : S) e, snd (os_exists uri s) = Err e -> is_timeout e = false.

(** Releasing the jobs whose outputs are there: a part of the unreleased ones,
    each once. *)
Lemma release_present_spec epoch jobs : forall released (m m' : streamer) r,
  release_present epoch jobs released m = (m', r) -> NoDup (dict_keys jobs) ->
  exists l, l `sublist_of` unreleased epoch released jobs /\ sr_jobs m' = sr_jobs m /\ mg_store (sr_manager m') = mg_store (sr_manager m) /\
    mg_quota (sr_manager m') = releases (dict_values l) (mg_quota (sr_manager m)) /\
    (forall released', r = Ok released' -> released' = reverse (dict_keys l) ++ released) /\
    (forall e, r = Err e -> catchable e = false).
Proof.
  induction jobs as [|[id man] jobs IH]; intros released m m' r E Hn; cbn [release_present] in E.
  - injection E as <- <-. exists []. by split_and!; [constructor|..|intros ? [= <-]|].
  - cbn [dict_keys map fst] in Hn. apply NoDup_cons in Hn as [Hid Hn]. unfold unreleased. cbn [List.filter fst].
    assert (bool_decide (id ∈ released) || negb (of_epoch epoch id) = negb (negb (bool_decide (id ∈ released)) && of_epoch epoch id)) as Hc.
    { by destruct (bool_decide _), (of_epoch epoch id). }
    rewrite Hc in E. destruct (negb (bool_decide (id ∈ released)) && of_epoch epoch id); cbn [negb] in E; [|by apply IH].
    cbv [mbind st_bind] in E. pose proof (calm_outputs man m) as [[Cj Cq] Cs].
    assert (forall e, snd (StreamingRunManager_job_outputs_present man m) = Err e -> catchable e = false) as Hunc.
    { intros e. unfold StreamingRunManager_job_outputs_present, st_try.
      destruct (allS _ _ m) as [m1 [b|e']]; [done|]. destruct (catchable e') eqn:Ec; [done|]. by intros [= <-]. }
    destruct (StreamingRunManager_job_outputs_present man m) as [m1 [[|]|e]]; cbn [fst snd] in *.
    + rewrite release_job_does in E. apply IH in E as (l & L1 & L2 & L3 & L4 & L5 & L6); [|done]. exists ((id, man) :: l).
      assert (unreleased epoch (id :: released) jobs = unreleased epoch released jobs) as Hu.
      { apply filter_ext_elem. intros e He. do 2 f_equal. apply bool_decide_ext. rewrite elem_of_cons. split; [|tauto].
        intros [Ee|]; [|done]. destruct Hid. rewrite <- Ee. exact (list_elem_of_fmap_2 fst jobs e He). }
      rewrite Hu in L1. split_and!; [by constructor|by rewrite L2|by rewrite L3| | |done].
      * rewrite L4. cbn. by rewrite Cq.
      * intros released' Hr. rewrite (L5 _ Hr). cbn [dict_keys map fst]. by rewrite reverse_cons, <- app_assoc.
    + apply IH in E as (l & L1 & L2 & L3 & L4 & L5 & L6); [|done]. exists l. rewrite <- Cj, <- Cs, <- Cq. split_and!; try done. by constructor.
    + injection E as <- <-. exists []. split_and!; try done; [apply sublist_nil_l|]. intros e' [= <-]. by apply Hunc.
Qed.

Lemma unreleased_after epoch l released jobs : l `sublist_of` unreleased epoch released jobs -> NoDup (dict_keys jobs) ->
  l ++ unreleased epoch (reverse (dict_keys l) ++ released) jobs ≡ₚ unreleased epoch released jobs.
Proof.
  intros Hl Hn. etransitivity; [|apply (split_by_keys l (unreleased epoch released jobs)); [done|]].
  - match goal with |- ?x ≡ₚ ?y => assert (x = y) as ->; [|done] end. f_equal. unfold unreleased. rewrite filter_filter. apply filter_ext_elem. intros e _.
    rewrite (bool_decide_ext _ (e.1 ∈ dict_keys l \/ e.1 ∈ released)) by by rewrite elem_of_app, elem_of_reverse.
    rewrite bool_decide_or. by destruct (bool_decide (e.1 ∈ dict_keys l)), (bool_decide (e.1 ∈ released)), (of_epoch epoch e.1).
  - eapply sublist_NoDup; [exact Hn|]. unfold dict_keys, unreleased. apply (fmap_sublist fst), filter_sublist.
Qed.

Lemma releases_app l1 l2 b : releases (l1 ++ l2) b = releases l2 (releases l1 b).
Proof. apply fold_left_app. Qed.

(** ** Which errors a wait raises *)

Definition raises {A} (P : exn -> Prop) (f : ST streamer A) : Prop := forall m e, snd (f m) = Err e -> P e.

Lemma raises_bind {A B} P (f : ST streamer A) (k : A -> ST streamer B) : raises P f -> (forall a, raises P (k a)) -> raises P (f ≫= k).
Proof.
  intros Hf Hk m e. cbv [mbind st_bind]. specialize (Hf m). destruct (f m) as [m1 [a|e']]; [apply Hk|]. intros [= <-]. by apply Hf.
Qed.
Lemma raises_ret {A} P (a : A) : raises P (mret a).
Proof. by intros m e. Qed.
Lemma raises_mapS {A B} P (f : A -> ST streamer B) l : (forall x, raises P (f x)) -> raises P (mapS f l).
Proof.
  intros Hf. induction l as [|x l IH]; cbn [mapS]; [apply raises_ret|].
  apply raises_bind; [done|intros y]. apply raises_bind; [done|intros ys; apply raises_ret].
Qed.
Lemma raises_allS {A} P (f : A -> ST streamer bool) l : (forall x, raises P (f x)) -> raises P (allS f l).
Proof.
  intros Hf. induction l as [|x l IH]; cbn [allS]; [apply raises_ret|].
  apply raises_bind; [done|intros []]; [done|apply raises_ret].
Qed.

#[local] Abbreviation untimed := (fun e => is_timeout e = false).

Lemma raises_present uri : no_timeouts -> raises untimed (present uri).
Proof.
  intros Hn m e. unfold present, mg_do, bucket_do. specialize (Hn uri (mg_store (sr_manager m))).
  destruct (os_exists uri _) as [s r]. cbn in *. apply Hn.
Qed.

Lemma raises_address key P : raises P (address (S := S) key).
Proof. by intros m e. Qed.

Lemma raises_complete epoch : no_timeouts -> raises untimed (epoch_complete (S := S) cfg stages params epoch).
Proof.
  intros Hn. apply raises_bind.
  { apply raises_mapS. intros mb. apply raises_bind; [apply raises_address|intros; by apply raises_present]. }
  intros done. apply raises_bind; [|intros; apply raises_ret]. destruct (sp_training params); [|apply raises_ret].
  apply raises_allS. intros st. unfold weights_there. destruct (has_graph _); [|apply raises_ret].
  apply raises_bind; [apply raises_address|intros; by apply raises_present].
Qed.

Lemma raises_drain : raises untimed (StreamingRunManager_drain_queue_via_receipts (S := S) clock cfg).
Proof.
  apply raises_bind.
  { intros m e. unfold finished_ids, st_try. destruct (mg_do _ m) as [m1 [ids|e']]; [done|].
    destruct (catchable e') eqn:Ec; [done|]. intros [= <-]. by destruct e'. }
  assert (forall A (f : OrchestratorQueue -> OrchestratorQueue * A), raises untimed (queue_ask (S := S) f)) as Hq.
  { intros A f m e. unfold queue_ask. by destruct (f (mg_queue (sr_manager m))). }
  intros ids. apply raises_bind; [destruct ids; [apply raises_ret|apply Hq]|intros removed].
  apply raises_bind; [by intros m e|intros t]. apply raises_bind; [apply Hq|intros expired].
  apply raises_bind; [by intros m e|intros t']. apply raises_bind; [by intros m e|intros; apply raises_ret].
Qed.

(** ** Completion *)

(** The bucket holds what an epoch is to produce: the last output of every
    microbatch, and when training the new weights of every stage that has an
    outer graph. *)
Definition epoch_done (epoch : Z) (s : S) : Prop :=
  (forall mb, mb ∈ microbatches params ->
     os_exists (os_uri_for_key s (fwd_done_key (sc_run_id cfg) epoch (sp_n_stages params - 1) mb)) s = (s, Ok true)) /\
  (sp_training params = true -> forall stage, stage ∈ stages -> has_graph (pg_outer_graph stage) = true ->
     os_exists (weights_at cfg (os_uri_for_key s) (epoch + 1) stage) s = (s, Ok true)).

Lemma present_inv uri (m m' : streamer) b : present uri m = (m', Ok b) ->
  m' = m /\ os_exists uri (mg_store (sr_manager m)) = (mg_store (sr_manager m), Ok b).
Proof.
  unfold present, mg_do, bucket_do. pose proof (reads_exists uri (mg_store (sr_manager m))) as Hr.
  destruct (os_exists uri _) as [s r]. cbn in *. subst s. intros [= <- ->]. split; [|done]. by destruct m as [[] ? ?].
Qed.

Lemma all_true (l : list bool) : (Z.of_nat (length l) <= Z.of_nat (length (List.filter id l)))%Z -> Forall (fun b => b = true) l.
Proof.
  assert (length (List.filter id l) <= length l)%nat as Hle by apply List.filter_length_le.
  induction l as [|b l IH]; intros Hl; [constructor|].
  assert (length (List.filter id l) <= length l)%nat as Hle' by apply List.filter_length_le.
  destruct b; cbn in *; [constructor; [done|apply IH; lia]|lia].
Qed.

Lemma epoch_complete_inv epoch (m m' : streamer) : epoch_complete cfg stages params epoch m = (m', Ok true) ->
  m' = m /\ epoch_done epoch (mg_store (sr_manager m)).
Proof.
  intros E. unfold epoch_complete in E. apply st_bind_Ok in E as (m1 & done & E1 & E). apply st_bind_Ok in E as (m2 & outer & E2 & E).
  injection E as <- Hb. apply andb_true_iff in Hb as [Hlen ->]. apply Z.leb_le in Hlen.
  apply (mapS_inv _ (fun mb b => os_exists (os_uri_for_key (mg_store (sr_manager m)) (fwd_done_key (sc_run_id cfg) epoch (sp_n_stages params - 1) mb))
    (mg_store (sr_manager m)) = (mg_store (sr_manager m), Ok b))) in E1 as [-> Hd].
  2:{ intros mb m3 b Eb. apply st_bind_Ok in Eb as (m4 & u & Eu & Eb). apply address_inv in Eu as [-> ->]. by apply present_inv in Eb. }
  assert (Forall (fun b => b = true) done) as Hall.
  { apply all_true. apply Forall2_length in Hd. unfold microbatches, py_range in Hd. rewrite length_map, length_seq in Hd. lia. }
  assert (m2 = m /\ (sp_training params = true -> forall stage, stage ∈ stages -> has_graph (pg_outer_graph stage) = true ->
    os_exists (weights_at cfg (os_uri_for_key (mg_store (sr_manager m))) (epoch + 1) stage) (mg_store (sr_manager m)) =
      (mg_store (sr_manager m), Ok true))) as [-> Hw].
  { clear Hlen Hd Hall. destruct (sp_training params); [|by injection E2 as <-].
    revert E2. generalize stages. intros l. induction l as [|st l IH]; cbn [allS]; intros E2.
    - injection E2 as <-. split; [done|]. intros _ stage Hin. by apply elem_of_nil in Hin.
    - apply st_bind_Ok in E2 as (m3 & b & Eb & E2). destruct b; [|discriminate E2].
      assert (m3 = m /\ (has_graph (pg_outer_graph st) = true ->
        os_exists (weights_at cfg (os_uri_for_key (mg_store (sr_manager m))) (epoch + 1) st) (mg_store (sr_manager m)) =
          (mg_store (sr_manager m), Ok true))) as [-> Hst].
      { unfold weights_there in Eb. destruct (has_graph _); [|by injection Eb as <-].
        apply st_bind_Ok in Eb as (m4 & u & Eu & Eb). unfold epoch_weights_uri in Eu. apply address_inv in Eu as [-> ->].
        by apply present_inv in Eb as [-> Eb]. }
      destruct (IH E2) as [-> Hl]. split; [done|]. intros _ stage [->|Hin]%elem_of_cons; [done|by apply Hl]. }
  split; [done|]. split; [|done]. intros mb Hmb.
  clear -Hd Hall Hmb. revert Hall. induction Hd as [|mb' b mbs bs Hb _ IH]; intros Hall; [by apply elem_of_nil in Hmb|].
  apply Forall_cons in Hall as [-> Hall]. apply elem_of_cons in Hmb as [->|Hmb]; [done|by apply IH].
Qed.

(** ** The loop *)

Lemma within_apart {A} (R : streamer -> streamer -> Prop) (f : ST streamer A) m m' r : within R f -> f m = (m', r) -> R m m'.
Proof. intros Hf E. specialize (Hf m). by rewrite E in Hf. Qed.

Lemma quota_with_quota m b : mg_quota (sr_manager (with_quota m b)) = b.
Proof. done. Qed.

Lemma release_rest_spec epoch released (m m' : streamer) r : release_rest epoch released m = (m', r) ->
  r = Ok tt /\ sr_jobs m' = sr_jobs m /\ mg_store (sr_manager m') = mg_store (sr_manager m) /\
  mg_quota (sr_manager m') = releases (dict_values (unreleased epoch released (sr_jobs m))) (mg_quota (sr_manager m)).
Proof. rewrite release_rest_does. by intros [= <- <-]. Qed.

(** What a wait gave back, of the jobs [due]: some of them, all of them when it
    returned or timed out. *)
Record gave_back (epoch : Z) (due : dict JobManifestV3) (m m' : streamer) (r : result unit) : Prop := {
  gb_jobs : sr_jobs m' = sr_jobs m;
  gb_quota : exists given_back kept, given_back ++ kept ≡ₚ due /\
    mg_quota (sr_manager m') = releases (dict_values given_back) (mg_quota (sr_manager m)) /\
    (r = Ok tt -> kept = [] /\ epoch_done epoch (mg_store (sr_manager m'))) /\
    (forall e, r = Err e -> is_timeout e = true -> kept = [])
}.

Lemma gave_nothing epoch due (m m' : streamer) e : asleep m m' -> is_timeout e = false -> gave_back epoch due m m' (Err e).
Proof.
  intros [Hj Hq] He. split; [done|]. exists [], due. split_and!; [done..|]. intros e' [= <-] Ht. congruence.
Qed.

(** A step that sleeps before, and one that gives back before. *)
Lemma gave_asleep epoch due (m m1 m' : streamer) r : asleep m m1 -> gave_back epoch due m1 m' r -> gave_back epoch due m m' r.
Proof. intros [Hj Hq] [Gj Gq]. split; [congruence|]. by rewrite <- Hq. Qed.

Lemma gave_more epoch l due due' (m m1 m' : streamer) r : l ++ due' ≡ₚ due -> sr_jobs m1 = sr_jobs m ->
  mg_quota (sr_manager m1) = releases (dict_values l) (mg_quota (sr_manager m)) ->
  gave_back epoch due' m1 m' r -> gave_back epoch due m m' r.
Proof.
  intros Hp Hj Hq [Gj (g & k & G1 & G2 & G3 & G4)]. split; [congruence|]. exists (l ++ g), k. split_and!; [|..|done|done].
  - by rewrite <- app_assoc, G1.
  - unfold dict_values in *. by rewrite map_app, releases_app, G2, Hq.
Qed.

(** The end of a wait that found everything. *)
Lemma finish_gives epoch released (m m' : streamer) r :
  (let '(m1, x) := release_rest epoch released m in
   match x with
   | Ok _ => let '(m2, y) := StreamingRunManager_drain_queue_via_receipts clock cfg m1 in
             match y with Ok _ => (m2, Ok tt) | Err e => (m2, Err e) end
   | Err e => (m1, Err e)
   end) = (m', r) ->
  epoch_done epoch (mg_store (sr_manager m)) -> gave_back epoch (unreleased epoch released (sr_jobs m)) m m' r.
Proof.
  intros E Hdone. destruct (release_rest epoch released m) as [m1 x] eqn:E1. apply release_rest_spec in E1 as (-> & R1 & R2 & R3).
  destruct (StreamingRunManager_drain_queue_via_receipts clock cfg m1) as [m2 [n|e]] eqn:E2.
  - injection E as <- <-. apply (within_apart calm) in E2 as [[J2 Q2] S2]; [|apply calm_drain]. split; [congruence|].
    exists (unreleased epoch released (sr_jobs m)), []. rewrite app_nil_r, Q2, S2, R2. by split_and!.
  - injection E as <- <-. assert (is_timeout e = false) as He by (apply (raises_drain m1); by rewrite E2).
    apply (within_apart calm) in E2 as [[J2 Q2] S2]; [|apply calm_drain]. split; [congruence|].
    exists (unreleased epoch released (sr_jobs m)), []. rewrite app_nil_r, Q2. by split_and!.
Qed.

Lemma wait_loop_gives fuel : forall epoch deadline released (m m' : streamer) r,
  wait_epoch_loop clock env flusher spent cfg stages params fuel epoch deadline released m = (m', r) ->
  no_timeouts -> is_timeout spent = false -> NoDup (dict_keys (sr_jobs m)) ->
  gave_back epoch (unreleased epoch released (sr_jobs m)) m m' r.
Proof.
  induction fuel as [|fuel IH]; intros epoch deadline released m m' r E Hb Hs Hn; cbn [wait_epoch_loop] in E.
  { injection E as <- <-. by apply gave_nothing. }
  cbv [mbind st_bind] in E. destruct (now clock m) as [m1 [t|e]] eqn:E1; [|discriminate E1].
  apply (within_apart calm) in E1 as [A1 _]; [|apply calm_now]. eapply gave_asleep; [exact A1|]. destruct A1 as [J1 _]. rewrite <- J1 in Hn |- *.
  clear J1 m. rename m1 into m. destruct (fltb t deadline).
  2:{ destruct (release_rest epoch released m) as [m2 r2] eqn:E2. apply release_rest_spec in E2 as (-> & R1 & R2 & R3).
      injection E as <- <-. split; [done|]. exists (unreleased epoch released (sr_jobs m)), []. by rewrite app_nil_r. }
  destruct (StreamingRunManager_drain_queue_via_receipts clock cfg m) as [m2 [n|e]] eqn:E2.
  2:{ injection E as <- <-. apply gave_nothing; [by apply (within_apart calm) in E2 as [A2 _]; [|apply calm_drain]|].
      apply (raises_drain m). by rewrite E2. }
  apply (within_apart calm) in E2 as [A2 _]; [|apply calm_drain]. eapply gave_asleep; [exact A2|]. destruct A2 as [J2 _]. rewrite <- J2 in Hn |- *.
  clear J2 m. rename m2 into m. destruct (epoch_complete cfg stages params epoch m) as [m3 [complete|e]] eqn:E3.
  2:{ injection E as <- <-. apply gave_nothing; [by apply (within_apart calm) in E3 as [A3 _]; [|apply calm_complete]|].
      apply (raises_complete epoch Hb m). by rewrite E3. }
  assert (complete = true -> epoch_done epoch (mg_store (sr_manager m3))) as Hdone.
  { intros ->. by apply epoch_complete_inv in E3 as [-> Hd]. }
  apply (within_apart calm) in E3 as [A3 _]; [|apply calm_complete]. eapply gave_asleep; [exact A3|]. destruct A3 as [J3 _]. rewrite <- J3 in Hn |- *.
  clear J3 m. rename m3 into m. unfold release_finished, get_jobs in E. cbv [mbind st_bind] in E.
  destruct (release_present epoch (sr_jobs m) released m) as [m4 [released'|e]] eqn:E4.
  2:{ injection E as <- <-. apply release_present_spec in E4 as (l & L1 & L2 & L3 & L4 & _ & L6); [|done].
      eapply gave_more; [by apply unreleased_after|done|exact L4|]. apply gave_nothing; [reflexivity|].
      specialize (L6 e eq_refl). by destruct e. }
  apply release_present_spec in E4 as (l & L1 & L2 & L3 & L4 & L5 & _); [|done]. specialize (L5 _ eq_refl).
  eapply gave_more; [by apply unreleased_after|exact L2|exact L4|]. rewrite <- L5, <- L2. destruct complete.
  - apply (finish_gives epoch released' _ _ _ E). rewrite L3. by apply Hdone.
  - destruct (rest env flusher m4) as [m5 [u|e]] eqn:E5.
    + apply (within_apart asleep) in E5 as A5; [|apply asleep_rest]. eapply gave_asleep; [exact A5|]. destruct A5 as [J5 _].
      rewrite <- J5. apply (IH epoch deadline); try done. by rewrite J5, L2.
    + exfalso. unfold rest, mg_do, sleep in E5. destruct (flusher _) as [[now1 now2]|]; [|done].
      by destruct (OrchestratorQueue_flush_loop_turn _ _ _) as [[q s'] r'].
Qed.

(** C34. Waiting for an epoch gives back its quota exactly once: whatever other
    processes do meanwhile, a wait that returns, and one that times out, has
    released the reservation of each job of the epoch once and of no other
    job, be it early because its outputs appeared or at the end.  A wait
    returns only when the bucket holds the last output of every microbatch and,
    when training, the new weights of every stage that updates them.  A wait
    cut short by any other error has released some jobs of the epoch, none
    twice.  The jobs recorded stay. *)
Theorem epoch_quota_returned fuel epoch deadline (m m' : streamer) r :
  StreamingRunManager_wait_epoch clock env flusher spent cfg stages params fuel epoch deadline m = (m', r) ->
  no_timeouts -> is_timeout spent = false -> NoDup (dict_keys (sr_jobs m)) ->
  sr_jobs m' = sr_jobs m /\
  exists given_back kept,
    given_back ++ kept ≡ₚ List.filter (fun e => of_epoch epoch e.1) (sr_jobs m) /\
    mg_quota (sr_manager m') = releases (dict_values given_back) (mg_quota (sr_manager m)) /\
    (r = Ok tt -> kept = [] /\ epoch_done epoch (mg_store (sr_manager m'))) /\
    (forall e, r = Err e -> is_timeout e = true -> kept = []).
Proof. intros E Hb Hs Hn. by destruct (wait_loop_gives _ _ _ _ _ _ _ E Hb Hs Hn) as [Hj Hq]. Qed.
End facts.

(** ** An example: the epoch of [pipe_start], once its artifacts are there *)

#[local] Existing Instance no_signatures.

Definition pipe_artifacts : list string :=
  [fwd_done_key "run" 0 1 0; epoch_weights_key "run" 1 0; epoch_weights_key "run" 1 1].

Definition deliver (s : LocalBucket) (key : string) : LocalBucket := fst (os_put (os_uri_for_key s key) "data" s).

(** Another process delivers while the manager sleeps. *)
Definition pipe_env (_ : nat) (s : LocalBucket) : LocalBucket := fold_left deliver pipe_artifacts s.

Definition pipe_wait : ST (streamer LocalBucket) unit :=
  StreamingRunManager_wait_epoch (fun _ => fone) pipe_env (fun _ => None) OutOfFuel pipe_cfg pipe_stages pipe_params 3 0 (float_of_Z 9).

Definition pipe_emitted : streamer LocalBucket := fst (pipe_epoch pipe_start).

Lemma pipe_wait_returns : snd (pipe_wait pipe_emitted) = Ok tt /\ length (sr_jobs pipe_emitted) = 6%nat /\
  bool_decide (NoDup (dict_keys (sr_jobs pipe_emitted))) = true /\
  forallb (fun e => of_epoch 0 e.1) (sr_jobs pipe_emitted) = true.
Proof. vm_compute. done. Qed.

Lemma local_no_timeouts : @no_timeouts LocalBucket _.
Proof.
  intros uri s e He. change (snd (LocalBucket_exists uri s) = Err e) in He. unfold LocalBucket_exists in He. cbn [snd] in He.
  destruct (LocalBucket_path_for_uri uri) as [p|e'] eqn:Ep; [discriminate He|]. injection He as <-.
  unfold LocalBucket_path_for_uri in Ep. destruct (parse_uri uri) as [[b k]|e''] eqn:Eu.
  - cbn [mbind result_bind fst snd] in Ep. destruct (path_ok _); [discriminate Ep|]. by injection Ep as <-.
  - injection Ep as <-. unfold parse_uri in Eu. repeat case_match; try discriminate Eu; by injection Eu as <-.
Qed.

Lemma epoch_quota_returned_witness : exists m' given_back, pipe_wait pipe_emitted = (m', Ok tt) /\
  given_back ≡ₚ sr_jobs pipe_emitted /\ length given_back = 6%nat /\
  mg_quota (sr_manager m') = releases (dict_values given_back) (mg_quota (sr_manager pipe_emitted)) /\
  epoch_done pipe_cfg pipe_stages pipe_params 0 (mg_store (sr_manager m')).
Proof.
  destruct pipe_wait_returns as (Hr & Hl & Hn & Hall). destruct (pipe_wait pipe_emitted) as [m' r] eqn:E. cbn [snd] in Hr. subst r.
  exists m'. pose proof (epoch_quota_returned (fun _ => fone) pipe_env (fun _ => None) OutOfFuel pipe_cfg pipe_stages pipe_params 3 0 (float_of_Z 9)
    pipe_emitted m' (Ok tt)) as H. unfold pipe_wait in E.
  destruct (H E local_no_timeouts eq_refl (proj1 (bool_decide_eq_true _) Hn)) as (_ & g & k & Hp & Hq & Hok & _).
  destruct (Hok eq_refl) as [-> Hd]. rewrite app_nil_r in Hp. exists g.
  assert (List.filter (fun e => of_epoch 0 e.1) (sr_jobs pipe_emitted) = sr_jobs pipe_emitted) as Hf.
  { clear -Hall. induction (sr_jobs pipe_emitted) as [|e l IH]; [done|]. cbn in *. apply andb_true_iff in Hall as [He Hl]. by rewrite He, IH. }
  rewrite Hf in Hp. split; [done|]. split; [done|]. split; [by rewrite Hp, Hl|]. by split.
Defined.
