(* ===== verification/Eval.v ===== *)
(** * The graph evaluator ([teuton_runtime/eval.py])

    The interpreter of tensor graphs: checks of inputs and parameters, the
    resolution of references, the loop over the operations and the collection
    of outputs.  The table of operations is computed; what an entry does with
    its tensors is one expression of the tensor library, so the entries are the
    field [kernel] of the class [Kernels]. *)

From Stdlib Require Import ZArith Lia Ascii.
From stdpp Require Import base strings list.
From S2P Require Import Prelude PyFloat PyVal Json Digest Paths Signatures Codec Protocol ProtocolFacts.
From S2P Require Import Storage Transport Ir ComputeUnits Tensors.

(** ** Values *)

(** What a reference stands for: a tensor, or a plain Python value. *)
Inductive value `{Torch} : Type :=
  | VPy (v : pyval)
  | VTensor (t : tensor).

(** What an operation leaves: nothing yet, one tensor, or a tuple. *)
Inductive op_value `{Torch} : Type :=
  | RNone
  | ROne (t : tensor)
  | RMany (ts : list tensor).

Definition op_result `{Torch} (r : tensor + list tensor) : op_value :=
  match r with inl t => ROne t | inr ts => RMany ts end.

(** [torch_device]: the device a name stands for, [None] for a missing
    accelerator.  [kernel device op args kwargs]: the entry for [op]. *)
Class Kernels `{Torch} := {
  torch_device : string -> result (option string);
  kernel : option string -> string -> list tensor -> dict value -> result (tensor + list tensor);
  t_contiguous : tensor -> tensor;
  t_host : tensor -> tensor
}.

(** The operations of the table. *)
Definition DISPATCH : list string :=
  ["add"; "sub"; "mul"; "div"; "pow"; "neg"; "exp"; "log"; "sqrt"; "abs"; "round"; "relu"; "gelu"; "silu"; "sin";
   "cos"; "sigmoid"; "tanh"; "identity"; "sign"; "clamp"; "where"; "cast"; "gt"; "lt"; "ge"; "le"; "eq"; "matmul";
   "transpose"; "reshape"; "einsum"; "sum"; "mean"; "max"; "min"; "concat"; "stack"; "split"; "broadcast";
   "squeeze"; "unsqueeze"; "slice"; "gather"; "scatter"; "arange"; "normal"; "uniform"; "sort"; "topk"; "softmax";
   "log_softmax"; "layer_norm"; "rmsnorm"; "cross_entropy"; "embedding"; "tril"; "triu"; "full"; "data_indexer";
   "quantize_int8_per_channel"; "dequantize_int8_per_channel"; "quantize_pack_int8"; "unpack_dequantize_int8"; "qr"].

Definition ref_kinds : list string := ["input"; "op"; "param"; "const"; "const_blob"].

(** A list in a membership test is not hashable. *)
Definition is_ref_dict (v : pyval) : result bool :=
  match v with
  | PDict d =>
      match get d "kind" with
      | PStr k => Ok (bool_decide (k ∈ ref_kinds))
      | PList _ | PDict _ => Err (TypeError "unhashable type")
      | _ => Ok false
      end
  | _ => Ok false
  end.

Section eval.
Context {S : Type} `{ObjectStore S} `{Torch} `{!Kernels}.

(** The bucket, and the blobs already read by this call. *)
Record eval_state := mkEvalState { es_store : S; es_blobs : dict tensor }.

Definition eval_read {A} (m : ST S A) : ST eval_state A := fun st =>
  let '(s, r) := m (es_store st) in (mkEvalState s (es_blobs st), r).

Definition keep_blob (uri : string) (t : tensor) : ST eval_state unit := fun st =>
  (mkEvalState (es_store st) (dict_set uri t (es_blobs st)), Ok tt).

(** The device in force; moving to the device a tensor is on changes nothing. *)
Definition move (dev : option string) (t : tensor) : result tensor :=
  match dev with Some d => to_device d t | None => Ok t end.

(** ** References *)

Definition read_op_result (op_results : list op_value) (op_id idx : Z) : result value :=
  r ← py_at op_results op_id;
  match r with
  | RMany ts => t ← py_at ts idx; Ok (VTensor t)
  | ROne t =>
      if (idx =? 0)%Z then Ok (VTensor t)
      else Err (IndexError ("op " +:+ py_str_int op_id +:+ " produced single output but idx=" +:+ py_str_int idx))
  | RNone =>
      if (idx =? 0)%Z then Ok (VPy PNone)
      else Err (IndexError ("op " +:+ py_str_int op_id +:+ " produced single output but idx=" +:+ py_str_int idx))
  end.

(** The shape and element type a reference to a blob declares. *)
Definition check_blob (uri : string) (r : dict pyval) (t : tensor) : result unit :=
  shape ← (if truthy (get r "shape") then ints_of (get r "shape") else Ok []);
  if negb (bool_decide (shape = [])) && negb (bool_decide (t_shape t = shape)) then
    Err (ValueError ("const_blob " +:+ repr_str uri +:+ ": shape " +:+ ints_repr (t_shape t) +:+ " != declared "
      +:+ ints_repr shape))
  else if truthy (get r "dtype") then
    wd ← wire_dtype t;
    if is_text wd (get r "dtype") then Ok tt
    else Err (TypeError ("const_blob " +:+ repr_str uri +:+ ": dtype mismatch"))
  else Ok tt.

Definition resolve_blob (dev : option string) (uri : string) (r : dict pyval) : ST eval_state value :=
  st ← st_get;
  match dict_get uri (es_blobs st) with
  | Some t => mret (VTensor t)
  | None =>
      body ← eval_read (os_get uri);
      t ← st_lift (decode_tensor body);
      _ ← st_lift (check_blob uri r t);
      t ← st_lift (move dev t);
      _ ← keep_blob uri t;
      mret (VTensor t)
  end.

Definition resolve_ref (dev : option string) (r : dict pyval) (inputs : dict tensor) (params : dict pyval)
    (op_results : list op_value) : ST eval_state value :=
  kind ← st_lift (item r "kind");
  if is_text "input" kind then
    name ← st_lift (req_str r "name");
    st_lift (of_option (KeyError ("missing graph input: " +:+ repr_str name)) (VTensor <$> dict_get name inputs))
  else if is_text "op" kind then
    op_id ← st_lift (item r "id" ≫= py_int);
    idx ← st_lift (py_int (get_or r "idx" (PInt 0)));
    st_lift (read_op_result op_results op_id idx)
  else if is_text "param" kind then
    name ← st_lift (req_str r "name");
    st_lift (of_option (KeyError ("missing param: " +:+ repr_str name)) (VPy <$> dict_get name params))
  else if is_text "const" kind then
    v ← st_lift (item r "value"); mret (VPy v)
  else if is_text "const_blob" kind then
    uri ← st_lift (req_str r "uri"); resolve_blob dev uri r
  else st_raise (ValueError "unknown ref kind").

Definition resolve_kwarg (dev : option string) (inputs : dict tensor) (params : dict pyval)
    (op_results : list op_value) (kv : string * pyval) : ST eval_state (string * value) :=
  isref ← st_lift (is_ref_dict kv.2);
  match kv.2, (isref : bool) with
  | PDict r, true => v ← resolve_ref dev r inputs params op_results; mret (kv.1, v)
  | v, _ => mret (kv.1, VPy v)
  end.

Definition resolve_kwargs (dev : option string) (kwargs : dict pyval) (inputs : dict tensor)
    (params : dict pyval) (op_results : list op_value) : ST eval_state (dict value) :=
  mapS (resolve_kwarg dev inputs params op_results) kwargs.

Definition as_tensor_value (v : value) : result tensor :=
  match v with VTensor t => Ok t | VPy p => as_tensor p end.

(** ** Evaluation *)

(** [len(declared) != len(actual) or any(d != -1 and d != a ...)]. *)
Definition shape_matches (declared actual : list Z) : bool :=
  bool_decide (length declared = length actual) &&
  forallb (fun '(d, a) => (d =? -1)%Z || (d =? a)%Z) (zip declared actual).

Fixpoint check_inputs (dev : option string) (specs : list TensorSpec) (inputs : dict tensor)
    : result (dict tensor) :=
  match specs with
  | [] => Ok inputs
  | spec :: specs' =>
      v ← of_option (KeyError ("missing input tensor: " +:+ repr_str (ts_name spec))) (dict_get (ts_name spec) inputs);
      wd ← wire_dtype v;
      if negb (String.eqb wd (ts_dtype spec)) then
        Err (TypeError ("input " +:+ repr_str (ts_name spec) +:+ ": dtype " +:+ repr_str wd +:+ " != declared "
          +:+ repr_str (ts_dtype spec)))
      else if negb (shape_matches (ts_shape spec) (t_shape v)) then
        Err (ValueError ("input " +:+ repr_str (ts_name spec) +:+ ": shape " +:+ ints_repr (t_shape v)
          +:+ " != declared " +:+ ints_repr (ts_shape spec)))
      else
        v' ← move dev v;
        check_inputs dev specs' (dict_set (ts_name spec) v' inputs)
  end.

Fixpoint check_params (specs : list ParamSpec) (params : dict pyval) : result unit :=
  match specs with
  | [] => Ok tt
  | spec :: specs' =>
      if dict_mem (ps_name spec) params then check_params specs' params
      else Err (KeyError ("missing param: " +:+ repr_str (ps_name spec)))
  end.

Definition run_op (dev : option string) (inputs : dict tensor) (params : dict pyval)
    (op_results : list op_value) (o : Op) : ST eval_state (list op_value) :=
  if negb (bool_decide (op_op o ∈ DISPATCH)) then
    st_raise (KeyError ("evaluator missing op: " +:+ repr_str (op_op o)))
  else
    refs ← mapS (fun r => resolve_ref dev r inputs params op_results) (op_args o);
    args ← st_lift (mapR as_tensor_value refs);
    args ← st_lift (mapR (move dev) args);
    kwargs ← resolve_kwargs dev (op_kwargs o) inputs params op_results;
    out ← st_lift (kernel dev (op_op o) args kwargs);
    st_lift (py_set op_results (op_id o) (op_result out)).

Fixpoint run_ops (dev : option string) (inputs : dict tensor) (params : dict pyval) (ops : list Op)
    (op_results : list op_value) : ST eval_state (list op_value) :=
  match ops with
  | [] => mret op_results
  | o :: ops' =>
      op_results' ← run_op dev inputs params op_results o;
      run_ops dev inputs params ops' op_results'
  end.

Fixpoint collect_outputs (dev : option string) (inputs : dict tensor) (params : dict pyval)
    (op_results : list op_value) (refs : list (string * ref)) (outputs : dict tensor)
    : ST eval_state (dict tensor) :=
  match refs with
  | [] => mret outputs
  | (name, r) :: refs' =>
      v ← resolve_ref dev r inputs params op_results;
      t ← st_lift (as_tensor_value v);
      let t := match dev with Some _ => t_host t | None => t end in
      collect_outputs dev inputs params op_results refs' (dict_set name (t_contiguous t) outputs)
  end.

Definition eval_body (dev : option string) (g : Graph) (inputs : dict tensor) (params : dict pyval)
    : ST eval_state (dict tensor) :=
  inputs ← st_lift (check_inputs dev (g_inputs g) inputs);
  _ ← st_lift (check_params (g_params g) params);
  op_results ← run_ops dev inputs params (g_ops g) (repeat RNone (length (g_ops g)));
  collect_outputs dev inputs params op_results (g_outputs g) [].

Definition evaluate (g : Graph) (inputs : dict tensor) (params : dict pyval) (device : option string)
    : ST S (dict tensor) := fun s =>
  match (match device with Some d => torch_device d | None => Ok None end) with
  | Err e => (s, Err e)
  | Ok dev =>
      let '(st, r) := eval_body dev g inputs params (mkEvalState s []) in (es_store st, r)
  end.
End eval.

(** ** Well-scoped graphs *)

(** A reference in the scope of operation number [n]: an input or parameter the
    graph declares, an earlier operation, a constant or a blob. *)
Inductive ref_scoped (g : Graph) (n : nat) : dict pyval -> Prop :=
  | scoped_input name : name ∈ map ts_name (g_inputs g) -> ref_scoped g n (ref_input name)
  | scoped_op id idx : (0 <= id < Z.of_nat n)%Z -> ref_scoped g n (ref_op id idx)
  | scoped_param name : name ∈ map ps_name (g_params g) -> ref_scoped g n (ref_param name)
  | scoped_const v : ref_scoped g n (ref_const v)
  | scoped_blob uri shape dt : ref_scoped g n (ref_const_blob uri shape dt).

(** A keyword argument: a plain value, or a reference in scope. *)
Definition kwarg_scoped (g : Graph) (n : nat) (v : pyval) : Prop :=
  is_ref_dict v = Ok false \/ exists r, v = PDict r /\ is_ref_dict v = Ok true /\ ref_scoped g n r.

Definition op_scoped (g : Graph) (n : nat) (o : Op) : Prop :=
  Forall (ref_scoped g n) (op_args o) /\ Forall (fun kv => kwarg_scoped g n kv.2) (op_kwargs o).

Record graph_scoped (g : Graph) : Prop := {
  scoped_ops : forall i o, g_ops g !! i = Some o -> op_scoped g i o;
  scoped_outputs : Forall (fun o => ref_scoped g (length (g_ops g)) o.2) (g_outputs g)
}.

Lemma dict_keys_set_elem {V} k (v : V) d x : x ∈ dict_keys (dict_set k v d) <-> x ∈ dict_keys d \/ x = k.
Proof.
  rewrite dict_keys_set. unfold dict_mem. destruct (dict_get k d) eqn:E.
  - split; [by left|]. intros [?| ->]; [done|by eapply dict_get_Some_key].
  - by rewrite elem_of_app, list_elem_of_singleton.
Qed.

(** Every operation that can be registered in a graph has a kernel. *)
Lemma registered_dispatched op sig : dict_get op REGISTRY = Some sig -> op ∈ DISPATCH.
Proof.
  intros Hop. apply dict_get_Some_key in Hop. revert Hop.
  assert (Forall (fun k => k ∈ DISPATCH) (dict_keys REGISTRY)) as Hall.
  { apply (bool_decide_unpack _). vm_compute. exact I. }
  rewrite Forall_forall in Hall. apply Hall.
Qed.

Section safety.
Context {S : Type} `{ObjectStore S} `{Torch} `{!Kernels}.

(** The declared inputs and parameters are there and have their types. *)
Definition inputs_fit (g : Graph) (inputs : dict tensor) : Prop :=
  forall spec, spec ∈ g_inputs g -> exists t, dict_get (ts_name spec) inputs = Some t /\
    wire_dtype t = Ok (ts_dtype spec) /\ shape_matches (ts_shape spec) (t_shape t) = true.

Definition params_fit (g : Graph) (params : dict pyval) : Prop :=
  forall spec, spec ∈ g_params g -> dict_mem (ps_name spec) params = true.

(** Errors that the tensor library or the bucket raise: a kernel, a conversion,
    a device, a blob, or asking an operation for a result it does not have. *)
Inductive library_error (e : exn) : Prop :=
  | from_kernel dev op args kw : op ∈ DISPATCH -> kernel dev op args kw = Err e -> library_error e
  | from_conversion v : as_tensor v = Err e -> library_error e
  | from_device d t : to_device d t = Err e -> library_error e
  | from_device_name d : torch_device d = Err e -> library_error e
  | from_blob_read uri (s : S) : snd (os_get uri s) = Err e -> library_error e
  | from_blob body : decode_tensor body = Err e -> library_error e
  | from_blob_check uri r t : check_blob uri r t = Err e -> library_error e
  | from_result r l id idx : r <> RNone -> py_at l id = Ok r -> read_op_result l id idx = Err e -> library_error e.

(** [safe m P]: [m] returns a value with [P], or fails in the library. *)
Definition safe {St A} (m : ST St A) (P : A -> Prop) : Prop := forall st,
  match snd (m st) with Ok a => P a | Err e => library_error e end.

Lemma safe_ret {St A} (a : A) (P : A -> Prop) : P a -> safe (St := St) (mret a) P.
Proof. by intros ? st. Qed.

Lemma safe_lift {St A} (r : result A) (P : A -> Prop) :
  match r with Ok a => P a | Err e => library_error e end -> safe (St := St) (st_lift r) P.
Proof. by intros ? st. Qed.

Lemma safe_bind {St A B} (m : ST St A) (k : A -> ST St B) (P : A -> Prop) (Q : B -> Prop) :
  safe m P -> (forall a, P a -> safe (k a) Q) -> safe (m ≫= k) Q.
Proof.
  intros Hm Hk st. specialize (Hm st). cbv [mbind st_bind]. destruct (m st) as [st1 [a|e]]; cbn in *; [|done].
  by apply Hk.
Qed.

Lemma safe_weaken {St A} (m : ST St A) (P Q : A -> Prop) : safe m P -> (forall a, P a -> Q a) -> safe m Q.
Proof. intros Hm HPQ st. specialize (Hm st). destruct (snd (m st)); auto. Qed.

Lemma safe_mapS {St A B} (f : A -> ST St B) (l : list A) (P : B -> Prop) :
  Forall (fun x => safe (f x) P) l -> safe (mapS f l) (Forall P).
Proof.
  induction 1 as [|x l Hx _ IH]; cbn; [apply safe_ret; constructor|].
  eapply safe_bind; [exact Hx|]. intros y Hy. eapply safe_bind; [exact IH|]. intros ys Hys.
  apply safe_ret. by constructor.
Qed.

Lemma safe_mapR {St A B} (f : A -> result B) (l : list A) :
  (forall x e, f x = Err e -> library_error e) -> safe (St := St) (st_lift (mapR f l)) (fun _ => True).
Proof.
  intros Hf. apply safe_lift. induction l as [|x l IH]; cbn; [done|].
  destruct (f x) as [y|e] eqn:E; [|by eapply Hf]. cbn. by destruct (mapR f l).
Qed.

Lemma move_error dev t e : move dev t = Err e -> library_error e.
Proof. destruct dev; [apply from_device|done]. Qed.

(** The environment of operation number [n]: what the graph declares is bound,
    and every earlier operation has left its result. *)
Definition results_ready (n : nat) (l : list op_value) : Prop :=
  forall i, (i < n)%nat -> exists r, l !! i = Some r /\ r <> RNone.

Definition bound (g : Graph) (inputs : dict tensor) (params : dict pyval) : Prop :=
  (forall name, name ∈ map ts_name (g_inputs g) -> is_Some (dict_get name inputs)) /\
  (forall name, name ∈ map ps_name (g_params g) -> is_Some (dict_get name params)).

Lemma py_at_nat {A} (l : list A) (i : Z) (x : A) : (0 <= i)%Z -> l !! Z.to_nat i = Some x -> py_at l i = Ok x.
Proof.
  intros Hi Hl. unfold py_at, py_pos, zlen. pose proof (lookup_lt_Some _ _ _ Hl) as Hlt.
  destruct (Z.ltb_spec i 0); [lia|]. destruct (Z.leb_spec 0 i), (Z.ltb_spec i (Z.of_nat (length l))); try lia.
  cbn. by rewrite Hl.
Qed.

Lemma resolve_blob_safe dev uri r : safe (resolve_blob dev uri r) (fun _ => True).
Proof.
  unfold resolve_blob. eapply (safe_bind _ _ (fun _ => True)); [done|]. intros st _.
  destruct (dict_get uri (es_blobs st)); [by apply safe_ret|].
  eapply (safe_bind _ _ (fun _ => True)).
  { intros st'. unfold eval_read. destruct (os_get uri (es_store st')) as [s1 [b|e]] eqn:E; cbn; [done|].
    apply (from_blob_read e uri (es_store st')). by rewrite E. }
  intros body _. eapply (safe_bind _ _ (fun _ => True)).
  { apply safe_lift. destruct (decode_tensor body) eqn:E; [done|]. by eapply from_blob. }
  intros t _. eapply (safe_bind _ _ (fun _ => True)).
  { apply safe_lift. destruct (check_blob uri r t) eqn:E; [done|]. by eapply from_blob_check. }
  intros _ _. eapply (safe_bind _ _ (fun _ => True)).
  { apply safe_lift. destruct (move dev t) eqn:E; [done|]. by eapply move_error. }
  intros t' _. by eapply (safe_bind _ _ (fun _ => True)).
Qed.

Lemma resolve_ref_safe g n dev r inputs params l :
  bound g inputs params -> results_ready n l -> ref_scoped g n r ->
  safe (resolve_ref dev r inputs params l) (fun _ => True).
Proof.
  intros [Hin Hpar] Hres Hr. destruct Hr as [name Hn|id idx Hid|name Hn|v|uri shape dt].
  - apply safe_lift. destruct (Hin name Hn) as [t Ht]. cbn. by rewrite Ht.
  - apply safe_lift. destruct (Hres (Z.to_nat id)) as (res & Hl & Hne); [lia|].
    pose proof (py_at_nat l id res ltac:(lia) Hl) as Hat.
    destruct (read_op_result l id idx) as [v|e] eqn:E; [done|]. by eapply from_result.
  - apply safe_lift. destruct (Hpar name Hn) as [t Ht]. cbn. by rewrite Ht.
  - by apply safe_ret.
  - apply resolve_blob_safe.
Qed.

Lemma resolve_kwargs_safe g n dev kw inputs params l :
  bound g inputs params -> results_ready n l -> Forall (fun kv => kwarg_scoped g n kv.2) kw ->
  safe (resolve_kwargs dev kw inputs params l) (fun _ => True).
Proof.
  intros Hb Hres Hkw. eapply safe_weaken; [|done]. apply (safe_mapS _ _ (fun _ => True)).
  eapply Forall_impl; [exact Hkw|]. intros [k v] Hv. unfold resolve_kwarg. cbn [fst snd] in *.
  destruct Hv as [Hv|(r & -> & Hv & Hr)]; rewrite Hv.
  - eapply (safe_bind _ _ (fun b => b = false)); [by apply safe_lift|]. intros b ->. destruct v; by apply safe_ret.
  - eapply (safe_bind _ _ (fun b => b = true)); [by apply safe_lift|]. intros b ->.
    eapply safe_bind; [by eapply resolve_ref_safe|]. intros w _. by apply safe_ret.
Qed.

Lemma as_tensor_value_error v e : as_tensor_value v = Err e -> library_error e.
Proof. destruct v; [apply from_conversion|done]. Qed.

Lemma run_op_safe g i dev inputs params l o :
  bound g inputs params -> results_ready i l -> (i < length l)%nat -> op_id o = Z.of_nat i ->
  op_op o ∈ DISPATCH -> op_scoped g i o ->
  safe (run_op dev inputs params l o) (fun l' => length l' = length l /\ results_ready (i + 1) l').
Proof.
  intros Hb Hres Hlen Hid Hop [Hargs Hkw]. unfold run_op. rewrite bool_decide_true by done. cbn [negb].
  eapply (safe_bind _ _ (Forall (fun _ => True))).
  { apply safe_mapS. eapply Forall_impl; [exact Hargs|]. intros r Hr. by eapply resolve_ref_safe. }
  intros refs _. eapply safe_bind; [apply safe_mapR, as_tensor_value_error|]. intros args _.
  eapply safe_bind; [apply safe_mapR; intros; by eapply move_error|]. intros args' _.
  eapply safe_bind; [by eapply resolve_kwargs_safe|]. intros kw _.
  eapply (safe_bind _ _ (fun _ => True)).
  { apply safe_lift. destruct (kernel dev (op_op o) args' kw) eqn:E; [done|]. by eapply from_kernel. }
  intros out _. apply safe_lift. rewrite Hid. unfold py_set, py_pos, zlen.
  destruct (Z.ltb_spec (Z.of_nat i) 0); [lia|].
  destruct (Z.leb_spec 0 (Z.of_nat i)), (Z.ltb_spec (Z.of_nat i) (Z.of_nat (length l))); try lia. cbn.
  rewrite Nat2Z.id, length_insert. split; [done|]. intros j Hj.
  destruct (decide (j = i)) as [->|Hne].
  - exists (op_result out). rewrite list_lookup_insert_eq by done. split; [done|]. by destruct out.
  - rewrite list_lookup_insert_ne by done. apply Hres. lia.
Qed.

Lemma run_ops_safe g dev inputs params ops : forall i l,
  graph_ok g -> graph_scoped g -> bound g inputs params ->
  ops = drop i (g_ops g) -> length l = length (g_ops g) -> results_ready i l ->
  safe (run_ops dev inputs params ops l) (results_ready (length (g_ops g))).
Proof.
  induction ops as [|o ops IH]; intros i l Hok Hsc Hb Hops Hlen Hres; cbn [run_ops].
  - apply safe_ret. intros j Hj. apply Hres. apply (f_equal length) in Hops. rewrite length_drop in Hops. cbn in Hops. lia.
  - assert (g_ops g !! i = Some o) as Hi.
    { rewrite <- (Nat.add_0_r i), <- lookup_drop, <- Hops. done. }
    eapply safe_bind.
    + apply (run_op_safe g i); [done|done| | | |].
      * rewrite Hlen. by eapply lookup_lt_Some.
      * by apply (ok_ids g Hok).
      * destruct (ok_ops g Hok o) as (sig & Hsig & _); [by eapply list_elem_of_lookup_2|]. by eapply registered_dispatched.
      * by apply (scoped_ops g Hsc).
    + intros l' [Hl' Hres']. apply (IH (i + 1)%nat l'); try done; [|lia].
      rewrite Nat.add_1_r. erewrite drop_S in Hops by exact Hi. by injection Hops.
Qed.

Lemma check_inputs_safe dev specs : forall inputs,
  (forall spec, spec ∈ specs -> exists t, dict_get (ts_name spec) inputs = Some t /\
     wire_dtype t = Ok (ts_dtype spec) /\ shape_matches (ts_shape spec) (t_shape t) = true) ->
  NoDup (map ts_name specs) ->
  match check_inputs dev specs inputs with
  | Ok inputs' => forall name, name ∈ map ts_name specs \/ is_Some (dict_get name inputs) -> is_Some (dict_get name inputs')
  | Err e => library_error e
  end.
Proof.
  induction specs as [|spec specs IH]; intros inputs Hfit Hnd; cbn [check_inputs map].
  { intros name [Hn|?]; [by apply elem_of_nil in Hn|done]. }
  cbn [map] in Hnd. apply NoDup_cons in Hnd as [Hnew Hnd].
  destruct (Hfit spec) as (t & Ht & Hwd & Hsh); [by left|]. rewrite Ht. cbn [of_option mbind result_bind].
  rewrite Hwd. cbn [mbind result_bind]. rewrite String.eqb_refl, Hsh. cbn [negb].
  destruct (move dev t) as [t'|e] eqn:Em; cbn [mbind result_bind]; [|by eapply move_error].
  assert (forall name, String.eqb name (ts_name spec) = false ->
    dict_get name (dict_set (ts_name spec) t' inputs) = dict_get name inputs) as Hother.
  { intros name Hne. by rewrite dict_get_set, Hne. }
  specialize (IH (dict_set (ts_name spec) t' inputs)).
  destruct (check_inputs dev specs _) as [inputs'|e]; [|apply IH; [|done]].
  - intros name Hname. apply IH; [|done|].
    + intros spec' Hspec'. destruct (Hfit spec') as (t2 & Ht2 & ?); [by right|]. exists t2. split; [|done].
      rewrite Hother; [done|]. apply String.eqb_neq. intros E. apply Hnew. rewrite <- E. by apply list_elem_of_fmap_2.
    + destruct (String.eqb name (ts_name spec)) eqn:En.
      { right. rewrite dict_get_set, En. by eexists. }
      rewrite Hother by done. destruct Hname as [[->|?]%elem_of_cons|?]; [|by left|by right].
      by rewrite String.eqb_refl in En.
  - intros spec' Hspec'. destruct (Hfit spec') as (t2 & Ht2 & ?); [by right|]. exists t2. split; [|done].
    rewrite Hother; [done|]. apply String.eqb_neq. intros E. apply Hnew. rewrite <- E. by apply list_elem_of_fmap_2.
Qed.

Lemma check_params_fit specs params :
  (forall spec, spec ∈ specs -> dict_mem (ps_name spec) params = true) -> check_params specs params = Ok tt.
Proof.
  induction specs as [|spec specs IH]; intros Hf; cbn; [done|]. rewrite Hf by left. apply IH. intros spec' ?. apply Hf. by right.
Qed.

Lemma collect_outputs_safe g n dev inputs params l refs : forall outputs,
  bound g inputs params -> results_ready n l -> Forall (fun o => ref_scoped g n o.2) refs ->
  safe (collect_outputs dev inputs params l refs outputs)
    (fun outs => forall k, k ∈ dict_keys outs <-> k ∈ dict_keys outputs \/ k ∈ map fst refs).
Proof.
  induction refs as [|[name r] refs IH]; intros outputs Hb Hres Hsc; cbn [collect_outputs map].
  { apply safe_ret. intros k. split; [by left|]. by intros [?|?%elem_of_nil]. }
  apply Forall_cons in Hsc as [Hr Hsc]. eapply safe_bind; [by eapply resolve_ref_safe|]. intros v _.
  eapply (safe_bind _ _ (fun _ => True)).
  { apply safe_lift. destruct (as_tensor_value v) eqn:E; [done|]. by eapply as_tensor_value_error. }
  intros t _. eapply safe_weaken; [by apply IH|]. intros outs Houts k. cbv beta in Houts. rewrite (Houts k), dict_keys_set_elem, elem_of_cons.
  cbn [fst]. tauto.
Qed.

Lemma eval_body_safe g dev inputs params :
  graph_ok g -> graph_scoped g -> inputs_fit g inputs -> params_fit g params ->
  safe (eval_body dev g inputs params) (fun outs => forall k, k ∈ dict_keys outs <-> k ∈ map fst (g_outputs g)).
Proof.
  intros Hok Hsc Hin Hpar. unfold eval_body.
  eapply (safe_bind _ _ (fun inputs' => bound g inputs' params)).
  { apply safe_lift. pose proof (check_inputs_safe dev (g_inputs g) inputs Hin (ok_inputs g Hok)) as Hc.
    destruct (check_inputs dev (g_inputs g) inputs) as [inputs'|e]; [|done]. split.
    - intros name Hn. apply Hc. by left.
    - intros name (spec & -> & Hs)%list_elem_of_fmap. specialize (Hpar spec Hs). unfold dict_mem in Hpar.
      destruct (dict_get (ps_name spec) params); [by eexists|done]. }
  intros inputs' Hb. rewrite (check_params_fit _ _ Hpar).
  eapply (safe_bind _ _ (fun _ => True)); [by apply safe_lift|]. intros _ _.
  eapply safe_bind.
  { apply (run_ops_safe g dev inputs' params (g_ops g) 0); try done; [by rewrite repeat_length|]. intros i Hi. lia. }
  intros l Hl. eapply safe_weaken.
  { apply (collect_outputs_safe g (length (g_ops g))); [done|done|apply (scoped_outputs g Hsc)]. }
  intros outs Houts k. cbv beta in Houts. rewrite (Houts k). cbn. rewrite elem_of_nil. tauto.
Qed.
End safety.

(** *** The evaluator reads the bucket and does not write it *)

Section reading.
Context {S : Type} `{ObjectStoreLaws S} `{Torch} `{!Kernels}.

Definition eval_reads {A} (m : ST (eval_state (S := S)) A) : Prop := forall st, es_store (fst (m st)) = es_store st.

Lemma eval_reads_bind {A B} (m : ST eval_state A) (k : A -> ST eval_state B) :
  eval_reads m -> (forall a, eval_reads (k a)) -> eval_reads (m ≫= k).
Proof.
  intros Hm Hk st. cbv [mbind st_bind]. specialize (Hm st). destruct (m st) as [st1 [a|e]]; cbn in *; [|done].
  by rewrite Hk.
Qed.

Lemma eval_reads_get uri : eval_reads (eval_read (os_get uri)).
Proof.
  intros st. unfold eval_read. pose proof (get_reads uri (es_store st)) as Hg.
  by destruct (os_get uri (es_store st)).
Qed.

Ltac eval_steps :=
  repeat first
    [ done
    | apply eval_reads_bind; [|intros ?]
    | apply eval_reads_get
    | case_goal ].

Lemma eval_reads_ref dev r inputs params l : eval_reads (resolve_ref dev r inputs params l).
Proof. unfold resolve_ref, resolve_blob. eval_steps. Qed.

Lemma eval_reads_mapS {A B} (f : A -> ST eval_state B) l : (forall x, eval_reads (f x)) -> eval_reads (mapS f l).
Proof.
  intros Hf. induction l as [|x l IH]; cbn; [done|]. apply eval_reads_bind; [done|]. intros y.
  by apply eval_reads_bind.
Qed.

Lemma eval_reads_run_op dev inputs params l o : eval_reads (run_op dev inputs params l o).
Proof.
  unfold run_op, resolve_kwargs. destruct (negb _); [done|].
  apply eval_reads_bind; [apply eval_reads_mapS; intros; apply eval_reads_ref|intros refs].
  eval_steps. apply eval_reads_mapS. intros kv. unfold resolve_kwarg. apply eval_reads_bind; [done|intros b].
  destruct kv.2; try done. destruct b; [|done]. by apply eval_reads_bind; [apply eval_reads_ref|].
Qed.

Lemma eval_reads_body dev g inputs params : eval_reads (eval_body dev g inputs params).
Proof.
  unfold eval_body. apply eval_reads_bind; [done|intros ins]. apply eval_reads_bind; [done|intros _].
  apply eval_reads_bind.
  - generalize (repeat (RNone (H := H1)) (length (g_ops g))). induction (g_ops g) as [|o ops IH]; intros l; cbn; [done|].
    apply eval_reads_bind; [apply eval_reads_run_op|done].
  - intros l. generalize (@nil (string * tensor)). induction (g_outputs g) as [|[name r] refs IH]; intros outs; cbn; [done|].
    apply eval_reads_bind; [apply eval_reads_ref|intros v]. by apply eval_reads_bind.
Qed.

Lemma evaluate_reads g inputs params device s : fst (evaluate (S := S) g inputs params device s) = s.
Proof.
  unfold evaluate. destruct (match device with Some d => torch_device d | None => Ok None end) as [dev|e]; [|done].
  pose proof (eval_reads_body dev g inputs params (mkEvalState s [])) as Hr.
  by destruct (eval_body dev g inputs params (mkEvalState s [])).
Qed.
End reading.

(** *** Evaluation depends on the inputs by name only *)

(** Dictionaries that answer every lookup alike. *)
Definition dict_equiv {V} (d1 d2 : dict V) : Prop := forall k, dict_get k d1 = dict_get k d2.

#[export] Instance dict_equiv_equivalence {V} : Equivalence (@dict_equiv V).
Proof.
  split; [done|by intros d1 d2 Hd k; rewrite (Hd k)|].
  intros d1 d2 d3 H1 H2 k. by rewrite (H1 k), (H2 k).
Qed.

#[export] Instance dict_set_proper {V} k (v : V) : Proper (dict_equiv ==> dict_equiv) (dict_set k v).
Proof. intros d1 d2 Hd k'. rewrite !dict_get_set. by destruct (String.eqb k' k). Qed.

Section by_name.
Context {S : Type} `{ObjectStore S} `{Torch} `{!Kernels}.

Lemma mapS_ext {St A B} (f g : A -> ST St B) l st : (forall x st, f x st = g x st) -> mapS f l st = mapS g l st.
Proof.
  intros Hfg. revert st. induction l as [|x l IH]; intros st; [done|]. cbn. cbv [mbind st_bind]. rewrite Hfg.
  destruct (g x st) as [st1 [y|e]]; [|done]. by rewrite IH.
Qed.

Lemma resolve_ref_equiv dev r i1 i2 params l (st : eval_state) : dict_equiv i1 i2 ->
  resolve_ref dev r i1 params l st = resolve_ref dev r i2 params l st.
Proof.
  intros Hi. unfold resolve_ref. cbv [mbind st_bind st_lift]. destruct (item r "kind") as [kind|]; [|done].
  destruct (is_text "input" kind); [|done]. destruct (req_str r "name") as [name|]; [|done]. by rewrite (Hi name).
Qed.

Lemma check_inputs_equiv dev specs : forall i1 i2, dict_equiv i1 i2 ->
  match check_inputs dev specs i1, check_inputs dev specs i2 with
  | Ok j1, Ok j2 => dict_equiv j1 j2
  | Err e1, Err e2 => e1 = e2
  | _, _ => False
  end.
Proof.
  induction specs as [|spec specs IH]; intros i1 i2 Hi; cbn [check_inputs]; [done|]. rewrite (Hi (ts_name spec)).
  destruct (dict_get (ts_name spec) i2) as [v|]; cbn [of_option mbind result_bind]; [|done].
  destruct (wire_dtype v); cbn [mbind result_bind]; [|done]. destruct (negb _); [done|]. destruct (negb _); [done|].
  destruct (move dev v); cbn [mbind result_bind]; [|done]. apply IH. by rewrite Hi.
Qed.

Lemma run_ops_equiv dev i1 i2 params ops : forall l (st : eval_state), dict_equiv i1 i2 ->
  run_ops dev i1 params ops l st = run_ops dev i2 params ops l st.
Proof.
  intros l st Hi. revert l st. induction ops as [|o ops IH]; intros l st; [done|]. cbn [run_ops].
  assert (run_op dev i1 params l o st = run_op dev i2 params l o st) as Hop.
  { unfold run_op. destruct (negb _); [done|]. cbv [mbind st_bind].
    rewrite (mapS_ext _ (fun r => resolve_ref dev r i2 params l)) by (intros; by apply resolve_ref_equiv).
    destruct (mapS _ _ st) as [st1 [refs|e]]; [|done]. unfold st_lift. destruct (mapR as_tensor_value refs); [|done].
    destruct (mapR (move dev) a); [|done]. unfold resolve_kwargs.
    rewrite (mapS_ext _ (resolve_kwarg dev i2 params l)); [done|]. intros kv st'. unfold resolve_kwarg.
    cbv [mbind st_bind st_lift]. destruct (is_ref_dict kv.2) as [b|]; [|done]. destruct kv.2; try done.
    destruct b; [|done]. by rewrite (resolve_ref_equiv _ _ i1 i2). }
  cbv [mbind st_bind]. rewrite Hop. by destruct (run_op dev i2 params l o st) as [st1 [l'|e]].
Qed.

Lemma collect_outputs_equiv dev i1 i2 params l refs : forall outs (st : eval_state), dict_equiv i1 i2 ->
  collect_outputs dev i1 params l refs outs st = collect_outputs dev i2 params l refs outs st.
Proof.
  intros outs st Hi. revert outs st. induction refs as [|[name r] refs IH]; intros outs st; [done|]. cbn [collect_outputs].
  cbv [mbind st_bind]. rewrite (resolve_ref_equiv _ _ i1 i2) by done.
  destruct (resolve_ref dev r i2 params l st) as [st1 [v|e]]; [|done]. unfold st_lift. by destruct (as_tensor_value v).
Qed.

Lemma evaluate_equiv g i1 i2 params device (s : S) : dict_equiv i1 i2 ->
  evaluate g i1 params device s = evaluate g i2 params device s.
Proof.
  intros Hi. unfold evaluate.
  destruct (match device with Some d => torch_device d | None => Ok None end) as [dev|]; [|done].
  assert (eval_body dev g i1 params (mkEvalState s []) = eval_body dev g i2 params (mkEvalState s [])) as ->; [|done].
  unfold eval_body. cbv [mbind st_bind st_lift]. pose proof (check_inputs_equiv dev (g_inputs g) i1 i2 Hi) as Hc.
  destruct (check_inputs dev (g_inputs g) i1) as [j1|], (check_inputs dev (g_inputs g) i2) as [j2|]; try done; [|by subst].
  destruct (check_params (g_params g) params); [|done].
  rewrite (run_ops_equiv _ j1 j2) by done. destruct (run_ops dev j2 params _ _ _) as [st1 [l|]]; [|done].
  by rewrite (collect_outputs_equiv _ j1 j2).
Qed.

(** *** Graphs without blobs do not read the bucket *)

Definition not_blob (r : dict pyval) : bool := negb (is_text "const_blob" (get r "kind")).
Definition kwarg_not_blob (kv : string * pyval) : bool := match kv.2 with PDict r => not_blob r | _ => true end.

Definition blob_free (g : Graph) : bool :=
  forallb (fun o => forallb not_blob (op_args o) && forallb kwarg_not_blob (op_kwargs o)) (g_ops g)
  && forallb (fun o => not_blob o.2) (g_outputs g).

(** A method whose answer does not depend on the state, which it keeps. *)
Definition stateless {St A} (m : ST St A) : Prop := exists r, forall st, m st = (st, r).

Lemma stateless_lift {St A} (r : result A) : stateless (St := St) (st_lift r).
Proof. by exists r. Qed.

Lemma stateless_ret {St A} (a : A) : stateless (St := St) (mret a).
Proof. by exists (Ok a). Qed.

Lemma stateless_raise {St A} e : stateless (St := St) (A := A) (st_raise e).
Proof. by exists (Err e). Qed.

Lemma stateless_bind {St A B} (m : ST St A) (k : A -> ST St B) :
  stateless m -> (forall a, stateless (k a)) -> stateless (m ≫= k).
Proof.
  intros [[a|e] Hm] Hk.
  - destruct (Hk a) as [r Hr]. exists r. intros st. cbv [mbind st_bind]. by rewrite Hm.
  - exists (Err e). intros st. cbv [mbind st_bind]. by rewrite Hm.
Qed.

Hint Resolve stateless_lift stateless_ret stateless_raise : stateless.

Lemma stateless_mapS {St A B} (f : A -> ST St B) l : (forall x, x ∈ l -> stateless (f x)) -> stateless (mapS f l).
Proof.
  induction l as [|x l IH]; intros Hf; cbn; [auto with stateless|]. apply stateless_bind; [apply Hf; left|].
  intros y. apply stateless_bind; [|auto with stateless]. apply IH. intros z Hz. apply Hf. by right.
Qed.

Lemma stateless_lift_bind {St A B} (r : result A) (k : A -> ST St B) :
  (forall a, r = Ok a -> stateless (k a)) -> stateless (st_lift r ≫= k).
Proof. intros Hk. destruct r as [a|e]; [by apply Hk|by exists (Err e)]. Qed.

Ltac stateless_steps :=
  repeat first
    [ solve [auto with stateless]
    | apply stateless_lift_bind; intros ? _
    | case_goal ].

Lemma stateless_ref dev r i params l : not_blob r = true -> stateless (resolve_ref (S := S) dev r i params l).
Proof.
  intros Hr. unfold resolve_ref. apply stateless_lift_bind. intros kind Hk. unfold not_blob, get, get_or in Hr.
  unfold item in Hk. destruct (dict_get "kind" r) as [k|]; [|done]. injection Hk as ->. apply negb_true_iff in Hr.
  rewrite Hr. stateless_steps.
Qed.

Lemma stateless_run_op dev i params l o :
  forallb not_blob (op_args o) && forallb kwarg_not_blob (op_kwargs o) = true -> stateless (run_op (S := S) dev i params l o).
Proof.
  rewrite andb_true_iff, !forallb_forall. intros [Ha Hk]. unfold run_op, resolve_kwargs. destruct (negb _); [auto with stateless|].
  apply stateless_bind; [apply stateless_mapS; intros r Hr; apply stateless_ref, Ha; by apply list_elem_of_In|intros refs].
  do 2 (apply stateless_lift_bind; intros ? _). apply stateless_bind.
  - apply stateless_mapS. intros kv Hkv. apply list_elem_of_In, Hk in Hkv. unfold resolve_kwarg, kwarg_not_blob in *.
    apply stateless_lift_bind. intros b _. destruct kv.2; auto with stateless. destruct b; [|auto with stateless].
    apply stateless_bind; [by apply stateless_ref|auto with stateless].
  - intros kw. stateless_steps.
Qed.

(** Such a graph gives the same answer on every bucket. *)
Lemma evaluate_blob_free g i params device : blob_free g = true -> stateless (evaluate (S := S) g i params device).
Proof.
  intros Hg. unfold blob_free in Hg. apply andb_true_iff in Hg as [Hops Houts]. rewrite forallb_forall in Hops, Houts.
  unfold evaluate.
  destruct (match device with Some d => torch_device d | None => Ok None end) as [dev|e]; [|by exists (Err e)].
  assert (stateless (eval_body (S := S) dev g i params)) as [r Hr].
  { unfold eval_body. apply stateless_lift_bind. intros ins _. apply stateless_lift_bind. intros _ _. apply stateless_bind.
    - generalize (repeat (RNone (H := H0)) (length (g_ops g))). revert Hops. induction (g_ops g) as [|o ops IH]; intros Hops l; cbn; [auto with stateless|].
      apply stateless_bind; [apply stateless_run_op, Hops; by left|]. intros l'. apply IH. intros o' Ho'. apply Hops. by right.
    - intros l. generalize (@nil (string * tensor)). revert Houts. induction (g_outputs g) as [|[name ref] refs IH]; intros Houts outs; cbn; [auto with stateless|].
      apply stateless_bind; [apply stateless_ref, (Houts (name, ref)); by left|]. intros v.
      apply stateless_lift_bind. intros t _. apply IH. intros o' Ho'. apply Houts. by right. }
  exists r. intros s. by rewrite Hr.
Qed.
End by_name.


(** *** An example *)

(** Two kernels on tensors of bytes. *)
Definition byte_kernel (op : string) (args : list string) : result (string + list string) :=
  if String.eqb op "concat" then Ok (inl (str_join EmptyString args))
  else match args with
       | [t] => if String.eqb op "identity" then Ok (inl t) else Err (RuntimeError "not implemented")
       | _ => Err (RuntimeError "not implemented")
       end.

Definition byte_kernels : @Kernels byte_torch :=
  @Build_Kernels byte_torch (fun d => Ok (Some d)) (fun _ op args _ => byte_kernel op args) id id.

Definition concat_graph : Graph :=
  GraphBuilder_build (fold_left run_call
    [CInput "x" [(-1)%Z] "uint8"; CEmit "concat" [ref_input "x"; ref_input "x"] (Some [("dim", PInt 0)]) [];
     CEmit "identity" [ref_op 0 0] None []; COutput "y" (ref_op 1 0)] GraphBuilder_init).

Lemma concat_graph_ok : graph_ok concat_graph.
Proof.
  split.
  - intros [|[|i]] o; cbn; intros [= <-]; reflexivity.
  - apply Forall_forall. repeat constructor.
    + eexists. split; [reflexivity|]. split; [by left|]. by intros k Hk.
    + eexists. split; [reflexivity|]. split; [by right|]. by intros k Hk.
  - apply (bool_decide_unpack _). vm_compute. exact I.
  - constructor.
Qed.

#[local] Existing Instance byte_torch.
#[local] Existing Instance byte_kernels.

