(* ===== verification/PipelineFit.v ===== *)
(** * Pipelines whose jobs fit their graphs

    A streaming task describes its stages twice: the graphs name the tensors a
    job reads and writes, and the orchestrator names the artifacts it gives to
    the job, from the stage's specifications and the parameters of the run.  A
    miner looks an artifact up under the name in the graph, so the two must
    agree.  [pipeline_fits] says that they do; [fitting_epoch] carries it to the
    manifests of an emitted epoch.  [builds] is the logic in which the graphs of
    the tasks are followed: what a program does to a builder, with inputs,
    outputs and parameters in order. *)

From Stdlib Require Import ZArith Lia Ascii.
From stdpp Require Import base strings list.
From S2P Require Import Prelude PyFloat PyVal Json Digest Paths Signatures Codec Protocol ProtocolFacts.
From S2P Require Import Storage StoreReads Telemetry Queue QueueFacts Transport Discovery Scheduler Crypto WalletCrypto Emission EmissionFacts Ir Mlp Streaming StreamingFacts.

(** ** Names *)

Section names.
Context (params : StreamingParams).

(** The names under which a planned job gets its inputs and writes its outputs. *)
Definition job_input_names (k : pipeline_job) : list string :=
  match k with
  | ForwardJob _ stage =>
      (if is_head stage then [] else map (fun spec : tensor_spec => spec.1.1) (pg_forward_input_specs stage)) ++
      (match given (pg_weights_input_name stage) with
       | Some name => if sp_training params then [name] else []
       | None => []
       end) ++
      (if sp_training params then map ar_name (target_refs params stage) else []) ++ map ar_name (static_refs params stage)
  | BackwardJob _ stage =>
      str_or_default (pg_weights_input_name stage) "W" ::
      (if is_head stage then [] else ["x_in"]) ++ map ar_name (target_refs params stage) ++
      map ar_name (static_refs params stage) ++ (if is_tail params stage then [] else ["dL_dx_out"])
  | OuterJob stage =>
      str_or_default (pg_weights_input_name stage) "W" :: map (fun mb => "dW_" +:+ py_str_int mb) (microbatches params)
  end.

Definition job_output_names (k : pipeline_job) : list string :=
  match k with
  | ForwardJob _ stage =>
      map (fun spec : tensor_spec => spec.1.1) (pg_forward_output_specs stage) ++
      (if is_tail params stage then [if sp_training params then "loss" else "done"] else [])
  | BackwardJob _ stage => "dW" :: (if negb (is_head stage) && pg_backward_emits_dx_in stage then ["dL_dx_in"] else [])
  | OuterJob _ => ["W_new"]
  end.

(** A planned job has a graph, and reads and writes what the graph does. *)
Definition fits (k : pipeline_job) : Prop := exists g, planned_graph k = Some g /\ graph_ok g /\
  job_input_names k ≡ₚ map ts_name (g_inputs g) /\ job_output_names k ≡ₚ map fst (g_outputs g).

Definition pipeline_fits (stages : list PipelineStage) : Prop := forall k, k ∈ epoch_plan stages params false -> fits k.

(** The same of a job's manifest. *)
Definition manifest_fits (k : pipeline_job) (man : JobManifestV3) : Prop := exists g,
  planned_graph k = Some g /\ graph_ok g /\ gr_sha256 (jm_graph_ref man) = Graph_graph_id g /\
  map ar_name (jm_inputs man) ≡ₚ map ts_name (g_inputs g) /\ map ar_name (jm_outputs man) ≡ₚ map fst (g_outputs g).

Context (cfg : StreamingRunConfig).

Lemma from_first_names jobs id l refs :
  Forall2 (fun (spec : tensor_spec) ref => from_first jobs id spec.1.1 ref) l refs ->
  map ar_name refs = map (fun spec => spec.1.1) l.
Proof. induction 1 as [|spec ref l refs (up & o & outs & _ & _ & ->) _ IH]; [done|]. cbn. by rewrite IH. Qed.

Lemma wired_input_names addr epoch jobs k ins : inputs_wired cfg params addr epoch jobs k ins ->
  map ar_name ins = job_input_names k.
Proof.
  destruct k as [mb stage|mb stage|stage]; cbn [inputs_wired job_input_names].
  - intros (ups & Hups & ->). rewrite !map_app. f_equal.
    + destruct (is_head stage); [by rewrite Hups|by apply from_first_names in Hups].
    + f_equal; [|f_equal].
      * destruct (given _); [|done]. by destruct (sp_training params).
      * by destruct (sp_training params).
  - intros (x & dx & Hx & Hdx & ->). cbn [map plain_ref ar_name]. f_equal. rewrite !map_app. f_equal; [|do 2 f_equal].
    + destruct (is_head stage); [by rewrite Hx|]. by destruct Hx as (ref & -> & up & o & outs & _ & _ & ->).
    + destruct (is_tail params stage); [by rewrite Hdx|]. by destruct Hdx as (ref & -> & up & o & _ & _ & _ & ->).
  - intros (dws & Hd & ->). cbn [map plain_ref ar_name]. f_equal.
    induction Hd as [|mb ref l refs (up & o & _ & _ & _ & ->) _ IH]; [done|]. cbn. by rewrite IH.
Qed.

Lemma output_place_names addr epoch k : map fst (output_places cfg params addr epoch k) = job_output_names k.
Proof.
  destruct k as [mb stage|mb stage|stage]; cbn [output_places job_output_names].
  - rewrite map_app, map_map. f_equal. by destruct (is_tail params stage).
  - cbn. f_equal. by destruct (_ && _).
  - done.
Qed.

Lemma wired_fits addr epoch jobs k man : fits k -> wired cfg params addr epoch jobs k man -> manifest_fits k man.
Proof.
  intros (g & Hg & Hok & Hi & Ho) [_ Hin Hout (g' & Hg' & Hsha)]. rewrite Hg in Hg'. injection Hg' as <-.
  exists g. split_and!; [done..| |].
  - by rewrite (wired_input_names _ _ _ _ _ Hin).
  - rewrite <- Ho, <- (output_place_names addr epoch), <- Hout, map_map. done.
Qed.

Lemma wired_all_fit addr epoch jobs ks mans jobs' : wired_in_order cfg params addr epoch jobs ks mans jobs' ->
  (forall k, k ∈ ks -> fits k) -> Forall2 manifest_fits ks mans.
Proof.
  induction 1 as [|jobs k man ks mans jobs' Hw _ IH]; intros Hf; constructor.
  - eapply wired_fits; [apply Hf; left|exact Hw].
  - apply IH. intros k' Hk'. apply Hf. by right.
Qed.

Lemma plan_forward_only stages k : k ∈ epoch_plan stages params true -> k ∈ epoch_plan stages params false.
Proof. unfold epoch_plan. rewrite app_nil_r, elem_of_app. by left. Qed.
End names.

(** ** Shapes *)

Definition reads_tensor (g : Graph) (name : string) (shape : list Z) (dtype : string) : Prop :=
  mkTensorSpec name shape dtype ∈ g_inputs g.

(** What a stage reads from the one before has the shape and type of that
    stage's first output, forward and backward. *)
Definition activations_typed (before stage : PipelineStage) : Prop := exists name shape dtype,
  pg_forward_output_specs before !! 0%nat = Some (name, shape, dtype) /\
  (forall spec, spec ∈ pg_forward_input_specs stage ->
     spec.1.2 = shape /\ spec.2 = dtype /\ reads_tensor (pg_forward_graph stage) spec.1.1 shape dtype) /\
  (forall g, pg_backward_graph stage = Some g -> reads_tensor g "x_in" shape dtype).

(** Every graph of a stage reads its weights in the declared shape. *)
Definition weights_typed (stage : PipelineStage) : Prop := forall name g,
  pg_weights_input_name stage = Some name -> Some g ∈ stage_graphs stage ->
  reads_tensor g name (pg_weights_shape stage) (pg_weights_dtype stage).

Record pipeline_typed (stages : list PipelineStage) : Prop := {
  pt_ids : map pg_stage_id stages = py_range (Z.of_nat (length stages));
  pt_activations : forall i before stage, stages !! i = Some before -> stages !! S i = Some stage -> activations_typed before stage;
  pt_weights : forall stage, stage ∈ stages -> weights_typed stage
}.

(** ** Following a builder *)

(** [m] returns, whatever builder it starts from, having declared the inputs
    [ins], the outputs [outs] and the parameters [ps] in this order; its result
    satisfies [Q].  Names already declared must not be declared again. *)
Definition builds {A} (m : ST GraphBuilder A) (ins : list TensorSpec) (outs ps : list string) (Q : A -> Prop) : Prop :=
  forall b, graph_ok (GraphBuilder_build b) ->
    NoDup (map ts_name (gb_inputs b ++ ins)) -> NoDup (map ps_name (gb_params b) ++ ps) ->
    exists b' a, m b = (b', Ok a) /\ graph_ok (GraphBuilder_build b') /\ gb_inputs b' = gb_inputs b ++ ins /\
      map fst (gb_outputs b') = map fst (gb_outputs b) ++ outs /\ map ps_name (gb_params b') = map ps_name (gb_params b) ++ ps /\ Q a.

(** A program that only emits operations. *)
Abbreviation emits_ops m Q := (builds m [] [] [] Q).

Lemma builds_ret {A} (a : A) (Q : A -> Prop) : Q a -> emits_ops (mret a) Q.
Proof. intros HQ b Hb _ _. exists b, a. rewrite !app_nil_r. done. Qed.

Lemma builds_bind {A B} (m : ST GraphBuilder A) (k : A -> ST GraphBuilder B) i1 i2 o1 o2 p1 p2 Q R :
  builds m i1 o1 p1 Q -> (forall a, Q a -> builds (k a) i2 o2 p2 R) -> builds (m ≫= k) (i1 ++ i2) (o1 ++ o2) (p1 ++ p2) R.
Proof.
  intros Hm Hk b Hb Hi Hp. rewrite !app_assoc in Hi, Hp.
  destruct (Hm b Hb) as (b1 & a & E1 & Hb1 & Hi1 & Ho1 & Hp1 & Ha).
  { rewrite map_app in Hi. by apply NoDup_app in Hi as (? & _ & _). }
  { by apply NoDup_app in Hp as (? & _ & _). }
  destruct (Hk a Ha b1 Hb1) as (b2 & c & E2 & Hb2 & Hi2 & Ho2 & Hp2 & Hc); [by rewrite Hi1|by rewrite Hp1|].
  exists b2, c. unfold mbind, st_bind. rewrite E1. rewrite !app_assoc, <- Hi1, <- Ho1, <- Hp1. done.
Qed.

Lemma builds_weaken {A} (m : ST GraphBuilder A) ins outs ps (Q R : A -> Prop) :
  builds m ins outs ps Q -> (forall a, Q a -> R a) -> builds m ins outs ps R.
Proof.
  intros Hm HQ b Hb Hi Hp. destruct (Hm b Hb Hi Hp) as (b' & a & E & H1 & H2 & H3 & H4 & Ha).
  exists b', a. split_and!; auto.
Qed.

(** The rule for a program that emits and goes on. *)
Lemma emits_bind {A B} (m : ST GraphBuilder A) (k : A -> ST GraphBuilder B) ins outs ps Q R :
  emits_ops m Q -> (forall a, Q a -> builds (k a) ins outs ps R) -> builds (m ≫= k) ins outs ps R.
Proof. apply (builds_bind m k [] ins [] outs [] ps). Qed.

Lemma builds_lift {A B} (r : result A) (k : A -> ST GraphBuilder B) a ins outs ps Q : r = Ok a ->
  builds (k a) ins outs ps Q -> builds (st_lift r ≫= k) ins outs ps Q.
Proof. intros -> Hk b. apply Hk. Qed.

Lemma emits_lift {A} (r : result A) (Q : A -> Prop) a : r = Ok a -> Q a -> emits_ops (st_lift r) Q.
Proof. intros -> HQ b Hb _ _. exists b, a. by rewrite !app_nil_r. Qed.

Lemma emits_emit op args kw out : check_call op args (default [] kw) = Ok tt ->
  emits_ops (GraphBuilder_emit op args kw out) (fun _ => True).
Proof.
  intros Hc b Hb _ _. rewrite emit_spec, Hc. eexists _, _. split; [done|]. rewrite !app_nil_r. split_and!; try done.
  by apply graph_ok_push.
Qed.

Lemma emits_emit_multi op args kw n : check_call op args (default [] kw) = Ok tt ->
  emits_ops (GraphBuilder_emit_multi op args kw n) (fun l => length l = n).
Proof.
  intros Hc b Hb _ _. rewrite emit_multi_spec, Hc. eexists _, _. split; [done|]. rewrite !app_nil_r. split_and!; try done.
  - by apply graph_ok_push.
  - by rewrite length_map, length_seq.
Qed.

Lemma builds_input name shape dtype : builds (GraphBuilder_input name shape dtype) [mkTensorSpec name shape dtype] [] []
  (fun r => r = ref_input name).
Proof.
  intros b Hb Hi _. unfold GraphBuilder_input. cbv [mbind st_bind st_get].
  destruct (existsb _ _) eqn:E.
  - exfalso. apply existsb_exists in E as (t & Ht & En). apply String.eqb_eq in En. apply list_elem_of_In in Ht.
    rewrite map_app, NoDup_app in Hi. destruct Hi as (_ & Hd & _). apply (Hd name); [|by left].
    apply list_elem_of_fmap. by exists t.
  - eexists _, _. split; [done|]. cbn [gb_inputs gb_outputs gb_params]. rewrite !app_nil_r. split_and!; try done.
    destruct Hb. by split.
Qed.

Lemma builds_param name ty : builds (GraphBuilder_param name ty) [] [] [name] (fun r => r = ref_param name).
Proof.
  intros b Hb _ Hp. unfold GraphBuilder_param. cbv [mbind st_bind st_get].
  destruct (existsb _ _) eqn:E.
  - exfalso. apply existsb_exists in E as (t & Ht & En). apply String.eqb_eq in En. apply list_elem_of_In in Ht.
    rewrite NoDup_app in Hp. destruct Hp as (_ & Hd & _). apply (Hd name); [|by left].
    apply list_elem_of_fmap. by exists t.
  - eexists _, _. split; [done|]. cbn [gb_inputs gb_outputs gb_params]. rewrite !app_nil_r, map_app. split_and!; try done.
    destruct Hb. split; cbn in *; try done. by rewrite map_app.
Qed.

Lemma builds_output name r : builds (GraphBuilder_output name r) [] [name] [] (fun _ => True).
Proof.
  intros b Hb _ _. eexists _, _. split; [done|]. cbn [gb_inputs gb_outputs gb_params]. rewrite !app_nil_r, map_app.
  split_and!; try done. by destruct Hb.
Qed.

Lemma emits_mapS {A B} (f : A -> ST GraphBuilder B) (P : A -> Prop) (Q : B -> Prop) l :
  (forall x, P x -> emits_ops (f x) Q) -> Forall P l -> emits_ops (mapS f l) (fun ys => Forall Q ys /\ length ys = length l).
Proof.
  intros Hf. induction 1 as [|x l Hx _ IH]; cbn [mapS]; [by apply builds_ret|].
  eapply emits_bind; [by apply Hf|]. intros y Hy. eapply emits_bind; [exact IH|]. intros ys [Hys Hl].
  apply builds_ret. split; [by constructor|]. cbn. by rewrite Hl.
Qed.

(** One input after the other. *)
Lemma builds_inputs {A B} (f : A -> ST GraphBuilder B) (spec : A -> TensorSpec) (Q : B -> Prop) l :
  (forall x, builds (f x) [spec x] [] [] Q) -> builds (mapS f l) (map spec l) [] [] (fun ys => Forall Q ys /\ length ys = length l).
Proof.
  intros Hf. induction l as [|x l IH]; cbn [mapS map]; [by apply builds_ret|].
  apply (builds_bind _ _ [spec x] (map spec l) [] [] [] [] Q); [apply Hf|]. intros y Hy.
  rewrite <- (app_nil_r (map spec l)). apply (builds_bind _ _ _ [] [] [] [] [] _ _ IH). intros ys [Hys Hl].
  apply builds_ret. split; [by constructor|]. cbn. by rewrite Hl.
Qed.

(** The graph a program builds. *)
Lemma built_spec (program : ST GraphBuilder unit) ins outs ps Q : builds program ins outs ps Q ->
  NoDup (map ts_name ins) -> NoDup ps ->
  exists g, built program = Ok g /\ graph_ok g /\ g_inputs g = ins /\ map fst (g_outputs g) = outs.
Proof.
  intros Hm Hi Hp. destruct (Hm GraphBuilder_init) as (b & a & E & Hb & H1 & H2 & _); [|done|done|].
  - split; cbn; [by intros i o|by intros o ?%elem_of_nil|constructor|constructor].
  - unfold built. rewrite E. exists (GraphBuilder_build b). done.
Qed.

(** ** Stages one by one *)

Lemma py_range_lookup n i z : py_range n !! i = Some z -> z = Z.of_nat i /\ (0 <= z < n)%Z.
Proof.
  unfold py_range. rewrite list_lookup_fmap, fmap_Some. intros (j & Hj & ->). apply lookup_seq in Hj as [-> Hj]. lia.
Qed.

Lemma later_not_head i : (Z.of_nat (Datatypes.S i) =? 0)%Z = false.
Proof. apply Z.eqb_neq. lia. Qed.

(** The stages of a task, each known by its number. *)
Definition staged (P : Z -> PipelineStage -> Prop) (n : Z) (stages : list PipelineStage) : Prop :=
  Forall2 (fun s stage => pg_stage_id stage = s /\ P s stage) (py_range n) stages.

Lemma staged_lookup P n stages i stage : staged P n stages -> stages !! i = Some stage ->
  pg_stage_id stage = Z.of_nat i /\ (Z.of_nat i < n)%Z /\ P (Z.of_nat i) stage.
Proof.
  intros Hs Hi. destruct (Forall2_lookup_r _ _ _ _ _ Hs Hi) as (s & Hr & Hid & HP).
  apply py_range_lookup in Hr as [-> Hr]. split; [done|]. split; [lia|done].
Qed.

Lemma staged_elem P n stages stage : staged P n stages -> stage ∈ stages ->
  exists s, (0 <= s < n)%Z /\ pg_stage_id stage = s /\ P s stage.
Proof.
  intros Hs [i Hi]%list_elem_of_lookup. destruct (staged_lookup _ _ _ _ _ Hs Hi) as (Hid & Hn & HP).
  exists (Z.of_nat i). split_and!; [lia|lia|exact Hid|exact HP].
Qed.

Lemma staged_ids P n stages : staged P n stages -> map pg_stage_id stages = py_range (Z.of_nat (length stages)).
Proof.
  intros Hs. apply Forall2_length in Hs as Hl. unfold py_range in Hl. rewrite length_map, length_seq in Hl.
  apply list_eq. intros i. rewrite list_lookup_fmap. unfold py_range. rewrite Nat2Z.id, list_lookup_fmap.
  destruct (stages !! i) as [stage|] eqn:Ei; cbn.
  - destruct (staged_lookup _ _ _ _ _ Hs Ei) as (-> & _). apply lookup_lt_Some in Ei. by rewrite lookup_seq_lt.
  - apply lookup_ge_None in Ei. by rewrite lookup_seq_ge.
Qed.

(** The jobs of a plan are those of its stages. *)
Lemma pipeline_fits_intro params stages :
  (forall stage mb, stage ∈ stages -> fits params (ForwardJob mb stage)) ->
  (sp_training params = true -> forall stage mb g, stage ∈ stages -> pg_backward_graph stage = Some g -> fits params (BackwardJob mb stage)) ->
  (sp_training params = true -> forall stage g, stage ∈ stages -> pg_outer_graph stage = Some g -> fits params (OuterJob stage)) ->
  pipeline_fits params stages.
Proof.
  intros Hf Hb Ho k. unfold epoch_plan. rewrite elem_of_app. intros [Hk|Hk].
  - apply list_elem_of_In, in_flat_map in Hk as (mb & _ & Hk). apply in_map_iff in Hk as (stage & <- & Hin).
    apply Hf. by apply list_elem_of_In.
  - destruct (sp_training params); [|by apply elem_of_nil in Hk]. apply elem_of_app in Hk as [Hk|Hk].
    + apply list_elem_of_In, in_flat_map in Hk as (mb & _ & Hk). apply in_map_iff in Hk as (stage & <- & Hin).
      apply List.filter_In in Hin as [Hin Hg]. apply list_elem_of_In in Hin. rewrite elem_of_reverse in Hin.
      destruct (pg_backward_graph stage) as [g|] eqn:Eg; [|done]. by apply (Hb eq_refl stage mb g).
    + apply list_elem_of_In, in_map_iff in Hk as (stage & <- & Hin). apply List.filter_In in Hin as [Hin Hg].
      apply list_elem_of_In in Hin. destruct (pg_outer_graph stage) as [g|] eqn:Eg; [|done]. by apply (Ho eq_refl stage g).
Qed.

(** The names of the gradients of all microbatches. *)
Lemma weights_names_distinct w n : startswith "dW_" w = false -> NoDup (w :: map (fun m => "dW_" +:+ py_str_int m) (py_range n)).
Proof.
  intros Hw. constructor.
  - intros (m & -> & _)%list_elem_of_fmap. by rewrite startswith_app in Hw.
  - apply NoDup_fmap.
    + intros m m' E%str_app_inv_l. by apply py_str_int_inj.
    + apply NoDup_fmap; [intros i j; lia|apply NoDup_seq].
Qed.

(** ** Runs *)

(** What a task owes the orchestrator: whenever it builds its inputs and leaves
    the store in a [good] state, the pipeline fits and is typed. *)
Class FittingTask {S : Type} (good : S -> Prop) (task : StreamingTask S) : Prop :=
  task_fits : forall run_id s s' inputs, stk_build_streaming_inputs task run_id s = (s', Ok inputs) -> good s' ->
    pipeline_fits inputs.2 inputs.1 /\ pipeline_typed inputs.1.

Section runs.
Context {S : Type} `{ObjectStoreLaws S} `{SigLib}.
Context (clock : nat -> float) (btcli_show : Z -> string -> Z -> result pyval).
Context (cfg : StreamingRunConfig) (broker : option PresignedUrlBroker) (encryptor : AssignmentEncryptor).

(** A pipeline whose epochs are wired as planned, every job to its graph. *)
Definition emits_fitting (stages : list PipelineStage) (params : StreamingParams) : Prop :=
  forall epoch forward_only (m m' : streamer S),
    StreamingRunManager_emit_epoch clock btcli_show cfg broker encryptor stages params epoch forward_only m = (m', Ok tt) ->
    exists mans,
      wired_in_order cfg params (os_uri_for_key (mg_store (sr_manager m))) epoch (sr_jobs m) (epoch_plan stages params forward_only)
        mans (sr_jobs m') /\
      Forall2 manifest_fits (epoch_plan stages params forward_only) mans.

Lemma fitting_epoch stages params : pipeline_fits params stages -> emits_fitting stages params.
Proof.
  intros Hf epoch forward_only m m' E. rewrite emit_epoch_planned in E. apply st_bind_Ok in E as (m1 & u & E1 & E). apply put_graphs_spec in E1 as (A1 & A2 & _).
  unfold run_all in E. apply st_bind_Ok in E as (m2 & ys & E2 & E). injection E as <-. apply run_planned in E2 as [_ (mans & Hw) _ _].
  rewrite A1, A2 in Hw. exists mans. split; [done|]. eapply wired_all_fit; [done|]. intros k Hk. apply Hf.
  destruct forward_only; [by apply plan_forward_only|done].
Qed.

(** What the orchestrator gets from such a task. *)
Lemma fitting_run good (task : StreamingTask S) `{!FittingTask good task} (m m' : streamer S) stages params :
  StreamingRunManager_bootstrap cfg task m = (m', Ok (stages, params)) -> good (mg_store (sr_manager m')) ->
  pipeline_typed stages /\ pipeline_fits params stages /\ emits_fitting stages params.
Proof.
  unfold StreamingRunManager_bootstrap. intros E Hgood. apply st_bind_Ok in E as (m1 & attached & _ & E).
  apply st_bind_Ok in E as (m2 & u & _ & E). apply st_bind_Ok in E as (m3 & inputs & E3 & E). injection E as -> <- <-.
  unfold mg_do, Emission.bucket_do in E3. destruct (stk_build_streaming_inputs _ _ _) as [s r] eqn:Eb. injection E3 as <- ->.
  destruct (task_fits _ _ _ _ Eb Hgood) as [Hf Ht]. split_and!; [done|exact Hf|by apply fitting_epoch].
Qed.
End runs.

(** ** Tactics *)

(** Closed lists of names are compared by computation. *)
Ltac distinct_names := apply (bool_decide_eq_true_1 (NoDup _)); vm_compute; reflexivity.

(** Through operations, one after the other. *)
Ltac follow_ops := repeat (eapply emits_bind; [first [by apply emits_emit | by apply builds_ret]|intros ? _]).
