(* ===== verification/PipeTasks.v ===== *)
(** * What the streaming tasks share

    The keys of [teuton_legacy_v2/paths.py] that the tasks of [teuton_tasks/]
    use, the documents they bootstrap a run with and the configuration they
    read back.  [teuton_legacy_v2/tensor_io.py] encodes tensors as
    [teuton_runtime/tensor_io.py] does. *)

From Stdlib Require Import ZArith Lia Ascii.
From stdpp Require Import base strings list.
From S2P Require Import Prelude PyFloat PyVal Json Signatures Codec Storage StoreReads Tensors Ir Streaming StreamingFacts PipelineFit.

Definition legacy_run_root (run_id : string) : string := "runs/" +:+ run_id.
Definition legacy_manifest_config_key (run_id : string) : string := legacy_run_root run_id +:+ "/manifest/config.json".
Definition legacy_state_key (run_id : string) : string := legacy_run_root run_id +:+ "/state.json".
Definition static_blob_key (run_id name : string) : string := legacy_run_root run_id +:+ "/static/" +:+ name +:+ ".bin".
Definition first_weights_key (run_id : string) (s : Z) : string :=
  "runs/" +:+ run_id +:+ "/weights/epoch=0/stage_" +:+ py_str_int s +:+ "_W.bin".

(** [enumerate(l)]. *)
Definition enumerate {A} (l : list A) : list (Z * A) := zip (py_range (Z.of_nat (length l))) l.

Section tasks.
Context {S : Type} `{ObjectStore S} `{Torch}.

(** [bucket.put_json(bucket.uri_for_key(key), value)] and its like for tensors. *)
Definition put_document_at (key : string) (value : dict pyval) : ST S unit :=
  uri ← uri_of key; os_put_json uri (PDict value).

Definition put_tensor_at (key : string) (t : tensor) : ST S unit :=
  uri ← uri_of key; blob ← st_lift (encode_tensor t); os_put uri blob.

(** The state every task starts a run with. *)
Definition initial_state (run_id : string) (max_rounds : Z) : dict pyval :=
  [("run_id", PStr run_id); ("current_round", PInt 0); ("max_rounds", PInt max_rounds);
   ("completed_rounds", PList []); ("failed_rounds", PList [])].

(** [cfg = bucket.get_json(cfg_uri) if bucket.exists(cfg_uri) else {}]. *)
Definition read_task_config (run_id : string) : ST S (dict pyval) :=
  uri ← uri_of (legacy_manifest_config_key run_id);
  there ← os_exists uri;
  if (there : bool) then v ← os_get_json uri; st_lift (as_object v) else mret [].
End tasks.

Lemma uri_of_nonempty {S} `{ObjectStoreLaws S} key s s' uri : uri_of key s = (s', Ok uri) -> uri <> EmptyString.
Proof.
  unfold uri_of. intros [= _ <-]. destruct (uri_for_key_ends s) as [bucket Hb]. rewrite Hb. by destruct bucket.
Qed.
