(* ===== verification/PipeDemo.v ===== *)
(** * The forward demo pipeline ([teuton_tasks/pipe_demo.py])

    Six stages, each a chain of matrix products, streamed forward only.  The
    weights are constants of the graphs; the random initial weights are a
    parameter. *)

From Stdlib Require Import ZArith Lia Ascii.
From stdpp Require Import base strings list.
From S2P Require Import Prelude PyFloat PyVal Json Signatures Codec Storage StoreReads Tensors Ir Mlp Transport WalletCrypto Emission Streaming StreamingFacts PipelineFit PipeTasks.

Definition D : Z := 4096.
Definition B : Z := 8.
Definition T : Z := 64.
Definition N_STAGES : Z := 6.
Definition N_MICROBATCHES : Z := 60.
Definition MAX_EPOCHS : Z := 3.
Definition INNER_MATMULS : Z := 80.
Definition DTYPE : string := "float32".

Definition activation : list Z := [B; T; D].

Definition stage_weights_blob (run_id bucket : string) (stage : Z) : ref :=
  GraphBuilder_const_blob ("s3://" +:+ bucket +:+ "/" +:+ static_blob_key run_id ("stage_" +:+ py_str_int stage +:+ "_W")) [D; D] DTYPE.

(** [for _ in range(INNER_MATMULS): h = gb.matmul(h, w); h = gb.silu(h)]. *)
Fixpoint inner_matmuls (n : nat) (w h : ref) : ST GraphBuilder ref :=
  match n with
  | O => mret h
  | Datatypes.S n' => m ← GraphBuilder_matmul h w; h' ← GraphBuilder_silu m; inner_matmuls n' w h'
  end.

Definition synthesized : ST GraphBuilder ref :=
  GraphBuilder_emit "normal" []
    (Some [("seed", PDict (ref_param "mb_seed")); ("shape", PList (map PInt activation)); ("dtype", PStr DTYPE)]) [].

Definition build_stage_graph (bucket run_id : string) (stage : Z) : result Graph := built (
  _ ← GraphBuilder_param "mb_seed" "int";
  let w := stage_weights_blob run_id bucket stage in
  x ← (if (stage =? 0)%Z then synthesized else GraphBuilder_input "x" activation DTYPE);
  h ← inner_matmuls (Z.to_nat INNER_MATMULS) w x;
  GraphBuilder_output "x" h).

Definition build_done_graph (bucket run_id : string) : result Graph := built (
  _ ← GraphBuilder_param "mb_seed" "int";
  let w := stage_weights_blob run_id bucket (N_STAGES - 1) in
  x ← GraphBuilder_input "x" activation DTYPE;
  h ← inner_matmuls (Z.to_nat INNER_MATMULS) w x;
  _ ← GraphBuilder_output "x" h;
  m ← GraphBuilder_mean h PNone false;
  done ← GraphBuilder_unsqueeze m 0;
  GraphBuilder_output "done" done).

Definition demo_stage (bucket run_id : string) (s : Z) : result PipelineStage :=
  g ← (if (s =? N_STAGES - 1)%Z then build_done_graph bucket run_id else build_stage_graph bucket run_id s);
  Ok (mkStage s g None None (if (s =? 0)%Z then [] else [("x", activation, DTYPE)]) [("x", activation, DTYPE)]
        None [] "float32" false true).

Definition demo_params (n_microbatches max_epochs : Z) : StreamingParams :=
  mkParams N_STAGES n_microbatches max_epochs [] [] 1200 false None (flit 1 (-2)) [] 0 [].

Section demo.
Context {S : Type} `{ObjectStore S} `{Torch}.
(** The store's [bucket] attribute and [_initial_weights()]. *)
Context (bucket_of : S -> string) (initial_weights : list tensor).

Definition bootstrap (run_id : string) (max_rounds : Z) : ST S unit :=
  _ ← put_document_at (legacy_state_key run_id) (initial_state run_id max_rounds);
  _ ← put_document_at (legacy_manifest_config_key run_id)
        [("task", PStr "pipe_demo"); ("n_stages", PInt N_STAGES); ("d", PInt D); ("B", PInt B); ("T", PInt T);
         ("n_microbatches", PInt N_MICROBATCHES); ("max_epochs", PInt max_rounds)];
  _ ← mapS (fun sw : Z * tensor => put_tensor_at (static_blob_key run_id ("stage_" +:+ py_str_int sw.1 +:+ "_W")) sw.2)
        (enumerate initial_weights);
  mret tt.

Definition build_streaming_inputs (run_id : string) : ST S (list PipelineStage * StreamingParams) :=
  cfg ← read_task_config run_id;
  max_epochs ← st_lift (int_or cfg "max_epochs" MAX_EPOCHS);
  n_microbatches ← st_lift (int_or cfg "n_microbatches" N_MICROBATCHES);
  store ← st_get;
  stages ← st_lift (mapR (demo_stage (bucket_of store) run_id) (py_range N_STAGES));
  mret (stages, demo_params n_microbatches max_epochs).

Definition pipe_demo : StreamingTask S := mkStreamingTask bootstrap build_streaming_inputs.
End demo.

(** ** The graphs *)

Lemma inner_matmuls_emit n w h : builds (inner_matmuls n w h) [] [] [] (fun _ => True).
Proof.
  revert h. induction n as [|n IH]; intros h; cbn [inner_matmuls]; [by apply builds_ret|].
  eapply emits_bind; [by apply emits_emit|intros m _]. eapply emits_bind; [by apply emits_emit|intros h' _]. apply IH.
Qed.

Lemma stage_graph_built bucket run_id stage : exists g, build_stage_graph bucket run_id stage = Ok g /\ graph_ok g /\
  g_inputs g = (if (stage =? 0)%Z then [] else [mkTensorSpec "x" activation DTYPE]) /\ map fst (g_outputs g) = ["x"].
Proof.
  apply (built_spec _ _ _ ["mb_seed"] (fun _ => True)); [|by destruct (stage =? 0)%Z; [apply NoDup_nil_2|apply NoDup_singleton]|apply NoDup_singleton].
  apply (builds_bind _ _ [] _ [] _ ["mb_seed"] [] _ _ (builds_param _ _)). intros _ _.
  rewrite <- (app_nil_r (if (stage =? 0)%Z then [] else [mkTensorSpec "x" activation DTYPE])).
  apply (builds_bind _ _ _ [] [] _ [] [] (fun _ : ref => True)).
  { destruct (stage =? 0)%Z; [by apply emits_emit|]. eapply builds_weaken; [apply builds_input|done]. }
  intros x _. eapply emits_bind; [apply inner_matmuls_emit|]. intros h _. apply builds_output.
Qed.

Lemma done_graph_built bucket run_id : exists g, build_done_graph bucket run_id = Ok g /\ graph_ok g /\
  g_inputs g = [mkTensorSpec "x" activation DTYPE] /\ map fst (g_outputs g) = ["x"; "done"].
Proof.
  apply (built_spec _ _ _ ["mb_seed"] (fun _ => True)); [|apply NoDup_singleton..].
  apply (builds_bind _ _ [] _ [] _ ["mb_seed"] [] _ _ (builds_param _ _)). intros _ _.
  apply (builds_bind _ _ [mkTensorSpec "x" activation DTYPE] [] [] _ [] [] _ _ (builds_input _ _ _)). intros x _.
  eapply emits_bind; [apply inner_matmuls_emit|]. intros h _.
  apply (builds_bind _ _ [] [] ["x"] _ [] [] _ _ (builds_output _ _)). intros _ _.
  eapply emits_bind; [by apply emits_emit|]. intros m _. eapply emits_bind; [by apply emits_emit|]. intros d _. apply builds_output.
Qed.

Definition stage_inputs (s : Z) : list TensorSpec := if (s =? 0)%Z then [] else [mkTensorSpec "x" activation DTYPE].

Definition stage_outputs (s : Z) : list string := if (s =? N_STAGES - 1)%Z then ["x"; "done"] else ["x"].

Lemma demo_stage_built bucket run_id s : exists g, demo_stage bucket run_id s =
    Ok (mkStage s g None None (if (s =? 0)%Z then [] else [("x", activation, DTYPE)]) [("x", activation, DTYPE)]
          None [] "float32" false true) /\
  graph_ok g /\ g_inputs g = stage_inputs s /\ map fst (g_outputs g) = stage_outputs s.
Proof.
  unfold demo_stage, stage_inputs, stage_outputs. destruct (s =? N_STAGES - 1)%Z eqn:E.
  - destruct (done_graph_built bucket run_id) as (g & -> & Hok & Hi & Ho). exists g. split; [done|]. split; [done|].
    apply Z.eqb_eq in E. subst s. split; [exact Hi|exact Ho].
  - destruct (stage_graph_built bucket run_id s) as (g & -> & Hok & Hi & Ho). by exists g.
Qed.

(** A run's stages are all of this form. *)
Definition demo_like (s : Z) (stage : PipelineStage) : Prop := exists g,
  stage = mkStage s g None None (if (s =? 0)%Z then [] else [("x", activation, DTYPE)]) [("x", activation, DTYPE)] None [] "float32" false true /\
  graph_ok g /\ g_inputs g = stage_inputs s /\ map fst (g_outputs g) = stage_outputs s.

Lemma demo_fits n e stages : staged demo_like N_STAGES stages -> pipeline_fits (demo_params n e) stages.
Proof.
  intros Hs. apply pipeline_fits_intro; [|done..]. intros stage mb Hin.
  destruct (staged_elem _ _ _ _ Hs Hin) as (s & Hr & _ & g & -> & Hok & Hi & Ho). exists g. split; [done|]. split; [done|].
  rewrite Hi, Ho. cbn [job_input_names job_output_names]. unfold is_head, is_tail, stage_inputs, stage_outputs. cbn [pg_stage_id sp_n_stages demo_params].
  destruct (s =? 0)%Z, (s =? N_STAGES - 1)%Z; done.
Qed.

Lemma demo_typed stages : staged demo_like N_STAGES stages -> pipeline_typed stages.
Proof.
  intros Hs. split.
  - by eapply staged_ids.
  - intros i before stage Hb Hi. destruct (staged_lookup _ _ _ _ _ Hs Hb) as (_ & _ & gb & -> & _).
    destruct (staged_lookup _ _ _ _ _ Hs Hi) as (_ & _ & g & -> & _ & Hg & _).
    exists "x", activation, DTYPE. split; [done|]. split; [|done].
    intros spec Hspec. cbn [pg_forward_input_specs pg_forward_graph] in *. rewrite later_not_head in Hspec.
    apply list_elem_of_singleton in Hspec as ->. split_and!; [done..|]. unfold reads_tensor. rewrite Hg. unfold stage_inputs.
    rewrite later_not_head. by left.
  - intros stage Hin. destruct (staged_elem _ _ _ _ Hs Hin) as (s & _ & _ & g & -> & _). by intros name g'.
Qed.

Lemma demo_stages bucket run_id stages : mapR (demo_stage bucket run_id) (py_range N_STAGES) = Ok stages ->
  staged demo_like N_STAGES stages.
Proof.
  intros E%mapR_Forall2. eapply Forall2_impl; [exact E|]. intros s stage Hs. cbv beta in Hs.
  destruct (demo_stage_built bucket run_id s) as (g & Hg & Hok & Hi & Ho). rewrite Hg in Hs. injection Hs as <-.
  split; [done|]. by exists g.
Qed.

Lemma demo_stages_built bucket run_id : exists stages, mapR (demo_stage bucket run_id) (py_range N_STAGES) = Ok stages.
Proof.
  generalize (py_range N_STAGES) as l. induction l as [|s l [stages IH]]; [by exists []|]. cbn.
  destruct (demo_stage_built bucket run_id s) as (g & -> & _). cbn. rewrite IH. by eexists.
Qed.

(** Whatever the configuration, what the task builds fits. *)
Lemma demo_inputs_fit {S} `{ObjectStore S} (bucket_of : S -> string) run_id s s' inputs :
  build_streaming_inputs bucket_of run_id s = (s', Ok inputs) -> pipeline_fits inputs.2 inputs.1 /\ pipeline_typed inputs.1.
Proof.
  unfold build_streaming_inputs. intros E. apply st_bind_Ok in E as (s1 & c & _ & E). apply st_bind_Ok in E as (s2 & e & _ & E).
  apply st_bind_Ok in E as (s3 & n & _ & E). apply st_bind_Ok in E as (s4 & st & _ & E). apply st_bind_Ok in E as (s5 & stages & Es & E).
  injection E as _ <-. apply st_lift_Ok in Es as [_ Es]. apply demo_stages in Es. cbn [fst snd]. split; [by apply demo_fits|by apply demo_typed].
Qed.

#[export] Instance pipe_demo_fitting {S} `{ObjectStore S} `{Torch} (bucket_of : S -> string) (initial_weights : list tensor) :
  FittingTask (fun _ => True) (pipe_demo bucket_of initial_weights).
Proof. intros run_id s s' inputs E _. exact (demo_inputs_fit _ _ _ _ _ E). Qed.
