(* ===== verification/PipeTrain.v ===== *)
(** * The training pipeline ([teuton_tasks/pipe_train.py])

    A chain of linear stages with forward, backward and update graphs.  The
    random initial weights and the target are parameters. *)

From Stdlib Require Import ZArith Lia Ascii.
From stdpp Require Import base strings list.
From S2P Require Import Prelude PyFloat PyVal Json Signatures Codec Storage StoreReads Tensors Ir Mlp Transport WalletCrypto Emission Streaming StreamingFacts PipelineFit PipeTasks.

Definition D : Z := 512.
Definition B : Z := 4.
Definition T : Z := 8.
Definition N_STAGES : Z := 4.
Definition N_MICROBATCHES : Z := 32.
Definition MAX_EPOCHS : Z := 5.
Definition LR : float := flit 1 (-1).
Definition DTYPE : string := "float32".

Definition activation : list Z := [B; T; D].
Definition square : list Z := [D; D].

Definition synthesized : ST GraphBuilder ref :=
  GraphBuilder_emit "normal" []
    (Some [("seed", PDict (ref_param "mb_seed")); ("shape", PList (map PInt activation)); ("dtype", PStr DTYPE)]) [].

(** The target, broadcast to the shape of an activation. *)
Definition target_btd (target : ref) : ST GraphBuilder ref :=
  t ← GraphBuilder_reshape target [PInt 1; PInt 1; PInt D];
  GraphBuilder_broadcast t (map PInt activation).

Definition fwd_loss (x_out : ref) : ST GraphBuilder unit :=
  target ← GraphBuilder_input "target" [D] DTYPE;
  t ← target_btd target;
  diff ← GraphBuilder_sub x_out t;
  sq ← GraphBuilder_mul diff diff;
  loss_scalar ← GraphBuilder_mean sq PNone false;
  loss ← GraphBuilder_unsqueeze loss_scalar 0;
  GraphBuilder_output "loss" loss.

Definition build_fwd_graph (stage : Z) (is_tail : bool) : result Graph := built (
  _ ← GraphBuilder_param "mb_seed" "int";
  w ← GraphBuilder_input "W" square DTYPE;
  x ← (if (stage =? 0)%Z then synthesized else GraphBuilder_input "x" activation DTYPE);
  x_out ← GraphBuilder_matmul x w;
  _ ← GraphBuilder_output "x" x_out;
  if is_tail then fwd_loss x_out else mret tt).

(** The gradient of the loss at the tail. *)
Definition loss_gradient (x_in w : ref) : ST GraphBuilder ref :=
  target ← GraphBuilder_input "target" [D] DTYPE;
  x_out ← GraphBuilder_matmul x_in w;
  t ← target_btd target;
  let inv_n := GraphBuilder_const (PFloat (fdiv (float_of_Z 2) (float_of_Z (B * T * D)))) in
  d ← GraphBuilder_sub x_out t;
  GraphBuilder_mul d inv_n.

Definition upstream_gradient (w dL_dx_out : ref) : ST GraphBuilder unit :=
  w_t ← GraphBuilder_transpose w [PInt 1; PInt 0];
  dL_dx_in ← GraphBuilder_matmul dL_dx_out w_t;
  GraphBuilder_output "dL_dx_in" dL_dx_in.

Definition build_bwd_graph (is_tail is_head : bool) : result Graph := built (
  _ ← GraphBuilder_param "mb_seed" "int";
  w ← GraphBuilder_input "W" square DTYPE;
  x_in ← (if is_head then synthesized else GraphBuilder_input "x_in" activation DTYPE);
  dL_dx_out ← (if is_tail then loss_gradient x_in w else GraphBuilder_input "dL_dx_out" activation DTYPE);
  dW ← GraphBuilder_einsum x_in dL_dx_out (PStr "btd,bte->de");
  _ ← GraphBuilder_output "dW" dW;
  if is_head then mret tt else upstream_gradient w dL_dx_out).

Definition dW_name (m : Z) : string := "dW_" +:+ py_str_int m.

Definition build_outer_graph (n_microbatches : Z) : result Graph := built (
  w ← GraphBuilder_input "W" square DTYPE;
  dW_inputs ← mapS (fun m => GraphBuilder_input (dW_name m) square DTYPE) (py_range n_microbatches);
  dW_mean ← match dW_inputs with
            | [d] => mret d
            | _ =>
                ds ← mapS (fun d => GraphBuilder_unsqueeze d 0) dW_inputs;
                stacked ← GraphBuilder_stack ds 0;
                s ← GraphBuilder_squeeze stacked 1;
                GraphBuilder_mean s (PInt 0) false
            end;
  step ← GraphBuilder_mul (GraphBuilder_const (PFloat LR)) dW_mean;
  new_w ← GraphBuilder_sub w step;
  GraphBuilder_output "W_new" new_w).

Definition train_stage (outer_g : Graph) (s : Z) : result PipelineStage :=
  let is_tail := (s =? N_STAGES - 1)%Z in
  let is_head := (s =? 0)%Z in
  fwd_g ← build_fwd_graph s is_tail;
  bwd_g ← build_bwd_graph is_tail is_head;
  Ok (mkStage s fwd_g (Some bwd_g) (Some outer_g) (if is_head then [] else [("x", activation, DTYPE)])
        [("x", activation, DTYPE)] (Some "W") square DTYPE is_tail (negb is_head)).

Definition train_params (target_uri : string) (n_microbatches max_epochs : Z) : StreamingParams :=
  mkParams N_STAGES n_microbatches max_epochs [] [] 1200 true (Some target_uri) LR [] 0 [].

Definition target_key (run_id : string) : string := "runs/" +:+ run_id +:+ "/static/target.bin".

Section train.
Context {S : Type} `{ObjectStore S} `{Torch}.
(** [_initial_weights()] and [_make_target()]. *)
Context (initial_weights : list tensor) (target : tensor).

Definition bootstrap (run_id : string) (max_rounds : Z) : ST S unit :=
  _ ← put_document_at (legacy_state_key run_id) (initial_state run_id max_rounds);
  _ ← put_document_at (legacy_manifest_config_key run_id)
        [("task", PStr "pipe_train"); ("n_stages", PInt N_STAGES); ("d", PInt D); ("B", PInt B); ("T", PInt T);
         ("n_microbatches", PInt N_MICROBATCHES); ("max_epochs", PInt max_rounds); ("lr", PFloat LR)];
  _ ← mapS (fun sw : Z * tensor => put_tensor_at (first_weights_key run_id sw.1) sw.2) (enumerate initial_weights);
  put_tensor_at (target_key run_id) target.

Definition build_streaming_inputs (run_id : string) : ST S (list PipelineStage * StreamingParams) :=
  cfg ← read_task_config run_id;
  max_epochs ← st_lift (int_or cfg "max_epochs" MAX_EPOCHS);
  n_microbatches ← st_lift (int_or cfg "n_microbatches" N_MICROBATCHES);
  outer_g ← st_lift (build_outer_graph n_microbatches);
  stages ← st_lift (mapR (train_stage outer_g) (py_range N_STAGES));
  target_uri ← uri_of (target_key run_id);
  mret (stages, train_params target_uri n_microbatches max_epochs).

Definition pipe_train : StreamingTask S := mkStreamingTask bootstrap build_streaming_inputs.
End train.

(** ** The graphs *)

Abbreviation tensor_in name shape := (mkTensorSpec name shape DTYPE).

Lemma target_emits target : builds (target_btd target) [] [] [] (fun _ => True).
Proof. unfold target_btd. follow_ops. by apply emits_emit. Qed.

Definition fwd_inputs (head tail : bool) : list TensorSpec :=
  tensor_in "W" square :: (if head then [] else [tensor_in "x" activation]) ++ (if tail then [tensor_in "target" [D]] else []).

Lemma train_fwd_built stage tail : exists g, build_fwd_graph stage tail = Ok g /\ graph_ok g /\
  g_inputs g = fwd_inputs (stage =? 0)%Z tail /\ map fst (g_outputs g) = "x" :: (if tail then ["loss"] else []).
Proof.
  apply (built_spec _ _ _ ["mb_seed"] (fun _ => True)); [|by destruct (stage =? 0)%Z, tail; distinct_names|apply NoDup_singleton].
  apply (builds_bind _ _ [] _ [] _ ["mb_seed"] [] _ _ (builds_param _ _)). intros _ _.
  apply (builds_bind _ _ [tensor_in "W" square] _ [] _ [] [] _ _ (builds_input _ _ _)). intros w _.
  apply (builds_bind _ _ (if (stage =? 0)%Z then [] else [tensor_in "x" activation]) _ [] _ [] [] (fun _ : ref => True)).
  { destruct (stage =? 0)%Z; [by apply emits_emit|]. eapply builds_weaken; [apply builds_input|done]. }
  intros x _. follow_ops.
  apply (builds_bind _ _ [] _ ["x"] _ [] [] _ _ (builds_output _ _)). intros _ _.
  destruct tail; [|by apply builds_ret]. unfold fwd_loss.
  apply (builds_bind _ _ [tensor_in "target" [D]] [] [] _ [] [] _ _ (builds_input _ _ _)). intros t _.
  eapply emits_bind; [apply target_emits|intros ? _]. follow_ops. apply builds_output.
Qed.

Definition bwd_inputs (head tail : bool) : list TensorSpec :=
  tensor_in "W" square :: (if head then [] else [tensor_in "x_in" activation]) ++
  (if tail then [tensor_in "target" [D]] else [tensor_in "dL_dx_out" activation]).

Lemma train_bwd_built tail head : exists g, build_bwd_graph tail head = Ok g /\ graph_ok g /\
  g_inputs g = bwd_inputs head tail /\ map fst (g_outputs g) = "dW" :: (if head then [] else ["dL_dx_in"]).
Proof.
  apply (built_spec _ _ _ ["mb_seed"] (fun _ => True)); [|by destruct head, tail; distinct_names|apply NoDup_singleton].
  apply (builds_bind _ _ [] _ [] _ ["mb_seed"] [] _ _ (builds_param _ _)). intros _ _.
  apply (builds_bind _ _ [tensor_in "W" square] _ [] _ [] [] _ _ (builds_input _ _ _)). intros w _.
  apply (builds_bind _ _ (if head then [] else [tensor_in "x_in" activation]) _ [] _ [] [] (fun _ : ref => True)).
  { destruct head; [by apply emits_emit|]. eapply builds_weaken; [apply builds_input|done]. }
  intros x _. rewrite <- (app_nil_r (if tail then _ else _)).
  apply (builds_bind _ _ _ [] [] _ [] [] (fun _ : ref => True)).
  { destruct tail; [|eapply builds_weaken; [apply builds_input|done]]. unfold loss_gradient.
    apply (builds_bind _ _ [tensor_in "target" [D]] [] [] [] [] [] _ _ (builds_input _ _ _)). intros t _.
    follow_ops. eapply emits_bind; [apply target_emits|intros ? _]. cbv zeta. follow_ops. by apply emits_emit. }
  intros dx _. follow_ops. apply (builds_bind _ _ [] _ ["dW"] _ [] [] _ _ (builds_output _ _)). intros _ _.
  destruct head; [by apply builds_ret|]. unfold upstream_gradient. follow_ops. apply builds_output.
Qed.

Definition outer_inputs (n : Z) : list TensorSpec :=
  tensor_in "W" square :: map (fun m => tensor_in (dW_name m) square) (py_range n).

Lemma train_outer_names n : NoDup (map ts_name (outer_inputs n)).
Proof. cbn [outer_inputs map ts_name]. rewrite map_map. apply (weights_names_distinct "W" n). done. Qed.

Lemma train_outer_built n : exists g, build_outer_graph n = Ok g /\ graph_ok g /\
  g_inputs g = outer_inputs n /\ map fst (g_outputs g) = ["W_new"].
Proof.
  apply (built_spec _ _ _ [] (fun _ => True)); [|apply train_outer_names|apply NoDup_nil_2].
  apply (builds_bind _ _ [tensor_in "W" square] _ [] _ [] [] _ _ (builds_input _ _ _)). intros w _.
  rewrite <- (app_nil_r (map _ (py_range n))).
  apply (builds_bind _ _ _ [] [] _ [] [] _ _ (builds_inputs _ (fun m => tensor_in (dW_name m) square) (fun _ => True) (py_range n)
    (fun m => builds_weaken _ _ _ _ _ _ (builds_input _ _ _) (fun _ _ => I)))). intros ds _.
  eapply (emits_bind _ _ _ _ _ (fun _ => True)).
  { assert (emits_ops (ds ← mapS (fun d => GraphBuilder_unsqueeze d 0) ds; stacked ← GraphBuilder_stack ds 0;
      s ← GraphBuilder_squeeze stacked 1; GraphBuilder_mean s (PInt 0) false) (fun _ => True)) as Hmean.
    { eapply emits_bind; [apply (emits_mapS _ (fun _ => True) (fun _ => True)); [|by apply Forall_true]; intros d _; by apply emits_emit|].
      intros us _. follow_ops. by apply emits_emit. }
    destruct ds as [|d [|d' ds]]; [exact Hmean|by apply builds_ret|exact Hmean]. }
  intros mean _. follow_ops. apply builds_output.
Qed.

(** A run's stages are all of this form. *)
Definition train_like (n s : Z) (stage : PipelineStage) : Prop := exists gf gb go,
  let head := (s =? 0)%Z in let tail := (s =? N_STAGES - 1)%Z in
  stage = mkStage s gf (Some gb) (Some go) (if head then [] else [("x", activation, DTYPE)]) [("x", activation, DTYPE)]
            (Some "W") square DTYPE tail (negb head) /\
  (graph_ok gf /\ g_inputs gf = fwd_inputs head tail /\ map fst (g_outputs gf) = "x" :: (if tail then ["loss"] else [])) /\
  (graph_ok gb /\ g_inputs gb = bwd_inputs head tail /\ map fst (g_outputs gb) = "dW" :: (if head then [] else ["dL_dx_in"])) /\
  (graph_ok go /\ g_inputs go = outer_inputs n /\ map fst (g_outputs go) = ["W_new"]).

Lemma train_fits uri n e stages : uri <> EmptyString -> staged (train_like n) N_STAGES stages ->
  pipeline_fits (train_params uri n e) stages.
Proof.
  intros Hu Hs. assert (given (Some uri) = Some uri) as Eu by (cbn; by rewrite (proj2 (String.eqb_neq _ _) Hu)).
  apply pipeline_fits_intro.
  - intros stage mb Hin. destruct (staged_elem _ _ _ _ Hs Hin) as (s & _ & _ & gf & gb & go & -> & (Hok & Hi & Ho) & _).
    exists gf. split; [done|]. split; [done|]. rewrite Hi, Ho. unfold job_input_names, job_output_names, is_head, is_tail, target_refs, static_refs.
    cbn [pg_stage_id sp_n_stages train_params pg_weights_input_name pg_forward_input_specs pg_forward_output_specs sp_training
         sp_target_static_uri sp_static_inputs omap list_omap]. rewrite Eu. unfold is_tail. cbn [pg_stage_id sp_n_stages train_params].
    unfold fwd_inputs. destruct (s =? 0)%Z, (s =? N_STAGES - 1)%Z; cbn; split; first [done|apply Permutation_swap].
  - intros _ stage mb g Hin _. destruct (staged_elem _ _ _ _ Hs Hin) as (s & _ & _ & gf & gb & go & -> & _ & (Hok & Hi & Ho) & _).
    exists gb. split; [done|]. split; [done|]. rewrite Hi, Ho. unfold job_input_names, job_output_names, is_head, is_tail, target_refs, static_refs.
    cbn [pg_stage_id sp_n_stages train_params pg_weights_input_name pg_backward_emits_dx_in sp_training
         sp_target_static_uri sp_static_inputs omap list_omap]. rewrite Eu. unfold is_tail. cbn [pg_stage_id sp_n_stages train_params].
    unfold bwd_inputs. destruct (s =? 0)%Z, (s =? N_STAGES - 1)%Z; done.
  - intros _ stage g Hin _. destruct (staged_elem _ _ _ _ Hs Hin) as (s & _ & _ & gf & gb & go & -> & _ & _ & Hok & Hi & Ho).
    exists go. split; [done|]. split; [done|]. rewrite Hi, Ho. split; [|done]. cbn. by rewrite map_map.
Qed.

Lemma reads_input (g : Graph) ins name shape : g_inputs g = ins -> tensor_in name shape ∈ ins -> reads_tensor g name shape DTYPE.
Proof. intros <-. done. Qed.

Lemma train_typed n stages : staged (train_like n) N_STAGES stages -> pipeline_typed stages.
Proof.
  intros Hs. split.
  - by eapply staged_ids.
  - intros i before stage Hb Hi. destruct (staged_lookup _ _ _ _ _ Hs Hb) as (_ & _ & b1 & b2 & b3 & -> & _).
    destruct (staged_lookup _ _ _ _ _ Hs Hi) as (_ & _ & gf & gb & go & -> & (_ & Hf & _) & (_ & Hg & _) & _).
    exists "x", activation, DTYPE. rewrite later_not_head in *. split; [done|]. split.
    + intros spec Hspec%list_elem_of_singleton. subst spec. split_and!; [done..|]. eapply reads_input; [exact Hf|]. right. left.
    + intros g [= <-]. eapply reads_input; [exact Hg|]. right. left.
  - intros stage Hin. destruct (staged_elem _ _ _ _ Hs Hin) as (s & _ & _ & gf & gb & go & -> & (_ & Hf & _) & (_ & Hg & _) & _ & Ho & _).
    intros name g [= <-] Hg'. unfold stage_graphs in Hg'. cbn [pg_forward_graph pg_backward_graph pg_outer_graph] in Hg'.
    rewrite !elem_of_cons, elem_of_nil in Hg'. destruct Hg' as [[= ->]|[[= ->]|[[= ->]|[]]]].
    + eapply reads_input; [exact Hf|left].
    + eapply reads_input; [exact Hg|left].
    + eapply reads_input; [exact Ho|left].
Qed.

Lemma train_stage_built n outer_g : graph_ok outer_g -> g_inputs outer_g = outer_inputs n -> map fst (g_outputs outer_g) = ["W_new"] ->
  forall s, exists stage, train_stage outer_g s = Ok stage /\ pg_stage_id stage = s /\ train_like n s stage.
Proof.
  intros H1 H2 H3 s. unfold train_stage. destruct (train_fwd_built s (s =? N_STAGES - 1)%Z) as (gf & -> & Hf).
  destruct (train_bwd_built (s =? N_STAGES - 1)%Z (s =? 0)%Z) as (gb & -> & Hb). eexists. split; [done|]. split; [done|].
  by exists gf, gb, outer_g.
Qed.

(** Whatever the configuration, what the task builds fits. *)
Lemma train_inputs_fit {S} `{ObjectStoreLaws S} run_id s s' inputs :
  build_streaming_inputs run_id s = (s', Ok inputs) -> pipeline_fits inputs.2 inputs.1 /\ pipeline_typed inputs.1.
Proof.
  unfold build_streaming_inputs. intros E. apply st_bind_Ok in E as (s1 & c & _ & E). apply st_bind_Ok in E as (s2 & e & _ & E).
  apply st_bind_Ok in E as (s3 & n & _ & E). apply st_bind_Ok in E as (s4 & go & Eg & E). apply st_lift_Ok in Eg as [_ Eg].
  apply st_bind_Ok in E as (s5 & stages & Es & E). apply st_lift_Ok in Es as [_ Es]. apply st_bind_Ok in E as (s6 & uri & Eu & E).
  injection E as _ <-. destruct (train_outer_built n) as (go' & Ego & Ho1 & Ho2 & Ho3). rewrite Ego in Eg. injection Eg as ->.
  assert (staged (train_like n) N_STAGES stages) as Hs.
  { eapply Forall2_impl; [exact (mapR_Forall2 _ _ _ Es)|]. intros i stage Hi. cbv beta in Hi.
    destruct (train_stage_built n go Ho1 Ho2 Ho3 i) as (st & Hst & Hst'). rewrite Hst in Hi. by injection Hi as <-. }
  cbn [fst snd]. split; [|by eapply train_typed]. apply train_fits; [|done]. by eapply uri_of_nonempty.
Qed.

#[export] Instance pipe_train_fitting {S} `{ObjectStoreLaws S} `{Torch} (initial_weights : list tensor) (target : tensor) :
  FittingTask (fun _ => True) (pipe_train initial_weights target).
Proof. intros run_id s s' inputs E _. exact (train_inputs_fit _ _ _ _ E). Qed.

(** ** The run *)


(** *** An example: a fresh run *)

#[local] Existing Instances byte_torch no_signatures.

Definition train_start : ST (streamer LocalBucket) (list PipelineStage * StreamingParams) :=
  StreamingRunManager_bootstrap pipe_cfg (pipe_train (S := LocalBucket) ["w0"; "w1"; "w2"; "w3"] "t").

Lemma train_starts : match snd (train_start pipe_start) with Ok inputs => length inputs.1 = 4%nat | Err _ => False end.
Proof. vm_compute. reflexivity. Qed.

