(* ===== verification/GptPipe.v ===== *)
(** * The GPT pipeline ([teuton_tasks/gpt_pipe.py])

    A transformer cut into stages, with hand-written forward, backward and
    update graphs.  The module's globals are a record: [bootstrap] sets them
    from the environment, [build_streaming_inputs] from the configuration of the
    run, and every graph depends on them.  A stage's weights travel as one blob,
    whose layout [stage_param_sizes] fixes.  Random tensors are parameters.
    The forward graphs, the blocks and the layout are here; [GptTrain] has the
    backward and update graphs and the task. *)

From Stdlib Require Import ZArith Lia Ascii SpecFloat.
From stdpp Require Import base strings list.
From S2P Require Import Prelude PyFloat PyVal Json Signatures Codec Storage StoreReads Tensors Ir Mlp Streaming StreamingFacts PipelineFit PipeTasks.

(** ** The module's globals *)

(** The integer ones. *)
Inductive dim :=
  | VOCAB | D | N_HEAD | D_FF | T | B | N_STAGES | N_BLOCKS_PER_STAGE | N_MICROBATCHES | MAX_EPOCHS | K_INNER.

#[export] Instance dim_eq_dec : EqDecision dim.
Proof. solve_decision. Defined.

Record globals := mkGlobals {
  g_dim : dim -> Z;
  g_LR : float;
  g_SUBSPACE_K : option Z;
  g_SUBSPACE_K_DY : option Z;
  g_WIRE_INT8 : bool;
  g_TIED_EMBED : bool;
  g_LOCO_ETA_INNER : float;
  g_LOCO_ETA_OUT : float
}.

Definition default_dim (d : dim) : Z :=
  match d with
  | VOCAB => 50304 | D => 384 | N_HEAD => 6 | D_FF => 1024 | T => 128 | B => 4 | N_STAGES => 4
  | N_BLOCKS_PER_STAGE => 1 | N_MICROBATCHES => 16 | MAX_EPOCHS => 5 | K_INNER => 1
  end.

Definition default_globals : globals := mkGlobals default_dim (flit 3 (-4)) None None false false fzero fone.

Definition set_dim (d : dim) (z : Z) (g : globals) : globals :=
  mkGlobals (fun d' => if decide (d' = d) then z else g_dim g d') (g_LR g) (g_SUBSPACE_K g) (g_SUBSPACE_K_DY g)
    (g_WIRE_INT8 g) (g_TIED_EMBED g) (g_LOCO_ETA_INNER g) (g_LOCO_ETA_OUT g).
Definition set_LR (x : float) (g : globals) : globals :=
  mkGlobals (g_dim g) x (g_SUBSPACE_K g) (g_SUBSPACE_K_DY g) (g_WIRE_INT8 g) (g_TIED_EMBED g) (g_LOCO_ETA_INNER g) (g_LOCO_ETA_OUT g).
Definition set_SUBSPACE_K (k : option Z) (g : globals) : globals :=
  mkGlobals (g_dim g) (g_LR g) k (g_SUBSPACE_K_DY g) (g_WIRE_INT8 g) (g_TIED_EMBED g) (g_LOCO_ETA_INNER g) (g_LOCO_ETA_OUT g).
Definition set_SUBSPACE_K_DY (k : option Z) (g : globals) : globals :=
  mkGlobals (g_dim g) (g_LR g) (g_SUBSPACE_K g) k (g_WIRE_INT8 g) (g_TIED_EMBED g) (g_LOCO_ETA_INNER g) (g_LOCO_ETA_OUT g).
Definition set_WIRE_INT8 (b : bool) (g : globals) : globals :=
  mkGlobals (g_dim g) (g_LR g) (g_SUBSPACE_K g) (g_SUBSPACE_K_DY g) b (g_TIED_EMBED g) (g_LOCO_ETA_INNER g) (g_LOCO_ETA_OUT g).
Definition set_TIED_EMBED (b : bool) (g : globals) : globals :=
  mkGlobals (g_dim g) (g_LR g) (g_SUBSPACE_K g) (g_SUBSPACE_K_DY g) (g_WIRE_INT8 g) b (g_LOCO_ETA_INNER g) (g_LOCO_ETA_OUT g).
Definition set_LOCO_ETA_INNER (x : float) (g : globals) : globals :=
  mkGlobals (g_dim g) (g_LR g) (g_SUBSPACE_K g) (g_SUBSPACE_K_DY g) (g_WIRE_INT8 g) (g_TIED_EMBED g) x (g_LOCO_ETA_OUT g).
Definition set_LOCO_ETA_OUT (x : float) (g : globals) : globals :=
  mkGlobals (g_dim g) (g_LR g) (g_SUBSPACE_K g) (g_SUBSPACE_K_DY g) (g_WIRE_INT8 g) (g_TIED_EMBED g) (g_LOCO_ETA_INNER g) x.

Definition TOKENS_URI : string := "".
Definition DTYPE : string := "float32".
Definition EPS : float := flit 1 (-5).

(** [x / y] on floats, [math.sqrt] of an integer. *)
Definition py_truediv (x y : float) : result float :=
  if feqb y fzero then Err (ZeroDivisionError "float division by zero") else Ok (fdiv x y).

Definition math_sqrt (z : Z) : result float :=
  x ← float_of_int z;
  if (z <? 0)%Z then Err (ValueError "math domain error") else Ok (SFsqrt prec emax x).

(** Where the graphs find the run's constants: the [bucket] and [run_id]
    arguments, which may be missing. *)
Record site := mkSite { at_uri_for_key : string -> string; at_run_id : string }.

Definition static_uri (at_ : site) (name : string) : string :=
  at_uri_for_key at_ ("runs/" +:+ at_run_id at_ +:+ "/static/" +:+ name).

Definition ints (l : list Z) : list pyval := map PInt l.

(** [P[name]]. *)
Definition param_of (P : dict ref) (name : string) : ST GraphBuilder ref :=
  st_lift (of_option (KeyError name) (dict_get name P)).

(** The two results of an operation. *)
Definition two (l : list ref) : result (ref * ref) :=
  match l with [a; b] => Ok (a, b) | _ => Err (ValueError "not enough values to unpack (expected 2)") end.

Section graphs.
Context (g : globals).

Local Notation "# d" := (g_dim g d) (at level 1, format "# d").

(** ** The layout of a stage's weights *)

Definition single_block_param_sizes : list (string * list Z) :=
  [("g_norm1", [#D]); ("W_qkv", [#D; 3 * #D]%Z); ("W_o", [#D; #D]); ("g_norm2", [#D]);
   ("W_ffn1", [#D; #D_FF]); ("W_ffn2", [#D; #D_FF]); ("W_ffn3", [#D_FF; #D])].

Definition block_suffix (b : Z) : string := "_b" +:+ py_str_int b.

Definition block_param_sizes : list (string * list Z) :=
  flat_map (fun b => map (fun e => (e.1 +:+ block_suffix b, e.2)) single_block_param_sizes) (py_range #N_BLOCKS_PER_STAGE).

Definition block_names_for_stage : list string :=
  flat_map (fun b => map (fun e => e.1 +:+ block_suffix b) single_block_param_sizes) (py_range #N_BLOCKS_PER_STAGE).

Definition head_extra_sizes : list (string * list Z) :=
  if g_TIED_EMBED g then [("pos_emb", [#T; #D])] else [("tok_emb", [#VOCAB; #D]); ("pos_emb", [#T; #D])].

Definition tail_extra_sizes : list (string * list Z) :=
  if g_TIED_EMBED g then [("g_norm_f", [#D])] else [("g_norm_f", [#D]); ("W_lm", [#D; #VOCAB])].

Definition stage_param_sizes (stage n_stages : Z) : list (string * list Z) :=
  (if (stage =? 0)%Z then head_extra_sizes else []) ++ block_param_sizes ++
  (if (stage =? n_stages - 1)%Z then tail_extra_sizes else []).

Definition stage_total_numel (stage n_stages : Z) : Z :=
  fold_left Z.add (map (fun e => product e.2) (stage_param_sizes stage n_stages)) 0%Z.

Definition bind_tok_emb (at_ : site) : ref :=
  GraphBuilder_const_blob (static_uri at_ "tok_emb.bin") [#VOCAB; #D] DTYPE.

Definition wire_dim : Z := match g_SUBSPACE_K g with Some k => k | None => #D end.

Definition project_in_ir (x u_k : ref) : ST GraphBuilder ref := GraphBuilder_matmul x u_k.

Definition unproject_in_ir (x_proj u_k : ref) : ST GraphBuilder ref :=
  u_t ← GraphBuilder_transpose u_k (ints [1; 0]%Z); GraphBuilder_matmul x_proj u_t.

(** Called only where [SUBSPACE_K] is set, as [k]. *)
Definition bind_uk (at_ : site) (k : Z) (dy : bool) : ref :=
  if dy then GraphBuilder_const_blob (static_uri at_ "u_k_dy.bin") [#D; default k (g_SUBSPACE_K_DY g)] DTYPE
  else GraphBuilder_const_blob (static_uri at_ "u_k.bin") [#D; k] DTYPE.

(** Slices and reshapes the blob, parameter by parameter. *)
Fixpoint split_blob (sizes : list (string * list Z)) (offset : Z) (blob : ref) (out : dict ref) : ST GraphBuilder (dict ref) :=
  match sizes with
  | [] => mret out
  | (name, shape) :: sizes' =>
      let n := product shape in
      s ← GraphBuilder_slice blob 0 (PInt offset) (PInt (offset + n));
      s' ← GraphBuilder_reshape s (ints shape);
      split_blob sizes' (offset + n) blob (dict_set name s' out)
  end.

Definition split_blob_in_ir (blob : ref) (stage n_stages : Z) : ST GraphBuilder (dict ref) :=
  split_blob (stage_param_sizes stage n_stages) 0 blob [].

(** ** Blocks *)

(** [y, rstd, x_hat]. *)
Definition rmsnorm_fwd (x gain : ref) : ST GraphBuilder (ref * ref * ref) :=
  x2 ← GraphBuilder_mul x x;
  ms ← GraphBuilder_mean x2 (PInt (-1)) true;
  let eps_c := GraphBuilder_const (PFloat EPS) in
  shifted ← GraphBuilder_add ms eps_c;
  root ← GraphBuilder_sqrt shifted;
  rstd ← GraphBuilder_div (GraphBuilder_const (PFloat fone)) root;
  x_hat ← GraphBuilder_mul x rstd;
  g3 ← GraphBuilder_reshape gain (ints [1; 1; #D]%Z);
  g_btd ← GraphBuilder_broadcast g3 (ints [#B; #T; #D]);
  y ← GraphBuilder_mul x_hat g_btd;
  mret (y, rstd, x_hat).

(** [dx, dg]. *)
Definition rmsnorm_bwd (dy gain rstd x_hat : ref) : ST GraphBuilder (ref * ref) :=
  g3 ← GraphBuilder_reshape gain (ints [1; 1; #D]%Z);
  g_btd ← GraphBuilder_broadcast g3 (ints [#B; #T; #D]);
  dxh ← GraphBuilder_mul dy g_btd;
  prod ← GraphBuilder_mul dxh x_hat;
  dotmean ← GraphBuilder_mean prod (PInt (-1)) true;
  scaled ← GraphBuilder_mul x_hat dotmean;
  inner ← GraphBuilder_sub dxh scaled;
  dx ← GraphBuilder_mul rstd inner;
  dg_per ← GraphBuilder_mul dy x_hat;
  dg_sum ← GraphBuilder_sum dg_per (PInt 0) false;
  dg ← GraphBuilder_sum dg_sum (PInt 0) false;
  mret (dx, dg).

(** [dh = D // H], [scale = 1 / sqrt(dh)]. *)
Definition head_width : result Z :=
  if (#N_HEAD =? 0)%Z then Err (ZeroDivisionError "integer division or modulo by zero") else Ok (#D / #N_HEAD)%Z.

Definition attn_scale : result float := dh ← head_width; root ← math_sqrt dh; py_truediv fone root.

Record attn_saved := mkAttn {
  as_q : ref; as_k : ref; as_v : ref; as_attn : ref; as_h : ref; as_scale : float; as_x : ref; as_W_qkv : ref; as_W_o : ref
}.

(** One of the three slices of [qkv]. *)
Definition qkv_part (qkv : ref) (i dh : Z) : ST GraphBuilder ref :=
  p ← GraphBuilder_emit "slice" [qkv] (Some [("dim", PInt 0); ("start", PInt i); ("end", PInt (i + 1))]) [];
  GraphBuilder_reshape p (ints [#B; #N_HEAD; #T; dh]).

(** The causal mask, added to the scores. *)
Definition causal_mask : ST GraphBuilder ref :=
  big_neg ← GraphBuilder_full (ints [#T; #T]) (PFloat (fneg (float_of_Z 1000000000))) (PStr DTYPE);
  mask ← GraphBuilder_triu big_neg 1;
  m ← GraphBuilder_reshape mask (ints [1; 1; #T; #T]%Z);
  GraphBuilder_broadcast m (ints [#B; #N_HEAD; #T; #T]).

Definition attn_fwd (x W_qkv W_o : ref) : ST GraphBuilder (ref * attn_saved) :=
  dh ← st_lift head_width;
  scale ← st_lift attn_scale;
  qkv0 ← GraphBuilder_matmul x W_qkv;
  qkv1 ← GraphBuilder_reshape qkv0 (ints [#B; #T; 3; #N_HEAD; dh]%Z);
  qkv ← GraphBuilder_transpose qkv1 (ints [2; 0; 3; 1; 4]%Z);
  q ← qkv_part qkv 0 dh;
  k ← qkv_part qkv 1 dh;
  v ← qkv_part qkv 2 dh;
  k_t ← GraphBuilder_transpose k (ints [0; 1; 3; 2]%Z);
  scores0 ← GraphBuilder_matmul q k_t;
  scores1 ← GraphBuilder_mul scores0 (GraphBuilder_const (PFloat scale));
  mask4 ← causal_mask;
  scores ← GraphBuilder_add scores1 mask4;
  attn ← GraphBuilder_softmax scores (-1);
  h0 ← GraphBuilder_matmul attn v;
  h1 ← GraphBuilder_transpose h0 (ints [0; 2; 1; 3]%Z);
  h ← GraphBuilder_reshape h1 (ints [#B; #T; #D]);
  y ← GraphBuilder_matmul h W_o;
  mret (y, mkAttn q k v attn h scale x W_qkv W_o).

(** [dx, dW_qkv, dW_o]. *)
Definition attn_bwd (dy : ref) (saved : attn_saved) : ST GraphBuilder (ref * ref * ref) :=
  dh ← st_lift head_width;
  W_o_t ← GraphBuilder_transpose (as_W_o saved) (ints [1; 0]%Z);
  dh_flat ← GraphBuilder_matmul dy W_o_t;
  dW_o ← GraphBuilder_einsum (as_h saved) dy (PStr "btd,bte->de");
  dh_r ← GraphBuilder_reshape dh_flat (ints [#B; #T; #N_HEAD; dh]);
  dh_4 ← GraphBuilder_transpose dh_r (ints [0; 2; 1; 3]%Z);
  attn_t ← GraphBuilder_transpose (as_attn saved) (ints [0; 1; 3; 2]%Z);
  dv ← GraphBuilder_matmul attn_t dh_4;
  v_t ← GraphBuilder_transpose (as_v saved) (ints [0; 1; 3; 2]%Z);
  dattn ← GraphBuilder_matmul dh_4 v_t;
  da_a ← GraphBuilder_mul dattn (as_attn saved);
  s ← GraphBuilder_sum da_a (PInt (-1)) true;
  centered ← GraphBuilder_sub dattn s;
  dscores0 ← GraphBuilder_mul (as_attn saved) centered;
  dscores ← GraphBuilder_mul dscores0 (GraphBuilder_const (PFloat (as_scale saved)));
  dq ← GraphBuilder_matmul dscores (as_k saved);
  dscores_t ← GraphBuilder_transpose dscores (ints [0; 1; 3; 2]%Z);
  dk ← GraphBuilder_matmul dscores_t (as_q saved);
  dqkv0 ← GraphBuilder_stack [dq; dk; dv] 0;
  dqkv ← GraphBuilder_transpose dqkv0 (ints [1; 3; 0; 2; 4]%Z);
  dqkv_flat ← GraphBuilder_reshape dqkv (ints [#B; #T; 3 * #D]%Z);
  dW_qkv ← GraphBuilder_einsum (as_x saved) dqkv_flat (PStr "btd,bte->de");
  W_qkv_t ← GraphBuilder_transpose (as_W_qkv saved) (ints [1; 0]%Z);
  dx ← GraphBuilder_matmul dqkv_flat W_qkv_t;
  mret (dx, dW_qkv, dW_o).

Record ffn_saved := mkFfn {
  fs_x : ref; fs_h1 : ref; fs_h2 : ref; fs_s : ref; fs_g : ref; fs_W1 : ref; fs_W2 : ref; fs_W3 : ref
}.

Definition ffn_fwd (x W1 W2 W3 : ref) : ST GraphBuilder (ref * ffn_saved) :=
  h1 ← GraphBuilder_matmul x W1;
  h2 ← GraphBuilder_matmul x W2;
  s ← GraphBuilder_silu h1;
  gated ← GraphBuilder_mul s h2;
  out ← GraphBuilder_matmul gated W3;
  mret (out, mkFfn x h1 h2 s gated W1 W2 W3).

(** [1] in the shape of the hidden layer. *)
Definition ones_hidden : ST GraphBuilder ref :=
  o ← GraphBuilder_reshape (GraphBuilder_const (PFloat fone)) (ints [1; 1; 1]%Z);
  GraphBuilder_broadcast o (ints [#B; #T; #D_FF]).

(** [dx, dW1, dW2, dW3]. *)
Definition ffn_bwd (dy : ref) (saved : ffn_saved) : ST GraphBuilder (ref * ref * ref * ref) :=
  W3_t ← GraphBuilder_transpose (fs_W3 saved) (ints [1; 0]%Z);
  dg ← GraphBuilder_matmul dy W3_t;
  dW3 ← GraphBuilder_einsum (fs_g saved) dy (PStr "btf,btd->fd");
  ds ← GraphBuilder_mul dg (fs_h2 saved);
  dh2 ← GraphBuilder_mul dg (fs_s saved);
  sig ← GraphBuilder_sigmoid (fs_h1 saved);
  one1 ← ones_hidden;
  one_minus_sig ← GraphBuilder_sub one1 sig;
  one2 ← ones_hidden;
  weighted ← GraphBuilder_mul (fs_h1 saved) one_minus_sig;
  inner ← GraphBuilder_add one2 weighted;
  dsilu ← GraphBuilder_mul sig inner;
  dh1 ← GraphBuilder_mul ds dsilu;
  dW1 ← GraphBuilder_einsum (fs_x saved) dh1 (PStr "btd,btf->df");
  dW2 ← GraphBuilder_einsum (fs_x saved) dh2 (PStr "btd,btf->df");
  W1_t ← GraphBuilder_transpose (fs_W1 saved) (ints [1; 0]%Z);
  W2_t ← GraphBuilder_transpose (fs_W2 saved) (ints [1; 0]%Z);
  d1 ← GraphBuilder_matmul dh1 W1_t;
  d2 ← GraphBuilder_matmul dh2 W2_t;
  dx ← GraphBuilder_add d1 d2;
  mret (dx, dW1, dW2, dW3).

(** What a block keeps for its backward pass. *)
Record block_saved := mkBlock {
  bs_suffix : string; bs_x_in : ref; bs_x_post_attn : ref; bs_rstd1 : ref; bs_xhat1 : ref; bs_rstd2 : ref; bs_xhat2 : ref;
  bs_attn : attn_saved; bs_ffn : ffn_saved
}.

Definition single_block_fwd (x_in : ref) (P : dict ref) (s : string) : ST GraphBuilder (ref * block_saved) :=
  g_norm1 ← param_of P ("g_norm1" +:+ s);
  n1 ← rmsnorm_fwd x_in g_norm1;
  W_qkv ← param_of P ("W_qkv" +:+ s);
  W_o ← param_of P ("W_o" +:+ s);
  attn ← attn_fwd n1.1.1 W_qkv W_o;
  x_post_attn ← GraphBuilder_add x_in attn.1;
  g_norm2 ← param_of P ("g_norm2" +:+ s);
  n2 ← rmsnorm_fwd x_post_attn g_norm2;
  W1 ← param_of P ("W_ffn1" +:+ s);
  W2 ← param_of P ("W_ffn2" +:+ s);
  W3 ← param_of P ("W_ffn3" +:+ s);
  ffn ← ffn_fwd n2.1.1 W1 W2 W3;
  x_out ← GraphBuilder_add x_post_attn ffn.1;
  mret (x_out, mkBlock s x_in x_post_attn n1.1.2 n1.2 n2.1.2 n2.2 attn.2 ffn.2).

(** Gradients of the block's parameters and of its input. *)
Definition single_block_bwd (dy : ref) (saved : block_saved) (P : dict ref) : ST GraphBuilder (dict ref * ref) :=
  let s := bs_suffix saved in
  f ← ffn_bwd dy (bs_ffn saved);
  let '(dn2, dW_ffn1, dW_ffn2, dW_ffn3) := f in
  g_norm2 ← param_of P ("g_norm2" +:+ s);
  n2 ← rmsnorm_bwd dn2 g_norm2 (bs_rstd2 saved) (bs_xhat2 saved);
  dx_post_attn_total ← GraphBuilder_add dy n2.1;
  a ← attn_bwd dx_post_attn_total (bs_attn saved);
  let '(dn1, dW_qkv, dW_o) := a in
  g_norm1 ← param_of P ("g_norm1" +:+ s);
  n1 ← rmsnorm_bwd dn1 g_norm1 (bs_rstd1 saved) (bs_xhat1 saved);
  dx_in_total ← GraphBuilder_add dx_post_attn_total n1.1;
  mret (dict_update []
          [("g_norm1" +:+ s, n1.2); ("W_qkv" +:+ s, dW_qkv); ("W_o" +:+ s, dW_o); ("g_norm2" +:+ s, n2.2);
           ("W_ffn1" +:+ s, dW_ffn1); ("W_ffn2" +:+ s, dW_ffn2); ("W_ffn3" +:+ s, dW_ffn3)], dx_in_total).

(** The blocks [bs] of a stage, in order. *)
Fixpoint blocks_fwd (bs : list Z) (x : ref) (P : dict ref) (saved_list : list block_saved) : ST GraphBuilder (ref * list block_saved) :=
  match bs with
  | [] => mret (x, saved_list)
  | b :: bs' => r ← single_block_fwd x P (block_suffix b); blocks_fwd bs' r.1 P (saved_list ++ [r.2])
  end.

Definition block_fwd_full (x_in : ref) (P : dict ref) : ST GraphBuilder (ref * list block_saved) :=
  blocks_fwd (py_range #N_BLOCKS_PER_STAGE) x_in P [].

Fixpoint blocks_bwd (bs : list Z) (dy : ref) (saved_list : list block_saved) (P : dict ref) (dgrads_all : dict ref)
    : ST GraphBuilder (dict ref * ref) :=
  match bs with
  | [] => mret (dgrads_all, dy)
  | b :: bs' =>
      saved ← st_lift (of_option (IndexError "list index out of range") (saved_list !! Z.to_nat b));
      r ← single_block_bwd dy saved P;
      blocks_bwd bs' r.2 saved_list P (dict_update dgrads_all r.1)
  end.

Definition block_bwd_full (dy_block_out : ref) (saved_list : list block_saved) (P : dict ref) : ST GraphBuilder (dict ref * ref) :=
  blocks_bwd (reverse (py_range #N_BLOCKS_PER_STAGE)) dy_block_out saved_list P [].

(** ** The forward graph *)

(** The run's constants a graph uses: those of the subspace and of the tied
    embedding, when they are switched on and the run is known. *)
Definition use_subspace (at_ : option site) : option (Z * site) :=
  match g_SUBSPACE_K g, at_ with Some k, Some a => Some (k, a) | _, _ => None end.

Definition use_tied (at_ : option site) : option site := if g_TIED_EMBED g then at_ else None.

(** The element count of a packed activation of [k] channels. *)
Definition packed_size (k : Z) : Z := (#B * #T * k + k * 4)%Z.

Definition read_tokens : ST GraphBuilder (ref * ref) :=
  tokens_in ← GraphBuilder_input "tokens" [(-1)%Z] "int32";
  l ← GraphBuilder_data_indexer tokens_in #B #T (PDict (ref_param "mb_seed"));
  st_lift (two l).

Definition embed (at_ : option site) (P : dict ref) (ids : ref) : ST GraphBuilder ref :=
  tok_emb ← (match use_tied at_ with Some a => mret (bind_tok_emb a) | None => param_of P "tok_emb" end);
  x ← GraphBuilder_embedding tok_emb ids;
  pos_emb ← param_of P "pos_emb";
  p ← GraphBuilder_reshape pos_emb (ints [1; #T; #D]%Z);
  pos_btd ← GraphBuilder_broadcast p (ints [#B; #T; #D]);
  GraphBuilder_add x pos_btd.

(** A projected tensor of [k] channels read from the wire and expanded. *)
Definition read_projected (name : string) (k : Z) (u_k : ref) : ST GraphBuilder ref :=
  x_proj ← (if g_WIRE_INT8 g then
              x_packed ← GraphBuilder_input name [packed_size k] "uint8";
              GraphBuilder_unpack_dequantize_int8 x_packed (ints [#B; #T; k]) (-1)
            else GraphBuilder_input name [#B; #T; k] DTYPE);
  unproject_in_ir x_proj u_k.

(** The incoming activation of a stage that is not the first. *)
Definition read_activation (name : string) (at_ : option site) : ST GraphBuilder ref :=
  match use_subspace at_ with
  | Some (k, a) => read_projected name k (bind_uk a k false)
  | None => GraphBuilder_input name [#B; #T; #D] DTYPE
  end.

(** Projects for the wire. *)
Definition write_projected (x u_k : ref) : ST GraphBuilder ref :=
  x_wire ← project_in_ir x u_k;
  if g_WIRE_INT8 g then GraphBuilder_quantize_pack_int8 x_wire (-1) else mret x_wire.

Definition lm_head (at_ : option site) (P : dict ref) : ST GraphBuilder ref :=
  match use_tied at_ with
  | Some a => GraphBuilder_transpose (bind_tok_emb a) (ints [1; 0]%Z)
  | None => param_of P "W_lm"
  end.

(** The target ids at the tail: those of the head when it is the same stage. *)
Definition tail_targets (head_target_ids : option ref) : ST GraphBuilder ref :=
  match head_target_ids with
  | Some ids => mret ids
  | None => l ← read_tokens; mret l.2
  end.

Definition fwd_loss (at_ : option site) (P : dict ref) (x_block_out : ref) (head_target_ids : option ref) : ST GraphBuilder unit :=
  g_norm_f ← param_of P "g_norm_f";
  nf ← rmsnorm_fwd x_block_out g_norm_f;
  head ← lm_head at_ P;
  logits ← GraphBuilder_matmul nf.1.1 head;
  target_ids2 ← tail_targets head_target_ids;
  logits_flat ← GraphBuilder_reshape logits (ints [#B * #T; #VOCAB]%Z);
  targets_flat ← GraphBuilder_reshape target_ids2 (ints [#B * #T]%Z);
  loss ← GraphBuilder_cross_entropy logits_flat targets_flat (-100);
  l ← GraphBuilder_unsqueeze loss 0;
  GraphBuilder_output "loss" l.

(** The input of a stage's blocks, and the target ids if it read the tokens. *)
Definition stage_input (is_head : bool) (name : string) (at_ : option site) (P : dict ref) : ST GraphBuilder (ref * option ref) :=
  if is_head then
    l ← read_tokens; x ← embed at_ P l.1; mret (x, Some l.2)
  else x ← read_activation name at_; mret (x, None).

Definition build_fwd_graph (stage n_stages : Z) (is_tail : bool) (at_ : option site) : result Graph := built (
  _ ← GraphBuilder_param "mb_seed" "int";
  blob ← GraphBuilder_input "W" [stage_total_numel stage n_stages] DTYPE;
  P ← split_blob_in_ir blob stage n_stages;
  x ← stage_input (stage =? 0)%Z "x" at_ P;
  out ← block_fwd_full x.1 P;
  x_wire ← (match use_subspace at_ with
            | Some (k, a) => if is_tail then mret out.1 else write_projected out.1 (bind_uk a k false)
            | None => mret out.1
            end);
  _ ← GraphBuilder_output "x" x_wire;
  if is_tail then fwd_loss at_ P out.1 x.2 else mret tt).
End graphs.
