(* ===== verification/GptTrain.v ===== *)
(** * Training the GPT pipeline ([teuton_tasks/gpt_pipe.py], continued)

    The backward graph of a stage, with its local steps, the update graph, and
    the task: what it bootstraps a run with and the pipeline it builds.  The
    module's globals and the store are threaded together. *)

From Stdlib Require Import ZArith Lia Ascii.
From stdpp Require Import base strings list.
From S2P Require Import Prelude PyFloat PyVal Json Signatures Codec Storage StoreReads Tensors Ir Mlp Streaming StreamingFacts PipelineFit PipeTasks GptPipe.

Section graphs.
Context (g : globals).

Local Notation "# d" := (g_dim g d) (at level 1, format "# d").

(** ** The backward graph *)

(** The gradients in the order of the layout; zeros where there is none. *)
Definition pack_piece (parts : dict ref) (e : string * list Z) : ST GraphBuilder ref :=
  let n := product e.2 in
  match dict_get e.1 parts with
  | None => GraphBuilder_full (ints [n]) (PFloat fzero) (PStr DTYPE)
  | Some r => GraphBuilder_reshape r (ints [n])
  end.

Definition pack_grad_blob (parts : dict ref) (stage n_stages : Z) : ST GraphBuilder ref :=
  pieces ← mapS (pack_piece parts) (stage_param_sizes g stage n_stages);
  match pieces with [r] => mret r | _ => GraphBuilder_concat pieces 0 end.

(** [W - eta * dW] for every parameter that has a gradient. *)
Fixpoint apply_local_sgd (dgrads : dict ref) (P : dict ref) (eta : float) (out : dict ref) : ST GraphBuilder (dict ref) :=
  match dgrads with
  | [] => mret out
  | (name, d) :: dgrads' =>
      w ← param_of P name;
      step ← GraphBuilder_mul (GraphBuilder_const (PFloat eta)) d;
      w' ← GraphBuilder_sub w step;
      apply_local_sgd dgrads' P eta (dict_set name w' out)
  end.

Definition eta_inner_effective : float :=
  if fltb fzero (g_LOCO_ETA_INNER g) then g_LOCO_ETA_INNER g else g_LR g.

(** [K_INNER] local steps towards [target]. *)
Fixpoint local_steps (n : nat) (x_in target : ref) (P_current : dict ref) (last_dx_in : option ref)
    : ST GraphBuilder (dict ref * option ref) :=
  match n with
  | O => mret (P_current, last_dx_in)
  | S n' =>
      p ← block_fwd_full g x_in P_current;
      g_local ← GraphBuilder_sub p.1 target;
      d ← block_bwd_full g g_local p.2 P_current;
      P' ← apply_local_sgd d.1 P_current eta_inner_effective P_current;
      local_steps n' x_in target P' (Some d.2)
  end.

(** [{n: P[n] for n in names}]. *)
Fixpoint params_named (names : list string) (P out : dict ref) : ST GraphBuilder (dict ref) :=
  match names with
  | [] => mret out
  | n :: names' => r ← param_of P n; params_named names' P (dict_set n r out)
  end.

Fixpoint trajectory_grads (names : list string) (P_init P_current : dict ref) (inv_lr : float) (grads : dict ref)
    : ST GraphBuilder (dict ref) :=
  match names with
  | [] => mret grads
  | n :: names' =>
      a ← param_of P_init n;
      b ← param_of P_current n;
      delta ← GraphBuilder_sub a b;
      r ← GraphBuilder_mul delta (GraphBuilder_const (PFloat inv_lr));
      trajectory_grads names' P_init P_current inv_lr (dict_set n r grads)
  end.

Definition inv_lr : result float := py_truediv fone (g_LR g).

Definition locoprop (x_in x_block_out dx_block_out : ref) (P grads : dict ref) : ST GraphBuilder (dict ref * ref) :=
  let names := block_names_for_stage g in
  P_init ← params_named names P [];
  scaled ← GraphBuilder_mul (GraphBuilder_const (PFloat (g_LOCO_ETA_OUT g))) dx_block_out;
  target ← GraphBuilder_sub x_block_out scaled;
  r ← local_steps (Z.to_nat #K_INNER) x_in target P_init None;
  inv ← st_lift inv_lr;
  grads' ← trajectory_grads names P_init r.1 inv grads;
  dx ← st_lift (of_option (TypeError "'NoneType' object is not iterable") r.2);
  mret (grads', dx).

(** [1 / float(B * T)]. *)
Definition inv_tokens : result float := n ← float_of_int (#B * #T)%Z; py_truediv fone n.

(** The gradient at the tail, from the cross entropy; adds the gradients of the
    tail's own parameters. *)
Definition tail_gradient (at_ : option site) (P : dict ref) (x_block_out : ref) (head_target_ids : option ref)
    : ST GraphBuilder (dict ref * ref) :=
  g_norm_f ← param_of P "g_norm_f";
  nf ← rmsnorm_fwd g x_block_out g_norm_f;
  head ← lm_head g at_ P;
  logits ← GraphBuilder_matmul nf.1.1 head;
  target_ids ← tail_targets g head_target_ids;
  probs ← GraphBuilder_softmax logits (-1);
  zero_logits ← GraphBuilder_full (ints [#B; #T; #VOCAB]) (PFloat fzero) (PStr DTYPE);
  idx ← GraphBuilder_unsqueeze target_ids (-1);
  ones ← GraphBuilder_full (ints [#B; #T; 1]%Z) (PFloat fone) (PStr DTYPE);
  one_hot ← GraphBuilder_scatter zero_logits idx ones (-1);
  d ← GraphBuilder_sub probs one_hot;
  inv ← st_lift inv_tokens;
  dlogits ← GraphBuilder_mul d (GraphBuilder_const (PFloat inv));
  grads ← (match use_tied g at_ with
           | Some _ => mret []
           | None => w ← GraphBuilder_einsum nf.1.1 dlogits (PStr "btd,btv->dv"); mret [("W_lm", w)]
           end);
  lm_head_t ← GraphBuilder_transpose head (ints [1; 0]%Z);
  dnf ← GraphBuilder_matmul dlogits lm_head_t;
  n ← rmsnorm_bwd g dnf g_norm_f nf.1.2 nf.2;
  mret (dict_set "g_norm_f" n.2 grads, n.1).

(** The incoming gradient of a stage that is not the last. *)
Definition k_dy (k : Z) : Z := default k (g_SUBSPACE_K_DY g).

Definition read_gradient (at_ : option site) : ST GraphBuilder ref :=
  match use_subspace g at_ with
  | Some (k, a) => read_projected g "dL_dx_out" (k_dy k) (bind_uk g a k true)
  | None => GraphBuilder_input "dL_dx_out" [#B; #T; #D] DTYPE
  end.

Definition block_gradients (x_in x_block_out dx_block_out : ref) (saved : list block_saved) (P grads : dict ref)
    : ST GraphBuilder (dict ref * ref) :=
  if (1 <? #K_INNER)%Z then locoprop x_in x_block_out dx_block_out P grads
  else d ← block_bwd_full g dx_block_out saved P; mret (dict_update grads d.1, d.2).

Definition write_gradient (at_ : option site) (dx_in_total : ref) : ST GraphBuilder unit :=
  dx ← (match use_subspace g at_ with
        | Some (k, a) => write_projected g dx_in_total (bind_uk g a k true)
        | None => mret dx_in_total
        end);
  GraphBuilder_output "dL_dx_in" dx.

Definition build_bwd_graph (stage n_stages : Z) (is_tail is_head : bool) (at_ : option site) : result Graph := built (
  _ ← GraphBuilder_param "mb_seed" "int";
  blob ← GraphBuilder_input "W" [stage_total_numel g stage n_stages] DTYPE;
  P ← split_blob_in_ir g blob stage n_stages;
  x ← stage_input g is_head "x_in" at_ P;
  out ← block_fwd_full g x.1 P;
  t ← (if is_tail then tail_gradient at_ P out.1 x.2 else dx ← read_gradient at_; mret ([], dx));
  b ← block_gradients x.1 out.1 t.2 out.2 P t.1;
  grads ← (if is_head then d ← GraphBuilder_sum b.2 (PInt 0) false; mret (dict_set "pos_emb" d b.1) else mret b.1);
  dW ← pack_grad_blob grads stage n_stages;
  _ ← GraphBuilder_output "dW" dW;
  if is_head then mret tt else write_gradient at_ b.2).

(** ** The update graph *)

Definition dW_name (m : Z) : string := "dW_" +:+ py_str_int m.

Definition build_outer_graph (stage n_stages n_microbatches : Z) : result Graph := built (
  let n := stage_total_numel g stage n_stages in
  blob ← GraphBuilder_input "W" [n] DTYPE;
  dblobs ← mapS (fun m => GraphBuilder_input (dW_name m) [n] DTYPE) (py_range n_microbatches);
  dW_mean ← match dblobs with
            | [d] => mret d
            | _ => stacked ← GraphBuilder_stack dblobs 0; GraphBuilder_mean stacked (PInt 0) false
            end;
  step ← GraphBuilder_mul (GraphBuilder_const (PFloat (g_LR g))) dW_mean;
  new_w ← GraphBuilder_sub blob step;
  GraphBuilder_output "W_new" new_w).

(** ** A stage *)

(** What crosses the wire between two stages: shape and type. *)
Definition wire_spec : list Z * string :=
  match g_SUBSPACE_K g with
  | Some k => if g_WIRE_INT8 g then ([packed_size g k], "uint8") else ([#B; #T; wire_dim g], DTYPE)
  | None => ([#B; #T; wire_dim g], DTYPE)
  end.

Definition gpt_stage (at_ : site) (n_microbatches s : Z) : result PipelineStage :=
  let n := #N_STAGES in
  let is_tail := (s =? n - 1)%Z in
  let is_head := (s =? 0)%Z in
  fwd_g ← build_fwd_graph g s n is_tail (Some at_);
  bwd_g ← build_bwd_graph s n is_tail is_head (Some at_);
  outer_g ← build_outer_graph s n n_microbatches;
  Ok (mkStage s fwd_g (Some bwd_g) (Some outer_g)
        (if is_head then [] else [("x", wire_spec.1, wire_spec.2)])
        (if is_tail then [("x", [#B; #T; #D], DTYPE)] else [("x", wire_spec.1, wire_spec.2)])
        (Some "W") [stage_total_numel g s n] DTYPE is_tail (negb is_head)).
End graphs.

(** ** The task *)

Record module_state (S : Type) := mkModule { ms_globals : globals; ms_store : S }.
Arguments mkModule {S} _ _.
Arguments ms_globals {S} _.
Arguments ms_store {S} _.

(** [int(v) if v != "0" else None], and the text of a switch. *)
Definition optional_int (v : string) : result (option Z) :=
  if String.eqb v "0" then Ok None else z ← py_int (PStr v); Ok (Some z).

Definition switched_on (v : string) : bool := negb (bool_decide (v ∈ [""; "0"; "false"; "False"])).

Definition int_knob (d : dim) (v : string) : result (globals -> globals) := z ← py_int (PStr v); Ok (set_dim d z).
Definition count_knob (d : dim) (v : string) : result (globals -> globals) := z ← py_int (PStr v); Ok (set_dim d (Z.max z 1)).

(** The environment variables of [bootstrap], in the order it reads them. *)
Definition knobs : list (string * (string -> result (globals -> globals))) :=
  [("GPT_PIPE_SUBSPACE_K", fun v => k ← optional_int v; Ok (set_SUBSPACE_K k));
   ("GPT_PIPE_SUBSPACE_K_DY", fun v => k ← optional_int v; Ok (set_SUBSPACE_K_DY k));
   ("GPT_PIPE_WIRE_INT8", fun v => Ok (set_WIRE_INT8 (switched_on v)));
   ("GPT_PIPE_TIED_EMBED", fun v => Ok (set_TIED_EMBED (switched_on v)));
   ("GPT_PIPE_K_INNER", count_knob K_INNER);
   ("GPT_PIPE_LOCO_ETA_INNER", fun v => x ← py_float (PStr v); Ok (set_LOCO_ETA_INNER x));
   ("GPT_PIPE_LOCO_ETA_OUT", fun v => x ← py_float (PStr v); Ok (set_LOCO_ETA_OUT x));
   ("GPT_PIPE_N_BLOCKS_PER_STAGE", count_knob N_BLOCKS_PER_STAGE);
   ("GPT_PIPE_D", int_knob D); ("GPT_PIPE_N_HEAD", int_knob N_HEAD); ("GPT_PIPE_D_FF", int_knob D_FF);
   ("GPT_PIPE_B", int_knob B); ("GPT_PIPE_T", int_knob T);
   ("GPT_PIPE_N_MICROBATCHES", count_knob N_MICROBATCHES); ("GPT_PIPE_N_STAGES", count_knob N_STAGES)].

(** What [build_streaming_inputs] takes from the configuration, in its order:
    entries that are used when present, and entries that are used unless null. *)
Definition int_entry (d : dim) (v : pyval) : result (globals -> globals) := z ← py_int v; Ok (set_dim d z).
Definition count_entry (d : dim) (v : pyval) : result (globals -> globals) := z ← py_int v; Ok (set_dim d (Z.max z 1)).
Definition optional_entry (v : pyval) : result (option Z) := if truthy v then z ← py_int v; Ok (Some z) else Ok None.

Definition present_entries : list (string * (pyval -> result (globals -> globals))) :=
  [("d", int_entry D); ("T", int_entry T); ("B", int_entry B); ("n_head", int_entry N_HEAD); ("d_ff", int_entry D_FF);
   ("vocab", int_entry VOCAB); ("n_stages", int_entry N_STAGES); ("lr", fun v => x ← py_float v; Ok (set_LR x))].

Definition unless_null_entries : list (string * (pyval -> result (globals -> globals))) :=
  [("subspace_k", fun v => k ← optional_entry v; Ok (set_SUBSPACE_K k));
   ("subspace_k_dy", fun v => k ← optional_entry v; Ok (set_SUBSPACE_K_DY k));
   ("wire_int8", fun v => Ok (set_WIRE_INT8 (truthy v)));
   ("tied_embed", fun v => Ok (set_TIED_EMBED (truthy v)));
   ("k_inner", count_entry K_INNER);
   ("loco_eta_inner", fun v => x ← py_float v; Ok (set_LOCO_ETA_INNER x));
   ("loco_eta_out", fun v => x ← py_float v; Ok (set_LOCO_ETA_OUT x));
   ("n_blocks_per_stage", count_entry N_BLOCKS_PER_STAGE)].

Definition default_prices : dict float :=
  [("H200", flit 3192 (-2)); ("B200", flit 3992 (-2)); ("RTX3090", flit 104 (-2)); ("RTX4090", flit 70 (-2));
   ("L40", flit 15 (-1)); ("L40S", flit 20 (-1)); ("A6000", flit 10 (-1))].

(** A price of the configuration; other types are outside the model. *)
Definition price_of (kv : string * pyval) : result (string * float) :=
  match kv.2 with PFloat x => Ok (kv.1, x) | _ => Err Unmodelled end.

Definition prices_of (cfg : dict pyval) : result (dict float) :=
  extra ← match por (get_or cfg "gpu_class_price_per_hour" (PDict [])) (PDict []) with PDict d => Ok d | _ => Err Unmodelled end;
  prices ← mapR price_of extra;
  Ok (dict_update default_prices prices).

Definition tensor_parallel_params (tp_size : Z) : dict pyval :=
  let parallelism := PDict [("tensor_parallel_size", PInt tp_size); ("scope", PStr "stage")] in
  [("distributed_runner", PStr "gpt_tensor_parallel_v1"); ("tp_world_size", PInt tp_size); ("parallelism", parallelism);
   ("resource_requirements", PDict [("min_gpus", PInt tp_size); ("placement", PStr "single_host"); ("parallelism", parallelism)])].

Definition common_params_of (cfg : dict pyval) : result (dict pyval) :=
  tp_size ← py_int (por (get_or cfg "tensor_parallel_size" (PInt 1)) (PInt 1));
  Ok (if truthy (get_or cfg "enable_tensor_parallel_runner" (PBool false)) && (1 <? tp_size)%Z
      then tensor_parallel_params tp_size else []).

Definition tokens_key (run_id : string) : string := "runs/" +:+ run_id +:+ "/static/tokens.bin".

Section task.
Context {S : Type} `{ObjectStore S} `{Torch}.
(** The process's environment and the tensors torch draws: [_make_uk(d, k,
    seed)], the tied embedding, [_initial_blob] from the layout and its seed, and
    the synthetic corpus. *)
Context (environ : string -> option string) (make_uk : Z -> Z -> Z -> result tensor) (tied_embedding : Z -> Z -> tensor)
  (initial_blob : list (string * list Z) -> Z -> tensor) (random_tokens : Z -> Z -> tensor).

#[local] Abbreviation module := (module_state S).

Definition on_store {A} (f : ST S A) : ST module A := fun m =>
  let '(s, r) := f (ms_store m) in (mkModule (ms_globals m) s, r).
Definition get_globals : ST module globals := fun m => (m, Ok (ms_globals m)).
Definition set_globals (f : globals -> globals) : ST module unit := fun m => (mkModule (f (ms_globals m)) (ms_store m), Ok tt).

Definition turn_knob (k : string * (string -> result (globals -> globals))) : ST module unit :=
  match given (environ k.1) with
  | None => mret tt
  | Some v => f ← st_lift (k.2 v); set_globals f
  end.

(** [if not bucket.exists(uri): bucket.put(uri, encode_tensor(t))]. *)
Definition put_static (run_id name : string) (t : tensor) : ST S unit :=
  uri ← uri_of ("runs/" +:+ run_id +:+ "/static/" +:+ name);
  there ← os_exists uri;
  if (there : bool) then mret tt else blob ← st_lift (encode_tensor t); os_put uri blob.

Definition SUBSPACE_SEED : Z := 31415.
Definition SUBSPACE_DY_SEED : Z := 41718.
Definition WEIGHTS_SEED : Z := 42.

Definition put_subspaces (run_id : string) (g : globals) : ST S unit :=
  match g_SUBSPACE_K g with
  | Some k =>
      if (0 <? k)%Z then
        u_k ← st_lift (make_uk (g_dim g D) k SUBSPACE_SEED);
        _ ← put_static run_id "u_k.bin" u_k;
        u_k_dy ← st_lift (make_uk (g_dim g D) (k_dy g k) SUBSPACE_DY_SEED);
        put_static run_id "u_k_dy.bin" u_k_dy
      else mret tt
  | None => mret tt
  end.

Definition put_first_weights (run_id : string) (g : globals) (s : Z) : ST S unit :=
  put_tensor_at (first_weights_key run_id s)
    (initial_blob (stage_param_sizes g s (g_dim g N_STAGES)) (WEIGHTS_SEED + s * 7919)).

Definition put_corpus (run_id override : string) (g : globals) : ST S unit :=
  uri ← uri_of (tokens_key run_id);
  skip ← (if String.eqb override "" then os_exists uri else mret true);
  if (skip : bool) then mret tt
  else
    let n := Z.max (g_dim g VOCAB * 100) 100000 in
    blob ← st_lift (encode_tensor (random_tokens (g_dim g VOCAB) n)); os_put uri blob.

Definition config_document (override : string) (max_rounds : Z) (g : globals) : dict pyval :=
  let dim d := PInt (g_dim g d) in
  [("task", PStr "gpt_pipe"); ("n_stages", dim N_STAGES); ("d", dim D); ("vocab", dim VOCAB); ("n_head", dim N_HEAD);
   ("d_ff", dim D_FF); ("B", dim B); ("T", dim T); ("n_microbatches", dim N_MICROBATCHES); ("max_epochs", PInt max_rounds);
   ("lr", PFloat (g_LR g)); ("tokens_uri", PStr override); ("subspace_k", pint_opt (g_SUBSPACE_K g));
   ("subspace_k_dy", pint_opt (g_SUBSPACE_K_DY g)); ("wire_int8", PBool (g_WIRE_INT8 g)); ("tied_embed", PBool (g_TIED_EMBED g));
   ("k_inner", dim K_INNER); ("loco_eta_inner", PFloat (g_LOCO_ETA_INNER g)); ("loco_eta_out", PFloat (g_LOCO_ETA_OUT g));
   ("n_blocks_per_stage", dim N_BLOCKS_PER_STAGE)].

Definition bootstrap (run_id : string) (max_rounds : Z) : ST module unit :=
  let override := default "" (environ "GPT_PIPE_TOKENS_URI") in
  _ ← on_store (put_document_at (legacy_state_key run_id) (initial_state run_id max_rounds));
  _ ← mapS turn_knob knobs;
  g ← get_globals;
  _ ← on_store (put_document_at (legacy_manifest_config_key run_id) (config_document override max_rounds g));
  _ ← on_store (put_subspaces run_id g);
  _ ← (if g_TIED_EMBED g then on_store (put_static run_id "tok_emb.bin" (tied_embedding (g_dim g VOCAB) (g_dim g D))) else mret tt);
  _ ← mapS (fun s => on_store (put_first_weights run_id g s)) (py_range (g_dim g N_STAGES));
  on_store (put_corpus run_id override g).

Definition take_present (cfg : dict pyval) (e : string * (pyval -> result (globals -> globals))) : ST module unit :=
  match dict_get e.1 cfg with
  | None => mret tt
  | Some v => f ← st_lift (e.2 v); set_globals f
  end.

Definition take_unless_null (cfg : dict pyval) (e : string * (pyval -> result (globals -> globals))) : ST module unit :=
  match get cfg e.1 with
  | PNone => mret tt
  | v => f ← st_lift (e.2 v); set_globals f
  end.

(** The site of the run in the store. *)
Definition site_of (run_id : string) : ST module site := fun m => (m, Ok (mkSite (os_uri_for_key (ms_store m)) run_id)).

Definition gpt_params (g : globals) (cfg : dict pyval) (n_microbatches max_epochs : Z) (static_tokens : string) : result StreamingParams :=
  tokens_uri ← as_str (por (por (get cfg "tokens_uri") (PStr TOKENS_URI)) (PStr static_tokens));
  prices ← prices_of cfg;
  common ← common_params_of cfg;
  Ok (mkParams (g_dim g N_STAGES) n_microbatches max_epochs common [] 1200 true None (g_LR g)
        [("tokens", (tokens_uri, "head_and_tail"))] (g_dim g B * g_dim g T) prices).

Definition build_streaming_inputs (run_id : string) : ST module (list PipelineStage * StreamingParams) :=
  cfg ← on_store (read_task_config run_id);
  g0 ← get_globals;
  max_epochs ← st_lift (int_or cfg "max_epochs" (g_dim g0 MAX_EPOCHS));
  n_microbatches ← st_lift (int_or cfg "n_microbatches" (g_dim g0 N_MICROBATCHES));
  _ ← mapS (take_present cfg) present_entries;
  _ ← mapS (take_unless_null cfg) unless_null_entries;
  g ← get_globals;
  at_ ← site_of run_id;
  stages ← st_lift (mapR (gpt_stage g at_ n_microbatches) (py_range (g_dim g N_STAGES)));
  static_tokens ← on_store (uri_of (tokens_key run_id));
  params ← st_lift (gpt_params g cfg n_microbatches max_epochs static_tokens);
  mret (stages, params).

Definition gpt_pipe : StreamingTask module := mkStreamingTask bootstrap build_streaming_inputs.

(** The store, seen from a process that holds the module. *)
#[export] Instance module_store : ObjectStore module := {|
  os_uri_for_key m := os_uri_for_key (ms_store m);
  os_put uri data := on_store (os_put uri data);
  os_get uri := on_store (os_get uri);
  os_exists uri := on_store (os_exists uri);
  os_delete uri := on_store (os_delete uri);
  os_list uri := on_store (os_list uri);
  os_list_with_meta uri := on_store (os_list_with_meta uri);
  os_get_json uri := on_store (os_get_json uri);
  os_put_json uri v := on_store (os_put_json uri v);
  os_get_with_etag uri e := on_store (os_get_with_etag uri e);
  os_put_with_etag uri data e := on_store (os_put_with_etag uri data e)
|}.
End task.
