(* ===== verification/GptFacts.v ===== *)
(** * The graphs of the GPT pipeline

    For every setting of the module's globals whose constants exist (no division
    by zero), the graphs of a stage are built without an error and read exactly
    the tensors the orchestrator gives to the stage's jobs, in the shapes it
    declares: with or without subspace projection, quantized or not, with tied
    embeddings or not, with or without local steps, and also when one stage is
    both head and tail. *)

From Stdlib Require Import ZArith Lia Ascii SpecFloat.
From stdpp Require Import base strings list.
From S2P Require Import Prelude PyFloat PyVal Json Signatures Codec Storage StoreReads Tensors Ir Eval Mlp Streaming StreamingFacts PipelineFit PipeTasks GptPipe GptTrain.

(** ** Dictionaries that have the parameters of a stage *)

Definition covers (names : list string) (P : dict ref) : Prop := forall n, n ∈ names -> is_Some (dict_get n P).

Lemma covers_set names n r P : covers names P -> covers names (dict_set n r P).
Proof.
  intros Hc m Hm. rewrite dict_get_set. destruct (String.eqb m n); [by eexists|by apply Hc].
Qed.

Lemma covers_sub names names' P : covers names P -> (forall n, n ∈ names' -> n ∈ names) -> covers names' P.
Proof. intros Hc Hs n Hn. auto. Qed.

Lemma emits_param names P n : covers names P -> n ∈ names -> emits_ops (param_of P n) (fun _ => True).
Proof. intros Hc Hn. destruct (Hc n Hn) as [r Hr]. eapply emits_lift; [unfold of_option; by rewrite Hr|done]. Qed.

Lemma keys_update {V} (l d : dict V) m : m ∈ dict_keys (dict_update d l) -> m ∈ dict_keys d \/ m ∈ dict_keys l.
Proof.
  unfold dict_update. revert d. induction l as [|[k v] l IH]; intros d; cbn; [tauto|].
  intros [Hm|Hm]%IH; rewrite elem_of_cons; [|tauto]. apply dict_keys_set_elem in Hm as [Hm| ->]; tauto.
Qed.

(** Follows operations, looking parameters up in a dictionary that has them. *)
Ltac follow Hc names :=
  repeat (eapply emits_bind;
    [first [by apply emits_emit | by apply builds_ret | apply (emits_param _ _ _ Hc); names]|intros ? _]).

Definition is_some {A} (o : option A) : bool := match o with Some _ => true | None => false end.

Section facts.
Context (g : globals).

(** ** The layout *)

Lemma block_name_in n b : n ∈ map fst (single_block_param_sizes g) -> b ∈ py_range (g_dim g N_BLOCKS_PER_STAGE) ->
  n +:+ block_suffix b ∈ block_names_for_stage g.
Proof.
  intros Hn Hb. apply list_elem_of_In, in_flat_map. exists b. split; [by apply list_elem_of_In|].
  apply list_elem_of_fmap in Hn as (e & -> & He). apply list_elem_of_In. apply list_elem_of_fmap. by exists e.
Qed.

Definition stage_names (stage n : Z) : list string := map fst (stage_param_sizes g stage n).

Lemma block_names_fst : map fst (block_param_sizes g) = block_names_for_stage g.
Proof.
  unfold block_param_sizes, block_names_for_stage. induction (py_range _) as [|b l IH]; [done|]. cbn [flat_map].
  rewrite map_app, map_map, IH. done.
Qed.

Lemma block_names_in stage n m : m ∈ block_names_for_stage g -> m ∈ stage_names stage n.
Proof.
  intros Hm. unfold stage_names, stage_param_sizes. rewrite !map_app, !elem_of_app, block_names_fst. tauto.
Qed.

Lemma head_names_in n m : m ∈ map fst (head_extra_sizes g) -> m ∈ stage_names 0 n.
Proof. intros Hm. unfold stage_names, stage_param_sizes. rewrite !map_app, !elem_of_app. by left. Qed.

Lemma tail_names_in n m stage : stage = (n - 1)%Z -> m ∈ map fst (tail_extra_sizes g) -> m ∈ stage_names stage n.
Proof.
  intros -> Hm. unfold stage_names, stage_param_sizes. rewrite Z.eqb_refl, !map_app, !elem_of_app. tauto.
Qed.

Lemma split_blob_emits sizes offset blob out names : covers names out ->
  emits_ops (split_blob sizes offset blob out) (covers (names ++ map fst sizes)).
Proof.
  revert offset out names. induction sizes as [|[name shape] sizes IH]; intros offset out names Hc; cbn [split_blob].
  - apply builds_ret. by rewrite app_nil_r.
  - eapply emits_bind; [by apply emits_emit|intros s _]. eapply emits_bind; [by apply emits_emit|intros s' _].
    eapply builds_weaken; [apply (IH _ _ (names ++ [name]))|].
    + intros n [Hn|Hn%list_elem_of_singleton]%elem_of_app; rewrite dict_get_set.
      * destruct (String.eqb n name); [by eexists|by apply Hc].
      * subst n. rewrite String.eqb_refl. by eexists.
    + intros P HP. by rewrite <- app_assoc in HP.
Qed.

Lemma split_emits blob stage n : emits_ops (split_blob_in_ir g blob stage n) (covers (stage_names stage n)).
Proof. apply (split_blob_emits _ _ _ _ []). by intros n' ?%elem_of_nil. Qed.

(** ** Blocks *)

Lemma rmsnorm_fwd_emits x w : emits_ops (rmsnorm_fwd g x w) (fun _ => True).
Proof. unfold rmsnorm_fwd. follow_ops. by apply builds_ret. Qed.

Lemma rmsnorm_bwd_emits dy w r h : emits_ops (rmsnorm_bwd g dy w r h) (fun _ => True).
Proof. unfold rmsnorm_bwd. follow_ops. by apply builds_ret. Qed.

Lemma ffn_fwd_emits x a b c : emits_ops (ffn_fwd x a b c) (fun _ => True).
Proof. unfold ffn_fwd. follow_ops. by apply builds_ret. Qed.

Lemma ones_hidden_emits : emits_ops (ones_hidden g) (fun _ => True).
Proof. unfold ones_hidden. follow_ops. by apply emits_emit. Qed.

Lemma ffn_bwd_emits dy s : emits_ops (ffn_bwd g dy s) (fun _ => True).
Proof.
  unfold ffn_bwd. follow_ops. eapply emits_bind; [apply ones_hidden_emits|intros ? _]. follow_ops.
  eapply emits_bind; [apply ones_hidden_emits|intros ? _]. follow_ops. by apply builds_ret.
Qed.

(** The constants of the graphs exist: no division by zero. *)
Definition constants_ok : bool :=
  is_ok (attn_scale g) && is_ok (inv_tokens g) && ((g_dim g K_INNER <=? 1)%Z || is_ok (inv_lr g)).

Lemma is_ok_inv {A} (r : result A) : is_ok r = true -> exists a, r = Ok a.
Proof. destruct r as [a|]; [by exists a|done]. Qed.

Lemma scale_inv : is_ok (attn_scale g) = true -> exists dh scale, head_width g = Ok dh /\ attn_scale g = Ok scale.
Proof.
  intros [scale E]%is_ok_inv. pose proof E as E'. unfold attn_scale in E'. apply bind_Ok in E' as (dh & Hd & _). by exists dh, scale.
Qed.

Context (Hscale : is_ok (attn_scale g) = true).

Lemma qkv_part_emits q i dh : emits_ops (qkv_part g q i dh) (fun _ => True).
Proof. unfold qkv_part. follow_ops. by apply emits_emit. Qed.

Lemma causal_mask_emits : emits_ops (causal_mask g) (fun _ => True).
Proof. unfold causal_mask. follow_ops. by apply emits_emit. Qed.

Lemma attn_fwd_emits x a b : emits_ops (attn_fwd g x a b) (fun _ => True).
Proof.
  destruct (scale_inv Hscale) as (dh & scale & Hd & Hs). unfold attn_fwd.
  eapply builds_lift; [exact Hd|]. eapply builds_lift; [exact Hs|]. follow_ops.
  do 3 (eapply emits_bind; [apply qkv_part_emits|intros ? _]). follow_ops.
  eapply emits_bind; [apply causal_mask_emits|intros ? _]. follow_ops. by apply builds_ret.
Qed.

Lemma attn_bwd_emits dy s : emits_ops (attn_bwd g dy s) (fun _ => True).
Proof.
  destruct (scale_inv Hscale) as (dh & scale & Hd & Hs). unfold attn_bwd.
  eapply builds_lift; [exact Hd|]. follow_ops. by apply builds_ret.
Qed.

(** A dictionary with the parameters of the blocks, whose names are found. *)
Context (names := block_names_for_stage g) (range := py_range (g_dim g N_BLOCKS_PER_STAGE)).

Ltac block_name Hb := apply block_name_in; [cbn; repeat (apply list_elem_of_here || apply list_elem_of_further)|exact Hb].
Ltac block_op Hc Hb :=
  lazymatch goal with
  | |- builds (param_of _ _) _ _ _ _ => apply (emits_param _ _ _ Hc); block_name Hb
  | |- builds (rmsnorm_fwd _ _ _) _ _ _ _ => apply rmsnorm_fwd_emits
  | |- builds (rmsnorm_bwd _ _ _ _ _) _ _ _ _ => apply rmsnorm_bwd_emits
  | |- builds (ffn_fwd _ _ _ _) _ _ _ _ => apply ffn_fwd_emits
  | |- builds (attn_fwd _ _ _ _) _ _ _ _ => apply attn_fwd_emits
  | |- builds (GraphBuilder_add _ _) _ _ _ _ => by apply emits_emit
  end.
Ltac block_ops Hc Hb := repeat (eapply emits_bind; [block_op Hc Hb|intros ? _]).

Lemma single_fwd_emits x P b : covers names P -> b ∈ range ->
  emits_ops (single_block_fwd g x P (block_suffix b)) (fun r => bs_suffix r.2 = block_suffix b).
Proof. intros Hc Hb. unfold single_block_fwd. block_ops Hc Hb. by apply builds_ret. Qed.

Lemma single_bwd_emits dy s P b : covers names P -> b ∈ range -> bs_suffix s = block_suffix b ->
  emits_ops (single_block_bwd g dy s P) (fun r => forall n, n ∈ dict_keys r.1 -> n ∈ names).
Proof.
  intros Hc Hb Hs. unfold single_block_bwd. rewrite Hs.
  eapply emits_bind; [apply ffn_bwd_emits|intros [[[dn2 d1] d2] d3] _]. block_ops Hc Hb.
  eapply emits_bind; [apply attn_bwd_emits|intros [[dn1 dq] dO] _]. block_ops Hc Hb. apply builds_ret.
  intros n [Hn|Hn]%keys_update; [by apply elem_of_nil in Hn|]. unfold dict_keys in Hn. cbn [map fst] in Hn.
  repeat (apply elem_of_cons in Hn as [->|Hn]; [block_name Hb|]). by apply elem_of_nil in Hn.
Qed.

Definition saved_for (bs : list Z) (l : list block_saved) : Prop := Forall2 (fun b s => bs_suffix s = block_suffix b) bs l.

Lemma blocks_fwd_emits P bs : covers names P -> (forall b, b ∈ bs -> b ∈ range) -> forall x before l, saved_for before l ->
  emits_ops (blocks_fwd g bs x P l) (fun r => saved_for (before ++ bs) r.2).
Proof.
  intros Hc. induction bs as [|b bs IH]; intros Hb x before l Hl; cbn [blocks_fwd]; [by apply builds_ret; rewrite app_nil_r|].
  eapply emits_bind; [apply (single_fwd_emits _ _ _ Hc); apply Hb; left|]. intros r Hr.
  eapply builds_weaken; [apply (IH (fun c Hin => Hb c (list_elem_of_further _ _ _ Hin)) _ (before ++ [b]))|].
  - apply Forall2_app; [done|by constructor].
  - intros a Ha. by rewrite <- app_assoc in Ha.
Qed.

Lemma block_fwd_emits x P : covers names P -> emits_ops (block_fwd_full g x P) (fun r => saved_for range r.2).
Proof. intros Hc. apply (blocks_fwd_emits P range Hc (fun _ H => H) x [] []). constructor. Qed.

Lemma blocks_bwd_emits P l bs : covers names P -> saved_for range l -> (forall b, b ∈ bs -> b ∈ range) ->
  forall dy acc, (forall n, n ∈ dict_keys acc -> n ∈ names) ->
  emits_ops (blocks_bwd g bs dy l P acc) (fun r => forall n, n ∈ dict_keys r.1 -> n ∈ names).
Proof.
  intros Hc Hl. induction bs as [|b bs IH]; intros Hb dy acc Hacc; cbn [blocks_bwd]; [by apply builds_ret|].
  assert (b ∈ range) as Hin by (apply Hb; left). pose proof Hin as [i Hi]%list_elem_of_lookup.
  destruct (Forall2_lookup_l _ _ _ _ _ Hl Hi) as (s & Hs & Hsuf). apply py_range_lookup in Hi as [-> _].
  eapply builds_lift; [by rewrite Nat2Z.id, Hs|].
  eapply emits_bind; [exact (single_bwd_emits dy s P _ Hc Hin Hsuf)|]. intros r Hr.
  apply IH; [intros c Hc'; apply Hb; by right|]. intros n [Hn|Hn]%keys_update; auto.
Qed.

Lemma block_bwd_emits P l dy : covers names P -> saved_for range l ->
  emits_ops (block_bwd_full g dy l P) (fun r => forall n, n ∈ dict_keys r.1 -> n ∈ names).
Proof.
  intros Hc Hl. apply blocks_bwd_emits; [done|done| |by intros n ?%elem_of_nil]. intros b. by rewrite elem_of_reverse.
Qed.

(** ** Local steps *)

Lemma apply_sgd_emits P eta ds : covers names P -> (forall n, n ∈ dict_keys ds -> n ∈ names) -> forall out, covers names out ->
  emits_ops (apply_local_sgd ds P eta out) (covers names).
Proof.
  intros Hc. induction ds as [|[n d] ds IH]; intros Hds out Hout; cbn [apply_local_sgd]; [by apply builds_ret|].
  eapply emits_bind; [apply (emits_param _ _ _ Hc), Hds; left|intros w _]. follow_ops.
  apply IH; [intros m Hm; apply Hds; by right|by apply covers_set].
Qed.

Lemma local_steps_emits n x t : forall P last, covers names P ->
  emits_ops (local_steps g n x t P last) (fun r => covers names r.1 /\ ((0 < n)%nat \/ is_Some last -> is_Some r.2)).
Proof.
  induction n as [|n IH]; intros P last Hc; cbn [local_steps].
  - apply builds_ret. split; [done|]. intros [Hn|Hl]; [lia|done].
  - eapply emits_bind; [by apply block_fwd_emits|intros p Hp]. follow_ops.
    eapply emits_bind; [by apply block_bwd_emits|intros d Hd].
    eapply emits_bind; [by apply apply_sgd_emits|intros P' HP'].
    eapply builds_weaken; [by apply IH|]. intros r [H1 H2]. split; [done|]. intros _. apply H2. right. by eexists.
Qed.

Lemma params_named_emits P : covers names P -> forall l before out, (forall n, n ∈ l -> n ∈ names) -> covers before out ->
  emits_ops (params_named l P out) (covers (before ++ l)).
Proof.
  intros Hc. induction l as [|n l IH]; intros before out Hl Hout; cbn [params_named]; [by apply builds_ret; rewrite app_nil_r|].
  eapply emits_bind; [apply (emits_param _ _ _ Hc), Hl; left|intros r _].
  eapply builds_weaken; [apply (IH (before ++ [n])); [intros m Hm; apply Hl; by right|]|].
  - intros m [Hm|Hm%list_elem_of_singleton]%elem_of_app; rewrite dict_get_set.
    + destruct (String.eqb m n); [by eexists|by apply Hout].
    + subst m. rewrite String.eqb_refl. by eexists.
  - intros P' HP'. by rewrite <- app_assoc in HP'.
Qed.

Lemma trajectory_emits P Q inv l : covers names P -> covers names Q -> (forall n, n ∈ l -> n ∈ names) -> forall grads,
  emits_ops (trajectory_grads l P Q inv grads) (fun _ => True).
Proof.
  intros HP HQ. induction l as [|n l IH]; intros Hl grads; cbn [trajectory_grads]; [by apply builds_ret|].
  eapply emits_bind; [apply (emits_param _ _ _ HP), Hl; left|intros a _].
  eapply emits_bind; [apply (emits_param _ _ _ HQ), Hl; left|intros b _]. follow_ops.
  apply IH. intros m Hm. apply Hl. by right.
Qed.

Lemma locoprop_emits x o dx P grads : covers names P -> (1 < g_dim g K_INNER)%Z -> is_ok (inv_lr g) = true ->
  emits_ops (locoprop g x o dx P grads) (fun _ => True).
Proof.
  intros Hc Hk [inv Hinv]%is_ok_inv. unfold locoprop. cbv zeta.
  eapply emits_bind; [apply (params_named_emits P Hc names [] []); [done|by intros n ?%elem_of_nil]|intros P0 HP0]. follow_ops.
  eapply emits_bind; [by apply local_steps_emits|intros r [Hr Hlast]].
  eapply builds_lift; [exact Hinv|]. eapply emits_bind; [by apply trajectory_emits|intros gr _].
  destruct Hlast as [d Hd]; [left; lia|]. eapply builds_lift; [by rewrite Hd|]. by apply builds_ret.
Qed.

(** ** Inputs and outputs of a stage *)

Abbreviation tokens_spec := (mkTensorSpec "tokens" [(-1)%Z] "int32").
Abbreviation weights_spec stage n := (mkTensorSpec "W" [stage_total_numel g stage n] DTYPE).
Definition activation_spec (name : string) : TensorSpec := mkTensorSpec name (wire_spec g).1 (wire_spec g).2.

(** The incoming gradient, on the narrower lane of the backward pass. *)
Definition gradient_spec : TensorSpec :=
  match g_SUBSPACE_K g with
  | Some k => if g_WIRE_INT8 g then mkTensorSpec "dL_dx_out" [packed_size g (k_dy g k)] "uint8"
              else mkTensorSpec "dL_dx_out" [g_dim g B; g_dim g T; k_dy g k] DTYPE
  | None => mkTensorSpec "dL_dx_out" [g_dim g B; g_dim g T; g_dim g D] DTYPE
  end.

Lemma read_tokens_builds : builds (read_tokens g) [tokens_spec] [] [] (fun _ => True).
Proof.
  unfold read_tokens. apply (builds_bind _ _ [tokens_spec] [] [] [] [] [] _ _ (builds_input _ _ _)). intros t _.
  eapply emits_bind; [by apply emits_emit_multi|]. intros l Hl. cbv beta in Hl.
  destruct l as [|a [|b [|c l]]]; try discriminate Hl. by eapply emits_lift.
Qed.

Lemma unproject_emits x u : emits_ops (unproject_in_ir x u) (fun _ => True).
Proof. unfold unproject_in_ir. follow_ops. by apply emits_emit. Qed.

Definition projected_spec (name : string) (k : Z) : TensorSpec :=
  if g_WIRE_INT8 g then mkTensorSpec name [packed_size g k] "uint8" else mkTensorSpec name [g_dim g B; g_dim g T; k] DTYPE.

Lemma read_projected_builds name k u : builds (read_projected g name k u) [projected_spec name k] [] [] (fun _ => True).
Proof.
  unfold read_projected.
  apply (builds_bind _ _ [projected_spec name k] [] [] [] [] [] (fun _ => True)); [|intros x _; apply unproject_emits].
  unfold projected_spec. destruct (g_WIRE_INT8 g).
  - apply (builds_bind _ _ [_] [] [] [] [] [] _ _ (builds_input _ _ _)). intros p _. by apply emits_emit.
  - eapply builds_weaken; [apply builds_input|done].
Qed.

Lemma read_activation_builds name a : builds (read_activation g name (Some a)) [activation_spec name] [] [] (fun _ => True).
Proof.
  unfold read_activation, use_subspace, activation_spec, wire_spec, wire_dim. destruct (g_SUBSPACE_K g) as [k|].
  - pose proof (read_projected_builds name k (bind_uk g a k false)) as Hb. unfold projected_spec in Hb. by destruct (g_WIRE_INT8 g).
  - eapply builds_weaken; [apply builds_input|done].
Qed.

Lemma read_gradient_builds a : builds (read_gradient g (Some a)) [gradient_spec] [] [] (fun _ => True).
Proof.
  unfold read_gradient, use_subspace, gradient_spec. destruct (g_SUBSPACE_K g) as [k|].
  - pose proof (read_projected_builds "dL_dx_out" (k_dy g k) (bind_uk g a k true)) as Hb. unfold projected_spec in Hb. by destruct (g_WIRE_INT8 g).
  - eapply builds_weaken; [apply builds_input|done].
Qed.

Lemma write_projected_emits x u : emits_ops (write_projected g x u) (fun _ => True).
Proof.
  unfold write_projected. eapply emits_bind; [by apply emits_emit|intros w _].
  destruct (g_WIRE_INT8 g); [by apply emits_emit|by apply builds_ret].
Qed.

Lemma embed_emits a P ids : covers (map fst (head_extra_sizes g)) P -> emits_ops (embed g (Some a) P ids) (fun _ => True).
Proof.
  intros Hc. unfold embed, use_tied, head_extra_sizes in *. eapply (emits_bind _ _ _ _ _ (fun _ => True)).
  { destruct (g_TIED_EMBED g); [by apply builds_ret|]. apply (emits_param _ _ _ Hc). left. }
  intros t _. eapply emits_bind; [by apply emits_emit|intros x _].
  eapply emits_bind; [apply (emits_param _ _ _ Hc); destruct (g_TIED_EMBED g); cbn; [left|right; left]|intros p _].
  follow_ops. by apply emits_emit.
Qed.

Lemma lm_head_emits a P : covers (map fst (tail_extra_sizes g)) P -> emits_ops (lm_head g (Some a) P) (fun _ => True).
Proof.
  intros Hc. unfold lm_head, use_tied, tail_extra_sizes in *. destruct (g_TIED_EMBED g); [by apply emits_emit|].
  apply (emits_param _ _ _ Hc). right. left.
Qed.

Lemma norm_f_emits P : covers (map fst (tail_extra_sizes g)) P -> emits_ops (param_of P "g_norm_f") (fun _ => True).
Proof. intros Hc. apply (emits_param _ _ _ Hc). unfold tail_extra_sizes. destruct (g_TIED_EMBED g); left. Qed.

(** The tokens are declared once, by the head or by the tail. *)
Definition tail_tokens (head : bool) : list TensorSpec := if head then [] else [tokens_spec].

Lemma tail_targets_builds (ids : option ref) (head : bool) : is_some ids = head ->
  builds (tail_targets g ids) (tail_tokens head) [] [] (fun _ => True).
Proof.
  intros <-. unfold tail_targets. destruct ids as [r|]; cbn; [by apply builds_ret|].
  apply (builds_bind _ _ [tokens_spec] [] [] [] [] [] _ _ read_tokens_builds). intros l _. by apply builds_ret.
Qed.

Lemma stage_input_builds (head : bool) name a P : (head = true -> covers (map fst (head_extra_sizes g)) P) ->
  builds (stage_input g head name (Some a) P) (if head then [tokens_spec] else [activation_spec name]) [] []
    (fun r => is_some r.2 = head).
Proof.
  intros Hc. unfold stage_input. destruct head.
  - apply (builds_bind _ _ [tokens_spec] [] [] [] [] [] _ _ read_tokens_builds). intros l _.
    eapply emits_bind; [by apply embed_emits, Hc|intros x _]. by apply builds_ret.
  - apply (builds_bind _ _ [_] [] [] [] [] [] _ _ (read_activation_builds _ _)). intros x _. by apply builds_ret.
Qed.

Lemma fwd_loss_builds a P x ids head : covers (map fst (tail_extra_sizes g)) P -> is_some ids = head ->
  builds (fwd_loss g (Some a) P x ids) (tail_tokens head) ["loss"] [] (fun _ => True).
Proof.
  intros Hc Hi. unfold fwd_loss. eapply emits_bind; [by apply norm_f_emits|intros w _].
  eapply emits_bind; [apply rmsnorm_fwd_emits|intros nf _]. eapply emits_bind; [by apply lm_head_emits|intros h _].
  eapply emits_bind; [by apply emits_emit|intros lg _]. rewrite <- (app_nil_r (tail_tokens head)).
  apply (builds_bind _ _ _ [] [] ["loss"] [] [] _ _ (tail_targets_builds _ _ Hi)). intros t _. follow_ops. apply builds_output.
Qed.

#[local] Opaque rmsnorm_fwd rmsnorm_bwd attn_fwd attn_bwd ffn_fwd ffn_bwd block_fwd_full block_bwd_full read_tokens.

(** ** The three graphs of a stage *)

Lemma stage_covers stage n P : covers (stage_names stage n) P ->
  covers names P /\ (stage = 0%Z -> covers (map fst (head_extra_sizes g)) P) /\
  (stage = (n - 1)%Z -> covers (map fst (tail_extra_sizes g)) P).
Proof.
  intros Hc. split_and!.
  - eapply covers_sub; [exact Hc|]. intros m. apply block_names_in.
  - intros ->. eapply covers_sub; [exact Hc|]. intros m. apply head_names_in.
  - intros E. eapply covers_sub; [exact Hc|]. intros m. by apply tail_names_in.
Qed.

Definition fwd_inputs (stage n : Z) (head tail : bool) : list TensorSpec :=
  weights_spec stage n :: (if head then [tokens_spec] else [activation_spec "x"]) ++ (if tail then tail_tokens head else []).

Lemma fwd_names_distinct stage n head tail : NoDup (map ts_name (fwd_inputs stage n head tail)).
Proof. destruct head, tail; distinct_names. Qed.

Lemma fwd_graph_built a stage n : let head := (stage =? 0)%Z in let tail := (stage =? n - 1)%Z in
  exists gr, build_fwd_graph g stage n tail (Some a) = Ok gr /\ graph_ok gr /\
    g_inputs gr = fwd_inputs stage n head tail /\ map fst (g_outputs gr) = "x" :: (if tail then ["loss"] else []).
Proof.
  intros head tail. apply (built_spec _ _ _ ["mb_seed"] (fun _ => True)); [|apply fwd_names_distinct|apply NoDup_singleton].
  apply (builds_bind _ _ [] _ [] _ ["mb_seed"] [] _ _ (builds_param _ _)). intros _ _.
  apply (builds_bind _ _ [weights_spec stage n] _ [] _ [] [] _ _ (builds_input _ _ _)). intros blob _.
  eapply emits_bind; [apply split_emits|]. intros P HP. apply stage_covers in HP as (Hblocks & Hhead & Htail).
  eapply (builds_bind _ _ _ _ [] _ [] [] _ _ (stage_input_builds head "x" a P _)). intros x Hx.
  eapply emits_bind; [by apply block_fwd_emits|intros out _].
  eapply (emits_bind _ _ _ _ _ (fun _ => True)).
  { destruct (use_subspace g (Some a)) as [[k a']|]; [|by apply builds_ret]. destruct tail; [by apply builds_ret|apply write_projected_emits]. }
  intros xw _. apply (builds_bind _ _ [] _ ["x"] _ [] [] _ _ (builds_output _ _)). intros _ _.
  destruct tail eqn:Et; [|by apply builds_ret]. apply fwd_loss_builds; [apply Htail; by apply Z.eqb_eq|done].
  Unshelve. intros Eh. apply Hhead. by apply Z.eqb_eq.
Qed.

Context (Htokens : is_ok (inv_tokens g) = true) (Hlr : (g_dim g K_INNER <=? 1)%Z || is_ok (inv_lr g) = true).

Lemma tail_gradient_builds a P x ids head : covers (map fst (tail_extra_sizes g)) P -> is_some ids = head ->
  builds (tail_gradient g (Some a) P x ids) (tail_tokens head) [] [] (fun _ => True).
Proof.
  intros Hc Hi. destruct (is_ok_inv _ Htokens) as [inv Hinv]. unfold tail_gradient.
  eapply emits_bind; [by apply norm_f_emits|intros w _].
  eapply emits_bind; [apply rmsnorm_fwd_emits|intros nf _]. eapply emits_bind; [by apply lm_head_emits|intros h _].
  eapply emits_bind; [by apply emits_emit|intros lg _]. rewrite <- (app_nil_r (tail_tokens head)).
  apply (builds_bind _ _ _ [] [] [] [] [] _ _ (tail_targets_builds _ _ Hi)). intros t _. follow_ops.
  eapply builds_lift; [exact Hinv|]. follow_ops. eapply (emits_bind _ _ _ _ _ (fun _ => True)).
  { destruct (use_tied g (Some a)); [by apply builds_ret|]. follow_ops. by apply builds_ret. }
  intros gr _. follow_ops. eapply emits_bind; [apply rmsnorm_bwd_emits|intros r _]. by apply builds_ret.
Qed.

Lemma block_gradients_emits x o dx saved P grads : covers names P -> saved_for range saved ->
  emits_ops (block_gradients g x o dx saved P grads) (fun _ => True).
Proof.
  intros Hc Hs. unfold block_gradients. destruct (1 <? g_dim g K_INNER)%Z eqn:Ek.
  - apply Z.ltb_lt in Ek. apply locoprop_emits; [done|done|]. apply orb_true_iff in Hlr as [Hl|Hl]; [apply Z.leb_le in Hl; lia|done].
  - eapply emits_bind; [by apply block_bwd_emits|intros d _]. by apply builds_ret.
Qed.

Lemma pack_emits grads stage n : emits_ops (pack_grad_blob g grads stage n) (fun _ => True).
Proof.
  unfold pack_grad_blob. eapply emits_bind.
  { apply (emits_mapS _ (fun _ => True) (fun _ => True)); [|by apply Forall_true]. intros e _. unfold pack_piece.
    destruct (dict_get e.1 grads); by apply emits_emit. }
  intros l _. destruct l as [|r [|r' l]]; [by apply emits_emit|by apply builds_ret|by apply emits_emit].
Qed.

Definition bwd_inputs (stage n : Z) (head tail : bool) : list TensorSpec :=
  weights_spec stage n :: (if head then [tokens_spec] else [activation_spec "x_in"]) ++
  (if tail then tail_tokens head else [gradient_spec]).

Lemma gradient_name : ts_name gradient_spec = "dL_dx_out".
Proof. unfold gradient_spec. destruct (g_SUBSPACE_K g); [by destruct (g_WIRE_INT8 g)|done]. Qed.

Lemma bwd_names_distinct stage n head tail : NoDup (map ts_name (bwd_inputs stage n head tail)).
Proof. destruct head, tail; cbn [bwd_inputs map app ts_name tail_tokens activation_spec]; rewrite ?gradient_name; distinct_names. Qed.

Lemma bwd_graph_built a stage n : let head := (stage =? 0)%Z in let tail := (stage =? n - 1)%Z in
  exists gr, build_bwd_graph g stage n tail head (Some a) = Ok gr /\ graph_ok gr /\
    g_inputs gr = bwd_inputs stage n head tail /\ map fst (g_outputs gr) = "dW" :: (if head then [] else ["dL_dx_in"]).
Proof.
  intros head tail. apply (built_spec _ _ _ ["mb_seed"] (fun _ => True)); [|apply bwd_names_distinct|apply NoDup_singleton].
  apply (builds_bind _ _ [] _ [] _ ["mb_seed"] [] _ _ (builds_param _ _)). intros _ _.
  apply (builds_bind _ _ [weights_spec stage n] _ [] _ [] [] _ _ (builds_input _ _ _)). intros blob _.
  eapply emits_bind; [apply split_emits|]. intros P HP. apply stage_covers in HP as (Hblocks & Hhead & Htail).
  eapply (builds_bind _ _ _ _ [] _ [] [] _ _ (stage_input_builds head "x_in" a P _)). intros x Hx.
  eapply emits_bind; [by apply block_fwd_emits|intros out Hout].
  rewrite <- (app_nil_r (if tail then tail_tokens head else [gradient_spec])).
  apply (builds_bind _ _ (if tail then tail_tokens head else [gradient_spec]) [] [] _ [] [] (fun _ => True)).
  { destruct tail eqn:Et.
    - apply tail_gradient_builds; [apply Htail; by apply Z.eqb_eq|done].
    - apply (builds_bind _ _ [gradient_spec] [] [] [] [] [] _ _ (read_gradient_builds a)). intros dx _. by apply builds_ret. }
  intros t _. eapply emits_bind; [by apply block_gradients_emits|intros b _].
  eapply (emits_bind _ _ _ _ _ (fun _ => True)).
  { destruct head; [|by apply builds_ret]. follow_ops. by apply builds_ret. }
  intros grads _. eapply emits_bind; [apply pack_emits|intros dW _].
  apply (builds_bind _ _ [] _ ["dW"] _ [] [] _ _ (builds_output _ _)). intros _ _.
  destruct head; [by apply builds_ret|]. unfold write_gradient. eapply (emits_bind _ _ _ _ _ (fun _ => True)).
  { destruct (use_subspace g (Some a)) as [[k a']|]; [apply write_projected_emits|by apply builds_ret]. }
  intros dx _. apply builds_output.
  Unshelve. intros Eh. apply Hhead. by apply Z.eqb_eq.
Qed.

Definition outer_inputs (stage n m : Z) : list TensorSpec :=
  weights_spec stage n :: map (fun i => mkTensorSpec (dW_name i) [stage_total_numel g stage n] DTYPE) (py_range m).

Lemma outer_graph_built stage n m : exists gr, build_outer_graph g stage n m = Ok gr /\ graph_ok gr /\
  g_inputs gr = outer_inputs stage n m /\ map fst (g_outputs gr) = ["W_new"].
Proof.
  apply (built_spec _ _ _ [] (fun _ => True)); [| |apply NoDup_nil_2].
  2:{ cbn [outer_inputs map ts_name]. rewrite map_map. by apply (weights_names_distinct "W" m). }
  cbv zeta. apply (builds_bind _ _ [weights_spec stage n] _ [] _ [] [] _ _ (builds_input _ _ _)). intros w _.
  rewrite <- (app_nil_r (map _ (py_range m))).
  apply (builds_bind _ _ _ [] [] _ [] [] _ _ (builds_inputs _ (fun i => mkTensorSpec (dW_name i) [stage_total_numel g stage n] DTYPE)
    (fun _ => True) (py_range m) (fun i => builds_weaken _ _ _ _ _ _ (builds_input _ _ _) (fun _ _ => I)))). intros ds _.
  eapply (emits_bind _ _ _ _ _ (fun _ => True)).
  { destruct ds as [|d [|d' ds]]; [follow_ops; by apply emits_emit|by apply builds_ret|follow_ops; by apply emits_emit]. }
  intros mean _. follow_ops. apply builds_output.
Qed.
End facts.
