(* ===== verification/GptFits.v ===== *)
(** * The GPT pipeline fits

    The stages of [teuton_tasks/gpt_pipe.py] are built for every setting of the
    module's globals whose constants exist, their jobs fit their graphs, and the
    activations and weights have the declared shapes; a store seen from the
    process that holds the module's globals keeps its laws. *)

From Stdlib Require Import ZArith Lia Ascii SpecFloat.
From stdpp Require Import base strings list.
From S2P Require Import Prelude PyFloat PyVal Json Signatures Codec Protocol Storage StoreReads Transport WalletCrypto Tensors Emission Ir Eval Mlp Streaming StreamingFacts PipelineFit PipeTasks GptPipe GptTrain GptFacts.

Section stages.
Context (g : globals).

Definition gpt_like (n s : Z) (stage : PipelineStage) : Prop := exists gf gb go,
  let total := g_dim g N_STAGES in
  let head := (s =? 0)%Z in let tail := (s =? total - 1)%Z in
  stage = mkStage s gf (Some gb) (Some go) (if head then [] else [("x", (wire_spec g).1, (wire_spec g).2)])
            (if tail then [("x", [g_dim g B; g_dim g T; g_dim g D], DTYPE)] else [("x", (wire_spec g).1, (wire_spec g).2)])
            (Some "W") [stage_total_numel g s total] DTYPE tail (negb head) /\
  (graph_ok gf /\ g_inputs gf = fwd_inputs g s total head tail /\ map fst (g_outputs gf) = "x" :: (if tail then ["loss"] else [])) /\
  (graph_ok gb /\ g_inputs gb = bwd_inputs g s total head tail /\ map fst (g_outputs gb) = "dW" :: (if head then [] else ["dL_dx_in"])) /\
  (graph_ok go /\ g_inputs go = outer_inputs g s total n /\ map fst (g_outputs go) = ["W_new"]).

Section built.
Context (Hok : constants_ok g = true).

Lemma constants_parts : is_ok (attn_scale g) = true /\ is_ok (inv_tokens g) = true /\
  (g_dim g K_INNER <=? 1)%Z || is_ok (inv_lr g) = true.
Proof. unfold constants_ok in Hok. apply andb_true_iff in Hok as [[? ?]%andb_true_iff ?]. done. Qed.

Lemma gpt_stage_built at_ n s : exists stage, gpt_stage g at_ n s = Ok stage /\ pg_stage_id stage = s /\ gpt_like n s stage.
Proof.
  destruct constants_parts as (Hs & Ht & Hl). unfold gpt_stage. cbv zeta.
  destruct (fwd_graph_built g Hs at_ s (g_dim g N_STAGES)) as (gf & -> & Hf).
  destruct (bwd_graph_built g Hs Ht Hl at_ s (g_dim g N_STAGES)) as (gb & -> & Hb).
  destruct (outer_graph_built g s (g_dim g N_STAGES) n) as (go & -> & Ho).
  eexists. split; [done|]. split; [done|]. by exists gf, gb, go.
Qed.

Lemma gpt_stages_built at_ n : exists stages, mapR (gpt_stage g at_ n) (py_range (g_dim g N_STAGES)) = Ok stages.
Proof.
  generalize (py_range (g_dim g N_STAGES)) as l. induction l as [|s l [stages IH]]; [by exists []|]. cbn.
  destruct (gpt_stage_built at_ n s) as (stage & -> & _). cbn. rewrite IH. by eexists.
Qed.

Lemma gpt_stages_like at_ n stages : mapR (gpt_stage g at_ n) (py_range (g_dim g N_STAGES)) = Ok stages ->
  staged (gpt_like n) (g_dim g N_STAGES) stages.
Proof.
  intros E%mapR_Forall2. eapply Forall2_impl; [exact E|]. intros s stage Hs. cbv beta in Hs.
  destruct (gpt_stage_built at_ n s) as (st & Hst & Hl). rewrite Hst in Hs. by injection Hs as <-.
Qed.

End built.

(** ** The jobs fit *)

Lemma gpt_fits cfg n e tokens params stages : gpt_params g cfg n e tokens = Ok params ->
  staged (gpt_like n) (g_dim g N_STAGES) stages -> pipeline_fits params stages.
Proof.
  intros Hp Hs. unfold gpt_params in Hp. apply bind_Ok in Hp as (uri & _ & Hp). apply bind_Ok in Hp as (prices & _ & Hp).
  apply bind_Ok in Hp as (common & _ & [= <-]).
  apply pipeline_fits_intro.
  - intros stage mb Hin. destruct (staged_elem _ _ _ _ Hs Hin) as (s & _ & _ & gf & gb & go & -> & (H1 & Hi & Ho) & _).
    exists gf. split; [done|]. split; [done|]. rewrite Hi, Ho. unfold job_input_names, job_output_names, target_refs, static_refs, is_head, is_tail, fwd_inputs.
    cbn -[Z.eqb Z.sub]. destruct (s =? 0)%Z, (s =? g_dim g N_STAGES - 1)%Z; cbn; split; first [done|apply Permutation_swap].
  - intros _ stage mb gr Hin _. destruct (staged_elem _ _ _ _ Hs Hin) as (s & _ & _ & gf & gb & go & -> & _ & (H1 & Hi & Ho) & _).
    exists gb. split; [done|]. split; [done|]. rewrite Hi, Ho. unfold job_input_names, job_output_names, target_refs, static_refs, is_head, is_tail, bwd_inputs.
    cbn -[Z.eqb Z.sub gradient_spec]. destruct (s =? 0)%Z, (s =? g_dim g N_STAGES - 1)%Z; cbn -[gradient_spec]; rewrite ?gradient_name; done.
  - intros _ stage gr Hin _. destruct (staged_elem _ _ _ _ Hs Hin) as (s & _ & _ & gf & gb & go & -> & _ & _ & H1 & Hi & Ho).
    exists go. split; [done|]. split; [done|]. rewrite Hi, Ho. split; [|done]. cbn. by rewrite map_map.
Qed.

Lemma gpt_typed n stages : staged (gpt_like n) (g_dim g N_STAGES) stages -> pipeline_typed stages.
Proof.
  intros Hs. split.
  - by eapply staged_ids.
  - intros i before stage Hb Hi. destruct (staged_lookup _ _ _ _ _ Hs Hb) as (_ & _ & b1 & b2 & b3 & -> & _).
    destruct (staged_lookup _ _ _ _ _ Hs Hi) as (_ & Hlt & gf & gb & go & -> & (_ & Hf & _) & (_ & Hg & _) & _).
    assert ((Z.of_nat i =? g_dim g N_STAGES - 1)%Z = false) as Htail by (apply Z.eqb_neq; lia).
    exists "x", (wire_spec g).1, (wire_spec g).2. rewrite later_not_head in *. cbv zeta. rewrite Htail. split; [done|]. split.
    + intros spec Hspec%list_elem_of_singleton. subst spec. split_and!; [done..|]. unfold reads_tensor. cbn [pg_forward_graph]. rewrite Hf.
      right. left.
    + intros gr [= <-]. unfold reads_tensor. rewrite Hg. right. left.
  - intros stage Hin. destruct (staged_elem _ _ _ _ Hs Hin) as (s & _ & _ & gf & gb & go & -> & (_ & Hf & _) & (_ & Hg & _) & _ & Ho & _).
    intros name gr [= <-] Hg'. unfold stage_graphs in Hg'. cbn [pg_forward_graph pg_backward_graph pg_outer_graph] in Hg'.
    rewrite !elem_of_cons, elem_of_nil in Hg'. unfold reads_tensor. cbn [pg_weights_shape pg_weights_dtype].
    destruct Hg' as [[= ->]|[[= ->]|[[= ->]|[]]]]; [rewrite Hf|rewrite Hg|rewrite Ho]; left.
Qed.
End stages.

(** ** What a built stage shows *)

(** A program that cannot return unless [r]. *)
Definition needs {A} (r : bool) (m : ST GraphBuilder A) : Prop := forall b b' a, m b = (b', Ok a) -> r = true.

Lemma needs_lift {A B} (x : result A) (k : A -> ST GraphBuilder B) : needs (is_ok x) (st_lift x ≫= k).
Proof. intros b b' a E. apply st_bind_Ok in E as (b1 & y & Ex & _). by apply st_lift_Ok in Ex as [_ ->]. Qed.

Lemma needs_first {A B} r (m : ST GraphBuilder A) (k : A -> ST GraphBuilder B) : needs r m -> needs r (m ≫= k).
Proof. intros Hm b b' a E. apply st_bind_Ok in E as (b1 & y & E & _). by eapply Hm. Qed.

Lemma needs_later {A B} r (m : ST GraphBuilder A) (k : A -> ST GraphBuilder B) : (forall a, needs r (k a)) -> needs r (m ≫= k).
Proof. intros Hk b b' a E. apply st_bind_Ok in E as (b1 & y & _ & E). by eapply Hk. Qed.

Lemma built_needs r program gr : needs r program -> built program = Ok gr -> r = true.
Proof. unfold built. intros Hn. destruct (program _) as [b [u|e]] eqn:E; [|done]. intros _. by eapply Hn. Qed.

(** Passes the operations before the one that needs [r]. *)
Ltac needed lem := first [apply lem | apply needs_first, lem | apply needs_later; intros ?; needed lem].

Section needs.
Context (g : globals) (Hblocks : (1 <= g_dim g N_BLOCKS_PER_STAGE)%Z).

Lemma attn_needs_scale x w o : needs (is_ok (attn_scale g)) (attn_fwd g x w o).
Proof. unfold attn_fwd. apply needs_later. intros dh. apply needs_lift. Qed.

Lemma block_needs_scale x P s : needs (is_ok (attn_scale g)) (single_block_fwd g x P s).
Proof. unfold single_block_fwd. needed attn_needs_scale. Qed.

Lemma blocks_need_scale x P : needs (is_ok (attn_scale g)) (block_fwd_full g x P).
Proof.
  unfold block_fwd_full, py_range. destruct (Z.to_nat (g_dim g N_BLOCKS_PER_STAGE)) as [|n] eqn:En; [lia|]. cbn [seq map blocks_fwd].
  needed block_needs_scale.
Qed.

Lemma fwd_needs_scale stage n tail at_ gr : build_fwd_graph g stage n tail at_ = Ok gr -> is_ok (attn_scale g) = true.
Proof. apply built_needs. needed blocks_need_scale. Qed.

Lemma tail_needs_tokens at_ P x ids : needs (is_ok (inv_tokens g)) (tail_gradient g at_ P x ids).
Proof. unfold tail_gradient. do 11 (apply needs_later; intros ?). apply needs_lift. Qed.

Lemma locoprop_needs_lr x o dx P grads : needs (is_ok (inv_lr g)) (locoprop g x o dx P grads).
Proof. unfold locoprop. cbv zeta. do 4 (apply needs_later; intros ?). apply needs_lift. Qed.

Lemma bwd_needs_tokens stage n head at_ gr : build_bwd_graph g stage n true head at_ = Ok gr -> is_ok (inv_tokens g) = true.
Proof. apply built_needs. needed tail_needs_tokens. Qed.

Lemma bwd_needs_lr stage n tail head at_ gr : build_bwd_graph g stage n tail head at_ = Ok gr ->
  (g_dim g K_INNER <=? 1)%Z || is_ok (inv_lr g) = true.
Proof.
  apply built_needs. do 5 (apply needs_later; intros ?). apply needs_later. intros t. apply needs_first.
  unfold block_gradients. destruct (1 <? g_dim g K_INNER)%Z eqn:Ek.
  - rewrite (proj2 (Z.leb_gt _ _)) by (by apply Z.ltb_lt). apply locoprop_needs_lr.
  - rewrite (proj2 (Z.leb_le _ _)) by (by apply Z.ltb_ge). by intros b.
Qed.

(** The last stage needs them all. *)
Lemma tail_needs_constants at_ n stage : gpt_stage g at_ n (g_dim g N_STAGES - 1) = Ok stage -> constants_ok g = true.
Proof.
  unfold gpt_stage. cbv zeta. rewrite Z.eqb_refl. intros E. apply bind_Ok in E as (gf & Ef & E). apply bind_Ok in E as (gb & Eb & _).
  unfold constants_ok. by rewrite (fwd_needs_scale _ _ _ _ _ Ef), (bwd_needs_tokens _ _ _ _ _ Eb), (bwd_needs_lr _ _ _ _ _ _ Eb).
Qed.

Lemma stages_need_constants at_ n stages : (1 <= g_dim g N_STAGES)%Z ->
  mapR (gpt_stage g at_ n) (py_range (g_dim g N_STAGES)) = Ok stages -> constants_ok g = true.
Proof.
  intros Hn E%mapR_Forall2. destruct (Forall2_lookup_l _ _ _ (Z.to_nat (g_dim g N_STAGES - 1)) (g_dim g N_STAGES - 1)%Z E) as (stage & _ & Hs).
  - unfold py_range. rewrite list_lookup_fmap, lookup_seq_lt by lia. cbn. f_equal. lia.
  - by eapply tail_needs_constants.
Qed.
End needs.

(** The stages are built exactly when the constants exist; when there is no
    stage, there is nothing to build. *)
Lemma gpt_stages_staged g at_ n stages : (1 <= g_dim g N_BLOCKS_PER_STAGE)%Z ->
  mapR (gpt_stage g at_ n) (py_range (g_dim g N_STAGES)) = Ok stages -> staged (gpt_like g n) (g_dim g N_STAGES) stages.
Proof.
  intros Hb E. destruct (decide (1 <= g_dim g N_STAGES)%Z) as [Hn|Hn].
  - eapply gpt_stages_like; [by eapply stages_need_constants|exact E].
  - unfold staged. assert (py_range (g_dim g N_STAGES) = []) as Er.
    { unfold py_range. by replace (Z.to_nat (g_dim g N_STAGES)) with 0%nat by lia. }
    rewrite Er in E |- *. injection E as <-. constructor.
Qed.

(** ** The process and its store *)

Section process.
Context {S : Type} `{OS : ObjectStore S} `{!ObjectStoreLaws S} `{Torch} `{SigLib}.

Lemma on_store_spec {A} (f : ST S A) m m' r :
  on_store f m = (m', r) <-> f (ms_store m) = (ms_store m', r) /\ ms_globals m' = ms_globals m.
Proof.
  unfold on_store. destruct m as [g s], m' as [g' s']. cbn. destruct (f s) as [s1 r1]. split.
  - by intros [= <- <- <-].
  - by intros [[= <- <-] <-].
Qed.

Lemma on_store_reads {A} (f : ST S A) : (forall s, fst (f s) = s) -> forall m, fst (on_store f m) = m.
Proof. intros Hf [g s]. unfold on_store. cbn. specialize (Hf s). destruct (f s). cbn in *. by subst. Qed.

Lemma module_eq (m m' : module_state S) : ms_store m' = ms_store m -> ms_globals m' = ms_globals m -> m' = m.
Proof. destruct m, m'. cbn. by intros -> ->. Qed.

(** A law of the store under [on_store]. *)
Ltac lifted law :=
  intros; cbn [os_uri_for_key os_put os_get os_exists os_delete os_list os_list_with_meta os_get_json os_put_json
    os_get_with_etag os_put_with_etag module_store] in *;
  repeat match goal with Hm : on_store _ _ = _ |- _ => apply on_store_spec in Hm as [? ?] end;
  rewrite ?on_store_spec; split_and?; try first [eapply law; eassumption|congruence|edestruct law as [? ?]; eassumption].

#[export] Instance module_laws : ObjectStoreLaws (module_state S).
Proof.
  split.
  - intros uri. apply on_store_reads, get_reads.
  - intros uri e. apply on_store_reads, get_etag_reads.
  - intros uri. apply on_store_reads, list_meta_reads.
  - lifted (@put_get S).
  - lifted (@put_elsewhere S).
  - lifted (@put_uri_for_key S).
  - lifted (@put_json_get_json S).
  - lifted (@put_etag_get S).
  - lifted (@put_etag_uri_for_key S).
  - lifted (@put_etag_creates S).
  - lifted (@put_etag_conflict S); edestruct (@put_etag_conflict S) as (Es & want & b & cur & Hm & Hg & Hw); try eassumption.
    + by apply module_eq.
    + exists want, b, cur. by rewrite on_store_spec.
  - lifted (@get_etag_cases S).
  - lifted (@get_etag_match S).
  - intros uri. apply on_store_reads, exists_reads.
  - intros uri. apply on_store_reads, get_json_reads.
  - intros uri. apply on_store_reads, list_reads.
  - lifted (@put_exists S).
  - lifted (@put_keeps S).
  - intros uri v m. cbn [os_put_json os_put module_store]. unfold on_store. by rewrite put_json_put.
  - lifted (@put_frame_back S).
  - intros uri m. cbn [os_get_json os_get module_store]. unfold on_store. rewrite get_json_get. destruct m as [g s]. cbn.
    by destruct (os_get uri s).
  - intros uri data m s s' r [E Hg]%on_store_spec. cbn [os_put module_store]. rewrite on_store_spec.
    apply put_etag_put in E as [E|E]; [left; by apply module_eq|by right].
  - intros s. exact (uri_for_key_ends (ms_store s)).
Qed.

(** ** The task *)

(** At least one block per stage, as [max(..., 1)] ensures it. *)
Definition has_blocks (m : module_state S) : Prop := (1 <= g_dim (ms_globals m) N_BLOCKS_PER_STAGE)%Z.

Definition keeps_blocks {A} (f : ST (module_state S) A) : Prop := forall m, has_blocks m -> has_blocks (fst (f m)).

Lemma blocks_bind {A B} (f : ST (module_state S) A) (k : A -> ST (module_state S) B) :
  keeps_blocks f -> (forall a, keeps_blocks (k a)) -> keeps_blocks (f ≫= k).
Proof.
  intros Hf Hk m Hm. cbv [mbind st_bind]. specialize (Hf m Hm). destruct (f m) as [m1 [a|e]]; [by apply Hk|done].
Qed.

Lemma blocks_same {A} (f : ST (module_state S) A) : (forall m, ms_globals (fst (f m)) = ms_globals m) -> keeps_blocks f.
Proof. intros Hf m Hm. unfold has_blocks. by rewrite Hf. Qed.

Lemma blocks_on_store {A} (f : ST S A) : keeps_blocks (on_store f).
Proof. apply blocks_same. intros [g s]. unfold on_store. cbn. by destruct (f s). Qed.

Lemma blocks_mapS {A B} (f : A -> ST (module_state S) B) l : (forall x, x ∈ l -> keeps_blocks (f x)) -> keeps_blocks (mapS f l).
Proof.
  induction l as [|x l IH]; intros Hf; cbn [mapS]; [by apply blocks_same|].
  apply blocks_bind; [apply Hf; left|intros y]. apply blocks_bind; [apply IH; intros; apply Hf; by right|]. intros ys. by apply blocks_same.
Qed.

(** A change of the globals that leaves a stage its blocks. *)
Definition sturdy (f : globals -> globals) : Prop := forall g, (1 <= g_dim g N_BLOCKS_PER_STAGE)%Z -> (1 <= g_dim (f g) N_BLOCKS_PER_STAGE)%Z.

Lemma blocks_set (r : result (globals -> globals)) : (forall f, r = Ok f -> sturdy f) -> keeps_blocks (f ← st_lift r; set_globals (S := S) f).
Proof. intros Hr m Hm. cbv [mbind st_bind st_lift]. destruct r as [f|x]; [|done]. by apply (Hr f). Qed.

Lemma blocks_take cfg e : (forall v f, e.2 v = Ok f -> sturdy f) ->
  keeps_blocks (take_present cfg e) /\ keeps_blocks (take_unless_null cfg e).
Proof.
  intros He. assert (forall v, keeps_blocks (f ← st_lift (e.2 v); set_globals (S := S) f)) as Hset by (intros v; apply blocks_set, He).
  unfold take_present, take_unless_null. split.
  - destruct (dict_get e.1 cfg); [apply Hset|by apply blocks_same].
  - destruct (get cfg e.1); first [apply Hset|by apply blocks_same].
Qed.

(** Every entry is one of a few kinds. *)
Ltac sturdy_entry :=
  intros v f Hf; cbn [snd] in Hf;
  repeat match type of Hf with
    | mbind _ _ = Ok _ => apply bind_Ok in Hf as (? & ? & Hf)
    | int_entry _ _ = Ok _ => unfold int_entry in Hf
    | count_entry _ _ = Ok _ => unfold count_entry in Hf
    | int_knob _ _ = Ok _ => unfold int_knob in Hf
    | count_knob _ _ = Ok _ => unfold count_knob in Hf
    end;
  injection Hf as <-; intros gl Hgl; cbn -[Z.max dim_eq_dec]; repeat case_decide; first [done|lia].

Lemma entries_sturdy e : e ∈ present_entries ++ unless_null_entries -> forall v f, e.2 v = Ok f -> sturdy f.
Proof.
  unfold present_entries, unless_null_entries. cbn [app]. rewrite !elem_of_cons, elem_of_nil.
  intros He. repeat destruct He as [->|He]; try sturdy_entry. done.
Qed.

Context (environ : string -> option string) (make_uk : Z -> Z -> Z -> result tensor) (tied_embedding : Z -> Z -> tensor)
  (initial_blob : list (string * list Z) -> Z -> tensor) (random_tokens : Z -> Z -> tensor).

Lemma blocks_knob k : k ∈ knobs -> keeps_blocks (turn_knob (S := S) environ k).
Proof.
  intros Hk. assert (forall v f, k.2 v = Ok f -> sturdy f) as Hs.
  { unfold knobs in Hk. rewrite !elem_of_cons, elem_of_nil in Hk. repeat destruct Hk as [->|Hk]; try sturdy_entry. done. }
  unfold turn_knob. destruct (given _); [apply blocks_set, Hs|by apply blocks_same].
Qed.

#[local] Abbreviation pipe := (gpt_pipe environ make_uk tied_embedding initial_blob random_tokens).

Lemma blocks_bootstrap run_id max_rounds : keeps_blocks (stk_bootstrap pipe run_id max_rounds).
Proof.
  cbn [stk_bootstrap gpt_pipe]. unfold bootstrap. cbv zeta. apply blocks_bind; [apply blocks_on_store|intros _].
  apply blocks_bind; [apply blocks_mapS; intros k; apply blocks_knob|intros _]. apply blocks_bind; [by apply blocks_same|intros g].
  do 2 (apply blocks_bind; [apply blocks_on_store|intros _]).
  apply blocks_bind; [destruct (g_TIED_EMBED g); [apply blocks_on_store|by apply blocks_same]|intros _].
  apply blocks_bind; [apply blocks_mapS; intros s _; apply blocks_on_store|intros _]. apply blocks_on_store.
Qed.

Lemma blocks_inputs run_id : keeps_blocks (stk_build_streaming_inputs pipe run_id).
Proof.
  cbn [stk_build_streaming_inputs gpt_pipe]. unfold build_streaming_inputs. apply blocks_bind; [apply blocks_on_store|intros cfg].
  do 3 (apply blocks_bind; [by apply blocks_same|intros ?]).
  apply blocks_bind; [apply blocks_mapS; intros e He; apply blocks_take, entries_sturdy, elem_of_app; by left|intros _].
  apply blocks_bind; [apply blocks_mapS; intros e He; apply blocks_take, entries_sturdy, elem_of_app; by right|intros _].
  do 3 (apply blocks_bind; [by apply blocks_same|intros ?]). apply blocks_bind; [apply blocks_on_store|intros tokens].
  apply blocks_bind; [by apply blocks_same|intros ?]. by apply blocks_same.
Qed.

#[export] Instance gpt_pipe_fitting : FittingTask has_blocks pipe.
Proof.
  intros run_id m m' inputs E Hb. cbn [stk_build_streaming_inputs gpt_pipe] in E. unfold build_streaming_inputs in E.
  apply st_bind_Ok in E as (m1 & cfg & _ & E). apply st_bind_Ok in E as (m2 & g0 & _ & E). apply st_bind_Ok in E as (m3 & e & _ & E).
  apply st_bind_Ok in E as (m4 & n & _ & E). apply st_bind_Ok in E as (m5 & u & _ & E). apply st_bind_Ok in E as (m6 & v & _ & E).
  apply st_bind_Ok in E as (m7 & g & Eg & E). injection Eg as <- <-. apply st_bind_Ok in E as (m8 & at_ & Ea & E). injection Ea as <- _.
  apply st_bind_Ok in E as (m9 & stages & Es & E). apply st_lift_Ok in Es as [-> Es].
  apply st_bind_Ok in E as (m10 & tokens & [_ Eg]%on_store_spec & E). apply st_bind_Ok in E as (m11 & params & [-> Ep]%st_lift_Ok & E).
  injection E as -> <-. unfold has_blocks in Hb. rewrite Eg in Hb. apply gpt_stages_staged in Es; [|done]. cbn [fst snd].
  split; [exact (gpt_fits _ _ _ _ _ _ _ Ep Es)|exact (gpt_typed _ _ _ Es)].
Qed.

(** The orchestrator's bootstrap keeps the blocks. *)
Lemma blocks_run cfg (m m' : streamer (module_state S)) r :
  StreamingRunManager_bootstrap cfg pipe m = (m', r) -> has_blocks (mg_store (sr_manager m)) -> has_blocks (mg_store (sr_manager m')).
Proof.
  set (holds := fun n : streamer (module_state S) => has_blocks (mg_store (sr_manager n))).
  set (kept := fun A (f : ST (streamer (module_state S)) A) => forall n, holds n -> holds (fst (f n))).
  assert (forall A B f k, kept A f -> (forall a, kept B (k a)) -> kept B (f ≫= k)) as Hbind.
  { intros A B f k Hf Hk n Hn. cbv [mbind st_bind]. specialize (Hf n Hn). destruct (f n) as [n1 [a|e]]; [by apply Hk|done]. }
  assert (forall A f, keeps_blocks f -> kept A (mg_do (bucket_do f))) as Hdo.
  { intros A f Hf n Hn. unfold mg_do, bucket_do, holds in *. specialize (Hf _ Hn). by destruct (f _). }
  enough (kept _ (StreamingRunManager_bootstrap cfg pipe)) as Hk by (intros E Hm; specialize (Hk m Hm); by rewrite E in Hk).
  unfold StreamingRunManager_bootstrap. apply Hbind.
  - destruct (sc_stress_emit cfg); [|by intros n]. unfold StreamingRunManager_bootstrap_artifacts_present.
    destruct (negb _); [by intros n|]. apply Hbind; [apply Hdo; by apply blocks_same|]. intros uri n Hn. unfold st_try.
    assert (holds (fst (present uri n))) as Hp by (apply Hdo; [apply blocks_on_store|done]).
    destruct (present uri n) as [n1 [b|e]]; [done|]. by destruct (catchable e).
  - intros attached. apply Hbind; [destruct attached; [by intros n|apply Hdo, blocks_bootstrap]|]. intros _.
    apply Hbind; [apply Hdo, blocks_inputs|]. by intros inputs n.
Qed.
End process.

(** ** The run *)


(** C37. The stages are built exactly when the graphs' constants exist: with at least
    one stage and one block per stage, building them raises an exception if and
    only if there are no heads, the head width has no inverse square root, the
    microbatch has no tokens to average over, or local steps are asked for and
    the learning rate has no inverse.  No operation, parameter or tensor of a
    graph can be missing, redeclared or of the wrong arity. *)
Theorem gpt_stages_exact g at_ n : (1 <= g_dim g N_STAGES)%Z -> (1 <= g_dim g N_BLOCKS_PER_STAGE)%Z ->
  is_ok (mapR (gpt_stage g at_ n) (py_range (g_dim g N_STAGES))) = constants_ok g.
Proof.
  intros Hs Hb. destruct (constants_ok g) eqn:Ec.
  - destruct (gpt_stages_built g Ec at_ n) as [stages ->]. done.
  - destruct (mapR _ _) as [stages|e] eqn:E; [|done]. exfalso. apply (stages_need_constants g Hb) in E; [|done]. by rewrite E in Ec.
Qed.

(** *** An example: two stages over a quantized subspace, with local steps *)

#[local] Existing Instances byte_torch no_signatures.

Definition gpt_environ (name : string) : option string :=
  dict_get name [("GPT_PIPE_SUBSPACE_K", "8"); ("GPT_PIPE_WIRE_INT8", "1"); ("GPT_PIPE_K_INNER", "2"); ("GPT_PIPE_N_STAGES", "2")].

Definition gpt_start : streamer (module_state LocalBucket) :=
  let m := sr_manager pipe_start in
  mkStreamer (mkManager (mkModule default_globals (mg_store m)) (mg_quota m) (mg_queue m) None [] 0) [] fzero.

Definition gpt_run : ST (streamer (module_state LocalBucket)) (list PipelineStage * StreamingParams) :=
  StreamingRunManager_bootstrap (S := module_state LocalBucket) pipe_cfg
    (gpt_pipe (S := LocalBucket) gpt_environ (fun _ _ _ => Ok "u") (fun _ _ => "e") (fun _ _ => "w") (fun _ _ => "t")).

Lemma gpt_run_starts : match snd (gpt_run gpt_start) with
  | Ok inputs => map (fun stage => (pg_forward_input_specs stage)) inputs.1 = [[]; [("x", [4 * 128 * 8 + 8 * 4]%Z, "uint8")]]
  | Err _ => False
  end.
Proof. vm_compute. reflexivity. Qed.


Lemma gpt_stages_exact_witness : is_ok (mapR (gpt_stage default_globals (mkSite (fun k => k) "r") 16) (py_range 4)) = true /\
  is_ok (mapR (gpt_stage (set_dim N_HEAD 0 default_globals) (mkSite (fun k => k) "r") 16) (py_range 4)) = false.
Proof.
  split.
  - etransitivity; [apply (gpt_stages_exact default_globals (mkSite (fun k => k) "r") 16); vm_compute; discriminate|vm_compute; reflexivity].
  - etransitivity; [apply (gpt_stages_exact (set_dim N_HEAD 0 default_globals) (mkSite (fun k => k) "r") 16); vm_compute; discriminate|].
    vm_compute. reflexivity.
Defined.
