(* ===== verification/AuditReplay.v ===== *)
(** * Audit replay ([teuton_validator/audit.py], [teuton_validator/audit_dispatch.py])

    Replaying a job and comparing its outputs with what the miner stored.  The
    class [Replayers] holds the seeded sample of indices and the operations of
    the tensor-parallel runner, which replays the jobs of a group on one rank. *)

From Stdlib Require Import ZArith Lia Ascii.
From stdpp Require Import base strings list.
From S2P Require Import Prelude PyFloat PyVal Json Digest Paths Signatures Codec Protocol ProtocolFacts.
From S2P Require Import Storage Transport Crypto Ir Tensors TensorParallel Eval.

(** ** Tensors *)

(** What an evaluated output may be. *)
Inductive pyobj (T : Type) : Type :=
  | ONone
  | OTensor (t : T)
  | OOther.
Arguments ONone {T}.
Arguments OTensor {T} t.
Arguments OOther {T}.

(** [random.Random(seed).sample(range(total), k)], and the operations of torch
    the tensor-parallel runner uses. *)
Class Replayers `{Torch} := {
  rng_sample : Z -> Z -> Z -> list Z;
  #[global] replay_ops :: TensorOps tensor
}.

Record AuditReplayConfig := mkAuditConfig {
  arc_owner_secret : string;
  arc_owner_hotkey : string;
  arc_miner_secret : string;
  arc_device : string;
  arc_max_sample_elements : Z;
  arc_encryption_secret : string;
  arc_timelock_provider : option TimelockProvider
}.

Section audit.
Context {S : Type} `{ObjectStore S} `{TT : Torch} `{!Kernels} `{!Replayers} `{SigLib} `{ExnText}.
Context (default_provider : result TimelockProvider).

(** The runner's bucket and graph cache, and the comparison under
    construction: its "inputs", its "outputs", the entries added at top level. *)
Record replay := mkReplay {
  rp_store : S;
  rp_graphs : dict Graph;
  rp_inputs : dict pyval;
  rp_outputs : dict pyval;
  rp_extra : dict pyval
}.

Definition on_store {A} (m : ST S A) : ST replay A := fun rp =>
  let '(s, r) := m (rp_store rp) in (mkReplay s (rp_graphs rp) (rp_inputs rp) (rp_outputs rp) (rp_extra rp), r).

Definition note_graph (sha : string) (g : Graph) : ST replay unit := fun rp =>
  (mkReplay (rp_store rp) (dict_set sha g (rp_graphs rp)) (rp_inputs rp) (rp_outputs rp) (rp_extra rp), Ok tt).
Definition note_input (name : string) (d : dict pyval) : ST replay unit := fun rp =>
  (mkReplay (rp_store rp) (rp_graphs rp) (dict_set name (PDict d) (rp_inputs rp)) (rp_outputs rp) (rp_extra rp), Ok tt).
Definition note_output (name : string) (d : dict pyval) : ST replay unit := fun rp =>
  (mkReplay (rp_store rp) (rp_graphs rp) (rp_inputs rp) (dict_set name (PDict d) (rp_outputs rp)) (rp_extra rp), Ok tt).
Definition note_extra (key : string) (v : pyval) : ST replay unit := fun rp =>
  (mkReplay (rp_store rp) (rp_graphs rp) (rp_inputs rp) (rp_outputs rp) (dict_set key v (rp_extra rp)), Ok tt).

(** *** Signatures *)

Definition AuditReplayRunner_verify_manifest_signature (cfg : AuditReplayConfig) (m : JobManifestV3)
    : result bool :=
  if String.eqb (arc_owner_secret cfg) "skip" then Ok true
  else match given (jm_owner_signature m) with
       | None => Ok false
       | Some sig =>
           if String.eqb (arc_owner_hotkey cfg) ""
           then verify_dict (JobManifestV3_unsigned_dict m) (arc_owner_secret cfg) sig
           else verify_identity_dict (JobManifestV3_unsigned_dict m) (arc_owner_hotkey cfg) sig true
       end.

Definition AuditReplayRunner_miner_signing_secret (cfg : AuditReplayConfig) (r : JobReceiptV3) : string :=
  if String.eqb (arc_miner_secret cfg) "hotkey" then wi_hotkey_ss58 (jr_worker r) else arc_miner_secret cfg.

Definition AuditReplayRunner_verify_receipt_signature (cfg : AuditReplayConfig) (r : JobReceiptV3)
    : result bool :=
  match given (jr_miner_signature r) with
  | None => Ok false
  | Some sig =>
      good ← verify_identity_dict (JobReceiptV3_unsigned_dict r) (wi_hotkey_ss58 (jr_worker r)) sig true;
      if (good : bool) then Ok true
      else verify_dict (JobReceiptV3_unsigned_dict r) (AuditReplayRunner_miner_signing_secret cfg r) sig
  end.

(** *** Graphs and inputs *)

Definition AuditReplayRunner_fetch_graph (sha uri : string) : ST replay Graph :=
  rp ← st_get;
  match dict_get sha (rp_graphs rp) with
  | Some g => mret g
  | None =>
      blob ← on_store (os_get uri);
      g ← st_lift (load_bytes Graph_from_dict blob);
      if String.eqb (Graph_graph_id g) sha then _ ← note_graph sha g; mret g
      else st_raise (ValueError "graph hash mismatch")
  end.

Context (transport_get : string -> option PresignedUrlGrant -> ST S string).
Context (grants : dict PresignedUrlGrant).

Definition crypto_mode_of (ref : ArtifactRef) : string :=
  match ar_crypto ref with Some p => cp_mode p | None => "none" end.

(** [decode_envelope] with the auditor's verifier and secrets. *)
Definition open_artifact (cfg : AuditReplayConfig) (ref : ArtifactRef) (body : string) : result string :=
  decode_envelope default_provider body (ar_crypto ref) (Some identity_verifier)
    (arc_encryption_secret cfg) (arc_timelock_provider cfg).

(** Whether a digest of a receipt names the bytes with digest [sha]. *)
Definition digest_matches (d : ArtifactDigest) (sha : string) : bool :=
  String.eqb (ad_sha256 d) sha || bool_decide (ad_envelope_sha256 d = Some sha).

Definition expected_digests (digests : list ArtifactDigest) : dict ArtifactDigest :=
  fold_left (fun acc d => dict_set (ad_name d) d acc) digests [].

Definition load_input (cfg : AuditReplayConfig) (expected : dict ArtifactDigest) (ref : ArtifactRef)
    : ST replay tensor :=
  body ← on_store (transport_get (ar_uri ref) (dict_get (ar_uri ref) grants));
  let sha := sha256_hexdigest body in
  let exp := dict_get (ar_name ref) expected in
  let matches := match exp with Some d => digest_matches d sha | None => true end in
  _ ← note_input (ar_name ref)
        [("sha256", PStr sha); ("size_bytes", PInt (Z.of_nat (String.length body)));
         ("matches_receipt", PBool matches); ("crypto_mode", PStr (crypto_mode_of ref))];
  if negb matches then st_raise (ValueError ("input changed: " +:+ ar_name ref))
  else match exp with
       | Some (mkDigest _ _ _ _ _ _ _ _ _ (Some _)) =>
           on_store (get_sharded_tensor transport_get grants (ar_uri ref) (arc_device cfg))
       | _ =>
           plain ← st_lift (open_artifact cfg ref body);
           t ← st_lift (decode_tensor plain);
           st_lift (to_device (arc_device cfg) t)
       end.

Fixpoint load_inputs_loop (cfg : AuditReplayConfig) (expected : dict ArtifactDigest)
    (refs : list ArtifactRef) (inputs : dict tensor) : ST replay (dict tensor) :=
  match refs with
  | [] => mret inputs
  | ref :: refs' =>
      t ← load_input cfg expected ref;
      load_inputs_loop cfg expected refs' (dict_set (ar_name ref) t inputs)
  end.

Definition AuditReplayRunner_load_inputs (cfg : AuditReplayConfig) (refs : list ArtifactRef)
    (digests : list ArtifactDigest) : ST replay (dict tensor) :=
  load_inputs_loop cfg (expected_digests digests) refs [].

(** *** Outputs *)

Definition failed_output (reason : string) : bool * dict pyval :=
  (false, [("status", PStr "fail"); ("reason", PStr reason)]).

Definition output_digest_of (receipt : JobReceiptV3) (ref : ArtifactRef) : option ArtifactDigest :=
  List.find (fun d => String.eqb (ad_name d) (ar_name ref) && String.eqb (ad_uri d) (ar_uri ref))
    (jr_output_digests receipt).

Definition digest_sharded (d : option ArtifactDigest) : option ShardedTensorManifest :=
  match d with Some d => ad_sharded d | None => None end.

(** What the miner stored for an output. *)
Definition observed_output (cfg : AuditReplayConfig) (ref : ArtifactRef) (digest : option ArtifactDigest)
    : ST replay tensor :=
  match digest_sharded digest with
  | Some _ => on_store (get_sharded_tensor transport_get grants (ar_uri ref) (arc_device cfg))
  | None =>
      blob ← on_store (transport_get (ar_uri ref) (dict_get (ar_uri ref) grants));
      body ← st_lift (open_artifact cfg ref blob);
      if endswith ".json" (ar_uri ref) then
        text ← st_lift (utf8_decode body);
        v ← st_lift (json_loads text);
        match v with
        | PDict d =>
            if dict_mem "shards" d && dict_mem "world_size" d
            then on_store (get_sharded_tensor transport_get grants (ar_uri ref) (arc_device cfg))
            else st_lift (t ← as_tensor (get d "value"); to_device (arc_device cfg) t)
        | PList _ | PStr _ => st_raise Unmodelled
        | _ => st_raise (TypeError "argument is not iterable")
        end
      else
        t ← st_lift (decode_tensor body);
        st_lift (to_device (arc_device cfg) t)
  end.

(** The comparison itself: verdict and details. *)
Definition compare_tensors (policy : VerificationPolicy) (observed expected : tensor)
    : bool * dict pyval :=
  let obs := t_flat observed in
  let exp := t_flat expected in
  let total := t_numel obs in
  let sampled := ((0 <? vp_max_sample_elements policy) && (vp_max_sample_elements policy <? total))%Z in
  let idx := rng_sample (vp_sample_seed policy) total (vp_max_sample_elements policy) in
  let obs := if sampled then t_select obs idx else obs in
  let exp := if sampled then t_select exp idx else exp in
  let comparator :=
    if String.eqb (vp_comparator policy) "auto"
    then (if t_is_floating expected then "allclose" else "exact") else vp_comparator policy in
  let '(ok, max_abs) :=
    if String.eqb comparator "exact" then
      let ok := t_equal obs exp in (ok, if ok then fzero else t_max_abs_diff obs exp)
    else
      (t_allclose obs exp (vp_rtol policy) (vp_atol policy),
       if (t_numel obs =? 0)%Z then fzero else t_max_abs_diff obs exp) in
  (ok, [("status", PStr (if ok then "pass" else "fail"));
        ("reason", PStr (if ok then "matched" else "tensor mismatch"));
        ("comparator", PStr comparator);
        ("checked_elements", PInt (t_numel obs));
        ("total_elements", PInt total);
        ("max_abs_error", PFloat max_abs)]).

Definition AuditReplayRunner_compare_output (cfg : AuditReplayConfig) (ref : ArtifactRef)
    (expected_value : option (pyobj tensor)) (manifest : JobManifestV3) (receipt : JobReceiptV3)
    : ST replay (bool * dict pyval) :=
  match expected_value with
  | None | Some ONone => mret (failed_output "missing replay output")
  | Some value =>
      let digest := output_digest_of receipt ref in
      observed ← observed_output cfg ref digest;
      match value with
      | OTensor t =>
          expected ← st_lift (to_device (arc_device cfg) t);
          if negb (bool_decide (t_shape observed = t_shape expected)) then mret (failed_output "shape mismatch")
          else
            let '(ok, details) := compare_tensors (jm_verification_policy manifest) observed expected in
            mret (ok, details ++
              [("crypto_mode", PStr (crypto_mode_of ref));
               ("sharded", match digest_sharded digest with
                           | Some m => PDict (ShardedTensorManifest_to_dict m) | None => PNone end)])
      | _ => mret (failed_output "non-tensor replay output")
      end
  end.

Definition reason_of (d : dict pyval) : string :=
  match get d "reason" with PStr s => s | _ => "None" end.

(** The loop over the outputs: the reasons of those that did not match. *)
Fixpoint compare_outputs (cfg : AuditReplayConfig) (outputs : dict (pyobj tensor)) (manifest : JobManifestV3)
    (receipt : JobReceiptV3) (refs : list ArtifactRef) : ST replay (list string) :=
  match refs with
  | [] => mret []
  | ref :: refs' =>
      c ← AuditReplayRunner_compare_output cfg ref (dict_get (ar_name ref) outputs) manifest receipt;
      _ ← note_output (ar_name ref) (snd c);
      rest ← compare_outputs cfg outputs manifest receipt refs';
      mret (if (fst c : bool) then rest else (ar_name ref +:+ ": " +:+ reason_of (snd c)) :: rest)
  end.

(** *** The replay *)

Definition is_gpt_job (params : dict pyval) : bool :=
  match por (get params "distributed_runner") (get params "runner") with
  | PStr s => String.eqb s "gpt_tensor_parallel_v1"
  | _ => false
  end.

Definition replay_outputs (cfg : AuditReplayConfig) (g : Graph) (inputs : dict tensor)
    (manifest : JobManifestV3) (receipt : JobReceiptV3) : ST replay (dict (pyobj tensor)) :=
  if is_gpt_job (jm_params manifest) then
    _ ← st_lift (torch_device (arc_device cfg));
    outputs ← st_lift (rank_entry 1 inputs (jm_params manifest));
    _ ← note_extra "distributed_replay"
          (PDict [("mode", PStr "single_rank_functional");
                  ("receipt_world_size", get (jr_execution receipt) "world_size");
                  ("sharding_plan_hash", get (jr_execution receipt) "sharding_plan_hash")]);
    mret (dict_map OTensor outputs)
  else
    outputs ← on_store (evaluate g inputs (jm_params manifest) (Some (arc_device cfg)));
    mret (dict_map OTensor outputs).

(** Status, reason and replay time; [t0] and [t1] are readings of the clock. *)
Definition replay_body (cfg : AuditReplayConfig) (manifest : JobManifestV3) (receipt : JobReceiptV3)
    (t0 t1 : float) : ST replay (string * string * float) :=
  owner_ok ← st_lift (AuditReplayRunner_verify_manifest_signature cfg manifest);
  if negb (owner_ok : bool) then mret ("fail", "bad owner signature", fzero)
  else
    miner_ok ← st_lift (AuditReplayRunner_verify_receipt_signature cfg receipt);
    if negb (miner_ok : bool) then mret ("fail", "bad miner signature", fzero)
    else if negb (String.eqb (JobManifestV3_manifest_hash manifest) (jr_manifest_hash receipt))
    then mret ("fail", "manifest hash mismatch", fzero)
    else
      g ← AuditReplayRunner_fetch_graph (gr_sha256 (jm_graph_ref manifest)) (gr_uri (jm_graph_ref manifest));
      inputs ← AuditReplayRunner_load_inputs cfg (jm_inputs manifest) (jr_input_digests receipt);
      outputs ← replay_outputs cfg g inputs manifest receipt;
      reasons ← compare_outputs cfg outputs manifest receipt (jm_outputs manifest);
      mret (match reasons with
            | [] => ("pass", "all outputs matched", fsub t1 t0)
            | _ => ("fail", str_join "; " (take 4 reasons), fsub t1 t0)
            end).

Definition AuditReplayRunner_result (receipt : JobReceiptV3) (auditor_hotkey status reason : string)
    (replay_compute_sec : float) (comparison : dict pyval) (now : float) : AuditResultV3 :=
  mkAuditResult (auditor_hotkey +:+ ":" +:+ jr_receipt_id receipt) (jr_receipt_id receipt)
    (jr_manifest_hash receipt) (jr_job_id receipt) (jr_run_id receipt) (wi_hotkey_ss58 (jr_worker receipt))
    auditor_hotkey status reason replay_compute_sec now comparison None 1.

Definition comparison_of (receipt_uri : string) (rp : replay) : dict pyval :=
  [("receipt_uri", PStr receipt_uri); ("inputs", PDict (rp_inputs rp)); ("outputs", PDict (rp_outputs rp))]
  ++ rp_extra rp.

(** The whole run from a bucket and a graph cache. *)
Definition AuditReplayRunner_run (cfg : AuditReplayConfig) (receipt_uri : string) (manifest : JobManifestV3)
    (receipt : JobReceiptV3) (auditor_hotkey : string) (t0 t1 now : float) (s : S) (cache : dict Graph)
    : S * dict Graph * result AuditResultV3 :=
  let '(rp, r) := replay_body cfg manifest receipt t0 t1 (mkReplay s cache [] [] []) in
  let answer status reason dt cmp := Ok (AuditReplayRunner_result receipt auditor_hotkey status reason dt cmp now) in
  let cmp := comparison_of receipt_uri rp in
  (rp_store rp, rp_graphs rp,
   match r with
   | Ok (status, reason, dt) => answer status reason dt cmp
   | Err (TimelockPending _ as e) =>
       answer "inconclusive" (exn_str e) fzero (dict_set "crypto_pending" (PStr (exn_str e)) cmp)
   | Err (ValueError _ as e) =>
       answer "fail" (exn_str e) fzero (dict_set "verification_error" (PStr (exn_str e)) cmp)
   | Err Unmodelled => Err Unmodelled
   | Err e => answer "inconclusive" (exn_str e) fzero (dict_set "error" (PStr (exn_repr e)) cmp)
   end).
End audit.

Arguments replay S : clear implicits.

(** ** Running an audit job *)

Definition run_audit_replay {S} `{ObjectStore S} `{Torch} `{!Kernels} `{!Replayers} `{SigLib} `{ExnText}
    (default_provider : result TimelockProvider)
    (transport_get : string -> option PresignedUrlGrant -> ST S string) (grants : dict PresignedUrlGrant)
    (manifest : JobManifestV3) (worker_hotkey : string) (auditor_signer : option Signer)
    (owner_secret owner_hotkey miner_secret device : string) (t0 t1 now : float) : ST S AuditResultV3 := fun s =>
  let prepared :=
    tv ← item (jm_params manifest) "target_manifest";
    td ← as_object tv;
    target ← JobManifestV3_from_dict td;
    _ ← (if String.eqb owner_secret "skip" then Ok tt
         else
           let identity := if String.eqb owner_hotkey "" then owner_secret else owner_hotkey in
           let bad := Err (ValueError ("audit target manifest has bad owner signature: " +:+ jm_job_id target)) in
           match given (jm_owner_signature target) with
           | None => bad
           | Some sig =>
               good ← verify_identity_dict (JobManifestV3_unsigned_dict target) identity sig true;
               if (good : bool) then Ok tt else bad
           end);
    rv ← item (jm_params manifest) "receipt";
    rd ← as_object rv;
    receipt ← JobReceiptV3_from_dict rd;
    uri ← req_str (jm_params manifest) "receipt_uri";
    Ok (target, receipt, uri) in
  match prepared with
  | Err e => (s, Err e)
  | Ok (target, receipt, uri) =>
      let cfg := mkAuditConfig owner_secret owner_hotkey miner_secret device 4096 "teuton-dev-encryption" None in
      let '(s', _, r) := AuditReplayRunner_run default_provider transport_get grants cfg uri target receipt
                           worker_hotkey t0 t1 now s [] in
      (s', audit ← r;
           AuditResultV3_sign audit
             (match auditor_signer with Some a => BySigner a | None => BySecret worker_hotkey end))
  end.

(** ** Lemmas *)

Section facts.
Context {S : Type} `{ObjectStore S} `{TT : Torch} `{!Kernels} `{!Replayers} `{SigLib} `{ExnText}.
Context (dp : result TimelockProvider).
Context (transport_get : string -> option PresignedUrlGrant -> ST S string).
Context (grants : dict PresignedUrlGrant).

(** What a step leaves of the comparison and of the graph cache. *)
Definition keeps {A} (m : ST (replay S) A) : Prop := forall rp,
  rp_graphs (fst (m rp)) = rp_graphs rp /\ rp_inputs (fst (m rp)) = rp_inputs rp /\
  rp_outputs (fst (m rp)) = rp_outputs rp.

Lemma keeps_ret {A} (a : A) : keeps (mret a).
Proof. done. Qed.
Lemma keeps_lift {A} (r : result A) : keeps (st_lift r).
Proof. done. Qed.
Lemma keeps_raise {A} e : keeps (st_raise (A := A) e).
Proof. done. Qed.
Lemma keeps_on_store {A} (m : ST S A) : keeps (on_store m).
Proof. intros rp. unfold on_store. by destruct (m (rp_store rp)). Qed.
Lemma keeps_extra k v : keeps (note_extra (S := S) k v).
Proof. done. Qed.
Lemma keeps_bind {A B} (m : ST (replay S) A) (k : A -> ST (replay S) B) :
  keeps m -> (forall a, keeps (k a)) -> keeps (m ≫= k).
Proof.
  intros Hm Hk rp. cbv [mbind st_bind]. specialize (Hm rp). destruct (m rp) as [rp1 [a|e]]; cbn [fst] in *; [|done].
  destruct (Hk a rp1) as (-> & -> & ->). done.
Qed.

Hint Resolve keeps_ret keeps_lift keeps_raise keeps_on_store keeps_extra : keeps.

Ltac keeps_steps :=
  repeat first [apply keeps_bind; [auto with keeps|intros ?] | progress auto with keeps | case_goal].

Lemma keeps_observed cfg ref digest : keeps (observed_output dp transport_get grants cfg ref digest).
Proof. unfold observed_output. keeps_steps. Qed.

Lemma keeps_compare cfg ref v m r :
  keeps (AuditReplayRunner_compare_output dp transport_get grants cfg ref v m r).
Proof.
  unfold AuditReplayRunner_compare_output. destruct v as [[|t|]|]; auto with keeps;
    (apply keeps_bind; [apply keeps_observed|intros obs]); auto with keeps.
  apply keeps_bind; [auto with keeps|intros e]. destruct (negb _); auto with keeps.
  destruct (compare_tensors _ _ _). auto with keeps.
Qed.

Lemma keeps_replay_outputs cfg g inputs m r : keeps (replay_outputs cfg g inputs m r).
Proof. unfold replay_outputs. destruct (is_gpt_job _); keeps_steps. Qed.

(** A graph cache whose entries have the digests they are filed under. *)
Definition graphs_ok (cache : dict Graph) : Prop :=
  forall sha g, dict_get sha cache = Some g -> Graph_graph_id g = sha.

Lemma fetch_graph_spec sha uri rp rp' g : graphs_ok (rp_graphs rp) ->
  AuditReplayRunner_fetch_graph sha uri rp = (rp', Ok g) ->
  Graph_graph_id g = sha /\ dict_get sha (rp_graphs rp') = Some g /\ graphs_ok (rp_graphs rp') /\
  rp_inputs rp' = rp_inputs rp /\ rp_outputs rp' = rp_outputs rp.
Proof.
  intros Hc Hf. unfold AuditReplayRunner_fetch_graph in Hf. st_step Hf. injection E as <-.
  destruct (dict_get sha (rp_graphs rp)) as [g'|] eqn:Eg.
  - injection Hf as <- <-. split; [by apply Hc|done].
  - st_step Hf. pose proof (keeps_on_store (os_get uri) rp) as (K1 & K2 & K3). rewrite E in K1, K2, K3. cbn in *.
    st_step Hf. destruct (String.eqb (Graph_graph_id x0) sha) eqn:Es; [|done]. apply String.eqb_eq in Es.
    st_step Hf. injection E1 as <-. injection Hf as <- <-. cbn. rewrite K2, K3, dict_get_set_eq.
    split_and!; try done. intros sha' g. rewrite dict_get_set, K1.
    destruct (String.eqb sha' sha) eqn:E2; [|auto]. apply String.eqb_eq in E2 as ->. by intros [= <-].
Qed.

(** An entry of the comparison for an input of [refs] whose bytes the receipt
    names. *)
Definition input_checked (refs : list ArtifactRef) (expected : dict ArtifactDigest) (name : string)
    (v : pyval) : Prop :=
  exists ref body s, ref ∈ refs /\ ar_name ref = name /\
    snd (transport_get (ar_uri ref) (dict_get (ar_uri ref) grants) s) = Ok body /\
    (exists d, v = PDict d /\ get d "sha256" = PStr (sha256_hexdigest body)) /\
    (forall d, dict_get name expected = Some d -> digest_matches d (sha256_hexdigest body) = true).

Lemma load_input_spec cfg refs expected ref rp rp' t : ref ∈ refs ->
  load_input dp transport_get grants cfg expected ref rp = (rp', Ok t) ->
  rp_graphs rp' = rp_graphs rp /\ rp_outputs rp' = rp_outputs rp /\
  exists v, rp_inputs rp' = dict_set (ar_name ref) v (rp_inputs rp) /\
    input_checked refs expected (ar_name ref) v.
Proof.
  intros Href Hl. unfold load_input in Hl. st_step Hl. rename x into body.
  pose proof (keeps_on_store (transport_get (ar_uri ref) (dict_get (ar_uri ref) grants)) rp) as (K1 & K2 & K3).
  rewrite E in K1, K2, K3. cbn [fst] in *. unfold on_store in E.
  destruct (transport_get _ _ (rp_store rp)) as [s1 r1] eqn:Et. injection E as <- ->.
  st_step Hl. injection E as <-. destruct (negb _) eqn:Em; [done|]. apply negb_false_iff in Em.
  match type of Hl with ?m ?st = _ => assert (keeps m) as Hk end.
  { destruct (dict_get (ar_name ref) expected) as [[? ? ? ? ? ? ? ? ? [?|]]|]; auto with keeps;
      apply keeps_bind; intros; auto with keeps; apply keeps_bind; intros; auto with keeps. }
  match type of Hl with ?m ?st = _ => destruct (Hk st) as (J1 & J2 & J3) end. rewrite Hl in J1, J2, J3.
  cbn in *. split; [done|]. split; [done|]. eexists. split; [exact J2|].
  exists ref, body, (rp_store rp). split_and!; [done|done|by rewrite Et|by eexists|].
  intros d Hd. by rewrite Hd in Em.
Qed.

Lemma load_inputs_spec cfg all expected refs : forall acc rp rp' ts,
  (forall ref, ref ∈ refs -> ref ∈ all) ->
  (forall n v, dict_get n (rp_inputs rp) = Some v -> input_checked all expected n v) ->
  load_inputs_loop dp transport_get grants cfg expected refs acc rp = (rp', Ok ts) ->
  rp_graphs rp' = rp_graphs rp /\ rp_outputs rp' = rp_outputs rp /\
  (forall n v, dict_get n (rp_inputs rp') = Some v -> input_checked all expected n v) /\
  (forall n v, dict_get n (rp_inputs rp) = Some v -> exists v', dict_get n (rp_inputs rp') = Some v') /\
  (forall ref, ref ∈ refs -> exists v, dict_get (ar_name ref) (rp_inputs rp') = Some v).
Proof.
  induction refs as [|ref refs IH]; intros acc rp rp' ts Hsub Hinv Hl; cbn [load_inputs_loop] in Hl.
  - injection Hl as <- <-. split_and!; try done; [eauto|by intros ref ?%elem_of_nil].
  - st_step Hl. apply (load_input_spec cfg all) in E as (G1 & O1 & v & I1 & C1); [|apply Hsub; by left].
    assert (forall n w, dict_get n (rp_inputs s) = Some w -> input_checked all expected n w) as Hinv'.
    { intros n w. rewrite I1, dict_get_set. destruct (String.eqb n (ar_name ref)) eqn:En; [|auto].
      apply String.eqb_eq in En as ->. by intros [= <-]. }
    destruct (IH _ _ _ _ (fun r Hr => Hsub r (list_elem_of_further _ _ _ Hr)) Hinv' Hl) as (G2 & O2 & I2 & P2 & R2).
    rewrite G2, O2. split_and!; try done.
    + intros n w Hn. destruct (String.eqb n (ar_name ref)) eqn:En.
      * apply (P2 n v). rewrite I1, dict_get_set, En. done.
      * apply (P2 n w). rewrite I1, dict_get_set, En. done.
    + intros r [->|Hr]%elem_of_cons; [|auto]. apply (P2 _ v). by rewrite I1, dict_get_set_eq.
Qed.

(** An output whose comparison passed. *)
Definition output_passed (outputs : dict pyval) (name : string) : Prop :=
  exists d, dict_get name outputs = Some (PDict d) /\ get d "status" = PStr "pass".

Lemma compare_passed cfg ref v m r rp rp' d :
  AuditReplayRunner_compare_output dp transport_get grants cfg ref v m r rp = (rp', Ok (true, d)) ->
  get d "status" = PStr "pass".
Proof.
  unfold AuditReplayRunner_compare_output. intros Hc.
  destruct v as [[|t|]|]; [done| | |done]; st_step Hc; [|done].
  st_step Hc. destruct (negb _); [done|]. unfold compare_tensors in Hc.
  destruct (String.eqb _ "exact"); injection Hc as _ Hok <-; by rewrite Hok.
Qed.

Lemma compare_outputs_spec cfg outs m r refs : forall rp rp',
  compare_outputs dp transport_get grants cfg outs m r refs rp = (rp', Ok []) ->
  rp_graphs rp' = rp_graphs rp /\ rp_inputs rp' = rp_inputs rp /\
  (forall n, output_passed (rp_outputs rp) n -> output_passed (rp_outputs rp') n) /\
  (forall ref, ref ∈ refs -> output_passed (rp_outputs rp') (ar_name ref)).
Proof.
  induction refs as [|ref refs IH]; intros rp rp' Hc; cbn [compare_outputs] in Hc.
  - injection Hc as <-. split_and!; try done. by intros ref ?%elem_of_nil.
  - st_step Hc. destruct (keeps_compare cfg ref (dict_get (ar_name ref) outs) m r rp) as (K1 & K2 & K3).
    rewrite E in K1, K2, K3. cbn [fst] in *. destruct x as [ok d].
    st_step Hc. injection E0 as <-. st_step Hc. injection Hc as <- Hr.
    destruct ok; [|done]. cbn [fst snd] in *.
    match type of Hr with ?v = [] => subst v end. apply compare_passed in E.
    destruct (IH _ _ E0) as (G & I & P & R). cbn in *. rewrite G, I. split_and!; try done.
    + intros n (d' & Hd & Hp). apply P. unfold output_passed. rewrite dict_get_set, K3.
      destruct (String.eqb n (ar_name ref)); eauto.
    + intros ref' [->|Hin]%elem_of_cons; [|auto]. apply P. exists d. by rewrite dict_get_set_eq.
Qed.

(** ** Properties *)

(** The manifest's signature, as the configuration asks for it. *)
Definition owner_signed (cfg : AuditReplayConfig) (m : JobManifestV3) : Prop :=
  arc_owner_secret cfg = "skip" \/
  exists sig, jm_owner_signature m = Some sig /\ sig <> EmptyString /\
    if String.eqb (arc_owner_hotkey cfg) ""
    then verify_dict (JobManifestV3_unsigned_dict m) (arc_owner_secret cfg) sig = Ok true
    else verify_identity_dict (JobManifestV3_unsigned_dict m) (arc_owner_hotkey cfg) sig true = Ok true.

(** The receipt's signature, under the miner's identity or the shared secret. *)
Definition miner_signed (cfg : AuditReplayConfig) (r : JobReceiptV3) : Prop :=
  exists sig, jr_miner_signature r = Some sig /\ sig <> EmptyString /\
    (verify_identity_dict (JobReceiptV3_unsigned_dict r) (wi_hotkey_ss58 (jr_worker r)) sig true = Ok true \/
     verify_dict (JobReceiptV3_unsigned_dict r) (AuditReplayRunner_miner_signing_secret cfg r) sig = Ok true).

Lemma given_Some o sig : given o = Some sig -> o = Some sig /\ sig <> EmptyString.
Proof.
  unfold given. destruct o as [s|]; [|done]. destruct (String.eqb s "") eqn:E; [done|].
  intros [= ->]. split; [done|]. by apply String.eqb_neq.
Qed.

Lemma verify_manifest_true cfg m :
  AuditReplayRunner_verify_manifest_signature cfg m = Ok true -> owner_signed cfg m.
Proof.
  unfold AuditReplayRunner_verify_manifest_signature, owner_signed.
  destruct (String.eqb (arc_owner_secret cfg) "skip") eqn:E; [left; by apply String.eqb_eq|]. intros Hv. right.
  destruct (given _) as [sig|] eqn:Eg; [|done]. apply given_Some in Eg as [-> Hne]. exists sig.
  split; [done|]. split; [done|]. by destruct (String.eqb (arc_owner_hotkey cfg) "").
Qed.

Lemma verify_receipt_true cfg r :
  AuditReplayRunner_verify_receipt_signature cfg r = Ok true -> miner_signed cfg r.
Proof.
  unfold AuditReplayRunner_verify_receipt_signature, miner_signed. intros Hv.
  destruct (given _) as [sig|] eqn:Eg; [|done]. apply given_Some in Eg as [-> Hne].
  apply bind_Ok in Hv as (good & Hg & Hv). exists sig. split; [done|]. split; [done|].
  destruct good; [by left|by right].
Qed.

Lemma replay_body_pass cfg m r t0 t1 rp rp' reason dt : graphs_ok (rp_graphs rp) -> rp_inputs rp = [] ->
  replay_body dp transport_get grants cfg m r t0 t1 rp = (rp', Ok ("pass", reason, dt)) ->
  owner_signed cfg m /\ miner_signed cfg r /\ JobManifestV3_manifest_hash m = jr_manifest_hash r /\
  (exists g, dict_get (gr_sha256 (jm_graph_ref m)) (rp_graphs rp') = Some g /\
     Graph_graph_id g = gr_sha256 (jm_graph_ref m)) /\
  (forall ref, ref ∈ jm_inputs m -> exists v, dict_get (ar_name ref) (rp_inputs rp') = Some v /\
     input_checked (jm_inputs m) (expected_digests (jr_input_digests r)) (ar_name ref) v) /\
  (forall ref, ref ∈ jm_outputs m -> output_passed (rp_outputs rp') (ar_name ref)).
Proof.
  intros Hg Hi Hb. unfold replay_body in Hb. st_step Hb. destruct x; [|done]. cbn [negb] in Hb.
  apply verify_manifest_true in E. st_step Hb. destruct x; [|done]. cbn [negb] in Hb.
  apply verify_receipt_true in E0. destruct (String.eqb _ (jr_manifest_hash r)) eqn:Eh; [|done].
  apply String.eqb_eq in Eh. cbn [negb] in Hb. st_step Hb. rename x into g.
  apply (fetch_graph_spec _ _ _ _ _ Hg) in E1 as (F1 & F2 & F3 & F4 & F5).
  st_step Hb. apply (load_inputs_spec cfg (jm_inputs m)) in E1 as (L1 & L2 & L3 & _ & L4);
    [|done|rewrite F4, Hi; by intros n v].
  st_step Hb. destruct (keeps_replay_outputs cfg g x m r s0) as (K1 & K2 & K3). rewrite E1 in K1, K2, K3. cbn [fst] in *.
  st_step Hb. destruct x1 as [|r0 rs]; [|done]. injection Hb as <- _ _.
  apply compare_outputs_spec in E2 as (C1 & C2 & _ & C3). split_and!; try done.
  - exists g. rewrite C1, K1, L1. split; done.
  - intros ref Hr. destruct (L4 ref Hr) as [v Hv]. exists v. rewrite C2, K2. split; [done|]. by apply L3.
Qed.


(** C13. An audit always answers: whatever the manifest, the receipt and the
    bucket hold, and whatever exception the replay raises, a run returns a
    result about that receipt by that auditor, unsigned, with one of the three
    statuses; a pending timelock is inconclusive, a failed check is a failure,
    any other error (a missing object, say) is inconclusive. *)
Theorem audit_always_answers cfg uri m r hotkey t0 t1 now s cache :
  let '(rp, res) := replay_body dp transport_get grants cfg m r t0 t1 (mkReplay s cache [] [] []) in
  pythonic res ->
  exists a, AuditReplayRunner_run dp transport_get grants cfg uri m r hotkey t0 t1 now s cache =
      (rp_store rp, rp_graphs rp, Ok a) /\
    au_receipt_id a = jr_receipt_id r /\ au_manifest_hash a = jr_manifest_hash r /\
    au_miner_hotkey a = wi_hotkey_ss58 (jr_worker r) /\ au_auditor_hotkey a = hotkey /\
    au_auditor_signature a = None /\
    match res with
    | Ok (status, reason, _) => au_status a = status /\ au_reason a = reason /\ (status = "pass" \/ status = "fail")
    | Err (TimelockPending msg) => au_status a = "inconclusive"
    | Err (ValueError msg) => au_status a = "fail"
    | Err _ => au_status a = "inconclusive"
    end.
Proof.
  destruct (replay_body _ _ _ _ _ _ _ _ _) as [rp res] eqn:E. intros Hm. unfold AuditReplayRunner_run. rewrite E.
  assert (forall st re dt, res = Ok (st, re, dt) -> st = "pass" \/ st = "fail") as Hst.
  { intros st re dt ->. clear Hm. unfold replay_body in E. st_step E. destruct (negb x); [injection E; by right|].
    st_step E. destruct (negb x0); [injection E; by right|]. destruct (negb _); [injection E; by right|].
    do 4 st_step E. destruct x4; injection E; [by left|by right]. }
  destruct res as [[[st re] dt]|[]]; [|first [done | eexists; split; [reflexivity|]; done]..].
  eexists. split; [reflexivity|]. repeat split. by eapply Hst.
Qed.
End facts.

(** *** An example *)

(** Tensors of bytes. *)
Definition byte_replayers : @Replayers byte_torch :=
  @Build_Replayers byte_torch (fun _ total k => map Z.of_nat (seq 0 (Z.to_nat (Z.min total k)))) byte_tensor_ops.
#[local] Existing Instances byte_torch byte_kernels byte_replayers.

#[local] Existing Instance no_signatures.

#[local] Instance plain_texts : ExnText := {| exn_str := fun _ => "error"; exn_repr := fun _ => "error"; exn_type := fun _ => "Exception" |}.

(** The bytes of a tensor. *)
Definition sample_blob_of (t : string) : string :=
  match @encode_tensor byte_torch t with Ok b => b | Err _ => EmptyString end.

Definition audit_bucket : LocalBucket :=
  fold_left apply_op
    [OpPut "s3://bk/g.json" (Graph_to_canonical_json concat_graph); OpPut "s3://bk/x" (sample_blob_of "ab");
     OpPut "s3://bk/y" (sample_blob_of "abab")]
    (LocalBucket_init "bk" 5).

Definition audit_manifest : JobManifestV3 :=
  let m := mkManifest "job-1" "run" 1 "grad" (mkGraphRef (Graph_graph_id concat_graph) "s3://bk/g.json") []
    [mkRef "x" "s3://bk/x" None None None] [mkRef "y" "s3://bk/y" None None None] "hk1" None 0 20 10
    (mkResources 1 "single_worker" []) VerificationPolicy_default None 3 in
  match JobManifestV3_sign m (BySecret "owner") with Ok m1 => m1 | Err _ => m end.

Definition audit_receipt : JobReceiptV3 :=
  let r := mkReceipt "rcpt-1" (JobManifestV3_manifest_hash audit_manifest) "job-1" "run" 1 "grad"
    (mkWorkerIdentity "hk1" "w0" "host" None "nonce" "dev" [] None [])
    [mkDigest "x" "s3://bk/x" (sha256_hexdigest (sample_blob_of "ab")) 68 None None None None "none" None] [] fzero fone fone 2 3 [] None 3 in
  match JobReceiptV3_sign r (BySecret "hk1") with Ok r1 => r1 | Err _ => r end.

Definition audit_cfg : AuditReplayConfig := mkAuditConfig "owner" "" "hotkey" "cpu" 4096 "dev" None.

Definition audit_sample_run : LocalBucket * dict Graph * result AuditResultV3 :=
  AuditReplayRunner_run no_provider DirectArtifactTransport_get [] audit_cfg "s3://bk/r.json" audit_manifest
    audit_receipt "val" fzero fone fone audit_bucket [].

Lemma audit_sample_status : rmap au_status (snd audit_sample_run) = Ok "pass".
Proof. vm_compute. reflexivity. Qed.


Lemma audit_always_answers_witness :
  exists a, snd audit_sample_run = Ok a /\ au_receipt_id a = "rcpt-1" /\ au_auditor_hotkey a = "val".
Proof.
  pose proof (audit_always_answers no_provider DirectArtifactTransport_get [] audit_cfg "s3://bk/r.json" audit_manifest
    audit_receipt "val" fzero fone fone audit_bucket []) as H.
  pose proof audit_sample_status as Hs. unfold audit_sample_run in *.
  destruct (replay_body _ _ _ _ _ _ _ _ _) as [rp res] eqn:E. destruct H as (a & H1 & H2 & _ & _ & H3 & _).
  - destruct res as [|[]]; try reflexivity; unfold AuditReplayRunner_run in Hs; rewrite E in Hs; discriminate Hs.
  - exists a. rewrite H1. split; [reflexivity|]. split; [exact H2|exact H3].
Defined.
