(* ===== verification/Executor.v ===== *)
(** * Job execution ([teuton_runtime/executor.py])

    The miner's executor: two caches of tensors bounded in bytes, the cache of
    graphs, decoding of inputs, encoding and upload of outputs, the receipt. *)

From Stdlib Require Import ZArith Lia Ascii.
From stdpp Require Import base strings list.
From S2P Require Import Prelude PyFloat PyVal Json Digest Paths Signatures Codec Protocol ProtocolFacts.
From S2P Require Import Storage Transport Crypto Ir ComputeUnits Tensors Eval AuditReplay.

(** ** A cache of tensors *)

Section cache.
Context `{Torch}.

(** The tensors by address, the order of insertion, the bytes held. *)
Record tensor_cache := mkCache {
  tc_cache : dict tensor;
  tc_order : list string;
  tc_bytes : Z
}.

Definition empty_cache : tensor_cache := mkCache [] [] 0.

Definition t_size (t : tensor) : Z := (t_element_size t * t_numel t)%Z.

(** [order.remove(uri)]. *)
Fixpoint list_remove (x : string) (l : list string) : result (list string) :=
  match l with
  | [] => Err (ValueError "list.remove(x): x not in list")
  | y :: l' => if String.eqb x y then Ok l' else rest ← list_remove x l'; Ok (y :: rest)
  end.

(** The eviction loop: drop the oldest entries until [size] more bytes fit. *)
Fixpoint evict (cache : dict tensor) (order : list string) (bytes size max_bytes : Z) : tensor_cache :=
  match order with
  | [] => mkCache cache [] bytes
  | oldest :: order' =>
      if (max_bytes <? bytes + size)%Z then
        match dict_get oldest cache with
        | Some old => evict (dict_del oldest cache) order' (bytes - t_size old) size max_bytes
        | None => evict cache order' bytes size max_bytes
        end
      else mkCache cache order bytes
  end.

(** Drop the entry of [uri], if there is one. *)
Definition forget (c : tensor_cache) (uri : string) : result tensor_cache :=
  match dict_get uri (tc_cache c) with
  | Some old =>
      order ← list_remove uri (tc_order c);
      Ok (mkCache (dict_del uri (tc_cache c)) order (tc_bytes c - t_size old))
  | None => Ok c
  end.

Definition JobExecutor_cache_tensor (c : tensor_cache) (uri : string) (t : tensor) (max_bytes : Z)
    : result tensor_cache :=
  let size := t_size t in
  if (max_bytes / 2 <? size)%Z then Ok c
  else
    c ← forget c uri;
    let c := evict (tc_cache c) (tc_order c) (tc_bytes c) size max_bytes in
    Ok (mkCache (dict_set uri t (tc_cache c)) (tc_order c ++ [uri]) (tc_bytes c + size)).

(** *** Invariant of a cache *)

Definition cache_bytes (d : dict tensor) : Z := foldr (fun e n => t_size e.2 + n)%Z 0%Z d.
#[local] Arguments cache_bytes : simpl never.

Record cache_ok (max_bytes : Z) (c : tensor_cache) : Prop := {
  cache_keys : NoDup (dict_keys (tc_cache c));
  cache_order : tc_order c ≡ₚ dict_keys (tc_cache c);
  cache_counted : tc_bytes c = cache_bytes (tc_cache c);
  cache_bounded : (tc_bytes c <= max_bytes)%Z
}.

Lemma empty_cache_ok m : (0 <= m)%Z -> cache_ok m empty_cache.
Proof. intros Hm. constructor; [constructor|done|done|done]. Qed.

Lemma cache_bytes_del uri t d : dict_get uri d = Some t ->
  cache_bytes (dict_del uri d) = (cache_bytes d - t_size t)%Z.
Proof.
  unfold cache_bytes. induction d as [|[k v] d IH]; cbn; [done|].
  destruct (String.eqb uri k) eqn:E; [intros [= ->]; cbn; lia|].
  intros Hd. cbn. rewrite IH by done. lia.
Qed.

Lemma cache_bytes_snoc d uri t : cache_bytes (d ++ [(uri, t)]) = (cache_bytes d + t_size t)%Z.
Proof. unfold cache_bytes. induction d as [|[k v] d IH]; cbn; [lia|]. rewrite IH. lia. Qed.

Lemma dict_keys_del_perm uri (d : dict tensor) : uri ∈ dict_keys d -> dict_keys d ≡ₚ uri :: dict_keys (dict_del uri d).
Proof.
  induction d as [|[k v] d IH]; cbn; [by intros ?%elem_of_nil|]. intros [->|Hin]%elem_of_cons.
  - by rewrite String.eqb_refl.
  - destruct (String.eqb uri k) eqn:E; [by apply String.eqb_eq in E as ->|]. cbn. rewrite IH by done. constructor.
Qed.

Lemma list_remove_perm x l : x ∈ l -> exists l', list_remove x l = Ok l' /\ l ≡ₚ x :: l'.
Proof.
  induction l as [|y l IH]; [by intros ?%elem_of_nil|]. intros Hx. cbn. destruct (String.eqb x y) eqn:E.
  - apply String.eqb_eq in E as ->. by exists l.
  - apply elem_of_cons in Hx as [->|Hx]; [by rewrite String.eqb_refl in E|].
    destruct (IH Hx) as (l' & -> & Hl'). exists (y :: l'). split; [done|]. rewrite Hl'. constructor.
Qed.

Lemma forget_ok m c uri : cache_ok m c -> (forall t, 0 <= t_size t)%Z ->
  exists c', forget c uri = Ok c' /\ cache_ok m c' /\ dict_get uri (tc_cache c') = None /\
    forall u, u <> uri -> dict_get u (tc_cache c') = dict_get u (tc_cache c).
Proof.
  intros [Hk Ho Hb Hm] Hpos. unfold forget. destruct (dict_get uri (tc_cache c)) as [old|] eqn:E; [|by exists c].
  assert (uri ∈ tc_order c) as Hin by (rewrite Ho; by eapply dict_get_Some_key).
  destruct (list_remove_perm uri (tc_order c) Hin) as (l' & -> & Hl'). cbn [mbind result_bind].
  eexists. split; [reflexivity|]. cbn [tc_cache tc_order tc_bytes].
  split; [|split; [by apply dict_get_del_eq|intros u Hu; by apply dict_get_del_ne]]. split; cbn.
  - by apply dict_del_NoDup.
  - apply (Permutation.Permutation_cons_inv (a := uri)). rewrite <- Hl', Ho. apply dict_keys_del_perm. by rewrite <- Ho.
  - by rewrite (cache_bytes_del _ _ _ E), Hb.
  - specialize (Hpos old). lia.
Qed.

Lemma evict_ok m size order : forall cache bytes, (0 <= size)%Z ->
  NoDup (dict_keys cache) -> order ≡ₚ dict_keys cache -> bytes = cache_bytes cache ->
  let c' := evict cache order bytes size m in
  NoDup (dict_keys (tc_cache c')) /\ tc_order c' ≡ₚ dict_keys (tc_cache c') /\
  tc_bytes c' = cache_bytes (tc_cache c') /\ (tc_bytes c' + size <= m \/ tc_cache c' = [])%Z /\
  (tc_order c' `suffix_of` order) /\
  forall u t, dict_get u (tc_cache c') = Some t -> dict_get u cache = Some t.
Proof.
  induction order as [|oldest order IH]; intros cache bytes Hsize Hk Ho Hb; cbn [evict].
  { apply Permutation_nil_l in Ho. destruct cache; [|done]. cbn. split_and!; try done. by right. }
  destruct (Z.ltb_spec m (bytes + size)) as [Hfull|Hfits].
  - assert (oldest ∈ dict_keys cache) as Hin by (rewrite <- Ho; left).
    destruct (dict_get oldest cache) as [old|] eqn:E; [|by apply dict_get_None in E].
    destruct (IH (dict_del oldest cache) (bytes - t_size old)%Z) as (I1 & I2 & I3 & I4 & I5 & I6); [done|by apply dict_del_NoDup| | |].
    + apply (Permutation.Permutation_cons_inv (a := oldest)). rewrite Ho. by apply dict_keys_del_perm.
    + by rewrite (cache_bytes_del _ _ _ E), Hb.
    + split_and!; try done; [by apply suffix_cons_r|]. intros u t Hu%I6. destruct (decide (u = oldest)) as [->|Hne].
      * by rewrite dict_get_del_eq in Hu.
      * by rewrite dict_get_del_ne in Hu.
  - cbn. split_and!; try done. by left.
Qed.

(** Caching a tensor keeps the invariant and never fails; the tensor is then
    the one found, unless it is larger than half the cache. *)
Lemma cache_tensor_ok m c uri t : cache_ok m c -> (forall t, 0 <= t_size t)%Z -> (0 <= m)%Z ->
  exists c', JobExecutor_cache_tensor c uri t m = Ok c' /\ cache_ok m c' /\
    ((t_size t <= m / 2)%Z -> dict_get uri (tc_cache c') = Some t) /\
    (forall u t', u <> uri -> dict_get u (tc_cache c') = Some t' -> dict_get u (tc_cache c) = Some t').
Proof.
  intros Hc Hpos Hm. unfold JobExecutor_cache_tensor. destruct (Z.ltb_spec (m / 2) (t_size t)) as [Hbig|Hsmall].
  { exists c. split; [done|]. split; [done|]. split; [lia|done]. }
  destruct (forget_ok m c uri Hc Hpos) as (c1 & -> & [Hk Ho Hb Hbd] & Hnone & Hrest). cbn [mbind result_bind].
  destruct (evict_ok m (t_size t) (tc_order c1) (tc_cache c1) (tc_bytes c1) (Hpos t) Hk Ho Hb)
    as (I1 & I2 & I3 & I4 & _ & I6).
  set (c2 := evict _ _ _ _ _) in *. eexists. split; [reflexivity|].
  assert (dict_get uri (tc_cache c2) = None) as Hnone2.
  { destruct (dict_get uri (tc_cache c2)) eqn:E; [|done]. apply I6 in E. congruence. }
  assert (dict_set uri t (tc_cache c2) = tc_cache c2 ++ [(uri, t)]) as Eset by by apply dict_set_app_new.
  split; [split; cbn|split; cbn].
  - by apply dict_set_NoDup.
  - rewrite Eset. unfold dict_keys. rewrite map_app. by rewrite I2.
  - rewrite Eset, I3, cache_bytes_snoc. lia.
  - destruct I4 as [?|Hnil]; [done|]. rewrite Hnil in I3. rewrite I3. change (cache_bytes []) with 0%Z.
    pose proof (Z.div_le_upper_bound m 2 m ltac:(lia) ltac:(lia)). lia.
  - intros _. apply dict_get_set_eq.
  - intros u t' Hne. rewrite dict_get_set. apply String.eqb_neq in Hne as Hne'. rewrite Hne'. intros Hu%I6.
    by rewrite <- Hrest.
Qed.
End cache.

(** ** The executor *)

(** What the fault modes of the test fleet do to a tensor: noise drawn from a
    seed in its shape, zeros, one element increased. *)
Class FaultLib `{Torch} := {
  t_randn_like : Z -> tensor -> tensor;
  t_zeros_like : tensor -> tensor;
  t_add_one_at : Z -> tensor -> tensor
}.

(** What an output may be when it is encoded. *)
Inductive out_value `{Torch} : Type :=
  | OutTensor (t : tensor)
  | OutDict (d : dict pyval)
  | OutBytes (b : string)
  | OutStr (s : string)
  | OutOther (type_name : string).

(** Run every task of a pool; the first failure in order is raised when all of
    them have ended. *)
Fixpoint run_each {St A B} (f : A -> ST St B) (l : list A) (st : St) : St * list (result B) :=
  match l with
  | [] => (st, [])
  | x :: l' =>
      let '(st1, r) := f x st in
      let '(st2, rs) := run_each f l' st1 in
      (st2, r :: rs)
  end.

Definition pool_map {St A B} (f : A -> ST St B) (l : list A) : ST St (list B) := fun st =>
  let '(st', rs) := run_each f l st in (st', mapR id rs).

(** [ArtifactDigest(name=name, uri=uri, **data)]. *)
Definition digest_of_data (name uri : string) (d : dict pyval) : result ArtifactDigest :=
  sha ← req_str d "sha256";
  size ← req_int d "size_bytes";
  plain ← opt_str d "plaintext_sha256";
  cipher ← opt_str d "ciphertext_sha256";
  envelope ← opt_str d "envelope_sha256";
  sig ← opt_str d "signature";
  mode ← req_str d "crypto_mode";
  Ok (mkDigest name uri sha size plain cipher envelope sig mode None).

Definition JobExecutor_digest_body (name uri body : string) (policy : option ArtifactCryptoPolicy)
    : result ArtifactDigest :=
  data ← artifact_digest_from_blob name uri body policy;
  digest_of_data name uri data.

Definition JobExecutor_is_input_cacheable (uri : string) : bool :=
  str_contains "/weights/" uri || str_contains "/static/" uri || str_contains "/data/tokens.bin" uri.

(** Whether a fault of the mode is injected into this job, and the seeds. *)
Definition fault_active (worker_id job_id fault_mode : string) (fault_rate : float) : bool :=
  let h := sha256 (worker_id +:+ ":" +:+ job_id +:+ ":" +:+ fault_mode) in
  fltb (fdiv (float_of_Z (big_endian 0 (str_take 8 h))) (float_of_Z (2 ^ 64))) fault_rate.

Definition digest_int (s : string) : Z := big_endian 0 (sha256 s).

Section executor.
Context {S : Type} `{ObjectStore S} `{TT : Torch} `{!Kernels} `{!FaultLib} `{SigLib}.
Context (default_provider : result TimelockProvider).
Context (transport_get : string -> option PresignedUrlGrant -> ST S string).
Context (transport_put : string -> string -> option PresignedUrlGrant -> ST S unit).
(** The executor's settings. *)
Context (device encryption_secret : string) (timelock_provider : option TimelockProvider).
Context (input_max output_max : Z).

Record JobExecutor := mkExecutor {
  je_store : S;
  je_graph_cache : dict Graph;
  je_input : tensor_cache;
  je_output : tensor_cache
}.

Definition JobExecutor_init (s : S) : JobExecutor := mkExecutor s [] empty_cache empty_cache.

Definition in_bucket {A} (m : ST S A) : ST JobExecutor A := fun je =>
  let '(s, r) := m (je_store je) in (mkExecutor s (je_graph_cache je) (je_input je) (je_output je), r).

Definition set_input (c : tensor_cache) : ST JobExecutor unit := fun je =>
  (mkExecutor (je_store je) (je_graph_cache je) c (je_output je), Ok tt).
Definition set_output (c : tensor_cache) : ST JobExecutor unit := fun je =>
  (mkExecutor (je_store je) (je_graph_cache je) (je_input je) c, Ok tt).
Definition keep_graph (sha : string) (g : Graph) : ST JobExecutor unit := fun je =>
  (mkExecutor (je_store je) (dict_set sha g (je_graph_cache je)) (je_input je) (je_output je), Ok tt).

Definition JobExecutor_digest_artifact (ref : ArtifactRef) : ST JobExecutor ArtifactDigest :=
  body ← in_bucket (transport_get (ar_uri ref) None);
  st_lift (JobExecutor_digest_body (ar_name ref) (ar_uri ref) body (ar_crypto ref)).

Definition JobExecutor_fetch_graph (graph_sha graph_uri : string) : ST JobExecutor Graph :=
  je ← st_get;
  match dict_get graph_sha (je_graph_cache je) with
  | Some g => mret g
  | None =>
      blob ← in_bucket (os_get graph_uri);
      g ← st_lift (load_bytes Graph_from_dict blob);
      let actual := Graph_graph_id g in
      if String.eqb actual graph_sha then _ ← keep_graph graph_sha g; mret g
      else st_raise (ValueError ("graph hash mismatch: declared " +:+ graph_sha +:+ ", computed " +:+ actual))
  end.

Definition JobExecutor_cache_input (uri : string) (t : tensor) : ST JobExecutor unit :=
  je ← st_get;
  c ← st_lift (JobExecutor_cache_tensor (je_input je) uri (t_cpu t) input_max);
  set_input c.

Definition JobExecutor_cache_output (uri : string) (t : tensor) : ST JobExecutor unit :=
  je ← st_get;
  c ← st_lift (JobExecutor_cache_tensor (je_output je) uri (t_cpu t) output_max);
  set_output c.

Definition JobExecutor_decode_input (grants : dict PresignedUrlGrant) (ref : ArtifactRef) : ST JobExecutor tensor :=
  je ← st_get;
  match dict_get (ar_uri ref) (tc_cache (je_output je)) with
  | Some t => st_lift (to_device device t)
  | None =>
      match dict_get (ar_uri ref) (tc_cache (je_input je)) with
      | Some t => st_lift (to_device device t)
      | None =>
          body ← in_bucket (transport_get (ar_uri ref) (dict_get (ar_uri ref) grants));
          plain ← st_lift (decode_envelope default_provider body (ar_crypto ref) (Some identity_verifier)
                             encryption_secret timelock_provider);
          value ← st_lift (decode_tensor plain);
          _ ← (if JobExecutor_is_input_cacheable (ar_uri ref)
               then JobExecutor_cache_input (ar_uri ref) value else mret tt);
          st_lift (to_device device value)
      end
  end.

Definition JobExecutor_encode_output (v : out_value) (json_uri : bool) : result string :=
  match v with
  | OutTensor t =>
      if json_uri then Ok (json_dumps (PDict [("value", t_tolist t)])) else encode_tensor t
  | OutDict d => Ok (json_dumps (PDict d))
  | OutBytes b => Ok b
  | OutStr s => Ok s
  | OutOther ty => Err (TypeError ("cannot encode output type " +:+ ty))
  end.

(** One output under a fault mode. *)
Definition fault_output (job_id fault_mode name : string) (t : tensor) : tensor :=
  if String.eqb fault_mode "wrong_output" || String.eqb fault_mode "skip_compute" then
    if t_is_floating t then t_randn_like (digest_int (job_id +:+ ":" +:+ name) mod (2 ^ 31 - 1))%Z t
    else t_zeros_like t
  else if String.eqb fault_mode "partial_corrupt" then
    if (0 <? t_numel t)%Z then t_add_one_at (digest_int (job_id +:+ ":" +:+ name +:+ ":partial") mod t_numel t)%Z t
    else t
  else t.

Definition JobExecutor_apply_faults (manifest : JobManifestV3) (outputs : dict tensor)
    (worker_id fault_mode : string) (fault_rate : float) : dict tensor :=
  if String.eqb fault_mode "" || String.eqb fault_mode "none" then outputs
  else if negb (fault_active worker_id (jm_job_id manifest) fault_mode fault_rate) then outputs
  else map (fun e => (e.1, fault_output (jm_job_id manifest) fault_mode e.1 e.2)) outputs.

(** *** One job *)

Definition is_cached (je : JobExecutor) (ref : ArtifactRef) : bool :=
  dict_mem (ar_uri ref) (tc_cache (je_input je)) || dict_mem (ar_uri ref) (tc_cache (je_output je)).

(** Add the decoded tensors under the names of their references. *)
Definition add_inputs (inputs : dict tensor) (refs : list ArtifactRef) (values : list tensor) : dict tensor :=
  fold_left (fun d e => dict_set (ar_name e.1) e.2 d) (zip refs values) inputs.

Fixpoint decode_cached (grants : dict PresignedUrlGrant) (refs : list ArtifactRef) (inputs : dict tensor)
    : ST JobExecutor (dict tensor) :=
  match refs with
  | [] => mret inputs
  | ref :: refs' =>
      t ← JobExecutor_decode_input grants ref;
      decode_cached grants refs' (dict_set (ar_name ref) t inputs)
  end.

(** The inputs: those in a cache first, the others by the pool. *)
Definition gather_inputs (grants : dict PresignedUrlGrant) (refs : list ArtifactRef) : ST JobExecutor (dict tensor) :=
  je ← st_get;
  let cached_refs := List.filter (is_cached je) refs in
  let miss_refs := List.filter (fun r => negb (is_cached je r)) refs in
  inputs ← decode_cached grants cached_refs [];
  values ← pool_map (JobExecutor_decode_input grants) miss_refs;
  mret (add_inputs inputs miss_refs values).

(** The sealed outputs to upload, with their digests. *)
Definition seal_output (signer : Signer) (outputs : dict tensor) (ref : ArtifactRef)
    : result (string * string * ArtifactDigest) :=
  t ← of_option (KeyError ("graph did not produce output " +:+ repr_str (ar_name ref))) (dict_get (ar_name ref) outputs);
  body ← JobExecutor_encode_output (OutTensor t) (endswith ".json" (ar_uri ref));
  body ← encode_envelope default_provider body (ar_crypto ref) (Some signer) encryption_secret timelock_provider;
  digest ← JobExecutor_digest_body (ar_name ref) (ar_uri ref) body (ar_crypto ref);
  Ok (ar_uri ref, body, digest).

Fixpoint cache_outputs (outputs : dict tensor) (refs : list ArtifactRef) : ST JobExecutor unit :=
  match refs with
  | [] => mret tt
  | ref :: refs' =>
      _ ← match dict_get (ar_name ref) outputs with
          | Some t => JobExecutor_cache_output (ar_uri ref) t
          | None => st_raise (KeyError (ar_name ref))
          end;
      cache_outputs outputs refs'
  end.

Fixpoint input_digests (grants : dict PresignedUrlGrant) (refs : list ArtifactRef) : ST JobExecutor (list ArtifactDigest) :=
  match refs with
  | [] => mret []
  | ref :: refs' =>
      body ← in_bucket (transport_get (ar_uri ref) (dict_get (ar_uri ref) grants));
      d ← st_lift (JobExecutor_digest_body (ar_name ref) (ar_uri ref) body (ar_crypto ref));
      rest ← input_digests grants refs';
      mret (d :: rest)
  end.

Definition total_size (ds : list ArtifactDigest) : Z := foldr (fun d n => ad_size_bytes d + n)%Z 0%Z ds.

Definition new_receipt (manifest : JobManifestV3) (worker : WorkerIdentity) (ins outs : list ArtifactDigest)
    (t0 t_compute t_done t_final : float) : JobReceiptV3 :=
  mkReceipt
    (jm_run_id manifest +:+ ":" +:+ jm_job_id manifest +:+ ":" +:+ wi_hotkey_ss58 worker +:+ ":"
       +:+ wi_worker_id worker +:+ ":" +:+ py_str_int (jm_attempt manifest))
    (JobManifestV3_manifest_hash manifest) (jm_job_id manifest) (jm_run_id manifest) (jm_step_id manifest)
    (jm_kind manifest) worker ins outs t0 t_final (fsub t_done t_compute) (total_size ins) (total_size outs) [] None 3.

(** [miner_signer or HmacSigner(miner_secret, identity=worker.hotkey_ss58)]. *)
Definition artifact_signer (miner_signer : option Signer) (miner_secret : string) (worker : WorkerIdentity) : Signer :=
  match miner_signer with
  | Some s => s
  | None => hmac_signer (mkHmacSigner miner_secret (wi_hotkey_ss58 worker))
  end.

Definition JobExecutor_execute (manifest : JobManifestV3) (worker : WorkerIdentity) (miner_secret : string)
    (miner_signer : option Signer) (fault_mode : string) (fault_rate : float) (grants : dict PresignedUrlGrant)
    (clock : nat -> float) : ST JobExecutor JobReceiptV3 :=
  g ← JobExecutor_fetch_graph (gr_sha256 (jm_graph_ref manifest)) (gr_uri (jm_graph_ref manifest));
  inputs ← gather_inputs grants (jm_inputs manifest);
  outputs ← in_bucket (evaluate g inputs (jm_params manifest) (Some device));
  let outputs := JobExecutor_apply_faults manifest outputs (wi_worker_id worker) fault_mode fault_rate in
  let signer := artifact_signer miner_signer miner_secret worker in
  sealed ← st_lift (mapR (seal_output signer outputs) (jm_outputs manifest));
  _ ← pool_map (fun e : string * string * ArtifactDigest =>
                  in_bucket (transport_put e.1.1 e.1.2 (dict_get e.1.1 grants))) sealed;
  _ ← cache_outputs outputs (jm_outputs manifest);
  ins ← input_digests grants (jm_inputs manifest);
  st_lift (JobReceiptV3_sign
    (new_receipt manifest worker ins (map snd sealed) (clock 0%nat) (clock 1%nat) (clock 2%nat) (clock 3%nat))
    (BySigner signer)).
End executor.
Arguments JobExecutor S {TT}.

(** ** The caches stay within their bounds *)

Section bounds.
Context {S : Type} `{ObjectStore S} `{TT : Torch} `{!Kernels} `{!FaultLib} `{SigLib}.
Context (dp : result TimelockProvider).
Context (tget : string -> option PresignedUrlGrant -> ST S string).
Context (tput : string -> string -> option PresignedUrlGrant -> ST S unit).
Context (device secret : string) (tp : option TimelockProvider) (input_max output_max : Z).
Context (Hpos : forall t, (0 <= t_size t)%Z) (Hin : (0 <= input_max)%Z) (Hout : (0 <= output_max)%Z).

(** Both caches are consistent and bounded, and cached graphs have the digests
    they are filed under. *)
Record executor_ok (je : JobExecutor S) : Prop := {
  input_ok : cache_ok input_max (je_input je);
  output_ok : cache_ok output_max (je_output je);
  graph_cache_ok : graphs_ok (je_graph_cache je)
}.

Definition preserves {A} (m : ST (JobExecutor S) A) : Prop := forall je, executor_ok je -> executor_ok (fst (m je)).

Lemma preserves_pure {A} (m : ST (JobExecutor S) A) : (forall je, fst (m je) = je) -> preserves m.
Proof. intros Hm je Hje. by rewrite Hm. Qed.

Lemma preserves_bind {A B} (m : ST (JobExecutor S) A) (k : A -> ST (JobExecutor S) B) :
  preserves m -> (forall a, preserves (k a)) -> preserves (m ≫= k).
Proof.
  intros Hm Hk je Hje. specialize (Hm je Hje). cbv [mbind st_bind]. destruct (m je) as [je1 [a|e]]; cbn in *; [|done].
  by apply Hk.
Qed.

Lemma preserves_bucket {A} (m : ST S A) : preserves (in_bucket m).
Proof. intros je [X1 X2 X3]. unfold in_bucket. by destruct (m (je_store je)). Qed.

Lemma preserves_lift {A} (r : result A) : preserves (st_lift r).
Proof. by apply preserves_pure. Qed.

Lemma preserves_ret {A} (a : A) : preserves (mret a).
Proof. by apply preserves_pure. Qed.

Lemma preserves_cache_input uri t : preserves (JobExecutor_cache_input input_max uri t).
Proof.
  intros je Hje. unfold JobExecutor_cache_input, st_get. cbv [mbind st_bind st_lift].
  destruct (cache_tensor_ok input_max (je_input je) uri (t_cpu t) (input_ok _ Hje) Hpos Hin) as (c & -> & Hc & _).
  destruct Hje. by split.
Qed.

Lemma preserves_cache_output uri t : preserves (JobExecutor_cache_output output_max uri t).
Proof.
  intros je Hje. unfold JobExecutor_cache_output, st_get. cbv [mbind st_bind st_lift].
  destruct (cache_tensor_ok output_max (je_output je) uri (t_cpu t) (output_ok _ Hje) Hpos Hout) as (c & -> & Hc & _).
  destruct Hje. by split.
Qed.

Hint Resolve preserves_bucket preserves_lift preserves_ret preserves_cache_input preserves_cache_output : preserves.

Ltac preserve_steps :=
  repeat first
    [ solve [auto with preserves]
    | apply preserves_bind; [|intros ?]
    | case_goal
    | by apply preserves_pure ].

Lemma preserves_decode_input grants ref : preserves (JobExecutor_decode_input dp tget device secret tp input_max grants ref).
Proof. unfold JobExecutor_decode_input. preserve_steps. Qed.

Lemma preserves_run_each {A B} (f : A -> ST (JobExecutor S) B) l : (forall x, preserves (f x)) ->
  forall je, executor_ok je -> executor_ok (fst (run_each f l je)).
Proof.
  intros Hf. induction l as [|x l IH]; intros je Hje; cbn; [done|]. specialize (Hf x je Hje).
  destruct (f x je) as [je1 r]. cbn in Hf. specialize (IH je1 Hf). by destruct (run_each f l je1).
Qed.

Lemma preserves_pool {A B} (f : A -> ST (JobExecutor S) B) l : (forall x, preserves (f x)) -> preserves (pool_map f l).
Proof.
  intros Hf je Hje. unfold pool_map. pose proof (preserves_run_each f l Hf je Hje). by destruct (run_each f l je).
Qed.

Lemma preserves_fetch_graph sha uri : preserves (JobExecutor_fetch_graph sha uri).
Proof.
  unfold JobExecutor_fetch_graph. apply preserves_bind; [by apply preserves_pure|]. intros je0.
  destruct (dict_get sha (je_graph_cache je0)); [auto with preserves|]. apply preserves_bind; [auto with preserves|].
  intros blob. apply preserves_bind; [auto with preserves|]. intros g.
  destruct (String.eqb (Graph_graph_id g) sha) eqn:E; [|by apply preserves_pure]. apply String.eqb_eq in E.
  apply preserves_bind; [|auto with preserves]. intros je [X1 X2 X3]. split; cbn; [done|done|].
  intros sha' g'. rewrite dict_get_set. destruct (String.eqb sha' sha) eqn:E2; [|apply X3].
  apply String.eqb_eq in E2 as ->. by intros [= <-].
Qed.

Lemma preserves_gather grants refs : preserves (gather_inputs dp tget device secret tp input_max grants refs).
Proof.
  unfold gather_inputs. apply preserves_bind; [by apply preserves_pure|]. intros je0. apply preserves_bind.
  - generalize (List.filter (is_cached je0) refs) as cached, (@nil (string * tensor)) as inputs.
    induction cached as [|ref cached IH]; intros inputs; cbn; [auto with preserves|].
    apply preserves_bind; [apply preserves_decode_input|auto].
  - intros inputs. apply preserves_bind; [|auto with preserves]. apply preserves_pool. apply preserves_decode_input.
Qed.

Lemma preserves_execute manifest worker msecret signer mode rate grants clock :
  preserves (JobExecutor_execute dp tget tput device secret tp input_max output_max manifest worker msecret
    signer mode rate grants clock).
Proof.
  unfold JobExecutor_execute. apply preserves_bind; [apply preserves_fetch_graph|]. intros g.
  apply preserves_bind; [apply preserves_gather|]. intros inputs. apply preserves_bind; [auto with preserves|].
  intros outputs. apply preserves_bind; [auto with preserves|]. intros sealed. apply preserves_bind.
  { apply preserves_pool. auto with preserves. }
  intros _. apply preserves_bind.
  { generalize (JobExecutor_apply_faults manifest outputs (wi_worker_id worker) mode rate) as outs. intros outs.
    induction (jm_outputs manifest) as [|ref refs IH]; cbn; [auto with preserves|].
    apply preserves_bind; [|auto]. destruct (dict_get (ar_name ref) outs); [auto with preserves|by apply preserves_pure]. }
  intros _. apply preserves_bind; [|auto with preserves].
  induction (jm_inputs manifest) as [|ref refs IH]; cbn; preserve_steps.
Qed.
End bounds.

(** ** The receipt *)

Lemma new_receipt_signed m worker ins outs t0 t1 t2 t3 signer r :
  JobReceiptV3_sign (new_receipt m worker ins outs t0 t1 t2 t3) (BySigner signer) = Ok r ->
  jr_input_digests r = ins /\ jr_output_digests r = outs /\ jr_manifest_hash r = JobManifestV3_manifest_hash m /\
  jr_worker r = worker /\ jr_job_id r = jm_job_id m /\ jr_run_id r = jm_run_id m /\
  exists sig, jr_miner_signature r = Some sig /\
    signer_sign signer (canonical_json (PDict (JobReceiptV3_unsigned_dict r))) = Ok sig.
Proof. unfold JobReceiptV3_sign. intros Hs. apply bind_Ok in Hs as (sig & Hsig & [= <-]). split_and!; try done. by exists sig. Qed.

(** A receipt names the manifest it was made for. *)
Lemma execute_receipt {S} `{ObjectStore S} `{Torch} `{!Kernels} `{!FaultLib} `{SigLib} dp tget tput device secret tp input_max output_max
    m worker msecret msigner mode rate grants clock (je je' : JobExecutor S) r :
  JobExecutor_execute dp tget tput device secret tp input_max output_max m worker msecret msigner mode rate grants clock je
    = (je', Ok r) ->
  jr_manifest_hash r = JobManifestV3_manifest_hash m /\ jr_job_id r = jm_job_id m /\ jr_run_id r = jm_run_id m /\ jr_worker r = worker.
Proof.
  intros Hx. unfold JobExecutor_execute in Hx. do 7 st_step Hx. apply st_lift_Ok in Hx as [_ Hx].
  by apply new_receipt_signed in Hx as (_ & _ & R1 & R2 & R3 & R4 & _).
Qed.

(** The arguments of one call of [execute]. *)
Record job_call := mkJobCall {
  jc_manifest : JobManifestV3;
  jc_worker : WorkerIdentity;
  jc_secret : string;
  jc_signer : option Signer;
  jc_fault_mode : string;
  jc_fault_rate : float;
  jc_grants : dict PresignedUrlGrant;
  jc_clock : nat -> float
}.

(** The executor after a sequence of calls, whether they returned or raised. *)
Definition run_jobs {S} `{ObjectStore S} `{Torch} `{!Kernels} `{!FaultLib} `{SigLib} dp
    (tget : string -> option PresignedUrlGrant -> ST S string)
    (tput : string -> string -> option PresignedUrlGrant -> ST S unit)
    device secret tp input_max output_max (calls : list job_call) (je : JobExecutor S) : JobExecutor S :=
  fold_left (fun je c =>
    fst (JobExecutor_execute dp tget tput device secret tp input_max output_max (jc_manifest c) (jc_worker c)
           (jc_secret c) (jc_signer c) (jc_fault_mode c) (jc_fault_rate c) (jc_grants c) (jc_clock c) je)) calls je.

Lemma executor_init_ok {S} `{Torch} input_max output_max (s : S) :
  (0 <= input_max)%Z -> (0 <= output_max)%Z -> executor_ok input_max output_max (JobExecutor_init s).
Proof. intros Hin Hout. constructor; [by apply empty_cache_ok|by apply empty_cache_ok|by intros sha g]. Qed.

(** A miner's memory stays bounded: whatever jobs an executor runs, in
    whatever order, with transports that succeed or fail, the bytes it accounts
    for in each cache are those of the tensors held there and never exceed the
    cache's limit, the eviction order lists each held tensor once, and every
    cached graph has the digest it is filed under. *)
Theorem executor_caches_bounded {S} `{ObjectStore S} `{Torch} `{!Kernels} `{!FaultLib} `{SigLib} dp tget tput
    device secret tp input_max output_max calls (s : S) :
  (forall t, 0 <= t_size t)%Z -> (0 <= input_max)%Z -> (0 <= output_max)%Z ->
  executor_ok input_max output_max
    (run_jobs dp tget tput device secret tp input_max output_max calls (JobExecutor_init s)).
Proof.
  intros Hpos Hin Hout. unfold run_jobs.
  pose proof (executor_init_ok input_max output_max s Hin Hout) as Hinit.
  revert Hinit. generalize (JobExecutor_init s). induction calls as [|c calls IH]; intros je Hje; [done|]. cbn.
  apply IH. by apply preserves_execute.
Qed.

(** *** An example *)

Definition byte_faults : @FaultLib byte_torch :=
  @Build_FaultLib byte_torch (fun _ t => t) (fun t => t) (fun _ t => t).
#[local] Existing Instances byte_torch byte_kernels byte_faults no_signatures.

Definition sample_call : job_call :=
  mkJobCall audit_manifest (mkWorkerIdentity "hk1" "w0" "host" None "nonce" "dev" [] None []) "hk1" None "" fone []
    (fun _ => fone).

Lemma executor_caches_bounded_witness :
  let je := run_jobs no_provider DirectArtifactTransport_get DirectArtifactTransport_put "cpu" "dev" None 8 8
    [sample_call; sample_call] (JobExecutor_init audit_bucket) in
  executor_ok 8 8 je /\ tc_order (je_output je) = ["s3://bk/y"] /\ tc_bytes (je_output je) = 4%Z.
Proof.
  cbv zeta. split; [|split; vm_compute; reflexivity].
  apply (executor_caches_bounded (S := LocalBucket) (H0 := byte_torch)); [|lia|lia].
  intros t. unfold t_size. cbn. unfold str_len. lia.
Defined.
