(* ===== verification/HonestJob.v ===== *)
(** * An honest job passes its audit

    The executor of [teuton_runtime/executor.py] and the auditor of
    [teuton_validator/audit.py] composed: a job executed without injected
    faults on a bucket is replayed from the same bucket with status "pass". *)

From Stdlib Require Import ZArith Lia Ascii.
From stdpp Require Import base strings list.
From S2P Require Import Prelude PyFloat PyVal Json Digest Paths Signatures Codec Protocol ProtocolFacts.
From S2P Require Import Storage Transport Crypto Ir ComputeUnits Tensors Eval AuditReplay Executor.

Section honest.
Context {S : Type} `{OS : ObjectStore S} `{!ObjectStoreLaws S}.
Context `{TT : Torch} `{!TorchLaws} `{!Kernels} `{!FaultLib} `{!Replayers} `{SigLib} `{ExnText}.
Context (dp : result TimelockProvider).
(** Executor and auditor share the device and the secrets. *)
Context (device secret : string) (tp : option TimelockProvider) (input_max output_max : Z).
Context (Hpos : forall t, (0 <= t_size t)%Z) (Hin : (0 <= input_max)%Z) (Hout : (0 <= output_max)%Z).

Notation tget := (DirectArtifactTransport_get (S := S)).
Notation tput := (DirectArtifactTransport_put (S := S)).
Notation decode_input := (JobExecutor_decode_input dp tget device secret tp input_max).

Definition opens_as (ref : ArtifactRef) (body plain : string) : Prop :=
  decode_envelope dp body (ar_crypto ref) (Some identity_verifier) secret tp = Ok plain.

(** What an input reference stands for in a bucket: the bytes stored, and the
    tensor they open to on the device. *)
Definition input_is (s : S) (ref : ArtifactRef) (body : string) (v : tensor) : Prop :=
  os_get (ar_uri ref) s = (s, Ok body) /\
  exists plain t, opens_as ref body plain /\ decode_tensor plain = Ok t /\ to_device device t = Ok v.

(** A cached tensor is the one the bucket has. *)
Definition cache_coherent (s : S) (c : tensor_cache) (ref : ArtifactRef) : Prop :=
  forall t, dict_get (ar_uri ref) (tc_cache c) = Some t ->
    exists body plain t0, os_get (ar_uri ref) s = (s, Ok body) /\ opens_as ref body plain /\
      decode_tensor plain = Ok t0 /\ t = t_cpu t0.

Record coherent (s : S) (refs : list ArtifactRef) (je : JobExecutor S) : Prop := {
  co_store : je_store je = s;
  co_ok : executor_ok input_max output_max je;
  co_input : Forall (cache_coherent s (je_input je)) refs;
  co_output : Forall (cache_coherent s (je_output je)) refs
}.

Lemma in_bucket_get uri (je je' : JobExecutor S) body :
  in_bucket (os_get uri) je = (je', Ok body) -> je' = je /\ os_get uri (je_store je) = (je_store je, Ok body).
Proof.
  unfold in_bucket. pose proof (get_reads uri (je_store je)) as Hg. destruct (os_get uri (je_store je)) as [s1 r].
  cbn in Hg. subst s1. intros [= <- ->]. by destruct je.
Qed.

Lemma coherent_hit s ref c t : cache_coherent s c ref -> dict_get (ar_uri ref) (tc_cache c) = Some t ->
  forall v, to_device device t = Ok v -> exists body, input_is s ref body v.
Proof.
  intros Hc Ht v Hv. destruct (Hc t Ht) as (body & plain & t0 & Hb & Hp & Hd & ->).
  rewrite to_device_cpu in Hv. exists body. split; [done|]. by exists plain, t0.
Qed.

(** Decoding an input gives what the bucket has and keeps the caches coherent. *)
Lemma decode_input_spec s refs grants ref je je' v :
  coherent s refs je -> ref ∈ refs -> NoDup (map ar_uri refs) ->
  decode_input grants ref je = (je', Ok v) ->
  coherent s refs je' /\ exists body, input_is s ref body v.
Proof.
  intros Hco Href Hnd Hd. pose proof Hco as [Hs Hok Hci Hcv]. unfold JobExecutor_decode_input in Hd.
  st_step Hd. injection E as <-. rewrite Forall_forall in Hci, Hcv.
  destruct (dict_get (ar_uri ref) (tc_cache (je_output je))) as [t|] eqn:Eo.
  { apply st_lift_Ok in Hd as [-> Hv]. split; [done|]. by eapply coherent_hit; [apply Hcv|..]. }
  destruct (dict_get (ar_uri ref) (tc_cache (je_input je))) as [t|] eqn:Ei.
  { apply st_lift_Ok in Hd as [-> Hv]. split; [done|]. by eapply coherent_hit; [apply Hci|..]. }
  st_step Hd. apply in_bucket_get in E as [-> Hb]. rename x into body. st_step Hd. rename x into plain, E into Hplain.
  st_step Hd. rename x into value, E into Hval. st_step Hd. apply st_lift_Ok in Hd as [-> Hv].
  rewrite Hs in Hb. split; [|exists body; split; [done|]; by exists plain, value].
  destruct (JobExecutor_is_input_cacheable (ar_uri ref)); [|by injection E as <- _].
  unfold JobExecutor_cache_input in E. st_step E. injection E0 as <-. st_step E. injection E as <- _.
  destruct (cache_tensor_ok input_max (je_input je) (ar_uri ref) (t_cpu value) (input_ok _ _ _ Hok) Hpos Hin)
    as (c & Hc & Hcok & _ & Hother).
  rewrite E0 in Hc. injection Hc as ->. destruct Hok as [X1 X2 X3]. split; [done|by split| |by apply Forall_forall].
  apply Forall_forall. intros r Hr t Ht. cbn [je_input] in Ht.
  destruct (decide (ar_uri r = ar_uri ref)) as [Eu|Hne].
  - assert (r = ref) as ->.
    { apply list_elem_of_lookup in Hr as [i Hi], Href as [j Hj].
      assert (i = j) as ->; [|congruence]. eapply NoDup_lookup; [exact Hnd| |].
      - by rewrite list_lookup_fmap, Hi.
      - rewrite list_lookup_fmap, Hj. cbn. by f_equal. }
    destruct (decide (t_size (t_cpu value) <= input_max / 2)%Z) as [Hsm|Hbig].
    + destruct (cache_tensor_ok input_max (je_input je) (ar_uri ref) (t_cpu value) X1 Hpos Hin) as (c' & Hc' & _ & Hself & _).
      rewrite E0 in Hc'. injection Hc' as <-. rewrite (Hself Hsm) in Ht. injection Ht as <-. by exists body, plain, value.
    + unfold JobExecutor_cache_tensor in E0. destruct (Z.ltb_spec (input_max / 2) (t_size (t_cpu value))); [|lia].
      injection E0 as <-. congruence.
  - apply (Hci r Hr). by apply Hother.
Qed.

(** The inputs of a job: every reference under its name, nothing else. *)
Definition inputs_are (s : S) (refs : list ArtifactRef) (inputs : dict tensor) : Prop :=
  (forall ref, ref ∈ refs -> exists body v, dict_get (ar_name ref) inputs = Some v /\ input_is s ref body v) /\
  (forall k, k ∉ map ar_name refs -> dict_get k inputs = None).

Section gather.
Context (s : S) (refs : list ArtifactRef) (grants : dict PresignedUrlGrant).
Context (Huris : NoDup (map ar_uri refs)).

Lemma decode_cached_spec sub : forall inputs je je' D,
  (forall r, r ∈ sub -> r ∈ refs) -> NoDup (map ar_name sub) -> coherent s refs je ->
  decode_cached dp tget device secret tp input_max grants sub inputs je = (je', Ok D) ->
  coherent s refs je' /\
  (forall ref, ref ∈ sub -> exists body v, dict_get (ar_name ref) D = Some v /\ input_is s ref body v) /\
  (forall k, k ∉ map ar_name sub -> dict_get k D = dict_get k inputs).
Proof.
  induction sub as [|ref sub IH]; intros inputs je je' D Hsub Hnd Hco Hd; cbn [decode_cached] in Hd.
  { injection Hd as <- <-. split; [done|]. split; [by intros ref ?%elem_of_nil|done]. }
  st_step Hd. destruct (decode_input_spec s refs grants ref _ _ _ Hco (Hsub ref ltac:(left)) Huris E) as (Hco' & body & Hb).
  cbn [map] in Hnd. apply NoDup_cons in Hnd as [Hnew Hnd].
  destruct (IH _ _ _ _ (fun r Hr => Hsub r (list_elem_of_further r ref sub Hr)) Hnd Hco' Hd) as (I1 & I2 & I3). split; [done|]. split.
  - intros r [->|Hr]%elem_of_cons; [|by apply I2]. exists body, x. rewrite I3, dict_get_set_eq by done. done.
  - intros k Hk. cbn [map] in Hk. apply not_elem_of_cons in Hk as [Hk1 Hk2]. rewrite I3 by done.
    rewrite dict_get_set. by apply String.eqb_neq in Hk1 as ->.
Qed.

Lemma decode_pool_spec sub : forall je je' rs values,
  (forall r, r ∈ sub -> r ∈ refs) -> coherent s refs je ->
  run_each (decode_input grants) sub je = (je', rs) -> mapR id rs = Ok values ->
  coherent s refs je' /\ Forall2 (fun ref v => exists body, input_is s ref body v) sub values.
Proof.
  induction sub as [|ref sub IH]; intros je je' rs values Hsub Hco Hr Hv; cbn [run_each] in Hr.
  { injection Hr as <- <-. injection Hv as <-. by split. }
  destruct (decode_input grants ref je) as [je1 r1] eqn:E1. destruct (run_each (decode_input grants) sub je1) as [je2 rs2] eqn:E2.
  injection Hr as <- <-. cbn [mapR] in Hv. apply bind_Ok in Hv as (v & Hv1 & Hv). apply bind_Ok in Hv as (vs & Hvs & [= <-]).
  unfold id in Hv1. subst r1.
  destruct (decode_input_spec s refs grants ref _ _ _ Hco (Hsub ref ltac:(left)) Huris E1) as (Hco' & body & Hb).
  destruct (IH _ _ _ _ (fun r Hr => Hsub r (list_elem_of_further r ref sub Hr)) Hco' E2 Hvs) as (I1 & I2).
  split; [done|]. constructor; [by exists body|done].
Qed.

Lemma add_inputs_spec (P : ArtifactRef -> tensor -> Prop) sub : forall values inputs,
  NoDup (map ar_name sub) -> Forall2 P sub values ->
  (forall ref, ref ∈ sub -> exists v, dict_get (ar_name ref) (add_inputs inputs sub values) = Some v /\ P ref v) /\
  (forall k, k ∉ map ar_name sub -> dict_get k (add_inputs inputs sub values) = dict_get k inputs).
Proof.
  induction sub as [|ref sub IH]; intros values inputs Hnd HP.
  { split; [by intros ref ?%elem_of_nil|done]. }
  inversion HP as [|? v ? vs Hv Hvs]; subst. cbn [map] in Hnd. apply NoDup_cons in Hnd as [Hnew Hnd].
  change (add_inputs inputs (ref :: sub) (v :: vs)) with (add_inputs (dict_set (ar_name ref) v inputs) sub vs).
  destruct (IH vs (dict_set (ar_name ref) v inputs) Hnd Hvs) as [I1 I2]. split.
  - intros r [->|Hr]%elem_of_cons; [|by apply I1]. exists v. rewrite I2, dict_get_set_eq by done. done.
  - intros k Hk. cbn [map] in Hk. apply not_elem_of_cons in Hk as [Hk1 Hk2]. rewrite I2 by done.
    rewrite dict_get_set. by apply String.eqb_neq in Hk1 as ->.
Qed.

Lemma filter_names (f : ArtifactRef -> bool) l : NoDup (map ar_name l) -> NoDup (map ar_name (List.filter f l)).
Proof.
  induction l as [|r l IH]; cbn; [done|]. intros [Hr Hl]%NoDup_cons. destruct (f r); cbn; [|by apply IH].
  constructor; [|by apply IH]. intros (r' & E & Hr')%list_elem_of_fmap. apply Hr. rewrite E.
  apply list_elem_of_fmap_2. apply list_elem_of_In, filter_In in Hr' as [Hr' _]. by apply list_elem_of_In.
Qed.

Lemma gather_inputs_spec je je' D : NoDup (map ar_name refs) -> coherent s refs je ->
  gather_inputs dp tget device secret tp input_max grants refs je = (je', Ok D) ->
  coherent s refs je' /\ inputs_are s refs D.
Proof.
  intros Hnames Hco Hg. unfold gather_inputs in Hg. st_step Hg. injection E as <-.
  set (f := is_cached je) in *. st_step Hg. rename x into D0.
  assert (forall h : ArtifactRef -> bool, forall r, r ∈ List.filter h refs -> r ∈ refs /\ h r = true) as Hfilter.
  { intros h r. rewrite !list_elem_of_In, filter_In. done. }
  destruct (decode_cached_spec _ _ _ _ _ (fun r Hr => proj1 (Hfilter _ _ Hr)) (filter_names f refs Hnames) Hco E) as (Hco1 & C1 & C2).
  st_step Hg. rename x into values. injection Hg as <- <-. unfold pool_map in E0.
  destruct (run_each _ _ s0) as [je2 rs] eqn:Er. injection E0 as -> Hrs.
  destruct (decode_pool_spec _ _ _ _ _ (fun r Hr => proj1 (Hfilter _ _ Hr)) Hco1 Er Hrs) as (Hco2 & HF).
  split; [done|]. destruct (add_inputs_spec _ _ values D0 (filter_names (fun r => negb (f r)) refs Hnames) HF) as [A1 A2].
  assert (forall r, r ∈ refs -> f r = true -> ar_name r ∉ map ar_name (List.filter (fun r => negb (f r)) refs)) as Hsep.
  { intros r Hr Hf (r' & En & [Hr' Hf']%Hfilter)%list_elem_of_fmap. assert (r = r') as <-; [|by rewrite Hf in Hf'].
    apply list_elem_of_lookup in Hr as [i Hi], Hr' as [j Hj]. assert (i = j) as ->; [|congruence].
    eapply NoDup_lookup; [exact Hnames| |]; rewrite list_lookup_fmap, ?Hi, ?Hj; cbn; by f_equal. }
  split.
  - intros r Hr. destruct (f r) eqn:Ef.
    + destruct (C1 r) as (body & v & Hv & Hi); [by apply list_elem_of_In, filter_In; split; [apply list_elem_of_In|]|].
      exists body, v. by rewrite A2 by (by apply Hsep).
    + destruct (A1 r) as (v & Hv & body & Hi).
      { apply list_elem_of_In, filter_In. split; [by apply list_elem_of_In|]. by rewrite Ef. }
      by exists body, v.
  - intros k Hk. rewrite A2, C2; [done| |].
    + intros (r & -> & [Hr _]%Hfilter)%list_elem_of_fmap. apply Hk. by apply list_elem_of_fmap_2.
    + intros (r & -> & [Hr _]%Hfilter)%list_elem_of_fmap. apply Hk. by apply list_elem_of_fmap_2.
Qed.
End gather.

(** Reads that a later bucket still answers. *)
Definition kept (s s' : S) (uri : string) : Prop :=
  forall d, os_get uri s = (s, Ok d) -> os_get uri s' = (s', Ok d).

Lemma kept_refl s uri : kept s s uri.
Proof. by intros d. Qed.

Lemma kept_trans s1 s2 s3 uri : kept s1 s2 uri -> kept s2 s3 uri -> kept s1 s3 uri.
Proof. intros K1 K2 d Hd. by apply K2, K1. Qed.

Definition upload (grants : dict PresignedUrlGrant) (e : string * string * ArtifactDigest) : ST (JobExecutor S) unit :=
  in_bucket (tput e.1.1 e.1.2 (dict_get e.1.1 grants)).

(** Uploading stores every output and keeps every other object. *)
Lemma upload_spec grants sealed : forall je je' rs us,
  run_each (upload grants) sealed je = (je', rs) -> mapR id rs = Ok us ->
  NoDup (map (fun e => e.1.1) sealed) -> Forall (fun e => lacks newline e.1.1 = true) sealed ->
  (je_input je' = je_input je /\ je_output je' = je_output je /\ je_graph_cache je' = je_graph_cache je) /\
  (forall e, e ∈ sealed -> os_get e.1.1 (je_store je') = (je_store je', Ok e.1.2)) /\
  (forall uri, lacks newline uri = true -> uri ∉ map (fun e => e.1.1) sealed -> kept (je_store je) (je_store je') uri).
Proof.
  induction sealed as [|[[uri body] dg] sealed IH]; intros je je' rs us Hr Hus Hnd Hnl; cbn [run_each] in Hr.
  { injection Hr as <- <-. split; [done|]. split; [by intros e ?%elem_of_nil|]. intros uri _ _. apply kept_refl. }
  destruct (upload grants (uri, body, dg) je) as [je1 r1] eqn:E1.
  destruct (run_each (upload grants) sealed je1) as [je2 rs2] eqn:E2. injection Hr as <- <-. cbn [mapR] in Hus.
  apply bind_Ok in Hus as (u & Hu & Hus). apply bind_Ok in Hus as (us2 & Hus2 & _). unfold id in Hu. subst r1.
  cbn [map fst] in Hnd. apply NoDup_cons in Hnd as [Hnew Hnd]. apply Forall_cons in Hnl as [Hnl0 Hnl]. cbn [fst] in Hnl0.
  destruct (IH _ _ _ _ E2 Hus2 Hnd Hnl) as ((C1 & C2 & C3) & I1 & I2). unfold upload, in_bucket in E1. cbn [fst snd] in E1.
  destruct (tput uri body (dict_get uri grants) (je_store je)) as [s1 r1] eqn:Ep. injection E1 as <- ->. destruct u.
  cbn [je_store je_input je_output je_graph_cache] in *. split; [done|]. split.
  - intros e [->|He]%elem_of_cons; [|by apply I1]. cbn [fst snd]. apply I2; [done|done|]. by eapply put_get; exact Ep.
  - intros uri' Hnl' Hni. cbn [map fst] in Hni. apply not_elem_of_cons in Hni as [Hn1 Hn2].
    eapply kept_trans; [|by apply I2]. intros d Hd. eapply put_frame; [exact Ep|done|done|done|done].
Qed.

(** The digests of the inputs name the bytes in the bucket. *)
Lemma digest_body_spec name uri body policy d : JobExecutor_digest_body name uri body policy = Ok d ->
  ad_name d = name /\ ad_uri d = uri /\ ad_sha256 d = sha256_hexdigest body /\ ad_sharded d = None.
Proof.
  unfold JobExecutor_digest_body. intros Hd. apply bind_Ok in Hd as (data & Hdata & Hd).
  unfold digest_of_data in Hd. do 7 (apply bind_Ok in Hd as (? & ? & Hd)). injection Hd as <-. cbn.
  split; [done|]. split; [done|]. split; [|done]. unfold artifact_digest_from_blob in Hdata.
  destruct (is_mode _ _); [injection Hdata as <-|apply bind_Ok in Hdata as (env & _ & [= <-])];
    match goal with Hx : req_str _ "sha256" = Ok _ |- _ => by injection Hx as <- end.
Qed.

Lemma input_digests_spec grants refs : forall je je' ds,
  input_digests tget grants refs je = (je', Ok ds) ->
  je' = je /\ Forall2 (fun ref d => ad_name d = ar_name ref /\ ad_sharded d = None /\
    exists body, os_get (ar_uri ref) (je_store je) = (je_store je, Ok body) /\ ad_sha256 d = sha256_hexdigest body) refs ds.
Proof.
  induction refs as [|ref refs IH]; intros je je' ds Hd; cbn [input_digests] in Hd.
  { injection Hd as <- <-. by split. }
  st_step Hd. apply in_bucket_get in E as [-> Hb]. st_step Hd. st_step Hd. injection Hd as <- <-.
  destruct (IH _ _ _ E0) as [-> HF]. split; [done|]. constructor; [|done].
  apply digest_body_spec in E as (D1 & _ & D3 & D4). split; [done|]. split; [done|]. by exists x.
Qed.

Lemma cache_outputs_store outputs refs : forall je je' : JobExecutor S,
  cache_outputs output_max outputs refs je = (je', Ok tt) -> je_store je' = je_store je.
Proof.
  induction refs as [|ref refs IH]; intros je je' Hc; cbn [cache_outputs] in Hc; [by injection Hc as <-|].
  st_step Hc. rewrite (IH _ _ Hc). destruct (dict_get (ar_name ref) outputs); [|done].
  unfold JobExecutor_cache_output in E. st_step E. injection E0 as <-. st_step E. by injection E as <- _.
Qed.

Lemma Forall2_in_l {A B} (P Q : A -> B -> Prop) l k :
  Forall2 P l k -> (forall x y, x ∈ l -> P x y -> Q x y) -> Forall2 Q l k.
Proof.
  induction 1 as [|x y l k Hxy _ IH]; intros Himp; constructor.
  - by apply Himp; [left|].
  - apply IH. intros x' y' Hx'. apply Himp. by right.
Qed.

(** *** The auditor's side *)

Section audit_side.
Context (cfg : AuditReplayConfig) (s : S).
Context (Hdev : arc_device cfg = device) (Hsec : arc_encryption_secret cfg = secret) (Htp : arc_timelock_provider cfg = tp).

(** A digest of the receipt, if any, that accepts the bytes of an input. *)
Definition digest_accepts (expected : dict ArtifactDigest) (ref : ArtifactRef) (body : string) : Prop :=
  forall d, dict_get (ar_name ref) expected = Some d ->
    digest_matches d (sha256_hexdigest body) = true /\ ad_sharded d = None.

Lemma load_input_ok expected ref body v (rp : replay S) :
  rp_store rp = s -> input_is s ref body v -> digest_accepts expected ref body ->
  exists rp', load_input dp tget [] cfg expected ref rp = (rp', Ok v) /\ rp_store rp' = s /\
    rp_graphs rp' = rp_graphs rp.
Proof.
  intros Hs (Hb & plain & t & Hp & Hd & Hv) Hacc. unfold load_input. cbv [mbind st_bind]. unfold on_store at 1.
  unfold DirectArtifactTransport_get at 1. rewrite Hs, Hb.
  destruct (dict_get (ar_name ref) expected) as [d|] eqn:Ed.
  - destruct (Hacc d Ed) as [-> Hsh]. cbn [negb note_input]. destruct d; cbn in Hsh. subst ad_sharded.
    unfold open_artifact. rewrite Hsec, Htp. unfold st_lift. rewrite Hp, Hd, Hdev, Hv. eexists. split; [reflexivity|]. by split.
  - cbn [negb note_input]. unfold open_artifact. rewrite Hsec, Htp. unfold st_lift. rewrite Hp, Hd, Hdev, Hv.
    eexists. split; [reflexivity|]. by split.
Qed.

Lemma load_inputs_ok expected sub : forall inputs (rp : replay S),
  rp_store rp = s -> NoDup (map ar_name sub) ->
  (forall ref, ref ∈ sub -> exists body v, input_is s ref body v /\ digest_accepts expected ref body) ->
  exists rp' D, load_inputs_loop dp tget [] cfg expected sub inputs rp = (rp', Ok D) /\ rp_store rp' = s /\
    rp_graphs rp' = rp_graphs rp /\
    (forall ref, ref ∈ sub -> exists body v, dict_get (ar_name ref) D = Some v /\ input_is s ref body v) /\
    (forall k, k ∉ map ar_name sub -> dict_get k D = dict_get k inputs).
Proof.
  induction sub as [|ref sub IH]; intros inputs rp Hs Hnd Hsub; cbn [load_inputs_loop].
  { exists rp, inputs. split; [done|]. split; [done|]. split; [done|]. split; [by intros ref ?%elem_of_nil|done]. }
  destruct (Hsub ref) as (body & v & Hi & Hacc); [left|]. cbn [map] in Hnd. apply NoDup_cons in Hnd as [Hnew Hnd].
  destruct (load_input_ok expected ref body v rp Hs Hi Hacc) as (rp1 & E1 & Hs1 & Hg1).
  destruct (IH (dict_set (ar_name ref) v inputs) rp1 Hs1 Hnd) as (rp' & D & E2 & Hs2 & Hg2 & I1 & I2).
  { intros r Hr. apply Hsub. by right. }
  exists rp', D. cbv [mbind st_bind]. rewrite E1. split; [done|]. split; [done|]. split; [by rewrite Hg2|]. split.
  - intros r [->|Hr]%elem_of_cons; [|by apply I1]. exists body, v. rewrite I2, dict_get_set_eq by done. done.
  - intros k Hk. cbn [map] in Hk. apply not_elem_of_cons in Hk as [Hk1 Hk2]. rewrite I2 by done.
    rewrite dict_get_set. by apply String.eqb_neq in Hk1 as ->.
Qed.

(** What the bucket must hold for an output to match: bytes that open to the
    blob of the tensor. *)
Definition output_is (ref : ArtifactRef) (t : tensor) : Prop :=
  endswith ".json" (ar_uri ref) = false /\
  exists blob plain, os_get (ar_uri ref) s = (s, Ok blob) /\ opens_as ref blob plain /\
    decode_tensor plain = Ok (t_cpu t).

Lemma compare_output_ok ref t t' m receipt (rp : replay S) :
  rp_store rp = s -> output_is ref t -> to_device device t = Ok t' ->
  (forall d, d ∈ jr_output_digests receipt -> ad_sharded d = None) ->
  fst (compare_tensors (jm_verification_policy m) t' t') = true ->
  exists rp' details, AuditReplayRunner_compare_output dp tget [] cfg ref (Some (OTensor t)) m receipt rp = (rp', Ok (true, details)) /\
    rp_store rp' = s.
Proof.
  intros Hs (Hj & blob & plain & Hb & Hp & Hd) Ht Hsh Hcmp. unfold AuditReplayRunner_compare_output.
  assert (digest_sharded (output_digest_of receipt ref) = None) as Hnone.
  { unfold output_digest_of. destruct (List.find _ _) as [d|] eqn:Ef; [|done]. cbn. apply Hsh.
    apply find_some in Ef as [Ef _]. by apply list_elem_of_In. }
  unfold observed_output. rewrite Hnone. cbv [mbind st_bind]. unfold on_store. unfold DirectArtifactTransport_get at 1.
  rewrite Hs, Hb. unfold st_lift. unfold open_artifact. rewrite Hsec, Htp, Hp, Hj, Hd, Hdev, to_device_cpu, Ht.
  rewrite bool_decide_true by done. cbn [negb]. destruct (compare_tensors _ t' t') as [ok details]. cbn in Hcmp. subst ok.
  eexists _, _. split; [reflexivity|done].
Qed.

Lemma compare_outputs_ok outputs m receipt refs : forall rp : replay S,
  rp_store rp = s ->
  (forall d, d ∈ jr_output_digests receipt -> ad_sharded d = None) ->
  (forall ref, ref ∈ refs -> exists t t', dict_get (ar_name ref) outputs = Some (OTensor t) /\ output_is ref t /\
     to_device device t = Ok t' /\ fst (compare_tensors (jm_verification_policy m) t' t') = true) ->
  exists rp', compare_outputs dp tget [] cfg outputs m receipt refs rp = (rp', Ok []).
Proof.
  induction refs as [|ref refs IH]; intros rp Hs Hsh Href; cbn [compare_outputs]; [by exists rp|].
  destruct (Href ref) as (t & t' & Hd & Ho & Ht & Hc); [left|].
  destruct (compare_output_ok ref t t' m receipt rp Hs Ho Ht Hsh Hc) as (rp1 & details & E1 & Hs1).
  destruct (IH (fst (note_output (ar_name ref) details rp1))) as [rp' E2]; [done|done|intros r Hr; apply Href; by right|].
  exists rp'. cbv [mbind st_bind]. rewrite Hd, E1. cbn [fst snd note_output]. cbn [fst note_output] in E2. by rewrite E2.
Qed.
End audit_side.

(** *** The job *)

(** Envelopes that the auditor opens to what the miner sealed. *)
Definition policy_opens (signer : Signer) (policy : option ArtifactCryptoPolicy) : Prop :=
  forall body blob, encode_envelope dp body policy (Some signer) secret tp = Ok blob ->
    decode_envelope dp blob policy (Some identity_verifier) secret tp = Ok body.

(** A job ready to run: its graph is in the bucket, the caches agree with the
    bucket, names and addresses are distinct, the outputs are tensors under
    policies that open, and it is not a tensor-parallel job. *)
Record job_ready (signer : Signer) (je : JobExecutor S) (m : JobManifestV3) (g : Graph) : Prop := {
  ready_coherent : coherent (je_store je) (jm_inputs m) je;
  ready_graph : exists blob, os_get (gr_uri (jm_graph_ref m)) (je_store je) = (je_store je, Ok blob) /\
    load_bytes Graph_from_dict blob = Ok g;
  ready_graph_id : Graph_graph_id g = gr_sha256 (jm_graph_ref m);
  ready_graph_cache : forall g', dict_get (gr_sha256 (jm_graph_ref m)) (je_graph_cache je) = Some g' -> g' = g;
  ready_blob_free : blob_free g = true;
  ready_input_names : NoDup (map ar_name (jm_inputs m));
  ready_input_uris : NoDup (map ar_uri (jm_inputs m));
  ready_output_uris : NoDup (map ar_uri (jm_outputs m));
  ready_fresh : forall uri, uri ∈ map ar_uri (jm_outputs m) ->
    uri ∉ map ar_uri (jm_inputs m) /\ uri <> gr_uri (jm_graph_ref m);
  ready_newlines : forall uri, uri ∈ gr_uri (jm_graph_ref m) :: map ar_uri (jm_inputs m) ++ map ar_uri (jm_outputs m) ->
    lacks newline uri = true;
  ready_outputs : forall ref, ref ∈ jm_outputs m ->
    endswith ".json" (ar_uri ref) = false /\ policy_opens signer (ar_crypto ref);
  ready_local : is_gpt_job (jm_params m) = false
}.

Lemma fetch_graph_ready signer je m g je1 g1 : job_ready signer je m g ->
  JobExecutor_fetch_graph (gr_sha256 (jm_graph_ref m)) (gr_uri (jm_graph_ref m)) je = (je1, Ok g1) ->
  g1 = g /\ je_store je1 = je_store je /\ je_input je1 = je_input je /\ je_output je1 = je_output je.
Proof.
  intros Hr Hf. unfold JobExecutor_fetch_graph in Hf. st_step Hf. injection E as <-.
  destruct (dict_get _ (je_graph_cache je)) as [g'|] eqn:Eg.
  { injection Hf as <- <-. by rewrite (ready_graph_cache _ _ _ _ Hr g' Eg). }
  st_step Hf. apply in_bucket_get in E as [-> Hb]. destruct (ready_graph _ _ _ _ Hr) as (blob & Hb' & Hl).
  rewrite Hb in Hb'. injection Hb' as ->. st_step Hf. rewrite Hl in E. injection E as <-.
  rewrite (ready_graph_id _ _ _ _ Hr), String.eqb_refl in Hf. st_step Hf. injection E as <-. injection Hf as <- <-. done.
Qed.

(** What a finished execution without faults left behind. *)
Record executed (je je' : JobExecutor S) (m : JobManifestV3) (g : Graph) (signer : Signer) (r : JobReceiptV3)
    (outs : dict tensor) : Prop := {
  ex_inputs : exists D, inputs_are (je_store je) (jm_inputs m) D /\
    snd (evaluate g D (jm_params m) (Some device) (je_store je)) = Ok outs;
  ex_kept : forall uri, uri ∈ gr_uri (jm_graph_ref m) :: map ar_uri (jm_inputs m) -> kept (je_store je) (je_store je') uri;
  ex_outputs : forall ref, ref ∈ jm_outputs m -> exists t, dict_get (ar_name ref) outs = Some t /\
    output_is (je_store je') ref t;
  ex_digests : Forall2 (fun ref d => ad_name d = ar_name ref /\ ad_sharded d = None /\
    exists body, os_get (ar_uri ref) (je_store je') = (je_store je', Ok body) /\ ad_sha256 d = sha256_hexdigest body)
    (jm_inputs m) (jr_input_digests r);
  ex_output_digests : forall d, d ∈ jr_output_digests r -> ad_sharded d = None;
  ex_hash : jr_manifest_hash r = JobManifestV3_manifest_hash m;
  ex_signed : exists sig, jr_miner_signature r = Some sig /\
    signer_sign signer (canonical_json (PDict (JobReceiptV3_unsigned_dict r))) = Ok sig
}.

Lemma seal_output_inv signer outs ref uri body d : seal_output dp secret tp signer outs ref = Ok (uri, body, d) ->
  policy_opens signer (ar_crypto ref) -> endswith ".json" (ar_uri ref) = false ->
  uri = ar_uri ref /\ ad_sharded d = None /\ exists t plain, dict_get (ar_name ref) outs = Some t /\
    opens_as ref body plain /\ decode_tensor plain = Ok (t_cpu t).
Proof.
  unfold seal_output. intros Hs Ho Hj. apply bind_Ok in Hs as (t & Ht & Hs). apply bind_Ok in Hs as (b0 & Hb0 & Hs).
  apply bind_Ok in Hs as (b1 & Hb1 & Hs). apply bind_Ok in Hs as (dg & Hdg & [= <- <- <-]).
  rewrite Hj in Hb0. cbn in Hb0. destruct (dict_get (ar_name ref) outs) as [t0|]; [|done]. injection Ht as ->.
  apply digest_body_spec in Hdg as (_ & _ & _ & Hsh). split; [done|]. split; [done|]. exists t, b0. split; [done|].
  split; [by apply Ho|]. by apply decode_encode.
Qed.

Lemma in_bucket_evaluate g D params (je je1 : JobExecutor S) outs :
  in_bucket (evaluate g D params (Some device)) je = (je1, Ok outs) ->
  je1 = je /\ snd (evaluate g D params (Some device) (je_store je)) = Ok outs.
Proof.
  unfold in_bucket. pose proof (evaluate_reads g D params (Some device) (je_store je)) as He.
  destruct (evaluate g D params (Some device) (je_store je)) as [s1 r]. cbn in He. subst s1. intros [= <- ->].
  by destruct je.
Qed.

(** The sealed outputs, in the order of the manifest. *)
Definition sealed_as (outs : dict tensor) (ref : ArtifactRef) (e : string * string * ArtifactDigest) : Prop :=
  ar_uri ref = e.1.1 /\ ad_sharded e.2 = None /\ exists t plain,
    dict_get (ar_name ref) outs = Some t /\ opens_as ref e.1.2 plain /\ decode_tensor plain = Ok (t_cpu t).

Lemma seal_outputs_spec signer je m g outs sealed : job_ready signer je m g ->
  mapR (seal_output dp secret tp signer outs) (jm_outputs m) = Ok sealed ->
  Forall2 (sealed_as outs) (jm_outputs m) sealed /\ map (fun e => e.1.1) sealed = map ar_uri (jm_outputs m).
Proof.
  intros Hr Esealed%mapR_Forall2. assert (Forall2 (sealed_as outs) (jm_outputs m) sealed) as Hseal.
  { apply (Forall2_in_l _ _ _ _ Esealed). intros ref [[uri body] d] Href Hs.
    destruct (ready_outputs _ _ _ _ Hr ref Href) as [Hj Hpo].
    destruct (seal_output_inv _ _ _ _ _ _ Hs Hpo Hj) as (-> & Hsh & Hrest). done. }
  split; [done|]. clear -Hseal. induction Hseal as [|ref e refs es (Hu & _) _ IH]; cbn; [done|]. by rewrite IH, Hu.
Qed.

Lemma fetch_graph_coherent signer je m g je1 g1 : job_ready signer je m g ->
  JobExecutor_fetch_graph (gr_sha256 (jm_graph_ref m)) (gr_uri (jm_graph_ref m)) je = (je1, Ok g1) ->
  g1 = g /\ coherent (je_store je) (jm_inputs m) je1.
Proof.
  intros Hr E. destruct (fetch_graph_ready _ _ _ _ _ _ Hr E) as (-> & Hs0 & Hi0 & Ho0). split; [done|].
  destruct (ready_coherent _ _ _ _ Hr) as [_ C2 C3 C4]. split; [done| |by rewrite Hi0|by rewrite Ho0].
  pose proof (preserves_fetch_graph input_max output_max (gr_sha256 (jm_graph_ref m)) (gr_uri (jm_graph_ref m)) je C2) as Hp.
  by rewrite E in Hp.
Qed.

Lemma execute_spec m worker msecret msigner rate grants clock je je' g r :
  let signer := artifact_signer msigner msecret worker in
  job_ready signer je m g ->
  JobExecutor_execute dp tget tput device secret tp input_max output_max m worker msecret msigner "" rate grants clock je
    = (je', Ok r) ->
  jr_worker r = worker /\ exists outs, executed je je' m g signer r outs.
Proof.
  intros signer Hr Hx. unfold JobExecutor_execute in Hx. st_step Hx.
  destruct (fetch_graph_coherent _ _ _ _ _ _ Hr E) as (-> & Hco).
  clear E. st_step Hx. rename x into D.
  destruct (gather_inputs_spec _ _ grants (ready_input_uris _ _ _ _ Hr) _ _ _ (ready_input_names _ _ _ _ Hr) Hco E) as (Hco1 & HD).
  clear E. st_step Hx. rename x into outs. apply in_bucket_evaluate in E as [-> Hev]. rewrite (co_store _ _ _ Hco1) in Hev.
  change (JobExecutor_apply_faults m outs (wi_worker_id worker) "" rate) with outs in Hx. fold signer in Hx.
  st_step Hx. rename x into sealed. destruct (seal_outputs_spec _ _ _ _ _ _ Hr E) as [Hseal Huris]. clear E.
  st_step Hx. unfold pool_map in E. destruct (run_each _ sealed s0) as [je3 rs] eqn:Eup. injection E as -> Hus.
  destruct (upload_spec grants sealed s0 s1 rs x Eup Hus) as (_ & Hup & Hkeep).
  { rewrite Huris. apply (ready_output_uris _ _ _ _ Hr). }
  { apply Forall_forall. intros e He. apply (ready_newlines _ _ _ _ Hr). right. apply elem_of_app. right.
    rewrite <- Huris. by apply (list_elem_of_fmap_2 (fun e => e.1.1)). }
  rewrite (co_store _ _ _ Hco1) in Hkeep. st_step Hx. destruct x0. apply cache_outputs_store in E.
  st_step Hx. apply input_digests_spec in E0 as [-> Hds]. apply st_lift_Ok in Hx as [-> Hsign].
  rewrite E in Hds. apply new_receipt_signed in Hsign as (R1 & R2 & R3 & R4 & _ & _ & Hsig).
  split; [done|]. exists outs. split.
  - by exists D.
  - intros uri Huri. rewrite E. apply Hkeep.
    + apply (ready_newlines _ _ _ _ Hr). apply elem_of_cons in Huri as [->|Hu]; [left|right]. apply elem_of_app. by left.
    + rewrite Huris. intros Hou. destruct (ready_fresh _ _ _ _ Hr uri Hou) as [F1 F2].
      by apply elem_of_cons in Huri as [->|Hu].
  - intros ref Href. apply list_elem_of_lookup in Href as [i Hi].
    destruct (Forall2_lookup_l _ _ _ _ _ Hseal Hi) as ([[uri body] d] & Hs & Hu & _ & t & plain & Ht & Hop & Hdec).
    exists t. split; [done|]. split; [by apply (ready_outputs _ _ _ _ Hr), (list_elem_of_lookup_2 _ i)|].
    exists body, plain. rewrite E. split; [|done]. rewrite Hu. apply (Hup (uri, body, d)). by eapply list_elem_of_lookup_2.
  - rewrite R1, E. exact Hds.
  - rewrite R2. intros d (e & -> & He)%list_elem_of_fmap. apply list_elem_of_lookup in He as [i Hi].
    destruct (Forall2_lookup_r _ _ _ _ _ Hseal Hi) as (ref & _ & _ & Hsh & _). exact Hsh.
  - exact R3.
  - exact Hsig.
Qed.

(** The auditor reads what the miner left. *)
Lemma input_is_kept s s' ref body v : kept s s' (ar_uri ref) -> input_is s ref body v -> input_is s' ref body v.
Proof. intros Hk [Hb Hrest]. split; [by apply Hk|done]. Qed.

Lemma input_is_fun s ref b1 b2 v1 v2 : input_is s ref b1 v1 -> input_is s ref b2 v2 -> v1 = v2.
Proof.
  intros [Hb1 (p1 & t1 & Ho1 & Hd1 & Hv1)] [Hb2 (p2 & t2 & Ho2 & Hd2 & Hv2)]. rewrite Hb1 in Hb2. injection Hb2 as ->.
  unfold opens_as in *. congruence.
Qed.

Lemma inputs_are_equiv s refs D1 D2 : inputs_are s refs D1 -> inputs_are s refs D2 -> dict_equiv D1 D2.
Proof.
  intros [A1 A2] [B1 B2] k. destruct (decide (k ∈ map ar_name refs)) as [(ref & -> & Href)%list_elem_of_fmap|Hk].
  - destruct (A1 ref Href) as (b1 & v1 & -> & V1), (B1 ref Href) as (b2 & v2 & -> & V2). by rewrite (input_is_fun _ _ _ _ _ _ V1 V2).
  - by rewrite A2, B2.
Qed.

Lemma expected_digests_in ds k d : dict_get k (expected_digests ds) = Some d -> d ∈ ds /\ ad_name d = k.
Proof.
  unfold expected_digests. assert (forall acc, dict_get k (fold_left (fun acc d => dict_set (ad_name d) d acc) ds acc) = Some d ->
    (d ∈ ds /\ ad_name d = k) \/ dict_get k acc = Some d) as Hf.
  { induction ds as [|d0 ds IH]; intros acc Hd; cbn in Hd; [by right|]. destruct (IH _ Hd) as [[? ?]|Ha]; [left; split; [by right|done]|].
    rewrite dict_get_set in Ha. destruct (String.eqb k (ad_name d0)) eqn:E; [|by right].
    apply String.eqb_eq in E. injection Ha as ->. left. split; [left|done]. }
  intros Hd. by destruct (Hf [] Hd) as [?|?].
Qed.

Lemma digests_accept s m ds body v ref :
  NoDup (map ar_name (jm_inputs m)) -> ref ∈ jm_inputs m -> input_is s ref body v ->
  Forall2 (fun ref d => ad_name d = ar_name ref /\ ad_sharded d = None /\
    exists body, os_get (ar_uri ref) s = (s, Ok body) /\ ad_sha256 d = sha256_hexdigest body) (jm_inputs m) ds ->
  digest_accepts (expected_digests ds) ref body.
Proof.
  intros Hnd Href [Hb _] HF d Hd. apply expected_digests_in in Hd as [Hd Hname].
  apply list_elem_of_lookup in Hd as [i Hi], Href as [j Hj].
  destruct (Forall2_lookup_r _ _ _ _ _ HF Hi) as (ref' & Hi' & Hn' & Hsh & body' & Hb' & Hsha).
  assert (i = j) as ->.
  { eapply NoDup_lookup; [exact Hnd|rewrite list_lookup_fmap, Hi'; reflexivity|].
    rewrite list_lookup_fmap, Hj. cbn. f_equal. congruence. }
  rewrite Hi' in Hj. injection Hj as ->. rewrite Hb in Hb'. injection Hb' as <-. split; [|done].
  unfold digest_matches. by rewrite Hsha, String.eqb_refl.
Qed.

Lemma audit_graph sha uri (rp : replay S) blob g : rp_graphs rp = [] ->
  os_get uri (rp_store rp) = (rp_store rp, Ok blob) -> load_bytes Graph_from_dict blob = Ok g -> Graph_graph_id g = sha ->
  exists rp', AuditReplayRunner_fetch_graph sha uri rp = (rp', Ok g) /\ rp_store rp' = rp_store rp.
Proof.
  intros Hg Hb Hl Hid. unfold AuditReplayRunner_fetch_graph. cbv [mbind st_bind st_get]. rewrite Hg. cbn [dict_get].
  unfold on_store. rewrite Hb. unfold st_lift. rewrite Hl, Hid, String.eqb_refl. eexists. split; [reflexivity|done].
Qed.

Lemma receipt_verifies cfg r signer sig :
  SignsFor signer identity_verifier -> signer_identity signer = wi_hotkey_ss58 (jr_worker r) ->
  jr_miner_signature r = Some sig -> sig <> EmptyString ->
  signer_sign signer (canonical_json (PDict (JobReceiptV3_unsigned_dict r))) = Ok sig ->
  AuditReplayRunner_verify_receipt_signature cfg r = Ok true.
Proof.
  intros Hsv Hid Hsig Hne Hs. unfold AuditReplayRunner_verify_receipt_signature, given. rewrite Hsig.
  apply String.eqb_neq in Hne as ->. apply (signs_for (s := signer)) in Hs.
  cbn [verifier_verify identity_verifier] in Hs. unfold IdentityVerifier_verify in Hs. rewrite Hid in Hs.
  destruct (String.eqb _ ""); [done|]. unfold verify_identity_dict. by rewrite Hs.
Qed.

Definition job_uris (m : JobManifestV3) : list string :=
  gr_uri (jm_graph_ref m) :: map ar_uri (jm_inputs m) ++ map ar_uri (jm_outputs m).

Lemma later_kept je je' m g signer r outs s2 uri : executed je je' m g signer r outs ->
  (forall u, u ∈ job_uris m -> kept (je_store je') s2 u) ->
  uri ∈ gr_uri (jm_graph_ref m) :: map ar_uri (jm_inputs m) -> kept (je_store je) s2 uri.
Proof.
  intros Hx Hlater Hu. eapply kept_trans; [by apply (ex_kept _ _ _ _ _ _ _ Hx)|]. apply Hlater.
  apply elem_of_cons in Hu as [->|Hu]; [left|right]. apply elem_of_app. by left.
Qed.

(** The auditor loads the inputs the executor had. *)
Lemma audit_inputs cfg je je' m g signer r outs s2 (rp : replay S) D :
  arc_device cfg = device -> arc_encryption_secret cfg = secret -> arc_timelock_provider cfg = tp ->
  job_ready signer je m g -> executed je je' m g signer r outs -> rp_store rp = s2 ->
  (forall uri, uri ∈ job_uris m -> kept (je_store je') s2 uri) -> inputs_are (je_store je) (jm_inputs m) D ->
  exists rp' D', load_inputs_loop dp tget [] cfg (expected_digests (jr_input_digests r)) (jm_inputs m) [] rp = (rp', Ok D') /\
    rp_store rp' = s2 /\ dict_equiv D D'.
Proof.
  intros Hdev Hsec Htp Hr Hx Hs1 Hlater HD.
  assert (inputs_are s2 (jm_inputs m) D) as HD2.
  { split; [|apply (proj2 HD)]. intros ref Href. destruct (proj1 HD ref Href) as (body & v & Hv & Hi). exists body, v.
    split; [done|]. eapply input_is_kept; [|done]. eapply later_kept; [done|done|]. right. by apply list_elem_of_fmap_2. }
  assert (Forall2 (fun ref d => ad_name d = ar_name ref /\ ad_sharded d = None /\
    exists body, os_get (ar_uri ref) s2 = (s2, Ok body) /\ ad_sha256 d = sha256_hexdigest body) (jm_inputs m) (jr_input_digests r)) as Hds.
  { apply (Forall2_in_l _ _ _ _ (ex_digests _ _ _ _ _ _ _ Hx)). intros ref d Href (X1 & X2 & body & X3 & X4).
    split; [done|]. split; [done|]. exists body. split; [|done]. apply Hlater; [|done]. right. apply elem_of_app. left. by apply list_elem_of_fmap_2. }
  destruct (load_inputs_ok cfg s2 Hdev Hsec Htp (expected_digests (jr_input_digests r)) (jm_inputs m) [] rp Hs1
    (ready_input_names _ _ _ _ Hr)) as (rp2 & D2 & E2 & Hs2 & _ & L1 & L2).
  { intros ref Href. destruct (proj1 HD2 ref Href) as (body & v & _ & Hi). exists body, v. split; [done|].
    by eapply digests_accept; [apply (ready_input_names _ _ _ _ Hr)|..]. }
  exists rp2, D2. split; [done|]. split; [done|]. by apply (inputs_are_equiv s2 (jm_inputs m)); [|split].
Qed.

(** The replay of an executed job, from any later bucket that still has the
    job's objects. *)
Lemma replay_executed cfg je je' m g signer r outs s2 t0 t1 :
  job_ready signer je m g -> executed je je' m g signer r outs ->
  arc_device cfg = device -> arc_encryption_secret cfg = secret -> arc_timelock_provider cfg = tp ->
  AuditReplayRunner_verify_manifest_signature cfg m = Ok true ->
  AuditReplayRunner_verify_receipt_signature cfg r = Ok true ->
  (forall uri, uri ∈ job_uris m -> kept (je_store je') s2 uri) ->
  (forall name t, dict_get name outs = Some t -> exists t', to_device device t = Ok t' /\
     fst (compare_tensors (jm_verification_policy m) t' t') = true) ->
  exists rp dt, replay_body dp tget [] cfg m r t0 t1 (mkReplay s2 [] [] [] []) = (rp, Ok ("pass", "all outputs matched", dt)).
Proof.
  intros Hr Hx Hdev Hsec Htp Hown Hmin Hlater Hself. unfold replay_body. cbv [mbind st_bind]. unfold st_lift at 1 2.
  rewrite Hown. cbn [negb]. rewrite Hmin. cbn [negb]. rewrite (ex_hash _ _ _ _ _ _ _ Hx), String.eqb_refl. cbn [negb].
  destruct (ready_graph _ _ _ _ Hr) as (blob & Hb & Hl). apply (later_kept _ _ _ _ _ _ _ s2) with (1 := Hx) in Hb; [|done|left].
  destruct (audit_graph (gr_sha256 (jm_graph_ref m)) (gr_uri (jm_graph_ref m)) (mkReplay s2 [] [] [] []) blob g eq_refl Hb Hl
    (ready_graph_id _ _ _ _ Hr)) as (rp1 & -> & Hs1). cbn [rp_store] in Hs1.
  destruct (ex_inputs _ _ _ _ _ _ _ Hx) as (D & HD & Hev).
  destruct (audit_inputs cfg je je' m g signer r outs s2 rp1 D Hdev Hsec Htp Hr Hx Hs1 Hlater HD) as (rp2 & D2 & E2 & Hs2 & Heq).
  unfold AuditReplayRunner_load_inputs. rewrite E2. unfold replay_outputs. rewrite (ready_local _ _ _ _ Hr), Hdev.
  assert (evaluate g D2 (jm_params m) (Some device) s2 = (s2, Ok outs)) as Hev2.
  { rewrite <- (evaluate_equiv g D D2) by done.
    destruct (evaluate_blob_free (S := S) g D (jm_params m) (Some device) (ready_blob_free _ _ _ _ Hr)) as [res Hres].
    rewrite Hres in Hev |- *. cbn in Hev. by rewrite Hev. }
  unfold on_store at 1. cbv [mbind st_bind]. rewrite Hs2, Hev2.
  destruct (compare_outputs_ok cfg s2 Hdev Hsec Htp (dict_map OTensor outs) m r (jm_outputs m)
    (mkReplay s2 (rp_graphs rp2) (rp_inputs rp2) (rp_outputs rp2) (rp_extra rp2)) eq_refl (ex_output_digests _ _ _ _ _ _ _ Hx))
    as [rp3 E3].
  { intros ref Href. destruct (ex_outputs _ _ _ _ _ _ _ Hx ref Href) as (t & Ht & Hj & b & plain & Hb' & Hop & Hdec).
    destruct (Hself _ _ Ht) as (t' & Ht' & Hc). exists t, t'. rewrite dict_get_map, Ht. split; [done|]. split; [|done].
    split; [done|]. exists b, plain. split; [|done]. apply Hlater; [|done]. right. apply elem_of_app. right. by apply list_elem_of_fmap_2. }
  cbn [mret st_ret]. rewrite E3. by eexists _, _.
Qed.
End honest.


(** A job that doubles its input, in a bucket that has its graph and input. *)
#[local] Existing Instances byte_torch byte_kernels byte_faults byte_replayers no_signatures plain_texts.

Definition honest_bucket : LocalBucket :=
  fold_left apply_op
    [OpPut "s3://bk/g.json" (Graph_to_canonical_json concat_graph); OpPut "s3://bk/x" (sample_blob_of "ab")]
    (LocalBucket_init "bk" 5).

(** The graph as a worker reads it (canonical JSON sorts the keys). *)
Definition honest_graph : Graph :=
  match load_bytes Graph_from_dict (Graph_to_canonical_json concat_graph) with Ok g => g | Err _ => concat_graph end.

Definition honest_worker : WorkerIdentity := mkWorkerIdentity "hk1" "w0" "host" None "nonce" "dev" [] None [].

Definition honest_run : JobExecutor LocalBucket * result JobReceiptV3 :=
  JobExecutor_execute no_provider DirectArtifactTransport_get DirectArtifactTransport_put "cpu" "dev" None 8 8
    audit_manifest honest_worker "hk1" None "" fone [] (fun _ => fone) (JobExecutor_init honest_bucket).

Lemma honest_run_signed : match snd honest_run with Ok r => jr_miner_signature r <> Some EmptyString | Err _ => False end.
Proof.
  assert (match snd honest_run with
    | Ok r => match jr_miner_signature r with Some s => negb (String.eqb s EmptyString) | None => false end
    | Err _ => false end = true) as Hb by (vm_compute; reflexivity).
  destruct (snd honest_run) as [r|]; [|done]. intros E. by rewrite E in Hb.
Qed.

Lemma honest_hmac_accepted : SignsFor (hmac_signer (mkHmacSigner "hk1" "hk1")) identity_verifier.
Proof. intros p sig [= <-]. apply (verify_identity_hmac p "hk1" false). reflexivity. Qed.

Lemma honest_graph_stored : exists blob,
  os_get "s3://bk/g.json" honest_bucket = (honest_bucket, Ok blob) /\ load_bytes Graph_from_dict blob = Ok honest_graph.
Proof. exists (Graph_to_canonical_json concat_graph). split; vm_compute; reflexivity. Qed.

Lemma honest_job_ready : job_ready no_provider "dev" None 8 8 (hmac_signer (mkHmacSigner "hk1" "hk1"))
  (JobExecutor_init honest_bucket) audit_manifest honest_graph.
Proof.
  assert (map ar_uri (jm_inputs audit_manifest) = ["s3://bk/x"] /\ map ar_uri (jm_outputs audit_manifest) = ["s3://bk/y"] /\
    map ar_name (jm_inputs audit_manifest) = ["x"] /\ gr_uri (jm_graph_ref audit_manifest) = "s3://bk/g.json") as (E1 & E2 & E3 & E4)
    by (vm_compute; done).
  split.
  - split; [done| | |]; [apply executor_init_ok; lia| |]; apply Forall_forall; intros r _ t; discriminate.
  - rewrite E4. exact honest_graph_stored.
  - vm_compute. reflexivity.
  - discriminate.
  - reflexivity.
  - rewrite E3. apply NoDup_singleton.
  - rewrite E1. apply NoDup_singleton.
  - rewrite E2. apply NoDup_singleton.
  - rewrite E1, E2, E4. intros uri ->%list_elem_of_singleton. split; [by intros ?%list_elem_of_singleton|done].
  - rewrite E1, E2, E4. intros uri Hu. cbn in Hu. repeat (apply elem_of_cons in Hu as [->|Hu]; [reflexivity|]). by apply elem_of_nil in Hu.
  - intros ref Href. assert (jm_outputs audit_manifest = [mkRef "y" "s3://bk/y" None None None]) as E by (vm_compute; reflexivity).
    rewrite E in Href. apply list_elem_of_singleton in Href as ->. split; [reflexivity|]. by intros body blob [= <-].
  - vm_compute. reflexivity.
Qed.

