(* ===== verification/Worker.v ===== *)
(** * The miner's worker ([teuton_miner/worker.py], [teuton_miner/capabilities.py])

    The process that polls the queue of outstanding work, checks and executes
    the jobs assigned to it, writes receipts, replays audits, and stops after a
    number of idle turns.  The worker is a client of an [Executor]: the state of
    the executor holds the bucket.  The clock's readings are a stream, the file
    of completed jobs on the worker's disk is part of the state. *)

From Stdlib Require Import ZArith Lia Ascii.
From stdpp Require Import base gmap sets strings list.
From S2P Require Import Prelude PyFloat PyVal Json Digest Paths Signatures Codec Protocol ProtocolFacts.
From S2P Require Import Storage StoreReads Queue Transport Discovery Crypto WalletCrypto.
From S2P Require Import Ir ComputeUnits Tensors Eval AuditReplay Executor.

(** ** Devices ([capabilities.py]) *)

Definition gpu_index (device : string) : result (option Z) :=
  if startswith "cuda:" device then
    match split_once ":" device with
    | Some (_, n) =>
        match int_of_str n with
        | Ok z => Ok (Some z)
        | Err (ValueError _) => Ok None
        | Err e => Err e
        end
    | None => Ok None
    end
  else if String.eqb device "cuda" then Ok (Some 0%Z)
  else Ok None.

Definition device_indices (devices : list string) : result (list Z) :=
  idx ← mapR gpu_index devices; Ok (omap (M := list) id idx).

(** ** The file of completed jobs *)

(** Line boundaries and blanks of [str], on ASCII text. *)
Definition is_line_break (c : ascii) : bool :=
  existsb (Nat.eqb (Ascii.nat_of_ascii c)) [10; 11; 12; 13; 28; 29; 30]%nat.

Definition is_space (c : ascii) : bool :=
  existsb (Nat.eqb (Ascii.nat_of_ascii c)) [9; 10; 11; 12; 13; 28; 29; 30; 31; 32]%nat.

Fixpoint split_lines (s : string) : list string :=
  match s with
  | EmptyString => [EmptyString]
  | String c s' =>
      if is_line_break c then EmptyString :: split_lines s'
      else match split_lines s' with
           | [] => [String c EmptyString]
           | w :: ws => String c w :: ws
           end
  end.

Fixpoint drop_spaces (s : string) : string :=
  match s with String c s' => if is_space c then drop_spaces s' else s | EmptyString => EmptyString end.

Fixpoint drop_trailing (s : string) : string :=
  match s with
  | EmptyString => EmptyString
  | String c s' =>
      match drop_trailing s' with
      | EmptyString => if is_space c then EmptyString else String c EmptyString
      | t => String c t
      end
  end.

Definition py_strip (s : string) : string := drop_trailing (drop_spaces s).

(** [{line.strip() for line in text.splitlines() if line.strip()}]. *)
Definition cached_ids (text : string) : gset string :=
  list_to_set (filter (fun l => l <> EmptyString) (map py_strip (split_lines text))).

(** The file's text, [None] when there is no file; a text that is not ASCII is
    outside the model. *)
Definition load_completed_cache (file : option string) : result (gset string) :=
  match file with
  | None => Ok ∅
  | Some text => if str_forallb is_ascii text then Ok (cached_ids text) else Err Unmodelled
  end.

(** [writable]: the directory can be made and the file opened. *)
Definition append_completed_cache (writable : bool) (file : option string) (job_id : string) : option string :=
  if writable then Some (default EmptyString file +:+ job_id +:+ String newline EmptyString) else file.

Definition completed_cache_path (base run_id hotkey worker_id : string) : string :=
  base +:+ "/" +:+ replace_char "/" "_" hotkey +:+ "/" +:+ replace_char "/" "_" worker_id +:+ "/" +:+ run_id +:+ ".completed.txt".

(** ** The executor a worker drives *)

(** [exec_execute manifest grants clock], with the worker's identity, keys and
    fault settings fixed. *)
Class Executor (X S : Type) := {
  exec_store : X -> S;
  exec_with_store : X -> S -> X;
  exec_execute : JobManifestV3 -> dict PresignedUrlGrant -> (nat -> float) -> ST X JobReceiptV3
}.

(** What the worker relies on: the store is a part of the state, and a receipt
    names the manifest it is for. *)
Class ExecutorLaws (X S : Type) `{Executor X S} : Prop := {
  exec_store_set : forall x s, exec_store (exec_with_store x s) = s;
  exec_receipt : forall m grants clock x x' r, exec_execute m grants clock x = (x', Ok r) ->
    jr_manifest_hash r = JobManifestV3_manifest_hash m /\ jr_job_id r = jm_job_id m /\
    jr_run_id r = jm_run_id m
}.

(** The executor of one device, with its settings. *)
Definition job_executor {S} `{ObjectStore S} `{Torch} `{!Kernels} `{!FaultLib} `{SigLib} dp
    (tget : string -> option PresignedUrlGrant -> ST S string)
    (tput : string -> string -> option PresignedUrlGrant -> ST S unit)
    device secret tp input_max output_max worker miner_secret signer fault_mode fault_rate : Executor (JobExecutor S) S := {|
  exec_store := je_store;
  exec_with_store := fun je s => mkExecutor s (je_graph_cache je) (je_input je) (je_output je);
  exec_execute := fun m grants clock =>
    JobExecutor_execute dp tget tput device secret tp input_max output_max m worker miner_secret (Some signer)
      fault_mode fault_rate grants clock
|}.

#[export] Instance job_executor_laws {S} `{ObjectStore S} `{Torch} `{!Kernels} `{!FaultLib} `{SigLib} dp tget tput
    device secret tp input_max output_max worker miner_secret signer fault_mode fault_rate :
  @ExecutorLaws (JobExecutor S) S
    (job_executor dp tget tput device secret tp input_max output_max worker miner_secret signer fault_mode fault_rate).
Proof.
  split; [done|]. intros m grants clock x x' r Hx. by apply execute_receipt in Hx as (R1 & R2 & R3 & _).
Qed.

(** ** Configuration *)

Record WorkerConfig := mkWorkerConfig {
  wc_netuid : Z;
  wc_run_id : string;
  wc_hotkey_ss58 : string;
  wc_worker_id : string;
  wc_device : string;
  wc_device_group : list string;
  wc_miner_secret : string;
  wc_heartbeat_interval : float;
  wc_fault_mode : string;
  wc_fault_rate : float;
  wc_encryption_secret : string;
  wc_grant_mode : string;
  wc_assignment_secret : string;
  wc_assignment_crypto : string;
  wc_wallet_path : string;
  wc_wallet_name : string;
  wc_hotkey_name : string;
  wc_discovery_backend : string;
  wc_max_idle_iters : option Z;
  wc_audit_eligible_hotkeys : list string;
  wc_owner_secret : string;
  wc_owner_hotkey : string
}.

(** [list(config.device_group or [config.device])]. *)
Definition device_group (cfg : WorkerConfig) : list string :=
  match wc_device_group cfg with [] => [wc_device cfg] | g => g end.

Definition wallet_keyfile (cfg : WorkerConfig) : string :=
  wc_wallet_path cfg +:+ "/" +:+ wc_wallet_name cfg +:+ "/hotkeys/" +:+ wc_hotkey_name cfg.

Definition MinerWorker_assignment_decryptor `{SigLib} `{BoxLib} (read_file : string -> result string) (cfg : WorkerConfig)
    : result AssignmentDecryptor :=
  if negb (String.eqb (wc_assignment_crypto cfg) "ed25519") then
    Ok (dev_decryptor (DevAssignmentCrypto_init (wc_assignment_secret cfg)))
  else if String.eqb (wc_wallet_name cfg) "" || String.eqb (wc_hotkey_name cfg) "" then
    Err (ValueError "ed25519 assignment crypto requires wallet_name and hotkey_name")
  else c ← Ed25519SealedBoxAssignmentCrypto_from_keyfile read_file (wallet_keyfile cfg); Ok (sealed_decryptor c).

Definition MinerWorker_miner_signer `{SigLib} (read_file : string -> result string) (cfg : WorkerConfig) : result Signer :=
  if negb (String.eqb (wc_wallet_name cfg) "") && negb (String.eqb (wc_hotkey_name cfg) "") then
    signer ← NativeEd25519HotkeySigner_from_wallet read_file (wc_wallet_path cfg) (wc_wallet_name cfg) (wc_hotkey_name cfg);
    if negb (String.eqb (ns_identity signer) (wc_hotkey_ss58 cfg)) then
      Err (ValueError "miner hotkey file does not match configured hotkey SS58")
    else Ok (native_signer signer)
  else Ok (hmac_signer (mkHmacSigner (wc_hotkey_ss58 cfg) (wc_hotkey_ss58 cfg))).

(** ** State *)

Record MinerWorker (X : Type) := mkWorker {
  mw_executor : X;
  mw_completed_jobs : gset string;
  mw_cache_file : option string;
  mw_train_queue_etag : option string;
  mw_audit_queue_etag : option string;
  mw_train_queue : option QueueState;
  mw_audit_queue : option QueueState;
  mw_last_heartbeat : float;
  mw_idle_iters : Z;
  mw_stop_event : bool;
  mw_readings : nat
}.
Arguments mkWorker {X}.
Arguments mw_executor {X}.
Arguments mw_completed_jobs {X}.
Arguments mw_cache_file {X}.
Arguments mw_train_queue_etag {X}.
Arguments mw_audit_queue_etag {X}.
Arguments mw_train_queue {X}.
Arguments mw_audit_queue {X}.
Arguments mw_last_heartbeat {X}.
Arguments mw_idle_iters {X}.
Arguments mw_stop_event {X}.
Arguments mw_readings {X}.

(** ** Assignment grants *)

Definition MinerWorker_grants_by_uri (grant : AssignmentGrantV3) : dict PresignedUrlGrant :=
  let out := fold_left (fun out g => dict_set (pg_canonical_uri g) g out) (ag_input_gets grant ++ ag_output_puts grant) [] in
  match ag_receipt_put grant with Some g => dict_set (pg_canonical_uri g) g out | None => out end.

Definition MinerWorker_validate_assignment_grant (cfg : WorkerConfig) (manifest : JobManifestV3) (grant : AssignmentGrantV3)
    (now : Z) : result unit :=
  if negb (String.eqb (ag_job_id grant) (jm_job_id manifest)) || negb (String.eqb (ag_run_id grant) (jm_run_id manifest)) then
    Err (ValueError "assignment grant job mismatch")
  else if negb (String.eqb (ag_assigned_hotkey grant) (wc_hotkey_ss58 cfg)) then
    Err (ValueError "assignment grant hotkey mismatch")
  else if (ag_expires_unix grant <? now)%Z then Err (ValueError "assignment grant expired")
  else if negb (bool_decide (map ar_uri (jm_outputs manifest) ⊆ map pg_canonical_uri (ag_output_puts grant))) then
    Err (ValueError "assignment grant output URI mismatch")
  else match ag_receipt_put grant with
       | None => Err (ValueError "assignment grant missing receipt PUT")
       | Some _ => Ok tt
       end.

Definition validate_audit_grant (cfg : WorkerConfig) (manifest : JobManifestV3) (grant : AssignmentGrantV3) (now : Z)
    : result unit :=
  if negb (String.eqb (ag_job_id grant) (jm_job_id manifest)) || negb (String.eqb (ag_run_id grant) (jm_run_id manifest)) then
    Err (ValueError "audit assignment grant job mismatch")
  else if negb (String.eqb (ag_assigned_hotkey grant) (wc_hotkey_ss58 cfg)) then
    Err (ValueError "audit assignment grant hotkey mismatch")
  else if (ag_expires_unix grant <? now)%Z then Err (ValueError "audit assignment grant expired")
  else Ok tt.

(** ** Checks on a manifest *)

Definition MinerWorker_eligible (cfg : WorkerConfig) (manifest : JobManifestV3) : bool :=
  let req := jm_resource_requirements manifest in
  let n := Z.of_nat (length (device_group cfg)) in
  if negb (String.eqb (jm_assigned_hotkey manifest) (wc_hotkey_ss58 cfg)) then false
  else if ((1 <? rr_min_gpus req) && (n <? rr_min_gpus req))%Z then false
  else if String.eqb (rr_placement req) "single_host" && (n <? rr_min_gpus req)%Z then false
  else match jm_assigned_worker manifest with
       | None => true
       | Some w => String.eqb w (wc_worker_id cfg)
       end.

Definition MinerWorker_verify_manifest_signature `{SigLib} (cfg : WorkerConfig) (manifest : JobManifestV3) : result bool :=
  if String.eqb (wc_owner_secret cfg) "skip" then Ok true
  else match given (jm_owner_signature manifest) with
       | None => Ok false
       | Some sig =>
           verify_identity_dict (JobManifestV3_unsigned_dict manifest)
             (if String.eqb (wc_owner_hotkey cfg) "" then wc_owner_secret cfg else wc_owner_hotkey cfg) sig true
       end.

Definition MinerWorker_is_audit_eligible (cfg : WorkerConfig) : bool :=
  bool_decide (wc_hotkey_ss58 cfg ∈ wc_audit_eligible_hotkeys cfg).

(** The guards of the loops over queue entries. *)
Definition entry_for_me (cfg : WorkerConfig) (completed : gset string) (entry : QueueEntry) : bool :=
  negb (bool_decide (qe_job_id entry ∈ completed)) &&
  String.eqb (qe_assigned_hotkey entry) (wc_hotkey_ss58 cfg) &&
  worker_matches (qe_assigned_worker entry) (Some (wc_worker_id cfg)).

(** ** Operations *)

Section worker.
Context {X S : Type} `{ObjectStore S} `{Executor X S} `{TT : Torch} `{!Kernels} `{!Replayers} `{SigLib} `{ExnText}.
Context (default_provider : result TimelockProvider).
Context (tget : string -> option PresignedUrlGrant -> ST S string).
Context (tput : string -> string -> option PresignedUrlGrant -> ST S unit).
Context (clock : nat -> float) (cache_writable : bool).
Context (cfg : WorkerConfig) (signer : Signer) (decryptor : AssignmentDecryptor).
Context (backend : BucketDiscoveryBackend) (identity : WorkerIdentity) (capabilities : dict pyval).

Notation worker := (MinerWorker X).

(** [time.time()]: the next reading of the clock. *)
Definition time_now : ST worker float := fun w =>
  (mkWorker (mw_executor w) (mw_completed_jobs w) (mw_cache_file w) (mw_train_queue_etag w) (mw_audit_queue_etag w)
     (mw_train_queue w) (mw_audit_queue w) (mw_last_heartbeat w) (mw_idle_iters w) (mw_stop_event w) (1 + mw_readings w)%nat,
   Ok (clock (mw_readings w))).

Definition with_executor (w : worker) (x : X) : worker :=
  mkWorker x (mw_completed_jobs w) (mw_cache_file w) (mw_train_queue_etag w) (mw_audit_queue_etag w)
    (mw_train_queue w) (mw_audit_queue w) (mw_last_heartbeat w) (mw_idle_iters w) (mw_stop_event w) (mw_readings w).

Definition mw_store (w : worker) : S := exec_store (mw_executor w).

(** A call on the bucket. *)
Definition at_bucket {A} (m : ST S A) : ST worker A := fun w =>
  let '(s, r) := m (mw_store w) in (with_executor w (exec_with_store (mw_executor w) s), r).

Definition at_executor {A} (m : ST X A) : ST worker A := fun w =>
  let '(x, r) := m (mw_executor w) in (with_executor w x, r).

Definition set_last_heartbeat (t : float) : ST worker unit := fun w =>
  (mkWorker (mw_executor w) (mw_completed_jobs w) (mw_cache_file w) (mw_train_queue_etag w) (mw_audit_queue_etag w)
     (mw_train_queue w) (mw_audit_queue w) t (mw_idle_iters w) (mw_stop_event w) (mw_readings w), Ok tt).

Definition set_idle_iters (n : Z) : ST worker unit := fun w =>
  (mkWorker (mw_executor w) (mw_completed_jobs w) (mw_cache_file w) (mw_train_queue_etag w) (mw_audit_queue_etag w)
     (mw_train_queue w) (mw_audit_queue w) (mw_last_heartbeat w) n (mw_stop_event w) (mw_readings w), Ok tt).

Definition MinerWorker_stop : ST worker unit := fun w =>
  (mkWorker (mw_executor w) (mw_completed_jobs w) (mw_cache_file w) (mw_train_queue_etag w) (mw_audit_queue_etag w)
     (mw_train_queue w) (mw_audit_queue w) (mw_last_heartbeat w) (mw_idle_iters w) true (mw_readings w), Ok tt).

(** [self.completed_jobs.add(job_id)] and the line appended to the file. *)
Definition mark_completed (job_id : string) : ST worker unit := fun w =>
  (mkWorker (mw_executor w) ({[ job_id ]} ∪ mw_completed_jobs w)
     (append_completed_cache cache_writable (mw_cache_file w) job_id) (mw_train_queue_etag w) (mw_audit_queue_etag w)
     (mw_train_queue w) (mw_audit_queue w) (mw_last_heartbeat w) (mw_idle_iters w) (mw_stop_event w) (mw_readings w), Ok tt).

Definition keep_train_queue (st : QueueState) : ST worker unit := fun w =>
  (mkWorker (mw_executor w) (mw_completed_jobs w) (mw_cache_file w) (qs_etag st) (mw_audit_queue_etag w)
     (Some st) (mw_audit_queue w) (mw_last_heartbeat w) (mw_idle_iters w) (mw_stop_event w) (mw_readings w), Ok tt).

Definition keep_audit_queue (st : QueueState) : ST worker unit := fun w =>
  (mkWorker (mw_executor w) (mw_completed_jobs w) (mw_cache_file w) (mw_train_queue_etag w) (qs_etag st)
     (mw_train_queue w) (Some st) (mw_last_heartbeat w) (mw_idle_iters w) (mw_stop_event w) (mw_readings w), Ok tt).

Definition MinerWorker_heartbeat (force : bool) : ST worker unit :=
  now ← time_now;
  w ← st_get;
  if negb force && fltb (fsub now (mw_last_heartbeat w)) (wc_heartbeat_interval cfg) then mret tt
  else
    _ ← set_last_heartbeat now;
    t ← time_now;
    at_bucket (BucketDiscoveryBackend_advertise_worker backend
      (mkMiner (wc_netuid cfg) (wc_hotkey_ss58 cfg) None None None capabilities) identity t).

Definition skip_key (job_id : string) : string :=
  jobs_prefix (wc_netuid cfg) (wc_run_id cfg) +:+ job_id +:+ "/skip-" +:+ wc_hotkey_ss58 cfg +:+ "-" +:+ wc_worker_id cfg +:+ ".json".

Definition MinerWorker_mark_skipped (job_id reason : string) : ST worker unit :=
  st_try (
    uri ← at_bucket (uri_of (skip_key job_id));
    t ← time_now;
    unix ← st_lift (int_of_float t);
    at_bucket (os_put_json uri (PDict
      [("job_id", PStr job_id); ("hotkey", PStr (wc_hotkey_ss58 cfg)); ("worker_id", PStr (wc_worker_id cfg));
       ("reason", PStr reason); ("skip_unix", PInt unix)])))
    (fun _ => mret tt).

(** A skip: the reason is recorded and the entry is left alone. *)
Definition skip {A} (job_id reason : string) : ST worker (option A) :=
  _ ← MinerWorker_mark_skipped job_id reason; mret None.

Definition err_reason (what : string) (e : exn) : string := what +:+ ": " +:+ exn_type e +:+ ": " +:+ exn_str e.

Definition queue_entries (q : option QueueState) : list QueueEntry :=
  match q with Some st => qs_outstanding st | None => [] end.

Definition MinerWorker_fetch_train_queue_entries : ST worker (list QueueEntry) :=
  w ← st_get;
  state ← st_try (at_bucket (read_queue (wc_netuid cfg) (wc_run_id cfg) "train" (mw_train_queue_etag w))) (fun _ => mret None);
  match state with
  | None => mret (queue_entries (mw_train_queue w))
  | Some st => _ ← keep_train_queue st; mret (qs_outstanding st)
  end.

(** The grant of a job, as the two loaders read it. *)
Definition load_grant (key : string) (missing : string)
    (validate : AssignmentGrantV3 -> Z -> result unit) : ST worker AssignmentGrantV3 :=
  uri ← at_bucket (uri_of key);
  there ← at_bucket (os_exists uri);
  if negb (there : bool) then st_raise (FileNotFoundError missing)
  else
    encrypted ← at_bucket (read_record EncryptedAssignmentGrantV3_from_dict uri);
    grant ← st_lift (grant_decrypt decryptor encrypted (wc_hotkey_ss58 cfg));
    t ← time_now;
    now ← st_lift (int_of_float t);
    _ ← st_lift (validate grant now);
    mret grant.

Definition MinerWorker_load_assignment_grant (manifest : JobManifestV3) : ST worker AssignmentGrantV3 :=
  load_grant (assignment_key (wc_netuid cfg) (wc_run_id cfg) (jm_job_id manifest) (wc_hotkey_ss58 cfg))
    ("missing assignment grant for " +:+ jm_job_id manifest) (MinerWorker_validate_assignment_grant cfg manifest).

Definition MinerWorker_load_audit_assignment_grant (manifest : JobManifestV3) : ST worker AssignmentGrantV3 :=
  load_grant (audit_assignment_key (wc_netuid cfg) (wc_run_id cfg) (jm_job_id manifest) (wc_hotkey_ss58 cfg))
    ("missing audit assignment grant for " +:+ jm_job_id manifest) (validate_audit_grant cfg manifest).

(** The steps of [_execute_queue_entry] up to the grant, in order.  [Some] is
    the manifest to run with its grant, [None] a skip. *)
Definition load_manifest (entry : QueueEntry) : ST worker (option JobManifestV3) := fun w =>
  match at_bucket (os_get_json (qe_manifest_uri entry)) w with
  | (w1, Err (FileNotFoundError _)) => skip (qe_job_id entry) "missing_manifest" w1
  | (w1, Err e) =>
      if catchable e then skip (qe_job_id entry) (err_reason "manifest_load_err" e) w1 else (w1, Err e)
  | (w1, Ok payload) =>
      match (d ← as_object payload; JobManifestV3_from_dict d) with
      | Ok m => (w1, Ok (Some m))
      | Err e => if catchable e then skip (qe_job_id entry) (err_reason "manifest_parse_err" e) w1 else (w1, Err e)
      end
  end.

Definition direct_mode : bool := String.eqb (wc_grant_mode cfg) "direct".

Definition ref_exists (ref : ArtifactRef) : ST worker bool := at_bucket (os_exists (ar_uri ref)).

Definition check_manifest (manifest : JobManifestV3) : ST worker (option unit) :=
  if negb (MinerWorker_eligible cfg manifest) then skip (jm_job_id manifest) "not_eligible"
  else
  good ← st_lift (MinerWorker_verify_manifest_signature cfg manifest);
  if negb (good : bool) then skip (jm_job_id manifest) "bad_owner_signature"
  else
  outputs_there ← (if direct_mode then allS ref_exists (jm_outputs manifest) else mret false);
  if (outputs_there : bool) then _ ← mark_completed (jm_job_id manifest); mret None
  else
  inputs_there ← (if direct_mode then allS ref_exists (jm_inputs manifest) else mret true);
  if negb (inputs_there : bool) then skip (jm_job_id manifest) "missing_input_artifacts"
  else
  let graph_uri := gr_uri (jm_graph_ref manifest) in
  graph_there ← (if String.eqb graph_uri "" then mret true else at_bucket (os_exists graph_uri));
  if negb (graph_there : bool) then skip (jm_job_id manifest) "missing_graph_artifact"
  else mret (Some tt).

Definition find_grant (manifest : JobManifestV3) (role : string) : ST worker (option (option AssignmentGrantV3)) := fun w =>
  let load : ST worker (option AssignmentGrantV3) :=
    if direct_mode then mret None
    else if String.eqb role "audit" then g ← MinerWorker_load_audit_assignment_grant manifest; mret (Some g)
    else g ← MinerWorker_load_assignment_grant manifest; mret (Some g) in
  match load w with
  | (w1, Ok g) => (w1, Ok (Some g))
  | (w1, Err (FileNotFoundError _)) => skip (jm_job_id manifest) "missing_assignment_grant" w1
  | (w1, Err (ValueError msg)) => skip (jm_job_id manifest) ("bad_assignment_grant: " +:+ exn_str (ValueError msg)) w1
  | (w1, Err e) => if catchable e then skip (jm_job_id manifest) (err_reason "grant_load_err" e) w1 else (w1, Err e)
  end.

Definition grants_of (grant : option AssignmentGrantV3) : option (dict PresignedUrlGrant) :=
  match grant with Some g => Some (MinerWorker_grants_by_uri g) | None => None end.

(** Readings of the clock taken inside a call. *)
Definition advance (n : nat) (w : worker) : worker :=
  mkWorker (mw_executor w) (mw_completed_jobs w) (mw_cache_file w) (mw_train_queue_etag w) (mw_audit_queue_etag w)
    (mw_train_queue w) (mw_audit_queue w) (mw_last_heartbeat w) (mw_idle_iters w) (mw_stop_event w) (n + mw_readings w)%nat.

(** Upload of an audit result, under the grant of the manifest's first output
    if there is one. *)
Definition upload_audit (manifest : JobManifestV3) (grants : option (dict PresignedUrlGrant)) (audit : AuditResultV3)
    : ST worker unit :=
  let body := PDict (AuditResultV3_to_dict audit) in
  let in_results : ST worker unit :=
    rv ← st_lift (item (jm_params manifest) "receipt");
    receipt ← st_lift (d ← as_dict rv; JobReceiptV3_from_dict d);
    uri ← at_bucket (uri_of (audit_result_key (wc_netuid cfg) (wc_run_id cfg) (wc_hotkey_ss58 cfg) (jr_receipt_id receipt)));
    at_bucket (os_put_json uri body) in
  match jm_outputs manifest, grants with
  | ref :: _, Some gs =>
      match dict_get (ar_uri ref) gs with
      | Some g => at_bucket (tput (ar_uri ref) (canonical_json body) (Some g))
      | None => in_results
      end
  | _, _ => in_results
  end.

Definition MinerWorker_execute_audit_replay (manifest : JobManifestV3) (grants : option (dict PresignedUrlGrant))
    : ST worker (option JobManifestV3) := fun w =>
  let t i := clock (i + mw_readings w)%nat in
  match at_bucket (run_audit_replay default_provider tget (default [] grants) manifest (wc_hotkey_ss58 cfg) (Some signer)
          (wc_owner_secret cfg) (wc_owner_hotkey cfg) (wc_miner_secret cfg) (wc_device cfg)
          (t 0%nat) (t 1%nat) (t 2%nat)) (advance 3 w) with
  | (w1, Err e) => if catchable e then skip (jm_job_id manifest) (err_reason "audit_err" e) w1 else (w1, Err e)
  | (w1, Ok audit) =>
      (_ ← upload_audit manifest grants audit; _ ← mark_completed (jm_job_id manifest); mret (Some manifest)) w1
  end.

(** Upload of a receipt, under the grant's receipt PUT if there is one. *)
Definition upload_receipt (manifest : JobManifestV3) (grant : option AssignmentGrantV3) (receipt : JobReceiptV3)
    : ST worker unit :=
  let body := PDict (JobReceiptV3_to_dict receipt) in
  receipt_uri ← at_bucket (uri_of (receipt_key (wc_netuid cfg) (wc_run_id cfg) (wc_hotkey_ss58 cfg)
                                     (jm_job_id manifest) (jm_attempt manifest)));
  match grant with
  | Some g =>
      match ag_receipt_put g with
      | Some put => at_bucket (tput receipt_uri (canonical_json body) (Some put))
      | None => at_bucket (os_put_json receipt_uri body)
      end
  | None => at_bucket (os_put_json receipt_uri body)
  end.

(** The job itself: the exceptions the code names are a skip, any other
    leaves the worker. *)
Definition run_job (manifest : JobManifestV3) (grant : option AssignmentGrantV3) : ST worker (option JobManifestV3) := fun w =>
  match at_executor (exec_execute manifest (default [] (grants_of grant)) (fun i => clock (i + mw_readings w)%nat)) (advance 4 w) with
  | (w1, Err ((FileNotFoundError _ | HTTPError _ | ValueError _) as e)) =>
      skip (jm_job_id manifest) (err_reason "execute_err" e) w1
  | (w1, Err e) => (w1, Err e)
  | (w1, Ok receipt) =>
      (_ ← upload_receipt manifest grant receipt; _ ← mark_completed (jm_job_id manifest); mret (Some manifest)) w1
  end.

(** [_execute_queue_entry]: [Some] with the manifest it ran where the code
    answers true. *)
Definition MinerWorker_execute_queue_entry (entry : QueueEntry) (role : string) : ST worker (option JobManifestV3) :=
  loaded ← load_manifest entry;
  match loaded with
  | None => mret None
  | Some manifest =>
      checked ← check_manifest manifest;
      match checked with
      | None => mret None
      | Some _ =>
          found ← find_grant manifest role;
          match found with
          | None => mret None
          | Some grant =>
              if String.eqb role "audit" then MinerWorker_execute_audit_replay manifest (grants_of grant)
              else run_job manifest grant
          end
      end
  end.

(** The loop over the entries, up to the first that ran. *)
Fixpoint try_entries (role : string) (entries : list QueueEntry) : ST worker (option (QueueEntry * JobManifestV3)) :=
  match entries with
  | [] => mret None
  | entry :: entries' =>
      w ← st_get;
      if negb (entry_for_me cfg (mw_completed_jobs w) entry) then try_entries role entries'
      else
        ran ← MinerWorker_execute_queue_entry entry role;
        match ran with
        | Some m => mret (Some (entry, m))
        | None => try_entries role entries'
        end
  end.

Definition MinerWorker_tick_audit_jobs : ST worker (option (QueueEntry * JobManifestV3)) :=
  w ← st_get;
  state ← st_try (st ← at_bucket (read_queue (wc_netuid cfg) (wc_run_id cfg) "audit" (mw_audit_queue_etag w)); mret (Some st))
            (fun _ => mret None);
  match state with
  | None => mret None
  | Some None => try_entries "audit" (queue_entries (mw_audit_queue w))
  | Some (Some st) => _ ← keep_audit_queue st; try_entries "audit" (qs_outstanding st)
  end.

Definition MinerWorker_idle : ST worker unit :=
  w ← st_get;
  let n := (mw_idle_iters w + 1)%Z in
  _ ← set_idle_iters n;
  match wc_max_idle_iters cfg with
  | Some limit => if (limit <=? n)%Z then MinerWorker_stop else mret tt
  | None => mret tt
  end.

(** What a turn finds to do, newest entries first. *)
Definition tick_work : ST worker (option (QueueEntry * JobManifestV3)) :=
  _ ← MinerWorker_heartbeat false;
  entries ← MinerWorker_fetch_train_queue_entries;
  ran ← try_entries "train" (rev entries);
  match ran with
  | Some j => mret (Some j)
  | None => if MinerWorker_is_audit_eligible cfg then MinerWorker_tick_audit_jobs else mret None
  end.

Definition MinerWorker_tick : ST worker bool :=
  ran ← tick_work;
  match ran with
  | Some _ => _ ← set_idle_iters 0; mret true
  | None => _ ← MinerWorker_idle; mret false
  end.
(** Other processes change the bucket between two turns. *)
Definition env_step (f : S -> S) (w : worker) : worker :=
  with_executor w (exec_with_store (mw_executor w) (f (mw_store w))).

(** [loop], for at most [fuel] turns: [Ok true] once the worker was told to
    stop.  [env k] is what happens to the bucket after turn [k]. *)
Fixpoint MinerWorker_loop (fuel k : nat) (env : nat -> S -> S) : ST worker bool := fun w =>
  match fuel with
  | O => (w, Ok false)
  | Datatypes.S fuel' =>
      if mw_stop_event w then (w, Ok true)
      else match MinerWorker_tick w with
           | (w', Err e) => (w', Err e)
           | (w', Ok _) => MinerWorker_loop fuel' (1 + k)%nat env (env_step (env k) w')
           end
  end.

(** The states before turn [k]. *)
Inductive visited (env : nat -> S -> S) (w0 : worker) : nat -> worker -> Prop :=
  | visited_start : visited env w0 0 w0
  | visited_turn k w w' b : visited env w0 k w -> mw_stop_event w = false -> MinerWorker_tick w = (w', Ok b) ->
      visited env w0 (1 + k) (env_step (env k) w').

(** The state of a new worker before its first heartbeat. *)
Definition new_worker (x : X) (completed : gset string) (file : option string) : worker :=
  mkWorker x completed file None None None None fzero 0 false 0.

(** The end of [__init__]: the cache is read, the devices are probed and the
    first heartbeat is sent. *)
Definition MinerWorker_init (probe : string -> result unit) (x : X) (file : option string) : worker * result unit :=
  match load_completed_cache file with
  | Err e => (new_worker x ∅ file, Err e)
  | Ok completed =>
      (_ ← st_lift (mapR (fun d => if String.eqb d "cpu" then Ok tt else probe d) (device_group cfg));
       MinerWorker_heartbeat true) (new_worker x completed file)
  end.
End worker.

(** The beginning of [__init__]: keys, discovery backend and identity.
    [capabilities] is what [detect_capabilities] found, [nonce] the session's
    uuid. *)
Definition MinerWorker_setup `{SigLib} `{BoxLib} (read_file : string -> result string) (cfg : WorkerConfig)
    (capabilities : dict pyval) (nonce software_hash : string)
    : result (AssignmentDecryptor * Signer * BucketDiscoveryBackend * WorkerIdentity) :=
  decryptor ← MinerWorker_assignment_decryptor read_file cfg;
  signer ← MinerWorker_miner_signer read_file cfg;
  backend ← build_discovery_backend (wc_discovery_backend cfg) (wc_netuid cfg) (wc_run_id cfg) "train" None;
  host_id ← str_or capabilities "hostname" "unknown";
  gpu ← gpu_index (wc_device cfg);
  group ← device_indices (device_group cfg);
  Ok (decryptor, signer, backend,
      mkWorkerIdentity (wc_hotkey_ss58 cfg) (wc_worker_id cfg) host_id gpu nonce software_hash group
        (if (1 <? length (device_group cfg))%nat then Some (wc_worker_id cfg) else None) capabilities).
