(* ===== verification/WorkerFacts.v ===== *)
(** * Properties of the miner's worker

    What a turn of the worker may change, which jobs it runs, that it stops, and
    that the jobs it completed survive a restart. *)

From Stdlib Require Import ZArith Lia Ascii.
From stdpp Require Import base gmap sets strings list.
From S2P Require Import Prelude PyFloat PyVal Json Digest Paths Signatures Codec Protocol ProtocolFacts.
From S2P Require Import Storage StoreReads Queue Transport Discovery Crypto WalletCrypto.
From S2P Require Import Ir ComputeUnits Tensors Eval AuditReplay Executor HonestJob Worker.

(** ** The file of completed jobs *)

#[local] Arguments String.append !s1 s2 : simpl nomatch.
#[local] Arguments is_line_break : simpl never.
#[local] Arguments is_ascii : simpl never.

(** Identifiers that make one line of the file. *)
Definition plain_id (j : string) : bool :=
  negb (String.eqb j EmptyString) && String.eqb (py_strip j) j &&
  str_forallb (fun c => is_ascii c && negb (is_line_break c)) j.

(** A file whose last line is complete. *)
Definition whole_lines (file : option string) : Prop :=
  match file with None => True | Some t => t = EmptyString \/ exists t0, t = t0 +:+ String newline EmptyString end.

Lemma split_lines_cons s : exists w ws, split_lines s = w :: ws.
Proof.
  induction s as [|c s (w & ws & IH)]; cbn; [by eexists _, _|]. destruct (is_line_break c); [by eexists _, _|].
  rewrite IH. by eexists _, _.
Qed.

Lemma split_lines_cat a b : split_lines (a +:+ String newline b) = split_lines a ++ split_lines b.
Proof.
  induction a as [|c a IH]; [done|]. cbn [String.append split_lines]. destruct (is_line_break c); [by rewrite IH|].
  destruct (split_lines_cons a) as (w & ws & E). rewrite IH, E. done.
Qed.

Lemma split_lines_plain j : str_forallb (fun c => is_ascii c && negb (is_line_break c)) j = true -> split_lines j = [j].
Proof.
  induction j as [|c j IH]; [done|]. cbn. intros [[_ Hc]%andb_true_iff Hj]%andb_true_iff.
  apply negb_true_iff in Hc as ->. by rewrite IH.
Qed.

Lemma cached_ids_cat a b : cached_ids (a +:+ String newline b) = cached_ids a ∪ cached_ids b.
Proof. unfold cached_ids. by rewrite split_lines_cat, map_app, filter_app, list_to_set_app_L. Qed.

Lemma cached_ids_empty : cached_ids EmptyString = ∅.
Proof. reflexivity. Qed.

Lemma cached_ids_plain j : plain_id j = true -> cached_ids j = {[ j ]}.
Proof.
  unfold plain_id. intros [[Hne Hst]%andb_true_iff Hj]%andb_true_iff. unfold cached_ids.
  rewrite split_lines_plain by done. cbn [map]. apply String.eqb_eq in Hst as ->.
  apply negb_true_iff, String.eqb_neq in Hne. rewrite filter_cons_True by done. cbn. by rewrite (right_id_L ∅ (∪)).
Qed.

Lemma append_loaded file j ids : whole_lines file -> plain_id j = true -> load_completed_cache file = Ok ids ->
  whole_lines (append_completed_cache true file j) /\
  load_completed_cache (append_completed_cache true file j) = Ok ({[ j ]} ∪ ids).
Proof.
  intros Hw Hj Hl. unfold append_completed_cache. cbn [default load_completed_cache]. split.
  { right. exists (default EmptyString file +:+ j). by rewrite str_app_assoc. }
  assert (str_forallb is_ascii j = true) as Hascii.
  { unfold plain_id in Hj. apply andb_true_iff in Hj as [_ Hj]. clear -Hj. induction j as [|c j IH]; [done|]. cbn in *.
    apply andb_true_iff in Hj as [[Hc _]%andb_true_iff Hj]. by rewrite Hc, IH. }
  assert (cached_ids (j +:+ String newline EmptyString) = {[ j ]}) as Hone.
  { rewrite cached_ids_cat, cached_ids_plain, cached_ids_empty by done. by rewrite (right_id_L ∅ (∪)). }
  destruct file as [t|]; cbn [default from_option load_completed_cache] in *; unfold id.
  - rewrite !str_forallb_app, Hascii. destruct (str_forallb is_ascii t); [|done]. injection Hl as <-.
    change (str_forallb is_ascii (String newline EmptyString)) with true. cbn [andb]. f_equal.
    destruct Hw as [->|(t0 & ->)]; [cbn [String.append]; by rewrite Hone, cached_ids_empty, (right_id_L ∅ (∪))|].
    rewrite str_app_assoc. cbn [String.append]. rewrite !cached_ids_cat, (cached_ids_plain j Hj), cached_ids_empty.
    rewrite !(right_id_L ∅ (∪)). by rewrite (comm_L (∪)).
  - injection Hl as <-. cbn [String.append]. rewrite !str_forallb_app, Hascii.
    change (str_forallb is_ascii (String newline EmptyString)) with true. cbn [andb]. by rewrite Hone, (right_id_L ∅ (∪)).
Qed.

Lemma appends_loaded js : forall file ids, whole_lines file -> Forall (fun j => plain_id j = true) js ->
  load_completed_cache file = Ok ids ->
  whole_lines (fold_left (append_completed_cache true) js file) /\
  load_completed_cache (fold_left (append_completed_cache true) js file) = Ok (list_to_set js ∪ ids).
Proof.
  induction js as [|j js IH]; intros file ids Hw Hjs Hl; cbn [fold_left list_to_set].
  { by rewrite (left_id_L ∅ (∪)). }
  apply Forall_cons in Hjs as [Hj Hjs]. destruct (append_loaded file j ids Hw Hj Hl) as [Hw' Hl'].
  destruct (IH _ _ Hw' Hjs Hl') as [Hw2 ->]. split; [done|]. f_equal.
  by rewrite (assoc_L (∪)), (comm_L (∪) (list_to_set js) {[ j ]}).
Qed.

Section turns.
Context {X S : Type} `{ObjectStore S} `{Executor X S} `{TT : Torch} `{!Kernels} `{!Replayers} `{SigLib} `{ExnText}.
Context (dp : result TimelockProvider).
Context (tget : string -> option PresignedUrlGrant -> ST S string).
Context (tput : string -> string -> option PresignedUrlGrant -> ST S unit).
Context (clock : nat -> float) (writable : bool).
Context (cfg : WorkerConfig) (signer : Signer) (decryptor : AssignmentDecryptor).
Context (backend : BucketDiscoveryBackend) (identity : WorkerIdentity) (capabilities : dict pyval).

Notation worker := (MinerWorker X).

(** ** What an operation may change *)

(** Between two states a list of jobs was completed, in that order, each noted
    in memory and on disk; nothing was counted as idle and no stop was asked. *)
Definition completes (js : list string) (w w' : worker) : Prop :=
  mw_completed_jobs w' = list_to_set js ∪ mw_completed_jobs w /\
  mw_cache_file w' = fold_left (append_completed_cache writable) js (mw_cache_file w) /\
  mw_idle_iters w' = mw_idle_iters w /\ mw_stop_event w' = mw_stop_event w.

Definition quiet {A} (m : ST worker A) : Prop := forall w, exists js, completes js w (fst (m w)).

Lemma completes_same w w' :
  mw_completed_jobs w' = mw_completed_jobs w -> mw_cache_file w' = mw_cache_file w ->
  mw_idle_iters w' = mw_idle_iters w -> mw_stop_event w' = mw_stop_event w -> completes [] w w'.
Proof. intros E1 E2 E3 E4. split_and!; try done. rewrite E1. cbn [list_to_set]. by rewrite (left_id_L ∅ (∪)). Qed.

Lemma completes_nil w : completes [] w w.
Proof. by apply completes_same. Qed.

Lemma completes_app js js' w1 w2 w3 : completes js w1 w2 -> completes js' w2 w3 -> completes (js ++ js') w1 w3.
Proof.
  intros (A1 & A2 & A3 & A4) (B1 & B2 & B3 & B4). split_and!; try congruence.
  - rewrite B1, A1. by rewrite list_to_set_app_L, (assoc_L (∪)), (comm_L (∪) (list_to_set js') (list_to_set js)).
  - by rewrite B2, A2, fold_left_app.
Qed.

(** Operations that complete nothing. *)
Definition still {A} (m : ST worker A) : Prop := forall w, completes [] w (fst (m w)).

Lemma still_quiet {A} (m : ST worker A) : still m -> quiet m.
Proof. intros Hm w. by exists []. Qed.

Lemma still_ret {A} (a : A) : still (mret a).
Proof. intros w. apply completes_nil. Qed.
Lemma still_lift {A} (r : result A) : still (st_lift r).
Proof. intros w. apply completes_nil. Qed.
Lemma still_raise {A} e : still (st_raise (A := A) e).
Proof. intros w. apply completes_nil. Qed.
Lemma still_get : still st_get.
Proof. intros w. apply completes_nil. Qed.
Lemma still_time : still (time_now clock).
Proof. intros w. by apply completes_same. Qed.
Lemma still_bucket {A} (m : ST S A) : still (at_bucket m).
Proof. intros w. unfold at_bucket. destruct (m (mw_store w)). by apply completes_same. Qed.
Lemma still_executor {A} (m : ST X A) : still (at_executor m).
Proof. intros w. unfold at_executor. destruct (m (mw_executor w)). by apply completes_same. Qed.
Lemma still_last_heartbeat t : still (set_last_heartbeat t).
Proof. intros w. by apply completes_same. Qed.
Lemma still_keep_train st : still (keep_train_queue st).
Proof. intros w. by apply completes_same. Qed.
Lemma still_keep_audit st : still (keep_audit_queue st).
Proof. intros w. by apply completes_same. Qed.

Lemma still_bind {A B} (m : ST worker A) (k : A -> ST worker B) : still m -> (forall a, still (k a)) -> still (m ≫= k).
Proof.
  intros Hm Hk w. cbv [mbind st_bind]. specialize (Hm w). destruct (m w) as [w1 [a|e]]; [|done].
  apply (completes_app [] [] _ _ _ Hm (Hk a w1)).
Qed.

Lemma still_try {A} (m : ST worker A) (h : exn -> ST worker A) : still m -> (forall e, still (h e)) -> still (st_try m h).
Proof.
  intros Hm Hh w. unfold st_try. specialize (Hm w). destruct (m w) as [w1 [a|e]]; [done|].
  destruct (catchable e); [|done]. apply (completes_app [] [] _ _ _ Hm (Hh e w1)).
Qed.

Lemma quiet_bind {A B} (m : ST worker A) (k : A -> ST worker B) : quiet m -> (forall a, quiet (k a)) -> quiet (m ≫= k).
Proof.
  intros Hm Hk w. cbv [mbind st_bind]. destruct (Hm w) as [js Hjs]. destruct (m w) as [w1 [a|e]]; [|by exists js].
  destruct (Hk a w1) as [js' Hjs']. exists (js ++ js'). by eapply completes_app.
Qed.

Hint Resolve still_ret still_lift still_raise still_get still_time still_bucket still_executor still_last_heartbeat
  still_keep_train still_keep_audit still_quiet : turns.

Lemma still_heartbeat force : still (MinerWorker_heartbeat clock cfg backend identity capabilities force).
Proof.
  apply still_bind; [auto with turns|intros now]. apply still_bind; [auto with turns|intros w].
  destruct (_ && _); [auto with turns|]. apply still_bind; [auto with turns|intros _]. apply still_bind; auto with turns.
Qed.

Lemma still_mark_skipped job_id reason : still (MinerWorker_mark_skipped clock cfg job_id reason).
Proof.
  apply still_try; [|auto with turns]. do 3 (apply still_bind; [auto with turns|intros ?]). auto with turns.
Qed.

Lemma still_skip {A} job_id reason : still (skip (A := A) clock cfg job_id reason).
Proof. apply still_bind; [apply still_mark_skipped|auto with turns]. Qed.

Lemma still_fetch : still (MinerWorker_fetch_train_queue_entries cfg).
Proof.
  apply still_bind; [auto with turns|intros w]. apply still_bind; [apply still_try; auto with turns|].
  intros [st|]; [|auto with turns]. apply still_bind; auto with turns.
Qed.

Lemma still_load_manifest entry : still (load_manifest clock cfg entry).
Proof.
  intros w. unfold load_manifest. pose proof (still_bucket (os_get_json (qe_manifest_uri entry)) w) as Hb.
  destruct (at_bucket (os_get_json (qe_manifest_uri entry)) w) as [w1 [payload|e]]; cbn [fst] in Hb.
  - destruct (d ← as_object payload; JobManifestV3_from_dict d) as [m|e]; [done|]. destruct (catchable e); [|done].
    apply (completes_app [] [] _ _ _ Hb), still_skip.
  - destruct e; try (cbn [catchable]; apply (completes_app [] [] _ _ _ Hb), still_skip); done.
Qed.

Lemma still_load_grant key missing validate : still (load_grant clock cfg decryptor key missing validate).
Proof.
  apply still_bind; [auto with turns|intros uri]. apply still_bind; [auto with turns|intros there].
  destruct (negb there); [auto with turns|]. do 5 (apply still_bind; [auto with turns|intros ?]). auto with turns.
Qed.

Lemma still_find_grant m role : still (find_grant clock cfg decryptor m role).
Proof.
  intros w. unfold find_grant.
  assert (still (if direct_mode cfg then mret None
    else if String.eqb role "audit" then g ← MinerWorker_load_audit_assignment_grant clock cfg decryptor m; mret (Some g)
    else g ← MinerWorker_load_assignment_grant clock cfg decryptor m; mret (Some g) : ST worker (option AssignmentGrantV3))) as Hl.
  { destruct (direct_mode cfg); [auto with turns|]. destruct (String.eqb role "audit");
      (apply still_bind; [apply still_load_grant|auto with turns]). }
  specialize (Hl w). match type of Hl with context [fst ?t] => destruct t as [w1 [g|e]] end; cbn [fst] in Hl; [done|].
  destruct e; try (cbn [catchable]; apply (completes_app [] [] _ _ _ Hl), still_skip); done.
Qed.

Lemma completes_mark job_id w : completes [job_id] w (fst (mark_completed writable job_id w)).
Proof. split_and!; try done. cbn. by rewrite (right_id_L ∅ (∪)). Qed.

Lemma quiet_mark job_id : quiet (mark_completed writable job_id).
Proof. intros w. exists [job_id]. apply completes_mark. Qed.

Lemma still_allS {A} (f : A -> ST worker bool) l : (forall x, still (f x)) -> still (allS f l).
Proof.
  intros Hf. induction l as [|x l IH]; cbn [allS]; [auto with turns|]. apply still_bind; [done|]. intros []; auto with turns.
Qed.

Lemma still_refs (b : bool) refs (d : bool) : still (if b then allS ref_exists refs else mret d).
Proof. destruct b; [|auto with turns]. apply still_allS. intros ref. apply still_bucket. Qed.

Hint Resolve still_skip still_refs quiet_mark : turns.

Lemma quiet_check m : quiet (check_manifest clock writable cfg m).
Proof.
  unfold check_manifest. destruct (negb _); [auto with turns|]. apply quiet_bind; [auto with turns|intros good].
  destruct (negb good); [auto with turns|]. apply quiet_bind; [auto with turns|intros []].
  - apply quiet_bind; auto with turns.
  - apply quiet_bind; [auto with turns|intros there]. destruct (negb there); [auto with turns|].
    apply quiet_bind; [destruct (String.eqb _ _); auto with turns|intros []; cbn; auto with turns].
Qed.

(** A still operation that returned. *)
Lemma still_Ok {A} (m : ST worker A) w w' r : still m -> m w = (w', r) -> completes [] w w'.
Proof. intros Hm E. specialize (Hm w). by rewrite E in Hm. Qed.

(** A manifest that passed every check. *)
Lemma check_manifest_Some m w w' : check_manifest clock writable cfg m w = (w', Ok (Some tt)) ->
  completes [] w w' /\ MinerWorker_eligible cfg m = true /\ MinerWorker_verify_manifest_signature cfg m = Ok true.
Proof.
  unfold check_manifest. intros Hc. destruct (MinerWorker_eligible cfg m); cbn [negb] in Hc.
  2:{ unfold skip in Hc. st_step Hc. discriminate Hc. }
  st_step Hc. destruct x; cbn [negb] in Hc. 2:{ unfold skip in Hc. st_step Hc. discriminate Hc. }
  st_step Hc. apply still_Ok in E0; [|auto with turns]. destruct x; [st_step Hc; discriminate Hc|].
  st_step Hc. apply still_Ok in E1; [|auto with turns]. destruct x; cbn [negb] in Hc; [|unfold skip in Hc; st_step Hc; discriminate Hc].
  st_step Hc. apply still_Ok in E2; [|destruct (String.eqb _ _); auto with turns].
  destruct x; cbn [negb] in Hc; [|unfold skip in Hc; st_step Hc; discriminate Hc]. injection Hc as <-.
  split; [|by rewrite E]. exact (completes_app [] [] _ _ _ (completes_app [] [] _ _ _ E0 E1) E2).
Qed.

Lemma completes_advance n w : completes [] w (advance n w).
Proof. by apply completes_same. Qed.

Lemma still_upload_audit m grants audit : still (upload_audit tput cfg m grants audit).
Proof.
  assert (still (rv ← st_lift (item (jm_params m) "receipt");
    receipt ← st_lift (d ← as_dict rv; JobReceiptV3_from_dict d);
    uri ← at_bucket (uri_of (audit_result_key (wc_netuid cfg) (wc_run_id cfg) (wc_hotkey_ss58 cfg) (jr_receipt_id receipt)));
    at_bucket (os_put_json uri (PDict (AuditResultV3_to_dict audit))) : ST worker unit)) as Hr.
  { do 3 (apply still_bind; [auto with turns|intros ?]). auto with turns. }
  unfold upload_audit. destruct (jm_outputs m) as [|ref refs]; [done|]. destruct grants as [gs|]; [|done].
  destruct (dict_get _ gs); [auto with turns|done].
Qed.

Lemma still_upload_receipt m grant r : still (upload_receipt tput cfg m grant r).
Proof.
  apply still_bind; [auto with turns|intros uri]. destruct grant as [g|]; [|auto with turns].
  destruct (ag_receipt_put g); auto with turns.
Qed.

Hint Resolve still_upload_audit still_upload_receipt : turns.

(** The end of a job that ran. *)
Lemma quiet_post (up : ST worker unit) m : still up ->
  quiet (_ ← up; _ ← mark_completed writable (jm_job_id m); mret (Some m)).
Proof. intros Hu. apply quiet_bind; [auto with turns|intros _]. apply quiet_bind; auto with turns. Qed.

Lemma quiet_run_job m grant : quiet (run_job tput clock writable cfg m grant).
Proof.
  intros w. unfold run_job. pose proof (still_executor (exec_execute m (default [] (grants_of grant))
    (fun i => clock (i + mw_readings w)%nat)) (advance 4 w)) as Hx.
  destruct (at_executor _ _) as [w1 [r|e]]; cbn [fst] in Hx; pose proof (completes_app [] [] _ _ _ (completes_advance 4 w) Hx) as Hw.
  - destruct (quiet_post (upload_receipt tput cfg m grant r) m (still_upload_receipt m grant r) w1) as [js Hjs].
    exists js. exact (completes_app [] js _ _ _ Hw Hjs).
  - destruct e; try (by exists []); exists []; apply (completes_app [] [] _ _ _ Hw), still_skip.
Qed.

Lemma quiet_audit m grants : quiet (MinerWorker_execute_audit_replay dp tget tput clock writable cfg signer m grants).
Proof.
  intros w. unfold MinerWorker_execute_audit_replay.
  match goal with |- context [at_bucket ?r _] => pose proof (still_bucket r (advance 3 w)) as Hx end.
  destruct (at_bucket _ _) as [w1 [r|e]]; cbn [fst] in Hx; pose proof (completes_app [] [] _ _ _ (completes_advance 3 w) Hx) as Hw.
  - destruct (quiet_post (upload_audit tput cfg m grants r) m (still_upload_audit m grants r) w1) as [js Hjs].
    exists js. exact (completes_app [] js _ _ _ Hw Hjs).
  - exists []. destruct (catchable e); [|done]. apply (completes_app [] [] _ _ _ Hw), still_skip.
Qed.

Lemma still_load entry : quiet (load_manifest clock cfg entry).
Proof. apply still_quiet, still_load_manifest. Qed.

Lemma quiet_entry entry role :
  quiet (MinerWorker_execute_queue_entry dp tget tput clock writable cfg signer decryptor entry role).
Proof.
  apply quiet_bind; [apply still_load|]. intros [m|]; [|auto with turns].
  apply quiet_bind; [apply quiet_check|]. intros [[]|]; [|auto with turns].
  apply quiet_bind; [apply still_quiet, still_find_grant|]. intros [grant|]; [|auto with turns].
  destruct (String.eqb role "audit"); [apply quiet_audit|apply quiet_run_job].
Qed.

Lemma quiet_entries role entries : quiet (try_entries dp tget tput clock writable cfg signer decryptor role entries).
Proof.
  induction entries as [|e entries IH]; cbn [try_entries]; [auto with turns|].
  apply quiet_bind; [auto with turns|intros w]. destruct (negb _); [done|].
  apply quiet_bind; [apply quiet_entry|]. intros [m|]; auto with turns.
Qed.

Lemma quiet_tick_audit : quiet (MinerWorker_tick_audit_jobs dp tget tput clock writable cfg signer decryptor).
Proof.
  apply quiet_bind; [auto with turns|intros w]. apply quiet_bind.
  { apply still_quiet, still_try; [apply still_bind; auto with turns|auto with turns]. }
  intros [[st|]|]; [|apply quiet_entries|auto with turns]. apply quiet_bind; [auto with turns|intros _; apply quiet_entries].
Qed.

Lemma quiet_work :
  quiet (tick_work dp tget tput clock writable cfg signer decryptor backend identity capabilities).
Proof.
  apply quiet_bind; [apply still_quiet, still_heartbeat|intros _]. apply quiet_bind; [apply still_quiet, still_fetch|intros entries].
  apply quiet_bind; [apply quiet_entries|]. intros [j|]; [auto with turns|].
  destruct (MinerWorker_is_audit_eligible cfg); [apply quiet_tick_audit|auto with turns].
Qed.

(** ** The jobs a turn runs *)

Context `{!ObjectStoreLaws S} `{!ExecutorLaws X S}.

Notation receipt_uri_at m s := (os_uri_for_key (s : S)
  (receipt_key (wc_netuid cfg) (wc_run_id cfg) (wc_hotkey_ss58 cfg) (jm_job_id m) (jm_attempt m))).

(** The grant a job ran under: none in direct mode, otherwise one that this
    hotkey opened and that is valid for the manifest. *)
Definition granted (role : string) (m : JobManifestV3) (grant : option AssignmentGrantV3) : Prop :=
  match grant with
  | None => direct_mode cfg = true
  | Some g => direct_mode cfg = false /\
      (exists encrypted, grant_decrypt decryptor encrypted (wc_hotkey_ss58 cfg) = Ok g) /\
      exists now, (if String.eqb role "audit" then validate_audit_grant cfg m g now
                   else MinerWorker_validate_assignment_grant cfg m g now) = Ok tt
  end.

(** Where the receipt of a job went. *)
Definition receipt_filed (m : JobManifestV3) (grant : option AssignmentGrantV3) (r : JobReceiptV3) (s : S) : Prop :=
  let bytes := canonical_json (PDict (JobReceiptV3_to_dict r)) in
  match grant with
  | None => os_get (receipt_uri_at m s) s = (s, Ok bytes)
  | Some g => exists put s1, ag_receipt_put g = Some put /\ tput (receipt_uri_at m s1) bytes (Some put) s1 = (s, Ok tt)
  end.

(** An entry that ran. *)
Record entry_ran (entry : QueueEntry) (role : string) (m : JobManifestV3) (w w' : worker) : Prop := {
  ran_manifest : exists v, snd (os_get_json (qe_manifest_uri entry) (mw_store w)) = Ok v /\
    (d ← as_object v; JobManifestV3_from_dict d) = Ok m;
  ran_eligible : MinerWorker_eligible cfg m = true;
  ran_signed : MinerWorker_verify_manifest_signature cfg m = Ok true;
  ran_completed : jm_job_id m ∈ mw_completed_jobs w';
  ran_grant : exists grant, granted role m grant /\
    (String.eqb role "audit" = false -> exists x x' t r,
       exec_execute m (default [] (grants_of grant)) t x = (x', Ok r) /\ receipt_filed m grant r (mw_store w'))
}.

Lemma at_bucket_Ok {A} (m : ST S A) (w w' : worker) r : at_bucket m w = (w', r) ->
  exists s, m (mw_store w) = (s, r) /\ mw_store w' = s.
Proof.
  unfold at_bucket. destruct (m (mw_store w)) as [s r'] eqn:E. intros [= <- <-]. exists s. split; [done|].
  apply exec_store_set.
Qed.

Lemma load_manifest_Some entry w w' m : load_manifest clock cfg entry w = (w', Ok (Some m)) ->
  exists v, snd (os_get_json (qe_manifest_uri entry) (mw_store w)) = Ok v /\ (d ← as_object v; JobManifestV3_from_dict d) = Ok m.
Proof.
  unfold load_manifest. unfold at_bucket. destruct (os_get_json _ (mw_store w)) as [s [v|e]].
  - destruct (d ← as_object v; JobManifestV3_from_dict d) as [m0|e] eqn:Em.
    + intros [= _ ->]. by exists v.
    + destruct (catchable e); [|done]. unfold skip. intros Hs. st_step Hs. discriminate Hs.
  - destruct e; cbn [catchable]; unfold skip; intros Hs; try (st_step Hs; discriminate Hs); discriminate Hs.
Qed.

Lemma load_grant_Some key missing validate w w' g :
  load_grant clock cfg decryptor key missing validate w = (w', Ok g) ->
  (exists encrypted, grant_decrypt decryptor encrypted (wc_hotkey_ss58 cfg) = Ok g) /\ exists now, validate g now = Ok tt.
Proof.
  unfold load_grant. intros Hl. st_step Hl. st_step Hl. destruct (negb _); [discriminate Hl|].
  st_step Hl. st_step Hl. st_step Hl. st_step Hl. st_step Hl. injection Hl as <- <-.
  split; [by eexists|]. destruct x5. by eexists.
Qed.

Lemma find_grant_Some m role w w' grant : find_grant clock cfg decryptor m role w = (w', Ok (Some grant)) ->
  granted role m grant.
Proof.
  unfold find_grant. destruct (direct_mode cfg) eqn:Ed.
  { intros [= _ <-]. exact Ed. }
  destruct (String.eqb role "audit") eqn:Er;
    match goal with |- context [(?load ≫= ?k) w] => destruct ((load ≫= k) w) as [w1 [g|e]] eqn:El end;
    try (destruct e; cbn [catchable]; unfold skip; intros Hs; try (st_step Hs; discriminate Hs); discriminate Hs);
    intros [= _ <-]; st_step El; injection El as _ <-; unfold granted; rewrite Ed, Er;
    apply load_grant_Some in E as [? ?]; done.
Qed.

Lemma post_Some (up : ST worker unit) m m' w w' :
  (_ ← up; _ ← mark_completed writable (jm_job_id m); mret (Some m)) w = (w', Ok (Some m')) ->
  m' = m /\ jm_job_id m ∈ mw_completed_jobs w' /\ exists w1, up w = (w1, Ok tt) /\ mw_executor w' = mw_executor w1.
Proof.
  intros Hp. st_step Hp. destruct x. st_step Hp. injection E0 as <-. injection Hp as <- <-. split; [done|].
  split; [cbn; set_solver|]. by exists s.
Qed.

Lemma upload_receipt_filed m grant r role w w' :
  granted role m grant -> String.eqb role "audit" = false -> upload_receipt tput cfg m grant r w = (w', Ok tt) ->
  receipt_filed m grant r (mw_store w').
Proof.
  intros Hg Hr. unfold upload_receipt. intros Hu. apply st_bind_Ok in Hu as (w1 & uri & E & Hu).
  apply at_bucket_Ok in E as (s1 & E & Es). injection E as <- <-. unfold receipt_filed. destruct grant as [g|].
  - destruct Hg as (_ & _ & now & Hv). rewrite Hr in Hv. unfold MinerWorker_validate_assignment_grant in Hv.
    destruct (ag_receipt_put g) as [put|]; [|by repeat (destruct (negb _) || destruct (_ <? _)%Z)].
    apply at_bucket_Ok in Hu as (s2 & Hp & ->). exists put, (mw_store w). by rewrite Es in Hp.
  - apply at_bucket_Ok in Hu as (s2 & Hp & ->). rewrite Es in Hp. pose proof (put_json_uri_for_key _ _ _ _ Hp) as Hk.
    rewrite Hk. rewrite put_json_put in Hp. by eapply put_get.
Qed.

Notation execute_entry := (MinerWorker_execute_queue_entry dp tget tput clock writable cfg signer decryptor).
Notation entries_loop := (try_entries dp tget tput clock writable cfg signer decryptor).
Notation work := (tick_work dp tget tput clock writable cfg signer decryptor backend identity capabilities).
Notation tick := (MinerWorker_tick dp tget tput clock writable cfg signer decryptor backend identity capabilities).

Lemma run_job_Some m m' grant role w w' :
  granted role m grant -> String.eqb role "audit" = false ->
  run_job tput clock writable cfg m grant w = (w', Ok (Some m')) ->
  m' = m /\ jm_job_id m ∈ mw_completed_jobs w' /\
  exists x x' t r, exec_execute m (default [] (grants_of grant)) t x = (x', Ok r) /\ receipt_filed m grant r (mw_store w').
Proof.
  intros Hg Hr. unfold run_job, at_executor.
  destruct (exec_execute m _ _ (mw_executor (advance 4 w))) as [x' [r|e]] eqn:Ex.
  - intros Hp. apply post_Some in Hp as (-> & Hc & w1 & Hu & He). split; [done|]. split; [done|].
    eexists _, _, _, r. split; [exact Ex|]. unfold mw_store. rewrite He. by eapply upload_receipt_filed.
  - destruct e; unfold skip; intros Hs; try discriminate Hs; st_step Hs; discriminate Hs.
Qed.

Lemma audit_Some m m' grants w w' :
  MinerWorker_execute_audit_replay dp tget tput clock writable cfg signer m grants w = (w', Ok (Some m')) ->
  m' = m /\ jm_job_id m ∈ mw_completed_jobs w'.
Proof.
  unfold MinerWorker_execute_audit_replay. destruct (at_bucket _ _) as [w1 [audit|e]].
  - intros Hp. by apply post_Some in Hp as (-> & Hc & _).
  - destruct (catchable e); [|done]. unfold skip. intros Hs. st_step Hs. discriminate Hs.
Qed.

(** Everything that was checked before an entry ran, and what it left. *)
Lemma execute_entry_ran entry role m w w' : execute_entry entry role w = (w', Ok (Some m)) -> entry_ran entry role m w w'.
Proof.
  unfold MinerWorker_execute_queue_entry. intros Hx. st_step Hx. destruct x as [m1|]; [|discriminate Hx].
  apply load_manifest_Some in E. st_step Hx. destruct x as [[]|]; [|discriminate Hx].
  apply check_manifest_Some in E0 as (_ & He & Hs). st_step Hx. destruct x as [grant|]; [|discriminate Hx].
  apply find_grant_Some in E0. destruct (String.eqb role "audit") eqn:Er.
  - apply audit_Some in Hx as [-> Hc]. split; try done. exists grant. split; [done|]. by rewrite Er.
  - apply (run_job_Some _ _ _ role) in Hx as (-> & Hc & Hr); [|done|done]. split; try done. by exists grant.
Qed.

Lemma entries_ran role entries : forall w w' e m, entries_loop role entries w = (w', Ok (Some (e, m))) ->
  e ∈ entries /\ exists w1 js, completes js w w1 /\ entry_for_me cfg (mw_completed_jobs w1) e = true /\
    execute_entry e role w1 = (w', Ok (Some m)).
Proof.
  induction entries as [|e0 entries IH]; intros w w' e m Ht; cbn [try_entries] in Ht; [discriminate Ht|].
  st_step Ht. injection E as <-. destruct (entry_for_me cfg (mw_completed_jobs w) e0) eqn:Em; cbn [negb] in Ht.
  2:{ apply IH in Ht as [Hin Hrest]. split; [by right|done]. }
  st_step Ht. destruct x as [m0|].
  - injection Ht as <- <- <-. split; [left|]. exists w, []. split; [apply completes_nil|done].
  - destruct (quiet_entry e0 role w) as [js Hjs]. rewrite E in Hjs. cbn [fst] in Hjs.
    apply IH in Ht as [Hin (w1 & js' & Hc & Hrest)]. split; [by right|]. exists w1, (js ++ js').
    split; [by eapply completes_app|done].
Qed.

(** A turn that did something ran one entry of a queue snapshot, after jobs it
    found done already. *)
Lemma work_ran w w' e m : work w = (w', Ok (Some (e, m))) ->
  exists role w1 js, (role = "train" \/ role = "audit" /\ MinerWorker_is_audit_eligible cfg = true) /\
    completes js w w1 /\ entry_for_me cfg (mw_completed_jobs w1) e = true /\ execute_entry e role w1 = (w', Ok (Some m)).
Proof.
  unfold tick_work. intros Ht. st_step Ht. destruct x. apply (still_Ok _ _ _ _ (still_heartbeat false)) in E.
  st_step Ht. apply (still_Ok _ _ _ _ still_fetch) in E0. pose proof (completes_app [] [] _ _ _ E E0) as Hc0.
  st_step Ht. destruct x0 as [j|].
  - injection Ht as <- ->. apply entries_ran in E1 as [_ (w1 & js & Hc & Hrest)]. exists "train", w1, js.
    split; [by left|]. split; [exact (completes_app [] js _ _ _ Hc0 Hc)|done].
  - destruct (MinerWorker_is_audit_eligible cfg) eqn:Ea; [|discriminate Ht].
    destruct (quiet_entries "train" (rev x) s0) as [js1 Hjs1]. rewrite E1 in Hjs1. cbn [fst] in Hjs1.
    pose proof (completes_app [] js1 _ _ _ Hc0 Hjs1) as Hc1. unfold MinerWorker_tick_audit_jobs in Ht.
    st_step Ht. injection E2 as <-. st_step Ht.
    apply still_Ok in E2; [|apply still_try; [apply still_bind; auto with turns|auto with turns]].
    pose proof (completes_app _ [] _ _ _ Hc1 E2) as Hc2. destruct x0 as [[st|]|]; [| |discriminate Ht].
    + apply st_bind_Ok in Ht as (w2 & [] & E3 & Ht). apply still_Ok in E3; [|auto with turns]. pose proof (completes_app _ [] _ _ _ Hc2 E3) as Hc3.
      apply entries_ran in Ht as [_ (w1 & js & Hc & Hrest)]. exists "audit", w1. eexists.
      split; [by right|]. split; [exact (completes_app _ js _ _ _ Hc3 Hc)|done].
    + apply entries_ran in Ht as [_ (w1 & js & Hc & Hrest)]. exists "audit", w1. eexists.
      split; [by right|]. split; [exact (completes_app _ js _ _ _ Hc2 Hc)|done].
Qed.

(** ** Turns *)

Lemma tick_cases w w' b : tick w = (w', Ok b) -> exists js,
  mw_completed_jobs w' = list_to_set js ∪ mw_completed_jobs w /\
  mw_cache_file w' = fold_left (append_completed_cache writable) js (mw_cache_file w) /\
  ((exists e m w1, work w = (w1, Ok (Some (e, m))) /\ mw_completed_jobs w' = mw_completed_jobs w1 /\
      mw_idle_iters w' = 0%Z /\ mw_stop_event w' = mw_stop_event w) \/
   (mw_idle_iters w' = (mw_idle_iters w + 1)%Z /\
    mw_stop_event w' = mw_stop_event w ||
      match wc_max_idle_iters cfg with Some limit => (limit <=? mw_idle_iters w + 1)%Z | None => false end)).
Proof.
  unfold MinerWorker_tick. intros Ht. st_step Ht. destruct (quiet_work w) as [js (C1 & C2 & C3 & C4)].
  rewrite E in C1, C2, C3, C4. cbn [fst] in *. exists js. destruct x as [[e m]|].
  - apply st_bind_Ok in Ht as (w2 & [] & E2 & Ht). injection E2 as <-. injection Ht as <- <-. cbn.
    split; [done|]. split; [done|]. left. by exists e, m, s.
  - unfold MinerWorker_idle in Ht. apply st_bind_Ok in Ht as (w2 & [] & E2 & Ht). injection Ht as <- <-.
    st_step E2. injection E0 as <-. apply st_bind_Ok in E2 as (w3 & [] & E3 & E2). injection E3 as <-.
    destruct (wc_max_idle_iters cfg) as [limit|].
    + rewrite C3 in E2. destruct (limit <=? mw_idle_iters w + 1)%Z; injection E2 as <-; cbn.
      * split; [done|]. split; [done|]. right. split; [done|]. by rewrite orb_true_r.
      * split; [done|]. split; [done|]. right. rewrite C4. split; [done|]. by rewrite orb_false_r.
    + injection E2 as <-. cbn. split; [done|]. split; [done|]. right. rewrite C3, C4, orb_false_r. done.
Qed.

Lemma work_new_job w w1 e m : work w = (w1, Ok (Some (e, m))) ->
  qe_job_id e ∉ mw_completed_jobs w /\ jm_job_id m ∈ mw_completed_jobs w1.
Proof.
  intros Hw. destruct (work_ran _ _ _ _ Hw) as (role & w2 & js & _ & (C1 & _) & Hme & Hx). split.
  - unfold entry_for_me in Hme. apply andb_true_iff in Hme as [[Hme _]%andb_true_iff _].
    apply negb_true_iff, bool_decide_eq_false in Hme. rewrite C1 in Hme. set_solver.
  - exact (ran_completed _ _ _ _ _ (execute_entry_ran _ _ _ _ _ Hx)).
Qed.

(** ** The loop ends *)

Section ends.
Context (env : nat -> S -> S) (w0 : worker) (J : gset string) (limit : Z).
Context (Hlimit : wc_max_idle_iters cfg = Some limit).
(** The entries offered name the job of their manifest, one of [J]. *)
Context (Hoffer : forall k w w' e m,
  visited dp tget tput clock writable cfg signer decryptor backend identity capabilities env w0 k w ->
  work w = (w', Ok (Some (e, m))) -> jm_job_id m = qe_job_id e /\ qe_job_id e ∈ J).

Definition turns_left (w : worker) : Z :=
  (Z.of_nat (size (J ∖ mw_completed_jobs w)) * Z.max 1 limit + (Z.max 1 limit - mw_idle_iters w))%Z.

(** Where the count of idle turns stands while the worker runs. *)
Definition idle_ok (w : worker) : Prop :=
  (0 <= mw_idle_iters w)%Z /\ (mw_stop_event w = false -> mw_idle_iters w < Z.max 1 limit)%Z.

Lemma turn_counts k w w' b :
  visited dp tget tput clock writable cfg signer decryptor backend identity capabilities env w0 k w ->
  idle_ok w -> mw_stop_event w = false -> tick w = (w', Ok b) ->
  idle_ok w' /\ (mw_stop_event w' = true \/ turns_left w' < turns_left w)%Z.
Proof.
  intros Hv [Hi1 Hi2] Hs Ht. specialize (Hi2 Hs). unfold idle_ok, turns_left.
  destruct (tick_cases _ _ _ Ht) as (js & C1 & _ & [(e & m & w1 & Hw & E1 & E2 & E3)|[E1 E2]]).
  - destruct (Hoffer _ _ _ _ _ Hv Hw) as [Hid HJ]. destruct (work_new_job _ _ _ _ Hw) as [Hnew Hdone].
    rewrite E2. split; [lia|]. right.
    assert (size (J ∖ mw_completed_jobs w') < size (J ∖ mw_completed_jobs w))%nat as Hlt.
    { apply subset_size. split; [set_solver|]. intros Hsub. rewrite Hid, <- E1 in Hdone. set_solver. }
    nia.
  - rewrite Hlimit, Hs in E2. cbn [orb] in E2. rewrite E1, E2.
    assert (size (J ∖ mw_completed_jobs w') <= size (J ∖ mw_completed_jobs w))%nat as Hle by (apply subseteq_size; set_solver).
    destruct (Z.leb_spec limit (mw_idle_iters w + 1)) as [Hl|Hl]; (split; [split; [lia|]; try done; lia|]); [by left|right; nia].
Qed.

Lemma loop_ends fuel : forall k w,
  visited dp tget tput clock writable cfg signer decryptor backend identity capabilities env w0 k w ->
  idle_ok w -> (mw_stop_event w = true \/ turns_left w < Z.of_nat fuel)%Z -> (0 < fuel)%nat ->
  snd (MinerWorker_loop dp tget tput clock writable cfg signer decryptor backend identity capabilities fuel k env w) <> Ok false.
Proof.
  induction fuel as [|fuel IH]; intros k w Hv Hi Hleft Hf; [lia|]. cbn [MinerWorker_loop].
  destruct (mw_stop_event w) eqn:Es; [done|]. destruct Hleft as [?|Hleft]; [done|].
  destruct (tick w) as [w' [b|e]] eqn:Et; [|done].
  destruct (turn_counts _ _ _ _ Hv Hi Es Et) as [Hi' Hdec].
  assert ((0 <= turns_left w')%Z \/ mw_stop_event w' = true) as Hpos.
  { destruct (mw_stop_event w') eqn:Es'; [by right|left]. destruct Hi' as [? Hlt]. specialize (Hlt Es'). unfold turns_left. nia. }
  apply (IH (1 + k)%nat (env_step (env k) w')).
  - by eapply visited_turn.
  - exact Hi'.
  - change (mw_stop_event (env_step (env k) w')) with (mw_stop_event w').
    change (turns_left (env_step (env k) w')) with (turns_left w').
    destruct Hdec as [?|?]; [by left|]. destruct Hpos as [?|?]; [right; lia|by left].
  - destruct fuel; [|lia]. exfalso. destruct Hi as [? Hlt]. specialize (Hlt Es).
    unfold turns_left in Hleft. nia.
Qed.
End ends.

Lemma visited_synced env w0 k w :
  writable = true ->
  visited dp tget tput clock writable cfg signer decryptor backend identity capabilities env w0 k w ->
  whole_lines (mw_cache_file w0) -> load_completed_cache (mw_cache_file w0) = Ok (mw_completed_jobs w0) ->
  (forall j, j ∈ mw_completed_jobs w -> plain_id j = true) ->
  whole_lines (mw_cache_file w) /\ load_completed_cache (mw_cache_file w) = Ok (mw_completed_jobs w).
Proof.
  intros Hwr Hv Hwhole Hload. induction Hv as [|k w w' b Hv IH Hs Ht]; intros Hplain; [done|].
  destruct (tick_cases _ _ _ Ht) as (js & C1 & C2 & _).
  change (mw_completed_jobs (env_step (env k) w')) with (mw_completed_jobs w') in *.
  change (mw_cache_file (env_step (env k) w')) with (mw_cache_file w'). rewrite C1 in Hplain |- *. rewrite C2, Hwr.
  apply appends_loaded.
  - apply IH. set_solver.
  - apply Forall_forall. intros j Hj. apply Hplain. set_solver.
  - apply IH. set_solver.
Qed.


(** What a turn from [w] would run names its job and is a job of [J]. *)
Definition offers_within (J : gset string) (w : worker) : Prop :=
  forall w' e m, work w = (w', Ok (Some (e, m))) -> jm_job_id m = qe_job_id e /\ qe_job_id e ∈ J.

(** C24. A worker with a limit on idle turns stops.  If the queues it sees over
    a run only ever offer jobs of a finite set, under entries that name the job of
    their manifest, then whatever other processes do to the bucket between turns,
    the loop ends within (number of jobs + 1) times the limit turns: it is told to
    stop, or an exception leaves it. *)
Theorem worker_stops env w0 (J : gset string) limit :
  wc_max_idle_iters cfg = Some limit -> mw_idle_iters w0 = 0%Z ->
  (forall k w, visited dp tget tput clock writable cfg signer decryptor backend identity capabilities env w0 k w ->
     offers_within J w) ->
  snd (MinerWorker_loop dp tget tput clock writable cfg signer decryptor backend identity capabilities
         ((size J + 1) * Z.to_nat (Z.max 1 limit) + 1) 0 env w0) <> Ok false.
Proof.
  intros Hl Hi Ho. apply (loop_ends env w0 J limit Hl (fun k w w' e m Hv => Ho k w Hv w' e m)).
  - constructor.
  - split; lia.
  - right. unfold turns_left. rewrite Hi. assert (size (J ∖ mw_completed_jobs w0) <= size J)%nat by (apply subseteq_size; set_solver).
    nia.
  - lia.
Qed.

(** Completed jobs survive a restart.  As long as the file can be written
    and job identifiers are plain one-line texts, after any number of turns, with
    any interference of other processes, reading the file of completed jobs back
    gives exactly the jobs the worker holds as completed, so that a worker started
    from it skips precisely those. *)
Theorem completed_jobs_survive_restart env w0 k w probe x :
  writable = true -> whole_lines (mw_cache_file w0) ->
  load_completed_cache (mw_cache_file w0) = Ok (mw_completed_jobs w0) ->
  visited dp tget tput clock writable cfg signer decryptor backend identity capabilities env w0 k w ->
  (forall j, j ∈ mw_completed_jobs w -> plain_id j = true) ->
  load_completed_cache (mw_cache_file w) = Ok (mw_completed_jobs w) /\
  mw_completed_jobs (fst (MinerWorker_init clock cfg backend identity capabilities probe x (mw_cache_file w)))
    = mw_completed_jobs w.
Proof.
  intros Hwr Hwhole Hload Hv Hplain. destruct (visited_synced _ _ _ _ Hwr Hv Hwhole Hload Hplain) as [_ Hl].
  split; [done|]. unfold MinerWorker_init. rewrite Hl. set (w1 := new_worker x _ _).
  assert (still (_ ← st_lift (mapR (fun d => if String.eqb d "cpu" then Ok tt else probe d) (device_group cfg));
    MinerWorker_heartbeat clock cfg backend identity capabilities true)) as Hs.
  { apply still_bind; [auto with turns|intros _; apply still_heartbeat]. }
  destruct (Hs w1) as (C1 & _). rewrite C1. cbn [list_to_set]. by rewrite (left_id_L ∅ (∪)).
Qed.
End turns.

(** A signature that is not ASCII is not a skip: the comparison raises and the
    exception leaves the turn. *)
Lemma nonascii_signature_raises {X S} `{ObjectStore S} `{Executor X S} `{SigLib} `{ExnText} clock writable cfg m sig
    (w : MinerWorker X) :
  MinerWorker_eligible cfg m = true -> wc_owner_secret cfg <> "skip" -> jm_owner_signature m = Some sig ->
  str_forallb is_ascii sig = false ->
  (forall identity, verify_hotkey_payload (canonical_json (PDict (JobManifestV3_unsigned_dict m))) identity sig = Ok false) ->
  exists msg, check_manifest clock writable cfg m w = (w, Err (TypeError msg)).
Proof.
  intros He Hs Hsig Hna Hv. unfold check_manifest. rewrite He. cbn [negb]. cbv [mbind st_bind]. unfold st_lift.
  unfold MinerWorker_verify_manifest_signature. apply String.eqb_neq in Hs as ->. rewrite Hsig. unfold given.
  destruct (String.eqb_spec sig "") as [->|_]; [done|]. unfold verify_identity_dict, verify_identity_payload. rewrite Hv.
  cbn [mbind result_bind]. rewrite verify_payload_spec, Hna. by eexists.
Qed.

(** ** An example *)

(** One job in the queue, one turn to run it, one idle turn. *)
#[local] Existing Instances byte_torch byte_kernels byte_faults byte_replayers no_signatures plain_texts.

Definition worker_cfg : WorkerConfig :=
  mkWorkerConfig 3 "run" "hk1" "w0" "cpu" [] "hk1" fone "" fone "dev" "direct" "grant" "dev" "" "" "" "bucket" (Some 1%Z) []
    "owner" "".

Definition worker_signer : Signer := hmac_signer (mkHmacSigner "hk1" "hk1").

#[local] Instance worker_executor : Executor (JobExecutor LocalBucket) LocalBucket :=
  job_executor no_provider DirectArtifactTransport_get DirectArtifactTransport_put "cpu" "dev" None 8 8
    honest_worker "hk1" worker_signer "" fone.

Definition worker_bucket : LocalBucket :=
  fold_left apply_op
    [OpPutJson "s3://bk/m.json" (PDict (JobManifestV3_to_dict audit_manifest));
     OpPutJson "s3://bk/v3/netuid=3/jobs/run/queue.json" (PDict (QueueState_to_payload
       (mkQueueState "train" 0 1 [QueueEntry_from_manifest audit_manifest "s3://bk/m.json" None] None 1)))]
    honest_bucket.

Definition sample_turn : ST (MinerWorker (JobExecutor LocalBucket)) bool :=
  MinerWorker_tick no_provider DirectArtifactTransport_get DirectArtifactTransport_put (fun _ => fone) true worker_cfg
    worker_signer (dev_decryptor (DevAssignmentCrypto_init "grant")) (mkBackend 3 "run" "train" None) honest_worker [].

Definition worker_start : MinerWorker (JobExecutor LocalBucket) :=
  new_worker (JobExecutor_init worker_bucket) ∅ None.

Lemma sample_turn_runs : snd (sample_turn worker_start) = Ok true.
Proof. vm_compute. reflexivity. Qed.


(** The bucket is left alone between the turns. *)
Definition quiet_env (_ : nat) (s : LocalBucket) : LocalBucket := s.

Definition worker_second : MinerWorker (JobExecutor LocalBucket) := env_step id (fst (sample_turn worker_start)).
Definition worker_third : MinerWorker (JobExecutor LocalBucket) := env_step id (fst (sample_turn worker_second)).

Notation sample_visited := (visited no_provider DirectArtifactTransport_get DirectArtifactTransport_put (fun _ => fone) true
  worker_cfg worker_signer (dev_decryptor (DevAssignmentCrypto_init "grant")) (mkBackend 3 "run" "train" None) honest_worker []
  quiet_env worker_start).
Notation sample_work := (tick_work no_provider DirectArtifactTransport_get DirectArtifactTransport_put (fun _ => fone) true
  worker_cfg worker_signer (dev_decryptor (DevAssignmentCrypto_init "grant")) (mkBackend 3 "run" "train" None) honest_worker []).

Lemma sample_third_stopped : mw_stop_event worker_third = true.
Proof. vm_compute. reflexivity. Qed.

Lemma sample_states k w : sample_visited k w -> w = worker_start \/ w = worker_second \/ w = worker_third.
Proof.
  induction 1 as [|k w w' b _ IH Hs Ht]; [by left|]. destruct IH as [->|[->| ->]].
  - right. left. unfold worker_second. change (MinerWorker_tick _ _ _ _ _ _ _ _ _ _ _ worker_start) with (sample_turn worker_start) in Ht.
    by rewrite Ht.
  - right. right. unfold worker_third. change (MinerWorker_tick _ _ _ _ _ _ _ _ _ _ _ worker_second) with (sample_turn worker_second) in Ht.
    by rewrite Ht.
  - rewrite sample_third_stopped in Hs. discriminate Hs.
Qed.

Definition offers_job_1 (w : MinerWorker (JobExecutor LocalBucket)) : bool :=
  match snd (sample_work w) with
  | Ok (Some (e, m)) => String.eqb (jm_job_id m) "job-1" && String.eqb (qe_job_id e) "job-1"
  | _ => true
  end.

Lemma sample_offers : forallb offers_job_1 [worker_start; worker_second; worker_third] = true.
Proof. vm_compute. reflexivity. Qed.

Lemma worker_stops_witness :
  snd (MinerWorker_loop no_provider DirectArtifactTransport_get DirectArtifactTransport_put (fun _ => fone) true worker_cfg
    worker_signer (dev_decryptor (DevAssignmentCrypto_init "grant")) (mkBackend 3 "run" "train" None) honest_worker []
    ((size ({[ "job-1" ]} : gset string) + 1) * Z.to_nat (Z.max 1 1) + 1) 0 quiet_env worker_start) <> Ok false.
Proof.
  apply (worker_stops (X := JobExecutor LocalBucket) (S := LocalBucket) (TT := byte_torch) no_provider
    DirectArtifactTransport_get DirectArtifactTransport_put (fun _ => fone) true worker_cfg worker_signer
    (dev_decryptor (DevAssignmentCrypto_init "grant")) (mkBackend 3 "run" "train" None) honest_worker []
    quiet_env worker_start {[ "job-1" ]} 1).
  - reflexivity.
  - reflexivity.
  - intros k w Hv w' e m Hw. pose proof sample_offers as Ho. cbn [forallb] in Ho.
    apply andb_true_iff in Ho as [O1 [O2 [O3 _]%andb_true_iff]%andb_true_iff].
    assert (offers_job_1 w = true) as O by (destruct (sample_states k w Hv) as [->|[->| ->]]; assumption).
    unfold offers_job_1 in O. rewrite Hw in O. cbn [snd] in O. apply andb_true_iff in O as [Om Oe].
    apply String.eqb_eq in Om, Oe. rewrite Om, Oe. split; [reflexivity|]. apply elem_of_singleton. reflexivity.
Defined.

Lemma completed_jobs_survive_restart_witness :
  load_completed_cache (mw_cache_file worker_third) = Ok {[ "job-1" ]}.
Proof.
  assert (mw_completed_jobs worker_third = {[ "job-1" ]}) as E by (vm_compute; reflexivity). rewrite <- E.
  apply (completed_jobs_survive_restart (X := JobExecutor LocalBucket) (S := LocalBucket) (TT := byte_torch) no_provider
    DirectArtifactTransport_get DirectArtifactTransport_put (fun _ => fone) true worker_cfg worker_signer
    (dev_decryptor (DevAssignmentCrypto_init "grant")) (mkBackend 3 "run" "train" None) honest_worker []
    quiet_env worker_start 2 worker_third (fun _ => Ok tt) (JobExecutor_init worker_bucket)).
  - reflexivity.
  - exact I.
  - reflexivity.
  - destruct (sample_turn worker_start) as [w1 [b1|e1]] eqn:E1; [|pose proof sample_turn_runs as H; rewrite E1 in H; discriminate H].
    destruct (sample_turn worker_second) as [w2 [b2|e2]] eqn:E2.
    2:{ assert (is_ok (snd (sample_turn worker_second)) = true) as H by (vm_compute; reflexivity). rewrite E2 in H. discriminate H. }
    replace worker_third with (env_step (quiet_env 1) w2) by (unfold worker_third; rewrite E2; reflexivity).
    apply (visited_turn _ _ _ _ _ _ _ _ _ _ _ quiet_env worker_start 1 worker_second w2 b2); [|vm_compute; reflexivity|exact E2].
    replace worker_second with (env_step (quiet_env 0) w1) by (unfold worker_second; rewrite E1; reflexivity).
    apply (visited_turn _ _ _ _ _ _ _ _ _ _ _ quiet_env worker_start 0 worker_start w1 b1); [constructor|reflexivity|exact E1].
  - rewrite E. intros j ->%elem_of_singleton. reflexivity.
Defined.
