(* ===== verification/Distributed.v ===== *)
(** * The executor of a group of devices ([teuton_runtime/distributed_executor.py])

    One worker may own several devices of a host.  Its executor runs the jobs
    that ask for the tensor-parallel runner on all of them and every other job on
    the first; [mp.spawn] and its result queue are the group of [TensorParallel].
    For the worker it is an executor like any other: [group_executor] with its
    laws.  The neuron of a miner ([teuton_miner/neuron.py]) starts one worker for
    a group, or one for each device. *)

From Stdlib Require Import ZArith Lia Ascii.
From stdpp Require Import base strings list.
From S2P Require Import Prelude PyFloat PyVal Json Digest Signatures Codec Protocol ProtocolFacts.
From S2P Require Import Storage Transport Crypto WalletCrypto Ir Tensors TensorParallel Eval AuditReplay Executor HonestJob Worker.

(** [k in v] for a value that may be anything JSON carries. *)
Definition contains_key (k : string) (v : pyval) : result bool :=
  match v with
  | PDict d => Ok (dict_mem k d)
  | PList l => Ok (existsb (is_text k) l)
  | PStr s => Ok (str_contains k s)
  | _ => Err (TypeError "argument is not iterable")
  end.

Section distributed.
Context {S : Type} `{ObjectStore S} `{TT : Torch} `{!TensorOps tensor} `{!Kernels} `{!FaultLib} `{SigLib}.
Context (default_provider : result TimelockProvider).
Context (transport_get : string -> option PresignedUrlGrant -> ST S string).
Context (transport_put : string -> string -> option PresignedUrlGrant -> ST S unit).
(** The executor's settings. *)
Context (devices : list string) (encryption_secret : string) (timelock_provider : option TimelockProvider).
Context (input_max output_max : Z).
(** [torch.cuda.is_available()], and what [mp.spawn] raises when a rank raised. *)
Context (cuda_available : bool) (rank_failed : exn -> exn).

(** It keeps what its executor of one device keeps. *)
Definition DistributedJobExecutor_init (s : S) : result (JobExecutor S) :=
  match devices with
  | [] => Err (ValueError "DistributedJobExecutor requires at least one device")
  | _ => Ok (JobExecutor_init s)
  end.

Definition DistributedJobExecutor_world_size : nat := length devices.

Definition group_tag : string := "gpt_tensor_parallel_v1".

(** *** Inputs *)

(** The tensor of a manifest of shards; whatever goes wrong, the object is read
    as an envelope instead. *)
Definition sharded_input (grants : dict PresignedUrlGrant) (uri body : string) : ST S (option tensor) :=
  if endswith ".json" uri then
    st_try
      (text ← st_lift (utf8_decode body);
       header ← st_lift (json_loads text);
       has_shards ← st_lift (contains_key "shards" header);
       sharded ← st_lift (if (has_shards : bool) then contains_key "world_size" header else Ok false);
       if (sharded : bool) then t ← read_sharded_tensor transport_get grants uri; mret (Some (t_cpu t)) else mret None)
      (fun _ => mret None)
  else mret None.

Definition read_input (grants : dict PresignedUrlGrant) (ref : ArtifactRef) : ST S tensor :=
  body ← transport_get (ar_uri ref) (dict_get (ar_uri ref) grants);
  found ← sharded_input grants (ar_uri ref) body;
  match found with
  | Some t => mret t
  | None =>
      plain ← st_lift (decode_envelope default_provider body (ar_crypto ref)
                         (Some (hmac_verifier (mkHmacSigner "miner-dev-secret" "dev-hmac"))) encryption_secret timelock_provider);
      t ← st_lift (decode_tensor plain);
      mret (t_cpu t)
  end.

Fixpoint DistributedJobExecutor_load_inputs (grants : dict PresignedUrlGrant) (refs : list ArtifactRef) (inputs : dict tensor)
    : ST S (dict tensor) :=
  match refs with
  | [] => mret inputs
  | ref :: refs' =>
      t ← read_input grants ref;
      DistributedJobExecutor_load_inputs grants refs' (dict_set (ar_name ref) t inputs)
  end.

(** *** The group *)

(** Spawn the ranks and take what rank 0 puts on the queue. *)
Definition spawn_ranks (inputs : dict tensor) (params : dict pyval) : result (dict tensor) :=
  match rank_entry DistributedJobExecutor_world_size inputs params with
  | Ok outputs => Ok (dict_map t_cpu outputs)
  | Err e => Err (rank_failed e)
  end.

(** *** Outputs *)

Definition shard_sizes (m : ShardedTensorManifest) : Z := foldr (fun s n => default 0 (sh_size_bytes s) + n)%Z 0%Z (stm_shards m).

(** An output split over the ranks: its manifest and shards are written now. *)
Definition put_sharded_output (grants : dict PresignedUrlGrant) (ref : ArtifactRef) (t : tensor) (cfg : dict pyval) : ST S ArtifactDigest :=
  if bool_decide (ar_crypto ref = None) then
    n ← st_lift (py_int (get_or cfg "world_size" (PInt (Z.of_nat DistributedJobExecutor_world_size))));
    dim ← st_lift (py_int (get_or cfg "partition_dim" (PInt 0)));
    sharded ← put_sharded_tensor transport_put grants (ar_uri ref) t (ar_name ref) n dim;
    let body := encode_manifest sharded in
    mret (mkDigest (ar_name ref) (ar_uri ref) (sha256_hexdigest body) (str_len body + shard_sizes sharded)
            None None None None (CryptoMode_value NONE) (Some sharded))
  else st_raise (ValueError "sharded output artifacts do not yet support crypto envelopes").

(** An output in one piece: what is to be uploaded. *)
Definition seal_whole (signer : Signer) (ref : ArtifactRef) (t : tensor) : result (string * ArtifactDigest) :=
  body ← JobExecutor_encode_output (OutTensor t) (endswith ".json" (ar_uri ref));
  body ← encode_envelope default_provider body (ar_crypto ref) (Some signer) encryption_secret timelock_provider;
  digest ← JobExecutor_digest_body (ar_name ref) (ar_uri ref) body (ar_crypto ref);
  Ok (body, digest).

(** The loop over the outputs: the uploads left to do, and the digests. *)
Fixpoint group_outputs (signer : Signer) (grants : dict PresignedUrlGrant) (sharding : dict pyval) (outputs : dict tensor)
    (refs : list ArtifactRef) : ST S (list (string * string) * list ArtifactDigest) :=
  match refs with
  | [] => mret ([], [])
  | ref :: refs' =>
      t ← st_lift (of_option (KeyError ("distributed runner did not produce output " +:+ repr_str (ar_name ref)))
                     (dict_get (ar_name ref) outputs));
      let cfg := get sharding (ar_name ref) in
      if truthy cfg then
        cfg ← st_lift (match cfg with PDict d => Ok d | _ => Err (AttributeError "object has no attribute 'get'") end);
        d ← put_sharded_output grants ref t cfg;
        rest ← group_outputs signer grants sharding outputs refs';
        mret (rest.1, d :: rest.2)
      else
        sealed ← st_lift (seal_whole signer ref t);
        rest ← group_outputs signer grants sharding outputs refs';
        mret ((ar_uri ref, sealed.1) :: rest.1, sealed.2 :: rest.2)
  end.

Fixpoint group_input_digests (grants : dict PresignedUrlGrant) (refs : list ArtifactRef) : ST S (list ArtifactDigest) :=
  match refs with
  | [] => mret []
  | ref :: refs' =>
      body ← transport_get (ar_uri ref) (dict_get (ar_uri ref) grants);
      d ← st_lift (JobExecutor_digest_body (ar_name ref) (ar_uri ref) body (ar_crypto ref));
      rest ← group_input_digests grants refs';
      mret (d :: rest)
  end.

Definition with_execution (r : JobReceiptV3) (execution : dict pyval) : JobReceiptV3 :=
  mkReceipt (jr_receipt_id r) (jr_manifest_hash r) (jr_job_id r) (jr_run_id r) (jr_step_id r) (jr_kind r) (jr_worker r)
    (jr_input_digests r) (jr_output_digests r) (jr_started_unix r) (jr_finished_unix r) (jr_compute_sec r)
    (jr_claimed_bytes_read r) (jr_claimed_bytes_written r) execution (jr_miner_signature r) (jr_schema_version r).

Definition device_list : pyval := PList (map PStr devices).

Definition group_execution (params : dict pyval) : dict pyval :=
  [("mode", PStr group_tag); ("world_size", PInt (Z.of_nat DistributedJobExecutor_world_size)); ("device_group", device_list);
   ("rank_backend", PStr "nccl");
   ("sharding_plan_hash", PStr (sha256_hexdigest (dumps_spaced (canon (get_or params "parallelism" (PDict []))))))].

Definition DistributedJobExecutor_execute_gpt_tensor_parallel (manifest : JobManifestV3) (worker : WorkerIdentity) (miner_secret : string)
    (miner_signer : option Signer) (grants : dict PresignedUrlGrant) (clock : nat -> float) : ST S JobReceiptV3 :=
  if negb (forallb (String.prefix "cuda") devices) then st_raise (ValueError "gpt_tensor_parallel_v1 requires CUDA devices")
  else if negb cuda_available then st_raise (ValueError "CUDA is not available")
  else
    _ ← os_get (gr_uri (jm_graph_ref manifest));
    inputs ← DistributedJobExecutor_load_inputs grants (jm_inputs manifest) [];
    outputs ← st_lift (spawn_ranks inputs (jm_params manifest));
    let signer := artifact_signer miner_signer miner_secret worker in
    sharding ← st_lift (dict_or_empty (get (jm_params manifest) "output_sharding"));
    put ← group_outputs signer grants sharding outputs (jm_outputs manifest);
    _ ← pool_map (fun e : string * string => transport_put e.1 e.2 (dict_get e.1 grants)) put.1;
    ins ← group_input_digests grants (jm_inputs manifest);
    st_lift (JobReceiptV3_sign
      (with_execution (new_receipt manifest worker ins put.2 (clock 0%nat) (clock 1%nat) (clock 2%nat) (clock 3%nat))
         (group_execution (jm_params manifest)))
      (BySigner signer)).

(** *** One job *)

Definition asks_for_group (manifest : JobManifestV3) : bool :=
  is_text group_tag (por (get (jm_params manifest) "distributed_runner") (get (jm_params manifest) "runner")).

Definition fallback_execution (execution : dict pyval) : dict pyval :=
  dict_update execution
    [("mode", PStr "distributed_fallback_single_rank"); ("world_size", PInt (Z.of_nat DistributedJobExecutor_world_size));
     ("device_group", device_list); ("reason", PStr "manifest did not request gpt_tensor_parallel_v1")].

(** [miner_signer or miner_secret]. *)
Definition signer_or (miner_signer : option Signer) (miner_secret : string) : signer_or_secret :=
  match miner_signer with Some s => BySigner s | None => BySecret miner_secret end.

Definition DistributedJobExecutor_execute (manifest : JobManifestV3) (worker : WorkerIdentity) (miner_secret : string)
    (miner_signer : option Signer) (fault_mode : string) (fault_rate : float) (grants : dict PresignedUrlGrant)
    (clock : nat -> float) : ST (JobExecutor S) JobReceiptV3 :=
  if (DistributedJobExecutor_world_size <=? 1)%nat || negb (asks_for_group manifest) then
    receipt ← JobExecutor_execute default_provider transport_get transport_put (default "" (head devices)) encryption_secret
      timelock_provider input_max output_max manifest worker miner_secret miner_signer fault_mode fault_rate grants clock;
    if (1 <? DistributedJobExecutor_world_size)%nat then
      st_lift (JobReceiptV3_sign (with_execution receipt (fallback_execution (jr_execution receipt))) (signer_or miner_signer miner_secret))
    else mret receipt
  else in_bucket (DistributedJobExecutor_execute_gpt_tensor_parallel manifest worker miner_secret miner_signer grants clock).
End distributed.

(** ** The receipt of a group *)

(** The receipt is for this manifest by this worker, and signed as it stands. *)
Definition receipt_for `{SigLib} (m : JobManifestV3) (worker : WorkerIdentity) (signer : Signer) (r : JobReceiptV3) : Prop :=
  jr_manifest_hash r = JobManifestV3_manifest_hash m /\ jr_job_id r = jm_job_id m /\ jr_run_id r = jm_run_id m /\ jr_worker r = worker /\
  exists sig, jr_miner_signature r = Some sig /\ signer_sign signer (canonical_json (PDict (JobReceiptV3_unsigned_dict r))) = Ok sig.

(** One digest for every output, in order. *)
Definition digests_follow (refs : list ArtifactRef) (ds : list ArtifactDigest) : Prop :=
  Forall2 (fun ref d => ad_name d = ar_name ref /\ ad_uri d = ar_uri ref) refs ds.

Section facts.
Context {S : Type} `{ObjectStore S} `{TT : Torch} `{!TensorOps tensor} `{!Kernels} `{!FaultLib} `{SigLib}.
Context (dp : result TimelockProvider).
Context (tget : string -> option PresignedUrlGrant -> ST S string).
Context (tput : string -> string -> option PresignedUrlGrant -> ST S unit).
Context (devices : list string) (secret : string) (tp : option TimelockProvider).
Context (input_max output_max : Z) (cuda : bool) (rank_failed : exn -> exn).

Lemma digest_named name uri body policy d : JobExecutor_digest_body name uri body policy = Ok d -> ad_name d = name /\ ad_uri d = uri.
Proof.
  intros (data & _ & Hd)%bind_Ok. unfold digest_of_data in Hd.
  repeat (apply bind_Ok in Hd as (? & _ & Hd)). by injection Hd as <-.
Qed.

(** An output is sharded when the manifest says so; its digest is that of the
    bytes at its address. *)
Lemma group_outputs_follow signer grants sharding outputs refs : forall (s s' : S) jobs ds,
  group_outputs dp tput devices secret tp signer grants sharding outputs refs s = (s', Ok (jobs, ds)) -> digests_follow refs ds.
Proof.
  induction refs as [|ref refs IH]; intros s s' jobs ds E; cbn [group_outputs] in E; [injection E as <- <- <-; constructor|].
  st_step E. destruct (truthy _).
  - do 3 st_step E. injection E as <- <- <-. destruct x2 as [jobs' ds']. constructor; [|by eapply IH].
    unfold put_sharded_output in E2. destruct (bool_decide _); [|done]. do 3 st_step E2. by injection E2 as <- <-.
  - do 2 st_step E. injection E as <- <- <-. destruct x1 as [jobs' ds']. constructor; [|by eapply IH].
    unfold seal_whole in E1. apply bind_Ok in E1 as (b & _ & (b' & _ & (d & Hd & [= <-])%bind_Ok)%bind_Ok).
    by eapply digest_named.
Qed.

Lemma signed_receipt (r : JobReceiptV3) (who : signer_or_secret) m worker signer (r' : JobReceiptV3) :
  (forall v, record_signature v who = signer_sign signer (canonical_json (PDict v))) ->
  jr_manifest_hash r = JobManifestV3_manifest_hash m -> jr_job_id r = jm_job_id m -> jr_run_id r = jm_run_id m -> jr_worker r = worker ->
  JobReceiptV3_sign r who = Ok r' ->
  receipt_for m worker signer r' /\ jr_output_digests r' = jr_output_digests r /\ jr_execution r' = jr_execution r.
Proof.
  intros Hw E1 E2 E3 E4 (sig & Hs & [= <-])%bind_Ok. split; [|done]. split_and!; try done. exists sig. split; [done|]. by rewrite <- Hw.
Qed.

Lemma signer_or_signs msigner msecret worker v :
  record_signature v (signer_or msigner msecret) = signer_sign (artifact_signer msigner msecret worker) (canonical_json (PDict v)).
Proof. by destruct msigner. Qed.

Lemma single_receipt device m worker msecret msigner mode rate grants clock (je je' : JobExecutor S) r :
  JobExecutor_execute dp tget tput device secret tp input_max output_max m worker msecret msigner mode rate grants clock je = (je', Ok r) ->
  receipt_for m worker (artifact_signer msigner msecret worker) r /\ digests_follow (jm_outputs m) (jr_output_digests r).
Proof.
  intros Hx. unfold JobExecutor_execute in Hx. do 7 st_step Hx. apply st_lift_Ok in Hx as [_ Hx].
  apply new_receipt_signed in Hx as (_ & Ho & R1 & R2 & R3 & R4 & R5). split; [by split_and!|]. rewrite Ho.
  apply mapR_Forall2 in E2. clear -E2. induction E2 as [|ref x refs sealed Hs _ IH]; [constructor|]. constructor; [|done].
  unfold seal_output in Hs. apply bind_Ok in Hs as (t & _ & (b & _ & (b' & _ & (d & Hd & [= <-])%bind_Ok)%bind_Ok)%bind_Ok).
  by eapply digest_named.
Qed.

(** What a receipt of the group says about how the job was run. *)
Definition ran_as (m : JobManifestV3) (r : JobReceiptV3) : Prop :=
  if (DistributedJobExecutor_world_size devices <=? 1)%nat then True
  else if asks_for_group m then
    jr_execution r = group_execution devices (jm_params m) /\
    exists inputs outs, rank_outputs (DistributedJobExecutor_world_size devices) inputs (jm_params m) = Ok outs
  else dict_get "mode" (jr_execution r) = Some (PStr "distributed_fallback_single_rank").

Lemma fallback_mode execution :
  dict_get "mode" (fallback_execution devices execution) = Some (PStr "distributed_fallback_single_rank").
Proof. unfold fallback_execution, dict_update. cbn [fold_left fst snd]. by rewrite !dict_get_set. Qed.

Lemma spawned inputs params outs : spawn_ranks devices rank_failed inputs params = Ok outs ->
  exists all, rank_outputs (DistributedJobExecutor_world_size devices) inputs params = Ok all.
Proof.
  unfold spawn_ranks, rank_entry. destruct (rank_outputs _ inputs params) as [all|e]; [by exists all|done].
Qed.

Lemma group_receipt m worker msecret msigner grants clock (s s' : S) r :
  DistributedJobExecutor_execute_gpt_tensor_parallel dp tget tput devices secret tp cuda rank_failed m worker msecret msigner grants clock s
    = (s', Ok r) ->
  receipt_for m worker (artifact_signer msigner msecret worker) r /\ digests_follow (jm_outputs m) (jr_output_digests r) /\
  jr_execution r = group_execution devices (jm_params m) /\
  exists inputs outs, rank_outputs (DistributedJobExecutor_world_size devices) inputs (jm_params m) = Ok outs.
Proof.
  intros Hx. unfold DistributedJobExecutor_execute_gpt_tensor_parallel in Hx. destruct (negb (forallb _ _)); [done|].
  destruct (negb cuda); [done|]. do 7 st_step Hx. apply st_lift_Ok in Hx as [_ Hx].
  destruct x3 as [jobs ds]. apply group_outputs_follow in E3.
  apply (signed_receipt _ _ m worker (artifact_signer msigner msecret worker)) in Hx as (Hf & Ho & He); try done.
  split; [done|]. rewrite Ho, He. split_and!; [done|done|]. exists x0. by apply spawned in E1.
Qed.
Lemma execute_sound m worker msecret msigner mode rate grants clock (je je' : JobExecutor S) r :
  DistributedJobExecutor_execute dp tget tput devices secret tp input_max output_max cuda rank_failed
    m worker msecret msigner mode rate grants clock je = (je', Ok r) ->
  receipt_for m worker (artifact_signer msigner msecret worker) r /\ digests_follow (jm_outputs m) (jr_output_digests r) /\ ran_as m r.
Proof.
  intros Hx. unfold DistributedJobExecutor_execute in Hx. unfold ran_as.
  destruct (Nat.leb_spec (DistributedJobExecutor_world_size devices) 1) as [Hle|Hgt]; cbn [orb] in Hx.
  - st_step Hx. rewrite (proj2 (Nat.ltb_ge _ _)) in Hx by done. injection Hx as -> ->.
    apply single_receipt in E as [Hf Ho]. done.
  - destruct (asks_for_group m); cbn [negb] in Hx.
    + unfold in_bucket in Hx. destruct (DistributedJobExecutor_execute_gpt_tensor_parallel _ _ _ _ _ _ _ _ _ _ _ _ _ _ (je_store je)) as [s' o] eqn:E.
      injection Hx as <- ->. apply group_receipt in E as (Hf & Ho & He & Hr). done.
    + st_step Hx. rewrite (proj2 (Nat.ltb_lt _ _)) in Hx by done. apply st_lift_Ok in Hx as [-> Hx].
      apply single_receipt in E as [(R1 & R2 & R3 & R4 & _) Ho].
      apply (signed_receipt _ _ m worker (artifact_signer msigner msecret worker)) in Hx as (Hf & Ho' & He); try done.
      * split; [done|]. rewrite Ho', He. split; [done|]. apply fallback_mode.
      * intros v. apply signer_or_signs.
Qed.
End facts.

(** ** The group as the executor of a worker *)

Definition group_executor {S} `{ObjectStore S} `{TT : Torch} `{!TensorOps tensor} `{!Kernels} `{!FaultLib} `{SigLib} dp
    (tget : string -> option PresignedUrlGrant -> ST S string)
    (tput : string -> string -> option PresignedUrlGrant -> ST S unit)
    devices secret tp input_max output_max cuda rank_failed worker miner_secret signer fault_mode fault_rate : Executor (JobExecutor S) S := {|
  exec_store := je_store;
  exec_with_store := fun je s => mkExecutor s (je_graph_cache je) (je_input je) (je_output je);
  exec_execute := fun m grants clock =>
    DistributedJobExecutor_execute dp tget tput devices secret tp input_max output_max cuda rank_failed m worker miner_secret
      (Some signer) fault_mode fault_rate grants clock
|}.

#[export] Instance group_executor_laws {S} `{ObjectStore S} `{TT : Torch} `{!TensorOps tensor} `{!Kernels} `{!FaultLib} `{SigLib} dp tget tput
    devices secret tp input_max output_max cuda rank_failed worker miner_secret signer fault_mode fault_rate :
  @ExecutorLaws (JobExecutor S) S
    (group_executor dp tget tput devices secret tp input_max output_max cuda rank_failed worker miner_secret signer fault_mode fault_rate).
Proof.
  split; [done|]. intros m grants clock x x' r Hx. cbn in Hx.
  apply execute_sound in Hx as [(R1 & R2 & R3 & _) _]. done.
Qed.

(** An output split over the ranks is a whole input of the next job of a group,
    over the transport without grants. *)
Lemma sharded_output_read {S} `{ObjectStoreLaws S} `{TorchLaws} dp devices secret tp grants grants' ref t cfg (s s' : S) d m :
  put_sharded_output (DirectArtifactTransport_put (S := S)) devices grants ref t cfg s = (s', Ok d) -> ad_sharded d = Some m ->
  endswith ".json" (ar_uri ref) = true -> lacks newline (ar_uri ref) = true -> json_ok (PDict (ShardedTensorManifest_to_dict m)) = true ->
  read_input dp (DirectArtifactTransport_get (S := S)) secret tp grants' ref s' = (s', Ok (t_cpu t)).
Proof.
  intros E Hm Hjson Hnl Hok. unfold put_sharded_output in E. destruct (bool_decide _); [|done]. do 3 st_step E.
  injection E as <- <-. injection Hm as ->. pose proof (fun gs => put_sharded_read _ _ Hnl _ _ _ _ _ _ _ gs E2 Hok) as Hread.
  unfold put_sharded_tensor in E2. do 4 st_step E2. injection E2 as -> <-. destruct x4. rename E5 into Hput.
  set (m := mkShardedTensor _ _ _ _ _ _ _) in *. unfold read_input. cbv [mbind st_bind].
  rewrite (put_get (ar_uri ref) (encode_manifest m) _ _ Hput : DirectArtifactTransport_get (ar_uri ref) _ _ = _).
  unfold sharded_input. rewrite Hjson. unfold st_try, st_lift. cbv [mbind st_bind]. unfold encode_manifest.
  rewrite utf8_decode_ascii by by apply json_dumps_ascii. rewrite json_roundtrip, canon_PDict by done. cbn [contains_key].
  assert (NoDup (dict_keys (ShardedTensorManifest_to_dict m))) as Hnd by exact (bool_decide_eq_true_1 (NoDup (dict_keys (ShardedTensorManifest_to_dict m))) eq_refl).
  unfold dict_mem. rewrite !canon_dict_get by done. cbn. rewrite Hread. cbn. by rewrite cpu_cpu.
Qed.

(** C40. Whatever devices a worker drives, its receipts are sound.  When the
    executor of a group returns, the receipt names the manifest, the job and the
    worker, carries the miner's signature over exactly what it says, also where
    the execution record was changed after the job had run, so that the
    auditor's check of the receipt accepts it, and lists one digest for every
    output of the manifest, in order and at its address.  On more than one device
    it tells the truth about the run: the tensor-parallel mode exactly for jobs
    that ask for it, all of whose ranks then finished, and the fallback on one
    rank otherwise. *)
Theorem group_receipts_sound {S} `{ObjectStore S} `{TT : Torch} `{!TensorOps tensor} `{!Kernels} `{!FaultLib} `{SigLib} `{!Replayers}
    dp tget tput devices secret tp input_max output_max cuda rank_failed m worker msecret msigner mode rate grants clock
    (je je' : JobExecutor S) r cfg :
  let signer := artifact_signer msigner msecret worker in
  SignsFor signer identity_verifier -> signer_identity signer = wi_hotkey_ss58 worker ->
  DistributedJobExecutor_execute dp tget tput devices secret tp input_max output_max cuda rank_failed
    m worker msecret msigner mode rate grants clock je = (je', Ok r) ->
  jr_miner_signature r <> Some EmptyString ->
  receipt_for m worker signer r /\ AuditReplayRunner_verify_receipt_signature cfg r = Ok true /\
  digests_follow (jm_outputs m) (jr_output_digests r) /\ ran_as devices m r.
Proof.
  intros signer Hsv Hid Hx Hne. apply execute_sound in Hx as (Hf & Hd & Hr). split; [done|]. split; [|done].
  destruct Hf as (_ & _ & _ & Hw & sig & Hsig & Hs). eapply receipt_verifies; [exact Hsv|by rewrite Hw|exact Hsig|by intros ->|exact Hs].
Qed.

(** *** An example: two devices, the output split over them *)

#[local] Existing Instances byte_torch byte_kernels byte_faults byte_replayers no_signatures plain_texts.

Definition group_manifest : JobManifestV3 :=
  mkManifest "job-1" "run" 1 "grad" (mkGraphRef (Graph_graph_id concat_graph) "s3://bk/g.json")
    [("runner", PStr group_tag); ("output_sharding", PDict [("y", PDict [("world_size", PInt 2)])])]
    [mkRef "x" "s3://bk/x" None None None; mkRef "W" "s3://bk/w" None None None]
    [mkRef "y" "s3://bk/y.json" None None None] "hk1" None 0 20 10
    (mkResources 1 "single_worker" []) VerificationPolicy_default None 3.

Definition group_bucket : LocalBucket :=
  fold_left apply_op
    [OpPut "s3://bk/g.json" (Graph_to_canonical_json concat_graph); OpPut "s3://bk/x" (sample_blob_of (String "002" EmptyString));
     OpPut "s3://bk/w" (sample_blob_of "012345")]
    (LocalBucket_init "bk" 5).

Definition group_run : JobExecutor LocalBucket * result JobReceiptV3 :=
  DistributedJobExecutor_execute no_provider DirectArtifactTransport_get DirectArtifactTransport_put ["cuda:0"; "cuda:1"] "dev" None 8 8
    true id group_manifest honest_worker "hk1" None "" fone [] (fun _ => fone) (JobExecutor_init group_bucket).

Lemma group_run_signed : match snd group_run with Ok r => jr_miner_signature r <> Some EmptyString | Err _ => False end.
Proof.
  assert (match snd group_run with
    | Ok r => match jr_miner_signature r with Some s => negb (String.eqb s EmptyString) | None => false end
    | Err _ => false end = true) as Hb by (vm_compute; reflexivity).
  destruct (snd group_run) as [r|]; [|done]. intros E. by rewrite E in Hb.
Qed.

(** The two ranks multiply six bytes by two; the next job finds the product
    in two shards. *)
Lemma group_receipts_sound_witness :
  (exists r, snd group_run = Ok r /\ AuditReplayRunner_verify_receipt_signature audit_cfg r = Ok true /\
     jr_execution r = group_execution ["cuda:0"; "cuda:1"] (jm_params group_manifest)) /\
  snd (read_input no_provider DirectArtifactTransport_get "dev" None [] (mkRef "y" "s3://bk/y.json" None None None) (je_store (fst group_run)))
    = Ok "`bdfhj".
Proof.
  split; [|vm_compute; reflexivity].
  pose proof group_run_signed as Hsig. destruct group_run as [je' [r|e]] eqn:E; [|destruct Hsig].
  destruct (group_receipts_sound (S := LocalBucket) (TT := byte_torch) no_provider DirectArtifactTransport_get DirectArtifactTransport_put
    ["cuda:0"; "cuda:1"] "dev" None 8 8 true id group_manifest honest_worker "hk1" None "" fone [] (fun _ => fone)
    (JobExecutor_init group_bucket) je' r audit_cfg honest_hmac_accepted eq_refl E Hsig) as (_ & Hv & _ & Hr).
  exists r. split; [reflexivity|]. split; [exact Hv|]. exact (proj1 Hr).
Defined.
