(* ===== verification/Verifier.v ===== *)
(** * Replay verification and score windows

    [teuton_validator/verifier.py]: a validator samples receipts, replays the
    jobs (or consumes signed audit results), files one verdict per receipt, and
    condenses verdicts into score windows.  [teuton_validator/ledger.py]: the
    summary over the windows. *)

From Stdlib Require Import ZArith Lia Ascii.
From stdpp Require Import base strings list.
From S2P Require Import Prelude PyFloat FloatExact PyVal Json Digest Paths Signatures Codec Protocol ProtocolFacts.
From S2P Require Import Storage StoreReads Transport Crypto Ir ComputeUnits Tensors Eval AuditReplay.

Record ValidatorConfig := mkValidator {
  vc_netuid : Z;
  vc_run_id : string;
  vc_validator_hotkey : string;
  vc_validator_secret : string;
  vc_validator_signer : option Signer;
  vc_owner_secret : string;
  vc_owner_hotkey : string;
  vc_miner_secret : string;
  vc_device : string;
  vc_sample_rate : float;
  vc_max_sample_elements : Z;
  vc_encryption_secret : string;
  vc_timelock_provider : option TimelockProvider;
  vc_audit_eligible_hotkeys : list string
}.

(** Whether the validator's sample leaves a receipt out. *)
Definition sampled_out (cfg : ValidatorConfig) (receipt_id : string) : bool :=
  if fltb (vc_sample_rate cfg) fone then
    let h := sha256 (vc_validator_hotkey cfg +:+ ":" +:+ receipt_id) in
    fleb (vc_sample_rate cfg)
      (fdiv (float_of_Z (big_endian 0 (str_take 8 h))) (float_of_Z (2 ^ 64)))
  else false.

Section verifier.
Context {S : Type} `{ObjectStore S} `{TT : Torch} `{!Kernels} `{!Replayers} `{SigLib} `{ExnText}.
Context (default_provider : result TimelockProvider) (log2 : Z -> float).
(** [random.Random(17).shuffle]. *)
Context (shuffle : list (string * JobReceiptV3) -> list (string * JobReceiptV3)).
(** Readings of the clock while a receipt is handled. *)
Context (clock : string -> nat -> float).
Context (cfg : ValidatorConfig).

Definition verdict_uri (receipt : JobReceiptV3) : ST S string :=
  uri_of (verdict_key (vc_netuid cfg) (jr_run_id receipt) (vc_validator_hotkey cfg) (jr_receipt_id receipt)).

Fixpoint collect_receipts (uris : list string) : ST S (list (string * JobReceiptV3)) :=
  match uris with
  | [] => mret []
  | uri :: uris' =>
      if negb (endswith ".json" uri) then collect_receipts uris'
      else
        got ← skip_errors (read_record JobReceiptV3_from_dict uri);
        match got with
        | None => collect_receipts uris'
        | Some receipt =>
            if sampled_out cfg (jr_receipt_id receipt) then collect_receipts uris'
            else rest ← collect_receipts uris'; mret ((uri, receipt) :: rest)
        end
  end.

Definition ReplayVerifier_sample_receipts : ST S (list (string * JobReceiptV3)) :=
  prefix ← uri_of (receipts_prefix (vc_netuid cfg) (vc_run_id cfg));
  uris ← os_list prefix;
  out ← collect_receipts uris;
  mret (shuffle out).

Definition ReplayVerifier_has_verdict (receipt : JobReceiptV3) : ST S bool :=
  uri ← verdict_uri receipt; os_exists uri.

Definition ReplayVerifier_find_manifest (receipt : JobReceiptV3) : ST S JobManifestV3 :=
  uri ← uri_of (job_manifest_key (vc_netuid cfg) (jr_run_id receipt) (jr_job_id receipt));
  read_record JobManifestV3_from_dict uri.

Definition ReplayVerifier_audit_config : AuditReplayConfig :=
  mkAuditConfig (vc_owner_secret cfg) (vc_owner_hotkey cfg) (vc_miner_secret cfg) (vc_device cfg)
    (vc_max_sample_elements cfg) (vc_encryption_secret cfg) (vc_timelock_provider cfg).

Definition ReplayVerifier_fetch_graph (manifest : JobManifestV3) : ST S Graph :=
  blob ← os_get (gr_uri (jm_graph_ref manifest));
  g ← st_lift (load_bytes Graph_from_dict blob);
  if String.eqb (Graph_graph_id g) (gr_sha256 (jm_graph_ref manifest)) then mret g
  else st_raise (ValueError ("graph hash mismatch for job " +:+ jm_job_id manifest)).

(** Never the times or sizes a receipt claims. *)
Definition estimate_cu (manifest : option JobManifestV3) (graph : option Graph) : result float :=
  match manifest, graph with
  | Some m, Some g => expected_compute_units log2 m g
  | _, _ => Ok fone
  end.

Definition validator_key : signer_or_secret :=
  match vc_validator_signer cfg with Some s => BySigner s | None => BySecret (vc_validator_secret cfg) end.

(** The record both verdict builders fill in. *)
Definition new_verdict (receipt : JobReceiptV3) (status reason : string) (estimated_cu replay_compute_sec now : float)
    (comparison : dict pyval) : VerificationVerdictV3 :=
  mkVerdict (vc_validator_hotkey cfg +:+ ":" +:+ jr_receipt_id receipt) (jr_receipt_id receipt)
    (jr_manifest_hash receipt) (jr_job_id receipt) (jr_run_id receipt) (wi_hotkey_ss58 (jr_worker receipt))
    (vc_validator_hotkey cfg) status reason estimated_cu replay_compute_sec now comparison None 3.

Definition ReplayVerifier_verdict_from_audit (receipt : JobReceiptV3) (audit : AuditResultV3)
    (manifest : option JobManifestV3) : ST S VerificationVerdictV3 :=
  m ← match manifest with Some m => mret m | None => ReplayVerifier_find_manifest receipt end;
  g ← ReplayVerifier_fetch_graph m;
  cu ← st_lift (estimate_cu (Some m) (Some g));
  st_lift (VerificationVerdictV3_sign
    (new_verdict receipt (au_status audit) (au_reason audit) cu (au_replay_compute_sec audit)
       (clock (jr_receipt_id receipt) 3) [("audit", PDict (AuditResultV3_to_dict audit))])
    validator_key).

Definition ReplayVerifier_verdict (receipt : JobReceiptV3) (status reason : string)
    (replay_compute_sec : float) (comparison : dict pyval) : ST S VerificationVerdictV3 :=
  cu ← st_try
         (m ← ReplayVerifier_find_manifest receipt;
          g ← ReplayVerifier_fetch_graph m;
          st_lift (estimate_cu (Some m) (Some g)))
         (fun _ => mret fone);
  st_lift (VerificationVerdictV3_sign
    (new_verdict receipt status reason cu replay_compute_sec (clock (jr_receipt_id receipt) 3) comparison)
    validator_key).

Definition ReplayVerifier_verify (receipt_uri : string) (receipt : JobReceiptV3) : ST S VerificationVerdictV3 :=
  manifest ← ReplayVerifier_find_manifest receipt;
  audit ← (fun s =>
    let t := clock (jr_receipt_id receipt) in
    let '(s', _, r) := AuditReplayRunner_run default_provider DirectArtifactTransport_get []
      ReplayVerifier_audit_config receipt_uri manifest receipt (vc_validator_hotkey cfg) (t 0%nat) (t 1%nat) (t 2%nat) s [] in
    (s', r));
  ReplayVerifier_verdict_from_audit receipt audit (Some manifest).

Definition file_verdict (receipt : JobReceiptV3) (verdict : VerificationVerdictV3) : ST S unit :=
  uri ← verdict_uri receipt;
  os_put_json uri (PDict (VerificationVerdictV3_to_dict verdict)).

(** [max_receipts is not None and checked >= max_receipts]. *)
Definition reached (max_receipts : option Z) (checked : Z) : bool :=
  match max_receipts with Some m => (m <=? checked)%Z | None => false end.

Fixpoint run_loop (max_receipts : option Z) (checked : Z) (rs : list (string * JobReceiptV3)) : ST S Z :=
  match rs with
  | [] => mret checked
  | (uri, receipt) :: rs' =>
      if reached max_receipts checked then mret checked
      else
        done_before ← ReplayVerifier_has_verdict receipt;
        if (done_before : bool) then run_loop max_receipts checked rs'
        else
          verdict ← ReplayVerifier_verify uri receipt;
          _ ← file_verdict receipt verdict;
          run_loop max_receipts (checked + 1) rs'
  end.

Definition ReplayVerifier_run_once (max_receipts : option Z) : ST S Z :=
  rs ← ReplayVerifier_sample_receipts; run_loop max_receipts 0 rs.

(** *** Audit results of others *)

Definition allowed (hotkey : string) : bool :=
  match vc_audit_eligible_hotkeys cfg with
  | [] => true
  | allow => bool_decide (hotkey ∈ allow)
  end.

Fixpoint find_audit_loop (receipt : JobReceiptV3) (uris : list string) : ST S (option AuditResultV3) :=
  match uris with
  | [] => mret None
  | uri :: uris' =>
      if negb (endswith ".json" uri) then find_audit_loop receipt uris'
      else
        got ← skip_errors (read_record AuditResultV3_from_dict uri);
        match got with
        | None => find_audit_loop receipt uris'
        | Some audit =>
            if negb (String.eqb (au_receipt_id audit) (jr_receipt_id receipt)) then find_audit_loop receipt uris'
            else if negb (allowed (au_auditor_hotkey audit)) then find_audit_loop receipt uris'
            else mret (Some audit)
        end
  end.

Definition ReplayVerifier_find_audit_result (receipt : JobReceiptV3) : ST S (option AuditResultV3) :=
  prefix ← uri_of (audit_results_prefix (vc_netuid cfg) (jr_run_id receipt));
  uris ← os_list prefix;
  find_audit_loop receipt uris.

Definition ReplayVerifier_verify_audit_result (audit : AuditResultV3) (receipt : JobReceiptV3) : result bool :=
  match given (au_auditor_signature audit) with
  | None => Ok false
  | Some sig =>
      if negb (String.eqb (au_receipt_id audit) (jr_receipt_id receipt))
         || negb (String.eqb (au_manifest_hash audit) (jr_manifest_hash receipt)) then Ok false
      else if negb (allowed (au_auditor_hotkey audit)) then Ok false
      else verify_identity_dict (AuditResultV3_unsigned_dict audit) (au_auditor_hotkey audit) sig true
  end.

Fixpoint consume_loop (max_receipts : option Z) (checked : Z) (rs : list (string * JobReceiptV3)) : ST S Z :=
  match rs with
  | [] => mret checked
  | (_, receipt) :: rs' =>
      if reached max_receipts checked then mret checked
      else
        done_before ← ReplayVerifier_has_verdict receipt;
        if (done_before : bool) then consume_loop max_receipts checked rs'
        else
          found ← ReplayVerifier_find_audit_result receipt;
          match found with
          | None => consume_loop max_receipts checked rs'
          | Some audit =>
              good ← st_lift (ReplayVerifier_verify_audit_result audit receipt);
              if negb (good : bool) then consume_loop max_receipts checked rs'
              else
                verdict ← ReplayVerifier_verdict_from_audit receipt audit None;
                _ ← file_verdict receipt verdict;
                consume_loop max_receipts (checked + 1) rs'
          end
  end.

Definition ReplayVerifier_consume_audit_results (max_receipts : option Z) : ST S Z :=
  rs ← ReplayVerifier_sample_receipts; consume_loop max_receipts 0 rs.
End verifier.

(** ** Score windows *)

Definition fhalf : float := flit 5 (-1).
Definition fquarter : float := flit 25 (-2).

(** The caches of one summary, next to the bucket. *)
Record score_state (S : Type) := mkScoreState {
  ss_store : S;
  ss_manifests : dict JobManifestV3;
  ss_graphs : dict Graph
}.
Arguments mkScoreState {S}.
Arguments ss_store {S}.
Arguments ss_manifests {S}.
Arguments ss_graphs {S}.

Section scores.
Context {S : Type} `{ObjectStore S} `{SigLib}.
Context (log2 : Z -> float).

Definition in_store {A} (m : ST S A) : ST (score_state S) A := fun st =>
  let '(s, r) := m (ss_store st) in (mkScoreState s (ss_manifests st) (ss_graphs st), r).

Definition remember_manifest (job_id : string) (m : JobManifestV3) : ST (score_state S) JobManifestV3 := fun st =>
  (mkScoreState (ss_store st) (dict_set job_id m (ss_manifests st)) (ss_graphs st), Ok m).

Definition remember_graph (sha : string) (g : Graph) : ST (score_state S) Graph := fun st =>
  (mkScoreState (ss_store st) (ss_manifests st) (dict_set sha g (ss_graphs st)), Ok g).

(** The manifest of a receipt, cached by job. *)
Definition cached_manifest (netuid : Z) (receipt : JobReceiptV3) : ST (score_state S) JobManifestV3 :=
  st ← st_get;
  match dict_get (jr_job_id receipt) (ss_manifests st) with
  | Some m => mret m
  | None =>
      m ← in_store (uri ← uri_of (job_manifest_key netuid (jr_run_id receipt) (jr_job_id receipt));
                    read_record JobManifestV3_from_dict uri);
      remember_manifest (jr_job_id receipt) m
  end.

(** The graph of a manifest, cached by digest. *)
Definition cached_graph (manifest : JobManifestV3) : ST (score_state S) Graph :=
  st ← st_get;
  match dict_get (gr_sha256 (jm_graph_ref manifest)) (ss_graphs st) with
  | Some g => mret g
  | None =>
      g ← in_store (ReplayVerifier_fetch_graph manifest);
      remember_graph (gr_sha256 (jm_graph_ref manifest)) g
  end.

Definition expected_cu_for_receipt (netuid : Z) (receipt : JobReceiptV3) : ST (score_state S) float :=
  st_try
    (m ← cached_manifest netuid receipt;
     g ← cached_graph m;
     st_lift (estimate_cu log2 (Some m) (Some g)))
    (fun _ => mret fone).

Definition new_window (netuid : Z) (window_id hotkey : string) : MinerScoreWindow :=
  mkScoreWindow netuid window_id hotkey 0 0 fzero fzero fzero fone fzero.

(** What one receipt adds to its miner's window. *)
Definition credit (w : MinerScoreWindow) (verdict : option VerificationVerdictV3) (cu : float) : MinerScoreWindow :=
  let upd verdicts pass fail unsampled :=
    mkScoreWindow (sw_netuid w) (sw_window_id w) (sw_hotkey_ss58 w) (sw_receipts w + 1) verdicts pass fail
      unsampled (sw_trust_multiplier w) (sw_score w) in
  match verdict with
  | None => upd (sw_verdicts w) (sw_pass_cu w) (sw_fail_cu w) (fadd (sw_unsampled_cu w) cu)
  | Some v =>
      let n := (sw_verdicts w + 1)%Z in
      if String.eqb (vv_status v) "pass"
      then upd n (fadd (sw_pass_cu w) cu) (sw_fail_cu w) (sw_unsampled_cu w)
      else if String.eqb (vv_status v) "fail"
      then upd n (sw_pass_cu w) (fadd (sw_fail_cu w) cu) (sw_unsampled_cu w)
      else upd n (sw_pass_cu w) (sw_fail_cu w) (fadd (sw_unsampled_cu w) (fmul cu fhalf))
  end.

Fixpoint credit_receipts (netuid : Z) (window_id : string) (verdicts : dict VerificationVerdictV3)
    (rs : list JobReceiptV3) (windows : dict MinerScoreWindow) : ST (score_state S) (dict MinerScoreWindow) :=
  match rs with
  | [] => mret windows
  | receipt :: rs' =>
      let hotkey := wi_hotkey_ss58 (jr_worker receipt) in
      cu ← expected_cu_for_receipt netuid receipt;
      let w := default (new_window netuid window_id hotkey) (dict_get hotkey windows) in
      credit_receipts netuid window_id verdicts rs'
        (dict_set hotkey (credit w (dict_get (jr_receipt_id receipt) verdicts) cu) windows)
  end.

Definition trust_multiplier (w : MinerScoreWindow) : float :=
  let checked := fadd (sw_pass_cu w) (sw_fail_cu w) in
  if feqb checked fzero then fquarter
  else if fltb fzero (sw_fail_cu w) then
    fmax fzero (fdiv (fsub (sw_pass_cu w) (fmul (float_of_Z 2) (sw_fail_cu w))) checked)
  else fone.

Definition close_window (w : MinerScoreWindow) : MinerScoreWindow :=
  let t := trust_multiplier w in
  mkScoreWindow (sw_netuid w) (sw_window_id w) (sw_hotkey_ss58 w) (sw_receipts w) (sw_verdicts w)
    (sw_pass_cu w) (sw_fail_cu w) (sw_unsampled_cu w) t (fadd (sw_pass_cu w) (fmul (sw_unsampled_cu w) t)).

Fixpoint read_receipts (uris : list string) (receipts : dict JobReceiptV3) : ST S (dict JobReceiptV3) :=
  match uris with
  | [] => mret receipts
  | uri :: uris' =>
      if endswith ".json" uri then
        r ← read_record JobReceiptV3_from_dict uri;
        read_receipts uris' (dict_set (jr_receipt_id r) r receipts)
      else read_receipts uris' receipts
  end.

(** A verdict counts when its signature verifies. *)
Definition verdict_signed (validator_secret validator_hotkey : string) (v : VerificationVerdictV3) : result bool :=
  match given (vv_validator_signature v) with
  | None => Ok false
  | Some sig =>
      let identity := if String.eqb validator_hotkey "" then vv_validator_hotkey v else validator_hotkey in
      good ← verify_identity_dict (VerificationVerdictV3_unsigned_dict v) identity sig true;
      if (good : bool) then Ok true
      else verify_dict (VerificationVerdictV3_unsigned_dict v) validator_secret sig
  end.

Fixpoint read_verdicts (validator_secret validator_hotkey : string) (uris : list string)
    (verdicts : dict VerificationVerdictV3) : ST S (dict VerificationVerdictV3) :=
  match uris with
  | [] => mret verdicts
  | uri :: uris' =>
      if endswith ".json" uri then
        v ← read_record VerificationVerdictV3_from_dict uri;
        good ← st_lift (verdict_signed validator_secret validator_hotkey v);
        read_verdicts validator_secret validator_hotkey uris'
          (if (good : bool) then dict_set (vv_receipt_id v) v verdicts else verdicts)
      else read_verdicts validator_secret validator_hotkey uris' verdicts
  end.

(** [window_id or f"run={run_id}"]. *)
Definition window_or_run (window_id : option string) (run_id : string) : string :=
  str_or_default window_id ("run=" +:+ run_id).

Definition summarize_scores (netuid : Z) (run_id : string) (window_id : option string)
    (validator_secret validator_hotkey : string) : ST S (dict MinerScoreWindow) :=
  let window_id := window_or_run window_id run_id in
  rp ← uri_of (receipts_prefix netuid run_id);
  ruris ← os_list rp;
  receipts ← read_receipts ruris [];
  vp ← uri_of (verdicts_prefix netuid run_id);
  vuris ← os_list vp;
  verdicts ← read_verdicts validator_secret validator_hotkey vuris [];
  windows ← (fun s =>
    let '(st, r) := credit_receipts netuid window_id verdicts (dict_values receipts) [] (mkScoreState s [] []) in
    (ss_store st, r));
  let windows := dict_map close_window windows in
  uri ← uri_of (scores_key netuid window_id);
  _ ← os_put_json uri (PDict (dict_map (fun w => PDict (MinerScoreWindow_to_dict w)) windows));
  mret windows.

(** ** The ledger *)

Record LedgerSummaryV3 := mkLedger {
  ls_receipts : Z;
  ls_verdicts : Z;
  ls_passed : Z;
  ls_failed : Z;
  ls_inconclusive : Z;
  ls_estimated_cu : float;
  ls_payable_cu : float;
  ls_by_hotkey : dict (dict pyval)
}.

Definition LedgerSummaryV3_to_dict (l : LedgerSummaryV3) : dict pyval :=
  [("receipts", PInt (ls_receipts l)); ("verdicts", PInt (ls_verdicts l)); ("passed", PInt (ls_passed l));
   ("failed", PInt (ls_failed l)); ("inconclusive", PInt (ls_inconclusive l));
   ("estimated_cu", PFloat (ls_estimated_cu l)); ("payable_cu", PFloat (ls_payable_cu l));
   ("by_hotkey", PDict (dict_map PDict (ls_by_hotkey l)))].

Definition one_if (b : bool) : Z := if b then 1 else 0.

Definition ledger_add (out : LedgerSummaryV3) (entry : string * MinerScoreWindow) : LedgerSummaryV3 :=
  let '(hotkey, w) := entry in
  mkLedger (ls_receipts out + sw_receipts w) (ls_verdicts out + sw_verdicts w)
    (ls_passed out + one_if (fltb fzero (sw_pass_cu w))) (ls_failed out + one_if (fltb fzero (sw_fail_cu w)))
    (ls_inconclusive out + one_if (fltb fzero (sw_unsampled_cu w)))
    (fadd (ls_estimated_cu out) (fadd (fadd (sw_pass_cu w) (sw_fail_cu w)) (sw_unsampled_cu w)))
    (fadd (ls_payable_cu out) (sw_score w))
    (dict_set hotkey (MinerScoreWindow_to_dict w) (ls_by_hotkey out)).

Definition summarize_ledger (netuid : Z) (run_id : string) (window_id : option string)
    (validator_secret validator_hotkey : string) : ST S LedgerSummaryV3 :=
  windows ← summarize_scores netuid run_id (Some (window_or_run window_id run_id)) validator_secret validator_hotkey;
  mret (fold_left ledger_add windows (mkLedger 0 0 0 0 0 fzero fzero [])).
End scores.

(** ** Lemmas *)

Section read_only.
Context {S : Type} `{ObjectStore S} `{!ObjectStoreLaws S} `{TT : Torch} `{!Kernels} `{!Replayers}.
Context `{SigLib} `{ExnText}.
Context (dp : result TimelockProvider) (log2 : Z -> float).
Context (clock : string -> nat -> float) (cfg : ValidatorConfig).

(** Methods that leave the bucket as it is. *)
Lemma reads_find_manifest r : reads (ReplayVerifier_find_manifest cfg r).
Proof. apply reads_bind; auto with reads. Qed.

Lemma reads_fetch_graph m : reads (ReplayVerifier_fetch_graph m).
Proof.
  apply reads_bind; [auto with reads|intros blob]. apply reads_bind; [auto with reads|intros g].
  destruct (String.eqb _ _); auto with reads.
Qed.

Lemma reads_verdict_uri r : reads (verdict_uri cfg r).
Proof. done. Qed.
Hint Resolve reads_verdict_uri : reads.

Lemma reads_has_verdict r : reads (ReplayVerifier_has_verdict cfg r).
Proof. apply reads_bind; auto with reads. Qed.

Hint Resolve reads_find_manifest reads_fetch_graph reads_has_verdict : reads.

(** The replay of an audit leaves the bucket as it is. *)
Definition reads_rp {A} (m : ST (replay S) A) : Prop := forall rp, rp_store (fst (m rp)) = rp_store rp.

Lemma reads_rp_bind {A B} (m : ST (replay S) A) (k : A -> ST (replay S) B) :
  reads_rp m -> (forall a, reads_rp (k a)) -> reads_rp (m ≫= k).
Proof.
  intros Hm Hk rp. cbv [mbind st_bind]. specialize (Hm rp). destruct (m rp) as [rp1 [a|e]]; cbn in Hm |- *; [|done].
  by rewrite Hk.
Qed.

Lemma reads_rp_on_store {A} (m : ST S A) : reads m -> reads_rp (on_store m).
Proof. intros Hm rp. unfold on_store. specialize (Hm (rp_store rp)). by destruct (m (rp_store rp)). Qed.

Lemma reads_sharded grants uri dev : reads (get_sharded_tensor DirectArtifactTransport_get grants uri dev).
Proof. intros s. apply get_sharded_reads. intros u g s0. apply get_reads. Qed.
Lemma reads_evaluate g ins ps dev : reads (evaluate g ins ps dev).
Proof. exact (evaluate_reads g ins ps dev). Qed.
Lemma reads_direct uri g : reads (DirectArtifactTransport_get uri g).
Proof. exact (get_reads uri). Qed.

Hint Resolve reads_sharded reads_evaluate reads_direct : reads.
Hint Extern 1 (reads_rp (on_store _)) => apply reads_rp_on_store; auto with reads : reads.
Hint Extern 1 (reads_rp (mret _)) => (intros ?; reflexivity) : reads.
Hint Extern 1 (reads_rp (st_lift _)) => (intros ?; reflexivity) : reads.
Hint Extern 1 (reads_rp (st_raise _)) => (intros ?; reflexivity) : reads.
Hint Extern 1 (reads_rp (st_get)) => (intros ?; reflexivity) : reads.
Hint Extern 1 (reads_rp (note_graph _ _)) => (intros ?; reflexivity) : reads.
Hint Extern 1 (reads_rp (note_input _ _)) => (intros ?; reflexivity) : reads.
Hint Extern 1 (reads_rp (note_output _ _)) => (intros ?; reflexivity) : reads.
Hint Extern 1 (reads_rp (note_extra _ _)) => (intros ?; reflexivity) : reads.

Ltac reads_steps := repeat first [progress auto with reads | apply reads_rp_bind; [|intros ?] | case_goal].

Lemma reads_fetch sha uri : reads_rp (AuditReplayRunner_fetch_graph sha uri).
Proof. unfold AuditReplayRunner_fetch_graph. reads_steps. Qed.

Lemma reads_load_input acfg expected ref :
  reads_rp (load_input dp DirectArtifactTransport_get [] acfg expected ref).
Proof. unfold load_input. reads_steps. Qed.

Lemma reads_load_inputs acfg expected refs : forall acc,
  reads_rp (load_inputs_loop dp DirectArtifactTransport_get [] acfg expected refs acc).
Proof.
  induction refs as [|ref refs IH]; intros acc; cbn [load_inputs_loop]; [auto with reads|].
  apply reads_rp_bind; [apply reads_load_input|auto].
Qed.

Lemma reads_compare acfg ref v m r :
  reads_rp (AuditReplayRunner_compare_output dp DirectArtifactTransport_get [] acfg ref v m r).
Proof.
  assert (forall d, reads_rp (observed_output dp DirectArtifactTransport_get [] acfg ref d)) as Ho.
  { intros d. unfold observed_output. reads_steps. }
  unfold AuditReplayRunner_compare_output. destruct v as [[|t|]|]; auto with reads;
    (apply reads_rp_bind; [apply Ho|intros obs]); auto with reads.
  apply reads_rp_bind; [auto with reads|intros e]. destruct (negb _); auto with reads.
  destruct (compare_tensors _ _ _). auto with reads.
Qed.

Lemma reads_compare_outputs acfg outs m r refs :
  reads_rp (compare_outputs dp DirectArtifactTransport_get [] acfg outs m r refs).
Proof.
  induction refs as [|ref refs IH]; cbn [compare_outputs]; [auto with reads|].
  apply reads_rp_bind; [apply reads_compare|intros c]. apply reads_rp_bind; [auto with reads|intros ?].
  apply reads_rp_bind; [done|auto with reads].
Qed.

Lemma reads_body acfg m r t0 t1 :
  reads_rp (replay_body dp DirectArtifactTransport_get [] acfg m r t0 t1).
Proof.
  unfold replay_body, AuditReplayRunner_load_inputs.
  apply reads_rp_bind; [auto with reads|intros ok]. destruct (negb ok); [auto with reads|].
  apply reads_rp_bind; [auto with reads|intros ok']. destruct (negb ok'); [auto with reads|].
  destruct (negb _); [auto with reads|]. apply reads_rp_bind; [apply reads_fetch|intros g].
  apply reads_rp_bind; [apply reads_load_inputs|intros ins]. apply reads_rp_bind.
  - unfold replay_outputs. destruct (is_gpt_job _); reads_steps.
  - intros outs. apply reads_rp_bind; [apply reads_compare_outputs|auto with reads].
Qed.

Lemma reads_verdict_from_audit r a m : reads (ReplayVerifier_verdict_from_audit log2 clock cfg r a m).
Proof.
  unfold ReplayVerifier_verdict_from_audit. apply reads_bind; [destruct m; auto with reads|intros m'].
  apply reads_bind; [auto with reads|intros g]. apply reads_bind; auto with reads.
Qed.

Lemma reads_verify uri r : reads (ReplayVerifier_verify dp log2 clock cfg uri r).
Proof.
  unfold ReplayVerifier_verify. apply reads_bind; [auto with reads|intros m]. apply reads_bind.
  - intros s. unfold AuditReplayRunner_run.
    pose proof (reads_body (ReplayVerifier_audit_config cfg) m r (clock (jr_receipt_id r) 0) (clock (jr_receipt_id r) 1)
      (mkReplay s [] [] [] [])) as Hb.
    destruct (replay_body _ _ _ _ _ _ _ _ _) as [rp res]. exact Hb.
  - intros a. apply reads_verdict_from_audit.
Qed.

Lemma reads_bind_Ok {A B} (m : ST S A) (k : A -> ST S B) s s' b : reads m ->
  (m ≫= k) s = (s', Ok b) -> exists a, m s = (s, Ok a) /\ k a s = (s', Ok b).
Proof.
  intros Hm E. apply st_bind_Ok in E as (s1 & a & E1 & E2). specialize (Hm s). rewrite E1 in Hm. cbn in Hm.
  subst s1. by exists a.
Qed.

(** Where the verdict on a receipt is filed. *)
Definition verdict_object (s : S) (r : JobReceiptV3) : string :=
  os_uri_for_key s (verdict_key (vc_netuid cfg) (jr_run_id r) (vc_validator_hotkey cfg) (jr_receipt_id r)).

Lemma has_verdict_eq r s : ReplayVerifier_has_verdict cfg r s = os_exists (verdict_object s r) s.
Proof. done. Qed.

Lemma file_verdict_eq r v s :
  file_verdict cfg r v s = os_put_json (verdict_object s r) (PDict (VerificationVerdictV3_to_dict v)) s.
Proof. done. Qed.

Lemma run_loop_spec rs : forall k s s' n,
  run_loop dp log2 clock cfg None k rs s = (s', Ok n) ->
  os_uri_for_key s' = os_uri_for_key s /\ (k <= n <= k + Z.of_nat (length rs))%Z /\
  (forall uri, os_exists uri s = (s, Ok true) -> os_exists uri s' = (s', Ok true)) /\
  (forall u r, (u, r) ∈ rs -> ReplayVerifier_has_verdict cfg r s' = (s', Ok true)).
Proof.
  induction rs as [|[u r] rs IH]; intros k s s' n Hl; cbn [run_loop reached] in Hl.
  - injection Hl as <- <-. split_and!; try done; try (cbn; lia). by intros u r ?%elem_of_nil.
  - apply (reads_bind_Ok _ _ _ _ _ (reads_has_verdict r)) in Hl as (b & Hb & Hl). cbn [length]. destruct b.
    + destruct (IH _ _ _ _ Hl) as (U & N & X & V). split_and!; try done; try lia.
      intros u' r' [[= -> ->]|Hin]%elem_of_cons; [|eauto].
      rewrite has_verdict_eq in *. unfold verdict_object in *. rewrite U. auto.
    + apply (reads_bind_Ok _ _ _ _ _ (reads_verify u r)) in Hl as (v & Hv & Hl).
      apply st_bind_Ok in Hl as (s1 & [] & Hp & Hl). rewrite file_verdict_eq in Hp.
      destruct (IH _ _ _ _ Hl) as (U & N & X & V). pose proof (put_json_uri_for_key _ _ _ _ Hp) as U1.
      rewrite U, U1. split_and!; try done; try lia.
      * intros uri Hu. apply X. by apply (put_json_keeps _ _ _ _ _ Hp).
      * intros u' r' [[= -> ->]|Hin]%elem_of_cons; [|eauto]. rewrite has_verdict_eq. unfold verdict_object.
        rewrite U, U1. apply X. by apply (put_json_exists _ _ _ _ Hp).
Qed.

Lemma run_loop_done rs : forall k s,
  (forall u r, (u, r) ∈ rs -> ReplayVerifier_has_verdict cfg r s = (s, Ok true)) ->
  run_loop dp log2 clock cfg None k rs s = (s, Ok k).
Proof.
  induction rs as [|[u r] rs IH]; intros k s Hv; [done|]. cbn [run_loop reached].
  cbv [mbind st_bind]. rewrite (Hv u r) by by left. apply IH. intros u' r' Hin. apply (Hv u'). by right.
Qed.

Lemma fetch_graph_id m s s' g : ReplayVerifier_fetch_graph m s = (s', Ok g) ->
  Graph_graph_id g = gr_sha256 (jm_graph_ref m).
Proof.
  unfold ReplayVerifier_fetch_graph. intros Hf. st_step Hf. st_step Hf.
  destruct (String.eqb _ _) eqn:E1; [|done]. injection Hf as _ <-. by apply String.eqb_eq.
Qed.

(** A verdict made from an audit result. *)
Definition verdict_of (r : JobReceiptV3) (a : AuditResultV3) (cu : float) : VerificationVerdictV3 :=
  new_verdict cfg r (au_status a) (au_reason a) cu (au_replay_compute_sec a) (clock (jr_receipt_id r) 3)
    [("audit", PDict (AuditResultV3_to_dict a))].

Lemma verdict_from_audit_inv r a mo s s' v :
  ReplayVerifier_verdict_from_audit log2 clock cfg r a mo s = (s', Ok v) ->
  s' = s /\ exists m g cu sig, (mo = Some m \/ mo = None /\ ReplayVerifier_find_manifest cfg r s = (s, Ok m)) /\
    Graph_graph_id g = gr_sha256 (jm_graph_ref m) /\ expected_compute_units log2 m g = Ok cu /\
    record_signature (VerificationVerdictV3_unsigned_dict (verdict_of r a cu)) (validator_key cfg) = Ok sig /\
    v = VerificationVerdictV3_with_signature (verdict_of r a cu) (Some sig).
Proof.
  intros Hv. pose proof (reads_verdict_from_audit r a mo s) as Hr. rewrite Hv in Hr. cbn in Hr. split; [done|].
  unfold ReplayVerifier_verdict_from_audit in Hv.
  apply reads_bind_Ok in Hv as (m & Hm & Hv); [|destruct mo; auto with reads].
  apply reads_bind_Ok in Hv as (g & Hg & Hv); [|auto with reads].
  apply reads_bind_Ok in Hv as (cu & Hcu & Hv); [|auto with reads].
  apply st_lift_Ok in Hcu as [_ Hcu]. apply st_lift_Ok in Hv as [_ Hv].
  unfold VerificationVerdictV3_sign in Hv. apply bind_Ok in Hv as (sig & Hsig & Hv). injection Hv as <-.
  exists m, g, cu, sig. split_and!; try done; [|by eapply fetch_graph_id].
  destruct mo as [m'|]; [left|by right]. by injection Hm as ->.
Qed.

(** An audit result that speaks about a receipt: signed by an auditor on the
    allowlist, for that receipt and that manifest. *)
Definition audit_accepted (a : AuditResultV3) (r : JobReceiptV3) : Prop :=
  au_receipt_id a = jr_receipt_id r /\ au_manifest_hash a = jr_manifest_hash r /\
  (vc_audit_eligible_hotkeys cfg = [] \/ au_auditor_hotkey a ∈ vc_audit_eligible_hotkeys cfg) /\
  exists sig, au_auditor_signature a = Some sig /\ sig <> EmptyString /\
    verify_identity_dict (AuditResultV3_unsigned_dict a) (au_auditor_hotkey a) sig true = Ok true.

Lemma verify_audit_accepted a r : ReplayVerifier_verify_audit_result cfg a r = Ok true -> audit_accepted a r.
Proof.
  unfold ReplayVerifier_verify_audit_result, audit_accepted. destruct (given _) as [sig|] eqn:Eg; [|done].
  apply given_Some in Eg as [-> Hne]. destruct (_ || _) eqn:Eo; [done|]. apply orb_false_iff in Eo as [E1 E2].
  apply negb_false_iff, String.eqb_eq in E1, E2. destruct (negb _) eqn:Ea; [done|]. apply negb_false_iff in Ea.
  intros Hv. split_and!; try done; [|by exists sig]. unfold allowed in Ea.
  destruct (vc_audit_eligible_hotkeys cfg); [by left|right]. by apply bool_decide_eq_true in Ea.
Qed.

Lemma reads_find_audit r uris : reads (find_audit_loop cfg r uris).
Proof.
  induction uris as [|uri uris IH]; cbn [find_audit_loop]; [auto with reads|].
  destruct (negb _); [done|]. apply reads_bind; [auto with reads|intros got]. destruct got as [a|]; [|done].
  destruct (negb _); [done|]. destruct (negb _); [done|]. auto with reads.
Qed.

Lemma reads_find_audit_result r : reads (ReplayVerifier_find_audit_result cfg r).
Proof.
  apply reads_bind; [auto with reads|intros p]. apply reads_bind; [auto with reads|intros uris].
  apply reads_find_audit.
Qed.

(** What is in [s'] was in [s], or is a verdict made from an accepted audit of
    a receipt of [rs]. *)
Definition filed (rs : list (string * JobReceiptV3)) (s s' : S) : Prop :=
  forall uri d, lacks newline uri = true -> os_get uri s' = (s', Ok d) ->
    os_get uri s = (s, Ok d) \/
    exists u r a m g cu sig, (u, r) ∈ rs /\ uri = verdict_object s r /\ audit_accepted a r /\
      Graph_graph_id g = gr_sha256 (jm_graph_ref m) /\ expected_compute_units log2 m g = Ok cu /\
      record_signature (VerificationVerdictV3_unsigned_dict (verdict_of r a cu)) (validator_key cfg) = Ok sig /\
      d = canonical_json (PDict (VerificationVerdictV3_to_dict
            (VerificationVerdictV3_with_signature (verdict_of r a cu) (Some sig)))).

Lemma consume_loop_spec max rs : forall k s s' n,
  (forall u r, (u, r) ∈ rs -> lacks newline (verdict_object s r) = true) ->
  consume_loop log2 clock cfg max k rs s = (s', Ok n) ->
  os_uri_for_key s' = os_uri_for_key s /\ filed rs s s'.
Proof.
  induction rs as [|[u r] rs IH]; intros k s s' n Hnl Hl; cbn [consume_loop] in Hl.
  { injection Hl as <- _. split; [done|]. intros uri d _ Hd. by left. }
  destruct (reached max k). { injection Hl as <- _. split; [done|]. intros uri d _ Hd. by left. }
  apply (reads_bind_Ok _ _ _ _ _ (reads_has_verdict r)) in Hl as (b & _ & Hl).
  assert (forall k0, consume_loop log2 clock cfg max k0 rs s = (s', Ok n) ->
    os_uri_for_key s' = os_uri_for_key s /\ filed ((u, r) :: rs) s s') as Hskip.
  { intros k0 Hk. destruct (IH _ _ _ _ (fun u' r' Hin => Hnl u' r' (list_elem_of_further _ _ _ Hin)) Hk) as [U F].
    split; [done|]. intros uri d Hn Hd. destruct (F uri d Hn Hd) as [?|(u' & r' & a & m & g & cu & sig & Hin & Hrest)];
      [by left|right]. exists u', r', a, m, g, cu, sig. split; [by right|done]. }
  destruct b; [by eapply Hskip|].
  apply (reads_bind_Ok _ _ _ _ _ (reads_find_audit_result r)) in Hl as (found & _ & Hl).
  destruct found as [a|]; [|by eapply Hskip].
  apply (reads_bind_Ok _ _ _ _ _ (reads_lift _)) in Hl as (good & Hgood & Hl).
  apply st_lift_Ok in Hgood as [_ Hgood]. destruct good; cbn [negb] in Hl; [|by eapply Hskip].
  apply verify_audit_accepted in Hgood.
  apply (reads_bind_Ok _ _ _ _ _ (reads_verdict_from_audit r a None)) in Hl as (v & Hv & Hl).
  apply st_bind_Ok in Hl as (s1 & [] & Hp & Hl). rewrite file_verdict_eq in Hp.
  pose proof (put_json_uri_for_key _ _ _ _ Hp) as U1. rewrite put_json_put in Hp.
  assert (forall r0, verdict_object s1 r0 = verdict_object s r0) as Hobj by (intros; unfold verdict_object; by rewrite U1).
  edestruct (IH (k + 1)%Z s1 s' n) as [U F]; [|exact Hl|].
  { intros u' r' Hin. rewrite Hobj. apply (Hnl u'). by right. }
  split; [congruence|]. intros uri d Hn Hd.
  destruct (F uri d Hn Hd) as [Hd1|(u' & r' & a' & m & g & cu & sig & Hin & -> & Hrest)].
  - destruct (decide (uri = verdict_object s r)) as [->|Hne].
    + right. pose proof (put_get _ _ _ _ Hp) as Hg. rewrite Hd1 in Hg. injection Hg as ->.
      apply verdict_from_audit_inv in Hv as (_ & m & g & cu & sig & _ & G1 & G2 & G3 & ->).
      exists u, r, a, m, g, cu, sig. split; [by left|]. split_and!; try done; by destruct Hgood as (? & ? & ? & ?).
    + left. by apply (put_frame_back _ _ _ _ _ _ Hp (Hnl u r ltac:(by left)) Hn Hne).
  - right. exists u', r', a', m, g, cu, sig. rewrite Hobj. split; [by right|done].
Qed.
End read_only.

(** *** Windows *)

Lemma fmax_fnn x y : fnn x = true -> fnn (fmax x y) = true.
Proof.
  intros Hx. unfold fmax. destruct (fltb x y) eqn:E; [|done].
  destruct x as [[]|[]| |[] m e], y as [[]|[]| |[] m' e']; try done; by vm_compute in E.
Qed.

Lemma estimate_cu_fnn log2 m g x : estimate_cu log2 m g = Ok x -> fnn x = true.
Proof.
  unfold estimate_cu, expected_compute_units. destruct m, g; try (by intros [= <-]).
  intros E. apply bind_Ok in E as (t & _ & E). injection E as <-. by apply fmax_fnn.
Qed.

(** The receipts of a miner, and those of them with a verdict. *)
Definition of_miner (h : string) (r : JobReceiptV3) : bool := String.eqb (wi_hotkey_ss58 (jr_worker r)) h.
Definition judged (verdicts : dict VerificationVerdictV3) (r : JobReceiptV3) : bool :=
  dict_mem (jr_receipt_id r) verdicts.
Definition count {A} (p : A -> bool) (l : list A) : Z := Z.of_nat (length (List.filter p l)).

Lemma count_cons {A} (p : A -> bool) x l : count p (x :: l) = ((if p x then 1 else 0) + count p l)%Z.
Proof. unfold count. cbn. destruct (p x); cbn [length]; lia. Qed.

Definition window_sound (w : MinerScoreWindow) : Prop :=
  fnn (sw_pass_cu w) = true /\ fnn (sw_fail_cu w) = true /\ fnn (sw_unsampled_cu w) = true.

Lemma credit_sound w v cu : window_sound w -> fnn cu = true -> window_sound (credit w v cu).
Proof.
  intros (H1 & H2 & H3) Hcu. unfold credit, window_sound.
  destruct v as [v|]; [destruct (String.eqb _ "pass"); [|destruct (String.eqb _ "fail")]|];
    cbn; auto using fadd_fnn.
  split_and!; auto. apply fadd_fnn; [done|]. by apply fmul_fpos_fnn.
Qed.

Lemma trust_fnn w : fnn (trust_multiplier w) = true.
Proof.
  unfold trust_multiplier. destruct (feqb _ _); [reflexivity|]. destruct (fltb _ _); [|reflexivity].
  apply fmax_zero_nn.
Qed.

Section windows.
Context {S : Type} `{ObjectStore S} `{SigLib} (log2 : Z -> float).
Context (netuid : Z) (window_id : string) (verdicts : dict VerificationVerdictV3).

Lemma expected_cu_fnn r st st' x : expected_cu_for_receipt log2 netuid r st = (st', Ok x) -> fnn x = true.
Proof.
  unfold expected_cu_for_receipt, st_try. match goal with |- context [?m st] => destruct (m st) as [st1 [y|e]] eqn:E end.
  - intros [= _ <-]. st_step E. st_step E. apply st_lift_Ok in E as [_ E]. by eapply estimate_cu_fnn.
  - destruct (catchable e); [|done]. by intros [= _ <-].
Qed.

(** The window of a miner, or an empty one. *)
Definition window_at (ws : dict MinerScoreWindow) (h : string) : MinerScoreWindow :=
  default (new_window netuid window_id h) (dict_get h ws).

Lemma credit_receipts_spec rs : forall ws st st' ws',
  NoDup (dict_keys ws) -> (forall h w, dict_get h ws = Some w -> window_sound w) ->
  credit_receipts log2 netuid window_id verdicts rs ws st = (st', Ok ws') ->
  NoDup (dict_keys ws') /\ (forall h w, dict_get h ws' = Some w -> window_sound w) /\
  (forall h, sw_receipts (window_at ws' h) = sw_receipts (window_at ws h) + count (of_miner h) rs)%Z /\
  (forall h, sw_verdicts (window_at ws' h) = sw_verdicts (window_at ws h)
     + count (fun r => of_miner h r && judged verdicts r) rs)%Z /\
  (forall h w, dict_get h ws = Some w -> exists w', dict_get h ws' = Some w') /\
  (forall r, r ∈ rs -> exists w, dict_get (wi_hotkey_ss58 (jr_worker r)) ws' = Some w).
Proof.
  induction rs as [|r rs IH]; intros ws st st' ws' Hnd Hs Hc; cbn [credit_receipts] in Hc.
  { injection Hc as <- <-. unfold count. cbn. split_and!; try done; [intros; lia|intros; lia|eauto|].
    by intros r ?%elem_of_nil. }
  apply st_bind_Ok in Hc as (st1 & cu & Hcu & Hc). apply expected_cu_fnn in Hcu.
  set (h0 := wi_hotkey_ss58 (jr_worker r)) in *. fold (window_at ws h0) in Hc.
  set (v := dict_get (jr_receipt_id r) verdicts) in *.
  assert (window_sound (window_at ws h0)) as Hw0.
  { unfold window_at. destruct (dict_get h0 ws) eqn:E; [by eapply Hs|done]. }
  destruct (IH _ st1 st' ws' (dict_set_NoDup h0 (credit (window_at ws h0) v cu) ws Hnd)) as (N & W & R & V & K & A); [|exact Hc|].
  { intros h w. rewrite dict_get_set. destruct (String.eqb h h0); [|apply Hs].
    intros [= <-]. by apply credit_sound. }
  assert (forall h, window_at (dict_set h0 (credit (window_at ws h0) v cu) ws) h =
    if String.eqb h0 h then credit (window_at ws h0) v cu else window_at ws h) as Hat.
  { intros h. unfold window_at at 1. rewrite dict_get_set, (String.eqb_sym h h0). by destruct (String.eqb h0 h). }
  split_and!; try done.
  - intros h. rewrite R, Hat, count_cons. unfold of_miner at 2. fold h0. destruct (String.eqb_spec h0 h) as [->|]; [|lia].
    unfold credit. destruct v as [v'|]; [destruct (String.eqb _ "pass"); [|destruct (String.eqb _ "fail")]|]; cbn; lia.
  - intros h. rewrite V, Hat, count_cons. unfold of_miner at 2, judged at 2, dict_mem. fold h0. fold v.
    destruct (String.eqb_spec h0 h) as [->|]; cbn [andb]; [|lia].
    unfold credit. destruct v as [v'|]; [destruct (String.eqb _ "pass"); [|destruct (String.eqb _ "fail")]|]; cbn; lia.
  - intros h w Hw. destruct (String.eqb h h0) eqn:E.
    + apply (K h (credit (window_at ws h0) v cu)). by rewrite dict_get_set, E.
    + apply (K h w). by rewrite dict_get_set, E.
  - intros r' [->|Hin]%elem_of_cons; [|auto]. apply (K _ (credit (window_at ws h0) v cu)). apply dict_get_set_eq.
Qed.

Lemma read_receipts_spec uris : forall acc s s' rs,
  NoDup (dict_keys acc) -> (forall id r, dict_get id acc = Some r -> jr_receipt_id r = id) ->
  read_receipts uris acc s = (s', Ok rs) ->
  NoDup (dict_keys rs) /\ (forall id r, dict_get id rs = Some r -> jr_receipt_id r = id).
Proof.
  induction uris as [|u uris IH]; intros acc s s' rs Hn Hk Hr; cbn [read_receipts] in Hr.
  { by injection Hr as <- <-. }
  destruct (endswith ".json" u); [|eauto]. apply st_bind_Ok in Hr as (s1 & r & _ & Hr).
  eapply IH; [| |exact Hr]; [by apply dict_set_NoDup|]. intros id r'. rewrite dict_get_set.
  destruct (String.eqb_spec id (jr_receipt_id r)) as [->|]; [by intros [= <-]|apply Hk].
Qed.

Lemma read_verdicts_spec sec hk uris : forall acc s s' vs,
  (forall id v, dict_get id acc = Some v -> vv_receipt_id v = id /\ verdict_signed sec hk v = Ok true) ->
  read_verdicts sec hk uris acc s = (s', Ok vs) ->
  forall id v, dict_get id vs = Some v -> vv_receipt_id v = id /\ verdict_signed sec hk v = Ok true.
Proof.
  induction uris as [|u uris IH]; intros acc s s' vs Hk Hr; cbn [read_verdicts] in Hr.
  { by injection Hr as <- <-. }
  destruct (endswith ".json" u); [|eauto]. apply st_bind_Ok in Hr as (s1 & v & _ & Hr).
  apply st_bind_Ok in Hr as (s2 & good & Hg & Hr). apply st_lift_Ok in Hg as [_ Hg].
  eapply IH; [|exact Hr]. intros id v'. destruct good; [|apply Hk]. rewrite dict_get_set.
  destruct (String.eqb_spec id (vv_receipt_id v)) as [->|]; [by intros [= <-]|apply Hk].
Qed.
End windows.

(** ** Properties *)

Section properties.
Context {S : Type} `{ObjectStore S} `{!ObjectStoreLaws S} `{TT : Torch} `{!Kernels} `{!Replayers}.
Context `{SigLib} `{ExnText}.
Context (dp : result TimelockProvider) (log2 : Z -> float).
Context (clock : string -> nat -> float) (cfg : ValidatorConfig).


(** C15. A validator's own verdict is sound: computing it leaves the bucket as
    it is; it is about the receipt and its miner and signed with the validator's
    key; the compute units are those of a graph with the digest that the
    manifest of the job names, whatever the receipt claims; and it says "pass"
    only if the owner signed that manifest, the miner signed the receipt and
    the receipt carries the manifest's hash. *)
Theorem verdict_sound uri r s s' v :
  ReplayVerifier_verify dp log2 clock cfg uri r s = (s', Ok v) ->
  s' = s /\ vv_receipt_id v = jr_receipt_id r /\ vv_manifest_hash v = jr_manifest_hash r /\
  vv_miner_hotkey v = wi_hotkey_ss58 (jr_worker r) /\ vv_validator_hotkey v = vc_validator_hotkey cfg /\
  (exists sig, vv_validator_signature v = Some sig /\
     record_signature (VerificationVerdictV3_unsigned_dict v) (validator_key cfg) = Ok sig) /\
  exists m g, ReplayVerifier_find_manifest cfg r s = (s, Ok m) /\
    Graph_graph_id g = gr_sha256 (jm_graph_ref m) /\
    expected_compute_units log2 m g = Ok (vv_estimated_cu v) /\
    (vv_status v = "pass" ->
       owner_signed (ReplayVerifier_audit_config cfg) m /\ miner_signed (ReplayVerifier_audit_config cfg) r /\
       JobManifestV3_manifest_hash m = jr_manifest_hash r).
Proof.
  intros Hv. pose proof (reads_verify dp log2 clock cfg uri r s) as Hr. rewrite Hv in Hr. cbn in Hr. split; [exact Hr|].
  unfold ReplayVerifier_verify in Hv.
  apply (reads_bind_Ok _ _ _ _ _ (reads_find_manifest cfg r)) in Hv as (m & Hm & Hv).
  apply st_bind_Ok in Hv as (s1 & a & Ha & Hv). unfold AuditReplayRunner_run in Ha.
  destruct (replay_body _ _ _ _ _ _ _ _ _) as [rp res] eqn:Eb. injection Ha as _ Ha.
  apply verdict_from_audit_inv in Hv as (_ & m' & g & cu & sig & [[= ->]|[? _]] & Hg & Hcu & Hsig & ->); [|done].
  split_and!; try reflexivity; [exists sig; split; [reflexivity|exact Hsig]|].
  exists m', g. split; [exact Hm|]. split; [exact Hg|]. split; [exact Hcu|]. intros Hp.
  destruct res as [[[status reason] dt]|[]]; try discriminate Ha; injection Ha as <-; try discriminate Hp.
  cbn in Hp. subst status. apply replay_body_pass in Eb as (H1' & H2' & H3' & _); [done| |reflexivity].
  intros sha g'. discriminate.
Qed.


End properties.

(** *** Examples *)

#[local] Existing Instances byte_torch byte_kernels byte_replayers no_signatures plain_texts.

Definition sample_validator : ValidatorConfig :=
  mkValidator 3 "run" "val" "vs" None "owner" "" "hotkey" "cpu" fone 4096 "dev" None ["aud"].

(** An audit result signed with the auditor's name as the secret. *)
Definition sample_audit : AuditResultV3 :=
  let a := AuditReplayRunner_result audit_receipt "aud" "pass" "all outputs matched" fone [] fone in
  match AuditResultV3_sign a (BySecret "aud") with Ok a1 => a1 | Err _ => a end.

Definition validator_bucket : LocalBucket :=
  fold_left apply_op
    [OpPutJson "s3://bk/v3/netuid=3/jobs/run/job-1/manifest.json" (PDict (JobManifestV3_to_dict audit_manifest));
     OpPutJson "s3://bk/v3/netuid=3/receipts/run/hotkey=hk1/job-1-0.json" (PDict (JobReceiptV3_to_dict audit_receipt));
     OpPutJson "s3://bk/v3/netuid=3/audits/run/results/a.json" (PDict (AuditResultV3_to_dict sample_audit))]
    audit_bucket.

Definition validator_clock (_ : string) (_ : nat) : float := fone.
Definition sample_log2 (_ : Z) : float := fone.

Example validator_passes :
  rmap vv_status (snd (ReplayVerifier_verify no_provider sample_log2 validator_clock sample_validator "s3://bk/r.json"
    audit_receipt validator_bucket)) = Ok "pass".
Proof. vm_compute. reflexivity. Qed.

Example validator_consumes :
  snd (ReplayVerifier_consume_audit_results sample_log2 id validator_clock sample_validator None validator_bucket) = Ok 1%Z.
Proof. vm_compute. reflexivity. Qed.

Definition sample_rs : list (string * JobReceiptV3) := [("s3://bk/r.json", audit_receipt)].


Lemma verdict_sound_witness :
  exists m, owner_signed (ReplayVerifier_audit_config sample_validator) m /\
    JobManifestV3_manifest_hash m = jr_manifest_hash audit_receipt.
Proof.
  pose proof validator_passes as Hp.
  destruct (ReplayVerifier_verify no_provider sample_log2 validator_clock sample_validator "s3://bk/r.json"
    audit_receipt validator_bucket) as [s' [v|e]] eqn:E; [|discriminate Hp].
  destruct (verdict_sound no_provider sample_log2 validator_clock sample_validator "s3://bk/r.json" audit_receipt
    validator_bucket s' v E) as (_ & _ & _ & _ & _ & _ & m & g & _ & _ & _ & H).
  destruct H as (H1 & _ & H2); [injection Hp as Hp; exact Hp|]. exists m. exact (conj H1 H2).
Defined.


