(* ===== verification/AuditJobs.v ===== *)
(** * Audit jobs ([teuton_validator/audit_jobs.py])

    The validator's manager of audit jobs: it samples receipts, skips those that
    are settled or already under audit, and emits for each of the others a job
    that carries the receipt and the manifest under audit to an auditor.  One
    pass takes no sleep; the queue's snapshot is published at its end. *)

From Stdlib Require Import ZArith Lia Ascii.
From stdpp Require Import base strings list.
From S2P Require Import Prelude PyFloat PyVal Json Digest Paths Signatures Codec Protocol ProtocolFacts.
From S2P Require Import Storage StoreReads Queue QueueFacts Transport Discovery Scheduler Crypto WalletCrypto Emission EmissionFacts.
From S2P Require Import Ir ComputeUnits Tensors Eval AuditReplay Verifier.

Record AuditJobConfig := mkAuditJobs {
  ac_netuid : Z;
  ac_run_id : string;
  ac_validator_hotkey : string;
  ac_owner_secret : string;
  ac_owner_signer : option Signer;
  ac_assignment_secret : string;
  ac_grant_mode : string;
  ac_grant_ttl_sec : Z;
  ac_sample_rate : float;
  ac_assignment_crypto : string;
  ac_network : string;
  ac_discovery_backend : string;
  ac_discovery_heartbeat_ttl_sec : option float;
  ac_audit_eligible_hotkeys : list string
}.

(** [self.config.owner_signer or self.config.owner_secret]. *)
Definition ac_owner_key (cfg : AuditJobConfig) : signer_or_secret :=
  match ac_owner_signer cfg with Some s => BySigner s | None => BySecret (ac_owner_secret cfg) end.

Definition use_allowlist (cfg : AuditJobConfig) : bool :=
  match ac_audit_eligible_hotkeys cfg with [] => false | _ => true end.

(** The configuration of the verifier that a pass consults. *)
Definition audit_validator (cfg : AuditJobConfig) : ValidatorConfig :=
  mkValidator (ac_netuid cfg) (ac_run_id cfg) (ac_validator_hotkey cfg) "validator-dev-secret" None (ac_owner_secret cfg) ""
    "miner-dev-secret" "cpu" (ac_sample_rate cfg) 4096 "teuton-dev-encryption" None [].

(** ** Static helpers *)

(** [out] and the set [seen] of the loop. *)
Fixpoint unique_refs_loop (seen : list string) (refs : list ArtifactRef) : list ArtifactRef :=
  match refs with
  | [] => []
  | ref :: refs' =>
      if bool_decide (ar_uri ref ∈ seen) then unique_refs_loop seen refs'
      else ref :: unique_refs_loop (ar_uri ref :: seen) refs'
  end.

Definition unique_refs (refs : list ArtifactRef) : list ArtifactRef := unique_refs_loop [] refs.

Definition audit_job_id (receipt : JobReceiptV3) : string :=
  "audit-" +:+ jr_job_id receipt +:+ "-" +:+ str_take 16 (sha256_hexdigest (jr_receipt_id receipt)).

Section audit_jobs.
Context {S : Type} `{ObjectStore S} `{SigLib}.
Context (shuffle : list (string * JobReceiptV3) -> list (string * JobReceiptV3)).
Context (clock : nat -> float) (btcli_show : Z -> string -> Z -> result pyval).
Context (cfg : AuditJobConfig).
Context (backend : BucketDiscoveryBackend) (broker : option PresignedUrlBroker) (encryptor : AssignmentEncryptor).
Notation manager := (manager S).

Definition AuditJobManager_discover_auditors : ST manager (list WorkerIdentity) :=
  now ← read_clock clock;
  records ← bucket_do (BucketDiscoveryBackend_discover_workers backend now);
  let records := if use_allowlist cfg
    then List.filter (fun r => bool_decide (wi_hotkey_ss58 (dr_worker r) ∈ ac_audit_eligible_hotkeys cfg)) records else records in
  let workers := map dr_worker records in
  _ ← quota_do (fun b => (QuotaBook_update_workers b (map dr_miner records) workers, Ok tt));
  mret workers.

Definition AuditJobManager_emit_assignment_grant (manifest : JobManifestV3) : ST manager (option string) :=
  match broker with
  | None => mret None
  | Some b =>
      grant ← new_audit_grant clock b (ac_grant_ttl_sec cfg) manifest;
      file_grant btcli_show encryptor
        (audit_assignment_key (ac_netuid cfg) (jm_run_id manifest) (jm_job_id manifest) (jm_assigned_hotkey manifest))
        grant (jm_assigned_hotkey manifest)
  end.

(** The parameters an audit job carries. *)
Definition audit_params (receipt_uri : string) (receipt : JobReceiptV3) (target : JobManifestV3) : dict pyval :=
  [("receipt_uri", PStr receipt_uri); ("receipt", PDict (JobReceiptV3_to_dict receipt));
   ("target_manifest", PDict (JobManifestV3_to_dict target))].

Definition AuditJobManager_emit_audit_job (receipt_uri : string) (receipt : JobReceiptV3) (target : JobManifestV3)
    (job_id : string) : ST manager JobManifestV3 :=
  worker ← quota_do (QuotaBook_pick_worker fone None None);
  uri ← bucket_do (uri_of (audit_result_key (ac_netuid cfg) (ac_run_id cfg) (wi_hotkey_ss58 worker) (jr_receipt_id receipt)));
  let inputs := unique_refs (jm_inputs target ++ jm_outputs target) in
  deadline ← unix_now clock;
  created ← unix_now clock;
  published ← publish_job (ac_owner_key cfg) (audit_job_manifest_key (ac_netuid cfg) (ac_run_id cfg) job_id)
    AuditJobManager_emit_assignment_grant
    (mkManifest job_id (ac_run_id cfg) (jm_step_id target) "audit_replay" (jm_graph_ref target)
       (audit_params receipt_uri receipt target) inputs [mkRef "audit_result" uri None None None]
       (wi_hotkey_ss58 worker) (Some (wi_worker_id worker)) 0 (deadline + ac_grant_ttl_sec cfg) created
       (mkResources 1 "single_worker" []) VerificationPolicy_default None 3);
  _ ← queue_do (fun q => OrchestratorQueue_add q published.2);
  mret published.1.

(** ** A pass *)

(** Whether a sampled receipt still needs an audit job. *)
Definition needs_audit (receipt : JobReceiptV3) : ST manager bool :=
  verdict ← bucket_do (ReplayVerifier_has_verdict (audit_validator cfg) receipt);
  if (verdict : bool) then mret false
  else
    found ← bucket_do (ReplayVerifier_find_audit_result (audit_validator cfg) receipt);
    match found with
    | Some _ => mret false
    | None =>
        uri ← bucket_do (uri_of (audit_job_manifest_key (ac_netuid cfg) (ac_run_id cfg) (audit_job_id receipt)));
        there ← bucket_do (os_exists uri);
        mret (negb there)
    end.

Definition audit_one (receipt_uri : string) (receipt : JobReceiptV3) : ST manager JobManifestV3 :=
  target ← bucket_do (ReplayVerifier_find_manifest (audit_validator cfg) receipt);
  AuditJobManager_emit_audit_job receipt_uri receipt target (audit_job_id receipt).

(** The loop; the number of jobs emitted survives an exception. *)
Fixpoint audit_loop (max_jobs : option Z) (rs : list (string * JobReceiptV3)) (emitted : Z) (m : manager)
    : manager * (Z * result unit) :=
  match rs with
  | [] => (m, (emitted, Ok tt))
  | (uri, receipt) :: rs' =>
      if reached max_jobs emitted then (m, (emitted, Ok tt))
      else
        match needs_audit receipt m with
        | (m1, Err e) => (m1, (emitted, Err e))
        | (m1, Ok false) => audit_loop max_jobs rs' emitted m1
        | (m1, Ok true) =>
            match audit_one uri receipt m1 with
            | (m2, Err e) => (m2, (emitted, Err e))
            | (m2, Ok _) => audit_loop max_jobs rs' (emitted + 1) m2
            end
        end
  end.

(** [self.queue.flush(force=True)], with its readings of the clock. *)
Definition force_flush (now1 now2 : Z) : ST manager unit := fun m =>
  let '((q, s), r) := OrchestratorQueue_flush true now1 now2 (mg_queue m, mg_store m) in
  (mkManager s (mg_quota m) q (mg_resolver m) (mg_emitted m) (mg_readings m), _ ← r; Ok tt).

Definition flush_audit_queue : ST manager unit :=
  now1 ← unix_now clock;
  now2 ← unix_now clock;
  force_flush now1 now2.

(** The [try] statement of [run_once]. *)
Definition audit_pass (max_jobs : option Z) : ST manager Z := fun m =>
    match bucket_do (ReplayVerifier_sample_receipts shuffle (audit_validator cfg)) m with
    | (m1, Err e) => (m1, Err e)
    | (m1, Ok rs) =>
        let '(m2, (emitted, r)) := audit_loop max_jobs rs 0 m1 in
        if (0 <? emitted)%Z then
          match flush_audit_queue m2 with
          | (m3, Err e) => (m3, Err e)
          | (m3, Ok _) => (m3, _ ← r; Ok emitted)
          end
        else (m2, _ ← r; Ok emitted)
    end.

Definition AuditJobManager_run_once (max_jobs : option Z) : ST manager Z :=
  _ ← AuditJobManager_discover_auditors; audit_pass max_jobs.
End audit_jobs.

(** ** Construction *)

Definition AuditJobManager_backend (cfg : AuditJobConfig) : result BucketDiscoveryBackend :=
  build_discovery_backend (ac_discovery_backend cfg) (ac_netuid cfg) (ac_run_id cfg)
    (if use_allowlist cfg then "train" else "audit") (ac_discovery_heartbeat_ttl_sec cfg).

Definition AuditJobManager_crypto `{SigLib} `{BoxLib} (cfg : AuditJobConfig) (ephemeral : string)
    : AssignmentEncryptor * option BtcliMetagraphHotkeyResolver :=
  if String.eqb (ac_assignment_crypto cfg) "ed25519" then
    (sealed_encryptor ephemeral (Ed25519SealedBoxAssignmentCrypto_init None),
     Some (BtcliMetagraphHotkeyResolver_init (ac_netuid cfg) (ac_network cfg) 0))
  else (dev_encryptor (DevAssignmentCrypto_init (ac_assignment_secret cfg)), None).

Definition AuditJobManager_init {S} `{ObjectStore S} (cfg : AuditJobConfig) (base_quota : float) (flush_max_changes : Z)
    (resolver : option BtcliMetagraphHotkeyResolver) (s : S) : manager S * result unit :=
  let '((q, s'), r) := OrchestratorQueue_reconcile_from_bucket []
    (OrchestratorQueue_init (ac_netuid cfg) (ac_run_id cfg) "audit" flush_max_changes, s) in
  (mkManager s' (QuotaBook_init base_quota) q resolver [] 0, r).

(** ** Lemmas *)

#[local] Arguments String.append !s1 s2 : simpl nomatch.

(** Every reference is kept once, in the order of first occurrence. *)
Lemma unique_refs_loop_spec refs : forall seen,
  NoDup (map ar_uri (unique_refs_loop seen refs)) /\ sublist (unique_refs_loop seen refs) refs /\
  (forall uri, uri ∈ map ar_uri (unique_refs_loop seen refs) <-> uri ∈ map ar_uri refs /\ uri ∉ seen).
Proof.
  induction refs as [|ref refs IH]; intros seen; cbn [unique_refs_loop map].
  { split_and!; [constructor|constructor|]. intros uri. rewrite elem_of_nil. tauto. }
  case_bool_decide as Hin.
  - destruct (IH seen) as (I1 & I2 & I3). split_and!; [done|by constructor|]. intros uri. rewrite I3, elem_of_cons.
    split; [tauto|]. by intros [[-> |Hu] Hs].
  - destruct (IH (ar_uri ref :: seen)) as (I1 & I2 & I3). cbn [map]. split_and!; [|by constructor|].
    + constructor; [|done]. rewrite I3, not_elem_of_cons. tauto.
    + intros uri. rewrite !elem_of_cons, I3, not_elem_of_cons. destruct (decide (uri = ar_uri ref)) as [->|]; tauto.
Qed.

Lemma audit_folder netuid run_id key rest : key = audit_root netuid run_id +:+ rest ->
  (forall x, rest <> "/jobs/" +:+ x) -> not_a_manifest (audit_job_manifest_key netuid run_id) key.
Proof.
  intros -> Hr j. unfold audit_job_manifest_key, audit_jobs_prefix. rewrite !str_app_assoc.
  split; intros E; apply str_app_inv_l in E; by eapply Hr.
Qed.

Section facts.
Context {S : Type} `{OS : ObjectStore S} `{!ObjectStoreLaws S} `{SL : SigLib}.
Context (clock : nat -> float) (btcli_show : Z -> string -> Z -> result pyval).
Context (cfg : AuditJobConfig) (broker : option PresignedUrlBroker) (encryptor : AssignmentEncryptor).
Notation manager := (manager S).
Notation mkey := (audit_job_manifest_key (ac_netuid cfg) (ac_run_id cfg)).
Notation acts := (acts mkey).
Notation emitting := (emitting mkey).
Notation audit_uri m id := (manifest_uri mkey (mg_store m) id).
Notation emit := (AuditJobManager_emit_audit_job clock btcli_show cfg broker encryptor).
Notation needs := (needs_audit (S := S) cfg).
Notation loop := (audit_loop clock btcli_show cfg broker encryptor).

Lemma acts_audit_grant man : jm_run_id man = ac_run_id cfg ->
  acts [] [] (AuditJobManager_emit_assignment_grant (S := S) clock btcli_show cfg broker encryptor man).
Proof.
  intros Hrun. unfold AuditJobManager_emit_assignment_grant. destruct broker as [b|]; [|apply acts_ret].
  apply acts_bind0.
  - apply acts_bind0; [apply acts_now|intros now]. apply acts_bind0; [apply acts_mapS; intros; apply acts_broker_get|intros gets].
    apply acts_bind0; [apply acts_mapS; intros; apply acts_broker_put|intros puts; apply acts_ret].
  - intros g. apply acts_file_grant. eapply audit_folder; [unfold audit_assignment_key; by rewrite Hrun|]. intros x E. discriminate E.
Qed.

Lemma needs_quiet receipt : forall m, fst (needs receipt m) = m.
Proof.
  intros m. unfold needs_audit. cbv [mbind st_bind].
  assert (forall A (f : ST S A), reads f -> forall m, fst (bucket_do f m) = m) as Hb.
  { intros A f Hf m0. unfold bucket_do. specialize (Hf (mg_store m0)). destruct (f (mg_store m0)) as [s r]. cbn in *. subst s. by destruct m0. }
  pose proof (Hb _ _ (reads_has_verdict (audit_validator cfg) receipt) m) as H1.
  destruct (bucket_do (ReplayVerifier_has_verdict _ _) m) as [m1 [[|]|e]]; cbn in H1; subst m1; try done.
  pose proof (Hb _ _ (reads_find_audit_result (audit_validator cfg) receipt) m) as H2.
  destruct (bucket_do (ReplayVerifier_find_audit_result _ _) m) as [m1 [[a|]|e]]; cbn in H2; subst m1; try done.
  pose proof (Hb _ _ (reads_uri (mkey (audit_job_id receipt))) m) as H3.
  destruct (bucket_do (uri_of _) m) as [m1 [uri|e]]; cbn in H3; subst m1; try done.
  pose proof (Hb _ _ (reads_exists uri) m) as H4. destruct (bucket_do (os_exists uri) m) as [m1 [b|e]]; cbn in H4; by subst m1.
Qed.

(** Emitting one audit job. *)
Lemma emit_audit_spec uri receipt target id m m' man : emit uri receipt target id m = (m', Ok man) ->
  lacks newline (audit_uri m id) = true ->
  emitting [id] [] m m' /\ os_exists (audit_uri m id) (mg_store m') = (mg_store m', Ok true) /\
  jm_params man = audit_params uri receipt target /\
  (exists sig, jm_owner_signature man = Some sig /\ record_signature (JobManifestV3_unsigned_dict man) (ac_owner_key cfg) = Ok sig) /\
  (exists e, dict_get id (oq_outstanding (mg_queue m')) = Some e /\ qe_manifest_uri e = audit_uri m id /\
     qe_assigned_hotkey e = jm_assigned_hotkey man) /\
  (json_ok (PDict (JobManifestV3_to_dict man)) = true -> EmissionFacts.filed mkey (mg_store m') id man).
Proof.
  intros E Hn. unfold AuditJobManager_emit_audit_job in E. apply st_bind_Ok in E as (m1 & worker & E1 & E).
  pose proof (acts_pick mkey _ _ _ _ _ _ E1) as H1. apply st_bind_Ok in E as (m2 & ruri & E2 & E).
  pose proof (acts_uri mkey _ _ _ _ E2) as H2. apply st_bind_Ok in E as (m3 & deadline & E3 & E).
  pose proof (acts_now mkey clock _ _ _ E3) as H3. apply st_bind_Ok in E as (m4 & created & E4 & E).
  pose proof (acts_now mkey clock _ _ _ E4) as H4.
  pose proof (emitting_trans mkey [] [] [] [] _ _ _ H1 (emitting_trans mkey [] [] [] [] _ _ _ H2
    (emitting_trans mkey [] [] [] [] _ _ _ H3 H4))) as H14. cbn [app] in H14. clear E1 E2 E3 E4 H1 H2 H3 H4.
  apply st_bind_Ok in E as (m5 & p & E5 & E). apply st_bind_Ok in E as (m6 & [] & E6 & E). injection E as <- <-.
  assert (audit_uri m4 id = audit_uri m id) as Hu.
  { unfold manifest_uri. by rewrite (fl_addr _ _ _ _ (em_store _ _ _ _ _ H14)). }
  apply (publish_spec mkey) in E5 as (man & guri & Hsign & -> & Hpub); [|intros man Hman; apply acts_audit_grant;
    by apply bind_Ok in Hman as (? & _ & [= <-])].
  rewrite Hu in Hpub. destruct (Hpub Hn) as (H5 & Hthere & Hfiled). injection E6 as <-.
  pose proof (emitting_trans mkey [] [id] [] [] _ _ _ H14 H5) as H15. cbn [app fst] in *.
  apply bind_Ok in Hsign as (sig & Hsig & [= <-]). split_and!.
  - destruct H15 as [[? ? ?] ? ?]. by split.
  - exact Hthere.
  - done.
  - by exists sig.
  - eexists. split; [cbn; apply dict_get_set_eq|]. cbn. by rewrite Hu.
  - exact Hfiled.
Qed.

(** *** A pass *)

Definition has_verdict (m : manager) (r : JobReceiptV3) : Prop :=
  ReplayVerifier_has_verdict (audit_validator cfg) r (mg_store m) = (mg_store m, Ok true).
Definition under_audit (m : manager) (r : JobReceiptV3) : Prop :=
  os_exists (audit_uri m (audit_job_id r)) (mg_store m) = (mg_store m, Ok true).
(** An audit result that names the receipt was found. *)
Definition answered (r : JobReceiptV3) : Prop :=
  exists s a, ReplayVerifier_find_audit_result (audit_validator cfg) r s = (s, Ok (Some a)).

Lemma bucket_read {A} (f : ST S A) m m' r : reads f -> bucket_do f m = (m', r) -> m' = m /\ f (mg_store m) = (mg_store m, r).
Proof.
  intros Hf E. unfold bucket_do in E. specialize (Hf (mg_store m)). destruct (f (mg_store m)) as [s r']. cbn in Hf. subst s.
  injection E as <- <-. by destruct m.
Qed.

Lemma needs_spec r m m' b : needs r m = (m', Ok b) -> m' = m /\
  if b then ~ has_verdict m r /\ ~ under_audit m r else has_verdict m r \/ answered r \/ under_audit m r.
Proof.
  intros E. pose proof (needs_quiet r m) as Hq. rewrite E in Hq. cbn in Hq. subst m'. split; [done|]. unfold needs_audit in E.
  apply st_bind_Ok in E as (m1 & v & E1 & E). apply bucket_read in E1 as [-> E1]; [|apply reads_has_verdict].
  destruct v; [injection E as <-; by left|]. apply st_bind_Ok in E as (m1 & found & E2 & E).
  apply bucket_read in E2 as [-> E2]; [|apply reads_find_audit_result].
  destruct found as [a|]; [injection E as <-; right; left; by exists (mg_store m), a|].
  apply st_bind_Ok in E as (m1 & uri & E3 & E). apply bucket_read in E3 as [-> E3]; [|apply reads_uri]. injection E3 as <-.
  apply st_bind_Ok in E as (m1 & there & E4 & [= _ Hb]). apply bucket_read in E4 as [_ E4]; [|apply reads_exists].
  rewrite <- Hb. destruct there; [right; right; exact E4|]. split; intros Hx; unfold has_verdict, under_audit, manifest_uri in Hx; congruence.
Qed.

(** The bucket only grows. *)
Definition grows (m m' : manager) : Prop := exists ws, follows mkey ws (mg_store m) (mg_store m').

Lemma grows_refl m : grows m m.
Proof. exists []. apply follows_refl. Qed.

Lemma grows_trans m1 m2 m3 : grows m1 m2 -> grows m2 m3 -> grows m1 m3.
Proof. intros [w1 H1] [w2 H2]. exists (w1 ++ w2). by eapply follows_trans. Qed.

Lemma under_audit_grows m m' r : grows m m' -> under_audit m r -> under_audit m' r.
Proof. intros [ws [Ha Hk _]]. unfold under_audit, manifest_uri. rewrite Ha. apply Hk. Qed.

Lemma has_verdict_grows m m' r : grows m m' -> has_verdict m r -> has_verdict m' r.
Proof.
  intros [ws [Ha Hk _]]. unfold has_verdict, ReplayVerifier_has_verdict, verdict_uri, uri_of. cbv [mbind st_bind]. rewrite Ha. apply Hk.
Qed.

Lemma audit_loop_spec max rs : forall k m m' n, loop max rs k m = (m', (n, Ok tt)) ->
  (forall e, e ∈ rs -> lacks newline (audit_uri m (audit_job_id e.2)) = true) ->
  exists jobs, grows m m' /\ sublist jobs rs /\ n = (k + Z.of_nat (length jobs))%Z /\
    NoDup (map (fun e => audit_job_id e.2) jobs) /\
    (forall limit, max = Some limit -> (k <= limit)%Z -> (n <= limit)%Z) /\
    Forall (fun e => ~ has_verdict m e.2 /\ ~ under_audit m e.2 /\ under_audit m' e.2) jobs /\
    (max = None -> Forall (fun e => under_audit m' e.2 \/ has_verdict m' e.2 \/ answered e.2) rs).
Proof.
  induction rs as [|[uri r] rs IH]; intros k m m' n E Hn; cbn [audit_loop] in E.
  { injection E as <- <-. exists []. split; [apply grows_refl|]. split; [apply sublist_nil_l|]. split; [cbn; lia|]. split; [constructor|].
    split; [done|]. split; [constructor|]. constructor. }
  destruct (reached max k) eqn:Hr.
  { injection E as <- <-. exists []. split; [apply grows_refl|]. split; [apply sublist_nil_l|]. split; [cbn; lia|]. split; [constructor|].
    split; [done|]. split; [constructor|]. by intros ->. }
  destruct (needs r m) as [m1 [[|]|e]] eqn:E1; [| |done].
  - apply needs_spec in E1 as [-> [Hv Hu]]. destruct (audit_one _ _ _ _ _ uri r m) as [m2 [man|e]] eqn:E2; [|done].
    unfold audit_one in E2. apply st_bind_Ok in E2 as (m3 & target & E3 & E2).
    apply bucket_read in E3 as [-> _]; [|apply reads_find_manifest].
    apply emit_audit_spec in E2 as (Hem & Hthere & _); [|apply (Hn (uri, r)); by left].
    assert (grows m m2) as Hg by (eexists; exact (em_store _ _ _ _ _ Hem)).
    assert (forall id, audit_uri m2 id = audit_uri m id) as Huri.
    { intros id. unfold manifest_uri. by rewrite (fl_addr _ _ _ _ (em_store _ _ _ _ _ Hem)). }
    apply IH in E as (jobs & Hg2 & Hs & -> & Hnd & Hmax & Hj & Hall).
    2: { intros e He. rewrite Huri. apply Hn. by right. }
    assert (under_audit m2 r) as Hua by (unfold under_audit; by rewrite Huri).
    exists ((uri, r) :: jobs). split_and!.
    + by eapply grows_trans.
    + by constructor.
    + cbn [length]. lia.
    + cbn [map snd]. constructor; [|done]. intros (e & He & Hin)%list_elem_of_fmap. rewrite Forall_forall in Hj.
      destruct (Hj e Hin) as (_ & Hu' & _). apply Hu'. unfold under_audit in *. by rewrite <- He.
    + intros limit -> Hk. apply Hmax; [done|]. cbn [reached] in Hr. lia.
    + constructor; [split_and!; [done..|by eapply under_audit_grows]|]. eapply Forall_impl; [exact Hj|].
      intros e (H1 & H2 & H3). split_and!; [|..|done]; [intros H; by apply H1, (has_verdict_grows m)|intros H; by apply H2, (under_audit_grows m)].
    + intros Hnone. constructor; [left; by eapply under_audit_grows|by apply Hall].
  - apply needs_spec in E1 as [-> Hs]. apply IH in E as (jobs & Hg & Hsub & -> & Hnd & Hmax & Hj & Hall); [|intros e He; apply Hn; by right].
    exists jobs. split_and!; try done; [by apply sublist_cons|]. intros Hnone. constructor; [|by apply Hall].
    destruct Hs as [Hs|[Hs|Hs]]; [right; left; by eapply has_verdict_grows|by right; right|left; by eapply under_audit_grows].
Qed.

Context (shuffle : list (string * JobReceiptV3) -> list (string * JobReceiptV3)).

Lemma reads_collect vcfg uris : reads (S := S) (collect_receipts vcfg uris).
Proof.
  induction uris as [|uri uris IH]; cbn [collect_receipts]; [apply reads_ret|]. destruct (negb _); [done|].
  apply reads_bind; [apply reads_skip, reads_record|intros [r|]]; [|done]. destruct (sampled_out _ _); [done|].
  apply reads_bind; [done|intros rest; apply reads_ret].
Qed.

Lemma reads_sample vcfg : reads (S := S) (ReplayVerifier_sample_receipts shuffle vcfg).
Proof.
  apply reads_bind; [apply reads_uri|intros p]. apply reads_bind; [apply reads_list|intros uris].
  apply reads_bind; [apply reads_collect|intros out; apply reads_ret].
Qed.

Lemma flush_grows m m' : flush_audit_queue clock m = (m', Ok tt) -> grows m m'.
Proof.
  intros E. unfold flush_audit_queue in E. apply st_bind_Ok in E as (m1 & n1 & E1 & E). apply st_bind_Ok in E as (m2 & n2 & E2 & E).
  pose proof (acts_now mkey _ _ _ _ E1) as H1. pose proof (acts_now mkey _ _ _ _ E2) as H2. unfold force_flush in E.
  destruct (OrchestratorQueue_flush true n1 n2 (mg_queue m2, mg_store m2)) as [[q s] r] eqn:Ef. injection E as <- _.
  apply (flush_follows mkey) in Ef. cbn in Ef. eapply grows_trans; [eexists; exact (em_store _ _ _ _ _ H1)|].
  eapply grows_trans; [eexists; exact (em_store _ _ _ _ _ H2)|]. by exists [].
Qed.


(** What a program reads from the parameters of an audit job. *)
Definition audit_subject (manifest : JobManifestV3) : result (string * JobReceiptV3 * JobManifestV3) :=
  tv ← item (jm_params manifest) "target_manifest";
  td ← as_object tv;
  target ← JobManifestV3_from_dict td;
  rv ← item (jm_params manifest) "receipt";
  rd ← as_object rv;
  receipt ← JobReceiptV3_from_dict rd;
  uri ← req_str (jm_params manifest) "receipt_uri";
  Ok (uri, receipt, target).

Lemma audit_subject_normal uri receipt target man :
  keys_ok (PDict (audit_params uri receipt target)) = true -> jm_params man = canon_dict (audit_params uri receipt target) ->
  audit_subject man = Ok (uri, JobReceiptV3_normal receipt, JobManifestV3_normal target).
Proof.
  intros Hk Hp. unfold audit_subject. rewrite Hp, !item_canon, req_str_canon by done.
  pose proof (keys_ok_get _ "target_manifest" _ Hk eq_refl) as Ht. pose proof (keys_ok_get _ "receipt" _ Hk eq_refl) as Hr.
  change (item (audit_params uri receipt target) "target_manifest") with (Ok (PDict (JobManifestV3_to_dict target))).
  change (item (audit_params uri receipt target) "receipt") with (Ok (PDict (JobReceiptV3_to_dict receipt))).
  change (req_str (audit_params uri receipt target) "receipt_uri") with (Ok uri).
  cbn [rmap mbind result_bind]. rewrite !canon_PDict. cbn [as_object mbind result_bind].
  rewrite JobManifestV3_sorted by done.
  assert (JobManifestV3_from_dict (JobManifestV3_to_dict target) = Ok target) as -> by exact (wire_from_to target).
  cbn [rmap mbind result_bind as_object]. rewrite JobReceiptV3_sorted by done.
  assert (JobReceiptV3_from_dict (JobReceiptV3_to_dict receipt) = Ok receipt) as -> by exact (wire_from_to receipt). done.
Qed.

(** C29. An audit job reaches its auditor whole.  After [emit_audit_job] the queue
    holds an entry for the assigned auditor that points to the manifest; who
    reads the manifest from the bucket finds the owner's signature over what was
    read, and in its parameters the receipt and the manifest under audit. *)
Theorem audit_job_reaches_auditor uri receipt target id (m m' : manager) man :
  emit uri receipt target id m = (m', Ok man) -> lacks newline (audit_uri m id) = true ->
  json_ok (PDict (JobManifestV3_to_dict man)) = true ->
  exists entry back sig,
    dict_get id (oq_outstanding (mg_queue m')) = Some entry /\ qe_assigned_hotkey entry = jm_assigned_hotkey back /\
    read_record JobManifestV3_from_dict (qe_manifest_uri entry) (mg_store m') = (mg_store m', Ok back) /\
    audit_subject back = Ok (uri, JobReceiptV3_normal receipt, JobManifestV3_normal target) /\
    jm_owner_signature back = Some sig /\ record_signature (JobManifestV3_unsigned_dict back) (ac_owner_key cfg) = Ok sig.
Proof.
  intros E Hn Hok. pose proof (emit_audit_spec _ _ _ _ _ _ _ E Hn) as (Hem & _ & Hp & (sig & Hs1 & Hs2) & (e & Hq & Hu & Hh) & Hf).
  specialize (Hf Hok). exists e, (JobManifestV3_normal man), sig. split; [exact Hq|]. split; [exact Hh|].
  split; [rewrite Hu, <- (filed_read _ _ _ _ Hf); unfold manifest_uri; by rewrite (fl_addr _ _ _ _ (em_store _ _ _ _ _ Hem))|].
  split.
  - apply audit_subject_normal; [|cbn; by rewrite Hp]. rewrite <- Hp. apply json_ok_keys_ok in Hok.
    eapply (keys_ok_get _ "params"); [exact Hok|reflexivity].
  - split; [exact Hs1|]. assert (canonical_json (PDict (JobManifestV3_unsigned_dict (JobManifestV3_normal man))) =
      canonical_json (PDict (JobManifestV3_unsigned_dict man))) as Hb by exact (unsigned_bytes_stable man).
    destruct (ac_owner_key cfg); unfold record_signature, sign_dict in *; by rewrite Hb.
Qed.
End facts.

(** ** An example *)

#[local] Existing Instances byte_torch no_signatures.

Definition audit_jobs_cfg : AuditJobConfig :=
  mkAuditJobs 3 "run" "vk" "owner" None "" "direct" 600 fone "dev" "" "bucket" None [].

Definition audit_start : manager LocalBucket :=
  mkManager (fold_left apply_op
      [OpPutJson "s3://bk/v3/netuid=3/jobs/run/job-1/manifest.json" (PDict (JobManifestV3_to_dict audit_manifest));
       OpPutJson "s3://bk/v3/netuid=3/receipts/run/hotkey=hk1/job-1/attempt=0.json" (PDict (JobReceiptV3_to_dict audit_receipt))]
      (LocalBucket_init "bk" 0))
    (QuotaBook_update_workers (QuotaBook_init (float_of_Z 16)) [mkMiner 3 "ak" (Some 1%Z) None None []]
       [mkWorkerIdentity "ak" "a0" "h" (Some 0%Z) "n" "" [] None []])
    (OrchestratorQueue_init 3 "run" "audit" 100) None [] 0.

Definition sample_pass : ST (manager LocalBucket) Z :=
  audit_pass (fun rs => rs) (fun _ => fone) (fun _ _ _ => Err (RuntimeError "")) audit_jobs_cfg None (dev_encryptor (DevAssignmentCrypto_init "")) None.

Lemma sample_pass_runs : snd (sample_pass audit_start) = Ok 1%Z.
Proof. vm_compute. reflexivity. Qed.


Definition sample_emission : ST (manager LocalBucket) JobManifestV3 :=
  AuditJobManager_emit_audit_job (fun _ => fone) (fun _ _ _ => Err (RuntimeError "")) audit_jobs_cfg None
    (dev_encryptor (DevAssignmentCrypto_init "")) "s3://bk/r.json" audit_receipt audit_manifest (audit_job_id audit_receipt).

Lemma sample_emission_printable :
  match snd (sample_emission audit_start) with Ok man => json_ok (PDict (JobManifestV3_to_dict man)) | Err _ => false end = true.
Proof. vm_compute. reflexivity. Qed.

Lemma audit_job_reaches_auditor_witness : exists m' man back,
  sample_emission audit_start = (m', Ok man) /\ audit_subject back = Ok ("s3://bk/r.json", JobReceiptV3_normal audit_receipt, JobManifestV3_normal audit_manifest).
Proof.
  pose proof sample_emission_printable as Hok. destruct (sample_emission audit_start) as [m' [man|e]] eqn:E; [|discriminate Hok].
  cbn [snd] in Hok. destruct (audit_job_reaches_auditor (fun _ => fone) (fun _ _ _ => Err (RuntimeError "")) audit_jobs_cfg None
    (dev_encryptor (DevAssignmentCrypto_init "")) "s3://bk/r.json" audit_receipt audit_manifest (audit_job_id audit_receipt) audit_start m' man E)
    as (entry & back & sig & _ & _ & _ & Hb & _); [vm_compute; reflexivity|exact Hok|]. exists m', man, back. by split.
Defined.
