(* ===== verification/Subnet.v ===== *)
(** * Publishing weights ([teuton_validator/subnet.py])

    Scores are cleaned and normalised, mapped to the subnet's uids and handed
    to the chain.  The chain client is a parameter: the metagraph's hotkeys and
    what [set_weights] answers. *)

From Stdlib Require Import ZArith Lia Ascii.
From stdpp Require Import base strings list sorting.
From S2P Require Import Prelude PyFloat FloatExact PyVal Json Codec Crypto AuditReplay.

Record WeightUpdate := mkUpdate {
  wu_uids : list Z;
  wu_weights : list float;
  wu_submitted : bool;
  wu_reason : string;
  wu_message : string;
  wu_extrinsic_hash : pyval;
  wu_block_hash : pyval;
  wu_dropped_hotkeys : list string;
  wu_extra : dict pyval
}.

(** The answer of [set_weights]: a tuple, or an object with attributes and its
    [repr]. *)
Inductive chain_answer : Type :=
  | ATuple (items : list pyval)
  | AObject (attrs : dict pyval) (repr : string).

Section subnet.
(** [sum] of floats; its rounding differs between Python releases. *)
Context (py_sum : list float -> float).

Definition BittensorAdapter_normalize_scores (scores : dict float) : dict float :=
  let clean := dict_map (fmax fzero) scores in
  match clean with
  | [] => []
  | _ =>
      let total := py_sum (dict_values clean) in
      if fleb total fzero then
        let equal := fdiv fone (float_of_Z (Z.of_nat (length clean))) in
        map (fun k => (k, equal)) (sorted_strings (dict_keys clean))
      else dict_map (fun v => fdiv v total) clean
  end.

(** [{hotkey: uid for uid, hotkey in enumerate(metagraph.hotkeys)}]. *)
Definition enumerate_hotkeys (hotkeys : list string) : dict Z :=
  snd (fold_left (fun '(uid, d) h => ((uid + 1)%Z, dict_set h uid d)) hotkeys (0%Z, [])).

(** [metagraph] is what reading the chain's metagraph answers. *)
Definition BittensorAdapter_hotkey_to_uid (dry_run : bool) (metagraph : result (list string)) : result (dict Z) :=
  if dry_run then Ok []
  else hotkeys ← metagraph; Ok (enumerate_hotkeys hotkeys).

(** Tuples [(uid, score)] in Python's order. *)
Definition pair_leb (a b : Z * float) : bool :=
  (a.1 <? b.1)%Z || ((a.1 =? b.1)%Z && negb (fltb b.2 a.2)).

Definition item_leb (a b : string * float) : bool := String.leb a.1 b.1.

(** The pairs to submit. *)
Definition weight_pairs (normalized : dict float) (hotkey_to_uid : dict Z) : list (Z * float) :=
  sort_by pair_leb
    (omap (fun '(h, score) => match dict_get h hotkey_to_uid with Some uid => Some (uid, score) | None => None end)
       normalized).

Definition missing_hotkeys (normalized : dict float) (hotkey_to_uid : dict Z) : list string :=
  sorted_strings (List.filter (fun h => negb (dict_mem h hotkey_to_uid)) (dict_keys normalized)).

Definition is_rate_limit (msg : string) : bool :=
  let low := to_lower msg in
  str_contains "ratelimit" low || str_contains "rate_limit" low || str_contains "too soon" low.

(** Submitted, reason, message, hashes and extras, from the answer.  Reading an
    attribute or converting it to text raises nothing here, so the handler that
    records a [parse_error] is never entered. *)
Definition read_answer (answer : chain_answer)
    : result (bool * string * string * pyval * pyval * dict pyval) :=
  let from_object attrs repr :=
    let submitted := truthy (por (get_or attrs "success" (PBool false)) (get_or attrs "is_success" (PBool false))) in
    msg ← py_str (por (por (get_or attrs "error_message" (PStr "")) (get_or attrs "error" (PStr ""))) (PStr ""));
    let reason := if submitted then "success" else if String.eqb msg "" then "unknown" else "chain_rejected" in
    Ok (submitted, reason, msg, get attrs "extrinsic_hash", get attrs "block_hash",
        [("raw_repr", PStr (str_take 300 repr))]) in
  match answer with
  | ATuple (first :: rest) =>
      let submitted := truthy first in
      msg ← match rest with
            | [] => Ok EmptyString
            | PNone :: _ => Ok EmptyString
            | v :: _ => py_str v
            end;
      let reason :=
        if submitted then "success"
        else if String.eqb msg "" then ""
        else if is_rate_limit msg then "ratelimited" else "chain_rejected" in
      Ok (submitted, reason, msg, PNone, PNone, [])
  | ATuple [] => from_object [] "()"
  | AObject attrs repr => from_object attrs repr
  end.

Context `{ExnText}.
(** The chain: the metagraph's hotkeys and [set_weights]. *)
Context (metagraph : result (list string)) (set_weights : list Z -> list float -> result chain_answer).

Definition plain_update (uids : list Z) (weights : list float) (submitted : bool) (reason message : string)
    (dropped : list string) : WeightUpdate :=
  mkUpdate uids weights submitted reason message PNone PNone dropped [].

Definition BittensorAdapter_publish_weights (dry_run : bool) (scores : dict float) : result WeightUpdate :=
  hotkey_to_uid ← BittensorAdapter_hotkey_to_uid dry_run metagraph;
  let normalized := BittensorAdapter_normalize_scores scores in
  if dry_run then
    let ordered := sort_by item_leb normalized in
    Ok (plain_update (map Z.of_nat (seq 0 (length ordered))) (map snd ordered) true "dry_run" "" [])
  else match normalized with
  | [] => Ok (plain_update [] [] false "no_scores" "" [])
  | _ =>
      let missing := missing_hotkeys normalized hotkey_to_uid in
      let pairs := weight_pairs normalized hotkey_to_uid in
      let uids := map fst pairs in
      let weights := map snd pairs in
      match uids with
      | [] => Ok (plain_update [] [] false "no_mapped_hotkeys" "" missing)
      | _ =>
          match set_weights uids weights with
          | Err e => if catchable e then Ok (plain_update uids weights false "set_weights_exception" (exn_repr e) missing)
                     else Err e
          | Ok answer =>
              a ← read_answer answer;
              let '(submitted, reason, msg, ext_hash, blk_hash, extra) := a in
              Ok (mkUpdate uids weights submitted reason msg ext_hash blk_hash missing extra)
          end
      end
  end.
End subnet.

(** ** Lemmas *)

(** What validators rely on: a sum of numbers that are not negative is such a
    number. *)
Definition sums_nonneg (py_sum : list float -> float) : Prop :=
  forall l, Forall (fun x => fnn x = true) l -> fnn (py_sum l) = true.

(** [sum] of releases that add from the left. *)
Definition plain_sum (l : list float) : float := fold_left fadd l fzero.

Lemma plain_sum_nonneg : sums_nonneg plain_sum.
Proof.
  intros l Hl. unfold plain_sum. assert (fnn fzero = true) as H0 by done. revert H0. generalize fzero.
  induction Hl as [|x l Hx _ IH]; intros t Ht; [done|]. cbn. apply IH. by apply fadd_fnn.
Qed.

Lemma enumerate_spec hotkeys : forall uid (d : dict Z),
  (forall h u, dict_get h d = Some u -> (u < uid)%Z) ->
  (forall h h' u, dict_get h d = Some u -> dict_get h' d = Some u -> h = h') ->
  let d' := snd (fold_left (fun '(uid, d) h => ((uid + 1)%Z, dict_set h uid d)) hotkeys (uid, d)) in
  (forall h h' u, dict_get h d' = Some u -> dict_get h' d' = Some u -> h = h') /\
  (forall h, is_Some (dict_get h d') <-> is_Some (dict_get h d) \/ h ∈ hotkeys).
Proof.
  induction hotkeys as [|k hotkeys IH]; intros uid d Hlt Hinj; cbn [fold_left].
  { split; [exact Hinj|]. intros h. cbn. split; [by left|]. by intros [?|?%elem_of_nil]. }
  destruct (IH (uid + 1)%Z (dict_set k uid d)) as [I1 I2].
  - intros h u. rewrite dict_get_set. destruct (String.eqb h k); [intros [= <-]; lia|].
    intros Hu%Hlt. lia.
  - intros h h' u. rewrite !dict_get_set.
    destruct (String.eqb_spec h k) as [->|], (String.eqb_spec h' k) as [->|]; [done| | |by apply Hinj].
    + intros [= <-] Hu%Hlt. lia.
    + intros Hu%Hlt [= <-]. lia.
  - split; [exact I1|]. intros h. rewrite I2, dict_get_set, elem_of_cons.
    destruct (String.eqb_spec h k) as [->|Hne]; [split; [by right; left|by left; eexists]|].
    split; [intros [?|?]; auto|intros [?|[?|?]]; auto; done].
Qed.

Lemma hotkey_to_uid_inj hotkeys h h' u :
  dict_get h (enumerate_hotkeys hotkeys) = Some u ->
  dict_get h' (enumerate_hotkeys hotkeys) = Some u -> h = h'.
Proof. apply (enumerate_spec hotkeys 0 []); by intros. Qed.

Lemma normalize_keys py_sum scores h : NoDup (dict_keys scores) ->
  NoDup (dict_keys (BittensorAdapter_normalize_scores py_sum scores)) /\
  (h ∈ dict_keys (BittensorAdapter_normalize_scores py_sum scores) <-> h ∈ dict_keys scores).
Proof.
  intros Hn. unfold BittensorAdapter_normalize_scores.
  destruct (dict_map (fmax fzero) scores) as [|x l] eqn:E.
  - pose proof (dict_keys_map (fmax fzero) scores) as Hk. rewrite E in Hk. rewrite <- Hk. split; [constructor|done].
  - rewrite <- E. destruct (fleb _ _).
    + assert (dict_keys (map (fun k => (k, fdiv fone (float_of_Z (Z.of_nat (length (dict_map (fmax fzero) scores))))))
        (sorted_strings (dict_keys (dict_map (fmax fzero) scores)))) =
        sorted_strings (dict_keys (dict_map (fmax fzero) scores))) as ->.
      { unfold dict_keys at 1. rewrite map_map. by rewrite map_id. }
      rewrite dict_keys_map. unfold sorted_strings. rewrite sort_by_elem. split; [|done]. by rewrite sort_by_perm.
    + by rewrite !dict_keys_map.
Qed.

(** Sorting pairs whose uids are distinct puts the uids in strict order. *)
Lemma insert_pair_sorted x l :
  x.1 ∉ map fst l -> StronglySorted Z.lt (map fst l) ->
  StronglySorted Z.lt (map fst (insert_by pair_leb x l)).
Proof.
  induction l as [|y l IH]; intros Hx Hs; cbn; [repeat constructor|].
  cbn in Hx. apply not_elem_of_cons in Hx as [Hne Hx]. cbn in Hs. inversion Hs as [|? ? Hs' Hall]; subst.
  unfold pair_leb. destruct (Z.ltb_spec x.1 y.1) as [Hlt|Hge]; cbn.
  - constructor; [done|]. constructor; [done|]. eapply Forall_impl; [exact Hall|]. cbn. lia.
  - destruct (Z.eqb_spec x.1 y.1); [lia|]. cbn. constructor; [by apply IH|].
    rewrite (Permutation_map fst (insert_by_perm pair_leb x l)). constructor; [lia|done].
Qed.

Lemma sort_pairs_sorted l : NoDup (map fst l) -> StronglySorted Z.lt (map fst (sort_by pair_leb l)).
Proof.
  induction l as [|x l IH]; cbn; intros Hn; [constructor|]. apply NoDup_cons in Hn as [Hx Hn].
  apply insert_pair_sorted; [|by apply IH]. by rewrite (Permutation_map fst (sort_by_perm pair_leb l)).
Qed.

Definition mapped (uids : dict Z) (e : string * float) : option (Z * float) :=
  match dict_get e.1 uids with Some uid => Some (uid, e.2) | None => None end.

Lemma weight_pairs_mapped normalized uids :
  weight_pairs normalized uids = sort_by pair_leb (omap (mapped uids) normalized).
Proof. unfold weight_pairs. f_equal. apply list_omap_ext. by apply Forall2_same_length_lookup; split; [|intros ? [] [] ? ?; simplify_eq]. Qed.

Lemma weight_pairs_elem normalized uids uid w : NoDup (dict_keys normalized) ->
  (uid, w) ∈ weight_pairs normalized uids <->
  exists h, dict_get h uids = Some uid /\ dict_get h normalized = Some w.
Proof.
  intros Hn. rewrite weight_pairs_mapped, sort_by_elem, list_elem_of_omap. split.
  - intros ([h w'] & Hin & E). unfold mapped in E. cbn in E.
    destruct (dict_get h uids) as [u|] eqn:Eu; simplify_eq. exists h. split; [done|]. by apply dict_elem_get.
  - intros (h & Hu & Hw). exists (h, w). split; [by apply dict_get_elem|]. unfold mapped. cbn. by rewrite Hu.
Qed.

Lemma mapped_uids_NoDup hotkeys normalized : NoDup (dict_keys normalized) ->
  NoDup (map fst (omap (mapped (enumerate_hotkeys hotkeys)) normalized)).
Proof.
  induction normalized as [|[h w] d IH]; intros Hn; [constructor|]. cbn in Hn. apply NoDup_cons in Hn as [Hh Hn].
  cbn. unfold mapped at 1. cbn. destruct (dict_get h _) as [u|] eqn:Eu; [|by apply IH]. cbn.
  constructor; [|by apply IH]. rewrite list_elem_of_fmap. intros ([u' w'] & -> & Hin).
  apply list_elem_of_omap in Hin as ([h' w''] & Hin & E). unfold mapped in E. cbn in E, Eu.
  destruct (dict_get h' _) as [u''|] eqn:Eu'; simplify_eq.
  apply Hh. rewrite (hotkey_to_uid_inj _ _ _ _ Eu Eu'). apply list_elem_of_fmap. by exists (h', w').
Qed.

(** What [normalize_scores] gives every hotkey when all scores are finite. *)
Lemma normalize_nonneg py_sum scores h w :
  sums_nonneg py_sum -> Forall (fun e => float_finite e.2 = true) scores ->
  dict_get h (BittensorAdapter_normalize_scores py_sum scores) = Some w -> fnn w = true.
Proof.
  intros Hsum Hf. unfold BittensorAdapter_normalize_scores.
  destruct (dict_map (fmax fzero) scores) as [|x l] eqn:E; [done|]. rewrite <- E.
  assert (Forall (fun v => fnn v = true) (dict_values (dict_map (fmax fzero) scores))) as Hnn.
  { unfold dict_values, dict_map. rewrite map_map. apply Forall_fmap, Forall_forall. intros [k v] _. apply fmax_zero_nn. }
  pose proof (Hsum _ Hnn) as Ht. destruct (fleb _ fzero) eqn:El.
  - intros (k & Hk & _)%dict_get_elem%list_elem_of_fmap. apply pair_equal_spec in Hk as [_ ->]. apply fdiv_fnn; [done| |done].
    apply float_of_Z_fpos; rewrite E; cbn; lia.
  - rewrite !dict_get_map. destruct (dict_get h scores) as [v|] eqn:Eh; [|done]. cbn. intros [= <-].
    apply fdiv_fnn; [apply fmax_zero_nn| |].
    + destruct (py_sum _) as [[]|[]| |[]]; done.
    + apply dict_get_elem in Eh. rewrite Forall_forall in Hf. specialize (Hf _ Eh). cbn in Hf.
      unfold fmax. by destruct (fltb _ _).
Qed.

(** The lists handed to the chain, and the hotkeys left out. *)
Definition update_sound (hotkeys : list string) (scores normalized : dict float) (u : WeightUpdate) : Prop :=
  StronglySorted Z.lt (wu_uids u) /\ length (wu_weights u) = length (wu_uids u) /\
  (forall uid w, (uid, w) ∈ zip (wu_uids u) (wu_weights u) <->
     exists h, dict_get h (enumerate_hotkeys hotkeys) = Some uid /\ dict_get h normalized = Some w) /\
  (forall h, h ∈ wu_dropped_hotkeys u <-> h ∈ dict_keys scores /\ h ∉ hotkeys).

Lemma known_hotkeys hotkeys h : dict_mem h (enumerate_hotkeys hotkeys) = false <-> h ∉ hotkeys.
Proof.
  unfold dict_mem. destruct (enumerate_spec hotkeys 0 []) as [_ H]; [by intros..|]. specialize (H h).
  fold (enumerate_hotkeys hotkeys) in H. unfold is_Some in H. destruct (dict_get h _); cbn in *.
  - split; [done|]. intros Hh. exfalso. destruct H as [H _]. destruct H as [[? ?]|?]; eauto; done.
  - split; [|done]. intros _ Hin. destruct H as [_ H]. destruct H as [? ?]; [by right|done].
Qed.

Lemma weight_lists_sound py_sum hotkeys scores u : NoDup (dict_keys scores) ->
  let normalized := BittensorAdapter_normalize_scores py_sum scores in
  let pairs := weight_pairs normalized (enumerate_hotkeys hotkeys) in
  wu_uids u = map fst pairs -> wu_weights u = map snd pairs ->
  wu_dropped_hotkeys u = missing_hotkeys normalized (enumerate_hotkeys hotkeys) ->
  update_sound hotkeys scores normalized u.
Proof.
  intros Hn normalized pairs Hu Hw Hd.
  assert (NoDup (dict_keys normalized)) as Hn' by (by apply (normalize_keys py_sum scores EmptyString)).
  unfold update_sound. rewrite Hu, Hw, Hd. split_and!.
  - unfold pairs. rewrite weight_pairs_mapped. by apply sort_pairs_sorted, mapped_uids_NoDup.
  - by rewrite !length_map.
  - intros uid w. rewrite zip_fst_snd. by apply weight_pairs_elem.
  - intros h. unfold missing_hotkeys, sorted_strings. rewrite sort_by_elem, list_elem_of_In, filter_In.
    rewrite <- list_elem_of_In, negb_true_iff, known_hotkeys. fold normalized. pose proof (proj2 (normalize_keys py_sum scores h Hn)) as Hk. fold normalized in Hk. tauto.
Qed.

(** The chain's answer is either read or outside the values modelled. *)
Lemma read_answer_error answer e : read_answer answer = Err e -> e = Unmodelled.
Proof.
  assert (forall v e, py_str v = Err e -> e = Unmodelled) as Hs.
  { intros [| | |x| | |] e'; cbn; try done; try (by intros [= <-]). destruct (float_finite x); [done|by intros [= <-]]. }
  destruct answer as [[|first rest]|attrs repr]; unfold read_answer; cbn.
  - done.
  - destruct rest as [|[] ?]; cbn; try done; try (by intros [= <-]). destruct (float_finite x); [done|by intros [= <-]].
  - destruct (py_str _) eqn:Ep; cbn; [done|]. intros [= <-]. by eapply Hs.
Qed.

Section publishing.
Context `{ExnText} (py_sum : list float -> float) (metagraph : result (list string))
  (set_weights : list Z -> list float -> result chain_answer) (scores : dict float).

(** Every branch that answers. *)
Lemma publish_cases u :
  BittensorAdapter_publish_weights py_sum metagraph set_weights false scores = Ok u ->
  let normalized := BittensorAdapter_normalize_scores py_sum scores in
  exists hotkeys, metagraph = Ok hotkeys /\
    wu_uids u = map fst (weight_pairs normalized (enumerate_hotkeys hotkeys)) /\
    wu_weights u = map snd (weight_pairs normalized (enumerate_hotkeys hotkeys)) /\
    wu_dropped_hotkeys u = missing_hotkeys normalized (enumerate_hotkeys hotkeys) /\
    (wu_submitted u = true -> exists answer, set_weights (wu_uids u) (wu_weights u) = Ok answer /\ wu_uids u <> []).
Proof.
  unfold BittensorAdapter_publish_weights. cbn [BittensorAdapter_hotkey_to_uid].
  destruct metagraph as [hotkeys|]; [|done]. cbn [mbind result_bind].
  destruct (BittensorAdapter_normalize_scores py_sum scores) as [|e l] eqn:En.
  { intros [= <-]. by exists hotkeys. }
  rewrite <- En. intros Hr. exists hotkeys. split; [done|].
  set (normalized := BittensorAdapter_normalize_scores py_sum scores) in *.
  destruct (map fst (weight_pairs normalized _)) as [|uid uids] eqn:Eu.
  { injection Hr as <-. cbn. apply map_eq_nil in Eu. by rewrite Eu. }
  destruct (set_weights _ _) as [answer|e'] eqn:Es; [|destruct (catchable e'); [by injection Hr as <-|done]].
  destruct (read_answer answer) as [[[[[[submitted reason] msg] eh] bh] extra]|]; [|done].
  cbn in Hr. injection Hr as <-. cbn. split_and!; try done. intros _. by exists answer.
Qed.

Lemma publish_errors e :
  BittensorAdapter_publish_weights py_sum metagraph set_weights false scores = Err e ->
  metagraph = Err e \/ catchable e = false.
Proof.
  unfold BittensorAdapter_publish_weights. cbn [BittensorAdapter_hotkey_to_uid].
  destruct metagraph as [hotkeys|]; [|intros [= <-]; by left]. cbn [mbind result_bind]. intros Hr. right.
  destruct (BittensorAdapter_normalize_scores py_sum scores) as [|a l]; [done|].
  destruct (map fst _) as [|uid uids]; [done|].
  destruct (set_weights _ _) as [answer|e']; [|destruct (catchable e') eqn:Ec; [done|by injection Hr as <-]].
  destruct (read_answer answer) as [[[[[[? ?] ?] ?] ?] ?]|] eqn:Ea; [done|].
  cbn in Hr. injection Hr as <-. by apply read_answer_error in Ea as ->.
Qed.
End publishing.

(** C18. Publishing on the chain: no two weights go to one uid and the uids are
    in increasing order; the weights submitted are exactly the normalised scores
    of the scored hotkeys the metagraph knows; the dropped hotkeys are exactly
    the scored ones it does not know; no weight is negative or NaN when the
    scores are finite; an update counts as submitted only when the chain was
    called with these very lists and answered; and the only error that can
    escape is that of reading the metagraph. *)
Theorem publish_weights_sound `{ExnText} py_sum metagraph set_weights scores :
  sums_nonneg py_sum -> NoDup (dict_keys scores) ->
  match BittensorAdapter_publish_weights py_sum metagraph set_weights false scores with
  | Ok u =>
      exists hotkeys, metagraph = Ok hotkeys /\
      update_sound hotkeys scores (BittensorAdapter_normalize_scores py_sum scores) u /\
      (Forall (fun e => float_finite e.2 = true) scores -> Forall (fun w => fnn w = true) (wu_weights u)) /\
      (wu_submitted u = true -> exists answer, set_weights (wu_uids u) (wu_weights u) = Ok answer /\ wu_uids u <> [])
  | Err e => metagraph = Err e \/ catchable e = false
  end.
Proof.
  intros Hsum Hn.
  destruct (BittensorAdapter_publish_weights py_sum metagraph set_weights false scores) as [u|e] eqn:E.
  - destruct (publish_cases py_sum metagraph set_weights scores u E) as (hotkeys & -> & Hu & Hw & Hd & Hs).
    pose proof (weight_lists_sound py_sum hotkeys scores u Hn Hu Hw Hd) as Hok. exists hotkeys. split_and!; [done..| |done].
    intros Hf. rewrite Hw. apply Forall_fmap, Forall_forall. intros [uid w] Hin.
    apply weight_pairs_elem in Hin as (h & _ & Hh); [|by apply (normalize_keys py_sum scores EmptyString)].
    by eapply normalize_nonneg.
  - by eapply publish_errors.
Qed.

(** A chain of two hotkeys on which one of three scored miners is unknown. *)
#[local] Existing Instance plain_texts.

Lemma publish_weights_sound_witness :
  exists u, BittensorAdapter_publish_weights plain_sum (Ok ["hk-b"; "hk-a"])
      (fun _ _ => Ok (ATuple [PBool true; PNone])) false
      [("hk-a", fone); ("hk-x", fone); ("hk-b", float_of_Z 2)] = Ok u /\
    wu_uids u = [0%Z; 1%Z] /\ wu_dropped_hotkeys u = ["hk-x"] /\ wu_submitted u = true /\
    StronglySorted Z.lt (wu_uids u) /\ Forall (fun w => fnn w = true) (wu_weights u).
Proof.
  pose proof (publish_weights_sound plain_sum (Ok ["hk-b"; "hk-a"]) (fun _ _ => Ok (ATuple [PBool true; PNone]))
    [("hk-a", fone); ("hk-x", fone); ("hk-b", float_of_Z 2)] plain_sum_nonneg) as H.
  destruct (BittensorAdapter_publish_weights plain_sum _ _ false _) as [u|e] eqn:E; [|vm_compute in E; discriminate E].
  exists u. split; [reflexivity|].
  destruct H as (hotkeys & _ & (Hs & _) & Hf & _); [apply (bool_decide_unpack _); vm_compute; exact I|].
  vm_compute in E. injection E as <-. split_and!; try reflexivity; [exact Hs|].
  apply Hf. repeat constructor.
Defined.
