(* ===== verification/Neuron.v ===== *)
(** * The validator neuron

    [teuton_validator/neuron.py]: one pass verifies receipts, condenses the
    verdicts into scores, hands the weights to the chain and reports on the way. *)

From Stdlib Require Import ZArith Lia Ascii SpecFloat.
From stdpp Require Import base strings list.
From S2P Require Import Prelude PyFloat FloatExact PyVal Json Digest Paths Signatures Codec Protocol ProtocolFacts.
From S2P Require Import Storage StoreReads Telemetry Transport Crypto Ir ComputeUnits Tensors Eval AuditReplay Verifier Subnet.

(** ** The neuron *)

Record ValidatorNeuronConfig := mkNeuron {
  nc_netuid : Z;
  nc_run_id : string;
  nc_validator_hotkey : string;
  nc_validator_secret : string;
  nc_owner_secret : string;
  nc_miner_secret : string;
  nc_device : string;
  nc_sample_rate : float;
  nc_encryption_secret : string;
  nc_timelock_provider : option TimelockProvider;
  nc_dry_run_weights : bool;
  nc_wallet_path : string;
  nc_wallet_name : option string;
  nc_hotkey_name : option string;
  nc_network : option string;
  nc_audit_mode : string;
  nc_audit_eligible_hotkeys : list string
}.

(** The signer of the configured wallet.  [load_signer] is
    [load_wallet_hotkey_signer]. *)
Definition neuron_signer (load_signer : string -> string -> string -> result Signer) (cfg : ValidatorNeuronConfig)
    : result (option Signer) :=
  match given (nc_wallet_name cfg), given (nc_hotkey_name cfg) with
  | Some wallet, Some hotkey =>
      signer ← load_signer (nc_wallet_path cfg) wallet hotkey;
      if negb (String.eqb (nc_validator_hotkey cfg) "") && negb (String.eqb (signer_identity signer) (nc_validator_hotkey cfg))
      then Err (ValueError "validator hotkey file does not match configured validator_hotkey")
      else Ok (Some signer)
  | _, _ => Ok None
  end.

(** The configuration of the verifier. *)
Definition ValidatorNeuron_init (load_signer : string -> string -> string -> result Signer) (cfg : ValidatorNeuronConfig)
    : result ValidatorConfig :=
  signer ← neuron_signer load_signer cfg;
  Ok (mkValidator (nc_netuid cfg) (nc_run_id cfg) (nc_validator_hotkey cfg) (nc_validator_secret cfg) signer (nc_owner_secret cfg)
        (match signer with Some _ => nc_validator_hotkey cfg | None => "" end) (nc_miner_secret cfg) (nc_device cfg)
        (nc_sample_rate cfg) 4096 (nc_encryption_secret cfg) (nc_timelock_provider cfg) (nc_audit_eligible_hotkeys cfg)).

(** [asdict(update)]. *)
Definition WeightUpdate_asdict (u : WeightUpdate) : dict pyval :=
  [("uids", PList (map PInt (wu_uids u))); ("weights", PList (map PFloat (wu_weights u))); ("submitted", PBool (wu_submitted u));
   ("reason", PStr (wu_reason u)); ("message", PStr (wu_message u)); ("extrinsic_hash", wu_extrinsic_hash u);
   ("block_hash", wu_block_hash u); ("dropped_hotkeys", PList (map PStr (wu_dropped_hotkeys u))); ("extra", PDict (wu_extra u))].

Section neuron.
Context {S : Type} `{ObjectStore S} `{TT : Torch} `{!Kernels} `{!Replayers} `{SigLib} `{ExnText}.
Context (default_provider : result TimelockProvider) (log2 : Z -> float).
Context (shuffle : list (string * JobReceiptV3) -> list (string * JobReceiptV3)).
Context (verifier_clock : string -> nat -> float).
(** Readings of the clock in the pass, the chain, and the other processes while
    telemetry is retried. *)
Context (now : nat -> float) (py_sum : list float -> float).
Context (metagraph : result (list string)) (set_weights : list Z -> list float -> result chain_answer).
Context (env : nat -> S -> S).
Context (cfg : ValidatorNeuronConfig) (vcfg : ValidatorConfig).

Definition neuron_telemetry : TelemetryWriter := mkTelemetry (nc_netuid cfg) (nc_run_id cfg) "validator".

Definition window_dicts (windows : dict MinerScoreWindow) : dict pyval :=
  dict_map (fun w => PDict (MinerScoreWindow_to_dict w)) windows.

Definition scores_payload (checked : Z) (windows : dict MinerScoreWindow) : dict pyval :=
  [("validator_hotkey", PStr (nc_validator_hotkey cfg)); ("audit_mode", PStr (nc_audit_mode cfg));
   ("verify_seconds", PFloat (py_round 3 (fsub (now 1) (now 0)))); ("score_seconds", PFloat (py_round 3 (fsub (now 3) (now 2))));
   ("checked", PInt checked); ("score_windows", PDict (window_dicts windows));
   ("n_hotkeys", PInt (Z.of_nat (length windows)))].

Definition chain_payload (update : WeightUpdate) (n_scores : Z) : dict pyval :=
  [("validator_hotkey", PStr (nc_validator_hotkey cfg)); ("wallet_name", pstr_opt (nc_wallet_name cfg));
   ("hotkey_name", pstr_opt (nc_hotkey_name cfg)); ("network", pstr_opt (nc_network cfg));
   ("dry_run", PBool (nc_dry_run_weights cfg)); ("publish_seconds", PFloat (py_round 3 (fsub (now 5) (now 2))));
   ("update", PDict (WeightUpdate_asdict update)); ("n_score_hotkeys", PInt n_scores)].

(** Publishing; an exception becomes an update that says so. *)
Definition neuron_publish (scores : dict float) : result WeightUpdate :=
  match BittensorAdapter_publish_weights py_sum metagraph set_weights (nc_dry_run_weights cfg) scores with
  | Ok u => Ok u
  | Err e => if catchable e then Ok (plain_update [] [] false "publish_exception" (exn_repr e) []) else Err e
  end.

Definition verify_pass (max_receipts : option Z) : ST S Z :=
  if String.eqb (nc_audit_mode cfg) "consume"
  then ReplayVerifier_consume_audit_results log2 shuffle verifier_clock vcfg max_receipts
  else ReplayVerifier_run_once default_provider log2 shuffle verifier_clock vcfg max_receipts.

Definition publish_pass (windows : dict MinerScoreWindow) : ST S (option WeightUpdate) :=
  let scores := dict_map sw_score windows in
  update ← st_lift (neuron_publish scores);
  _ ← skip_errors (TelemetryWriter_chain (bucket_host (now 6) env) neuron_telemetry (chain_payload update (Z.of_nat (length scores))));
  mret (Some update).

Definition ValidatorNeuron_run_once (max_receipts : option Z) (publish_weights : bool) : ST S (dict pyval) :=
  checked ← verify_pass max_receipts;
  windows ← summarize_scores log2 (nc_netuid cfg) (nc_run_id cfg) (Some ("run=" +:+ nc_run_id cfg))
              (nc_validator_secret cfg) (nc_validator_hotkey cfg);
  _ ← skip_errors (TelemetryWriter_scores (bucket_host (now 4) env) neuron_telemetry (scores_payload checked windows));
  update ← (if publish_weights then publish_pass windows else mret None);
  mret [("checked", PInt checked); ("scores", PDict (window_dicts windows));
        ("weight_update", match update with Some u => PDict (WeightUpdate_asdict u) | None => PNone end)].
End neuron.

(** ** What a pass does *)

Section pass.
Context {S : Type} `{ObjectStore S} `{TT : Torch} `{!Kernels} `{!Replayers} `{SigLib} `{ExnText}.
Context (default_provider : result TimelockProvider) (log2 : Z -> float).
Context (shuffle : list (string * JobReceiptV3) -> list (string * JobReceiptV3)).
Context (verifier_clock : string -> nat -> float) (now : nat -> float) (py_sum : list float -> float).
Context (metagraph : result (list string)) (set_weights : list Z -> list float -> result chain_answer).
Context (env : nat -> S -> S) (cfg : ValidatorNeuronConfig) (vcfg : ValidatorConfig).

#[local] Abbreviation verifying := (verify_pass default_provider log2 shuffle verifier_clock cfg vcfg).
#[local] Abbreviation scoring := (summarize_scores log2 (nc_netuid cfg) (nc_run_id cfg) (Some ("run=" +:+ nc_run_id cfg))
  (nc_validator_secret cfg) (nc_validator_hotkey cfg)).
#[local] Abbreviation publishing := (neuron_publish py_sum metagraph set_weights cfg).

Lemma publish_pass_reports windows s s' r :
  publish_pass now py_sum metagraph set_weights env cfg windows s = (s', r) ->
  match r with
  | Ok u => reporting (bucket_host (now 6) env) (neuron_telemetry cfg) s s' /\ exists update, u = Some update /\ publishing (dict_map sw_score windows) = Ok update
  | Err e => catchable e = false
  end.
Proof.
  unfold publish_pass. cbv [mbind st_bind st_lift]. destruct (publishing _) as [u|e] eqn:Eu.
  - destruct (skip_errors _ s) as [s1 r1] eqn:Es. apply (emit_reports _) in Es as [Hr Hc].
    destruct r1 as [b|e]; intros E; injection E as <- <-; [|done]. split; [done|]. by exists u.
  - intros E. injection E as <- <-. revert Eu. unfold neuron_publish.
    destruct (BittensorAdapter_publish_weights _ _ _ _ _) as [u|e']; [done|].
    destruct (catchable e') eqn:Ec; [done|]. by intros [= <-].
Qed.

End pass.
