(* ===== verification/Miner.v ===== *)
(** * The miner's process ([teuton_miner/neuron.py], [teuton_miner/capabilities.py])

    What a worker finds out about its devices, and the neuron that starts one
    worker for a group of devices or one for each device. *)

From Stdlib Require Import ZArith Lia Ascii.
From stdpp Require Import base strings list.
From S2P Require Import Prelude PyFloat PyVal Json Digest Storage Telemetry Worker.

(** ** Capabilities *)

(** What CUDA answers when it is available: the number of devices, name and
    bytes of memory of the devices it knows, and whether NCCL can be used. *)
Record cuda_probe := mkCuda { cu_count : Z; cu_device : Z -> option (string * Z); cu_nccl : bool }.

(** [s.replace(pat, "")] for a [pat] that is not empty; [skip] characters are
    still to be dropped. *)
Fixpoint remove_all (pat : string) (skip : nat) (s : string) : string :=
  match s with
  | EmptyString => EmptyString
  | String c s' =>
      match skip with
      | S k => remove_all pat k s'
      | O => if startswith pat s then remove_all pat (String.length pat - 1) s' else String c (remove_all pat 0 s')
      end
  end.

Definition gpu_name (name : string) : string := strip (remove_all "GeForce " 0 (remove_all "NVIDIA " 0 name)).

Definition probe_nccl_group (cuda : option cuda_probe) (devices : list string) : bool :=
  if (length devices <=? 1)%nat then false else match cuda with Some p => cu_nccl p | None => false end.

(** [int(total_memory / (1024 * 1024))]. *)
Definition vram_mb (total_memory : Z) : result Z := py_int (PFloat (fdiv (float_of_Z total_memory) (float_of_Z (1024 * 1024)))).

(** A device that cannot be asked is left out. *)
Definition gpu_detail (p : cuda_probe) (idx : Z) : option (string * Z) :=
  match cu_device p idx with
  | Some (name, total) => match vram_mb total with Ok mb => Some (gpu_name name, mb) | Err _ => None end
  | None => None
  end.

Definition gpu_details (p : cuda_probe) (indices : list Z) : list (Z * (string * Z)) :=
  omap (M := list) (fun idx => d ← gpu_detail p idx; Some (idx, d)) indices.

Definition detail_row (d : Z * (string * Z)) : pyval := PDict [("index", PInt d.1); ("name", PStr d.2.1); ("vram_mb", PInt d.2.2)].

Definition totals (details : list (Z * (string * Z))) : dict pyval :=
  match map (fun d => d.2.2) details with
  | [] => []
  | mb :: mbs =>
      [("gpus", PList (map detail_row details)); ("total_vram_mb", PInt (fold_left Z.add mbs mb)); ("min_vram_mb", PInt (fold_left Z.min mbs mb))]
  end.

(** The entries about CUDA devices. *)
Definition cuda_entries (cuda : option cuda_probe) (device : string) (gpu_indices : list Z) : result (dict pyval) :=
  match cuda with
  | None => Ok [("gpu_class", PStr "cpu")]
  | Some p =>
      own ← gpu_index device;
      let own := match own with Some i => i | None => 0%Z end in
      let indices := match gpu_indices with [] => [own] | _ => gpu_indices end in
      Ok (totals (gpu_details p indices) ++
          match gpu_detail p own with
          | Some (name, mb) => [("gpu_class", PStr name); ("vram_mb", PInt mb)]
          | None => [("gpu_class", PStr "cuda")]
          end)
  end.

Definition base_entries (cuda : option cuda_probe) (hostname : option string) (worker_id device : string) (group : list string)
    (gpu_indices : list Z) : dict pyval :=
  [("device", PStr device); ("worker_id", PStr worker_id);
   ("gpu_available", PBool (match cuda with Some _ => true | None => false end));
   ("n_gpus", PInt (match cuda with Some p => cu_count p | None => 0%Z end));
   ("device_group", PList (map PStr group)); ("gpu_indices", PList (map PInt gpu_indices));
   ("world_size", PInt (Z.max 1 (Z.of_nat (length group)))); ("placement", PStr "single_host");
   ("multi_gpu", PBool (1 <? length group)%nat); ("nccl_available", PBool (probe_nccl_group cuda group));
   ("hostname", PStr (default "unknown" hostname))].

Section capabilities.
Context {S : Type} `{ObjectStore S}.
(** The clock before and after the probe. *)
Context (t0 t1 : float).

Definition probe_key (run_id worker_id : string) : string := "runs/" +:+ run_id +:+ "/manifest/_rtt_probe_" +:+ worker_id +:+ ".txt".

(** The time a small object takes to be written, found and deleted. *)
Definition bucket_rtt (run_id worker_id : string) : ST S float :=
  st_try
    (s ← st_get;
     let probe := os_uri_for_key s (probe_key run_id worker_id) in
     _ ← os_put probe "x"; _ ← os_exists probe; _ ← os_delete probe;
     mret (py_round 1 (fmul (fsub t1 t0) (float_of_Z 1000))))
    (fun _ => mret (float_of_Z 1000)).

Definition detect_capabilities (cuda : option cuda_probe) (hostname : option string) (run_id worker_id device : string)
    (group : list string) : ST S (dict pyval) :=
  let group := match group with [] => [device] | _ => group end in
  gpu_indices ← st_lift (device_indices group);
  more ← st_lift (cuda_entries cuda device gpu_indices);
  rtt ← bucket_rtt run_id worker_id;
  mret (base_entries cuda hostname worker_id device group gpu_indices ++ more ++ [("rtt_to_bucket_ms", PFloat rtt)]).
End capabilities.

(** ** The neuron *)

(** The poll interval, which only bounds a sleep, is left out. *)
Record MinerNeuronConfig := mkMinerNeuronConfig {
  mn_netuid : Z;
  mn_run_id : string;
  mn_hotkey_ss58 : string;
  mn_devices : list string;
  mn_device_group : list string;
  mn_miner_secret : string;
  mn_fault_mode : string;
  mn_fault_rate : float;
  mn_encryption_secret : string;
  mn_grant_mode : string;
  mn_assignment_secret : string;
  mn_assignment_crypto : string;
  mn_wallet_path : string;
  mn_wallet_name : string;
  mn_hotkey_name : string;
  mn_discovery_backend : string;
  mn_audit_eligible_hotkeys : list string;
  mn_owner_secret : string;
  mn_owner_hotkey : string
}.

(** [WorkerConfig] with the neuron's settings. *)
Definition worker_config (c : MinerNeuronConfig) (worker_id device : string) (group : list string) : WorkerConfig :=
  mkWorkerConfig (mn_netuid c) (mn_run_id c) (mn_hotkey_ss58 c) worker_id device group (mn_miner_secret c) fone
    (mn_fault_mode c) (mn_fault_rate c) (mn_encryption_secret c) (mn_grant_mode c) (mn_assignment_secret c)
    (mn_assignment_crypto c) (mn_wallet_path c) (mn_wallet_name c) (mn_hotkey_name c) (mn_discovery_backend c) None
    (mn_audit_eligible_hotkeys c) (mn_owner_secret c) (mn_owner_hotkey c).

Definition MinerNeuron_init (c : MinerNeuronConfig) : list WorkerConfig :=
  match mn_device_group c with
  | device :: _ => [worker_config c (mn_hotkey_ss58 c +:+ "-group0") device (mn_device_group c)]
  | [] => imap (fun i device => worker_config c (mn_hotkey_ss58 c +:+ "-gpu" +:+ py_str_int (Z.of_nat i)) device []) (mn_devices c)
  end.

Definition MinerNeuron_stop {X} (workers : list (MinerWorker X)) : list (MinerWorker X) := map (fun w => fst (MinerWorker_stop w)) workers.

(** Every device of the miner is driven by exactly one worker, and no two workers
    share the name under which grants and receipts know them. *)
Lemma neuron_workers c : NoDup (map wc_worker_id (MinerNeuron_init c)) /\
  (mn_device_group c = [] -> concat (map device_group (MinerNeuron_init c)) = mn_devices c) /\
  (mn_device_group c <> [] -> map device_group (MinerNeuron_init c) = [mn_device_group c]).
Proof.
  unfold MinerNeuron_init. destruct (mn_device_group c) as [|d g] eqn:Eg; split_and!; try done.
  - assert (forall l, map wc_worker_id l = wc_worker_id <$> l) as -> by done. rewrite fmap_imap. apply NoDup_alt. intros i j id Hi Hj.
    apply list_lookup_imap_Some in Hi as (d & _ & ->). apply list_lookup_imap_Some in Hj as (d' & _ & E). cbn in E.
    apply (inj (String.append _)) in E. apply (inj (String.append _)) in E. apply py_str_int_inj in E. lia.
  - intros _. assert (forall ds (name : nat -> string),
      concat (map device_group (imap (fun i device => worker_config c (name i) device []) ds)) = ds) as Hall.
    { induction ds as [|d ds IH]; intros name; [done|]. cbn. f_equal. apply (IH (fun i => name (S i))). }
    apply (Hall (mn_devices c) (fun i => mn_hotkey_ss58 c +:+ "-gpu" +:+ py_str_int (Z.of_nat i))).
  - cbn. apply NoDup_singleton.
Qed.

(** Nothing the probes meet keeps a worker from starting, once its devices'
    names are read. *)
Lemma capabilities_total {S} `{ObjectStore S} t0 t1 cuda hostname run_id worker_id device group gpu_indices own (s : S) :
  device_indices (match group with [] => [device] | _ => group end) = Ok gpu_indices -> gpu_index device = Ok own ->
  (exists s' caps, detect_capabilities t0 t1 cuda hostname run_id worker_id device group s = (s', Ok caps)) \/
  exists s' e, bucket_rtt t0 t1 run_id worker_id s = (s', Err e) /\ catchable e = false.
Proof.
  intros Hi Ho. unfold detect_capabilities. rewrite Hi. cbv [mbind st_bind st_lift].
  assert (exists more, cuda_entries cuda device gpu_indices = Ok more) as [more ->]
    by (unfold cuda_entries; rewrite Ho; destruct cuda; eexists; reflexivity).
  destruct (bucket_rtt t0 t1 run_id worker_id s) as [s' [rtt|e]] eqn:E; [left; by repeat eexists|right]. exists s', e. split; [done|].
  unfold bucket_rtt, st_try in E. match type of E with (let '(_, _) := ?p in _) = _ => destruct p as [s1 [x|e1]] end; [done|]. destruct (catchable e1) eqn:Ec; [done|]. by injection E as _ ->.
Qed.
